(* ===== verification/_CoqProject ===== *)
-Q . S2P
Prelude.v
Ordered.v
Text.v
Foundation.v
RuntimeDomain.v
RuntimeProjection.v
ProviderLifecycle.v
ProviderCreateDispatch.v
TunnelModel.v
TunnelState.v
TunnelRouting.v
TunnelInvariant.v
TunnelSelection.v
TunnelWire.v
Tunnel.v
TunnelClient.v
TunnelClientTheorems.v
NetText.v
FileTree.v
Shell.v
Commands.v
Devices.v
Snapshot.v
SnapshotTheorems.v
SqliteStore.v
SqliteTheorems.v
SqliteRoundtrip.v
SqliteFile.v
CommandState.v
CommandInvariant.v
ControlPlane.v
ControlPlaneInvariant.v
ControlPlaneTheorems.v
ControlPlaneHttp.v
HttpTheorems.v
SqliteBackend.v
SqliteBackendTheorems.v
LegacyImport.v
LegacyImportTheorems.v
StateTools.v
StateToolsTheorems.v
ConfigJson.v
HostDaemon.v
HostTheorems.v
TunnelManager.v
HostControl.v
HostConfig.v
TunnelServer.v
HostApi.v
PhoneSystem.v
SupervisorConfig.v
Supervisor.v
SupervisorTheorems.v
PhoneDemo.v
HostDemo.v
BindingLedger.v
BindingLedgerTheorems.v
VultrAdapter.v
RelayGate.v
ServerRotate.v
SessionLifecycle.v
SessionTheorems.v
VultrClient.v
Artifact.v
ReleaseIntegrity.v
RuntimeArtifacts.v
Workstation.v
VmPlan.v
VmTheorems.v
DeviceSupport.v
DevicePackage.v
DeviceRelease.v
DeviceTheorems.v
OperatorCommands.v
OperatorPhone.v
AndroidApp.v
AcceptanceRun.v
AcceptanceRunTheorems.v
SessionTool.v
OperatorDemo.v
