(* ===== verification/Prelude.v ===== *)
(** * Mobile Proxy: a verification development

    Mobile Proxy lets public clients use the cellular connection of a phone.
    The phone keeps a reverse tunnel to a relay; the relay accepts HTTP and
    SOCKS5 clients and forwards each one into the tunnel.  On the phone a
    supervisor keeps a proxy and a host daemon running and repairs the cellular
    route; the host daemon probes the phone, rotates its address and talks to
    the control plane.  The control plane stores the devices and the commands
    for them in SQLite and serves them over HTTP.  An operator's tools create
    and delete the virtual machines of a provider behind an append-only ledger.
    The Rust sources are under [crates/], [services/] and [apps/].

    ** Files

    Shared:
    - [Prelude]: results, options, machine integers, tactics, the hint database
      [mobile_proxy] and the generic lemmas.
    - [Ordered]: maps iterated in the order of their keys, loops over rows.
    - [Text], [NetText]: Rust strings as UTF-8 bytes with their characters and
      prefixes; lines, words, decimal numbers and socket addresses.
    - [FileTree]: paths, a file system keyed by path and the error monad
      [Fallible] over a state, with its notation [let!].
    - [Shell]: quoting for shells, systemd and PowerShell, command lines, and a
      reader of shell words that specifies the quoting.

    Values ([crates/foundation/src/lib.rs]):
    - [Foundation]: identifiers, idempotency keys, deadlines, digests.  UUID
      text and BLAKE3 are the classes [UuidText] and [Blake3] with their laws;
      [Module Concrete] has an instance of each.

    Phone runtime ([crates/runtime-domain], [crates/proxy-core/src/runtime.rs],
    [services/runtime-supervisor/src/runtime_adapter.rs]):
    - [RuntimeDomain]: the lifecycle reducer [reduce].
    - [RuntimeProjection]: the public readiness projection [project_runtime].

    Provider ([crates/proxy-core/src/provider_*.rs]):
    - [ProviderLifecycle]: ownership, [plan_present], [authorize_mutation].
    - [ProviderCreateDispatch]: create fences and their recovery.

    Reverse tunnel ([crates/reverse-tunnel/src]):
    - [TunnelModel] (model.rs): frames, configuration, event counters.  The
      abstract ledger of [Module CounterLog] specifies the counters.
    - [TunnelState] (state.rs): the server's shared state, a record of the maps
      behind its mutexes, with one definition per critical section and per
      operation composed of them.  [World] adds what peers did: connections,
      channels and requesters that were closed, requesters that were answered.
    - [TunnelRouting]: which targets are [routable], the scan of the sessions.
    - [TunnelInvariant]: the transition system [step] of all critical sections
      in any order, its invariant [inv], and the fencing of old authorities.
    - [TunnelSelection]: selection, heartbeats, data streams, the reserve.
    - [TunnelWire] (tunnel.rs): lines, frames, SOCKS5.  JSON is the class
      [FrameCodec].
    - [Tunnel] (tunnel.rs): connection handlers, forwarding, the client loop.
    - [TunnelClient] (tunnel.rs): the phone's session loops, data streams and
      reserved streams in detail; [TunnelClientTheorems]: a detailed session is
      an outcome of the loop of [Tunnel].
    - [TunnelServer] ([services/reverse-tunnel-server/src], tunnel.rs): the
      server's configuration, its listeners and tasks, the accept loops that
      start the handlers, and the keepalives of the reserve.

    Control plane ([services/control-plane/src], [crates/application/src]):
    - [Commands]: requests, outcomes, fingerprints, idempotency scopes.
    - [Devices]: device records and the operations that build them.
    - [CommandState]: queues and idempotency state, normalisation, eviction.
    - [CommandInvariant]: well-formed command state is a fixed point of
      normalisation and is preserved by eviction.
    - [ControlPlane]: the transactions over a database of class
      [SnapshotStore].
    - [ControlPlaneInvariant]: every transaction preserves [state_ok].
    - [ControlPlaneTheorems]: atomicity, agreement of memory and database,
      outcomes, idempotency, queue order; [Module MemoryStore] is a store with
      the laws.
    - [ControlPlaneHttp] (auth.rs, request_context.rs, routes.rs, health.rs):
      the routes, their credentials and contexts, and every handler over the
      transactions; [HttpTheorems]: what requests can do.

    Storage ([crates/control-plane-sqlite/src], state_sqlite_backend.rs):
    - [Snapshot], [SnapshotTheorems]: the row form of the state and its
      validation.
    - [SqliteStore]: the four tables with the constraints of the schema, the
      statements of a swap in their order, and loading; [SqliteTheorems],
      [SqliteRoundtrip]: swaps and round trips.
    - [SqliteFile]: opening, migrating, checking and
      replacing the file.
    - [SqliteBackend]: state to snapshot and back, an instance of
      [SnapshotStore]; [SqliteBackendTheorems]: the control plane on SQLite,
      with restarts, the start of its process (main.rs) and its readiness
      (health.rs).
    - [LegacyImport], [LegacyImportTheorems]: the import of the JSON state of
      earlier releases.
    - [StateTools] (bin/control-plane-state-migrate.rs,
      bin/control-plane-state-backup.rs): import, export, rollback, backup,
      restore and verification over a file system with failures, a database
      being read together with the write-ahead log beside it;
      [StateToolsTheorems].

    Relay gate ([services/relay-gate/src]):
    - [RelayGate]: a round against the modelled HTTP surface.

    Phone host daemon ([services/host-daemon/src]):
    - [ConfigJson] (fingerprints.rs): canonical form and fingerprint of a
      configuration.
    - [HostDaemon]: the shared state, rotations, probes, commands, tunnel
      status and counters; [HostTheorems]: its tasks as a transition system.
    - [HostControl] (control_plane.rs): a polling round against the modelled
      control plane, and the loop of rounds.
    - [TunnelManager] (reverse_tunnel.rs): the statuses a tunnel client
      publishes, and the manager that runs one generation of the client after
      the other, as a machine [tunnel_step] of its critical steps: client,
      forwarders of all generations, manager, disk and the rest of the daemon.
    - [HostConfig]: reading and checking the configuration.  [HostApi] (api.rs,
      health.rs, main.rs): the local API, the probing loop and the start of the
      daemon.  [HostDemo]: concrete runs.

    Phone runtime supervisor ([services/runtime-supervisor/src]):
    - [PhoneSystem] (android.rs, dns.rs): what is read from and run on the
      phone, and the edits of the proxy's configuration.
    - [SupervisorConfig] (config.rs, cli.rs): configuration.
    - [Supervisor] (health.rs, process.rs, main.rs): processes, repairs and the
      main loop; [SupervisorTheorems]: runs of the loop.  [PhoneDemo]: concrete
      runs.

    Operator ([apps/operator-cli/src]):
    - [BindingLedger] (github_vm_binding_store.rs): the ledger of deployment
      records, its replay and the optimistic append; [BindingLedgerTheorems]:
      operators that race on it.
    - [VultrAdapter] (vultr_lifecycle.rs): ownership tags, requests, decoding.
    - [VultrClient] (vultr_client.rs): bounded requests, the paged listing, the
      public endpoint; an instance of the session's provider.
    - [SessionLifecycle] (item20_acceptance.rs, item20_session_lifecycle.rs):
      opening and closing an acceptance session over a ledger and a provider;
      [SessionTheorems]: its requests are fenced.  [OperatorDemo]: concrete
      runs.
    - [Artifact] (bin/item19-acceptance-lifecycle.rs): the
      server artifact, its manifest and the evidence that admits a run.
    - [AcceptanceRun], [AcceptanceRunTheorems] (the same file): binding,
      deployment and cleanup of a run, over the ledger and the client.
    - [SessionTool] (bin/item20-session-lifecycle.rs):
      the workflow's entry point to the sessions.
    - [ServerRotate] (server_rotate.rs): a rotation
      through the modelled control plane, with lost answers and retries.
    - [OperatorCommands] (commands.rs, http.rs, secrets.rs):
      status, rotation and the airplane study over the phone's interface, and
      the identity of the tunnel.
    - [OperatorPhone] (http.rs, main.rs; proxy-core's constants.rs and
      endpoints.rs): that interface over the modelled API of the host daemon,
      and the dispatch of the commands.
    - [ReleaseIntegrity] (release_integrity.rs and the three digest binaries):
      manifests of a release tree.
    - [RuntimeArtifacts] (artifacts.rs): building,
      downloading, checking and installing the binaries of phone and relay.
    - [Workstation]: the class [Station] of what the commands below use of the
      machine they run on, and their error monad [Ops].
    - [VmPlan], [VmTheorems] (vm.rs): secrets, rendered configurations and
      scripts, the release, the firewall and the machine of the relay.
    - [DeviceSupport] (device_support.rs), [DevicePackage] (provision.rs),
      [DeviceRelease] (device.rs, device_stack.rs), [DeviceTheorems]: packaging,
      installing, verifying and rolling back the release of a phone.
    - [AndroidApp] (android_app.rs): copying the project to
      the Windows side, the Gradle launcher, the wait for the APK and [adb].

    ** What the theorems show

    - Tunnel server, for every interleaving of its critical sections: limits
      and identities are invariant; a replaced authority never carries traffic
      again; a client is given a device exactly when that device is routable and
      unambiguous, and reaches only that authority whatever happens before its
      connection is looked up; a requester receives exactly the stream opened
      for it.
    - Connection handlers: unauthenticated peers change nothing; a TCP session
      releases its authority however it ends.
    - Wire: frames survive any split of the byte stream; the SOCKS5 handshake
      accepts exactly the replies of the protocol.
    - Client: back-off doubles up to its ceiling; counters count the events of
      the attempts that were made; a session writes its hello and consecutive
      heartbeats; a reserved stream joins the bytes of the public client to the
      local proxy and loses none before that; a request is answered with the frame the relay accepts; both directions of a data
      stream are copied exactly.  Over all generations of the client no counter
      falls below those the process started from, none goes back while the disk
      writes and forwarders keep up, and a restart that was asked for happens.
    - Accept loops: every connection gets its own handler until the shutdown,
      which drains what waits for a stream.
    - Control plane: transactions are atomic, the database follows the memory,
      issuing is idempotent, queues are first in first out, all counts stay
      within their limits.  The one thing requests can spoil is the legacy
      index: a request whose legacy key is a stored scope makes every later
      issue fail, and the theorems say what holds before and after it.
    - Storage: rows are accepted exactly when they are those of a well-formed
      snapshot; a swap passes every constraint and replaces exactly the expected
      rows; what is stored is what is loaded; SQLite never refuses a
      transaction of the control plane, and a restart finds its state; a store
      that is ready is one the process starts on; imports are idempotent and
      overwrite nothing.
    - HTTP: every request is at most one transaction, under the credential of
      its group, and a credential opens no other group.
    - Host daemon: one rotation at a time, which ends and reports success
      exactly when it was one; commands are delivered at least once; an
      accepted configuration keeps the daemon closed; the local API answers
      nobody without its token; probes, counters and fingerprints are exact;
      the daemon starts its tasks in order and fails closed.
    - Supervisor: repairs keep their distance, no process is left behind, both
      processes run after a turn unless a failed public probe stops them, a new
      proxy gets a new tunnel session, edits of the proxy's configuration
      settle, and the two programs agree on the owner of the tunnel.
    - Operator: each step of a machine's life is granted to one operator at
      most; an acknowledged ledger update took effect alone; listings are whole
      or refused; ownership survives the provider's tags; sessions create and
      delete only behind the ledger's fence, the machine it binds and on a list
      the provider gave them; the acceptance run drives the
      ledger as a session does, touches nothing before it is admitted and
      reaches only the machine the ledger binds; a prepared artifact verifies;
      the session tool acts only for the protected main branch, and a machine
      it opens accepts one key.
    - Relay gate: a round opens a device to the public exactly when the device
      and the public listener are ready, and the control plane then says so.
    - Operator's rotation: one invocation never has two commands pending, creates
      one at most while the control plane retains its record, ends
      within its bounds and reports only what the control plane has; the study
      recommends the shortest time that always worked.  A rotation through the
      phone's own API is a rotation of that phone, and without its token an
      operator changes nothing.
    - Maintenance: a restored backup is the state that was backed up if no old log
      lies beside it, a failed backup changes nothing but may write the log of
      its source back, going back to JSON and forward again loses
      nothing, published files are whole.
    - Releases: manifests verify what they were written for and nothing else;
      installed binaries are the pinned ones or the old ones; the relay's
      rendered environment starts its services, public ports reach the tunnel
      and firewall rules converge; a packaged phone release fits the phone and
      its installed files are the packaged ones; an accepted APK was made by the
      build that was just run; quoted texts are read back as written.
    - Provider: plans and mutations exist exactly for a sole verified owner;
      a recovered create is stable under reconciliation.
    - Values, runtime: exact outcomes of parsing, overflow of deadlines,
      histories of lifecycle states, the readiness projection.
    - Some theorems state behaviour the code does not intend: the shared key
      space of the legacy idempotency index, a reader that is not safe to
      cancel, a flag set after its authority is gone, a QUIC handler that keeps
      its authority, names that are compared by their beginning only, an old
      tunnel session that passes for a new one, a retention order that a restart
      forgets, heartbeats that a busy control channel puts off, a file that
      hides behind a backslash, an export that may remove its source, a log that
      is read into a restored database, a rotation
      token that the control plane refuses, a retried rotation that waits for an
      address it already has, a deletion that trusts a failed query, a release
      written outside its directory, a forwarder that puts back an old status,
      counters that a restart takes back after a failed write.

    ** Conventions, bounds and fuel

    Integers are [Z] with the width written out where the code depends on it;
    durations and instants are nanoseconds.  The clock, fresh UUIDs and the
    outcome of socket, process and file operations are arguments.  An operation
    that reads the clock several times in a row is given one instant for these
    reads, unless time passes between them.  [HashMap]s are [gmap]s; where the
    code iterates one, the theorems quantify over the order or do not depend on
    it.  [BTreeMap]s are iterated in the order of their keys.
    [activate_reserved] has fuel one more than the streams in reserve, each
    turn takes one; [trim_loop] has the length of the order as fuel, each turn
    removes an entry; [open_tcp_reserved_stream] has one more than the bytes
    that have arrived, each frame consumes one, and its outcome says when it
    waits for more; [wait_for_job] has 302 turns for
    300 seconds of waits of at least one; [await_apk] has 722 turns for three
    minutes of quarter seconds; the rotation's wait has a turn per second of its
    timeout; all are proved enough.  [find_file_named] has the greatest depth of
    a path as fuel.  [read_frames] is a bounded driver used to state the round
    trip.  The loops with a bound in the source
    (pages of a listing, attempts of a recovery, rounds of an observer, waits
    for the tunnel) recurse on that bound.  Other loops recurse on their data or
    on the events they observe.

    ** Not modelled

    What remains of the Rust sources has no behaviour of its own or is outside
    of them: the configuration of TLS, QUIC and HTTP clients, which is passed to
    libraries; wrappers that forward a call to the modelled type, conversions of
    errors and [Error::source]; the derives of serde and clap and the attributes
    of the command line; unit tests and their helpers.  Sockets, processes and
    files answer through arguments and classes; the URL, certificate, JSON and
    base64 parsers are classes with the laws that are used; programs such as
    [gcloud], [adb], [curl] and [tar] do what their documentation says and no
    more.  The text of plain reports and logs and the Windows variants of the
    operator's commands are left out.  The Android application and the
    deployment scripts are not Rust. *)

From stdpp Require Import base gmap strings list fin_maps.
From Stdlib Require Import ZArith Lia.

Declare Scope rust_scope.
Delimit Scope rust_scope with rust.
Local Open Scope Z_scope.

(** ** Fallible code *)

(** Rust's [Result<T, E>]. *)
Inductive result (T E : Type) : Type :=
| Ok (t : T)
| Err (e : E).
Arguments Ok {T E} _.
Arguments Err {T E} _.

(** The [?] operator: continue with the value, or return the error. *)
Definition result_bind {A B E} (r : result A E) (k : A -> result B E) : result B E :=
  match r with
  | Ok a => k a
  | Err e => Err e
  end.

(** [Result::map]. *)
Definition result_map {A B E} (f : A -> B) (r : result A E) : result B E :=
  match r with
  | Ok a => Ok (f a)
  | Err e => Err e
  end.

(** [Result::map_err]. *)
Definition map_err {A E F} (f : E -> F) (r : result A E) : result A F :=
  match r with
  | Ok a => Ok a
  | Err e => Err (f e)
  end.

(** [Option::ok_or]. *)
Definition ok_or {A E} (o : option A) (e : E) : result A E :=
  match o with
  | Some a => Ok a
  | None => Err e
  end.

(** [Iterator::collect] into a [Result]. *)
Fixpoint try_collect {A E} (l : list (result A E)) : result (list A) E :=
  match l with
  | [] => Ok []
  | r :: rest => result_bind r (fun a => result_bind (try_collect rest) (fun rest => Ok (a :: rest)))
  end.

(** [Result::ok]. *)
Definition result_ok {A E} (r : result A E) : option A :=
  match r with
  | Ok a => Some a
  | Err _ => None
  end.

(** [Result::is_ok]. *)
Definition is_ok {A E} (r : result A E) : bool :=
  match r with
  | Ok _ => true
  | Err _ => false
  end.

(** [Option::is_some]. *)
Definition is_some {A} (o : option A) : bool :=
  match o with
  | Some _ => true
  | None => false
  end.

(** [Option::is_some_and]. *)
Definition is_some_and {A} (o : option A) (p : A -> bool) : bool :=
  match o with
  | Some a => p a
  | None => false
  end.

(** [Option::is_none_or]. *)
Definition is_none_or {A} (o : option A) (p : A -> bool) : bool :=
  match o with
  | Some a => p a
  | None => true
  end.

(** [Option::filter] (and [opt.filter(..)] on a map lookup). *)
Definition option_filter {A} (p : A -> bool) (o : option A) : option A :=
  match o with
  | Some a => if p a then Some a else None
  | None => None
  end.

Notation "'let?' x := r 'in' k" := (result_bind r (fun x => k))
  (at level 10, x binder, r at level 100, k at level 200, only parsing) : rust_scope.

(** ** Machine integers *)

Definition u16_max : Z := 65535.
Definition u32_max : Z := 4294967295.
Definition u64_max : Z := 18446744073709551615.

Definition is_u32 (x : Z) : Prop := 0 <= x <= u32_max.
Definition is_u64 (x : Z) : Prop := 0 <= x <= u64_max.

(** [u64::checked_add]. *)
Definition checked_add_u64 (x y : Z) : option Z :=
  if x + y <=? u64_max then Some (x + y) else None.

(** [u64::saturating_add]. *)
Definition saturating_add_u64 (x y : Z) : Z := Z.min (x + y) u64_max.

(** [u64::saturating_sub]. *)
Definition saturating_sub_u64 (x y : Z) : Z := Z.max (x - y) 0.

Lemma saturating_add_range (x y : Z) :
  0 <= x -> 0 <= y -> is_u64 (saturating_add_u64 x y).
Proof. unfold is_u64, saturating_add_u64, u64_max. lia. Qed.

Lemma saturating_sub_range (x y : Z) :
  is_u64 x -> 0 <= y -> is_u64 (saturating_sub_u64 x y).
Proof. unfold is_u64, saturating_sub_u64, u64_max. lia. Qed.

(** ** Automation *)

Create HintDb mobile_proxy.
#[export] Hint Resolve saturating_add_range saturating_sub_range : mobile_proxy.

(** [inv_result] splits every [result] computation of a hypothesis that is
    known to have produced a constructor. *)
Ltac inv_result :=
  repeat match goal with
  | H : Ok _ = Ok _ |- _ => injection H as H
  | H : Err _ = Err _ |- _ => injection H as H
  | H : Ok _ = Err _ |- _ => discriminate H
  | H : Err _ = Ok _ |- _ => discriminate H
  | H : Some _ = Some _ |- _ => injection H as H
  | H : Some _ = None |- _ => discriminate H
  | H : None = Some _ |- _ => discriminate H
  end.

(** [case_if] splits the first conditional of the goal or of a hypothesis,
    keeping the test as an equation. *)
Ltac case_if :=
  match goal with
  | |- context [if ?b then _ else _] => destruct b eqn:?
  | H : context [if ?b then _ else _] |- _ => destruct b eqn:?
  end.

Ltac case_if_in H :=
  match type of H with
  | context [if ?b then _ else _] => destruct b eqn:?
  end.

(** [bools] turns boolean tests of the context into propositions. *)
Ltac bools :=
  repeat match goal with
  | H : (_ && _)%bool = true |- _ => apply andb_true_iff in H as [? ?]
  | H : (_ || _)%bool = false |- _ => apply orb_false_iff in H as [? ?]
  | H : negb _ = true |- _ => apply negb_true_iff in H
  | H : negb _ = false |- _ => apply negb_false_iff in H
  | H : bool_decide _ = true |- _ => apply bool_decide_eq_true_1 in H
  | H : bool_decide _ = false |- _ => apply bool_decide_eq_false_1 in H
  | H : (_ <=? _) = true |- _ => apply Z.leb_le in H
  | H : (_ <=? _) = false |- _ => apply Z.leb_gt in H
  | H : (_ <? _) = true |- _ => apply Z.ltb_lt in H
  | H : (_ <? _) = false |- _ => apply Z.ltb_ge in H
  | H : (_ =? _) = true |- _ => apply Z.eqb_eq in H
  | H : (_ =? _) = false |- _ => apply Z.eqb_neq in H
  end.

(** ** Shared lemmas on results and options *)

Lemma result_bind_Ok {A B E} (r : result A E) (k : A -> result B E) (b : B) :
  result_bind r k = Ok b <-> exists a, r = Ok a /\ k a = Ok b.
Proof.
  destruct r as [a|e]; simpl.
  - split; [eauto | intros (a' & H & Hk); by inv_result; subst].
  - split; [done | intros (a' & H & _); done].
Qed.

Lemma map_err_Ok {A E F} (f : E -> F) (r : result A E) (a : A) :
  map_err f r = Ok a <-> r = Ok a.
Proof. destruct r; simpl; split; congruence. Qed.

Lemma ok_or_Ok {A E} (o : option A) (e : E) (a : A) :
  ok_or o e = Ok a <-> o = Some a.
Proof. destruct o; simpl; split; congruence. Qed.

Lemma try_collect_Ok {A E} (l : list (result A E)) (l' : list A) :
  try_collect l = Ok l' <-> Forall2 (fun r a => r = Ok a) l l'.
Proof.
  revert l'. induction l as [|r l IH]; intros l'; cbn [try_collect].
  - split; [intros [= <-]; constructor|by inversion 1].
  - rewrite result_bind_Ok. setoid_rewrite result_bind_Ok. split.
    + intros (a & -> & rest & ?%IH & [= <-]). by constructor.
    + inversion 1; subst. eexists. split; [done|]. eexists. by rewrite IH.
Qed.

Lemma is_some_and_true {A} (o : option A) (p : A -> bool) :
  is_some_and o p = true <-> exists a, o = Some a /\ p a = true.
Proof.
  destruct o; simpl; split; [eauto| | |]; try done.
  - intros (a' & [= <-] & H); done.
  - intros (a' & H & _); done.
Qed.

Lemma is_some_true {A} (o : option A) : is_some o = true <-> is_Some o.
Proof. by destruct o; split. Qed.

Lemma option_filter_Some {A} (p : A -> bool) (o : option A) (a : A) :
  option_filter p o = Some a <-> o = Some a /\ p a = true.
Proof.
  destruct o as [b|]; simpl; [|by split; [|intros [? _]]].
  destruct (p b) eqn:Hp; split; try done.
  - by intros [= <-].
  - by intros [? _].
  - intros [[= <-] ?]; congruence.
Qed.

(** ** Shared lemmas on lists *)

Lemma list_find_In {A} (p : A -> bool) (l : list A) (x : A) :
  List.find p l = Some x -> In x l /\ p x = true.
Proof. intros H. apply find_some in H. exact H. Qed.

(** An element that satisfies [p] and is the only one to do so is all that
    [filter p] keeps, in a list without repetition. *)
Lemma filter_singleton {A} (p : A -> bool) (l : list A) (x : A) :
  List.NoDup l -> In x l -> p x = true ->
  (forall y, In y l -> p y = true -> y = x) ->
  List.filter p l = [x].
Proof.
  induction l as [|y l IH]; intros Hnd Hin Hp Huniq; [done|].
  inversion Hnd as [|? ? Hni Hnd']; subst. simpl.
  destruct (p y) eqn:Hy.
  - assert (y = x) as -> by (apply Huniq; [left|]; done).
    f_equal. destruct (List.filter p l) as [|z m] eqn:Hf; [done|].
    assert (In z (List.filter p l)) as Hz by (rewrite Hf; left; done).
    apply filter_In in Hz as [Hz Hpz].
    assert (z = x) as -> by (apply Huniq; [right|]; done). done.
  - destruct Hin as [->|Hin]; [congruence|].
    apply IH; try done. intros z Hz; apply Huniq; right; done.
Qed.

Lemma filter_nil_iff {A} (p : A -> bool) (l : list A) :
  List.filter p l = [] <-> forall x, In x l -> p x = false.
Proof.
  induction l as [|y l IH]; simpl; [by split|].
  destruct (p y) eqn:Hy; split.
  - done.
  - intros H. specialize (H y (or_introl eq_refl)). congruence.
  - intros H x [<-|Hx]; [done|]. by apply IH.
  - intros H. apply IH. auto.
Qed.

Lemma forallb_false_exists {A} (p : A -> bool) (l : list A) :
  forallb p l = false <-> exists x, In x l /\ p x = false.
Proof.
  induction l as [|y l IH]; simpl; [by split; [|intros (? & [] & _)]|].
  destruct (p y) eqn:Hy; simpl; [rewrite IH|]; split.
  - intros (x & Hx & Hp). eauto.
  - intros (x & [<-|Hx] & Hp); [congruence|eauto].
  - eauto.
  - done.
Qed.
