(* ===== verification/Ordered.v ===== *)
(** * Ordered maps and loops over rows

    A [BTreeMap] is a finite map that is iterated in the order of its keys; the
    SQLite layer of the control plane is written with them.  [entries] is that
    iteration.  [fold_rows] is a [for] loop whose body may return early with an
    error. *)

From stdpp Require Import base gmap strings list fin_maps sorting.
From Stdlib Require Import ZArith Lia.
From S2P Require Import Prelude.

(** ** Iteration in key order *)

Definition key_le {K A} (R : relation K) (x y : K * A) : Prop := R x.1 y.1.

#[export] Instance key_le_dec {K A} (R : relation K) `{!RelDecision R} :
  RelDecision (key_le (A := A) R).
Proof. intros x y. unfold key_le. apply _. Defined.

#[export] Instance key_le_trans {K A} (R : relation K) `{!Transitive R} :
  Transitive (key_le (A := A) R).
Proof. intros x y z. unfold key_le. apply transitivity. Qed.

#[export] Instance key_le_total {K A} (R : relation K) `{!Total R} :
  Total (key_le (A := A) R).
Proof. intros x y. unfold key_le. apply (total R). Qed.

Section Entries.
Context {K : Type} `{Countable K} (R : relation K) `{!RelDecision R, !PartialOrder R, !Total R}.

Definition entries {A} (m : gmap K A) : list (K * A) :=
  merge_sort (key_le R) (map_to_list m).

Lemma entries_Permutation {A} (m : gmap K A) : entries m ≡ₚ map_to_list m.
Proof. apply merge_sort_Permutation. Qed.

Lemma elem_of_entries {A} (m : gmap K A) k x : (k, x) ∈ entries m <-> m !! k = Some x.
Proof. by rewrite entries_Permutation, elem_of_map_to_list. Qed.

Lemma entries_keys_NoDup {A} (m : gmap K A) : NoDup (entries m).*1.
Proof. rewrite entries_Permutation. apply NoDup_fst_map_to_list. Qed.

Lemma list_to_map_entries {A} (m : gmap K A) : list_to_map (entries m) = m.
Proof.
  rewrite (list_to_map_proper _ _ (entries_keys_NoDup m) (entries_Permutation m)).
  apply list_to_map_to_list.
Qed.

Lemma length_entries {A} (m : gmap K A) : List.length (entries m) = size m.
Proof. by rewrite (Permutation_length (entries_Permutation m)), length_map_to_list. Qed.

(** Any sorted list of the entries is the iteration. *)
Lemma entries_unique {A} (m : gmap K A) (l : list (K * A)) :
  StronglySorted (key_le R) l -> NoDup l.*1 -> list_to_map l = m -> entries m = l.
Proof.
  intros Hl Hnd <-.
  assert (entries (list_to_map (M := gmap K A) l) ≡ₚ l) as Hp.
  { rewrite entries_Permutation. by apply map_to_list_to_map. }
  apply (StronglySorted_unique_strong (key_le R)); [|apply StronglySorted_merge_sort; apply _|done|done].
  intros [k1 x1] [k2 x2] H1 H2 H12 H21. unfold key_le in *. simpl in *.
  assert (k1 = k2) as -> by (by apply (anti_symm R)). f_equal.
  rewrite Hp in H1. apply (elem_of_list_to_map (M := gmap K)) in H1, H2; [congruence|done|done].
Qed.

Lemma entries_fmap {A B} (f : A -> B) (m : gmap K A) :
  entries (f <$> m) = prod_map id f <$> entries m.
Proof.
  apply entries_unique.
  - assert (StronglySorted (key_le R) (entries m)) as Hs
      by (apply StronglySorted_merge_sort; apply _).
    induction Hs as [|x l _ IH Hx]; simpl; constructor; [done|].
    apply Forall_fmap. eapply Forall_impl; [exact Hx|]. by intros [k y].
  - rewrite <- list_fmap_compose. apply (entries_keys_NoDup m).
  - rewrite list_to_map_fmap. by rewrite list_to_map_entries.
Qed.

Lemma entries_empty {A} : entries (∅ : gmap K A) = [].
Proof. apply entries_unique; [constructor|constructor|done]. Qed.
End Entries.

(** Iteration of maps keyed by text and by unsigned integers. *)
Abbreviation string_entries := (entries String.le).
Abbreviation int_entries := (entries Z.le).

(** The positions of a queue are iterated in the order of the queue. *)
Lemma int_entries_queue {A} (q : list A) :
  int_entries (map_seqZ 0 q) = imap (fun i x => (Z.of_nat i, x)) q.
Proof.
  assert (forall n, StronglySorted (key_le Z.le)
            (imap (fun i x => (Z.of_nat (n + i), x)) q)) as Hs.
  { induction q as [|x q IH]; intros n; simpl; [constructor|]. constructor.
    - eapply eq_rect; [apply (IH (S n))|]. apply imap_ext. intros i y _. simpl.
      by rewrite Nat.add_succ_r.
    - apply Forall_forall. intros [k y] Hin. apply elem_of_lookup_imap in Hin as (i & z & Hz & _).
      injection Hz as -> _. unfold key_le. simpl. lia. }
  apply entries_unique; [apply _|apply _|..].
  - apply (Hs 0%nat).
  - clear Hs. apply NoDup_alt. intros i j k. rewrite !list_lookup_fmap, !list_lookup_imap.
    destruct (q !! i), (q !! j); simpl; try done. intros [= <-] [= Hk]. lia.
  - apply map_eq. intros k. apply option_eq. intros x.
    rewrite <- elem_of_list_to_map.
    + rewrite elem_of_lookup_imap, lookup_map_seqZ_Some. split.
      * intros (i & y & [= -> ->] & Hi). split; [lia|].
        by replace (Z.to_nat (Z.of_nat i - 0)) with i by lia.
      * intros [Hk Hx]. exists (Z.to_nat (k - 0)), x. split; [f_equal; lia|done].
    + apply NoDup_alt. intros i j k'. rewrite !list_lookup_fmap, !list_lookup_imap.
      destruct (q !! i), (q !! j); simpl; try done. intros [= <-] [= Hk]. lia.
Qed.

(** ** Loops with early return *)

Fixpoint fold_rows {A B E} (f : B -> A -> result B E) (acc : B) (rows : list A) : result B E :=
  match rows with
  | [] => Ok acc
  | row :: rest =>
      match f acc row with
      | Ok acc' => fold_rows f acc' rest
      | Err e => Err e
      end
  end.

Lemma fold_rows_cons_Ok {A B E} (f : B -> A -> result B E) acc row rest out :
  fold_rows f acc (row :: rest) = Ok out <->
  exists acc', f acc row = Ok acc' /\ fold_rows f acc' rest = Ok out.
Proof. simpl. destruct (f acc row); naive_solver. Qed.

(** A property every step preserves holds at the end. *)
Lemma fold_rows_invariant_in {A B E} (f : B -> A -> result B E) (P : B -> Prop) acc rows out :
  (forall b a b', a ∈ rows -> P b -> f b a = Ok b' -> P b') -> P acc ->
  fold_rows f acc rows = Ok out -> P out.
Proof.
  revert acc. induction rows as [|row rest IH]; intros acc Hstep Hacc.
  - intros [= <-]. done.
  - intros (acc' & Hf & Hrest)%fold_rows_cons_Ok. apply (IH acc'); [|by eapply Hstep; [left|..]|done].
    intros b a b' Ha. apply Hstep. by right.
Qed.

Lemma fold_rows_invariant {A B E} (f : B -> A -> result B E) (P : B -> Prop) acc rows out :
  (forall b a b', P b -> f b a = Ok b' -> P b') -> P acc ->
  fold_rows f acc rows = Ok out -> P out.
Proof. intros Hstep. apply fold_rows_invariant_in. eauto. Qed.

(** A loop whose steps change nothing. *)
Lemma fold_rows_id {A B E} (f : B -> A -> result B E) acc rows :
  (forall a, a ∈ rows -> f acc a = Ok acc) -> fold_rows f acc rows = Ok acc.
Proof.
  induction rows as [|row rest IH]; intros Hf; simpl; [done|].
  rewrite (Hf row) by left. apply IH. intros a Ha. apply Hf. by right.
Qed.

(** A loop that does what another one does where that one succeeds. *)
Lemma fold_rows_mono {A B E E'} (f : B -> A -> result B E) (g : B -> A -> result B E') acc rows out :
  (forall b a b', f b a = Ok b' -> g b a = Ok b') ->
  fold_rows f acc rows = Ok out -> fold_rows g acc rows = Ok out.
Proof.
  intros Hfg. revert acc. induction rows as [|row rest IH]; intros acc; simpl.
  - by intros [= ->].
  - destruct (f acc row) as [acc'|] eqn:Hf; [|done]. rewrite (Hfg _ _ _ Hf). apply IH.
Qed.

(** Collecting a fallible map over a list. *)
Fixpoint collect_rows {A B E} (f : A -> result B E) (rows : list A) : result (list B) E :=
  match rows with
  | [] => Ok []
  | row :: rest =>
      match f row with
      | Ok x => match collect_rows f rest with
                | Ok xs => Ok (x :: xs)
                | Err e => Err e
                end
      | Err e => Err e
      end
  end.

Lemma collect_rows_Ok {A B E} (f : A -> result B E) rows out :
  collect_rows f rows = Ok out <-> Forall2 (fun a b => f a = Ok b) rows out.
Proof.
  revert out. induction rows as [|row rest IH]; intros out; simpl.
  - split; [by intros [= <-]|by inversion 1].
  - split.
    + destruct (f row) as [x|] eqn:Hx; [|done]. destruct (collect_rows f rest); [|done].
      intros [= <-]. constructor; [done|]. by apply IH.
    + inversion 1 as [|? x ? xs Hx Hxs]; subst. rewrite Hx. apply IH in Hxs. by rewrite Hxs.
Qed.
