(* ===== verification/Text.v ===== *)
(** * Text

    Rust strings and characters: a [String] is its UTF-8 byte sequence, and
    [chars] are the code points it decodes to.  The character classes are the
    ones the sources test ([is_ascii_alphanumeric], [is_ascii_graphic],
    [is_whitespace], [is_control]). *)

From stdpp Require Import base gmap strings list fin_maps.
From Stdlib Require Import ZArith Lia Ascii String.
From S2P Require Import Prelude.
Local Open Scope Z_scope.

(** ** Bytes *)

Definition byte_of (a : ascii) : Z := Z.of_N (N_of_ascii a).

Fixpoint bytes (s : string) : list Z :=
  match s with
  | EmptyString => []
  | String a r => byte_of a :: bytes r
  end.

Definition ascii_of_byte (b : Z) : ascii := ascii_of_N (Z.to_N b).

Fixpoint of_bytes (l : list Z) : string :=
  match l with
  | [] => EmptyString
  | b :: r => String (ascii_of_byte b) (of_bytes r)
  end.

Definition is_byte (b : Z) : Prop := 0 <= b < 256.

(** [str::len], the length in bytes. *)
Definition len (s : string) : Z := Z.of_nat (String.length s).

(** ** UTF-8 *)

Definition in_range (lo hi x : Z) : bool := (lo <=? x) && (x <=? hi).

Definition continuation (b : Z) : bool := in_range 128 191 b.

(** Decodes one scalar value per step, as [core::str] validates it: overlong
    forms, surrogates and values above 10FFFF are rejected. *)
Fixpoint utf8_decode (l : list Z) : option (list Z) :=
  match l with
  | [] => Some []
  | b0 :: r0 =>
      if in_range 0 127 b0 then
        match utf8_decode r0 with Some cs => Some (b0 :: cs) | None => None end
      else
      match r0 with
      | [] => None
      | b1 :: r1 =>
        if in_range 194 223 b0 && continuation b1 then
          match utf8_decode r1 with
          | Some cs => Some ((b0 - 192) * 64 + (b1 - 128) :: cs)
          | None => None
          end
        else
        match r1 with
        | [] => None
        | b2 :: r2 =>
          if ((b0 =? 224) && in_range 160 191 b1
              || in_range 225 236 b0 && continuation b1
              || (b0 =? 237) && in_range 128 159 b1
              || in_range 238 239 b0 && continuation b1) && continuation b2 then
            match utf8_decode r2 with
            | Some cs => Some ((b0 - 224) * 4096 + (b1 - 128) * 64 + (b2 - 128) :: cs)
            | None => None
            end
          else
          match r2 with
          | [] => None
          | b3 :: r3 =>
            if ((b0 =? 240) && in_range 144 191 b1
                || in_range 241 243 b0 && continuation b1
                || (b0 =? 244) && in_range 128 143 b1)
               && continuation b2 && continuation b3 then
              match utf8_decode r3 with
              | Some cs =>
                  Some ((b0 - 240) * 262144 + (b1 - 128) * 4096
                        + (b2 - 128) * 64 + (b3 - 128) :: cs)
              | None => None
              end
            else None
          end
        end
      end
  end.

Definition valid_utf8 (l : list Z) : bool := is_some (utf8_decode l).

(** [s.chars()].  A Rust string is valid UTF-8, so the [None] branch is never
    taken for the strings the program handles. *)
Definition chars (s : string) : list Z := default [] (utf8_decode (bytes s)).

(** [s.chars().all(p)] *)
Definition all_chars (p : Z -> bool) (s : string) : bool :=
  match utf8_decode (bytes s) with
  | Some cs => forallb p cs
  | None => false
  end.

(** [s.chars().any(p)] *)
Definition any_char (p : Z -> bool) (s : string) : bool := existsb p (chars s).

(** [s.bytes().all(p)] *)
Definition all_bytes (p : Z -> bool) (s : string) : bool := forallb p (bytes s).

(** ** Character classes *)

Definition is_ascii_digit (c : Z) : bool := in_range 48 57 c.
Definition is_ascii_alphanumeric (c : Z) : bool :=
  in_range 48 57 c || in_range 65 90 c || in_range 97 122 c.
Definition is_ascii_graphic (c : Z) : bool := in_range 33 126 c.

(** The Unicode [White_Space] property. *)
Definition is_whitespace (c : Z) : bool :=
  in_range 9 13 c || (c =? 32) || (c =? 133) || (c =? 160) || (c =? 5760)
  || in_range 8192 8202 c || (c =? 8232) || (c =? 8233) || (c =? 8239)
  || (c =? 8287) || (c =? 12288).

(** The Unicode general category [Cc]. *)
Definition is_control (c : Z) : bool := in_range 0 31 c || in_range 127 159 c.

(** ** Substrings *)

(** [s.strip_prefix(p)] *)
Fixpoint strip_prefix (p s : string) : option string :=
  match p, s with
  | EmptyString, _ => Some s
  | String a p', String b s' => if Ascii.eqb a b then strip_prefix p' s' else None
  | String _ _, EmptyString => None
  end.

(** [s.starts_with(p)] *)
Definition starts_with (p s : string) : bool := is_some (strip_prefix p s).

(** [s.contains(p)] *)
Fixpoint contains (p s : string) : bool :=
  starts_with p s ||
  match s with
  | EmptyString => false
  | String _ s' => contains p s'
  end.

(** ** Numbers *)

(** The value of a sequence of ASCII digits, most significant first. *)
Fixpoint parse_digits (acc : Z) (l : list Z) : option Z :=
  match l with
  | [] => Some acc
  | b :: r => if is_ascii_digit b then parse_digits (acc * 10 + (b - 48)) r else None
  end.

(** [s.parse::<T>()] for an unsigned [T] with the given maximum: an optional
    sign and at least one digit. *)
Definition parse_unsigned (max : Z) (s : string) : option Z :=
  let digits := match bytes s with 43 :: r => r | l => l end in
  match digits with
  | [] => None
  | _ => match parse_digits 0 digits with
         | Some n => if n <=? max then Some n else None
         | None => None
         end
  end.

Definition parse_u64 (s : string) : option Z := parse_unsigned u64_max s.

(** ** Lemmas *)

Lemma byte_of_range (a : ascii) : is_byte (byte_of a).
Proof.
  unfold is_byte, byte_of. pose proof (N_ascii_bounded a). lia.
Qed.

Lemma bytes_range (s : string) : Forall is_byte (bytes s).
Proof. induction s; simpl; constructor; auto using byte_of_range. Qed.

Lemma ascii_of_byte_of (a : ascii) : ascii_of_byte (byte_of a) = a.
Proof. unfold ascii_of_byte, byte_of. rewrite N2Z.id. apply ascii_N_embedding. Qed.

Lemma byte_of_ascii_of (b : Z) : is_byte b -> byte_of (ascii_of_byte b) = b.
Proof.
  unfold ascii_of_byte, byte_of, is_byte. intros H.
  rewrite N_ascii_embedding; lia.
Qed.

Lemma of_bytes_bytes (s : string) : of_bytes (bytes s) = s.
Proof. induction s; simpl; [done|]. by rewrite ascii_of_byte_of, IHs. Qed.

Lemma bytes_inj (s t : string) : bytes s = bytes t -> s = t.
Proof. intros H. rewrite <- (of_bytes_bytes s), H. apply of_bytes_bytes. Qed.

Lemma bytes_of_bytes (l : list Z) : Forall is_byte l -> bytes (of_bytes l) = l.
Proof. induction 1; simpl; [done|]. by rewrite byte_of_ascii_of, IHForall. Qed.

Lemma length_bytes (s : string) : List.length (bytes s) = String.length s.
Proof. induction s; simpl; auto. Qed.

Lemma len_bytes (s : string) : len s = Z.of_nat (List.length (bytes s)).
Proof. unfold len. by rewrite length_bytes. Qed.

Lemma bytes_app (s t : string) : bytes (s ++ t)%string = bytes s ++ bytes t.
Proof.
  induction s as [|a s IH]; [done|].
  change (byte_of a :: bytes (s ++ t)%string = byte_of a :: (bytes s ++ bytes t)).
  by rewrite IH.
Qed.

(** Every byte of a decoded sequence that is not ASCII starts a scalar value
    above 127. *)
Lemma utf8_decode_non_ascii (b : Z) (l cs : list Z) :
  in_range 0 127 b = false -> utf8_decode (b :: l) = Some cs ->
  exists c cs', cs = c :: cs' /\ 127 < c.
Proof.
  intros Hb H. cbn [utf8_decode] in H. rewrite Hb in H.
  unfold continuation, in_range in *.
  destruct l as [|b1 l]; [done|]. case_if.
  { destruct (utf8_decode l); inv_result; subst. eexists _, _; split; [done|].
    bools; lia. }
  destruct l as [|b2 l]; [done|]. case_if.
  { destruct (utf8_decode l); inv_result; subst. eexists _, _; split; [done|].
    lia. }
  destruct l as [|b3 l]; [done|]. case_if; [|done].
  destruct (utf8_decode l); inv_result; subst. eexists _, _; split; [done|].
  lia.
Qed.

(** A predicate that only holds of ASCII characters can be tested bytewise. *)
Lemma all_chars_ascii (p : Z -> bool) (s : string) :
  (forall c, p c = true -> in_range 0 127 c = true) ->
  all_chars p s = forallb p (bytes s).
Proof.
  intros Hp. unfold all_chars. induction (bytes s) as [|b l IH]; [done|].
  destruct (in_range 0 127 b) eqn:Hb.
  - cbn [utf8_decode forallb]. rewrite Hb.
    destruct (utf8_decode l) as [cs|]; simpl in *; rewrite <- IH; [done|].
    by rewrite andb_false_r.
  - assert (p b = false) as Hpb.
    { destruct (p b) eqn:E; [|done]. apply Hp in E. congruence. }
    cbn [forallb]. rewrite Hpb. cbn [andb].
    destruct (utf8_decode (b :: l)) as [cs|] eqn:Hd; [|done].
    apply utf8_decode_non_ascii in Hd as (c & cs' & -> & Hc); [|done].
    cbn [forallb]. destruct (p c) eqn:E; [|done].
    apply Hp in E. unfold in_range in E. bools. lia.
Qed.

(** Pure ASCII bytes are valid UTF-8 and decode to themselves. *)
Lemma utf8_decode_ascii (l : list Z) :
  Forall (fun b => in_range 0 127 b = true) l -> utf8_decode l = Some l.
Proof.
  induction 1 as [|b l Hb _ IH]; [done|].
  cbn [utf8_decode]. by rewrite Hb, IH.
Qed.

Lemma strip_prefix_app (p s : string) : strip_prefix p (p ++ s)%string = Some s.
Proof.
  induction p as [|a p IH]; [done|].
  change ((if Ascii.eqb a a then strip_prefix p (p ++ s)%string else None) = Some s).
  by rewrite Ascii.eqb_refl.
Qed.

Lemma strip_prefix_Some (p s r : string) :
  strip_prefix p s = Some r -> s = (p ++ r)%string.
Proof.
  revert s. induction p as [|a p IH]; intros s; cbn [strip_prefix].
  { by intros [= ->]. }
  destruct s as [|b s]; [done|].
  destruct (Ascii.eqb_spec a b) as [->|]; [|done].
  intros H. apply IH in H. by rewrite H.
Qed.

Lemma parse_digits_lower acc l n : 0 <= acc -> parse_digits acc l = Some n -> acc <= n.
Proof.
  revert acc. induction l as [|b l IH]; intros acc Hacc; cbn [parse_digits]; [by intros [= ->]|].
  destruct (is_ascii_digit b) eqn:Hb; [|done]. unfold is_ascii_digit, in_range in Hb. bools.
  intros Hp. apply IH in Hp; lia.
Qed.

Lemma parse_u64_range s n : parse_u64 s = Some n -> 0 <= n <= u64_max.
Proof.
  unfold parse_u64, parse_unsigned.
  destruct (match bytes s with 43 :: r => r | l => l end) as [|b l]; [done|].
  destruct (parse_digits 0 (b :: l)) as [m|] eqn:Hp; [|done].
  apply parse_digits_lower in Hp; [|done]. destruct (Z.leb_spec m u64_max); [|done].
  intros [= <-]. lia.
Qed.

Lemma len_nonneg (s : string) : 0 <= len s.
Proof. unfold len. lia. Qed.

#[export] Hint Resolve byte_of_range bytes_range len_nonneg : mobile_proxy.
