(* ===== verification/Foundation.v ===== *)
(** * Foundation

    [crates/foundation/src/lib.rs]: bounded identifiers, idempotency keys,
    deadlines, length-framed BLAKE3 content digests and the request context.
    The [uuid] and [blake3] crates are interfaces ([UuidText], [Blake3]). *)

From stdpp Require Import base gmap strings list fin_maps pretty.
From Stdlib Require Import ZArith Lia Ascii String.
From S2P Require Import Prelude Text.
Local Open Scope string_scope.
Local Open Scope Z_scope.

(** ** Errors *)

Definition MAX_IDENTITY_LENGTH : Z := 64.
Definition MAX_IDEMPOTENCY_KEY_LENGTH : Z := 128.
Definition MAX_DEADLINE_WINDOW_SECS : Z := 86400.

Inductive FoundationError :=
| Empty (field : string)
| TooLong (field : string) (max : Z)
| InvalidCharacters (field : string)
| InvalidUuid (field : string)
| InvalidDeadlineWindow
| DeadlineOverflow
| InvalidDigest.

Definition FoundationError_fmt (e : FoundationError) : string :=
  match e with
  | Empty field => field ++ " must not be empty"
  | TooLong field max => field ++ " exceeds the maximum length of " ++ pretty max
  | InvalidCharacters field => field ++ " contains unsupported characters"
  | InvalidUuid field => field ++ " must be a UUID"
  | InvalidDeadlineWindow =>
      "deadline window must be between 1 and " ++ pretty MAX_DEADLINE_WINDOW_SECS
      ++ " seconds"
  | DeadlineOverflow => "deadline exceeds the supported range"
  | InvalidDigest => "digest must be a b3-prefixed BLAKE3 value"
  end.

(** ** UUID identifiers *)

(** A 128-bit UUID value. *)
Abbreviation Uuid := N.

(** The textual form of the [uuid] crate. *)
Class UuidText := {
  uuid_to_string : Uuid -> string;
  uuid_parse_str : string -> option Uuid;
}.

(** What the sources rely on: the hyphenated form the crate prints is not empty
    and is one it parses back to the same value. *)
Class UuidTextLaws `{UuidText} : Prop := {
  uuid_parse_to_string (u : Uuid) : uuid_parse_str (uuid_to_string u) = Some u;
  uuid_to_string_nonempty (u : Uuid) : uuid_to_string u <> "";
}.

(** [uuid_identifier!($name, $field)] *)
Record uuid_identifier (field : string) := from_uuid { as_uuid : Uuid }.
Arguments from_uuid {field} _.
Arguments as_uuid {field} _.

Abbreviation RequestId := (uuid_identifier "request_id").
Abbreviation CorrelationId := (uuid_identifier "correlation_id").
Abbreviation CommandId := (uuid_identifier "command_id").

#[export] Instance uuid_identifier_eq_dec field : EqDecision (uuid_identifier field).
Proof. solve_decision. Defined.

#[export] Instance uuid_identifier_countable field : Countable (uuid_identifier field).
Proof.
  refine (inj_countable' (@as_uuid field) (@from_uuid field) _). by intros [u].
Defined.

Section uuid_text.
Context `{UuidText}.

Definition uuid_identifier_to_string {field} (id : uuid_identifier field) : string :=
  uuid_to_string (as_uuid id).

Definition uuid_identifier_from_str (field raw : string)
    : result (uuid_identifier field) FoundationError :=
  match uuid_parse_str raw with
  | Some u => Ok (from_uuid u)
  | None => Err (InvalidUuid field)
  end.
End uuid_text.

(** ** Bounded identities *)

Definition identity_character (c : Z) : bool :=
  is_ascii_alphanumeric c || (c =? 45) || (c =? 95) || (c =? 46) || (c =? 58).

Definition validate_identity (field value : string) : result string FoundationError :=
  if bool_decide (value = "") then Err (Empty field)
  else if MAX_IDENTITY_LENGTH <? len value then Err (TooLong field MAX_IDENTITY_LENGTH)
  else if negb (all_chars identity_character value) then Err (InvalidCharacters field)
  else Ok value.

(** [bounded_identity!($name, $field)] *)
Record bounded_identity (field : string) := mk_identity { identity_as_str : string }.
Arguments mk_identity {field} _.
Arguments identity_as_str {field} _.

Abbreviation ConsumerId := (bounded_identity "consumer_id").
Abbreviation ApplicationId := (bounded_identity "application_id").
Abbreviation ActorId := (bounded_identity "actor_id").

Definition identity_parse (field value : string)
    : result (bounded_identity field) FoundationError :=
  result_map mk_identity (validate_identity field value).

(** The serde form of an identity is its string; reading it back parses it. *)
Definition identity_serialize {field} (id : bounded_identity field) : string :=
  identity_as_str id.
Definition identity_deserialize (field raw : string)
    : result (bounded_identity field) FoundationError :=
  identity_parse field raw.

(** ** Idempotency keys *)

Record IdempotencyKey := mk_key { key_as_str : string }.

#[export] Instance IdempotencyKey_eq_dec : EqDecision IdempotencyKey.
Proof. solve_decision. Defined.

Definition IdempotencyKey_parse (value : string) : result IdempotencyKey FoundationError :=
  if bool_decide (value = "") then Err (Empty "idempotency_key")
  else if MAX_IDEMPOTENCY_KEY_LENGTH <? len value then
    Err (TooLong "idempotency_key" MAX_IDEMPOTENCY_KEY_LENGTH)
  else if negb (all_chars is_ascii_graphic value) then
    Err (InvalidCharacters "idempotency_key")
  else Ok (mk_key value).

Definition IdempotencyKey_serialize (k : IdempotencyKey) : string := key_as_str k.
Definition IdempotencyKey_deserialize (raw : string)
    : result IdempotencyKey FoundationError :=
  IdempotencyKey_parse raw.

(** ** Deadlines *)

Record DeadlineWindow := mk_window { as_secs : Z }.

#[export] Instance DeadlineWindow_eq_dec : EqDecision DeadlineWindow.
Proof. solve_decision. Defined.

Definition DeadlineWindow_new (seconds : Z) : result DeadlineWindow FoundationError :=
  if negb ((1 <=? seconds) && (seconds <=? MAX_DEADLINE_WINDOW_SECS)) then
    Err InvalidDeadlineWindow
  else Ok (mk_window seconds).

Definition DeadlineWindow_deserialize (seconds : Z)
    : result DeadlineWindow FoundationError :=
  DeadlineWindow_new seconds.

Record Deadline := from_unix_secs { unix_secs : Z }.

Definition Deadline_from_now (now_unix_secs : Z) (window : DeadlineWindow)
    : result Deadline FoundationError :=
  ok_or (from_unix_secs <$> checked_add_u64 now_unix_secs (as_secs window))
        DeadlineOverflow.

Definition is_expired (d : Deadline) (now_unix_secs : Z) : bool :=
  unix_secs d <=? now_unix_secs.

Definition remaining_secs (d : Deadline) (now_unix_secs : Z) : Z :=
  saturating_sub_u64 (unix_secs d) now_unix_secs.

(** ** Content digests *)

(** The [blake3] crate: a keyed-derivation hash of a byte stream, and the
    hexadecimal form of a hash. *)
Class Blake3 := {
  Hash : Type;
  Hash_eq_dec :: EqDecision Hash;
  blake3_derive_key : string -> list Z -> Hash;
  hash_to_hex : Hash -> string;
  hash_from_hex : string -> option Hash;
}.

Definition lower_hex_digit (b : Z) : bool := is_ascii_digit b || in_range 97 102 b.

(** The crate's documented text form: 64 lowercase hexadecimal digits, parsed
    back to the same hash. *)
Class Blake3Laws `{Blake3} : Prop := {
  hash_hex_length (h : Hash) : len (hash_to_hex h) = 64;
  hash_hex_digits (h : Hash) : all_bytes lower_hex_digit (hash_to_hex h) = true;
  hash_from_to_hex (h : Hash) : hash_from_hex (hash_to_hex h) = Some h;
  hash_to_from_hex (s : string) (h : Hash) :
    all_bytes lower_hex_digit s = true -> hash_from_hex s = Some h -> hash_to_hex h = s;
}.

(** [x.to_be_bytes()] on an integer of [n] bytes. *)
Fixpoint to_be_bytes (n : nat) (x : Z) : list Z :=
  match n with
  | O => []
  | S k => (x / 256 ^ Z.of_nat k) mod 256 :: to_be_bytes k x
  end.

(** The byte stream the hasher receives for [parts]: each part preceded by its
    length as a big-endian [u64]. *)
Fixpoint digest_frames (parts : list (list Z)) : list Z :=
  match parts with
  | [] => []
  | p :: rest => (to_be_bytes 8 (Z.of_nat (List.length p)) ++ p ++ digest_frames rest)%list
  end.

Section content_digest.
Context `{Blake3}.

Record ContentDigest := mk_digest { digest_hash : Hash }.

#[export] Instance ContentDigest_eq_dec : EqDecision ContentDigest.
Proof. solve_decision. Defined.

Definition ContentDigest_derive (domain : string) (parts : list (list Z)) : ContentDigest :=
  mk_digest (blake3_derive_key domain (digest_frames parts)).

Definition ContentDigest_to_string (d : ContentDigest) : string :=
  "b3:" ++ hash_to_hex (digest_hash d).

Definition ContentDigest_from_str (raw : string) : result ContentDigest FoundationError :=
  match strip_prefix "b3:" raw with
  | None => Err InvalidDigest
  | Some hex =>
      if negb (len hex =? 64) || negb (all_bytes lower_hex_digit hex) then
        Err InvalidDigest
      else match hash_from_hex hex with
           | Some h => Ok (mk_digest h)
           | None => Err InvalidDigest
           end
  end.

Definition ContentDigest_serialize (d : ContentDigest) : string :=
  ContentDigest_to_string d.
Definition ContentDigest_deserialize (raw : string) : result ContentDigest FoundationError :=
  ContentDigest_from_str raw.
End content_digest.

(** ** Request context *)

Record RequestContext := mk_request_context {
  request_id : RequestId;
  correlation_id : CorrelationId;
  consumer_id : option ConsumerId;
  application_id : option ApplicationId;
  actor_id : option ActorId;
  deadline : option Deadline;
}.

(** ** Properties *)

Lemma identity_character_ascii (c : Z) :
  identity_character c = true -> in_range 0 127 c = true.
Proof. unfold identity_character, is_ascii_alphanumeric, in_range. lia. Qed.

Lemma ascii_graphic_ascii (c : Z) :
  is_ascii_graphic c = true -> in_range 0 127 c = true.
Proof. unfold is_ascii_graphic, in_range. lia. Qed.

#[export] Hint Resolve identity_character_ascii ascii_graphic_ascii : mobile_proxy.

Lemma len_zero (s : string) : len s = 0 -> s = "".
Proof. destruct s; [done|]. unfold len. cbn [String.length]. lia. Qed.

Lemma to_be_bytes_length n x : List.length (to_be_bytes n x) = n.
Proof. induction n; cbn; auto. Qed.

Lemma to_be_bytes_range n x : Forall is_byte (to_be_bytes n x).
Proof.
  induction n; cbn [to_be_bytes]; constructor; [|done].
  unfold is_byte. pose proof (Z.mod_pos_bound (x / 256 ^ Z.of_nat n) 256). lia.
Qed.

Lemma to_be_bytes_inj n x y :
  0 <= x < 256 ^ Z.of_nat n -> 0 <= y < 256 ^ Z.of_nat n ->
  to_be_bytes n x = to_be_bytes n y -> x = y.
Proof.
  assert (forall m z w, to_be_bytes m z = to_be_bytes m w ->
            z mod 256 ^ Z.of_nat m = w mod 256 ^ Z.of_nat m) as Hmod.
  { induction m as [|m IH]; intros z w Hz.
    - by rewrite !Z.mod_1_r.
    - cbn [to_be_bytes] in Hz. injection Hz as Hd Hr. apply IH in Hr.
      rewrite Nat2Z.inj_succ, Z.pow_succ_r by lia.
      rewrite (Z.mul_comm 256), !Z.rem_mul_r by lia. by rewrite Hd, Hr. }
  intros Hx Hy Heq. apply Hmod in Heq. by rewrite !Z.mod_small in Heq.
Qed.

Lemma digest_frames_inj (ps qs : list (list Z)) :
  Forall (fun p => Z.of_nat (List.length p) <= u64_max) ps ->
  Forall (fun q => Z.of_nat (List.length q) <= u64_max) qs ->
  digest_frames ps = digest_frames qs -> ps = qs.
Proof.
  intros Hps. revert qs. induction Hps as [|p ps Hp _ IH]; intros qs Hqs Heq.
  - destruct qs as [|q qs]; [done|].
    apply (f_equal (@List.length Z)) in Heq. cbn [digest_frames] in Heq.
    rewrite length_app, to_be_bytes_length in Heq. cbn in Heq. lia.
  - destruct Hqs as [|q qs Hq Hqs]; cbn [digest_frames] in Heq.
    { apply (f_equal (@List.length Z)) in Heq.
      rewrite length_app, to_be_bytes_length in Heq. cbn in Heq. lia. }
    apply app_inj_1 in Heq as [Hl Heq]; [|by rewrite !to_be_bytes_length].
    apply to_be_bytes_inj in Hl; [|unfold u64_max in *; lia..].
    apply app_inj_1 in Heq as [-> Heq]; [|lia].
    f_equal. by apply IH.
Qed.

(** The exact outcome of parsing a bounded identity, error included: the
    value is accepted unchanged exactly when it is 1 to 64 bytes of ASCII
    letters, digits and [-_.:]; otherwise the first failed test names the
    error. *)
Theorem identity_parse_spec (field value : string) :
  match identity_parse field value with
  | Ok id => identity_as_str id = value /\ 1 <= len value <= 64 /\
             Forall (fun b => identity_character b = true) (bytes value)
  | Err (Empty f) => f = field /\ value = ""
  | Err (TooLong f m) => f = field /\ m = 64 /\ 64 < len value
  | Err (InvalidCharacters f) =>
      f = field /\ 1 <= len value <= 64 /\
      exists b, In b (bytes value) /\ identity_character b = false
  | Err _ => False
  end.
Proof.
  unfold identity_parse, validate_identity, MAX_IDENTITY_LENGTH.
  pose proof (len_nonneg value). pose proof (len_zero value).
  case_bool_decide; cbn; [done|].
  destruct (64 <? len value) eqn:Hl; bools; cbn; [done|].
  rewrite all_chars_ascii by eauto with mobile_proxy.
  destruct (forallb identity_character (bytes value)) eqn:Ha; cbn.
  - repeat split; [|done|]; [|apply List.Forall_forall, forallb_forall, Ha].
    destruct (decide (len value = 0)); [naive_solver|lia].
  - split; [done|]. split.
    + destruct (decide (len value = 0)); [naive_solver|lia].
    + by apply forallb_false_exists.
Qed.

(** Idempotency keys are accepted unchanged exactly when they are 1 to 128
    bytes of printable non-blank ASCII, and an accepted key survives its serde
    form. *)
Theorem idempotency_key_parse_roundtrip (value : string) (k : IdempotencyKey) :
  IdempotencyKey_parse value = Ok k ->
  key_as_str k = value /\ 1 <= len value <= 128 /\
  Forall (fun b => is_ascii_graphic b = true) (bytes value) /\
  IdempotencyKey_deserialize (IdempotencyKey_serialize k) = Ok k.
Proof.
  unfold IdempotencyKey_deserialize, IdempotencyKey_serialize. intros Hp.
  pose proof Hp as Hp'. unfold IdempotencyKey_parse, MAX_IDEMPOTENCY_KEY_LENGTH in Hp'.
  rewrite all_chars_ascii in Hp' by eauto with mobile_proxy.
  pose proof (len_nonneg value). pose proof (len_zero value).
  case_bool_decide; [done|]. repeat case_if; inv_result; subst; bools; cbn.
  repeat split; try done.
  - destruct (decide (len value = 0)); [naive_solver|lia].
  - apply List.Forall_forall, forallb_forall. done.
Qed.

(** A deadline taken [window] seconds from now overflows exactly when the
    sum leaves the [u64] range; otherwise it is not yet expired, has exactly
    the window remaining, and expires exactly when nothing remains. *)
Theorem deadline_from_now_spec (now : Z) (w : DeadlineWindow) (secs : Z) :
  DeadlineWindow_new secs = Ok w -> is_u64 now ->
  match Deadline_from_now now w with
  | Ok d => now + secs <= u64_max /\ is_expired d now = false /\
            remaining_secs d now = secs /\
            forall later, is_expired d later = true <-> remaining_secs d later = 0
  | Err e => e = DeadlineOverflow /\ u64_max < now + secs
  end.
Proof.
  unfold DeadlineWindow_new, Deadline_from_now, checked_add_u64, is_expired,
    remaining_secs, saturating_sub_u64, is_u64, MAX_DEADLINE_WINDOW_SECS.
  intros Hw Hnow. case_if_in Hw; [done|]. inv_result. subst w. bools. cbn.
  destruct (now + secs <=? u64_max) eqn:E; bools; cbn; [|split; [done|lia]].
  repeat split; lia.
Qed.

(** The byte stream a digest is derived from determines the parts: two
    inputs that are framed alike are equal, whatever separators the parts
    contain. *)
Theorem content_digest_framing_injective (ps qs : list (list Z)) :
  Forall (fun p => Z.of_nat (List.length p) <= u64_max) ps ->
  Forall (fun q => Z.of_nat (List.length q) <= u64_max) qs ->
  digest_frames ps = digest_frames qs -> ps = qs.
Proof. apply digest_frames_inj. Qed.

Lemma content_digest_roundtrip `{Blake3Laws} (d : ContentDigest) :
  ContentDigest_from_str (ContentDigest_to_string d) = Ok d.
Proof.
  unfold ContentDigest_from_str, ContentDigest_to_string.
  rewrite strip_prefix_app, hash_hex_length, hash_hex_digits, hash_from_to_hex.
  by destruct d.
Qed.

(** A text that parses is the printed form of what it parses to. *)
Lemma content_digest_from_str_text `{Blake3Laws} (raw : string) (d : ContentDigest) :
  ContentDigest_from_str raw = Ok d -> ContentDigest_to_string d = raw.
Proof.
  unfold ContentDigest_from_str. destruct (strip_prefix "b3:" raw) as [hex|] eqn:Hp; [|done].
  case_if; [done|]. bools. destruct (hash_from_hex hex) as [h|] eqn:Hh; [|done].
  intros [= <-]. unfold ContentDigest_to_string. simpl.
  rewrite (hash_to_from_hex hex h) by done. symmetry. by apply (strip_prefix_Some "b3:").
Qed.

Lemma content_digest_to_string_inj `{Blake3Laws} (d1 d2 : ContentDigest) :
  ContentDigest_to_string d1 = ContentDigest_to_string d2 -> d1 = d2.
Proof.
  intros Heq. pose proof (content_digest_roundtrip d1) as H1.
  rewrite Heq, content_digest_roundtrip in H1. by inv_result.
Qed.

Lemma uuid_to_string_inj `{UuidTextLaws} (u v : Uuid) :
  uuid_to_string u = uuid_to_string v -> u = v.
Proof.
  intros Heq. pose proof (uuid_parse_to_string u) as H1.
  rewrite Heq, uuid_parse_to_string in H1. by inv_result.
Qed.

(** Printing then parsing a digest gives it back, and the printed form is
    ["b3:"] followed by exactly 64 lowercase hexadecimal digits. *)
Theorem content_digest_text_roundtrip `{Blake3Laws} (d : ContentDigest) :
  ContentDigest_from_str (ContentDigest_to_string d) = Ok d /\
  exists hex, ContentDigest_to_string d = "b3:" ++ hex /\ len hex = 64 /\
              Forall (fun b => lower_hex_digit b = true) (bytes hex).
Proof.
  split; [apply content_digest_roundtrip|].
  exists (hash_to_hex (digest_hash d)). split; [done|].
  split; [apply hash_hex_length|].
  apply List.Forall_forall, forallb_forall, hash_hex_digits.
Qed.

(** ** A concrete instance *)

(** A polynomial hash and a decimal UUID form: instances of the two crate
    interfaces that evaluate, on which hypotheses are discharged. *)
Module Concrete.

Definition hex_digit (d : Z) : Z := if d <? 10 then 48 + d else 87 + d.

(** The low [n] hexadecimal digits of [x], in front of [acc]. *)
Fixpoint hex_digits (n : nat) (x : Z) (acc : list Z) : list Z :=
  match n with
  | O => acc
  | S k => hex_digits k (Z.shiftr x 4) (hex_digit (Z.land x 15) :: acc)
  end.

Definition is_hex64 (s : string) : bool :=
  (len s =? 64) && all_bytes lower_hex_digit s.

Definition hash_of (domain : string) (input : list Z) : Z :=
  foldl (fun acc b => Z.land (acc * 257 + b + 1) (Z.ones 256)) 1 (bytes domain ++ input)%list.

Lemma hex_digit_ok x :
  lower_hex_digit (hex_digit (Z.land x 15)) = true /\ is_byte (hex_digit (Z.land x 15)).
Proof.
  change 15 with (Z.ones 4). rewrite Z.land_ones by done.
  pose proof (Z.mod_pos_bound x (2 ^ 4)). unfold hex_digit.
  destruct (_ <? 10) eqn:E; bools;
    (split; [unfold lower_hex_digit, is_ascii_digit, in_range; lia|unfold is_byte; lia]).
Qed.

Lemma hex_digits_ok n x acc :
  forallb lower_hex_digit acc = true -> Forall is_byte acc ->
  List.length (hex_digits n x acc) = (n + List.length acc)%nat /\
  forallb lower_hex_digit (hex_digits n x acc) = true /\ Forall is_byte (hex_digits n x acc).
Proof.
  revert x acc. induction n as [|n IH]; intros x acc Hh Hb; cbn [hex_digits]; [done|].
  destruct (hex_digit_ok x) as [Hd Hd'].
  destruct (IH (Z.shiftr x 4) (hex_digit (Z.land x 15) :: acc)) as (-> & ? & ?);
    [by cbn [forallb]; rewrite Hd, Hh|by constructor|].
  split; [|done]. cbn [List.length]. lia.
Qed.

Lemma is_hex64_hex_digits x : is_hex64 (of_bytes (hex_digits 64 x [])) = true.
Proof.
  destruct (hex_digits_ok 64 x []) as (Hl & Hh & Hb); [done|constructor|].
  unfold is_hex64, all_bytes. rewrite len_bytes, bytes_of_bytes by done.
  by rewrite Hl, Hh.
Qed.

Definition digest := { s : string | is_hex64 s = true }.

Definition hex_of (d : digest) : string := proj1_sig d.

Definition of_hex (s : string) : option digest :=
  match decide (is_hex64 s = true) with
  | left H => Some (exist _ s H)
  | right _ => None
  end.

Lemma digest_ext (a b : digest) : hex_of a = hex_of b -> a = b.
Proof.
  destruct a as [s Hs], b as [t Ht]. cbn. intros ->. f_equal.
  apply (Eqdep_dec.UIP_dec Bool.bool_dec).
Qed.

#[export] Instance digest_eq_dec : EqDecision digest.
Proof.
  intros a b. destruct (decide (hex_of a = hex_of b)) as [H|H].
  - left. by apply digest_ext.
  - right. congruence.
Defined.

#[export] Instance blake3 : Blake3 := {
  Hash := digest;
  blake3_derive_key domain input :=
    exist _ (of_bytes (hex_digits 64 (hash_of domain input) [])) (is_hex64_hex_digits _);
  hash_to_hex := hex_of;
  hash_from_hex := of_hex;
}.

#[export] Instance blake3_laws : Blake3Laws.
Proof.
  split.
  - intros [s Hs]; cbn. by apply andb_true_iff in Hs as [?%Z.eqb_eq _].
  - intros [s Hs]; cbn. by apply andb_true_iff in Hs as [_ ?].
  - intros [s Hs]; cbn. unfold of_hex. destruct (decide _) as [H'|H']; [|done].
    f_equal. by apply digest_ext.
  - intros s h _; cbn. unfold of_hex. destruct (decide _); [|done]. by intros [= <-].
Qed.

(** UUIDs as little-endian binary numerals, ["z"] for zero. *)
Fixpoint positive_text (p : positive) : string :=
  match p with
  | xH => "1"
  | xO q => String "0" (positive_text q)
  | xI q => String "1" (positive_text q)
  end.

Fixpoint positive_read (s : string) : option positive :=
  match s with
  | EmptyString => None
  | String a r =>
      if bool_decide (a = "0"%char) then xO <$> positive_read r
      else if bool_decide (a = "1"%char) then
        match r with
        | EmptyString => Some xH
        | _ => xI <$> positive_read r
        end
      else None
  end.

Definition uuid_text_of (u : Uuid) : string :=
  match u with
  | N0 => "z"
  | Npos p => positive_text p
  end.

Definition uuid_read (s : string) : option Uuid :=
  if bool_decide (s = "z") then Some N0 else Npos <$> positive_read s.

#[export] Instance uuid_text : UuidText := {
  uuid_to_string := uuid_text_of;
  uuid_parse_str := uuid_read;
}.

Lemma positive_read_text p : positive_read (positive_text p) = Some p.
Proof.
  induction p as [p IH|p IH|]; cbn [positive_text positive_read]; [| |done].
  - rewrite bool_decide_eq_false_2, bool_decide_eq_true_2 by done.
    destruct (positive_text p) eqn:E; [|by rewrite IH].
    by destruct p.
  - by rewrite bool_decide_eq_true_2, IH.
Qed.

#[export] Instance uuid_text_laws : UuidTextLaws.
Proof.
  constructor.
  - intros [|p]; cbn; unfold uuid_read; [done|].
    rewrite bool_decide_eq_false_2; [by rewrite positive_read_text|].
    by destruct p.
  - by intros [|[]].
Qed.

(** *** Concrete values *)

Lemma content_digest_framing_injective_witness :
  [[97; 58]; [98]] = [[97; 58]; [98]].
Proof.
  apply (content_digest_framing_injective [[97; 58]; [98]] [[97; 58]; [98]]);
    [repeat constructor; done | repeat constructor; done | reflexivity].
Defined.

Lemma deadline_from_now_spec_witness :
  match Deadline_from_now 100 (mk_window 30) with
  | Ok d => 100 + 30 <= u64_max /\ is_expired d 100 = false /\ remaining_secs d 100 = 30 /\
            forall later, is_expired d later = true <-> remaining_secs d later = 0
  | Err e => e = DeadlineOverflow /\ u64_max < 100 + 30
  end.
Proof.
  apply (deadline_from_now_spec 100 (mk_window 30) 30); [reflexivity|].
  unfold is_u64, u64_max. lia.
Defined.
End Concrete.
