(* ===== verification/RuntimeDomain.v ===== *)
(** * Runtime lifecycle

    [crates/runtime-domain/src/lib.rs]: the transport-neutral lifecycle state
    machine of the phone runtime, a pure reducer from a state and an event to
    the next state and the action to take. *)

From stdpp Require Import base list.
From S2P Require Import Prelude.

Inductive RuntimeState :=
| Booting | WaitingTunnel | WaitingCellular | StartingProxy
| Healthy | Recovering | Quarantined.

Inductive RuntimeEvent :=
| BootCompleted | TunnelReady | TunnelLost | CellularReady | CellularLost
| ProxyReady | ProxyFailed | RotationRequested | RecoveryTimedOut.

Inductive RuntimeAction :=
| WaitForTunnel | WaitForCellular | StartProxy | MarkHealthy | RecoverTunnel
| RepairCellular | RestartProxy | StartRotation | Quarantine | Noop.

#[export] Instance RuntimeState_eq_dec : EqDecision RuntimeState.
Proof. solve_decision. Defined.
#[export] Instance RuntimeEvent_eq_dec : EqDecision RuntimeEvent.
Proof. solve_decision. Defined.
#[export] Instance RuntimeAction_eq_dec : EqDecision RuntimeAction.
Proof. solve_decision. Defined.

Record Transition := mk_transition {
  previous_state : RuntimeState;
  state : RuntimeState;
  action : RuntimeAction;
}.

Definition changed (t : Transition) : bool :=
  negb (bool_decide (previous_state t = state t)).

Definition reduce_pair (s : RuntimeState) (e : RuntimeEvent)
    : RuntimeState * RuntimeAction :=
  match s, e with
  | Booting, BootCompleted => (WaitingTunnel, WaitForTunnel)
  | WaitingTunnel, TunnelReady => (WaitingCellular, WaitForCellular)
  | WaitingCellular, CellularReady => (StartingProxy, StartProxy)
  | StartingProxy, ProxyReady => (Healthy, MarkHealthy)
  | (Healthy | StartingProxy | WaitingCellular), TunnelLost =>
      (Recovering, RecoverTunnel)
  | (Healthy | StartingProxy), CellularLost => (Recovering, RepairCellular)
  | (Healthy | StartingProxy), ProxyFailed => (Recovering, RestartProxy)
  | Healthy, RotationRequested => (Recovering, StartRotation)
  | Recovering, TunnelReady => (WaitingCellular, WaitForCellular)
  | Recovering, CellularReady => (StartingProxy, StartProxy)
  | Recovering, RecoveryTimedOut => (Quarantined, Quarantine)
  | _, _ => (s, Noop)
  end.

Definition reduce (s : RuntimeState) (e : RuntimeEvent) : Transition :=
  let '(next_state, act) := reduce_pair s e in
  mk_transition s next_state act.

(** ** Runs *)

(** The lifecycle state after a sequence of events. *)
Definition run (s : RuntimeState) (es : list RuntimeEvent) : RuntimeState :=
  foldl (fun s e => state (reduce s e)) s es.

Lemma run_snoc s es e : run s (es ++ [e]) = state (reduce (run s es) e).
Proof. unfold run. by rewrite foldl_app. Qed.

(** What has necessarily been observed, in this order, before a state is
    entered for the first time after boot. *)
Definition required_history (s : RuntimeState) : list RuntimeEvent :=
  match s with
  | Booting => []
  | WaitingTunnel => [BootCompleted]
  | WaitingCellular | Recovering | Quarantined => [BootCompleted; TunnelReady]
  | StartingProxy => [BootCompleted; TunnelReady; CellularReady]
  | Healthy => [BootCompleted; TunnelReady; CellularReady; ProxyReady]
  end.

(** One reduction extends the required history by at most its own event. *)
Lemma reduce_required_history s e :
  required_history (state (reduce s e)) `sublist_of` required_history s ++ [e] \/
  required_history (state (reduce s e)) `sublist_of` required_history s.
Proof.
  destruct s, e; cbn;
    first [right; by solve [repeat constructor]
          |left; by solve [repeat constructor]].
Qed.

(** C37: from boot, a runtime is in a state only after the readiness events that
    state stands for were observed in order; in particular it is healthy only
    after boot completion, tunnel, cellular and proxy readiness. *)
Theorem run_required_history (es : list RuntimeEvent) :
  required_history (run Booting es) `sublist_of` es.
Proof.
  induction es as [|e es IH] using rev_ind; [constructor|].
  rewrite run_snoc. destruct (reduce_required_history (run Booting es) e) as [H|H].
  - etrans; [exact H|]. by apply sublist_app.
  - etrans; [exact H|]. etrans; [exact IH|]. by apply sublist_inserts_r.
Qed.

(** Quarantine is final, and rotation is only ever started from a healthy
    runtime. *)
Theorem quarantine_final_rotation_guarded (s : RuntimeState) (es : list RuntimeEvent) :
  run Quarantined es = Quarantined /\
  (action (reduce s RotationRequested) = StartRotation <-> s = Healthy) /\
  (forall e, action (reduce s e) = StartRotation -> e = RotationRequested).
Proof.
  split; [|split].
  - induction es as [|e es IH] using rev_ind; [done|].
    rewrite run_snoc, IH. by destruct e.
  - by destruct s.
  - intros e. by destruct s, e.
Qed.

(** An event is a no-op exactly when it leaves the state unchanged, and the
    transition records the state it started from. *)
Theorem reduce_noop_iff_unchanged (s : RuntimeState) (e : RuntimeEvent) :
  previous_state (reduce s e) = s /\
  (changed (reduce s e) = false <-> action (reduce s e) = Noop).
Proof. by destruct s, e. Qed.
