(* ===== verification/RuntimeProjection.v ===== *)
(** * Runtime projection

    [crates/proxy-core/src/runtime.rs]: the public readiness vocabulary and
    the projection from raw runtime facts to readiness, serving, availability
    and degradation reason; [services/runtime-supervisor/src/runtime_adapter.rs]:
    its translation to and from the lifecycle states of [RuntimeDomain]. *)

From stdpp Require Import base strings list.
From Stdlib Require Import ZArith String.
From S2P Require Import Prelude RuntimeDomain Foundation.
Local Open Scope string_scope.

Module RuntimeReadiness.
Inductive t :=
| Booting | WaitingWireguard | WaitingCellular | StartingProxy
| Healthy | Quarantined | Unknown.

#[global] Instance eq_dec : EqDecision t.
Proof. solve_decision. Defined.

Definition parse (raw : string) : t :=
  if bool_decide (raw = "booting") then Booting
  else if bool_decide (raw = "waiting_wireguard") then WaitingWireguard
  else if bool_decide (raw = "waiting_cellular") then WaitingCellular
  else if bool_decide (raw = "starting_proxy") then StartingProxy
  else if bool_decide (raw = "healthy") then Healthy
  else if bool_decide (raw = "quarantined") then Quarantined
  else Unknown.

Definition to_string (r : t) : string :=
  match r with
  | Booting => "booting"
  | WaitingWireguard => "waiting_wireguard"
  | WaitingCellular => "waiting_cellular"
  | StartingProxy => "starting_proxy"
  | Healthy => "healthy"
  | Quarantined => "quarantined"
  | Unknown => "unknown"
  end.
End RuntimeReadiness.

Module Availability.
Inductive t := Ready | Degraded.

Definition to_string (a : t) : string :=
  match a with
  | Ready => "ready"
  | Degraded => "degraded"
  end.
End Availability.

Module DegradationReasonCode.
Inductive t :=
| Booting | WireguardPathNotReady | CellularRouteMissing | ProxyStarting
| ProxyBindFailed | LocalProbeFailed | RotationInProgress | Quarantined
| UnknownState.

#[global] Instance eq_dec : EqDecision t.
Proof. solve_decision. Defined.

Definition to_string (c : t) : string :=
  match c with
  | Booting => "booting"
  | WireguardPathNotReady => "wireguard_path_not_ready"
  | CellularRouteMissing => "cellular_route_missing"
  | ProxyStarting => "proxy_starting"
  | ProxyBindFailed => "proxy_bind_failed"
  | LocalProbeFailed => "local_probe_failed"
  | RotationInProgress => "rotation_in_progress"
  | Quarantined => "quarantined"
  | UnknownState => "unknown_state"
  end.
End DegradationReasonCode.

Definition degradation_reason_message (code : DegradationReasonCode.t) : string :=
  match code with
  | DegradationReasonCode.Booting => "runtime is booting"
  | DegradationReasonCode.WireguardPathNotReady => "wireguard path is not ready"
  | DegradationReasonCode.CellularRouteMissing => "cellular default route is not ready"
  | DegradationReasonCode.ProxyStarting => "proxy is starting"
  | DegradationReasonCode.ProxyBindFailed =>
      "proxy is not bound to the expected listen address"
  | DegradationReasonCode.LocalProbeFailed => "local proxy probe failed"
  | DegradationReasonCode.RotationInProgress => "rotation job is in progress"
  | DegradationReasonCode.Quarantined => "runtime is quarantined"
  | DegradationReasonCode.UnknownState => "runtime reported unknown state"
  end.

Module RuntimeProjectionInput.
Record t := mk {
  readiness_state : string;
  serving : bool;
  publicly_serving : bool;
  current_job : option Uuid;
  cellular_route_ready : option bool;
  proxy_bind_ready : option bool;
  local_serving_ready : option bool;
}.
End RuntimeProjectionInput.

Module RuntimeProjection.
Record t := mk {
  readiness_state : string;
  serving : bool;
  availability : string;
  degradation_reason_code : option string;
  serving_failure_reason : option string;
}.
End RuntimeProjection.

Definition normalize_serving (readiness : RuntimeReadiness.t)
    (input : RuntimeProjectionInput.t) : bool :=
  if negb (bool_decide (readiness = RuntimeReadiness.Healthy)) then false
  else if is_some (RuntimeProjectionInput.current_job input) then false
  else if bool_decide (RuntimeProjectionInput.cellular_route_ready input = Some false)
  then false
  else if bool_decide (RuntimeProjectionInput.proxy_bind_ready input = Some false)
  then false
  else if bool_decide (RuntimeProjectionInput.local_serving_ready input = Some false)
  then false
  else RuntimeProjectionInput.serving input.

(** The final [match readiness] of [derive_degradation_reason]. *)
Definition readiness_reason (readiness : RuntimeReadiness.t) (serving : bool)
    : option DegradationReasonCode.t :=
  match readiness with
  | RuntimeReadiness.Booting => Some DegradationReasonCode.Booting
  | RuntimeReadiness.WaitingWireguard => Some DegradationReasonCode.WireguardPathNotReady
  | RuntimeReadiness.WaitingCellular => Some DegradationReasonCode.CellularRouteMissing
  | RuntimeReadiness.StartingProxy => Some DegradationReasonCode.ProxyStarting
  | RuntimeReadiness.Quarantined => Some DegradationReasonCode.Quarantined
  | RuntimeReadiness.Unknown => Some DegradationReasonCode.UnknownState
  | RuntimeReadiness.Healthy =>
      if serving then None else Some DegradationReasonCode.LocalProbeFailed
  end.

Definition derive_degradation_reason (readiness : RuntimeReadiness.t) (serving : bool)
    (input : RuntimeProjectionInput.t) : option DegradationReasonCode.t :=
  if is_some (RuntimeProjectionInput.current_job input)
  then Some DegradationReasonCode.RotationInProgress
  else
    match readiness with
    | RuntimeReadiness.WaitingWireguard =>
        Some DegradationReasonCode.WireguardPathNotReady
    | RuntimeReadiness.WaitingCellular =>
        Some DegradationReasonCode.CellularRouteMissing
    | _ =>
        if negb serving
           && bool_decide (RuntimeProjectionInput.cellular_route_ready input = Some false)
        then Some DegradationReasonCode.CellularRouteMissing
        else if negb serving
           && bool_decide (RuntimeProjectionInput.proxy_bind_ready input = Some false)
        then Some DegradationReasonCode.ProxyBindFailed
        else if negb serving
           && bool_decide (RuntimeProjectionInput.local_serving_ready input = Some false)
        then Some DegradationReasonCode.LocalProbeFailed
        else readiness_reason readiness serving
    end.

Definition project_runtime (input : RuntimeProjectionInput.t) : RuntimeProjection.t :=
  let readiness := RuntimeReadiness.parse (RuntimeProjectionInput.readiness_state input) in
  let serving := normalize_serving readiness input in
  let reason := derive_degradation_reason readiness serving input in
  let availability :=
    if bool_decide (readiness = RuntimeReadiness.Healthy) && serving
       && RuntimeProjectionInput.publicly_serving input
    then Availability.Ready
    else Availability.Degraded in
  RuntimeProjection.mk
    (RuntimeReadiness.to_string readiness)
    serving
    (Availability.to_string availability)
    (DegradationReasonCode.to_string <$> reason)
    (degradation_reason_message <$> reason).

(** ** Lifecycle adapter *)

Definition state_from_legacy_readiness (raw : string) : RuntimeState :=
  match RuntimeReadiness.parse raw with
  | RuntimeReadiness.Booting => Booting
  | RuntimeReadiness.WaitingWireguard => WaitingTunnel
  | RuntimeReadiness.WaitingCellular => WaitingCellular
  | RuntimeReadiness.StartingProxy => StartingProxy
  | RuntimeReadiness.Healthy => Healthy
  | RuntimeReadiness.Quarantined => Quarantined
  | RuntimeReadiness.Unknown => Recovering
  end.

Definition legacy_readiness_from_state (s : RuntimeState) : RuntimeReadiness.t :=
  match s with
  | Booting => RuntimeReadiness.Booting
  | WaitingTunnel => RuntimeReadiness.WaitingWireguard
  | WaitingCellular => RuntimeReadiness.WaitingCellular
  | StartingProxy => RuntimeReadiness.StartingProxy
  | Healthy => RuntimeReadiness.Healthy
  | Recovering => RuntimeReadiness.WaitingCellular
  | Quarantined => RuntimeReadiness.Quarantined
  end.

(** ** Properties *)

Lemma readiness_parse_to_string (r : RuntimeReadiness.t) :
  RuntimeReadiness.parse (RuntimeReadiness.to_string r) = r.
Proof. by destruct r. Qed.

(** The facts under which a runtime counts as serving. *)
Definition facts_serving (i : RuntimeProjectionInput.t) : Prop :=
  RuntimeReadiness.parse (RuntimeProjectionInput.readiness_state i)
    = RuntimeReadiness.Healthy /\
  RuntimeProjectionInput.current_job i = None /\
  RuntimeProjectionInput.cellular_route_ready i <> Some false /\
  RuntimeProjectionInput.proxy_bind_ready i <> Some false /\
  RuntimeProjectionInput.local_serving_ready i <> Some false /\
  RuntimeProjectionInput.serving i = true.

Lemma normalize_serving_true (i : RuntimeProjectionInput.t) :
  normalize_serving
    (RuntimeReadiness.parse (RuntimeProjectionInput.readiness_state i)) i = true
  <-> facts_serving i.
Proof.
  unfold normalize_serving, facts_serving, is_some.
  destruct (RuntimeProjectionInput.current_job i);
    repeat case_bool_decide; cbn; split; intros; intuition congruence.
Qed.

Lemma derive_reason_None readiness i :
  derive_degradation_reason readiness (normalize_serving readiness i) i = None
  <-> normalize_serving readiness i = true.
Proof.
  unfold derive_degradation_reason, normalize_serving, is_some.
  destruct (RuntimeProjectionInput.current_job i).
  { case_bool_decide; cbn; done. }
  destruct readiness; cbn; repeat case_bool_decide; cbn; try done;
    destruct (RuntimeProjectionInput.serving i); cbn; done.
Qed.

(** A device is projected as available exactly when it reports healthy and
    serving, no rotation job is running, no readiness fact is known false, and
    the public probe confirms it. *)
Theorem project_runtime_ready_iff (i : RuntimeProjectionInput.t) :
  RuntimeProjection.availability (project_runtime i) = "ready" <->
  facts_serving i /\ RuntimeProjectionInput.publicly_serving i = true.
Proof.
  rewrite <- normalize_serving_true. unfold project_runtime. cbn.
  set (readiness := RuntimeReadiness.parse _).
  destruct (normalize_serving readiness i) eqn:Hn.
  - apply normalize_serving_true in Hn as Hf. destruct Hf as [Hr _].
    rewrite bool_decide_eq_true_2 by exact Hr.
    by destruct (RuntimeProjectionInput.publicly_serving i); cbn; split; [|intros []| |intros []].
  - rewrite andb_false_r. cbn. by split; [|intros []].
Qed.

(** A projection carries a degradation reason, code and message together,
    exactly when it is not serving; a running rotation job is always the
    reported reason. *)
Theorem project_runtime_reason_iff_not_serving (i : RuntimeProjectionInput.t) :
  let p := project_runtime i in
  (RuntimeProjection.degradation_reason_code p = None <->
   RuntimeProjection.serving p = true) /\
  (RuntimeProjection.serving_failure_reason p = None <->
   RuntimeProjection.serving p = true) /\
  (is_Some (RuntimeProjectionInput.current_job i) ->
   RuntimeProjection.degradation_reason_code p = Some "rotation_in_progress" /\
   RuntimeProjection.serving p = false).
Proof.
  cbn. set (readiness := RuntimeReadiness.parse _).
  rewrite !fmap_None, !derive_reason_None. split; [done|]. split; [done|].
  intros [j Hj]. unfold derive_degradation_reason, normalize_serving.
  rewrite Hj. cbn. split; [done|]. by case_bool_decide.
Qed.

(** The facts re-projected after a public probe: readiness and serving as the
    projection left them. *)
Definition reproject_input (i : RuntimeProjectionInput.t) (publicly_serving : bool)
    : RuntimeProjectionInput.t :=
  let p := project_runtime i in
  RuntimeProjectionInput.mk
    (RuntimeProjection.readiness_state p) (RuntimeProjection.serving p)
    publicly_serving
    (RuntimeProjectionInput.current_job i)
    (RuntimeProjectionInput.cellular_route_ready i)
    (RuntimeProjectionInput.proxy_bind_ready i)
    (RuntimeProjectionInput.local_serving_ready i).

(** Projecting is idempotent: re-projecting stored facts with the same
    public probe result changes nothing, and a different probe result changes
    the availability only. *)
Lemma project_runtime_idempotent (i : RuntimeProjectionInput.t) (probe : bool) :
  let p := project_runtime i in
  let q := project_runtime (reproject_input i probe) in
  RuntimeProjection.readiness_state q = RuntimeProjection.readiness_state p /\
  RuntimeProjection.serving q = RuntimeProjection.serving p /\
  RuntimeProjection.degradation_reason_code q
    = RuntimeProjection.degradation_reason_code p /\
  RuntimeProjection.serving_failure_reason q
    = RuntimeProjection.serving_failure_reason p /\
  (probe = RuntimeProjectionInput.publicly_serving i -> q = p).
Proof.
  assert (forall r, normalize_serving r (reproject_input i probe) = normalize_serving r i
    \/ RuntimeReadiness.parse (RuntimeProjectionInput.readiness_state i) <> r) as Hn.
  { intros r. destruct (decide (RuntimeReadiness.parse
      (RuntimeProjectionInput.readiness_state i) = r)) as [<-|]; [left|by right].
    unfold normalize_serving. cbn. unfold normalize_serving.
    repeat case_match; done. }
  intros p q. subst p q. unfold project_runtime. cbn zeta.
  assert (RuntimeReadiness.parse (RuntimeProjectionInput.readiness_state
    (reproject_input i probe)) = RuntimeReadiness.parse
    (RuntimeProjectionInput.readiness_state i)) as Hr
    by apply readiness_parse_to_string.
  rewrite Hr.
  destruct (Hn (RuntimeReadiness.parse (RuntimeProjectionInput.readiness_state i)))
    as [Hs|]; [|done].
  rewrite Hs. cbn [RuntimeProjectionInput.publicly_serving reproject_input].
  repeat split; try done. intros ->. done.
Qed.

(** The neutral lifecycle state survives the public readiness vocabulary,
    except that recovery is published as waiting for cellular; unknown
    readiness text is read as recovery. *)
Theorem legacy_readiness_roundtrip (s : RuntimeState) (raw : string) :
  (s <> Recovering ->
   state_from_legacy_readiness
     (RuntimeReadiness.to_string (legacy_readiness_from_state s)) = s) /\
  state_from_legacy_readiness
    (RuntimeReadiness.to_string (legacy_readiness_from_state Recovering))
    = WaitingCellular /\
  (state_from_legacy_readiness raw = Recovering <->
   RuntimeReadiness.parse raw = RuntimeReadiness.Unknown).
Proof.
  unfold state_from_legacy_readiness. rewrite !readiness_parse_to_string.
  split; [by destruct s|]. split; [done|]. by destruct (RuntimeReadiness.parse raw).
Qed.
