(* ===== verification/ProviderLifecycle.v ===== *)
(** * Provider lifecycle

    [crates/proxy-core/src/provider_lifecycle.rs] and
    [crates/proxy-core/src/provider_create_dispatch.rs]: planning against a VM
    provider under exact ownership, and recovery of a create that was
    dispatched but whose result was lost. *)

From stdpp Require Import base strings list.
From Stdlib Require Import ZArith Lia String.
From S2P Require Import Prelude Text.
Local Open Scope string_scope.
Local Open Scope Z_scope.
Local Open Scope rust_scope.

(** ** Values *)

Definition OWNERSHIP_PROJECT : string := "mobile-proxy".
Definition OWNERSHIP_MANAGER : string := "mobile-proxy".

Inductive LifecycleScope := Acceptance | Production.

Definition LifecycleScope_as_str (s : LifecycleScope) : string :=
  match s with
  | Acceptance => "acceptance"
  | Production => "production"
  end.

#[export] Instance LifecycleScope_eq_dec : EqDecision LifecycleScope.
Proof. solve_decision. Defined.

Inductive LifecycleValueError :=
| InvalidOwnershipIntent
| InvalidGeneration
| GenerationOverflow
| InvalidProviderResourceId.

Definition LifecycleValueError_fmt (e : LifecycleValueError) : string :=
  match e with
  | InvalidOwnershipIntent => "invalid ownership intent"
  | InvalidGeneration => "generation must be positive"
  | GenerationOverflow => "generation overflow"
  | InvalidProviderResourceId => "invalid provider resource identity"
  end.

Module OwnershipIntent.
Record t := mk { scope : LifecycleScope; id : string }.

#[global] Instance eq_dec : EqDecision t.
Proof. solve_decision. Defined.

Definition id_byte (b : Z) : bool :=
  is_ascii_alphanumeric b || (b =? 45) || (b =? 95) || (b =? 46) || (b =? 58).

Definition new (scope : LifecycleScope) (id : string) : result t LifecycleValueError :=
  if bool_decide (id = "") || (160 <? len id) || negb (all_bytes id_byte id)
  then Err InvalidOwnershipIntent
  else Ok (mk scope id).
End OwnershipIntent.

Module Generation.
Record t := mk { get : Z }.

#[global] Instance eq_dec : EqDecision t.
Proof. solve_decision. Defined.

Definition INITIAL : t := mk 1.

Definition new (value : Z) : result t LifecycleValueError :=
  if value =? 0 then Err InvalidGeneration else Ok (mk value).

Definition next (g : t) : result t LifecycleValueError :=
  ok_or (mk <$> checked_add_u64 (get g) 1) GenerationOverflow.
End Generation.

Module ProviderResourceId.
Record t := mk { as_str : string }.

#[global] Instance eq_dec : EqDecision t.
Proof. solve_decision. Defined.

Definition new (value : string) : result t LifecycleValueError :=
  if bool_decide (value = "") || (160 <? len value) || any_char is_whitespace value
  then Err InvalidProviderResourceId
  else Ok (mk value).
End ProviderResourceId.

(** ** Ownership metadata and observations *)

Module OwnershipMetadata.
Record t := mk {
  project : string;
  managed_by : string;
  scope : LifecycleScope;
  intent_id : string;
  generation : Generation.t;
}.

#[global] Instance eq_dec : EqDecision t.
Proof. solve_decision. Defined.

Definition exact (intent : OwnershipIntent.t) (generation : Generation.t) : t :=
  mk OWNERSHIP_PROJECT OWNERSHIP_MANAGER (OwnershipIntent.scope intent)
     (OwnershipIntent.id intent) generation.

Definition claims_intent (m : t) (intent : OwnershipIntent.t) : bool :=
  bool_decide (project m = OWNERSHIP_PROJECT)
  && bool_decide (managed_by m = OWNERSHIP_MANAGER)
  && bool_decide (scope m = OwnershipIntent.scope intent)
  && bool_decide (intent_id m = OwnershipIntent.id intent).

Definition matches_except_generation (m other : t) : bool :=
  bool_decide (project m = project other)
  && bool_decide (managed_by m = managed_by other)
  && bool_decide (scope m = scope other)
  && bool_decide (intent_id m = intent_id other).
End OwnershipMetadata.

Inductive OwnershipObservation :=
| Exact (m : OwnershipMetadata.t)
| Missing
| Conflicting.

#[export] Instance OwnershipObservation_eq_dec : EqDecision OwnershipObservation.
Proof. solve_decision. Defined.

Module ObservedVm.
Record t := mk {
  provider_id : ProviderResourceId.t;
  display_name : string;
  ownership : OwnershipObservation;
  spec_fingerprint : string;
}.

#[global] Instance eq_dec : EqDecision t.
Proof. solve_decision. Defined.
End ObservedVm.

Module VmBinding.
Record t := mk {
  intent : OwnershipIntent.t;
  provider_id : ProviderResourceId.t;
  generation : Generation.t;
}.

#[global] Instance eq_dec : EqDecision t.
Proof. solve_decision. Defined.
End VmBinding.

Module DesiredVm.
Record t := mk {
  intent : OwnershipIntent.t;
  display_name : string;
  spec_fingerprint : string;
}.
End DesiredVm.

Module VerifiedMutationTarget.
Record t := mk {
  provider_id : ProviderResourceId.t;
  intent : OwnershipIntent.t;
  generation : Generation.t;
}.

Definition expected_ownership (v : t) : OwnershipMetadata.t :=
  OwnershipMetadata.exact (intent v) (generation v).

Definition replacement_binding (v : t) (replacement_id : ProviderResourceId.t)
    : result VmBinding.t LifecycleValueError :=
  let? next := Generation.next (generation v) in
  Ok (VmBinding.mk (intent v) replacement_id next).
End VerifiedMutationTarget.

Module PlannedCreate.
Record t := mk { intent : OwnershipIntent.t; generation : Generation.t }.

Definition ownership (p : t) : OwnershipMetadata.t :=
  OwnershipMetadata.exact (intent p) (generation p).

Definition binding_after_create (p : t) (provider_id : ProviderResourceId.t)
    : VmBinding.t :=
  VmBinding.mk (intent p) provider_id (generation p).
End PlannedCreate.

Inductive ReconcilePlan :=
| Create (p : PlannedCreate.t)
| PlanNoop (v : VerifiedMutationTarget.t)
| Reconfigure (v : VerifiedMutationTarget.t).

Inductive MutationKind := MStop | MReconfigure | MSnapshot | MDelete | MReplace.

Module LifecycleError.
Inductive t :=
| OwnershipIntentMismatch | ExpectedGenerationRequired
| UnexpectedGenerationForCreate | StaleGeneration | ProviderResourceNotFound
| ProviderIdentityMismatch | MissingOwnership | OwnershipMetadataMismatch
| ConflictingOwnershipMetadata | AmbiguousResourceSet | DuplicateOwnershipClaim
| NeighboringOrUnboundResource.

Definition fmt (e : t) : string :=
  match e with
  | OwnershipIntentMismatch => "binding ownership intent does not match desired intent"
  | ExpectedGenerationRequired => "expected generation is required for a bound resource"
  | UnexpectedGenerationForCreate =>
      "expected generation is forbidden when no binding exists"
  | StaleGeneration => "expected or provider ownership generation is stale"
  | ProviderResourceNotFound => "bound provider resource was not found"
  | ProviderIdentityMismatch => "provider resource identity does not match the binding"
  | MissingOwnership => "bound provider resource is missing ownership metadata"
  | OwnershipMetadataMismatch =>
      "provider ownership metadata does not exactly match the binding"
  | ConflictingOwnershipMetadata =>
      "provider ownership metadata is conflicting or ambiguous"
  | AmbiguousResourceSet => "multiple neighbouring resources are ambiguous"
  | DuplicateOwnershipClaim =>
      "multiple provider resources claim the same ownership intent"
  | NeighboringOrUnboundResource =>
      "neighbouring or unbound provider resource cannot be managed"
  end.
End LifecycleError.

(** ** Planning *)

(** Does the resource carry exact ownership metadata for the intent? *)
Definition claims (intent : OwnershipIntent.t) (r : ObservedVm.t) : bool :=
  match ObservedVm.ownership r with
  | Exact m => OwnershipMetadata.claims_intent m intent
  | _ => false
  end.

Definition ownership_claims (observed : list ObservedVm.t)
    (intent : OwnershipIntent.t) : list ObservedVm.t :=
  List.filter (claims intent) observed.

Definition is_conflicting (r : ObservedVm.t) : bool :=
  match ObservedVm.ownership r with Conflicting => true | _ => false end.

Definition same_name (observed : list ObservedVm.t) (name : string)
    : list ObservedVm.t :=
  List.filter (fun r => bool_decide (ObservedVm.display_name r = name)) observed.

Definition find_provider (observed : list ObservedVm.t) (id : ProviderResourceId.t)
    : option ObservedVm.t :=
  List.find (fun r => bool_decide (ObservedVm.provider_id r = id)) observed.

(** The test of the resource observed under the bound provider identity. *)
Definition check_bound_observation (expected : OwnershipMetadata.t)
    (o : option ObservedVm.t) : result unit LifecycleError.t :=
  match o with
  | None => Ok tt
  | Some r =>
      match ObservedVm.ownership r with
      | Missing => Err LifecycleError.MissingOwnership
      | Conflicting => Err LifecycleError.ConflictingOwnershipMetadata
      | Exact m =>
          if negb (bool_decide (m = expected)) then
            if OwnershipMetadata.matches_except_generation m expected
            then Err LifecycleError.StaleGeneration
            else Err LifecycleError.OwnershipMetadataMismatch
          else Ok tt
      end
  end.

Definition resolve_bound_resource (binding : VmBinding.t)
    (observed : list ObservedVm.t) (expected_generation : Generation.t)
    : result VerifiedMutationTarget.t LifecycleError.t :=
  if negb (bool_decide (VmBinding.generation binding = expected_generation))
  then Err LifecycleError.StaleGeneration
  else
  let expected_metadata :=
    OwnershipMetadata.exact (VmBinding.intent binding) (VmBinding.generation binding) in
  let? _ := check_bound_observation expected_metadata
              (find_provider observed (VmBinding.provider_id binding)) in
  let claimants := ownership_claims observed (VmBinding.intent binding) in
  if (1 <? List.length claimants)%nat then Err LifecycleError.DuplicateOwnershipClaim
  else
  let? resource := ok_or (head claimants) LifecycleError.ProviderResourceNotFound in
  if negb (bool_decide (ObservedVm.provider_id resource = VmBinding.provider_id binding))
  then Err LifecycleError.ProviderIdentityMismatch
  else
  match ObservedVm.ownership resource with
  | Exact m =>
      if negb (bool_decide (m = expected_metadata)) then
        if OwnershipMetadata.matches_except_generation m expected_metadata
        then Err LifecycleError.StaleGeneration
        else Err LifecycleError.OwnershipMetadataMismatch
      else Ok (VerifiedMutationTarget.mk (VmBinding.provider_id binding)
                 (VmBinding.intent binding) (VmBinding.generation binding))
  | _ => Err LifecycleError.MissingOwnership
  end.

Definition plan_unbound (observed : list ObservedVm.t) (desired : DesiredVm.t)
    (expected_generation : option Generation.t)
    : result ReconcilePlan LifecycleError.t :=
  if is_some expected_generation then Err LifecycleError.UnexpectedGenerationForCreate
  else
  let claimants := ownership_claims observed (DesiredVm.intent desired) in
  if (1 <? List.length claimants)%nat then Err LifecycleError.DuplicateOwnershipClaim
  else if (List.length claimants =? 1)%nat then
    Err LifecycleError.NeighboringOrUnboundResource
  else
  let named := same_name observed (DesiredVm.display_name desired) in
  if existsb is_conflicting named then Err LifecycleError.ConflictingOwnershipMetadata
  else if (1 <? List.length named)%nat then Err LifecycleError.AmbiguousResourceSet
  else if (List.length named =? 1)%nat then Err LifecycleError.NeighboringOrUnboundResource
  else Ok (Create (PlannedCreate.mk (DesiredVm.intent desired) Generation.INITIAL)).

Definition plan_bound (binding : VmBinding.t) (observed : list ObservedVm.t)
    (desired : DesiredVm.t) (expected_generation : option Generation.t)
    : result ReconcilePlan LifecycleError.t :=
  if negb (bool_decide (VmBinding.intent binding = DesiredVm.intent desired))
  then Err LifecycleError.OwnershipIntentMismatch
  else
  let? expected := ok_or expected_generation LifecycleError.ExpectedGenerationRequired in
  let? target := resolve_bound_resource binding observed expected in
  let? resource := ok_or (find_provider observed (VerifiedMutationTarget.provider_id target))
                         LifecycleError.ProviderResourceNotFound in
  if bool_decide (ObservedVm.spec_fingerprint resource = DesiredVm.spec_fingerprint desired)
  then Ok (PlanNoop target)
  else Ok (Reconfigure target).

Definition plan_present (binding : option VmBinding.t) (observed : list ObservedVm.t)
    (desired : DesiredVm.t) (expected_generation : option Generation.t)
    : result ReconcilePlan LifecycleError.t :=
  match binding with
  | None => plan_unbound observed desired expected_generation
  | Some b => plan_bound b observed desired expected_generation
  end.

Definition authorize_mutation (binding : VmBinding.t) (observed : list ObservedVm.t)
    (expected_generation : Generation.t) (_kind : MutationKind)
    : result VerifiedMutationTarget.t LifecycleError.t :=
  resolve_bound_resource binding observed expected_generation.

(** ** Properties *)

Lemma claims_exact intent gen r :
  ObservedVm.ownership r = Exact (OwnershipMetadata.exact intent gen) ->
  claims intent r = true.
Proof.
  intros H. unfold claims. rewrite H. unfold OwnershipMetadata.claims_intent. cbn.
  by rewrite !bool_decide_eq_true_2.
Qed.

Lemma matches_except_generation_exact m intent gen :
  OwnershipMetadata.matches_except_generation m (OwnershipMetadata.exact intent gen)
  = OwnershipMetadata.claims_intent m intent.
Proof. done. Qed.

Lemma check_bound_observation_Ok expected o :
  check_bound_observation expected o = Ok tt <->
  forall r, o = Some r -> ObservedVm.ownership r = Exact expected.
Proof.
  destruct o as [r|]; cbn; [|split; [intros _ r [=]|done]].
  destruct (ObservedVm.ownership r) as [m| |] eqn:E; cbn.
  - case_bool_decide; cbn.
    + split; [|done]. intros _ r' [= <-]. congruence.
    + split; [by case_if|]. intros Hr. specialize (Hr r eq_refl). congruence.
  - split; [done|]. intros Hr. specialize (Hr r eq_refl). congruence.
  - split; [done|]. intros Hr. specialize (Hr r eq_refl). congruence.
Qed.

Lemma find_provider_NoDup observed r :
  NoDup (map ObservedVm.provider_id observed) -> In r observed ->
  find_provider observed (ObservedVm.provider_id r) = Some r.
Proof.
  unfold find_provider. induction observed as [|x l IH]; cbn; [done|].
  intros [Hni Hnd]%NoDup_cons Hin. case_bool_decide as He.
  - destruct Hin as [->|Hin]; [done|]. destruct Hni. rewrite He.
    apply list_elem_of_In, in_map, Hin.
  - destruct Hin as [->|Hin]; [done|]. by apply IH.
Qed.

(** The resource a mutation may touch: the only one that claims the intent,
    seen under the bound identity, with exactly the bound ownership. *)
Definition sole_owned_resource (b : VmBinding.t) (observed : list ObservedVm.t)
    (r : ObservedVm.t) : Prop :=
  ownership_claims observed (VmBinding.intent b) = [r] /\
  find_provider observed (VmBinding.provider_id b) = Some r /\
  ObservedVm.ownership r
    = Exact (OwnershipMetadata.exact (VmBinding.intent b) (VmBinding.generation b)).

Lemma head_claims_singleton {A} (l : list A) (x : A) :
  (1 <? List.length l)%nat = false -> head l = Some x -> l = [x].
Proof.
  destruct l as [|y [|z l]]; cbn; intros; [done|by inv_result; subst|done].
Qed.

Lemma resolve_bound_resource_Ok b observed g t :
  resolve_bound_resource b observed g = Ok t <->
  g = VmBinding.generation b /\
  t = VerifiedMutationTarget.mk (VmBinding.provider_id b) (VmBinding.intent b)
        (VmBinding.generation b) /\
  exists r, sole_owned_resource b observed r.
Proof.
  unfold resolve_bound_resource, sole_owned_resource. split.
  - intros H. case_bool_decide as Hg; cbn in H; [|done].
    apply result_bind_Ok in H as ([] & Hchk & H). case_if_in H; [done|].
    apply result_bind_Ok in H as (r & Hr & H). apply ok_or_Ok in Hr.
    case_bool_decide as Hid; cbn in H; [|done].
    destruct (ObservedVm.ownership r) as [m| |] eqn:Ho; [|done|done].
    case_bool_decide as Hm; cbn in H; [|by case_if_in H]. inv_result. subst.
    split; [done|]. split; [done|]. exists r.
    apply head_claims_singleton in Hr as Hs; [|done]. split; [done|]. split; [|done].
    pose proof (proj1 (check_bound_observation_Ok _ _) Hchk) as Hc.
    assert (In r (ownership_claims observed (VmBinding.intent b))) as Hin
      by (rewrite Hs; left; done).
    apply filter_In in Hin as [Hin _].
    destruct (find_provider observed (VmBinding.provider_id b)) as [r'|] eqn:Hf.
    + apply list_find_In in Hf as Hf'. destruct Hf' as [Hin' Hid'].
      assert (In r' (ownership_claims observed (VmBinding.intent b))) as Hcl.
      { apply filter_In. split; [done|]. eapply claims_exact, Hc. done. }
      rewrite Hs in Hcl. destruct Hcl as [->|[]]. done.
    + eapply find_none in Hf; [|exact Hin]. cbn in Hf.
      by rewrite bool_decide_eq_true_2 in Hf.
  - intros (-> & -> & r & Hcl & Hf & Ho).
    rewrite bool_decide_eq_true_2 by done. cbn [negb].
    rewrite Hf, Hcl. cbn [result_bind check_bound_observation].
    rewrite Ho, bool_decide_eq_true_2 by done. cbn.
    apply list_find_In in Hf as [_ Hid]. bools.
    by rewrite Ho, !bool_decide_eq_true_2 by done.
Qed.

(** C20: a mutation of any kind is authorised exactly for the bound generation,
    when one resource and no other claims the intent, it is the one observed
    under the bound provider identity, and its ownership metadata matches the
    binding exactly; the authorised target is the binding itself. *)
Theorem authorize_mutation_iff (b : VmBinding.t) (observed : list ObservedVm.t)
    (g : Generation.t) (kind : MutationKind) (t : VerifiedMutationTarget.t) :
  authorize_mutation b observed g kind = Ok t <->
  g = VmBinding.generation b /\
  t = VerifiedMutationTarget.mk (VmBinding.provider_id b) (VmBinding.intent b)
        (VmBinding.generation b) /\
  exists r, sole_owned_resource b observed r.
Proof. apply resolve_bound_resource_Ok. Qed.

Lemma same_name_nil observed name :
  same_name observed name = [] <->
  forall r, In r observed -> ObservedVm.display_name r <> name.
Proof.
  unfold same_name. rewrite filter_nil_iff.
  split; intros H r Hr; specialize (H r Hr); by apply bool_decide_eq_false in H || apply bool_decide_eq_false.
Qed.

Lemma length_not_many {A} (l : list A) :
  (1 <? List.length l)%nat = false -> (List.length l =? 1)%nat = false -> l = [].
Proof.
  destruct l as [|x [|y l]]; cbn; try done.
Qed.

(** Without a binding, the plan is to create exactly when no expected
    generation is given, no observed resource claims the intent and none bears
    the desired name; the plan is then generation 1 of the desired intent.  An
    existing resource is never adopted. *)
Theorem plan_unbound_creates_iff (observed : list ObservedVm.t) (desired : DesiredVm.t)
    (eg : option Generation.t) (plan : ReconcilePlan) :
  plan_present None observed desired eg = Ok plan <->
  eg = None /\
  plan = Create (PlannedCreate.mk (DesiredVm.intent desired) Generation.INITIAL) /\
  forall r, In r observed ->
    claims (DesiredVm.intent desired) r = false /\
    ObservedVm.display_name r <> DesiredVm.display_name desired.
Proof.
  cbn [plan_present]. unfold plan_unbound. split.
  - intros H. destruct eg as [g|]; cbn in H; [done|].
    repeat (case_if_in H; [done|]). inv_result. subst. repeat split; try done.
    + eapply filter_nil_iff; [|done]. by apply length_not_many.
    + eapply same_name_nil; [|done]. by apply length_not_many.
  - intros (-> & -> & Hobs). cbn.
    assert (ownership_claims observed (DesiredVm.intent desired) = []) as ->
      by (apply filter_nil_iff; apply Hobs).
    assert (same_name observed (DesiredVm.display_name desired) = []) as ->
      by (apply same_name_nil; apply Hobs).
    done.
Qed.

Lemma plan_bound_Ok (b : VmBinding.t) (observed : list ObservedVm.t)
    (desired : DesiredVm.t) (eg : option Generation.t) (plan : ReconcilePlan) :
  plan_present (Some b) observed desired eg = Ok plan <->
  VmBinding.intent b = DesiredVm.intent desired /\
  eg = Some (VmBinding.generation b) /\
  exists r, sole_owned_resource b observed r /\
  let target := VerifiedMutationTarget.mk (VmBinding.provider_id b)
                  (VmBinding.intent b) (VmBinding.generation b) in
  plan = (if bool_decide (ObservedVm.spec_fingerprint r
                          = DesiredVm.spec_fingerprint desired)
          then PlanNoop target else Reconfigure target).
Proof.
  cbn [plan_present]. unfold plan_bound. split.
  - intros H. case_bool_decide as Hi; cbn in H; [|done].
    apply result_bind_Ok in H as (g & Hg & H). apply ok_or_Ok in Hg as ->.
    apply result_bind_Ok in H as (t & Ht & H).
    apply resolve_bound_resource_Ok in Ht as (-> & -> & r & Hsole).
    apply result_bind_Ok in H as (r' & Hr' & H). apply ok_or_Ok in Hr'. cbn in Hr'.
    pose proof Hsole as (_ & Hf & _). rewrite Hf in Hr'. inv_result. subst r'.
    split; [done|]. split; [done|]. exists r. split; [done|]. cbn.
    case_bool_decide; by inv_result.
  - intros (Hi & -> & r & Hsole & ->).
    rewrite bool_decide_eq_true_2 by done. cbn [negb].
    assert (resolve_bound_resource b observed (VmBinding.generation b)
      = Ok (VerifiedMutationTarget.mk (VmBinding.provider_id b) (VmBinding.intent b)
              (VmBinding.generation b))) as Ht.
    { apply resolve_bound_resource_Ok. eauto. }
    cbn [ok_or result_bind]. rewrite Ht. cbn [result_bind].
    destruct Hsole as (_ & Hf & _). cbn [VerifiedMutationTarget.provider_id].
    rewrite Hf. cbn. by case_bool_decide.
Qed.

(** With a binding, a plan exists exactly when the binding is for the
    desired intent, the expected generation is the bound one and the bound
    resource is the sole owned one; it is a no-op or a reconfiguration of that
    resource according to its observed specification, never a create. *)
Theorem plan_bound_iff (b : VmBinding.t) (observed : list ObservedVm.t)
    (desired : DesiredVm.t) (eg : option Generation.t) (plan : ReconcilePlan) :
  plan_present (Some b) observed desired eg = Ok plan <->
  VmBinding.intent b = DesiredVm.intent desired /\
  eg = Some (VmBinding.generation b) /\
  exists r, sole_owned_resource b observed r /\
  let target := VerifiedMutationTarget.mk (VmBinding.provider_id b)
                  (VmBinding.intent b) (VmBinding.generation b) in
  plan = (if bool_decide (ObservedVm.spec_fingerprint r
                          = DesiredVm.spec_fingerprint desired)
          then PlanNoop target else Reconfigure target).
Proof. apply plan_bound_Ok. Qed.

(** Replacing a verified target keeps the intent, takes the new provider
    identity and advances the generation by one, failing only at the top of
    the [u64] range; the old generation is then refused for the replacement. *)
Theorem replacement_binding_advances (t : VerifiedMutationTarget.t)
    (id : ProviderResourceId.t) (observed : list ObservedVm.t) (kind : MutationKind) :
  match VerifiedMutationTarget.replacement_binding t id with
  | Ok b =>
      VmBinding.intent b = VerifiedMutationTarget.intent t /\
      VmBinding.provider_id b = id /\
      Generation.get (VmBinding.generation b)
        = Generation.get (VerifiedMutationTarget.generation t) + 1 /\
      Generation.get (VmBinding.generation b) <= u64_max /\
      authorize_mutation b observed (VerifiedMutationTarget.generation t) kind
        = Err LifecycleError.StaleGeneration
  | Err e => e = GenerationOverflow /\
             u64_max <= Generation.get (VerifiedMutationTarget.generation t)
  end.
Proof.
  unfold VerifiedMutationTarget.replacement_binding, Generation.next, checked_add_u64.
  destruct (_ <=? u64_max) eqn:E; bools; cbn; [|split; [done|lia]].
  repeat split; try lia.
  unfold authorize_mutation, resolve_bound_resource.
  case_bool_decide as Hg; [|done]. cbn in Hg. apply (f_equal Generation.get) in Hg.
  cbn in Hg. lia.
Qed.
