(* ===== verification/ProviderCreateDispatch.v ===== *)
(** * Provider create dispatch

    [crates/proxy-core/src/provider_create_dispatch.rs]: the durable fence
    written before a create request is sent, and the recovery that decides,
    from what the provider shows, whether the request took effect. *)

From stdpp Require Import base strings list.
From Stdlib Require Import ZArith Lia String.
From S2P Require Import Prelude Text ProviderLifecycle.
Local Open Scope string_scope.
Local Open Scope Z_scope.
Local Open Scope rust_scope.

Module CreateDispatchFence.
Record t := mk {
  intent : OwnershipIntent.t;
  generation : Generation.t;
  display_name : string;
  spec_fingerprint : string;
}.

Definition ownership (f : t) : OwnershipMetadata.t :=
  OwnershipMetadata.exact (intent f) (generation f).
End CreateDispatchFence.

Module RecoveredCreate.
Record t := mk { fence : CreateDispatchFence.t; binding : VmBinding.t }.

Definition provider_id (r : t) : ProviderResourceId.t :=
  VmBinding.provider_id (binding r).
End RecoveredCreate.

Inductive CreateRecovery :=
| AwaitProvider
| Recovered (r : RecoveredCreate.t).

Module CreateDispatchError.
Inductive t :=
| OwnershipIntentMismatch | UnexpectedGeneration | DuplicateOwnershipClaim
| ConflictingOwnershipMetadata | AmbiguousResourceSet
| NeighboringOrUnboundResource | StaleGeneration | ObservedCreateMismatch.

Definition fmt (e : t) : string :=
  match e with
  | OwnershipIntentMismatch =>
      "create plan ownership intent does not match desired VM intent"
  | UnexpectedGeneration => "create dispatch must use generation 1"
  | DuplicateOwnershipClaim =>
      "multiple provider resources claim the dispatched ownership intent"
  | ConflictingOwnershipMetadata =>
      "same-name provider resource has conflicting ownership metadata"
  | AmbiguousResourceSet =>
      "multiple same-name provider resources make create recovery ambiguous"
  | NeighboringOrUnboundResource =>
      "same-name neighbouring or unbound provider resource blocks create recovery"
  | StaleGeneration =>
      "provider resource claims the dispatched intent with the wrong generation"
  | ObservedCreateMismatch =>
      "recovered provider resource does not match dispatched name or specification"
  end.
End CreateDispatchError.

Definition create_dispatch_fence_for_recovery (intent : OwnershipIntent.t)
    (generation : Generation.t) (desired : DesiredVm.t)
    : result CreateDispatchFence.t CreateDispatchError.t :=
  if negb (bool_decide (intent = DesiredVm.intent desired))
  then Err CreateDispatchError.OwnershipIntentMismatch
  else if negb (bool_decide (generation = Generation.INITIAL))
  then Err CreateDispatchError.UnexpectedGeneration
  else Ok (CreateDispatchFence.mk (DesiredVm.intent desired) generation
             (DesiredVm.display_name desired) (DesiredVm.spec_fingerprint desired)).

Definition create_dispatch_fence (plan : PlannedCreate.t) (desired : DesiredVm.t)
    : result CreateDispatchFence.t CreateDispatchError.t :=
  create_dispatch_fence_for_recovery (PlannedCreate.intent plan)
    (PlannedCreate.generation plan) desired.

Definition recover_dispatched_create (fence : CreateDispatchFence.t)
    (observed : list ObservedVm.t) : result CreateRecovery CreateDispatchError.t :=
  let claimants := List.filter (claims (CreateDispatchFence.intent fence)) observed in
  if (1 <? List.length claimants)%nat
  then Err CreateDispatchError.DuplicateOwnershipClaim
  else
  let named := List.filter (fun r => bool_decide
    (ObservedVm.display_name r = CreateDispatchFence.display_name fence)) observed in
  if existsb is_conflicting named
  then Err CreateDispatchError.ConflictingOwnershipMetadata
  else if (1 <? List.length named)%nat then Err CreateDispatchError.AmbiguousResourceSet
  else
  match head claimants with
  | None =>
      if (List.length named =? 1)%nat
      then Err CreateDispatchError.NeighboringOrUnboundResource
      else Ok AwaitProvider
  | Some resource =>
      if negb (List.length named =? 1)%nat
         || negb (is_some_and (head named) (fun r => bool_decide
              (ObservedVm.provider_id r = ObservedVm.provider_id resource)))
      then Err CreateDispatchError.ObservedCreateMismatch
      else
      match ObservedVm.ownership resource with
      | Exact m =>
          if negb (bool_decide (m = CreateDispatchFence.ownership fence))
          then Err CreateDispatchError.StaleGeneration
          else if negb (bool_decide (ObservedVm.spec_fingerprint resource
                                     = CreateDispatchFence.spec_fingerprint fence))
          then Err CreateDispatchError.ObservedCreateMismatch
          else Ok (Recovered (RecoveredCreate.mk fence
                 (VmBinding.mk (CreateDispatchFence.intent fence)
                    (ObservedVm.provider_id resource)
                    (CreateDispatchFence.generation fence))))
      | _ => (* unreachable!: the claim filter requires exact metadata *)
          Err CreateDispatchError.ObservedCreateMismatch
      end
  end.

(** ** Properties *)

(** What the observation must show for a dispatched create to count as done:
    one resource claims the intent, one resource bears the name, they have the
    same identity, and ownership and specification are the dispatched ones. *)
Definition create_took_effect (f : CreateDispatchFence.t)
    (observed : list ObservedVm.t) (r : ObservedVm.t) : Prop :=
  ownership_claims observed (CreateDispatchFence.intent f) = [r] /\
  (exists n, same_name observed (CreateDispatchFence.display_name f) = [n] /\
     ObservedVm.provider_id n = ObservedVm.provider_id r /\
     ObservedVm.ownership n <> Conflicting) /\
  ObservedVm.ownership r = Exact (CreateDispatchFence.ownership f) /\
  ObservedVm.spec_fingerprint r = CreateDispatchFence.spec_fingerprint f.

Lemma length_one {A} (l : list A) :
  (List.length l =? 1)%nat = true -> exists x, l = [x].
Proof. destruct l as [|x [|y l]]; cbn; intros; [done|eauto|done]. Qed.

Lemma existsb_not_conflicting n :
  existsb is_conflicting [n] = false <-> ObservedVm.ownership n <> Conflicting.
Proof.
  cbn. rewrite orb_false_r. unfold is_conflicting.
  by destruct (ObservedVm.ownership n).
Qed.

Lemma recover_Recovered_inv f observed rec :
  recover_dispatched_create f observed = Ok (Recovered rec) ->
  exists r, create_took_effect f observed r /\
    rec = RecoveredCreate.mk f (VmBinding.mk (CreateDispatchFence.intent f)
            (ObservedVm.provider_id r) (CreateDispatchFence.generation f)).
Proof.
  unfold recover_dispatched_create. intros H. repeat (case_if_in H; [done|]).
  destruct (head _) as [r|] eqn:Hh; [|by case_if_in H].
  apply head_claims_singleton in Hh; [|done]. case_if_in H; [done|]. bools.
  apply length_one in H0 as [n Hn].
  destruct (ObservedVm.ownership r) as [m| |] eqn:Ho; [|done|done].
  repeat (case_if_in H; [done|]). inv_result. bools. subst.
  exists r. split; [|done]. unfold create_took_effect.
  split; [done|]. split; [|done]. exists n. split; [done|].
  rewrite Hn in *. cbn in H1. bools. split; [done|].
  by apply existsb_not_conflicting.
Qed.

Lemma create_took_effect_recovers f observed r :
  create_took_effect f observed r ->
  recover_dispatched_create f observed =
    Ok (Recovered (RecoveredCreate.mk f (VmBinding.mk (CreateDispatchFence.intent f)
          (ObservedVm.provider_id r) (CreateDispatchFence.generation f)))).
Proof.
  intros (Hc & (n & Hn & Hid & Hcf) & Ho & Hs).
  unfold recover_dispatched_create.
  unfold ownership_claims, same_name in *. rewrite Hc, Hn.
  apply existsb_not_conflicting in Hcf. rewrite Hcf. cbn [List.length Nat.ltb Nat.leb].
  cbn -[bool_decide]. rewrite Hid, bool_decide_eq_true_2 by done. cbn -[bool_decide].
  by rewrite Ho, Hs, !bool_decide_eq_true_2 by done.
Qed.

(** Recovery reports the dispatched create as done exactly when the
    observation shows it took effect, and binds the identity the provider
    assigned under the dispatched intent and generation. *)
Theorem recover_dispatched_create_iff (f : CreateDispatchFence.t)
    (observed : list ObservedVm.t) (rec : RecoveredCreate.t) :
  recover_dispatched_create f observed = Ok (Recovered rec) <->
  exists r, create_took_effect f observed r /\
    rec = RecoveredCreate.mk f (VmBinding.mk (CreateDispatchFence.intent f)
            (ObservedVm.provider_id r) (CreateDispatchFence.generation f)).
Proof.
  split; [apply recover_Recovered_inv|].
  intros (r & Hr & ->). by apply create_took_effect_recovers.
Qed.

(** Recovery waits for the provider exactly when nothing observed claims
    the dispatched intent or bears the dispatched name. *)
Theorem recover_awaits_iff (f : CreateDispatchFence.t) (observed : list ObservedVm.t) :
  recover_dispatched_create f observed = Ok AwaitProvider <->
  forall r, In r observed ->
    claims (CreateDispatchFence.intent f) r = false /\
    ObservedVm.display_name r <> CreateDispatchFence.display_name f.
Proof.
  unfold recover_dispatched_create. split.
  - intros H. repeat (case_if_in H; [done|]).
    destruct (head _) as [r|] eqn:Hh.
    { case_if_in H; [done|]. destruct (ObservedVm.ownership r); [|done|done].
      by repeat (case_if_in H; [done|]). }
    case_if_in H; [done|]. intros r Hr. apply head_None in Hh. split.
    + eapply filter_nil_iff; [exact Hh|done].
    + eapply same_name_nil; [|done]. by apply length_not_many.
  - intros Hobs.
    assert (List.filter (claims (CreateDispatchFence.intent f)) observed = []) as ->
      by (apply filter_nil_iff; apply Hobs).
    assert (same_name observed (CreateDispatchFence.display_name f) = []) as Hn
      by (apply same_name_nil; apply Hobs).
    unfold same_name in Hn. by rewrite Hn.
Qed.

(** C21: the create path is coherent: after a fence, once the provider (whose
    listing gives each identity once) shows the create took effect, recovery
    yields a binding with which the next reconciliation is a no-op on that very
    resource, at generation 1. *)
Theorem create_then_reconcile_noop (desired : DesiredVm.t) (after : list ObservedVm.t)
    (plan : PlannedCreate.t) (f : CreateDispatchFence.t) (rec : RecoveredCreate.t) :
  NoDup (map ObservedVm.provider_id after) ->
  create_dispatch_fence plan desired = Ok f ->
  recover_dispatched_create f after = Ok (Recovered rec) ->
  plan_present (Some (RecoveredCreate.binding rec)) after desired
    (Some (VmBinding.generation (RecoveredCreate.binding rec)))
  = Ok (PlanNoop (VerifiedMutationTarget.mk (RecoveredCreate.provider_id rec)
          (DesiredVm.intent desired) Generation.INITIAL)).
Proof.
  intros Hnd Hf Hr.
  unfold create_dispatch_fence, create_dispatch_fence_for_recovery in Hf.
  case_bool_decide as Hi; cbn in Hf; [|done].
  case_bool_decide as Hg; cbn in Hf; [|done]. inv_result. subst f.
  apply recover_Recovered_inv in Hr as (r & (Hc & _ & Ho & Hs) & ->). rewrite Hg in *.
  cbn in Hc, Ho, Hs.
  apply plan_bound_Ok. cbn. split; [done|]. split; [done|]. exists r. split.
  - unfold sole_owned_resource. cbn. split; [done|]. split; [|done].
    apply find_provider_NoDup; [done|].
    assert (In r (ownership_claims after (DesiredVm.intent desired))) as Hin
      by (rewrite Hc; left; done).
    by apply filter_In in Hin as [Hin _].
  - by rewrite bool_decide_eq_true_2.
Qed.

(** ** A concrete create *)

Module DemoCreate.
Definition intent : OwnershipIntent.t := OwnershipIntent.mk Production "relay-1".
Definition desired : DesiredVm.t := DesiredVm.mk intent "relay" "spec-a".
Definition vm : ObservedVm.t :=
  ObservedVm.mk (ProviderResourceId.mk "vm-42") "relay"
    (Exact (OwnershipMetadata.exact intent Generation.INITIAL)) "spec-a".
Definition fence : CreateDispatchFence.t :=
  CreateDispatchFence.mk intent Generation.INITIAL "relay" "spec-a".
Definition recovered : RecoveredCreate.t :=
  RecoveredCreate.mk fence
    (VmBinding.mk intent (ProviderResourceId.mk "vm-42") Generation.INITIAL).

Lemma create_then_reconcile_noop_witness :
  plan_present (Some (RecoveredCreate.binding recovered)) [vm] desired
    (Some Generation.INITIAL)
  = Ok (PlanNoop (VerifiedMutationTarget.mk (ProviderResourceId.mk "vm-42") intent
                    Generation.INITIAL)).
Proof.
  apply (create_then_reconcile_noop desired [vm] (PlannedCreate.mk intent Generation.INITIAL)
           fence recovered).
  - repeat constructor; intros Hin; inversion Hin.
  - reflexivity.
  - reflexivity.
Defined.
End DemoCreate.
