(* ===== verification/TunnelModel.v ===== *)
(** * Reverse tunnel: wire model and event counters

    [crates/reverse-tunnel/src/model.rs]: protocol frames, client
    configuration, the bounded status vocabularies, the persisted event
    counters and the client and server snapshots. *)

From stdpp Require Import base strings list.
From Stdlib Require Import ZArith Lia String.
From S2P Require Import Prelude Foundation.
Local Open Scope string_scope.
Local Open Scope Z_scope.

(** ** Frames *)

Inductive ProxyProtocol := Mixed | Socks5 | Http.

#[export] Instance ProxyProtocol_eq_dec : EqDecision ProxyProtocol.
Proof. solve_decision. Defined.

Module TunnelHello.
Record t := mk {
  node_id : string;
  session_id : Uuid;
  protocol_version : Z;
  auth_token : string;
}.
End TunnelHello.

Module TunnelHeartbeat.
Record t := mk { node_id : string; session_id : Uuid; sequence : Z }.
End TunnelHeartbeat.

Inductive ClientFrame :=
| Hello (h : TunnelHello.t)
| Heartbeat (h : TunnelHeartbeat.t)
| ProxyStream (node_id : string) (session_id stream_id : Uuid) (auth_token : string)
| ProxyReserve (node_id : string) (session_id : Uuid) (auth_token : string).

Inductive ServerFrame :=
| OpenProxy (stream_id : Uuid) (protocol : ProxyProtocol)
| ReserveKeepalive.

#[export] Instance ServerFrame_eq_dec : EqDecision ServerFrame.
Proof. solve_decision. Defined.

(** ** Client configuration *)

Inductive IpAddr :=
| V4 (octets : list Z)
| V6 (octets : list Z).

Record SocketAddr := mk_addr { addr_ip : IpAddr; addr_port : Z }.

Inductive TunnelTransport :=
| TransportTcp
| TransportQuic (server_name : string) (server_cert_der : list Z)
                (server_key_der : option (list Z))
| TransportHybrid (server_name : string) (server_cert_der : list Z)
                  (server_key_der : option (list Z)).

Definition is_quic_first (t : TunnelTransport) : bool :=
  match t with
  | TransportQuic _ _ _ | TransportHybrid _ _ _ => true
  | TransportTcp => false
  end.

Record TransportSocks5Config := mk_transport_socks5 {
  socks5_server_addr : SocketAddr;
  socks5_username : string;
  socks5_password : string;
}.

(** Durations are in nanoseconds. *)
Record ReverseTunnelClientConfig := mk_client_config {
  cfg_node_id : string;
  cfg_server_addr : SocketAddr;
  cfg_tcp_fallback_addr : option SocketAddr;
  cfg_local_proxy_addr : SocketAddr;
  cfg_local_socks5_addr : option SocketAddr;
  cfg_local_http_addr : option SocketAddr;
  cfg_quic_enabled : bool;
  cfg_transport_socks5 : option TransportSocks5Config;
  cfg_auth_token : string;
  cfg_transport : TunnelTransport;
  cfg_connect_timeout : Z;
  cfg_heartbeat_interval : Z;
  cfg_reconnect_floor : Z;
  cfg_reconnect_ceiling : Z;
}.

Definition local_proxy_addr_for (c : ReverseTunnelClientConfig) (p : ProxyProtocol)
    : SocketAddr :=
  match p with
  | Mixed => cfg_local_proxy_addr c
  | Socks5 => default (cfg_local_proxy_addr c) (cfg_local_socks5_addr c)
  | Http => default (cfg_local_proxy_addr c) (cfg_local_http_addr c)
  end.

(** ** Status vocabularies *)

Module TunnelActiveTransport.
Inductive t := Tcp | Quic | TlsTcp.

#[global] Instance eq_dec : EqDecision t.
Proof. solve_decision. Defined.

Definition ALL : list t := [Tcp; Quic; TlsTcp].

Definition as_str (x : t) : string :=
  match x with Tcp => "tcp" | Quic => "quic" | TlsTcp => "tls_tcp" end.

Definition index (x : t) : nat :=
  match x with Tcp => 0 | Quic => 1 | TlsTcp => 2 end.
End TunnelActiveTransport.

Module TunnelFreshness.
Inductive t := Unknown | Fresh | Stale.

#[global] Instance eq_dec : EqDecision t.
Proof. solve_decision. Defined.

Definition as_str (x : t) : string :=
  match x with Unknown => "unknown" | Fresh => "fresh" | Stale => "stale" end.
End TunnelFreshness.

Module TunnelFailoverReason.
Inductive t :=
| ConnectTimeout | ConnectFailed | AuthenticationFailed | SessionClosed | SessionError.

#[global] Instance eq_dec : EqDecision t.
Proof. solve_decision. Defined.

Definition ALL : list t :=
  [ConnectTimeout; ConnectFailed; AuthenticationFailed; SessionClosed; SessionError].

Definition as_str (x : t) : string :=
  match x with
  | ConnectTimeout => "connect_timeout"
  | ConnectFailed => "connect_failed"
  | AuthenticationFailed => "authentication_failed"
  | SessionClosed => "session_closed"
  | SessionError => "session_error"
  end.

Definition index (x : t) : nat :=
  match x with
  | ConnectTimeout => 0
  | ConnectFailed => 1
  | AuthenticationFailed => 2
  | SessionClosed => 3
  | SessionError => 4
  end.
End TunnelFailoverReason.

Module TunnelDisconnectReason.
Inductive t := Shutdown | SessionClosed | SessionError.

#[global] Instance eq_dec : EqDecision t.
Proof. solve_decision. Defined.

Definition ALL : list t := [Shutdown; SessionClosed; SessionError].

Definition as_str (x : t) : string :=
  match x with
  | Shutdown => "shutdown"
  | SessionClosed => "session_closed"
  | SessionError => "session_error"
  end.

Definition index (x : t) : nat :=
  match x with Shutdown => 0 | SessionClosed => 1 | SessionError => 2 end.
End TunnelDisconnectReason.

Module TunnelTransportTransition.
Inductive t :=
| NoneToTcp | NoneToQuic | NoneToTlsTcp | TcpToQuic | TcpToTlsTcp
| QuicToTcp | QuicToTlsTcp | TlsTcpToTcp | TlsTcpToQuic.

#[global] Instance eq_dec : EqDecision t.
Proof. solve_decision. Defined.

Definition ALL : list t :=
  [NoneToTcp; NoneToQuic; NoneToTlsTcp; TcpToQuic; TcpToTlsTcp;
   QuicToTcp; QuicToTlsTcp; TlsTcpToTcp; TlsTcpToQuic].

Definition from_str (x : t) : string :=
  match x with
  | NoneToTcp | NoneToQuic | NoneToTlsTcp => "none"
  | TcpToQuic | TcpToTlsTcp => "tcp"
  | QuicToTcp | QuicToTlsTcp => "quic"
  | TlsTcpToTcp | TlsTcpToQuic => "tls_tcp"
  end.

Definition to_str (x : t) : string :=
  match x with
  | NoneToTcp | QuicToTcp | TlsTcpToTcp => "tcp"
  | NoneToQuic | TcpToQuic | TlsTcpToQuic => "quic"
  | NoneToTlsTcp | TcpToTlsTcp | QuicToTlsTcp => "tls_tcp"
  end.

Definition index (x : t) : nat :=
  match x with
  | NoneToTcp => 0
  | NoneToQuic => 1
  | NoneToTlsTcp => 2
  | TcpToQuic => 3
  | TcpToTlsTcp => 4
  | QuicToTcp => 5
  | QuicToTlsTcp => 6
  | TlsTcpToTcp => 7
  | TlsTcpToQuic => 8
  end.

Definition from_pair (from : option TunnelActiveTransport.t)
    (to : TunnelActiveTransport.t) : option t :=
  match from, to with
  | None, TunnelActiveTransport.Tcp => Some NoneToTcp
  | None, TunnelActiveTransport.Quic => Some NoneToQuic
  | None, TunnelActiveTransport.TlsTcp => Some NoneToTlsTcp
  | Some TunnelActiveTransport.Tcp, TunnelActiveTransport.Quic => Some TcpToQuic
  | Some TunnelActiveTransport.Tcp, TunnelActiveTransport.TlsTcp => Some TcpToTlsTcp
  | Some TunnelActiveTransport.Quic, TunnelActiveTransport.Tcp => Some QuicToTcp
  | Some TunnelActiveTransport.Quic, TunnelActiveTransport.TlsTcp => Some QuicToTlsTcp
  | Some TunnelActiveTransport.TlsTcp, TunnelActiveTransport.Tcp => Some TlsTcpToTcp
  | Some TunnelActiveTransport.TlsTcp, TunnelActiveTransport.Quic => Some TlsTcpToQuic
  | _, _ => None
  end.
End TunnelTransportTransition.

(** ** Event counters *)

Module TunnelEventCounters.
Record t := mk {
  connection_counts : list Z;
  transition_counts : list Z;
  failover_counts : list Z;
  disconnect_counts : list Z;
  reconnect_attempts : Z;
  reconnect_successes : Z;
  ever_connected : bool;
  last_successful_transport : option TunnelActiveTransport.t;
  current_attempt_is_reconnect : bool;
  connection_recorded_in_attempt : bool;
  failover_recorded_in_attempt : bool;
  disconnect_recorded_in_attempt : bool;
}.

#[global] Instance eq_dec : EqDecision t.
Proof. solve_decision. Defined.

Definition default_counters : t :=
  mk (replicate 3 0) (replicate 9 0) (replicate 5 0) (replicate 3 0) 0 0 false None
     false false false false.

Definition increment (value : Z) : Z := saturating_add_u64 value 1.

(** [increment(&mut counts[i])] *)
Definition bump (i : nat) (counts : list Z) : list Z := alter increment i counts.

Definition begin_attempt (c : t) : t :=
  mk (connection_counts c) (transition_counts c) (failover_counts c)
     (disconnect_counts c)
     (if ever_connected c then increment (reconnect_attempts c)
      else reconnect_attempts c)
     (reconnect_successes c) (ever_connected c) (last_successful_transport c)
     (ever_connected c) false false false.

Definition record_connection (transport : TunnelActiveTransport.t) (c : t) : t :=
  if connection_recorded_in_attempt c then c
  else
    mk (bump (TunnelActiveTransport.index transport) (connection_counts c))
       (match TunnelTransportTransition.from_pair (last_successful_transport c) transport with
        | Some tr => bump (TunnelTransportTransition.index tr) (transition_counts c)
        | None => transition_counts c
        end)
       (failover_counts c) (disconnect_counts c) (reconnect_attempts c)
       (if current_attempt_is_reconnect c then increment (reconnect_successes c)
        else reconnect_successes c)
       true (Some transport) (current_attempt_is_reconnect c) true
       (failover_recorded_in_attempt c) (disconnect_recorded_in_attempt c).

Definition record_failover (reason : TunnelFailoverReason.t) (c : t) : t :=
  if failover_recorded_in_attempt c then c
  else
    mk (connection_counts c) (transition_counts c)
       (bump (TunnelFailoverReason.index reason) (failover_counts c))
       (disconnect_counts c) (reconnect_attempts c) (reconnect_successes c)
       (ever_connected c) (last_successful_transport c)
       (current_attempt_is_reconnect c) (connection_recorded_in_attempt c) true
       (disconnect_recorded_in_attempt c).

Definition record_disconnect (reason : TunnelDisconnectReason.t) (c : t) : t :=
  if negb (connection_recorded_in_attempt c) || disconnect_recorded_in_attempt c then c
  else
    mk (connection_counts c) (transition_counts c) (failover_counts c)
       (bump (TunnelDisconnectReason.index reason) (disconnect_counts c))
       (reconnect_attempts c) (reconnect_successes c) (ever_connected c)
       (last_successful_transport c) (current_attempt_is_reconnect c)
       (connection_recorded_in_attempt c) (failover_recorded_in_attempt c) true.

(** Array reads; the indices are in range on well-formed counters. *)
Definition connection_count (c : t) (x : TunnelActiveTransport.t) : Z :=
  default 0 (connection_counts c !! TunnelActiveTransport.index x).
Definition transition_count (c : t) (x : TunnelTransportTransition.t) : Z :=
  default 0 (transition_counts c !! TunnelTransportTransition.index x).
Definition failover_count (c : t) (x : TunnelFailoverReason.t) : Z :=
  default 0 (failover_counts c !! TunnelFailoverReason.index x).
Definition disconnect_count (c : t) (x : TunnelDisconnectReason.t) : Z :=
  default 0 (disconnect_counts c !! TunnelDisconnectReason.index x).

Definition same_persisted_state (c other : t) : bool :=
  bool_decide (connection_counts c = connection_counts other)
  && bool_decide (transition_counts c = transition_counts other)
  && bool_decide (failover_counts c = failover_counts other)
  && bool_decide (disconnect_counts c = disconnect_counts other)
  && bool_decide (reconnect_attempts c = reconnect_attempts other)
  && bool_decide (reconnect_successes c = reconnect_successes other)
  && bool_decide (ever_connected c = ever_connected other)
  && bool_decide (last_successful_transport c = last_successful_transport other).
End TunnelEventCounters.

(** ** Snapshots *)

Module ClientSnapshot.
Record t := mk {
  session_id : Uuid;
  connected : bool;
  attempts : Z;
  sent_heartbeats : Z;
  last_error : option string;
  active_transport : option TunnelActiveTransport.t;
  freshness : TunnelFreshness.t;
  last_failover_reason : option TunnelFailoverReason.t;
  event_counters : TunnelEventCounters.t;
}.

Definition with_event_counters (session_id : Uuid) (c : TunnelEventCounters.t) : t :=
  mk session_id false 0 0 None None TunnelFreshness.Unknown None c.
End ClientSnapshot.

Module ServerSessionSnapshot.
Record t := mk {
  node_id : string;
  session_id : Uuid;
  connected : bool;
  accepted_connections : Z;
  last_heartbeat_sequence : option Z;
}.
End ServerSessionSnapshot.

(** ** The counters as an accounting of accepted events *)

Module CounterLog.
Import TunnelEventCounters.

(** The calls a client makes on its counters. *)
Inductive op :=
| BeginAttempt
| RecordConnection (x : TunnelActiveTransport.t)
| RecordFailover (x : TunnelFailoverReason.t)
| RecordDisconnect (x : TunnelDisconnectReason.t).

Definition apply_op (c : t) (o : op) : t :=
  match o with
  | BeginAttempt => begin_attempt c
  | RecordConnection x => record_connection x c
  | RecordFailover x => record_failover x c
  | RecordDisconnect x => record_disconnect x c
  end.

(** What a log reader sees: the events that were accepted, once per attempt. *)
Inductive event :=
| Began (reconnect : bool)
| Connected (x : TunnelActiveTransport.t) (tr : option TunnelTransportTransition.t)
            (reconnect : bool)
| FailedOver (x : TunnelFailoverReason.t)
| Disconnected (x : TunnelDisconnectReason.t).

(** The abstract ledger: the log, what the current attempt already holds, and
    the transport of the last success; no counters and no widths. *)
Record ledger := mk_ledger {
  log : list event;
  attempt_reconnect : bool;
  attempt_connected : bool;
  attempt_failed_over : bool;
  attempt_disconnected : bool;
  last_transport : option TunnelActiveTransport.t;
}.

Definition empty_ledger : ledger := mk_ledger [] false false false false None.

Definition spec_op (l : ledger) (o : op) : ledger :=
  match o with
  | BeginAttempt =>
      let re := is_some (last_transport l) in
      mk_ledger (Began re :: log l) re false false false (last_transport l)
  | RecordConnection x =>
      if attempt_connected l then l
      else mk_ledger
             (Connected x (TunnelTransportTransition.from_pair (last_transport l) x)
                (attempt_reconnect l) :: log l)
             (attempt_reconnect l) true (attempt_failed_over l)
             (attempt_disconnected l) (Some x)
  | RecordFailover x =>
      if attempt_failed_over l then l
      else mk_ledger (FailedOver x :: log l) (attempt_reconnect l)
             (attempt_connected l) true (attempt_disconnected l) (last_transport l)
  | RecordDisconnect x =>
      if attempt_connected l && negb (attempt_disconnected l)
      then mk_ledger (Disconnected x :: log l) (attempt_reconnect l)
             (attempt_connected l) (attempt_failed_over l) true (last_transport l)
      else l
  end.

Fixpoint occurrences (p : event -> bool) (es : list event) : Z :=
  match es with
  | [] => 0
  | e :: r => (if p e then 1 else 0) + occurrences p r
  end.

Definition is_connected_via (x : TunnelActiveTransport.t) (e : event) : bool :=
  match e with Connected y _ _ => bool_decide (x = y) | _ => false end.
Definition is_transition (x : TunnelTransportTransition.t) (e : event) : bool :=
  match e with Connected _ tr _ => bool_decide (tr = Some x) | _ => false end.
Definition is_failover (x : TunnelFailoverReason.t) (e : event) : bool :=
  match e with FailedOver y => bool_decide (x = y) | _ => false end.
Definition is_disconnect (x : TunnelDisconnectReason.t) (e : event) : bool :=
  match e with Disconnected y => bool_decide (x = y) | _ => false end.
Definition is_reconnect_attempt (e : event) : bool :=
  match e with Began re => re | _ => false end.
Definition is_reconnect_success (e : event) : bool :=
  match e with Connected _ _ re => re | _ => false end.
Definition is_any_connection (e : event) : bool :=
  match e with Connected _ _ _ => true | _ => false end.
Definition is_any_disconnect (e : event) : bool :=
  match e with Disconnected _ => true | _ => false end.

(** A counter shows an occurrence count, saturated at the [u64] range. *)
Definition shows (p : event -> bool) (es : list event) (v : Z) : Prop :=
  v = Z.min u64_max (occurrences p es).

Record refines (l : ledger) (c : t) : Prop := {
  ref_len : List.length (connection_counts c) = 3%nat /\
            List.length (transition_counts c) = 9%nat /\
            List.length (failover_counts c) = 5%nat /\
            List.length (disconnect_counts c) = 3%nat;
  ref_connection x : shows (is_connected_via x) (log l) (connection_count c x);
  ref_transition x : shows (is_transition x) (log l) (transition_count c x);
  ref_failover x : shows (is_failover x) (log l) (failover_count c x);
  ref_disconnect x : shows (is_disconnect x) (log l) (disconnect_count c x);
  ref_attempts : shows is_reconnect_attempt (log l) (reconnect_attempts c);
  ref_successes : shows is_reconnect_success (log l) (reconnect_successes c);
  ref_ever : ever_connected c = is_some (last_transport l);
  ref_last : last_successful_transport c = last_transport l;
  ref_flags : current_attempt_is_reconnect c = attempt_reconnect l /\
              connection_recorded_in_attempt c = attempt_connected l /\
              failover_recorded_in_attempt c = attempt_failed_over l /\
              disconnect_recorded_in_attempt c = attempt_disconnected l;
}.

Lemma occurrences_nonneg p es : 0 <= occurrences p es.
Proof. induction es as [|e es IH]; cbn; [done|]. destruct (p e); lia. Qed.

Lemma shows_hit p e es v : p e = true -> shows p es v -> shows p (e :: es) (increment v).
Proof.
  unfold shows, increment, saturating_add_u64. cbn. intros -> ->.
  pose proof (occurrences_nonneg p es). lia.
Qed.

Lemma shows_miss p e es v : p e = false -> shows p es v -> shows p (e :: es) v.
Proof. unfold shows. cbn. intros -> ->. lia. Qed.

Lemma bump_length i l : List.length (bump i l) = List.length l.
Proof. apply length_alter. Qed.

Lemma bump_eq i l : (i < List.length l)%nat ->
  default 0 (bump i l !! i) = increment (default 0 (l !! i)).
Proof.
  intros Hi. unfold bump. rewrite list_lookup_alter_eq.
  apply lookup_lt_is_Some in Hi as [v ->]. done.
Qed.

Lemma bump_ne i j l : i <> j -> default 0 (bump i l !! j) = default 0 (l !! j).
Proof. intros Hij. unfold bump. by rewrite list_lookup_alter_ne. Qed.

(** Bumping the slot of [x] keeps a family of counters in step with a log that
    gains an event counted for [x] alone. *)
Lemma family_bump {X} `{EqDecision X} (index : X -> nat) (p : X -> event -> bool)
    (counts : list Z) (es : list event) (e : event) (x : X) :
  (forall y, (index y < List.length counts)%nat) ->
  (forall y, index x = index y -> x = y) ->
  (forall y, p y e = bool_decide (x = y)) ->
  (forall y, shows (p y) es (default 0 (counts !! index y))) ->
  forall y, shows (p y) (e :: es) (default 0 (bump (index x) counts !! index y)).
Proof.
  intros Hlen Hinj Hp Hs y. destruct (decide (x = y)) as [<-|Hne].
  - rewrite bump_eq by auto. apply shows_hit; [|auto].
    rewrite Hp. by apply bool_decide_eq_true_2.
  - rewrite bump_ne by auto. apply shows_miss; [|auto].
    rewrite Hp. by apply bool_decide_eq_false_2.
Qed.

Lemma family_keep {X} (p : X -> event -> bool) (e : event) (es : list event)
    (count : X -> Z) :
  (forall y, p y e = false) ->
  (forall y, shows (p y) es (count y)) ->
  forall y, shows (p y) (e :: es) (count y).
Proof. intros Hp Hs y. by apply shows_miss. Qed.

Lemma refines_empty : refines empty_ledger default_counters.
Proof. split; try done; by intros []. Qed.

Ltac keep_families Hr :=
  repeat match goal with
  | |- forall _, shows _ (_ :: _) _ =>
      apply family_keep; [done|];
      first [exact (ref_connection _ _ Hr)|exact (ref_transition _ _ Hr)
            |exact (ref_failover _ _ Hr)|exact (ref_disconnect _ _ Hr)]
  | |- shows _ (_ :: _) _ =>
      apply shows_miss; [done|];
      first [exact (ref_attempts _ _ Hr)|exact (ref_successes _ _ Hr)]
  end.

Lemma refines_begin l c : refines l c ->
  refines (spec_op l BeginAttempt) (begin_attempt c).
Proof.
  intros Hr. pose proof (ref_ever _ _ Hr) as Hev.
  split; cbn; keep_families Hr; try apply Hr; [|by rewrite Hev].
  rewrite Hev. destruct (is_some (last_transport l)).
  - apply shows_hit; [done|apply Hr].
  - apply shows_miss; [done|apply Hr].
Qed.

Lemma refines_failover l c x : refines l c ->
  refines (spec_op l (RecordFailover x)) (record_failover x c).
Proof.
  intros Hr. destruct (ref_flags _ _ Hr) as (Hf1 & Hf2 & Hf3 & Hf4).
  destruct (ref_len _ _ Hr) as (L1 & L2 & L3 & L4).
  cbn. unfold record_failover. rewrite Hf3. destruct (attempt_failed_over l); [done|].
  split; cbn; keep_families Hr; try apply Hr; try done.
  - by rewrite bump_length.
  - apply (family_bump TunnelFailoverReason.index is_failover);
      [intros []; cbn; lia|intros []; by destruct x|intros y|apply (ref_failover _ _ Hr)].
    cbn. apply bool_decide_ext. naive_solver.
Qed.

Lemma refines_disconnect l c x : refines l c ->
  refines (spec_op l (RecordDisconnect x)) (record_disconnect x c).
Proof.
  intros Hr. destruct (ref_flags _ _ Hr) as (Hf1 & Hf2 & Hf3 & Hf4).
  destruct (ref_len _ _ Hr) as (L1 & L2 & L3 & L4).
  cbn. unfold record_disconnect. rewrite Hf2, Hf4.
  destruct (attempt_connected l), (attempt_disconnected l); cbn; try done.
  split; cbn; keep_families Hr; try apply Hr; try done.
  - by rewrite bump_length.
  - apply (family_bump TunnelDisconnectReason.index is_disconnect);
      [intros []; cbn; lia|intros []; by destruct x|intros y|apply (ref_disconnect _ _ Hr)].
    cbn. apply bool_decide_ext. naive_solver.
Qed.

Lemma refines_transition l c x es re :
  refines l c -> es = log l ->
  forall y, shows (is_transition y)
    (Connected x (TunnelTransportTransition.from_pair (last_transport l) x) re :: es)
    (default 0 (match TunnelTransportTransition.from_pair (last_transport l) x with
                | Some tr => bump (TunnelTransportTransition.index tr) (transition_counts c)
                | None => transition_counts c
                end !! TunnelTransportTransition.index y)).
Proof.
  intros Hr ->. destruct (ref_len _ _ Hr) as (L1 & L2 & L3 & L4).
  destruct (TunnelTransportTransition.from_pair _ x) as [tr|].
  - apply (family_bump TunnelTransportTransition.index is_transition);
      [intros []; cbn; lia|intros []; by destruct tr|intros y|apply (ref_transition _ _ Hr)].
    cbn. apply bool_decide_ext. naive_solver.
  - apply family_keep; [|apply (ref_transition _ _ Hr)].
    intros y. cbn. by apply bool_decide_eq_false_2.
Qed.

Lemma refines_connection l c x : refines l c ->
  refines (spec_op l (RecordConnection x)) (record_connection x c).
Proof.
  intros Hr. destruct (ref_flags _ _ Hr) as (Hf1 & Hf2 & Hf3 & Hf4).
  destruct (ref_len _ _ Hr) as (L1 & L2 & L3 & L4).
  cbn. unfold record_connection. rewrite Hf2. destruct (attempt_connected l); [done|].
  split; cbn; keep_families Hr; try apply Hr; try done.
  - rewrite bump_length. repeat split; try done. case_match; [|done].
    by rewrite bump_length.
  - apply (family_bump TunnelActiveTransport.index is_connected_via);
      [intros []; cbn; lia|intros []; by destruct x|intros y|apply (ref_connection _ _ Hr)].
    cbn. apply bool_decide_ext. naive_solver.
  - rewrite (ref_last _ _ Hr). by apply refines_transition.
  - rewrite Hf1. destruct (attempt_reconnect l) eqn:E.
    + apply shows_hit; [done|apply Hr].
    + apply shows_miss; [done|apply Hr].
Qed.

Lemma refines_ops ops : forall l c, refines l c ->
  refines (foldl spec_op l ops) (foldl apply_op c ops).
Proof.
  induction ops as [|o ops IH]; intros l c Hr; [done|]. cbn. apply IH.
  destruct o; [apply refines_begin|apply refines_connection|apply refines_failover
              |apply refines_disconnect]; done.
Qed.

(** After any sequence of calls, every persisted counter is the number of
    accepted events of its kind in the abstract ledger, saturated at the top
    of the [u64] range; the flags are those of the current attempt. *)
Theorem counters_refine_ledger (ops : list op) :
  refines (foldl spec_op empty_ledger ops) (foldl apply_op default_counters ops).
Proof. apply refines_ops, refines_empty. Qed.

(** What the ledger guarantees about its own totals. *)
Record balanced (l : ledger) : Prop := {
  bal_disc : occurrences is_any_disconnect (log l)
             + (if attempt_connected l && negb (attempt_disconnected l) then 1 else 0)
             <= occurrences is_any_connection (log l);
  bal_re : occurrences is_reconnect_success (log l)
           + (if attempt_reconnect l && negb (attempt_connected l) then 1 else 0)
           <= occurrences is_reconnect_attempt (log l);
}.

Lemma balanced_op l o : balanced l -> balanced (spec_op l o).
Proof.
  destruct l as [es re co fo di la]. intros [Hd Hr]. cbn in Hd, Hr.
  destruct o; cbn.
  - split; cbn; destruct (is_some la), co, di, re; cbn in *; lia.
  - destruct co; [done|]. split; cbn; destruct di, re; cbn in *; lia.
  - destruct fo; [done|]. split; cbn; lia.
  - destruct co, di; cbn; try done. split; cbn in *; destruct re; cbn in *; lia.
Qed.

Lemma balanced_ops ops : forall l, balanced l -> balanced (foldl spec_op l ops).
Proof.
  induction ops as [|o ops IH]; intros l Hl; [done|]. cbn. apply IH, balanced_op, Hl.
Qed.

(** Whatever the client calls, it never accounts for more disconnections
    than connections nor more reconnect successes than reconnect attempts, and
    the persisted success counter never exceeds the attempt counter. *)
Theorem counters_balanced (ops : list op) :
  let l := foldl spec_op empty_ledger ops in
  let c := foldl apply_op default_counters ops in
  occurrences is_any_disconnect (log l) <= occurrences is_any_connection (log l) /\
  occurrences is_reconnect_success (log l) <= occurrences is_reconnect_attempt (log l) /\
  reconnect_successes c <= reconnect_attempts c.
Proof.
  cbn zeta. assert (balanced (foldl spec_op empty_ledger ops)) as [Hd Hr]
    by (apply balanced_ops; by split).
  pose proof (refines_ops ops _ _ refines_empty) as Href.
  pose proof (ref_attempts _ _ Href) as Ha. pose proof (ref_successes _ _ Href) as Hs.
  unfold shows in Ha, Hs. repeat case_if; repeat split; lia.
Qed.
End CounterLog.

(** A transport change is named exactly when the transport differs from the
    last successful one, and its endpoints are printed as the two transports;
    every vocabulary is indexed by its position in its table. *)
Theorem transition_naming (from : option TunnelActiveTransport.t)
    (to : TunnelActiveTransport.t) :
  match TunnelTransportTransition.from_pair from to with
  | Some tr =>
      from <> Some to /\
      TunnelTransportTransition.from_str tr
        = from_option TunnelActiveTransport.as_str "none" from /\
      TunnelTransportTransition.to_str tr = TunnelActiveTransport.as_str to /\
      TunnelTransportTransition.ALL !! TunnelTransportTransition.index tr = Some tr
  | None => from = Some to
  end.
Proof. by destruct from as [[]|], to. Qed.
