(* ===== verification/TunnelState.v ===== *)
(** * Reverse tunnel: server session state

    [crates/reverse-tunnel/src/state.rs]: which authenticated device session
    may carry public proxy traffic.  Each definition is one critical section or
    one method of [ReverseTunnelServerState], composed as the source composes
    them.  Sockets, QUIC connections and channels are handles; [Peers] records
    what their other ends did. *)

From stdpp Require Import base gmap strings list fin_maps sorting.
From Stdlib Require Import ZArith Lia String.
From S2P Require Import Prelude Foundation TunnelModel.
Local Open Scope string_scope.
Local Open Scope Z_scope.
Local Open Scope rust_scope.

(** ** Data *)

(** Instants and durations are nanoseconds of the monotonic clock. *)
Definition secs (n : Z) : Z := n * 1000000000.

Definition TCP_PROXY_STREAM_TIMEOUT : Z := secs 12.
Definition MAX_PENDING_TCP_STREAMS : nat := 256.
Definition MAX_PENDING_TCP_STREAMS_PER_NODE : nat := 32.
Definition MAX_RESERVED_TCP_STREAMS_PER_NODE : nat := 32.
Definition TCP_RESERVED_STREAM_WAIT_TIMEOUT : Z := secs 10.
Definition DEFAULT_SESSION_HEARTBEAT_TIMEOUT : Z := secs 30.

(** Handles of sockets, QUIC connections and channel ends. *)
Abbreviation TcpStream := N.
Abbreviation Connection := N.
Abbreviation Sender := N.
Abbreviation Responder := N.

Module SessionLiveness.
Record t := mk { session_id : Uuid; authority_id : Uuid; last_seen_at : Z }.
End SessionLiveness.

Module TcpControlChannel.
Record t := mk {
  session_id : Uuid;
  authority_id : Uuid;
  sender : Sender;
  reserve_capable : bool;
}.
End TcpControlChannel.

Module ReservedTcpStream.
Record t := mk { session_id : Uuid; authority_id : Uuid; stream : TcpStream }.
End ReservedTcpStream.

Module SessionBound.
Record t := mk { session_id : Uuid; authority_id : Uuid; value : Connection }.
End SessionBound.

Inductive SessionAuthority :=
| AuthQuic (c : Connection)
| AuthTcp (s : Sender).

Module ActiveSessionTarget.
Record t := mk { node_id : string; session_id : Uuid; authority_id : Uuid }.

#[global] Instance eq_dec : EqDecision t.
Proof. solve_decision. Defined.
End ActiveSessionTarget.

Module PendingTcpProxyRequest.
Record t := mk {
  stream_id : Uuid;
  expected_node_id : string;
  expected_session_id : Uuid;
  expected_authority_id : Uuid;
  created_at : Z;
  deadline : Z;
  response_sender : Responder;
}.

Definition is_expired (r : t) (now : Z) : bool := deadline r <=? now.
End PendingTcpProxyRequest.

Inductive TcpProxyStreamRejection :=
| UnexpectedStreamId | NodeMismatch | SessionMismatch | SessionInactive
| RequestExpired | RequesterClosed.

#[export] Instance TcpProxyStreamRejection_eq_dec : EqDecision TcpProxyStreamRejection.
Proof. solve_decision. Defined.

Definition TcpProxyStreamRejection_fmt (r : TcpProxyStreamRejection) : string :=
  match r with
  | UnexpectedStreamId => "unexpected TCP reverse tunnel proxy stream id"
  | NodeMismatch => "TCP reverse tunnel proxy stream node mismatch"
  | SessionMismatch => "TCP reverse tunnel proxy stream session mismatch"
  | SessionInactive => "TCP reverse tunnel proxy stream session is not active"
  | RequestExpired => "TCP reverse tunnel proxy stream request expired"
  | RequesterClosed => "TCP reverse tunnel proxy requester closed"
  end.

(** [ReverseTunnelServerState].  The [Notify] that wakes waiters of a reserve
    holds no data and is left out. *)
Record ServerState := mk_server {
  sessions : gmap string ServerSessionSnapshot.t;
  connections : gmap string SessionBound.t;
  tcp_controls : gmap string TcpControlChannel.t;
  pending_tcp : gmap Uuid PendingTcpProxyRequest.t;
  reserved_tcp : gmap string (list ReservedTcpStream.t);
  session_liveness : gmap string SessionLiveness.t;
  heartbeat_timeout : Z;
}.

Definition default_server : ServerState :=
  mk_server ∅ ∅ ∅ ∅ ∅ ∅ DEFAULT_SESSION_HEARTBEAT_TIMEOUT.

(** The other ends: QUIC connections that are closed, control channels whose
    receiver is gone, requesters that stopped waiting, and the streams handed
    to requesters. *)
Record Peers := mk_peers {
  closed_connections : gset Connection;
  closed_senders : gset Sender;
  closed_requesters : gset Responder;
  answered : gmap Responder TcpStream;
}.

Record World := mk_world { server : ServerState; peers : Peers }.

(** ** Field updates *)

Definition set_sessions (f : gmap string ServerSessionSnapshot.t -> _) (s : ServerState) :=
  mk_server (f (sessions s)) (connections s) (tcp_controls s) (pending_tcp s)
    (reserved_tcp s) (session_liveness s) (heartbeat_timeout s).
Definition set_connections (f : gmap string SessionBound.t -> _) (s : ServerState) :=
  mk_server (sessions s) (f (connections s)) (tcp_controls s) (pending_tcp s)
    (reserved_tcp s) (session_liveness s) (heartbeat_timeout s).
Definition set_controls (f : gmap string TcpControlChannel.t -> _) (s : ServerState) :=
  mk_server (sessions s) (connections s) (f (tcp_controls s)) (pending_tcp s)
    (reserved_tcp s) (session_liveness s) (heartbeat_timeout s).
Definition set_pending (f : gmap Uuid PendingTcpProxyRequest.t -> _) (s : ServerState) :=
  mk_server (sessions s) (connections s) (tcp_controls s) (f (pending_tcp s))
    (reserved_tcp s) (session_liveness s) (heartbeat_timeout s).
Definition set_reserved (f : gmap string (list ReservedTcpStream.t) -> _) (s : ServerState) :=
  mk_server (sessions s) (connections s) (tcp_controls s) (pending_tcp s)
    (f (reserved_tcp s)) (session_liveness s) (heartbeat_timeout s).
Definition set_liveness (f : gmap string SessionLiveness.t -> _) (s : ServerState) :=
  mk_server (sessions s) (connections s) (tcp_controls s) (pending_tcp s)
    (reserved_tcp s) (f (session_liveness s)) (heartbeat_timeout s).

Definition with_server (f : ServerState -> ServerState) (w : World) : World :=
  mk_world (f (server w)) (peers w).

(** [connection.close(..)] *)
Definition close_connection (o : option SessionBound.t) (w : World) : World :=
  match o with
  | None => w
  | Some b =>
      let p := peers w in
      mk_world (server w)
        (mk_peers ({[SessionBound.value b]} ∪ closed_connections p)
           (closed_senders p) (closed_requesters p) (answered p))
  end.

(** ** Tests *)

Definition saturating_duration_since (now earlier : Z) : Z := Z.max 0 (now - earlier).

Definition live_for (session authority : Uuid) (l : SessionLiveness.t) : bool :=
  bool_decide (SessionLiveness.session_id l = session)
  && bool_decide (SessionLiveness.authority_id l = authority).

Definition session_is_fresh (liveness : gmap string SessionLiveness.t) (node : string)
    (session authority : Uuid) (now timeout : Z) : bool :=
  is_some_and (liveness !! node) (fun l =>
    bool_decide (SessionLiveness.session_id l = session)
    && bool_decide (SessionLiveness.authority_id l = authority)
    && (saturating_duration_since now (SessionLiveness.last_seen_at l) <=? timeout)).

(** Is the node's session connected with this identity? *)
Definition session_current (s : ServerState) (node : string) (session : Uuid) : bool :=
  is_some_and (sessions s !! node) (fun x =>
    ServerSessionSnapshot.connected x
    && bool_decide (ServerSessionSnapshot.session_id x = session)).

Definition connection_open (w : World) (c : Connection) : bool :=
  negb (bool_decide (c ∈ closed_connections (peers w))).

Definition sender_open (w : World) (s : Sender) : bool :=
  negb (bool_decide (s ∈ closed_senders (peers w))).

Definition bound_for (session authority : Uuid) (b : SessionBound.t) : bool :=
  bool_decide (SessionBound.session_id b = session)
  && bool_decide (SessionBound.authority_id b = authority).

Definition control_for (session authority : Uuid) (c : TcpControlChannel.t) : bool :=
  bool_decide (TcpControlChannel.session_id c = session)
  && bool_decide (TcpControlChannel.authority_id c = authority).

Definition quic_active (w : World) (node : string) (session authority : Uuid) : bool :=
  is_some_and (connections (server w) !! node) (fun b =>
    bound_for session authority b && connection_open w (SessionBound.value b)).

Definition quic_closed (w : World) (node : string) (session authority : Uuid) : bool :=
  is_some_and (connections (server w) !! node) (fun b =>
    bound_for session authority b && negb (connection_open w (SessionBound.value b))).

Definition tcp_active (w : World) (node : string) (session authority : Uuid) : bool :=
  is_some_and (tcp_controls (server w) !! node) (fun c =>
    control_for session authority c && sender_open w (TcpControlChannel.sender c)).

(** ** Removal *)

Definition remove_session_bound (entries : gmap string SessionBound.t) (node : string)
    (session authority : Uuid) : option SessionBound.t * gmap string SessionBound.t :=
  if is_some_and (entries !! node) (bound_for session authority)
  then (entries !! node, delete node entries)
  else (None, entries).

Definition remove_quic_connection_for_authority (w : World) (node : string)
    (session authority : Uuid) : World :=
  let '(removed, rest) :=
    remove_session_bound (connections (server w)) node session authority in
  close_connection removed (with_server (set_connections (fun _ => rest)) w).

Definition remove_tcp_control_for_authority (w : World) (node : string)
    (session authority : Uuid) : World :=
  if is_some_and (tcp_controls (server w) !! node) (control_for session authority)
  then with_server (fun s => set_reserved (delete node) (set_controls (delete node) s)) w
  else w.

Definition pending_of (node : string) (session authority : Uuid)
    (r : PendingTcpProxyRequest.t) : bool :=
  bool_decide (PendingTcpProxyRequest.expected_node_id r = node)
  && bool_decide (PendingTcpProxyRequest.expected_session_id r = session)
  && bool_decide (PendingTcpProxyRequest.expected_authority_id r = authority).

(** [pending.retain(..)] *)
Definition retain_pending (keep : PendingTcpProxyRequest.t -> bool)
    (m : gmap Uuid PendingTcpProxyRequest.t) : gmap Uuid PendingTcpProxyRequest.t :=
  filter (fun kv => keep kv.2 = true) m.

Definition cancel_pending_for_authority (w : World) (node : string)
    (session authority : Uuid) : World :=
  with_server (set_pending (retain_pending (fun r =>
    negb (pending_of node session authority r)))) w.

Definition set_connected (b : bool) (x : ServerSessionSnapshot.t)
    : ServerSessionSnapshot.t :=
  ServerSessionSnapshot.mk (ServerSessionSnapshot.node_id x)
    (ServerSessionSnapshot.session_id x) b
    (ServerSessionSnapshot.accepted_connections x)
    (ServerSessionSnapshot.last_heartbeat_sequence x).

Definition disconnect_session_authority (w : World) (node : string)
    (session authority : Uuid) : World * bool :=
  let s := server w in
  let current_authority :=
    is_some_and (session_liveness s !! node) (live_for session authority) in
  if negb (session_current s node session) || negb current_authority then (w, false)
  else
    let '(removed, rest) := remove_session_bound (connections s) node session authority in
    let controls :=
      if is_some_and (tcp_controls s !! node) (control_for session authority)
      then delete node (tcp_controls s) else tcp_controls s in
    let s' := mk_server
      (alter (set_connected false) node (sessions s)) rest controls
      (retain_pending (fun r => negb (pending_of node session authority r))
         (pending_tcp s))
      (delete node (reserved_tcp s)) (delete node (session_liveness s))
      (heartbeat_timeout s) in
    (close_connection removed (mk_world s' (peers w)), true).

Definition expire_session (w : World) (node : string) (session authority : Uuid) : World :=
  fst (disconnect_session_authority w node session authority).

Definition remove_session_liveness (w : World) (node : string) (session : Uuid) : World :=
  if is_some_and (session_liveness (server w) !! node)
       (fun l => bool_decide (SessionLiveness.session_id l = session))
  then with_server (set_liveness (delete node)) w
  else w.

(** ** Selection *)

(** What the scan of [select_active_target] collects. *)
Record Scan := mk_scan {
  inactive : list (string * Uuid * Uuid);
  closed : list (string * Uuid * Uuid);
  candidates : list ActiveSessionTarget.t;
}.

Definition scan_session (w : World) (now : Z) (wanted : option string)
    (acc : Scan) (session : ServerSessionSnapshot.t) : Scan :=
  let node := ServerSessionSnapshot.node_id session in
  let sid := ServerSessionSnapshot.session_id session in
  let s := server w in
  if negb (ServerSessionSnapshot.connected session)
     || is_some_and wanted (fun e => negb (bool_decide (node = e)))
  then acc
  else
    match option_filter (fun l =>
            bool_decide (SessionLiveness.session_id l = sid)
            && (saturating_duration_since now (SessionLiveness.last_seen_at l)
                <=? heartbeat_timeout s)) (session_liveness s !! node) with
    | None =>
        match session_liveness s !! node with
        | Some l =>
            mk_scan (inactive acc ++ [(node, SessionLiveness.session_id l,
                                       SessionLiveness.authority_id l)])
              (closed acc) (candidates acc)
        | None => acc
        end
    | Some live =>
        let aid := SessionLiveness.authority_id live in
        let closed' :=
          if quic_closed w node sid aid then (closed acc ++ [(node, sid, aid)])%list
          else closed acc in
        if quic_active w node sid aid || tcp_active w node sid aid
        then mk_scan (inactive acc) closed'
               (candidates acc ++ [ActiveSessionTarget.mk node sid aid])
        else mk_scan (inactive acc ++ [(node, sid, aid)]) closed' (candidates acc)
    end.

(** The choice among the candidates: a requested node takes its own, otherwise
    the candidate must be unambiguous. *)
Definition choose (wanted : option string) (cs : list ActiveSessionTarget.t)
    : option ActiveSessionTarget.t :=
  match wanted with
  | Some _ => head cs
  | None => match cs with [c] => Some c | _ => None end
  end.

Definition drop_closed (w : World) (k : string * Uuid * Uuid) : World :=
  let '(node, session, authority) := k in
  remove_quic_connection_for_authority w node session authority.

Definition drop_inactive (w : World) (k : string * Uuid * Uuid) : World :=
  let '(node, session, authority) := k in expire_session w node session authority.

(** The selection for a given iteration order of the session map. *)
Definition select_in_order (order : list ServerSessionSnapshot.t) (w : World) (now : Z)
    (wanted : option string) : option ActiveSessionTarget.t * World :=
  let scan := foldl (scan_session w now wanted) (mk_scan [] [] []) order in
  (choose wanted (candidates scan),
   foldl drop_inactive (foldl drop_closed w (closed scan)) (inactive scan)).

Definition session_values (s : ServerState) : list ServerSessionSnapshot.t :=
  snd <$> map_to_list (sessions s).

Definition select_active_target (w : World) (now : Z) (wanted : option string)
    : option ActiveSessionTarget.t * World :=
  select_in_order (session_values (server w)) w now wanted.

Definition has_active_session (w : World) (now : Z) (wanted : option string) : bool :=
  is_some (fst (select_active_target w now wanted)).

(** ** Resolving a selected target *)

Definition target_fresh (w : World) (now : Z) (t : ActiveSessionTarget.t) : bool :=
  session_is_fresh (session_liveness (server w)) (ActiveSessionTarget.node_id t)
    (ActiveSessionTarget.session_id t) (ActiveSessionTarget.authority_id t) now
    (heartbeat_timeout (server w)).

Definition select_tcp_control_for_target (w : World) (now : Z)
    (t : ActiveSessionTarget.t) : option Sender * World :=
  let node := ActiveSessionTarget.node_id t in
  let sid := ActiveSessionTarget.session_id t in
  let aid := ActiveSessionTarget.authority_id t in
  let current := session_current (server w) node sid in
  let fresh := current && target_fresh w now t in
  let selected :=
    if fresh
    then TcpControlChannel.sender <$>
           option_filter (fun c => control_for sid aid c
                                   && sender_open w (TcpControlChannel.sender c))
             (tcp_controls (server w) !! node)
    else None in
  (selected, if current && negb fresh then expire_session w node sid aid else w).

Definition active_connection_for_target (w : World) (now : Z)
    (t : ActiveSessionTarget.t) : option Connection * World :=
  let node := ActiveSessionTarget.node_id t in
  let sid := ActiveSessionTarget.session_id t in
  let aid := ActiveSessionTarget.authority_id t in
  let current := session_current (server w) node sid in
  let fresh := current && target_fresh w now t in
  let connection :=
    if fresh
    then SessionBound.value <$>
           option_filter (fun b => bound_for sid aid b
                                   && connection_open w (SessionBound.value b))
             (connections (server w) !! node)
    else None in
  let w1 := if quic_closed w node sid aid
            then remove_quic_connection_for_authority w node sid aid else w in
  let w2 := if current && (negb fresh
                           || (negb (is_some connection) && negb (tcp_active w node sid aid)))
            then expire_session w1 node sid aid else w1 in
  (connection, w2).

Definition active_connection (w : World) (now : Z) (wanted : option string)
    : option Connection * World :=
  match select_active_target w now wanted with
  | (None, w') => (None, w')
  | (Some t, w') => active_connection_for_target w' now t
  end.

(** ** Reserved streams *)

Definition target_supports_reserved_tcp (w : World) (t : ActiveSessionTarget.t) : bool :=
  is_some_and (tcp_controls (server w) !! ActiveSessionTarget.node_id t) (fun c =>
    control_for (ActiveSessionTarget.session_id t) (ActiveSessionTarget.authority_id t) c
    && TcpControlChannel.reserve_capable c).

Definition reserved_for (t : ActiveSessionTarget.t) (r : ReservedTcpStream.t) : bool :=
  bool_decide (ReservedTcpStream.session_id r = ActiveSessionTarget.session_id t)
  && bool_decide (ReservedTcpStream.authority_id r = ActiveSessionTarget.authority_id t).

(** The [while let Some(reserved) = streams.pop()] loop, on the stack with its
    last pushed stream first. *)
Fixpoint pop_matching (t : ActiveSessionTarget.t) (stack : list ReservedTcpStream.t)
    : option TcpStream * list ReservedTcpStream.t :=
  match stack with
  | [] => (None, [])
  | r :: rest =>
      if reserved_for t r then (Some (ReservedTcpStream.stream r), rest)
      else pop_matching t rest
  end.

Definition take_reserved_tcp_stream (w : World) (t : ActiveSessionTarget.t)
    : option TcpStream * World :=
  let node := ActiveSessionTarget.node_id t in
  match reserved_tcp (server w) !! node with
  | None => (None, w)
  | Some streams =>
      match pop_matching t (reverse streams) with
      | (Some s, rest) =>
          (Some s, with_server (set_reserved (<[node := reverse rest]>)) w)
      | (None, _) => (None, with_server (set_reserved (delete node)) w)
      end
  end.

(** The inner loop of [open_tcp_proxy_for_target_with_timeout]: take streams
    until the activation frame can be written to one. *)
Fixpoint activate_reserved (fuel : nat) (write_ok : TcpStream -> bool) (w : World)
    (t : ActiveSessionTarget.t) : option TcpStream * World :=
  match fuel with
  | O => (None, w)
  | S fuel' =>
      match take_reserved_tcp_stream w t with
      | (None, w') => (None, w')
      | (Some s, w') =>
          if write_ok s then (Some s, w') else activate_reserved fuel' write_ok w' t
      end
  end.

(** One more than the streams in reserve: enough turns to exhaust them. *)
Definition reserve_fuel (w : World) (t : ActiveSessionTarget.t) : nat :=
  S (List.length (default [] (reserved_tcp (server w) !! ActiveSessionTarget.node_id t))).

Definition take_writable_reserved (write_ok : TcpStream -> bool) (w : World)
    (t : ActiveSessionTarget.t) : option TcpStream * World :=
  activate_reserved (reserve_fuel w t) write_ok w t.

Inductive ReserveError :=
| ReserveSessionInactive | ReserveAuthorityInactive | ReserveControlInactive
| ReserveCapacityReached.

Definition set_reserve_capable (c : TcpControlChannel.t) : TcpControlChannel.t :=
  TcpControlChannel.mk (TcpControlChannel.session_id c)
    (TcpControlChannel.authority_id c) (TcpControlChannel.sender c) true.

(** First critical section of [register_reserved_tcp_stream]. *)
Definition reserve_authority (w : World) (node : string) (session : Uuid)
    : result Uuid ReserveError * World :=
  let s := server w in
  if negb (session_current s node session) then (Err ReserveSessionInactive, w)
  else
  match option_filter (fun l => bool_decide (SessionLiveness.session_id l = session))
          (session_liveness s !! node) with
  | None => (Err ReserveAuthorityInactive, w)
  | Some live =>
      let aid := SessionLiveness.authority_id live in
      if tcp_active w node session aid
      then (Ok aid, with_server (set_controls (alter set_reserve_capable node)) w)
      else (Err ReserveControlInactive, w)
  end.

(** Second critical section: the push into the reserve. *)
Definition push_reserved (w : World) (node : string) (session authority : Uuid)
    (stream : TcpStream) : result unit ReserveError * World :=
  let streams := default [] (reserved_tcp (server w) !! node) in
  if (MAX_RESERVED_TCP_STREAMS_PER_NODE <=? List.length streams)%nat
  then (Err ReserveCapacityReached, with_server (set_reserved (<[node := streams]>)) w)
  else (Ok tt, with_server (set_reserved
          (<[node := (streams ++ [ReservedTcpStream.mk session authority stream])%list]>)) w).

Definition register_reserved_tcp_stream (w : World) (node : string) (session : Uuid)
    (stream : TcpStream) : result unit ReserveError * World :=
  match reserve_authority w node session with
  | (Err e, w') => (Err e, w')
  | (Ok aid, w') => push_reserved w' node session aid stream
  end.

Definition keepalive_reserved_tcp_streams (write_ok : TcpStream -> bool) (w : World)
    : nat * World :=
  let healthy := fmap (List.filter (fun r => write_ok (ReservedTcpStream.stream r)))
                   (reserved_tcp (server w)) in
  (sum_list_with (fun kv => List.length kv.2) (map_to_list healthy),
   with_server (set_reserved (fun _ => filter (fun kv => kv.2 <> []) healthy)) w).

(** ** Pending data streams *)

Inductive OpenError :=
| NoControl | PendingCapacityReached | NodePendingCapacityReached
| ControlSendTimedOut | ControlChannelClosed | StreamTimedOut | StreamCancelled.

Definition pending_for_node (m : gmap Uuid PendingTcpProxyRequest.t) (node : string) : nat :=
  List.length (List.filter (fun kv =>
    bool_decide (PendingTcpProxyRequest.expected_node_id kv.2 = node)) (map_to_list m)).

(** The critical section that admits a pending request. *)
Definition admit_pending (w : World) (t : ActiveSessionTarget.t) (stream_id : Uuid)
    (now wait : Z) (tx : Responder) : result unit OpenError * World :=
  let m := pending_tcp (server w) in
  if (MAX_PENDING_TCP_STREAMS <=? size m)%nat then (Err PendingCapacityReached, w)
  else if (MAX_PENDING_TCP_STREAMS_PER_NODE
           <=? pending_for_node m (ActiveSessionTarget.node_id t))%nat
  then (Err NodePendingCapacityReached, w)
  else (Ok tt, with_server (set_pending (<[stream_id :=
         PendingTcpProxyRequest.mk stream_id (ActiveSessionTarget.node_id t)
           (ActiveSessionTarget.session_id t) (ActiveSessionTarget.authority_id t)
           now (now + wait) tx]>)) w).

(** [PendingTcpCleanupGuard::drop] *)
Definition pending_cleanup (w : World) (stream_id : Uuid) : World :=
  with_server (set_pending (delete stream_id)) w.

(** How the send of the activation frame on the control channel ended. *)
Inductive SendOutcome := Sent | SendTimedOut | SendClosed.

(** The loop around it: when the reserve has no writable stream, wait for the
    next notification and look again, until the deadline.  [wakes] are the
    notifications that arrive before the deadline, each with what other tasks
    did to the world meanwhile. *)
Fixpoint wait_reserved (wakes : list (World -> World)) (write_ok : TcpStream -> bool)
    (w : World) (t : ActiveSessionTarget.t) : option TcpStream * World :=
  match take_writable_reserved write_ok w t with
  | (Some s, w') => (Some s, w')
  | (None, w') =>
      match wakes with
      | [] => (None, w')
      | wake :: rest => wait_reserved rest write_ok (wake w') t
      end
  end.

(** From the reserve to the control channel: either a stream from the reserve,
    or a pending request whose activation frame was sent.  The error paths run
    the cleanup guard. *)
Definition open_tcp_proxy_start (w : World) (t : ActiveSessionTarget.t)
    (wakes : list (World -> World)) (write_ok : TcpStream -> bool) (now wait : Z)
    (stream_id : Uuid) (tx : Responder) (send : Sender -> SendOutcome)
    : result (option TcpStream) OpenError * World :=
  let '(reserved, w1) :=
    if target_supports_reserved_tcp w t then wait_reserved wakes write_ok w t
    else (None, w) in
  match reserved with
  | Some s => (Ok (Some s), w1)
  | None =>
      match select_tcp_control_for_target w1 now t with
      | (None, w2) => (Err NoControl, w2)
      | (Some control, w2) =>
          match admit_pending w2 t stream_id now wait tx with
          | (Err e, w3) => (Err e, w3)
          | (Ok _, w3) =>
              match send control with
              | Sent => (Ok None, w3)
              | SendTimedOut => (Err ControlSendTimedOut, pending_cleanup w3 stream_id)
              | SendClosed =>
                  let w4 := remove_tcp_control_for_authority w3
                    (ActiveSessionTarget.node_id t) (ActiveSessionTarget.session_id t)
                    (ActiveSessionTarget.authority_id t) in
                  let w5 := cancel_pending_for_authority w4
                    (ActiveSessionTarget.node_id t) (ActiveSessionTarget.session_id t)
                    (ActiveSessionTarget.authority_id t) in
                  (Err ControlChannelClosed, pending_cleanup w5 stream_id)
              end
          end
      end
  end.

(** The wait for the requester's stream: it was answered, its sender was
    dropped with the pending entry, or the deadline passed. *)
Definition open_tcp_proxy_finish (w : World) (stream_id : Uuid) (tx : Responder)
    : result TcpStream OpenError * World :=
  let outcome :=
    match answered (peers w) !! tx with
    | Some s => Ok s
    | None => if is_some (pending_tcp (server w) !! stream_id)
              then Err StreamTimedOut else Err StreamCancelled
    end in
  (outcome, pending_cleanup w stream_id).

Definition answer (w : World) (tx : Responder) (stream : TcpStream)
    : result unit TcpProxyStreamRejection * World :=
  let p := peers w in
  if bool_decide (tx ∈ closed_requesters p) then (Err RequesterClosed, w)
  else (Ok tt, mk_world (server w)
         (mk_peers (closed_connections p) (closed_senders p) (closed_requesters p)
            (<[tx := stream]> (answered p)))).

(** The critical section of [accept_tcp_proxy_stream].  [Err (e, stale)] also
    says which authority is to be expired once the locks are released. *)
Definition accept_section (w : World) (now : Z) (node : string)
    (session stream_id : Uuid) (stream : TcpStream)
    : result unit (TcpProxyStreamRejection * option (string * Uuid * Uuid)) * World :=
  let s := server w in
  match pending_tcp s !! stream_id with
  | None => (Err (UnexpectedStreamId, None), w)
  | Some request =>
      let rnode := PendingTcpProxyRequest.expected_node_id request in
      let rsid := PendingTcpProxyRequest.expected_session_id request in
      let raid := PendingTcpProxyRequest.expected_authority_id request in
      if negb (bool_decide (PendingTcpProxyRequest.stream_id request = stream_id))
      then (Err (UnexpectedStreamId, None), w)
      else if negb (bool_decide (rnode = node)) then (Err (NodeMismatch, None), w)
      else if negb (bool_decide (rsid = session)) then (Err (SessionMismatch, None), w)
      else if PendingTcpProxyRequest.is_expired request now
      then (Err (RequestExpired, None), pending_cleanup w stream_id)
      else
        let session_cur := session_current s rnode rsid in
        let authority_cur := session_cur
          && is_some_and (session_liveness s !! rnode) (live_for rsid raid) in
        let fresh := authority_cur
          && session_is_fresh (session_liveness s) rnode rsid raid now
               (heartbeat_timeout s) in
        if fresh && tcp_active w rnode rsid raid
        then
          let '(sent, w') := answer (pending_cleanup w stream_id)
            (PendingTcpProxyRequest.response_sender request) stream in
          (map_err (fun e => (e, None)) sent, w')
        else
          (Err (SessionInactive,
                if authority_cur then Some (rnode, rsid, raid) else None),
           pending_cleanup w stream_id)
  end.

Definition accept_tcp_proxy_stream (w : World) (now : Z) (node : string)
    (session stream_id : Uuid) (stream : TcpStream)
    : result unit TcpProxyStreamRejection * World :=
  match accept_section w now node session stream_id stream with
  | (Ok u, w') => (Ok u, w')
  | (Err (e, None), w') => (Err e, w')
  | (Err (e, Some (n, sid, aid)), w') => (Err e, expire_session w' n sid aid)
  end.

(** ** Session authority *)

(** [authority_id] is the [Uuid::new_v4()] drawn on entry. *)
Definition replace_session_authority (w : World) (now : Z) (authority_id : Uuid)
    (node : string) (session : Uuid) (authority : SessionAuthority) : World :=
  let s := server w in
  let previous_session := ServerSessionSnapshot.session_id <$> sessions s !! node in
  let previous_authority := SessionLiveness.authority_id <$> session_liveness s !! node in
  let accepted := from_option (fun x =>
      saturating_add_u64 (ServerSessionSnapshot.accepted_connections x) 1) 1
      (sessions s !! node) in
  let pending :=
    match previous_session with
    | None => pending_tcp s
    | Some ps =>
        retain_pending (fun r =>
          if negb (bool_decide (PendingTcpProxyRequest.expected_node_id r = node))
             || negb (bool_decide (PendingTcpProxyRequest.expected_session_id r = ps))
          then true
          else is_some_and previous_authority (fun pa =>
                 negb (bool_decide (PendingTcpProxyRequest.expected_authority_id r = pa))))
          (pending_tcp s)
    end in
  let displaced := connections s !! node in
  let connections' := delete node (connections s) in
  let controls' := delete node (tcp_controls s) in
  let s' := mk_server
    (<[node := ServerSessionSnapshot.mk node session true accepted None]> (sessions s))
    (match authority with
     | AuthQuic c => <[node := SessionBound.mk session authority_id c]> connections'
     | AuthTcp _ => connections'
     end)
    (match authority with
     | AuthQuic _ => controls'
     | AuthTcp tx => <[node := TcpControlChannel.mk session authority_id tx false]> controls'
     end)
    pending (delete node (reserved_tcp s))
    (<[node := SessionLiveness.mk session authority_id now]>
       (delete node (session_liveness s)))
    (heartbeat_timeout s) in
  close_connection displaced (mk_world s' (peers w)).

Definition set_last_seen (now : Z) (l : SessionLiveness.t) : SessionLiveness.t :=
  SessionLiveness.mk (SessionLiveness.session_id l) (SessionLiveness.authority_id l) now.

Definition refresh_session_heartbeat_for_authority (w : World) (now : Z) (node : string)
    (session authority : Uuid) : bool * World :=
  let s := server w in
  if negb (session_current s node session) then (false, w)
  else if negb (quic_active w node session authority)
          && negb (tcp_active w node session authority) then (false, w)
  else if is_some_and (session_liveness s !! node) (live_for session authority)
  then (true, with_server (set_liveness (alter (set_last_seen now) node)) w)
  else (false, w).

(** ** Shutdown and snapshots *)

(** Clears the connected flag of the session a drained control belonged to. *)
Definition mark_session_down (w : World) (node : string) (session : Uuid) : World :=
  with_server (set_sessions (alter (fun x =>
      if bool_decide (ServerSessionSnapshot.session_id x = session)
      then set_connected false x else x) node)) w.

(** One turn of the loop over the drained controls. *)
Definition shutdown_session (w : World) (k : string * Uuid) : World :=
  let '(node, session) := k in
  remove_session_liveness (mark_session_down w node session) node session.

Definition shutdown_tcp (w : World) : World :=
  let drained := (fun kv => (kv.1, TcpControlChannel.session_id kv.2))
                   <$> map_to_list (tcp_controls (server w)) in
  let w1 := with_server (fun s => set_reserved (fun _ => ∅)
              (set_pending (fun _ => ∅) (set_controls (fun _ => ∅) s))) w in
  foldl shutdown_session w1 drained.

(** [sort_by] on the node identity, by insertion. *)
Fixpoint insert_by_node (x : ServerSessionSnapshot.t) (l : list ServerSessionSnapshot.t)
    : list ServerSessionSnapshot.t :=
  match l with
  | [] => [x]
  | y :: r =>
      if String.leb (ServerSessionSnapshot.node_id x) (ServerSessionSnapshot.node_id y)
      then x :: y :: r else y :: insert_by_node x r
  end.

Definition snapshot (w : World) : list ServerSessionSnapshot.t :=
  foldr insert_by_node [] (session_values (server w)).

(** ** Session bookkeeping of the connection handlers

    [mark_connected], [mark_heartbeat] and [mark_disconnected] of
    [crates/reverse-tunnel/src/tunnel.rs]. *)

Definition mark_connected (w : World) (now : Z) (authority_id : Uuid)
    (hello : TunnelHello.t) (authority : SessionAuthority) : World :=
  replace_session_authority w now authority_id (TunnelHello.node_id hello)
    (TunnelHello.session_id hello) authority.

(** Second critical section of [mark_heartbeat]. *)
Definition note_heartbeat (w : World) (hb : TunnelHeartbeat.t) : World :=
  with_server (set_sessions (alter (fun x =>
    if bool_decide (ServerSessionSnapshot.session_id x = TunnelHeartbeat.session_id hb)
    then ServerSessionSnapshot.mk (ServerSessionSnapshot.node_id x)
           (ServerSessionSnapshot.session_id x) true
           (ServerSessionSnapshot.accepted_connections x)
           (Some (TunnelHeartbeat.sequence hb))
    else x) (TunnelHeartbeat.node_id hb))) w.

Definition mark_heartbeat (w : World) (now : Z) (hb : TunnelHeartbeat.t)
    (authority : Uuid) : World :=
  match refresh_session_heartbeat_for_authority w now (TunnelHeartbeat.node_id hb)
          (TunnelHeartbeat.session_id hb) authority with
  | (false, w') => w'
  | (true, w') => note_heartbeat w' hb
  end.

Definition mark_disconnected (w : World) (hello : TunnelHello.t) (authority : Uuid)
    : World :=
  fst (disconnect_session_authority w (TunnelHello.node_id hello)
         (TunnelHello.session_id hello) authority).
