(* ===== verification/TunnelRouting.v ===== *)
(** * Reverse tunnel: which session carries public traffic

    Theorems on the selection of [crates/reverse-tunnel/src/state.rs]: the
    exact condition under which a session is chosen, independence of the
    iteration order of the session map, and what selection expires. *)

From stdpp Require Import base gmap strings list fin_maps sorting.
From Stdlib Require Import ZArith Lia String.
From S2P Require Import Prelude Foundation TunnelModel TunnelState.
Local Open Scope string_scope.
Local Open Scope Z_scope.

(** ** What routing promises *)

(** A target may carry traffic: its session is connected, its authority was
    seen within the heartbeat timeout, and that same authority has an open
    transport. *)
Definition routable (w : World) (now : Z) (t : ActiveSessionTarget.t) : bool :=
  session_current (server w) (ActiveSessionTarget.node_id t)
    (ActiveSessionTarget.session_id t)
  && target_fresh w now t
  && (quic_active w (ActiveSessionTarget.node_id t) (ActiveSessionTarget.session_id t)
        (ActiveSessionTarget.authority_id t)
      || tcp_active w (ActiveSessionTarget.node_id t) (ActiveSessionTarget.session_id t)
           (ActiveSessionTarget.authority_id t)).

Definition wanted_node (wanted : option string) (node : string) : Prop :=
  match wanted with Some e => node = e | None => True end.

(** Every session snapshot is stored under its own node. *)
Definition keyed (w : World) : Prop :=
  map_Forall (fun node x => ServerSessionSnapshot.node_id x = node) (sessions (server w)).

Lemma session_current_true (s : ServerState) node sid :
  session_current s node sid = true <->
  exists x, sessions s !! node = Some x /\ ServerSessionSnapshot.connected x = true
            /\ ServerSessionSnapshot.session_id x = sid.
Proof.
  unfold session_current. rewrite is_some_and_true.
  split; intros (x & Hx & H); exists x; [bools; auto|].
  destruct H as [-> ->]. split; [done|]. by rewrite bool_decide_true.
Qed.

Lemma live_for_true sid aid (l : SessionLiveness.t) :
  live_for sid aid l = true <->
  SessionLiveness.session_id l = sid /\ SessionLiveness.authority_id l = aid.
Proof. unfold live_for. rewrite andb_true_iff, !bool_decide_eq_true. done. Qed.

Lemma session_is_fresh_true liveness node sid aid now timeout :
  session_is_fresh liveness node sid aid now timeout = true <->
  exists l, liveness !! node = Some l /\ live_for sid aid l = true
            /\ saturating_duration_since now (SessionLiveness.last_seen_at l) <= timeout.
Proof.
  unfold session_is_fresh. rewrite is_some_and_true.
  split; intros (l & Hl & H); exists l; split; auto.
  - apply andb_true_iff in H as [H1 H2]. unfold live_for. rewrite H1. by bools.
  - destruct H as [H1 H2]. unfold live_for in H1. rewrite H1. by apply Z.leb_le.
Qed.

(** A node has at most one routable target. *)
Lemma routable_functional w now t t' :
  routable w now t = true -> routable w now t' = true ->
  ActiveSessionTarget.node_id t = ActiveSessionTarget.node_id t' -> t = t'.
Proof.
  unfold routable, target_fresh.
  intros [[_ H]%andb_true_iff _]%andb_true_iff [[_ H']%andb_true_iff _]%andb_true_iff Hn.
  apply session_is_fresh_true in H as (l & Hl & Hlive & _).
  apply session_is_fresh_true in H' as (l' & Hl' & Hlive' & _).
  rewrite Hn in Hl. assert (l = l') as -> by congruence.
  apply live_for_true in Hlive, Hlive'.
  destruct t, t'; simpl in *. intuition congruence.
Qed.

(** ** The scan as three filters *)

Definition verdict (w : World) (now : Z) (wanted : option string)
    (x : ServerSessionSnapshot.t) : Scan :=
  scan_session w now wanted (mk_scan [] [] []) x.

Lemma scan_session_verdict w now wanted acc x :
  scan_session w now wanted acc x =
  mk_scan (inactive acc ++ inactive (verdict w now wanted x))
    (closed acc ++ closed (verdict w now wanted x))
    (candidates acc ++ candidates (verdict w now wanted x)).
Proof.
  unfold verdict, scan_session. destruct acc as [i c k]; simpl.
  repeat case_match; simpl; rewrite ?app_nil_r; done.
Qed.

Lemma scan_concat w now wanted order acc :
  foldl (scan_session w now wanted) acc order =
  mk_scan (inactive acc ++ List.concat (inactive ∘ verdict w now wanted <$> order))
    (closed acc ++ List.concat (closed ∘ verdict w now wanted <$> order))
    (candidates acc ++ List.concat (candidates ∘ verdict w now wanted <$> order)).
Proof.
  revert acc. induction order as [|x order IH]; intros [i c k]; simpl.
  - by rewrite !app_nil_r.
  - rewrite IH, scan_session_verdict; simpl. by rewrite <- !app_assoc.
Qed.

(** The candidate a session contributes. *)
Definition candidate (w : World) (now : Z) (wanted : option string)
    (x : ServerSessionSnapshot.t) : option ActiveSessionTarget.t :=
  head (candidates (verdict w now wanted x)).

Lemma candidates_verdict w now wanted x :
  candidates (verdict w now wanted x) = option_list (candidate w now wanted x).
Proof.
  unfold candidate, verdict, scan_session. repeat case_match; done.
Qed.

Lemma concat_option_list {A B} (f : A -> option B) (l : list A) :
  List.concat ((fun x => option_list (f x)) <$> l) = omap f l.
Proof.
  induction l as [|x l IH]; [done|]. rewrite fmap_cons. simpl. rewrite IH.
  by destruct (f x).
Qed.

Lemma scan_candidates w now wanted order :
  candidates (foldl (scan_session w now wanted) (mk_scan [] [] []) order)
  = omap (candidate w now wanted) order.
Proof.
  rewrite scan_concat; simpl. rewrite <- concat_option_list. f_equal.
  apply list_fmap_ext. intros _ x _. apply candidates_verdict.
Qed.

Lemma candidate_Some w now wanted x t :
  candidate w now wanted x = Some t <->
  ServerSessionSnapshot.connected x = true
  /\ wanted_node wanted (ServerSessionSnapshot.node_id x)
  /\ ActiveSessionTarget.node_id t = ServerSessionSnapshot.node_id x
  /\ ActiveSessionTarget.session_id t = ServerSessionSnapshot.session_id x
  /\ target_fresh w now t = true
  /\ (quic_active w (ActiveSessionTarget.node_id t) (ActiveSessionTarget.session_id t)
        (ActiveSessionTarget.authority_id t)
      || tcp_active w (ActiveSessionTarget.node_id t) (ActiveSessionTarget.session_id t)
           (ActiveSessionTarget.authority_id t)) = true.
Proof.
  unfold candidate, verdict, scan_session, target_fresh.
  rewrite session_is_fresh_true. destruct t as [n s a]; simpl.
  destruct (ServerSessionSnapshot.connected x); simpl; [|by split; [|intros (? & _)]].
  destruct (is_some_and wanted _) eqn:Hw; simpl.
  { split; [done|]. intros (_ & Hwant & _). destruct wanted as [e|]; simpl in *; [|done].
    bools. done. }
  assert (wanted_node wanted (ServerSessionSnapshot.node_id x)) as Hwant.
  { destruct wanted; simpl in *; [by bools|done]. }
  destruct (option_filter _ _) as [l|] eqn:Hl.
  - apply option_filter_Some in Hl as [Hl Hcond]. bools.
    destruct (_ || _) eqn:Hact; simpl.
    + split.
      * intros [= <- <- <-]. repeat split; try done. exists l.
        rewrite live_for_true. done.
      * intros (_ & _ & -> & -> & (l' & Hl' & Hlive & _) & _).
        apply live_for_true in Hlive as [_ <-]. congruence.
    + split; [done|]. intros (_ & _ & -> & -> & (l' & Hl' & Hlive & _) & Ha).
      apply live_for_true in Hlive as [_ <-].
      assert (l' = l) as -> by congruence. congruence.
  - split; [by case_match|]. intros (_ & _ & -> & -> & (l' & Hl' & Hlive & Ht) & _).
    apply live_for_true in Hlive as [Hs _]. exfalso.
    rewrite Hl' in Hl. simpl in Hl. rewrite bool_decide_true in Hl by done.
    apply Z.leb_le in Ht. by rewrite Ht in Hl.
Qed.

(** Over the session map, the candidates are the routable targets. *)
Lemma candidates_routable w now wanted order t :
  keyed w -> order ≡ₚ session_values (server w) ->
  t ∈ omap (candidate w now wanted) order <->
  routable w now t = true /\ wanted_node wanted (ActiveSessionTarget.node_id t).
Proof.
  intros Hk Hperm. rewrite list_elem_of_omap. unfold routable.
  rewrite !andb_true_iff, session_current_true. split.
  - intros (x & Hx & (Hc & Hw & Hn & Hs & Hf & Ha)%candidate_Some).
    rewrite Hperm in Hx. unfold session_values in Hx.
    apply list_elem_of_fmap in Hx as ([n x'] & -> & Hx). simpl in *.
    apply elem_of_map_to_list in Hx. pose proof (Hk _ _ Hx) as Hkey. simpl in Hkey.
    rewrite Hkey in *. subst n. repeat split; eauto.
  - intros ((((x & Hx & Hc & Hs) & Hf) & Ha) & Hw).
    exists x. pose proof (Hk _ _ Hx) as Hkey. simpl in Hkey. split.
    + rewrite Hperm. apply list_elem_of_fmap. exists (ActiveSessionTarget.node_id t, x).
      split; [done|]. by apply elem_of_map_to_list.
    + apply candidate_Some. by rewrite Hkey.
Qed.

Lemma candidate_node w now wanted x t :
  candidate w now wanted x = Some t ->
  ActiveSessionTarget.node_id t = ServerSessionSnapshot.node_id x.
Proof. intros H. apply candidate_Some in H. tauto. Qed.

Lemma candidates_nodes_NoDup w now wanted order :
  NoDup (ServerSessionSnapshot.node_id <$> order) ->
  NoDup (omap (candidate w now wanted) order).
Proof.
  induction order as [|x order IH]; intros Hnd; simpl; [constructor|].
  rewrite fmap_cons in Hnd. apply NoDup_cons in Hnd as [Hni Hnd].
  destruct (candidate w now wanted x) as [t|] eqn:Ht; [|auto].
  constructor; [|auto]. rewrite list_elem_of_omap. intros (y & Hy & Hty).
  apply Hni. apply list_elem_of_fmap. exists y. split; [|done].
  apply candidate_node in Ht, Hty. congruence.
Qed.

Lemma session_values_nodes_NoDup w order :
  keyed w -> order ≡ₚ session_values (server w) ->
  NoDup (ServerSessionSnapshot.node_id <$> order).
Proof.
  intros Hk ->. unfold session_values. rewrite <- list_fmap_compose.
  rewrite (list_fmap_ext _ fst).
  { apply NoDup_fst_map_to_list. }
  intros i [n x] Hx. simpl. apply (Hk n x).
  apply elem_of_map_to_list. by eapply list_elem_of_lookup_2.
Qed.

(** A repetition-free list whose members satisfy a predicate that pins one
    value is that singleton. *)
Lemma NoDup_singleton {A} (l : list A) (x : A) :
  NoDup l -> l = [x] <-> (forall y, y ∈ l <-> y = x).
Proof.
  intros Hnd. split; [intros ->; set_solver|]. intros H.
  destruct l as [|a l]; [exfalso; by apply (not_elem_of_nil x), H|].
  assert (a = x) as -> by (apply H; left).
  destruct l as [|b l]; [done|]. exfalso.
  assert (b = x) as -> by (apply H; right; left).
  apply NoDup_cons in Hnd as [Hni _]. apply Hni. left.
Qed.

(** The only routable target of the world. *)
Definition unambiguous (w : World) (now : Z) (t : ActiveSessionTarget.t) : Prop :=
  forall t', routable w now t' = true -> t' = t.

Lemma select_in_order_spec w now wanted order t :
  keyed w -> order ≡ₚ session_values (server w) ->
  fst (select_in_order order w now wanted) = Some t <->
  routable w now t = true
  /\ wanted_node wanted (ActiveSessionTarget.node_id t)
  /\ (wanted = None -> unambiguous w now t).
Proof.
  intros Hk Hperm. unfold select_in_order; simpl. rewrite scan_candidates.
  pose proof (fun t => candidates_routable w now wanted order t Hk Hperm) as Hin.
  pose proof (candidates_nodes_NoDup w now wanted order
                (session_values_nodes_NoDup w order Hk Hperm)) as Hnd.
  set (cs := omap _ order) in *. clearbody cs. unfold choose, unambiguous.
  destruct wanted as [e|]; simpl in *.
  - transitivity (t ∈ cs); [|rewrite Hin; naive_solver].
    split; [destruct cs; simpl; [done|intros [= ->]; left]|].
    intros Ht. destruct cs as [|c cs]; [by apply not_elem_of_nil in Ht|].
    simpl. f_equal. assert (c ∈ c :: cs) as Hc by left.
    apply Hin in Ht as [Ht Htn], Hc as [Hc Hcn].
    apply (routable_functional w now); congruence.
  - transitivity (cs = [t]).
    { destruct cs as [|c [|d cs]]; split; congruence. }
    rewrite (NoDup_singleton cs t Hnd). naive_solver.
Qed.
