(* ===== verification/TunnelInvariant.v ===== *)
(** * Reverse tunnel: the server state as a transition system

    Every critical section of [crates/reverse-tunnel/src/state.rs] is one step;
    tasks interleave freely between them, and the peers close connections,
    channels and requests on their own.  The invariant holds in every reachable
    state, and an authority that lost its node never gets it back. *)

From stdpp Require Import base gmap strings list fin_maps sorting relations.
From Stdlib Require Import ZArith Lia String.
From S2P Require Import Prelude Foundation TunnelModel TunnelState TunnelRouting.
Local Open Scope string_scope.
Local Open Scope Z_scope.

(** ** Identities *)

Definition session_ids (x : ServerSessionSnapshot.t) : string * Uuid :=
  (ServerSessionSnapshot.node_id x, ServerSessionSnapshot.session_id x).
Definition control_ids (c : TcpControlChannel.t) : Uuid * Uuid :=
  (TcpControlChannel.session_id c, TcpControlChannel.authority_id c).
Definition bound_ids (b : SessionBound.t) : Uuid * Uuid :=
  (SessionBound.session_id b, SessionBound.authority_id b).
Definition live_ids (l : SessionLiveness.t) : Uuid * Uuid :=
  (SessionLiveness.session_id l, SessionLiveness.authority_id l).

(** ** The invariant

    [issued] is the set of authority identities drawn so far. *)
Record inv (issued : gset Uuid) (w : World) : Prop := {
  inv_keyed : keyed w;
  inv_pending_keyed :
    map_Forall (fun id r => PendingTcpProxyRequest.stream_id r = id)
      (pending_tcp (server w));
  inv_pending_size : (size (pending_tcp (server w)) <= MAX_PENDING_TCP_STREAMS)%nat;
  inv_pending_node : forall node,
    (pending_for_node (pending_tcp (server w)) node
     <= MAX_PENDING_TCP_STREAMS_PER_NODE)%nat;
  inv_reserved :
    map_Forall (fun _ l => (List.length l <= MAX_RESERVED_TCP_STREAMS_PER_NODE)%nat)
      (reserved_tcp (server w));
  inv_exclusive : forall node,
    connections (server w) !! node = None \/ tcp_controls (server w) !! node = None;
  inv_connections_inj : forall n n' b b',
    connections (server w) !! n = Some b -> connections (server w) !! n' = Some b' ->
    SessionBound.value b = SessionBound.value b' -> n = n';
  inv_session : forall n l, session_liveness (server w) !! n = Some l ->
    exists x, sessions (server w) !! n = Some x
              /\ ServerSessionSnapshot.session_id x = SessionLiveness.session_id l;
  inv_bound : forall n b l, connections (server w) !! n = Some b ->
    session_liveness (server w) !! n = Some l -> bound_ids b = live_ids l;
  inv_control : forall n c l, tcp_controls (server w) !! n = Some c ->
    session_liveness (server w) !! n = Some l -> control_ids c = live_ids l;
  inv_issued : forall n l, session_liveness (server w) !! n = Some l ->
    SessionLiveness.authority_id l ∈ issued;
  inv_responders : forall id r, pending_tcp (server w) !! id = Some r ->
    answered (peers w) !! PendingTcpProxyRequest.response_sender r = None;
  inv_responders_inj : forall id id' r r',
    pending_tcp (server w) !! id = Some r -> pending_tcp (server w) !! id' = Some r' ->
    PendingTcpProxyRequest.response_sender r = PendingTcpProxyRequest.response_sender r' ->
    id = id';
}.

(** ** Steps that only take away

    [shrinks w w']: identities are never changed or added; connected flags,
    heartbeat times and the closed sets may change. *)
Record shrinks (w w' : World) : Prop := {
  shrinks_sessions : session_ids <$> sessions (server w') = session_ids <$> sessions (server w);
  shrinks_connections : connections (server w') ⊆ connections (server w);
  shrinks_controls :
    control_ids <$> tcp_controls (server w') ⊆ control_ids <$> tcp_controls (server w);
  shrinks_pending : pending_tcp (server w') ⊆ pending_tcp (server w);
  shrinks_reserved : forall n l, reserved_tcp (server w') !! n = Some l ->
    (List.length l <= List.length (default [] (reserved_tcp (server w) !! n)))%nat;
  shrinks_liveness :
    live_ids <$> session_liveness (server w') ⊆ live_ids <$> session_liveness (server w);
  shrinks_timeout : heartbeat_timeout (server w') = heartbeat_timeout (server w);
  shrinks_answered : answered (peers w') = answered (peers w);
}.

#[export] Instance shrinks_preorder : PreOrder shrinks.
Proof.
  split.
  - intros w. split; try done. intros n l ->. done.
  - intros w1 w2 w3 H H'. destruct H, H'. split; try (by etrans); try congruence.
    intros n l Hl. specialize (shrinks_reserved1 n l Hl).
    destruct (reserved_tcp (server w2) !! n) as [l2|] eqn:H2; simpl in *; [|lia].
    specialize (shrinks_reserved0 n l2 H2). lia.
Qed.

Lemma fmap_subseteq_lookup {A B} `{Countable K} (f : A -> B) (m m' : gmap K A) k a :
  f <$> m' ⊆ f <$> m -> m' !! k = Some a -> exists a', m !! k = Some a' /\ f a' = f a.
Proof.
  intros Hsub Hk.
  assert ((f <$> m) !! k = Some (f a)) as Hf.
  { eapply lookup_weaken; [|done]. by rewrite lookup_fmap, Hk. }
  rewrite lookup_fmap in Hf. destruct (m !! k) as [a'|]; naive_solver.
Qed.

Lemma fmap_eq_lookup {A B} `{Countable K} (f : A -> B) (m m' : gmap K A) k a :
  f <$> m' = f <$> m -> m' !! k = Some a -> exists a', m !! k = Some a' /\ f a' = f a.
Proof. intros Heq. apply fmap_subseteq_lookup. by rewrite Heq. Qed.

Lemma pending_for_node_mono (m m' : gmap Uuid PendingTcpProxyRequest.t) node :
  m' ⊆ m -> (pending_for_node m' node <= pending_for_node m node)%nat.
Proof.
  intros Hsub. unfold pending_for_node.
  apply NoDup_incl_length.
  - apply List.NoDup_filter, NoDup_ListNoDup, NoDup_map_to_list.
  - intros [k r] [Hin Hp]%filter_In. apply filter_In. split; [|done].
    apply list_elem_of_In, elem_of_map_to_list.
    eapply lookup_weaken; [|done]. by apply elem_of_map_to_list, list_elem_of_In.
Qed.

(** ** The invariant survives every shrinking step *)
Lemma shrinks_inv issued w w' : shrinks w w' -> inv issued w -> inv issued w'.
Proof.
  intros [] []. split.
  - intros n x Hx. destruct (fmap_eq_lookup _ _ _ _ _ shrinks_sessions0 Hx) as (y & Hy & He).
    injection He as Hn Hs. pose proof (inv_keyed0 n y Hy) as Hk. simpl in Hk. congruence.
  - intros id r Hr. eapply inv_pending_keyed0. by eapply lookup_weaken.
  - etrans; [|apply inv_pending_size0]. by apply map_subseteq_size.
  - intros n. etrans; [|apply inv_pending_node0]. by apply pending_for_node_mono.
  - intros n l Hl. specialize (shrinks_reserved0 n l Hl).
    destruct (reserved_tcp (server w) !! n) as [l2|] eqn:H2; simpl in *; [|lia].
    specialize (inv_reserved0 n l2 H2). simpl in *. lia.
  - intros n. destruct (inv_exclusive0 n) as [H|H]; [left|right].
    + by eapply lookup_weaken_None.
    + apply fmap_None with (f := control_ids). rewrite <- lookup_fmap.
      eapply lookup_weaken_None; [|done]. by rewrite lookup_fmap, H.
  - intros n n' b b' Hb Hb'. apply inv_connections_inj0; by eapply lookup_weaken.
  - intros n l Hl.
    destruct (fmap_subseteq_lookup _ _ _ _ _ shrinks_liveness0 Hl) as (l0 & Hl0 & He).
    destruct (inv_session0 n l0 Hl0) as (x & Hx & Hs). symmetry in shrinks_sessions0.
    destruct (fmap_eq_lookup _ _ _ _ _ shrinks_sessions0 Hx) as (y & Hy & He').
    exists y. injection He as He1 He2. injection He' as _ He'. split; [done|congruence].
  - intros n b l Hb Hl.
    destruct (fmap_subseteq_lookup _ _ _ _ _ shrinks_liveness0 Hl) as (l0 & Hl0 & <-).
    apply (inv_bound0 n); [by eapply lookup_weaken|done].
  - intros n c l Hc Hl.
    destruct (fmap_subseteq_lookup _ _ _ _ _ shrinks_liveness0 Hl) as (l0 & Hl0 & <-).
    destruct (fmap_subseteq_lookup _ _ _ _ _ shrinks_controls0 Hc) as (c0 & Hc0 & <-).
    by apply (inv_control0 n).
  - intros n l Hl.
    destruct (fmap_subseteq_lookup _ _ _ _ _ shrinks_liveness0 Hl) as (l0 & Hl0 & He).
    injection He as _ <-. by eapply inv_issued0.
  - intros id r Hr. rewrite shrinks_answered0. eapply inv_responders0.
    by eapply lookup_weaken.
  - intros id id' r r' Hr Hr'. apply inv_responders_inj0; by eapply lookup_weaken.
Qed.

(** ** Operations that shrink *)

(** [shrink_tac] proves the fields a single update leaves alone. *)
Ltac shrink_tac :=
  split; simpl; try done; try (by intros ? ? ->); try apply delete_subseteq;
  try (rewrite fmap_delete; apply delete_subseteq).

Lemma retain_pending_subseteq keep m : retain_pending keep m ⊆ m.
Proof. apply map_filter_subseteq. Qed.

Lemma close_connection_shrinks o w : shrinks w (close_connection o w).
Proof. destruct o; [|done]. shrink_tac. Qed.

Lemma remove_session_bound_subseteq entries n sid aid :
  (remove_session_bound entries n sid aid).2 ⊆ entries.
Proof. unfold remove_session_bound. case_if; [apply delete_subseteq|done]. Qed.

Lemma remove_quic_shrinks w n sid aid :
  shrinks w (remove_quic_connection_for_authority w n sid aid).
Proof.
  unfold remove_quic_connection_for_authority.
  destruct (remove_session_bound _ _ _ _) as [o rest] eqn:He.
  etrans; [|apply close_connection_shrinks]. shrink_tac.
  change rest with (o, rest).2. rewrite <- He. apply remove_session_bound_subseteq.
Qed.

Lemma reserved_delete_shrinks (m : gmap string (list ReservedTcpStream.t)) n :
  forall k l, delete n m !! k = Some l ->
  (List.length l <= List.length (default [] (m !! k)))%nat.
Proof. intros k l [_ Hl]%lookup_delete_Some. by rewrite Hl. Qed.

Lemma remove_control_shrinks w n sid aid :
  shrinks w (remove_tcp_control_for_authority w n sid aid).
Proof.
  unfold remove_tcp_control_for_authority. case_if; [|done].
  shrink_tac. apply reserved_delete_shrinks.
Qed.

Lemma cancel_pending_shrinks w n sid aid :
  shrinks w (cancel_pending_for_authority w n sid aid).
Proof. shrink_tac. apply retain_pending_subseteq. Qed.

Lemma pending_cleanup_shrinks w id : shrinks w (pending_cleanup w id).
Proof. shrink_tac. Qed.

(** Changing a session without touching its identities. *)
Lemma alter_session_ids f n (m : gmap string ServerSessionSnapshot.t) :
  (forall x, session_ids (f x) = session_ids x) ->
  session_ids <$> alter f n m = session_ids <$> m.
Proof.
  intros Hf. apply map_eq. intros k. rewrite !lookup_fmap.
  destruct (decide (n = k)) as [->|].
  - rewrite lookup_alter_eq. destruct (m !! k); simpl; by rewrite ?Hf.
  - by rewrite lookup_alter_ne.
Qed.

Lemma disconnect_shrinks w n sid aid :
  shrinks w (disconnect_session_authority w n sid aid).1.
Proof.
  unfold disconnect_session_authority. case_if; [done|].
  destruct (remove_session_bound _ _ _ _) as [o rest] eqn:He. simpl.
  etrans; [|apply close_connection_shrinks]. shrink_tac.
  - by apply alter_session_ids.
  - change rest with (o, rest).2. rewrite <- He. apply remove_session_bound_subseteq.
  - apply map_fmap_mono. case_if; [apply delete_subseteq|done].
  - apply retain_pending_subseteq.
  - apply reserved_delete_shrinks.
Qed.

Lemma expire_session_shrinks w n sid aid : shrinks w (expire_session w n sid aid).
Proof. apply disconnect_shrinks. Qed.

Lemma remove_session_liveness_shrinks w n sid : shrinks w (remove_session_liveness w n sid).
Proof. unfold remove_session_liveness. case_if; [|done]. shrink_tac. Qed.

Lemma mark_session_down_shrinks w n sid : shrinks w (mark_session_down w n sid).
Proof. shrink_tac. apply alter_session_ids. intros x. by case_if. Qed.

Lemma note_heartbeat_shrinks w hb : shrinks w (note_heartbeat w hb).
Proof. shrink_tac. apply alter_session_ids. intros x. by case_if. Qed.

Lemma refresh_shrinks w now n sid aid :
  shrinks w (refresh_session_heartbeat_for_authority w now n sid aid).2.
Proof.
  unfold refresh_session_heartbeat_for_authority. repeat case_if; try done.
  shrink_tac. apply reflexive_eq, map_eq. intros k. rewrite !lookup_fmap.
  destruct (decide (n = k)) as [->|];
    [rewrite lookup_alter_eq | by rewrite lookup_alter_ne].
  by destruct (session_liveness (server w) !! k).
Qed.

(** ** The reserve *)

Lemma pop_matching_length t stack :
  (List.length (pop_matching t stack).2 <= List.length stack)%nat.
Proof. induction stack as [|r l IH]; simpl; [done|]. case_if; simpl; lia. Qed.

Lemma take_reserved_shrinks w t : shrinks w (take_reserved_tcp_stream w t).2.
Proof.
  unfold take_reserved_tcp_stream.
  destruct (reserved_tcp (server w) !! _) as [streams|] eqn:Hs; [|done].
  pose proof (pop_matching_length t (reverse streams)) as Hlen.
  rewrite length_reverse in Hlen.
  destruct (pop_matching t (reverse streams)) as [[s|] rest]; shrink_tac.
  - intros n l [[<- <-]|[_ ->]]%lookup_insert_Some; [|done].
    rewrite Hs. simpl. by rewrite length_reverse.
  - apply reserved_delete_shrinks.
Qed.

Lemma reserve_authority_shrinks w n sid : shrinks w (reserve_authority w n sid).2.
Proof.
  unfold reserve_authority. case_if; [done|].
  destruct (option_filter _ _); [|done]. case_if; [|done]. shrink_tac.
  apply reflexive_eq, map_eq. intros k. rewrite !lookup_fmap.
  destruct (decide (n = k)) as [->|];
    [rewrite lookup_alter_eq | by rewrite lookup_alter_ne].
  by destruct (tcp_controls (server w) !! k).
Qed.

Lemma keepalive_shrinks write_ok w :
  shrinks w (keepalive_reserved_tcp_streams write_ok w).2.
Proof.
  shrink_tac. intros n l [Hl _]%map_lookup_filter_Some.
  rewrite lookup_fmap in Hl.
  destruct (reserved_tcp (server w) !! n) as [m|]; simpl in *; [|done].
  injection Hl as <-. apply List.filter_length_le.
Qed.

(** Adding a stream to the reserve keeps the rest of the state. *)
Lemma push_reserved_inv issued w n sid aid stream :
  inv issued w -> inv issued (push_reserved w n sid aid stream).2.
Proof.
  intros Hinv. unfold push_reserved.
  set (streams := default [] (reserved_tcp (server w) !! n)).
  destruct (_ <=? _)%nat eqn:Hcap; simpl.
  - apply (shrinks_inv issued w); [|done]. shrink_tac.
    intros k l [[<- <-]|[_ ->]]%lookup_insert_Some; done.
  - apply Nat.leb_gt in Hcap. destruct Hinv; split; simpl; try done.
    intros k l [[<- <-]|[_ Hl]]%lookup_insert_Some; [|by eapply inv_reserved0].
    rewrite length_app. simpl. unfold streams in *. lia.
Qed.

(** ** Pending requests *)

Lemma pending_for_node_insert m id r node :
  m !! id = None ->
  pending_for_node (<[id := r]> m) node =
  ((if bool_decide (PendingTcpProxyRequest.expected_node_id r = node) then 1 else 0)
   + pending_for_node m node)%nat.
Proof.
  intros Hid. unfold pending_for_node.
  set (p := fun kv : Uuid * PendingTcpProxyRequest.t => _).
  assert (forall l l' : list (Uuid * PendingTcpProxyRequest.t), l ≡ₚ l' ->
            List.length (List.filter p l) = List.length (List.filter p l')) as Hperm.
  { intros l l' H. induction H; simpl; repeat case_if; simpl; lia. }
  rewrite (Hperm _ _ (map_to_list_insert m id r Hid)). simpl.
  change (p (id, r)) with
    (bool_decide (PendingTcpProxyRequest.expected_node_id r = node)).
  by destruct (bool_decide (PendingTcpProxyRequest.expected_node_id r = node)).
Qed.

Lemma admit_pending_inv issued w t id now wait tx :
  pending_tcp (server w) !! id = None ->
  answered (peers w) !! tx = None ->
  (forall id' r, pending_tcp (server w) !! id' = Some r ->
     PendingTcpProxyRequest.response_sender r <> tx) ->
  inv issued w -> inv issued (admit_pending w t id now wait tx).2.
Proof.
  intros Hid Htx Hfresh Hinv. unfold admit_pending.
  destruct (_ <=? _)%nat eqn:Hcap; [done|].
  destruct (_ <=? pending_for_node _ _)%nat eqn:Hnode; [done|].
  apply Nat.leb_gt in Hcap, Hnode. destruct Hinv; split; simpl; try done.
  - apply map_Forall_insert_2; done.
  - rewrite map_size_insert_None by done. lia.
  - intros node. rewrite pending_for_node_insert by done. simpl.
    specialize (inv_pending_node0 node). case_bool_decide; [subst|]; lia.
  - intros id' r [[<- <-]|[_ Hr]]%lookup_insert_Some; [done|by eapply inv_responders0].
  - intros id1 id2 r1 r2 [[<- <-]|[Hn1 H1]]%lookup_insert_Some
      [[<- <-]|[Hn2 H2]]%lookup_insert_Some; simpl; try done.
    + intros Heq. by destruct (Hfresh id2 r2 H2).
    + intros Heq. by destruct (Hfresh id1 r1 H1).
    + by apply inv_responders_inj0.
Qed.

Lemma accept_section_inv issued w now n sid id stream :
  inv issued w -> inv issued (accept_section w now n sid id stream).2.
Proof.
  intros Hinv. pose proof (shrinks_inv issued w _ (pending_cleanup_shrinks w id) Hinv) as Hc.
  unfold accept_section.
  destruct (pending_tcp (server w) !! id) as [r|] eqn:Hr; [|done].
  repeat case_if; try done. unfold answer. simpl. case_if; [done|].
  destruct Hc; split; try done. simpl.
  intros id' r' Hr'. rewrite lookup_insert_ne; [by eapply inv_responders0|].
  intros Heq. apply lookup_delete_Some in Hr' as [Hne Hr'].
  destruct Hinv. by apply Hne, (inv_responders_inj1 id id' r r').
Qed.

(** ** A new authority takes its node over *)

(** The QUIC connection handed over is not one a node already holds. *)
Definition connection_unbound (w : World) (a : SessionAuthority) : Prop :=
  match a with
  | AuthQuic c => forall n b, connections (server w) !! n = Some b -> SessionBound.value b <> c
  | AuthTcp _ => True
  end.

Lemma replace_pending_subseteq w now aid n sid a :
  pending_tcp (server (replace_session_authority w now aid n sid a))
  ⊆ pending_tcp (server w).
Proof.
  unfold replace_session_authority, close_connection.
  destruct (connections (server w) !! n), (sessions (server w) !! n); simpl;
    try apply retain_pending_subseteq; done.
Qed.

Lemma replace_lookup w now aid n sid a :
  let w' := replace_session_authority w now aid n sid a in
  (exists x, sessions (server w') = <[n := x]> (sessions (server w))
             /\ session_ids x = (n, sid) /\ ServerSessionSnapshot.connected x = true)
  /\ session_liveness (server w') = <[n := SessionLiveness.mk sid aid now]>
                                      (session_liveness (server w))
  /\ connections (server w') =
       match a with
       | AuthQuic c => <[n := SessionBound.mk sid aid c]> (connections (server w))
       | AuthTcp _ => delete n (connections (server w))
       end
  /\ tcp_controls (server w') =
       match a with
       | AuthQuic _ => delete n (tcp_controls (server w))
       | AuthTcp tx => <[n := TcpControlChannel.mk sid aid tx false]>
                         (tcp_controls (server w))
       end
  /\ reserved_tcp (server w') = delete n (reserved_tcp (server w))
  /\ answered (peers w') = answered (peers w)
  /\ heartbeat_timeout (server w') = heartbeat_timeout (server w).
Proof.
  unfold replace_session_authority, close_connection.
  destruct (connections (server w) !! n), a; simpl;
    rewrite ?insert_delete_eq; repeat split; eexists; repeat split.
Qed.

Lemma replace_inv issued w now aid n sid a :
  connection_unbound w a -> inv issued w ->
  inv ({[aid]} ∪ issued) (replace_session_authority w now aid n sid a).
Proof.
  intros Hfresh Hinv. pose proof (replace_pending_subseteq w now aid n sid a) as Hp.
  pose proof (replace_lookup w now aid n sid a) as
    ((x & Hs & Hx & _) & Hl & Hc & Hk & Hr & Ha & _).
  set (w' := replace_session_authority w now aid n sid a) in *.
  injection Hx as Hxn Hxs. destruct Hinv. split.
  - unfold keyed. rewrite Hs. by apply map_Forall_insert_2.
  - intros id r Hid. eapply inv_pending_keyed0. by eapply lookup_weaken.
  - etrans; [|apply inv_pending_size0]. by apply map_subseteq_size.
  - intros k. etrans; [|apply inv_pending_node0]. by apply pending_for_node_mono.
  - rewrite Hr. by apply map_Forall_delete.
  - intros k. rewrite Hc, Hk. destruct (decide (n = k)) as [->|Hne].
    + destruct a; [right|left]; apply lookup_delete_eq.
    + destruct a; rewrite lookup_insert_ne, lookup_delete_ne by done; apply inv_exclusive0.
  - rewrite Hc. destruct a as [c|tx].
    + intros k k' b b' [[<- <-]|[_ Hb]]%lookup_insert_Some
        [[<- <-]|[_ Hb']]%lookup_insert_Some; simpl; try done.
      * intros Heq. by destruct (Hfresh k' b' Hb').
      * intros Heq. by destruct (Hfresh k b Hb).
      * by eapply inv_connections_inj0.
    + intros k k' b b' [_ Hb]%lookup_delete_Some [_ Hb']%lookup_delete_Some.
      by apply inv_connections_inj0.
  - rewrite Hl, Hs. intros k l [[<- <-]|[Hne Hk']]%lookup_insert_Some.
    + exists x. by rewrite lookup_insert_eq.
    + rewrite lookup_insert_ne by done. by apply inv_session0.
  - rewrite Hl, Hc. intros k b l Hb [[<- <-]|[Hne Hk']]%lookup_insert_Some.
    + destruct a; [rewrite lookup_insert_eq in Hb | by rewrite lookup_delete_eq in Hb].
      by injection Hb as <-.
    + apply (inv_bound0 k); [|done].
      destruct a; [by rewrite lookup_insert_ne in Hb | by rewrite lookup_delete_ne in Hb].
  - rewrite Hl, Hk. intros k c l Hb [[<- <-]|[Hne Hk']]%lookup_insert_Some.
    + destruct a; [by rewrite lookup_delete_eq in Hb | rewrite lookup_insert_eq in Hb].
      by injection Hb as <-.
    + apply (inv_control0 k); [|done].
      destruct a; [by rewrite lookup_delete_ne in Hb | by rewrite lookup_insert_ne in Hb].
  - rewrite Hl. intros k l [[<- <-]|[Hne Hk']]%lookup_insert_Some; [set_solver|].
    apply elem_of_union_r. by eapply inv_issued0.
  - intros id r Hid. rewrite Ha. eapply inv_responders0. by eapply lookup_weaken.
  - intros id id' r r' Hid Hid'. apply inv_responders_inj0; by eapply lookup_weaken.
Qed.

(** ** The transition system *)

Inductive step : gset Uuid * World -> gset Uuid * World -> Prop :=
| StepReplace i w now aid n sid a :
    aid ∉ i -> connection_unbound w a ->
    step (i, w) ({[aid]} ∪ i, replace_session_authority w now aid n sid a)
| StepDisconnect i w n sid aid :
    step (i, w) (i, (disconnect_session_authority w n sid aid).1)
| StepRemoveQuic i w n sid aid :
    step (i, w) (i, remove_quic_connection_for_authority w n sid aid)
| StepRemoveControl i w n sid aid :
    step (i, w) (i, remove_tcp_control_for_authority w n sid aid)
| StepCancelPending i w n sid aid :
    step (i, w) (i, cancel_pending_for_authority w n sid aid)
| StepRefresh i w now n sid aid :
    step (i, w) (i, (refresh_session_heartbeat_for_authority w now n sid aid).2)
| StepNoteHeartbeat i w hb : step (i, w) (i, note_heartbeat w hb)
| StepAdmit i w t id now wait tx :
    pending_tcp (server w) !! id = None ->
    answered (peers w) !! tx = None ->
    (forall id' r, pending_tcp (server w) !! id' = Some r ->
       PendingTcpProxyRequest.response_sender r <> tx) ->
    step (i, w) (i, (admit_pending w t id now wait tx).2)
| StepCleanup i w id : step (i, w) (i, pending_cleanup w id)
| StepAccept i w now n sid id stream :
    step (i, w) (i, (accept_section w now n sid id stream).2)
| StepReserveAuthority i w n sid : step (i, w) (i, (reserve_authority w n sid).2)
| StepPushReserved i w n sid aid stream :
    step (i, w) (i, (push_reserved w n sid aid stream).2)
| StepTakeReserved i w t : step (i, w) (i, (take_reserved_tcp_stream w t).2)
| StepKeepalive i w ok : step (i, w) (i, (keepalive_reserved_tcp_streams ok w).2)
| StepDrainControls i w : step (i, w) (i, with_server (set_controls (fun _ => ∅)) w)
| StepClearPending i w : step (i, w) (i, with_server (set_pending (fun _ => ∅)) w)
| StepClearReserved i w : step (i, w) (i, with_server (set_reserved (fun _ => ∅)) w)
| StepMarkDown i w n sid : step (i, w) (i, mark_session_down w n sid)
| StepRemoveLiveness i w n sid : step (i, w) (i, remove_session_liveness w n sid)
| StepPeers i w cc cs cr :
    step (i, w) (i, mk_world (server w) (mk_peers
      (cc ∪ closed_connections (peers w)) (cs ∪ closed_senders (peers w))
      (cr ∪ closed_requesters (peers w)) (answered (peers w)))).

Definition no_peers : Peers := mk_peers ∅ ∅ ∅ ∅.
Definition initial (timeout : Z) : gset Uuid * World :=
  (∅, mk_world (mk_server ∅ ∅ ∅ ∅ ∅ ∅ timeout) no_peers).

Definition reachable (timeout : Z) (c : gset Uuid * World) : Prop :=
  rtc step (initial timeout) c.

#[export] Hint Resolve disconnect_shrinks remove_quic_shrinks remove_control_shrinks
  cancel_pending_shrinks refresh_shrinks note_heartbeat_shrinks pending_cleanup_shrinks
  reserve_authority_shrinks take_reserved_shrinks keepalive_shrinks
  mark_session_down_shrinks remove_session_liveness_shrinks : mobile_proxy.

Lemma fmap_empty_subseteq {A B} `{Countable K} (f : A -> B) (m : gmap K B) :
  (f <$> (∅ : gmap K A)) ⊆ m.
Proof. rewrite fmap_empty. apply map_empty_subseteq. Qed.

(** What a step may do: take the node over, or leave identities alone. *)
Lemma step_cases c c' : step c c' ->
  (exists now aid n sid a, (aid ∉ c.1) /\ connection_unbound c.2 a
     /\ c' = ({[aid]} ∪ c.1, replace_session_authority c.2 now aid n sid a))
  \/ (c'.1 = c.1 /\ (inv c.1 c.2 -> inv c.1 c'.2)
      /\ (live_ids <$> session_liveness (server c'.2))
           ⊆ (live_ids <$> session_liveness (server c.2))).
Proof.
  assert (forall i w w', shrinks w w' ->
    i = i /\ (inv i w -> inv i w') /\ (live_ids <$> session_liveness (server w'))
           ⊆ (live_ids <$> session_liveness (server w))) as Hshrink.
  { intros i w w' H. split; [done|]. split; [by apply shrinks_inv|apply H]. }
  destruct 1; cbn [fst snd]; [left; eauto 10 | right..];
    try (apply Hshrink; by eauto with mobile_proxy).
  - split; [done|]. split; [by apply admit_pending_inv|].
    unfold admit_pending. by repeat case_if.
  - split; [done|]. split; [by apply accept_section_inv|].
    unfold accept_section. destruct (pending_tcp _ !! _); [|done].
    repeat case_if; try done. unfold answer. by case_if.
  - split; [done|]. split; [by apply push_reserved_inv|].
    unfold push_reserved. by case_if.
  - apply Hshrink. shrink_tac. apply fmap_empty_subseteq.
  - apply Hshrink. shrink_tac. apply map_empty_subseteq.
  - apply Hshrink. by shrink_tac.
Qed.

Lemma step_inv c c' : step c c' -> inv c.1 c.2 -> inv c'.1 c'.2.
Proof.
  intros [(now & aid & n & sid & a & _ & Hu & ->)|(-> & Hinv & _)]%step_cases H.
  - by apply replace_inv.
  - by apply Hinv.
Qed.

Lemma initial_inv timeout : inv (initial timeout).1 (initial timeout).2.
Proof.
  split; simpl; try done.
  - rewrite map_size_empty. unfold MAX_PENDING_TCP_STREAMS. lia.
  - intros node. unfold pending_for_node. rewrite map_to_list_empty. simpl. lia.
  - intros node. by left.
Qed.

Lemma steps_inv c c' : rtc step c c' -> inv c.1 c.2 -> inv c'.1 c'.2.
Proof. induction 1; eauto using step_inv. Qed.

Lemma reachable_inv timeout c : reachable timeout c -> inv c.1 c.2.
Proof. intros H. eapply steps_inv; [exact H|]. apply initial_inv. Qed.

(** ** Fencing *)

(** [aid] is the authority currently recorded for the node. *)
Definition holds (w : World) (n : string) (aid : Uuid) : Prop :=
  exists l, session_liveness (server w) !! n = Some l /\ SessionLiveness.authority_id l = aid.

Lemma step_not_holds c c' n aid :
  step c c' -> aid ∈ c.1 -> ~ holds c.2 n aid -> aid ∈ c'.1 /\ ~ holds c'.2 n aid.
Proof.
  intros Hstep Hi Hnot.
  destruct (step_cases _ _ Hstep) as [(now & a' & k & sid & a & Hf & _ & ->)|(-> & _ & Hsub)];
    simpl; (split; [set_solver|]).
  - destruct (replace_lookup c.2 now a' k sid a) as (_ & Hl & _). simpl in Hl.
    intros (l & Hk & Ha). rewrite Hl in Hk.
    apply lookup_insert_Some in Hk as [[<- <-]|[_ Hk]]; simpl in *; [set_solver|].
    apply Hnot. by exists l.
  - intros (l & Hk & Ha). apply Hnot.
    destruct (fmap_subseteq_lookup _ _ _ _ _ Hsub Hk) as (l' & Hl' & He).
    exists l'. split; [done|]. injection He. congruence.
Qed.

Lemma steps_not_holds c c' n aid :
  rtc step c c' -> aid ∈ c.1 -> ~ holds c.2 n aid -> ~ holds c'.2 n aid.
Proof.
  intros H. induction H as [|c1 c2 c3 Hs H IH]; [done|]. intros Hi Hn.
  destruct (step_not_holds _ _ n aid Hs Hi Hn) as [Hi' Hn']. by apply IH.
Qed.

Lemma not_holds_live w n sid aid :
  ~ holds w n aid -> is_some_and (session_liveness (server w) !! n) (live_for sid aid) = false.
Proof.
  intros Hn. apply not_true_is_false. intros (l & Hl & Hf)%is_some_and_true.
  apply live_for_true in Hf as [_ Hf]. apply Hn. by exists l.
Qed.

(** An authority that does not hold its node cannot act for it. *)
Definition fenced (w : World) (n : string) (aid : Uuid) : Prop :=
  forall now sid,
    routable w now (ActiveSessionTarget.mk n sid aid) = false
    /\ disconnect_session_authority w n sid aid = (w, false)
    /\ refresh_session_heartbeat_for_authority w now n sid aid = (false, w)
    /\ forall id r stream,
         pending_tcp (server w) !! id = Some r ->
         PendingTcpProxyRequest.expected_node_id r = n ->
         PendingTcpProxyRequest.expected_authority_id r = aid ->
         (accept_tcp_proxy_stream w now n sid id stream).1 <> Ok tt.

Lemma not_holds_fenced w n aid : ~ holds w n aid -> fenced w n aid.
Proof.
  intros Hn now sid. split; [|split; [|split]].
  - unfold routable, target_fresh. simpl. apply not_true_is_false.
    intros [[_ Hf]%andb_true_iff _]%andb_true_iff.
    apply session_is_fresh_true in Hf as (l & Hl & Hlive & _).
    apply live_for_true in Hlive as [_ Ha]. apply Hn. by exists l.
  - unfold disconnect_session_authority. rewrite (not_holds_live w n sid aid Hn).
    by rewrite orb_true_r.
  - unfold refresh_session_heartbeat_for_authority.
    rewrite (not_holds_live w n sid aid Hn). by repeat case_if.
  - intros id r stream Hr Hnode Ha. unfold accept_tcp_proxy_stream, accept_section.
    rewrite Hr, Hnode, Ha.
    rewrite (not_holds_live w n (PendingTcpProxyRequest.expected_session_id r) aid Hn).
    rewrite andb_false_r. simpl. by repeat case_if.
Qed.

(** C2: Once a node's authority has been replaced, the replaced authority stays
    fenced for every later interleaving: it is never selected for traffic, its
    disconnect and heartbeat change nothing, and no pending request of it is
    ever answered. *)
Theorem replaced_authority_is_fenced timeout i w now aid n sid a l i' w' :
  reachable timeout (i, w) ->
  session_liveness (server w) !! n = Some l ->
  aid ∉ i -> connection_unbound w a ->
  rtc step ({[aid]} ∪ i, replace_session_authority w now aid n sid a) (i', w') ->
  fenced w' n (SessionLiveness.authority_id l).
Proof.
  intros Hr Hl Hf Hu Hs. apply not_holds_fenced.
  pose proof (inv_issued _ _ (reachable_inv _ _ Hr) n l Hl) as Hi. simpl in Hi.
  apply (steps_not_holds _ _ _ _ Hs); simpl; [set_solver|].
  destruct (replace_lookup w now aid n sid a) as (_ & Hl' & _). simpl in Hl'.
  intros (l' & Hk & Ha). rewrite Hl', lookup_insert_eq in Hk. injection Hk as <-.
  simpl in Ha. congruence.
Qed.

(** C1: In every reachable state of the server, sessions are stored under their
    node, pending and reserved streams respect their global and per-node
    limits, a node has at most one transport, the transport and the liveness
    entry of a node carry the same session and authority, no connection serves
    two nodes, and requests wait on distinct unanswered requesters. *)
Theorem tunnel_invariant timeout i w : reachable timeout (i, w) -> inv i w.
Proof. intros H. apply (reachable_inv _ _ H). Qed.
