(* ===== verification/TunnelSelection.v ===== *)
(** * Reverse tunnel: what selection and acceptance do to the state

    The effect of [select_active_target], [accept_tcp_proxy_stream] and the
    reserve of [crates/reverse-tunnel/src/state.rs] on the sessions, proved on
    states that satisfy the invariant of the transition system. *)

From stdpp Require Import base gmap strings list fin_maps sorting relations.
From Stdlib Require Import ZArith Lia String.
From S2P Require Import Prelude Foundation TunnelModel TunnelState TunnelRouting.
From S2P Require Import TunnelInvariant.
Local Open Scope string_scope.
Local Open Scope Z_scope.

(** ** Selection only takes sessions down *)

Record fades (w w' : World) : Prop := {
  fades_shrinks : shrinks w w';
  fades_current : forall n s, session_current (server w') n s = true ->
    session_current (server w) n s = true;
  fades_closed : closed_connections (peers w) ⊆ closed_connections (peers w');
  fades_controls : tcp_controls (server w') ⊆ tcp_controls (server w);
  fades_senders : closed_senders (peers w') = closed_senders (peers w);
}.

#[export] Instance fades_preorder : PreOrder fades.
Proof.
  split.
  - intros w. by split.
  - intros w1 w2 w3 [] []. split; [by etrans|auto|set_solver|by etrans|congruence].
Qed.

Lemma fades_quic_active w w' n s a :
  fades w w' -> quic_active w n s a = false -> quic_active w' n s a = false.
Proof.
  intros [[] _ Hcl _ _] Hq. apply not_true_is_false. unfold quic_active.
  intros (b & Hb & H)%is_some_and_true. unfold quic_active in Hq.
  rewrite (lookup_weaken _ _ _ _ Hb shrinks_connections) in Hq. simpl in Hq.
  unfold connection_open in *. bools. rewrite H in Hq. simpl in Hq. bools. set_solver.
Qed.

Lemma fades_tcp_active w w' n s a :
  fades w w' -> tcp_active w' n s a = true -> tcp_active w n s a = true.
Proof.
  intros Hf. unfold tcp_active, sender_open. rewrite (fades_senders _ _ Hf), !is_some_and_true.
  intros (c & Hc & H). exists c. split; [|done].
  eapply lookup_weaken; [done|]. apply (fades_controls _ _ Hf).
Qed.

Lemma close_connection_fades o w : fades w (close_connection o w).
Proof. split; [apply close_connection_shrinks|destruct o; done|destruct o; set_solver|by destruct o..]. Qed.

Lemma drop_closed_fades w k : fades w (drop_closed w k).
Proof.
  destruct k as [[n s] a]. simpl. split; [apply remove_quic_shrinks| | | |];
    unfold remove_quic_connection_for_authority, close_connection;
    destruct (remove_session_bound _ _ _ _) as [[b|] rest]; simpl; done || set_solver.
Qed.

Lemma drop_inactive_fades w k : fades w (drop_inactive w k).
Proof.
  destruct k as [[n s] a]. simpl. split; [apply expire_session_shrinks| | | |];
    unfold expire_session, disconnect_session_authority;
    (case_if; [done|]);
    destruct (remove_session_bound _ _ _ _) as [[b|] rest]; simpl; try done; try set_solver;
    try (case_if; [apply delete_subseteq|done]);
    intros n' s' (x & Hx & Hc & Hs)%session_current_true; simpl in *;
    apply session_current_true;
    (destruct (decide (n = n')) as [->|];
      [rewrite lookup_alter_eq in Hx | rewrite lookup_alter_ne in Hx by done; eauto]);
    (destruct (sessions (server w) !! n') as [y|]; simpl in *; [|done]);
    injection Hx as <-; simpl in *; done.
Qed.

Lemma foldl_fades (f : World -> string * Uuid * Uuid -> World) ks w :
  (forall w k, fades w (f w k)) -> fades w (foldl f w ks).
Proof.
  intros Hf. revert w. induction ks as [|k ks IH]; intros w; simpl; [done|].
  etrans; [apply Hf|apply IH].
Qed.

(** ** Other nodes are left alone *)

(** The parts of the state that decide routing for a node. *)
Definition node_view (w : World) (n : string) :=
  (sessions (server w) !! n, connections (server w) !! n, tcp_controls (server w) !! n,
   session_liveness (server w) !! n, heartbeat_timeout (server w),
   (fun b => connection_open w (SessionBound.value b)) <$> connections (server w) !! n,
   closed_senders (peers w)).

Lemma node_view_routable w w' now t :
  node_view w (ActiveSessionTarget.node_id t) = node_view w' (ActiveSessionTarget.node_id t) ->
  routable w now t = routable w' now t.
Proof.
  destruct t as [n s a]. unfold node_view; simpl. intros H. injection H as Hs Hc Hk Hl Ht Ho Hp.
  unfold routable, target_fresh, session_current, session_is_fresh, quic_active, tcp_active.
  simpl. rewrite Hs, Hl, Ht, Hk. do 2 f_equal.
  - rewrite Hc in Ho |- *. destruct (connections (server w') !! n); simpl in *; [|done].
    injection Ho as ->. done.
  - unfold sender_open. by rewrite Hp.
Qed.

(** Closing the connection bound to one node does not close another node's. *)
Lemma close_bound_open i w n n' b b' :
  inv i w -> connections (server w) !! n = Some b -> connections (server w) !! n' = Some b' ->
  n <> n' ->
  connection_open (close_connection (Some b) w) (SessionBound.value b')
  = connection_open w (SessionBound.value b').
Proof.
  intros Hinv Hb Hb' Hne. unfold connection_open. simpl. f_equal.
  apply bool_decide_ext. rewrite elem_of_union, elem_of_singleton.
  split; [|by right]. intros [Heq|]; [|done].
  destruct Hne. symmetry. by apply (inv_connections_inj _ _ Hinv n' n b' b).
Qed.

Lemma drop_closed_other i w n s a n' :
  inv i w -> n <> n' -> node_view (drop_closed w (n, s, a)) n' = node_view w n'.
Proof.
  intros Hinv Hne. unfold node_view. simpl.
  unfold remove_quic_connection_for_authority, remove_session_bound.
  destruct (is_some_and _ _) eqn:Hb; [|done].
  apply is_some_and_true in Hb as (b & Hb & _). rewrite Hb. simpl.
  rewrite lookup_delete_ne by done. do 2 f_equal.
  destruct (connections (server w) !! n') as [b'|] eqn:Hb'; [|done]. simpl. f_equal.
  by apply (close_bound_open i w n n' b b').
Qed.

Lemma drop_inactive_other i w n s a n' :
  inv i w -> n <> n' -> node_view (drop_inactive w (n, s, a)) n' = node_view w n'.
Proof.
  intros Hinv Hne. simpl. unfold expire_session, disconnect_session_authority.
  case_if; [done|]. unfold remove_session_bound.
  assert (forall o, o = None \/ o = connections (server w) !! n ->
    forall s', sessions s' !! n' = sessions (server w) !! n' ->
    connections s' !! n' = connections (server w) !! n' ->
    tcp_controls s' !! n' = tcp_controls (server w) !! n' ->
    session_liveness s' !! n' = session_liveness (server w) !! n' ->
    heartbeat_timeout s' = heartbeat_timeout (server w) ->
    node_view (close_connection o (mk_world s' (peers w))) n' = node_view w n') as Hview.
  { intros o Ho s' H1 H2 H3 H4 H5. unfold node_view.
    destruct o as [b|]; simpl; rewrite H1, H2, H3, H4, H5; [|done]. do 2 f_equal.
    destruct (connections (server w) !! n') as [b'|] eqn:Hb'; [|done]. simpl. f_equal.
    destruct Ho as [|Ho]; [done|]. symmetry in Ho.
    apply (close_bound_open i w n n' b b'); done. }
  case_if; cbn [fst]; apply Hview; simpl; auto;
    rewrite ?lookup_alter_ne, ?lookup_delete_ne by done; try done;
    case_if; by rewrite ?lookup_delete_ne.
Qed.

(** ** Routing before and after *)

Lemma quic_closed_not_active w n s a :
  quic_closed w n s a = true -> quic_active w n s a = false.
Proof.
  unfold quic_closed, quic_active. destruct (connections (server w) !! n); simpl; [|done].
  destruct (bound_for _ _ _), (connection_open _ _); done.
Qed.

Lemma drop_closed_routable i w now n s a t :
  inv i w -> quic_active w n s a = false ->
  routable (drop_closed w (n, s, a)) now t = routable w now t.
Proof.
  intros Hinv Hq. destruct (decide (n = ActiveSessionTarget.node_id t)) as [->|Hne].
  2:{ apply node_view_routable. by apply (drop_closed_other i). }
  destruct t as [n s' a']. unfold routable, target_fresh. simpl in *.
  unfold remove_quic_connection_for_authority, remove_session_bound.
  destruct (is_some_and _ _) eqn:Hb; [|done].
  apply is_some_and_true in Hb as (b & Hb & Hids). rewrite Hb. simpl. f_equal. f_equal.
  unfold quic_active in *. simpl. rewrite lookup_delete_eq, Hb in *. simpl in *.
  rewrite Hids in Hq. simpl in Hq. rewrite Hq. by rewrite andb_false_r.
Qed.

Lemma drop_inactive_down w n s a :
  let w' := drop_inactive w (n, s, a) in
  session_current (server w') n s
  && is_some_and (session_liveness (server w') !! n) (live_for s a) = false.
Proof.
  simpl. unfold expire_session, disconnect_session_authority.
  case_if. { cbn [fst]. by apply orb_true_iff in Heqb as [->%negb_true_iff| ->%negb_true_iff];
             rewrite ?andb_false_r. }
  destruct (remove_session_bound _ _ _ _) as [[b|] rest]; simpl;
    by rewrite lookup_delete_eq, andb_false_r.
Qed.

Lemma routable_current w now n s a :
  routable w now (ActiveSessionTarget.mk n s a) = true ->
  session_current (server w) n s
  && is_some_and (session_liveness (server w) !! n) (live_for s a) = true.
Proof.
  unfold routable, target_fresh. simpl.
  intros [[-> Hf]%andb_true_iff _]%andb_true_iff. simpl.
  apply session_is_fresh_true in Hf as (l & Hl & Hlive & _).
  apply is_some_and_true. eauto.
Qed.

Lemma drop_inactive_routable i w now n s a t :
  inv i w -> routable w now (ActiveSessionTarget.mk n s a) = false ->
  routable (drop_inactive w (n, s, a)) now t = routable w now t.
Proof.
  intros Hinv Hr. destruct (decide (n = ActiveSessionTarget.node_id t)) as [->|Hne].
  2:{ apply node_view_routable. by apply (drop_inactive_other i). }
  destruct t as [n s' a']. simpl in Hr |- *.
  unfold expire_session, disconnect_session_authority.
  case_if; [done|]. bools.
  assert (routable w now (ActiveSessionTarget.mk n s' a') = false) as ->.
  { apply not_true_is_false. intros Ht. pose proof (routable_current _ _ _ _ _ Ht) as Hc.
    apply andb_true_iff in Hc as [_ (l' & Hl' & Hlive')%is_some_and_true].
    rewrite Hl' in H0. simpl in H0.
    apply live_for_true in Hlive' as [<- <-], H0 as [<- <-]. congruence. }
  apply not_true_is_false. intros Ht%routable_current.
  destruct (remove_session_bound _ _ _ _) as [[b|] rest]; simpl in Ht;
    by rewrite lookup_delete_eq, andb_false_r in Ht.
Qed.

Lemma drops_closed_routable i now ks w t :
  inv i w -> (forall n s a, (n, s, a) ∈ ks -> quic_active w n s a = false) ->
  routable (foldl drop_closed w ks) now t = routable w now t.
Proof.
  revert w. induction ks as [|[[n s] a] ks IH]; intros w Hinv Hks; [done|]. cbn [foldl].
  pose proof (drop_closed_fades w (n, s, a)) as Hf. rewrite IH.
  - apply (drop_closed_routable i); [done|]. apply Hks. left.
  - eapply shrinks_inv; [apply Hf|done].
  - intros n' s' a' Hin. eapply fades_quic_active; [exact Hf|]. apply Hks. by right.
Qed.

Lemma drops_inactive_routable i now ks w t :
  inv i w ->
  (forall n s a, (n, s, a) ∈ ks -> routable w now (ActiveSessionTarget.mk n s a) = false) ->
  routable (foldl drop_inactive w ks) now t = routable w now t.
Proof.
  revert w. induction ks as [|[[n s] a] ks IH]; intros w Hinv Hks; [done|]. cbn [foldl].
  assert (forall t, routable (drop_inactive w (n, s, a)) now t = routable w now t) as Hone.
  { intros t'. apply (drop_inactive_routable i); [done|]. apply Hks. left. }
  rewrite IH; [apply Hone| |].
  - eapply shrinks_inv; [apply drop_inactive_fades|done].
  - intros n' s' a' Hin. rewrite Hone. apply Hks. by right.
Qed.

(** ** What the scan collects *)

Lemma elem_of_scan {A} (f : Scan -> list A) w now wanted order k :
  (forall acc x, f (scan_session w now wanted acc x) = f acc ++ f (verdict w now wanted x))%list ->
  f (mk_scan [] [] []) = [] ->
  k ∈ f (foldl (scan_session w now wanted) (mk_scan [] [] []) order) <->
  exists x, x ∈ order /\ k ∈ f (verdict w now wanted x).
Proof.
  intros Hf H0.
  assert (forall acc, k ∈ f (foldl (scan_session w now wanted) acc order) <->
            k ∈ f acc \/ exists x, x ∈ order /\ k ∈ f (verdict w now wanted x)) as H.
  { induction order as [|x order IH]; intros acc; simpl; [set_solver|].
    rewrite IH, Hf. set_solver. }
  rewrite H, H0. set_solver.
Qed.

Lemma verdict_closed w now wanted x n s a :
  (n, s, a) ∈ closed (verdict w now wanted x) -> quic_active w n s a = false.
Proof.
  unfold verdict, scan_session. intros H. apply quic_closed_not_active.
  repeat case_match; simpl in *; set_solver.
Qed.

(** A session that is scanned and not a candidate is reported inactive under
    the identity of its liveness entry, if it has one. *)
Lemma verdict_inactive w now wanted x k :
  k ∈ inactive (verdict w now wanted x) <->
  ServerSessionSnapshot.connected x = true
  /\ wanted_node wanted (ServerSessionSnapshot.node_id x)
  /\ candidate w now wanted x = None
  /\ exists l, session_liveness (server w) !! ServerSessionSnapshot.node_id x = Some l
       /\ k = (ServerSessionSnapshot.node_id x,
               SessionLiveness.session_id l, SessionLiveness.authority_id l).
Proof.
  unfold candidate, verdict, scan_session.
  destruct (ServerSessionSnapshot.connected x); simpl; [|set_solver].
  destruct (is_some_and wanted _) eqn:Hw; simpl.
  { split; [set_solver|]. intros (_ & Hwant & _). destruct wanted; simpl in *; [|done].
    bools. done. }
  assert (wanted_node wanted (ServerSessionSnapshot.node_id x)) as Hwant.
  { destruct wanted; simpl in *; [by bools|done]. }
  destruct (session_liveness (server w) !! _) as [l|] eqn:Hl; simpl;
    [|split; [set_solver|intros (_ & _ & _ & l & ? & _); done]].
  destruct (_ && _) eqn:Hc; simpl.
  - bools. destruct (_ || _); simpl; split.
    + set_solver.
    + intros (_ & _ & ? & _). done.
    + intros ->%list_elem_of_singleton. rewrite <- H. eauto 10.
    + intros (_ & _ & _ & l' & [= <-] & ->). rewrite <- H. by left.
  - split.
    + intros ->%list_elem_of_singleton. eauto 10.
    + intros (_ & _ & _ & l' & [= <-] & ->). by left.
Qed.

Lemma elem_of_session_values w x :
  keyed w -> x ∈ session_values (server w) <->
  sessions (server w) !! ServerSessionSnapshot.node_id x = Some x.
Proof.
  intros Hk. unfold session_values. rewrite list_elem_of_fmap. split.
  - intros ([n y] & -> & Hy%elem_of_map_to_list). simpl.
    pose proof (Hk _ _ Hy) as Hn. simpl in Hn. by rewrite Hn.
  - intros Hx. exists (ServerSessionSnapshot.node_id x, x).
    split; [done|]. by apply elem_of_map_to_list.
Qed.

(** The keys the scan reports inactive are exactly the authorities of the
    connected, wanted sessions that are not routable. *)
Lemma scan_inactive i w now wanted n s a :
  inv i w ->
  (n, s, a) ∈ inactive (foldl (scan_session w now wanted) (mk_scan [] [] [])
                          (session_values (server w))) <->
  wanted_node wanted n
  /\ session_current (server w) n s
     && is_some_and (session_liveness (server w) !! n) (live_for s a) = true
  /\ routable w now (ActiveSessionTarget.mk n s a) = false.
Proof.
  intros Hinv. pose proof (inv_keyed _ _ Hinv) as Hk.
  rewrite (elem_of_scan inactive); [|intros; by rewrite scan_session_verdict|done].
  setoid_rewrite verdict_inactive. rewrite andb_true_iff, session_current_true,
    is_some_and_true. split.
  - intros (x & Hx%elem_of_session_values & Hc & Hw & Hcand & l & Hl & [= -> -> ->]); [|done].
    destruct (inv_session _ _ Hinv _ _ Hl) as (y & Hy & Hs).
    assert (y = x) as -> by congruence. split; [done|]. split.
    { split; [by exists x|]. exists l. by rewrite live_for_true. }
    apply not_true_is_false. intros Hr.
    enough (candidate w now wanted x = Some (ActiveSessionTarget.mk
      (ServerSessionSnapshot.node_id x) (SessionLiveness.session_id l)
      (SessionLiveness.authority_id l))) by congruence.
    unfold routable in Hr. apply andb_true_iff in Hr as [[_ Hf]%andb_true_iff Ha].
    apply candidate_Some. simpl in *. by rewrite Hs.
  - intros (Hw & ((x & Hx & Hc & <-) & l & Hl & [Hls <-]%live_for_true) & Hr).
    pose proof (Hk _ _ Hx) as Hn. simpl in Hn. subst n. exists x.
    split; [by apply elem_of_session_values|]. repeat split; try done.
    + destruct (candidate w now wanted x) as [t|] eqn:Ht; [|done]. exfalso.
      apply candidate_Some in Ht as (_ & _ & Hn & Hs & Hf & Ha).
      assert (t = ActiveSessionTarget.mk (ServerSessionSnapshot.node_id x)
                (ServerSessionSnapshot.session_id x) (SessionLiveness.authority_id l)) as ->.
      { destruct t as [n0 s0 a0]. simpl in *. subst.
        apply session_is_fresh_true in Hf as (l' & Hl' & [_ Ha']%live_for_true & _).
        simpl in *. congruence. }
      unfold routable in Hr. rewrite Hf, Ha in Hr. simpl in Hr.
      rewrite (proj2 (session_current_true _ _ _)) in Hr; [done|]. eauto.
    + exists l. by rewrite Hls.
Qed.

(** Is the authority the live holder of a connected session? *)
Definition in_charge (w : World) (n : string) (s a : Uuid) : bool :=
  session_current (server w) n s
  && is_some_and (session_liveness (server w) !! n) (live_for s a).

Lemma fades_in_charge w w' n s a :
  fades w w' -> in_charge w' n s a = true -> in_charge w n s a = true.
Proof.
  intros Hf [Hc (l & Hl & [Hs Ha]%live_for_true)%is_some_and_true]%andb_true_iff.
  unfold in_charge. rewrite (fades_current _ _ Hf n s Hc). simpl.
  destruct (fmap_subseteq_lookup _ _ _ _ _ (shrinks_liveness _ _ (fades_shrinks _ _ Hf)) Hl)
    as (l' & -> & He). injection He as H1 H2. apply live_for_true. by rewrite H1, H2.
Qed.

Lemma drops_inactive_down ks w n s a :
  (n, s, a) ∈ ks -> in_charge (foldl drop_inactive w ks) n s a = false.
Proof.
  intros (k1 & k2 & ->)%list_elem_of_split. rewrite foldl_app. cbn [foldl].
  apply not_true_is_false. intros Hc.
  apply (fades_in_charge (drop_inactive (foldl drop_inactive w k1) (n, s, a))) in Hc.
  - pose proof (drop_inactive_down (foldl drop_inactive w k1) n s a) as Hd.
    unfold in_charge in Hc. cbv zeta in Hd. congruence.
  - apply foldl_fades, drop_inactive_fades.
Qed.

Lemma holds_in_charge i w n s a :
  inv i w -> session_current (server w) n s = true -> holds w n a ->
  in_charge w n s a = true.
Proof.
  intros Hinv Hc (l & Hl & <-). unfold in_charge. rewrite Hc, Hl. simpl.
  apply live_for_true. split; [|done].
  destruct (inv_session _ _ Hinv _ _ Hl) as (x & Hx & <-).
  apply session_current_true in Hc as (y & Hy & _ & <-). congruence.
Qed.

(** Everything selection does to the state, for any request. *)
Lemma select_world_spec i w now wanted :
  inv i w ->
  let w' := (select_active_target w now wanted).2 in
  fades w w'
  /\ (forall t, routable w' now t = routable w now t)
  /\ (forall n s a, wanted_node wanted n ->
        session_current (server w') n s = true -> holds w' n a ->
        routable w' now (ActiveSessionTarget.mk n s a) = true).
Proof.
  intros Hinv. unfold select_active_target, select_in_order. cbn [snd].
  set (scan := foldl (scan_session w now wanted) _ _).
  set (w1 := foldl drop_closed w (closed scan)).
  assert (fades w w1) as Hf1 by (apply foldl_fades, drop_closed_fades).
  assert (inv i w1) as Hinv1 by (eapply shrinks_inv; [apply Hf1|done]).
  assert (forall t, routable w1 now t = routable w now t) as Hr1.
  { intros t. apply (drops_closed_routable i); [done|]. intros n s a.
    unfold scan. rewrite (elem_of_scan closed); [|intros; by rewrite scan_session_verdict|done].
    intros (x & _ & Hx). by eapply verdict_closed. }
  set (w2 := foldl drop_inactive w1 (inactive scan)).
  assert (fades w1 w2) as Hf2 by (apply foldl_fades, drop_inactive_fades).
  assert (forall t, routable w2 now t = routable w now t) as Hr2.
  { intros t. rewrite <- Hr1. apply (drops_inactive_routable i); [done|].
    intros n s a Hin. rewrite Hr1. by apply (scan_inactive i) in Hin as (_ & _ & ?). }
  split; [by etrans|]. split; [done|]. intros n s a Hw Hc Hh.
  destruct (routable w2 _ _) eqn:Hr; [done|]. exfalso. rewrite Hr2 in Hr.
  assert (in_charge w2 n s a = true) as Hin2.
  { apply (holds_in_charge i); [|done..]. eapply shrinks_inv; [apply Hf2|done]. }
  assert ((n, s, a) ∈ inactive scan) as Hin.
  { apply (scan_inactive i); [done|]. split; [done|]. split; [|done].
    apply (fades_in_charge w w2); [by etrans|done]. }
  pose proof (drops_inactive_down (inactive scan) w1 n s a Hin) as Hd.
  fold w2 in Hd. congruence.
Qed.

(** ** Selection *)

(** C3: In every reachable state and whatever order the session map is iterated
    in, selection returns a target exactly when that target is routable, is the
    requested node's, and, with no node requested, is the only routable one. *)
Theorem select_active_target_iff timeout i w now wanted order t :
  reachable timeout (i, w) -> order ≡ₚ session_values (server w) ->
  (select_in_order order w now wanted).1 = Some t <->
  routable w now t = true
  /\ wanted_node wanted (ActiveSessionTarget.node_id t)
  /\ (wanted = None -> unambiguous w now t).
Proof.
  intros Hr. apply select_in_order_spec. apply (inv_keyed _ _ (reachable_inv _ _ Hr)).
Qed.

(** Selection expires exactly the sessions that cannot carry traffic: the
    set of routable targets is unchanged, and afterwards every wanted node whose
    session is connected and held by an authority is routable. *)
Theorem select_active_target_expires timeout i w now wanted :
  reachable timeout (i, w) ->
  let w' := (select_active_target w now wanted).2 in
  (forall t, routable w' now t = routable w now t)
  /\ (forall n s a, wanted_node wanted n ->
        session_current (server w') n s = true -> holds w' n a ->
        routable w' now (ActiveSessionTarget.mk n s a) = true).
Proof. intros Hr. apply (select_world_spec i), (reachable_inv _ _ Hr). Qed.

(** ** Heartbeats *)

Lemma refresh_true w now n s a w' :
  refresh_session_heartbeat_for_authority w now n s a = (true, w') <->
  in_charge w n s a = true /\ (quic_active w n s a || tcp_active w n s a) = true
  /\ w' = with_server (set_liveness (alter (set_last_seen now) n)) w.
Proof.
  unfold refresh_session_heartbeat_for_authority, in_charge.
  destruct (session_current _ _ _), (quic_active _ _ _ _), (tcp_active _ _ _ _),
    (is_some_and _ _); simpl; naive_solver.
Qed.

(** C31: A heartbeat is accepted exactly from the authority in charge of a
    connected session with an open transport, and an accepted heartbeat keeps
    that session routable for the whole heartbeat timeout. *)
Theorem heartbeat_extends_routing w now n s a :
  let '(accepted, w') := refresh_session_heartbeat_for_authority w now n s a in
  (accepted = true <->
     in_charge w n s a = true /\ (quic_active w n s a || tcp_active w n s a) = true)
  /\ (accepted = true -> forall now', 0 <= heartbeat_timeout (server w) ->
        now' <= now + heartbeat_timeout (server w) ->
        routable w' now' (ActiveSessionTarget.mk n s a) = true)
  /\ (accepted = false -> w' = w).
Proof.
  destruct (refresh_session_heartbeat_for_authority w now n s a) as [[|] w'] eqn:H.
  - apply refresh_true in H as ([Hc Hl]%andb_true_iff & Ht & ->).
    unfold in_charge. rewrite Hc, Hl, Ht. split; [done|]. split; [|done].
    intros _ now' Hpos Hnow. unfold routable, target_fresh. simpl.
    unfold session_current in *. simpl. rewrite Hc. simpl.
    rewrite (proj2 (session_is_fresh_true _ _ _ _ _ _)); [exact Ht|].
    apply is_some_and_true in Hl as (l & Hl & Hlive).
    exists (set_last_seen now l). rewrite lookup_alter_eq, Hl. split; [done|].
    split; [by apply live_for_true in Hlive; apply live_for_true|].
    unfold saturating_duration_since. simpl. lia.
  - split; [split; [done|]|split; [done|]].
    + intros [H1 H2].
      pose proof (proj2 (refresh_true w now n s a _) (conj H1 (conj H2 eq_refl))). congruence.
    + intros _. revert H. unfold refresh_session_heartbeat_for_authority.
      repeat case_if; congruence.
Qed.

(** ** Acceptance of data streams *)

(** A data stream may be joined to the request it names. *)
Definition acceptable (w : World) (now : Z) (n : string) (s id : Uuid)
    (r : PendingTcpProxyRequest.t) : Prop :=
  pending_tcp (server w) !! id = Some r
  /\ PendingTcpProxyRequest.stream_id r = id
  /\ PendingTcpProxyRequest.expected_node_id r = n
  /\ PendingTcpProxyRequest.expected_session_id r = s
  /\ now < PendingTcpProxyRequest.deadline r
  /\ session_current (server w) n s = true
  /\ session_is_fresh (session_liveness (server w)) n s
       (PendingTcpProxyRequest.expected_authority_id r) now
       (heartbeat_timeout (server w)) = true
  /\ tcp_active w n s (PendingTcpProxyRequest.expected_authority_id r) = true
  /\ PendingTcpProxyRequest.response_sender r ∉ closed_requesters (peers w).

Lemma session_is_fresh_live liveness n s a now timeout :
  session_is_fresh liveness n s a now timeout = true ->
  is_some_and (liveness !! n) (live_for s a) = true.
Proof.
  intros (l & Hl & Hlive & _)%session_is_fresh_true. apply is_some_and_true. eauto.
Qed.

Lemma accept_Ok_iff w now n s id stream w' :
  accept_tcp_proxy_stream w now n s id stream = (Ok tt, w') <->
  exists r, acceptable w now n s id r
    /\ answer (pending_cleanup w id) (PendingTcpProxyRequest.response_sender r) stream
       = (Ok tt, w').
Proof.
  unfold accept_tcp_proxy_stream, accept_section, acceptable.
  destruct (pending_tcp (server w) !! id) as [r|] eqn:Hr; [|naive_solver]. split.
  - repeat case_if; try done; bools; subst.
    destruct (answer _ _ _) as [[[]|e] w2] eqn:Ha; simpl; [|done]. intros [= ->].
    unfold answer in Ha. simpl in Ha. case_bool_decide; [done|].
    exists r. unfold PendingTcpProxyRequest.is_expired in *. bools.
    split; [done|]. unfold answer. simpl. by rewrite bool_decide_false.
  - intros (r' & ([= <-] & <- & <- & <- & Hd & Hc & Hf & Ht & Ho) & Ha).
    rewrite !bool_decide_true by done. simpl.
    unfold PendingTcpProxyRequest.is_expired. rewrite (proj2 (Z.leb_gt _ _) Hd).
    rewrite Hc, Hf, Ht, (session_is_fresh_live _ _ _ _ _ _ Hf). simpl. by rewrite Ha.
Qed.

(** A data stream is handed to a requester exactly when it names a pending
    request of the same node and session that has not expired, whose authority
    is still fresh with an open control channel and whose requester still
    waits; the request is then consumed and the requester holds that stream. *)
Theorem accept_tcp_proxy_stream_iff w now n s id stream w' :
  accept_tcp_proxy_stream w now n s id stream = (Ok tt, w') <->
  exists r, acceptable w now n s id r
    /\ server w' = set_pending (delete id) (server w)
    /\ peers w' = mk_peers (closed_connections (peers w)) (closed_senders (peers w))
                    (closed_requesters (peers w))
                    (<[PendingTcpProxyRequest.response_sender r := stream]>
                       (answered (peers w))).
Proof.
  rewrite accept_Ok_iff. apply exist_proper. intros r. split.
  - intros [Hacc Ha]. split; [done|]. unfold answer in Ha. simpl in Ha.
    rewrite bool_decide_false in Ha by apply Hacc. by injection Ha as <-.
  - intros (Hacc & Hs & Hp). split; [done|]. unfold answer. simpl.
    rewrite bool_decide_false by apply Hacc. destruct w'. simpl in *. by subst.
Qed.

(** ** The reserve *)

(** The stream an activation takes: the last pushed one of this authority that
    accepts the activation frame. *)
Definition best_reserved (write_ok : TcpStream -> bool) (t : ActiveSessionTarget.t)
    (streams : list ReservedTcpStream.t) : option TcpStream :=
  ReservedTcpStream.stream <$>
    List.find (fun r => reserved_for t r && write_ok (ReservedTcpStream.stream r))
      (reverse streams).

Definition reserve_of (w : World) (t : ActiveSessionTarget.t) : list ReservedTcpStream.t :=
  default [] (reserved_tcp (server w) !! ActiveSessionTarget.node_id t).

(** One [take]: the first match of the stack, what lies above it dropped. *)
Lemma take_reserved_spec w t :
  match take_reserved_tcp_stream w t with
  | (None, w') => List.find (reserved_for t) (reverse (reserve_of w t)) = None
                  /\ reserve_of w' t = []
  | (Some s, w') => exists above r below,
      reverse (reserve_of w t) = (above ++ r :: below)%list
      /\ ReservedTcpStream.stream r = s /\ reserved_for t r = true
      /\ Forall (fun x => reserved_for t x = false) above
      /\ reserve_of w' t = reverse below
  end.
Proof.
  unfold take_reserved_tcp_stream, reserve_of.
  destruct (reserved_tcp (server w) !! _) as [streams|] eqn:Hs; simpl; [|by rewrite Hs].
  assert (match pop_matching t (reverse streams) with
    | (None, _) => List.find (reserved_for t) (reverse streams) = None
    | (Some s, rest) => exists above r,
        reverse streams = (above ++ r :: rest)%list /\ ReservedTcpStream.stream r = s
        /\ reserved_for t r = true /\ Forall (fun x => reserved_for t x = false) above
    end) as Hpop.
  { clear Hs. induction (reverse streams) as [|r l IH]; simpl; [done|].
    destruct (reserved_for t r) eqn:Hr; [by exists [], r|].
    destruct (pop_matching t l) as [[s|] rest]; [|done].
    destruct IH as (above & r' & -> & ? & ? & ?). exists (r :: above), r'. auto. }
  destruct (pop_matching t (reverse streams)) as [[s|] rest]; simpl.
  - destruct Hpop as (above & r & ? & ? & ? & ?). exists above, r, rest.
    by rewrite lookup_insert_eq.
  - by rewrite lookup_delete_eq.
Qed.

Lemma find_skip {A} (p q : A -> bool) (above l : list A) :
  Forall (fun x => p x = false) above ->
  List.find (fun x => p x && q x) (above ++ l) = List.find (fun x => p x && q x) l.
Proof. induction 1 as [|x above Hx _ IH]; simpl; [done|]. by rewrite Hx. Qed.

Lemma find_none_weaken {A} (p q : A -> bool) (l : list A) :
  List.find p l = None -> List.find (fun x => p x && q x) l = None.
Proof.
  induction l as [|x l IH]; simpl; [done|]. destruct (p x); [done|]. simpl. auto.
Qed.

Lemma activate_reserved_spec write_ok t fuel w :
  (List.length (reserve_of w t) < fuel)%nat ->
  (activate_reserved fuel write_ok w t).1 = best_reserved write_ok t (reserve_of w t).
Proof.
  revert w. induction fuel as [|fuel IH]; intros w Hlen; [lia|]. simpl.
  pose proof (take_reserved_spec w t) as Htake. unfold best_reserved.
  destruct (take_reserved_tcp_stream w t) as [[s|] w'].
  - destruct Htake as (above & r & below & He & <- & Hr & Habove & Hbelow).
    rewrite He, (find_skip _ _ _ _ Habove). simpl. rewrite Hr. simpl.
    destruct (write_ok _) eqn:Hw; [done|].
    rewrite IH; [unfold best_reserved; by rewrite Hbelow, reverse_involutive|].
    rewrite Hbelow, length_reverse.
    apply (f_equal List.length) in He. rewrite length_reverse, length_app in He.
    simpl in He. lia.
  - destruct Htake as [Hf _]. by rewrite find_none_weaken.
Qed.

(** Activation exhausts the reserve before giving up: it returns the last
    registered stream of exactly this session and authority that takes the
    activation frame, and nothing only when there is none; the bound on its
    turns is always enough. *)
Theorem take_writable_reserved_spec write_ok w t :
  (take_writable_reserved write_ok w t).1
  = best_reserved write_ok t (reserve_of w t).
Proof. apply activate_reserved_spec. unfold reserve_fuel, reserve_of. lia. Qed.

(** ** A requester gets one stream and keeps it *)

Lemma accept_section_answered i w now n s id stream :
  inv i w -> answered (peers w) ⊆ answered (peers (accept_section w now n s id stream).2).
Proof.
  intros Hinv. unfold accept_section.
  destruct (pending_tcp (server w) !! id) as [r|] eqn:Hr; [|done].
  repeat case_if; try done. unfold answer. case_if; [done|]. simpl.
  apply insert_subseteq. by apply (inv_responders _ _ Hinv id).
Qed.

Lemma shrinks_answered_sub w w' :
  shrinks w w' -> answered (peers w) ⊆ answered (peers w').
Proof. intros H. by rewrite (shrinks_answered _ _ H). Qed.

Lemma step_answered c c' :
  step c c' -> inv c.1 c.2 -> answered (peers c.2) ⊆ answered (peers c'.2).
Proof.
  intros Hs Hinv. destruct Hs; cbn [fst snd] in *;
    try (apply shrinks_answered_sub; by eauto with mobile_proxy); try done.
  - destruct (replace_lookup w now aid n sid a) as (_ & _ & _ & _ & _ & Ha & _).
    simpl in Ha. by rewrite Ha.
  - unfold admit_pending. by repeat case_if.
  - by apply (accept_section_answered i).
  - unfold push_reserved. by case_if.
Qed.

Lemma steps_answered c c' :
  rtc step c c' -> inv c.1 c.2 -> answered (peers c.2) ⊆ answered (peers c'.2).
Proof.
  induction 1 as [|c1 c2 c3 Hs _ IH]; [done|]. intros Hinv.
  etrans; [by eapply step_answered|]. apply IH. by eapply step_inv.
Qed.

Lemma open_start_pending w t wakes ok now wait id tx send w1 :
  open_tcp_proxy_start w t wakes ok now wait id tx send = (Ok None, w1) ->
  pending_tcp (server w1) !! id = Some (PendingTcpProxyRequest.mk id
    (ActiveSessionTarget.node_id t) (ActiveSessionTarget.session_id t)
    (ActiveSessionTarget.authority_id t) now (now + wait) tx).
Proof.
  unfold open_tcp_proxy_start.
  destruct (if target_supports_reserved_tcp w t then _ else _) as [[s|] v]; [done|].
  destruct (select_tcp_control_for_target v now t) as [[control|] v']; [|done].
  destruct (admit_pending v' t id now wait tx) as [[[]|e] v''] eqn:Ha; [|done].
  destruct (send control); [|done..]. intros [= <-].
  unfold admit_pending in Ha. repeat case_if; try done. injection Ha as <-. simpl.
  apply lookup_insert_eq.
Qed.

(** End to end: after a proxy request was sent to the device over its control
    channel, the data stream the device opens for it before the deadline is
    accepted while that authority is fresh, and whatever other tasks do
    meanwhile the requester obtains exactly that stream. *)
Theorem open_accept_finish timeout w0 t wakes ok now wait id tx send w1
    i w now' stream i3 w3 :
  open_tcp_proxy_start w0 t wakes ok now wait id tx send = (Ok None, w1) ->
  reachable timeout (i, w) ->
  pending_tcp (server w) !! id = pending_tcp (server w1) !! id ->
  now' < now + wait ->
  session_current (server w) (ActiveSessionTarget.node_id t)
    (ActiveSessionTarget.session_id t) = true ->
  target_fresh w now' t = true ->
  tcp_active w (ActiveSessionTarget.node_id t) (ActiveSessionTarget.session_id t)
    (ActiveSessionTarget.authority_id t) = true ->
  tx ∉ closed_requesters (peers w) ->
  let '(r, w2) := accept_tcp_proxy_stream w now' (ActiveSessionTarget.node_id t)
                    (ActiveSessionTarget.session_id t) id stream in
  r = Ok tt
  /\ (rtc step (i, w2) (i3, w3) -> (open_tcp_proxy_finish w3 id tx).1 = Ok stream).
Proof.
  intros Hopen Hreach Hpend Hnow Hc Hf Ht Htx.
  rewrite (open_start_pending _ _ _ _ _ _ _ _ _ _ Hopen) in Hpend.
  set (r := PendingTcpProxyRequest.mk _ _ _ _ _ _ _) in Hpend.
  assert (acceptable w now' (ActiveSessionTarget.node_id t)
            (ActiveSessionTarget.session_id t) id r) as Hacc by (repeat split; done).
  destruct (answer (pending_cleanup w id) tx stream) as [a w2] eqn:Ha.
  assert (a = Ok tt /\ answered (peers w2) !! tx = Some stream) as [-> Hans].
  { unfold answer in Ha. simpl in Ha. rewrite bool_decide_false in Ha by done.
    injection Ha as <- <-. split; [done|]. apply lookup_insert_eq. }
  rewrite (proj2 (accept_Ok_iff w now' _ _ id stream w2)) by (exists r; done).
  split; [done|]. intros Hsteps.
  assert (inv i w2) as Hinv2.
  { pose proof (accept_section_inv i w now' (ActiveSessionTarget.node_id t)
      (ActiveSessionTarget.session_id t) id stream (reachable_inv _ _ Hreach)) as H.
    enough ((accept_section w now' (ActiveSessionTarget.node_id t)
      (ActiveSessionTarget.session_id t) id stream).2 = w2) as <- by done.
    pose proof (proj2 (accept_Ok_iff w now' _ _ id stream w2) (ex_intro _ r (conj Hacc Ha))) as Hok.
    unfold accept_tcp_proxy_stream in Hok.
    destruct (accept_section _ _ _ _ _ _) as [[u|[e [[[? ?] ?]|]]] v]; simpl; congruence. }
  pose proof (lookup_weaken _ _ _ _ Hans (steps_answered _ _ Hsteps Hinv2)) as Hfin.
  unfold open_tcp_proxy_finish. simpl in *. by rewrite Hfin.
Qed.

(** ** A flag without an authority *)

(** [mark_heartbeat] refreshes the liveness entry and sets the connected flag
    in two critical sections; a disconnect between them leaves a session that
    is reported connected while no authority holds its node.  Routing is not
    affected: no target of that node is routable. *)
Theorem heartbeat_race_leaves_connected_flag :
  exists i w x, reachable DEFAULT_SESSION_HEARTBEAT_TIMEOUT (i, w)
    /\ snapshot w = [x] /\ ServerSessionSnapshot.connected x = true
    /\ session_liveness (server w) = ∅
    /\ forall now, has_active_session w now None = false.
Proof.
  set (n := "phone").
  set (c1 := (({[7%N]} ∪ ∅ : gset Uuid), replace_session_authority
         (initial DEFAULT_SESSION_HEARTBEAT_TIMEOUT).2 0 7%N n 1%N (AuthTcp 1%N))).
  set (c2 := (c1.1, (refresh_session_heartbeat_for_authority c1.2 5 n 1%N 7%N).2)).
  set (c3 := (c1.1, (disconnect_session_authority c2.2 n 1%N 7%N).1)).
  set (hb := TunnelHeartbeat.mk n 1%N 4).
  exists c1.1, (note_heartbeat c3.2 hb), (ServerSessionSnapshot.mk n 1%N true 1 (Some 4)).
  split; [|split; [reflexivity|split; [reflexivity|split; [by vm_compute|]]]].
  - unfold reachable. eapply rtc_l; [apply (StepReplace _ _ 0 7%N n 1%N (AuthTcp 1%N)); [set_solver|done]|].
    eapply rtc_l; [apply (StepRefresh _ _ 5 n 1%N 7%N)|].
    eapply rtc_l; [apply (StepDisconnect _ _ n 1%N 7%N)|].
    eapply rtc_l; [apply (StepNoteHeartbeat _ _ hb)|]. apply rtc_refl.
  - intros now. by vm_compute.
Qed.

(** ** A concrete run

    One phone connects over TCP as session 1 and receives authority 7. *)
Module DemoRun.

Definition T : Z := DEFAULT_SESSION_HEARTBEAT_TIMEOUT.
Definition target : ActiveSessionTarget.t := ActiveSessionTarget.mk "phone" 1%N 7%N.

Definition connected : gset Uuid * World :=
  ({[7%N]} ∪ ∅, replace_session_authority (initial T).2 0 7%N "phone" 1%N (AuthTcp 1%N)).

Definition requested : gset Uuid * World :=
  (connected.1, (admit_pending connected.2 target 100%N (secs 1)
                   TCP_PROXY_STREAM_TIMEOUT 200%N).2).

Definition joined : World :=
  (accept_tcp_proxy_stream requested.2 (secs 2) "phone" 1%N 100%N 300%N).2.

Lemma connected_reachable : reachable T connected.
Proof.
  eapply rtc_l; [|apply rtc_refl].
  apply (StepReplace _ _ 0 7%N "phone" 1%N (AuthTcp 1%N)); [set_solver|done].
Qed.

Lemma requested_reachable : reachable T requested.
Proof.
  eapply rtc_r; [apply connected_reachable|]. apply StepAdmit; [done|done|].
  intros id r. vm_compute. done.
Qed.

Lemma tunnel_invariant_witness : inv connected.1 connected.2.
Proof. apply (tunnel_invariant T). apply connected_reachable. Defined.

Lemma replaced_authority_is_fenced_witness :
  fenced (replace_session_authority connected.2 (secs 1) 8%N "phone" 2%N (AuthTcp 2%N))
    "phone" 7%N.
Proof.
  apply (replaced_authority_is_fenced T connected.1 connected.2 (secs 1) 8%N "phone" 2%N
           (AuthTcp 2%N) (SessionLiveness.mk 1%N 7%N 0) ({[8%N]} ∪ connected.1)).
  - apply connected_reachable.
  - by vm_compute.
  - by apply (bool_decide_eq_true_1 (8%N ∉ connected.1)).
  - done.
  - apply rtc_refl.
Defined.

Lemma select_active_target_iff_witness :
  routable connected.2 (secs 3) target = true
  /\ wanted_node None (ActiveSessionTarget.node_id target)
  /\ (@None string = None -> unambiguous connected.2 (secs 3) target).
Proof.
  apply (select_active_target_iff T connected.1 connected.2 (secs 3) None
           (session_values (server connected.2)) target).
  - apply connected_reachable.
  - done.
  - by vm_compute.
Defined.

(** At [31 s] the session is stale and selection takes it down. *)
Lemma select_active_target_expires_witness :
  let w' := (select_active_target connected.2 (secs 31) None).2 in
  (forall t, routable w' (secs 31) t = routable connected.2 (secs 31) t)
  /\ (forall n s a, wanted_node None n ->
        session_current (server w') n s = true -> holds w' n a ->
        routable w' (secs 31) (ActiveSessionTarget.mk n s a) = true).
Proof.
  apply (select_active_target_expires T connected.1 connected.2 (secs 31) None).
  apply connected_reachable.
Defined.

Lemma open_accept_finish_witness :
  (open_tcp_proxy_finish joined 100%N 200%N).1 = Ok 300%N.
Proof.
  pose proof (open_accept_finish T connected.2 target [] (fun _ => false) (secs 1)
    TCP_PROXY_STREAM_TIMEOUT 100%N 200%N (fun _ => Sent) requested.2
    requested.1 requested.2 (secs 2) 300%N requested.1 joined) as H.
  destruct (accept_tcp_proxy_stream requested.2 (secs 2)
    (ActiveSessionTarget.node_id target) (ActiveSessionTarget.session_id target)
    100%N 300%N) as [r w2] eqn:Hw.
  apply H; [by vm_compute | apply requested_reachable | done | done | by vm_compute..| ].
  assert (w2 = joined) as -> by (change w2 with (r, w2).2; rewrite <- Hw; reflexivity).
  apply rtc_refl.
Defined.

Lemma heartbeat_extends_routing_witness :
  routable (refresh_session_heartbeat_for_authority connected.2 (secs 20) "phone" 1%N 7%N).2
    (secs 50) target = true.
Proof.
  pose proof (heartbeat_extends_routing connected.2 (secs 20) "phone" 1%N 7%N) as H.
  destruct (refresh_session_heartbeat_for_authority connected.2 (secs 20) "phone" 1%N 7%N)
    as [accepted w'] eqn:Hw.
  apply H; [|by vm_compute..]. change accepted with (accepted, w').1. rewrite <- Hw.
  by vm_compute.
Defined.
End DemoRun.
