(* ===== verification/TunnelWire.v ===== *)
(** * Reverse tunnel: bytes on the wire

    Line framing, the first frame of a data connection, and the SOCKS5 client
    handshake of [crates/reverse-tunnel/src/tunnel.rs].  A buffered reader is
    the list of buffers [fill_buf] will return; an empty buffer is the end of
    the stream.  JSON is [serde_json], a parameter. *)

From stdpp Require Import base list strings sets.
From Stdlib Require Import ZArith Lia Ascii String.
From S2P Require Import Prelude Text Foundation TunnelModel.
Local Open Scope string_scope.
Local Open Scope Z_scope.
Local Open Scope rust_scope.

(** ** Lines *)

Definition newline : Z := 10.
Definition MAX_LINE_LENGTH : Z := 1024 * 1024.

Inductive LineError := LineTooLong | LineInvalidUtf8.

Definition blen (l : list Z) : Z := Z.of_nat (List.length l).

(** The scan [for &b in buf]: up to and including the first newline. *)
Fixpoint scan_line (buf : list Z) : list Z * list Z * bool :=
  match buf with
  | [] => ([], [], false)
  | b :: r =>
      if b =? newline then ([b], r, true)
      else let '(chunk, rest, found) := scan_line r in (b :: chunk, rest, found)
  end.

(** [reader.consume(..)]: what remains of the buffer is returned first by the
    next [fill_buf]. *)
Definition refill (rest : list Z) (bufs : list (list Z)) : list (list Z) :=
  match rest with [] => bufs | _ => rest :: bufs end.

Definition end_of_stream (line : list Z) (total : Z)
    : result (option (list Z)) LineError :=
  if total =? 0 then Ok None else Ok (Some line).

Fixpoint read_line_loop (bufs : list (list Z)) (line : list Z) (total : Z)
    : result (option (list Z)) LineError * list (list Z) :=
  match bufs with
  | [] => (end_of_stream line total, [])
  | [] :: more => (end_of_stream line total, [] :: more)
  | buf :: more =>
      let '(chunk, rest, found) := scan_line buf in
      if MAX_LINE_LENGTH <? total + blen chunk then (Err LineTooLong, bufs)
      else if valid_utf8 chunk then
        if found then (Ok (Some (line ++ chunk)%list), refill rest more)
        else read_line_loop more (line ++ chunk)%list (total + blen chunk)
      else (Err LineInvalidUtf8, bufs)
  end.

Definition read_optional_line (bufs : list (list Z))
    : result (option (list Z)) LineError * list (list Z) :=
  read_line_loop bufs [] 0.

(** The reader after the [read_optional_line] future was dropped while it waited
    for its next buffer, [k] buffers without a newline having been consumed.
    This is what [tokio::select!] does when another branch completes first. *)
Fixpoint cancelled_reader (k : nat) (bufs : list (list Z)) : list (list Z) :=
  match k, bufs with
  | S k', buf :: more =>
      match buf with
      | [] => bufs
      | _ => let '(_, _, found) := scan_line buf in
             if found then bufs else cancelled_reader k' more
      end
  | _, _ => bufs
  end.

(** ** Frames *)

Inductive FrameError := FrameLine (e : LineError) | FrameDecode | FrameMissing.

(** [serde_json], for one frame type. *)
Class FrameCodec (F : Type) := {
  to_vec : F -> list Z;
  from_slice : list Z -> option F;
}.

(** Documented behaviour of [serde_json]: a value parses back, trailing white
    space included, and the compact form is UTF-8 text with control characters
    escaped. *)
Class FrameCodecLaws (F : Type) `{FrameCodec F} := {
  from_slice_to_vec : forall f, from_slice (to_vec f ++ [newline])%list = Some f;
  to_vec_no_newline : forall f, newline ∉ to_vec f;
  to_vec_utf8 : forall f, valid_utf8 (to_vec f ++ [newline])%list = true;
}.

Section Frames.
Context {F : Type} `{FrameCodec F}.

(** [write_frame] and [write_server_frame]: the bytes written. *)
Definition write_frame (f : F) : list Z := (to_vec f ++ [newline])%list.

Definition read_optional_frame (bufs : list (list Z))
    : result (option F) FrameError * list (list Z) :=
  match read_optional_line bufs with
  | (Err e, bufs') => (Err (FrameLine e), bufs')
  | (Ok None, bufs') => (Ok None, bufs')
  | (Ok (Some line), bufs') =>
      (match from_slice line with Some f => Ok (Some f) | None => Err FrameDecode end, bufs')
  end.

Definition read_required_frame (bufs : list (list Z))
    : result F FrameError * list (list Z) :=
  match read_optional_frame bufs with
  | (Err e, bufs') => (Err e, bufs')
  | (Ok None, bufs') => (Err FrameMissing, bufs')
  | (Ok (Some f), bufs') => (Ok f, bufs')
  end.
End Frames.

(** ** The first frame of a connection

    Read byte by byte, so that nothing behind the newline is consumed. *)

Definition FIRST_FRAME_LIMIT : Z := 64 * 1024.

Inductive FirstFrameError := FirstClosed | FirstTooLarge | FirstDecode.

Fixpoint first_line (stream bytes : list Z)
    : result (list Z) FirstFrameError * list Z :=
  match stream with
  | [] => (Err FirstClosed, [])
  | b :: rest =>
      let bytes' := (bytes ++ [b])%list in
      if b =? newline then (Ok bytes', rest)
      else if FIRST_FRAME_LIMIT <? blen bytes' then (Err FirstTooLarge, rest)
      else first_line rest bytes'
  end.

Definition read_first_frame `{FrameCodec ClientFrame} (stream : list Z)
    : result ClientFrame FirstFrameError * list Z :=
  match first_line stream [] with
  | (Err e, rest) => (Err e, rest)
  | (Ok line, rest) =>
      (match from_slice line with Some f => Ok f | None => Err FirstDecode end, rest)
  end.

(** ** SOCKS5 *)

Inductive Socks5Error :=
| Socks5Credentials | Socks5MethodRejected | Socks5AuthFailed | Socks5ConnectFailed
| Socks5AddressType | Socks5Closed.

(** [read_exact] of [n] bytes. *)
Definition read_exact (n : nat) (stream : list Z) : result (list Z * list Z) Socks5Error :=
  if (n <=? List.length stream)%nat then Ok (take n stream, drop n stream)
  else Err Socks5Closed.

(** [x as u8]. *)
Definition as_u8 (x : Z) : Z := x mod 256.

Definition socks5_auth (username password : string) : list Z :=
  ([1; as_u8 (len username)] ++ bytes username
   ++ [as_u8 (len password)] ++ bytes password)%list.

Definition socks5_request (target : SocketAddr) : list Z :=
  ([5; 1; 0]
   ++ match addr_ip target with V4 o => 1 :: o | V6 o => 4 :: o end
   ++ [addr_port target / 256; addr_port target mod 256])%list.

(** Reads of the reply to the connect request. *)
Definition socks5_reply (stream : list Z) : result (list Z) Socks5Error :=
  let? '(head, stream1) := read_exact 4 stream in
  if negb (nth 0 head 0 =? 5) || negb (nth 1 head 0 =? 0) then Err Socks5ConnectFailed
  else
    let? '(address_len, stream2) :=
      (if nth 3 head 0 =? 1 then Ok (4%nat, stream1)
       else if nth 3 head 0 =? 4 then Ok (16%nat, stream1)
       else if nth 3 head 0 =? 3 then
         let? '(length, stream2) := read_exact 1 stream1 in
         Ok (Z.to_nat (nth 0 length 0), stream2)
       else Err Socks5AddressType) in
    let? '(_, stream3) := read_exact (address_len + 2) stream2 in
    Ok stream3.

(** [socks5_connect]: the writes in order and, with what the proxy sends, the
    outcome and the bytes left on the stream. *)
Definition socks5_connect (target : SocketAddr) (username password : string)
    (stream : list Z) : list (list Z) * result (list Z) Socks5Error :=
  if (len username =? 0) || (255 <? len username) || (len password =? 0)
     || (255 <? len password)
  then ([], Err Socks5Credentials)
  else
    match read_exact 2 stream with
    | Err e => ([[5; 1; 2]], Err e)
    | Ok (response, stream1) =>
        if negb (bool_decide (response = [5; 2]))
        then ([[5; 1; 2]], Err Socks5MethodRejected)
        else
          match read_exact 2 stream1 with
          | Err e => ([[5; 1; 2]; socks5_auth username password], Err e)
          | Ok (response, stream2) =>
              if negb (bool_decide (response = [1; 0]))
              then ([[5; 1; 2]; socks5_auth username password], Err Socks5AuthFailed)
              else ([[5; 1; 2]; socks5_auth username password; socks5_request target],
                    socks5_reply stream2)
          end
    end.

(** ** Rejecting a public client *)

Definition crlf : string := String "013"%char (String "010"%char EmptyString).

Definition service_unavailable : string :=
  "HTTP/1.1 503 Service Unavailable" ++ crlf
  ++ "Connection: close" ++ crlf
  ++ "Content-Length: 31" ++ crlf
  ++ "Content-Type: text/plain" ++ crlf
  ++ "Retry-After: 5" ++ crlf
  ++ crlf
  ++ "mobile proxy device is offline" ++ String "010"%char EmptyString.

Definition reject_unavailable (protocol : ProxyProtocol) : list Z :=
  match protocol with
  | Socks5 => [5; 255]
  | Http | Mixed => bytes service_unavailable
  end.

(** [first] is the byte peeked before the timeout, if one arrived. *)
Definition resolve_proxy_protocol (first : option Z) (protocol : ProxyProtocol)
    : ProxyProtocol :=
  match protocol with
  | Mixed => if is_some_and first (fun b => b =? 5) then Socks5 else Http
  | p => p
  end.

(** ** Lines: theorems *)

Definition is_ascii (b : Z) : Prop := in_range 0 127 b = true.

Lemma ascii_valid_utf8 l : Forall is_ascii l -> valid_utf8 l = true.
Proof. intros H. unfold valid_utf8. by rewrite utf8_decode_ascii. Qed.

Lemma scan_line_none buf : newline ∉ buf -> scan_line buf = (buf, [], false).
Proof.
  induction buf as [|b r IH]; intros Hn; simpl; [done|].
  rewrite IH by set_solver. destruct (b =? newline) eqn:Hb; [|done].
  apply Z.eqb_eq in Hb. subst. set_solver.
Qed.

Lemma scan_line_some line rest :
  newline ∉ line ->
  scan_line (line ++ newline :: rest)%list = ((line ++ [newline])%list, rest, true).
Proof.
  induction line as [|b r IH]; intros Hn; simpl; [done|].
  rewrite IH by set_solver. destruct (b =? newline) eqn:Hb; [|done].
  apply Z.eqb_eq in Hb. subst. set_solver.
Qed.

Lemma refill_concat rest bufs : List.concat (refill rest bufs) = (rest ++ List.concat bufs)%list.
Proof. by destruct rest. Qed.

Lemma refill_nonempty rest bufs :
  Forall (.≠ []) bufs -> Forall (.≠ []) (refill rest bufs).
Proof. destruct rest; simpl; [done|]. constructor; done. Qed.

Lemma blen_app l m : blen (l ++ m)%list = blen l + blen m.
Proof. unfold blen. rewrite length_app. lia. Qed.

Lemma blen_nonneg l : 0 <= blen l.
Proof. unfold blen. lia. Qed.

(** How a line that spans buffers splits over the first one. *)
Lemma split_line (buf more line rest : list Z) :
  (buf ++ more = line ++ newline :: rest)%list -> newline ∉ line ->
  (exists tl, (line = buf ++ tl)%list /\ more = (tl ++ newline :: rest)%list)
  \/ (exists tl, buf = (line ++ newline :: tl)%list /\ rest = (tl ++ more)%list).
Proof.
  revert line. induction buf as [|b buf IH]; intros line Heq Hn; [left; by exists line|].
  destruct line as [|c line]; simpl in Heq; injection Heq as Hb Heq.
  - right. exists buf. by subst.
  - subst c. destruct (IH line Heq ltac:(set_solver)) as [(tl & -> & ->)|(tl & -> & ->)];
      [left|right]; by exists tl.
Qed.

Lemma read_line_loop_spec bufs acc line rest :
  Forall (.≠ []) bufs -> List.concat bufs = (line ++ newline :: rest)%list ->
  newline ∉ line -> Forall is_ascii line ->
  blen acc + blen line + 1 <= MAX_LINE_LENGTH ->
  exists bufs', read_line_loop bufs acc (blen acc) = (Ok (Some (acc ++ line ++ [newline])%list), bufs')
    /\ List.concat bufs' = rest /\ Forall (.≠ []) bufs'.
Proof.
  revert acc line. induction bufs as [|buf bufs IH]; intros acc line Hne Hcat Hn Ha Hlen.
  { simpl in Hcat. destruct line; done. }
  apply Forall_cons in Hne as [Hb Hne]. simpl in Hcat.
  destruct (split_line _ _ _ _ Hcat Hn) as [(tl & -> & Htl)|(tl & -> & ->)].
  - apply Forall_app in Ha as [Ha Hat]. rewrite blen_app in Hlen.
    destruct (IH (acc ++ buf)%list tl Hne Htl ltac:(set_solver) Hat) as (bufs' & Hr & ?).
    { rewrite blen_app. lia. }
    exists bufs'. split; [|done]. rewrite <- !app_assoc in Hr. rewrite <- !app_assoc, <- Hr.
    simpl. rewrite scan_line_none by set_solver. rewrite ascii_valid_utf8 by done.
    pose proof (blen_nonneg tl). rewrite (proj2 (Z.ltb_ge _ _)) by lia.
    rewrite blen_app. by destruct buf.
  - exists (refill tl bufs). rewrite refill_concat. split; [|split; [done|by apply refill_nonempty]].
    simpl. rewrite scan_line_some by done.
    assert (blen (line ++ [newline])%list = blen line + 1) as -> by (by rewrite blen_app).
    rewrite (proj2 (Z.ltb_ge _ _)) by lia.
    rewrite ascii_valid_utf8.
    2:{ apply Forall_app. split; [done|]. repeat constructor. }
    destruct line; simpl; by rewrite ?app_assoc.
Qed.

Lemma read_optional_line_spec bufs line rest :
  Forall (.≠ []) bufs -> List.concat bufs = (line ++ newline :: rest)%list ->
  newline ∉ line -> Forall is_ascii line -> blen line + 1 <= MAX_LINE_LENGTH ->
  exists bufs', read_optional_line bufs = (Ok (Some (line ++ [newline])%list), bufs')
    /\ List.concat bufs' = rest /\ Forall (.≠ []) bufs'.
Proof. intros. by apply (read_line_loop_spec bufs []). Qed.

(** ** Frames: theorems *)

Section FrameTheorems.
Context {F : Type} `{FrameCodecLaws F}.

(** Reads frames until the stream ends or fails; one turn per frame. *)
Fixpoint read_frames (turns : nat) (bufs : list (list Z)) : result (list F) FrameError :=
  match turns with
  | O => Ok []
  | S turns' =>
      match read_optional_frame (F := F) bufs with
      | (Err e, _) => Err e
      | (Ok None, _) => Ok []
      | (Ok (Some f), bufs') => result_map (cons f) (read_frames turns' bufs')
      end
  end.

(** Frames whose encoding is ASCII and fits a line. *)
Definition plain_frame (f : F) : Prop :=
  Forall is_ascii (to_vec f) /\ blen (write_frame f) <= MAX_LINE_LENGTH.

Lemma read_optional_frame_spec bufs f rest :
  Forall (.≠ []) bufs -> List.concat bufs = (write_frame f ++ rest)%list -> plain_frame f ->
  exists bufs', read_optional_frame (F := F) bufs = (Ok (Some f), bufs')
    /\ List.concat bufs' = rest /\ Forall (.≠ []) bufs'.
Proof.
  intros Hne Hcat [Ha Hlen]. unfold write_frame in *.
  rewrite blen_app in Hlen. rewrite <- app_assoc in Hcat.
  destruct (read_optional_line_spec bufs (to_vec f) rest Hne Hcat (to_vec_no_newline f) Ha Hlen)
    as (bufs' & Hr & ?).
  exists bufs'. split; [|done]. unfold read_optional_frame. rewrite Hr.
  by rewrite from_slice_to_vec.
Qed.

(** C36: Whatever buffers a stream of frames arrives in, split or merged anywhere,
    the reader returns exactly the frames that were written, in order, and then
    the end of the stream (for frames whose JSON is ASCII and fits a line). *)
Theorem frames_roundtrip (fs : list F) (bufs : list (list Z)) :
  Forall plain_frame fs -> Forall (.≠ []) bufs ->
  List.concat bufs = List.concat (write_frame <$> fs) ->
  read_frames (S (List.length fs)) bufs = Ok fs.
Proof.
  intros Hfs. revert bufs. induction Hfs as [|f fs Hf _ IH]; intros bufs Hne Hcat.
  - destruct bufs as [|[|b buf] bufs]; [done| |done]. by inversion Hne.
  - destruct (read_optional_frame_spec bufs f _ Hne Hcat Hf) as (bufs' & Hr & Hcat' & Hne').
    cbn [read_frames List.length]. rewrite Hr. cbn [read_frames List.length] in IH.
    by rewrite (IH bufs' Hne' Hcat').
Qed.
End FrameTheorems.

(** A character split over two buffers: the same bytes are a line in one buffer
    and an error in two.  "e" with an acute accent is the pair 195, 169. *)
Theorem split_character_is_rejected :
  List.concat [[195; 169; newline]] = List.concat [[195]; [169; newline]]
  /\ read_optional_line [[195; 169; newline]] = (Ok (Some [195; 169; newline]), [])
  /\ read_optional_line [[195]; [169; newline]]
     = (Err LineInvalidUtf8, [[195]; [169; newline]]).
Proof. repeat split. Qed.

(** A reader future that is dropped after it consumed the first part of a
    line loses that part: the next read returns only the tail of the line. *)
Theorem cancelled_read_loses_bytes part tail more :
  part <> [] -> newline ∉ part -> newline ∉ tail ->
  Forall is_ascii part -> Forall is_ascii tail ->
  blen part + blen tail + 1 <= MAX_LINE_LENGTH ->
  let bufs := part :: (tail ++ [newline])%list :: more in
  (read_optional_line bufs).1 = Ok (Some (part ++ tail ++ [newline])%list)
  /\ (read_optional_line (cancelled_reader 1 bufs)).1 = Ok (Some (tail ++ [newline])%list).
Proof.
  intros Hp Hn1 Hn2 Ha1 Ha2 Hlen bufs.
  assert (forall acc, blen acc + blen tail + 1 <= MAX_LINE_LENGTH ->
    (read_line_loop ((tail ++ [newline])%list :: more) acc (blen acc)).1
    = Ok (Some (acc ++ tail ++ [newline])%list)) as Htail.
  { intros acc Hacc. cbn [read_line_loop].
    rewrite scan_line_some by done. rewrite blen_app. change (blen [newline]) with 1.
    rewrite (proj2 (Z.ltb_ge _ _)) by lia.
    rewrite ascii_valid_utf8 by (apply Forall_app; split; [done|repeat constructor]).
    by destruct tail. }
  split; [|].
  - unfold read_optional_line, bufs. destruct part as [|b part]; [done|].
    cbn [read_line_loop]. rewrite scan_line_none, ascii_valid_utf8 by done.
    pose proof (blen_nonneg tail). rewrite (proj2 (Z.ltb_ge _ _)) by lia.
    apply (Htail (b :: part)). lia.
  - unfold bufs. cbn [cancelled_reader]. rewrite scan_line_none by done.
    destruct part as [|b part]; [done|]. cbn [cancelled_reader].
    apply (Htail []). pose proof (blen_nonneg (b :: part)). simpl. unfold blen at 1. simpl. lia.
Qed.

(** ** The first frame: theorem *)

Lemma first_line_acc stream acc l rest :
  first_line stream acc = (Ok l, rest) <->
  exists body, l = (acc ++ body ++ [newline])%list /\ (newline ∉ body)
    /\ stream = (body ++ newline :: rest)%list
    /\ (body = [] \/ blen acc + blen body <= FIRST_FRAME_LIMIT).
Proof.
  revert acc. induction stream as [|b stream IH]; intros acc; cbn [first_line].
  { split; [done|]. intros (body & _ & _ & Hs & _). by destruct body. }
  destruct (b =? newline) eqn:Hb.
  - apply Z.eqb_eq in Hb. subst b. split.
    + intros [= <- <-]. exists []. split; [done|]. split; [set_solver|]. auto.
    + intros (body & -> & Hn & Hs & _). destruct body as [|c body]; simpl in Hs.
      * by injection Hs as ->.
      * injection Hs as Hc _. subst c. set_solver.
  - apply Z.eqb_neq in Hb. rewrite blen_app. change (blen [b]) with 1.
    destruct (FIRST_FRAME_LIMIT <? _) eqn:Hlim.
    + apply Z.ltb_lt in Hlim. split; [done|]. intros (body & -> & Hn & Hs & Hl).
      destruct body as [|c body]; simpl in Hs; [congruence|]. exfalso.
      destruct Hl as [|Hl]; [done|]. pose proof (blen_nonneg body).
      change (c :: body) with ([c] ++ body)%list in Hl. rewrite blen_app in Hl.
      change (blen [c]) with 1 in Hl. lia.
    + apply Z.ltb_ge in Hlim. rewrite IH, blen_app. change (blen [b]) with 1. split.
      * intros (body & -> & Hn & -> & Hl). exists (b :: body).
        rewrite <- app_assoc. split; [done|]. split; [set_solver|]. split; [done|]. right.
        change (b :: body) with ([b] ++ body)%list. rewrite blen_app.
        change (blen [b]) with 1. destruct Hl as [->|]; [change (blen []) with 0|]; lia.
      * intros (body & -> & Hn & Hs & Hl). destruct body as [|c body]; simpl in Hs; [congruence|].
        injection Hs as -> ->. exists body. rewrite <- app_assoc. split; [done|].
        split; [set_solver|]. split; [done|]. destruct Hl as [|Hl]; [done|]. right.
        change (c :: body) with ([c] ++ body)%list in Hl. rewrite blen_app in Hl.
        change (blen [c]) with 1 in Hl. lia.
Qed.

(** The first line of a connection is read exactly up to its newline, at
    most 64 KiB before it, and every byte behind the newline stays on the
    stream for the proxy data that follows. *)
Theorem first_line_iff stream l rest :
  first_line stream [] = (Ok l, rest) <->
  exists body, l = (body ++ [newline])%list /\ (newline ∉ body)
    /\ stream = (l ++ rest)%list /\ blen body <= FIRST_FRAME_LIMIT.
Proof.
  rewrite first_line_acc. apply exist_proper. intros body. simpl. split.
  - intros (-> & Hn & -> & Hl). rewrite <- app_assoc. split; [done|]. split; [done|].
    split; [done|]. destruct Hl as [->|Hl]; [done|]. apply Hl.
  - intros (-> & Hn & -> & Hl). rewrite <- app_assoc. split; [done|]. split; [done|].
    split; [done|]. by right.
Qed.

(** ** SOCKS5: theorems *)

Lemma read_exact_Ok n stream a b :
  read_exact n stream = Ok (a, b) <-> stream = (a ++ b)%list /\ List.length a = n.
Proof.
  unfold read_exact. destruct (Nat.leb_spec n (List.length stream)) as [Hle|Hgt]; split.
  - intros [= <- <-]. rewrite take_drop, length_take. split; [done|lia].
  - intros [-> <-]. by rewrite take_app_length, drop_app_length.
  - done.
  - intros [-> <-]. rewrite length_app in Hgt. lia.
Qed.

(** The address field that a reply of the given address type carries. *)
Definition socks5_address (atyp : Z) (field : list Z) : Prop :=
  (atyp = 1 /\ List.length field = 4%nat)
  \/ (atyp = 4 /\ List.length field = 16%nat)
  \/ (atyp = 3 /\ exists n name, field = n :: name /\ List.length name = Z.to_nat n).

Lemma length_2 {A} (l : list A) : List.length l = 2%nat <-> exists a b, l = [a; b].
Proof. destruct l as [|a [|b [|c l]]]; naive_solver. Qed.

Lemma length_4 {A} (l : list A) : List.length l = 4%nat <-> exists a b c d, l = [a; b; c; d].
Proof. destruct l as [|a [|b [|c [|d [|e l]]]]]; naive_solver. Qed.

(** The common tail of the three address types. *)
Lemma read_tail_Ok k stream rest :
  (let? '(_, stream3) := read_exact (k + 2) stream in Ok stream3) = Ok rest <->
  exists field port, stream = (field ++ port ++ rest)%list
    /\ List.length field = k /\ List.length port = 2%nat.
Proof.
  rewrite result_bind_Ok. split.
  - intros ([all s] & [-> Hlen]%read_exact_Ok & [= ->]).
    exists (take k all), (drop k all). split; [by rewrite app_assoc, take_drop|].
    rewrite length_take, length_drop. lia.
  - intros (field & port & -> & Hf & Hp). exists ((field ++ port)%list, rest).
    split; [|done]. apply read_exact_Ok. split; [by rewrite app_assoc|].
    rewrite length_app. lia.
Qed.

Lemma socks5_reply_Ok stream rest :
  socks5_reply stream = Ok rest <->
  exists rsv atyp field port, socks5_address atyp field /\ List.length port = 2%nat
    /\ stream = ([5; 0; rsv; atyp] ++ field ++ port ++ rest)%list.
Proof.
  unfold socks5_reply. rewrite result_bind_Ok. split.
  - intros ([head s] & [-> (a & b & rsv & atyp & ->)%length_4]%read_exact_Ok & H). simpl in H.
    destruct (a =? 5) eqn:Ha, (b =? 0) eqn:Hb; simpl in H; try done. bools. subst.
    exists rsv, atyp. unfold socks5_address.
    destruct (atyp =? 1) eqn:H1; [|destruct (atyp =? 4) eqn:H4; [|destruct (atyp =? 3) eqn:H3]];
      simpl in H; bools; subst.
    + apply (read_tail_Ok 4) in H as (f & p & -> & ? & ?). exists f, p. auto.
    + apply (read_tail_Ok 16) in H as (f & p & -> & ? & ?). exists f, p. auto.
    + apply result_bind_Ok in H as ([k s'] & H & Ht).
      apply result_bind_Ok in H as ([one s1] & [-> Hone]%read_exact_Ok & [= <- <-]).
      destruct one as [|n [|]]; try done. simpl in Ht.
      apply (read_tail_Ok (Z.to_nat n)) in Ht as (f & p & -> & ? & ?).
      exists (n :: f), p. eauto 10.
    + done.
  - intros (rsv & atyp & field & port & Haddr & Hp & ->).
    exists ([5; 0; rsv; atyp], (field ++ port ++ rest)%list). split; [by apply read_exact_Ok|].
    simpl. destruct Haddr as [[-> Hf]|[[-> Hf]|[-> (n & name & -> & Hf)]]]; simpl.
    + apply (read_tail_Ok 4). eauto 10.
    + apply (read_tail_Ok 16). eauto 10.
    + apply (read_tail_Ok (Z.to_nat n)). rewrite drop_0. eauto 10.
Qed.

Lemma as_u8_exact x : 0 <= x <= 255 -> as_u8 x = x.
Proof. intros H. unfold as_u8. apply Z.mod_small. lia. Qed.

(** The SOCKS5 handshake succeeds exactly on a proxy that selects password
    authentication, accepts the credentials and reports success; the three
    messages written carry the credentials with their exact lengths, and the
    reply is consumed to its last byte and no further. *)
Theorem socks5_connect_iff target u p stream writes rest :
  socks5_connect target u p stream = (writes, Ok rest) <->
  0 < len u <= 255 /\ 0 < len p <= 255
  /\ writes = [[5; 1; 2];
               ([1; len u] ++ bytes u ++ [len p] ++ bytes p)%list;
               socks5_request target]
  /\ exists rsv atyp field port, socks5_address atyp field /\ List.length port = 2%nat
       /\ stream = ([5; 2; 1; 0; 5; 0; rsv; atyp] ++ field ++ port ++ rest)%list.
Proof.
  unfold socks5_connect. pose proof (len_nonneg u) as Hu. pose proof (len_nonneg p) as Hp.
  destruct (_ || _) eqn:Hcred.
  { split; [done|]. intros (Hlu & Hlp & _). rewrite !orb_true_iff in Hcred.
    destruct Hcred as [[[H|H]|H]|H]; bools; lia. }
  bools. unfold socks5_auth. rewrite !as_u8_exact by lia. split.
  - destruct (read_exact 2 stream) as [[r1 s1]|] eqn:H1'; [|done].
    case_bool_decide as Hr1; [|done]. simpl.
    destruct (read_exact 2 s1) as [[r2 s2]|] eqn:H2'; [|done].
    case_bool_decide as Hr2; [|done]. simpl. intros [= <- Hrep].
    apply read_exact_Ok in H1' as [-> _], H2' as [-> _]. subst.
    apply socks5_reply_Ok in Hrep as (rsv & atyp & field & port & ? & ? & ->).
    split; [lia|]. split; [lia|]. split; [done|]. by exists rsv, atyp, field, port.
  - intros (_ & _ & -> & rsv & atyp & field & port & Haddr & Hport & ->).
    rewrite (proj2 (read_exact_Ok 2 _ [5; 2] ([1; 0; 5; 0; rsv; atyp] ++ field ++ port ++ rest)%list))
      by done. rewrite bool_decide_true by done. cbn [negb].
    rewrite (proj2 (read_exact_Ok 2 _ [1; 0] ([5; 0; rsv; atyp] ++ field ++ port ++ rest)%list))
      by done. rewrite bool_decide_true by done. cbn [negb]. f_equal.
    apply socks5_reply_Ok. eauto 10.
Qed.

(** ** Concrete frames *)

Module DemoCodec.
#[global] Instance codec : FrameCodec bool := {|
  to_vec (b : bool) := if b then [116; 114; 117; 101] else [102; 97; 108; 115; 101];
  from_slice (l : list Z) :=
    if bool_decide (l = [116; 114; 117; 101; 10]) then Some true
    else if bool_decide (l = [102; 97; 108; 115; 101; 10]) then Some false else None;
|}.

#[global] Instance codec_laws : FrameCodecLaws bool.
Proof.
  split; intros []; try done; unfold newline; simpl; rewrite !not_elem_of_cons;
    repeat split; try done; apply not_elem_of_nil.
Qed.

(** [true] and [false] arriving in four odd pieces. *)
Lemma frames_roundtrip_witness :
  read_frames (F := bool) 3 [[116; 114]; [117; 101; 10; 102]; [97; 108; 115; 101]; [10]]
  = Ok [true; false].
Proof.
  apply (frames_roundtrip (F := bool) [true; false]
           [[116; 114]; [117; 101; 10; 102]; [97; 108; 115; 101]; [10]]).
  - repeat constructor; done.
  - repeat constructor; done.
  - reflexivity.
Defined.

Lemma cancelled_read_loses_bytes_witness :
  let bufs : list (list Z) := [[123]; [125; newline]] in
  (read_optional_line bufs).1 = Ok (Some [123; 125; newline])
  /\ (read_optional_line (cancelled_reader 1 bufs)).1 = Ok (Some [125; newline]).
Proof.
  apply (cancelled_read_loses_bytes [123] [125] []); try done; try set_solver;
    repeat constructor.
Defined.
End DemoCodec.
