(* ===== verification/Tunnel.v ===== *)
(** * Reverse tunnel: connection handlers and the client loop

    The server's handlers of TCP and QUIC connections and the phone's
    reconnecting client, [crates/reverse-tunnel/src/tunnel.rs].  A session is
    driven by the events its [select!] loop observes; between two events other
    tasks may change the world arbitrarily. *)

From stdpp Require Import base gmap strings list fin_maps.
From Stdlib Require Import ZArith Lia String.
From S2P Require Import Prelude Text Foundation TunnelModel TunnelState TunnelRouting.
From S2P Require Import TunnelInvariant TunnelSelection TunnelWire.
Local Open Scope string_scope.
Local Open Scope Z_scope.

(** ** Server handlers *)

Inductive HandlerError :=
| FirstFrameFailed (e : option FirstFrameError)
| ProxyStreamAuthFailed | ReserveAuthFailed | NotHello | AuthFailed
| StreamRejected (e : TcpProxyStreamRejection)
| ReserveRejected (e : ReserveError)
| UnexpectedFrame | ReadFailed (e : FrameError) | WriteFailed.

(** [subtle]'s constant-time comparison. *)
Definition ct_eq (a b : string) : bool := bool_decide (bytes a = bytes b).

(** What a session loop observes next.  [now] is read by a heartbeat. *)
Inductive SessionEvent :=
| ControlFrame (write_ok : bool)
| ControlClosed
| Incoming (now : Z) (frame : result (option ClientFrame) FrameError).

(** One turn of the TCP session loop: the new world, and the loop's result when
    it breaks. *)
Definition tcp_session_turn (w : World) (authority : Uuid) (ev : SessionEvent)
    : World * option (result unit HandlerError) :=
  match ev with
  | ControlClosed => (w, Some (Ok tt))
  | ControlFrame true => (w, None)
  | ControlFrame false => (w, Some (Err WriteFailed))
  | Incoming now (Ok (Some (Heartbeat hb))) => (mark_heartbeat w now hb authority, None)
  | Incoming _ (Ok (Some _)) => (w, Some (Err UnexpectedFrame))
  | Incoming _ (Ok None) => (w, Some (Ok tt))
  | Incoming _ (Err e) => (w, Some (Err (ReadFailed e)))
  end.

(** The loop, with the interference of other tasks before each event.  [None]
    while the session is still running. *)
Fixpoint tcp_session (w : World) (hello : TunnelHello.t) (authority : Uuid)
    (script : list ((World -> World) * SessionEvent))
    : World * option (result unit HandlerError) :=
  match script with
  | [] => (w, None)
  | (others, ev) :: rest =>
      match tcp_session_turn (others w) authority ev with
      | (w', None) => tcp_session w' hello authority rest
      | (w', Some r) => (mark_disconnected w' hello authority, Some r)
      end
  end.

(** What [handle_server_connection] is given: the first frame, or its failure
    ([None] is the five second timeout), and later events. *)
Definition handle_server_connection (auth_token : string) (w : World) (now : Z)
    (first : result ClientFrame (option FirstFrameError)) (stream : TcpStream)
    (control_tx : Sender) (authority : Uuid)
    (script : list ((World -> World) * SessionEvent))
    : World * option (result unit HandlerError) :=
  match first with
  | Err e => (w, Some (Err (FirstFrameFailed e)))
  | Ok (ProxyStream node session stream_id token) =>
      if ct_eq token auth_token then
        match accept_tcp_proxy_stream w now node session stream_id stream with
        | (Ok _, w') => (w', Some (Ok tt))
        | (Err e, w') => (w', Some (Err (StreamRejected e)))
        end
      else (w, Some (Err ProxyStreamAuthFailed))
  | Ok (ProxyReserve node session token) =>
      if ct_eq token auth_token then
        match register_reserved_tcp_stream w node session stream with
        | (Ok _, w') => (w', Some (Ok tt))
        | (Err e, w') => (w', Some (Err (ReserveRejected e)))
        end
      else (w, Some (Err ReserveAuthFailed))
  | Ok (Hello hello) =>
      if ct_eq (TunnelHello.auth_token hello) auth_token then
        tcp_session (mark_connected w now authority hello (AuthTcp control_tx))
          hello authority script
      else (w, Some (Err AuthFailed))
  | Ok (Heartbeat _) => (w, Some (Err NotHello))
  end.

(** The QUIC control stream: the loop body differs on an unexpected frame, which
    returns without [mark_disconnected]. *)
Fixpoint quic_session (w : World) (hello : TunnelHello.t) (authority : Uuid)
    (script : list ((World -> World) * (Z * result (option ClientFrame) FrameError)))
    : World * option (result unit HandlerError) :=
  match script with
  | [] => (w, None)
  | (others, (now, frame)) :: rest =>
      let w0 := others w in
      match frame with
      | Ok (Some (Heartbeat hb)) =>
          quic_session (mark_heartbeat w0 now hb authority) hello authority rest
      | Ok (Some _) => (w0, Some (Err UnexpectedFrame))
      | Ok None => (mark_disconnected w0 hello authority, Some (Ok tt))
      | Err e => (mark_disconnected w0 hello authority, Some (Err (ReadFailed e)))
      end
  end.

Definition handle_quic_control_stream (auth_token : string) (w : World) (now : Z)
    (first : result ClientFrame FrameError) (connection : Connection) (authority : Uuid)
    (script : list ((World -> World) * (Z * result (option ClientFrame) FrameError)))
    : World * option (result unit HandlerError) :=
  match first with
  | Err e => (w, Some (Err (ReadFailed e)))
  | Ok (Hello hello) =>
      if ct_eq (TunnelHello.auth_token hello) auth_token then
        quic_session (mark_connected w now authority hello (AuthQuic connection))
          hello authority script
      else (w, Some (Err AuthFailed))
  | Ok _ => (w, Some (Err NotHello))
  end.

(** ** Forwarding a public client *)

(** Where [run_quic_tcp_forward_listener] and [forward_tcp_over_quic] send an
    accepted client: rejected with these bytes, over the QUIC connection with an
    activation frame, or through [open_tcp_proxy_for_target]. *)
Inductive Forward :=
| Rejected (response : list Z)
| OverQuic (connection : Connection) (frame : ServerFrame)
| OverTcp (target : ActiveSessionTarget.t) (protocol : ProxyProtocol).

Definition forward_client (w : World) (now : Z) (others : World -> World) (now' : Z)
    (target_node : option string) (protocol : ProxyProtocol) (first_byte : option Z)
    (stream_id : Uuid) : Forward * World :=
  match select_active_target w now target_node with
  | (None, w') => (Rejected (reject_unavailable (resolve_proxy_protocol first_byte protocol)), w')
  | (Some target, w') =>
      match active_connection_for_target (others w') now' target with
      | (Some c, w'') => (OverQuic c (OpenProxy stream_id protocol), w'')
      | (None, w'') => (OverTcp target protocol, w'')
      end
  end.

(** ** Client: failure classes *)

(** An [anyhow::Error]: its message and the causes below it. *)
Record AnyError := mk_error { message : string; causes : list string }.

(** [format!("{err:#}")]. *)
Definition alternate (e : AnyError) : string :=
  foldl (fun acc cause => acc ++ ": " ++ cause) (message e) (causes e).

Definition quic_failover_reason (error : AnyError) : TunnelFailoverReason.t :=
  let message := message error in
  if contains "timed out" message then TunnelFailoverReason.ConnectTimeout
  else if contains "connect failed" message then TunnelFailoverReason.ConnectFailed
  else if contains "authentication" message then TunnelFailoverReason.AuthenticationFailed
  else if contains "closed" message then TunnelFailoverReason.SessionClosed
  else TunnelFailoverReason.SessionError.

Definition disconnect_reason (error : AnyError) : TunnelDisconnectReason.t :=
  if contains "closed" (message error) then TunnelDisconnectReason.SessionClosed
  else TunnelDisconnectReason.SessionError.

Definition next_backoff (current ceiling : Z) : Z := Z.min (current * 2) ceiling.

(** ** Client: snapshot updates *)

Definition mark_snapshot_connected (s : ClientSnapshot.t) (transport : TunnelActiveTransport.t)
    (preserve_failover_reason : bool) : ClientSnapshot.t :=
  ClientSnapshot.mk (ClientSnapshot.session_id s) true (ClientSnapshot.attempts s)
    (ClientSnapshot.sent_heartbeats s) None (Some transport) TunnelFreshness.Fresh
    (if preserve_failover_reason then ClientSnapshot.last_failover_reason s else None)
    (TunnelEventCounters.record_connection transport (ClientSnapshot.event_counters s)).

Definition record_quic_failover (s : ClientSnapshot.t) (error : AnyError) : ClientSnapshot.t :=
  let reason := quic_failover_reason error in
  ClientSnapshot.mk (ClientSnapshot.session_id s) false (ClientSnapshot.attempts s)
    (ClientSnapshot.sent_heartbeats s) (ClientSnapshot.last_error s) None
    TunnelFreshness.Unknown (Some reason)
    (TunnelEventCounters.record_failover reason (ClientSnapshot.event_counters s)).

(** How one transport of an attempt went: it failed before the hello was
    written, or it ran with some heartbeats and ended ([Ok] is shutdown). *)
Inductive PumpOutcome :=
| NeverConnected (error : AnyError)
| Ran (heartbeats : nat) (ending : result unit AnyError).

(** [sequence += 1; snapshot.sent_heartbeats = sequence], once per heartbeat. *)
Definition send_heartbeats (n : nat) (s : ClientSnapshot.t) : ClientSnapshot.t :=
  ClientSnapshot.mk (ClientSnapshot.session_id s) (ClientSnapshot.connected s)
    (ClientSnapshot.attempts s) (ClientSnapshot.sent_heartbeats s + Z.of_nat n)
    (ClientSnapshot.last_error s) (ClientSnapshot.active_transport s)
    (ClientSnapshot.freshness s) (ClientSnapshot.last_failover_reason s)
    (ClientSnapshot.event_counters s).

(** One [connect_and_pump_*] over the given transport. *)
Definition pump (transport : TunnelActiveTransport.t) (preserve : bool) (o : PumpOutcome)
    (s : ClientSnapshot.t) : result unit AnyError * ClientSnapshot.t :=
  match o with
  | NeverConnected error => (Err error, s)
  | Ran n ending => (ending, send_heartbeats n (mark_snapshot_connected s transport preserve))
  end.

(** [connect_and_pump]; [quic], [tls] and [tcp] say how each transport would go
    if it is tried. *)
Definition connect_and_pump (config : ReverseTunnelClientConfig) (quic tls tcp : PumpOutcome)
    (s : ClientSnapshot.t) : result unit AnyError * ClientSnapshot.t :=
  match cfg_transport config with
  | TransportQuic _ _ _ => pump TunnelActiveTransport.Quic false quic s
  | TransportHybrid _ _ _ =>
      if cfg_quic_enabled config then
        match pump TunnelActiveTransport.Quic false quic s with
        | (Ok u, s') => (Ok u, s')
        | (Err error, s') =>
            pump TunnelActiveTransport.TlsTcp true tls (record_quic_failover s' error)
        end
      else pump TunnelActiveTransport.TlsTcp true tls s
  | TransportTcp => pump TunnelActiveTransport.Tcp false tcp s
  end.

(** ** Client: the loop *)

Definition set_disconnected (f : TunnelFreshness.t) (s : ClientSnapshot.t) : ClientSnapshot.t :=
  ClientSnapshot.mk (ClientSnapshot.session_id s) false (ClientSnapshot.attempts s)
    (ClientSnapshot.sent_heartbeats s) (ClientSnapshot.last_error s) None f
    (ClientSnapshot.last_failover_reason s) (ClientSnapshot.event_counters s).

Definition set_counters (c : TunnelEventCounters.t) (s : ClientSnapshot.t) : ClientSnapshot.t :=
  ClientSnapshot.mk (ClientSnapshot.session_id s) (ClientSnapshot.connected s)
    (ClientSnapshot.attempts s) (ClientSnapshot.sent_heartbeats s)
    (ClientSnapshot.last_error s) (ClientSnapshot.active_transport s)
    (ClientSnapshot.freshness s) (ClientSnapshot.last_failover_reason s) c.

Definition set_error (e : option string) (s : ClientSnapshot.t) : ClientSnapshot.t :=
  ClientSnapshot.mk (ClientSnapshot.session_id s) (ClientSnapshot.connected s)
    (ClientSnapshot.attempts s) (ClientSnapshot.sent_heartbeats s) e
    (ClientSnapshot.active_transport s) (ClientSnapshot.freshness s)
    (ClientSnapshot.last_failover_reason s) (ClientSnapshot.event_counters s).

(** The top of an attempt. *)
Definition begin_attempt (s : ClientSnapshot.t) : ClientSnapshot.t :=
  let s := set_disconnected TunnelFreshness.Unknown s in
  set_counters (TunnelEventCounters.begin_attempt (ClientSnapshot.event_counters s))
    (ClientSnapshot.mk (ClientSnapshot.session_id s) (ClientSnapshot.connected s)
       (ClientSnapshot.attempts s + 1) (ClientSnapshot.sent_heartbeats s)
       (ClientSnapshot.last_error s) (ClientSnapshot.active_transport s)
       (ClientSnapshot.freshness s) (ClientSnapshot.last_failover_reason s)
       (ClientSnapshot.event_counters s)).

Definition record_end (reason : TunnelDisconnectReason.t) (s : ClientSnapshot.t)
    : ClientSnapshot.t :=
  if ClientSnapshot.connected s
  then set_counters (TunnelEventCounters.record_disconnect reason
                       (ClientSnapshot.event_counters s)) s
  else s.

(** One iteration of [run_client_with_counters] past the shutdown test.  The
    last component is the sleep before the next iteration, [None] after a
    shutdown of the session. *)
Definition client_iteration (config : ReverseTunnelClientConfig) (quic tls tcp : PumpOutcome)
    (s : ClientSnapshot.t) (backoff : Z) : ClientSnapshot.t * Z * option Z :=
  match connect_and_pump config quic tls tcp (begin_attempt s) with
  | (Ok _, s1) =>
      (set_error None (set_disconnected TunnelFreshness.Stale
         (record_end TunnelDisconnectReason.Shutdown s1)),
       cfg_reconnect_floor config, None)
  | (Err error, s1) =>
      let slept := if ClientSnapshot.connected s1 then cfg_reconnect_floor config else backoff in
      (set_error (Some (alternate error)) (set_disconnected TunnelFreshness.Stale
         (record_end (disconnect_reason error) s1)),
       next_backoff slept (cfg_reconnect_ceiling config), Some slept)
  end.

(** The loop over the attempts that are made before a shutdown. *)
Fixpoint run_client_attempts (config : ReverseTunnelClientConfig)
    (attempts : list (PumpOutcome * PumpOutcome * PumpOutcome))
    (s : ClientSnapshot.t) (backoff : Z) : ClientSnapshot.t * Z * list Z :=
  match attempts with
  | [] => (s, backoff, [])
  | (quic, tls, tcp) :: rest =>
      let '(s', backoff', slept) := client_iteration config quic tls tcp s backoff in
      let '(s'', backoff'', sleeps) := run_client_attempts config rest s' backoff' in
      (s'', backoff'', (option_list slept ++ sleeps)%list)
  end.

Definition run_client_with_counters (config : ReverseTunnelClientConfig) (session : Uuid)
    (counters : TunnelEventCounters.t)
    (attempts : list (PumpOutcome * PumpOutcome * PumpOutcome)) : ClientSnapshot.t * list Z :=
  let '(s, _, sleeps) := run_client_attempts config attempts
    (ClientSnapshot.with_event_counters session counters) (cfg_reconnect_floor config) in
  (set_disconnected TunnelFreshness.Stale s, sleeps).

(** ** Server handlers: theorems *)

(** The credential a first frame carries. *)
Definition frame_token (f : ClientFrame) : option string :=
  match f with
  | Hello h => Some (TunnelHello.auth_token h)
  | ProxyStream _ _ _ token | ProxyReserve _ _ token => Some token
  | Heartbeat _ => None
  end.

Lemma ct_eq_true a b : ct_eq a b = true <-> a = b.
Proof.
  unfold ct_eq. rewrite bool_decide_eq_true. split; [apply bytes_inj|by intros ->].
Qed.

Definition fails_unchanged (w : World) (out : World * option (result unit HandlerError)) : Prop :=
  out.1 = w /\ exists e, out.2 = Some (Err e).

(** A connection whose first frame does not carry the server's token fails
    and leaves the whole server state untouched, over TCP and over QUIC,
    whatever it goes on to send. *)
Theorem unauthenticated_connection_changes_nothing auth_token w now first stream tx c authority
    script qscript :
  (forall f, first = Ok f -> frame_token f <> Some auth_token) ->
  fails_unchanged w (handle_server_connection auth_token w now
    (map_err Some first) stream tx authority script)
  /\ forall first', (forall f, first' = Ok f -> frame_token f <> Some auth_token) ->
     fails_unchanged w (handle_quic_control_stream auth_token w now first' c authority qscript).
Proof.
  assert (forall token, Some token <> Some auth_token -> ct_eq token auth_token = false) as Hct.
  { intros token Hne. apply not_true_is_false. rewrite ct_eq_true. congruence. }
  unfold fails_unchanged. intros H. split.
  - destruct first as [[h|hb|n s i token|n s token]|e]; simpl; try (by eauto);
      specialize (H _ eq_refl); simpl in H; rewrite (Hct _ H); simpl; eauto.
  - intros first' H'. destruct first' as [[h|hb|n s i token|n s token]|e]; simpl; try (by eauto).
    specialize (H' _ eq_refl). simpl in H'. rewrite (Hct _ H'). simpl. eauto.
Qed.

(** After a disconnect by an authority it is not in charge. *)
Lemma mark_disconnected_in_charge w hello a :
  in_charge (mark_disconnected w hello a) (TunnelHello.node_id hello)
    (TunnelHello.session_id hello) a = false.
Proof. apply (drop_inactive_down w). Qed.

Lemma tcp_session_releases script w hello a w' r :
  tcp_session w hello a script = (w', Some r) ->
  in_charge w' (TunnelHello.node_id hello) (TunnelHello.session_id hello) a = false.
Proof.
  revert w. induction script as [|[others ev] script IH]; intros w; simpl; [done|].
  destruct (tcp_session_turn (others w) a ev) as [w1 [r1|]]; [|apply IH].
  intros [= <- <-]. apply mark_disconnected_in_charge.
Qed.

(** C33: However a TCP session ends, its authority is no longer in charge of the
    node when the handler returns, whatever other tasks did during the
    session. *)
Theorem tcp_handler_releases_authority auth_token w now hello stream tx a script w' r :
  TunnelHello.auth_token hello = auth_token ->
  handle_server_connection auth_token w now (Ok (Hello hello)) stream tx a script
    = (w', Some r) ->
  in_charge w' (TunnelHello.node_id hello) (TunnelHello.session_id hello) a = false.
Proof.
  intros Ht. simpl. rewrite (proj2 (ct_eq_true _ _) Ht). apply tcp_session_releases.
Qed.

Lemma quic_session_releases script w hello a w' r :
  quic_session w hello a script = (w', Some r) ->
  r = Err UnexpectedFrame
  \/ in_charge w' (TunnelHello.node_id hello) (TunnelHello.session_id hello) a = false.
Proof.
  revert w. induction script as [|[others [now frame]] script IH]; intros w; simpl; [done|].
  destruct frame as [[[h|hb|n s i token|n s token]|]|e]; try (intros [= <- <-]; by left);
    [apply IH| |]; intros [= <- <-]; right; apply mark_disconnected_in_charge.
Qed.

(** The QUIC handler returns on a repeated hello without disconnecting: the
    session it authenticated stays routable although nobody reads its
    heartbeats any more. *)
Theorem quic_handler_keeps_authority hello c a now :
  let w := mk_world default_server no_peers in
  let out := handle_quic_control_stream (TunnelHello.auth_token hello) w now
               (Ok (Hello hello)) c a [(id, (now, Ok (Some (Hello hello))))] in
  out.2 = Some (Err UnexpectedFrame)
  /\ routable out.1 now (ActiveSessionTarget.mk (TunnelHello.node_id hello)
       (TunnelHello.session_id hello) a) = true.
Proof.
  simpl. rewrite (proj2 (ct_eq_true _ _) eq_refl). simpl. split; [done|].
  set (w := mk_world default_server no_peers).
  change (id _) with (mark_connected w now a hello (AuthQuic c)).
  assert (peers (mark_connected w now a hello (AuthQuic c)) = no_peers) as Hp by done.
  destruct (replace_lookup w now a (TunnelHello.node_id hello)
    (TunnelHello.session_id hello) (AuthQuic c)) as ((x & Hs & Hx & Hconn) & Hl & Hc & _ & _ & _ & Ht).
  fold (mark_connected w now a hello (AuthQuic c)) in *. injection Hx as _ Hx.
  set (w' := mark_connected _ _ _ _ _) in *.
  unfold routable, target_fresh, session_current, session_is_fresh, quic_active, connection_open.
  cbn [ActiveSessionTarget.node_id ActiveSessionTarget.session_id ActiveSessionTarget.authority_id].
  rewrite Hs, Hl, Hc, Ht, Hp, !lookup_insert_eq. simpl. rewrite Hconn, Hx. unfold bound_for. simpl.
  rewrite !bool_decide_true by done. simpl.
  unfold saturating_duration_since. by rewrite Z.sub_diag.
Qed.

(** ** Forwarding: theorem *)

(** A target is served over QUIC by the open connection of its own authority. *)
Definition serves (w : World) (t : ActiveSessionTarget.t) (c : Connection) : Prop :=
  exists b, connections (server w) !! ActiveSessionTarget.node_id t = Some b
    /\ bound_for (ActiveSessionTarget.session_id t) (ActiveSessionTarget.authority_id t) b = true
    /\ SessionBound.value b = c /\ connection_open w c = true.

Lemma active_connection_routable w now t :
  routable w now t = true ->
  match (active_connection_for_target w now t).1 with
  | Some c => serves w t c
  | None => tcp_active w (ActiveSessionTarget.node_id t) (ActiveSessionTarget.session_id t)
              (ActiveSessionTarget.authority_id t) = true
  end.
Proof.
  intros [[Hc Hf]%andb_true_iff Ha]%andb_true_iff.
  unfold active_connection_for_target. cbn [fst]. rewrite Hc, Hf. simpl.
  destruct (option_filter _ _) as [b|] eqn:Hb; simpl.
  - apply option_filter_Some in Hb as [Hb [Hids Hopen]%andb_true_iff]. by exists b.
  - apply orb_true_iff in Ha as [Hq|]; [|done]. exfalso. unfold quic_active in Hq.
    destruct (connections _ !! _); simpl in *; [|done]. by rewrite Hq in Hb.
Qed.

(** The target a request is entitled to. *)
Definition entitled (w : World) (now : Z) (wanted : option string)
    (t : ActiveSessionTarget.t) : Prop :=
  routable w now t = true /\ wanted_node wanted (ActiveSessionTarget.node_id t)
  /\ (wanted = None -> unambiguous w now t).

(** The target's session is the node's, under the target's authority, and was
    heard of within the heartbeat timeout. *)
Definition alive (w : World) (now : Z) (t : ActiveSessionTarget.t) : bool :=
  session_current (server w) (ActiveSessionTarget.node_id t) (ActiveSessionTarget.session_id t)
  && target_fresh w now t.

Lemma active_connection_spec w now t :
  match (active_connection_for_target w now t).1 with
  | Some c => alive w now t = true /\ serves w t c
  | None => alive w now t = true -> forall c, ~ serves w t c
  end.
Proof.
  unfold active_connection_for_target. cbn [fst]. fold (alive w now t).
  destruct (alive w now t); simpl; [|done].
  destruct (option_filter _ _) as [b|] eqn:Hb; simpl.
  - apply option_filter_Some in Hb as [Hb [Hids Hopen]%andb_true_iff]. split; [done|]. by exists b.
  - intros _ c (b & Hc & Hids & <- & Hopen). rewrite Hc in Hb. simpl in Hb.
    by rewrite Hids, Hopen in Hb.
Qed.

(** C4: A public client is rejected, with a reply in the protocol it speaks,
    exactly when no target is entitled to it at the moment of the selection.
    Otherwise it is bound to the target that is, whatever other tasks do before
    the connection is looked up and however late that is: it goes over an open
    QUIC connection of that very authority if the authority is then still alive
    and has one, and else to the authority's TCP channel, which is open if the
    target is still routable; if it is not alive any more no channel is given
    out for it. *)
Theorem forward_client_routes timeout i w now others now' wanted protocol first_byte stream_id :
  reachable timeout (i, w) ->
  let '(forward, _) := forward_client w now others now' wanted protocol first_byte stream_id in
  let v := others (select_active_target w now wanted).2 in
  match forward with
  | Rejected response =>
      (forall t, ~ entitled w now wanted t)
      /\ response = reject_unavailable (resolve_proxy_protocol first_byte protocol)
  | OverQuic c frame =>
      exists t, entitled w now wanted t /\ alive v now' t = true /\ serves v t c
        /\ frame = OpenProxy stream_id protocol
  | OverTcp t p =>
      entitled w now wanted t /\ p = protocol
      /\ (alive v now' t = true -> forall c, ~ serves v t c)
      /\ (routable v now' t = true ->
          tcp_active v (ActiveSessionTarget.node_id t) (ActiveSessionTarget.session_id t)
            (ActiveSessionTarget.authority_id t) = true)
      /\ (alive v now' t = false -> (select_tcp_control_for_target v now' t).1 = None)
  end.
Proof.
  intros Hreach. pose proof (reachable_inv _ _ Hreach) as Hinv. simpl in Hinv.
  pose proof (select_in_order_spec w now wanted (session_values (server w))) as Hsel.
  unfold forward_client. unfold select_active_target in *.
  destruct (select_in_order _ _ _ _) as [[t|] w'] eqn:Hs; cbn [fst snd] in *.
  - specialize (Hsel t (inv_keyed _ _ Hinv) ltac:(done)).
    pose proof (proj1 Hsel eq_refl) as Hent.
    pose proof (active_connection_spec (others w') now' t) as Hact.
    pose proof (active_connection_routable (others w') now' t) as Hr.
    destruct (active_connection_for_target (others w') now' t) as [[c|] w''];
      cbn [fst] in Hact, Hr |- *; [exists t; by destruct Hact|].
    split_and!; try done. intros Ha. unfold select_tcp_control_for_target. cbn [fst].
    unfold alive in Ha. by rewrite Ha.
  - split; [|done]. intros t Hent.
    specialize (Hsel t (inv_keyed _ _ Hinv) ltac:(done)). apply Hsel in Hent. done.
Qed.

(** ** The client loop: theorems *)

(** Successive failures without a session double the pause from the floor up
    to the ceiling: the k-th pause is [min (floor * 2^k) ceiling]. *)
Theorem backoff_doubles_to_ceiling config session counters errors :
  let failed e := (NeverConnected e, NeverConnected e, NeverConnected e) in
  cfg_reconnect_floor config <= cfg_reconnect_ceiling config ->
  0 <= cfg_reconnect_floor config ->
  (run_client_with_counters config session counters (failed <$> errors)).2
  = (fun k => Z.min (cfg_reconnect_floor config * 2 ^ Z.of_nat k)
                (cfg_reconnect_ceiling config)) <$> seq 0 (List.length errors).
Proof.
  intros failed Hle Hpos.
  assert (forall k s, let b := Z.min (cfg_reconnect_floor config * 2 ^ Z.of_nat k)
                        (cfg_reconnect_ceiling config) in
    (run_client_attempts config (failed <$> errors) s b).2
    = (fun k => Z.min (cfg_reconnect_floor config * 2 ^ Z.of_nat k)
                  (cfg_reconnect_ceiling config)) <$> seq k (List.length errors)) as H.
  { induction errors as [|e errors IH]; intros k s b; [done|].
    rewrite fmap_cons. cbn [run_client_attempts List.length seq failed].
    assert (client_iteration config (NeverConnected e) (NeverConnected e) (NeverConnected e) s b
      = ((client_iteration config (NeverConnected e) (NeverConnected e) (NeverConnected e) s b).1.1,
         Z.min (cfg_reconnect_floor config * 2 ^ Z.of_nat (S k)) (cfg_reconnect_ceiling config),
         Some b)) as ->.
    { rewrite Nat2Z.inj_succ, Z.pow_succ_r by lia.
      unfold client_iteration, connect_and_pump, b.
      assert (next_backoff (Z.min (cfg_reconnect_floor config * 2 ^ Z.of_nat k)
                (cfg_reconnect_ceiling config)) (cfg_reconnect_ceiling config)
        = Z.min (cfg_reconnect_floor config * (2 * 2 ^ Z.of_nat k))
            (cfg_reconnect_ceiling config)) as Hn.
      { unfold next_backoff. nia. }
      destruct (cfg_transport config), (cfg_quic_enabled config); simpl; by rewrite Hn. }
    specialize (IH (S k) (client_iteration config (NeverConnected e) (NeverConnected e)
      (NeverConnected e) s b).1.1). cbv zeta in IH.
    destruct (run_client_attempts _ _ _ _) as [[s2 b2] sleeps]. cbn [snd] in *.
    by rewrite IH, fmap_cons. }
  unfold run_client_with_counters.
  specialize (H 0%nat (ClientSnapshot.with_event_counters session counters)). simpl in H.
  rewrite Z.mul_1_r, Z.min_l in H by lia.
  destruct (run_client_attempts _ _ _ _) as [[s2 b2] sleeps]. exact H.
Qed.

(** The client never shows a connected session without its transport. *)
Definition snapshot_consistent (s : ClientSnapshot.t) : Prop :=
  ClientSnapshot.connected s = is_some (ClientSnapshot.active_transport s)
  /\ (ClientSnapshot.connected s = true <-> ClientSnapshot.freshness s = TunnelFreshness.Fresh).














(** The transport an attempt ended on. *)
Definition last_outcome (config : ReverseTunnelClientConfig) (quic tls tcp : PumpOutcome)
    : PumpOutcome :=
  match cfg_transport config with
  | TransportTcp => tcp
  | TransportQuic _ _ _ => quic
  | TransportHybrid _ _ _ =>
      if cfg_quic_enabled config
      then match quic with Ran _ (Ok _) => quic | _ => tls end
      else tls
  end.

(** The pause after an attempt depends on the transport it ended on: the
    floor after a session on it broke, the grown back-off when it never
    connected, none after a shutdown.  In particular a hybrid client whose QUIC
    session broke and whose TLS fallback failed keeps its grown back-off and
    accounts for no disconnection. *)
Theorem pause_after_attempt config quic tls tcp s b :
  (client_iteration config quic tls tcp s b).2
  = match last_outcome config quic tls tcp with
    | Ran _ (Ok _) => None
    | Ran _ (Err _) => Some (cfg_reconnect_floor config)
    | NeverConnected _ => Some b
    end
  /\ (cfg_quic_enabled config = true -> is_quic_first (cfg_transport config) = true ->
      forall k e e', quic = Ran k (Err e) -> tls = NeverConnected e' ->
      match cfg_transport config with
      | TransportHybrid _ _ _ =>
          (client_iteration config quic tls tcp s b).2 = Some b
          /\ TunnelEventCounters.disconnect_counts (ClientSnapshot.event_counters
               (client_iteration config quic tls tcp s b).1.1)
             = TunnelEventCounters.disconnect_counts (ClientSnapshot.event_counters s)
      | _ => (client_iteration config quic tls tcp s b).2 = Some (cfg_reconnect_floor config)
      end).
Proof.
  split.
  - unfold client_iteration, connect_and_pump, last_outcome.
    destruct (cfg_transport config), (cfg_quic_enabled config),
      quic as [?|? [|]], tls as [?|? [|]], tcp as [?|? [|]]; reflexivity.
  - intros Hq Hf k e e' -> ->. unfold client_iteration, connect_and_pump. rewrite Hq.
    destruct (cfg_transport config); [done|done|].
    simpl. split; [done|]. unfold TunnelEventCounters.record_failover,
      TunnelEventCounters.record_connection. simpl. reflexivity.
Qed.

(** ** Concrete sessions *)

Module DemoSession.
Definition hello : TunnelHello.t := TunnelHello.mk "phone" 1%N 1 "token".

Lemma unauthenticated_connection_changes_nothing_witness :
  fails_unchanged DemoRun.connected.2
    (handle_server_connection "secret" DemoRun.connected.2 5 (Ok (Hello hello)) 1%N 2%N 9%N []).
Proof.
  apply (unauthenticated_connection_changes_nothing "secret" DemoRun.connected.2 5
           (Ok (Hello hello)) 1%N 2%N 3%N 9%N [] []).
  intros f [= <-]. done.
Defined.

Lemma tcp_handler_releases_authority_witness :
  in_charge (handle_server_connection "token" DemoRun.connected.2 5 (Ok (Hello hello)) 1%N 2%N
               9%N [(id, Incoming 6 (Ok None))]).1 "phone" 1%N 9%N = false.
Proof.
  apply (tcp_handler_releases_authority "token" DemoRun.connected.2 5 hello 1%N 2%N 9%N
           [(id, Incoming 6 (Ok None))] _ (Ok tt)); reflexivity.
Defined.

Definition lost (w : World) : World := mark_disconnected w hello 7%N.

(** A client whose target disconnects between the two sections. *)
Lemma forward_client_routes_witness :
  entitled DemoRun.connected.2 7 None DemoRun.target
  /\ (select_tcp_control_for_target (lost DemoRun.connected.2) 8 DemoRun.target).1 = None.
Proof.
  pose proof (forward_client_routes DemoRun.T DemoRun.connected.1 DemoRun.connected.2 7 lost 8 None
    Mixed (Some 5) 55%N DemoRun.connected_reachable) as H.
  assert ((forward_client DemoRun.connected.2 7 lost 8 None Mixed (Some 5) 55%N).1
    = OverTcp DemoRun.target Mixed) as Hf by (vm_compute; reflexivity).
  destruct (forward_client _ _ _ _ _ _ _ _) as [f w'] eqn:He. simpl in Hf. subst f.
  assert ((select_active_target DemoRun.connected.2 7 None).2 = DemoRun.connected.2) as Hw
    by (vm_compute; reflexivity).
  rewrite Hw in H. destruct H as (Hent & _ & _ & _ & Hnone). split; [exact Hent|].
  apply Hnone. vm_compute. reflexivity.
Defined.

Definition config : ReverseTunnelClientConfig :=
  let addr := mk_addr (V4 [127; 0; 0; 1]) 9000 in
  mk_client_config "phone" addr None addr None None true None "token" TransportTcp
    (secs 5) (secs 10) (secs 1) (secs 30).

Lemma backoff_doubles_to_ceiling_witness :
  (run_client_with_counters config 1%N TunnelEventCounters.default_counters
     ((fun e => (NeverConnected e, NeverConnected e, NeverConnected e))
        <$> replicate 6 (mk_error "connect timed out" []))).2
  = [secs 1; secs 2; secs 4; secs 8; secs 16; secs 30].
Proof.
  rewrite (backoff_doubles_to_ceiling config 1%N TunnelEventCounters.default_counters
             (replicate 6 (mk_error "connect timed out" []))); vm_compute; done.
Defined.

Lemma pause_after_attempt_witness :
  (client_iteration config (Ran 3 (Err (mk_error "QUIC connection closed" [])))
     (NeverConnected (mk_error "TLS/TCP connect timed out" []))
     (Ran 2 (Err (mk_error "server closed reverse tunnel" [])))
     (ClientSnapshot.with_event_counters 1%N TunnelEventCounters.default_counters) (secs 8)).2
  = Some (secs 1).
Proof.
  rewrite (proj1 (pause_after_attempt config _ _ _ _ _)). reflexivity.
Defined.
End DemoSession.
