(* ===== verification/TunnelClient.v ===== *)
(** * Reverse tunnel: the phone's side in detail

    The session loops, data streams and reserved streams of the phone,
    [crates/reverse-tunnel/src/tunnel.rs].  A session is driven by the events its
    [select!] loop observes; connecting, TLS and sockets answer with results. *)

From stdpp Require Import base list strings sets.
From Stdlib Require Import ZArith Lia Ascii String.
From S2P Require Import Prelude Text Foundation TunnelModel TunnelState TunnelWire Tunnel.
Local Open Scope string_scope.
Local Open Scope Z_scope.
Local Open Scope rust_scope.

Definition TCP_DATA_STREAM_CONNECT_TIMEOUT_FLOOR : Z := secs 4.

(** ** The session loop *)

(** What the loop observes.  A heartbeat carries the failure of its write, if any. *)
Inductive ClientEvent :=
| ShutdownSignalled
| FromServer (line : result (option (list Z)) LineError)
| HeartbeatDue (failure : option AnyError)
| QuicClosed (reason : string).

Definition plain_error (message : string) : AnyError := mk_error message [].

Definition line_error (e : LineError) : AnyError :=
  match e with
  | LineTooLong => plain_error "line length limit exceeded"
  | LineInvalidUtf8 => plain_error "invalid utf8 sequence"
  end.

(** A running session: its snapshot, the frames it wrote and the data streams it started. *)
Record ClientSession := mk_client_session {
  cs_snapshot : ClientSnapshot.t;
  cs_written : list ClientFrame;
  cs_started : list (Uuid * ProxyProtocol);
}.

(** [serde_json]'s text for a line that is no frame. *)
Class DecodeMessage := decode_message : list Z -> string.

Section Sessions.
Context `{!FrameCodec ServerFrame} `{!DecodeMessage}.

Definition decode_error (t : TunnelActiveTransport.t) (line : list Z) : AnyError :=
  match t with
  | TunnelActiveTransport.Tcp =>
      mk_error "failed to decode TCP reverse tunnel server frame" [decode_message line]
  | _ => plain_error (decode_message line)
  end.

Definition closed_message (t : TunnelActiveTransport.t) : string :=
  match t with
  | TunnelActiveTransport.TlsTcp => "TLS/TCP server closed reverse tunnel"
  | _ => "server closed reverse tunnel"
  end.

Definition keepalive_message (t : TunnelActiveTransport.t) : string :=
  match t with
  | TunnelActiveTransport.TlsTcp => "reserve keepalive received on TLS/TCP control channel"
  | _ => "reserve keepalive received on TCP control channel"
  end.

(** One turn of the loop of [connect_and_pump_tcp], [connect_and_pump_tls_tcp] and
    [connect_and_pump_quic].  Over QUIC the lines of the control stream are read and
    dropped; only QUIC observes the end of its connection. *)
Definition client_turn (t : TunnelActiveTransport.t) (config : ReverseTunnelClientConfig)
    (session : Uuid) (c : ClientSession) (ev : ClientEvent)
    : ClientSession * option (result unit AnyError) :=
  match ev with
  | ShutdownSignalled => (c, Some (Ok tt))
  | QuicClosed reason =>
      match t with
      | TunnelActiveTransport.Quic =>
          (c, Some (Err (plain_error ("QUIC connection closed: " ++ reason))))
      | _ => (c, None)
      end
  | FromServer (Err e) => (c, Some (Err (line_error e)))
  | FromServer (Ok None) => (c, Some (Err (plain_error (closed_message t))))
  | FromServer (Ok (Some line)) =>
      match t with
      | TunnelActiveTransport.Quic => (c, None)
      | _ =>
          match from_slice line with
          | None => (c, Some (Err (decode_error t line)))
          | Some (OpenProxy stream_id protocol) =>
              (mk_client_session (cs_snapshot c) (cs_written c)
                 (cs_started c ++ [(stream_id, protocol)])%list, None)
          | Some ReserveKeepalive => (c, Some (Err (plain_error (keepalive_message t))))
          end
      end
  | HeartbeatDue failure =>
      let sequence := ClientSnapshot.sent_heartbeats (cs_snapshot c) + 1 in
      match failure with
      | Some error => (c, Some (Err error))
      | None =>
          (mk_client_session (send_heartbeats 1 (cs_snapshot c))
             (cs_written c ++ [Heartbeat (TunnelHeartbeat.mk (cfg_node_id config) session sequence)])%list
             (cs_started c), None)
      end
  end.

Fixpoint client_session (t : TunnelActiveTransport.t) (config : ReverseTunnelClientConfig)
    (session : Uuid) (c : ClientSession) (events : list ClientEvent)
    : ClientSession * option (result unit AnyError) :=
  match events with
  | [] => (c, None)
  | ev :: rest =>
      match client_turn t config session c ev with
      | (c, None) => client_session t config session c rest
      | (c, Some r) => (c, Some r)
      end
  end.

Definition hello_of (config : ReverseTunnelClientConfig) (session : Uuid) : ClientFrame :=
  Hello (TunnelHello.mk (cfg_node_id config) session 1 (cfg_auth_token config)).

(** A whole session: [opened] is the outcome of connecting and writing the hello. *)
Definition connect_and_run (t : TunnelActiveTransport.t) (preserve : bool)
    (config : ReverseTunnelClientConfig) (session : Uuid) (opened : result unit AnyError)
    (events : list ClientEvent) (s : ClientSnapshot.t)
    : ClientSession * option (result unit AnyError) :=
  match opened with
  | Err error => (mk_client_session s [] [], Some (Err error))
  | Ok _ =>
      client_session t config session
        (mk_client_session (mark_snapshot_connected s t preserve) [hello_of config session] []) events
  end.
End Sessions.

(** ** Where data streams go *)

(** [tls_tcp_connect_with_timeout]: the relay's address for TCP. *)
Definition tls_target (config : ReverseTunnelClientConfig) : SocketAddr :=
  default (cfg_server_addr config) (cfg_tcp_fallback_addr config).

Definition tls_tcp_name (config : ReverseTunnelClientConfig) : result string string :=
  match cfg_transport config with
  | TransportHybrid server_name _ _ => Ok server_name
  | _ => Err "TLS/TCP fallback requires hybrid transport"
  end.

(** [connect_transport_tcp]: the address that is dialled first; with a transport
    proxy the target is asked of the proxy. *)
Definition connect_transport_tcp (config : ReverseTunnelClientConfig) (target : SocketAddr)
    (stream : list Z) : SocketAddr * list (list Z) * result (list Z) Socks5Error :=
  match cfg_transport_socks5 config with
  | None => (target, [], Ok stream)
  | Some proxy =>
      let '(writes, r) := socks5_connect target (socks5_username proxy) (socks5_password proxy) stream in
      (socks5_server_addr proxy, writes, r)
  end.

(** A data stream that was opened: the relay, the time allowed, the first frame and
    the proxy on the phone it is joined to. *)
Record DataStream := mk_data_stream {
  ds_relay : SocketAddr;
  ds_encrypted : bool;
  ds_timeout : Z;
  ds_first : ClientFrame;
  ds_local : SocketAddr;
}.

Definition is_hybrid (config : ReverseTunnelClientConfig) : bool :=
  match cfg_transport config with TransportHybrid _ _ _ => true | _ => false end.

(** [open_tcp_client_proxy_stream]: what is opened when both connections succeed; the
    bytes between them are copied in both directions. *)
Definition open_tcp_client_proxy_stream (config : ReverseTunnelClientConfig) (session stream_id : Uuid)
    (protocol : ProxyProtocol) : DataStream :=
  let first := ProxyStream (cfg_node_id config) session stream_id (cfg_auth_token config) in
  let local := local_proxy_addr_for config protocol in
  if is_hybrid config
  then mk_data_stream (tls_target config) true
         (Z.max (cfg_connect_timeout config) TCP_DATA_STREAM_CONNECT_TIMEOUT_FLOOR) first local
  else mk_data_stream (cfg_server_addr config) false (cfg_connect_timeout config) first local.

(** ** Copying *)

(** [pump_with_flush]: what [read] returns until the end or an error, and how many
    writes succeed; the bytes written and the count. *)
Fixpoint pump_with_flush (reads : list (result (list Z) string)) (writes_ok : nat) (copied : Z)
    : list Z * result Z string :=
  match reads with
  | [] | Ok [] :: _ => ([], Ok copied)
  | Err e :: _ => ([], Err e)
  | Ok chunk :: rest =>
      match writes_ok with
      | O => ([], Err "write failed")
      | S writes_ok' =>
          let '(written, r) := pump_with_flush rest writes_ok' (copied + blen chunk) in
          (chunk ++ written, r)%list
      end
  end.

(** [pipe_tcp_and_quic]: both directions are copied until both have ended, the
    stream is finished and the socket shut down; the bytes that went each way.
    The first error ends both. *)
Definition pipe_tcp_and_quic (tcp_reads quic_reads : list (result (list Z) string))
    (quic_writes tcp_writes : nat) (tcp_shutdown : bool) : result (list Z * list Z) AnyError :=
  let failed (cause : string) := mk_error "reverse tunnel byte stream copy failed" [cause] in
  match pump_with_flush tcp_reads quic_writes 0, pump_with_flush quic_reads tcp_writes 0 with
  | (to_quic, Ok _), (to_tcp, Ok _) =>
      if tcp_shutdown then Ok (to_quic, to_tcp) else Err (failed "shutdown failed")
  | (_, Err e), _ | _, (_, Err e) => Err (failed e)
  end.

(** [tokio::io::copy_bidirectional], on what reading from either side gives, an empty
    buffer for its end: the bytes written to the second and to the first, and the
    counts or the error that ended it. *)
Class CopyBidirectional :=
  copy_bidirectional : list (list Z) -> list (list Z) -> list Z * list Z * result (Z * Z) string.

(** What a side sends before its end. *)
Fixpoint until_end (bufs : list (list Z)) : list Z :=
  match bufs with
  | [] | [] :: _ => []
  | buf :: more => (buf ++ until_end more)%list
  end.

(** It is documented to write what is read from one side to the other, in order, and
    to end well when both sides have ended and all has been written. *)
Class CopyBidirectionalLaws `{CopyBidirectional} := {
  copy_in_order a b : let '(to_b, to_a, _) := copy_bidirectional a b in
    to_b `prefix_of` until_end a /\ to_a `prefix_of` until_end b;
  copy_to_the_end a b to_b to_a n m : copy_bidirectional a b = (to_b, to_a, Ok (n, m)) ->
    n = blen to_b /\ m = blen to_a /\ blen to_b = blen (until_end a) /\ blen to_a = blen (until_end b);
}.

(** ** Streams that wait in reserve *)

Inductive StreamError :=
| StreamFrame (e : FrameError)
| KeepaliveOnProxyStream
| LocalConnectFailed.

Section Streams.
Context `{!FrameCodec ServerFrame}.

Definition reserve_frame (config : ReverseTunnelClientConfig) (session : Uuid) : ClientFrame :=
  ProxyReserve (cfg_node_id config) session (cfg_auth_token config).

(** No whole line has arrived, the line is not yet one that [read_optional_line]
    refuses, and the stream has not ended: the read is still pending. *)
Fixpoint awaits_more (bufs : list (list Z)) (total : Z) : bool :=
  match bufs with
  | [] => true
  | [] :: _ => false
  | buf :: more =>
      let '(chunk, _, found) := scan_line buf in
      if MAX_LINE_LENGTH <? total + blen chunk then false
      else if valid_utf8 chunk then
        if found then false else awaits_more more (total + blen chunk)
      else false
  end.

Inductive Activation :=
| NotYet
| Refused (e : FrameError)
| Activated (protocol : ProxyProtocol) (bufs : list (list Z)).

(** The loop of [open_tcp_reserved_stream] on the buffers that have arrived, where
    the end of the stream is an empty one: keepalives are skipped.  The fuel is one
    more than the bytes that have arrived. *)
Fixpoint await_activation (fuel : nat) (bufs : list (list Z)) : option Activation :=
  match fuel with
  | O => None
  | S fuel' =>
      if awaits_more bufs 0 then Some NotYet
      else match read_required_frame (F := ServerFrame) bufs with
           | (Err e, _) => Some (Refused e)
           | (Ok (OpenProxy _ protocol), bufs) => Some (Activated protocol bufs)
           | (Ok ReserveKeepalive, bufs) => await_activation fuel' bufs
           end
  end.

(** What has become of a reserved stream: it waits, it has ended, or the reader with
    all it holds is joined to the proxy on the phone. *)
Inductive ReservedStream :=
| StillWaiting
| StreamEnded (e : StreamError)
| Joined (local : SocketAddr) (reader : list (list Z)).

(** The stream once the reserve frame is written, when [bufs] have arrived. *)
Definition open_tcp_reserved_stream (config : ReverseTunnelClientConfig) (local_ok : bool)
    (bufs : list (list Z)) : option ReservedStream :=
  match await_activation (S (List.length (List.concat bufs))) bufs with
  | None => None
  | Some NotYet => Some StillWaiting
  | Some (Refused e) => Some (StreamEnded (StreamFrame e))
  | Some (Activated protocol bufs) =>
      if local_ok then Some (Joined (local_proxy_addr_for config protocol) bufs)
      else Some (StreamEnded LocalConnectFailed)
  end.

(** The task a joined stream spawns: the buffered reader and the proxy's socket are
    copied to each other; the bytes written to the proxy and to the relay. *)
Definition join_local `{!CopyBidirectional} (reader local : list (list Z))
    : list Z * list Z * result (Z * Z) string :=
  copy_bidirectional reader local.

(** [handle_client_proxy_stream] over QUIC. *)
Definition handle_client_proxy_stream (config : ReverseTunnelClientConfig) (local_ok : bool)
    (bufs : list (list Z)) : result (SocketAddr * list (list Z)) StreamError :=
  match read_required_frame (F := ServerFrame) bufs with
  | (Err e, _) => Err (StreamFrame e)
  | (Ok ReserveKeepalive, _) => Err KeepaliveOnProxyStream
  | (Ok (OpenProxy _ protocol), bufs) =>
      if local_ok then Ok (local_proxy_addr_for config protocol, bufs) else Err LocalConnectFailed
  end.
End Streams.

(** What a worker observes in one round: it was told to stop before the round, during
    the stream or during the pause after it, or the round ran to its end. *)
Inductive WorkerRound := StopBefore | StopDuring | StopPausing | RoundDone.

(** [run_tcp_reserved_stream_worker]: the streams it opened, and whether it ended. *)
Fixpoint run_tcp_reserved_stream_worker (rounds : list WorkerRound) : nat * bool :=
  match rounds with
  | [] => (O, false)
  | StopBefore :: _ => (O, true)
  | StopDuring :: _ | StopPausing :: _ => (1%nat, true)
  | RoundDone :: rest => let '(n, ended) := run_tcp_reserved_stream_worker rest in (S n, ended)
  end.
