(* ===== verification/TunnelClientTheorems.v ===== *)
(** * What the phone's side of the tunnel guarantees

    A detailed session is one outcome of the client loop of [Tunnel], so the theorems
    on counters and back-off hold for it; a request of the relay reaches the local
    proxy without losing a byte; and heartbeats need a silent control channel. *)

From stdpp Require Import base list strings sets.
From Stdlib Require Import ZArith Lia Ascii String.
From S2P Require Import Prelude Text Foundation TunnelModel TunnelState TunnelWire Tunnel TunnelClient.
Local Open Scope string_scope.
Local Open Scope Z_scope.

(** ** Sessions refine attempts *)

Section Sessions.
Context `{!FrameCodec ServerFrame} `{!DecodeMessage}.
Variables (t : TunnelActiveTransport.t) (config : ReverseTunnelClientConfig) (session : Uuid).

(** [n] heartbeats after sequence number [from]. *)
Definition heartbeats (from : Z) (n : nat) : list ClientFrame :=
  (fun i => Heartbeat (TunnelHeartbeat.mk (cfg_node_id config) session (from + Z.of_nat i + 1)))
    <$> seq 0 n.

(** The data streams a control channel asks for. *)
Definition requested (ev : ClientEvent) : option (Uuid * ProxyProtocol) :=
  match t, ev with
  | TunnelActiveTransport.Quic, _ => None
  | _, FromServer (Ok (Some line)) =>
      match from_slice line with Some (OpenProxy id protocol) => Some (id, protocol) | _ => None end
  | _, _ => None
  end.

Lemma requested_line ev : (forall line, ev <> FromServer line) -> requested ev = None.
Proof. intros Hne. unfold requested. destruct t, ev; try done; by destruct (Hne line). Qed.

Lemma send_heartbeats_S n s : send_heartbeats n (send_heartbeats 1 s) = send_heartbeats (S n) s.
Proof. unfold send_heartbeats. cbn -[Z.of_nat]. f_equal. lia. Qed.

Lemma send_heartbeats_0 s : send_heartbeats 0 s = s.
Proof. destruct s. unfold send_heartbeats. cbn. f_equal. lia. Qed.

Lemma heartbeats_S from n :
  heartbeats from (S n)
  = Heartbeat (TunnelHeartbeat.mk (cfg_node_id config) session (from + 1)) :: heartbeats (from + 1) n.
Proof.
  unfold heartbeats. cbn [seq fmap list_fmap]. f_equal; [do 2 f_equal; lia|].
  rewrite <- fmap_S_seq, <- list_fmap_compose. apply list_fmap_ext. intros i x _. cbn -[Z.of_nat].
  do 2 f_equal. lia.
Qed.

(** What the events of a session add up to. *)
Lemma client_session_spec c events c' r :
  client_session t config session c events = (c', r) ->
  exists n, cs_snapshot c' = send_heartbeats n (cs_snapshot c)
    /\ cs_written c' = (cs_written c ++ heartbeats (ClientSnapshot.sent_heartbeats (cs_snapshot c)) n)%list
    /\ (n <= List.length (List.filter (fun ev => match ev with HeartbeatDue _ => true | _ => false end) events))%nat
    /\ (r = None -> cs_started c' = (cs_started c ++ omap requested events)%list).
Proof.
  revert c. induction events as [|ev events IH]; intros c; cbn [client_session].
  { intros [= <- <-]. exists 0%nat. rewrite send_heartbeats_0. unfold heartbeats. cbn.
    rewrite !app_nil_r. split_and!; [done|done|lia|done]. }
  destruct (client_turn t config session c ev) as [c1 [r1|]] eqn:Hturn.
  - intros [= <- <-]. exists 0%nat. rewrite send_heartbeats_0. unfold heartbeats. cbn [seq fmap list_fmap].
    rewrite app_nil_r. assert (c1 = c) as ->; [|split_and!; [done|done|lia|done]].
    unfold client_turn in Hturn. repeat case_match; by injection Hturn.
  - intros (n & Hs & Hw & Hn & Hr)%IH. destruct ev as [|line|failure|reason]; cbn [client_turn] in Hturn.
    + done.
    + assert (cs_snapshot c1 = cs_snapshot c /\ cs_written c1 = cs_written c
        /\ cs_started c1 = (cs_started c ++ option_list (requested (FromServer line)))%list) as (Hc & Hcw & Hcs).
      { unfold requested. destruct line as [[line|]|]; try done.
        destruct t; [destruct (from_slice line) as [[]|]; try done; by injection Hturn as <-
                    |injection Hturn as <-; by rewrite app_nil_r
                    |destruct (from_slice line) as [[]|]; try done; by injection Hturn as <-]. }
      exists n. rewrite Hs, Hw, Hc, Hcw. split_and!; [done|done|done|]. intros Hnone. rewrite (Hr Hnone), Hcs.
      cbn [omap list_omap]. rewrite <- app_assoc. by destruct (requested (FromServer line)).
    + destruct failure; [done|]. injection Hturn as <-. cbn [cs_snapshot cs_written cs_started] in *.
      exists (S n). rewrite Hs, Hw, send_heartbeats_S, heartbeats_S, <- app_assoc.
      split_and!; [done|done|cbn; lia|]. intros Hnone. rewrite (Hr Hnone). cbn [omap list_omap].
      by rewrite requested_line.
    + exists n. assert (c1 = c) as -> by (destruct t; by injection Hturn).
      split_and!; [done|done|done|]. intros Hnone. rewrite (Hr Hnone). cbn [omap list_omap].
      by rewrite requested_line.
Qed.

(** A session of the phone is an outcome of an attempt: whatever the relay sends,
    in whatever order its lines, heartbeats and the end of the connection are
    observed, a session that ends does to the client's snapshot what [pump] does for
    some number of heartbeats and the same end; it has written its hello first and
    then one heartbeat after the other with consecutive numbers, and nothing at all
    when it did not connect. *)
Theorem session_refines_attempt preserve opened events s c r :
  connect_and_run t preserve config session opened events s = (c, Some r) ->
  exists o, pump t preserve o s = (r, cs_snapshot c)
    /\ match o with
       | NeverConnected error => opened = Err error /\ cs_written c = []
       | Ran n _ => opened = Ok tt
           /\ cs_written c = hello_of config session :: heartbeats (ClientSnapshot.sent_heartbeats s) n
       end.
Proof.
  unfold connect_and_run. destruct opened as [[]|error].
  - intros (n & Hs & Hw & _)%client_session_spec. exists (Ran n r). cbn [pump]. rewrite Hs, Hw.
    split; [reflexivity|]. split; reflexivity.
  - intros [= <- <-]. by exists (NeverConnected error).
Qed.
End Sessions.

(** ** Heartbeats *)

Definition is_heartbeat (ev : ClientEvent) : bool :=
  match ev with HeartbeatDue _ => true | _ => false end.

(** Events with their times, as the loop lets them happen: its deadline is set anew
    each time it is entered, so a heartbeat comes a full interval after the event
    before it. *)
Inductive timely (interval : Z) : Z -> list (Z * ClientEvent) -> Prop :=
| timely_nil entered : timely interval entered []
| timely_heartbeat entered at_ failure rest :
    entered + interval <= at_ -> timely interval at_ rest ->
    timely interval entered ((at_, HeartbeatDue failure) :: rest)
| timely_other entered at_ ev rest :
    is_heartbeat ev = false -> entered <= at_ -> timely interval at_ rest ->
    timely interval entered ((at_, ev) :: rest).

(** No event is a whole interval after the one before it. *)
Fixpoint busy (interval entered : Z) (events : list (Z * ClientEvent)) : Prop :=
  match events with
  | [] => True
  | (at_, _) :: rest => at_ < entered + interval /\ busy interval at_ rest
  end.

Lemma busy_no_heartbeat interval entered events :
  timely interval entered events -> busy interval entered events ->
  List.filter is_heartbeat (snd <$> events) = [].
Proof.
  induction 1 as [|entered at_ failure rest Hdue _ IH|entered at_ ev rest Hev _ _ IH]; cbn; [done|lia|].
  rewrite Hev. intros [_ Hb]. by apply IH.
Qed.

(** A busy control channel starves the heartbeats: while the relay asks for a data
    stream more often than once per heartbeat interval, the phone writes its hello
    and nothing else, for however long that lasts, and the relay, which only counts
    heartbeats, takes the session for dead. *)
Theorem busy_channel_starves_heartbeats `{!FrameCodec ServerFrame} `{!DecodeMessage} t preserve config
    session events s entered c r :
  timely (cfg_heartbeat_interval config) entered events ->
  busy (cfg_heartbeat_interval config) entered events ->
  connect_and_run t preserve config session (Ok tt) (snd <$> events) s = (c, r) ->
  cs_written c = [hello_of config session].
Proof.
  intros Ht Hb. unfold connect_and_run. intros (n & _ & Hw & Hn & _)%client_session_spec.
  fold is_heartbeat in Hn. rewrite (busy_no_heartbeat _ _ _ Ht Hb) in Hn. cbn in Hn.
  assert (n = 0%nat) as -> by lia. by rewrite Hw.
Qed.

(** ** Streams *)

Lemma scan_line_parts buf chunk rest found :
  scan_line buf = (chunk, rest, found) ->
  buf = (chunk ++ rest)%list /\ (buf <> [] -> chunk <> []) /\ (found = false -> rest = []).
Proof.
  revert chunk rest found. induction buf as [|b buf IH]; intros chunk rest found; cbn [scan_line].
  { by intros [= <- <- <-]. }
  destruct (b =? newline); [by intros [= <- <- <-]|].
  destruct (scan_line buf) as [[chunk' rest'] found'] eqn:Hs. intros [= <- <- <-].
  destruct (IH _ _ _ eq_refl) as (-> & _ & Hf). by split_and!.
Qed.

(** A line that was read was consumed. *)
Lemma read_line_consumes bufs line total l bufs' :
  0 <= total -> read_line_loop bufs line total = (Ok (Some l), bufs') ->
  (List.length (List.concat bufs') <= List.length (List.concat bufs))%nat
  /\ (total = 0 -> (List.length (List.concat bufs') < List.length (List.concat bufs))%nat).
Proof.
  revert line total. induction bufs as [|buf bufs IH]; intros line total Htotal; cbn [read_line_loop].
  { unfold end_of_stream. case_if; bools; [done|]. intros [= <- <-]. cbn. lia. }
  destruct buf as [|b buf].
  { unfold end_of_stream. case_if; bools; [done|]. intros [= <- <-]. cbn. lia. }
  destruct (scan_line (b :: buf)) as [[chunk rest] found] eqn:Hs.
  destruct (scan_line_parts _ _ _ _ Hs) as (Hparts & Hne & Hrest). specialize (Hne ltac:(done)).
  assert (1 <= List.length chunk)%nat as Hchunk by (destruct chunk; [done|cbn; lia]).
  cbn [List.concat]. rewrite length_app, Hparts, length_app.
  case_if; [done|]. case_if; [|done]. destruct found.
  - intros [= <- <-]. rewrite refill_concat, length_app. lia.
  - intros [Hle _]%IH; [|pose proof (blen_nonneg chunk); lia]. lia.
Qed.

Section Streams.
Context `{!FrameCodec ServerFrame}.

Lemma required_frame_consumes bufs f bufs' :
  read_required_frame (F := ServerFrame) bufs = (Ok f, bufs') ->
  (List.length (List.concat bufs') < List.length (List.concat bufs))%nat.
Proof.
  unfold read_required_frame, read_optional_frame, read_optional_line.
  destruct (read_line_loop bufs [] 0) as [[[line|]|e] bufs1] eqn:Hl; try done.
  apply read_line_consumes in Hl as [_ Hlt]; [|done]. destruct (from_slice line); [|done].
  intros [= <- <-]. by apply Hlt.
Qed.

(** The fuel of a waiting stream is enough. *)
Lemma await_activation_total fuel bufs :
  (List.length (List.concat bufs) < fuel)%nat -> is_Some (await_activation fuel bufs).
Proof.
  revert bufs. induction fuel as [|fuel IH]; intros bufs Hf; [lia|]. cbn [await_activation].
  destruct (awaits_more bufs 0); [done|].
  destruct (read_required_frame bufs) as [[[id protocol|]|e] bufs'] eqn:Hr; [done| |done].
  apply required_frame_consumes in Hr. apply IH. lia.
Qed.

Lemma scan_line_found buf : (scan_line buf).2 = bool_decide (newline ∈ buf).
Proof.
  induction buf as [|b buf IH]; cbn [scan_line]; [done|].
  destruct (Z.eqb_spec b newline) as [->|Hb]; [rewrite bool_decide_true by set_solver; done|].
  destruct (scan_line buf) as [[chunk rest] found]. simpl in *. subst found. apply bool_decide_ext. set_solver.
Qed.

(** A line that has arrived is read. *)
Lemma awaits_no_more bufs total :
  Forall (.≠ []) bufs -> newline ∈ List.concat bufs -> awaits_more bufs total = false.
Proof.
  intros Hne. revert total. induction Hne as [|buf bufs Hb _ IH]; intros total; cbn [List.concat awaits_more];
    [by rewrite elem_of_nil|].
  destruct buf as [|b buf]; [done|]. pose proof (scan_line_found (b :: buf)) as Hf.
  destruct (scan_line (b :: buf)) as [[chunk rest] found]. simpl in Hf. intros Hin.
  case_if; [done|]. destruct (valid_utf8 chunk); [|done]. destruct found; [done|]. apply IH.
  symmetry in Hf. apply bool_decide_eq_false in Hf. set_solver.
Qed.

Context `{!FrameCodecLaws ServerFrame}.

Lemma read_required_frame_spec bufs (f : ServerFrame) rest :
  Forall (.≠ []) bufs -> List.concat bufs = (write_frame f ++ rest)%list -> plain_frame f ->
  exists bufs', read_required_frame (F := ServerFrame) bufs = (Ok f, bufs')
    /\ List.concat bufs' = rest /\ Forall (.≠ []) bufs'.
Proof.
  intros Hne Hcat Hf. destruct (read_optional_frame_spec bufs f rest Hne Hcat Hf) as (bufs' & Hr & ?).
  exists bufs'. unfold read_required_frame. by rewrite Hr.
Qed.

Lemma newline_written (f : ServerFrame) rest : newline ∈ (write_frame f ++ rest)%list.
Proof. unfold write_frame. set_solver. Qed.

(** Keepalives change nothing but the reader. *)
Lemma await_keepalives k rest bufs fuel :
  plain_frame ReserveKeepalive -> Forall (.≠ []) bufs ->
  List.concat bufs = (List.concat (replicate k (write_frame ReserveKeepalive)) ++ rest)%list ->
  (k <= fuel)%nat ->
  exists bufs', await_activation fuel bufs = await_activation (fuel - k) bufs'
    /\ List.concat bufs' = rest /\ Forall (.≠ []) bufs'.
Proof.
  intros Hk. revert bufs fuel. induction k as [|k IH]; intros bufs fuel Hne Hcat Hfuel;
    cbn [replicate List.concat] in Hcat; [exists bufs; by rewrite Nat.sub_0_r|].
  destruct fuel as [|fuel]; [lia|]. rewrite <- app_assoc in Hcat. cbn [await_activation].
  rewrite awaits_no_more by (done || rewrite Hcat; apply newline_written).
  destruct (read_required_frame_spec bufs _ _ Hne Hcat Hk) as (bufs' & -> & Hcat' & Hne').
  apply IH; [done|done|lia].
Qed.

Lemma await_activation_spec id protocol payload bufs fuel :
  plain_frame (OpenProxy id protocol) -> Forall (.≠ []) bufs ->
  List.concat bufs = (write_frame (OpenProxy id protocol) ++ payload)%list ->
  exists bufs', await_activation (S fuel) bufs = Some (Activated protocol bufs')
    /\ List.concat bufs' = payload /\ Forall (.≠ []) bufs'.
Proof.
  intros Ho Hne Hcat. cbn [await_activation].
  rewrite awaits_no_more by (done || rewrite Hcat; apply newline_written).
  destruct (read_required_frame_spec bufs _ _ Hne Hcat Ho) as (bufs' & -> & ? & ?). eauto.
Qed.

(** There are no more keepalives than bytes. *)
Lemma keepalives_length k rest :
  (k <= List.length (List.concat (replicate k (write_frame ReserveKeepalive)) ++ rest)%list)%nat.
Proof.
  induction k as [|k IH]; cbn [replicate List.concat]; [lia|]. rewrite <- app_assoc, length_app.
  unfold write_frame at 1. rewrite length_app. cbn [List.length]. lia.
Qed.

(** What a side sends before it ends its stream. *)
Fixpoint sent (reads : list (result (list Z) string)) : list Z :=
  match reads with
  | Ok (b :: chunk) :: rest => (b :: chunk ++ sent rest)%list
  | _ => []
  end.

Lemma pump_exact reads writes copied out n :
  pump_with_flush reads writes copied = (out, Ok n) -> out = sent reads /\ n = copied + blen out.
Proof.
  revert writes copied out n. induction reads as [|[[|b chunk]|e] rest IH]; intros writes copied out n;
    cbn [pump_with_flush sent]; try (intros [= <- <-]; unfold blen; cbn; split; [done|lia]); [|done].
  destruct writes as [|writes]; [done|].
  destruct (pump_with_flush rest writes _) as [written [m|e]] eqn:Hp; [|done].
  apply IH in Hp as [-> ->]. intros [= <- <-]. split; [done|]. unfold blen.
  cbn [app List.length]. rewrite length_app. lia.
Qed.

(** A stream between the relay and the phone's proxy is copied exactly: when the
    pipe ends well, each side has received all that the other sent before it
    ended its stream, in order, and nothing else. *)
Theorem pipe_is_exact tcp_reads quic_reads quic_writes tcp_writes tcp_shutdown to_quic to_tcp :
  pipe_tcp_and_quic tcp_reads quic_reads quic_writes tcp_writes tcp_shutdown = Ok (to_quic, to_tcp) ->
  to_quic = sent tcp_reads /\ to_tcp = sent quic_reads /\ tcp_shutdown = true.
Proof.
  unfold pipe_tcp_and_quic.
  destruct (pump_with_flush tcp_reads quic_writes 0) as [out [n|e]] eqn:Ho; [|done].
  destruct (pump_with_flush quic_reads tcp_writes 0) as [back [m|e]] eqn:Hb; [|done].
  destruct tcp_shutdown; [|done]. intros [= <- <-].
  apply pump_exact in Ho as [-> _], Hb as [-> _]. done.
Qed.

Lemma until_end_concat bufs : Forall (.≠ []) bufs -> until_end bufs = List.concat bufs.
Proof. induction 1 as [|buf bufs Hb _ IH]; [done|]. destruct buf; [done|]. cbn. by rewrite <- IH. Qed.

(** What the copy writes is what was sent, up to where it failed. *)
Lemma join_local_spec `{CopyBidirectionalLaws} reader local :
  let '(to_local, to_relay, r) := join_local reader local in
  to_local `prefix_of` until_end reader /\ to_relay `prefix_of` until_end local
  /\ (is_ok r = true -> to_local = until_end reader /\ to_relay = until_end local).
Proof.
  pose proof (copy_in_order reader local) as Hp. pose proof (copy_to_the_end reader local) as He.
  unfold join_local. destruct (copy_bidirectional reader local) as [[to_local to_relay] r].
  destruct Hp as [Hl Hr]. split_and!; [done|done|]. destruct r as [[n m]|e]; [|done]. intros _.
  destruct (He _ _ _ _ eq_refl) as (_ & _ & Hn & Hm). unfold blen in *.
  split; apply prefix_length_eq; [done|lia|done|lia].
Qed.

(** C34: A reserved stream is transparent: however many keepalives it waited through,
    and however the bytes of the relay were cut into buffers, a stream that the relay
    activates is joined to the phone's proxy for the protocol that was asked for.  The
    proxy then receives, in order, the bytes the public client sent behind the
    activation frame, those that arrived in the same buffer included, and the relay
    the proxy's answer: all of them when the copy ends well, and nothing else when it
    fails.  As long as only keepalives arrive the stream waits. *)
Theorem reserved_stream_is_transparent `{CopyBidirectionalLaws} config k bufs :
  plain_frame ReserveKeepalive -> Forall (.≠ []) bufs ->
  (forall id protocol payload, plain_frame (OpenProxy id protocol) ->
   List.concat bufs = (List.concat (replicate k (write_frame ReserveKeepalive))
                       ++ write_frame (OpenProxy id protocol) ++ payload)%list ->
   exists reader, open_tcp_reserved_stream config true bufs
       = Some (Joined (local_proxy_addr_for config protocol) reader)
     /\ forall local, let '(to_local, to_relay, r) := join_local reader local in
        to_local `prefix_of` payload /\ to_relay `prefix_of` until_end local
        /\ (is_ok r = true -> to_local = payload /\ to_relay = until_end local))
  /\ (List.concat bufs = List.concat (replicate k (write_frame ReserveKeepalive)) ->
      forall local_ok, open_tcp_reserved_stream config local_ok bufs = Some StillWaiting).
Proof.
  intros Hk Hne. split.
  - intros id protocol payload Ho Hcat.
    destruct (await_keepalives k _ bufs (S (List.length (List.concat bufs))) Hk Hne Hcat) as (bufs1 & Ha & Hcat1 & Hne1);
      [rewrite Hcat; pose proof (keepalives_length k (write_frame (OpenProxy id protocol) ++ payload)%list); lia|].
    assert (exists fuel, (S (List.length (List.concat bufs)) - k = S fuel)%nat) as [fuel Hfuel].
    { exists (List.length (List.concat bufs) - k)%nat. rewrite Hcat.
      pose proof (keepalives_length k (write_frame (OpenProxy id protocol) ++ payload)%list). lia. }
    destruct (await_activation_spec id protocol payload bufs1 fuel Ho Hne1 Hcat1) as (reader & Hr & Hrest & Hne').
    exists reader. unfold open_tcp_reserved_stream. rewrite Ha, Hfuel, Hr. split; [done|]. intros local.
    rewrite <- Hrest, <- (until_end_concat _ Hne'). apply join_local_spec.
  - intros Hcat local_ok. pose proof (keepalives_length k []) as Hlen. rewrite app_nil_r, <- Hcat in Hlen.
    destruct (await_keepalives k [] bufs (S (List.length (List.concat bufs))) Hk Hne) as (bufs1 & Ha & Hcat1 & Hne1);
      [by rewrite app_nil_r|lia|].
    assert (bufs1 = []) as -> by (destruct Hne1 as [|[] ? ?]; done).
    unfold open_tcp_reserved_stream. rewrite Ha.
    by replace (S (List.length (List.concat bufs)) - k)%nat with (S (List.length (List.concat bufs) - k)) by lia.
Qed.

(** The fuel is enough: whatever has arrived, the stream waits, has ended or is
    joined. *)
Lemma open_tcp_reserved_stream_total config local_ok bufs :
  is_Some (open_tcp_reserved_stream config local_ok bufs).
Proof.
  unfold open_tcp_reserved_stream.
  destruct (await_activation_total (S (List.length (List.concat bufs))) bufs) as [[|e|protocol rest] ->];
    [lia|done|done|by destruct local_ok].
Qed.
End Streams.

(** ** A request and its answer *)

Section Requests.
Context `{!FrameCodec ServerFrame} `{!FrameCodecLaws ServerFrame} `{!FrameCodec ClientFrame}
  `{!FrameCodecLaws ClientFrame} `{!DecodeMessage}.

(** The phone answers the request it was sent: when the relay writes a request for
    stream [id] on the control channel, however it is cut into buffers, the session
    goes on and starts a data stream for exactly that identifier and protocol; the
    first frame of that stream reaches the relay's reader unchanged and leaves the
    payload behind it untouched; and a relay with the phone's token hands the stream
    to [accept_tcp_proxy_stream] for this phone, session and identifier. *)
Theorem request_is_answered t config session (c : ClientSession) id protocol bufs rest payload w now stream
    control authority script :
  t <> TunnelActiveTransport.Quic ->
  plain_frame (OpenProxy id protocol) -> Forall (.≠ []) bufs ->
  List.concat bufs = (write_frame (OpenProxy id protocol) ++ rest)%list ->
  let ds := open_tcp_client_proxy_stream config session id protocol in
  blen (to_vec (ds_first ds)) <= FIRST_FRAME_LIMIT ->
  (exists bufs', (read_optional_line bufs).2 = bufs' /\ List.concat bufs' = rest
    /\ client_turn t config session c (FromServer (read_optional_line bufs).1)
       = (mk_client_session (cs_snapshot c) (cs_written c) (cs_started c ++ [(id, protocol)])%list, None))
  /\ read_first_frame (write_frame (ds_first ds) ++ payload)%list = (Ok (ds_first ds), payload)
  /\ ds_local ds = local_proxy_addr_for config protocol
  /\ handle_server_connection (cfg_auth_token config) w now (Ok (ds_first ds)) stream control authority script
     = match accept_tcp_proxy_stream w now (cfg_node_id config) session id stream with
       | (Ok _, w') => (w', Some (Ok tt))
       | (Err e, w') => (w', Some (Err (StreamRejected e)))
       end.
Proof.
  intros Ht [Ha Hlen] Hne Hcat ds Hfirst. split_and!.
  - unfold write_frame in Hcat, Hlen. rewrite <- app_assoc in Hcat. rewrite blen_app in Hlen.
    destruct (read_optional_line_spec bufs (to_vec (OpenProxy id protocol)) rest Hne Hcat
      (to_vec_no_newline _) Ha Hlen) as (bufs' & Hr & Hrest & _).
    exists bufs'. rewrite Hr. cbn [fst snd client_turn]. rewrite from_slice_to_vec.
    split_and!; [done|done|]. by destruct t.
  - unfold read_first_frame.
    assert (first_line (write_frame (ds_first ds) ++ payload)%list [] = (Ok (write_frame (ds_first ds)), payload)) as ->.
    { apply first_line_iff. exists (to_vec (ds_first ds)). split_and!; [done|apply to_vec_no_newline|done|done]. }
    unfold write_frame. by rewrite from_slice_to_vec.
  - unfold ds, open_tcp_client_proxy_stream. by destruct (is_hybrid config).
  - unfold ds, open_tcp_client_proxy_stream. destruct (is_hybrid config); cbn [ds_first handle_server_connection];
      by rewrite (proj2 (ct_eq_true _ _) eq_refl).
Qed.
End Requests.

(** ** Concrete streams *)

Module DemoStreams.
Definition protocol_byte (p : ProxyProtocol) : Z :=
  match p with Mixed => 109 | Socks5 => 115 | Http => 104 end.

(** Requests as a letter for the protocol and the identifier in unary. *)
#[global] Instance server_codec : FrameCodec ServerFrame := {|
  to_vec (f : ServerFrame) :=
    match f with
    | ReserveKeepalive => [107]
    | OpenProxy id p => (111 :: protocol_byte p :: replicate (N.to_nat id) 117)%list
    end;
  from_slice (l : list Z) :=
    match l with
    | 107 :: _ => Some ReserveKeepalive
    | 111 :: p :: rest =>
        Some (OpenProxy (N.of_nat (List.length (List.filter (Z.eqb 117) rest)))
                (if p =? 109 then Mixed else if p =? 115 then Socks5 else Http))
    | _ => None
    end;
|}.

Lemma filter_unary n l :
  List.length (List.filter (Z.eqb 117) (replicate n 117 ++ l)%list)
  = (n + List.length (List.filter (Z.eqb 117) l))%nat.
Proof. induction n as [|n IH]; cbn; [done|]. by rewrite IH. Qed.

Lemma unary_ascii n : Forall is_ascii (replicate n 117).
Proof. induction n; by constructor. Qed.

#[global] Instance server_codec_laws : FrameCodecLaws ServerFrame.
Proof.
  split; intros [id p|]; cbn [to_vec server_codec].
  - cbn. rewrite filter_unary. cbn. rewrite Nat.add_0_r, N2Nat.id. by destruct p.
  - done.
  - rewrite !not_elem_of_cons. split_and!; [done|by destruct p|].
    intros Hin%elem_of_replicate. by destruct Hin.
  - rewrite not_elem_of_cons. split; [done|apply not_elem_of_nil].
  - apply ascii_valid_utf8. apply Forall_app. split; [|by repeat constructor].
    repeat (constructor; [by destruct p|]). apply unary_ascii.
  - done.
Qed.

#[global] Instance demo_message : DecodeMessage := fun _ => "expected value at line 1 column 1".

(** A copy that always ends well. *)
#[global] Instance demo_copy : CopyBidirectional := fun a b =>
  (until_end a, until_end b, Ok (blen (until_end a), blen (until_end b))).
#[global] Instance demo_copy_laws : CopyBidirectionalLaws.
Proof. split; [by intros a b|]. by intros a b to_b to_a n m [= <- <- <- <-]. Qed.

(** Two keepalives, a request for the HTTP proxy and the first bytes of its client, in
    three buffers. *)
Lemma reserved_stream_is_transparent_witness :
  exists reader, open_tcp_reserved_stream DemoSession.config true
      [[107; 10; 107]; [10; 111; 104; 117; 10; 71; 69]; [84]]
    = Some (Joined (local_proxy_addr_for DemoSession.config Http) reader)
    /\ (join_local reader [[79; 75]; []]).1 = ([71; 69; 84], [79; 75]).
Proof.
  destruct (reserved_stream_is_transparent DemoSession.config 2
    [[107; 10; 107]; [10; 111; 104; 117; 10; 71; 69]; [84]]) as [Hjoined _];
    [split; [by repeat constructor|done]|by repeat constructor|].
  destruct (Hjoined 1%N Http [71; 69; 84]) as (reader & Ho & Hcopy);
    [split; [by repeat constructor|done]|reflexivity|].
  exists reader. split; [exact Ho|]. specialize (Hcopy [[79; 75]; []]).
  destruct (join_local reader [[79; 75]; []]) as [[to_local to_relay] r] eqn:Hj.
  unfold join_local, copy_bidirectional, demo_copy in Hj. injection Hj as <- <- <-.
  destruct Hcopy as (_ & _ & Hall). destruct (Hall eq_refl) as [-> _]. reflexivity.
Defined.

(** One heartbeat, a request, and the end of the connection. *)
Definition start : ClientSnapshot.t :=
  ClientSnapshot.with_event_counters 1%N TunnelEventCounters.default_counters.
Definition closed_session : ClientSession * option (result unit AnyError) :=
  connect_and_run TunnelActiveTransport.Tcp false DemoSession.config 1%N (Ok tt)
    [HeartbeatDue None; FromServer (Ok (Some [111; 104; 117; 10])); FromServer (Ok None)] start.

Lemma session_refines_attempt_witness :
  exists o, pump TunnelActiveTransport.Tcp false o start
    = (Err (plain_error "server closed reverse tunnel"), cs_snapshot (fst closed_session)).
Proof.
  destruct (session_refines_attempt TunnelActiveTransport.Tcp DemoSession.config 1%N false (Ok tt)
    [HeartbeatDue None; FromServer (Ok (Some [111; 104; 117; 10])); FromServer (Ok None)] start
    (fst closed_session) (Err (plain_error "server closed reverse tunnel"))) as (o & Ho & _);
    [reflexivity|].
  exists o. exact Ho.
Defined.
End DemoStreams.
