(* ===== verification/NetText.v ===== *)
(** * Lines, words and addresses

    What the phone's services use of [str] and [std::net]: splitting, trimming
    and suffixes of text, decimal numbers, and the parser of socket addresses. *)

From stdpp Require Import base gmap strings list pretty.
From Stdlib Require Import ZArith Lia Ascii String.
From S2P Require Import Prelude Text TunnelModel.
Local Open Scope string_scope.
Local Open Scope Z_scope.

(** ** Splitting *)

(** [s.split(sep)] on the bytes: always at least one piece. *)
Fixpoint split_bytes (sep : Z) (l : list Z) : list (list Z) :=
  match l with
  | [] => [[]]
  | b :: r =>
      if b =? sep then [] :: split_bytes sep r
      else match split_bytes sep r with
           | piece :: pieces => (b :: piece) :: pieces
           | [] => [[b]]
           end
  end.

Definition split (sep : Z) (s : string) : list string := of_bytes <$> split_bytes sep (bytes s).

(** A final carriage return of a line is dropped. *)
Definition strip_cr (l : list Z) : list Z :=
  match rev l with 13 :: r => rev r | _ => l end.

(** [s.lines()]: the pieces between line feeds, the last one only when it is not
    empty.  A carriage return is dropped before a line feed and not at the end of
    the text. *)
Fixpoint line_pieces (pieces : list (list Z)) : list (list Z) :=
  match pieces with
  | [] => []
  | [final] => match final with [] => [] | _ => [final] end
  | piece :: rest => strip_cr piece :: line_pieces rest
  end.

Definition lines (s : string) : list string :=
  of_bytes <$> line_pieces (split_bytes 10 (bytes s)).

(** [s.ends_with(p)] *)
Definition ends_with (p s : string) : bool :=
  bool_decide (drop (String.length s - String.length p) (bytes s) = bytes p).

(** ** Trimming *)

(** The UTF-8 form of a scalar value. *)
Definition utf8_encode (c : Z) : list Z :=
  if c <? 128 then [c]
  else if c <? 2048 then [192 + c / 64; 128 + c mod 64]
  else if c <? 65536 then [224 + c / 4096; 128 + c / 64 mod 64; 128 + c mod 64]
  else [240 + c / 262144; 128 + c / 4096 mod 64; 128 + c / 64 mod 64; 128 + c mod 64].

Fixpoint drop_while (p : Z -> bool) (l : list Z) : list Z :=
  match l with
  | [] => []
  | c :: r => if p c then drop_while p r else l
  end.

(** [s.trim()] *)
Definition trim (s : string) : string :=
  of_bytes (List.concat (utf8_encode <$>
    rev (drop_while is_whitespace (rev (drop_while is_whitespace (chars s)))))).

(** [s.split_whitespace()] *)
Fixpoint words_of (current : list Z) (l : list Z) : list (list Z) :=
  match l with
  | [] => match current with [] => [] | _ => [rev current] end
  | c :: rest =>
      if is_whitespace c
      then match current with [] => words_of [] rest | _ => rev current :: words_of [] rest end
      else words_of (c :: current) rest
  end.

Definition split_whitespace (s : string) : list string :=
  (fun w => of_bytes (List.concat (utf8_encode <$> w))) <$> words_of [] (chars s).

(** ** Decimal numbers *)

(** [u64::to_string] *)
Definition u64_to_string (n : Z) : string := pretty (Z.to_N n).

(** Printed digits are read back. *)
Lemma parse_pretty_go x s :
  parse_digits 0 (bytes (pretty_N_go x s)) = parse_digits (Z.of_N x) (bytes s).
Proof.
  revert s. induction (N.lt_wf_0 x) as [x _ IH]; intros s.
  destruct (N.eq_0_gt_0_cases x) as [->|Hx]; [by rewrite pretty_N_go_0|].
  rewrite pretty_N_go_step, IH by (lia || by apply N.div_lt).
  pose proof (N.mod_lt x 10 ltac:(done)) as Hm. pose proof (N.div_mod x 10 ltac:(done)) as Hdm.
  set (d := (x `mod` 10)%N) in *.
  assert (byte_of (pretty_N_char d) = 48 + Z.of_N d) as Hd.
  { assert (d = 0 \/ d = 1 \/ d = 2 \/ d = 3 \/ d = 4 \/ d = 5 \/ d = 6 \/ d = 7 \/ d = 8 \/ d = 9)%N
      as Hcases by lia.
    clearbody d. repeat destruct Hcases as [->|Hcases]; [done..|by subst d]. }
  cbn [bytes parse_digits]. rewrite Hd. unfold is_ascii_digit, in_range.
  rewrite (proj2 (andb_true_iff _ _)) by lia. f_equal. lia.
Qed.

Lemma parse_u64_to_string max n : 0 <= n <= max -> parse_unsigned max (u64_to_string n) = Some n.
Proof.
  intros Hn. assert (parse_digits 0 (bytes (u64_to_string n)) = Some n) as Hp.
  { unfold u64_to_string, pretty, pretty_N. destruct (decide _) as [Hz|Hz].
    - assert (n = 0) as -> by lia. done.
    - rewrite parse_pretty_go. cbn. f_equal. lia. }
  unfold parse_unsigned. destruct (bytes (u64_to_string n)) as [|b r] eqn:Hb.
  - exfalso. unfold u64_to_string, pretty, pretty_N in Hb.
    destruct (decide _) as [Hz|Hz]; [done|].
    destruct (pretty_N_go (Z.to_N n) "") eqn:Hg; [|done].
    pose proof (parse_pretty_go (Z.to_N n) "") as Hq. rewrite Hg in Hq. cbn in Hq.
    injection Hq as Hq. lia.
  - destruct (Z.eq_dec b 43) as [->|Hne]; [done|].
    replace (match b :: r with 43 :: rest => rest | l => l end) with (b :: r).
    2:{ destruct b as [|p|p]; try done. do 6 (destruct p as [p|p|]; try done). }
    rewrite Hp. by rewrite (proj2 (Z.leb_le n max)) by lia.
Qed.

Lemma u64_to_string_inj m n : 0 <= m -> 0 <= n -> u64_to_string m = u64_to_string n -> m = n.
Proof.
  intros Hm Hn Heq. pose proof (parse_u64_to_string (Z.max m n) m ltac:(lia)) as Hp.
  rewrite Heq, parse_u64_to_string in Hp by lia. congruence.
Qed.

(** ** Socket addresses

    The recursive-descent parser of [core::net]: each reader returns what it read
    and the rest of the input. *)

Definition hex_value (b : Z) : option Z :=
  if is_ascii_digit b then Some (b - 48)
  else if in_range 97 102 b then Some (b - 87)
  else if in_range 65 70 b then Some (b - 55)
  else None.

Definition digit_value (radix b : Z) : option Z :=
  v ← hex_value b; if v <? radix then Some v else None.

(** The digits of [read_number], at most [limit] of them: the value and their
    count, or nothing when the value does not fit or a digit is left over. *)
Fixpoint read_digits (radix max : Z) (limit : option nat) (count : nat) (acc : Z) (l : list Z)
    : option (Z * nat * list Z) :=
  match l with
  | [] => Some (acc, count, [])
  | b :: r =>
      match digit_value radix b with
      | None => Some (acc, count, l)
      | Some d =>
          let acc' := acc * radix + d in
          if max <? acc' then None
          else if is_some_and limit (fun n => (n <=? count)%nat) then None
          else read_digits radix max limit (S count) acc' r
      end
  end.

Definition read_number (radix max : Z) (limit : option nat) (allow_zero_prefix : bool) (l : list Z)
    : option (Z * list Z) :=
  '(value, count, rest) ← read_digits radix max limit 0 0 l;
  if (count =? 0)%nat then None
  else if negb allow_zero_prefix && bool_decide (head l = Some 48) && (1 <? count)%nat then None
  else Some (value, rest).

Definition read_given_char (c : Z) (l : list Z) : option (list Z) :=
  match l with b :: r => if b =? c then Some r else None | [] => None end.

Definition read_octet (l : list Z) : option (Z * list Z) := read_number 10 255 (Some 3%nat) false l.

Definition read_ipv4 (l : list Z) : option (list Z * list Z) :=
  '(a, l) ← read_octet l; l ← read_given_char 46 l;
  '(b, l) ← read_octet l; l ← read_given_char 46 l;
  '(c, l) ← read_octet l; l ← read_given_char 46 l;
  '(d, l) ← read_octet l;
  Some ([a; b; c; d], l).

(** [read_separator(':', i, inner)] *)
Definition after_separator (i : nat) (l : list Z) : option (list Z) :=
  if (i =? 0)%nat then Some l else read_given_char 58 l.

(** [read_groups]: the octets of the groups read, at most [slots] of them, and
    whether they end in an embedded IPv4 address. *)
Fixpoint read_groups (slots i : nat) (l : list Z) : list Z * bool * list Z :=
  match slots with
  | O => ([], false, l)
  | S slots' =>
      match (if (slots' =? 0)%nat then None else l' ← after_separator i l; read_ipv4 l') with
      | Some (octets, rest) => (octets, true, rest)
      | None =>
          match (l' ← after_separator i l; read_number 16 65535 (Some 4%nat) true l') with
          | Some (group, rest) =>
              let '(octets, embedded, rest) := read_groups slots' (S i) rest in
              ([group / 256; group mod 256] ++ octets, embedded, rest)%list
          | None => ([], false, l)
          end
      end
  end.

Definition read_ipv6 (l : list Z) : option (list Z * list Z) :=
  let '(head, embedded, l) := read_groups 8 0 l in
  if (List.length head =? 16)%nat then Some (head, l)
  else if embedded then None
  else
    l ← read_given_char 58 l;
    l ← read_given_char 58 l;
    let '(tail, _, l) := read_groups (7 - List.length head / 2) 0 l in
    Some (head ++ replicate (16 - List.length head - List.length tail) 0 ++ tail, l)%list.

(** A scope identifier is read and, as nothing here uses it, dropped. *)
Definition read_scope (l : list Z) : option (list Z) :=
  match read_given_char 37 l with
  | None => Some l
  | Some l => snd <$> read_number 10 u32_max None true l
  end.

Definition read_port (l : list Z) : option (Z * list Z) :=
  l ← read_given_char 58 l; read_number 10 u16_max None true l.

Definition read_socket_v4 (l : list Z) : option (SocketAddr * list Z) :=
  '(ip, l) ← read_ipv4 l; '(port, l) ← read_port l; Some (mk_addr (V4 ip) port, l).

Definition read_socket_v6 (l : list Z) : option (SocketAddr * list Z) :=
  l ← read_given_char 91 l; '(ip, l) ← read_ipv6 l; l ← read_scope l;
  l ← read_given_char 93 l; '(port, l) ← read_port l; Some (mk_addr (V6 ip) port, l).

(** [s.parse::<SocketAddr>()] *)
Definition parse_socket_addr (s : string) : option SocketAddr :=
  match (match read_socket_v4 (bytes s) with
         | Some r => Some r
         | None => read_socket_v6 (bytes s)
         end) with
  | Some (addr, []) => Some addr
  | _ => None
  end.

(** [IpAddr::is_loopback] *)
Definition is_loopback (ip : IpAddr) : bool :=
  match ip with
  | V4 octets => bool_decide (head octets = Some 127)
  | V6 octets => bool_decide (octets = (replicate 15 0 ++ [1])%list)
  end.

(** ** Examples *)

Example parse_v4 : parse_socket_addr "127.0.0.1:8088" = Some (mk_addr (V4 [127; 0; 0; 1]) 8088).
Proof. reflexivity. Qed.
Example parse_leading_zero : parse_socket_addr "127.0.0.01:1" = None.
Proof. reflexivity. Qed.
Example parse_port_overflow : parse_socket_addr "1.2.3.4:65536" = None.
Proof. reflexivity. Qed.
Example parse_v6_loopback :
  is_loopback <$> (addr_ip <$> parse_socket_addr "[::1]:80") = Some true.
Proof. reflexivity. Qed.
Example parse_v6_embedded :
  parse_socket_addr "[fe80::1:1.2.3.4%7]:9"
  = Some (mk_addr (V6 [254; 128; 0; 0; 0; 0; 0; 0; 0; 0; 0; 1; 1; 2; 3; 4]) 9).
Proof. reflexivity. Qed.
Example parse_v6_without_brackets : parse_socket_addr "::1:80" = None.
Proof. reflexivity. Qed.
Example lines_of_text : lines ("a" ++ of_bytes [13; 10] ++ "b" ++ of_bytes [10]) = ["a"; "b"].
Proof. reflexivity. Qed.
Example trim_text : trim (of_bytes [32; 194; 160; 97; 32; 98; 10]) = "a b".
Proof. reflexivity. Qed.
Example ends_with_token : ends_with "_token" "ui_token" = true.
Proof. reflexivity. Qed.
