(* ===== verification/FileTree.v ===== *)
(** * Files by path

    What the command-line tools use of [std::path] and [std::fs]: absolute
    paths, suffixes, and a file system keyed by the components of a path, with
    an error monad over it.  A directory is only tracked where it is an obstacle
    to a file; links and [..] are not resolved, as in [std::path::absolute]. *)

From stdpp Require Import base gmap strings list.
From Stdlib Require Import ZArith Lia String.
From S2P Require Import Prelude Text NetText.
Local Open Scope string_scope.
Local Open Scope Z_scope.

(** ** Paths *)

Definition Components := list (list Z).

(** [Path::components] without the root: empty and [.] pieces vanish. *)
Definition components (path : string) : Components :=
  List.filter (fun piece => negb (bool_decide (piece = [])) && negb (bool_decide (piece = [46])))
    (split_bytes 47 (bytes path)).

Definition is_absolute (path : string) : bool := starts_with "/" path.

(** Where a path leads from the current directory. *)
Definition resolve (cwd : Components) (path : string) : Components :=
  if is_absolute path then components path else (cwd ++ components path)%list.

(** [std::path::absolute], compared by components; an empty path has none. *)
Definition absolute (cwd : Components) (path : string) : option Components :=
  if bool_decide (path = "") then None else Some (resolve cwd path).

(** [path.parent()] is there and not empty.  A leading [.] of a relative path is
    a component of it. *)
Definition has_parent (path : string) : bool :=
  if is_absolute path then negb (bool_decide (components path = []))
  else
    let leading := if bool_decide (head (split_bytes 47 (bytes path)) = Some [46]) then 1%nat else 0%nat in
    (2 <=? List.length (components path) + leading)%nat.

Definition temporary_path (path : string) : string := path ++ ".tmp".
Definition wal_path (path : string) : string := path ++ "-wal".
Definition shm_path (path : string) : string := path ++ "-shm".

Lemma string_app_assoc (a b c : string) : a ++ (b ++ c) = (a ++ b) ++ c.
Proof. induction a as [|x a IH]; [done|]. exact (f_equal (String x) IH). Qed.

Lemma split_bytes_cons sep l : exists piece pieces, split_bytes sep l = piece :: pieces.
Proof.
  induction l as [|b r (piece & pieces & Hr)]; cbn [split_bytes]; [eauto|].
  destruct (b =? sep); [eauto|]. rewrite Hr. eauto.
Qed.

(** Bytes that are no separator extend the last piece. *)
Lemma split_bytes_app sep l suffix :
  Forall (fun b => b <> sep) suffix ->
  exists pieces piece, split_bytes sep l = (pieces ++ [piece])%list
    /\ split_bytes sep (l ++ suffix)%list = (pieces ++ [(piece ++ suffix)%list])%list.
Proof.
  intros Hs. induction l as [|b r (pieces & piece & Hr & Hrs)]; cbn [split_bytes app].
  - exists [], []. split; [done|]. cbn [app]. induction Hs as [|b suffix Hb _ IH]; [done|].
    cbn [split_bytes]. rewrite (proj2 (Z.eqb_neq b sep)), IH by done. done.
  - destruct (b =? sep).
    + exists ([] :: pieces), piece. by rewrite Hr, Hrs.
    + rewrite Hr, Hrs. destruct pieces as [|first pieces].
      * by exists [], (b :: piece).
      * by exists ((b :: first) :: pieces), piece.
Qed.

Definition weight (cs : Components) : nat := sum_list_with List.length cs.

Lemma weight_app (cs cs' : Components) : weight (cs ++ cs')%list = (weight cs + weight cs')%nat.
Proof. unfold weight. induction cs; simpl; lia. Qed.

(** A suffix makes another path of it. *)
Lemma components_suffix path suffix :
  Forall (fun b => b <> 47) (bytes suffix) -> (1 < List.length (bytes suffix))%nat ->
  (weight (components path) < weight (components (path ++ suffix)))%nat.
Proof.
  intros Hs Hlen. unfold components. rewrite bytes_app.
  destruct (split_bytes_app 47 (bytes path) (bytes suffix) Hs) as (pieces & piece & -> & ->).
  rewrite !List.filter_app, !weight_app. apply Nat.add_lt_mono_l. cbn [List.filter].
  destruct (bytes suffix) as [|b [|b' rest]] eqn:Hb; [simpl in Hlen; lia..|].
  destruct piece as [|x [|y piece]]; simpl; repeat case_bool_decide; simpl; try done;
    rewrite ?length_app; simpl; lia.
Qed.

Lemma is_absolute_suffix path suffix :
  path <> "" -> is_absolute (path ++ suffix) = is_absolute path.
Proof.
  unfold is_absolute, starts_with. destruct path as [|c path]; [done|]. intros _. cbn.
  by destruct c as [[] [] [] [] [] [] [] []].
Qed.

Lemma resolve_suffix cwd path suffix :
  path <> "" -> Forall (fun b => b <> 47) (bytes suffix) -> (1 < List.length (bytes suffix))%nat ->
  resolve cwd (path ++ suffix) <> resolve cwd path.
Proof.
  intros Hne Hs Hlen. unfold resolve. rewrite is_absolute_suffix by done.
  pose proof (components_suffix path suffix Hs Hlen).
  destruct (is_absolute path); intros Heq; [|apply app_inv_head in Heq]; rewrite Heq in *; lia.
Qed.

Lemma temporary_path_fresh cwd path :
  path <> "" -> resolve cwd (temporary_path path) <> resolve cwd path.
Proof. intros Hne. apply resolve_suffix; [done|repeat constructor; done|vm_compute; lia]. Qed.

(** ** A file system

    [E] is what a regular file holds. *)

Inductive Entry (E : Type) := Regular (content : E) | Directory.
Arguments Regular {E} _.
Arguments Directory {E}.

#[export] Instance Components_eq_dec : EqDecision Components := list_eq_dec.
#[export] Instance Components_countable : Countable Components := list_countable.

Abbreviation Files E := (@gmap Components Components_eq_dec Components_countable (Entry E)).

(** [path.is_file()] and [path.exists()] *)
Definition regular {E} (fs : Files E) (p : Components) : option E :=
  match fs !! p with Some (Regular e) => Some e | _ => None end.
Definition is_directory {E} (fs : Files E) (p : Components) : bool :=
  match fs !! p with Some Directory => true | _ => false end.
Definition exists_at {E} (fs : Files E) (p : Components) : bool := is_some (fs !! p).

(** [fs::rename] of a file; a directory is not replaced by one. *)
Definition rename {E} (from to : Components) (fs : Files E) : option (Files E) :=
  match fs !! from with
  | Some (Regular e) =>
      match fs !! to with
      | Some Directory => None
      | _ => Some (<[to := Regular e]> (delete from fs))
      end
  | _ => None
  end.

(** [fs::remove_file], its outcome ignored; a directory stays. *)
Definition remove_file {E} (p : Components) (fs : Files E) : Files E :=
  match fs !! p with Some (Regular _) => delete p fs | _ => fs end.

(** ** Computations over files

    A result and the files afterwards, whatever the result. *)

Section Fallible.
Context {S Er : Type}.

Definition Fallible (A : Type) : Type := S -> result A Er * S.

Definition yield {A} (a : A) : Fallible A := fun s => (Ok a, s).
Definition bail {A} (e : Er) : Fallible A := fun s => (Err e, s).
Definition and_then {A B} (m : Fallible A) (k : A -> Fallible B) : Fallible B :=
  fun s => match m s with
           | (Ok a, s') => k a s'
           | (Err e, s') => (Err e, s')
           end.
Definition lift {A} (r : result A Er) : Fallible A := fun s => (r, s).
Definition get_state : Fallible S := fun s => (Ok s, s).
Definition put_state (s : S) : Fallible unit := fun _ => (Ok tt, s).
Definition guard (b : bool) (e : Er) : Fallible unit := if b then yield tt else bail e.

Lemma and_then_Ok {A B} (m : Fallible A) (k : A -> Fallible B) s b s2 :
  and_then m k s = (Ok b, s2) <-> exists a s1, m s = (Ok a, s1) /\ k a s1 = (Ok b, s2).
Proof.
  unfold and_then. destruct (m s) as [[a|e] s1]; split.
  - eauto.
  - by intros (? & ? & [= <- <-] & ?).
  - done.
  - by intros (? & ? & [=] & _).
Qed.

Lemma and_then_Err {A B} (m : Fallible A) (k : A -> Fallible B) s e s2 :
  and_then m k s = (Err e, s2) <->
  m s = (Err e, s2) \/ exists a s1, m s = (Ok a, s1) /\ k a s1 = (Err e, s2).
Proof.
  unfold and_then. destruct (m s) as [[a|e'] s1]; split.
  - eauto.
  - intros [[=]|(? & ? & [= <- <-] & ?)]; done.
  - intros [= <- <-]. by left.
  - intros [[= <- <-]|(? & ? & [=] & _)]; done.
Qed.

Lemma and_then_ext {A B} (m : Fallible A) (k k' : A -> Fallible B) s :
  (forall a s', k a s' = k' a s') -> and_then m k s = and_then m k' s.
Proof. intros Hk. unfold and_then. by destruct (m s) as [[a|e] s']. Qed.

Lemma and_then_assoc {A B C} (m : Fallible A) (k : A -> Fallible B) (h : B -> Fallible C) s :
  and_then (and_then m k) h s = and_then m (fun a => and_then (k a) h) s.
Proof. unfold and_then. by destruct (m s) as [[a|e] s']. Qed.

Lemma guard_Ok b e s a s' : guard b e s = (Ok a, s') <-> b = true /\ a = tt /\ s' = s.
Proof. destruct b; cbv [guard yield bail]; [destruct a|]; naive_solver. Qed.

Lemma guard_Err b e s e' s' : guard b e s = (Err e', s') <-> b = false /\ e' = e /\ s' = s.
Proof. destruct b; cbv [guard yield bail]; naive_solver. Qed.
End Fallible.
Arguments Fallible : clear implicits.

Notation "'let!' x := m 'in' k" := (and_then m (fun x => k))
  (at level 10, x binder, m at level 100, k at level 200, only parsing) : rust_scope.
