(* ===== verification/Shell.v ===== *)
(** * Programs and shell words

    What the operator's command line uses of [std::process] and of [str::replace],
    the quoting functions of [apps/operator-cli/src], and how a POSIX shell reads
    the words they make. *)

From stdpp Require Import base strings list.
From Stdlib Require Import ZArith Lia Ascii String.
From S2P Require Import Prelude Text NetText FileTree.
Local Open Scope string_scope.
Local Open Scope Z_scope.

(** ** Replacement *)

(** [s.replace(p, r)] for a pattern that is not empty; [skip] characters of an
    occurrence are left. *)
Fixpoint replace_from (p r : string) (skip : nat) (s : string) : string :=
  match s with
  | EmptyString => EmptyString
  | String c s' =>
      match skip with
      | S k => replace_from p r k s'
      | O => if starts_with p s then r ++ replace_from p r (String.length p - 1) s'
             else String c (replace_from p r 0 s')
      end
  end.

Definition replace (p r s : string) : string := replace_from p r 0 s.

Definition single_quote : string := String "'"%char EmptyString.
Definition double_quote : string := String (ascii_of_byte 34) EmptyString.
Definition backslash : string := String (ascii_of_byte 92) EmptyString.

(** ** Quoting *)

(** [vm.rs]: a quote is closed, escaped and opened again. *)
Definition shell_escape (value : string) : string :=
  replace single_quote (single_quote ++ backslash ++ single_quote ++ single_quote) value.

Definition shell_quote (value : string) : string := single_quote ++ shell_escape value ++ single_quote.

(** [secrets.rs]: a quote is put into double quotes. *)
Definition env_escape (raw : string) : string :=
  replace single_quote
    (single_quote ++ double_quote ++ single_quote ++ double_quote ++ single_quote) raw.

(** [systemd_env_quote] of [vm.rs] *)
Definition systemd_env_quote (value : string) : string :=
  double_quote
  ++ replace "`" (backslash ++ "`")
       (replace "$" (backslash ++ "$")
          (replace double_quote (backslash ++ double_quote)
             (replace backslash (backslash ++ backslash) value)))
  ++ double_quote.

(** [shell_quote_validated] of [device_support.rs] *)
Definition shell_quote_validated (value : string) : string := single_quote ++ value ++ single_quote.

(** [windows_powershell_single_quoted] and [windows_cmd_quoted] of [android_app.rs] *)
Definition windows_powershell_single_quoted (raw : string) : string :=
  single_quote ++ replace single_quote (single_quote ++ single_quote) raw ++ single_quote.
Definition windows_cmd_quoted (raw : string) : string :=
  double_quote ++ replace double_quote "" raw ++ double_quote.

(** ** Programs *)

(** An argument: a word, or a path as [Command::arg] takes one. *)
Inductive Argument := Word (text : string) | AtPath (p : Components).
Definition words : list string -> list Argument := List.map Word.

#[export] Instance Argument_eq_dec : EqDecision Argument.
Proof. solve_decision. Defined.

Record Invocation := mk_invocation {
  program : Argument;
  arguments : list Argument;
  variables : list (string * string);
  input : string;
}.

#[export] Instance Invocation_eq_dec : EqDecision Invocation.
Proof. solve_decision. Defined.

(** A program without further variables or input. *)
Definition command (program : Argument) (arguments : list Argument) : Invocation :=
  mk_invocation program arguments [] "".

Record Output := mk_output {
  succeeded : bool;
  stdout : list Z;
  stderr : list Z;
}.

(** ** How a shell reads a word

    The quoting rules of the POSIX shell language: a backslash keeps the next
    character, single quotes keep everything, and in double quotes a backslash
    keeps the four characters that are special there.  A word with an expansion,
    an operator or an open quote is not a literal one. *)

Inductive quoting := Plain | Escaped | Single | Double | DoubleEscaped.

Definition double_special (c : ascii) : bool :=
  existsb (Z.eqb (byte_of c)) [34; 92; 36; 96].

(** The characters that end or expand an unquoted word. *)
Definition plain_special (c : ascii) : bool :=
  existsb (Z.eqb (byte_of c)) [9; 10; 32; 34; 36; 38; 39; 40; 41; 42; 59; 60; 62; 63; 91; 92; 96; 124].

Fixpoint read_from (q : quoting) (s : string) : option string :=
  match s with
  | EmptyString => match q with Plain => Some EmptyString | _ => None end
  | String c rest =>
      let b := byte_of c in
      match q with
      | Plain =>
          if b =? 39 then read_from Single rest
          else if b =? 34 then read_from Double rest
          else if b =? 92 then read_from Escaped rest
          else if plain_special c then None
          else String c <$> read_from Plain rest
      | Escaped => if b =? 10 then read_from Plain rest else String c <$> read_from Plain rest
      | Single => if b =? 39 then read_from Plain rest else String c <$> read_from Single rest
      | Double =>
          if b =? 34 then read_from Plain rest
          else if b =? 92 then read_from DoubleEscaped rest
          else if double_special c then None
          else String c <$> read_from Double rest
      | DoubleEscaped =>
          if double_special c then String c <$> read_from Double rest
          else if b =? 10 then read_from Double rest
          else (fun s => String (ascii_of_byte 92) (String c s)) <$> read_from Double rest
      end
  end.

Definition read_word (s : string) : option string := read_from Plain s.

(** ** Replacing a character *)

Fixpoint map_chars (f : ascii -> string) (s : string) : string :=
  match s with
  | EmptyString => EmptyString
  | String c rest => f c ++ map_chars f rest
  end.

Lemma replace_char a r s :
  replace (String a EmptyString) r s = map_chars (fun c => if Ascii.eqb a c then r else String c "") s.
Proof.
  unfold replace. induction s as [|c s IH]; [done|]. cbn [replace_from map_chars String.length].
  unfold starts_with. cbn [strip_prefix]. destruct (Ascii.eqb a c); cbn [is_some Nat.sub]; by rewrite IH.
Qed.

Lemma map_chars_app f s t : map_chars f (s ++ t) = map_chars f s ++ map_chars f t.
Proof.
  induction s as [|c s IH]; [done|].
  change (f c ++ map_chars f (s ++ t) = (f c ++ map_chars f s) ++ map_chars f t).
  rewrite IH. apply string_app_assoc.
Qed.

Lemma map_chars_compose f g s :
  map_chars f (map_chars g s) = map_chars (fun c => map_chars f (g c)) s.
Proof. induction s as [|c s IH]; [done|]. cbn [map_chars]. by rewrite map_chars_app, IH. Qed.

Lemma map_chars_ext f g s : (forall c, f c = g c) -> map_chars f s = map_chars g s.
Proof. intros Hfg. induction s as [|c s IH]; [done|]. cbn [map_chars]. by rewrite Hfg, IH. Qed.

(** ** Quoted texts are read back *)

(** Reading a text in single quotes in which each character is written by [f]. *)
Lemma read_single f :
  (forall c rest, read_from Single (f c ++ rest) = String c <$> read_from Single rest) ->
  forall v, read_word (single_quote ++ map_chars f v ++ single_quote) = Some v.
Proof.
  intros Hf v. change (read_from Single (map_chars f v ++ single_quote) = Some v).
  induction v as [|c v IH]; [done|]. cbn [map_chars]. by rewrite <- string_app_assoc, Hf, IH.
Qed.

Lemma eqb_quote c : Ascii.eqb "'" c = (byte_of c =? 39).
Proof. by destruct c as [[] [] [] [] [] [] [] []]. Qed.

(** A shell reads a quoted text as that text, whatever its characters. *)
Lemma shell_quote_reads v : read_word (shell_quote v) = Some v.
Proof.
  unfold shell_quote, shell_escape, single_quote. rewrite replace_char. apply read_single.
  intros c rest. rewrite eqb_quote. destruct (byte_of c =? 39) eqn:Hc.
  - replace c with "'"%char; [done|]. apply Z.eqb_eq in Hc.
    revert Hc. by destruct c as [[] [] [] [] [] [] [] []].
  - change (String c "" ++ rest) with (String c rest). cbn [read_from]. by rewrite Hc.
Qed.

Lemma env_escape_reads v : read_word (single_quote ++ env_escape v ++ single_quote) = Some v.
Proof.
  unfold env_escape, single_quote. rewrite replace_char. apply read_single.
  intros c rest. rewrite eqb_quote. destruct (byte_of c =? 39) eqn:Hc.
  - replace c with "'"%char; [done|]. apply Z.eqb_eq in Hc.
    revert Hc. by destruct c as [[] [] [] [] [] [] [] []].
  - change (String c "" ++ rest) with (String c rest). cbn [read_from]. by rewrite Hc.
Qed.

(** A text that is only put between quotes is read back when it has none. *)
Lemma unescaped_reads v :
  contains single_quote v = false -> read_word (shell_quote_validated v) = Some v.
Proof.
  unfold shell_quote_validated. change (read_word (single_quote ++ v ++ single_quote))
    with (read_from Single (v ++ single_quote)).
  induction v as [|c v IH]; [done|]. cbn [contains]. unfold starts_with, single_quote at 1.
  cbn [strip_prefix]. rewrite eqb_quote. intros [Hc Hv]%orb_false_iff.
  change (String c v ++ single_quote) with (String c (v ++ single_quote)). cbn [read_from].
  destruct (byte_of c =? 39); [done|]. by rewrite (IH Hv).
Qed.

(** What [systemd_env_quote] writes for a character. *)
Definition systemd_char (c : ascii) : string :=
  if double_special c then backslash ++ String c "" else String c "".

Lemma systemd_env_quote_chars v :
  systemd_env_quote v = double_quote ++ map_chars systemd_char v ++ double_quote.
Proof.
  unfold systemd_env_quote.
  assert (forall a b : string, a = b ->
    double_quote ++ a ++ double_quote = double_quote ++ b ++ double_quote) as Hcong by (by intros a b ->).
  apply Hcong. unfold double_quote, backslash.
  rewrite (replace_char (ascii_of_byte 92)), (replace_char (ascii_of_byte 34)).
  rewrite (replace_char "$"), (replace_char "`"), !map_chars_compose. apply map_chars_ext.
  by intros [[] [] [] [] [] [] [] []].
Qed.

Lemma systemd_env_quote_reads v : read_word (systemd_env_quote v) = Some v.
Proof.
  rewrite systemd_env_quote_chars. change (read_from Double (map_chars systemd_char v ++ double_quote) = Some v).
  induction v as [|c v IH]; [done|]. cbn [map_chars]. rewrite <- string_app_assoc.
  unfold systemd_char at 1. destruct (double_special c) eqn:Hc.
  - change (read_from DoubleEscaped (String c (map_chars systemd_char v ++ double_quote)) = Some (String c v)).
    cbn [read_from]. by rewrite Hc, IH.
  - change (read_from Double (String c (map_chars systemd_char v ++ double_quote)) = Some (String c v)).
    cbn [read_from]. rewrite Hc, IH. revert Hc. unfold double_special. cbn [existsb].
    intros Hc. by destruct (byte_of c =? 34), (byte_of c =? 92).
Qed.
