(* ===== verification/Commands.v ===== *)
(** * Commands and their idempotency

    [crates/proxy-core/src/commands.rs] and the command ports of
    [crates/application/src]: requests, commands, fingerprints, idempotency
    scopes, and the bounded outcome and error vocabularies. *)

From stdpp Require Import base gmap strings list.
From Stdlib Require Import ZArith Lia String.
From S2P Require Import Prelude Text Foundation.
Local Open Scope string_scope.
Local Open Scope Z_scope.

(** ** Data *)

Module DesiredState.
Inductive t := HealthyServing | DegradedSafe.

#[global] Instance eq_dec : EqDecision t.
Proof. solve_decision. Defined.

Definition to_string (s : t) : string :=
  match s with HealthyServing => "healthy_serving" | DegradedSafe => "degraded_safe" end.
End DesiredState.

Module RecoveryIntent.
Inductive t := NoRecovery | RouteRepair | RestartRuntime | RotateRecovery.

#[global] Instance eq_dec : EqDecision t.
Proof. solve_decision. Defined.

Definition to_string (r : t) : string :=
  match r with
  | NoRecovery => "none"
  | RouteRepair => "route_repair"
  | RestartRuntime => "restart_runtime"
  | RotateRecovery => "rotate_recovery"
  end.
End RecoveryIntent.

Module IssueCommandRequest.
Record t := mk {
  desired_state : DesiredState.t;
  recovery_intent : RecoveryIntent.t;
  deadline_secs : DeadlineWindow;
  idempotency_key : IdempotencyKey;
}.

#[global] Instance eq_dec : EqDecision t.
Proof. solve_decision. Defined.
End IssueCommandRequest.

Module DeviceCommand.
Record t := mk {
  command_id : CommandId;
  device_id : string;
  desired_state : DesiredState.t;
  recovery_intent : RecoveryIntent.t;
  deadline_secs : DeadlineWindow;
  idempotency_key : IdempotencyKey;
  issued_at : string;
}.

#[global] Instance eq_dec : EqDecision t.
Proof. solve_decision. Defined.
End DeviceCommand.

Record CommandAckRequest := mk_ack { ack_ok : bool; ack_message : option string }.

Module RotateRequest.
Record t := mk {
  strategy : string;
  require_public_ip_change : bool;
  reason : string;
  hold_secs : option Z;
}.
End RotateRequest.

Definition DEFAULT_AIRPLANE_HOLD_SECS : Z := 4.

Definition default_rotate_request : RotateRequest.t :=
  RotateRequest.mk "airplane_bounce" true "manual-rotate" (Some DEFAULT_AIRPLANE_HOLD_SECS).

(** ** Ports *)

Definition MAX_COMMAND_QUEUE_PER_DEVICE : nat := 50.
Definition MAX_IDEMPOTENCY_RESULTS : nat := 1000.
Definition MAX_PENDING_COMMANDS : nat := 1000.
Definition MAX_REGISTERED_DEVICES : nat := Z.to_nat 10000.

Record IssueCommandInput := mk_issue {
  issue_device_id : string;
  issue_request : IssueCommandRequest.t;
}.

Inductive IssueCommandOutcome :=
| Created (c : DeviceCommand.t)
| ExactDuplicate (c : DeviceCommand.t).

Definition issue_into_parts (o : IssueCommandOutcome) : string * DeviceCommand.t :=
  match o with
  | Created c => ("created", c)
  | ExactDuplicate c => ("exact_duplicate", c)
  end.

Inductive IssueCommandError :=
| IdempotencyConflict | IssueStateConflict | IssueCapacityExceeded | IssuePersistence.

#[export] Instance IssueCommandError_eq_dec : EqDecision IssueCommandError.
Proof. solve_decision. Defined.

Definition IssueCommandError_fmt (e : IssueCommandError) : string :=
  match e with
  | IdempotencyConflict => "idempotency key conflicts with the original command"
  | IssueStateConflict => "persisted command state is internally inconsistent"
  | IssueCapacityExceeded => "pending command capacity is exhausted"
  | IssuePersistence => "command state could not be persisted"
  end.

Inductive PollCommandOutcome := Pending (c : DeviceCommand.t) | NoCommand.

Definition poll_into_option (o : PollCommandOutcome) : option DeviceCommand.t :=
  match o with Pending c => Some c | NoCommand => None end.

Inductive PollCommandError := PollStateConflict.

Record AcknowledgeCommandInput := mk_acknowledge {
  ack_device_id : string;
  ack_command_id : CommandId;
  ack_request : CommandAckRequest;
}.

Inductive AcknowledgeCommandOutcome := Completed | RetryRequested | NotFound.

Definition ack_accepted (o : AcknowledgeCommandOutcome) : bool :=
  match o with NotFound => false | _ => true end.

Definition ack_classification (o : AcknowledgeCommandOutcome) : string :=
  match o with
  | Completed => "completed"
  | RetryRequested => "retry_requested"
  | NotFound => "not_found"
  end.

Inductive AcknowledgeCommandError := AckStateConflict | AckPersistence.

Definition AcknowledgeCommandError_fmt (e : AcknowledgeCommandError) : string :=
  match e with
  | AckStateConflict => "persisted command state is internally inconsistent"
  | AckPersistence => "command state could not be persisted"
  end.

Inductive RegisterDeviceOutcome := DeviceCreated | AlreadyRegistered.

Definition register_classification (o : RegisterDeviceOutcome) : string :=
  match o with DeviceCreated => "created" | AlreadyRegistered => "already_registered" end.

Inductive RegisterDeviceError :=
| RegisterStateConflict | RegisterCapacityExceeded | RegisterPersistence.

Definition RegisterDeviceError_fmt (e : RegisterDeviceError) : string :=
  match e with
  | RegisterStateConflict => "persisted device registry is internally inconsistent"
  | RegisterCapacityExceeded => "registered device capacity is exhausted"
  | RegisterPersistence => "device registration state could not be persisted"
  end.

Record HeartbeatOutcome := recorded {
  legacy_config_fingerprint : bool;
  legacy_binary_fingerprint : bool;
}.

Definition heartbeat_classification (o : HeartbeatOutcome) : string :=
  if legacy_config_fingerprint o || legacy_binary_fingerprint o
  then "accepted_with_legacy_fingerprint" else "accepted".

Inductive HeartbeatError :=
| HeartbeatStateConflict | HeartbeatCapacityExceeded | HeartbeatPersistence.

Definition HeartbeatError_fmt (e : HeartbeatError) : string :=
  match e with
  | HeartbeatStateConflict => "persisted device heartbeat state is internally inconsistent"
  | HeartbeatCapacityExceeded => "registered device capacity is exhausted"
  | HeartbeatPersistence => "device heartbeat state could not be persisted"
  end.

Inductive PublicProbeOutcome := Updated | DeviceNotFound.

Definition probe_classification (o : PublicProbeOutcome) : string :=
  match o with Updated => "updated" | DeviceNotFound => "device_not_found" end.

Inductive PublicProbeError := ProbeStateConflict | ProbePersistence.

Definition PublicProbeError_fmt (e : PublicProbeError) : string :=
  match e with
  | ProbeStateConflict => "persisted public-probe device state is internally inconsistent"
  | ProbePersistence => "public-probe state could not be persisted"
  end.

(** ** Fingerprints and scopes *)

Definition COMMAND_REQUEST_DOMAIN : string :=
  "mobile-proxy/control-plane-command-request/v1".
Definition IDEMPOTENCY_SCOPE_DOMAIN : string :=
  "mobile-proxy/control-plane-command-idempotency-scope/v1".

Section Fingerprints.
Context `{Blake3}.

Definition request_fingerprint (device_id : string) (r : IssueCommandRequest.t)
    : ContentDigest :=
  ContentDigest_derive COMMAND_REQUEST_DOMAIN
    [bytes device_id;
     bytes (DesiredState.to_string (IssueCommandRequest.desired_state r));
     bytes (RecoveryIntent.to_string (IssueCommandRequest.recovery_intent r));
     to_be_bytes 8 (as_secs (IssueCommandRequest.deadline_secs r))].

Definition idempotency_scope_key (device_id : string) (key : IdempotencyKey)
    : ContentDigest :=
  ContentDigest_derive IDEMPOTENCY_SCOPE_DOMAIN [bytes device_id; bytes (key_as_str key)].

(** The request a stored command answers. *)
Definition request_for (c : DeviceCommand.t) : IssueCommandRequest.t :=
  IssueCommandRequest.mk (DeviceCommand.desired_state c) (DeviceCommand.recovery_intent c)
    (DeviceCommand.deadline_secs c) (DeviceCommand.idempotency_key c).

Definition classify_existing (existing : DeviceCommand.t) (device_id : string)
    (request : IssueCommandRequest.t) : result DeviceCommand.t IssueCommandError :=
  if bool_decide (DeviceCommand.idempotency_key existing
                  = IssueCommandRequest.idempotency_key request)
     && bool_decide (request_fingerprint (DeviceCommand.device_id existing)
                       (request_for existing)
                     = request_fingerprint device_id request)
  then Ok existing
  else Err IdempotencyConflict.

(** ** Theorems *)

(** No two of the byte streams that are hashed here meet in one digest. *)
Definition scopes_separated : Prop :=
  forall d1 k1 d2 k2, idempotency_scope_key d1 k1 = idempotency_scope_key d2 k2 ->
    d1 = d2 /\ k1 = k2.

(** The frames hashed for a request determine the request up to its key. *)
Definition request_frames (device_id : string) (r : IssueCommandRequest.t) : list (list Z) :=
  [bytes device_id;
   bytes (DesiredState.to_string (IssueCommandRequest.desired_state r));
   bytes (RecoveryIntent.to_string (IssueCommandRequest.recovery_intent r));
   to_be_bytes 8 (as_secs (IssueCommandRequest.deadline_secs r))].

Lemma desired_state_to_string_inj a b :
  DesiredState.to_string a = DesiredState.to_string b -> a = b.
Proof. by destruct a, b. Qed.

Lemma recovery_intent_to_string_inj a b :
  RecoveryIntent.to_string a = RecoveryIntent.to_string b -> a = b.
Proof. by destruct a, b. Qed.
End Fingerprints.

(** The exact meaning of the conflict test, without any assumption on the hash:
    equal keys and equal hashes of the framed requests. *)
Lemma classify_existing_Ok `{Blake3} existing device_id request c :
  classify_existing existing device_id request = Ok c <->
  c = existing
  /\ DeviceCommand.idempotency_key existing = IssueCommandRequest.idempotency_key request
  /\ request_fingerprint (DeviceCommand.device_id existing) (request_for existing)
     = request_fingerprint device_id request.
Proof.
  unfold classify_existing. split.
  - case_if; [|done]. intros [= <-]. by bools.
  - intros (-> & H1 & H2). by rewrite !bool_decide_true.
Qed.
