(* ===== verification/Devices.v ===== *)
(** * Device records and their projection

    [crates/proxy-core/src/records.rs], [fingerprints.rs] and
    [services/control-plane/src/projection.rs]: what a device reports, what the
    control plane stores for it, and how reports become records. *)

From stdpp Require Import base gmap strings list.
From Stdlib Require Import ZArith Lia String.
From S2P Require Import Prelude Text Foundation RuntimeProjection.
Local Open Scope string_scope.
Local Open Scope Z_scope.

(** ** Fingerprints *)

Inductive FingerprintInputError := UnsupportedAlgorithmDomainOrVersion | InvalidLegacyValue.

Definition FingerprintInputError_fmt (e : FingerprintInputError) : string :=
  match e with
  | UnsupportedAlgorithmDomainOrVersion =>
      "fingerprint algorithm, domain or version is unsupported"
  | InvalidLegacyValue => "legacy fingerprint value is invalid"
  end.

Definition CONFIG_FINGERPRINT_DOMAIN : string :=
  "mobile-proxy/host-daemon-nonsecret-config/v1".
Definition BINARY_FINGERPRINT_DOMAIN : string := "mobile-proxy/host-daemon-binary/v1".

Definition legacy_opaque_value (raw : string) : bool :=
  negb (bool_decide (raw = "")) && (len raw <=? 256) && negb (contains ":" raw)
  && all_bytes is_ascii_graphic raw.

Section Fingerprints.
Context `{Blake3}.

(** [ConfigFingerprint] and [BinaryFingerprint]: digests of one domain each. *)
Definition Fingerprint : Type := ContentDigest.

Definition fingerprint_derive (domain : string) (parts : list (list Z)) : Fingerprint :=
  ContentDigest_derive domain parts.

(** [ConfigFingerprintInput] and [BinaryFingerprintInput]. *)
Inductive FingerprintInput :=
| Current (value : Fingerprint)
| LegacyOpaque (raw : string).

Definition fingerprint_parse (raw : string)
    : result FingerprintInput FingerprintInputError :=
  if starts_with "b3:" raw then
    map_err (fun _ => UnsupportedAlgorithmDomainOrVersion)
      (result_map Current (ContentDigest_deserialize raw))
  else if contains ":" raw then Err UnsupportedAlgorithmDomainOrVersion
  else if legacy_opaque_value raw then Ok (LegacyOpaque raw)
  else Err InvalidLegacyValue.

Definition current_value (i : FingerprintInput) : option Fingerprint :=
  match i with Current v => Some v | LegacyOpaque _ => None end.

Definition is_legacy (i : FingerprintInput) : bool :=
  match i with LegacyOpaque _ => true | Current _ => false end.

Definition fingerprint_serialize (i : FingerprintInput) : string :=
  match i with Current v => ContentDigest_serialize v | LegacyOpaque raw => raw end.

(** [deserialize_optional_config_fingerprint] and its binary twin. *)
Definition deserialize_optional_fingerprint (raw : option string)
    : result (option Fingerprint) FingerprintInputError :=
  match raw with
  | None => Ok None
  | Some r => result_map current_value (fingerprint_parse r)
  end.
End Fingerprints.

(** ** Records *)

Module RegisterDeviceRequest.
Record t := mk {
  node_id : string;
  node_name : string;
  proxy_status : string;
  tunnel_owner : option string;
}.
End RegisterDeviceRequest.

Module HeartbeatRequest.
Record t `{Blake3} := mk {
  node_id : string;
  node_name : string;
  readiness_state : string;
  serving : bool;
  proxy_status : string;
  proxy_pid : option Z;
  last_public_ip : option string;
  current_job : option Uuid;
  last_proxy_error : option string;
  version : option string;
  config_fingerprint : option FingerprintInput;
  binary_fingerprint : option FingerprintInput;
  active_operator_profile : option string;
  active_operator_plmn : option string;
  cellular_route_ready : option bool;
  proxy_bind_ready : option bool;
  local_serving_ready : option bool;
  tun0_present : option bool;
  wg_handshake_recent : option bool;
  reverse_tunnel_connected : option bool;
  reverse_tunnel_last_error : option string;
  reverse_tunnel_active_transport : option string;
  reverse_tunnel_freshness : option string;
  reverse_tunnel_failover_reason : option string;
  tunnel_owner : option string;
}.
End HeartbeatRequest.

Module PublicProbeReport.
Record t := mk {
  publicly_serving : bool;
  public_probe_error : option string;
  public_probe_at : string;
}.
End PublicProbeReport.

Module DeviceRecord.
Record t `{Blake3} := mk {
  node_id : string;
  node_name : string;
  readiness_state : string;
  serving : bool;
  proxy_status : string;
  proxy_pid : option Z;
  last_public_ip : option string;
  current_job : option Uuid;
  last_proxy_error : option string;
  version : option string;
  config_fingerprint : option Fingerprint;
  binary_fingerprint : option Fingerprint;
  active_operator_profile : option string;
  active_operator_plmn : option string;
  publicly_serving : bool;
  public_probe_error : option string;
  public_probe_at : option string;
  cellular_route_ready : option bool;
  proxy_bind_ready : option bool;
  local_serving_ready : option bool;
  tun0_present : option bool;
  wg_handshake_recent : option bool;
  reverse_tunnel_connected : option bool;
  reverse_tunnel_last_error : option string;
  reverse_tunnel_active_transport : option string;
  reverse_tunnel_freshness : option string;
  reverse_tunnel_failover_reason : option string;
  tunnel_owner : option string;
  last_heartbeat_at : option string;
  availability : string;
  degradation_reason_code : option string;
  serving_failure_reason : option string;
  desired_state : option string;
  recovery_intent : option string;
  last_event_at : option string;
}.
End DeviceRecord.

(** ** Projection *)

Definition TUNNEL_ACTIVE_TRANSPORTS : list string := ["tcp"; "quic"; "tls_tcp"].
Definition TUNNEL_FRESHNESS_VALUES : list string := ["unknown"; "fresh"; "stale"].
Definition TUNNEL_FAILOVER_REASONS : list string :=
  ["connect_timeout"; "connect_failed"; "authentication_failed"; "session_closed";
   "session_error"].

Definition bounded_tunnel_value (value : option string) (allowed : list string)
    : option string :=
  option_filter (fun candidate => bool_decide (candidate ∈ allowed)) value.

Definition normalize_tunnel_observability (connected : option bool)
    (active_transport freshness failover_reason : option string)
    : option string * option string * option string :=
  let freshness := bounded_tunnel_value freshness TUNNEL_FRESHNESS_VALUES in
  let active_transport := bounded_tunnel_value active_transport TUNNEL_ACTIVE_TRANSPORTS in
  let active_transport :=
    if bool_decide (connected = Some true) && bool_decide (freshness = Some "fresh")
    then active_transport else None in
  (active_transport, freshness, bounded_tunnel_value failover_reason TUNNEL_FAILOVER_REASONS).

Section Projection.
Context `{Blake3}.

(** [now] is [now_unix_secs()]. *)
Definition build_registered_device (now : string) (req : RegisterDeviceRequest.t)
    : DeviceRecord.t :=
  let p := project_runtime
    (RuntimeProjectionInput.mk "booting" false false None None None None) in
  {| DeviceRecord.node_id := RegisterDeviceRequest.node_id req;
     DeviceRecord.node_name := RegisterDeviceRequest.node_name req;
     DeviceRecord.readiness_state := RuntimeProjection.readiness_state p;
     DeviceRecord.serving := RuntimeProjection.serving p;
     DeviceRecord.proxy_status := RegisterDeviceRequest.proxy_status req;
     DeviceRecord.proxy_pid := None;
     DeviceRecord.last_public_ip := None;
     DeviceRecord.current_job := None;
     DeviceRecord.last_proxy_error := None;
     DeviceRecord.version := None;
     DeviceRecord.config_fingerprint := None;
     DeviceRecord.binary_fingerprint := None;
     DeviceRecord.active_operator_profile := None;
     DeviceRecord.active_operator_plmn := None;
     DeviceRecord.publicly_serving := false;
     DeviceRecord.public_probe_error := None;
     DeviceRecord.public_probe_at := None;
     DeviceRecord.cellular_route_ready := None;
     DeviceRecord.proxy_bind_ready := None;
     DeviceRecord.local_serving_ready := None;
     DeviceRecord.tun0_present := None;
     DeviceRecord.wg_handshake_recent := None;
     DeviceRecord.reverse_tunnel_connected := None;
     DeviceRecord.reverse_tunnel_last_error := None;
     DeviceRecord.reverse_tunnel_active_transport := None;
     DeviceRecord.reverse_tunnel_freshness := None;
     DeviceRecord.reverse_tunnel_failover_reason := None;
     DeviceRecord.tunnel_owner := RegisterDeviceRequest.tunnel_owner req;
     DeviceRecord.last_heartbeat_at := None;
     DeviceRecord.availability := RuntimeProjection.availability p;
     DeviceRecord.degradation_reason_code := RuntimeProjection.degradation_reason_code p;
     DeviceRecord.serving_failure_reason := RuntimeProjection.serving_failure_reason p;
     DeviceRecord.desired_state := Some "degraded_safe";
     DeviceRecord.recovery_intent := Some "none";
     DeviceRecord.last_event_at := Some now |}.

Definition build_heartbeat_device (now : string) (req : HeartbeatRequest.t)
    (publicly_serving : bool) (public_probe_error public_probe_at : option string)
    : DeviceRecord.t :=
  let p := project_runtime
    (RuntimeProjectionInput.mk (HeartbeatRequest.readiness_state req)
       (HeartbeatRequest.serving req) publicly_serving (HeartbeatRequest.current_job req)
       (HeartbeatRequest.cellular_route_ready req) (HeartbeatRequest.proxy_bind_ready req)
       (HeartbeatRequest.local_serving_ready req)) in
  let '(active_transport, freshness, failover_reason) :=
    normalize_tunnel_observability (HeartbeatRequest.reverse_tunnel_connected req)
      (HeartbeatRequest.reverse_tunnel_active_transport req)
      (HeartbeatRequest.reverse_tunnel_freshness req)
      (HeartbeatRequest.reverse_tunnel_failover_reason req) in
  {| DeviceRecord.node_id := HeartbeatRequest.node_id req;
     DeviceRecord.node_name := HeartbeatRequest.node_name req;
     DeviceRecord.readiness_state := RuntimeProjection.readiness_state p;
     DeviceRecord.serving := RuntimeProjection.serving p;
     DeviceRecord.proxy_status := HeartbeatRequest.proxy_status req;
     DeviceRecord.proxy_pid := HeartbeatRequest.proxy_pid req;
     DeviceRecord.last_public_ip := HeartbeatRequest.last_public_ip req;
     DeviceRecord.current_job := HeartbeatRequest.current_job req;
     DeviceRecord.last_proxy_error := HeartbeatRequest.last_proxy_error req;
     DeviceRecord.version := HeartbeatRequest.version req;
     DeviceRecord.config_fingerprint := HeartbeatRequest.config_fingerprint req ≫= current_value;
     DeviceRecord.binary_fingerprint := HeartbeatRequest.binary_fingerprint req ≫= current_value;
     DeviceRecord.active_operator_profile := HeartbeatRequest.active_operator_profile req;
     DeviceRecord.active_operator_plmn := HeartbeatRequest.active_operator_plmn req;
     DeviceRecord.publicly_serving := publicly_serving;
     DeviceRecord.public_probe_error := public_probe_error;
     DeviceRecord.public_probe_at := public_probe_at;
     DeviceRecord.cellular_route_ready := HeartbeatRequest.cellular_route_ready req;
     DeviceRecord.proxy_bind_ready := HeartbeatRequest.proxy_bind_ready req;
     DeviceRecord.local_serving_ready := HeartbeatRequest.local_serving_ready req;
     DeviceRecord.tun0_present := HeartbeatRequest.tun0_present req;
     DeviceRecord.wg_handshake_recent := HeartbeatRequest.wg_handshake_recent req;
     DeviceRecord.reverse_tunnel_connected := HeartbeatRequest.reverse_tunnel_connected req;
     DeviceRecord.reverse_tunnel_last_error := HeartbeatRequest.reverse_tunnel_last_error req;
     DeviceRecord.reverse_tunnel_active_transport := active_transport;
     DeviceRecord.reverse_tunnel_freshness := freshness;
     DeviceRecord.reverse_tunnel_failover_reason := failover_reason;
     DeviceRecord.tunnel_owner := HeartbeatRequest.tunnel_owner req;
     DeviceRecord.last_heartbeat_at := Some now;
     DeviceRecord.availability := RuntimeProjection.availability p;
     DeviceRecord.degradation_reason_code := RuntimeProjection.degradation_reason_code p;
     DeviceRecord.serving_failure_reason := RuntimeProjection.serving_failure_reason p;
     DeviceRecord.desired_state := Some "healthy_serving";
     DeviceRecord.recovery_intent := Some "none";
     DeviceRecord.last_event_at := Some now |}.

(** The projection input a stored device stands for. *)
Definition device_projection_input (d : DeviceRecord.t) (publicly_serving : bool)
    : RuntimeProjectionInput.t :=
  RuntimeProjectionInput.mk (DeviceRecord.readiness_state d) (DeviceRecord.serving d)
    publicly_serving (DeviceRecord.current_job d) (DeviceRecord.cellular_route_ready d)
    (DeviceRecord.proxy_bind_ready d) (DeviceRecord.local_serving_ready d).

(** Every field the projection or the probe does not set is kept. *)
Definition with_projection (d : DeviceRecord.t) (p : RuntimeProjection.t)
    (publicly_serving : bool) (probe_error probe_at event_at : option string)
    : DeviceRecord.t :=
  {| DeviceRecord.node_id := DeviceRecord.node_id d;
     DeviceRecord.node_name := DeviceRecord.node_name d;
     DeviceRecord.readiness_state := RuntimeProjection.readiness_state p;
     DeviceRecord.serving := RuntimeProjection.serving p;
     DeviceRecord.proxy_status := DeviceRecord.proxy_status d;
     DeviceRecord.proxy_pid := DeviceRecord.proxy_pid d;
     DeviceRecord.last_public_ip := DeviceRecord.last_public_ip d;
     DeviceRecord.current_job := DeviceRecord.current_job d;
     DeviceRecord.last_proxy_error := DeviceRecord.last_proxy_error d;
     DeviceRecord.version := DeviceRecord.version d;
     DeviceRecord.config_fingerprint := DeviceRecord.config_fingerprint d;
     DeviceRecord.binary_fingerprint := DeviceRecord.binary_fingerprint d;
     DeviceRecord.active_operator_profile := DeviceRecord.active_operator_profile d;
     DeviceRecord.active_operator_plmn := DeviceRecord.active_operator_plmn d;
     DeviceRecord.publicly_serving := publicly_serving;
     DeviceRecord.public_probe_error := probe_error;
     DeviceRecord.public_probe_at := probe_at;
     DeviceRecord.cellular_route_ready := DeviceRecord.cellular_route_ready d;
     DeviceRecord.proxy_bind_ready := DeviceRecord.proxy_bind_ready d;
     DeviceRecord.local_serving_ready := DeviceRecord.local_serving_ready d;
     DeviceRecord.tun0_present := DeviceRecord.tun0_present d;
     DeviceRecord.wg_handshake_recent := DeviceRecord.wg_handshake_recent d;
     DeviceRecord.reverse_tunnel_connected := DeviceRecord.reverse_tunnel_connected d;
     DeviceRecord.reverse_tunnel_last_error := DeviceRecord.reverse_tunnel_last_error d;
     DeviceRecord.reverse_tunnel_active_transport := DeviceRecord.reverse_tunnel_active_transport d;
     DeviceRecord.reverse_tunnel_freshness := DeviceRecord.reverse_tunnel_freshness d;
     DeviceRecord.reverse_tunnel_failover_reason := DeviceRecord.reverse_tunnel_failover_reason d;
     DeviceRecord.tunnel_owner := DeviceRecord.tunnel_owner d;
     DeviceRecord.last_heartbeat_at := DeviceRecord.last_heartbeat_at d;
     DeviceRecord.availability := RuntimeProjection.availability p;
     DeviceRecord.degradation_reason_code := RuntimeProjection.degradation_reason_code p;
     DeviceRecord.serving_failure_reason := RuntimeProjection.serving_failure_reason p;
     DeviceRecord.desired_state := DeviceRecord.desired_state d;
     DeviceRecord.recovery_intent := DeviceRecord.recovery_intent d;
     DeviceRecord.last_event_at := event_at |}.

(** [probe_now] and [event_now] are the two clock reads. *)
Definition apply_public_probe (probe_now event_now : string) (d : DeviceRecord.t)
    (req : PublicProbeReport.t) : DeviceRecord.t :=
  let p := project_runtime
    (device_projection_input d (PublicProbeReport.publicly_serving req)) in
  with_projection d p (PublicProbeReport.publicly_serving req)
    (PublicProbeReport.public_probe_error req) (Some probe_now) (Some event_now).

(** The fields a command changes on its device. *)
Definition with_command_fields (d : DeviceRecord.t)
    (desired recovery event_at : option string) : DeviceRecord.t :=
  {| DeviceRecord.node_id := DeviceRecord.node_id d;
     DeviceRecord.node_name := DeviceRecord.node_name d;
     DeviceRecord.readiness_state := DeviceRecord.readiness_state d;
     DeviceRecord.serving := DeviceRecord.serving d;
     DeviceRecord.proxy_status := DeviceRecord.proxy_status d;
     DeviceRecord.proxy_pid := DeviceRecord.proxy_pid d;
     DeviceRecord.last_public_ip := DeviceRecord.last_public_ip d;
     DeviceRecord.current_job := DeviceRecord.current_job d;
     DeviceRecord.last_proxy_error := DeviceRecord.last_proxy_error d;
     DeviceRecord.version := DeviceRecord.version d;
     DeviceRecord.config_fingerprint := DeviceRecord.config_fingerprint d;
     DeviceRecord.binary_fingerprint := DeviceRecord.binary_fingerprint d;
     DeviceRecord.active_operator_profile := DeviceRecord.active_operator_profile d;
     DeviceRecord.active_operator_plmn := DeviceRecord.active_operator_plmn d;
     DeviceRecord.publicly_serving := DeviceRecord.publicly_serving d;
     DeviceRecord.public_probe_error := DeviceRecord.public_probe_error d;
     DeviceRecord.public_probe_at := DeviceRecord.public_probe_at d;
     DeviceRecord.cellular_route_ready := DeviceRecord.cellular_route_ready d;
     DeviceRecord.proxy_bind_ready := DeviceRecord.proxy_bind_ready d;
     DeviceRecord.local_serving_ready := DeviceRecord.local_serving_ready d;
     DeviceRecord.tun0_present := DeviceRecord.tun0_present d;
     DeviceRecord.wg_handshake_recent := DeviceRecord.wg_handshake_recent d;
     DeviceRecord.reverse_tunnel_connected := DeviceRecord.reverse_tunnel_connected d;
     DeviceRecord.reverse_tunnel_last_error := DeviceRecord.reverse_tunnel_last_error d;
     DeviceRecord.reverse_tunnel_active_transport := DeviceRecord.reverse_tunnel_active_transport d;
     DeviceRecord.reverse_tunnel_freshness := DeviceRecord.reverse_tunnel_freshness d;
     DeviceRecord.reverse_tunnel_failover_reason := DeviceRecord.reverse_tunnel_failover_reason d;
     DeviceRecord.tunnel_owner := DeviceRecord.tunnel_owner d;
     DeviceRecord.last_heartbeat_at := DeviceRecord.last_heartbeat_at d;
     DeviceRecord.availability := DeviceRecord.availability d;
     DeviceRecord.degradation_reason_code := DeviceRecord.degradation_reason_code d;
     DeviceRecord.serving_failure_reason := DeviceRecord.serving_failure_reason d;
     DeviceRecord.desired_state := desired;
     DeviceRecord.recovery_intent := recovery;
     DeviceRecord.last_event_at := event_at |}.
End Projection.

(** ** Theorems *)

Section DeviceTheorems.
Context `{Blake3}.

(** What is stored about serving is exactly the projection of the stored facts. *)
Definition projected (d : DeviceRecord.t) : Prop :=
  RuntimeProjection.mk (DeviceRecord.readiness_state d) (DeviceRecord.serving d)
    (DeviceRecord.availability d) (DeviceRecord.degradation_reason_code d)
    (DeviceRecord.serving_failure_reason d)
  = project_runtime (device_projection_input d (DeviceRecord.publicly_serving d)).

(** The tunnel fields hold only known words, and a transport only for a tunnel
    reported connected and fresh. *)
Definition tunnel_bounded (d : DeviceRecord.t) : Prop :=
  (forall v, DeviceRecord.reverse_tunnel_active_transport d = Some v ->
     v ∈ TUNNEL_ACTIVE_TRANSPORTS
     /\ DeviceRecord.reverse_tunnel_connected d = Some true
     /\ DeviceRecord.reverse_tunnel_freshness d = Some "fresh")
  /\ (forall v, DeviceRecord.reverse_tunnel_freshness d = Some v ->
        v ∈ TUNNEL_FRESHNESS_VALUES)
  /\ (forall v, DeviceRecord.reverse_tunnel_failover_reason d = Some v ->
        v ∈ TUNNEL_FAILOVER_REASONS).

Definition device_ok (d : DeviceRecord.t) : Prop := projected d /\ tunnel_bounded d.

Lemma project_runtime_reproject i :
  project_runtime (RuntimeProjectionInput.mk
    (RuntimeProjection.readiness_state (project_runtime i))
    (RuntimeProjection.serving (project_runtime i))
    (RuntimeProjectionInput.publicly_serving i) (RuntimeProjectionInput.current_job i)
    (RuntimeProjectionInput.cellular_route_ready i) (RuntimeProjectionInput.proxy_bind_ready i)
    (RuntimeProjectionInput.local_serving_ready i)) = project_runtime i.
Proof.
  by apply (project_runtime_idempotent i (RuntimeProjectionInput.publicly_serving i)).
Qed.

Lemma runtime_projection_eta p :
  RuntimeProjection.mk (RuntimeProjection.readiness_state p) (RuntimeProjection.serving p)
    (RuntimeProjection.availability p) (RuntimeProjection.degradation_reason_code p)
    (RuntimeProjection.serving_failure_reason p) = p.
Proof. by destruct p. Qed.

Lemma bounded_tunnel_value_Some value allowed v :
  bounded_tunnel_value value allowed = Some v -> v ∈ allowed.
Proof. intros [_ Hv]%option_filter_Some. by bools. Qed.

Lemma normalize_tunnel_bounded connected transport freshness failover t f r :
  normalize_tunnel_observability connected transport freshness failover = (t, f, r) ->
  (forall v, t = Some v -> v ∈ TUNNEL_ACTIVE_TRANSPORTS
     /\ connected = Some true /\ f = Some "fresh")
  /\ (forall v, f = Some v -> v ∈ TUNNEL_FRESHNESS_VALUES)
  /\ (forall v, r = Some v -> v ∈ TUNNEL_FAILOVER_REASONS).
Proof.
  unfold normalize_tunnel_observability. intros [= <- <- <-].
  split; [|split; intros v Hv; by eapply bounded_tunnel_value_Some].
  intros v. case_if; [|done]. intros Hv. bools.
  split; [by eapply bounded_tunnel_value_Some|done].
Qed.

Lemma build_heartbeat_device_ok now req ps pe pa :
  device_ok (build_heartbeat_device now req ps pe pa).
Proof.
  unfold device_ok, projected, tunnel_bounded, build_heartbeat_device.
  destruct (normalize_tunnel_observability _ _ _ _) as [[t f] r] eqn:Hn.
  apply normalize_tunnel_bounded in Hn.
  cbn -[project_runtime]. unfold device_projection_input. cbn -[project_runtime].
  rewrite runtime_projection_eta. split; [|exact Hn]. symmetry.
  apply (project_runtime_reproject (RuntimeProjectionInput.mk _ _ _ _ _ _ _)).
Qed.

Lemma build_registered_device_ok now req : device_ok (build_registered_device now req).
Proof. repeat split; intros; done. Qed.

Lemma apply_public_probe_ok probe_now event_now d req :
  device_ok d -> device_ok (apply_public_probe probe_now event_now d req).
Proof.
  intros [_ Ht]. split; [|exact Ht].
  unfold projected, apply_public_probe, with_projection.
  unfold device_projection_input at 6. cbn -[project_runtime device_projection_input].
  rewrite runtime_projection_eta. symmetry.
  apply (project_runtime_reproject
           (device_projection_input d (PublicProbeReport.publicly_serving req))).
Qed.

Lemma with_command_fields_ok d x y z : device_ok d -> device_ok (with_command_fields d x y z).
Proof. done. Qed.
End DeviceTheorems.

(** Parsing a fingerprint accepts exactly current digests and bounded legacy
    text without a colon; what it accepts is printed back unchanged, and any
    other prefix is refused as unsupported. *)
Theorem fingerprint_parse_iff `{Blake3Laws} (raw : string) (i : FingerprintInput) :
  (fingerprint_parse raw = Ok i <->
     fingerprint_serialize i = raw
     /\ match i with
        | Current _ => True
        | LegacyOpaque r => legacy_opaque_value r = true
        end)
  /\ (contains ":" raw = true -> starts_with "b3:" raw = false ->
      fingerprint_parse raw = Err UnsupportedAlgorithmDomainOrVersion).
Proof.
  split.
  2:{ intros Hc Hs. unfold fingerprint_parse. by rewrite Hs, Hc. }
  unfold fingerprint_parse, fingerprint_serialize, ContentDigest_serialize,
    ContentDigest_deserialize. split.
  - destruct (starts_with "b3:" raw) eqn:Hp.
    + intros Hr. apply map_err_Ok in Hr.
      destruct (ContentDigest_from_str raw) as [d|e] eqn:Hd; simpl in Hr; [|done].
      injection Hr as <-. split; [|done]. by apply content_digest_from_str_text.
    + destruct (contains ":" raw); [done|].
      destruct (legacy_opaque_value raw) eqn:Hl; [|done]. by intros [= <-].
  - intros [Hs Hl]. destruct i as [d|r]; subst raw.
    + assert (starts_with "b3:" (ContentDigest_to_string d) = true) as ->
        by (unfold starts_with, ContentDigest_to_string; by rewrite strip_prefix_app).
      by rewrite content_digest_roundtrip.
    + assert (contains ":" r = false) as Hc.
      { unfold legacy_opaque_value in Hl. by bools. }
      rewrite Hc, Hl. destruct (starts_with "b3:" r) eqn:Hb; [|done]. exfalso.
      unfold starts_with in Hb. destruct (strip_prefix "b3:" r) as [s|] eqn:Hr; [|done].
      apply strip_prefix_Some in Hr. subst r. done.
Qed.

Module DemoFingerprint.
Import Foundation.Concrete.

Lemma fingerprint_parse_iff_witness :
  fingerprint_parse "legacy-value" = Ok (LegacyOpaque "legacy-value").
Proof.
  apply (fingerprint_parse_iff "legacy-value" (LegacyOpaque "legacy-value")).
  split; reflexivity.
Defined.
End DemoFingerprint.
