(* ===== verification/Snapshot.v ===== *)
(** * Control-plane snapshots

    The row form of the control plane's state and its validation,
    [crates/control-plane-sqlite/src/{snapshot,snapshot_rows,snapshot_validation,
    snapshot_error}.rs].  A snapshot is only ever built from rows that passed
    [validate_rows]. *)

From stdpp Require Import base gmap strings list fin_maps sorting.
From Stdlib Require Import ZArith Lia String.
From S2P Require Import Prelude Ordered Text Foundation Commands Devices.
Local Open Scope string_scope.
Local Open Scope Z_scope.

(** ** Violations *)

Inductive SnapshotViolation :=
| UnsupportedSchemaVersion (found supported : Z)
| DeviceCapacityExceeded | ReplayCapacityExceeded | PendingCapacityExceeded
| DeviceQueueCapacityExceeded | DeviceKeyMismatch | DuplicateDevice | EmptyDeviceId
| CommandResultIdentityMismatch | ReplayScopeMismatch | DuplicateReplayScope
| DuplicateCommandId | DuplicateClaimScope | ClaimResultMissing | ClaimCommandMismatch
| ReplayEvidenceMismatch | ReplayClaimMissing | PendingIdentityMismatch
| PendingDeviceMismatch | DuplicatePendingCommand | DuplicateQueuePosition
| NonContiguousQueuePosition | PendingReplayMissing | PendingReplayMismatch.

Definition SnapshotViolation_fmt (u32_to_string : Z -> string) (v : SnapshotViolation) : string :=
  match v with
  | UnsupportedSchemaVersion found supported =>
      "unsupported snapshot schema version " ++ u32_to_string found
        ++ "; supported version is " ++ u32_to_string supported
  | DeviceCapacityExceeded => "device capacity is exceeded"
  | ReplayCapacityExceeded => "replay capacity is exceeded"
  | PendingCapacityExceeded => "pending command capacity is exceeded"
  | DeviceQueueCapacityExceeded => "per-device command capacity is exceeded"
  | DeviceKeyMismatch => "device row key does not match the canonical record"
  | DuplicateDevice => "device row is duplicated"
  | EmptyDeviceId => "device identity is empty"
  | CommandResultIdentityMismatch => "command-result row identity does not match its result"
  | ReplayScopeMismatch => "replay scope does not match the original command"
  | DuplicateReplayScope => "replay scope is duplicated"
  | DuplicateCommandId => "command identity is duplicated"
  | DuplicateClaimScope => "idempotency claim scope is duplicated"
  | ClaimResultMissing => "idempotency claim has no durable command result"
  | ClaimCommandMismatch => "idempotency claim references another command"
  | ReplayEvidenceMismatch => "request fingerprint does not match the original command"
  | ReplayClaimMissing => "durable command result has no idempotency claim"
  | PendingIdentityMismatch => "pending row identity does not match its command"
  | PendingDeviceMismatch => "pending command is bound to another device"
  | DuplicatePendingCommand => "pending command is duplicated"
  | DuplicateQueuePosition => "pending queue position is duplicated"
  | NonContiguousQueuePosition => "pending queue positions are not contiguous from zero"
  | PendingReplayMissing => "pending command has no durable replay result"
  | PendingReplayMismatch => "pending command differs from its durable replay result"
  end.

(** ** Rows *)

Module DeviceRow.
Record t `{Blake3} := mk { node_id : string; record : DeviceRecord.t }.
Arguments mk {_}.
End DeviceRow.

Module CommandResultRow.
Record t `{Blake3} := mk {
  scope_key : ContentDigest;
  command_id : CommandId;
  result : DeviceCommand.t;
}.
Arguments mk {_}.
End CommandResultRow.

Module IdempotencyClaimRow.
Record t `{Blake3} := mk {
  scope_key : ContentDigest;
  command_id : CommandId;
  request_fingerprint : ContentDigest;
}.
Arguments mk {_}.
End IdempotencyClaimRow.

Module PendingCommandRow.
Record t := mk {
  command_id : CommandId;
  device_id : string;
  queue_position : Z;
  command : DeviceCommand.t;
}.
End PendingCommandRow.

Module SnapshotRows.
Record t `{Blake3} := mk {
  devices : list DeviceRow.t;
  command_results : list CommandResultRow.t;
  idempotency_claims : list IdempotencyClaimRow.t;
  pending_commands : list PendingCommandRow.t;
}.
Arguments mk {_}.
End SnapshotRows.

Module ReplayRecord.
Record t `{Blake3} := mk {
  scope_key : ContentDigest;
  request_fingerprint : ContentDigest;
  command : DeviceCommand.t;
}.
Arguments mk {_}.
End ReplayRecord.

Module ControlPlaneSnapshot.
Record t `{Blake3} := mk {
  devices : gmap string DeviceRecord.t;
  queues : gmap string (list DeviceCommand.t);
  replay_records : list ReplayRecord.t;
}.
Arguments mk {_}.

Definition empty `{Blake3} : t := mk ∅ ∅ [].
End ControlPlaneSnapshot.

(** What the loops of [validate_rows] accumulate: [results_by_scope] and
    [result_scope_by_command], [claims_by_scope], [pending_ids] and
    [pending_by_device]. *)
Abbreviation Results :=
  (gmap string (ContentDigest * DeviceCommand.t) * gmap string string)%type.
Abbreviation Claims := (gmap string (CommandId * ContentDigest)).
Abbreviation Pendings := (gset string * gmap string (gmap Z DeviceCommand.t))%type.

Section Snapshot.
Context `{Blake3, UuidText}.

(** ** Validation

    One definition per loop body of [validate_rows]. *)

Definition command_scope (c : DeviceCommand.t) : ContentDigest :=
  idempotency_scope_key (DeviceCommand.device_id c) (DeviceCommand.idempotency_key c).

Definition command_fingerprint (c : DeviceCommand.t) : ContentDigest :=
  request_fingerprint (DeviceCommand.device_id c) (request_for c).

Definition validate_device (devices : gmap string DeviceRecord.t) (row : DeviceRow.t)
    : result (gmap string DeviceRecord.t) SnapshotViolation :=
  let node_id := DeviceRow.node_id row in
  let record := DeviceRow.record row in
  if bool_decide (node_id = "") || negb (bool_decide (DeviceRecord.node_id record = node_id))
  then Err DeviceKeyMismatch
  else if is_some (devices !! node_id) then Err DuplicateDevice
  else Ok (<[node_id := record]> devices).

Definition validate_result (acc : Results) (row : CommandResultRow.t)
    : result Results SnapshotViolation :=
  let '(by_scope, by_command) := acc in
  let command := CommandResultRow.result row in
  let scope_key := CommandResultRow.scope_key row in
  let scope_text := ContentDigest_to_string scope_key in
  let id_text := uuid_identifier_to_string (CommandResultRow.command_id row) in
  if bool_decide (DeviceCommand.device_id command = "") then Err EmptyDeviceId
  else if negb (bool_decide (CommandResultRow.command_id row = DeviceCommand.command_id command))
  then Err CommandResultIdentityMismatch
  else if negb (bool_decide (scope_key = command_scope command)) then Err ReplayScopeMismatch
  else if is_some (by_scope !! scope_text) then Err DuplicateReplayScope
  else if is_some (by_command !! id_text) then Err DuplicateCommandId
  else Ok (<[scope_text := (scope_key, command)]> by_scope, <[id_text := scope_text]> by_command).

Definition validate_claim (by_scope : gmap string (ContentDigest * DeviceCommand.t))
    (claims : Claims) (row : IdempotencyClaimRow.t) : result Claims SnapshotViolation :=
  let scope_text := ContentDigest_to_string (IdempotencyClaimRow.scope_key row) in
  let id := IdempotencyClaimRow.command_id row in
  let fingerprint := IdempotencyClaimRow.request_fingerprint row in
  if is_some (claims !! scope_text) then Err DuplicateClaimScope
  else match by_scope !! scope_text with
  | None => Err ClaimResultMissing
  | Some (_, command) =>
      if negb (bool_decide (id = DeviceCommand.command_id command)) then Err ClaimCommandMismatch
      else if negb (bool_decide (fingerprint = command_fingerprint command))
      then Err ReplayEvidenceMismatch
      else Ok (<[scope_text := (id, fingerprint)]> claims)
  end.

Definition positions_of (by_device : gmap string (gmap Z DeviceCommand.t)) (device : string)
    : gmap Z DeviceCommand.t := default ∅ (by_device !! device).

Definition validate_pending (results : Results) (acc : Pendings) (row : PendingCommandRow.t)
    : result Pendings SnapshotViolation :=
  let '(by_scope, by_command) := results in
  let '(ids, by_device) := acc in
  let command := PendingCommandRow.command row in
  let device_id := PendingCommandRow.device_id row in
  let position := PendingCommandRow.queue_position row in
  let id_text := uuid_identifier_to_string (PendingCommandRow.command_id row) in
  if bool_decide (device_id = "") || bool_decide (DeviceCommand.device_id command = "")
  then Err EmptyDeviceId
  else if negb (bool_decide (PendingCommandRow.command_id row = DeviceCommand.command_id command))
  then Err PendingIdentityMismatch
  else if negb (bool_decide (device_id = DeviceCommand.device_id command))
  then Err PendingDeviceMismatch
  else if bool_decide (id_text ∈ ids) then Err DuplicatePendingCommand
  else match by_command !! id_text with
  | None => Err PendingReplayMissing
  | Some scope =>
      match by_scope !! scope with
      | None => Err PendingReplayMissing
      | Some (_, replay_command) =>
          if negb (bool_decide (replay_command = command)) then Err PendingReplayMismatch
          else
            let positions := positions_of by_device device_id in
            if is_some (positions !! position) then Err DuplicateQueuePosition
            else
              let positions' := <[position := command]> positions in
              if (MAX_COMMAND_QUEUE_PER_DEVICE <? size positions')%nat
              then Err DeviceQueueCapacityExceeded
              else Ok ({[id_text]} ∪ ids, <[device_id := positions']> by_device)
      end
  end.

(** [u32::try_from] of a [usize]. *)
Definition u32_try_from (x : Z) : option Z :=
  if (0 <=? x) && (x <=? u32_max) then Some x else None.

(** The loop over the positions of one device, the [expected] one counted. *)
Fixpoint validate_positions (expected : nat) (positions : list (Z * DeviceCommand.t))
    : result (list DeviceCommand.t) SnapshotViolation :=
  match positions with
  | [] => Ok []
  | (position, command) :: rest =>
      match u32_try_from (Z.of_nat expected) with
      | None => Err PendingCapacityExceeded
      | Some expected' =>
          if negb (position =? expected') then Err NonContiguousQueuePosition
          else match validate_positions (S expected) rest with
               | Ok queue => Ok (command :: queue)
               | Err e => Err e
               end
      end
  end.

Definition validate_queue (queues : gmap string (list DeviceCommand.t))
    (entry : string * gmap Z DeviceCommand.t)
    : result (gmap string (list DeviceCommand.t)) SnapshotViolation :=
  match validate_positions 0 (int_entries entry.2) with
  | Ok queue => Ok (<[entry.1 := queue]> queues)
  | Err e => Err e
  end.

(** The replay records, in the order of their scopes.  The claim of a result
    exists, as tested before. *)
Definition replay_of (claims : Claims) (entry : string * (ContentDigest * DeviceCommand.t))
    : option ReplayRecord.t :=
  let '(scope, (scope_key, command)) := entry in
  match claims !! scope with
  | Some (_, fingerprint) => Some (ReplayRecord.mk scope_key fingerprint command)
  | None => None
  end.

Definition validate_rows (rows : SnapshotRows.t)
    : result ControlPlaneSnapshot.t SnapshotViolation :=
  if (MAX_REGISTERED_DEVICES <? List.length (SnapshotRows.devices rows))%nat
  then Err DeviceCapacityExceeded
  else if (MAX_IDEMPOTENCY_RESULTS <? List.length (SnapshotRows.command_results rows))%nat
          || (MAX_IDEMPOTENCY_RESULTS <? List.length (SnapshotRows.idempotency_claims rows))%nat
  then Err ReplayCapacityExceeded
  else if (MAX_PENDING_COMMANDS <? List.length (SnapshotRows.pending_commands rows))%nat
  then Err PendingCapacityExceeded
  else
  match fold_rows validate_device ∅ (SnapshotRows.devices rows) with
  | Err e => Err e
  | Ok devices =>
  match fold_rows validate_result (∅, ∅) (SnapshotRows.command_results rows) with
  | Err e => Err e
  | Ok results =>
  match fold_rows (validate_claim results.1) ∅ (SnapshotRows.idempotency_claims rows) with
  | Err e => Err e
  | Ok claims =>
  if existsb (fun scope => negb (is_some (claims !! scope))) (string_entries results.1).*1
  then Err ReplayClaimMissing
  else
  match fold_rows (validate_pending results) (∅, ∅) (SnapshotRows.pending_commands rows) with
  | Err e => Err e
  | Ok (_, pending_by_device) =>
  match fold_rows validate_queue ∅ (string_entries pending_by_device) with
  | Err e => Err e
  | Ok queues =>
      Ok (ControlPlaneSnapshot.mk devices queues
            (omap (replay_of claims) (string_entries results.1)))
  end end end end end.

(** [ControlPlaneSnapshot::from_rows]. *)
Definition from_rows (rows : SnapshotRows.t) : result ControlPlaneSnapshot.t SnapshotViolation :=
  validate_rows rows.

(** ** Rows of a snapshot *)

(** [ReplayRecord::from_command]. *)
Definition replay_from_command (c : DeviceCommand.t) : ReplayRecord.t :=
  ReplayRecord.mk (command_scope c) (command_fingerprint c) c.

Definition result_row (r : ReplayRecord.t) : CommandResultRow.t :=
  CommandResultRow.mk (ReplayRecord.scope_key r)
    (DeviceCommand.command_id (ReplayRecord.command r)) (ReplayRecord.command r).

Definition claim_row (r : ReplayRecord.t) : IdempotencyClaimRow.t :=
  IdempotencyClaimRow.mk (ReplayRecord.scope_key r)
    (DeviceCommand.command_id (ReplayRecord.command r)) (ReplayRecord.request_fingerprint r).

Definition device_row (entry : string * DeviceRecord.t) : DeviceRow.t :=
  DeviceRow.mk entry.1 entry.2.

Definition pending_row (device_id : string) (position : nat) (c : DeviceCommand.t)
    : PendingCommandRow.t :=
  PendingCommandRow.mk (DeviceCommand.command_id c) device_id (Z.of_nat position) c.

Definition queue_rows (entry : string * list DeviceCommand.t) : list PendingCommandRow.t :=
  imap (pending_row entry.1) entry.2.

(** [ControlPlaneSnapshot::rows].  The positions fit in [u32], as the queues of
    a snapshot are bounded. *)
Definition rows (s : ControlPlaneSnapshot.t) : SnapshotRows.t :=
  SnapshotRows.mk (device_row <$> string_entries (ControlPlaneSnapshot.devices s))
    (result_row <$> ControlPlaneSnapshot.replay_records s)
    (claim_row <$> ControlPlaneSnapshot.replay_records s)
    (List.concat (queue_rows <$> string_entries (ControlPlaneSnapshot.queues s))).

Definition validate (s : ControlPlaneSnapshot.t) : result unit SnapshotViolation :=
  result_map (fun _ => tt) (from_rows (rows s)).

(** [ControlPlaneSnapshot::from_parts]: the same rows, with the positions of
    queues that were not validated converted to [u32]. *)
Definition from_parts (devices : gmap string DeviceRecord.t)
    (queues : gmap string (list DeviceCommand.t)) (replay_records : list ReplayRecord.t)
    : result ControlPlaneSnapshot.t SnapshotViolation :=
  let s := ControlPlaneSnapshot.mk devices queues replay_records in
  if existsb (fun row => negb (is_some (u32_try_from (PendingCommandRow.queue_position row))))
       (SnapshotRows.pending_commands (rows s))
  then Err PendingCapacityExceeded
  else from_rows (rows s).
End Snapshot.
