(* ===== verification/SnapshotTheorems.v ===== *)
(** * Which rows are a snapshot

    [validate_rows] accepts rows exactly when they are, in any order, the rows
    of a well-formed snapshot, and then returns that snapshot. *)

From stdpp Require Import base gmap strings list fin_maps sorting.
From Stdlib Require Import ZArith Lia String.
From S2P Require Import Prelude Ordered Text Foundation Commands Devices Snapshot.
Local Open Scope string_scope.
Local Open Scope Z_scope.

(** ** Loops that insert *)

Lemma union_insert_swap {A} (m acc : gmap string A) k x :
  m !! k = None -> m ∪ <[k := x]> acc = <[k := x]> m ∪ acc.
Proof. intros Hm. by rewrite <- insert_union_r, insert_union_l. Qed.

(** A loop that refuses a bad row or a key it has seen, and inserts otherwise. *)
Lemma fold_insert {R A E} (f : gmap string A -> R -> result (gmap string A) E)
    (P : R -> Prop) (key : R -> string) (val : R -> A) :
  (forall acc row out, f acc row = Ok out <->
     P row /\ acc !! key row = None /\ out = <[key row := val row]> acc) ->
  forall rows acc out, fold_rows f acc rows = Ok out <->
    Forall P rows /\ NoDup (key <$> rows) /\ Forall (fun r => acc !! key r = None) rows
    /\ out = list_to_map ((fun r => (key r, val r)) <$> rows) ∪ acc.
Proof.
  intros Hf rows. induction rows as [|row rest IH]; intros acc out.
  - simpl. rewrite (left_id_L ∅ (∪)). split.
    + intros [= <-]. repeat split; constructor.
    + by intros (_ & _ & _ & ->).
  - rewrite fold_rows_cons_Ok. setoid_rewrite IH. setoid_rewrite Hf. simpl.
    rewrite NoDup_cons, !Forall_cons.
    assert (forall acc', acc' = <[key row := val row]> acc ->
      Forall (fun r => acc' !! key r = None) rest <->
      (key row ∉ key <$> rest) /\ Forall (fun r => acc !! key r = None) rest) as Hfresh.
    { intros acc' ->. rewrite list_elem_of_fmap. rewrite !Forall_forall.
      setoid_rewrite lookup_insert_None. split; [|naive_solver].
      intros Hall. split; [|naive_solver]. intros (r & Hk & Hr). by destruct (Hall r Hr). }
    assert (key row ∉ key <$> rest ->
      (list_to_map ((fun r => (key r, val r)) <$> rest) : gmap string A) !! key row = None) as Hnone.
    { intros Hn. apply not_elem_of_list_to_map. by rewrite <- list_fmap_compose. }
    split.
    + intros (acc' & (HP & Hk & Hacc) & HPs & Hnd & Hfr & ->).
      apply (Hfresh acc' Hacc) in Hfr as [Hn Hfr]. subst acc'. rewrite union_insert_swap by auto. done.
    + intros ((HP & HPs) & (Hn & Hnd) & (Hk & Hfr) & ->). eexists. split; [done|].
      repeat split; try done; [by apply Hfresh|by rewrite union_insert_swap by auto].
Qed.

Section Loops.
Context `{Blake3Laws, UuidTextLaws}.

Definition scope_text (d : ContentDigest) : string := ContentDigest_to_string d.
Definition id_text (id : CommandId) : string := uuid_identifier_to_string id.

#[local] Instance scope_text_inj : Inj (=) (=) scope_text.
Proof.
  intros d d' Hd. apply (f_equal ContentDigest_from_str) in Hd.
  unfold scope_text in Hd. rewrite !content_digest_roundtrip in Hd. by injection Hd.
Qed.

#[local] Instance id_text_inj : Inj (=) (=) id_text.
Proof.
  intros [u] [u'] Hd. unfold id_text, uuid_identifier_to_string in Hd. simpl in Hd.
  apply (f_equal uuid_parse_str) in Hd. rewrite !uuid_parse_to_string in Hd. by injection Hd as ->.
Qed.

(** ** Devices *)

Definition device_row_ok (row : DeviceRow.t) : Prop :=
  DeviceRow.node_id row <> ""
  /\ DeviceRecord.node_id (DeviceRow.record row) = DeviceRow.node_id row.

Lemma validate_devices_Ok rows out :
  fold_rows validate_device ∅ rows = Ok out <->
  Forall device_row_ok rows /\ NoDup (DeviceRow.node_id <$> rows)
  /\ out = list_to_map ((fun r => (DeviceRow.node_id r, DeviceRow.record r)) <$> rows).
Proof.
  rewrite (fold_insert validate_device device_row_ok DeviceRow.node_id DeviceRow.record).
  - rewrite (right_id_L ∅ (∪)). split; [naive_solver|].
    intros (? & ? & ?). repeat split; try done. apply Forall_forall. intros. apply lookup_empty.
  - intros acc row o. unfold validate_device, device_row_ok.
    case_bool_decide; simpl; [naive_solver|]. case_bool_decide; simpl; [|naive_solver].
    destruct (acc !! DeviceRow.node_id row); simpl; naive_solver.
Qed.

(** ** Results *)

Definition result_row_ok (row : CommandResultRow.t) : Prop :=
  DeviceCommand.device_id (CommandResultRow.result row) <> ""
  /\ CommandResultRow.command_id row = DeviceCommand.command_id (CommandResultRow.result row)
  /\ CommandResultRow.scope_key row = command_scope (CommandResultRow.result row).

Definition row_scope (row : CommandResultRow.t) : string :=
  scope_text (CommandResultRow.scope_key row).
Definition row_id (row : CommandResultRow.t) : string :=
  id_text (CommandResultRow.command_id row).

Definition results_of (rows : list CommandResultRow.t) : Results :=
  (list_to_map ((fun r => (row_scope r, (CommandResultRow.scope_key r, CommandResultRow.result r)))
                  <$> rows),
   list_to_map ((fun r => (row_id r, row_scope r)) <$> rows)).

Lemma validate_result_Ok acc row out :
  validate_result acc row = Ok out <->
  result_row_ok row /\ acc.1 !! row_scope row = None /\ acc.2 !! row_id row = None
  /\ out = (<[row_scope row := (CommandResultRow.scope_key row, CommandResultRow.result row)]> acc.1,
            <[row_id row := row_scope row]> acc.2).
Proof.
  destruct acc as [by_scope by_command].
  unfold validate_result, result_row_ok. cbn [fst snd].
  fold (scope_text (CommandResultRow.scope_key row)).
  fold (id_text (CommandResultRow.command_id row)).
  change (scope_text (CommandResultRow.scope_key row)) with (row_scope row).
  change (id_text (CommandResultRow.command_id row)) with (row_id row).
  repeat (case_bool_decide; simpl; try naive_solver).
  destruct (by_scope !! row_scope row); simpl; [naive_solver|].
  destruct (by_command !! row_id row); simpl; naive_solver.
Qed.

(** The two maps of the loop are two loops side by side. *)
Lemma validate_results_split rows acc out :
  fold_rows validate_result acc rows = Ok out <->
  fold_rows (fun m row => if decide (result_row_ok row /\ m !! row_scope row = None)
     then Ok (<[row_scope row := (CommandResultRow.scope_key row, CommandResultRow.result row)]> m)
     else Err tt) acc.1 rows = Ok out.1
  /\ fold_rows (fun m row => if decide (m !! row_id row = None)
     then Ok (<[row_id row := row_scope row]> m) else Err tt) acc.2 rows = Ok out.2.
Proof.
  revert acc out. induction rows as [|row rest IH]; intros [a1 a2] [o1 o2].
  - simpl. naive_solver.
  - rewrite !fold_rows_cons_Ok. setoid_rewrite IH. setoid_rewrite validate_result_Ok.
    cbn [fst snd]. split.
    + intros ([b1 b2] & (Hok & H1' & H2' & [= -> ->]) & Hr1 & Hr2). split; eexists; split;
        [by rewrite decide_True|done|by rewrite decide_True|done].
    + intros [(b1 & Hb1 & Hr1) (b2 & Hb2 & Hr2)].
      destruct (decide _) as [[Hok Hn1]|] in Hb1; [|done].
      destruct (decide _) as [Hn2|] in Hb2; [|done]. injection Hb1 as <-. injection Hb2 as <-.
      exists (<[row_scope row := (CommandResultRow.scope_key row, CommandResultRow.result row)]> a1,
              <[row_id row := row_scope row]> a2). auto.
Qed.

Lemma validate_results_Ok rows out :
  fold_rows validate_result (∅, ∅) rows = Ok out <->
  Forall result_row_ok rows /\ NoDup (row_scope <$> rows) /\ NoDup (row_id <$> rows)
  /\ out = results_of rows.
Proof.
  rewrite validate_results_split. cbn [fst snd].
  rewrite (fold_insert _ result_row_ok row_scope
             (fun r => (CommandResultRow.scope_key r, CommandResultRow.result r)))
    by (intros; destruct (decide _); naive_solver).
  rewrite (fold_insert _ (fun _ => True) row_id row_scope)
    by (intros; destruct (decide _); naive_solver).
  rewrite !(right_id_L ∅ (∪)). destruct out as [o1 o2]. cbn [fst snd].
  assert (forall A (key : CommandResultRow.t -> string), Forall (fun r => (∅ : gmap string A) !! key r = None) rows)
    as He by (intros; apply Forall_forall; intros; apply lookup_empty).
  unfold results_of. split; [naive_solver|].
  intros (? & ? & ? & [= -> ->]). split_and!; auto. by apply Forall_forall.
Qed.

(** ** Claims *)

Definition claim_scope (row : IdempotencyClaimRow.t) : string :=
  scope_text (IdempotencyClaimRow.scope_key row).

Definition claim_ok (by_scope : gmap string (ContentDigest * DeviceCommand.t))
    (row : IdempotencyClaimRow.t) : Prop :=
  exists d c, by_scope !! claim_scope row = Some (d, c)
    /\ IdempotencyClaimRow.command_id row = DeviceCommand.command_id c
    /\ IdempotencyClaimRow.request_fingerprint row = command_fingerprint c.

Definition claims_of (rows : list IdempotencyClaimRow.t) : Claims :=
  list_to_map ((fun r => (claim_scope r, (IdempotencyClaimRow.command_id r,
                                          IdempotencyClaimRow.request_fingerprint r))) <$> rows).

Lemma validate_claims_Ok by_scope rows out :
  fold_rows (validate_claim by_scope) ∅ rows = Ok out <->
  Forall (claim_ok by_scope) rows /\ NoDup (claim_scope <$> rows) /\ out = claims_of rows.
Proof.
  rewrite (fold_insert (validate_claim by_scope) (claim_ok by_scope) claim_scope
             (fun r => (IdempotencyClaimRow.command_id r, IdempotencyClaimRow.request_fingerprint r))).
  - rewrite (right_id_L ∅ (∪)). split; [naive_solver|].
    intros (? & ? & ?). repeat split; try done. apply Forall_forall. intros.
    apply (lookup_empty (M := gmap string)).
  - intros acc row o. unfold validate_claim, claim_ok.
    change (ContentDigest_to_string (IdempotencyClaimRow.scope_key row)) with (claim_scope row).
    destruct (acc !! claim_scope row); simpl; [naive_solver|].
    destruct (by_scope !! claim_scope row) as [[d c]|]; [|naive_solver].
    case_bool_decide; simpl; [|naive_solver]. case_bool_decide; simpl; naive_solver.
Qed.

(** ** Pending commands *)

Definition pending_id (row : PendingCommandRow.t) : string :=
  id_text (PendingCommandRow.command_id row).
Definition pending_slot (row : PendingCommandRow.t) : string * Z :=
  (PendingCommandRow.device_id row, PendingCommandRow.queue_position row).

Definition pending_ok (results : Results) (row : PendingCommandRow.t) : Prop :=
  PendingCommandRow.device_id row <> ""
  /\ PendingCommandRow.command_id row = DeviceCommand.command_id (PendingCommandRow.command row)
  /\ PendingCommandRow.device_id row = DeviceCommand.device_id (PendingCommandRow.command row)
  /\ exists scope d, results.2 !! pending_id row = Some scope
       /\ results.1 !! scope = Some (d, PendingCommandRow.command row).

Definition add_position (by_device : gmap string (gmap Z DeviceCommand.t))
    (row : PendingCommandRow.t) : gmap string (gmap Z DeviceCommand.t) :=
  let device := PendingCommandRow.device_id row in
  <[device := <[PendingCommandRow.queue_position row := PendingCommandRow.command row]>
                (positions_of by_device device)]> by_device.

Lemma positions_of_add by_device row d :
  positions_of (add_position by_device row) d
  = if decide (PendingCommandRow.device_id row = d)
    then <[PendingCommandRow.queue_position row := PendingCommandRow.command row]>
           (positions_of by_device d)
    else positions_of by_device d.
Proof.
  unfold positions_of at 1, add_position.
  destruct (decide _) as [<-|Hne]; [by rewrite lookup_insert_eq|by rewrite lookup_insert_ne].
Qed.

Lemma validate_pending_Ok results ids by_device row out :
  validate_pending results (ids, by_device) row = Ok out <->
  pending_ok results row /\ (pending_id row ∉ ids)
  /\ positions_of by_device (PendingCommandRow.device_id row)
       !! PendingCommandRow.queue_position row = None
  /\ (size (positions_of (add_position by_device row) (PendingCommandRow.device_id row))
        <= MAX_COMMAND_QUEUE_PER_DEVICE)%nat
  /\ out = ({[pending_id row]} ∪ ids, add_position by_device row).
Proof.
  rewrite positions_of_add, decide_True by done.
  destruct results as [by_scope by_command]. unfold validate_pending, pending_ok, add_position.
  change (uuid_identifier_to_string (PendingCommandRow.command_id row)) with (pending_id row).
  cbn [fst snd]. case_bool_decide; simpl; [naive_solver|].
  case_bool_decide as Hc; simpl.
  { split; [done|]. intros ((_ & _ & Hd & _) & _). by rewrite Hc in Hd. }
  case_bool_decide; simpl; [|naive_solver]. case_bool_decide; simpl; [|naive_solver].
  case_bool_decide; simpl; [naive_solver|].
  destruct (by_command !! pending_id row) as [scope|]; [|naive_solver].
  destruct (by_scope !! scope) as [[d c]|] eqn:Hs; [|naive_solver].
  case_bool_decide; simpl; [|naive_solver]. subst c.
  destruct (positions_of by_device (PendingCommandRow.device_id row)
              !! PendingCommandRow.queue_position row); simpl; [naive_solver|].
  case_if; simpl.
  - apply Nat.ltb_lt in Heqb. split; [done|]. intros (_ & _ & _ & Hle & _). lia.
  - apply Nat.ltb_ge in Heqb. naive_solver.
Qed.

(** The positions after all rows: the last row that names a slot fills it. *)
Lemma lookup_add_positions rows by_device d p c :
  NoDup (pending_slot <$> rows) ->
  Forall (fun r => positions_of by_device (PendingCommandRow.device_id r)
                     !! PendingCommandRow.queue_position r = None) rows ->
  positions_of (foldl add_position by_device rows) d !! p = Some c <->
  positions_of by_device d !! p = Some c
  \/ exists row, row ∈ rows /\ pending_slot row = (d, p) /\ PendingCommandRow.command row = c.
Proof.
  revert by_device. induction rows as [|row rest IH]; intros by_device; simpl.
  - intros _ _. setoid_rewrite elem_of_nil. naive_solver.
  - rewrite NoDup_cons, Forall_cons. intros [Hn Hnd] [Hr Hfr]. rewrite IH.
    + setoid_rewrite elem_of_cons. rewrite positions_of_add.
      destruct (decide _) as [<-|Hd].
      * rewrite lookup_insert_Some. split.
        -- intros [[[<- <-]|[? ?]]|?]; [right; exists row; naive_solver|naive_solver|naive_solver].
        -- intros [Hl|(row' & [->|Hin] & Hs & <-)].
           ++ left. right. split; [congruence|done].
           ++ injection Hs as Hs. left. by left.
           ++ right. eauto.
      * split; [naive_solver|]. intros [?|(row' & [->|Hin] & Hs & <-)]; [by left| |naive_solver].
        by injection Hs.
    + done.
    + apply Forall_forall. intros r Hin. rewrite positions_of_add.
      rewrite Forall_forall in Hfr. destruct (decide _) as [He|]; [|by apply Hfr].
      rewrite lookup_insert_ne; [by apply Hfr|]. intros Hp. apply Hn.
      apply list_elem_of_fmap. exists r. split; [|done]. unfold pending_slot. congruence.
Qed.

(** Rows only add positions. *)
Lemma size_add_positions rows by_device d :
  NoDup (pending_slot <$> rows) ->
  Forall (fun r => positions_of by_device (PendingCommandRow.device_id r)
                     !! PendingCommandRow.queue_position r = None) rows ->
  (size (positions_of by_device d) <= size (positions_of (foldl add_position by_device rows) d))%nat.
Proof.
  intros Hnd Hfr. apply map_subseteq_size, map_subseteq_spec. intros p c Hp.
  apply lookup_add_positions; auto.
Qed.

Definition positions_bounded (by_device : gmap string (gmap Z DeviceCommand.t)) : Prop :=
  forall d, (size (positions_of by_device d) <= MAX_COMMAND_QUEUE_PER_DEVICE)%nat.

Lemma validate_pendings_Ok results rows ids by_device by_device' :
  positions_bounded by_device ->
  (exists ids', fold_rows (validate_pending results) (ids, by_device) rows = Ok (ids', by_device'))
  <->
  Forall (pending_ok results) rows
  /\ NoDup (pending_id <$> rows) /\ Forall (fun r => pending_id r ∉ ids) rows
  /\ NoDup (pending_slot <$> rows)
  /\ Forall (fun r => positions_of by_device (PendingCommandRow.device_id r)
                        !! PendingCommandRow.queue_position r = None) rows
  /\ positions_bounded by_device' /\ by_device' = foldl add_position by_device rows.
Proof.
  revert ids by_device. induction rows as [|row rest IH]; intros ids by_device Hb.
  - simpl. split; [intros [? [= <- <-]]; split_and!; try done; constructor|]. intros (_ & _ & _ & _ & _ & _ & ->).
    eauto.
  - setoid_rewrite fold_rows_cons_Ok. cbn [fmap list_fmap foldl]. rewrite !NoDup_cons, !Forall_cons.
    assert (Forall (fun r => pending_id r ∉ ({[pending_id row]} ∪ ids : gset string)) rest <->
      (pending_id row ∉ pending_id <$> rest) /\ Forall (fun r => pending_id r ∉ ids) rest) as Hids.
    { rewrite list_elem_of_fmap, !Forall_forall. set_solver. }
    assert (positions_of by_device (PendingCommandRow.device_id row)
              !! PendingCommandRow.queue_position row = None ->
      Forall (fun r => positions_of (add_position by_device row) (PendingCommandRow.device_id r)
                        !! PendingCommandRow.queue_position r = None) rest <->
      (pending_slot row ∉ pending_slot <$> rest)
      /\ Forall (fun r => positions_of by_device (PendingCommandRow.device_id r)
                        !! PendingCommandRow.queue_position r = None) rest) as Hslots.
    { intros Hrow. rewrite list_elem_of_fmap, !Forall_forall. setoid_rewrite positions_of_add.
      unfold pending_slot. split.
      - intros Hall. split.
        + intros (r & Hs & Hr). injection Hs as Hd Hp. specialize (Hall r Hr).
          rewrite decide_True, Hp, lookup_insert_eq in Hall by done. done.
        + intros r Hr. specialize (Hall r Hr). destruct (decide _); [|done].
          by apply lookup_insert_None in Hall as [? _].
      - intros [Hn Hall] r Hr. destruct (decide _) as [Hd|]; [|by apply Hall].
        rewrite lookup_insert_ne; [by apply Hall|]. intros Hp. apply Hn. exists r. by rewrite Hd, Hp. }
    split.
    + intros (ids' & [ids1 dev1] & Hrow & Hrest).
      apply validate_pending_Ok in Hrow as (Hok & Hid & Hslot & Hsize & [= -> ->]).
      assert (positions_bounded (add_position by_device row)) as Hb'.
      { rewrite positions_of_add, decide_True in Hsize by done. intros d.
        rewrite positions_of_add. destruct (decide _) as [<-|]; [done|apply Hb]. }
      destruct (proj1 (IH _ _ Hb') (ex_intro _ _ Hrest)) as (? & ? & Hf & ? & Hf2 & ? & ->).
      apply Hids in Hf as [? ?]. apply Hslots in Hf2 as [? ?]; [|done]. by split_and!.
    + intros ((Hok & Hoks) & (Hi & Hnd) & (Hid & Hfi) & (Hs & Hnd2) & (Hslot & Hfs) & Hfin & ->).
      assert (Forall (fun r => positions_of (add_position by_device row) (PendingCommandRow.device_id r)
                        !! PendingCommandRow.queue_position r = None) rest) as Hfs'
        by (by apply Hslots).
      assert (positions_bounded (add_position by_device row)) as Hb'
        by (intros d; etrans; [by apply (size_add_positions rest)|apply Hfin]).
      destruct (proj2 (IH ({[pending_id row]} ∪ ids) _ Hb')) as [ids' Hrest].
      { split_and!; try done. by apply Hids. }
      exists ids', ({[pending_id row]} ∪ ids, add_position by_device row). split; [|done].
      apply validate_pending_Ok. by split_and!.
Qed.

(** ** Queues *)

Lemma numbered_snd {A} (g : nat -> Z) (q : list A) : (imap (fun i c => (g i, c)) q).*2 = q.
Proof.
  rewrite fmap_imap. rewrite (imap_ext _ (fun _ c => c)) by done.
  rewrite (imap_const (fun c => c)). apply list_fmap_id.
Qed.

Lemma validate_positions_Ok n l q :
  Z.of_nat (n + List.length l) <= u32_max ->
  validate_positions n l = Ok q <-> l = imap (fun i c => (Z.of_nat (n + i), c)) q.
Proof.
  revert n q. induction l as [|[p c] l IH]; intros n q Hn.
  - simpl. split; [by intros [= <-]|]. by destruct q.
  - cbn [validate_positions List.length] in *. unfold u32_try_from.
    rewrite (proj2 (andb_true_iff _ _)) by (split; apply Z.leb_le; lia).
    assert (forall q : list DeviceCommand.t, imap (fun i c => (Z.of_nat (n + S i), c)) q
                      = imap (fun i c => (Z.of_nat (S n + i), c)) q) as Hsh.
    { intros q'. apply imap_ext. intros i x _. simpl. by rewrite Nat.add_succ_r. }
    destruct (p =? Z.of_nat n) eqn:Hp; simpl.
    + apply Z.eqb_eq in Hp as ->. destruct (validate_positions (S n) l) as [q'|e] eqn:Hv.
      * apply IH in Hv; [|lia]. split.
        -- intros [= <-]. cbn [imap]. rewrite Nat.add_0_r. f_equal. rewrite Hv. symmetry. apply Hsh.
        -- destruct q as [|c' q]; [done|]. cbn [imap]. intros [= _ <- Hl]. f_equal. f_equal.
           change (l = imap (fun i c => (Z.of_nat (n + S i), c)) q) in Hl.
           rewrite Hsh, Hv in Hl. apply (f_equal (fmap snd)) in Hl.
           by rewrite !numbered_snd in Hl.
      * split; [done|]. destruct q as [|c' q]; [done|]. cbn [imap]. intros [= _ _ Hl].
        change (l = imap (fun i c => (Z.of_nat (n + S i), c)) q) in Hl. rewrite Hsh in Hl. apply IH in Hl; [congruence|lia].
    + apply Z.eqb_neq in Hp. split; [done|]. destruct q as [|c' q]; [done|]. simpl.
      intros [= Hp' _ _]. lia.
Qed.

Lemma validate_queue_Ok queues d positions out :
  (size positions <= MAX_COMMAND_QUEUE_PER_DEVICE)%nat ->
  validate_queue queues (d, positions) = Ok out <->
  exists q, positions = map_seqZ 0 q /\ out = <[d := q]> queues.
Proof.
  intros Hs. unfold validate_queue. cbn [fst snd].
  assert (forall q, validate_positions 0 (int_entries positions) = Ok q <-> positions = map_seqZ 0 q)
    as Hv.
  { intros q. rewrite validate_positions_Ok.
    - cbn [Nat.add]. rewrite <- int_entries_queue. split; [|by intros ->].
      intros He. apply (f_equal (list_to_map (M := gmap Z DeviceCommand.t))) in He.
      by rewrite !list_to_map_entries in He.
    - cbn [Nat.add]. rewrite length_entries. unfold MAX_COMMAND_QUEUE_PER_DEVICE, u32_max in *. lia. }
  destruct (validate_positions 0 _) as [q|e]; split.
  - intros [= <-]. exists q. split; [by apply Hv|done].
  - intros (q' & Hp & ->). apply Hv in Hp. by injection Hp as ->.
  - done.
  - intros (q' & Hp%Hv & ->). done.
Qed.

Lemma validate_queues_list ql acc out :
  Forall (fun e => (size e.2 <= MAX_COMMAND_QUEUE_PER_DEVICE)%nat) ql ->
  NoDup ql.*1 -> Forall (fun e => acc !! e.1 = None) ql ->
  fold_rows validate_queue acc ql = Ok out <->
  exists qs, ql = prod_map id (map_seqZ 0) <$> qs /\ out = list_to_map qs ∪ acc.
Proof.
  revert acc. induction ql as [|[d p] ql IH]; intros acc Hs Hnd Hf.
  - simpl. split.
    + intros [= <-]. exists []. split; [done|]. simpl. by rewrite (left_id_L ∅ (∪)).
    + intros ([|] & Hq & ->); [|done]. simpl. by rewrite (left_id_L ∅ (∪)).
  - rewrite fold_rows_cons_Ok. apply Forall_cons in Hs as [Hs Hss], Hf as [Hf Hfs].
    simpl in *. apply NoDup_cons in Hnd as [Hn Hnd].
    setoid_rewrite (validate_queue_Ok _ _ _ _ Hs).
    assert (forall q, Forall (fun e => <[d := q]> acc !! e.1 = None) ql) as Hfs'.
    { intros q. rewrite Forall_forall in *. intros e He. rewrite lookup_insert_ne; [by apply Hfs|].
      intros ->. apply Hn. apply list_elem_of_fmap. eauto. }
    assert (forall q qs, ql = prod_map id (map_seqZ 0) <$> qs ->
      list_to_map qs ∪ <[d := q]> acc = list_to_map ((d, q) :: qs) ∪ acc) as Hun.
    { intros q qs ->. simpl. apply union_insert_swap.
      apply not_elem_of_list_to_map. intros Hin. apply Hn. rewrite <- list_fmap_compose.
      by rewrite (list_fmap_ext _ fst) by done. }
    split.
    + intros (acc' & (q & -> & ->) & Hr). apply IH in Hr as (qs & Hq & ->); [|done|done|apply Hfs'].
      exists ((d, q) :: qs). split; [by rewrite Hq|]. by apply Hun.
    + intros ([|[d' q] qs] & [= -> -> Hq] & ->). exists (<[d' := q]> acc).
      split; [eauto|]. apply IH; [done|done|apply Hfs'|]. exists qs. split; [done|].
      symmetry. by apply Hun.
Qed.

Lemma validate_queues_Ok by_device queues :
  positions_bounded by_device ->
  fold_rows validate_queue ∅ (string_entries by_device) = Ok queues <->
  by_device = map_seqZ 0 <$> queues.
Proof.
  intros Hb. rewrite validate_queues_list.
  - split.
    + intros (qs & He & ->). rewrite (right_id_L ∅ (∪)).
      apply (f_equal (list_to_map (M := gmap string (gmap Z DeviceCommand.t)))) in He.
      by rewrite (list_to_map_entries String.le), list_to_map_fmap in He.
    + intros ->. exists (string_entries queues). 
      rewrite (entries_fmap String.le), (right_id_L ∅ (∪)). by rewrite (list_to_map_entries String.le).
  - apply Forall_forall. intros [d p] He. apply (elem_of_entries String.le) in He. simpl.
    specialize (Hb d). unfold positions_of in Hb. by rewrite He in Hb.
  - apply (entries_keys_NoDup String.le).
  - apply Forall_forall. intros e _. apply lookup_empty.
Qed.

(** ** Well-formed snapshots *)

(** The pending commands of a snapshot, in the order of its rows. *)
Definition pending_list (queues : gmap string (list DeviceCommand.t)) : list DeviceCommand.t :=
  List.concat (string_entries queues).*2.

Definition replay_commands (s : ControlPlaneSnapshot.t) : list DeviceCommand.t :=
  ReplayRecord.command <$> ControlPlaneSnapshot.replay_records s.

Definition command_scope_text (c : DeviceCommand.t) : string := scope_text (command_scope c).

Record snapshot_ok (s : ControlPlaneSnapshot.t) : Prop := {
  snap_devices : map_Forall (fun n r => n <> "" /\ DeviceRecord.node_id r = n)
                   (ControlPlaneSnapshot.devices s);
  snap_device_count : (size (ControlPlaneSnapshot.devices s) <= MAX_REGISTERED_DEVICES)%nat;
  snap_replay : ControlPlaneSnapshot.replay_records s = replay_from_command <$> replay_commands s;
  snap_replay_devices : Forall (fun c => DeviceCommand.device_id c <> "") (replay_commands s);
  snap_replay_order : StronglySorted String.le (command_scope_text <$> replay_commands s);
  snap_replay_scopes : NoDup (command_scope_text <$> replay_commands s);
  snap_replay_ids : NoDup (DeviceCommand.command_id <$> replay_commands s);
  snap_replay_count : (List.length (replay_commands s) <= MAX_IDEMPOTENCY_RESULTS)%nat;
  snap_queues : map_Forall (fun d q => q <> [] /\ d <> ""
                    /\ (List.length q <= MAX_COMMAND_QUEUE_PER_DEVICE)%nat
                    /\ Forall (fun c => DeviceCommand.device_id c = d /\ c ∈ replay_commands s) q)
                  (ControlPlaneSnapshot.queues s);
  snap_pending_ids :
    NoDup (DeviceCommand.command_id <$> pending_list (ControlPlaneSnapshot.queues s));
  snap_pending_count :
    (List.length (pending_list (ControlPlaneSnapshot.queues s)) <= MAX_PENDING_COMMANDS)%nat;
}.

(** The same rows in some order. *)
Record same_rows (r r' : SnapshotRows.t) : Prop := {
  same_devices : SnapshotRows.devices r ≡ₚ SnapshotRows.devices r';
  same_results : SnapshotRows.command_results r ≡ₚ SnapshotRows.command_results r';
  same_claims : SnapshotRows.idempotency_claims r ≡ₚ SnapshotRows.idempotency_claims r';
  same_pending : SnapshotRows.pending_commands r ≡ₚ SnapshotRows.pending_commands r';
}.

(** ** Lookups in what the loops built *)

Lemma list_to_map_rows {R A} (key : R -> string) (val : R -> A) (l : list R) k x :
  NoDup (key <$> l) ->
  (list_to_map ((fun r => (key r, val r)) <$> l) : gmap string A) !! k = Some x <->
  exists r, r ∈ l /\ key r = k /\ val r = x.
Proof.
  intros Hnd. rewrite <- elem_of_list_to_map by (by rewrite <- list_fmap_compose).
  rewrite list_elem_of_fmap. naive_solver.
Qed.

Lemma list_to_map_rows_Permutation {R A} (key : R -> string) (val : R -> A) (l l' : list R) :
  NoDup (key <$> l) -> l ≡ₚ l' ->
  (list_to_map ((fun r => (key r, val r)) <$> l) : gmap string A)
  = list_to_map ((fun r => (key r, val r)) <$> l').
Proof.
  intros Hnd Hp. apply list_to_map_proper; [by rewrite <- list_fmap_compose|by rewrite Hp].
Qed.

Lemma entries_rows {R A} (key : R -> string) (val : R -> A) (l : list R) :
  NoDup (key <$> l) ->
  string_entries (list_to_map ((fun r => (key r, val r)) <$> l))
  ≡ₚ (fun r => (key r, val r)) <$> l.
Proof.
  intros Hnd. rewrite entries_Permutation. apply map_to_list_to_map.
  by rewrite <- list_fmap_compose.
Qed.

(** ** Rows of queues *)

Lemma elem_of_queue_rows (queues : gmap string (list DeviceCommand.t)) row :
  row ∈ List.concat (queue_rows <$> string_entries queues) <->
  exists d q i c, queues !! d = Some q /\ q !! i = Some c /\ row = pending_row d i c.
Proof.
  rewrite list_elem_of_In, in_concat. split.
  - intros (l & Hl & Hrow). apply list_elem_of_In in Hl, Hrow.
    apply list_elem_of_fmap in Hl as ([d q] & -> & Hq). apply (elem_of_entries String.le) in Hq.
    apply elem_of_lookup_imap in Hrow as (i & c & -> & Hi). eauto 10.
  - intros (d & q & i & c & Hq & Hi & ->). exists (queue_rows (d, q)). split; apply list_elem_of_In.
    + apply list_elem_of_fmap. exists (d, q). split; [done|]. by apply (elem_of_entries String.le).
    + apply elem_of_lookup_imap. eauto.
Qed.

Lemma queue_rows_slots (queues : gmap string (list DeviceCommand.t)) :
  NoDup (pending_slot <$> List.concat (queue_rows <$> string_entries queues)).
Proof.
  pose proof (entries_keys_NoDup String.le queues) as Hnd. revert Hnd.
  induction (string_entries queues) as [|[d q] l IH]; simpl; [constructor|].
  rewrite NoDup_cons. intros [Hd Hnd]. rewrite fmap_app. apply NoDup_app. split_and!.
  - unfold queue_rows. simpl. apply NoDup_alt. intros i j sl.
    rewrite !list_lookup_fmap, !list_lookup_imap.
    destruct (q !! i), (q !! j); simpl; try done. unfold pending_slot. simpl.
    intros [= <-] [= Hij]. lia.
  - intros sl Hsl Hin. apply list_elem_of_fmap in Hsl as (r1 & -> & Hr1).
    apply elem_of_lookup_imap in Hr1 as (i & c & -> & _).
    apply list_elem_of_fmap in Hin as (r2 & Hs & Hr2).
    rewrite list_elem_of_In, in_concat in Hr2. destruct Hr2 as (l' & Hl' & Hr2).
    apply list_elem_of_In in Hl', Hr2. apply list_elem_of_fmap in Hl' as ([d' q'] & -> & Hq').
    apply elem_of_lookup_imap in Hr2 as (j & c' & -> & _). injection Hs as Hs _. simpl in Hs.
    subst d'. apply Hd. apply list_elem_of_fmap. exists (d, q'). eauto.
  - by apply IH.
Qed.

Lemma queue_rows_commands (queues : gmap string (list DeviceCommand.t)) :
  PendingCommandRow.command <$> List.concat (queue_rows <$> string_entries queues)
  = pending_list queues.
Proof.
  unfold pending_list. induction (string_entries queues) as [|[d q] l IH]; csimpl; [done|].
  rewrite fmap_app, IH. f_equal. unfold queue_rows. rewrite fmap_imap. simpl.
  rewrite (imap_ext _ (fun _ c => c)) by done. rewrite (imap_const (fun c => c)).
  apply list_fmap_id.
Qed.

(** Positions built from rows belong to some row. *)
Lemma add_positions_nonempty rows by_device d p :
  map_Forall (fun _ m => m <> ∅) by_device ->
  foldl add_position by_device rows !! d = Some p -> p <> ∅.
Proof.
  revert by_device. induction rows as [|row rest IH]; intros by_device Hne; simpl.
  - apply Hne.
  - apply IH. unfold add_position. apply map_Forall_insert_2; [|done].
    apply insert_non_empty.
Qed.

(** ** The rows of devices *)

Lemma device_rows_iff drows devices :
  (Forall device_row_ok drows /\ NoDup (DeviceRow.node_id <$> drows)
   /\ devices = list_to_map ((fun r => (DeviceRow.node_id r, DeviceRow.record r)) <$> drows))
  <-> map_Forall (fun n r => n <> "" /\ DeviceRecord.node_id r = n) devices
      /\ drows ≡ₚ device_row <$> string_entries devices.
Proof.
  assert (forall l : list DeviceRow.t, device_row <$> ((fun r => (DeviceRow.node_id r, DeviceRow.record r)) <$> l) = l)
    as Hback.
  { intros l. rewrite <- list_fmap_compose. rewrite <- (list_fmap_id l) at 2.
    apply list_fmap_ext. by intros _ [] _. }
  split.
  - intros (Hok & Hnd & ->). split.
    + intros n r Hn. apply list_to_map_rows in Hn as (row & Hin & <- & <-); [|done].
      rewrite Forall_forall in Hok. by apply Hok.
    + by rewrite entries_rows, Hback by done.
  - intros [Hok Hp].
    assert (NoDup (DeviceRow.node_id <$> drows)) as Hnd.
    { rewrite Hp, <- list_fmap_compose. apply (entries_keys_NoDup String.le devices). }
    split_and!; [|done|].
    + rewrite Hp. apply Forall_fmap, Forall_forall. intros [n r] Hin.
      apply (elem_of_entries String.le) in Hin. by apply Hok in Hin as [? ?].
    + rewrite (list_to_map_rows_Permutation _ _ _ _ Hnd Hp), <- list_fmap_compose.
      rewrite <- (list_to_map_entries String.le devices) at 1. f_equal.
      rewrite <- (list_fmap_id (string_entries devices)) at 1.
      apply list_fmap_ext. by intros _ [] _.
Qed.

(** ** The rows of results *)

Definition scope_entry (c : DeviceCommand.t) : string * (ContentDigest * DeviceCommand.t) :=
  (command_scope_text c, (command_scope c, c)).

Definition command_row (c : DeviceCommand.t) : CommandResultRow.t :=
  result_row (replay_from_command c).

Lemma result_row_ok_iff row :
  result_row_ok row <->
  row = command_row (CommandResultRow.result row)
  /\ DeviceCommand.device_id (CommandResultRow.result row) <> "".
Proof.
  destruct row as [scope id c]. unfold result_row_ok, command_row, result_row. simpl.
  split; [by intros (? & -> & ->)|]. by intros [[= <- <-] ?].
Qed.

Lemma sorted_scopes cmds :
  StronglySorted (key_le String.le) (scope_entry <$> cmds)
  <-> StronglySorted String.le (command_scope_text <$> cmds).
Proof.
  induction cmds as [|c cmds IH]; csimpl; [by split; constructor|].
  rewrite !StronglySorted_cons, IH, !Forall_fmap. done.
Qed.

Lemma result_rows_iff rrows (cmds : list DeviceCommand.t) :
  (Forall result_row_ok rrows /\ NoDup (row_scope <$> rrows) /\ NoDup (row_id <$> rrows)
   /\ string_entries (results_of rrows).1 = scope_entry <$> cmds)
  <-> rrows ≡ₚ command_row <$> cmds
      /\ Forall (fun c => DeviceCommand.device_id c <> "") cmds
      /\ StronglySorted String.le (command_scope_text <$> cmds)
      /\ NoDup (command_scope_text <$> cmds) /\ NoDup (DeviceCommand.command_id <$> cmds).
Proof.
  assert (forall l : list DeviceCommand.t, row_scope <$> (command_row <$> l) = command_scope_text <$> l) as Hscope
    by (intros; by rewrite <- list_fmap_compose).
  assert (forall l : list DeviceCommand.t, row_id <$> (command_row <$> l) = id_text <$> (DeviceCommand.command_id <$> l))
    as Hid by (intros; by rewrite <- !list_fmap_compose).
  split.
  - intros (Hok & Hnd & Hnd2 & He).
    assert (rrows = command_row <$> (CommandResultRow.result <$> rrows)) as Hrows.
    { rewrite <- list_fmap_compose. rewrite <- (list_fmap_id rrows) at 1.
      apply list_fmap_ext. intros k row Hk. rewrite Forall_lookup in Hok.
      by apply Hok, result_row_ok_iff in Hk as [? _]. }
    assert (CommandResultRow.result <$> rrows ≡ₚ cmds) as Hp.
    { pose proof (entries_rows row_scope (fun r => (CommandResultRow.scope_key r,
        CommandResultRow.result r)) rrows Hnd) as Hp.
      change (list_to_map _) with (results_of rrows).1 in Hp. rewrite He in Hp.
      apply (fmap_Permutation (snd ∘ snd)) in Hp. rewrite <- !list_fmap_compose in Hp.
      rewrite (list_fmap_ext _ id cmds) in Hp by done. rewrite list_fmap_id in Hp.
      by rewrite Hp. }
    rewrite Hrows, Hscope, Hp in Hnd. rewrite Hrows, Hid, Hp in Hnd2.
    split_and!; [by rewrite <- Hp, <- Hrows| | |done|by apply NoDup_fmap_1 in Hnd2].
    + rewrite <- Hp. apply Forall_fmap. eapply Forall_impl; [exact Hok|]. by intros r [? _].
    + assert (StronglySorted (key_le String.le) (string_entries (results_of rrows).1)) as Hs
        by (apply StronglySorted_merge_sort; apply _). rewrite He in Hs.
      by apply sorted_scopes.
  - intros (Hp & Hdev & Hs & Hnd & Hnd2).
    assert (NoDup (row_scope <$> rrows)) as Hnd' by (by rewrite Hp, Hscope). split_and!.
    + rewrite Hp. apply Forall_fmap. eapply Forall_impl; [exact Hdev|]. intros c Hc.
      by apply result_row_ok_iff.
    + done.
    + rewrite Hp, Hid. by apply (NoDup_fmap_2 id_text).
    + apply entries_unique; [apply _|apply _| | |].
      * by apply sorted_scopes.
      * by rewrite <- list_fmap_compose.
      * unfold results_of. cbn [fst]. rewrite (list_to_map_rows_Permutation _ _ _ _ Hnd' Hp).
        by rewrite <- list_fmap_compose.
Qed.

(** ** The rows of claims *)

Definition command_claim (c : DeviceCommand.t) : IdempotencyClaimRow.t :=
  claim_row (replay_from_command c).

Lemma elem_of_scope_entries (m : gmap string (ContentDigest * DeviceCommand.t)) cmds k d c :
  string_entries m = scope_entry <$> cmds ->
  m !! k = Some (d, c) <-> c ∈ cmds /\ k = command_scope_text c /\ d = command_scope c.
Proof.
  intros He. rewrite <- (elem_of_entries String.le), He, list_elem_of_fmap.
  unfold scope_entry. naive_solver.
Qed.

Lemma claim_ok_iff m cmds row :
  string_entries m = scope_entry <$> cmds ->
  claim_ok m row <-> exists c, c ∈ cmds /\ row = command_claim c.
Proof.
  intros He. unfold claim_ok. setoid_rewrite (elem_of_scope_entries m cmds _ _ _ He).
  destruct row as [scope id fp]. unfold command_claim, claim_row, claim_scope. simpl. split.
  - intros (d & c & (Hc & Hk & ->) & -> & ->). apply scope_text_inj in Hk as ->. eauto.
  - intros (c & Hc & [= -> -> ->]). eauto 10.
Qed.

Lemma claim_rows_iff m cmds crows :
  string_entries m = scope_entry <$> cmds -> NoDup (command_scope_text <$> cmds) ->
  (Forall (claim_ok m) crows /\ NoDup (claim_scope <$> crows)
   /\ existsb (fun scope => negb (is_some (claims_of crows !! scope))) (string_entries m).*1 = false)
  <-> crows ≡ₚ command_claim <$> cmds.
Proof.
  intros He Hnd.
  assert (claim_scope <$> (command_claim <$> cmds) = command_scope_text <$> cmds) as Hsc
    by (by rewrite <- list_fmap_compose).
  assert (NoDup (command_claim <$> cmds)) as Hnd2 by (by apply (NoDup_fmap_1 claim_scope); rewrite Hsc).
  assert ((string_entries m).*1 = command_scope_text <$> cmds) as Hkeys
    by (by rewrite He, <- list_fmap_compose).
  rewrite Hkeys. split.
  - intros (Hok & Hndc & Hex). apply NoDup_Permutation; [by apply (NoDup_fmap_1 claim_scope)|done|].
    intros row. rewrite list_elem_of_fmap. split.
    + intros Hin. rewrite Forall_forall in Hok. apply Hok in Hin.
      apply (claim_ok_iff m cmds _ He) in Hin as (c & ? & ->). eauto.
    + intros (c & -> & Hc).
      assert (is_Some (claims_of crows !! command_scope_text c)) as [x Hx].
      { destruct (claims_of crows !! command_scope_text c) eqn:Hl; [eauto|]. exfalso.
        apply not_true_iff_false in Hex. apply Hex. apply existsb_exists.
        exists (command_scope_text c). rewrite Hl. split; [|done].
        apply list_elem_of_In, list_elem_of_fmap. eauto. }
      apply list_to_map_rows in Hx as (row & Hrow & Hk & _); [|done].
      rewrite Forall_forall in Hok. pose proof (Hok row Hrow) as Hok'.
      apply (claim_ok_iff m cmds _ He) in Hok' as (c' & Hc' & ->).
      change (claim_scope (command_claim c')) with (command_scope_text c') in Hk.
      assert (c' = c) as <-; [|done].
      apply list_elem_of_lookup in Hc as [i Hi], Hc' as [j Hj].
      assert (i = j) as <-; [|congruence].
      apply (NoDup_lookup _ i j (command_scope_text c)) in Hnd; [done| |];
        rewrite list_lookup_fmap, ?Hi, ?Hj; simpl; by f_equal.
  - intros Hp. split_and!.
    + rewrite Hp. apply Forall_fmap, Forall_forall. intros c Hc.
      apply (claim_ok_iff m cmds _ He). eauto.
    + by rewrite Hp, Hsc.
    + apply not_true_iff_false. intros Hex. apply existsb_exists in Hex as (k & Hk & Hn).
      apply list_elem_of_In, list_elem_of_fmap in Hk as (c & -> & Hc).
      destruct (claims_of crows !! command_scope_text c) as [x|] eqn:Hl; [done|].
      assert (claims_of crows !! command_scope_text c
        = Some (DeviceCommand.command_id c, command_fingerprint c)); [|congruence].
      apply list_to_map_rows; [by rewrite Hp, Hsc|]. exists (command_claim c). split; [|done].
      rewrite Hp. apply list_elem_of_fmap. eauto.
Qed.

Lemma replay_records_of crows cmds :
  crows ≡ₚ command_claim <$> cmds -> NoDup (command_scope_text <$> cmds) ->
  omap (replay_of (claims_of crows)) (scope_entry <$> cmds) = replay_from_command <$> cmds.
Proof.
  intros Hp Hnd.
  assert (forall c, c ∈ cmds -> claims_of crows !! command_scope_text c
            = Some (DeviceCommand.command_id c, command_fingerprint c)) as Hl.
  { intros c Hc. apply list_to_map_rows.
    - rewrite Hp. by rewrite <- list_fmap_compose.
    - exists (command_claim c). split; [|done]. rewrite Hp. apply list_elem_of_fmap. eauto. }
  clear Hp Hnd. induction cmds as [|c cmds IH]; csimpl; [done|].
  rewrite Hl by (by left). rewrite IH; [done|]. intros c' Hc'. apply Hl. by right.
Qed.

(** ** The rows of queues *)

(** A pending command finds its result through its identity. *)
Lemma pending_result_iff rrows cmds id c :
  rrows ≡ₚ command_row <$> cmds ->
  string_entries (results_of rrows).1 = scope_entry <$> cmds ->
  NoDup (DeviceCommand.command_id <$> cmds) -> id = DeviceCommand.command_id c ->
  (exists scope d, (results_of rrows).2 !! id_text id = Some scope
     /\ (results_of rrows).1 !! scope = Some (d, c)) <-> c ∈ cmds.
Proof.
  intros Hp He Hnd ->.
  setoid_rewrite (elem_of_scope_entries _ cmds _ _ _ He). split; [naive_solver|].
  intros Hc. exists (command_scope_text c), (command_scope c). split; [|done].
  apply (list_to_map_rows row_id row_scope).
  - rewrite Hp. rewrite <- list_fmap_compose.
    change (row_id ∘ command_row) with (id_text ∘ DeviceCommand.command_id).
    rewrite list_fmap_compose. by apply (NoDup_fmap_2 id_text).
  - exists (command_row c). split; [|done]. rewrite Hp. apply list_elem_of_fmap. eauto.
Qed.

Definition queue_ok (cmds : list DeviceCommand.t) (d : string) (q : list DeviceCommand.t) : Prop :=
  q <> [] /\ d <> "" /\ (List.length q <= MAX_COMMAND_QUEUE_PER_DEVICE)%nat
  /\ Forall (fun c => DeviceCommand.device_id c = d /\ c ∈ cmds) q.

(** The positions built from rows that number the queues. *)
Lemma positions_of_queues prows queues :
  NoDup (pending_slot <$> prows) ->
  foldl add_position ∅ prows = map_seqZ 0 <$> queues ->
  forall row, row ∈ prows <->
    (exists d q i c, queues !! d = Some q /\ q !! i = Some c
       /\ PendingCommandRow.device_id row = d /\ PendingCommandRow.queue_position row = Z.of_nat i
       /\ PendingCommandRow.command row = c) /\ row ∈ prows.
Proof.
  intros Hnd HP row. split; [|by intros [_ ?]]. intros Hin. split; [|done].
  assert (positions_of (foldl add_position ∅ prows) (PendingCommandRow.device_id row)
            !! PendingCommandRow.queue_position row = Some (PendingCommandRow.command row)) as Hl.
  { apply lookup_add_positions; [done| |].
    - apply Forall_forall. intros r _. unfold positions_of. by rewrite lookup_empty.
    - right. eauto. }
  rewrite HP in Hl. unfold positions_of in Hl. rewrite lookup_fmap in Hl.
  destruct (queues !! PendingCommandRow.device_id row) as [q|] eqn:Hq; simpl in Hl.
  - apply lookup_map_seqZ_Some in Hl as [Hpos Hc].
    exists (PendingCommandRow.device_id row), q,
      (Z.to_nat (PendingCommandRow.queue_position row - 0)), (PendingCommandRow.command row).
    split_and!; try done. lia.
  - by rewrite lookup_empty in Hl.
Qed.

Lemma pending_rows_forward rrows cmds prows queues :
  rrows ≡ₚ command_row <$> cmds ->
  string_entries (results_of rrows).1 = scope_entry <$> cmds ->
  NoDup (DeviceCommand.command_id <$> cmds) ->
  Forall (pending_ok (results_of rrows)) prows -> NoDup (pending_id <$> prows) ->
  NoDup (pending_slot <$> prows) -> positions_bounded (foldl add_position ∅ prows) ->
  foldl add_position ∅ prows = map_seqZ 0 <$> queues ->
  map_Forall (queue_ok cmds) queues
  /\ prows ≡ₚ List.concat (queue_rows <$> string_entries queues)
  /\ NoDup (DeviceCommand.command_id <$> pending_list queues).
Proof.
  intros Hp He Hndid Hok Hids Hslots Hb HP.
  assert (forall d q i c, queues !! d = Some q -> q !! i = Some c -> pending_row d i c ∈ prows) as Hin.
  { intros d q i c Hq Hi.
    assert (positions_of (foldl add_position ∅ prows) d !! Z.of_nat i = Some c) as Hl.
    { rewrite HP. unfold positions_of. rewrite lookup_fmap, Hq. simpl.
      apply lookup_map_seqZ_Some. split; [lia|].
      by replace (Z.to_nat (Z.of_nat i - 0)) with i by lia. }
    apply lookup_add_positions in Hl as [Hl|(row & Hrow & Hs & <-)]; [| |done|].
    - unfold positions_of in Hl. by rewrite lookup_empty in Hl.
    - rewrite Forall_forall in Hok. destruct (Hok row Hrow) as (_ & Hid & _ & _).
      destruct row as [id dev pos c]. unfold pending_row. injection Hs as -> ->. simpl in *.
      by subst id.
    - apply Forall_forall. intros r _. unfold positions_of. by rewrite lookup_empty. }
  assert (prows ≡ₚ List.concat (queue_rows <$> string_entries queues)) as Hperm.
  { apply NoDup_Permutation.
    - by apply (NoDup_fmap_1 pending_slot).
    - apply (NoDup_fmap_1 pending_slot), queue_rows_slots.
    - intros row. rewrite elem_of_queue_rows. split; [|intros (d & q & i & c & Hq & Hi & ->); eauto].
      intros Hrow. pose proof Hrow as Hr. rewrite Forall_forall in Hok.
      apply (positions_of_queues _ _ Hslots HP) in Hr as [(d & q & i & c & Hq & Hi & Hd & Hpos & Hc) _].
      destruct (Hok row Hrow) as (_ & Hid & _ & _). exists d, q, i, c. split_and!; try done.
      destruct row as [id dev pos c']. simpl in *. unfold pending_row. by subst. }
  split_and!; [|done|].
  - intros d q Hq.
    assert (q <> []) as Hne.
    { intros ->. apply (add_positions_nonempty prows ∅ d (map_seqZ 0 [])); [apply map_Forall_empty| |done].
      by rewrite HP, lookup_fmap, Hq. }
    assert (forall i c, q !! i = Some c ->
      d <> "" /\ DeviceCommand.device_id c = d /\ c ∈ cmds) as Hc.
    { intros i c Hi. rewrite Forall_forall in Hok.
      destruct (Hok _ (Hin d q i c Hq Hi)) as (Hd & _ & Hdev & Hres). simpl in *.
      split_and!; try done. by apply (pending_result_iff rrows cmds _ c Hp He Hndid eq_refl). }
    split_and!; [done| | |].
    + destruct q as [|c q]; [done|]. by apply (Hc 0%nat c).
    + specialize (Hb d). rewrite HP in Hb. unfold positions_of in Hb.
      rewrite lookup_fmap, Hq in Hb. simpl in Hb.
      rewrite <- (length_entries Z.le), int_entries_queue, length_imap in Hb. done.
    + apply Forall_forall. intros c Hin'. apply list_elem_of_lookup in Hin' as [i Hi].
      by apply Hc in Hi as (_ & ? & ?).
  - rewrite <- queue_rows_commands, <- list_fmap_compose, <- Hperm.
    apply (NoDup_fmap_1 id_text). rewrite <- list_fmap_compose.
    rewrite (list_fmap_ext _ pending_id); [done|]. intros i row Hi. simpl.
    rewrite Forall_lookup in Hok. destruct (Hok i row Hi) as (_ & Hid & _). unfold pending_id.
    by rewrite Hid.
Qed.

(** Maps of non-empty positions are equal when they hold the same commands. *)
Lemma positions_ext (m m' : gmap string (gmap Z DeviceCommand.t)) :
  map_Forall (fun _ p => p <> ∅) m -> map_Forall (fun _ p => p <> ∅) m' ->
  (forall d p c, positions_of m d !! p = Some c <-> positions_of m' d !! p = Some c) -> m = m'.
Proof.
  intros Hm Hm' Heq. apply map_eq. intros d.
  assert (positions_of m d = positions_of m' d) as Hd
    by (apply map_eq; intros p; apply option_eq; intros c; apply Heq).
  unfold positions_of in Hd. specialize (Hm d). specialize (Hm' d).
  destruct (m !! d) as [p|], (m' !! d) as [p'|]; simpl in *; subst; try done.
  - by destruct (Hm ∅).
  - by destruct (Hm' ∅).
Qed.

Lemma pending_rows_backward rrows cmds prows queues :
  rrows ≡ₚ command_row <$> cmds ->
  string_entries (results_of rrows).1 = scope_entry <$> cmds ->
  NoDup (DeviceCommand.command_id <$> cmds) ->
  map_Forall (queue_ok cmds) queues ->
  prows ≡ₚ List.concat (queue_rows <$> string_entries queues) ->
  NoDup (DeviceCommand.command_id <$> pending_list queues) ->
  Forall (pending_ok (results_of rrows)) prows /\ NoDup (pending_id <$> prows)
  /\ NoDup (pending_slot <$> prows) /\ positions_bounded (map_seqZ 0 <$> queues)
  /\ foldl add_position ∅ prows = map_seqZ 0 <$> queues.
Proof.
  intros Hp He Hndid Hqs Hperm Hids.
  assert (NoDup (pending_slot <$> prows)) as Hslots by (rewrite Hperm; apply queue_rows_slots).
  split_and!; [| |done| |].
  - rewrite Hperm. apply Forall_forall. intros row Hrow.
    apply elem_of_queue_rows in Hrow as (d & q & i & c & Hq & Hi & ->).
    destruct (Hqs d q Hq) as (_ & Hd & _ & Hall). rewrite Forall_lookup in Hall.
    destruct (Hall i c Hi) as [Hdev Hc]. unfold pending_ok. simpl. split_and!; try done.
    by apply (pending_result_iff rrows cmds _ c Hp He Hndid eq_refl).
  - rewrite Hperm.
    assert (pending_id <$> List.concat (queue_rows <$> string_entries queues)
      = id_text <$> (DeviceCommand.command_id <$> pending_list queues)) as ->.
    { rewrite <- queue_rows_commands, <- !list_fmap_compose. apply list_fmap_ext.
      intros i row Hi. apply list_elem_of_lookup_2 in Hi.
      by apply elem_of_queue_rows in Hi as (d & q & j & c & _ & _ & ->). }
    by apply (NoDup_fmap_2 id_text).
  - intros d. unfold positions_of. rewrite lookup_fmap.
    destruct (queues !! d) as [q|] eqn:Hq; simpl; [|by rewrite map_size_empty; lia].
    rewrite <- (length_entries Z.le), int_entries_queue, length_imap. by apply (Hqs d q Hq).
  - apply positions_ext.
    + intros d p Hd. by apply (add_positions_nonempty prows ∅ d p (map_Forall_empty _)) in Hd.
    + intros d p Hd. rewrite lookup_fmap in Hd. destruct (queues !! d) as [q|] eqn:Hq; [|done].
      injection Hd as <-. destruct (Hqs d q Hq) as [Hne _]. destruct q; [done|].
      apply insert_non_empty.
    + intros d p c. rewrite lookup_add_positions; [|done|].
      2:{ apply Forall_forall. intros r _. unfold positions_of. by rewrite lookup_empty. }
      setoid_rewrite Hperm. setoid_rewrite elem_of_queue_rows.
      unfold positions_of. rewrite lookup_empty, lookup_fmap. cbn [default]. split.
      * intros [Hl|(row & (d' & q & i & c' & Hq & Hi & ->) & [= -> <-] & <-)];
          [by rewrite lookup_empty in Hl|].
        rewrite Hq. simpl. apply lookup_map_seqZ_Some. split; [lia|].
        by replace (Z.to_nat (Z.of_nat i - 0)) with i by lia.
      * destruct (queues !! d) as [q|] eqn:Hq; simpl; [|by rewrite lookup_empty].
        intros [Hpos Hc]%lookup_map_seqZ_Some. right.
        exists (pending_row d (Z.to_nat (p - 0)) c). split; [eauto 10|]. split; [|done].
        unfold pending_slot, pending_row. simpl. f_equal. lia.
Qed.

(** ** The validation *)

Lemma same_rows_lengths r r' :
  same_rows r r' ->
  List.length (SnapshotRows.devices r) = List.length (SnapshotRows.devices r')
  /\ List.length (SnapshotRows.command_results r) = List.length (SnapshotRows.command_results r')
  /\ List.length (SnapshotRows.idempotency_claims r)
     = List.length (SnapshotRows.idempotency_claims r')
  /\ List.length (SnapshotRows.pending_commands r) = List.length (SnapshotRows.pending_commands r').
Proof. intros []. split_and!; by apply Permutation_length. Qed.

Lemma rows_lengths (s : ControlPlaneSnapshot.t) :
  List.length (SnapshotRows.devices (rows s)) = size (ControlPlaneSnapshot.devices s)
  /\ List.length (SnapshotRows.command_results (rows s)) = List.length (replay_commands s)
  /\ List.length (SnapshotRows.idempotency_claims (rows s)) = List.length (replay_commands s)
  /\ List.length (SnapshotRows.pending_commands (rows s))
     = List.length (pending_list (ControlPlaneSnapshot.queues s)).
Proof.
  unfold rows, replay_commands. simpl. rewrite !length_fmap, (length_entries String.le).
  split_and!; try done. by rewrite <- queue_rows_commands, length_fmap.
Qed.

Lemma results_entries rrows :
  Forall result_row_ok rrows -> NoDup (row_scope <$> rrows) ->
  exists cmds, string_entries (results_of rrows).1 = scope_entry <$> cmds.
Proof.
  intros Hok Hnd. exists ((snd ∘ snd) <$> string_entries (results_of rrows).1).
  rewrite <- list_fmap_compose. rewrite <- (list_fmap_id (string_entries _)) at 1.
  apply list_fmap_ext. intros i [k [d c]] Hi%list_elem_of_lookup_2.
  apply (elem_of_entries String.le), list_to_map_rows in Hi as (row & Hin & <- & [= <- <-]); [|done].
  rewrite Forall_forall in Hok. destruct (Hok row Hin) as (_ & _ & Hs). simpl.
  unfold scope_entry, command_scope_text, row_scope. by rewrite Hs.
Qed.

Lemma validate_rows_forward (r : SnapshotRows.t) (s : ControlPlaneSnapshot.t) :
  validate_rows r = Ok s -> snapshot_ok s /\ same_rows r (rows s).
Proof.
  unfold validate_rows. case_if; [done|]. case_if; [done|]. case_if; [done|]. bools.
  rewrite Nat.ltb_ge in *.
  destruct (fold_rows validate_device _ _) as [devices|] eqn:Hd; [|done].
  destruct (fold_rows validate_result _ _) as [results|] eqn:Hr; [|done].
  destruct (fold_rows (validate_claim _) _ _) as [claims|] eqn:Hc; [|done].
  case_if; [done|].
  destruct (fold_rows (validate_pending _) _ _) as [[ids by_device]|] eqn:Hp; [|done].
  destruct (fold_rows validate_queue _ _) as [queues|] eqn:Hq; [|done]. intros [= <-].
  apply validate_devices_Ok, device_rows_iff in Hd as [Hdev Hdp].
  apply validate_results_Ok in Hr as (Hrok & Hrnd & Hrid & ->).
  destruct (results_entries _ Hrok Hrnd) as [cmds He].
  destruct (proj1 (result_rows_iff _ cmds) ltac:(by split_and!)) as (Hrp & Hne & Hso & Hnd & Hndid).
  apply validate_claims_Ok in Hc as (Hcok & Hcnd & ->).
  assert (SnapshotRows.idempotency_claims r ≡ₚ command_claim <$> cmds) as Hcp
    by (by apply (claim_rows_iff _ _ _ He Hnd); split_and!).
  rewrite He, (replay_records_of _ _ Hcp Hnd).
  assert (positions_bounded ∅) as Hb0
    by (intros d; unfold positions_of; rewrite lookup_empty; simpl; rewrite map_size_empty; lia).
  apply (ex_intro (fun i => _ = Ok (i, _))) in Hp.
  apply (validate_pendings_Ok _ _ _ _ _ Hb0) in Hp as (Hpok & Hpid & _ & Hps & _ & Hpb & Hpe).
  apply validate_queues_Ok in Hq; [|done]. subst by_device.
  destruct (pending_rows_forward _ cmds _ queues Hrp He Hndid Hpok Hpid Hps Hpb Hq)
    as (Hqok & Hqp & Hqid).
  set (s := ControlPlaneSnapshot.mk devices queues (replay_from_command <$> cmds)).
  assert (replay_commands s = cmds) as Hcmds.
  { unfold replay_commands, s. simpl. rewrite <- list_fmap_compose.
    rewrite (list_fmap_ext _ id) by done. apply list_fmap_id. }
  assert (same_rows r (rows s)) as Hsame.
  { split; [done| | |done]; unfold rows, s; simpl; by rewrite <- list_fmap_compose. }
  destruct (same_rows_lengths _ _ Hsame) as (L1 & L2 & L3 & L4).
  destruct (rows_lengths s) as (M1 & M2 & M3 & M4).
  split; [|done]. split; rewrite ?Hcmds; try done.
  - by rewrite <- M1, <- L1.
  - rewrite <- Hcmds, <- M2, <- L2. done.
  - by rewrite <- M4, <- L4.
Qed.

Lemma validate_rows_backward (r : SnapshotRows.t) (s : ControlPlaneSnapshot.t) :
  snapshot_ok s -> same_rows r (rows s) -> validate_rows r = Ok s.
Proof.
  intros [Hdev Hdn Hrep Hne Hso Hnd Hndid Hrn Hq Hqid Hqn] Hsame.
  remember (replay_commands s) as cmds eqn:Hcmds. clear Hcmds.
  destruct s as [devices queues replay]. simpl in *. subst replay.
  destruct (same_rows_lengths _ _ Hsame) as (L1 & L2 & L3 & L4).
  destruct (rows_lengths (ControlPlaneSnapshot.mk devices queues (replay_from_command <$> cmds)))
    as (M1 & M2 & M3 & M4).
  cbn [ControlPlaneSnapshot.devices ControlPlaneSnapshot.queues] in M1, M4.
  destruct Hsame as [Sd Sr Sc Sp]. unfold rows in Sd, Sr, Sc, Sp. simpl in Sd, Sr, Sc, Sp.
  rewrite <- list_fmap_compose in Sr, Sc.
  change (result_row ∘ replay_from_command) with command_row in Sr.
  change (claim_row ∘ replay_from_command) with command_claim in Sc.
  assert (List.length (command_row <$> cmds) = List.length cmds) as Hlen by apply length_fmap.
  unfold validate_rows.
  rewrite L1, L2, L3, L4, M1, M4, (proj2 (Nat.ltb_ge _ _) Hdn), (proj2 (Nat.ltb_ge _ _) Hqn).
  assert (forall n, n = List.length cmds -> (MAX_IDEMPOTENCY_RESULTS <? n)%nat = false) as Hr'
    by (intros n ->; by apply Nat.ltb_ge).
  rewrite !Hr' by (rewrite ?M2, ?M3; unfold replay_commands; simpl; by rewrite !length_fmap).
  cbn [orb].
  destruct (proj2 (device_rows_iff (SnapshotRows.devices r) devices) (conj Hdev Sd)) as (D1 & D2 & D3).
  rewrite (proj2 (validate_devices_Ok _ devices)) by done.
  destruct (proj2 (result_rows_iff (SnapshotRows.command_results r) cmds)) as (R1 & R2 & R3 & He);
    [by split_and!|].
  rewrite (proj2 (validate_results_Ok _ (results_of (SnapshotRows.command_results r)))) by done.
  destruct (proj2 (claim_rows_iff _ _ (SnapshotRows.idempotency_claims r) He Hnd) Sc) as (C1 & C2 & C3).
  rewrite (proj2 (validate_claims_Ok _ _ (claims_of (SnapshotRows.idempotency_claims r)))) by done.
  rewrite C3.
  destruct (pending_rows_backward _ cmds _ queues Sr He Hndid Hq Sp Hqid) as (P1 & P2 & P3 & P4 & P5).
  assert (positions_bounded ∅) as Hb0
    by (intros d; unfold positions_of; rewrite lookup_empty; simpl; rewrite map_size_empty; lia).
  destruct (proj2 (validate_pendings_Ok (results_of (SnapshotRows.command_results r))
    (SnapshotRows.pending_commands r) ∅ ∅ (map_seqZ 0 <$> queues) Hb0)) as [ids ->].
  { split_and!; try done; apply Forall_forall; intros x _; [set_solver|].
    unfold positions_of. by rewrite lookup_empty. }
  rewrite (proj2 (validate_queues_Ok _ queues P4)) by done.
  by rewrite He, (replay_records_of _ _ Sc Hnd).
Qed.

(** Rows are accepted exactly when they are, in any order, the rows of a
    well-formed snapshot, and the snapshot returned is that one: no row is
    lost, invented or attributed to another device. *)
Theorem validate_rows_iff (r : SnapshotRows.t) (s : ControlPlaneSnapshot.t) :
  validate_rows r = Ok s <-> snapshot_ok s /\ same_rows r (rows s).
Proof.
  split; [apply validate_rows_forward|]. intros [? ?]. by apply validate_rows_backward.
Qed.
End Loops.
