(* ===== verification/SqliteStore.v ===== *)
(** * The SQLite store

    The four tables of the control plane's database and the transactions on
    them, [crates/control-plane-sqlite/src/{lib,snapshot_store,
    snapshot_compare_and_swap}.rs].  A table is a map from its primary key; a
    statement fails, [None], when a constraint of the schema forbids it, and a
    transaction that fails leaves the tables as they were.  JSON text is the
    class [JsonText]. *)

From stdpp Require Import base gmap strings list fin_maps sorting.
From Stdlib Require Import ZArith Lia String.
From S2P Require Import Prelude Ordered Text Foundation Commands Devices Snapshot.
Local Open Scope string_scope.
Local Open Scope Z_scope.

(** ** JSON *)

(** [serde_json::to_string] and [from_str] for a type with derived
    implementations, and SQLite's [json_valid]. *)
Class JsonText (T : Type) := {
  json_encode : T -> string;
  json_decode : string -> option T;
}.

Class JsonValid := json_valid : string -> bool.

(** What is encoded can be decoded, and SQLite accepts it as JSON. *)
Class JsonTextLaws (T : Type) `{JsonText T, JsonValid} : Prop := {
  json_decode_encode (x : T) : json_decode (json_encode x) = Some x;
  json_valid_encode (x : T) : json_valid (json_encode x) = true;
}.

(** ** Tables *)

Module Tables.
Record t := mk {
  devices : gmap string string;
  command_results : gmap string (string * string);
  idempotency_claims : gmap string (string * string);
  pending_commands : gmap string (string * Z * string);
}.

#[global] Instance eq_dec : EqDecision t.
Proof. solve_decision. Defined.

Definition empty : t := mk ∅ ∅ ∅ ∅.

Definition set_devices (x : gmap string string) (s : t) : t :=
  mk x (command_results s) (idempotency_claims s) (pending_commands s).
Definition set_results (x : gmap string (string * string)) (s : t) : t :=
  mk (devices s) x (idempotency_claims s) (pending_commands s).
Definition set_claims (x : gmap string (string * string)) (s : t) : t :=
  mk (devices s) (command_results s) x (pending_commands s).
Definition set_pending (x : gmap string (string * Z * string)) (s : t) : t :=
  mk (devices s) (command_results s) (idempotency_claims s) x.
End Tables.

Section Statements.
Context `{JsonValid}.

(** ** Statements, with the constraints of [MIGRATION_V1] *)

Definition delete_pending (s : Tables.t) (command_id : string) : option Tables.t :=
  Some (Tables.set_pending (delete command_id (Tables.pending_commands s)) s).

Definition delete_claim (s : Tables.t) (scope_key : string) : option Tables.t :=
  Some (Tables.set_claims (delete scope_key (Tables.idempotency_claims s)) s).

(** [ON DELETE RESTRICT] of the pending command and [ON DELETE CASCADE] of the
    claim that refer to the result. *)
Definition delete_result (s : Tables.t) (scope_key : string) : option Tables.t :=
  match Tables.command_results s !! scope_key with
  | None => Some s
  | Some (command_id, _) =>
      if is_some (Tables.pending_commands s !! command_id) then None
      else
        let claims :=
          if is_some_and (Tables.idempotency_claims s !! scope_key)
               (fun claim => bool_decide (claim.1 = command_id))
          then delete scope_key (Tables.idempotency_claims s) else Tables.idempotency_claims s in
        Some (Tables.set_claims claims
                (Tables.set_results (delete scope_key (Tables.command_results s)) s))
  end.

Definition delete_device (s : Tables.t) (node_id : string) : option Tables.t :=
  Some (Tables.set_devices (delete node_id (Tables.devices s)) s).

(** [INSERT .. ON CONFLICT(node_id) DO UPDATE]. *)
Definition upsert_device (s : Tables.t) (node_id record_json : string) : option Tables.t :=
  if bool_decide (node_id = "") || negb (json_valid record_json) then None
  else Some (Tables.set_devices (<[node_id := record_json]> (Tables.devices s)) s).

Definition has_command {V} (m : gmap string (string * V)) (command_id : string) : bool :=
  existsb (fun row => bool_decide (row.2.1 = command_id)) (map_to_list m).

Definition insert_result (s : Tables.t) (scope_key command_id result_json : string)
    : option Tables.t :=
  if bool_decide (scope_key = "") || bool_decide (command_id = "")
     || negb (json_valid result_json)
     || is_some (Tables.command_results s !! scope_key)
     || has_command (Tables.command_results s) command_id
  then None
  else Some (Tables.set_results
               (<[scope_key := (command_id, result_json)]> (Tables.command_results s)) s).

Definition insert_claim (s : Tables.t) (scope_key command_id request_fingerprint : string)
    : option Tables.t :=
  if bool_decide (scope_key = "") || bool_decide (command_id = "")
     || bool_decide (request_fingerprint = "")
     || is_some (Tables.idempotency_claims s !! scope_key)
     || negb (is_some_and (Tables.command_results s !! scope_key)
                (fun row => bool_decide (row.1 = command_id)))
  then None
  else Some (Tables.set_claims
               (<[scope_key := (command_id, request_fingerprint)]> (Tables.idempotency_claims s)) s).

Definition slot_taken (m : gmap string (string * Z * string)) (device_id : string) (position : Z)
    : bool :=
  existsb (fun row => bool_decide (row.2.1 = (device_id, position))) (map_to_list m).

Definition insert_pending (s : Tables.t) (command_id device_id : string) (queue_position : Z)
    (command_json : string) : option Tables.t :=
  if bool_decide (command_id = "") || bool_decide (device_id = "")
     || (queue_position <? 0) || negb (json_valid command_json)
     || is_some (Tables.pending_commands s !! command_id)
     || negb (has_command (Tables.command_results s) command_id)
     || slot_taken (Tables.pending_commands s) device_id queue_position
  then None
  else Some (Tables.set_pending
               (<[command_id := (device_id, queue_position, command_json)]>
                  (Tables.pending_commands s)) s).

(** ** Row changes *)

(** A loop that executes a statement for each entry that changed; the second
    component counts the statements. *)
Fixpoint execute_changed {V} (unchanged : string * V -> bool)
    (statement : Tables.t -> string * V -> option Tables.t) (s : Tables.t)
    (rows : list (string * V)) : option (Tables.t * nat) :=
  match rows with
  | [] => Some (s, O)
  | row :: rest =>
      if unchanged row then execute_changed unchanged statement s rest
      else match statement s row with
           | None => None
           | Some s' => match execute_changed unchanged statement s' rest with
                        | Some (s'', n) => Some (s'', S n)
                        | None => None
                        end
           end
  end.

Definition same_row {V} `{EqDecision V} (m : gmap string V) (row : string * V) : bool :=
  bool_decide (m !! row.1 = Some row.2).

Record SnapshotRowChanges := mk_changes {
  devices_upserted : nat;
  devices_deleted : nat;
  command_results_inserted : nat;
  command_results_deleted : nat;
  idempotency_claims_inserted : nat;
  idempotency_claims_deleted : nat;
  pending_commands_inserted : nat;
  pending_commands_deleted : nat;
}.

(** [apply_row_changes]: delete what changed, dependent rows first, then insert. *)
Definition apply_row_changes (s : Tables.t) (current candidate : Tables.t)
    : option (Tables.t * SnapshotRowChanges) :=
  '(s1, n1) ← execute_changed (same_row (Tables.pending_commands candidate))
    (fun s row => delete_pending s row.1) s (string_entries (Tables.pending_commands current));
  '(s2, n2) ← execute_changed (same_row (Tables.idempotency_claims candidate))
    (fun s row => delete_claim s row.1) s1 (string_entries (Tables.idempotency_claims current));
  '(s3, n3) ← execute_changed (same_row (Tables.command_results candidate))
    (fun s row => delete_result s row.1) s2 (string_entries (Tables.command_results current));
  '(s4, n4) ← execute_changed (fun row => is_some (Tables.devices candidate !! row.1))
    (fun s row => delete_device s row.1) s3 (string_entries (Tables.devices current));
  '(s5, n5) ← execute_changed (same_row (Tables.devices current))
    (fun s row => upsert_device s row.1 row.2) s4 (string_entries (Tables.devices candidate));
  '(s6, n6) ← execute_changed (same_row (Tables.command_results current))
    (fun s row => insert_result s row.1 row.2.1 row.2.2) s5
    (string_entries (Tables.command_results candidate));
  '(s7, n7) ← execute_changed (same_row (Tables.idempotency_claims current))
    (fun s row => insert_claim s row.1 row.2.1 row.2.2) s6
    (string_entries (Tables.idempotency_claims candidate));
  '(s8, n8) ← execute_changed (same_row (Tables.pending_commands current))
    (fun s row => insert_pending s row.1 row.2.1.1 row.2.1.2 row.2.2) s7
    (string_entries (Tables.pending_commands candidate));
  Some (s8, mk_changes n5 n4 n6 n3 n7 n2 n8 n1).
End Statements.

(** ** Transactions *)

Inductive StoreFailure :=
| StoreDatabase
| StoreJson (relation : string)
| StoreFoundation (relation field : string) (source : FoundationError)
| QueuePositionOutOfRange (position : Z)
| StoreViolation (v : SnapshotViolation).

Inductive SnapshotCompareAndSwapError :=
| CasStore (e : StoreFailure) | StaleExpectedState | PostWriteParityMismatch.

Section Store.
Context `{Blake3, UuidText, !JsonText DeviceRecord.t, !JsonText DeviceCommand.t, !JsonValid}.

Definition device_entry (row : DeviceRow.t) : string * string :=
  (DeviceRow.node_id row, json_encode (DeviceRow.record row)).
Definition result_entry (row : CommandResultRow.t) : string * (string * string) :=
  (ContentDigest_to_string (CommandResultRow.scope_key row),
   (uuid_identifier_to_string (CommandResultRow.command_id row),
    json_encode (CommandResultRow.result row))).
Definition claim_entry (row : IdempotencyClaimRow.t) : string * (string * string) :=
  (ContentDigest_to_string (IdempotencyClaimRow.scope_key row),
   (uuid_identifier_to_string (IdempotencyClaimRow.command_id row),
    ContentDigest_to_string (IdempotencyClaimRow.request_fingerprint row))).
Definition pending_entry (row : PendingCommandRow.t) : string * (string * Z * string) :=
  (uuid_identifier_to_string (PendingCommandRow.command_id row),
   (PendingCommandRow.device_id row, PendingCommandRow.queue_position row,
    json_encode (PendingCommandRow.command row))).

(** Inserting row after row; a later row replaces an earlier one of its key. *)
Definition collect {R V} (entry : R -> string * V) (rows : list R) : gmap string V :=
  foldl (fun m row => <[(entry row).1 := (entry row).2]> m) ∅ rows.

Definition materialize (s : ControlPlaneSnapshot.t) : Tables.t :=
  Tables.mk (collect device_entry (SnapshotRows.devices (rows s)))
    (collect result_entry (SnapshotRows.command_results (rows s)))
    (collect claim_entry (SnapshotRows.idempotency_claims (rows s)))
    (collect pending_entry (SnapshotRows.pending_commands (rows s))).

Definition compare_and_swap_snapshot (s : Tables.t) (expected candidate : ControlPlaneSnapshot.t)
    : result (Tables.t * SnapshotRowChanges) SnapshotCompareAndSwapError :=
  match validate expected with
  | Err v => Err (CasStore (StoreViolation v))
  | Ok _ =>
  match validate candidate with
  | Err v => Err (CasStore (StoreViolation v))
  | Ok _ =>
      if negb (bool_decide (s = materialize expected)) then Err StaleExpectedState
      else match apply_row_changes s s (materialize candidate) with
           | None => Err (CasStore StoreDatabase)
           | Some (s', changes) =>
               if negb (bool_decide (s' = materialize candidate))
               then Err PostWriteParityMismatch else Ok (s', changes)
           end
  end end.

(** ** Loading *)

Definition decode_json (T : Type) `{JsonText T} (relation raw : string) : result T StoreFailure :=
  ok_or (json_decode raw) (StoreJson relation).

Definition parse_digest (relation field raw : string) : result ContentDigest StoreFailure :=
  map_err (StoreFoundation relation field) (ContentDigest_from_str raw).

Definition parse_command_id (relation field raw : string) : result CommandId StoreFailure :=
  map_err (StoreFoundation relation field) (uuid_identifier_from_str "command_id" raw).

Local Open Scope rust_scope.

Definition load_device (row : string * string) : result DeviceRow.t StoreFailure :=
  let? record := decode_json DeviceRecord.t "devices" row.2 in
  Ok (DeviceRow.mk row.1 record).

Definition load_result (row : string * (string * string))
    : result CommandResultRow.t StoreFailure :=
  let? scope_key := parse_digest "command_results" "scope_key" row.1 in
  let? command_id := parse_command_id "command_results" "command_id" row.2.1 in
  let? command := decode_json DeviceCommand.t "command_results" row.2.2 in
  Ok (CommandResultRow.mk scope_key command_id command).

Definition load_claim (row : string * (string * string))
    : result IdempotencyClaimRow.t StoreFailure :=
  let? scope_key := parse_digest "idempotency_claims" "scope_key" row.1 in
  let? command_id := parse_command_id "idempotency_claims" "command_id" row.2.1 in
  let? fingerprint := parse_digest "idempotency_claims" "request_fingerprint" row.2.2 in
  Ok (IdempotencyClaimRow.mk scope_key command_id fingerprint).

Definition load_pending (row : string * (string * Z * string))
    : result PendingCommandRow.t StoreFailure :=
  let? command_id := parse_command_id "pending_commands" "command_id" row.1 in
  let? position := ok_or (u32_try_from row.2.1.2) (QueuePositionOutOfRange row.2.1.2) in
  let? command := decode_json DeviceCommand.t "pending_commands" row.2.2 in
  Ok (PendingCommandRow.mk command_id row.2.1.1 position command).

(** [ORDER BY device_id, queue_position]. *)
Definition pending_le (x y : string * (string * Z * string)) : Prop :=
  if decide (x.2.1.1 = y.2.1.1) then x.2.1.2 <= y.2.1.2 else String.le x.2.1.1 y.2.1.1.

#[export] Instance pending_le_dec : RelDecision pending_le.
Proof. intros x y. unfold pending_le. destruct (decide _); apply _. Defined.

Definition load_rows (s : Tables.t) : result SnapshotRows.t StoreFailure :=
  let? devices := collect_rows load_device (string_entries (Tables.devices s)) in
  let? results := collect_rows load_result (string_entries (Tables.command_results s)) in
  let? claims := collect_rows load_claim (string_entries (Tables.idempotency_claims s)) in
  let? pending := collect_rows load_pending
    (merge_sort pending_le (map_to_list (Tables.pending_commands s))) in
  Ok (SnapshotRows.mk devices results claims pending).

Definition load_snapshot (s : Tables.t) : result ControlPlaneSnapshot.t StoreFailure :=
  let? loaded := load_rows s in map_err StoreViolation (from_rows loaded).
End Store.
