(* ===== verification/SqliteTheorems.v ===== *)
(** * The SQLite store holds what it is given

    The row changes of a swap succeed between any two databases that satisfy
    the constraints, as long as no result is rewritten in place, and leave
    exactly the candidate; loading a stored snapshot gives it back. *)

From stdpp Require Import base gmap strings list fin_maps sorting.
From Stdlib Require Import ZArith Lia String.
From S2P Require Import Prelude Ordered Text Foundation Commands Devices.
From S2P Require Import Snapshot SnapshotTheorems SqliteStore.
Local Open Scope string_scope.
Local Open Scope Z_scope.

(** ** Loops of statements *)

Section Loops.
Context {V : Type} `{EqDecision V}.
Context (get : Tables.t -> gmap string V) (set : gmap string V -> Tables.t -> Tables.t).
Context (get_set : forall x s, get (set x s) = x) (set_set : forall x y s, set x (set y s) = set x s).
Context (set_get : forall s, set (get s) s = s).
Context (statement : Tables.t -> string * V -> option Tables.t) (I : Tables.t -> Prop).

(** Deleting every row the candidate [m'] does not share. *)
Lemma execute_deletes (m' : gmap string V) :
  (forall s row, I s -> get s !! row.1 = Some row.2 -> m' !! row.1 <> Some row.2 ->
     statement s row = Some (set (delete row.1 (get s)) s) /\ I (set (delete row.1 (get s)) s)) ->
  forall rows s, I s -> NoDup rows.*1 -> Forall (fun row => get s !! row.1 = Some row.2) rows ->
  exists n M, execute_changed (same_row m') statement s rows = Some (set M s, n) /\ I (set M s)
    /\ forall k v, M !! k = Some v <-> get s !! k = Some v /\ ((k, v) ∈ rows -> m' !! k = Some v).
Proof.
  intros Hst rows. induction rows as [|[k v] rows IH]; intros s HI Hnd Hin.
  - exists O, (get s). simpl. rewrite set_get. split_and!; try done. intros k v.
    split; [|naive_solver]. intros Hk. split; [done|]. by intros ?%not_elem_of_nil.
  - simpl in *. apply NoDup_cons in Hnd as [Hk Hnd]. apply Forall_cons in Hin as [Hkv Hin].
    unfold same_row at 1. cbn [fst snd]. simpl in Hkv. case_bool_decide as Hm.
    + destruct (IH s HI Hnd Hin) as (n & M & -> & HI' & HM). exists n, M. split_and!; try done.
      intros k' v'. rewrite HM. setoid_rewrite elem_of_cons. naive_solver.
    + destruct (Hst s (k, v) HI Hkv Hm) as [-> HI']. cbn [fst snd] in *.
      destruct (IH _ HI' Hnd) as (n & M & -> & HI'' & HM).
      { rewrite get_set. eapply Forall_impl; [apply Forall_and; split; [exact Hin|]|].
        - apply Forall_forall. intros row Hrow.
          assert (row.1 <> k) as Hne; [|exact Hne].
          intros <-. apply Hk. apply list_elem_of_fmap. eauto.
        - intros row [Hr Hne]. simpl in *. by rewrite lookup_delete_ne. }
      exists (S n), M. rewrite set_set in *. split_and!; try done. intros k' v'. rewrite HM, get_set.
      setoid_rewrite elem_of_cons. rewrite lookup_delete_Some. split.
      * intros [[Hne Hg] Hr]. split; [done|]. intros [[= -> ->]|]; auto. done.
      * intros [Hg Hr]. split; [split; [|done]|auto]. intros <-.
        assert (v' = v) as -> by congruence. apply Hm, Hr. by left.
Qed.

(** Inserting every row of the candidate [m'] that [m] does not share. *)
Lemma execute_inserts (m m' : gmap string V) :
  (forall s row, I s -> get s ⊆ m' -> get s !! row.1 = None -> m' !! row.1 = Some row.2 ->
     statement s row = Some (set (<[row.1 := row.2]> (get s)) s)
     /\ I (set (<[row.1 := row.2]> (get s)) s)) ->
  forall rows s, I s -> get s ⊆ m' -> NoDup rows.*1 ->
  Forall (fun row => m' !! row.1 = Some row.2
                     /\ (m !! row.1 <> Some row.2 -> get s !! row.1 = None)) rows ->
  exists n M, execute_changed (same_row m) statement s rows = Some (set M s, n) /\ I (set M s)
    /\ forall k v, M !! k = Some v <->
         get s !! k = Some v \/ ((k, v) ∈ rows /\ m !! k <> Some v).
Proof.
  intros Hst rows. induction rows as [|[k v] rows IH]; intros s HI Hsub Hnd Hin.
  - exists O, (get s). simpl. rewrite set_get. split_and!; try done. intros k v.
    setoid_rewrite elem_of_nil. naive_solver.
  - simpl in *. apply NoDup_cons in Hnd as [Hk Hnd]. apply Forall_cons in Hin as [[Hkv Hfresh] Hin].
    simpl in Hkv, Hfresh. unfold same_row at 1. cbn [fst snd]. case_bool_decide as Hm.
    + destruct (IH s HI Hsub Hnd Hin) as (n & M & -> & HI' & HM). exists n, M. split_and!; try done.
      intros k' v'. rewrite HM. setoid_rewrite elem_of_cons. naive_solver.
    + specialize (Hfresh Hm). destruct (Hst s (k, v) HI Hsub Hfresh Hkv) as [-> HI'].
      cbn [fst snd] in *.
      destruct (IH _ HI') as (n & M & -> & HI'' & HM); [|done| |].
      { rewrite get_set. by apply insert_subseteq_l. }
      { rewrite get_set. rewrite Forall_forall in *. intros row Hrow.
        destruct (Hin row Hrow) as [? Hf]. split; [done|]. intros Hne.
        rewrite lookup_insert_ne; [auto|]. intros ->. apply Hk. apply list_elem_of_fmap. eauto. }
      exists (S n), M. rewrite set_set in *. split_and!; try done. intros k' v'. rewrite HM, get_set.
      setoid_rewrite elem_of_cons. rewrite lookup_insert_Some. split.
      * intros [[[<- <-]|[? ?]]|[? ?]]; auto.
      * intros [Hg|[[[= -> ->]|Hr] Hne]]; [|auto|auto].
        left. right. split; [|done]. intros <-. congruence.
Qed.
End Loops.

Section Upserts.
Context `{JsonValid}.

(** The upsert of devices overwrites; every device of the candidate that
    differs is written. *)
Lemma execute_upserts (m : gmap string string) (rows : list (string * string)) s :
  NoDup rows.*1 -> Forall (fun row => row.1 <> "" /\ json_valid row.2 = true) rows ->
  exists n M,
    execute_changed (same_row m) (fun s row => upsert_device s row.1 row.2) s rows
    = Some (Tables.set_devices M s, n)
    /\ forall k v, M !! k = Some v <->
         ((k, v) ∈ rows /\ m !! k <> Some v)
         \/ (Tables.devices s !! k = Some v /\ forall v', (k, v') ∈ rows -> m !! k = Some v').
Proof.
  revert s. induction rows as [|[k v] rows IH]; intros s Hnd Hok.
  - exists O, (Tables.devices s). split; [by destruct s|]. intros k v.
    setoid_rewrite elem_of_nil. naive_solver.
  - simpl in Hnd. apply NoDup_cons in Hnd as [Hk Hnd]. apply Forall_cons in Hok as [[Hne Hv] Hok].
    assert (forall v', (k, v') ∉ rows) as Hnot.
    { intros v' Hin. apply Hk. apply list_elem_of_fmap. by exists (k, v'). }
    cbn [execute_changed]. unfold same_row at 1. cbn [fst snd] in *. case_bool_decide as Hm.
    + destruct (IH s Hnd Hok) as (n & M & -> & HM). exists n, M. split; [done|].
      intros k' v'. rewrite HM. setoid_rewrite elem_of_cons. split.
      * intros [[? ?]|[? Hr]]; [auto|]. right. split; [done|].
        intros v'' [[= -> ->]|Hin]; [done|by apply Hr].
      * intros [[[[= -> ->]|?] ?]|[? Hr]]; [done|auto|]. right. split; [done|]. auto.
    + unfold upsert_device at 1. cbn [fst snd]. rewrite bool_decide_false, Hv by done. cbn [orb negb].
      destruct (IH (Tables.set_devices (<[k := v]> (Tables.devices s)) s) Hnd Hok) as (n & M & -> & HM).
      exists (S n), M. split; [done|]. intros k' v'. rewrite HM. simpl.
      setoid_rewrite elem_of_cons. rewrite lookup_insert_Some. split.
      * intros [[? ?]|[[[<- <-]|[? ?]] Hr]]; [auto|auto|]. right. split; [done|].
        intros v'' [[= -> ->]|Hin]; [done|by apply Hr].
      * intros [[[[= -> ->]|?] ?]|[? Hr]].
        -- right. split; [by left|]. intros v'' Hin. by apply Hnot in Hin.
        -- auto.
        -- destruct (decide (k = k')) as [<-|]; [by specialize (Hr v (or_introl eq_refl))|].
           right. split; [by right|]. auto.
Qed.

(** Deleting the devices the candidate does not have. *)
Lemma execute_device_deletes (m' : gmap string string) (rows : list (string * string)) s :
  exists n M,
    execute_changed (fun row => is_some (m' !! row.1)) (fun s row => delete_device s row.1) s rows
    = Some (Tables.set_devices M s, n)
    /\ forall k v, M !! k = Some v <->
         Tables.devices s !! k = Some v /\ (k ∈ rows.*1 -> is_Some (m' !! k)).
Proof.
  revert s. induction rows as [|[k v] rows IH]; intros s; cbn [execute_changed].
  - exists O, (Tables.devices s). split; [by destruct s|]. intros k v.
    setoid_rewrite elem_of_nil. naive_solver.
  - destruct (m' !! k) as [x|] eqn:Hm; cbn [is_some fst].
    + destruct (IH s) as (n & M & Hex & HM). cbn [fst snd]. rewrite Hm. cbn [is_some]. rewrite Hex.
      exists n, M. split; [done|]. intros k' v'. rewrite HM. csimpl. rewrite elem_of_cons.
      split; [|naive_solver]. intros [? Hr]. split; [done|]. intros [->|]; [by rewrite Hm|auto].
    + cbn [fst snd]. rewrite Hm. cbn [is_some]. unfold delete_device at 1.
      destruct (IH (Tables.set_devices (delete k (Tables.devices s)) s)) as (n & M & -> & HM).
      exists (S n), M. split; [done|]. intros k' v'. rewrite HM. csimpl.
      rewrite elem_of_cons, lookup_delete_Some. split.
      * intros [[? ?] Hr]. split; [done|]. intros [->|]; [done|auto].
      * intros [? Hr]. split; [split; [|done]|auto]. intros <-. destruct Hr; [by left|congruence].
Qed.
End Upserts.

(** ** A swap between two databases *)

Section Swap.
Context `{JsonValid}.

(** The constraints of the schema, and that a pending command carries the same
    text as its result. *)
Record tables_ok (s : Tables.t) : Prop := {
  tok_devices : map_Forall (fun n j => n <> "" /\ json_valid j = true) (Tables.devices s);
  tok_results : map_Forall (fun k r => k <> "" /\ r.1 <> "" /\ json_valid r.2 = true)
                  (Tables.command_results s);
  tok_ids : forall k k' r r', Tables.command_results s !! k = Some r ->
    Tables.command_results s !! k' = Some r' -> r.1 = r'.1 -> k = k';
  tok_claims : map_Forall (fun k r => r.2 <> "" /\
                  exists j, Tables.command_results s !! k = Some (r.1, j))
                 (Tables.idempotency_claims s);
  tok_pending : map_Forall (fun id r => r.1.1 <> "" /\ 0 <= r.1.2 /\
                  exists k, Tables.command_results s !! k = Some (id, r.2))
                 (Tables.pending_commands s);
  tok_slots : forall id id' r r', Tables.pending_commands s !! id = Some r ->
    Tables.pending_commands s !! id' = Some r' -> r.1 = r'.1 -> id = id';
}.

(** A command both databases know has the same result in both. *)
Definition no_rewrite (e c : Tables.t) : Prop :=
  forall k k' id j j', Tables.command_results e !! k = Some (id, j) ->
    Tables.command_results c !! k' = Some (id, j') -> k = k' /\ j = j'.

Lemma common_spec {V} (m m' M : gmap string V) :
  (forall k v, M !! k = Some v <->
     m !! k = Some v /\ ((k, v) ∈ string_entries m -> m' !! k = Some v)) ->
  forall k v, M !! k = Some v <-> m !! k = Some v /\ m' !! k = Some v.
Proof. intros HM k v. rewrite HM, (elem_of_entries String.le). naive_solver. Qed.

Lemma inserted_all {V} `{EqDecision V} (m m' g M : gmap string V) :
  (forall k v, g !! k = Some v <-> m !! k = Some v /\ m' !! k = Some v) ->
  (forall k v, M !! k = Some v <->
     g !! k = Some v \/ ((k, v) ∈ string_entries m' /\ m !! k <> Some v)) -> M = m'.
Proof.
  intros Hg HM. apply map_eq. intros k. apply option_eq. intros v.
  rewrite HM, Hg, (elem_of_entries String.le). destruct (decide (m !! k = Some v)); naive_solver.
Qed.

Lemma common_subseteq {V} (m m' g : gmap string V) :
  (forall k v, g !! k = Some v <-> m !! k = Some v /\ m' !! k = Some v) -> g ⊆ m'.
Proof. intros Hg. apply map_subseteq_spec. intros k v Hk. by apply Hg in Hk as [_ ?]. Qed.

Lemma entries_lookup {V} (m : gmap string V) :
  Forall (fun row => m !! row.1 = Some row.2) (string_entries m).
Proof. apply Forall_forall. intros [k v] Hin. by apply (elem_of_entries String.le) in Hin. Qed.

(** What an insert loop asks of the rows of the candidate. *)
Lemma entries_insertable {V} `{EqDecision V} (m m' g : gmap string V) :
  (forall k v, g !! k = Some v <-> m !! k = Some v /\ m' !! k = Some v) ->
  Forall (fun row => m' !! row.1 = Some row.2 /\ (m !! row.1 <> Some row.2 -> g !! row.1 = None))
    (string_entries m').
Proof.
  intros Hg. apply Forall_forall. intros [k v] Hin. apply (elem_of_entries String.le) in Hin.
  split; [done|]. simpl. intros Hm. destruct (g !! k) as [v'|] eqn:Hk; [|done].
  apply Hg in Hk as [? ?]. congruence.
Qed.

Lemma has_command_true {W} (m : gmap string (string * W)) id :
  has_command m id = true <-> exists k r, m !! k = Some r /\ r.1 = id.
Proof.
  unfold has_command. rewrite existsb_exists. split.
  - intros ([k r] & Hin & Hid). apply list_elem_of_In, elem_of_map_to_list in Hin. bools. eauto.
  - intros (k & r & Hk & <-). exists (k, r). split; [|by apply bool_decide_eq_true_2].
    by apply list_elem_of_In, elem_of_map_to_list.
Qed.

Lemma slot_taken_true m device position :
  slot_taken m device position = true <->
  exists id r, m !! id = Some r /\ r.1 = (device, position).
Proof.
  unfold slot_taken. rewrite existsb_exists. split.
  - intros ([k r] & Hin & Hid). apply list_elem_of_In, elem_of_map_to_list in Hin. bools. eauto.
  - intros (k & r & Hk & Hr). exists (k, r). split; [|by apply bool_decide_eq_true_2].
    by apply list_elem_of_In, elem_of_map_to_list.
Qed.

Lemma insert_result_ok (s c : Tables.t) k r :
  tables_ok c -> Tables.command_results s ⊆ Tables.command_results c ->
  Tables.command_results s !! k = None -> Tables.command_results c !! k = Some r ->
  insert_result s k r.1 r.2
  = Some (Tables.set_results (<[k := r]> (Tables.command_results s)) s).
Proof.
  intros Hc Hsub Hk Hr. destruct (tok_results _ Hc k r Hr) as (Hk' & Hid & Hj).
  unfold insert_result. rewrite !bool_decide_false, Hj, Hk by done. cbn [negb orb is_some].
  destruct (has_command _ _) eqn:Hh; [|by destruct r].
  apply has_command_true in Hh as (k' & r' & Hk'' & Heq).
  pose proof (lookup_weaken _ _ _ _ Hk'' Hsub) as Hc'.
  rewrite (tok_ids _ Hc k' k r' r Hc' Hr Heq) in Hk''. congruence.
Qed.

Lemma insert_claim_ok (s c : Tables.t) k r :
  tables_ok c -> Tables.command_results s = Tables.command_results c ->
  Tables.idempotency_claims s !! k = None -> Tables.idempotency_claims c !! k = Some r ->
  insert_claim s k r.1 r.2
  = Some (Tables.set_claims (<[k := r]> (Tables.idempotency_claims s)) s).
Proof.
  intros Hc Hres Hk Hr. destruct (tok_claims _ Hc k r Hr) as (Hfp & j & Hj).
  destruct (tok_results _ Hc k _ Hj) as (Hk' & Hid & _). simpl in Hid.
  unfold insert_claim. rewrite !bool_decide_false, Hk, Hres, Hj by done. cbn [negb orb is_some is_some_and].
  rewrite bool_decide_true by done. by destruct r.
Qed.

Lemma insert_pending_ok (s c : Tables.t) id r :
  tables_ok c -> Tables.command_results s = Tables.command_results c ->
  Tables.pending_commands s ⊆ Tables.pending_commands c ->
  Tables.pending_commands s !! id = None -> Tables.pending_commands c !! id = Some r ->
  insert_pending s id r.1.1 r.1.2 r.2
  = Some (Tables.set_pending (<[id := r]> (Tables.pending_commands s)) s).
Proof.
  intros Hc Hres Hsub Hid Hr. destruct (tok_pending _ Hc id r Hr) as (Hd & Hp & k & Hk).
  destruct (tok_results _ Hc k _ Hk) as (_ & Hid' & Hj). simpl in Hid', Hj.
  unfold insert_pending. rewrite !bool_decide_false, (proj2 (Z.ltb_ge _ _) Hp), Hj, Hid by done.
  rewrite Hres, (proj2 (has_command_true _ id)) by eauto. cbn [negb orb is_some].
  destruct (slot_taken _ _ _) eqn:Hs; [|by destruct r as [[]]].
  apply slot_taken_true in Hs as (id' & r' & Hid'' & Heq).
  pose proof (lookup_weaken _ _ _ _ Hid'' Hsub) as Hc'.
  assert (r'.1 = r.1) as Hsl by (rewrite Heq; by destruct r as [[]]).
  rewrite (tok_slots _ Hc id' id r' r Hc' Hr Hsl) in Hid''. congruence.
Qed.

(** Nothing that stays refers to a result that goes. *)
Lemma delete_result_ok (e c s : Tables.t) k r :
  tables_ok e -> tables_ok c -> no_rewrite e c ->
  (forall id p, Tables.pending_commands s !! id = Some p ->
     Tables.pending_commands e !! id = Some p /\ Tables.pending_commands c !! id = Some p) ->
  (forall k' x, Tables.idempotency_claims s !! k' = Some x ->
     Tables.idempotency_claims c !! k' = Some x) ->
  Tables.command_results e !! k = Some r -> Tables.command_results s !! k = Some r ->
  Tables.command_results c !! k <> Some r ->
  delete_result s k = Some (Tables.set_results (delete k (Tables.command_results s)) s).
Proof.
  intros He Hc Hnr Hpend Hclaims Hek Hk Hck. destruct r as [id j]. unfold delete_result. rewrite Hk.
  destruct (Tables.pending_commands s !! id) as [p|] eqn:Hp; cbn [is_some].
  { exfalso. destruct (Hpend id p Hp) as [Hpe Hpc].
    destruct (tok_pending _ Hc id p Hpc) as (_ & _ & k2 & Hk2).
    destruct (Hnr k k2 id j p.2 Hek Hk2) as [? ?]. congruence. }
  destruct (Tables.idempotency_claims s !! k) as [x|] eqn:Hx; cbn [is_some_and]; [|done].
  case_bool_decide as Hid; [|done]. exfalso.
  destruct (tok_claims _ Hc k x (Hclaims k x Hx)) as (_ & j' & Hj'). rewrite Hid in Hj'.
  destruct (Hnr k k id j j' Hek Hj') as [_ ?]. congruence.
Qed.

(** The tables once the results, claims and pending commands that the candidate
    does not share are deleted. *)
Definition shared {V} (m m' g : gmap string V) : Prop :=
  forall k v, g !! k = Some v <-> m !! k = Some v /\ m' !! k = Some v.

Lemma delete_phase (e c : Tables.t) :
  tables_ok e -> tables_ok c -> no_rewrite e c ->
  exists n1 n2 n3 M1 M2 M3,
    (('(s1, k1) ← execute_changed (same_row (Tables.pending_commands c))
        (fun s row => delete_pending s row.1) e (string_entries (Tables.pending_commands e));
      '(s2, k2) ← execute_changed (same_row (Tables.idempotency_claims c))
        (fun s row => delete_claim s row.1) s1 (string_entries (Tables.idempotency_claims e));
      '(s3, k3) ← execute_changed (same_row (Tables.command_results c))
        (fun s row => delete_result s row.1) s2 (string_entries (Tables.command_results e));
      Some (s3, k1, k2, k3))
     = Some (Tables.mk (Tables.devices e) M3 M2 M1, n1, n2, n3))
    /\ shared (Tables.pending_commands e) (Tables.pending_commands c) M1
    /\ shared (Tables.idempotency_claims e) (Tables.idempotency_claims c) M2
    /\ shared (Tables.command_results e) (Tables.command_results c) M3.
Proof.
  intros He Hc Hnr.
  destruct (execute_deletes Tables.pending_commands Tables.set_pending
    ltac:(done) ltac:(done) ltac:(by intros []) (fun s row => delete_pending s row.1)
    (fun _ => True) (Tables.pending_commands c) ltac:(done)
    (string_entries (Tables.pending_commands e)) e I
    (entries_keys_NoDup String.le _) (entries_lookup _)) as (n1 & M1 & -> & _ & H1).
  pose proof (common_spec _ _ _ H1) as C1. cbn [mbind option_bind].
  destruct (execute_deletes Tables.idempotency_claims Tables.set_claims
    ltac:(done) ltac:(done) ltac:(by intros []) (fun s row => delete_claim s row.1)
    (fun _ => True) (Tables.idempotency_claims c) ltac:(done)
    (string_entries (Tables.idempotency_claims e)) (Tables.set_pending M1 e) I
    (entries_keys_NoDup String.le _) (entries_lookup _)) as (n2 & M2 & -> & _ & H2).
  pose proof (common_spec _ _ _ H2) as C2. cbn [mbind option_bind].
  destruct (execute_deletes Tables.command_results Tables.set_results
    ltac:(done) ltac:(done) ltac:(by intros []) (fun s row => delete_result s row.1)
    (fun s => Tables.pending_commands s = M1 /\ Tables.idempotency_claims s = M2
              /\ Tables.command_results s ⊆ Tables.command_results e)
    (Tables.command_results c)) with (rows := string_entries (Tables.command_results e))
    (s := Tables.set_claims M2 (Tables.set_pending M1 e)) as (n3 & M3 & -> & _ & H3).
  { intros s [k r] (Hs1 & Hs2 & Hs3) Hk Hne. cbn [fst snd] in *. split.
    - apply (delete_result_ok e c s k r); try done.
      + intros id p. rewrite Hs1. apply C1.
      + intros k' x. rewrite Hs2. intros Hx. by apply C2 in Hx as [_ ?].
      + by apply (lookup_weaken _ _ _ _ Hk Hs3).
    - split_and!; try done. simpl. etrans; [apply delete_subseteq|done]. }
  { done. }
  { apply (entries_keys_NoDup String.le). }
  { apply entries_lookup. }
  pose proof (common_spec _ _ _ H3) as C3. exists n1, n2, n3, M1, M2, M3. by split_and!.
Qed.

Lemma device_phase (e c s : Tables.t) :
  tables_ok c -> Tables.devices s = Tables.devices e ->
  exists n4 n5,
    ('(s4, k4) ← execute_changed (fun row => is_some (Tables.devices c !! row.1))
       (fun s row => delete_device s row.1) s (string_entries (Tables.devices e));
     '(s5, k5) ← execute_changed (same_row (Tables.devices e))
       (fun s row => upsert_device s row.1 row.2) s4 (string_entries (Tables.devices c));
     Some (s5, k4, k5)) = Some (Tables.set_devices (Tables.devices c) s, n4, n5).
Proof.
  intros Hc Hs.
  destruct (execute_device_deletes (Tables.devices c) (string_entries (Tables.devices e)) s)
    as (n4 & M4 & -> & H4). cbn [mbind option_bind].
  destruct (execute_upserts (Tables.devices e) (string_entries (Tables.devices c))
    (Tables.set_devices M4 s)) as (n5 & M5 & -> & H5).
  { apply (entries_keys_NoDup String.le). }
  { eapply Forall_impl; [apply entries_lookup|]. intros [n j] Hn. apply (tok_devices _ Hc n j Hn). }
  exists n4, n5. cbn [mbind option_bind]. enough (M5 = Tables.devices c) as -> by done.
  apply map_eq. intros k. apply option_eq. intros v. rewrite H5. cbn [Tables.devices Tables.set_devices].
  rewrite H4, Hs. setoid_rewrite (elem_of_entries String.le).
  destruct (decide (Tables.devices e !! k = Some v)) as [Hek|Hek]; [|naive_solver].
  split; [|naive_solver]. intros [[? ?]|[[_ Hin] Hr]]; [done|].
  destruct Hin as [v' Hv']; [|rewrite Hv'; f_equal; apply Hr in Hv'; congruence].
  apply list_elem_of_fmap. exists (k, v). by rewrite (elem_of_entries String.le).
Qed.

Lemma insert_phase (e c s : Tables.t) :
  tables_ok c -> Tables.devices s = Tables.devices c ->
  shared (Tables.pending_commands e) (Tables.pending_commands c) (Tables.pending_commands s) ->
  shared (Tables.idempotency_claims e) (Tables.idempotency_claims c) (Tables.idempotency_claims s) ->
  shared (Tables.command_results e) (Tables.command_results c) (Tables.command_results s) ->
  exists n6 n7 n8,
    ('(s6, k6) ← execute_changed (same_row (Tables.command_results e))
       (fun s row => insert_result s row.1 row.2.1 row.2.2) s
       (string_entries (Tables.command_results c));
     '(s7, k7) ← execute_changed (same_row (Tables.idempotency_claims e))
       (fun s row => insert_claim s row.1 row.2.1 row.2.2) s6
       (string_entries (Tables.idempotency_claims c));
     '(s8, k8) ← execute_changed (same_row (Tables.pending_commands e))
       (fun s row => insert_pending s row.1 row.2.1.1 row.2.1.2 row.2.2) s7
       (string_entries (Tables.pending_commands c));
     Some (s8, k6, k7, k8)) = Some (c, n6, n7, n8).
Proof.
  intros Hc Hd C1 C2 C3.
  destruct (execute_inserts Tables.command_results Tables.set_results
    ltac:(done) ltac:(done) ltac:(by intros [])
    (fun s row => insert_result s row.1 row.2.1 row.2.2) (fun _ => True)
    (Tables.command_results e) (Tables.command_results c)
    ltac:(intros s' [k r] _ ???; split; [by apply (insert_result_ok s' c)|done])
    (string_entries (Tables.command_results c)) s I (common_subseteq _ _ _ C3)
    (entries_keys_NoDup String.le _) (entries_insertable _ _ _ C3)) as (n6 & M6 & -> & _ & H6).
  rewrite (inserted_all _ _ _ _ C3 H6). cbn [mbind option_bind].
  destruct (execute_inserts Tables.idempotency_claims Tables.set_claims
    ltac:(done) ltac:(done) ltac:(by intros [])
    (fun s row => insert_claim s row.1 row.2.1 row.2.2)
    (fun s => Tables.command_results s = Tables.command_results c)
    (Tables.idempotency_claims e) (Tables.idempotency_claims c)
    ltac:(intros s' [k r] ? ???; split; [by apply (insert_claim_ok s' c)|done])
    (string_entries (Tables.idempotency_claims c))
    (Tables.set_results (Tables.command_results c) s) eq_refl (common_subseteq _ _ _ C2)
    (entries_keys_NoDup String.le _) (entries_insertable _ _ _ C2)) as (n7 & M7 & -> & _ & H7).
  rewrite (inserted_all _ _ _ _ C2 H7). cbn [mbind option_bind].
  destruct (execute_inserts Tables.pending_commands Tables.set_pending
    ltac:(done) ltac:(done) ltac:(by intros [])
    (fun s row => insert_pending s row.1 row.2.1.1 row.2.1.2 row.2.2)
    (fun s => Tables.command_results s = Tables.command_results c)
    (Tables.pending_commands e) (Tables.pending_commands c)
    ltac:(intros s' [k r] ? ???; split; [by apply (insert_pending_ok s' c)|done])
    (string_entries (Tables.pending_commands c))
    (Tables.set_claims (Tables.idempotency_claims c)
       (Tables.set_results (Tables.command_results c) s)) eq_refl (common_subseteq _ _ _ C1)
    (entries_keys_NoDup String.le _) (entries_insertable _ _ _ C1)) as (n8 & M8 & -> & _ & H8).
  rewrite (inserted_all _ _ _ _ C1 H8). cbn [mbind option_bind]. exists n6, n7, n8.
  destruct c, s. by simpl in *; subst.
Qed.

(** The row changes leave exactly the candidate. *)
Theorem apply_row_changes_ok (e c : Tables.t) :
  tables_ok e -> tables_ok c -> no_rewrite e c ->
  exists changes, apply_row_changes e e c = Some (c, changes).
Proof.
  intros He Hc Hnr. unfold apply_row_changes.
  destruct (delete_phase e c He Hc Hnr) as (n1 & n2 & n3 & M1 & M2 & M3 & Hdel & C1 & C2 & C3).
  repeat (apply bind_Some in Hdel as ([? ?] & -> & Hdel); cbn [mbind option_bind]).
  injection Hdel as -> -> -> ->.
  destruct (device_phase e c (Tables.mk (Tables.devices e) M3 M2 M1) Hc eq_refl) as (n4 & n5 & Hdev).
  repeat (apply bind_Some in Hdev as ([? ?] & -> & Hdev); cbn [mbind option_bind]).
  injection Hdev as -> -> ->.
  destruct (insert_phase e c (Tables.set_devices (Tables.devices c)
    (Tables.mk (Tables.devices e) M3 M2 M1)) Hc eq_refl C1 C2 C3)
    as (n6 & n7 & n8 & Hins).
  repeat (apply bind_Some in Hins as ([? ?] & -> & Hins); cbn [mbind option_bind]).
  injection Hins as -> -> -> ->. eauto.
Qed.
End Swap.
