(* ===== verification/SqliteRoundtrip.v ===== *)
(** * What the SQLite store keeps of a snapshot

    The tables a snapshot is written as, row by row; that they satisfy the
    constraints of the schema; that a swap of validated snapshots succeeds
    exactly on the expected database; and that loading the tables gives the
    snapshot back. *)

From stdpp Require Import base gmap strings list fin_maps sorting.
From Stdlib Require Import ZArith Lia String.
From S2P Require Import Prelude Ordered Text Foundation Commands Devices.
From S2P Require Import Snapshot SnapshotTheorems SqliteStore SqliteTheorems.
Local Open Scope string_scope.
Local Open Scope Z_scope.

(** ** Collecting and loading rows *)

Lemma collect_list_to_map {R V} (entry : R -> string * V) (l : list R) :
  NoDup (entry <$> l).*1 -> collect entry l = list_to_map (entry <$> l).
Proof.
  unfold collect. intros Hnd.
  assert (forall m : gmap string V,
    foldl (fun m row => <[(entry row).1 := (entry row).2]> m) m l
    = list_to_map (entry <$> l) ∪ m) as Hg; [|by rewrite Hg, (right_id_L ∅ (∪))].
  revert Hnd. induction l as [|x l IH]; intros Hnd m; csimpl; [by rewrite (left_id_L ∅ (∪))|].
  csimpl in Hnd. apply NoDup_cons in Hnd as [Hx Hnd]. rewrite IH by done.
  destruct (entry x) as [k v]; cbn [fst snd] in *.
  rewrite union_insert_swap by (by apply not_elem_of_list_to_map).
  done.
Qed.

Lemma collect_lookup {R V} (entry : R -> string * V) (l : list R) k v :
  NoDup (entry <$> l).*1 -> collect entry l !! k = Some v <-> exists r, r ∈ l /\ entry r = (k, v).
Proof.
  intros Hnd. rewrite collect_list_to_map, <- elem_of_list_to_map by done.
  rewrite list_elem_of_fmap. naive_solver.
Qed.

Lemma collect_fmap_lookup {A R V} (entry : R -> string * V) (f : A -> R) (l : list A) k v :
  NoDup (entry <$> (f <$> l)).*1 ->
  collect entry (f <$> l) !! k = Some v <-> exists x, x ∈ l /\ entry (f x) = (k, v).
Proof. intros Hnd. rewrite collect_lookup by done. setoid_rewrite list_elem_of_fmap. naive_solver. Qed.

Lemma map_to_list_collect {R V} (entry : R -> string * V) (l : list R) :
  NoDup (entry <$> l).*1 -> map_to_list (collect entry l) ≡ₚ entry <$> l.
Proof. intros Hnd. rewrite collect_list_to_map by done. by apply map_to_list_to_map. Qed.

(** Loading the entries of rows, in any order, gives the rows in some order. *)
Lemma collect_rows_entries {R V E} (load : string * V -> result R E) (entry : R -> string * V)
    (l : list R) (es : list (string * V)) :
  Forall (fun r => load (entry r) = Ok r) l -> es ≡ₚ entry <$> l ->
  exists l', collect_rows load es = Ok l' /\ l' ≡ₚ l.
Proof.
  intros Hload Hp. apply Permutation_map_inv in Hp as (l' & -> & Hp'). exists l'.
  split; [|by symmetry]. rewrite Hp' in Hload. apply collect_rows_Ok. clear Hp'.
  induction Hload; csimpl; by constructor.
Qed.

Section Roundtrip.
Context `{Blake3Laws, UuidTextLaws, !JsonText DeviceRecord.t, !JsonText DeviceCommand.t, !JsonValid}.
Context `{!JsonTextLaws DeviceRecord.t, !JsonTextLaws DeviceCommand.t}.

#[local] Existing Instance scope_text_inj.
#[local] Existing Instance id_text_inj.

Lemma scope_text_nonempty d : scope_text d <> "".
Proof. done. Qed.

Lemma id_text_nonempty id : id_text id <> "".
Proof. apply uuid_to_string_nonempty. Qed.

(** ** Keys of the rows *)

Section Keys.
Context (s : ControlPlaneSnapshot.t) (Hs : snapshot_ok s).

Lemma results_rows_commands :
  SnapshotRows.command_results (rows s) = command_row <$> replay_commands s.
Proof. unfold rows. simpl. rewrite (snap_replay s Hs) at 1. by rewrite <- list_fmap_compose. Qed.

Lemma claims_rows_commands :
  SnapshotRows.idempotency_claims (rows s) = command_claim <$> replay_commands s.
Proof. unfold rows. simpl. rewrite (snap_replay s Hs) at 1. by rewrite <- list_fmap_compose. Qed.

Lemma device_keys : NoDup (device_entry <$> SnapshotRows.devices (rows s)).*1.
Proof.
  unfold rows. simpl. rewrite <- !list_fmap_compose.
  rewrite (list_fmap_ext _ fst) by done. apply (entries_keys_NoDup String.le).
Qed.

Lemma result_keys : NoDup (result_entry <$> SnapshotRows.command_results (rows s)).*1.
Proof. rewrite results_rows_commands, <- !list_fmap_compose. apply (snap_replay_scopes s Hs). Qed.

Lemma claim_keys : NoDup (claim_entry <$> SnapshotRows.idempotency_claims (rows s)).*1.
Proof. rewrite claims_rows_commands, <- !list_fmap_compose. apply (snap_replay_scopes s Hs). Qed.

Lemma pending_keys : NoDup (pending_entry <$> SnapshotRows.pending_commands (rows s)).*1.
Proof.
  unfold rows. cbn [SnapshotRows.pending_commands].
  assert ((pending_entry <$> List.concat (queue_rows <$> string_entries (ControlPlaneSnapshot.queues s))).*1
    = id_text <$> (DeviceCommand.command_id <$>
        (PendingCommandRow.command <$>
           List.concat (queue_rows <$> string_entries (ControlPlaneSnapshot.queues s))))) as ->.
  { rewrite <- !list_fmap_compose. apply list_fmap_ext. intros i row Hrow.
    apply list_elem_of_lookup_2, elem_of_queue_rows in Hrow as (d & q & j & c & _ & _ & ->). done. }
  rewrite queue_rows_commands. apply (NoDup_fmap_2 id_text). apply (snap_pending_ids s Hs).
Qed.
End Keys.

(** ** The rows of each table *)

Lemma materialize_device s n j :
  Tables.devices (materialize s) !! n = Some j <->
  exists r, ControlPlaneSnapshot.devices s !! n = Some r /\ j = json_encode r.
Proof.
  unfold materialize. cbn [Tables.devices]. rewrite collect_lookup by apply device_keys.
  unfold rows. cbn [SnapshotRows.devices]. setoid_rewrite list_elem_of_fmap. split.
  - intros (? & ([n' r] & -> & Hin) & [= <- <-]). apply (elem_of_entries String.le) in Hin. eauto.
  - intros (r & Hn & ->). exists (DeviceRow.mk n r). split; [|done]. exists (n, r).
    by rewrite (elem_of_entries String.le).
Qed.

Lemma materialize_result s k v : snapshot_ok s ->
  Tables.command_results (materialize s) !! k = Some v <->
  exists c, c ∈ replay_commands s /\ k = command_scope_text c
    /\ v = (id_text (DeviceCommand.command_id c), json_encode c).
Proof.
  intros Hs. unfold materialize. cbn [Tables.command_results].
  pose proof (result_keys s Hs) as Hnd. rewrite results_rows_commands in * by done.
  rewrite collect_fmap_lookup by done. split.
  - intros (c & Hc & [= <- <-]). by exists c.
  - intros (c & Hc & -> & ->). by exists c.
Qed.

Lemma materialize_claim s k v : snapshot_ok s ->
  Tables.idempotency_claims (materialize s) !! k = Some v <->
  exists c, c ∈ replay_commands s /\ k = command_scope_text c
    /\ v = (id_text (DeviceCommand.command_id c), scope_text (command_fingerprint c)).
Proof.
  intros Hs. unfold materialize. cbn [Tables.idempotency_claims].
  pose proof (claim_keys s Hs) as Hnd. rewrite claims_rows_commands in * by done.
  rewrite collect_fmap_lookup by done. split.
  - intros (c & Hc & [= <- <-]). by exists c.
  - intros (c & Hc & -> & ->). by exists c.
Qed.

Lemma materialize_pending s id v : snapshot_ok s ->
  Tables.pending_commands (materialize s) !! id = Some v <->
  exists d q i c, ControlPlaneSnapshot.queues s !! d = Some q /\ q !! i = Some c
    /\ id = id_text (DeviceCommand.command_id c) /\ v = (d, Z.of_nat i, json_encode c).
Proof.
  intros Hs. unfold materialize. cbn [Tables.pending_commands].
  rewrite collect_lookup by (by apply pending_keys).
  unfold rows. cbn [SnapshotRows.pending_commands]. setoid_rewrite elem_of_queue_rows. split.
  - intros (? & (d & q & i & c & Hq & Hc & ->) & [= <- <-]). exists d, q, i, c. done.
  - intros (d & q & i & c & Hq & Hc & -> & ->). exists (pending_row d i c). split; [|done]. by exists d, q, i, c.
Qed.

(** ** The constraints hold *)

Lemma replay_same_id s c c' : snapshot_ok s ->
  c ∈ replay_commands s -> c' ∈ replay_commands s ->
  DeviceCommand.command_id c = DeviceCommand.command_id c' -> c = c'.
Proof.
  intros Hs [i Hi]%list_elem_of_lookup [j Hj]%list_elem_of_lookup Heq.
  assert (i = j) as ->; [|congruence].
  eapply NoDup_lookup; [apply (snap_replay_ids s Hs)|..];
    rewrite list_lookup_fmap; [by rewrite Hi|by rewrite Hj, Heq].
Qed.

Lemma queued_in_replay s d q i c : snapshot_ok s ->
  ControlPlaneSnapshot.queues s !! d = Some q -> q !! i = Some c ->
  DeviceCommand.device_id c = d /\ c ∈ replay_commands s.
Proof.
  intros Hs Hq Hc. destruct (snap_queues s Hs d q Hq) as (_ & _ & _ & Hall).
  rewrite Forall_forall in Hall. apply Hall. by eapply list_elem_of_lookup_2.
Qed.

Lemma materialize_tables_ok s : snapshot_ok s -> tables_ok (materialize s).
Proof.
  intros Hs. split.
  - intros n j (r & Hn & ->)%materialize_device.
    destruct (snap_devices s Hs n r Hn). split; [done|apply json_valid_encode].
  - intros k v (c & Hc & -> & ->)%materialize_result; [|done]. cbn [fst snd].
    split; [apply scope_text_nonempty|]. split; [apply id_text_nonempty|apply json_valid_encode].
  - intros k k' r r' (c & Hc & -> & ->)%materialize_result (c' & Hc' & -> & ->)%materialize_result
      Heq; [|done|done]. cbn [fst] in Heq. apply (inj id_text) in Heq.
    by rewrite (replay_same_id s c c').
  - intros k v (c & Hc & -> & ->)%materialize_claim; [|done]. cbn [fst snd].
    split; [apply scope_text_nonempty|]. exists (json_encode c). apply materialize_result; eauto.
  - intros id v (d & q & i & c & Hq & Hc & -> & ->)%materialize_pending; [|done]. cbn [fst snd].
    destruct (snap_queues s Hs d q Hq) as (_ & Hd & _). split; [done|]. split; [lia|].
    destruct (queued_in_replay s d q i c Hs Hq Hc) as [_ Hin].
    exists (command_scope_text c). apply materialize_result; eauto.
  - intros id id' v v' (d & q & i & c & Hq & Hc & -> & ->)%materialize_pending
      (d' & q' & i' & c' & Hq' & Hc' & -> & ->)%materialize_pending Heq; [|done|done].
    cbn [fst] in Heq. injection Heq as <- <-%Nat2Z.inj. congruence.
Qed.

(** A command both snapshots know is the same command in both. *)
Definition commands_agree (e c : ControlPlaneSnapshot.t) : Prop :=
  forall x y, x ∈ replay_commands e -> y ∈ replay_commands c ->
    DeviceCommand.command_id x = DeviceCommand.command_id y -> x = y.

Lemma materialize_no_rewrite e c :
  snapshot_ok e -> snapshot_ok c -> commands_agree e c ->
  no_rewrite (materialize e) (materialize c).
Proof.
  intros He Hc Hag k k' id j j' (x & Hx & -> & [= -> ->])%materialize_result
    (y & Hy & -> & [= Heq ->])%materialize_result; [|done|done].
  apply (inj id_text) in Heq. by rewrite (Hag x y).
Qed.

Lemma validate_ok s : snapshot_ok s -> validate s = Ok tt.
Proof.
  intros Hs. unfold validate, from_rows. by rewrite (validate_rows_backward (rows s) s Hs).
Qed.

(** C13: A swap between two well-formed snapshots that agree on the commands they
    share always gets past the constraints of the schema: it replaces the
    database by the candidate's rows exactly when the database holds the
    expected rows, and reports a stale state otherwise. *)
Theorem compare_and_swap_snapshot_spec (db : Tables.t) (expected candidate : ControlPlaneSnapshot.t) :
  snapshot_ok expected -> snapshot_ok candidate -> commands_agree expected candidate ->
  exists changes,
    compare_and_swap_snapshot db expected candidate
    = if bool_decide (db = materialize expected) then Ok (materialize candidate, changes)
      else Err StaleExpectedState.
Proof.
  intros He Hc Hag. unfold compare_and_swap_snapshot. rewrite !validate_ok by done.
  destruct (apply_row_changes_ok (materialize expected) (materialize candidate))
    as [changes Hch];
    [by apply materialize_tables_ok|by apply materialize_tables_ok
    |by apply materialize_no_rewrite|].
  exists changes. case_bool_decide as Hdb; [|done]. subst db. cbn [negb]. rewrite Hch.
  by rewrite bool_decide_true.
Qed.

(** ** Loading *)

Lemma load_device_entry row : load_device (device_entry row) = Ok row.
Proof.
  unfold load_device, device_entry, decode_json. cbn [fst snd]. rewrite json_decode_encode.
  by destruct row.
Qed.

Lemma parse_scope_text relation field d : parse_digest relation field (ContentDigest_to_string d) = Ok d.
Proof. unfold parse_digest. by rewrite content_digest_roundtrip. Qed.

Lemma parse_id_text relation field (id : CommandId) : parse_command_id relation field (uuid_identifier_to_string id) = Ok id.
Proof.
  unfold parse_command_id, uuid_identifier_to_string, uuid_identifier_from_str.
  rewrite uuid_parse_to_string. by destruct id.
Qed.

Lemma load_result_entry row : load_result (result_entry row) = Ok row.
Proof.
  unfold load_result, result_entry, decode_json. cbn [fst snd].
  rewrite parse_scope_text. cbn [result_bind]. rewrite parse_id_text. cbn [result_bind].
  rewrite json_decode_encode.
  by destruct row.
Qed.

Lemma load_claim_entry row : load_claim (claim_entry row) = Ok row.
Proof.
  unfold load_claim, claim_entry. cbn [fst snd].
  rewrite parse_scope_text. cbn [result_bind]. rewrite parse_id_text. cbn [result_bind].
  rewrite parse_scope_text.
  by destruct row.
Qed.

Lemma load_pending_entry row :
  0 <= PendingCommandRow.queue_position row <= u32_max ->
  load_pending (pending_entry row) = Ok row.
Proof.
  intros [Hlo Hhi]. unfold load_pending, pending_entry, decode_json, u32_try_from. cbn [fst snd].
  rewrite parse_id_text. rewrite (proj2 (Z.leb_le _ _) Hlo), (proj2 (Z.leb_le _ _) Hhi).
  cbn. rewrite json_decode_encode. by destruct row.
Qed.

Lemma pending_positions s :
  snapshot_ok s ->
  Forall (fun row => 0 <= PendingCommandRow.queue_position row <= u32_max)
    (SnapshotRows.pending_commands (rows s)).
Proof.
  intros Hs. apply Forall_forall. intros row Hrow. unfold rows in Hrow.
  apply elem_of_queue_rows in Hrow as (d & q & i & c & Hq & Hi & ->). simpl.
  apply lookup_lt_Some in Hi. destruct (snap_queues s Hs d q Hq) as (_ & _ & Hlen & _).
  unfold MAX_COMMAND_QUEUE_PER_DEVICE, u32_max in *. lia.
Qed.

Lemma load_rows_materialize s :
  snapshot_ok s -> exists r, load_rows (materialize s) = Ok r /\ same_rows r (rows s).
Proof.
  intros Hs. unfold load_rows, materialize.
  cbn [Tables.devices Tables.command_results Tables.idempotency_claims Tables.pending_commands].
  destruct (collect_rows_entries load_device device_entry (SnapshotRows.devices (rows s))
    (string_entries (collect device_entry (SnapshotRows.devices (rows s))))) as (l1 & -> & P1).
  { apply Forall_true. intros. apply load_device_entry. }
  { rewrite entries_Permutation. apply map_to_list_collect, device_keys. }
  destruct (collect_rows_entries load_result result_entry (SnapshotRows.command_results (rows s))
    (string_entries (collect result_entry (SnapshotRows.command_results (rows s)))))
    as (l2 & -> & P2).
  { apply Forall_true. intros. apply load_result_entry. }
  { rewrite entries_Permutation. by apply map_to_list_collect, result_keys. }
  destruct (collect_rows_entries load_claim claim_entry (SnapshotRows.idempotency_claims (rows s))
    (string_entries (collect claim_entry (SnapshotRows.idempotency_claims (rows s)))))
    as (l3 & -> & P3).
  { apply Forall_true. intros. apply load_claim_entry. }
  { rewrite entries_Permutation. by apply map_to_list_collect, claim_keys. }
  destruct (collect_rows_entries load_pending pending_entry (SnapshotRows.pending_commands (rows s))
    (merge_sort pending_le (map_to_list (collect pending_entry (SnapshotRows.pending_commands (rows s))))))
    as (l4 & -> & P4).
  { eapply Forall_impl; [by apply pending_positions|]. intros. by apply load_pending_entry. }
  { rewrite merge_sort_Permutation. by apply map_to_list_collect, pending_keys. }
  eexists. split; [done|]. by split.
Qed.

Lemma load_materialize_ok (s : ControlPlaneSnapshot.t) :
  snapshot_ok s -> load_snapshot (materialize s) = Ok s.
Proof.
  intros Hs. unfold load_snapshot, from_rows.
  destruct (load_rows_materialize s Hs) as (r & -> & Hr). cbn.
  by rewrite (validate_rows_backward r s Hs Hr).
Qed.

(** C14: What is stored is what is loaded: the rows of every snapshot that passed
    validation decode and validate again, and give that snapshot back. *)
Theorem load_materialize (r : SnapshotRows.t) (s : ControlPlaneSnapshot.t) :
  validate_rows r = Ok s -> load_snapshot (materialize s) = Ok s.
Proof. intros [Hs _]%validate_rows_forward. by apply load_materialize_ok. Qed.
End Roundtrip.
