(* ===== verification/SqliteFile.v ===== *)
(** * The SQLite file

    Opening, migrating and checking the database file, the write transaction of
    the store, the replacement of a whole snapshot, the canonical document of a
    snapshot, and the readiness check: [crates/control-plane-sqlite/src/{lib,
    integrity,snapshot_store,snapshot}.rs] and
    [services/control-plane/src/health.rs].  A file is its tables with what
    SQLite answers about it. *)

From stdpp Require Import base gmap strings list fin_maps sorting.
From Stdlib Require Import ZArith Lia String.
From S2P Require Import Prelude Ordered Text Foundation Commands Devices Snapshot SnapshotTheorems.
From S2P Require Import SqliteStore SqliteTheorems SqliteRoundtrip.
Local Open Scope string_scope.
Local Open Scope Z_scope.

(** ** Errors *)

Definition SCHEMA_VERSION : Z := 1.

Definition EXPECTED_TABLES : list string :=
  ["command_results"; "devices"; "idempotency_claims"; "pending_commands"].

Inductive StoreError :=
| Io | Database
| InvalidValue (field : string)
| UnsupportedStoreVersion (found supported : Z)
| UnexpectedJournalMode | UnexpectedForeignKeyState | UnexpectedSchema | IntegrityCheckFailed.

Definition StoreError_fmt (i64_to_string : Z -> string) (e : StoreError) : string :=
  match e with
  | Io => "SQLite store filesystem operation failed"
  | Database => "SQLite store operation failed"
  | InvalidValue field => "invalid SQLite field: " ++ field
  | UnsupportedStoreVersion found supported =>
      "unsupported SQLite schema version " ++ i64_to_string found
        ++ "; supported version is " ++ i64_to_string supported
  | UnexpectedJournalMode => "SQLite WAL journal mode could not be established"
  | UnexpectedForeignKeyState => "SQLite foreign-key enforcement could not be established"
  | UnexpectedSchema => "SQLite schema does not match the supported baseline inventory"
  | IntegrityCheckFailed => "SQLite integrity check failed"
  end.

(** ** The file *)

Module DbFile.
Record t := mk {
  user_version : Z;
  table_names : gset string;
  tables : Tables.t;
  journal_reply : string;       (* of [PRAGMA journal_mode = WAL] *)
  foreign_keys_reply : Z;       (* of [PRAGMA foreign_keys] *)
  integrity_rows : list string; (* of [PRAGMA integrity_check] *)
  foreign_key_rows : nat;       (* of [PRAGMA foreign_key_check] *)
}.

Definition set_tables (x : Tables.t) (f : t) : t :=
  mk (user_version f) (table_names f) x (journal_reply f) (foreign_keys_reply f)
    (integrity_rows f) (foreign_key_rows f).
End DbFile.

(** [str::eq_ignore_ascii_case] *)
Definition ascii_lower (b : Z) : Z := if in_range 65 90 b then b + 32 else b.
Definition eq_ignore_ascii_case (s t : string) : bool :=
  bool_decide (ascii_lower <$> bytes s = ascii_lower <$> bytes t).

Section File.
Local Open Scope rust_scope.

Definition configure_connection (f : DbFile.t) (require_wal : bool) : result unit StoreError :=
  if require_wal && negb (eq_ignore_ascii_case (DbFile.journal_reply f) "wal")
  then Err UnexpectedJournalMode
  else if negb (DbFile.foreign_keys_reply f =? 1) then Err UnexpectedForeignKeyState
  else Ok tt.

Definition create_table (name : string) (names : gset string) : option (gset string) :=
  if bool_decide (name ∈ names) then None else Some ({[name]} ∪ names).

(** [execute_batch(MIGRATION_V1)]: a table that exists already fails it. *)
Definition migration_v1 (names : gset string) : option (gset string) :=
  names1 ← create_table "devices" names;
  names2 ← create_table "command_results" names1;
  names3 ← create_table "idempotency_claims" names2;
  create_table "pending_commands" names3.

Definition apply_migrations (f : DbFile.t) : result DbFile.t StoreError :=
  let version := DbFile.user_version f in
  if SCHEMA_VERSION <? version then Err (UnsupportedStoreVersion version SCHEMA_VERSION)
  else if version =? 0 then
    match migration_v1 (DbFile.table_names f) with
    | None => Err Database
    | Some names =>
        Ok (DbFile.mk SCHEMA_VERSION names Tables.empty (DbFile.journal_reply f)
              (DbFile.foreign_keys_reply f) (DbFile.integrity_rows f) (DbFile.foreign_key_rows f))
    end
  else if version =? SCHEMA_VERSION then Ok f
  else Err (UnsupportedStoreVersion version SCHEMA_VERSION).

(** [name LIKE 'sqlite_%']: [_] stands for any one character, and letters match
    whatever their case. *)
Definition internal_table (name : string) : bool :=
  let b := ascii_lower <$> bytes name in
  bool_decide (take 6 b = bytes "sqlite") && (6 <? List.length b)%nat.

Definition validate_schema (f : DbFile.t) : result unit StoreError :=
  let actual := filter (fun name => internal_table name = false) (DbFile.table_names f) in
  if negb (bool_decide (actual = list_to_set EXPECTED_TABLES)) then Err UnexpectedSchema else Ok tt.

(** The loop over the answers of the integrity check, counting them. *)
Fixpoint check_rows (rows : list string) (row_count : nat) : result nat StoreError :=
  match rows with
  | [] => Ok row_count
  | row :: rest =>
      if negb (bool_decide (row = "ok")) then Err IntegrityCheckFailed
      else check_rows rest (S row_count)
  end.

Definition validate_integrity (f : DbFile.t) : result unit StoreError :=
  let? row_count := check_rows (DbFile.integrity_rows f) 0 in
  if negb (row_count =? 1)%nat then Err IntegrityCheckFailed
  else if negb (DbFile.foreign_key_rows f =? 0)%nat then Err IntegrityCheckFailed
  else Ok tt.

(** [SqliteStore::open], the file existing or created empty. *)
Definition initialize (f : DbFile.t) (require_wal : bool) : result DbFile.t StoreError :=
  let? _ := configure_connection f require_wal in
  let? f' := apply_migrations f in
  let? _ := validate_schema f' in
  let? _ := validate_integrity f' in
  Ok f'.

Definition initialize_existing (f : DbFile.t) (require_wal : bool) : result DbFile.t StoreError :=
  let found := DbFile.user_version f in
  if negb (found =? SCHEMA_VERSION) then Err (UnsupportedStoreVersion found SCHEMA_VERSION)
  else
    let? _ := validate_schema f in
    let? _ := validate_integrity f in
    let? _ := configure_connection f require_wal in
    Ok f.

(** A path with no file, or a file that is not there, cannot be opened with
    [SQLITE_OPEN_READ_WRITE] alone. *)
Definition open_existing (file : option DbFile.t) : result DbFile.t StoreError :=
  match file with
  | None => Err Database
  | Some f => initialize_existing f true
  end.

(** ** Counts *)

Record InventoryCounts := mk_counts {
  count_devices : Z;
  count_pending_commands : Z;
  count_command_results : Z;
  count_idempotency_claims : Z;
}.

Definition table_count (s : Tables.t) (table : string) : result Z StoreError :=
  if bool_decide (table = "devices") then Ok (Z.of_nat (size (Tables.devices s)))
  else if bool_decide (table = "pending_commands")
  then Ok (Z.of_nat (size (Tables.pending_commands s)))
  else if bool_decide (table = "command_results")
  then Ok (Z.of_nat (size (Tables.command_results s)))
  else if bool_decide (table = "idempotency_claims")
  then Ok (Z.of_nat (size (Tables.idempotency_claims s)))
  else Err UnexpectedSchema.

Definition inventory_counts (s : Tables.t) : result InventoryCounts StoreError :=
  let? devices := table_count s "devices" in
  let? pending := table_count s "pending_commands" in
  let? results := table_count s "command_results" in
  let? claims := table_count s "idempotency_claims" in
  Ok (mk_counts devices pending results claims).
End File.

(** ** The write transaction *)

Section Write.
Context `{JsonValid}.
Local Open Scope rust_scope.

Definition require_nonempty (value field : string) : result unit StoreError :=
  if bool_decide (value = "") then Err (InvalidValue field) else Ok tt.

(** [connection.execute]: a violated constraint is a database error. *)
Definition execute (out : option Tables.t) : result Tables.t StoreError := ok_or out Database.

Definition replace_device (s : Tables.t) (node_id record_json : string)
    : result Tables.t StoreError :=
  let? _ := require_nonempty node_id "node_id" in
  execute (upsert_device s node_id record_json).

Definition insert_command_result (s : Tables.t) (scope_key command_id result_json : string)
    : result Tables.t StoreError :=
  let? _ := require_nonempty scope_key "scope_key" in
  let? _ := require_nonempty command_id "command_id" in
  execute (insert_result s scope_key command_id result_json).

Definition insert_idempotency_claim (s : Tables.t)
    (scope_key command_id request_fingerprint : string) : result Tables.t StoreError :=
  let? _ := require_nonempty scope_key "scope_key" in
  let? _ := require_nonempty command_id "command_id" in
  let? _ := require_nonempty request_fingerprint "request_fingerprint" in
  execute (insert_claim s scope_key command_id request_fingerprint).

Definition insert_pending_command (s : Tables.t) (command_id device_id : string)
    (queue_position : Z) (command_json : string) : result Tables.t StoreError :=
  let? _ := require_nonempty command_id "command_id" in
  let? _ := require_nonempty device_id "device_id" in
  execute (insert_pending s command_id device_id queue_position command_json).

(** The answer tells whether the row was there. *)
Definition delete_pending_command (s : Tables.t) (command_id : string)
    : result (bool * Tables.t) StoreError :=
  let? _ := require_nonempty command_id "command_id" in
  let? s' := execute (delete_pending s command_id) in
  Ok (is_some (Tables.pending_commands s !! command_id), s').

(** [SqliteStore::write]: the operation's tables are kept when it succeeds, and
    the old ones when it fails. *)
Definition write {T} (operation : Tables.t -> result (T * Tables.t) StoreError) (s : Tables.t)
    : result T StoreError * Tables.t :=
  match operation s with
  | Ok (value, s') => (Ok value, s')
  | Err e => (Err e, s)
  end.
End Write.

(** ** Replacing the snapshot *)

Section Replace.
Context `{Blake3, UuidText, !JsonText DeviceRecord.t, !JsonText DeviceCommand.t, !JsonValid}.

(** A plain [INSERT INTO devices]. *)
Definition insert_device (s : Tables.t) (node_id record_json : string) : option Tables.t :=
  if bool_decide (node_id = "") || negb (json_valid record_json)
     || is_some (Tables.devices s !! node_id)
  then None
  else Some (Tables.set_devices (<[node_id := record_json]> (Tables.devices s)) s).

(** [DELETE FROM command_results], with the restriction by pending commands and
    the cascade to claims. *)
Definition delete_all_results (s : Tables.t) : option Tables.t :=
  if existsb (fun row => has_command (Tables.command_results s) row.1)
       (map_to_list (Tables.pending_commands s))
  then None
  else Some (Tables.set_results ∅ (Tables.set_claims
         (filter (fun row => Tables.command_results s !! row.1 ≫= (fun r => Some r.1)
                             <> Some row.2.1) (Tables.idempotency_claims s)) s)).

(** A loop that executes one statement per row. *)
Fixpoint execute_each {R} (statement : Tables.t -> R -> option Tables.t) (s : Tables.t)
    (rows : list R) : option Tables.t :=
  match rows with
  | [] => Some s
  | row :: rest => s' ← statement s row; execute_each statement s' rest
  end.

Definition replace_rows (s : Tables.t) (r : SnapshotRows.t) : option Tables.t :=
  let s1 := Tables.set_pending ∅ s in
  let s2 := Tables.set_claims ∅ s1 in
  s3 ← delete_all_results s2;
  let s4 := Tables.set_devices ∅ s3 in
  s5 ← execute_each (fun s row => insert_device s (device_entry row).1 (device_entry row).2)
         s4 (SnapshotRows.devices r);
  s6 ← execute_each (fun s row => let '(k, (id, j)) := result_entry row in insert_result s k id j)
         s5 (SnapshotRows.command_results r);
  s7 ← execute_each (fun s row => let '(k, (id, fp)) := claim_entry row in insert_claim s k id fp)
         s6 (SnapshotRows.idempotency_claims r);
  execute_each (fun s row => let '(id, (d, p, j)) := pending_entry row in insert_pending s id d p j)
         s7 (SnapshotRows.pending_commands r).

Definition replace_snapshot (s : Tables.t) (snapshot : ControlPlaneSnapshot.t)
    : result Tables.t StoreFailure :=
  match validate snapshot with
  | Err v => Err (StoreViolation v)
  | Ok _ => ok_or (replace_rows s (rows snapshot)) StoreDatabase
  end.

(** ** Readiness *)

(** [durable_store_ready]; [None] is a path that is not a regular file. *)
Definition durable_store_ready (file : option DbFile.t) : bool :=
  match file with
  | None => false
  | Some f =>
      match open_existing (Some f) with
      | Err _ => false
      | Ok f' => is_ok (load_snapshot (DbFile.tables f'))
      end
  end.
End Replace.

(** ** The canonical document *)

Definition SNAPSHOT_FORMAT_VERSION : Z := 1.

Module SnapshotDocument.
Record t `{Blake3} := mk { schema_version : Z; document_rows : SnapshotRows.t }.
Arguments mk {_}.
End SnapshotDocument.

Inductive SnapshotError := SnapshotJson | SnapshotInvalid (v : SnapshotViolation).

Section Document.
Context `{Blake3, UuidText, !JsonText SnapshotDocument.t}.

(** [SnapshotDocument::from_rows] and [into_rows] move the four lists. *)
Definition to_canonical_json (s : ControlPlaneSnapshot.t) : string :=
  json_encode (SnapshotDocument.mk SNAPSHOT_FORMAT_VERSION (rows s)).

Definition from_json (body : string) : result ControlPlaneSnapshot.t SnapshotError :=
  match json_decode body with
  | None => Err SnapshotJson
  | Some document =>
      let found := SnapshotDocument.schema_version document in
      if negb (found =? SNAPSHOT_FORMAT_VERSION)
      then Err (SnapshotInvalid (UnsupportedSchemaVersion found SNAPSHOT_FORMAT_VERSION))
      else map_err SnapshotInvalid (from_rows (SnapshotDocument.document_rows document))
  end.
End Document.

(** * Replacing, exporting and opening

    Replacing a snapshot leaves exactly its rows, whatever the tables held; the
    canonical document of a snapshot reads back as that snapshot; and a file
    that was opened can be opened again and is ready. *)

(** ** Replacing the snapshot *)

(** A loop over rows is a loop over their entries none of which is skipped. *)
Lemma execute_each_changed {R V} `{EqDecision V} (entry : R -> string * V)
    (st : Tables.t -> R -> option Tables.t) (statement : Tables.t -> string * V -> option Tables.t)
    (rows : list R) s :
  (forall s row, st s row = statement s (entry row)) ->
  execute_each st s rows = fst <$> execute_changed (same_row ∅) statement s (entry <$> rows).
Proof.
  intros Hst. revert s. induction rows as [|row rest IH]; intros s; [done|].
  cbn [execute_each execute_changed fmap list_fmap]. unfold same_row at 1.
  rewrite lookup_empty, bool_decide_false by done. rewrite Hst.
  destruct (statement s (entry row)) as [s'|]; [|done]. cbn [mbind option_bind]. rewrite IH.
  by destruct (execute_changed _ _ _ _) as [[s'' n]|].
Qed.

Section Inserts.
Context {R V : Type} `{EqDecision V} (entry : R -> string * V).
Context (get : Tables.t -> gmap string V) (set : gmap string V -> Tables.t -> Tables.t).
Context (get_set : forall x s, get (set x s) = x) (set_set : forall x y s, set x (set y s) = set x s).
Context (set_get : forall s, set (get s) s = s).
Context (st : Tables.t -> R -> option Tables.t) (statement : Tables.t -> string * V -> option Tables.t).
Context (Hst : forall s row, st s row = statement s (entry row)) (I : Tables.t -> Prop).

(** Inserting all rows into an empty table. *)
Lemma execute_each_inserts (rows : list R) s :
  (forall s row, I s -> get s ⊆ collect entry rows -> get s !! row.1 = None ->
     collect entry rows !! row.1 = Some row.2 ->
     statement s row = Some (set (<[row.1 := row.2]> (get s)) s)
     /\ I (set (<[row.1 := row.2]> (get s)) s)) ->
  I s -> get s = ∅ -> NoDup (entry <$> rows).*1 ->
  execute_each st s rows = Some (set (collect entry rows) s).
Proof.
  intros Hins HI Hempty Hnd. rewrite (execute_each_changed entry st statement) by done.
  destruct (execute_inserts get set get_set set_set set_get statement I ∅ (collect entry rows)
    Hins (entry <$> rows) s HI) as (n & M & -> & _ & HM).
  - rewrite Hempty. apply map_empty_subseteq.
  - done.
  - apply Forall_forall. intros [k v] (row & Hkv & Hrow)%list_elem_of_fmap. split.
    + apply collect_lookup; [done|]. eauto.
    + intros _. by rewrite Hempty, lookup_empty.
  - cbn. do 2 f_equal. apply map_eq. intros k. apply option_eq. intros v.
    rewrite HM, Hempty, lookup_empty, collect_lookup, list_elem_of_fmap by done. naive_solver.
Qed.
End Inserts.

Section Replace.
Context `{Blake3Laws, UuidTextLaws, !JsonText DeviceRecord.t, !JsonText DeviceCommand.t, !JsonValid}.
Context `{!JsonTextLaws DeviceRecord.t, !JsonTextLaws DeviceCommand.t}.

Lemma insert_device_ok (s c : Tables.t) n j :
  tables_ok c -> Tables.devices s !! n = None -> Tables.devices c !! n = Some j ->
  insert_device s n j = Some (Tables.set_devices (<[n := j]> (Tables.devices s)) s).
Proof.
  intros Hc Hn Hj. destruct (tok_devices _ Hc n j Hj) as [Hne Hv].
  unfold insert_device. by rewrite bool_decide_false, Hv, Hn by done.
Qed.

Lemma replace_rows_ok (db : Tables.t) (s : ControlPlaneSnapshot.t) :
  snapshot_ok s -> replace_rows db (rows s) = Some (materialize s).
Proof.
  intros Hs. pose proof (materialize_tables_ok s Hs) as Hc. unfold replace_rows, delete_all_results.
  cbn [Tables.pending_commands Tables.set_pending Tables.set_claims Tables.idempotency_claims].
  rewrite map_to_list_empty. cbn [existsb]. cbn [mbind option_bind].
  rewrite (execute_each_inserts device_entry Tables.devices Tables.set_devices
    ltac:(done) ltac:(done) ltac:(by intros []) _ (fun s row => insert_device s row.1 row.2)
    ltac:(done) (fun _ => True)); [| |done|done|apply device_keys].
  2:{ intros s' [k v] _ _ Hk Hv. split; [|done]. by apply (insert_device_ok s' (materialize s)). }
  cbn [mbind option_bind].
  rewrite (execute_each_inserts result_entry Tables.command_results Tables.set_results
    ltac:(done) ltac:(done) ltac:(by intros []) _ (fun s row => insert_result s row.1 row.2.1 row.2.2)
    ltac:(done) (fun _ => True)); [| |done|done|by apply result_keys].
  2:{ intros s' [k v] _ Hsub Hk Hv. split; [|done]. by apply (insert_result_ok s' (materialize s)). }
  cbn [mbind option_bind].
  rewrite (execute_each_inserts claim_entry Tables.idempotency_claims Tables.set_claims
    ltac:(done) ltac:(done) ltac:(by intros []) _ (fun s row => insert_claim s row.1 row.2.1 row.2.2)
    ltac:(done) (fun s' => Tables.command_results s' = Tables.command_results (materialize s)));
    [| |done| |by apply claim_keys].
  2:{ intros s' [k v] Hr _ Hk Hv. split; [|done]. by apply (insert_claim_ok s' (materialize s)). }
  2:{ cbn. rewrite map_filter_empty. done. }
  cbn [mbind option_bind].
  rewrite (execute_each_inserts pending_entry Tables.pending_commands Tables.set_pending
    ltac:(done) ltac:(done) ltac:(by intros []) _
    (fun s row => insert_pending s row.1 row.2.1.1 row.2.1.2 row.2.2)
    ltac:(done) (fun s' => Tables.command_results s' = Tables.command_results (materialize s)));
    [done| |done|done|by apply pending_keys].
  intros s' [k v] Hr Hsub Hk Hv. split; [|done]. by apply (insert_pending_ok s' (materialize s)).
Qed.

Lemma replace_snapshot_ok (db : Tables.t) (s : ControlPlaneSnapshot.t) :
  snapshot_ok s -> replace_snapshot db s = Ok (materialize s).
Proof. intros Hs. unfold replace_snapshot. by rewrite validate_ok, replace_rows_ok. Qed.

(** ** The canonical document *)

Context `{!JsonText SnapshotDocument.t, !JsonTextLaws SnapshotDocument.t}.

Lemma canonical_json_roundtrip (s : ControlPlaneSnapshot.t) :
  snapshot_ok s -> from_json (to_canonical_json s) = Ok s.
Proof.
  intros Hs. unfold from_json, to_canonical_json. rewrite json_decode_encode. simpl.
  unfold from_rows. by rewrite (validate_rows_backward (rows s) s Hs).
Qed.

(** Two well-formed snapshots have one document only if they are one. *)
Lemma to_canonical_json_inj (s s' : ControlPlaneSnapshot.t) :
  snapshot_ok s -> snapshot_ok s' -> to_canonical_json s = to_canonical_json s' -> s = s'.
Proof.
  intros Hs Hs' Heq. pose proof (canonical_json_roundtrip s Hs) as Hr.
  rewrite Heq, canonical_json_roundtrip in Hr by done. congruence.
Qed.
End Replace.

(** ** Opening *)

Lemma apply_migrations_cases f f' :
  apply_migrations f = Ok f' ->
  (f' = f /\ DbFile.user_version f = SCHEMA_VERSION)
  \/ (DbFile.user_version f = 0 /\ DbFile.user_version f' = SCHEMA_VERSION
      /\ DbFile.tables f' = Tables.empty
      /\ DbFile.journal_reply f' = DbFile.journal_reply f
      /\ DbFile.foreign_keys_reply f' = DbFile.foreign_keys_reply f).
Proof.
  unfold apply_migrations. destruct (_ <? _); [done|]. destruct (Z.eqb_spec (DbFile.user_version f) 0).
  - destruct (migration_v1 _) as [names|]; [|done]. intros [= <-]. by right.
  - destruct (Z.eqb_spec (DbFile.user_version f) SCHEMA_VERSION); [|done]. intros [= <-]. by left.
Qed.

(** Opening a file migrates it at most once: afterwards it opens again as it
    is, by either way of opening; a file that was at the current version is
    unchanged, a new one has the four tables and no rows; and a file of another
    version, a foreign schema or a damaged file is never touched. *)
Theorem open_then_reopen (f f' : DbFile.t) :
  initialize f true = Ok f' ->
  initialize f' true = Ok f' /\ initialize_existing f' true = Ok f'
  /\ (f' = f \/ (DbFile.user_version f = 0 /\ DbFile.tables f' = Tables.empty)).
Proof.
  unfold initialize, initialize_existing.
  destruct (configure_connection f true) as [[]|] eqn:Hc; [|done]. cbn [result_bind].
  destruct (apply_migrations f) as [g|] eqn:Hm; [|done]. cbn [result_bind].
  destruct (validate_schema g) as [[]|] eqn:Hs; [|done]. cbn [result_bind].
  destruct (validate_integrity g) as [[]|] eqn:Hi; [|done]. cbn [result_bind]. intros [= ->].
  assert (DbFile.user_version f' = SCHEMA_VERSION /\ configure_connection f' true = Ok tt
    /\ (f' = f \/ (DbFile.user_version f = 0 /\ DbFile.tables f' = Tables.empty)))
    as (Hv & Hc' & Hcase).
  { apply apply_migrations_cases in Hm as [[-> Hv]|(Hv & Hv' & Ht & Hj & Hf)].
    - by split_and!; [| |left].
    - split_and!; [done| |by right]. unfold configure_connection in *. by rewrite Hj, Hf. }
  assert (apply_migrations f' = Ok f') as Hm'.
  { unfold apply_migrations. by rewrite Hv. }
  rewrite Hc', Hv. cbn [result_bind]. rewrite Hm'. cbn [result_bind]. rewrite Hs. cbn [result_bind].
  rewrite Hi. cbn [result_bind]. rewrite Z.eqb_refl. cbn [negb]. by split_and!.
Qed.

Section Ready.
Context `{Blake3Laws, UuidTextLaws, !JsonText DeviceRecord.t, !JsonText DeviceCommand.t, !JsonValid}.
Context `{!JsonTextLaws DeviceRecord.t, !JsonTextLaws DeviceCommand.t}.

(** The readiness check answers for the data, not only for the file: a file
    that opens and holds a well-formed snapshot is ready; a missing file, one
    that does not open, and one whose rows do not decode to a valid snapshot are
    not, and the check creates and changes nothing. *)
Theorem durable_store_ready_iff (file : option DbFile.t) :
  durable_store_ready file = true <->
  exists f s, file = Some f /\ initialize_existing f true = Ok f
    /\ load_snapshot (DbFile.tables f) = Ok s /\ snapshot_ok s.
Proof.
  unfold durable_store_ready. destruct file as [f|]; [|naive_solver]. simpl.
  assert (forall g, initialize_existing f true = Ok g -> g = f) as Hsame.
  { intros g. unfold initialize_existing. destruct (negb _); [done|].
    destruct (validate_schema f); [|done]. destruct (validate_integrity f); [|done].
    destruct (configure_connection f true); [|done]. simpl. congruence. }
  destruct (initialize_existing f true) as [g|] eqn:Hi; [|split; [done|]; intros (f1 & s1 & [= <-] & Hf1 & _); congruence].
  rewrite (Hsame g eq_refl) in *. split.
  - destruct (load_snapshot _) as [s|] eqn:Hl; [|done]. intros _. exists f, s. split_and!; try done.
    revert Hl. unfold load_snapshot. destruct (load_rows _) as [r|]; [|done]. cbn [result_bind].
    unfold from_rows. destruct (validate_rows r) as [s'|] eqn:Hv; [|done]. intros [= ->].
    by apply validate_rows_forward in Hv as [? _].
  - intros (f' & s & [= <-] & _ & -> & _). done.
Qed.
End Ready.
