(* ===== verification/CommandState.v ===== *)
(** * Command state of the control plane

    The in-memory command state of [services/control-plane/src/state.rs]: device
    queues, idempotency results with their insertion order, the legacy
    idempotency index, and the functions that normalize and trim them.  Hash
    map iterations follow the order of [map_to_list]. *)

From stdpp Require Import base gmap strings list fin_maps.
From Stdlib Require Import ZArith Lia String.
From S2P Require Import Prelude Text Foundation Commands.
Local Open Scope string_scope.
Local Open Scope Z_scope.

(** ** Data *)

Record CommandState := mk_commands {
  queues : gmap string (list DeviceCommand.t);
  idempotency : gmap string CommandId;
  idempotency_results : gmap string DeviceCommand.t;
  idempotency_order : list string;
}.

Definition empty_commands : CommandState := mk_commands ∅ ∅ ∅ [].

Record CommandStateMigration := mk_migration {
  recovered_results : Z;
  canonicalized_keys : Z;
  rebuilt_order : Z;
  evicted_entries : Z;
}.

Definition no_migration : CommandStateMigration := mk_migration 0 0 0 0.

Definition changed (m : CommandStateMigration) : bool :=
  (0 <? recovered_results m) || (0 <? canonicalized_keys m)
  || (0 <? rebuilt_order m) || (0 <? evicted_entries m).

Definition set_queues f (s : CommandState) :=
  mk_commands (f (queues s)) (idempotency s) (idempotency_results s) (idempotency_order s).
Definition set_idempotency f (s : CommandState) :=
  mk_commands (queues s) (f (idempotency s)) (idempotency_results s) (idempotency_order s).
Definition set_results f (s : CommandState) :=
  mk_commands (queues s) (idempotency s) (f (idempotency_results s)) (idempotency_order s).
Definition set_order f (s : CommandState) :=
  mk_commands (queues s) (idempotency s) (idempotency_results s) (f (idempotency_order s)).

Definition bump_recovered (m : CommandStateMigration) : CommandStateMigration :=
  mk_migration (recovered_results m + 1) (canonicalized_keys m) (rebuilt_order m)
    (evicted_entries m).
Definition bump_canonicalized (m : CommandStateMigration) : CommandStateMigration :=
  mk_migration (recovered_results m) (canonicalized_keys m + 1) (rebuilt_order m)
    (evicted_entries m).

(** ** Scopes *)

Definition legacy_scope (device_id : string) (key : IdempotencyKey) : string :=
  device_id ++ ":" ++ key_as_str key.

Definition legacy_idempotency_scope_key (input : IssueCommandInput) : string :=
  legacy_scope (issue_device_id input)
    (IssueCommandRequest.idempotency_key (issue_request input)).

Definition legacy_scope_for_command (c : DeviceCommand.t) : string :=
  legacy_scope (DeviceCommand.device_id c) (DeviceCommand.idempotency_key c).

(** ** Pending commands *)

Definition queued (s : CommandState) : list DeviceCommand.t :=
  List.concat (snd <$> map_to_list (queues s)).

Definition pending_command_count (s : CommandState) : nat :=
  sum_list_with List.length (snd <$> map_to_list (queues s)).

Definition command_is_pending (s : CommandState) (id : CommandId) : bool :=
  existsb (fun q => existsb (fun c => bool_decide (DeviceCommand.command_id c = id)) q)
    (snd <$> map_to_list (queues s)).

(** ** Trimming *)

(** May the entry under this key be evicted? *)
Definition evictable (s : CommandState) (key : string) : bool :=
  is_none_or (idempotency_results s !! key)
    (fun c => negb (command_is_pending s (DeviceCommand.command_id c))).

(** [order.iter().position(p)] followed by [order.remove(position)]. *)
Fixpoint remove_first (p : string -> bool) (order : list string)
    : option (string * list string) :=
  match order with
  | [] => None
  | k :: rest =>
      if p k then Some (k, rest)
      else match remove_first p rest with
           | Some (found, rest') => Some (found, k :: rest')
           | None => None
           end
  end.

Definition remove_if_id (key : string) (id : CommandId) (m : gmap string CommandId)
    : gmap string CommandId :=
  if bool_decide (m !! key = Some id) then delete key m else m.

(** Forgets the entry under [key], its order slot being removed already. *)
Definition evict (key : string) (order : list string) (s : CommandState) : CommandState :=
  match idempotency_results s !! key with
  | Some c =>
      let id := DeviceCommand.command_id c in
      mk_commands (queues s)
        (remove_if_id key id (remove_if_id (legacy_scope_for_command c) id (idempotency s)))
        (delete key (idempotency_results s)) order
  | None =>
      mk_commands (queues s) (delete key (idempotency s)) (idempotency_results s) order
  end.

(** The loop; every turn shortens the order by one. *)
Fixpoint trim_loop (fuel : nat) (s : CommandState) (evicted : Z)
    : result (CommandState * Z) unit :=
  if (List.length (idempotency_order s) <=? MAX_IDEMPOTENCY_RESULTS)%nat
  then Ok (s, evicted)
  else
    match fuel with
    | O => Err tt
    | S fuel' =>
        match remove_first (evictable s) (idempotency_order s) with
        | None => Err tt
        | Some (key, rest) => trim_loop fuel' (evict key rest s) (evicted + 1)
        end
    end.

Definition trim_idempotency_state (s : CommandState) : result (CommandState * Z) unit :=
  trim_loop (List.length (idempotency_order s)) s 0.

(** ** Normalization *)

(** A loop whose body may return [Err(())]. *)
Fixpoint try_fold {A B} (f : B -> A -> option B) (acc : B) (l : list A) : option B :=
  match l with
  | [] => Some acc
  | x :: r => match f acc x with Some acc' => try_fold f acc' r | None => None end
  end.

Section Normalize.
Context `{Blake3}.

Definition canonical_scope (c : DeviceCommand.t) : string :=
  ContentDigest_to_string
    (idempotency_scope_key (DeviceCommand.device_id c) (DeviceCommand.idempotency_key c)).

(** First loop: move a result stored under a foreign key to its canonical key. *)
Definition canonicalize_result (acc : CommandState * CommandStateMigration)
    (entry : string * DeviceCommand.t) : option (CommandState * CommandStateMigration) :=
  let '(s, m) := acc in
  let '(stored_key, c) := entry in
  let canonical := canonical_scope c in
  if bool_decide (stored_key = canonical) then Some (s, m)
  else
    let s1 := set_results (delete stored_key) s in
    if is_some_and (idempotency_results s1 !! canonical)
         (fun existing => negb (bool_decide (existing = c)))
    then None
    else Some (set_results (<[canonical := c]>) s1, bump_canonicalized m).

(** The legacy index entry of a command. *)
Definition recover_legacy (c : DeviceCommand.t) (acc : CommandState * CommandStateMigration)
    : option (CommandState * CommandStateMigration) :=
  let '(s, m) := acc in
  let legacy := legacy_scope_for_command c in
  match idempotency s !! legacy with
  | Some existing_id =>
      if bool_decide (existing_id = DeviceCommand.command_id c) then Some (s, m) else None
  | None =>
      Some (set_idempotency (<[legacy := DeviceCommand.command_id c]>) s, bump_recovered m)
  end.

(** Second loop: every queued command has its result and its legacy entry. *)
Definition recover_queued (acc : CommandState * CommandStateMigration) (c : DeviceCommand.t)
    : option (CommandState * CommandStateMigration) :=
  let '(s, m) := acc in
  let canonical := canonical_scope c in
  match idempotency_results s !! canonical with
  | Some existing =>
      if bool_decide (existing = c) then recover_legacy c (s, m) else None
  | None => recover_legacy c (set_results (<[canonical := c]>) s, bump_recovered m)
  end.

(** Third loop: every result has its legacy entry and no canonical one. *)
Definition recover_result (acc : CommandState * CommandStateMigration)
    (entry : string * DeviceCommand.t) : option (CommandState * CommandStateMigration) :=
  let '(canonical, c) := entry in
  match recover_legacy c acc with
  | None => None
  | Some (s, m) =>
      if bool_decide (canonical = legacy_scope_for_command c) then Some (s, m)
      else
        match idempotency s !! canonical with
        | None => Some (s, m)
        | Some existing_id =>
            if bool_decide (existing_id = DeviceCommand.command_id c)
            then Some (set_idempotency (delete canonical) s, bump_canonicalized m)
            else None
        end
  end.

(** Keeps the known keys once each, in order. *)
Definition keep_order (s : CommandState) (order : list string) : list string :=
  foldl (fun acc key =>
    if is_some (idempotency_results s !! key) && negb (bool_decide (key ∈ acc))
    then (acc ++ [key])%list else acc) [] order.

(** [missing.sort()], by insertion. *)
Fixpoint insert_key (k : string) (l : list string) : list string :=
  match l with
  | [] => [k]
  | y :: r => if String.leb k y then k :: y :: r else y :: insert_key k r
  end.

Definition missing_keys (s : CommandState) (order : list string) : list string :=
  foldr insert_key [] (List.filter (fun k => negb (bool_decide (k ∈ order)))
    (fst <$> map_to_list (idempotency_results s))).

Definition rebuild_order (s : CommandState) (m : CommandStateMigration)
    : CommandState * CommandStateMigration :=
  let kept := keep_order s (idempotency_order s) in
  let order := (kept ++ missing_keys s kept)%list in
  (set_order (fun _ => order) s,
   if bool_decide (order = idempotency_order s) then m
   else mk_migration (recovered_results m) (canonicalized_keys m) 1 (evicted_entries m)).

Definition normalize_command_state (s : CommandState)
    : result (CommandState * CommandStateMigration) unit :=
  match try_fold canonicalize_result (s, no_migration) (map_to_list (idempotency_results s)) with
  | None => Err tt
  | Some (s1, m1) =>
      match try_fold recover_queued (s1, m1) (queued s1) with
      | None => Err tt
      | Some (s2, m2) =>
          match try_fold recover_result (s2, m2) (map_to_list (idempotency_results s2)) with
          | None => Err tt
          | Some (s3, m3) =>
              let '(s4, m4) := rebuild_order s3 m3 in
              match trim_idempotency_state s4 with
              | Err _ => Err tt
              | Ok (s5, evicted) =>
                  if (MAX_IDEMPOTENCY_RESULTS * 2 <? size (idempotency s5))%nat then Err tt
                  else Ok (s5, mk_migration (recovered_results m4) (canonicalized_keys m4)
                                 (rebuilt_order m4) evicted)
              end
          end
      end
  end.
End Normalize.
