(* ===== verification/CommandInvariant.v ===== *)
(** * Invariant of the command state

    Well-formed command states of [services/control-plane/src/state.rs]:
    normalization leaves them alone, trimming never evicts what a pending
    command needs and never fails, and both preserve the invariant. *)

From stdpp Require Import base gmap strings list fin_maps fin_sets.
From Stdlib Require Import ZArith Lia String.
From S2P Require Import Prelude Text Foundation Commands CommandState.
Local Open Scope string_scope.
Local Open Scope Z_scope.

Section Invariant.
Context `{Blake3}.

(** ** The invariant *)

(** The relations between queues, results, index and order. *)
Record core (s : CommandState) : Prop := {
  core_queue : forall d q, queues s !! d = Some q ->
    q <> [] /\ (List.length q <= MAX_COMMAND_QUEUE_PER_DEVICE)%nat
    /\ Forall (fun c => DeviceCommand.device_id c = d) q;
  core_queue_NoDup : forall d q, queues s !! d = Some q -> NoDup q;
  core_replay : forall d q c, queues s !! d = Some q -> c ∈ q ->
    idempotency_results s !! canonical_scope c = Some c;
  core_canonical : forall k c, idempotency_results s !! k = Some c -> k = canonical_scope c;
  core_legacy : forall k c, idempotency_results s !! k = Some c ->
    idempotency s !! legacy_scope_for_command c = Some (DeviceCommand.command_id c);
  core_index : forall k id, idempotency s !! k = Some id ->
    exists k' c, idempotency_results s !! k' = Some c
      /\ k = legacy_scope_for_command c /\ id = DeviceCommand.command_id c;
  core_ids : forall k k' c c', idempotency_results s !! k = Some c ->
    idempotency_results s !! k' = Some c' ->
    DeviceCommand.command_id c = DeviceCommand.command_id c' -> k = k';
  core_order_NoDup : NoDup (idempotency_order s);
  core_order : forall k, k ∈ idempotency_order s <-> is_Some (idempotency_results s !! k);
}.

Record wf (s : CommandState) : Prop := {
  wf_core : core s;
  wf_results : (List.length (idempotency_order s) <= MAX_IDEMPOTENCY_RESULTS)%nat;
  wf_pending : (pending_command_count s <= MAX_PENDING_COMMANDS)%nat;
}.

(** No stored scope is at the same time the legacy key of another command. *)
Definition unaliased (s : CommandState) : Prop :=
  map_Forall (fun k c => k = legacy_scope_for_command c \/ idempotency s !! k = None)
    (idempotency_results s).

(** ** Pending commands *)

Lemma elem_of_queued s c :
  c ∈ queued s <-> exists d q, queues s !! d = Some q /\ c ∈ q.
Proof.
  unfold queued. rewrite list_elem_of_In, in_concat. split.
  - intros (q & Hq & Hc). apply list_elem_of_In in Hq, Hc.
    apply list_elem_of_fmap in Hq as ([d q'] & -> & Hd%elem_of_map_to_list). eauto.
  - intros (d & q & Hd & Hc). exists q. split; apply list_elem_of_In; [|done].
    apply list_elem_of_fmap. exists (d, q). split; [done|]. by apply elem_of_map_to_list.
Qed.

Lemma command_is_pending_true s id :
  command_is_pending s id = true <-> exists c, c ∈ queued s /\ DeviceCommand.command_id c = id.
Proof.
  unfold command_is_pending. rewrite existsb_exists. split.
  - intros (q & Hq & Hex). apply existsb_exists in Hex as (c & Hc & He).
    exists c. bools. split; [|done]. unfold queued. rewrite list_elem_of_In.
    apply in_concat. eauto.
  - intros (c & Hc & <-). unfold queued in Hc. rewrite list_elem_of_In in Hc.
    apply in_concat in Hc as (q & Hq & Hc). exists q. split; [done|].
    apply existsb_exists. exists c. split; [done|]. by apply bool_decide_eq_true_2.
Qed.

Lemma pending_command_count_length s : pending_command_count s = List.length (queued s).
Proof.
  unfold pending_command_count, queued.
  induction (snd <$> map_to_list (queues s)) as [|q l IH]; simpl; [done|].
  by rewrite length_app, IH.
Qed.

Lemma core_replay_queued s c :
  core s -> c ∈ queued s -> idempotency_results s !! canonical_scope c = Some c.
Proof. intros Hs (d & q & Hd & Hc)%elem_of_queued. by eapply core_replay. Qed.

(** ** Normalization leaves a well-formed state alone *)

Lemma try_fold_id {A B} (f : B -> A -> option B) acc l :
  (forall x, x ∈ l -> f acc x = Some acc) -> try_fold f acc l = Some acc.
Proof.
  induction l as [|x l IH]; intros Hf; simpl; [done|].
  rewrite Hf by left. apply IH. intros y Hy. apply Hf. by right.
Qed.

Lemma recover_legacy_id s m k c :
  core s -> idempotency_results s !! k = Some c -> recover_legacy c (s, m) = Some (s, m).
Proof.
  intros Hs Hk. unfold recover_legacy. rewrite (core_legacy s Hs k c Hk).
  by rewrite bool_decide_true.
Qed.

Lemma keep_order_id s order acc :
  NoDup (acc ++ order)%list -> (forall k, k ∈ order -> is_Some (idempotency_results s !! k)) ->
  foldl (fun acc key =>
    if is_some (idempotency_results s !! key) && negb (bool_decide (key ∈ acc))
    then (acc ++ [key])%list else acc) acc order = (acc ++ order)%list.
Proof.
  revert acc. induction order as [|k order IH]; intros acc Hnd Hin; simpl; [by rewrite app_nil_r|].
  destruct (Hin k ltac:(left)) as [c Hc]. rewrite Hc. simpl.
  rewrite bool_decide_false; simpl.
  - rewrite IH; [by rewrite <- app_assoc| |].
    + by rewrite <- app_assoc.
    + intros k' Hk'. apply Hin. by right.
  - apply NoDup_app in Hnd as (_ & Hdis & _). intros Hk. by apply (Hdis k Hk); left.
Qed.

Lemma rebuild_order_id s m : core s -> rebuild_order s m = (s, m).
Proof.
  intros Hs. unfold rebuild_order, keep_order.
  rewrite (keep_order_id s (idempotency_order s) []);
    [|apply core_order_NoDup, Hs|intros k Hk; by apply (core_order s Hs)].
  simpl. assert (missing_keys s (idempotency_order s) = []) as ->.
  { unfold missing_keys. rewrite (proj2 (filter_nil_iff _ _)); [done|].
    intros k Hk%list_elem_of_In. apply negb_false_iff, bool_decide_eq_true_2.
    apply (core_order s Hs). apply list_elem_of_fmap in Hk as ([k' c] & -> & Hk).
    apply elem_of_map_to_list in Hk. by exists c. }
  rewrite app_nil_r, bool_decide_true by done. by destruct s.
Qed.

Lemma size_results s : core s -> size (idempotency_results s) = List.length (idempotency_order s).
Proof.
  intros Hs. rewrite <- (size_dom (idempotency_results s)).
  rewrite <- (size_list_to_set (C := gset string) (idempotency_order s))
    by apply core_order_NoDup, Hs.
  f_equal. apply set_eq. intros k. rewrite elem_of_dom, elem_of_list_to_set.
  symmetry. apply (core_order s Hs).
Qed.

Lemma size_index s : core s -> (size (idempotency s) <= List.length (idempotency_order s))%nat.
Proof.
  intros Hs. rewrite <- (size_results s Hs).
  set (legacies := legacy_scope_for_command ∘ snd <$> map_to_list (idempotency_results s)).
  transitivity (List.length legacies).
  - rewrite <- (length_map_to_list (idempotency s)), <- (length_fmap fst).
    apply NoDup_incl_length; [apply NoDup_ListNoDup, NoDup_fst_map_to_list|].
    intros k Hk. apply list_elem_of_In in Hk. apply list_elem_of_In.
    apply list_elem_of_fmap in Hk as ([k' id] & -> & Hid%elem_of_map_to_list).
    destruct (core_index s Hs k' id Hid) as (k'' & c & Hc & -> & _).
    apply list_elem_of_fmap. exists (k'', c). split; [done|]. by apply elem_of_map_to_list.
  - unfold legacies. by rewrite length_fmap, length_map_to_list.
Qed.

Lemma trim_noop s :
  (List.length (idempotency_order s) <= MAX_IDEMPOTENCY_RESULTS)%nat ->
  trim_idempotency_state s = Ok (s, 0).
Proof.
  intros Hle. unfold trim_idempotency_state.
  destruct (List.length (idempotency_order s)) eqn:Hl; simpl; rewrite Hl;
    by rewrite (proj2 (Nat.leb_le _ _)).
Qed.

Lemma try_fold_None {A B} (f : B -> A -> option B) acc l x :
  (forall y, y ∈ l -> f acc y = Some acc \/ f acc y = None) -> x ∈ l -> f acc x = None ->
  try_fold f acc l = None.
Proof.
  induction l as [|y l IH]; intros Hf Hx Hn; simpl; [by apply not_elem_of_nil in Hx|].
  destruct (Hf y ltac:(left)) as [Hy|Hy]; rewrite Hy; [|done].
  apply elem_of_cons in Hx as [<-|Hx]; [congruence|]. apply IH; [|done..].
  intros z Hz. apply Hf. by right.
Qed.

(** The third loop stops at a scope that is another command's legacy key. *)
Lemma recover_result_cases s m k c :
  core s -> idempotency_results s !! k = Some c ->
  recover_result (s, m) (k, c)
  = if decide (k = legacy_scope_for_command c \/ idempotency s !! k = None)
    then Some (s, m) else None.
Proof.
  intros Hs Hk. unfold recover_result. rewrite (recover_legacy_id s m k c Hs Hk).
  case_bool_decide as Hl; [by rewrite decide_True by (by left)|].
  destruct (idempotency s !! k) as [id|] eqn:Hi; [|by rewrite decide_True by (by right)].
  rewrite decide_False by naive_solver. case_bool_decide as Hid; [|done].
  destruct (core_index s Hs k id Hi) as (k' & c' & Hk' & Hleg & Hid').
  assert (k' = k) as -> by (by apply (core_ids s Hs k' k c' c); congruence). congruence.
Qed.

(** Normalization leaves a well-formed state alone, unless an aliased scope
    makes it fail. *)
Lemma normalize_wf s :
  wf s ->
  normalize_command_state s = if decide (unaliased s) then Ok (s, no_migration) else Err tt.
Proof.
  intros [Hs Hlen _]. unfold normalize_command_state.
  rewrite try_fold_id.
  2:{ intros [k c] Hk%elem_of_map_to_list. simpl.
      by rewrite bool_decide_true by (by apply (core_canonical s Hs)). }
  rewrite try_fold_id.
  2:{ intros c Hc. pose proof (core_replay_queued s c Hs Hc) as Hr. simpl. rewrite Hr.
      rewrite bool_decide_true by done. by apply (recover_legacy_id s _ _ c Hs Hr). }
  destruct (decide (unaliased s)) as [Hu|Hu].
  - rewrite try_fold_id.
    2:{ intros [k c] Hk%elem_of_map_to_list. rewrite recover_result_cases by done.
        by rewrite decide_True by apply (Hu k c Hk). }
    rewrite rebuild_order_id by done. rewrite trim_noop by done.
    pose proof (size_index s Hs) as Hsz.
    rewrite (proj2 (Nat.ltb_ge _ _)); [done|]. unfold MAX_IDEMPOTENCY_RESULTS in *. lia.
  - apply map_not_Forall in Hu as (k & c & Hk & Hn); [|apply _].
    rewrite (try_fold_None _ _ _ (k, c)); [done| | |].
    + intros [k' c'] Hk'%elem_of_map_to_list. rewrite recover_result_cases by done.
      case_decide; auto.
    + by apply elem_of_map_to_list.
    + rewrite recover_result_cases by done. by rewrite decide_False.
Qed.

(** ** Trimming *)

Lemma remove_first_Some p order key rest :
  remove_first p order = Some (key, rest) ->
  exists before after, order = (before ++ key :: after)%list
    /\ rest = (before ++ after)%list /\ p key = true
    /\ Forall (fun k => p k = false) before.
Proof.
  revert key rest. induction order as [|k order IH]; intros key rest; simpl; [done|].
  destruct (p k) eqn:Hp.
  - intros [= <- <-]. by exists [], order.
  - destruct (remove_first p order) as [[found rest']|]; [|done]. intros [= <- <-].
    destruct (IH found rest' eq_refl) as (b & a & -> & -> & ? & ?).
    exists (k :: b), a. auto.
Qed.

Lemma remove_first_None p order :
  remove_first p order = None -> forall k, k ∈ order -> p k = false.
Proof.
  induction order as [|k order IH]; simpl; intros Hr k' Hk'; [by apply not_elem_of_nil in Hk'|].
  destruct (p k) eqn:Hp; [done|].
  destruct (remove_first p order) as [[? ?]|]; [done|].
  apply elem_of_cons in Hk' as [->|Hk']; auto.
Qed.

(** Under the invariant every kept key has a result, so a key is evictable
    exactly when its command is not pending. *)
Lemma evictable_false s k :
  evictable s k = false ->
  exists c c', idempotency_results s !! k = Some c /\ c' ∈ queued s
    /\ DeviceCommand.command_id c' = DeviceCommand.command_id c.
Proof.
  unfold evictable. destruct (idempotency_results s !! k) as [c|]; simpl; [|done].
  intros Hp. apply negb_false_iff, command_is_pending_true in Hp as (c' & ? & ?). eauto.
Qed.

Lemma evictable_not_queued s k c :
  core s -> evictable s k = true -> c ∈ queued s -> canonical_scope c <> k.
Proof.
  intros Hs He Hc <-. unfold evictable in He.
  rewrite (core_replay_queued s c Hs Hc) in He. simpl in He.
  apply negb_true_iff in He.
  rewrite (proj2 (command_is_pending_true s _)) in He; [done|]. eauto.
Qed.

(** More entries than pending commands: one of them can be evicted. *)
Lemma exists_evictable s :
  core s -> (pending_command_count s < List.length (idempotency_order s))%nat ->
  exists key rest, remove_first (evictable s) (idempotency_order s) = Some (key, rest).
Proof.
  intros Hs Hlt. destruct (remove_first _ _) as [[key rest]|] eqn:Hr; [eauto|]. exfalso.
  assert (forall k, k ∈ idempotency_order s -> k ∈ canonical_scope <$> queued s) as Hin.
  { intros k Hk. pose proof (remove_first_None _ _ Hr k Hk) as He.
    apply evictable_false in He as (c & c' & Hc & Hq & Hid).
    apply list_elem_of_fmap. exists c'. split; [|done].
    apply (core_ids s Hs k (canonical_scope c') c c'); [done| |done].
    by apply core_replay_queued. }
  assert (List.length (idempotency_order s) <= List.length (canonical_scope <$> queued s))%nat as Hle.
  { apply NoDup_incl_length; [apply NoDup_ListNoDup, core_order_NoDup, Hs|].
    intros k Hk. apply list_elem_of_In, Hin, list_elem_of_In, Hk. }
  rewrite length_fmap, <- pending_command_count_length in Hle. lia.
Qed.

Lemma lookup_remove_if_id key id m k x :
  remove_if_id key id m !! k = Some x <-> m !! k = Some x /\ ~ (k = key /\ x = id).
Proof.
  unfold remove_if_id. case_bool_decide as Hm.
  - rewrite lookup_delete_Some. naive_solver.
  - naive_solver.
Qed.

Lemma lookup_remove_if_id_None key id m k :
  m !! k = None -> remove_if_id key id m !! k = None.
Proof.
  intros Hk. destruct (remove_if_id key id m !! k) as [x|] eqn:Hx; [|done].
  apply lookup_remove_if_id in Hx as [? _]. congruence.
Qed.

Lemma evict_core s key rest before after :
  core s -> idempotency_order s = (before ++ key :: after)%list ->
  rest = (before ++ after)%list -> evictable s key = true -> core (evict key rest s).
Proof.
  intros Hs Hord -> He.
  assert (is_Some (idempotency_results s !! key)) as [c Hc].
  { apply (core_order s Hs). rewrite Hord. set_solver. }
  unfold evict. rewrite Hc.
  assert (forall k c', k <> key -> idempotency_results s !! k = Some c' ->
    DeviceCommand.command_id c' <> DeviceCommand.command_id c) as Hids.
  { intros k c' Hne Hk Heq. apply Hne. by apply (core_ids s Hs k key c' c). }
  pose proof (core_order_NoDup s Hs) as Hnd. rewrite Hord in Hnd.
  split; simpl.
  - apply (core_queue s Hs).
  - apply (core_queue_NoDup s Hs).
  - intros d q c' Hd Hq. rewrite lookup_delete_ne; [by apply (core_replay s Hs d q)|].
    intros Heq. apply (evictable_not_queued s key c' Hs He); [|done].
    apply elem_of_queued. eauto.
  - intros k c' [_ Hk]%lookup_delete_Some. by apply (core_canonical s Hs).
  - intros k c' [Hne Hk]%lookup_delete_Some.
    pose proof (core_legacy s Hs k c' Hk). rewrite !lookup_remove_if_id.
    split; [split; [done|]|]; intros [_ Heq]; apply (Hids k c'); done.
  - intros k id Hk. apply lookup_remove_if_id in Hk as [Hk _].
    apply lookup_remove_if_id in Hk as [Hk Hn].
    destruct (core_index s Hs k id Hk) as (k' & c' & Hk' & -> & ->).
    exists k', c'. rewrite lookup_delete_ne; [done|]. intros <-.
    assert (c' = c) as -> by congruence. by apply Hn.
  - intros k k' c1 c2 [_ H1]%lookup_delete_Some [_ H2]%lookup_delete_Some.
    by apply (core_ids s Hs).
  - apply NoDup_app in Hnd as (Hb & Hdis & Ha%NoDup_cons). apply NoDup_app.
    split; [done|]. split; [|apply Ha]. intros k Hk Hk'. apply (Hdis k Hk). by right.
  - intros k. rewrite lookup_delete_is_Some, <- (core_order s Hs k), Hord.
    apply NoDup_app in Hnd as (_ & Hdis & [Hna _]%NoDup_cons). split.
    + intros Hk. split; [|set_solver]. intros <-. apply elem_of_app in Hk as [Hk|Hk]; [|done].
      apply (Hdis _ Hk). left.
    + intros [Hne Hk]. set_solver.
Qed.

(** What trimming guarantees. *)
Record trimmed (s s' : CommandState) : Prop := {
  trimmed_core : core s';
  trimmed_queues : queues s' = queues s;
  trimmed_results : idempotency_results s' ⊆ idempotency_results s;
  trimmed_order : sublist (idempotency_order s') (idempotency_order s);
  trimmed_unaliased : unaliased s -> unaliased s';
  trimmed_size :
    (List.length (idempotency_order s') <= MAX_IDEMPOTENCY_RESULTS)%nat;
}.

Lemma evict_unaliased key rest s : unaliased s -> unaliased (evict key rest s).
Proof.
  intros Hu k c. unfold evict. destruct (idempotency_results s !! key) as [x|] eqn:Hx; simpl.
  - intros [_ Hk]%lookup_delete_Some. destruct (Hu k c Hk) as [->|Hn]; [by left|right].
    by do 2 apply lookup_remove_if_id_None.
  - intros Hk. destruct (Hu k c Hk) as [->|Hn]; [by left|right]. apply lookup_delete_None. auto.
Qed.

Lemma evict_queues key rest s : queues (evict key rest s) = queues s.
Proof. unfold evict. by destruct (_ !! key). Qed.

Lemma trim_loop_ok fuel s n :
  core s -> (pending_command_count s <= MAX_IDEMPOTENCY_RESULTS)%nat ->
  (List.length (idempotency_order s) <= fuel)%nat ->
  exists s' n', trim_loop fuel s n = Ok (s', n') /\ trimmed s s'.
Proof.
  revert s n. induction fuel as [|fuel IH]; intros s n Hs Hp Hf; cbn [trim_loop].
  { rewrite (proj2 (Nat.leb_le _ _)) by lia. exists s, n. split; [done|]. split; try done. lia. }
  destruct (Nat.leb_spec (List.length (idempotency_order s)) MAX_IDEMPOTENCY_RESULTS) as [Hle|Hgt].
  { exists s, n. split; [done|]. by split. }
  destruct (exists_evictable s Hs) as (key & rest & Hr); [lia|]. rewrite Hr.
  apply remove_first_Some in Hr as (before & after & Hord & -> & He & _).
  pose proof (evict_core s key _ before after Hs Hord eq_refl He) as Hs'.
  destruct (IH (evict key (before ++ after)%list s) (n + 1) Hs') as (s' & n' & Ht & []).
  - unfold pending_command_count. by rewrite evict_queues.
  - assert (idempotency_order (evict key (before ++ after)%list s) = (before ++ after)%list) as ->
      by (unfold evict; by destruct (_ !! key)).
    rewrite Hord in Hf. rewrite length_app in *. simpl in Hf. lia.
  - exists s', n'. split; [done|]. split; try done.
    + by rewrite trimmed_queues0, evict_queues.
    + etrans; [done|]. unfold evict. destruct (_ !! key); [apply delete_subseteq|done].
    + etrans; [done|]. rewrite Hord. unfold evict. destruct (_ !! key); simpl;
        by apply sublist_app; [|apply sublist_cons].
    + intros Hu. by apply trimmed_unaliased0, evict_unaliased.
Qed.

Lemma trim_ok s :
  core s -> (pending_command_count s <= MAX_IDEMPOTENCY_RESULTS)%nat ->
  exists s' n, trim_idempotency_state s = Ok (s', n) /\ trimmed s s'.
Proof. intros. by apply trim_loop_ok. Qed.
End Invariant.
