(* ===== verification/ControlPlane.v ===== *)
(** * Control plane transactions

    The six transactions of [AppState], [services/control-plane/src/state.rs]:
    each clones the state, computes a candidate, persists it by compare and
    swap, and only then replaces the state in memory.  Persistence is the
    interface [SnapshotStore]. *)

From stdpp Require Import base gmap strings list fin_maps.
From Stdlib Require Import ZArith Lia String.
From S2P Require Import Prelude Text Foundation RuntimeProjection Commands Devices.
From S2P Require Import CommandState CommandInvariant.
Local Open Scope string_scope.
Local Open Scope Z_scope.

(** ** State and persistence *)

Record StoredState `{Blake3} := mk_stored {
  devices : gmap string DeviceRecord.t;
  commands : CommandState;
}.

Arguments mk_stored {_}.

(** What the transactions need of the database: compare and swap of whole
    states, [None] for any failure. *)
Class SnapshotStore `{Blake3} (DB : Type) := {
  represents : DB -> StoredState -> Prop;
  compare_and_swap : DB -> StoredState -> StoredState -> option DB;
}.

(** A swap that succeeds found the expected state and leaves the candidate. *)
Class SnapshotStoreLaws `{Blake3} (DB : Type) `{!SnapshotStore DB} : Prop := {
  compare_and_swap_expected db e c db' :
    compare_and_swap db e c = Some db' -> represents db e;
  compare_and_swap_candidate db e c db' :
    compare_and_swap db e c = Some db' -> represents db' c;
}.

Section Transactions.
Context `{Blake3} {DB : Type} `{!SnapshotStore DB}.

(** [AppState] with the database behind [state_path]. *)
Record AppState := mk_app { memory : StoredState; database : DB }.

(** [persist_candidate] and the assignment of the guards after it. *)
Definition commit {O E} (a : AppState) (candidate : StoredState) (persistence : E) (outcome : O)
    : result O E * AppState :=
  match compare_and_swap (database a) (memory a) candidate with
  | Some db' => (Ok outcome, mk_app candidate db')
  | None => (Err persistence, a)
  end.

(** ** Devices *)

Definition register_device_transaction (a : AppState) (now : string)
    (request : RegisterDeviceRequest.t) : result RegisterDeviceOutcome RegisterDeviceError * AppState :=
  let s := memory a in
  let node_id := RegisterDeviceRequest.node_id request in
  match devices s !! node_id with
  | Some existing =>
      if negb (bool_decide (DeviceRecord.node_id existing = node_id))
      then (Err RegisterStateConflict, a)
      else commit a s RegisterPersistence AlreadyRegistered
  | None =>
      if (MAX_REGISTERED_DEVICES <=? size (devices s))%nat
      then (Err RegisterCapacityExceeded, a)
      else
        let device := build_registered_device now request in
        let stored_node_id := DeviceRecord.node_id device in
        if is_some (devices s !! stored_node_id) then (Err RegisterStateConflict, a)
        else commit a (mk_stored (<[stored_node_id := device]> (devices s)) (commands s))
               RegisterPersistence DeviceCreated
  end.

Definition heartbeat_transaction (a : AppState) (now : string) (request : HeartbeatRequest.t)
    : result HeartbeatOutcome HeartbeatError * AppState :=
  let s := memory a in
  let node_id := HeartbeatRequest.node_id request in
  let legacy_config := is_some_and (HeartbeatRequest.config_fingerprint request) is_legacy in
  let legacy_binary := is_some_and (HeartbeatRequest.binary_fingerprint request) is_legacy in
  let refused :=
    match devices s !! node_id with
    | Some existing =>
        if bool_decide (DeviceRecord.node_id existing = node_id) then None
        else Some HeartbeatStateConflict
    | None =>
        if (MAX_REGISTERED_DEVICES <=? size (devices s))%nat
        then Some HeartbeatCapacityExceeded else None
    end in
  match refused with
  | Some e => (Err e, a)
  | None =>
      let '(publicly_serving, probe_error, probe_at) :=
        match devices s !! node_id with
        | Some d => (DeviceRecord.publicly_serving d, DeviceRecord.public_probe_error d,
                     DeviceRecord.public_probe_at d)
        | None => (false, None, None)
        end in
      let device := build_heartbeat_device now request publicly_serving probe_error probe_at in
      if negb (bool_decide (DeviceRecord.node_id device = node_id))
      then (Err HeartbeatStateConflict, a)
      else commit a (mk_stored (<[node_id := device]> (devices s)) (commands s))
             HeartbeatPersistence (recorded legacy_config legacy_binary)
  end.

Definition public_probe_transaction (a : AppState) (probe_now event_now device_id : string)
    (report : PublicProbeReport.t) : result PublicProbeOutcome PublicProbeError * AppState :=
  let s := memory a in
  match devices s !! device_id with
  | None => (Ok DeviceNotFound, a)
  | Some existing =>
      if negb (bool_decide (DeviceRecord.node_id existing = device_id))
      then (Err ProbeStateConflict, a)
      else
        let device := apply_public_probe probe_now event_now existing report in
        if negb (bool_decide (DeviceRecord.node_id device = device_id))
        then (Err ProbeStateConflict, a)
        else commit a (mk_stored (<[device_id := device]> (devices s)) (commands s))
               ProbePersistence Updated
  end.

(** ** Commands *)

Definition is_rotation (c : DeviceCommand.t) : bool :=
  bool_decide (DeviceCommand.recovery_intent c = RecoveryIntent.RotateRecovery).

Definition queue_of (s : CommandState) (device_id : string) : list DeviceCommand.t :=
  default [] (queues s !! device_id).

(** A rotation is refused while the device runs a job or has one queued. *)
Definition rotation_blocked (ds : gmap string DeviceRecord.t) (cs : CommandState)
    (input : IssueCommandInput) : bool :=
  bool_decide (IssueCommandRequest.recovery_intent (issue_request input)
               = RecoveryIntent.RotateRecovery)
  && (is_some_and (ds !! issue_device_id input)
        (fun d => is_some (DeviceRecord.current_job d))
      || is_some_and (queues cs !! issue_device_id input) (existsb is_rotation)).

Definition capacity_exhausted (cs : CommandState) (input : IssueCommandInput) : bool :=
  (MAX_PENDING_COMMANDS <=? pending_command_count cs)%nat
  || is_some_and (queues cs !! issue_device_id input)
       (fun q => (MAX_COMMAND_QUEUE_PER_DEVICE <=? List.length q)%nat).

(** The command issued for an input; [id] is the fresh [Uuid::new_v4()]. *)
Definition new_command (id : CommandId) (now : string) (input : IssueCommandInput)
    : DeviceCommand.t :=
  let r := issue_request input in
  DeviceCommand.mk id (issue_device_id input) (IssueCommandRequest.desired_state r)
    (IssueCommandRequest.recovery_intent r) (IssueCommandRequest.deadline_secs r)
    (IssueCommandRequest.idempotency_key r) now.

Definition scope_of (input : IssueCommandInput) : string :=
  ContentDigest_to_string (idempotency_scope_key (issue_device_id input)
    (IssueCommandRequest.idempotency_key (issue_request input))).

(** The command appended to its queue, with its result, index and order entry. *)
Definition add_command (c : DeviceCommand.t) (scope legacy : string) (cs : CommandState)
    : CommandState :=
  let device_id := DeviceCommand.device_id c in
  mk_commands (<[device_id := (queue_of cs device_id ++ [c])%list]> (queues cs))
    (<[legacy := DeviceCommand.command_id c]> (idempotency cs))
    (<[scope := c]> (idempotency_results cs))
    (idempotency_order cs ++ [scope])%list.

Definition note_command (c : DeviceCommand.t) (d : DeviceRecord.t) : DeviceRecord.t :=
  with_command_fields d (Some (DesiredState.to_string (DeviceCommand.desired_state c)))
    (Some (RecoveryIntent.to_string (DeviceCommand.recovery_intent c)))
    (Some (DeviceCommand.issued_at c)).

Definition issue_command_transaction (a : AppState) (id : CommandId) (now : string)
    (input : IssueCommandInput) : result IssueCommandOutcome IssueCommandError * AppState :=
  let s := memory a in
  match normalize_command_state (commands s) with
  | Err _ => (Err IssueStateConflict, a)
  | Ok (cs, migration) =>
      let scope := scope_of input in
      let legacy := legacy_idempotency_scope_key input in
      match idempotency_results cs !! scope with
      | Some existing =>
          match classify_existing existing (issue_device_id input) (issue_request input) with
          | Err e => (Err e, a)
          | Ok original =>
              if changed migration
              then commit a (mk_stored (devices s) cs) IssuePersistence (ExactDuplicate original)
              else (Ok (ExactDuplicate original), a)
          end
      | None =>
          if is_some (idempotency cs !! scope) || is_some (idempotency cs !! legacy)
          then (Err IdempotencyConflict, a)
          else if rotation_blocked (devices s) cs input then (Err IssueCapacityExceeded, a)
          else if capacity_exhausted cs input then (Err IssueCapacityExceeded, a)
          else
            let c := new_command id now input in
            match trim_idempotency_state (add_command c scope legacy cs) with
            | Err _ => (Err IssueStateConflict, a)
            | Ok (cs', _) =>
                commit a (mk_stored (alter (note_command c) (issue_device_id input) (devices s)) cs')
                  IssuePersistence (Created c)
            end
      end
  end.

Definition poll_command_query (a : AppState) (device_id : string)
    : result PollCommandOutcome PollCommandError :=
  match head (queue_of (commands (memory a)) device_id) with
  | None => Ok NoCommand
  | Some c =>
      if negb (bool_decide (DeviceCommand.device_id c = device_id)) then Err PollStateConflict
      else Ok (Pending c)
  end.

(** [queue.iter().position(..)] followed by [queue.remove(index)]. *)
Fixpoint take_command (id : CommandId) (q : list DeviceCommand.t)
    : option (DeviceCommand.t * list DeviceCommand.t) :=
  match q with
  | [] => None
  | c :: rest =>
      if bool_decide (DeviceCommand.command_id c = id) then Some (c, rest)
      else match take_command id rest with
           | Some (found, rest') => Some (found, c :: rest')
           | None => None
           end
  end.

Definition note_ack (now : string) (d : DeviceRecord.t) : DeviceRecord.t :=
  with_command_fields d (DeviceRecord.desired_state d)
    (Some (RecoveryIntent.to_string RecoveryIntent.NoRecovery)) (Some now).

Definition acknowledge_command_transaction (a : AppState) (now : string)
    (input : AcknowledgeCommandInput)
    : result AcknowledgeCommandOutcome AcknowledgeCommandError * AppState :=
  if negb (ack_ok (ack_request input)) then (Ok RetryRequested, a)
  else
    let s := memory a in
    let cs := commands s in
    let device_id := ack_device_id input in
    match queues cs !! device_id with
    | None => (Ok NotFound, a)
    | Some q =>
        match take_command (ack_command_id input) q with
        | None => (Ok NotFound, a)
        | Some (c, rest) =>
            if negb (bool_decide (DeviceCommand.device_id c = device_id))
            then (Err AckStateConflict, a)
            else
              let queues' := match rest with
                             | [] => delete device_id (queues cs)
                             | _ => <[device_id := rest]> (queues cs)
                             end in
              commit a (mk_stored (alter (note_ack now) device_id (devices s))
                          (set_queues (fun _ => queues') cs))
                AckPersistence Completed
        end
    end.
End Transactions.
Arguments AppState {_} DB.
