(* ===== verification/ControlPlaneInvariant.v ===== *)
(** * What the control plane guarantees

    Theorems on the transactions of [services/control-plane/src/state.rs]:
    atomicity, the invariant of every reachable state, idempotent issue, queue
    order, and agreement of memory and database. *)

From stdpp Require Import base gmap strings list fin_maps relations.
From Stdlib Require Import ZArith Lia String.
From S2P Require Import Prelude Text Foundation RuntimeProjection Commands Devices.
From S2P Require Import CommandState CommandInvariant ControlPlane.
Local Open Scope string_scope.
Local Open Scope Z_scope.

(** ** Adding a command keeps the relations *)

Section AddCommand.
Context `{Blake3}.

(** An identity no stored result carries: what a random UUID is. *)
Definition fresh_for (cs : CommandState) (id : CommandId) : Prop :=
  forall k c, idempotency_results cs !! k = Some c -> DeviceCommand.command_id c <> id.

Lemma queue_of_lookup cs d q : queues cs !! d = Some q -> queue_of cs d = q.
Proof. unfold queue_of. by intros ->. Qed.

Lemma add_command_core cs id now input :
  let c := new_command id now input in
  core cs -> fresh_for cs id ->
  idempotency_results cs !! scope_of input = None ->
  idempotency cs !! scope_of input = None ->
  idempotency cs !! legacy_idempotency_scope_key input = None ->
  (List.length (queue_of cs (issue_device_id input)) < MAX_COMMAND_QUEUE_PER_DEVICE)%nat ->
  core (add_command c (scope_of input) (legacy_idempotency_scope_key input) cs).
Proof.
  intros c Hs Hid Hscope Hidx Hleg Hlen.
  assert (canonical_scope c = scope_of input) as Hcan by done.
  assert (legacy_scope_for_command c = legacy_idempotency_scope_key input) as Hlc by done.
  unfold add_command.
  change (DeviceCommand.device_id c) with (issue_device_id input).
  change (DeviceCommand.command_id c) with id. split; simpl.
  - intros d q [[<- <-]|[_ Hq]]%lookup_insert_Some; [|by apply (core_queue cs Hs)].
    split; [by destruct (queue_of _ _)|]. rewrite length_app. simpl. split; [lia|].
    apply Forall_app. split; [|by constructor].
    unfold queue_of. destruct (queues cs !! issue_device_id input) eqn:Hq; simpl; [|done].
    by apply (core_queue cs Hs) in Hq as (_ & _ & ?).
  - intros d q [[<- <-]|[_ Hq]]%lookup_insert_Some; [|by apply (core_queue_NoDup cs Hs d)].
    unfold queue_of. destruct (queues cs !! issue_device_id input) as [q|] eqn:Hq; simpl;
      [|apply NoDup_singleton].
    apply NoDup_app. split; [by apply (core_queue_NoDup cs Hs (issue_device_id input))|].
    split; [|apply NoDup_singleton]. intros x Hx ->%list_elem_of_singleton.
    pose proof (core_replay cs Hs _ q c Hq Hx). congruence.
  - assert (forall d q x, queues cs !! d = Some q -> x ∈ q ->
      <[scope_of input := c]> (idempotency_results cs) !! canonical_scope x = Some x) as Hold.
    { intros d q x Hq Hx. pose proof (core_replay cs Hs d q x Hq Hx).
      rewrite lookup_insert_ne by congruence. done. }
    intros d q x [[<- <-]|[_ Hq]]%lookup_insert_Some Hx; [|by eapply Hold].
    apply elem_of_app in Hx as [Hx|Hx%list_elem_of_singleton].
    + unfold queue_of in Hx. destruct (queues cs !! issue_device_id input) eqn:Hq; simpl in Hx;
        [by eapply Hold | by apply not_elem_of_nil in Hx].
    + subst x. rewrite Hcan. by rewrite lookup_insert_eq.
  - intros k x [[<- <-]|[_ Hk]]%lookup_insert_Some; [done|by apply (core_canonical cs Hs)].
  - intros k x [[<- <-]|[Hne Hk]]%lookup_insert_Some.
    + by rewrite Hlc, lookup_insert_eq.
    + pose proof (core_legacy cs Hs k x Hk). rewrite lookup_insert_ne; [done|]. congruence.
  - intros k i [[<- <-]|[_ Hk]]%lookup_insert_Some.
    + exists (scope_of input), c. by rewrite lookup_insert_eq.
    + destruct (core_index cs Hs k i Hk) as (k' & x & Hk' & -> & ->). exists k', x.
      rewrite lookup_insert_ne; [done|]. congruence.
  - intros k k' x x' [[<- <-]|[_ Hk]]%lookup_insert_Some
      [[<- <-]|[_ Hk']]%lookup_insert_Some; try done.
    + intros Heq. by destruct (Hid k' x' Hk').
    + intros Heq. by destruct (Hid k x Hk).
    + by apply (core_ids cs Hs).
  - apply NoDup_app. split; [apply (core_order_NoDup cs Hs)|]. split; [|apply NoDup_singleton].
    intros k Hk ->%list_elem_of_singleton. apply (core_order cs Hs) in Hk as [? ?]. congruence.
  - intros k. rewrite elem_of_app, list_elem_of_singleton, (core_order cs Hs k).
    rewrite lookup_insert_is_Some. destruct (decide (scope_of input = k)); naive_solver.
Qed.

(** Only a request whose legacy key is a stored scope makes an alias. *)
Lemma add_command_unaliased cs id now input :
  unaliased cs -> idempotency cs !! scope_of input = None ->
  idempotency_results cs !! legacy_idempotency_scope_key input = None ->
  unaliased (add_command (new_command id now input) (scope_of input)
               (legacy_idempotency_scope_key input) cs).
Proof.
  intros Hu Hidx Hleg k x. unfold add_command. simpl.
  intros [[<- <-]|[Hne Hk]]%lookup_insert_Some.
  - destruct (decide (scope_of input = legacy_idempotency_scope_key input)); [by left|right].
    by rewrite lookup_insert_ne.
  - destruct (Hu k x Hk) as [->|Hn]; [by left|right]. rewrite lookup_insert_ne; [done|]. congruence.
Qed.

Lemma pending_count_insert (m : gmap string (list DeviceCommand.t)) d q :
  sum_list_with List.length (snd <$> map_to_list (<[d := q]> m))
  = (sum_list_with List.length (snd <$> map_to_list (delete d m)) + List.length q)%nat.
Proof.
  rewrite <- insert_delete_eq.
  assert (snd <$> map_to_list (<[d := q]> (delete d m))
          ≡ₚ q :: (snd <$> map_to_list (delete d m))) as ->.
  { rewrite map_to_list_insert by apply lookup_delete_eq. done. }
  simpl. lia.
Qed.

Lemma pending_count_lookup (m : gmap string (list DeviceCommand.t)) d :
  sum_list_with List.length (snd <$> map_to_list m)
  = (sum_list_with List.length (snd <$> map_to_list (delete d m))
     + List.length (default [] (m !! d)))%nat.
Proof.
  destruct (m !! d) as [q|] eqn:Hq; simpl.
  - rewrite <- pending_count_insert. by rewrite insert_id.
  - rewrite delete_id by done. lia.
Qed.

Lemma add_command_pending c scope legacy cs :
  pending_command_count (add_command c scope legacy cs) = S (pending_command_count cs).
Proof.
  unfold pending_command_count, add_command. simpl.
  rewrite pending_count_insert, (pending_count_lookup (queues cs) (DeviceCommand.device_id c)).
  unfold queue_of. rewrite length_app. simpl. lia.
Qed.

(** ** Removing commands from queues *)

Lemma core_shrink_queues cs qs :
  core cs ->
  (forall d q', qs !! d = Some q' -> q' <> [] /\ exists q, queues cs !! d = Some q /\ sublist q' q) ->
  core (set_queues (fun _ => qs) cs).
Proof.
  intros Hc Hqs. split; simpl; try apply Hc.
  - intros d q' Hq'. destruct (Hqs d q' Hq') as (Hne & q & Hq & Hsub).
    destruct (core_queue cs Hc d q Hq) as (_ & Hlen & Hdev). split; [done|]. split.
    + apply sublist_length in Hsub. lia.
    + apply Forall_forall. intros c Hin. rewrite Forall_forall in Hdev.
      by apply Hdev, (elem_of_sublist q').
  - intros d q' Hq'. destruct (Hqs d q' Hq') as (_ & q & Hq & Hsub).
    apply (sublist_NoDup q' q); [|done]. by apply (core_queue_NoDup cs Hc d).
  - intros d q' c Hq' Hin. destruct (Hqs d q' Hq') as (_ & q & Hq & Hsub).
    apply (core_replay cs Hc d q); [done|]. by eapply elem_of_sublist.
Qed.

Lemma take_command_Some id q c rest :
  take_command id q = Some (c, rest) ->
  DeviceCommand.command_id c = id
  /\ exists before after, q = (before ++ c :: after)%list /\ rest = (before ++ after)%list
       /\ Forall (fun x => DeviceCommand.command_id x <> id) before.
Proof.
  revert c rest. induction q as [|x q IH]; intros c rest; simpl; [done|].
  case_bool_decide as Hx.
  - intros [= <- <-]. split; [done|]. by exists [], q.
  - destruct (take_command id q) as [[found rest']|]; [|done]. intros [= <- <-].
    destruct (IH found rest' eq_refl) as (Hid & b & a & -> & -> & Hb). split; [done|].
    exists (x :: b), a. auto.
Qed.

Lemma take_command_None id q :
  take_command id q = None <-> Forall (fun x => DeviceCommand.command_id x <> id) q.
Proof.
  induction q as [|x q IH]; simpl; [done|]. rewrite Forall_cons.
  case_bool_decide as Hx; [naive_solver|].
  destruct (take_command id q) as [[found rest']|]; naive_solver.
Qed.
End AddCommand.

(** ** Reachable states *)

Section Reachable.
Context `{Blake3} {DB : Type} `{!SnapshotStore DB}.

Record state_ok (s : StoredState) : Prop := {
  ok_keyed : map_Forall (fun node d => DeviceRecord.node_id d = node) (devices s);
  ok_size : (size (devices s) <= MAX_REGISTERED_DEVICES)%nat;
  ok_devices : map_Forall (fun _ d => device_ok d) (devices s);
  ok_commands : wf (commands s);
}.

Inductive op :=
| OpRegister (now : string) (request : RegisterDeviceRequest.t)
| OpHeartbeat (now : string) (request : HeartbeatRequest.t)
| OpProbe (probe_now event_now device_id : string) (report : PublicProbeReport.t)
| OpIssue (id : CommandId) (now : string) (input : IssueCommandInput)
| OpAcknowledge (now : string) (input : AcknowledgeCommandInput).

Definition run_op (a : AppState DB) (o : op) : AppState DB :=
  match o with
  | OpRegister now request => (register_device_transaction a now request).2
  | OpHeartbeat now request => (heartbeat_transaction a now request).2
  | OpProbe pn en device report => (public_probe_transaction a pn en device report).2
  | OpIssue id now input => (issue_command_transaction a id now input).2
  | OpAcknowledge now input => (acknowledge_command_transaction a now input).2
  end.

(** Fresh identities are fresh. *)
Definition op_allowed (a : AppState DB) (o : op) : Prop :=
  match o with
  | OpIssue id _ _ => fresh_for (commands (memory a)) id
  | _ => True
  end.

Inductive run : AppState DB -> AppState DB -> Prop :=
| RunNil a : run a a
| RunCons a o a' : op_allowed a o -> run (run_op a o) a' -> run a a'.

(** Every transaction leaves the state alone or commits a candidate. *)
Lemma commit_cases {O E} (a : AppState DB) candidate (e : E) (o : O) r a' :
  commit a candidate e o = (r, a') ->
  (r = Err e /\ a' = a) \/
  (r = Ok o /\ memory a' = candidate
   /\ compare_and_swap (database a) (memory a) candidate = Some (database a')).
Proof.
  unfold commit. destruct (compare_and_swap _ _ _) as [db'|] eqn:Hc; intros [= <- <-]; auto.
Qed.

Lemma commit_ok {O E} (a : AppState DB) candidate (e : E) (o : O) :
  state_ok (memory a) -> state_ok candidate -> state_ok (memory (commit a candidate e o).2).
Proof.
  intros Ha Hc. destruct (commit a candidate e o) as [r a'] eqn:Hr. cbn [snd].
  apply commit_cases in Hr as [[_ ->]|(_ & -> & _)]; done.
Qed.

(** Replacing one device record. *)
Lemma put_device_ok s node d :
  state_ok s -> DeviceRecord.node_id d = node -> device_ok d ->
  (is_Some (devices s !! node) \/ (size (devices s) < MAX_REGISTERED_DEVICES)%nat) ->
  state_ok (mk_stored (<[node := d]> (devices s)) (commands s)).
Proof.
  intros [Hk Hsz Hd Hw] Hnode Hok Hroom. split; simpl; try done.
  - by apply map_Forall_insert_2.
  - destruct (devices s !! node) as [d'|] eqn:Hn.
    + rewrite map_size_insert_Some by by exists d'. done.
    + rewrite map_size_insert_None by done. destruct Hroom as [[? ?]|]; [done|lia].
  - by apply map_Forall_insert_2.
Qed.

(** Changing the command fields of a device. *)
Lemma alter_device_ok s cs f node :
  state_ok s -> wf cs ->
  (forall d, DeviceRecord.node_id (f d) = DeviceRecord.node_id d) ->
  (forall d, device_ok d -> device_ok (f d)) ->
  state_ok (mk_stored (alter f node (devices s)) cs).
Proof.
  intros [Hk Hsz Hd Hw] Hcs Hid Hok. split; simpl; try done.
  - intros n d. rewrite lookup_alter_Some. intros [(-> & d' & Hd' & ->)|[_ Hn]].
    + rewrite Hid. by apply (Hk n).
    + by apply (Hk n).
  - rewrite <- (size_dom (D := gset string)), dom_alter_L, size_dom. done.
  - intros n d. rewrite lookup_alter_Some. intros [(-> & d' & Hd' & ->)|[_ Hn]].
    + apply Hok. by apply (Hd n).
    + by apply (Hd n).
Qed.

Lemma register_ok a now request :
  state_ok (memory a) -> state_ok (memory (register_device_transaction a now request).2).
Proof.
  intros Ha. unfold register_device_transaction.
  destruct (devices (memory a) !! _) as [existing|] eqn:Hd.
  - case_if; [done|]. by apply commit_ok.
  - destruct (_ <=? _)%nat eqn:Hcap; [done|]. apply Nat.leb_gt in Hcap.
    case_if; [done|]. apply commit_ok; [done|].
    apply put_device_ok; [done|done|apply build_registered_device_ok|by right].
Qed.

Lemma heartbeat_ok a now request :
  state_ok (memory a) -> state_ok (memory (heartbeat_transaction a now request).2).
Proof.
  intros Ha. unfold heartbeat_transaction.
  destruct (devices (memory a) !! _) as [existing|] eqn:Hd.
  - case_if; [|done]. destruct (negb _) eqn:Hn; [done|]. bools. apply commit_ok; [done|].
    apply put_device_ok; [done|done|apply build_heartbeat_device_ok|left; by eexists].
  - destruct (_ <=? _)%nat eqn:Hcap; [done|]. apply Nat.leb_gt in Hcap.
    destruct (negb _) eqn:Hn; [done|]. bools. apply commit_ok; [done|].
    apply put_device_ok; [done|done|apply build_heartbeat_device_ok|by right].
Qed.

Lemma probe_ok a pn en device report :
  state_ok (memory a) -> state_ok (memory (public_probe_transaction a pn en device report).2).
Proof.
  intros Ha. unfold public_probe_transaction.
  destruct (devices (memory a) !! device) as [existing|] eqn:Hd; [|done].
  case_if; [done|]. destruct (negb (bool_decide (DeviceRecord.node_id (apply_public_probe _ _ _ _) = _))) eqn:Hn; [done|].
  bools. apply commit_ok; [done|]. apply put_device_ok; [done|done| |left; by eexists].
  apply apply_public_probe_ok. by apply (ok_devices _ Ha device).
Qed.

Lemma capacity_free cs input :
  capacity_exhausted cs input = false ->
  (pending_command_count cs < MAX_PENDING_COMMANDS)%nat
  /\ (List.length (queue_of cs (issue_device_id input)) < MAX_COMMAND_QUEUE_PER_DEVICE)%nat.
Proof.
  unfold capacity_exhausted, queue_of. intros [H1%Nat.leb_gt H2]%orb_false_iff. split; [done|].
  destruct (queues cs !! _); simpl in *; [by apply Nat.leb_gt|]. unfold MAX_COMMAND_QUEUE_PER_DEVICE. lia.
Qed.

(** The command state after a successful issue. *)
Lemma issue_candidate_wf cs id now input :
  wf cs -> fresh_for cs id ->
  idempotency_results cs !! scope_of input = None ->
  is_some (idempotency cs !! scope_of input)
    || is_some (idempotency cs !! legacy_idempotency_scope_key input) = false ->
  capacity_exhausted cs input = false ->
  exists cs' n,
    trim_idempotency_state (add_command (new_command id now input) (scope_of input)
      (legacy_idempotency_scope_key input) cs) = Ok (cs', n)
    /\ trimmed (add_command (new_command id now input) (scope_of input)
         (legacy_idempotency_scope_key input) cs) cs' /\ wf cs'.
Proof.
  intros [Hcore Hlen Hpend] Hf Hs [H1 H2]%orb_false_iff Hcap.
  apply capacity_free in Hcap as [Hp Hq].
  destruct (idempotency cs !! scope_of input) eqn:Hi1; [done|].
  destruct (idempotency cs !! legacy_idempotency_scope_key input) eqn:Hi2; [done|].
  pose proof (add_command_core cs id now input Hcore Hf Hs Hi1 Hi2 Hq) as Hadd. simpl in Hadd.
  set (cs1 := add_command _ _ _ _) in *.
  assert (pending_command_count cs1 <= MAX_PENDING_COMMANDS)%nat as Hp1
    by (unfold cs1; rewrite add_command_pending; lia).
  destruct (trim_ok cs1 Hadd Hp1) as (cs' & n & Ht & Htr). exists cs', n.
  split; [done|]. split; [done|]. destruct Htr. split; try done.
  unfold pending_command_count in *. by rewrite trimmed_queues.
Qed.

Lemma issue_ok a id now input :
  state_ok (memory a) -> fresh_for (commands (memory a)) id ->
  state_ok (memory (issue_command_transaction a id now input).2).
Proof.
  intros Ha Hf. unfold issue_command_transaction.
  rewrite (normalize_wf _ (ok_commands _ Ha)). case_decide; [|done].
  destruct (idempotency_results (commands (memory a)) !! scope_of input) as [existing|] eqn:Hs.
  - destruct (classify_existing _ _ _); done.
  - destruct (_ || _) eqn:Hi; [done|]. case_if; [done|].
    destruct (capacity_exhausted _ _) eqn:Hcap; [done|].
    destruct (issue_candidate_wf _ id now input (ok_commands _ Ha) Hf Hs Hi Hcap)
      as (cs' & n & Ht & _ & Hwf). rewrite Ht.
    apply commit_ok; [done|]. by apply alter_device_ok.
Qed.

Lemma ack_queue_wf cs d q c rest id :
  wf cs -> queues cs !! d = Some q -> take_command id q = Some (c, rest) ->
  wf (set_queues (fun _ => match rest with
                           | [] => delete d (queues cs)
                           | _ => <[d := rest]> (queues cs)
                           end) cs).
Proof.
  intros [Hcore Hlen Hpend] Hq Ht.
  apply take_command_Some in Ht as (_ & before & after & -> & -> & _).
  assert (sublist (before ++ after)%list (before ++ c :: after)%list) as Hsub.
  { apply sublist_app; [done|]. by apply sublist_cons. }
  split; [|done|].
  - apply core_shrink_queues; [done|]. intros d' q' Hq'.
    assert ((d' = d /\ q' = (before ++ after)%list /\ q' <> []) \/ queues cs !! d' = Some q') as Hc.
    { destruct (before ++ after)%list eqn:Hr.
      - apply lookup_delete_Some in Hq' as [_ ?]. by right.
      - apply lookup_insert_Some in Hq' as [[<- <-]|[_ ?]]; [left|right]; done. }
    destruct Hc as [(-> & -> & Hne)|Hold]; [by eauto|].
    split; [by apply (core_queue cs Hcore) in Hold as (? & _)|]. by exists q'.
  - unfold pending_command_count in *. simpl.
    rewrite (pending_count_lookup (queues cs) d), Hq in Hpend. simpl in Hpend.
    apply sublist_length in Hsub.
    destruct (before ++ after)%list eqn:Hr; [lia|]. rewrite pending_count_insert. lia.
Qed.

Lemma ack_ok_state a now input :
  state_ok (memory a) -> state_ok (memory (acknowledge_command_transaction a now input).2).
Proof.
  intros Ha. unfold acknowledge_command_transaction. case_if; [done|].
  destruct (queues _ !! _) as [q|] eqn:Hq; [|done].
  destruct (take_command _ q) as [[c rest]|] eqn:Ht; [|done].
  case_if; [done|]. apply commit_ok; [done|].
  apply alter_device_ok; [done| |done|done].
  by apply (ack_queue_wf _ _ q c rest _ (ok_commands _ Ha) Hq Ht).
Qed.

Lemma run_op_ok a o : state_ok (memory a) -> op_allowed a o -> state_ok (memory (run_op a o)).
Proof.
  intros Ha. destruct o; simpl; intros Hall;
    [by apply register_ok|by apply heartbeat_ok|by apply probe_ok|by apply issue_ok
    |by apply ack_ok_state].
Qed.

Lemma run_ok a a' : run a a' -> state_ok (memory a) -> state_ok (memory a').
Proof. induction 1; [done|]. intros. by apply IHrun, run_op_ok. Qed.

(** Operations one after the other. *)
Fixpoint ops_allowed (ops : list op) (a : AppState DB) : Prop :=
  match ops with
  | [] => True
  | o :: rest => op_allowed a o /\ ops_allowed rest (run_op a o)
  end.

Lemma ops_ok ops a :
  ops_allowed ops a -> state_ok (memory a) -> state_ok (memory (foldl run_op a ops)).
Proof.
  revert a. induction ops as [|o ops IH]; intros a; [done|]. intros [Ho Hops] Ha.
  by apply IH, run_op_ok.
Qed.

(** ** Aliased scopes *)

(** A request whose legacy key is a stored scope. *)
Definition aliasing (a : AppState DB) (o : op) : Prop :=
  match o with
  | OpIssue _ _ input =>
      is_Some (idempotency_results (commands (memory a)) !! legacy_idempotency_scope_key input)
  | _ => False
  end.

Lemma commit_unaliased {O E} (a : AppState DB) candidate (e : E) (o : O) :
  unaliased (commands (memory a)) -> unaliased (commands candidate) ->
  unaliased (commands (memory (commit a candidate e o).2)).
Proof. intros. unfold commit. by destruct (compare_and_swap _ _ _). Qed.

Lemma run_op_unaliased a o :
  state_ok (memory a) -> op_allowed a o -> ~ aliasing a o ->
  unaliased (commands (memory a)) -> unaliased (commands (memory (run_op a o))).
Proof.
  intros Ha Hall Hno Hu. destruct o; simpl in *;
    unfold register_device_transaction, heartbeat_transaction, public_probe_transaction,
      acknowledge_command_transaction;
    try (repeat case_match; cbn [snd]; try done; by apply commit_unaliased).
  unfold issue_command_transaction. rewrite (normalize_wf _ (ok_commands _ Ha)), decide_True by done.
  destruct (idempotency_results (commands (memory a)) !! scope_of input) as [existing|] eqn:Hs.
  - by destruct (classify_existing _ _ _).
  - destruct (_ || _) eqn:Hi; [done|]. case_if; [done|].
    destruct (capacity_exhausted _ _) eqn:Hcap; [done|].
    destruct (issue_candidate_wf _ id now input (ok_commands _ Ha) Hall Hs Hi Hcap)
      as (cs' & n & Ht & Htr & Hwf). rewrite Ht.
    apply commit_unaliased; [done|]. simpl. apply (trimmed_unaliased _ _ Htr).
    apply orb_false_iff in Hi as [Hi _]. apply add_command_unaliased; [done| |].
    + by destruct (idempotency _ !! scope_of input).
    + by apply eq_None_not_Some.
Qed.

(** With an aliased scope nothing more is issued. *)
Lemma issue_aliased a id now input :
  state_ok (memory a) -> ~ unaliased (commands (memory a)) ->
  issue_command_transaction a id now input = (Err IssueStateConflict, a).
Proof.
  intros Ha Hu. unfold issue_command_transaction.
  by rewrite (normalize_wf _ (ok_commands _ Ha)), decide_False.
Qed.

Lemma empty_wf : wf empty_commands.
Proof.
  split; [split|..]; simpl; try done; try (intros *; by rewrite lookup_empty).
  - constructor.
  - intros k. rewrite lookup_empty. split; [by intros ?%not_elem_of_nil|by intros [? ?]].
  - unfold MAX_IDEMPOTENCY_RESULTS. lia.
  - unfold pending_command_count. simpl. rewrite map_to_list_empty. simpl.
    unfold MAX_PENDING_COMMANDS. lia.
Qed.

Lemma empty_ok : state_ok (mk_stored ∅ empty_commands).
Proof.
  split; simpl; [apply map_Forall_empty| |apply map_Forall_empty|apply empty_wf].
  rewrite map_size_empty. unfold MAX_REGISTERED_DEVICES. lia.
Qed.
End Reachable.
