(* ===== verification/ControlPlaneTheorems.v ===== *)
(** * Control plane: properties

    The properties of the transactions of [services/control-plane/src/state.rs]
    that clients rely on, and concrete runs of them. *)

From stdpp Require Import base gmap strings list fin_maps relations.
From Stdlib Require Import ZArith Lia String.
From S2P Require Import Prelude Text Foundation RuntimeProjection Commands Devices.
From S2P Require Import CommandState CommandInvariant ControlPlane ControlPlaneInvariant.
Local Open Scope string_scope.
Local Open Scope Z_scope.

Section Properties.
Context `{Blake3} {DB : Type} `{!SnapshotStore DB}.

(** ** Atomicity *)

Definition unchanged_on_error {O E} (a : AppState DB) (out : result O E * AppState DB) : Prop :=
  forall e, out.1 = Err e -> out.2 = a.

Lemma commit_atomic {O E} (a : AppState DB) candidate (e : E) (o : O) :
  unchanged_on_error a (commit a candidate e o).
Proof. intros e'. unfold commit. by destruct (compare_and_swap _ _ _). Qed.

Lemma ok_atomic {O E} (a a' : AppState DB) (o : O) :
  unchanged_on_error (E := E) a (Ok o, a').
Proof. intros e. done. Qed.

Lemma err_atomic {O E} (a : AppState DB) (e : E) : unchanged_on_error (O := O) a (Err e, a).
Proof. intros e'. done. Qed.

Local Hint Resolve commit_atomic ok_atomic err_atomic : mobile_proxy.

Lemma issue_atomic (a : AppState DB) id now input :
  unchanged_on_error a (issue_command_transaction a id now input).
Proof.
  unfold issue_command_transaction. repeat case_match; eauto with mobile_proxy.
Qed.

(** C10: A transaction that reports an error, for whatever reason and at whatever
    point, leaves memory and database exactly as they were. *)
Theorem failed_transaction_changes_nothing (a : AppState DB) now now' device register heartbeat
    probe id issue ack :
  unchanged_on_error a (register_device_transaction a now register)
  /\ unchanged_on_error a (heartbeat_transaction a now heartbeat)
  /\ unchanged_on_error a (public_probe_transaction a now now' device probe)
  /\ unchanged_on_error a (issue_command_transaction a id now issue)
  /\ unchanged_on_error a (acknowledge_command_transaction a now ack).
Proof.
  unfold register_device_transaction, heartbeat_transaction, public_probe_transaction,
    issue_command_transaction, acknowledge_command_transaction.
  repeat split; repeat case_match; eauto with mobile_proxy.
Qed.

(** ** Agreement of memory and database *)

Definition in_sync (a : AppState DB) : Prop := represents (database a) (memory a).

Lemma commit_sync `{!SnapshotStoreLaws DB} {O E} (a : AppState DB) candidate (e : E) (o : O) :
  in_sync a -> in_sync (commit a candidate e o).2.
Proof.
  intros Ha. destruct (commit a candidate e o) as [r a'] eqn:Hr. cbn [snd].
  apply commit_cases in Hr as [[_ ->]|(_ & Hm & Hc)]; [done|].
  unfold in_sync. rewrite Hm. by eapply compare_and_swap_candidate.
Qed.

Lemma run_op_sync `{!SnapshotStoreLaws DB} (a : AppState DB) o :
  in_sync a -> in_sync (run_op a o).
Proof.
  intros Ha. destruct o; simpl;
    unfold register_device_transaction, heartbeat_transaction, public_probe_transaction,
      issue_command_transaction, acknowledge_command_transaction;
    repeat case_match; cbn [snd]; try done; by apply commit_sync.
Qed.

(** C9: As long as swaps in the database behave, the database holds exactly the
    state in memory after every sequence of transactions, failed ones
    included. *)
Theorem memory_and_database_agree `{!SnapshotStoreLaws DB} (a a' : AppState DB) :
  run a a' -> in_sync a -> in_sync a'.
Proof. induction 1; [done|]. intros Ha. by apply IHrun, run_op_sync. Qed.

(** ** The invariant *)

(** C5: Every state reached from the empty one, by whatever requests under fresh
    identities, has its devices stored under their node and projected from their
    facts, its queues bounded and holding only their own device's commands, a
    replay record for every pending command, exactly the index entries of its
    records, and all counts within their limits.  No record's scope is another
    command's index entry, or no command is accepted any more; and only a request
    whose legacy key is a stored scope leads from the first to the second. *)
Theorem control_plane_invariant (db : DB) (a : AppState DB) :
  run (mk_app (mk_stored ∅ empty_commands) db) a ->
  state_ok (memory a)
  /\ (unaliased (commands (memory a))
      \/ forall id now input, issue_command_transaction a id now input = (Err IssueStateConflict, a))
  /\ (forall o, op_allowed a o -> ~ aliasing a o ->
      unaliased (commands (memory a)) -> unaliased (commands (memory (run_op a o)))).
Proof.
  intros Hr. pose proof (run_ok _ _ Hr empty_ok) as Ha. split; [done|]. split.
  - destruct (decide (unaliased (commands (memory a)))); [by left|right].
    intros. by apply issue_aliased.
  - intros o. by apply run_op_unaliased.
Qed.

(** ** Issue *)

Lemma issue_existing (a : AppState DB) id now input existing :
  state_ok (memory a) ->
  idempotency_results (commands (memory a)) !! scope_of input = Some existing ->
  issue_command_transaction a id now input
  = (if decide (unaliased (commands (memory a))) then
       match classify_existing existing (issue_device_id input) (issue_request input) with
       | Ok c => Ok (ExactDuplicate c)
       | Err e => Err e
       end
     else Err IssueStateConflict, a).
Proof.
  intros Ha Hs. unfold issue_command_transaction.
  rewrite (normalize_wf _ (ok_commands _ Ha)). case_decide; [|done].
  rewrite Hs. by destruct (classify_existing _ _ _).
Qed.

Lemma issue_duplicate_unchanged (a : AppState DB) id now input c a' :
  state_ok (memory a) ->
  issue_command_transaction a id now input = (Ok (ExactDuplicate c), a') -> a' = a.
Proof.
  intros Ha. unfold issue_command_transaction.
  rewrite (normalize_wf _ (ok_commands _ Ha)). case_decide; [|done].
  destruct (idempotency_results _ !! scope_of input).
  - destruct (classify_existing _ _ _); simpl; congruence.
  - repeat case_match; try congruence. intros Hc.
    apply commit_cases in Hc as [[? _]|(? & _)]; congruence.
Qed.

Lemma new_command_classified id now input :
  classify_existing (new_command id now input) (issue_device_id input) (issue_request input)
  = Ok (new_command id now input).
Proof. apply classify_existing_Ok. by destruct input as [d []]. Qed.

Lemma queue_of_replay cs d c :
  core cs -> c ∈ queue_of cs d -> idempotency_results cs !! canonical_scope c = Some c.
Proof.
  unfold queue_of. intros Hc. destruct (queues cs !! d) as [q|] eqn:Hq; simpl.
  - by eapply core_replay.
  - intros Hin. by apply not_elem_of_nil in Hin.
Qed.

(** What an accepted issue leaves. *)
Lemma issue_created (a : AppState DB) id now input c a' :
  state_ok (memory a) -> fresh_for (commands (memory a)) id ->
  issue_command_transaction a id now input = (Ok (Created c), a') ->
  c = new_command id now input
  /\ queues (commands (memory a'))
     = <[issue_device_id input
          := (queue_of (commands (memory a)) (issue_device_id input) ++ [c])%list]>
         (queues (commands (memory a)))
  /\ idempotency_results (commands (memory a')) !! scope_of input = Some c
  /\ state_ok (memory a').
Proof.
  intros Ha Hf Hissue. pose proof (issue_ok a id now input Ha Hf) as Hok.
  rewrite Hissue in Hok. cbn [snd] in Hok. revert Hissue.
  unfold issue_command_transaction. rewrite (normalize_wf _ (ok_commands _ Ha)).
  case_decide; [|done].
  destruct (idempotency_results (commands (memory a)) !! scope_of input) as [existing|] eqn:Hs.
  { by destruct (classify_existing _ _ _). }
  destruct (_ || _) eqn:Hi; [done|]. destruct (rotation_blocked _ _ _); [done|].
  destruct (capacity_exhausted _ _) eqn:Hcap; [done|].
  destruct (issue_candidate_wf _ id now input (ok_commands _ Ha) Hf Hs Hi Hcap)
    as (cs' & n & Ht & Htr & Hwf). rewrite Ht.
  intros Hc. apply commit_cases in Hc as [[? _]|(Hr & Hm & _)]; [done|].
  injection Hr as ->. split; [done|]. rewrite Hm. cbn [commands].
  assert (queues cs' = <[issue_device_id input
     := (queue_of (commands (memory a)) (issue_device_id input) ++ [new_command id now input])%list]>
       (queues (commands (memory a)))) as Hq by (by rewrite (trimmed_queues _ _ Htr)).
  split; [done|]. split; [|by rewrite <- Hm].
  change (scope_of input) with (canonical_scope (new_command id now input)).
  eapply (core_replay cs' (wf_core _ Hwf)); [by rewrite Hq, lookup_insert_eq|].
  apply elem_of_app. right. by apply list_elem_of_singleton.
Qed.

(** C6: Issuing is idempotent for as long as the command is pending: it is in
    its device's queue once it was created, and after any further transactions
    that leave it there, repeating the request returns that very command,
    whatever fresh identity and clock the repetition drew, and changes
    nothing; unless another command's index entry has become a stored scope in
    between, when it is refused as an inconsistent state and changes nothing. *)
Theorem issue_then_replay (a : AppState DB) id now input c a' :
  state_ok (memory a) -> fresh_for (commands (memory a)) id ->
  issue_command_transaction a id now input = (Ok (Created c), a') ->
  c ∈ queue_of (commands (memory a')) (issue_device_id input)
  /\ forall a'', run a' a'' -> c ∈ queue_of (commands (memory a'')) (issue_device_id input) ->
     forall id' now',
       issue_command_transaction a'' id' now' input
       = (if decide (unaliased (commands (memory a''))) then Ok (ExactDuplicate c)
          else Err IssueStateConflict, a'').
Proof.
  intros Ha Hf Hissue.
  destruct (issue_created a id now input c a' Ha Hf Hissue) as (-> & Hq & _ & Hok). split.
  - unfold queue_of at 1. rewrite Hq, lookup_insert_eq. apply elem_of_app. right.
    by apply list_elem_of_singleton.
  - intros a'' Hrun Hc id' now'. pose proof (run_ok _ _ Hrun Hok) as Hok''.
    rewrite (issue_existing a'' id' now' input (new_command id now input) Hok'').
    + by rewrite new_command_classified.
    + by apply (queue_of_replay _ _ _ (wf_core _ (ok_commands _ Hok''))) in Hc.
Qed.

(** The request is new, its device may take it and there is room for it. *)
Definition admissible (a : AppState DB) (input : IssueCommandInput) : Prop :=
  idempotency_results (commands (memory a)) !! scope_of input = None
  /\ idempotency (commands (memory a)) !! legacy_idempotency_scope_key input = None
  /\ rotation_blocked (devices (memory a)) (commands (memory a)) input = false
  /\ capacity_exhausted (commands (memory a)) input = false.

(** The conditions of a new command, in the order they are tested. *)
Inductive issue_spec (a : AppState DB) (id : CommandId) (now : string) (input : IssueCommandInput)
    : result IssueCommandOutcome IssueCommandError -> Prop :=
| SpecDuplicate c :
    idempotency_results (commands (memory a)) !! scope_of input = Some c ->
    request_fingerprint (DeviceCommand.device_id c) (request_for c)
      = request_fingerprint (issue_device_id input) (issue_request input) ->
    DeviceCommand.idempotency_key c = IssueCommandRequest.idempotency_key (issue_request input) ->
    issue_spec a id now input (Ok (ExactDuplicate c))
| SpecConflict c :
    idempotency_results (commands (memory a)) !! scope_of input = Some c ->
    ~ (DeviceCommand.idempotency_key c
         = IssueCommandRequest.idempotency_key (issue_request input)
       /\ request_fingerprint (DeviceCommand.device_id c) (request_for c)
          = request_fingerprint (issue_device_id input) (issue_request input)) ->
    issue_spec a id now input (Err IdempotencyConflict)
| SpecIndexed :
    idempotency_results (commands (memory a)) !! scope_of input = None ->
    is_Some (idempotency (commands (memory a)) !! scope_of input)
      \/ is_Some (idempotency (commands (memory a)) !! legacy_idempotency_scope_key input) ->
    issue_spec a id now input (Err IdempotencyConflict)
| SpecCapacity :
    idempotency_results (commands (memory a)) !! scope_of input = None ->
    rotation_blocked (devices (memory a)) (commands (memory a)) input = true
      \/ capacity_exhausted (commands (memory a)) input = true ->
    issue_spec a id now input (Err IssueCapacityExceeded)
| SpecPersistence candidate :
    admissible a input ->
    compare_and_swap (database a) (memory a) candidate = None ->
    issue_spec a id now input (Err IssuePersistence)
| SpecCreated candidate db' :
    admissible a input ->
    compare_and_swap (database a) (memory a) candidate = Some db' ->
    issue_spec a id now input (Ok (Created (new_command id now input))).

(** C7: On every well-formed state the outcome of issuing a command is the one
    its conditions select: the original for a repetition, a conflict for a reused
    key, refusal at a limit or behind a rotation, and for an admissible request
    the new command if the database took the swap and a persistence failure if
    it did not; an inconsistent state is reported exactly when a stored scope is
    another command's index entry. *)
Theorem issue_command_outcome (a : AppState DB) id now input :
  state_ok (memory a) -> fresh_for (commands (memory a)) id ->
  (unaliased (commands (memory a)) ->
   issue_spec a id now input (issue_command_transaction a id now input).1)
  /\ (~ unaliased (commands (memory a)) ->
      (issue_command_transaction a id now input).1 = Err IssueStateConflict).
Proof.
  intros Ha Hf. split; [|intros Hu; by rewrite issue_aliased]. intros Hu.
  destruct (idempotency_results (commands (memory a)) !! scope_of input) as [c|] eqn:Hs.
  { rewrite (issue_existing a id now input c Ha Hs), decide_True by done. cbn [fst].
    destruct (classify_existing c _ _) as [c'|e] eqn:Hc.
    - apply classify_existing_Ok in Hc as (-> & Hk & Hfp). by apply SpecDuplicate.
    - assert (e = IdempotencyConflict) as ->
        by (revert Hc; unfold classify_existing; case_if; congruence).
      apply (SpecConflict _ _ _ _ c Hs). intros [Hk Hfp].
      rewrite (proj2 (classify_existing_Ok c _ _ c)) in Hc; done. }
  unfold issue_command_transaction.
  rewrite (normalize_wf _ (ok_commands _ Ha)), decide_True, Hs by done.
  destruct (_ || _) eqn:Hi.
  { apply SpecIndexed; [done|].
    apply orb_true_iff in Hi as [Hi|Hi]; [left|right]; by apply is_some_true. }
  destruct (rotation_blocked _ _ _) eqn:Hrot; [apply SpecCapacity; auto|].
  destruct (capacity_exhausted _ _) eqn:Hcap; [apply SpecCapacity; auto|].
  destruct (issue_candidate_wf _ id now input (ok_commands _ Ha) Hf Hs Hi Hcap)
    as (cs' & n & Ht & _). rewrite Ht. unfold commit.
  assert (admissible a input).
  { apply orb_false_iff in Hi as [_ Hi]. split; [done|]. split; [|done].
    by destruct (idempotency _ !! legacy_idempotency_scope_key input). }
  destruct (compare_and_swap _ _ _) eqn:Hcas; [by eapply SpecCreated|by eapply SpecPersistence].
Qed.

(** ** Queues *)

(** How one operation may change one device's queue. *)
Inductive queue_change (o : op) (d : string) (q : list DeviceCommand.t)
    : list DeviceCommand.t -> Prop :=
| QueueSame : queue_change o d q q
| QueueAppended id now input :
    o = OpIssue id now input -> issue_device_id input = d ->
    queue_change o d q (q ++ [new_command id now input])%list
| QueueRemoved now input c before after :
    o = OpAcknowledge now input -> ack_device_id input = d ->
    ack_ok (ack_request input) = true -> DeviceCommand.command_id c = ack_command_id input ->
    q = (before ++ c :: after)%list ->
    queue_change o d q (before ++ after)%list.

Lemma queue_of_commit {O E} (a : AppState DB) candidate (e : E) (o : O) d :
  queue_of (commands candidate) d = queue_of (commands (memory a)) d ->
  queue_of (commands (memory (commit a candidate e o).2)) d
  = queue_of (commands (memory a)) d.
Proof. intros Hq. unfold commit. by destruct (compare_and_swap _ _ _). Qed.

Lemma issue_queue (a : AppState DB) id now input d :
  state_ok (memory a) -> fresh_for (commands (memory a)) id ->
  queue_change (OpIssue id now input) d (queue_of (commands (memory a)) d)
    (queue_of (commands (memory (issue_command_transaction a id now input).2)) d).
Proof.
  intros Ha Hf. destruct (issue_command_transaction a id now input) as [[[c|c]|e] a'] eqn:Hi;
    cbn [snd].
  - destruct (issue_created a id now input c a' Ha Hf Hi) as (-> & Hq & _).
    unfold queue_of at 2. rewrite Hq. destruct (decide (issue_device_id input = d)) as [<-|Hne].
    + rewrite lookup_insert_eq. simpl. by apply (QueueAppended _ _ _ id now input).
    + rewrite lookup_insert_ne by done. apply QueueSame.
  - rewrite (issue_duplicate_unchanged a id now input c a' Ha Hi). apply QueueSame.
  - pose proof (issue_atomic a id now input e) as Hat. rewrite Hi in Hat.
    assert (a' = a) as -> by apply (Hat eq_refl). apply QueueSame.
Qed.

Lemma other_ops_queue (a : AppState DB) o d :
  match o with OpIssue _ _ _ | OpAcknowledge _ _ => False | _ => True end ->
  queue_of (commands (memory (run_op a o))) d = queue_of (commands (memory a)) d.
Proof.
  destruct o; simpl; intros Ho; try done;
    unfold register_device_transaction, heartbeat_transaction, public_probe_transaction;
    repeat case_match; cbn [snd]; try done; by apply queue_of_commit.
Qed.

Lemma ack_queue (a : AppState DB) now input d :
  queue_change (OpAcknowledge now input) d (queue_of (commands (memory a)) d)
    (queue_of (commands (memory (acknowledge_command_transaction a now input).2)) d).
Proof.
  unfold acknowledge_command_transaction.
  destruct (ack_ok (ack_request input)) eqn:Hok; simpl; [|apply QueueSame].
  destruct (queues _ !! _) as [q|] eqn:Hq; [|apply QueueSame].
  destruct (take_command _ q) as [[c rest]|] eqn:Ht; [|apply QueueSame].
  case_if; [apply QueueSame|]. unfold commit.
  destruct (compare_and_swap _ _ _); [|apply QueueSame]. simpl.
  apply take_command_Some in Ht as (Hid & before & after & -> & -> & _).
  destruct (decide (ack_device_id input = d)) as [<-|Hne].
  - rewrite (queue_of_lookup _ _ _ Hq).
    assert (default [] (match (before ++ after)%list with
      | [] => delete (ack_device_id input) (queues (commands (memory a)))
      | _ :: _ => <[ack_device_id input := (before ++ after)%list]> (queues (commands (memory a)))
      end !! ack_device_id input) = (before ++ after)%list) as Hrest.
    { destruct (before ++ after)%list; [by rewrite lookup_delete_eq|by rewrite lookup_insert_eq]. }
    unfold queue_of. simpl. rewrite Hrest. by apply (QueueRemoved _ _ _ now input c).
  - unfold queue_of. simpl.
    assert (match (before ++ after)%list with
      | [] => delete (ack_device_id input) (queues (commands (memory a)))
      | _ :: _ => <[ack_device_id input := (before ++ after)%list]> (queues (commands (memory a)))
      end !! d = queues (commands (memory a)) !! d) as ->.
    { destruct (before ++ after)%list; [by rewrite lookup_delete_ne|by rewrite lookup_insert_ne]. }
    apply QueueSame.
Qed.

Lemma poll_front (a : AppState DB) d :
  state_ok (memory a) ->
  poll_command_query a d
  = Ok (match queue_of (commands (memory a)) d with c :: _ => Pending c | [] => NoCommand end).
Proof.
  intros Ha. unfold poll_command_query. destruct (queue_of _ d) as [|c q] eqn:Hq; [done|]. simpl.
  unfold queue_of in Hq. destruct (queues (commands (memory a)) !! d) as [q'|] eqn:Hd; [|done].
  simpl in Hq. subst q'.
  destruct (core_queue _ (wf_core _ (ok_commands _ Ha)) d _ Hd) as (_ & _ & Hdev).
  apply Forall_cons in Hdev as [-> _]. by rewrite bool_decide_true.
Qed.

(** C8: The queues are first in, first out: an operation appends its new command
    at the end of its own device's queue, or removes exactly the command a
    positive acknowledgement names, or leaves every queue alone; and polling
    always answers, with the oldest command of the device. *)
Theorem queue_discipline (a : AppState DB) o d :
  state_ok (memory a) -> op_allowed a o ->
  queue_change o d (queue_of (commands (memory a)) d)
    (queue_of (commands (memory (run_op a o))) d)
  /\ poll_command_query a d
     = Ok (match queue_of (commands (memory a)) d with c :: _ => Pending c | [] => NoCommand end).
Proof.
  intros Ha Hall. split.
  - destruct o; try (rewrite other_ops_queue by done; apply QueueSame).
    + by apply issue_queue.
    + apply ack_queue.
  - by apply poll_front.
Qed.
End Properties.

(** ** A store kept in memory

    The smallest store with the laws: it holds one state and swaps it when the
    expected state is the one it holds. *)
Module MemoryStore.
Import Foundation.Concrete.

#[global] Instance fingerprint_eq_dec : EqDecision Fingerprint := ContentDigest_eq_dec.

#[global] Instance device_eq_dec : EqDecision DeviceRecord.t.
Proof. solve_decision. Defined.

#[global] Instance commands_eq_dec : EqDecision CommandState.
Proof. solve_decision. Defined.

#[global] Instance stored_eq_dec : EqDecision StoredState.
Proof. solve_decision. Defined.

#[global] Instance store : SnapshotStore StoredState := {
  represents db s := db = s;
  compare_and_swap db expected candidate :=
    if bool_decide (db = expected) then Some candidate else None;
}.

#[global] Instance store_laws : SnapshotStoreLaws StoredState.
Proof.
  split; intros db e c db'; unfold compare_and_swap; simpl; case_bool_decide; congruence.
Qed.

Definition start : AppState StoredState :=
  mk_app (mk_stored ∅ empty_commands) (mk_stored ∅ empty_commands).

Definition id_of (n : N) : CommandId := from_uuid n.

Definition request (desired : DesiredState.t) (key : string) : IssueCommandRequest.t :=
  IssueCommandRequest.mk desired RecoveryIntent.NoRecovery (mk_window 30) (mk_key key).

Definition first_input : IssueCommandInput :=
  mk_issue "phone" (request DesiredState.HealthyServing "command-123").

Definition first : AppState StoredState :=
  (issue_command_transaction start (id_of 1) "1" first_input).2.

(** Anything is fresh for the empty state. *)
Lemma start_fresh id : fresh_for (commands (memory start)) id.
Proof.
  intros k c.
  assert (idempotency_results (commands (memory start)) = ∅) as -> by done.
  by rewrite lookup_empty.
Qed.

Lemma first_created :
  (issue_command_transaction start (id_of 1) "1" first_input).1
  = Ok (Created (new_command (id_of 1) "1" first_input)).
Proof. vm_compute. reflexivity. Qed.

Lemma memory_and_database_agree_witness : in_sync first.
Proof.
  apply (memory_and_database_agree start first); [|done].
  apply (RunCons _ (OpIssue (id_of 1) "1" first_input)); [apply start_fresh|apply RunNil].
Defined.

Lemma control_plane_invariant_witness : state_ok (memory first).
Proof.
  apply (control_plane_invariant (mk_stored ∅ empty_commands) first).
  apply (RunCons _ (OpIssue (id_of 1) "1" first_input)); [apply start_fresh|apply RunNil].
Defined.

Lemma issue_then_replay_witness :
  issue_command_transaction first (id_of 9) "7" first_input
  = (Ok (ExactDuplicate (new_command (id_of 1) "1" first_input)), first).
Proof.
  destruct (issue_then_replay start (id_of 1) "1" first_input
              (new_command (id_of 1) "1" first_input) first) as [Hq Hreplay].
  - apply empty_ok.
  - apply start_fresh.
  - rewrite <- first_created. apply surjective_pairing.
  - rewrite (Hreplay first (RunNil first) Hq). rewrite decide_True; [done|].
    apply (bool_decide_eq_true_1 (unaliased (commands (memory first)))). vm_compute. reflexivity.
Defined.

Lemma issue_command_outcome_witness :
  issue_spec start (id_of 1) "1" first_input
    (Ok (Created (new_command (id_of 1) "1" first_input))).
Proof.
  rewrite <- first_created.
  apply (issue_command_outcome start); [apply empty_ok|apply start_fresh|].
  apply map_Forall_empty.
Defined.

Lemma queue_discipline_witness :
  poll_command_query start "phone" = Ok NoCommand.
Proof.
  apply (queue_discipline start (OpIssue (id_of 1) "1" first_input) "phone");
    [apply empty_ok|apply start_fresh].
Defined.

(** *** Two separators in one text

    The legacy index joins device and key with a colon, so two requests with
    different scopes can share an index key. *)
Definition colon_left : IssueCommandInput :=
  mk_issue "a:b" (request DesiredState.HealthyServing "c").
Definition colon_right : IssueCommandInput :=
  mk_issue "a" (request DesiredState.HealthyServing "b:c").

Definition colon_issued : AppState StoredState :=
  (issue_command_transaction start (id_of 1) "1" colon_left).2.

(** Two requests for different devices with different idempotency scopes are
    taken for one: after the first was created, the second, which was never
    sent before, is refused as a conflict with "the original command". *)
Theorem legacy_index_confuses_devices :
  scope_of colon_left <> scope_of colon_right
  /\ (issue_command_transaction start (id_of 1) "1" colon_left).1
     = Ok (Created (new_command (id_of 1) "1" colon_left))
  /\ (issue_command_transaction colon_issued (id_of 2) "2" colon_right).1
     = Err IdempotencyConflict.
Proof.
  split; [|split].
  - apply (bool_decide_eq_false_1 (scope_of colon_left = scope_of colon_right)).
    vm_compute. reflexivity.
  - vm_compute. reflexivity.
  - vm_compute. reflexivity.
Qed.

(** *** A legacy key that is a stored scope

    The scope of [first_input] is ["b3:"] and 64 digits.  A command for a device
    named ["b3"] with those digits as its key writes its legacy entry under that
    very text. *)
Definition digits_of_first : string :=
  default "" (strip_prefix "b3:" (scope_of first_input)).
Definition aliasing_input : IssueCommandInput :=
  mk_issue "b3" (request DesiredState.HealthyServing digits_of_first).
Definition aliased : AppState StoredState :=
  (issue_command_transaction first (id_of 2) "2" aliasing_input).2.

(** C40: A legacy key is not checked against the stored scopes:
    a valid request can be accepted whose legacy key is a stored scope, and
    after it the control plane refuses every further new command, for any
    device, as an inconsistent state. *)
Theorem aliasing_key_blocks_all_commands :
  is_ok (IdempotencyKey_parse digits_of_first) = true
  /\ (issue_command_transaction first (id_of 2) "2" aliasing_input).1
     = Ok (Created (new_command (id_of 2) "2" aliasing_input))
  /\ (forall id now input,
        issue_command_transaction aliased id now input = (Err IssueStateConflict, aliased)).
Proof.
  split; [vm_compute; reflexivity|]. split; [vm_compute; reflexivity|].
  intros id now input. unfold issue_command_transaction.
  assert (normalize_command_state (commands (memory aliased)) = Err tt) as ->
    by (vm_compute; reflexivity). done.
Qed.
End MemoryStore.
