(* ===== verification/ControlPlaneHttp.v ===== *)
(** * HTTP surface of the control plane

    Authentication, request context, router and handlers,
    [services/control-plane/src/{auth,request_context,routes,health,main}.rs].
    A handler takes the state to a response and the next state; the clock, fresh
    identities and what the framework extracts from a body are arguments. *)

From stdpp Require Import base gmap strings list fin_maps.
From Stdlib Require Import ZArith Lia String.
From S2P Require Import Prelude Text Foundation Commands Devices CommandState ControlPlane.
Local Open Scope string_scope.
Local Open Scope Z_scope.

(** ** Requests and responses *)

(** A [HeaderMap]: names are lower case, and [get] returns the first value. *)
Definition HeaderMap := list (string * string).

Definition header (headers : HeaderMap) (name : string) : option string :=
  snd <$> List.find (fun h => bool_decide (h.1 = name)) headers.

(** [HeaderMap::insert] replaces every value of the name. *)
Definition insert_header (headers : HeaderMap) (name value : string) : HeaderMap :=
  (name, value) :: List.filter (fun h => negb (bool_decide (h.1 = name))) headers.

(** [HeaderValue::to_str]: visible ASCII, spaces and tabs. *)
Definition to_str (value : string) : option string :=
  if all_bytes (fun b => in_range 32 126 b || (b =? 9)) value then Some value else None.

Inductive Method := GET | HEAD | POST | OtherMethod.

(** The path as its segments, percent-decoded. *)
Record HttpRequest := mk_request {
  method : Method;
  path : list string;
  headers : HeaderMap;
  body : string;
}.

Definition OK : Z := 200.
Definition ACCEPTED : Z := 202.
Definition BAD_REQUEST : Z := 400.
Definition UNAUTHORIZED : Z := 401.
Definition NOT_FOUND : Z := 404.
Definition METHOD_NOT_ALLOWED : Z := 405.
Definition REQUEST_TIMEOUT : Z := 408.
Definition CONFLICT : Z := 409.
Definition INTERNAL_SERVER_ERROR : Z := 500.
Definition NOT_IMPLEMENTED : Z := 501.
Definition SERVICE_UNAVAILABLE : Z := 503.

Inductive Body `{Blake3} :=
| NoBody
| ErrorBody (error : string)
| AcceptedBody (accepted : bool)
| DevicesBody (devices : list DeviceRecord.t)
| DeviceBody (device : DeviceRecord.t)
| CommandBody (command : DeviceCommand.t)
| NextBody (command : option DeviceCommand.t)
| RotationBody (command_id : CommandId) (device_id old_ip status_url : string)
| LiveBody
| ReadyBody (healthy : bool).

Record Response `{Blake3} := mk_response {
  status : Z;
  response_body : Body;
  response_headers : HeaderMap;
}.
Arguments mk_response {_}.

(** The [Json] extractor: the value, or the status of its rejection. *)
Class JsonExtract (T : Type) := json_extract : HeaderMap -> string -> result T Z.

(** ** Authentication *)

Record AuthConfig := mk_auth {
  admin_token : string;
  device_token : string;
  ui_token : string;
  rotation_token : string;
}.

Inductive AuthError :=
| TokenInvalid (field : string) | TokensNotDifferent | RotationTokenNotDifferent.

Definition control_or_space (c : Z) : bool := is_control c || is_whitespace c.

Definition validate_token (field value : string) : result unit AuthError :=
  if (len value <? 8) || (4096 <? len value) || any_char control_or_space value
  then Err (TokenInvalid field) else Ok tt.

(** [ct_eq] of the bytes. *)
Definition ct_eq (s t : string) : bool := bool_decide (bytes s = bytes t).

Section Auth.
Local Open Scope rust_scope.

Definition new_with_rotation (admin device ui rotation : string) (require_distinct : bool)
    : result AuthConfig AuthError :=
  let? _ := validate_token "control-plane admin token" admin in
  let? _ := validate_token "control-plane device token" device in
  let? _ := validate_token "control-plane UI token" ui in
  let? _ := validate_token "control-plane rotation token" rotation in
  if ct_eq admin device || ct_eq admin ui || ct_eq device ui then Err TokensNotDifferent
  else if require_distinct && (ct_eq admin rotation || ct_eq device rotation || ct_eq ui rotation)
  then Err RotationTokenNotDifferent
  else Ok (mk_auth admin device ui rotation).

Definition AuthConfig_new (admin device ui : string) : result AuthConfig AuthError :=
  new_with_rotation admin device ui ui false.

(** The choice of [main]. *)
Definition auth_from_cli (admin device ui : string) (rotation : option string)
    : result AuthConfig AuthError :=
  match rotation with
  | Some rotation => new_with_rotation admin device ui rotation true
  | None => AuthConfig_new admin device ui
  end.

Definition bearer (headers : HeaderMap) : option string :=
  value ← header headers "authorization";
  text ← to_str value;
  candidate ← strip_prefix "Bearer " text;
  if bool_decide (candidate = "") || (4096 <? len candidate)
     || any_char control_or_space candidate
  then None else Some candidate.

Definition matches (candidate : option string) (expected : string) : bool :=
  is_some_and candidate (fun value => ct_eq value expected).
End Auth.

(** ** Request context *)

Definition REQUEST_ID_HEADER : string := "x-request-id".
Definition CORRELATION_ID_HEADER : string := "x-correlation-id".
Definition CONSUMER_ID_HEADER : string := "x-consumer-id".
Definition APPLICATION_ID_HEADER : string := "x-application-id".
Definition ACTOR_ID_HEADER : string := "x-actor-id".
Definition DEADLINE_HEADER : string := "x-deadline-unix-secs".

Inductive RequestContextError := ContextInvalid | ContextExpired.

Section Context_.
Context `{Blake3, UuidText}.
Local Open Scope rust_scope.

Definition context_error_response (e : RequestContextError) : Response :=
  match e with
  | ContextInvalid => mk_response BAD_REQUEST (ErrorBody "invalid_request_context") []
  | ContextExpired => mk_response REQUEST_TIMEOUT (ErrorBody "request_deadline_expired") []
  end.

Definition parse_header {T} (parse : string -> result T FoundationError) (headers : HeaderMap)
    (name : string) : result (option T) RequestContextError :=
  match header headers name with
  | None => Ok None
  | Some value =>
      let? raw := ok_or (to_str value) ContextInvalid in
      map_err (fun _ => ContextInvalid) (result_map Some (parse raw))
  end.

(** [now] is the system clock in seconds. *)
Definition parse_deadline (now : Z) (headers : HeaderMap)
    : result (option Deadline) RequestContextError :=
  match header headers DEADLINE_HEADER with
  | None => Ok None
  | Some value =>
      let? raw := ok_or (to_str value) ContextInvalid in
      let? unix_secs := ok_or (parse_u64 raw) ContextInvalid in
      let deadline := from_unix_secs unix_secs in
      if is_expired deadline now then Err ContextExpired
      else if MAX_DEADLINE_WINDOW_SECS <? remaining_secs deadline now then Err ContextInvalid
      else Ok (Some deadline)
  end.

(** [fresh] is the [Uuid::new_v4()] that an absent request identity takes. *)
Definition context_from_headers (fresh : Uuid) (now : Z) (headers : HeaderMap)
    : result RequestContext RequestContextError :=
  let? request_id' := parse_header (uuid_identifier_from_str "request_id") headers
                        REQUEST_ID_HEADER in
  let request_id := default (from_uuid fresh) request_id' in
  let? correlation_id' := parse_header (uuid_identifier_from_str "correlation_id") headers
                            CORRELATION_ID_HEADER in
  let correlation_id := default (from_uuid (as_uuid request_id)) correlation_id' in
  let? consumer_id := parse_header (identity_parse "consumer_id") headers CONSUMER_ID_HEADER in
  let? application_id := parse_header (identity_parse "application_id") headers
                           APPLICATION_ID_HEADER in
  let? actor_id := parse_header (identity_parse "actor_id") headers ACTOR_ID_HEADER in
  let? deadline := parse_deadline now headers in
  Ok (mk_request_context request_id correlation_id consumer_id application_id actor_id deadline).

Definition with_context (context : RequestContext) (r : Response) : Response :=
  mk_response (status r) (response_body r)
    (insert_header
       (insert_header (response_headers r) REQUEST_ID_HEADER
          (uuid_identifier_to_string (request_id context)))
       CORRELATION_ID_HEADER (uuid_identifier_to_string (correlation_id context))).
End Context_.

(** ** Stale devices *)

Section Stale.
Context `{Blake3}.

Definition HEARTBEAT_TTL_SECS : Z := 30.

Definition stale_device (d : DeviceRecord.t) : DeviceRecord.t :=
  {|
     DeviceRecord.node_id := DeviceRecord.node_id d;
     DeviceRecord.node_name := DeviceRecord.node_name d;
     DeviceRecord.readiness_state := "waiting_cellular";
     DeviceRecord.serving := false;
     DeviceRecord.proxy_status := DeviceRecord.proxy_status d;
     DeviceRecord.proxy_pid := DeviceRecord.proxy_pid d;
     DeviceRecord.last_public_ip := DeviceRecord.last_public_ip d;
     DeviceRecord.current_job := DeviceRecord.current_job d;
     DeviceRecord.last_proxy_error := DeviceRecord.last_proxy_error d;
     DeviceRecord.version := DeviceRecord.version d;
     DeviceRecord.config_fingerprint := DeviceRecord.config_fingerprint d;
     DeviceRecord.binary_fingerprint := DeviceRecord.binary_fingerprint d;
     DeviceRecord.active_operator_profile := DeviceRecord.active_operator_profile d;
     DeviceRecord.active_operator_plmn := DeviceRecord.active_operator_plmn d;
     DeviceRecord.publicly_serving := false;
     DeviceRecord.public_probe_error := DeviceRecord.public_probe_error d;
     DeviceRecord.public_probe_at := DeviceRecord.public_probe_at d;
     DeviceRecord.cellular_route_ready := DeviceRecord.cellular_route_ready d;
     DeviceRecord.proxy_bind_ready := DeviceRecord.proxy_bind_ready d;
     DeviceRecord.local_serving_ready := DeviceRecord.local_serving_ready d;
     DeviceRecord.tun0_present := DeviceRecord.tun0_present d;
     DeviceRecord.wg_handshake_recent := DeviceRecord.wg_handshake_recent d;
     DeviceRecord.reverse_tunnel_connected := Some false;
     DeviceRecord.reverse_tunnel_last_error := Some "device heartbeat is stale";
     DeviceRecord.reverse_tunnel_active_transport := None;
     DeviceRecord.reverse_tunnel_freshness := Some "stale";
     DeviceRecord.reverse_tunnel_failover_reason := DeviceRecord.reverse_tunnel_failover_reason d;
     DeviceRecord.tunnel_owner := DeviceRecord.tunnel_owner d;
     DeviceRecord.last_heartbeat_at := DeviceRecord.last_heartbeat_at d;
     DeviceRecord.availability := "degraded";
     DeviceRecord.degradation_reason_code := Some "heartbeat_stale";
     DeviceRecord.serving_failure_reason := Some "device heartbeat is stale";
     DeviceRecord.desired_state := DeviceRecord.desired_state d;
     DeviceRecord.recovery_intent := DeviceRecord.recovery_intent d;
     DeviceRecord.last_event_at := DeviceRecord.last_event_at d |}.

(** [now] is [now_unix_secs()]; [saturating_sub] of [u64]. *)
Definition mark_stale (now : string) (d : DeviceRecord.t) : DeviceRecord.t :=
  match DeviceRecord.last_heartbeat_at d ≫= parse_u64 with
  | None => d
  | Some last =>
      match parse_u64 now with
      | None => d
      | Some now => if Z.max 0 (now - last) <=? HEARTBEAT_TTL_SECS then d else stale_device d
      end
  end.
End Stale.

(** ** Handlers

    [accepted()] is true for every outcome of registration, heartbeat and probe. *)

(** What a request draws from its surroundings: fresh identities, the clock of
    the request context, and the answers of successive [now_unix_secs()]. *)
Record Environment := mk_env {
  fresh_request : Uuid;
  fresh_command : Uuid;
  clock : Z;
  stamp : nat -> string;
}.

Section Handlers.
Context `{Blake3, UuidText} {DB : Type} `{!SnapshotStore DB}.
Context `{!JsonExtract RegisterDeviceRequest.t, !JsonExtract HeartbeatRequest.t}.
Context `{!JsonExtract PublicProbeReport.t, !JsonExtract IssueCommandRequest.t}.
Context `{!JsonExtract CommandAckRequest}.

Definition plain (status : Z) (body : Body) : Response := mk_response status body [].
Definition rejected (status : Z) : Response := plain status NoBody.
Definition error_response (status : Z) (code : string) : Response := plain status (ErrorBody code).

Definition get_ip : Response :=
  error_response NOT_IMPLEMENTED "control-plane /api/v1/ip is not a phone public IP observer".

Definition list_devices (env : Environment) (a : AppState DB) : Response :=
  plain OK (DevicesBody
    (imap (fun i e => mark_stale (stamp env i) e.2) (map_to_list (devices (memory a))))).

Definition list_ready_devices (env : Environment) (a : AppState DB) : Response :=
  plain OK (DevicesBody
    (List.filter (fun d => bool_decide (DeviceRecord.availability d = "ready"))
       (imap (fun i e => mark_stale (stamp env i) e.2) (map_to_list (devices (memory a)))))).

Definition get_ui_device (env : Environment) (a : AppState DB) (id : string) : Response :=
  match devices (memory a) !! id with
  | Some d => plain OK (DeviceBody (mark_stale (stamp env 0) d))
  | None => error_response NOT_FOUND "device_not_found"
  end.

Definition register_device (env : Environment) (a : AppState DB) (req : RegisterDeviceRequest.t)
    : Response * AppState DB :=
  let '(out, a') := register_device_transaction a (stamp env 0) req in
  (match out with
   | Ok _ => plain OK (AcceptedBody true)
   | Err RegisterStateConflict => error_response INTERNAL_SERVER_ERROR "device_state_conflict"
   | Err RegisterCapacityExceeded => error_response SERVICE_UNAVAILABLE "device_capacity_exceeded"
   | Err RegisterPersistence => error_response SERVICE_UNAVAILABLE "state_persistence_failed"
   end, a').

Definition heartbeat (env : Environment) (a : AppState DB) (req : HeartbeatRequest.t)
    : Response * AppState DB :=
  let '(out, a') := heartbeat_transaction a (stamp env 0) req in
  (match out with
   | Ok _ => plain OK (AcceptedBody true)
   | Err HeartbeatStateConflict => error_response INTERNAL_SERVER_ERROR "device_state_conflict"
   | Err HeartbeatCapacityExceeded => error_response SERVICE_UNAVAILABLE "device_capacity_exceeded"
   | Err HeartbeatPersistence => error_response SERVICE_UNAVAILABLE "state_persistence_failed"
   end, a').

Definition public_probe (env : Environment) (a : AppState DB) (id : string)
    (req : PublicProbeReport.t) : Response * AppState DB :=
  let '(out, a') := public_probe_transaction a (stamp env 0) (stamp env 1) id req in
  (match out with
   | Ok _ => plain OK (AcceptedBody true)
   | Err ProbeStateConflict => error_response INTERNAL_SERVER_ERROR "device_state_conflict"
   | Err ProbePersistence => error_response SERVICE_UNAVAILABLE "state_persistence_failed"
   end, a').

Definition issue_command (env : Environment) (a : AppState DB) (id : string)
    (req : IssueCommandRequest.t) : Response * AppState DB :=
  let '(out, a') :=
    issue_command_transaction a (from_uuid (fresh_command env)) (stamp env 0) (mk_issue id req) in
  (match out with
   | Ok o => plain OK (CommandBody (issue_into_parts o).2)
   | Err IdempotencyConflict => error_response CONFLICT "idempotency_conflict"
   | Err IssueStateConflict => error_response INTERNAL_SERVER_ERROR "command_state_conflict"
   | Err IssueCapacityExceeded => error_response SERVICE_UNAVAILABLE "command_capacity_exceeded"
   | Err IssuePersistence => error_response SERVICE_UNAVAILABLE "state_persistence_failed"
   end, a').

(** The fixed window of a rotation, [DeadlineWindow::new(240)]. *)
Definition rotation_request (key : IdempotencyKey) : IssueCommandRequest.t :=
  IssueCommandRequest.mk DesiredState.HealthyServing RecoveryIntent.RotateRecovery
    (mk_window 240) key.

Definition rotation_key (headers : HeaderMap) : option IdempotencyKey :=
  value ← header headers "idempotency-key";
  text ← to_str value;
  result_ok (IdempotencyKey_parse text).

Definition rotate_device (env : Environment) (a : AppState DB) (id : string) (headers : HeaderMap)
    : Response * AppState DB :=
  match rotation_key headers with
  | None => (error_response BAD_REQUEST "missing_or_invalid_idempotency_key", a)
  | Some key =>
      match devices (memory a) !! id with
      | None => (error_response NOT_FOUND "device_not_found", a)
      | Some device =>
          match DeviceRecord.last_public_ip device with
          | None => (error_response CONFLICT "current_public_ip_unavailable", a)
          | Some old_ip =>
              let '(out, a') := issue_command_transaction a (from_uuid (fresh_command env))
                                  (stamp env 0) (mk_issue id (rotation_request key)) in
              (match out with
               | Ok o =>
                   let command := (issue_into_parts o).2 in
                   plain ACCEPTED (RotationBody (DeviceCommand.command_id command) id old_ip
                     ("/api/v1/rotation/devices/" ++ DeviceCommand.device_id command))
               | Err IdempotencyConflict => error_response CONFLICT "idempotency_conflict"
               | Err IssueCapacityExceeded =>
                   error_response CONFLICT "rotation_already_in_progress"
               | Err IssueStateConflict =>
                   error_response INTERNAL_SERVER_ERROR "command_state_conflict"
               | Err IssuePersistence =>
                   error_response SERVICE_UNAVAILABLE "state_persistence_failed"
               end, a')
          end
      end
  end.

Definition next_command (a : AppState DB) (id : string) : Response :=
  match poll_command_query a id with
  | Ok o => plain OK (NextBody (poll_into_option o))
  | Err PollStateConflict => error_response INTERNAL_SERVER_ERROR "command_state_conflict"
  end.

Definition ack_command (env : Environment) (a : AppState DB) (id : string) (command_id : CommandId)
    (req : CommandAckRequest) : Response * AppState DB :=
  let '(out, a') :=
    acknowledge_command_transaction a (stamp env 0) (mk_acknowledge id command_id req) in
  (match out with
   | Ok o => plain OK (AcceptedBody (ack_accepted o))
   | Err AckStateConflict => error_response INTERNAL_SERVER_ERROR "command_state_conflict"
   | Err AckPersistence => error_response SERVICE_UNAVAILABLE "state_persistence_failed"
   end, a').

(** ** Router *)

Inductive Group := AdminGroup | DeviceGroup | UiGroup | RotationGroup.

Definition group_token (auth : AuthConfig) (g : Group) : string :=
  match g with
  | AdminGroup => admin_token auth
  | DeviceGroup => device_token auth
  | UiGroup => ui_token auth
  | RotationGroup => rotation_token auth
  end.

Inductive Endpoint :=
| GetIp | ListDevices | ListReadyDevices
| PublicProbe (id : string) | IssueCommand (id : string)
| RegisterDevice | Heartbeat
| NextCommand (id : string) | AckCommand (id command_id : string)
| GetUiDevice (id : string) | RotateDevice (id : string).

(** A segment of a route: a literal or a parameter. *)
Inductive Segment := Lit (text : string) | Param.

(** The parameters of a path that a route matches.  A parameter matches any
    segment but the empty one. *)
Fixpoint match_route (pattern : list Segment) (path : list string) : option (list string) :=
  match pattern, path with
  | [], [] => Some []
  | Lit text :: pattern', segment :: path' =>
      if bool_decide (text = segment) then match_route pattern' path' else None
  | Param :: pattern', segment :: path' =>
      if bool_decide (segment = "") then None
      else params ← match_route pattern' path'; Some (segment :: params)
  | _, _ => None
  end.

Definition devices_route (rest : list Segment) : list Segment :=
  Lit "api" :: Lit "v1" :: Lit "devices" :: rest.
Definition ui_route (rest : list Segment) : list Segment :=
  Lit "api" :: Lit "v1" :: Lit "ui" :: Lit "devices" :: rest.

(** A route: its group, its pattern and, given the parameters, its GET and its
    POST handler. *)
Record Route := mk_route {
  route_group : Group;
  route_pattern : list Segment;
  on_get : list string -> option Endpoint;
  on_post : list string -> option Endpoint;
}.

Definition unserved (_ : list string) : option Endpoint := None.
Definition fixed (e : Endpoint) (_ : list string) : option Endpoint := Some e.
Definition with_id (e : string -> Endpoint) (params : list string) : option Endpoint :=
  match params with [id] => Some (e id) | _ => None end.
Definition with_ids (e : string -> string -> Endpoint) (params : list string) : option Endpoint :=
  match params with [id; command_id] => Some (e id command_id) | _ => None end.

Definition routes : list Route :=
  [mk_route AdminGroup [Lit "api"; Lit "v1"; Lit "ip"] (fixed GetIp) unserved;
   mk_route AdminGroup (devices_route []) (fixed ListDevices) unserved;
   mk_route AdminGroup (devices_route [Lit "ready"]) (fixed ListReadyDevices) unserved;
   mk_route AdminGroup (devices_route [Param; Lit "public-probe"]) unserved (with_id PublicProbe);
   mk_route AdminGroup (devices_route [Param; Lit "commands"]) unserved (with_id IssueCommand);
   mk_route DeviceGroup (devices_route [Lit "register"]) unserved (fixed RegisterDevice);
   mk_route DeviceGroup (devices_route [Lit "heartbeat"]) unserved (fixed Heartbeat);
   mk_route DeviceGroup (devices_route [Param; Lit "commands"; Lit "next"])
     (with_id NextCommand) unserved;
   mk_route DeviceGroup (devices_route [Param; Lit "commands"; Param; Lit "ack"])
     unserved (with_ids AckCommand);
   mk_route UiGroup (ui_route [Param]) (with_id GetUiDevice) unserved;
   mk_route UiGroup (ui_route [Param; Lit "commands"]) unserved (with_id IssueCommand);
   mk_route RotationGroup [Lit "api"; Lit "v1"; Lit "rotation"; Lit "devices"; Param]
     (with_id GetUiDevice) (with_id RotateDevice)].

(** No path matches two of the routes, so the first match is the match. *)
Fixpoint find_route (table : list Route) (path : list string) : option (Route * list string) :=
  match table with
  | [] => None
  | route :: rest =>
      match match_route (route_pattern route) path with
      | Some params => Some (route, params)
      | None => find_route rest path
      end
  end.

(** A GET handler also serves HEAD. *)
Definition select_method (m : Method) (route : Route) (params : list string) : option Endpoint :=
  match m with
  | GET | HEAD => on_get route params
  | POST => on_post route params
  | OtherMethod => None
  end.

Definition with_body {T} `{!JsonExtract T} (r : HttpRequest) (a : AppState DB)
    (run : T -> Response * AppState DB) : Response * AppState DB :=
  match json_extract (headers r) (body r) with
  | Ok value => run value
  | Err status => (rejected status, a)
  end.

Definition run_endpoint (env : Environment) (a : AppState DB) (r : HttpRequest) (e : Endpoint)
    : Response * AppState DB :=
  match e with
  | GetIp => (get_ip, a)
  | ListDevices => (list_devices env a, a)
  | ListReadyDevices => (list_ready_devices env a, a)
  | PublicProbe id => with_body r a (public_probe env a id)
  | IssueCommand id => with_body r a (issue_command env a id)
  | RegisterDevice => with_body r a (register_device env a)
  | Heartbeat => with_body r a (heartbeat env a)
  | NextCommand id => (next_command a id, a)
  | AckCommand id raw =>
      match uuid_identifier_from_str "command_id" raw with
      | Err _ => (rejected BAD_REQUEST, a)
      | Ok command_id => with_body r a (ack_command env a id command_id)
      end
  | GetUiDevice id => (get_ui_device env a id, a)
  | RotateDevice id => rotate_device env a id (headers r)
  end.

(** The response to HEAD has no body. *)
Definition finish (m : Method) (r : Response) : Response :=
  match m with
  | HEAD => mk_response (status r) NoBody (response_headers r)
  | _ => r
  end.

(** The layers around a route: authentication outermost, then the context. *)
Definition handle (env : Environment) (auth : AuthConfig) (a : AppState DB) (r : HttpRequest)
    : Response * AppState DB :=
  match find_route routes (path r) with
  | None => (rejected NOT_FOUND, a)
  | Some (route, params) =>
      match select_method (method r) route params with
      | None => (rejected METHOD_NOT_ALLOWED, a)
      | Some endpoint =>
          if negb (matches (bearer (headers r)) (group_token auth (route_group route)))
          then (rejected UNAUTHORIZED, a)
          else
            match context_from_headers (fresh_request env) (clock env) (headers r) with
            | Err e => (finish (method r) (context_error_response e), a)
            | Ok context =>
                let '(response, a') := run_endpoint env a r endpoint in
                (finish (method r) (with_context context response), a')
            end
      end
  end.
End Handlers.
