(* ===== verification/HttpTheorems.v ===== *)
(** * What the HTTP surface lets through

    Every request is at most one operation of the control plane, with the
    credential of its group; a credential opens its own group only; stale
    devices are never offered as ready; and a request deadline is in the
    future and bounded. *)

From stdpp Require Import base gmap strings list fin_maps.
From Stdlib Require Import ZArith Lia String.
From S2P Require Import Prelude Text Foundation Commands Devices CommandState CommandInvariant.
From S2P Require Import ControlPlane ControlPlaneInvariant ControlPlaneTheorems ControlPlaneHttp.
Local Open Scope string_scope.
Local Open Scope Z_scope.

(** ** Authentication *)

Lemma token_eq_true s t : ct_eq s t = true <-> s = t.
Proof.
  unfold ct_eq. rewrite bool_decide_eq_true. split; [apply bytes_inj|by intros ->].
Qed.

Lemma matches_true candidate expected :
  matches candidate expected = true <-> candidate = Some expected.
Proof.
  unfold matches. destruct candidate as [value|]; simpl; [|by split].
  rewrite token_eq_true. split; [by intros ->|by intros [= ->]].
Qed.

Definition token_ok (token : string) : Prop :=
  8 <= len token <= 4096 /\ any_char control_or_space token = false.

Lemma validate_token_Ok field value : validate_token field value = Ok tt <-> token_ok value.
Proof.
  unfold validate_token, token_ok. destruct (any_char control_or_space value).
  - rewrite !orb_true_r. split; [done|by intros [_ ?]].
  - rewrite orb_false_r. destruct (_ || _) eqn:Hc; split; try done; [lia|].
    intros _. apply orb_false_iff in Hc as [? ?]. lia.
Qed.

Lemma new_with_rotation_Ok admin device ui rotation distinct auth :
  new_with_rotation admin device ui rotation distinct = Ok auth <->
  auth = mk_auth admin device ui rotation
  /\ token_ok admin /\ token_ok device /\ token_ok ui /\ token_ok rotation
  /\ admin <> device /\ admin <> ui /\ device <> ui
  /\ (distinct = true -> admin <> rotation /\ device <> rotation /\ ui <> rotation).
Proof.
  unfold new_with_rotation.
  assert (forall s t, ct_eq s t = false <-> s <> t) as Hf.
  { intros s t. rewrite <- not_true_iff_false, token_eq_true. done. }
  rewrite <- (validate_token_Ok "control-plane admin token" admin).
  destruct (validate_token _ admin) as [[]|]; cbn [result_bind]; [|naive_solver].
  rewrite <- (validate_token_Ok "control-plane device token" device).
  destruct (validate_token _ device) as [[]|]; cbn [result_bind]; [|naive_solver].
  rewrite <- (validate_token_Ok "control-plane UI token" ui).
  destruct (validate_token _ ui) as [[]|]; cbn [result_bind]; [|naive_solver].
  rewrite <- (validate_token_Ok "control-plane rotation token" rotation).
  destruct (validate_token _ rotation) as [[]|]; cbn [result_bind]; [|naive_solver].
  rewrite <- !Hf. destruct (ct_eq admin device), (ct_eq admin ui), (ct_eq device ui); simpl;
    try naive_solver.
  destruct distinct; simpl; [|naive_solver].
  destruct (ct_eq admin rotation), (ct_eq device rotation), (ct_eq ui rotation); naive_solver.
Qed.

(** Two groups share a credential only when no rotation token is configured. *)
Definition shares_token (rotation : option string) (g g' : Group) : Prop :=
  g = g' \/ (rotation = None /\ (g = UiGroup \/ g = RotationGroup)
             /\ (g' = UiGroup \/ g' = RotationGroup)).

Lemma tokens_separate admin device ui rotation auth g g' :
  auth_from_cli admin device ui rotation = Ok auth ->
  group_token auth g = group_token auth g' -> shares_token rotation g g'.
Proof.
  unfold auth_from_cli, AuthConfig_new, shares_token. destruct rotation as [rotation|];
    rewrite new_with_rotation_Ok; intros (-> & _ & _ & _ & _ & H1 & H2 & H3 & H4);
    destruct g, g'; simpl; intros Heq; auto; try (by destruct (H4 eq_refl) as (? & ? & ?));
    try congruence; right; auto.
Qed.

(** ** Requests are operations *)

Section Requests.
Context `{Blake3, UuidText} {DB : Type} `{!SnapshotStore DB}.
Context `{!JsonExtract RegisterDeviceRequest.t, !JsonExtract HeartbeatRequest.t}.
Context `{!JsonExtract PublicProbeReport.t, !JsonExtract IssueCommandRequest.t}.
Context `{!JsonExtract CommandAckRequest}.

(** The operation of an endpoint, when its input is there. *)
Definition endpoint_op (env : Environment) (a : AppState DB) (r : HttpRequest) (e : Endpoint)
    : option op :=
  match e with
  | GetIp | ListDevices | ListReadyDevices | NextCommand _ | GetUiDevice _ => None
  | PublicProbe id =>
      OpProbe (stamp env 0) (stamp env 1) id <$> result_ok (json_extract (headers r) (body r))
  | IssueCommand id =>
      (fun req => OpIssue (from_uuid (fresh_command env)) (stamp env 0) (mk_issue id req))
        <$> result_ok (json_extract (headers r) (body r))
  | RegisterDevice => OpRegister (stamp env 0) <$> result_ok (json_extract (headers r) (body r))
  | Heartbeat => OpHeartbeat (stamp env 0) <$> result_ok (json_extract (headers r) (body r))
  | AckCommand id raw =>
      command_id ← result_ok (uuid_identifier_from_str "command_id" raw);
      (fun req => OpAcknowledge (stamp env 0) (mk_acknowledge id command_id req))
        <$> result_ok (json_extract (headers r) (body r))
  | RotateDevice id =>
      key ← rotation_key (headers r);
      d ← devices (memory a) !! id;
      _ ← DeviceRecord.last_public_ip d;
      Some (OpIssue (from_uuid (fresh_command env)) (stamp env 0) (mk_issue id (rotation_request key)))
  end.

Lemma run_endpoint_op env a r e :
  (run_endpoint env a r e).2
  = match endpoint_op env a r e with Some o => run_op a o | None => a end.
Proof.
  destruct e; simpl; try done; unfold with_body; try (destruct (json_extract _ _); [|done]; simpl).
  - unfold public_probe. by destruct (public_probe_transaction _ _ _ _ _).
  - unfold issue_command. by destruct (issue_command_transaction _ _ _ _).
  - unfold register_device. by destruct (register_device_transaction _ _ _).
  - unfold heartbeat. by destruct (heartbeat_transaction _ _ _).
  - destruct (uuid_identifier_from_str _ _); [|done]. simpl.
    destruct (json_extract _ _); [|done]. simpl.
    unfold ack_command. by destruct (acknowledge_command_transaction _ _ _).
  - unfold rotate_device. destruct (rotation_key _) as [key|]; [|done]. simpl.
    destruct (devices (memory a) !! id) as [d|]; [|done]. simpl.
    destruct (DeviceRecord.last_public_ip d) as [ip|]; [|done]. simpl.
    by destruct (issue_command_transaction _ _ _ _).
Qed.

(** What a group may do to the state. *)
Definition group_may (g : Group) (o : op) : Prop :=
  match g, o with
  | AdminGroup, (OpProbe _ _ _ _ | OpIssue _ _ _) => True
  | DeviceGroup, (OpRegister _ _ | OpHeartbeat _ _ | OpAcknowledge _ _) => True
  | UiGroup, OpIssue _ _ _ => True
  | RotationGroup, OpIssue _ _ input =>
      IssueCommandRequest.recovery_intent (issue_request input) = RecoveryIntent.RotateRecovery
  | _, _ => False
  end.

(** The requests name a device wherever the path does. *)
Definition path_named (o : op) : Prop :=
  match o with
  | OpRegister _ _ | OpHeartbeat _ _ => True
  | OpProbe _ _ device _ => device <> ""
  | OpIssue _ _ input => issue_device_id input <> ""
  | OpAcknowledge _ input => ack_device_id input <> ""
  end.

Lemma match_route_params pattern path params :
  match_route pattern path = Some params -> Forall (fun s => s <> "") params.
Proof.
  revert path params. induction pattern as [|[text|] pattern IH]; intros [|segment path] params;
    simpl; try done.
  - by intros [= <-].
  - case_bool_decide; [|done]. apply IH.
  - case_bool_decide as Hne; [done|]. destruct (match_route pattern path) as [ps|] eqn:Hm; [|done].
    intros [= <-]. constructor; [done|]. by eapply IH.
Qed.

Lemma find_route_In table path route params :
  find_route table path = Some (route, params) ->
  route ∈ table /\ match_route (route_pattern route) path = Some params.
Proof.
  induction table as [|rt table IH]; simpl; [done|].
  destruct (match_route (route_pattern rt) path) as [ps|] eqn:Hm.
  - intros [= <- <-]. split; [left|done].
  - intros Hf. apply IH in Hf as [? ?]. split; [by right|done].
Qed.

Lemma endpoint_group env a r m route params e o :
  route ∈ routes -> Forall (fun s => s <> "") params ->
  select_method m route params = Some e -> endpoint_op env a r e = Some o ->
  group_may (route_group route) o /\ path_named o.
Proof.
  intros Hr Hp. unfold routes in Hr. rewrite !elem_of_cons, elem_of_nil in Hr.
  assert (forall (f : string -> Endpoint), with_id f params = Some e ->
    exists id, e = f id /\ id <> "") as Hid.
  { intros f. destruct params as [|id [|]]; simpl; try done. intros [= <-].
    apply Forall_cons in Hp as [? _]. eauto. }
  assert (forall (f : string -> string -> Endpoint), with_ids f params = Some e ->
    exists id cid, e = f id cid /\ id <> "") as Hids.
  { intros f. destruct params as [|id [|cid [|]]]; simpl; try done. intros [= <-].
    apply Forall_cons in Hp as [? _]. eauto. }
  destruct_or! Hr; subst route; destruct m; cbn [select_method on_get on_post unserved fixed]; try done;
    intros He; try (injection He as <-); try (apply Hid in He as (id & -> & Hne));
    try (apply Hids in He as (id & cid & -> & Hne)); cbn [endpoint_op]; try done;
    intros Ho; repeat (apply bind_Some in Ho as (? & ? & Ho));
    try (apply fmap_Some in Ho as (? & ? & ->)); try (injection Ho as <-); done.
Qed.

(** The operation a request asks for, when it is let through. *)
Definition request_op (env : Environment) (auth : AuthConfig) (a : AppState DB) (r : HttpRequest)
    : option (Group * op) :=
  '(route, params) ← find_route routes (path r);
  endpoint ← select_method (method r) route params;
  if matches (bearer (headers r)) (group_token auth (route_group route)) then
    _ ← result_ok (context_from_headers (fresh_request env) (clock env) (headers r));
    o ← endpoint_op env a r endpoint;
    Some (route_group route, o)
  else None.

Lemma handle_op env auth a r :
  (handle env auth a r).2
  = match request_op env auth a r with Some (_, o) => run_op a o | None => a end.
Proof.
  unfold handle, request_op. destruct (find_route _ _) as [[route params]|]; [|done].
  cbn [mbind option_bind]. destruct (select_method _ _ _) as [e|]; [|done].
  cbn [mbind option_bind]. destruct (matches _ _); [|done]. cbn [negb].
  destruct (context_from_headers _ _ _) as [context|]; [|done]. cbn [result_ok mbind option_bind].
  pose proof (run_endpoint_op env a r e) as Hop.
  destruct (run_endpoint env a r e) as [response a']. cbn [snd] in *. rewrite Hop.
  by destruct (endpoint_op env a r e).
Qed.

Lemma request_op_authorized env auth a r g o :
  request_op env auth a r = Some (g, o) ->
  bearer (headers r) = Some (group_token auth g) /\ group_may g o /\ path_named o.
Proof.
  unfold request_op. destruct (find_route _ _) as [[route params]|] eqn:Hf; [|done].
  apply find_route_In in Hf as [Hr Hm]. apply match_route_params in Hm.
  cbn [mbind option_bind]. destruct (select_method _ _ _) as [e|] eqn:Hs; [|done].
  cbn [mbind option_bind]. destruct (matches _ _) eqn:Ha; [|done]. apply matches_true in Ha.
  destruct (context_from_headers _ _ _); [|done]. cbn [result_ok mbind option_bind].
  destruct (endpoint_op env a r e) as [o'|] eqn:Ho; [|done]. intros [= <- <-]. split; [done|].
  exact (endpoint_group _ _ _ _ _ _ _ _ Hr Hm Hs Ho).
Qed.

(** What a request does to the state. *)
Definition effect (auth : AuthConfig) (a a' : AppState DB) (r : HttpRequest) (g : Group) (o : op)
    : Prop :=
  bearer (headers r) = Some (group_token auth g) /\ group_may g o /\ path_named o
  /\ a' = run_op a o.

Lemma handle_effect env auth a r :
  (handle env auth a r).2 = a \/ exists g o, effect auth a (handle env auth a r).2 r g o.
Proof.
  rewrite handle_op. destruct (request_op env auth a r) as [[g o]|] eqn:Ho; [|by left].
  right. exists g, o. apply request_op_authorized in Ho as (? & ? & ?). by split_and!.
Qed.

(** A request changes the state by at most one operation of the control
    plane, one that its group of routes offers, for a device with a name where
    the path names it, and only when it presented exactly the bearer token of
    that group. *)
Theorem http_changes_are_authorized env auth (a : AppState DB) r :
  (handle env auth a r).2 = a \/ exists g o, effect auth a (handle env auth a r).2 r g o.
Proof. apply handle_effect. Qed.

(** C15: With tokens the service accepts at start, a credential is confined to its
    group: a device token can register, report and acknowledge but never issue
    a command, a UI token can only issue commands, and a rotation token can only
    rotate; the UI and rotation routes share a token only when none is
    configured for rotation. *)
Theorem credential_is_confined admin device ui rotation auth env (a : AppState DB) r g :
  auth_from_cli admin device ui rotation = Ok auth ->
  bearer (headers r) = Some (group_token auth g) ->
  (handle env auth a r).2 = a
  \/ exists g' o, shares_token rotation g g' /\ group_may g' o
       /\ (handle env auth a r).2 = run_op a o.
Proof.
  intros Hauth Hb. destruct (handle_effect env auth a r) as [|(g' & o & Hb' & Hmay & _ & Hrun)];
    [by left|]. right. exists g', o. split_and!; [|done|done].
  rewrite Hb in Hb'. injection Hb' as Hb'. by eapply tokens_separate.
Qed.

(** ** Sequences of requests *)

(** Requests one after the other, whatever each draws from its surroundings, as
    long as an identity drawn for a new command is fresh. *)
Inductive serve (auth : AuthConfig) : AppState DB -> AppState DB -> Prop :=
| ServeNil a : serve auth a a
| ServeCons a env r a' :
    (forall g o, request_op env auth a r = Some (g, o) -> op_allowed a o) ->
    serve auth (handle env auth a r).2 a' -> serve auth a a'.

(** Serving is a run of the control plane: whatever requests arrive, in
    whatever order, the states the service goes through are reached by a
    sequence of its transactions. *)
Theorem serving_refines_transactions auth (a a' : AppState DB) :
  serve auth a a' -> run a a'.
Proof.
  induction 1 as [a|a env r a' Hop Hserve IH]; [apply RunNil|]. rewrite handle_op in IH.
  destruct (request_op env auth a r) as [[g o]|]; [|done].
  apply (RunCons _ o); [by eapply Hop|done].
Qed.

(** ** Stale devices *)

(** The devices a list of ready devices may show at a time: stored records that
    are ready and whose last heartbeat, where it can be read, is recent. *)
Definition offered (now : string) (d : DeviceRecord.t) : Prop :=
  DeviceRecord.availability d = "ready"
  /\ forall last t, DeviceRecord.last_heartbeat_at d = Some last ->
       parse_u64 now = Some t ->
       match parse_u64 last with Some l => t - l <= HEARTBEAT_TTL_SECS | None => True end.

Lemma mark_stale_offered now d : offered now d -> mark_stale now d = d.
Proof.
  unfold mark_stale, offered, HEARTBEAT_TTL_SECS. intros [_ Ho].
  destruct (DeviceRecord.last_heartbeat_at d) as [last|]; cbn [mbind option_bind]; [|done].
  destruct (parse_u64 last) as [l|] eqn:Hl; [|done]. destruct (parse_u64 now) as [t|]; [|done].
  specialize (Ho _ _ eq_refl eq_refl). rewrite Hl in Ho.
  destruct (Z.leb_spec (Z.max 0 (t - l)) 30); [done|lia].
Qed.

Lemma mark_stale_ready now d :
  DeviceRecord.availability (mark_stale now d) = "ready" ->
  mark_stale now d = d /\ offered now d.
Proof.
  intros Hready. assert (mark_stale now d = d) as Hm.
  { revert Hready. unfold mark_stale. destruct (_ ≫= parse_u64); [|done].
    destruct (parse_u64 now); [|done]. by destruct (_ <=? _). }
  split; [done|]. revert Hready Hm. unfold mark_stale, offered.
  destruct (DeviceRecord.last_heartbeat_at d) as [last|]; cbn [mbind option_bind]; [|naive_solver].
  destruct (parse_u64 last) as [l|] eqn:Hl;
    [|intros Ha _; split; [done|]; intros ? ? [= <-] _; by rewrite Hl].
  destruct (parse_u64 now) as [t|]; [|naive_solver]. unfold HEARTBEAT_TTL_SECS.
  destruct (Z.leb_spec (Z.max 0 (t - l)) 30); [|done]. intros Ha _. split; [done|].
  intros ? ? [= <-] [= <-]. rewrite Hl. lia.
Qed.

(** The list of ready devices holds exactly the stored devices that are ready
    and, where their last heartbeat and the clock can be read, were heard of in
    the last thirty seconds; and it holds their records unchanged. *)
Theorem ready_list_exact now env (a : AppState DB) :
  (forall i, stamp env i = now) ->
  exists ds, list_ready_devices env a = plain OK (DevicesBody ds)
    /\ forall d, d ∈ ds <->
         (exists id, devices (memory a) !! id = Some d) /\ offered now d.
Proof.
  intros Hnow. eexists. split; [reflexivity|]. intros d.
  rewrite list_elem_of_In, filter_In, bool_decide_eq_true, <- list_elem_of_In, elem_of_lookup_imap.
  split.
  - intros [(i & [id d0] & -> & Hi) Hready]. cbn [snd] in *. rewrite Hnow in *.
    apply mark_stale_ready in Hready as [-> Ho]. split; [|done]. exists id.
    apply elem_of_map_to_list. by eapply list_elem_of_lookup_2.
  - intros [[id Hd] Ho]. pose proof Hd as Hin. apply elem_of_map_to_list in Hin.
    apply list_elem_of_lookup_1 in Hin as [i Hi].
    assert (mark_stale now d = d /\ DeviceRecord.availability d = "ready") as [Hm Hr].
    { split; [|apply Ho]. apply mark_stale_offered, Ho. }
    split; [|done]. exists i, (id, d). split; [|done].
    cbn [snd]. by rewrite ?Hnow, Hm.
Qed.
End Requests.

(** ** Deadlines *)

(** A request deadline is accepted exactly when it is a number of seconds after
    the present one and at most a day away; one that has passed is reported as
    expired, and any other text, or a longer wait, as an invalid context. *)
Theorem deadline_header_spec now headers raw :
  0 <= now <= u64_max -> header headers DEADLINE_HEADER = Some raw ->
  match parse_deadline now headers with
  | Ok None => False
  | Ok (Some d) => parse_u64 raw = Some (unix_secs d) /\ now < unix_secs d <= now + 86400
  | Err ContextExpired => exists t, parse_u64 raw = Some t /\ t <= now
  | Err ContextInvalid =>
      to_str raw = None \/ parse_u64 raw = None
      \/ exists t, parse_u64 raw = Some t /\ now + 86400 < t
  end.
Proof.
  intros Hnow Hh. unfold parse_deadline. rewrite Hh.
  destruct (to_str raw) as [text|] eqn:Ht; cbn [ok_or result_bind]; [|by left].
  assert (text = raw) as -> by (revert Ht; unfold to_str; case_match; congruence).
  destruct (parse_u64 raw) as [t|] eqn:Hp; cbn [ok_or result_bind]; [|by right; left].
  apply parse_u64_range in Hp as Hr.
  unfold is_expired, remaining_secs, saturating_sub_u64, MAX_DEADLINE_WINDOW_SECS.
  cbn [unix_secs]. destruct (t <=? now) eqn:He; [exists t; split; [done|lia]|].
  destruct (86400 <? _) eqn:Hw; [right; right; exists t; split; [done|lia]|].
  cbn [unix_secs]. split; [done|lia].
Qed.

(** ** Requests of a running service *)

Module DemoRequests.
Import Concrete MemoryStore.

(** Bodies that carry one known value each. *)
#[global] Instance register_extract : JsonExtract RegisterDeviceRequest.t := fun _ _ => Err 422.
#[global] Instance heartbeat_extract : JsonExtract HeartbeatRequest.t := fun _ _ => Err 422.
#[global] Instance probe_extract : JsonExtract PublicProbeReport.t := fun _ _ => Err 422.
#[global] Instance ack_extract : JsonExtract CommandAckRequest := fun _ _ => Err 422.
#[global] Instance issue_extract : JsonExtract IssueCommandRequest.t := fun _ body =>
  if bool_decide (body = "{}") then Ok (request DesiredState.HealthyServing "command-123")
  else Err 422.

Definition auth : AuthConfig := mk_auth "admin-token" "device-token" "ui-token" "rotation-token".
Definition env : Environment := mk_env 7%N 1%N 100 (fun _ => "1").

Definition issue_from (token : string) : HttpRequest :=
  mk_request POST ["api"; "v1"; "ui"; "devices"; "phone"; "commands"]
    [("authorization", String.append "Bearer " token); (DEADLINE_HEADER, "160")] "{}".

Lemma tokens_accepted :
  auth_from_cli "admin-token" "device-token" "ui-token" (Some "rotation-token") = Ok auth.
Proof. reflexivity. Qed.

Lemma request_op_ui :
  request_op env auth start (issue_from "ui-token")
  = Some (UiGroup, OpIssue (id_of 1) "1" first_input).
Proof. reflexivity. Qed.

(** The UI token issues the command, and a device token on the same path does
    nothing. *)
Lemma credential_is_confined_witness :
  (handle env auth start (issue_from "device-token")).2 = start
  /\ exists g o, shares_token (Some "rotation-token") UiGroup g /\ group_may g o
       /\ (handle env auth start (issue_from "ui-token")).2 = run_op start o.
Proof.
  split.
  - destruct (credential_is_confined _ _ _ _ _ env start (issue_from "device-token") DeviceGroup
                tokens_accepted) as [Heq|_]; [reflexivity|exact Heq|].
    rewrite handle_op. reflexivity.
  - destruct (credential_is_confined _ _ _ _ _ env start (issue_from "ui-token") UiGroup
                tokens_accepted) as [Heq|Hex]; [reflexivity| |exact Hex].
    exists UiGroup, (OpIssue (id_of 1) "1" first_input). split; [by left|]. split; [done|].
    rewrite handle_op, request_op_ui. reflexivity.
Defined.

Lemma serving_refines_transactions_witness : run start first.
Proof.
  apply (serving_refines_transactions auth).
  apply (ServeCons _ _ env (issue_from "ui-token")).
  - intros g o. rewrite request_op_ui. intros [= _ <-]. apply start_fresh.
  - rewrite handle_op, request_op_ui. apply ServeNil.
Defined.

Lemma ready_list_exact_witness :
  exists ds, list_ready_devices env start = plain OK (DevicesBody ds)
    /\ forall d, d ∈ ds <-> (exists id, devices (memory start) !! id = Some d) /\ offered "1" d.
Proof. apply (ready_list_exact "1" env start). reflexivity. Defined.

Lemma deadline_header_spec_witness :
  parse_u64 "160" = Some 160 /\ 100 < 160 <= 100 + 86400.
Proof.
  exact (deadline_header_spec 100 (headers (issue_from "ui-token")) "160"
           ltac:(vm_compute; split; discriminate) eq_refl).
Defined.
End DemoRequests.
