(* ===== verification/SqliteBackend.v ===== *)
(** * The SQLite backend of the control plane

    The conversions between the control plane's state and a snapshot, and the
    two operations on the database, [services/control-plane/src/
    state_sqlite_backend.rs].  The file at [state_path] is its tables; opening
    it and the existence of the path are not modelled. *)

From stdpp Require Import base gmap strings list fin_maps sorting.
From Stdlib Require Import ZArith Lia String.
From S2P Require Import Prelude Ordered Text Foundation Commands Devices.
From S2P Require Import Snapshot SnapshotTheorems SqliteStore CommandState ControlPlane.
Local Open Scope string_scope.
Local Open Scope Z_scope.

(** The causes of a failure, one per [bail!] or context of the source. *)
Inductive BackendError :=
| NonCanonicalResultScope | AmbiguousLegacyScope | LegacyClaimsDiffer
| DuplicateOrderScope | OrderResultMissing | NonCanonicalReplayScope | ResultMissingFromOrder
| NotRepresentable (v : SnapshotViolation)
| DuplicateCommandRelation
| LoadFailed (e : StoreFailure)
| CommitFailed (e : SnapshotCompareAndSwapError).

Section Backend.
Context `{Blake3, UuidText, !JsonText DeviceRecord.t, !JsonText DeviceCommand.t, !JsonValid}.
Local Open Scope rust_scope.

(** ** Legacy claims *)

(** The loop body of [validate_legacy_claims]. *)
Definition expect_claim (expected : gmap string CommandId) (entry : string * DeviceCommand.t)
    : result (gmap string CommandId) BackendError :=
  let '(scope, command) := entry in
  if negb (bool_decide (canonical_scope command = scope)) then Err NonCanonicalResultScope
  else
    let legacy := legacy_scope_for_command command in
    let id := DeviceCommand.command_id command in
    if is_some_and (expected !! legacy) (fun existing => negb (bool_decide (existing = id)))
    then Err AmbiguousLegacyScope
    else Ok (<[legacy := id]> expected).

Definition validate_legacy_claims (cs : CommandState) : result unit BackendError :=
  let? expected := fold_rows expect_claim ∅ (map_to_list (idempotency_results cs)) in
  if negb (bool_decide (idempotency cs = expected)) then Err LegacyClaimsDiffer else Ok tt.

(** ** From the state to a snapshot *)

(** The loop body of [snapshot_from_stored]: the scopes seen and the records. *)
Definition collect_replay (cs : CommandState) (acc : gset string * list ReplayRecord.t)
    (scope : string) : result (gset string * list ReplayRecord.t) BackendError :=
  let '(seen_scopes, replay_records) := acc in
  if bool_decide (scope ∈ seen_scopes) then Err DuplicateOrderScope
  else match idempotency_results cs !! scope with
  | None => Err OrderResultMissing
  | Some command =>
      if negb (bool_decide (canonical_scope command = scope)) then Err NonCanonicalReplayScope
      else Ok ({[scope]} ∪ seen_scopes, (replay_records ++ [replay_from_command command])%list)
  end.

Definition snapshot_from_stored (state : StoredState)
    : result ControlPlaneSnapshot.t BackendError :=
  let cs := commands state in
  let? _ := validate_legacy_claims cs in
  let? collected := fold_rows (collect_replay cs) (∅, []) (idempotency_order cs) in
  let '(seen_scopes, replay_records) := collected in
  if negb (size seen_scopes =? size (idempotency_results cs))%nat then Err ResultMissingFromOrder
  else map_err NotRepresentable (from_parts (devices state) (queues cs) replay_records).

(** ** From a snapshot to the state *)

(** The loop body of [stored_from_snapshot]. *)
Definition add_replay (cs : CommandState) (replay : ReplayRecord.t)
    : result CommandState BackendError :=
  let scope := ContentDigest_to_string (ReplayRecord.scope_key replay) in
  let command := ReplayRecord.command replay in
  let legacy := legacy_scope_for_command command in
  if is_some (idempotency_results cs !! scope) || is_some (idempotency cs !! legacy)
  then Err DuplicateCommandRelation
  else Ok (mk_commands (queues cs)
             (<[legacy := DeviceCommand.command_id command]> (idempotency cs))
             (<[scope := command]> (idempotency_results cs))
             (idempotency_order cs ++ [scope])%list).

Definition stored_from_snapshot (snapshot : ControlPlaneSnapshot.t)
    : result StoredState BackendError :=
  let? cs := fold_rows add_replay
    (mk_commands (ControlPlaneSnapshot.queues snapshot) ∅ ∅ [])
    (ControlPlaneSnapshot.replay_records snapshot) in
  let? _ := validate_legacy_claims cs in
  Ok (mk_stored (ControlPlaneSnapshot.devices snapshot) cs).

(** ** The database *)

Definition load_existing (db : Tables.t) : result StoredState BackendError :=
  let? snapshot := map_err LoadFailed (load_snapshot db) in
  stored_from_snapshot snapshot.

Definition sqlite_compare_and_swap (db : Tables.t) (expected candidate : StoredState)
    : result (Tables.t * SnapshotRowChanges) BackendError :=
  let? expected := snapshot_from_stored expected in
  let? candidate := snapshot_from_stored candidate in
  map_err CommitFailed (compare_and_swap_snapshot db expected candidate).

(** The tables as the store of the transactions: they hold the rows of the
    state. *)
#[export] Instance sqlite_store : SnapshotStore Tables.t := {
  represents db s := exists snapshot, snapshot_from_stored s = Ok snapshot /\ db = materialize snapshot;
  compare_and_swap db expected candidate :=
    fst <$> result_ok (sqlite_compare_and_swap db expected candidate);
}.
End Backend.
