(* ===== verification/SqliteBackendTheorems.v ===== *)
(** * The control plane on SQLite

    A well-formed state of the control plane always has a snapshot; the
    transactions on a database that holds the state never fail to commit; and a
    restart finds everything but the order in which results were retained.  The
    start of the process and its readiness are those of
    [services/control-plane/src/{main,health}.rs]. *)

From stdpp Require Import base gmap strings list fin_maps sorting.
From Stdlib Require Import ZArith Lia Ascii String.
From S2P Require Import Prelude Ordered Text Foundation Commands Devices.
From S2P Require Import Snapshot SnapshotTheorems SqliteStore SqliteTheorems SqliteRoundtrip.
From S2P Require Import CommandState CommandInvariant ControlPlane ControlPlaneInvariant.
From S2P Require Import ControlPlaneTheorems SqliteFile ControlPlaneHttp SqliteBackend.
Local Open Scope string_scope.
Local Open Scope Z_scope.

Section Backend.
Context `{Blake3Laws, UuidTextLaws, !JsonText DeviceRecord.t, !JsonText DeviceCommand.t, !JsonValid}.
Context `{!JsonTextLaws DeviceRecord.t, !JsonTextLaws DeviceCommand.t}.

(** ** Legacy claims *)

Lemma expect_claims_ok cs l acc :
  core cs -> Forall (fun e => idempotency_results cs !! e.1 = Some e.2) l ->
  acc ⊆ idempotency cs ->
  exists out, fold_rows expect_claim acc l = Ok out /\ acc ⊆ out /\ out ⊆ idempotency cs
    /\ Forall (fun e => out !! legacy_scope_for_command e.2
                        = Some (DeviceCommand.command_id e.2)) l.
Proof.
  intros Hc. revert acc. induction l as [|[k c] l IH]; intros acc Hl Hacc; simpl.
  { exists acc. by split_and!. }
  apply Forall_cons in Hl as [Hk Hl]. simpl in Hk.
  rewrite <- (core_canonical cs Hc k c Hk), bool_decide_true by done. cbn [negb].
  pose proof (core_legacy cs Hc k c Hk) as Hleg.
  assert (is_some_and (acc !! legacy_scope_for_command c)
    (fun existing => negb (bool_decide (existing = DeviceCommand.command_id c))) = false) as ->.
  { destruct (acc !! _) as [id|] eqn:Hid; [|done]. pose proof (lookup_weaken _ _ _ _ Hid Hacc).
    simpl. rewrite bool_decide_true; [done|congruence]. }
  destruct (IH (<[legacy_scope_for_command c := DeviceCommand.command_id c]> acc) Hl)
    as (out & -> & Hsub & Hout & Hall); [by apply insert_subseteq_l|].
  exists out. split; [done|].
  assert (out !! legacy_scope_for_command c = Some (DeviceCommand.command_id c)) as Hcout
    by (eapply lookup_weaken; [apply lookup_insert_eq|done]).
  split_and!; [|done|by constructor].
  apply map_subseteq_spec. intros k' id Hid. destruct (decide (legacy_scope_for_command c = k')) as [<-|Hne].
  - pose proof (lookup_weaken _ _ _ _ Hid Hacc). congruence.
  - eapply lookup_weaken; [|done]. by rewrite lookup_insert_ne.
Qed.

(** The claims the results imply are the claims there are. *)
Lemma expect_claims_all cs :
  core cs -> fold_rows expect_claim ∅ (map_to_list (idempotency_results cs)) = Ok (idempotency cs).
Proof.
  intros Hc.
  destruct (expect_claims_ok cs (map_to_list (idempotency_results cs)) ∅ Hc)
    as (out & -> & _ & Hout & Hall).
  { apply Forall_forall. intros [k c]. by rewrite elem_of_map_to_list. }
  { apply map_empty_subseteq. }
  f_equal. apply (anti_symm (⊆)); [done|]. apply map_subseteq_spec. intros k id Hk.
  destruct (core_index cs Hc k id Hk) as (k' & c & Hc' & -> & ->).
  rewrite Forall_forall in Hall. apply (Hall (k', c)). by apply elem_of_map_to_list.
Qed.

Lemma validate_legacy_claims_ok cs : core cs -> validate_legacy_claims cs = Ok tt.
Proof.
  intros Hc. unfold validate_legacy_claims. rewrite (expect_claims_all cs Hc). cbn [result_bind].
  by rewrite bool_decide_true.
Qed.

(** ** The snapshot of a state *)

(** The retained commands in the order of their scopes. *)
Definition retained (cs : CommandState) : list DeviceCommand.t :=
  (string_entries (idempotency_results cs)).*2.

Definition snapshot_of (s : StoredState) : ControlPlaneSnapshot.t :=
  ControlPlaneSnapshot.mk (devices s) (queues (commands s))
    (replay_from_command <$> retained (commands s)).

(** Devices and commands carry an identity. *)
Record named (s : StoredState) : Prop := {
  named_devices : map_Forall (fun n _ => n <> "") (devices s);
  named_commands : map_Forall (fun _ c => DeviceCommand.device_id c <> "")
                     (idempotency_results (commands s));
}.

Lemma elem_of_retained cs c :
  c ∈ retained cs <-> exists k, idempotency_results cs !! k = Some c.
Proof.
  unfold retained. rewrite list_elem_of_fmap. split.
  - intros ([k c'] & -> & Hin). apply (elem_of_entries String.le) in Hin. eauto.
  - intros (k & Hk). exists (k, c). by rewrite (elem_of_entries String.le).
Qed.

Lemma retained_scopes cs :
  core cs -> command_scope_text <$> retained cs = (string_entries (idempotency_results cs)).*1.
Proof.
  intros Hc. unfold retained. rewrite <- list_fmap_compose. apply list_fmap_ext.
  intros i [k c] Hi. apply list_elem_of_lookup_2, (elem_of_entries String.le) in Hi. simpl.
  symmetry. by apply (core_canonical cs Hc).
Qed.

Lemma retained_ids cs : core cs -> NoDup (DeviceCommand.command_id <$> retained cs).
Proof.
  intros Hc. unfold retained. rewrite <- list_fmap_compose. apply NoDup_alt.
  intros i j id. rewrite !list_lookup_fmap.
  destruct (string_entries _ !! i) as [[k c]|] eqn:Hi; [|done].
  destruct (string_entries _ !! j) as [[k' c']|] eqn:Hj; [|done]. simpl. intros [= <-] [= Heq].
  eapply NoDup_lookup; [apply (entries_keys_NoDup String.le (idempotency_results cs))|..];
    rewrite list_lookup_fmap; [by rewrite Hi|rewrite Hj]. simpl. f_equal.
  apply list_elem_of_lookup_2, (elem_of_entries String.le) in Hi, Hj.
  by apply (core_ids cs Hc k' k c' c).
Qed.

Lemma retained_sorted cs :
  core cs -> StronglySorted String.le (command_scope_text <$> retained cs).
Proof.
  intros Hc. rewrite (retained_scopes cs Hc).
  assert (StronglySorted (key_le String.le) (string_entries (idempotency_results cs))) as Hs
    by (apply StronglySorted_merge_sort; apply _).
  induction Hs as [|x l _ IH Hx]; csimpl; constructor; [done|]. by apply Forall_fmap.
Qed.

Lemma length_retained cs : core cs -> List.length (retained cs) = List.length (idempotency_order cs).
Proof.
  intros Hc. unfold retained. rewrite length_fmap, length_entries. by apply size_results.
Qed.

Lemma replay_commands_snapshot_of s : replay_commands (snapshot_of s) = retained (commands s).
Proof.
  unfold replay_commands, snapshot_of. simpl. rewrite <- list_fmap_compose.
  rewrite (list_fmap_ext _ id) by done. apply list_fmap_id.
Qed.

(** *** Pending commands are pending once *)

Lemma pending_list_queued s : pending_list (queues s) ≡ₚ queued s.
Proof. unfold pending_list, queued. by rewrite entries_Permutation. Qed.

Lemma queued_NoDup (m : gmap string (list DeviceCommand.t)) :
  map_Forall (fun d q => NoDup q /\ Forall (fun c => DeviceCommand.device_id c = d) q) m ->
  NoDup (List.concat (snd <$> map_to_list m)).
Proof.
  induction m as [|d q m Hd IH] using map_ind; intros Hm; [by rewrite map_to_list_empty; constructor|].
  apply map_Forall_insert in Hm as [[Hq Hdev] Hm]; [|done].
  rewrite (map_to_list_insert m d q Hd). csimpl. apply NoDup_app. split_and!; [done| |auto].
  intros c Hc Hin. rewrite list_elem_of_In, in_concat in Hin. destruct Hin as (q' & Hq' & Hc').
  apply list_elem_of_In in Hq', Hc'. apply list_elem_of_fmap in Hq' as ([d' q''] & -> & Hd').
  apply elem_of_map_to_list in Hd'. destruct (Hm d' q'' Hd') as [_ Hdev'].
  rewrite Forall_forall in Hdev, Hdev'. rewrite <- (Hdev' c Hc'), (Hdev c Hc) in Hd'. congruence.
Qed.

Lemma pending_ids_NoDup cs : core cs -> NoDup (DeviceCommand.command_id <$> pending_list (queues cs)).
Proof.
  intros Hc. rewrite pending_list_queued.
  assert (NoDup (queued cs)) as Hnd.
  { apply queued_NoDup. intros d q Hq. split; [by apply (core_queue_NoDup cs Hc d)|].
    by destruct (core_queue cs Hc d q Hq) as (_ & _ & ?). }
  apply NoDup_alt. intros i j id. rewrite !list_lookup_fmap.
  destruct (queued cs !! i) as [c|] eqn:Hi; [|done].
  destruct (queued cs !! j) as [c'|] eqn:Hj; [|done]. simpl. intros [= <-] [= Heq].
  apply (NoDup_lookup (queued cs) i j c Hnd Hi). rewrite Hj. f_equal.
  apply list_elem_of_lookup_2, (core_replay_queued cs _ Hc) in Hi, Hj.
  pose proof (core_ids cs Hc _ _ c' c Hj Hi Heq) as Hk. rewrite Hk in Hj. congruence.
Qed.

Lemma snapshot_of_ok s : state_ok s -> named s -> snapshot_ok (snapshot_of s).
Proof.
  intros [Hk Hsz _ [Hc Hlen Hpend]] [Hnd Hnc].
  split; rewrite ?replay_commands_snapshot_of; unfold snapshot_of; simpl.
  - intros n r Hn. split; [by apply (Hnd n r)|by apply Hk].
  - done.
  - done.
  - apply Forall_forall. intros c (k & Hkc)%elem_of_retained. by apply (Hnc k c).
  - by apply retained_sorted.
  - rewrite (retained_scopes _ Hc). apply (entries_keys_NoDup String.le).
  - by apply retained_ids.
  - by rewrite length_retained.
  - intros d q Hq. destruct (core_queue _ Hc d q Hq) as (Hne & Hl & Hdev).
    assert (Forall (fun c => DeviceCommand.device_id c = d /\ c ∈ retained (commands s)) q) as Hall.
    { rewrite Forall_forall in *. intros c Hin. split; [by apply Hdev|].
      apply elem_of_retained. exists (canonical_scope c). by apply (core_replay _ Hc d q). }
    split_and!; [done| |done|done]. destruct q as [|c q]; [done|].
    apply Forall_cons in Hall as [[<- (k & Hkc)%elem_of_retained] _]. by apply (Hnc k c).
  - by apply pending_ids_NoDup.
  - rewrite pending_list_queued, <- pending_command_count_length. done.
Qed.
(** *** Building it *)

Lemma collect_replays_ok cs l seen records :
  core cs -> NoDup l -> Forall (fun k => is_Some (idempotency_results cs !! k) /\ k ∉ seen) l ->
  exists cmds,
    fold_rows (collect_replay cs) (seen, records) l
    = Ok (list_to_set l ∪ seen, (records ++ (replay_from_command <$> cmds))%list)
    /\ Forall2 (fun k c => idempotency_results cs !! k = Some c) l cmds.
Proof.
  intros Hc. revert seen records. induction l as [|k l IH]; intros seen records Hnd Hl.
  { exists []. simpl. rewrite (left_id_L ∅ (∪)), app_nil_r. by split. }
  apply NoDup_cons in Hnd as [Hk Hnd]. apply Forall_cons in Hl as [[[c Hkc] Hseen] Hl].
  cbn [fold_rows]. unfold collect_replay at 1. rewrite bool_decide_false, Hkc by done.
  rewrite <- (core_canonical cs Hc k c Hkc), bool_decide_true by done. cbn [negb].
  destruct (IH ({[k]} ∪ seen) (records ++ [replay_from_command c])%list Hnd) as (cmds & -> & Hcmds).
  { rewrite Forall_forall in *. intros k' Hk'. destruct (Hl k' Hk') as [? ?].
    split; [done|]. set_solver. }
  exists (c :: cmds). split; [|by constructor]. f_equal. f_equal; [set_solver|].
  csimpl. by rewrite <- app_assoc.
Qed.

Lemma ordered_retained cs cmds :
  core cs -> Forall2 (fun k c => idempotency_results cs !! k = Some c) (idempotency_order cs) cmds ->
  cmds ≡ₚ retained cs.
Proof.
  intros Hc Hcmds.
  assert (command_scope_text <$> cmds = idempotency_order cs) as Horder.
  { induction Hcmds as [|k c l cmds Hk _ IH]; csimpl; [done|]. rewrite IH. f_equal.
    symmetry. by apply (core_canonical cs Hc). }
  apply NoDup_Permutation.
  - apply (NoDup_fmap_1 command_scope_text). rewrite Horder. apply (core_order_NoDup cs Hc).
  - apply (NoDup_fmap_1 DeviceCommand.command_id). by apply retained_ids.
  - intros c. rewrite elem_of_retained. split.
    + intros [i Hi]%list_elem_of_lookup.
      destruct (Forall2_lookup_r _ _ _ _ _ Hcmds Hi) as (k & _ & Hk). eauto.
    + intros [k Hk]. assert (k ∈ idempotency_order cs) as [i Hi]%list_elem_of_lookup
        by (apply (core_order cs Hc); eauto).
      destruct (Forall2_lookup_l _ _ _ _ _ Hcmds Hi) as (c' & Hi' & Hk').
      apply list_elem_of_lookup. exists i. congruence.
Qed.

Lemma from_parts_ok s cmds :
  snapshot_ok (snapshot_of s) -> cmds ≡ₚ retained (commands s) ->
  from_parts (devices s) (queues (commands s)) (replay_from_command <$> cmds) = Ok (snapshot_of s).
Proof.
  intros Hok Hp. unfold from_parts, from_rows.
  set (s0 := ControlPlaneSnapshot.mk _ _ _).
  assert (same_rows (rows s0) (rows (snapshot_of s))) as Hsame.
  { unfold s0, snapshot_of, rows; split; simpl; [done| | |done]; by rewrite Hp. }
  rewrite (validate_rows_backward _ _ Hok Hsame).
  destruct (existsb _ _) eqn:He; [|done]. exfalso. apply existsb_exists in He as (row & Hrow & Hpos).
  apply list_elem_of_In in Hrow. rewrite (same_pending _ _ Hsame) in Hrow.
  pose proof (pending_positions _ Hok) as Hall. rewrite Forall_forall in Hall.
  destruct (Hall row Hrow) as [Hlo Hhi]. unfold u32_try_from in Hpos.
  rewrite (proj2 (Z.leb_le _ _) Hlo), (proj2 (Z.leb_le _ _) Hhi) in Hpos. done.
Qed.

Lemma snapshot_from_stored_ok s :
  state_ok s -> named s -> snapshot_from_stored s = Ok (snapshot_of s).
Proof.
  intros Hs Hn. pose proof (wf_core _ (ok_commands s Hs)) as Hc.
  unfold snapshot_from_stored. rewrite validate_legacy_claims_ok by done. cbn [result_bind].
  destruct (collect_replays_ok (commands s) (idempotency_order (commands s)) ∅ [] Hc)
    as (cmds & -> & Hcmds); [apply (core_order_NoDup _ Hc)| |].
  { apply Forall_forall. intros k Hk. split; [by apply (core_order _ Hc)|set_solver]. }
  cbn [result_bind]. rewrite (right_id_L ∅ (∪)), size_list_to_set by apply (core_order_NoDup _ Hc).
  rewrite (size_results _ Hc), Nat.eqb_refl. cbn [negb].
  rewrite (app_nil_l (replay_from_command <$> cmds)).
  rewrite (from_parts_ok s cmds); [done|by apply snapshot_of_ok|by apply ordered_retained].
Qed.

(** ** Restart *)

Definition reorder (cs : CommandState) : CommandState :=
  set_order (fun _ => (string_entries (idempotency_results cs)).*1) cs.

(** The state a restart finds: everything, but the results ordered by scope. *)
Definition restarted (s : StoredState) : StoredState := mk_stored (devices s) (reorder (commands s)).

Lemma reorder_wf cs : wf cs -> wf (reorder cs).
Proof.
  intros [Hc Hlen Hp]. split; [|simpl|done].
  - split; simpl; try apply Hc; [apply (entries_keys_NoDup String.le)|]. intros k.
    rewrite list_elem_of_fmap. split.
    + intros ([k' c] & -> & Hin). apply (elem_of_entries String.le) in Hin. by exists c.
    + intros [c Hk]. exists (k, c). by rewrite (elem_of_entries String.le).
  - by rewrite length_fmap, length_entries, size_results.
Qed.

Lemma restarted_ok s : state_ok s -> state_ok (restarted s).
Proof. intros [? ? ? ?]. split; try done. by apply reorder_wf. Qed.

Definition scope_pair (c : DeviceCommand.t) : string * DeviceCommand.t := (canonical_scope c, c).
Definition legacy_pair (c : DeviceCommand.t) : string * CommandId :=
  (legacy_scope_for_command c, DeviceCommand.command_id c).

Lemma add_replays_ok qs cmds I R O :
  NoDup (canonical_scope <$> cmds) -> NoDup (legacy_scope_for_command <$> cmds) ->
  Forall (fun c => R !! canonical_scope c = None /\ I !! legacy_scope_for_command c = None) cmds ->
  fold_rows add_replay (mk_commands qs I R O) (replay_from_command <$> cmds)
  = Ok (mk_commands qs (list_to_map (legacy_pair <$> cmds) ∪ I)
          (list_to_map (scope_pair <$> cmds) ∪ R) (O ++ (canonical_scope <$> cmds))%list).
Proof.
  revert I R O. induction cmds as [|c cmds IH]; intros I R O Hs Hl Hf; csimpl.
  { by rewrite !(left_id_L ∅ (∪)), app_nil_r. }
  csimpl in Hs. csimpl in Hl. apply NoDup_cons in Hs as [Hs1 Hs]. apply NoDup_cons in Hl as [Hl1 Hl].
  apply Forall_cons in Hf as [[Hr Hi] Hf]. unfold add_replay at 1. simpl.
  fold (canonical_scope c). change (ContentDigest_to_string (command_scope c)) with (canonical_scope c).
  rewrite Hr, Hi. cbn [is_some orb]. rewrite IH; [|done|done|].
  - rewrite !union_insert_swap; [by rewrite <- app_assoc| |];
      apply not_elem_of_list_to_map; by rewrite <- list_fmap_compose.
  - rewrite Forall_forall in *. intros x Hx. rewrite !lookup_insert_ne; [by apply Hf| |].
    + intros Heq. apply Hl1. rewrite Heq. by apply list_elem_of_fmap_2.
    + intros Heq. apply Hs1. rewrite Heq. by apply list_elem_of_fmap_2.
Qed.

Lemma retained_legacies cs : core cs -> NoDup (legacy_scope_for_command <$> retained cs).
Proof.
  intros Hc. pose proof (retained_ids cs Hc) as Hnd. apply NoDup_alt. intros i j l.
  rewrite !list_lookup_fmap. destruct (retained cs !! i) as [c|] eqn:Hi; [|done].
  destruct (retained cs !! j) as [c'|] eqn:Hj; [|done]. simpl. intros [= <-] [= Heq].
  eapply (NoDup_lookup _ i j (DeviceCommand.command_id c) Hnd); rewrite list_lookup_fmap;
    [by rewrite Hi|rewrite Hj]. simpl. f_equal.
  apply list_elem_of_lookup_2, elem_of_retained in Hi as [k Hk], Hj as [k' Hk'].
  pose proof (core_legacy cs Hc k c Hk) as H1'. pose proof (core_legacy cs Hc k' c' Hk') as H2'.
  rewrite Heq in H2'. congruence.
Qed.

Lemma stored_from_snapshot_ok s :
  state_ok s -> stored_from_snapshot (snapshot_of s) = Ok (restarted s).
Proof.
  intros Hs. pose proof (wf_core _ (ok_commands s Hs)) as Hc.
  unfold stored_from_snapshot, snapshot_of. simpl.
  assert (canonical_scope <$> retained (commands s)
          = (string_entries (idempotency_results (commands s))).*1) as Hscopes
    by apply (retained_scopes _ Hc).
  rewrite add_replays_ok; [|rewrite Hscopes; apply (entries_keys_NoDup String.le)
    |by apply retained_legacies|by apply Forall_true; intros; rewrite !lookup_empty].
  rewrite !(right_id_L ∅ (∪)), Hscopes. cbn [result_bind app].
  assert (list_to_map (scope_pair <$> retained (commands s)) = idempotency_results (commands s)) as ->.
  { rewrite <- (list_to_map_entries String.le (idempotency_results (commands s))). f_equal.
    unfold retained. rewrite <- list_fmap_compose. rewrite <- (list_fmap_id (string_entries _)) at 2.
    apply list_fmap_ext. intros i [k c] Hi.
    apply list_elem_of_lookup_2, (elem_of_entries String.le) in Hi. unfold scope_pair. simpl.
    by rewrite <- (core_canonical _ Hc k c Hi). }
  assert (list_to_map (legacy_pair <$> retained (commands s)) = idempotency (commands s)) as ->.
  { apply map_eq. intros k. apply option_eq. intros id. unfold legacy_pair.
    rewrite list_to_map_rows by (by apply retained_legacies). setoid_rewrite elem_of_retained. split.
    - intros (c & [k' Hk] & <- & <-). by apply (core_legacy _ Hc k').
    - intros Hk. destruct (core_index _ Hc k id Hk) as (k' & c & Hk' & -> & ->). eauto. }
  change (mk_commands _ _ _ _) with (reorder (commands s)).
  rewrite validate_legacy_claims_ok; [done|]. apply (wf_core _ (reorder_wf _ (ok_commands s Hs))).
Qed.

Lemma snapshot_of_restarted s : snapshot_of (restarted s) = snapshot_of s.
Proof. done. Qed.

(** ** The store of the transactions *)

Lemma sqlite_compare_and_swap_Ok db e c db' changes :
  sqlite_compare_and_swap db e c = Ok (db', changes) -> represents db e /\ represents db' c.
Proof.
  unfold represents, sqlite_compare_and_swap. simpl.
  destruct (snapshot_from_stored e) as [se|]; [|done].
  destruct (snapshot_from_stored c) as [sc|]; [|done]. cbn [result_bind].
  unfold compare_and_swap_snapshot. destruct (validate se); [|done]. destruct (validate sc); [|done].
  case_bool_decide; [|done]. cbn [negb]. destruct (apply_row_changes _ _ _) as [[s' ch]|]; [|done].
  case_bool_decide; [|done]. intros [= <- _]. subst. split; by eexists.
Qed.

#[export] Instance sqlite_store_laws : SnapshotStoreLaws Tables.t.
Proof.
  split; intros db e c db' Hs; unfold compare_and_swap in Hs; simpl in Hs;
    destruct (sqlite_compare_and_swap db e c) as [[db'' changes]|] eqn:Hcas; try done;
    injection Hs as <-; by apply sqlite_compare_and_swap_Ok in Hcas as [? ?].
Qed.

(** A command both states retain is the same command in both. *)
Definition results_agree (s s' : StoredState) : Prop :=
  forall k k' x y, idempotency_results (commands s) !! k = Some x ->
    idempotency_results (commands s') !! k' = Some y ->
    DeviceCommand.command_id x = DeviceCommand.command_id y -> x = y.

Lemma same_results_agree s s' :
  state_ok s -> idempotency_results (commands s') = idempotency_results (commands s) ->
  results_agree s s'.
Proof.
  intros Hs Heq k k' x y Hx Hy Hid. rewrite Heq in Hy.
  pose proof (core_ids _ (wf_core _ (ok_commands s Hs)) k k' x y Hx Hy Hid). congruence.
Qed.

(** What a transaction offers to the database. *)
Record storable (s s' : StoredState) : Prop := {
  storable_ok : state_ok s';
  storable_named : named s';
  storable_agree : results_agree s s';
}.

Lemma sqlite_swap_ok db s s' :
  represents db s -> state_ok s -> named s -> storable s s' ->
  exists db', compare_and_swap db s s' = Some db'.
Proof.
  intros Hdb Hs Hn [Hs' Hn' Hag]. unfold compare_and_swap, represents in *. simpl in *.
  destruct Hdb as (snap & Hsnap & ->). unfold sqlite_compare_and_swap.
  rewrite snapshot_from_stored_ok in Hsnap |- * by done. injection Hsnap as <-.
  rewrite snapshot_from_stored_ok by done. cbn [result_bind].
  destruct (apply_row_changes_ok (materialize (snapshot_of s)) (materialize (snapshot_of s')))
    as [changes Hch].
  { by apply materialize_tables_ok, snapshot_of_ok. }
  { by apply materialize_tables_ok, snapshot_of_ok. }
  { apply materialize_no_rewrite; [by apply snapshot_of_ok|by apply snapshot_of_ok|].
    intros x y. rewrite !replay_commands_snapshot_of.
    intros [k Hk]%elem_of_retained [k' Hk']%elem_of_retained. by apply (Hag k k'). }
  unfold compare_and_swap_snapshot. rewrite !validate_ok by (by apply snapshot_of_ok).
  rewrite !bool_decide_true, Hch by done. cbn [negb]. rewrite bool_decide_true by done.
  cbn. eauto.
Qed.

(** ** No transaction fails to commit *)

(** The transaction did not report a persistence failure [e], and identities
    are still in place. *)
Definition persists {O E} (e : E) (out : result O E * AppState Tables.t) : Prop :=
  out.1 <> Err e /\ named (memory out.2).

Section Persists.
Context (a : AppState Tables.t) (Hsync : in_sync a) (Hok : state_ok (memory a)).
Context (Hnamed : named (memory a)).

Lemma commit_persists {O E} (e : E) (o : O) candidate :
  storable (memory a) candidate -> persists e (commit a candidate e o).
Proof.
  intros Hc. unfold commit.
  destruct (sqlite_swap_ok (database a) (memory a) candidate) as [db' ->]; try done.
  split; [done|]. apply (storable_named _ _ Hc).
Qed.

Lemma ok_persists {O E} (e : E) (o : O) : persists e (Ok o, a).
Proof. by split. Qed.

Lemma err_persists {O E} (e e' : E) : e' <> e -> persists (O := O) e (Err e', a).
Proof. intros Hne. split; [|done]. simpl. congruence. Qed.

Lemma put_device_storable node d :
  node <> "" -> DeviceRecord.node_id d = node -> device_ok d ->
  is_Some (devices (memory a) !! node) \/ (size (devices (memory a)) < MAX_REGISTERED_DEVICES)%nat ->
  storable (memory a) (mk_stored (<[node := d]> (devices (memory a))) (commands (memory a))).
Proof.
  intros Hne Hnode Hd Hroom. destruct Hnamed as [Hnd Hnc]. split.
  - by apply put_device_ok.
  - split; [|done]. simpl. by apply map_Forall_insert_2.
  - by apply same_results_agree.
Qed.

Lemma same_storable : storable (memory a) (memory a).
Proof. split; [done|done|]. by apply same_results_agree. Qed.

Lemma existing_named node d : devices (memory a) !! node = Some d -> node <> "".
Proof. intros Hd. apply (named_devices _ Hnamed node d Hd). Qed.

Lemma register_persists now request :
  RegisterDeviceRequest.node_id request <> "" ->
  persists RegisterPersistence (register_device_transaction a now request).
Proof.
  intros Hne. unfold register_device_transaction.
  destruct (devices (memory a) !! _) as [existing|] eqn:Hd.
  - case_if; [by apply err_persists|]. apply commit_persists, same_storable.
  - destruct (_ <=? _)%nat eqn:Hcap; [by apply err_persists|]. apply Nat.leb_gt in Hcap.
    case_if; [by apply err_persists|]. apply commit_persists.
    apply put_device_storable; [done|done|apply build_registered_device_ok|by right].
Qed.

Lemma heartbeat_persists now request :
  HeartbeatRequest.node_id request <> "" ->
  persists HeartbeatPersistence (heartbeat_transaction a now request).
Proof.
  intros Hne. unfold heartbeat_transaction.
  destruct (devices (memory a) !! _) as [existing|] eqn:Hd.
  - case_if; [|by apply err_persists]. destruct (negb _) eqn:Hn; [by apply err_persists|].
    bools. apply commit_persists.
    apply put_device_storable; [done|done|apply build_heartbeat_device_ok|left; by eexists].
  - destruct (_ <=? _)%nat eqn:Hcap; [by apply err_persists|]. apply Nat.leb_gt in Hcap.
    destruct (negb _) eqn:Hn; [by apply err_persists|]. bools. apply commit_persists.
    apply put_device_storable; [done|done|apply build_heartbeat_device_ok|by right].
Qed.

Lemma probe_persists pn en device report :
  persists ProbePersistence (public_probe_transaction a pn en device report).
Proof.
  unfold public_probe_transaction.
  destruct (devices (memory a) !! device) as [existing|] eqn:Hd; [|by apply ok_persists].
  case_if; [by apply err_persists|].
  destruct (negb (bool_decide (DeviceRecord.node_id (apply_public_probe _ _ _ _) = _))) eqn:Hn;
    [by apply err_persists|].
  bools. apply commit_persists.
  apply put_device_storable; [by eapply existing_named|done| |left; by eexists].
  apply apply_public_probe_ok. by apply (ok_devices _ Hok device).
Qed.

Lemma alter_device_named f node cs :
  map_Forall (fun _ c => DeviceCommand.device_id c <> "") (idempotency_results cs) ->
  named (mk_stored (alter f node (devices (memory a))) cs).
Proof.
  intros Hcs. split; [|done]. simpl. intros n d. rewrite lookup_alter_Some.
  intros [(-> & d' & Hd' & ->)|[_ Hn]]; by eapply existing_named.
Qed.

Lemma issue_persists id now input :
  issue_device_id input <> "" -> fresh_for (commands (memory a)) id ->
  persists IssuePersistence (issue_command_transaction a id now input).
Proof.
  intros Hne Hf. unfold issue_command_transaction. rewrite (normalize_wf _ (ok_commands _ Hok)).
  case_decide; [|by apply err_persists].
  destruct (idempotency_results (commands (memory a)) !! scope_of input) as [existing|] eqn:Hs.
  { destruct (classify_existing _ _ _) as [c|e] eqn:Hc; [by apply ok_persists|].
    apply err_persists. revert Hc. unfold classify_existing. case_if; congruence. }
  destruct (_ || _) eqn:Hi; [by apply err_persists|]. case_if; [by apply err_persists|].
  destruct (capacity_exhausted _ _) eqn:Hcap; [by apply err_persists|].
  destruct (issue_candidate_wf _ id now input (ok_commands _ Hok) Hf Hs Hi Hcap)
    as (cs' & n & Ht & Htr & Hwf). rewrite Ht. apply commit_persists.
  assert (forall k y, idempotency_results cs' !! k = Some y ->
    y = new_command id now input \/ idempotency_results (commands (memory a)) !! k = Some y) as Hold.
  { intros k y Hk. pose proof (lookup_weaken _ _ _ _ Hk (trimmed_results _ _ Htr)) as Hk'.
    simpl in Hk'. apply lookup_insert_Some in Hk' as [[_ <-]|[_ Hk']]; auto. }
  split.
  - by apply alter_device_ok.
  - apply alter_device_named. intros k y [->|Hk]%Hold; [done|]. by apply (named_commands _ Hnamed k).
  - intros k k' x y Hx [->|Hy]%Hold Hid; [by destruct (Hf k x Hx)|].
    by apply (same_results_agree (memory a) (memory a) Hok eq_refl k k').
Qed.

Lemma acknowledge_persists now input :
  persists AckPersistence (acknowledge_command_transaction a now input).
Proof.
  unfold acknowledge_command_transaction. case_if; [by apply ok_persists|].
  destruct (queues _ !! _) as [q|] eqn:Hq; [|by apply ok_persists].
  destruct (take_command _ q) as [[c rest]|] eqn:Ht; [|by apply ok_persists].
  case_if; [by apply err_persists|]. apply commit_persists. split.
  - apply alter_device_ok; [done| |done|done].
    by apply (ack_queue_wf _ _ q c rest _ (ok_commands _ Hok) Hq Ht).
  - apply alter_device_named, (named_commands _ Hnamed).
  - by apply same_results_agree.
Qed.
End Persists.

(** The request names its device. *)
Definition op_named (o : op) : Prop :=
  match o with
  | OpRegister _ request => RegisterDeviceRequest.node_id request <> ""
  | OpHeartbeat _ request => HeartbeatRequest.node_id request <> ""
  | OpIssue _ _ input => issue_device_id input <> ""
  | OpProbe _ _ _ _ | OpAcknowledge _ _ => True
  end.

(** The transaction reported that the database did not take its candidate. *)
Definition persistence_failed (a : AppState Tables.t) (o : op) : Prop :=
  match o with
  | OpRegister now request => (register_device_transaction a now request).1 = Err RegisterPersistence
  | OpHeartbeat now request => (heartbeat_transaction a now request).1 = Err HeartbeatPersistence
  | OpProbe pn en device report =>
      (public_probe_transaction a pn en device report).1 = Err ProbePersistence
  | OpIssue id now input => (issue_command_transaction a id now input).1 = Err IssuePersistence
  | OpAcknowledge now input => (acknowledge_command_transaction a now input).1 = Err AckPersistence
  end.

Lemma run_op_persists a o :
  in_sync a -> state_ok (memory a) -> named (memory a) -> op_allowed a o -> op_named o ->
  ~ persistence_failed a o /\ named (memory (run_op a o)).
Proof.
  intros Hsync Hok Hn Hall Hno. destruct o; simpl in *;
    [by apply register_persists|by apply heartbeat_persists|by apply probe_persists
    |by apply issue_persists|by apply acknowledge_persists].
Qed.

(** Transactions that name their devices, and restarts. *)
Inductive sqlite_run : AppState Tables.t -> AppState Tables.t -> Prop :=
| SqliteNil a : sqlite_run a a
| SqliteOp a o a' :
    op_allowed a o -> op_named o -> sqlite_run (run_op a o) a' -> sqlite_run a a'
| SqliteRestart a s a' :
    load_existing (database a) = Ok s -> sqlite_run (mk_app s (database a)) a' -> sqlite_run a a'.

Record sqlite_ok (a : AppState Tables.t) : Prop := {
  sqlite_sync : in_sync a;
  sqlite_state : state_ok (memory a);
  sqlite_named : named (memory a);
}.

Lemma restarted_named s : named s -> named (restarted s).
Proof. by intros [? ?]. Qed.

Lemma load_existing_ok a : sqlite_ok a -> load_existing (database a) = Ok (restarted (memory a)).
Proof.
  intros [(snap & Hsnap & Hdb) Hok Hn]. rewrite snapshot_from_stored_ok in Hsnap by done.
  injection Hsnap as <-. unfold load_existing. rewrite Hdb, load_materialize_ok by (by apply snapshot_of_ok).
  by apply stored_from_snapshot_ok.
Qed.

Lemma restart_ok a : sqlite_ok a -> sqlite_ok (mk_app (restarted (memory a)) (database a)).
Proof.
  intros [(snap & Hsnap & Hdb) Hok Hn]. split; simpl; [|by apply restarted_ok|by apply restarted_named].
  exists snap. split; [|done]. rewrite <- Hsnap.
  rewrite !snapshot_from_stored_ok; try done; [by apply restarted_ok|by apply restarted_named].
Qed.

Lemma sqlite_run_ok a a' : sqlite_run a a' -> sqlite_ok a -> sqlite_ok a'.
Proof.
  induction 1 as [|a o a' Hall Hno _ IH|a s a' Hload _ IH]; [done|..]; intros Ha; apply IH.
  - destruct Ha as [Hsync Hok Hn]. split; [by apply run_op_sync|by apply run_op_ok|].
    by apply run_op_persists.
  - rewrite (load_existing_ok a Ha) in Hload. injection Hload as <-. by apply restart_ok.
Qed.

Definition fresh_app : AppState Tables.t := mk_app (mk_stored ∅ empty_commands) Tables.empty.

Lemma fresh_app_ok : sqlite_ok fresh_app.
Proof.
  assert (named (mk_stored ∅ empty_commands)) as Hn by (split; apply map_Forall_empty).
  split; [|apply empty_ok|done]. exists (snapshot_of (mk_stored ∅ empty_commands)).
  split; [apply snapshot_from_stored_ok; [apply empty_ok|done]|]. done.
Qed.

(** C12: On a database that starts empty, whatever transactions and restarts came
    before, no transaction that names its device is ever refused by the
    database: the snapshot it writes always satisfies the constraints, and the
    rows it expects are the rows that are there. *)
Theorem sqlite_never_refuses (a : AppState Tables.t) (o : op) :
  sqlite_run fresh_app a -> op_allowed a o -> op_named o -> ~ persistence_failed a o.
Proof.
  intros Hrun Hall Hno. destruct (sqlite_run_ok _ _ Hrun fresh_app_ok) as [Hsync Hok Hn].
  by apply run_op_persists.
Qed.

(** C11: A restart always succeeds and finds the devices, the queues, the results
    and the legacy index of the state in memory, as well formed as it was.
    Only the order of retention is lost: results come back sorted by the text
    of their scope. *)
Theorem sqlite_restart (a : AppState Tables.t) :
  sqlite_run fresh_app a ->
  exists s, load_existing (database a) = Ok s /\ state_ok s
    /\ devices s = devices (memory a)
    /\ queues (commands s) = queues (commands (memory a))
    /\ idempotency (commands s) = idempotency (commands (memory a))
    /\ idempotency_results (commands s) = idempotency_results (commands (memory a))
    /\ idempotency_order (commands s)
       = (string_entries (idempotency_results (commands (memory a)))).*1.
Proof.
  intros Hrun. pose proof (sqlite_run_ok _ _ Hrun fresh_app_ok) as Ha.
  exists (restarted (memory a)). split; [by apply load_existing_ok|].
  split; [apply restarted_ok, Ha|done].
Qed.
End Backend.

(** ** The process *)

Module ControlPlaneCli.
Record t := mk {
  listen : string;
  cli_admin_token : string;
  cli_device_token : string;
  cli_ui_token : string;
  cli_rotation_token : option string;
}.
End ControlPlaneCli.

Inductive StartFailure :=
| StartTokens (e : AuthError)
| StateMissing
| StateOpen (e : StoreError)
| StateInvalid (e : BackendError)
| ListenFailed.

(** What [readiness] answers besides its status. *)
Record ReadyResponse := mk_ready {
  ready_code : Z;
  ready_text : string;
  backend : string;
  store_healthy : bool;
  device_availability : string;
}.

Section Process.
Context `{Blake3, UuidText, !JsonText DeviceRecord.t, !JsonText DeviceCommand.t}.

(** [AppState::load] on the file at the state path; [None] is a path that is not
    a regular file. *)
Definition load_state (file : option DbFile.t) : result StoredState StartFailure :=
  match file with
  | None => Err StateMissing
  | Some f =>
      match open_existing (Some f) with
      | Err e => Err (StateOpen e)
      | Ok f' => map_err StateInvalid (load_existing (DbFile.tables f'))
      end
  end.

(** [main] up to the first request: the tokens, the state and the listener. *)
Definition control_plane_main (cli : ControlPlaneCli.t) (file : option DbFile.t)
    (bind : string -> bool) : result (AuthConfig * StoredState) StartFailure :=
  match auth_from_cli (ControlPlaneCli.cli_admin_token cli) (ControlPlaneCli.cli_device_token cli)
          (ControlPlaneCli.cli_ui_token cli) (ControlPlaneCli.cli_rotation_token cli) with
  | Err e => Err (StartTokens e)
  | Ok auth =>
      match load_state file with
      | Err e => Err e
      | Ok state => if bind (ControlPlaneCli.listen cli) then Ok (auth, state) else Err ListenFailed
      end
  end.

Definition liveness : Z * string := (200, "live").

(** The blocking task that reads the store completes or not. *)
Definition readiness (completes : bool) (file : option DbFile.t) : ReadyResponse :=
  let healthy := completes && durable_store_ready file in
  mk_ready (if healthy then 200 else 503) (if healthy then "ready" else "not_ready") "sqlite" healthy
    "independent".
End Process.

Section Starts.
Context `{Blake3Laws, UuidTextLaws, !JsonText DeviceRecord.t, !JsonText DeviceCommand.t, !JsonValid}.
Context `{!JsonTextLaws DeviceRecord.t, !JsonTextLaws DeviceCommand.t}.

(** Readiness is about the next start: a store that is not ready starts no
    control plane, whatever its tokens; and after any history of transactions and
    restarts on a sound file, the store is ready and the process starts again
    with the devices, queues and results it had. *)
Theorem readiness_predicts_start cli bind :
  (forall file, ready_code (readiness true file) = 503 ->
     is_ok (control_plane_main cli file bind) = false)
  /\ (forall a f auth, sqlite_run fresh_app a ->
       initialize_existing f true = Ok f -> DbFile.tables f = database a ->
       auth_from_cli (ControlPlaneCli.cli_admin_token cli) (ControlPlaneCli.cli_device_token cli)
         (ControlPlaneCli.cli_ui_token cli) (ControlPlaneCli.cli_rotation_token cli) = Ok auth ->
       bind (ControlPlaneCli.listen cli) = true ->
       ready_code (readiness true (Some f)) = 200
       /\ control_plane_main cli (Some f) bind = Ok (auth, restarted (memory a))).
Proof.
  split.
  - intros file. unfold readiness. cbn [ready_code andb].
    destruct (durable_store_ready file) eqn:Hr; [done|]. intros _.
    unfold control_plane_main. destruct (auth_from_cli _ _ _ _) as [auth|]; [|done].
    assert (exists e, load_state file = Err e) as [e ->]; [|done].
    revert Hr. unfold durable_store_ready, load_state. destruct file as [f|]; [|eauto].
    destruct (open_existing (Some f)) as [f'|]; [|eauto].
    unfold load_existing. destruct (load_snapshot (DbFile.tables f')); [done|]. cbn. eauto.
  - intros a f auth Hrun Hf Ht Hauth Hbind.
    pose proof (sqlite_run_ok _ _ Hrun fresh_app_ok) as Hok.
    pose proof (load_existing_ok a Hok) as Hload.
    assert (durable_store_ready (Some f) = true) as Hr.
    { unfold durable_store_ready. cbn [open_existing]. rewrite Hf, Ht.
      revert Hload. unfold load_existing. by destruct (load_snapshot (database a)). }
    unfold readiness. rewrite Hr. split; [done|].
    unfold control_plane_main. rewrite Hauth. unfold load_state. cbn [open_existing].
    by rewrite Hf, Ht, Hload, Hbind.
Qed.
End Starts.

(** ** A database of text

    A concrete text form with the laws: every field as a text, and the texts of a
    record one after the other, each character marked. *)
Module DemoDatabase.
Import Foundation.Concrete.

Class FieldText (A : Type) := {
  field_text : A -> string;
  text_field : string -> option A;
  text_field_text x : text_field (field_text x) = Some x;
}.

#[global] Instance string_field : FieldText string.
Proof. by refine {| field_text s := s; text_field := Some |}. Defined.

Definition bool_text (b : bool) : string := if b then "t" else "f".

#[global] Instance bool_field : FieldText bool.
Proof.
  refine {| field_text := bool_text; text_field s := Some (bool_decide (s = "t")) |}.
  by intros [].
Defined.

Fixpoint positive_text (p : positive) : string :=
  match p with
  | xH => "."
  | xO q => String "0"%char (positive_text q)
  | xI q => String "1"%char (positive_text q)
  end.

Fixpoint text_positive (s : string) : option positive :=
  match s with
  | EmptyString => None
  | String c r =>
      if Ascii.eqb c "."%char then Some xH
      else p ← text_positive r;
        if Ascii.eqb c "0"%char then Some (xO p)
        else if Ascii.eqb c "1"%char then Some (xI p) else None
  end.

Lemma text_positive_text p : text_positive (positive_text p) = Some p.
Proof. induction p as [p IH|p IH|]; cbn; [by rewrite IH|by rewrite IH|done]. Qed.

(** Numbers, in binary. *)
#[global] Instance number_field {A} `{Countable A} : FieldText A | 10.
Proof.
  refine {| field_text x := positive_text (encode x); text_field s := p ← text_positive s; decode p |}.
  intros x. rewrite text_positive_text. apply decode_encode.
Defined.

#[global] Instance option_field {A} `{FieldText A} : FieldText (option A).
Proof.
  refine {|
  field_text o := match o with Some x => String "+"%char (field_text x) | None => "" end;
  text_field s := match s with String _ r => Some <$> text_field r | EmptyString => Some None end |}.
  intros [x|]; [|done]. by rewrite text_field_text.
Defined.

#[global] Instance digest_field : FieldText ContentDigest.
Proof.
  refine {| field_text := ContentDigest_to_string; text_field s := result_ok (ContentDigest_from_str s) |}.
  intros d. by rewrite content_digest_roundtrip.
Defined.

#[global] Instance fingerprint_field : FieldText Fingerprint := digest_field.

Fixpoint mark (s rest : string) : string :=
  match s with
  | EmptyString => String "0"%char rest
  | String c r => String "1"%char (String c (mark r rest))
  end.

Definition encode_fields (l : list string) : string := foldr mark "" l.

Fixpoint decode_fields (s : string) : option (list string) :=
  match s with
  | EmptyString => Some []
  | String m r =>
      if Ascii.eqb m "0"%char then cons "" <$> decode_fields r
      else match r with
           | EmptyString => None
           | String c r' =>
               match decode_fields r' with
               | Some (x :: l) => Some (String c x :: l)
               | _ => None
               end
           end
  end.

Lemma decode_encode_fields l : decode_fields (encode_fields l) = Some l.
Proof.
  induction l as [|s l IH]; [done|]. cbn. fold (encode_fields l).
  induction s as [|c s IHs]; cbn; [by rewrite IH|by rewrite IHs].
Qed.

Definition device_fields (d : DeviceRecord.t) : list string :=
  [
   field_text (DeviceRecord.node_id d); field_text (DeviceRecord.node_name d);
   field_text (DeviceRecord.readiness_state d); field_text (DeviceRecord.serving d);
   field_text (DeviceRecord.proxy_status d); field_text (DeviceRecord.proxy_pid d);
   field_text (DeviceRecord.last_public_ip d); field_text (DeviceRecord.current_job d);
   field_text (DeviceRecord.last_proxy_error d); field_text (DeviceRecord.version d);
   field_text (DeviceRecord.config_fingerprint d); field_text (DeviceRecord.binary_fingerprint d);
   field_text (DeviceRecord.active_operator_profile d);
   field_text (DeviceRecord.active_operator_plmn d); field_text (DeviceRecord.publicly_serving d);
   field_text (DeviceRecord.public_probe_error d); field_text (DeviceRecord.public_probe_at d);
   field_text (DeviceRecord.cellular_route_ready d); field_text (DeviceRecord.proxy_bind_ready d);
   field_text (DeviceRecord.local_serving_ready d); field_text (DeviceRecord.tun0_present d);
   field_text (DeviceRecord.wg_handshake_recent d);
   field_text (DeviceRecord.reverse_tunnel_connected d);
   field_text (DeviceRecord.reverse_tunnel_last_error d);
   field_text (DeviceRecord.reverse_tunnel_active_transport d);
   field_text (DeviceRecord.reverse_tunnel_freshness d);
   field_text (DeviceRecord.reverse_tunnel_failover_reason d);
   field_text (DeviceRecord.tunnel_owner d); field_text (DeviceRecord.last_heartbeat_at d);
   field_text (DeviceRecord.availability d); field_text (DeviceRecord.degradation_reason_code d);
   field_text (DeviceRecord.serving_failure_reason d); field_text (DeviceRecord.desired_state d);
   field_text (DeviceRecord.recovery_intent d); field_text (DeviceRecord.last_event_at d)].

(** Applies a constructor to one more decoded field. *)
Definition field {A B} `{FieldText A} (f : option (A -> B)) (s : string) : option B :=
  f ≫= fun g => g <$> text_field s.
#[local] Infix "⊛" := field (at level 61, left associativity).

Lemma field_encode {A B} `{FieldText A} (f : A -> B) (x : A) : Some f ⊛ field_text x = Some (f x).
Proof. unfold field. simpl. by rewrite text_field_text. Qed.

Definition fields_device (l : list string) : option DeviceRecord.t :=
  match l with
  | [
    p0; p1; p2; p3; p4; p5; p6; p7; p8; p9; p10; p11; p12; p13; p14; p15; p16; p17; p18;
    p19; p20; p21; p22; p23; p24; p25; p26; p27; p28; p29; p30; p31; p32; p33; p34] =>
      Some (@DeviceRecord.mk blake3) ⊛ p0 ⊛ p1 ⊛ p2 ⊛ p3 ⊛ p4 ⊛ p5 ⊛ p6 ⊛ p7 ⊛ p8 ⊛ p9 ⊛ p10 ⊛ p11
        ⊛ p12 ⊛ p13 ⊛ p14 ⊛ p15 ⊛ p16 ⊛ p17 ⊛ p18 ⊛ p19 ⊛ p20 ⊛ p21 ⊛ p22 ⊛ p23 ⊛ p24 ⊛ p25
        ⊛ p26 ⊛ p27 ⊛ p28 ⊛ p29 ⊛ p30 ⊛ p31 ⊛ p32 ⊛ p33 ⊛ p34
  | _ => None
  end.

Definition parse_intent (s : string) : option RecoveryIntent.t :=
  List.find (fun r => bool_decide (RecoveryIntent.to_string r = s))
    [RecoveryIntent.NoRecovery; RecoveryIntent.RouteRepair; RecoveryIntent.RestartRuntime;
     RecoveryIntent.RotateRecovery].

#[global] Instance intent_field : FieldText RecoveryIntent.t.
Proof.
  refine {| field_text := RecoveryIntent.to_string; text_field := parse_intent |}.
  by intros [].
Defined.

Definition command_fields (c : DeviceCommand.t) : list string :=
  [field_text (as_uuid (DeviceCommand.command_id c)); field_text (DeviceCommand.device_id c);
   field_text (bool_decide (DeviceCommand.desired_state c = DesiredState.HealthyServing));
   field_text (DeviceCommand.recovery_intent c);
   field_text (as_secs (DeviceCommand.deadline_secs c));
   field_text (key_as_str (DeviceCommand.idempotency_key c));
   field_text (DeviceCommand.issued_at c)].

Definition command_of (id : Uuid) (device : string) (healthy : bool) (intent : RecoveryIntent.t)
    (secs : Z) (key issued_at : string) : DeviceCommand.t :=
  DeviceCommand.mk (from_uuid id) device
    (if healthy then DesiredState.HealthyServing else DesiredState.DegradedSafe)
    intent (mk_window secs) (mk_key key) issued_at.

Definition fields_command (l : list string) : option DeviceCommand.t :=
  match l with
  | [p0; p1; p2; p3; p4; p5; p6] => Some command_of ⊛ p0 ⊛ p1 ⊛ p2 ⊛ p3 ⊛ p4 ⊛ p5 ⊛ p6
  | _ => None
  end.

#[global] Instance device_json : JsonText DeviceRecord.t := {
  json_encode d := encode_fields (device_fields d);
  json_decode s := l ← decode_fields s; fields_device l;
}.

#[global] Instance command_json : JsonText DeviceCommand.t := {
  json_encode c := encode_fields (command_fields c);
  json_decode s := l ← decode_fields s; fields_command l;
}.

#[global] Instance marked_valid : JsonValid := fun s => is_some (decode_fields s).

#[global] Instance device_json_laws : JsonTextLaws DeviceRecord.t.
Proof.
  split; intros d.
  - unfold json_decode, json_encode, device_json. rewrite decode_encode_fields. cbn [mbind option_bind].
    unfold fields_device, device_fields. rewrite !field_encode. by destruct d.
  - unfold json_valid, marked_valid, json_encode, device_json. by rewrite decode_encode_fields.
Qed.

#[global] Instance command_json_laws : JsonTextLaws DeviceCommand.t.
Proof.
  split; intros c.
  - unfold json_decode, json_encode, command_json. rewrite decode_encode_fields. cbn [mbind option_bind].
    unfold fields_command, command_fields. rewrite !field_encode.
    by destruct c as [[] ? [] ? [] [] ?].
  - unfold json_valid, marked_valid, json_encode, command_json. by rewrite decode_encode_fields.
Qed.

Definition input_for (device key : string) : IssueCommandInput :=
  mk_issue device (IssueCommandRequest.mk DesiredState.HealthyServing RecoveryIntent.NoRecovery
                     (mk_window 30) (mk_key key)).

Definition one : AppState Tables.t :=
  run_op fresh_app (OpIssue (from_uuid 1) "1" (input_for "phone" "b")).
Definition two : AppState Tables.t :=
  run_op one (OpIssue (from_uuid 2) "2" (input_for "phone" "a")).

Lemma one_allowed : op_allowed fresh_app (OpIssue (from_uuid 1) "1" (input_for "phone" "b")).
Proof.
  intros k c.
  assert (idempotency_results (commands (memory fresh_app)) = ∅) as -> by done.
  by rewrite lookup_empty.
Qed.

Lemma two_allowed : op_allowed one (OpIssue (from_uuid 2) "2" (input_for "phone" "a")).
Proof.
  assert (map_Forall (fun _ c => DeviceCommand.command_id c <> from_uuid 2)
            (idempotency_results (commands (memory one)))) as Hids.
  { eapply (bool_decide_eq_true_1 _). vm_compute. reflexivity. }
  exact Hids.
Qed.

Lemma run_one : sqlite_run fresh_app one.
Proof. apply (SqliteOp _ _ _ one_allowed); [done|]. apply SqliteNil. Qed.

Lemma run_two : sqlite_run fresh_app two.
Proof.
  apply (SqliteOp _ _ _ one_allowed); [done|]. apply (SqliteOp _ _ _ two_allowed); [done|].
  apply SqliteNil.
Qed.

Lemma one_ok : snapshot_ok (snapshot_of (memory one)).
Proof. destruct (sqlite_run_ok _ _ run_one fresh_app_ok). by apply snapshot_of_ok. Qed.

Lemma empty_snapshot_ok : snapshot_ok (snapshot_of (memory fresh_app)).
Proof. destruct fresh_app_ok. by apply snapshot_of_ok. Qed.

(** A second command is taken after the first was stored. *)
Lemma sqlite_never_refuses_witness :
  ~ persistence_failed one (OpIssue (from_uuid 2) "2" (input_for "phone" "a")).
Proof. apply (sqlite_never_refuses one); [apply run_one|apply two_allowed|done]. Defined.

(** Two commands issued in the order [b], [a] come back in the order [a], [b]. *)
Lemma sqlite_restart_witness :
  exists s, load_existing (database two) = Ok s
    /\ queues (commands s) = queues (commands (memory two))
    /\ idempotency_order (commands s) <> idempotency_order (commands (memory two)).
Proof.
  destruct (sqlite_restart two run_two) as (s & Hload & _ & _ & Hq & _ & _ & Horder).
  exists s. split; [exact Hload|]. split; [exact Hq|]. rewrite Horder.
  apply (bool_decide_eq_false_1 (_ = _)). vm_compute. reflexivity.
Defined.

Lemma compare_and_swap_snapshot_spec_witness :
  exists changes,
    compare_and_swap_snapshot Tables.empty (snapshot_of (memory fresh_app)) (snapshot_of (memory one))
    = Ok (materialize (snapshot_of (memory one)), changes).
Proof.
  destruct (compare_and_swap_snapshot_spec Tables.empty (snapshot_of (memory fresh_app))
    (snapshot_of (memory one)) empty_snapshot_ok one_ok) as [changes Hswap].
  - intros x y Hx. rewrite replay_commands_snapshot_of in Hx. by apply not_elem_of_nil in Hx.
  - exists changes. rewrite Hswap. rewrite bool_decide_true; reflexivity.
Defined.

Lemma load_materialize_witness :
  load_snapshot (materialize (snapshot_of (memory one))) = Ok (snapshot_of (memory one)).
Proof.
  apply (load_materialize (rows (snapshot_of (memory one)))).
  by apply validate_rows_backward; [apply one_ok|].
Defined.

Lemma validate_rows_iff_witness :
  validate_rows (rows (snapshot_of (memory one))) = Ok (snapshot_of (memory one)).
Proof. apply validate_rows_iff. split; [apply one_ok|done]. Defined.
End DemoDatabase.
