(* ===== verification/LegacyImport.v ===== *)
(** * Import of the legacy state file

    The JSON state of earlier releases, normalized and moved into SQLite,
    [crates/control-plane-sqlite/src/legacy_json_import.rs].  Reading the text
    as JSON and the JSON as a state is the class [LegacyJson]; hash maps are
    iterated in the order of [map_to_list]. *)

From stdpp Require Import base gmap strings list fin_maps sorting.
From Stdlib Require Import ZArith Lia String.
From S2P Require Import Prelude Ordered Text Foundation Commands Devices.
From S2P Require Import Snapshot SqliteStore SqliteFile CommandState ControlPlane.
Local Open Scope string_scope.
Local Open Scope Z_scope.

(** ** Outcomes *)

Inductive LegacyJsonImportOutcome := Imported | AlreadyImported.

Module LegacyJsonMigrationStats.
Record t := mk {
  legacy_config_fingerprints : Z;
  legacy_binary_fingerprints : Z;
  recovered_command_results : Z;
  recovered_legacy_claims : Z;
  canonicalized_result_keys : Z;
  removed_canonical_claim_keys : Z;
  rebuilt_result_order : bool;
  evicted_command_results : Z;
}.

Definition default : t := mk 0 0 0 0 0 0 false 0.

Definition add_fingerprints (config binary : Z) (s : t) : t :=
  mk (legacy_config_fingerprints s + config) (legacy_binary_fingerprints s + binary)
    (recovered_command_results s) (recovered_legacy_claims s) (canonicalized_result_keys s)
    (removed_canonical_claim_keys s) (rebuilt_result_order s) (evicted_command_results s).
Definition add_recovered_result (s : t) : t :=
  mk (legacy_config_fingerprints s) (legacy_binary_fingerprints s)
    (recovered_command_results s + 1) (recovered_legacy_claims s) (canonicalized_result_keys s)
    (removed_canonical_claim_keys s) (rebuilt_result_order s) (evicted_command_results s).
Definition add_recovered_claim (s : t) : t :=
  mk (legacy_config_fingerprints s) (legacy_binary_fingerprints s)
    (recovered_command_results s) (recovered_legacy_claims s + 1) (canonicalized_result_keys s)
    (removed_canonical_claim_keys s) (rebuilt_result_order s) (evicted_command_results s).
Definition add_canonicalized (s : t) : t :=
  mk (legacy_config_fingerprints s) (legacy_binary_fingerprints s)
    (recovered_command_results s) (recovered_legacy_claims s) (canonicalized_result_keys s + 1)
    (removed_canonical_claim_keys s) (rebuilt_result_order s) (evicted_command_results s).
Definition add_removed (s : t) : t :=
  mk (legacy_config_fingerprints s) (legacy_binary_fingerprints s)
    (recovered_command_results s) (recovered_legacy_claims s) (canonicalized_result_keys s)
    (removed_canonical_claim_keys s + 1) (rebuilt_result_order s) (evicted_command_results s).
Definition set_rebuilt (rebuilt : bool) (s : t) : t :=
  mk (legacy_config_fingerprints s) (legacy_binary_fingerprints s)
    (recovered_command_results s) (recovered_legacy_claims s) (canonicalized_result_keys s)
    (removed_canonical_claim_keys s) rebuilt (evicted_command_results s).
Definition add_evicted (s : t) : t :=
  mk (legacy_config_fingerprints s) (legacy_binary_fingerprints s)
    (recovered_command_results s) (recovered_legacy_claims s) (canonicalized_result_keys s)
    (removed_canonical_claim_keys s) (rebuilt_result_order s) (evicted_command_results s + 1).
End LegacyJsonMigrationStats.

Abbreviation Stats := LegacyJsonMigrationStats.t.

Record LegacyJsonImportReport := mk_report {
  outcome : LegacyJsonImportOutcome;
  report_devices : nat;
  report_pending_commands : nat;
  report_replay_records : nat;
  migration : Stats;
}.

Inductive LegacyJsonViolation :=
| FingerprintFieldShape | ConflictingCommandResult | ConflictingLegacyClaim | OrphanLegacyClaim
| LegacyReplayCapacityExceeded | ReplayOrderInconsistent.

Definition LegacyJsonViolation_fmt (v : LegacyJsonViolation) : string :=
  match v with
  | FingerprintFieldShape => "legacy fingerprint field has an invalid JSON shape"
  | ConflictingCommandResult => "legacy command result conflicts with canonical replay state"
  | ConflictingLegacyClaim => "legacy idempotency claim conflicts with its command"
  | OrphanLegacyClaim => "legacy idempotency claim has no recoverable command result"
  | LegacyReplayCapacityExceeded => "legacy replay capacity cannot be normalized safely"
  | ReplayOrderInconsistent => "legacy replay order is inconsistent"
  end.

Inductive LegacyJsonImportError :=
| ImportJson
| ImportFingerprint (field : string) (source : FingerprintInputError)
| ImportViolation (v : LegacyJsonViolation)
| ImportSnapshot (v : SnapshotViolation)
| ImportStore (e : StoreFailure)
| TargetContainsDifferentState
| ParityMismatch.

(** The text of an import error; a source error adds nothing to it. *)
Definition LegacyJsonImportError_fmt (u32_to_string : Z -> string) (e : LegacyJsonImportError) : string :=
  match e with
  | ImportJson => "legacy control-plane JSON is invalid"
  | ImportFingerprint field _ => "legacy " ++ field ++ " value is unsupported"
  | ImportViolation v => LegacyJsonViolation_fmt v
  | ImportSnapshot v => SnapshotViolation_fmt u32_to_string v
  | ImportStore _ => "SQLite legacy import operation failed"
  | TargetContainsDifferentState => "SQLite target already contains different canonical state"
  | ParityMismatch => "SQLite rehydration does not match the imported canonical snapshot"
  end.

(** ** JSON values *)

(** [serde_json::Value]; the entries of an object in the order of its map. *)
Inductive Json :=
| JNull | JBool (b : bool) | JNumber (n : Z) | JString (s : string)
| JArray (l : list Json) | JObject (entries : list (string * Json)).

(** [Value::as_object], [Value::as_str] and [Map::get]. *)
Definition as_object (v : Json) : option (list (string * Json)) :=
  match v with JObject entries => Some entries | _ => None end.
Definition as_str (v : Json) : option string :=
  match v with JString s => Some s | _ => None end.
Definition get (key : string) (entries : list (string * Json)) : option Json :=
  snd <$> List.find (fun e => bool_decide (e.1 = key)) entries.

(** Reading a text as JSON, and a JSON value as the stored state. *)
Class LegacyJson `{Blake3} := {
  json_from_str : string -> option Json;
  state_from_value : Json -> option StoredState;
}.

Section Fingerprints.
Context `{Blake3}.
Local Open Scope rust_scope.

(** [None] is an absent field.  The result is what the counter grows by. *)
Definition classify_fingerprint (value : option Json) (field : string)
    : result Z LegacyJsonImportError :=
  match value with
  | None | Some JNull => Ok 0
  | Some value =>
      let? raw := ok_or (as_str value) (ImportViolation FingerprintFieldShape) in
      let? input := map_err (ImportFingerprint field) (fingerprint_parse raw) in
      Ok (if is_legacy input then 1 else 0)
  end.

Definition device_fingerprints (stats : Stats) (device : string * Json)
    : result Stats LegacyJsonImportError :=
  match as_object device.2 with
  | None => Ok stats
  | Some object =>
      let? config := classify_fingerprint (get "config_fingerprint" object) "config_fingerprint" in
      let? binary := classify_fingerprint (get "binary_fingerprint" object) "binary_fingerprint" in
      Ok (LegacyJsonMigrationStats.add_fingerprints config binary stats)
  end.

Definition fingerprint_stats (raw : Json) : result Stats LegacyJsonImportError :=
  match (as_object raw ≫= get "devices") ≫= as_object with
  | None => Ok LegacyJsonMigrationStats.default
  | Some devices => fold_rows device_fingerprints LegacyJsonMigrationStats.default devices
  end.
End Fingerprints.

(** ** Normalization *)

Section Normalize.
Context `{Blake3}.
Local Open Scope rust_scope.

Abbreviation Acc := (CommandState * Stats)%type.

(** First loop: move a result stored under a foreign key to its canonical key. *)
Definition import_result (acc : Acc) (entry : string * DeviceCommand.t)
    : result Acc LegacyJsonImportError :=
  let '(cs, stats) := acc in
  let '(stored_key, command) := entry in
  let canonical := canonical_scope command in
  if bool_decide (stored_key = canonical) then Ok (cs, stats)
  else
    let cs1 := set_results (delete stored_key) cs in
    if is_some_and (idempotency_results cs1 !! canonical)
         (fun existing => negb (bool_decide (existing = command)))
    then Err (ImportViolation ConflictingCommandResult)
    else Ok (set_results (<[canonical := command]>) cs1,
             LegacyJsonMigrationStats.add_canonicalized stats).

Definition ensure_legacy_claim (acc : Acc) (command : DeviceCommand.t)
    : result Acc LegacyJsonImportError :=
  let '(cs, stats) := acc in
  let legacy := legacy_scope_for_command command in
  match idempotency cs !! legacy with
  | Some existing =>
      if negb (bool_decide (existing = DeviceCommand.command_id command))
      then Err (ImportViolation ConflictingLegacyClaim)
      else Ok (cs, stats)
  | None =>
      Ok (set_idempotency (<[legacy := DeviceCommand.command_id command]>) cs,
          LegacyJsonMigrationStats.add_recovered_claim stats)
  end.

Definition queued_commands (cs : CommandState) : list (string * DeviceCommand.t) :=
  List.concat ((fun e : string * list DeviceCommand.t => (fun c => (e.1, c)) <$> e.2)
                 <$> map_to_list (queues cs)).

(** Second loop: every queued command has its result and its claim. *)
Definition import_queued (acc : Acc) (entry : string * DeviceCommand.t)
    : result Acc LegacyJsonImportError :=
  let '(cs, stats) := acc in
  let '(device_id, command) := entry in
  if negb (bool_decide (DeviceCommand.device_id command = device_id))
  then Err (ImportSnapshot PendingDeviceMismatch)
  else
    let canonical := canonical_scope command in
    match idempotency_results cs !! canonical with
    | Some existing =>
        if negb (bool_decide (existing = command))
        then Err (ImportViolation ConflictingCommandResult)
        else ensure_legacy_claim (cs, stats) command
    | None =>
        ensure_legacy_claim (set_results (<[canonical := command]>) cs,
                             LegacyJsonMigrationStats.add_recovered_result stats) command
    end.

(** Third loop: every result has its claim and no canonical one. *)
Definition import_canonical (acc : Acc) (entry : string * DeviceCommand.t)
    : result Acc LegacyJsonImportError :=
  let '(canonical, command) := entry in
  let? ensured := ensure_legacy_claim acc command in
  let '(cs, stats) := ensured in
  if bool_decide (canonical = legacy_scope_for_command command) then Ok (cs, stats)
  else match idempotency cs !! canonical with
  | None => Ok (cs, stats)
  | Some existing =>
      if negb (bool_decide (existing = DeviceCommand.command_id command))
      then Err (ImportViolation ConflictingLegacyClaim)
      else Ok (set_idempotency (delete canonical) cs, LegacyJsonMigrationStats.add_removed stats)
  end.

(** [rebuild_order], with the kept and missing keys as the control plane
    computes them. *)
Definition import_rebuild_order (acc : Acc) : Acc :=
  let '(cs, stats) := acc in
  let kept := keep_order cs (idempotency_order cs) in
  let normalized := (kept ++ missing_keys cs kept)%list in
  (set_order (fun _ => normalized) cs,
   LegacyJsonMigrationStats.set_rebuilt
     (negb (bool_decide (normalized = idempotency_order cs))) stats).

(** A result that no queue holds; an order entry without result stays. *)
Definition import_evictable (cs : CommandState) (key : string) : bool :=
  is_some_and (idempotency_results cs !! key)
    (fun command => negb (command_is_pending cs (DeviceCommand.command_id command))).

(** The loop of [trim_results]; every turn shortens the order by one. *)
Fixpoint trim_results (fuel : nat) (acc : Acc) : result Acc LegacyJsonImportError :=
  let '(cs, stats) := acc in
  if (List.length (idempotency_order cs) <=? MAX_IDEMPOTENCY_RESULTS)%nat then Ok (cs, stats)
  else match fuel with
  | O => Err (ImportViolation LegacyReplayCapacityExceeded)
  | S fuel' =>
      match remove_first (import_evictable cs) (idempotency_order cs) with
      | None => Err (ImportViolation LegacyReplayCapacityExceeded)
      | Some (key, rest) =>
          if is_some (idempotency_results cs !! key)
          then trim_results fuel' (evict key rest cs, LegacyJsonMigrationStats.add_evicted stats)
          else Err (ImportViolation ReplayOrderInconsistent)
      end
  end.

Definition expected_claim (expected : gmap string CommandId) (entry : string * DeviceCommand.t)
    : result (gmap string CommandId) LegacyJsonImportError :=
  let command := entry.2 in
  let key := legacy_scope_for_command command in
  if is_some_and (expected !! key)
       (fun existing => negb (bool_decide (existing = DeviceCommand.command_id command)))
  then Err (ImportViolation ConflictingLegacyClaim)
  else Ok (<[key := DeviceCommand.command_id command]> expected).

Definition import_validate_claims (cs : CommandState) : result unit LegacyJsonImportError :=
  let? expected := fold_rows expected_claim ∅ (map_to_list (idempotency_results cs)) in
  if negb (size (idempotency cs) =? size expected)%nat then Err (ImportViolation OrphanLegacyClaim)
  else if existsb (fun claim => negb (bool_decide (expected !! claim.1 = Some claim.2)))
            (map_to_list (idempotency cs))
  then Err (ImportViolation OrphanLegacyClaim)
  else Ok tt.

Definition normalize_commands (cs : CommandState) (stats : Stats)
    : result Acc LegacyJsonImportError :=
  let? acc1 := fold_rows import_result (cs, stats) (map_to_list (idempotency_results cs)) in
  let? acc2 := fold_rows import_queued acc1 (queued_commands acc1.1) in
  let? acc3 := fold_rows import_canonical acc2 (map_to_list (idempotency_results acc2.1)) in
  let acc4 := import_rebuild_order acc3 in
  let? acc5 := trim_results (List.length (idempotency_order acc4.1)) acc4 in
  let? _ := import_validate_claims acc5.1 in
  Ok acc5.
End Normalize.

(** ** Import *)

Section Importing.
Context `{Blake3, UuidText, !JsonText DeviceRecord.t, !JsonText DeviceCommand.t, !JsonValid}.
Context `{!LegacyJson, !JsonText SnapshotDocument.t}.
Local Open Scope rust_scope.

(** The loop that takes the results in the order of retention. *)
Definition take_result (acc : gmap string DeviceCommand.t * list ReplayRecord.t) (scope : string)
    : result (gmap string DeviceCommand.t * list ReplayRecord.t) LegacyJsonImportError :=
  let '(results, replay_records) := acc in
  match results !! scope with
  | None => Err (ImportViolation ReplayOrderInconsistent)
  | Some command =>
      Ok (delete scope results, (replay_records ++ [replay_from_command command])%list)
  end.

(** The snapshot of a legacy state. *)
Definition snapshot_of_legacy (stored : StoredState) (stats : Stats)
    : result (ControlPlaneSnapshot.t * Stats) LegacyJsonImportError :=
  let? normalized := normalize_commands (commands stored) stats in
  let '(cs, stats') := normalized in
  let? taken := fold_rows take_result (idempotency_results cs, []) (idempotency_order cs) in
  let '(left_over, replay_records) := taken in
  if negb (bool_decide (left_over = ∅)) then Err (ImportViolation ReplayOrderInconsistent)
  else
    let? snapshot := map_err ImportSnapshot (from_parts (devices stored) (queues cs) replay_records) in
    Ok (snapshot, stats').

Definition parse_legacy_json (body : string)
    : result (ControlPlaneSnapshot.t * Stats) LegacyJsonImportError :=
  let? raw := ok_or (json_from_str body) ImportJson in
  let? stats := fingerprint_stats raw in
  let? stored := ok_or (state_from_value raw) ImportJson in
  snapshot_of_legacy stored stats.

Definition snapshot_is_empty (s : ControlPlaneSnapshot.t) : bool :=
  bool_decide (ControlPlaneSnapshot.devices s = ∅)
  && bool_decide (ControlPlaneSnapshot.queues s = ∅)
  && bool_decide (ControlPlaneSnapshot.replay_records s = []).

Definition report_of (o : LegacyJsonImportOutcome) (s : ControlPlaneSnapshot.t) (stats : Stats)
    : LegacyJsonImportReport :=
  mk_report o (size (ControlPlaneSnapshot.devices s))
    (sum_list_with List.length (snd <$> string_entries (ControlPlaneSnapshot.queues s)))
    (List.length (ControlPlaneSnapshot.replay_records s)) stats.

(** The tables after the import, whatever it returns. *)
Definition import_legacy_json (db : Tables.t) (body : string)
    : result LegacyJsonImportReport LegacyJsonImportError * Tables.t :=
  match parse_legacy_json body with
  | Err e => (Err e, db)
  | Ok (snapshot, stats) =>
      let expected := to_canonical_json snapshot in
      match load_snapshot db with
      | Err e => (Err (ImportStore e), db)
      | Ok existing =>
          if bool_decide (to_canonical_json existing = expected)
          then (Ok (report_of AlreadyImported snapshot stats), db)
          else if negb (snapshot_is_empty existing) then (Err TargetContainsDifferentState, db)
          else match replace_snapshot db snapshot with
          | Err e => (Err (ImportStore e), db)
          | Ok db' =>
              match load_snapshot db' with
              | Err e => (Err (ImportStore e), db')
              | Ok rehydrated =>
                  if negb (bool_decide (to_canonical_json rehydrated = expected))
                  then (Err ParityMismatch, db')
                  else (Ok (report_of Imported snapshot stats), db')
              end
          end
      end
  end.
End Importing.
