(* ===== verification/LegacyImportTheorems.v ===== *)
(** * What the legacy import guarantees

    An accepted legacy state becomes a well-formed snapshot with its devices and
    queues and no invented command; a well-formed state is imported unchanged;
    and importing is idempotent and never overwrites other data. *)

From stdpp Require Import base gmap strings list fin_maps sorting.
From Stdlib Require Import ZArith Lia String.
From S2P Require Import Prelude Ordered Text Foundation Commands Devices.
From S2P Require Import Snapshot SnapshotTheorems SqliteStore SqliteTheorems SqliteRoundtrip.
From S2P Require Import SqliteFile CommandState CommandInvariant ControlPlane.
From S2P Require Import ControlPlaneInvariant SqliteBackend SqliteBackendTheorems LegacyImport.
Local Open Scope string_scope.
Local Open Scope Z_scope.

Section Importing.
Context `{Blake3Laws, UuidTextLaws, !JsonText DeviceRecord.t, !JsonText DeviceCommand.t, !JsonValid}.
Context `{!JsonTextLaws DeviceRecord.t, !JsonTextLaws DeviceCommand.t}.
Context `{!LegacyJson, !JsonText SnapshotDocument.t, !JsonTextLaws SnapshotDocument.t}.

(** ** From parts to a snapshot *)

Lemma device_rows_inj (m m' : gmap string DeviceRecord.t) :
  device_row <$> string_entries m ≡ₚ device_row <$> string_entries m' -> m = m'.
Proof.
  intros Hp. apply map_eq. intros n. apply option_eq. intros r.
  rewrite <- !(elem_of_entries String.le).
  assert (forall l : list (string * DeviceRecord.t), (n, r) ∈ l <-> device_row (n, r) ∈ device_row <$> l) as Hin.
  { intros l. rewrite list_elem_of_fmap. split; [eauto|].
    by intros ([n' r'] & [= -> ->] & Hl). }
  by rewrite !Hin, Hp.
Qed.

Lemma queue_rows_inj (m m' : gmap string (list DeviceCommand.t)) :
  List.concat (queue_rows <$> string_entries m) ≡ₚ List.concat (queue_rows <$> string_entries m') ->
  forall d, default [] (m !! d) = default [] (m' !! d).
Proof.
  intros Hp d. apply list_eq. intros i. apply option_eq. intros c.
  assert (forall m : gmap string (list DeviceCommand.t), default [] (m !! d) !! i = Some c <->
    pending_row d i c ∈ List.concat (queue_rows <$> string_entries m)) as Hin.
  { intros m0. rewrite elem_of_queue_rows. split.
    - destruct (m0 !! d) as [q|] eqn:Hq; [|done]. simpl. intros Hi. by exists d, q, i, c.
    - intros (d' & q & i' & c' & Hq & Hi & Heq). unfold pending_row in Heq.
      injection Heq as _ <- Hi' <-. apply Nat2Z.inj in Hi' as <-. by rewrite Hq. }
  by rewrite !Hin, Hp.
Qed.

Lemma from_parts_Ok devices queues records s :
  from_parts devices queues records = Ok s ->
  snapshot_ok s /\ ControlPlaneSnapshot.devices s = devices
  /\ (forall d, default [] (ControlPlaneSnapshot.queues s !! d) = default [] (queues !! d))
  /\ replay_commands s ≡ₚ ReplayRecord.command <$> records.
Proof.
  unfold from_parts, from_rows. destruct (existsb _ _); [done|].
  intros [Hok [Hd Hr _ Hp]]%validate_rows_forward. unfold rows in Hd, Hr, Hp. simpl in Hd, Hr, Hp.
  split; [done|]. split_and!.
  - symmetry. by apply device_rows_inj.
  - intros d. symmetry. by apply queue_rows_inj.
  - apply (fmap_Permutation CommandResultRow.result) in Hr. symmetry.
    rewrite <- !list_fmap_compose in Hr. done.
Qed.

(** ** Nothing is invented *)

(** The commands a legacy state carries. *)
Definition carried (cs : CommandState) (c : DeviceCommand.t) : Prop :=
  (exists k, idempotency_results cs !! k = Some c)
  \/ (exists d q, queues cs !! d = Some q /\ c ∈ q).

Record derived (cs cs' : CommandState) : Prop := {
  derived_queues : queues cs' = queues cs;
  derived_results : map_Forall (fun _ c => carried cs c) (idempotency_results cs');
}.

Lemma derived_refl cs : derived cs cs.
Proof. split; [done|]. intros k c Hk. left. eauto. Qed.

Lemma derived_insert cs cs' k c i o :
  derived cs cs' -> carried cs c ->
  derived cs (mk_commands (queues cs') i (<[k := c]> (idempotency_results cs')) o).
Proof. intros [Hq Hr] Hc. split; [done|]. simpl. by apply map_Forall_insert_2. Qed.

Lemma derived_delete cs cs' k i o :
  derived cs cs' -> derived cs (mk_commands (queues cs') i (delete k (idempotency_results cs')) o).
Proof. intros [Hq Hr] . split; [done|]. simpl. by apply map_Forall_delete. Qed.

Lemma derived_other cs cs' i o :
  derived cs cs' -> derived cs (mk_commands (queues cs') i (idempotency_results cs') o).
Proof. intros [Hq Hr]. by split. Qed.

Lemma ensure_derived cs acc c acc' :
  derived cs acc.1 -> ensure_legacy_claim acc c = Ok acc' -> derived cs acc'.1.
Proof.
  destruct acc as [cs' stats]. unfold ensure_legacy_claim. intros Hd.
  destruct (idempotency cs' !! _); [case_if; [done|]|]; intros [= <-]; [done|].
  by apply derived_other.
Qed.

Lemma import_result_derived cs acc k c acc' :
  carried cs c -> derived cs acc.1 -> import_result acc (k, c) = Ok acc' -> derived cs acc'.1.
Proof.
  destruct acc as [cs' stats]. unfold import_result. intros Hc Hd. case_bool_decide; [by intros [= <-]|].
  destruct (is_some_and _ _); [done|]. intros [= <-].
  apply (derived_insert cs (set_results (delete k) cs')); [|done]. by apply derived_delete.
Qed.

Lemma import_queued_derived cs acc d c acc' :
  carried cs c -> derived cs acc.1 -> import_queued acc (d, c) = Ok acc' -> derived cs acc'.1.
Proof.
  destruct acc as [cs' stats]. unfold import_queued. intros Hc Hd. case_if; [done|].
  destruct (idempotency_results cs' !! _) as [existing|]; [case_if; [done|]|].
  - by apply ensure_derived.
  - apply ensure_derived. by apply derived_insert.
Qed.

Lemma import_canonical_derived cs acc e acc' :
  derived cs acc.1 -> import_canonical acc e = Ok acc' -> derived cs acc'.1.
Proof.
  destruct e as [k c]. unfold import_canonical. intros Hd.
  destruct (ensure_legacy_claim acc c) as [[cs' stats]|] eqn:He; [|done]. cbn [result_bind].
  apply (ensure_derived cs) in He; [|done]. case_bool_decide; [by intros [= <-]|].
  destruct (idempotency cs' !! k); [case_if; [done|]|]; intros [= <-]; [|done].
  by apply derived_other.
Qed.

Lemma evict_derived cs cs' key rest : derived cs cs' -> derived cs (evict key rest cs').
Proof.
  intros Hd. unfold evict. destruct (idempotency_results cs' !! key);
    [by apply derived_delete|by apply derived_other].
Qed.

Lemma trim_results_derived cs fuel acc acc' :
  derived cs acc.1 -> trim_results fuel acc = Ok acc' -> derived cs acc'.1.
Proof.
  revert acc. induction fuel as [|fuel IH]; intros [cs' stats] Hd; cbn [trim_results];
    (case_if; [by intros [= <-]|]); [done|].
  destruct (remove_first _ _) as [[key rest]|]; [|done]. case_if; [|done].
  apply IH. by apply evict_derived.
Qed.

Lemma normalize_derived cs stats acc :
  normalize_commands cs stats = Ok acc -> derived cs acc.1.
Proof.
  unfold normalize_commands.
  destruct (fold_rows import_result _ _) as [acc1|] eqn:Hl1; [|done]. cbn [result_bind].
  destruct (fold_rows import_queued _ _) as [acc2|] eqn:Hl2; [|done]. cbn [result_bind].
  destruct (fold_rows import_canonical _ _) as [acc3|] eqn:Hl3; [|done]. cbn [result_bind].
  destruct (trim_results _ _) as [acc5|] eqn:Hl5; [|done]. cbn [result_bind].
  destruct (import_validate_claims _); [|done]. intros [= <-].
  apply (fold_rows_invariant_in _ (fun acc => derived cs acc.1)) in Hl1; [|clear|apply derived_refl].
  2:{ intros b [k c] b' Hin. apply import_result_derived. left. exists k. by apply elem_of_map_to_list. }
  apply (fold_rows_invariant_in _ (fun acc => derived cs acc.1)) in Hl2; [| |done].
  2:{ intros b [d c] b' Hin. apply import_queued_derived. right.
      unfold queued_commands in Hin. rewrite (derived_queues _ _ Hl1) in Hin.
      apply list_elem_of_In, in_concat in Hin as (l & Hq & Hc). apply list_elem_of_In in Hq, Hc.
      apply list_elem_of_fmap in Hq as ([d' q] & -> & Hq%elem_of_map_to_list).
      apply list_elem_of_fmap in Hc as (c' & [= -> ->] & Hc'). eauto. }
  apply (fold_rows_invariant _ (fun acc => derived cs acc.1)) in Hl3; [| |done].
  2:{ intros b a b'. apply import_canonical_derived. }
  apply (trim_results_derived cs) in Hl5; [done|]. destruct acc3 as [cs3 stats3].
  by apply derived_other.
Qed.

(** ** Taking the results *)

Lemma take_results_Ok results order out :
  fold_rows take_result (results, []) order = Ok out ->
  forall c, (exists k, results !! k = Some c) <->
    (exists k, out.1 !! k = Some c) \/ c ∈ ReplayRecord.command <$> out.2.
Proof.
  apply (fold_rows_invariant take_result (fun acc => forall c, (exists k, results !! k = Some c) <->
    (exists k, acc.1 !! k = Some c) \/ c ∈ ReplayRecord.command <$> acc.2) (results, []) order out).
  - intros [left records] scope out' Hacc. unfold take_result.
    destruct (left !! scope) as [c|] eqn:Hs; [|done]. intros [= <-] c'. rewrite Hacc. cbn [fst snd].
    rewrite fmap_app, elem_of_app. csimpl. rewrite list_elem_of_singleton.
    setoid_rewrite lookup_delete_Some.
    split.
    + intros [[k Hk]|?]; [|auto]. destruct (decide (scope = k)) as [<-|]; [right; right; congruence|eauto].
    + intros [(k & _ & Hk)|[?| ->]]; eauto.
  - intros c. cbn [fst snd fmap list_fmap]. rewrite elem_of_nil. naive_solver.
Qed.

Lemma snapshot_of_legacy_Ok stored stats s stats' :
  snapshot_of_legacy stored stats = Ok (s, stats') ->
  snapshot_ok s /\ ControlPlaneSnapshot.devices s = devices stored
  /\ (forall d, default [] (ControlPlaneSnapshot.queues s !! d) = queue_of (commands stored) d)
  /\ (forall c, c ∈ replay_commands s -> carried (commands stored) c).
Proof.
  unfold snapshot_of_legacy.
  destruct (normalize_commands _ _) as [[cs st]|] eqn:Hn; [|done]. cbn [result_bind].
  destruct (fold_rows take_result _ _) as [[left records]|] eqn:Ht; [|done]. cbn [result_bind].
  case_bool_decide as Hleft; [|done]. cbn [negb].
  destruct (from_parts _ _ _) as [s0|] eqn:Hf; [|done]. cbn [map_err result_bind]. intros [= -> ->].
  apply normalize_derived in Hn as [Hq Hr]. cbn [fst] in Hq, Hr.
  apply from_parts_Ok in Hf as (Hok & Hd & Hqs & Hp). split_and!; [done|done| |].
  - intros d. rewrite Hqs, Hq. done.
  - intros c. rewrite Hp. intros Hc.
    destruct (proj2 (take_results_Ok _ _ _ Ht c) (or_intror Hc)) as [k Hk]. by apply (Hr k).
Qed.

(** A legacy file that is accepted becomes a well-formed snapshot: the
    devices are those of the file, every device's queue holds the same commands
    in the same order, each pending command has its replay record, and no
    command appears that the file did not carry. *)
Theorem parse_legacy_json_sound body s stats :
  parse_legacy_json body = Ok (s, stats) ->
  exists raw stored,
    json_from_str body = Some raw /\ state_from_value raw = Some stored
    /\ snapshot_ok s /\ ControlPlaneSnapshot.devices s = devices stored
    /\ (forall d, default [] (ControlPlaneSnapshot.queues s !! d) = queue_of (commands stored) d)
    /\ (forall c, c ∈ replay_commands s -> carried (commands stored) c).
Proof.
  unfold parse_legacy_json. destruct (json_from_str body) as [raw|] eqn:Hraw; [|done].
  cbn [ok_or result_bind]. destruct (fingerprint_stats raw) as [st|]; [|done]. cbn [result_bind].
  destruct (state_from_value raw) as [stored|] eqn:Hst; [|done]. cbn [ok_or result_bind].
  intros Hs. exists raw, stored. split; [done|]. split; [done|]. by eapply snapshot_of_legacy_Ok.
Qed.

(** ** A well-formed state is imported unchanged *)

Lemma ensure_legacy_claim_id cs stats k c :
  core cs -> idempotency_results cs !! k = Some c ->
  ensure_legacy_claim (cs, stats) c = Ok (cs, stats).
Proof.
  intros Hs Hk. unfold ensure_legacy_claim. rewrite (core_legacy cs Hs k c Hk).
  by rewrite bool_decide_true.
Qed.

Lemma import_validate_claims_ok cs : core cs -> import_validate_claims cs = Ok tt.
Proof.
  intros Hc. unfold import_validate_claims.
  rewrite (fold_rows_mono expect_claim expected_claim _ _ (idempotency cs)).
  - cbn [result_bind]. rewrite Nat.eqb_refl. cbn [negb].
    destruct (existsb _ _) eqn:He; [|done]. exfalso. apply existsb_exists in He as ([k id] & Hin & Hb).
    apply list_elem_of_In, elem_of_map_to_list in Hin. cbn [fst snd] in Hb.
    by rewrite bool_decide_true in Hb.
  - intros b [k c] b'. unfold expect_claim, expected_claim. cbn [snd]. case_if; [done|].
    destruct (is_some_and _ _); [done|]. by intros [= <-].
  - by apply expect_claims_all.
Qed.

Lemma trim_results_noop fuel cs stats :
  (List.length (idempotency_order cs) <= MAX_IDEMPOTENCY_RESULTS)%nat ->
  trim_results fuel (cs, stats) = Ok (cs, stats).
Proof. intros Hlen. destruct fuel; cbn [trim_results]; by rewrite (proj2 (Nat.leb_le _ _) Hlen). Qed.

Lemma normalize_commands_id cs stats :
  wf cs -> unaliased cs ->
  normalize_commands cs stats
           = Ok (cs, LegacyJsonMigrationStats.set_rebuilt false stats).
Proof.
  intros [Hs Hlen _] Hu. unfold normalize_commands.
  rewrite fold_rows_id.
  2:{ intros [k c] Hk%elem_of_map_to_list. simpl.
      by rewrite bool_decide_true by (by apply (core_canonical cs Hs)). }
  cbn [result_bind fst]. rewrite fold_rows_id.
  2:{ intros [d c] Hin. unfold queued_commands in Hin.
      apply list_elem_of_In, in_concat in Hin as (l & Hl & Hc). apply list_elem_of_In in Hl, Hc.
      apply list_elem_of_fmap in Hl as ([d' q] & -> & Hq%elem_of_map_to_list).
      apply list_elem_of_fmap in Hc as (c' & [= -> ->] & Hc'). unfold import_queued.
      destruct (core_queue cs Hs d' q Hq) as (_ & _ & Hdev). rewrite Forall_forall in Hdev.
      rewrite (Hdev c' Hc'), bool_decide_true by done. cbn [negb].
      pose proof (core_replay cs Hs d' q c' Hq Hc') as Hr. rewrite Hr, bool_decide_true by done.
      by apply (ensure_legacy_claim_id cs _ _ c' Hs Hr). }
  cbn [result_bind fst]. rewrite fold_rows_id.
  2:{ intros [k c] Hk%elem_of_map_to_list. unfold import_canonical.
      rewrite (ensure_legacy_claim_id cs _ k c Hs Hk). cbn [result_bind].
      case_bool_decide; [done|]. destruct (Hu k c Hk) as [->| ->]; done. }
  cbn [result_bind]. pose proof (rebuild_order_id cs no_migration Hs) as Hro.
  unfold rebuild_order in Hro. injection Hro as Hord _. unfold import_rebuild_order. rewrite Hord.
  assert ((keep_order cs (idempotency_order cs)
    ++ missing_keys cs (keep_order cs (idempotency_order cs)))%list = idempotency_order cs) as ->
    by (apply (f_equal idempotency_order) in Hord; exact Hord).
  rewrite bool_decide_true by done. cbn [negb].
  rewrite trim_results_noop by done. cbn [result_bind fst]. by rewrite import_validate_claims_ok.
Qed.

Lemma take_results_all results order records cmds :
  NoDup order -> Forall2 (fun k c => results !! k = Some c) order cmds ->
  fold_rows take_result (results, records) order
  = Ok (foldr delete results order, (records ++ (replay_from_command <$> cmds))%list).
Proof.
  intros Hnd Hcmds. revert results records Hnd Hcmds. revert cmds.
  induction order as [|k order IH]; intros cmds results records Hnd Hcmds.
  { inversion Hcmds. subst. simpl. by rewrite app_nil_r. }
  inversion Hcmds as [|? c ? cmds' Hk Hrest]; subst. apply NoDup_cons in Hnd as [Hnk Hnd].
  cbn [fold_rows]. unfold take_result at 1. rewrite Hk. rewrite (IH cmds').
  - csimpl. rewrite <- app_assoc. do 2 f_equal. clear. induction order as [|x order IH]; [done|].
    simpl. by rewrite IH, delete_delete.
  - done.
  - apply Forall2_same_length_lookup_2; [by eapply Forall2_length|].
    intros i k' c' Hi Hc'. rewrite lookup_delete_ne.
    + by apply (Forall2_lookup_lr _ _ _ _ _ _ Hrest Hi Hc').
    + intros ->. apply Hnk. by eapply list_elem_of_lookup_2.
Qed.

Lemma delete_all_order cs : core cs -> foldr delete (idempotency_results cs) (idempotency_order cs) = ∅.
Proof.
  intros Hc. apply map_empty. intros k.
  assert (forall (m : gmap string DeviceCommand.t) l, foldr delete m l !! k = None <->
    k ∈ l \/ m !! k = None) as Hd.
  { intros m l. induction l as [|x l IH]; simpl; [set_solver|].
    rewrite lookup_delete_None, IH, elem_of_cons. naive_solver. }
  apply Hd. destruct (idempotency_results cs !! k) eqn:Hk; [left|by right].
  apply (core_order cs Hc). eauto.
Qed.

Lemma order_commands cs :
  core cs -> exists cmds, Forall2 (fun k c => idempotency_results cs !! k = Some c)
                            (idempotency_order cs) cmds.
Proof.
  intros Hc. destruct (collect_replays_ok cs (idempotency_order cs) ∅ [] Hc) as (cmds & _ & ?);
    [apply (core_order_NoDup cs Hc)| |by exists cmds].
  apply Forall_forall. intros k Hk. split; [by apply (core_order cs Hc)|set_solver].
Qed.

Lemma legacy_well_formed_ok (s : StoredState) (stats : Stats) :
  state_ok s -> unaliased (commands s) -> named s ->
  snapshot_of_legacy s stats
  = Ok (snapshot_of s, LegacyJsonMigrationStats.set_rebuilt false stats).
Proof.
  intros Hs Hu Hn. pose proof (wf_core _ (ok_commands s Hs)) as Hc. unfold snapshot_of_legacy.
  rewrite normalize_commands_id by first [apply (ok_commands s Hs)|done]. cbn [result_bind].
  destruct (order_commands _ Hc) as [cmds Hcmds].
  rewrite (take_results_all _ _ _ _ (core_order_NoDup _ Hc) Hcmds). cbn [result_bind].
  rewrite bool_decide_true by (by apply delete_all_order). cbn [negb].
  rewrite (app_nil_l (replay_from_command <$> cmds)).
  rewrite (from_parts_ok s cmds); [done|by apply snapshot_of_ok|by apply ordered_retained].
Qed.

(** A legacy state that is well formed, with no stored scope that is another
    command's index entry, is imported as it is: the snapshot is the one the
    control plane itself would write, and nothing is recovered, rebuilt or
    evicted. *)
Theorem legacy_well_formed_unchanged (s : StoredState) (stats : Stats) :
  state_ok s -> unaliased (commands s) -> named s ->
  snapshot_of_legacy s stats
  = Ok (snapshot_of s, LegacyJsonMigrationStats.set_rebuilt false stats).
Proof. apply legacy_well_formed_ok. Qed.

(** ** Importing *)

Lemma load_snapshot_ok db s : load_snapshot db = Ok s -> snapshot_ok s.
Proof.
  unfold load_snapshot. destruct (load_rows db) as [r|]; [|done]. cbn [result_bind].
  unfold from_rows. destruct (validate_rows r) as [s'|] eqn:Hv; [|done]. intros [= ->].
  by apply validate_rows_forward in Hv as [? _].
Qed.

Lemma parse_legacy_json_ok body s stats : parse_legacy_json body = Ok (s, stats) -> snapshot_ok s.
Proof.
  unfold parse_legacy_json. destruct (ok_or _ _); [|done]. cbn [result_bind].
  destruct (fingerprint_stats _) as [st|]; [|done]. cbn [result_bind].
  destruct (ok_or _ _) as [stored|]; [|done]. cbn [result_bind]. intros Hs.
  by apply snapshot_of_legacy_Ok in Hs as [? _].
Qed.

(** Importing an accepted file into a store that holds a snapshot does one of
    three things: nothing, when the store holds that snapshot already; an error
    and nothing, when it holds another one; and when it is empty, exactly the
    rows of the file, so that importing the file again reports it as imported
    and changes nothing. *)
Theorem import_legacy_json_spec (db : Tables.t) body s stats existing :
  parse_legacy_json body = Ok (s, stats) -> load_snapshot db = Ok existing ->
  (existing = s /\ import_legacy_json db body = (Ok (report_of AlreadyImported s stats), db))
  \/ (existing <> s /\ snapshot_is_empty existing = false
      /\ import_legacy_json db body = (Err TargetContainsDifferentState, db))
  \/ (existing <> s /\ snapshot_is_empty existing = true
      /\ import_legacy_json db body = (Ok (report_of Imported s stats), materialize s)
      /\ load_snapshot (materialize s) = Ok s
      /\ import_legacy_json (materialize s) body
         = (Ok (report_of AlreadyImported s stats), materialize s)).
Proof.
  intros Hparse Hload. pose proof (parse_legacy_json_ok _ _ _ Hparse) as Hs.
  pose proof (load_snapshot_ok _ _ Hload) as Hex. pose proof (load_materialize_ok s Hs) as Hm.
  assert (forall db', load_snapshot db' = Ok s ->
    import_legacy_json db' body = (Ok (report_of AlreadyImported s stats), db')) as Hagain.
  { intros db' Hl. unfold import_legacy_json. rewrite Hparse, Hl. by rewrite bool_decide_true. }
  destruct (decide (to_canonical_json existing = to_canonical_json s)) as [Heq|Hne].
  { apply to_canonical_json_inj in Heq as ->; [|done|done]. left. auto. }
  assert (existing <> s) as Hne' by congruence. right.
  destruct (snapshot_is_empty existing) eqn:He; [right|left].
  - split_and!; auto. unfold import_legacy_json. rewrite Hparse, Hload.
    rewrite bool_decide_false by done. rewrite He. cbn [negb].
    rewrite replace_snapshot_ok by done. rewrite Hm. by rewrite bool_decide_true.
  - split_and!; auto. unfold import_legacy_json. rewrite Hparse, Hload.
    rewrite bool_decide_false by done. by rewrite He.
Qed.
End Importing.

(** ** A legacy file

    A concrete text form of documents, and a file that holds the state of the
    control plane after one command. *)
Module DemoImport.
Import Foundation.Concrete SqliteBackendTheorems.DemoDatabase.

#[global] Instance list_field {A} `{FieldText A} : FieldText (list A).
Proof.
  refine {| field_text l := encode_fields (field_text <$> l);
            text_field s := l ← decode_fields s; mapM text_field l |}.
  intros l. rewrite decode_encode_fields. cbn [mbind option_bind].
  induction l as [|x l IH]; [done|]. cbn [fmap list_fmap mapM]. rewrite text_field_text.
  cbn [mbind option_bind]. change (text_field <$> _) with (text_field <$> l) in IH.
  by rewrite IH.
Defined.

#[global] Instance pair_field {A B} `{FieldText A, FieldText B} : FieldText (A * B).
Proof.
  refine {| field_text p := encode_fields [field_text p.1; field_text p.2];
            text_field s := l ← decode_fields s;
              match l with [x; y] => field (field (Some pair) x) y | _ => None end |}.
  intros [x y]. rewrite decode_encode_fields. cbn [mbind option_bind fst snd].
  by rewrite !field_encode.
Defined.

(** A type whose values are determined by those of another. *)
Definition iso_field {A B} `{FieldText B} (f : A -> B) (g : B -> A) (Hgf : forall x, g (f x) = x) :
  FieldText A.
Proof.
  refine {| field_text x := field_text (f x); text_field s := g <$> text_field s |}.
  intros x. rewrite text_field_text. simpl. by rewrite Hgf.
Defined.

(** A type with a text form of its own. *)
Definition json_field {A} `{JsonTextLaws A} : FieldText A :=
  {| field_text := json_encode; text_field := json_decode; text_field_text := json_decode_encode |}.

#[global] Instance record_field : FieldText DeviceRecord.t := json_field.
#[global] Instance command_field : FieldText DeviceCommand.t := json_field.

#[global] Instance id_field : FieldText CommandId :=
  iso_field (@as_uuid _) (@from_uuid _) ltac:(by intros []).

#[global] Instance device_row_field : FieldText DeviceRow.t :=
  iso_field (fun r => (DeviceRow.node_id r, DeviceRow.record r))
    (fun '(n, r) => DeviceRow.mk n r) ltac:(by intros []).
#[global] Instance result_row_field : FieldText CommandResultRow.t :=
  iso_field (fun r => (CommandResultRow.scope_key r, CommandResultRow.command_id r,
                       CommandResultRow.result r))
    (fun '(k, i, c) => CommandResultRow.mk k i c) ltac:(by intros []).
#[global] Instance claim_row_field : FieldText IdempotencyClaimRow.t :=
  iso_field (fun r => (IdempotencyClaimRow.scope_key r, IdempotencyClaimRow.command_id r,
                       IdempotencyClaimRow.request_fingerprint r))
    (fun '(k, i, f) => IdempotencyClaimRow.mk k i f) ltac:(by intros []).
#[global] Instance pending_row_field : FieldText PendingCommandRow.t :=
  iso_field (fun r => (PendingCommandRow.command_id r, PendingCommandRow.device_id r,
                       PendingCommandRow.queue_position r, PendingCommandRow.command r))
    (fun '(i, d, p, c) => PendingCommandRow.mk i d p c) ltac:(by intros []).
#[global] Instance rows_field : FieldText SnapshotRows.t :=
  iso_field (fun r => (SnapshotRows.devices r, SnapshotRows.command_results r,
                       SnapshotRows.idempotency_claims r, SnapshotRows.pending_commands r))
    (fun '(d, r, c, p) => SnapshotRows.mk d r c p) ltac:(by intros []).
#[global] Instance document_field : FieldText SnapshotDocument.t :=
  iso_field (fun d => (SnapshotDocument.schema_version d, SnapshotDocument.document_rows d))
    (fun '(v, r) => SnapshotDocument.mk v r) ltac:(by intros []).

#[global] Instance document_json : JsonText SnapshotDocument.t :=
  {| json_encode d := encode_fields [field_text d];
     json_decode s := l ← decode_fields s; match l with [x] => text_field x | _ => None end |}.

#[global] Instance document_json_laws : JsonTextLaws SnapshotDocument.t.
Proof.
  split; intros d.
  - unfold json_decode, json_encode, document_json. rewrite decode_encode_fields.
    apply text_field_text.
  - unfold json_valid, marked_valid, json_encode, document_json. by rewrite decode_encode_fields.
Qed.

(** The file ["state"] holds the state after one command. *)
#[global] Instance file_json : LegacyJson :=
  {| json_from_str body := Some (JString body);
     state_from_value v := if bool_decide (as_str v = Some "state") then Some (memory one) else None |}.

Lemma one_state : state_ok (memory one) /\ named (memory one).
Proof. by destruct (sqlite_run_ok _ _ run_one fresh_app_ok). Qed.

Lemma one_unaliased : unaliased (commands (memory one)).
Proof. eapply (bool_decide_eq_true_1 _). vm_compute. reflexivity. Qed.

Lemma file_state : state_from_value (JString "state") = Some (memory one).
Proof. unfold state_from_value, file_json. by rewrite bool_decide_true. Qed.

Lemma file_parsed :
  parse_legacy_json "state" = Ok (snapshot_of (memory one), LegacyJsonMigrationStats.default).
Proof.
  unfold parse_legacy_json. cbn [json_from_str file_json ok_or result_bind].
  cbn [fingerprint_stats as_object mbind option_bind result_bind].
  rewrite file_state.
  cbn [ok_or result_bind].
  by rewrite (legacy_well_formed_ok (memory one) _ (proj1 one_state) one_unaliased (proj2 one_state)).
Qed.

Lemma parse_legacy_json_sound_witness :
  forall c, c ∈ replay_commands (snapshot_of (memory one)) -> carried (commands (memory one)) c.
Proof.
  destruct (parse_legacy_json_sound "state" _ _ file_parsed)
    as (raw & stored & Hraw & Hstored & _ & _ & _ & Hc).
  apply (inj Some) in Hraw as <-. rewrite file_state in Hstored. apply (inj Some) in Hstored.
  rewrite <- Hstored in Hc. exact Hc.
Defined.

Lemma legacy_well_formed_unchanged_witness :
  snapshot_of_legacy (memory one) LegacyJsonMigrationStats.default
  = Ok (snapshot_of (memory one), LegacyJsonMigrationStats.default).
Proof. apply (legacy_well_formed_unchanged (memory one));
  first [apply one_state|apply one_unaliased]. Defined.

(** An empty database takes the file, and the second import finds it. *)
Lemma import_legacy_json_spec_witness :
  import_legacy_json Tables.empty "state"
  = (Ok (report_of Imported (snapshot_of (memory one)) LegacyJsonMigrationStats.default),
     materialize (snapshot_of (memory one))).
Proof.
  destruct (import_legacy_json_spec Tables.empty "state" (snapshot_of (memory one))
    LegacyJsonMigrationStats.default (snapshot_of (memory fresh_app)) file_parsed)
    as [[Heq _]|[(_ & He & _)|(_ & _ & Hi & _)]].
  - apply (load_materialize_ok _ empty_snapshot_ok).
  - exfalso. apply (f_equal ControlPlaneSnapshot.queues) in Heq.
    assert (queues (commands (memory one)) !! "phone" = None) as Hq.
    { change (queues (commands (memory one)))
        with (ControlPlaneSnapshot.queues (snapshot_of (memory one))). by rewrite <- Heq. }
    vm_compute in Hq. discriminate.
  - discriminate.
  - exact Hi.
Defined.
End DemoImport.
