(* ===== verification/StateTools.v ===== *)
(** * Maintenance tools of the control plane

    The two binaries that move the control plane's state between files,
    [services/control-plane/src/bin/control-plane-state-migrate.rs] (import,
    export and rollback) and [control-plane-state-backup.rs] (backup, restore
    and verification).  The files are those of [FileTree]; what the operating
    system and SQLite's [VACUUM INTO] do is a [Host]. *)

From stdpp Require Import base gmap strings list fin_maps.
From Stdlib Require Import ZArith Lia String.
From S2P Require Import Prelude Ordered Text NetText FileTree Foundation Commands Devices.
From S2P Require Import Snapshot SqliteStore SqliteFile CommandState ControlPlane LegacyImport.
Local Open Scope string_scope.
Local Open Scope Z_scope.

(** ** Files and the host *)

(** What a regular file holds; [Sidecar] is a write-ahead log or its index. *)
Inductive Content := Db (f : DbFile.t) | Body (text : string) | Sidecar (log : string).

Inductive IoStep :=
| ReadInput | CreateDirectory | OpenDatabase | CreateTemporary | WriteTemporary | SyncTemporary
| Publish | SyncParent | Metadata.

Module Host.
Record t := mk {
  cwd : Components;
  io_ok : IoStep -> string -> bool;         (* by the path it is about *)
  partial : string;                         (* what a failed write has written *)
  fresh : DbFile.t;                         (* a database file SQLite creates *)
  vacuum_ok : bool;                         (* of [VACUUM main INTO] *)
  vacuumed : option Content;                (* the file it leaves at its target *)
  replay : DbFile.t -> string -> DbFile.t;  (* a database read together with a log *)
  checkpoints : bool;                       (* closing a database writes its log back *)
  leaves_wal : option string;               (* sidecars the validation leaves *)
  leaves_shm : bool;
  bytes_of : Content -> Z;                  (* the length of a file *)
}.
End Host.

Inductive ToolError :=
| PathError | NotDistinct | ReadFailed
| InvalidLegacy (e : LegacyJsonImportError)
| OpenFailed (e : StoreError)
| ImportFailed (e : LegacyJsonImportError)
| RehydrateFailed (e : StoreFailure)
| SourceMissing | RollbackNotRepresentable
| DirectoryFailed | TemporaryFailed | WriteFailed | SyncFailed | PublishFailed | ParentSyncFailed
| TargetExists | TemporaryExists | SchemaChanged | VacuumFailed | CandidateDiffers | MetadataFailed.

Abbreviation Tool := (Fallible (Files Content) ToolError).

Section Store.
Context (h : Host.t).
Local Open Scope rust_scope.

Abbreviation at_path := (resolve (Host.cwd h)).

(** The database file read together with what lies beside it under the name of
    its log, whichever database that was the log of; what is no log is ignored. *)
Definition with_log (f : DbFile.t) (wal : option (Entry Content)) : DbFile.t :=
  match wal with
  | Some (Regular (Sidecar log)) => Host.replay h f log
  | _ => f
  end.

(** The database SQLite sees in a file and the entry of its log.  An empty file
    is an empty database, whose log is discarded; a log that cannot be opened is
    an error.  A rollback journal is not made in write-ahead mode and is left
    out. *)
Definition database_of (entry wal : option (Entry Content)) : option DbFile.t :=
  match wal, entry with
  | Some Directory, _ => None
  | _, None => Some (Host.fresh h)
  | _, Some (Regular (Db f)) => Some (with_log f wal)
  | _, Some (Regular (Body text)) => if bool_decide (text = "") then Some (Host.fresh h) else None
  | _, Some (Regular (Sidecar _)) | _, Some Directory => None
  end.

Definition database_at (fs : Files Content) (path : string) : option DbFile.t :=
  database_of (fs !! at_path path) (fs !! at_path (wal_path path)).

(** Closing the last connection writes the log back and removes it; it stays
    while another process has the database open. *)
Definition close (path : string) (fs : Files Content) : Files Content :=
  match fs !! at_path path, fs !! at_path (wal_path path) with
  | Some (Regular (Db f)), Some (Regular _ as wal) =>
      if Host.checkpoints h
      then <[at_path path := Regular (Db (with_log f (Some wal)))]> (delete (at_path (wal_path path)) fs)
      else fs
  | _, _ => fs
  end.

(** The file after [SqliteStore::initialize], also when that fails later on. *)
Definition opened (f : DbFile.t) : DbFile.t :=
  match configure_connection f true with
  | Err _ => f
  | Ok _ => match apply_migrations f with Ok f' => f' | Err _ => f end
  end.

(** [SqliteStore::open].  The tools that use it are the only ones to have the
    database open, so that its log has been written back when they close it. *)
Definition store_open (path : string) : Tool DbFile.t :=
  let! _ := guard (negb (has_parent path) || Host.io_ok h CreateDirectory path) (OpenFailed Io) in
  let! fs := get_state in
  let! f := lift (ok_or (database_at fs path) (OpenFailed Database)) in
  let! _ := guard (Host.io_ok h OpenDatabase path) (OpenFailed Database) in
  let! _ := put_state (<[at_path path := Regular (Db (opened f))]>
                         (delete (at_path (wal_path path)) fs)) in
  lift (map_err OpenFailed (initialize f true)).

(** [SqliteStore::open_existing], and the files after the store is dropped. *)
Definition store_open_existing (path : string) : Tool DbFile.t :=
  let! fs := get_state in
  match fs !! at_path path with
  | None => bail (OpenFailed Database)
  | Some _ =>
      let! f := lift (ok_or (database_at fs path) (OpenFailed Database)) in
      let! _ := guard (Host.io_ok h OpenDatabase path) (OpenFailed Database) in
      let! _ := put_state (close path fs) in
      lift (map_err OpenFailed (open_existing (Some f)))
  end.

(** [fs::read_to_string] *)
Definition read_to_string (path : string) : Tool string :=
  let! _ := guard (Host.io_ok h ReadInput path) ReadFailed in
  let! fs := get_state in
  match regular fs (at_path path) with
  | Some (Body text) => yield text
  | _ => bail ReadFailed
  end.

(** [sync_parent] of either binary *)
Definition sync_parent (path : string) : Tool unit :=
  guard (negb (has_parent path) || Host.io_ok h SyncParent path) ParentSyncFailed.

(** ** Publishing a text *)

Definition write_file (path text : string) : Tool unit :=
  let! fs := get_state in put_state (<[at_path path := Regular (Body text)]> fs).

Definition rename_file (from to : string) : Tool unit :=
  let! fs := get_state in
  match rename (at_path from) (at_path to) fs with
  | Some fs' => if Host.io_ok h Publish to then put_state fs' else bail PublishFailed
  | None => bail PublishFailed
  end.

Definition write_atomic (path body : string) : Tool unit :=
  let! _ := guard (negb (has_parent path) || Host.io_ok h CreateDirectory path) DirectoryFailed in
  let temporary := temporary_path path in
  let! fs := get_state in
  let! _ := guard (Host.io_ok h CreateTemporary temporary
                   && negb (is_directory fs (at_path temporary))) TemporaryFailed in
  let! _ := write_file temporary "" in
  let! _ := write_file temporary (if Host.io_ok h WriteTemporary temporary then body
                                  else Host.partial h) in
  let! _ := guard (Host.io_ok h WriteTemporary temporary) WriteFailed in
  let! _ := guard (Host.io_ok h SyncTemporary temporary) SyncFailed in
  let! _ := rename_file temporary path in
  sync_parent path.
End Store.


(** ** Import, export and rollback *)

Module Migrate.
Section Migrate.
Context `{Blake3, UuidText, !JsonText DeviceRecord.t, !JsonText DeviceCommand.t, !JsonValid}.
Context `{!LegacyJson, !JsonText SnapshotDocument.t, !JsonText StoredState}.
Context (h : Host.t).
Local Open Scope rust_scope.

Abbreviation at_path := (resolve (Host.cwd h)).

(** The two nested loops over the absolute paths. *)
Fixpoint all_distinct (paths : list Components) : bool :=
  match paths with
  | [] => true
  | path :: rest => negb (existsb (fun other => bool_decide (other = path)) rest) && all_distinct rest
  end.

Definition ensure_distinct (paths : list string) : result unit ToolError :=
  let? paths := ok_or (mapM (absolute (Host.cwd h)) paths) PathError in
  if all_distinct paths then Ok tt else Err NotDistinct.

Definition pending_count (s : ControlPlaneSnapshot.t) : nat :=
  sum_list_with List.length (snd <$> string_entries (ControlPlaneSnapshot.queues s)).

(** The counts every report has, and the size of what was written. *)
Definition counts (devices pending replays : nat) (bytes_field body : string)
    : list (string * Json) :=
  [("devices", JNumber (Z.of_nat devices)); ("pending_commands", JNumber (Z.of_nat pending));
   ("replay_records", JNumber (Z.of_nat replays));
   (bytes_field, JNumber (Z.of_nat (String.length body)))].

Definition migration_fields (m : Stats) : Json :=
  JObject
    [("legacy_config_fingerprints", JNumber (LegacyJsonMigrationStats.legacy_config_fingerprints m));
     ("legacy_binary_fingerprints", JNumber (LegacyJsonMigrationStats.legacy_binary_fingerprints m));
     ("recovered_command_results", JNumber (LegacyJsonMigrationStats.recovered_command_results m));
     ("recovered_legacy_claims", JNumber (LegacyJsonMigrationStats.recovered_legacy_claims m));
     ("canonicalized_result_keys", JNumber (LegacyJsonMigrationStats.canonicalized_result_keys m));
     ("removed_canonical_claim_keys",
      JNumber (LegacyJsonMigrationStats.removed_canonical_claim_keys m));
     ("rebuilt_result_order", JBool (LegacyJsonMigrationStats.rebuilt_result_order m));
     ("evicted_command_results", JNumber (LegacyJsonMigrationStats.evicted_command_results m))].

Definition print_import_report (report : LegacyJsonImportReport) (diagnostic : string) : Json :=
  let outcome := match outcome report with
                 | Imported => "imported"
                 | AlreadyImported => "already_imported"
                 end in
  JObject (([("operation", JString "import"); ("outcome", JString outcome)]
            ++ counts (report_devices report) (report_pending_commands report)
                 (report_replay_records report) "diagnostic_bytes" diagnostic
            ++ [("migration", migration_fields (migration report))])%list).

(** [store.import_legacy_json], on the file the store was opened from. *)
Definition import_into (sqlite : string) (f : DbFile.t) (body : string)
    : Tool (LegacyJsonImportReport * DbFile.t) :=
  let '(outcome, tables) := import_legacy_json (DbFile.tables f) body in
  let f' := DbFile.set_tables tables f in
  let! fs := get_state in
  let! _ := put_state (<[at_path sqlite := Regular (Db f')]> fs) in
  let! report := lift (map_err ImportFailed outcome) in
  yield (report, f').

Definition import (legacy_json sqlite diagnostic_json : string) : Tool Json :=
  let! _ := lift (ensure_distinct [legacy_json; sqlite; diagnostic_json]) in
  let! body := read_to_string h legacy_json in
  let! _ := lift (map_err InvalidLegacy (parse_legacy_json body)) in
  let! f := store_open h sqlite in
  let! imported := import_into sqlite f body in
  let! snapshot := lift (map_err RehydrateFailed (load_snapshot (DbFile.tables imported.2))) in
  let diagnostic := to_canonical_json snapshot in
  let! _ := write_atomic h diagnostic_json diagnostic in
  yield (print_import_report imported.1 diagnostic).

Definition load_export_snapshot (sqlite : string) : Tool ControlPlaneSnapshot.t :=
  let! fs := get_state in
  let! _ := guard (is_some (regular fs (at_path sqlite))) SourceMissing in
  let! f := store_open h sqlite in
  lift (map_err RehydrateFailed (load_snapshot (DbFile.tables f))).

Definition export_report (operation bytes_field : string) (s : ControlPlaneSnapshot.t) (body : string)
    : Json :=
  JObject (("operation", JString operation)
           :: counts (size (ControlPlaneSnapshot.devices s)) (pending_count s)
                (List.length (ControlPlaneSnapshot.replay_records s)) bytes_field body).

Definition export (sqlite diagnostic_json : string) : Tool Json :=
  let! _ := lift (ensure_distinct [sqlite; diagnostic_json]) in
  let! snapshot := load_export_snapshot sqlite in
  let diagnostic := to_canonical_json snapshot in
  let! _ := write_atomic h diagnostic_json diagnostic in
  yield (export_report "export" "diagnostic_bytes" snapshot diagnostic).

(** The loop body of [serialize_json_backend]: the claim is inserted first, then
    the result, and either may replace an entry. *)
Definition add_rollback (cs : CommandState) (replay : ReplayRecord.t)
    : result CommandState ToolError :=
  let scope := ContentDigest_to_string (ReplayRecord.scope_key replay) in
  let command := ReplayRecord.command replay in
  let legacy_scope := DeviceCommand.device_id command ++ ":"
                        ++ key_as_str (DeviceCommand.idempotency_key command) in
  let idempotency' := <[legacy_scope := DeviceCommand.command_id command]> (idempotency cs) in
  if is_some (idempotency cs !! legacy_scope) || is_some (idempotency_results cs !! scope)
  then Err RollbackNotRepresentable
  else Ok (mk_commands (queues cs) idempotency'
             (<[scope := command]> (idempotency_results cs))
             (idempotency_order cs ++ [scope])%list).

(** The [JsonBackendState] that is serialized. *)
Definition json_backend_state (snapshot : ControlPlaneSnapshot.t) : result StoredState ToolError :=
  let? cs := fold_rows add_rollback (mk_commands (ControlPlaneSnapshot.queues snapshot) ∅ ∅ [])
               (ControlPlaneSnapshot.replay_records snapshot) in
  Ok (mk_stored (ControlPlaneSnapshot.devices snapshot) cs).

Definition serialize_json_backend (snapshot : ControlPlaneSnapshot.t) : result string ToolError :=
  result_map json_encode (json_backend_state snapshot).

Definition rollback_export (sqlite rollback_json : string) : Tool Json :=
  let! _ := lift (ensure_distinct [sqlite; rollback_json]) in
  let! snapshot := load_export_snapshot sqlite in
  let! body := lift (serialize_json_backend snapshot) in
  let! _ := write_atomic h rollback_json body in
  yield (export_report "rollback_export" "rollback_bytes" snapshot body).

(** [main] *)
Inductive Command :=
| Import (legacy_json sqlite diagnostic_json : string)
| Export (sqlite diagnostic_json : string)
| RollbackExport (sqlite rollback_json : string).

Definition run (command : Command) : Tool Json :=
  match command with
  | Import legacy_json sqlite diagnostic_json => import legacy_json sqlite diagnostic_json
  | Export sqlite diagnostic_json => export sqlite diagnostic_json
  | RollbackExport sqlite rollback_json => rollback_export sqlite rollback_json
  end.
End Migrate.
End Migrate.

(** ** Backup, restore and verification *)

Module Backup.
Section Backup.
Context `{Blake3, UuidText, !JsonText DeviceRecord.t, !JsonText DeviceCommand.t, !JsonValid}.
Context `{!JsonText SnapshotDocument.t}.
Context (h : Host.t).
Local Open Scope rust_scope.

Abbreviation at_path := (resolve (Host.cwd h)).

Record ValidatedState := mk_validated {
  canonical : string;
  devices : nat;
  pending_commands : nat;
  replay_records : nat;
}.

Definition ensure_distinct (source target : string) : result unit ToolError :=
  let? source := ok_or (absolute (Host.cwd h) source) PathError in
  let? target := ok_or (absolute (Host.cwd h) target) PathError in
  if bool_decide (source = target) then Err NotDistinct else Ok tt.

Definition ensure_new_target (path : string) : Tool unit :=
  let temporary := temporary_path path in
  let! fs := get_state in
  let! _ := guard (negb (exists_at fs (at_path path))) TargetExists in
  guard (negb (exists_at fs (at_path temporary) || exists_at fs (at_path (wal_path temporary))
               || exists_at fs (at_path (shm_path temporary)))) TemporaryExists.

Definition validated (s : ControlPlaneSnapshot.t) : ValidatedState :=
  mk_validated (to_canonical_json s) (size (ControlPlaneSnapshot.devices s))
    (Migrate.pending_count s) (List.length (ControlPlaneSnapshot.replay_records s)).

Definition validate (path : string) : Tool ValidatedState :=
  let! fs := get_state in
  let! _ := guard (is_some (regular fs (at_path path))) SourceMissing in
  let! f := store_open_existing h path in
  let! _ := guard (DbFile.user_version f =? SCHEMA_VERSION) SchemaChanged in
  let! snapshot := lift (map_err RehydrateFailed (load_snapshot (DbFile.tables f))) in
  yield (validated snapshot).

Definition prepare_parent (path : string) : Tool unit :=
  guard (negb (has_parent path) || Host.io_ok h CreateDirectory path) DirectoryFailed.

(** [VACUUM main INTO], which may leave anything at its target. *)
Definition vacuum_into (target : string) : Tool unit :=
  let! fs := get_state in
  let! _ := put_state (partial_alter (fun _ => Regular <$> Host.vacuumed h) (at_path target) fs) in
  guard (Host.vacuum_ok h) VacuumFailed.

Definition materialize (source target : string) : Tool unit :=
  let! _ := store_open_existing h source in
  vacuum_into target.

Definition remove_sidecars (path : string) (fs : Files Content) : Files Content :=
  remove_file (at_path (shm_path path)) (remove_file (at_path (wal_path path)) fs).

Definition cleanup (path : string) (fs : Files Content) : Files Content :=
  remove_sidecars path (remove_file (at_path path) fs).

(** [if let Err(error) = step { cleanup(temporary); return Err(error); }] *)
Definition or_cleanup {A} (temporary : string) (step : Tool A) : Tool A :=
  fun fs => match step fs with
            | (Ok a, fs') => (Ok a, fs')
            | (Err e, fs') => (Err e, cleanup temporary fs')
            end.

(** Opening the candidate in write-ahead mode may leave its sidecars. *)
Definition leave_sidecars (path : string) (fs : Files Content) : Files Content :=
  let fs := match Host.leaves_wal h with
            | Some log => <[at_path (wal_path path) := Regular (Sidecar log)]> fs
            | None => fs
            end in
  if Host.leaves_shm h then <[at_path (shm_path path) := Regular (Sidecar "")]> fs else fs.

Definition validate_candidate (path : string) : Tool ValidatedState :=
  fun fs => let '(r, fs') := validate path fs in (r, leave_sidecars path fs').

Definition ensure_parity (source candidate : ValidatedState) : Tool unit :=
  guard (bool_decide (canonical source = canonical candidate)) CandidateDiffers.

(** [fs::metadata(path)?.len()] *)
Definition metadata_len (path : string) : Tool Z :=
  let! fs := get_state in
  match fs !! at_path path with
  | Some (Regular content) =>
      if Host.io_ok h Metadata path then yield (Host.bytes_of h content) else bail MetadataFailed
  | _ => bail MetadataFailed
  end.

Definition publish (temporary target : string) : Tool unit :=
  let! fs := get_state in
  let! _ := put_state (remove_sidecars temporary fs) in
  let! _ := rename_file h temporary target in
  sync_parent h target.

Definition print_report (operation : string) (state : ValidatedState) (extra : string * Json) : Json :=
  JObject [("operation", JString operation); ("schema_version", JNumber SCHEMA_VERSION);
           ("devices", JNumber (Z.of_nat (devices state)));
           ("pending_commands", JNumber (Z.of_nat (pending_commands state)));
           ("replay_records", JNumber (Z.of_nat (replay_records state))); extra].

Definition materialize_validated (source_path target_path operation : string) : Tool Json :=
  let! _ := lift (ensure_distinct source_path target_path) in
  let! _ := ensure_new_target target_path in
  let! source := validate source_path in
  let! _ := prepare_parent target_path in
  let temporary := temporary_path target_path in
  let! _ := or_cleanup temporary (materialize source_path temporary) in
  let! candidate := or_cleanup temporary (validate_candidate temporary) in
  let! _ := or_cleanup temporary (ensure_parity source candidate) in
  let! bytes := metadata_len temporary in
  let! _ := publish temporary target_path in
  yield (print_report operation source ("artifact_bytes", JNumber bytes)).

Definition backup_state (sqlite backup : string) : Tool Json :=
  materialize_validated sqlite backup "backup".

Definition restore_state (backup sqlite : string) : Tool Json :=
  materialize_validated backup sqlite "restore".

Definition verify_state (sqlite : string) : Tool Json :=
  let! state := validate sqlite in
  yield (print_report "verify" state ("healthy", JBool true)).

(** [main] *)
Inductive Command :=
| BackupTo (sqlite backup : string)
| RestoreFrom (backup sqlite : string)
| Verify (sqlite : string).

Definition run (command : Command) : Tool Json :=
  match command with
  | BackupTo sqlite backup => backup_state sqlite backup
  | RestoreFrom backup sqlite => restore_state backup sqlite
  | Verify sqlite => verify_state sqlite
  end.
End Backup.
End Backup.
