(* ===== verification/StateToolsTheorems.v ===== *)
(** * What the maintenance tools guarantee

    A rollback file is the state that was stored, and importing it gives that
    state back; a published backup holds the state of its source whatever
    [VACUUM INTO] wrote; texts are published whole or not at all. *)

From stdpp Require Import base gmap strings list fin_maps.
From Stdlib Require Import ZArith Lia String.
From S2P Require Import Prelude Ordered Text Foundation NetText FileTree Commands Devices.
From S2P Require Import Snapshot SnapshotTheorems SqliteStore SqliteTheorems SqliteRoundtrip SqliteFile CommandState CommandInvariant.
From S2P Require Import ControlPlane ControlPlaneInvariant SqliteBackend SqliteBackendTheorems LegacyImport LegacyImportTheorems StateTools.
Local Open Scope string_scope.
Local Open Scope Z_scope.

(** ** The rollback state *)

(** How serde writes an optional fingerprint of a device record: its text, or
    [null]. *)
Definition fingerprint_value `{Blake3} (f : option Fingerprint) : Json :=
  match f with
  | Some d => JString (ContentDigest_serialize d)
  | None => JNull
  end.

(** Serde reads back the state it wrote; each device is an object with the two
    fingerprints among its fields. *)
Class BackendJsonLaws `{Blake3, !LegacyJson, !JsonText StoredState} := {
  backend_value : StoredState -> Json;
  backend_text s : json_from_str (json_encode s) = Some (backend_value s);
  backend_state s : state_from_value (backend_value s) = Some s;
  backend_devices s : exists entries,
    (as_object (backend_value s) ≫= get "devices") ≫= as_object = Some entries
    /\ Forall (fun e => exists d object, devices s !! e.1 = Some d /\ e.2 = JObject object
         /\ get "config_fingerprint" object = Some (fingerprint_value (DeviceRecord.config_fingerprint d))
         /\ get "binary_fingerprint" object = Some (fingerprint_value (DeviceRecord.binary_fingerprint d)))
         entries;
}.

Section Rollback.
Context `{Blake3Laws, UuidTextLaws, !JsonText DeviceRecord.t, !JsonText DeviceCommand.t, !JsonValid}.
Context `{!JsonTextLaws DeviceRecord.t, !JsonTextLaws DeviceCommand.t}.
Context `{!LegacyJson, !JsonText SnapshotDocument.t, !JsonTextLaws SnapshotDocument.t}.
Context `{!JsonText StoredState, !BackendJsonLaws}.

Lemma classify_value f field : classify_fingerprint (Some (fingerprint_value f)) field = Ok 0.
Proof.
  destruct f as [d|]; [|done]. unfold classify_fingerprint, fingerprint_value.
  cbn [as_str ok_or result_bind].
  rewrite (proj2 (proj1 (fingerprint_parse_iff (ContentDigest_serialize d) (Current d)))); done.
Qed.

Lemma backend_fingerprints s : fingerprint_stats (backend_value s) = Ok LegacyJsonMigrationStats.default.
Proof.
  unfold fingerprint_stats. destruct (backend_devices s) as (entries & -> & Hall).
  induction Hall as [|[n v] rest (d & object & _ & Hv & Hc & Hb) _ IH]; [done|].
  cbn [fold_rows device_fingerprints fst snd] in *. subst v. unfold device_fingerprints.
  cbn [as_object fst snd]. rewrite Hc, Hb, !classify_value. cbn [result_bind]. apply IH.
Qed.

(** The loop of the rollback accepts what the control plane's own conversion
    accepts. *)
Lemma add_rollback_replay cs r :
  Migrate.add_rollback cs r = map_err (fun _ => RollbackNotRepresentable) (add_replay cs r).
Proof.
  unfold Migrate.add_rollback, add_replay.
  change (DeviceCommand.device_id (ReplayRecord.command r) ++ ":"
          ++ key_as_str (DeviceCommand.idempotency_key (ReplayRecord.command r)))
    with (legacy_scope_for_command (ReplayRecord.command r)).
  rewrite orb_comm. by destruct (_ || _).
Qed.

Lemma fold_add_rollback rs cs :
  fold_rows Migrate.add_rollback cs rs
  = map_err (fun _ => RollbackNotRepresentable) (fold_rows add_replay cs rs).
Proof.
  revert cs. induction rs as [|r rs IH]; intros cs; [done|].
  cbn [fold_rows]. rewrite add_rollback_replay. destruct (add_replay cs r); [apply IH|done].
Qed.

Lemma fold_add_replay_legacies qs cmds I R O cs :
  fold_rows add_replay (mk_commands qs I R O) (replay_from_command <$> cmds) = Ok cs ->
  NoDup (legacy_scope_for_command <$> cmds)
  /\ Forall (fun c => I !! legacy_scope_for_command c = None) cmds.
Proof.
  revert I R O. induction cmds as [|c cmds IH]; intros I R O; csimpl; [by repeat constructor|].
  unfold add_replay at 1. simpl. destruct (_ || is_some (I !! _)) eqn:Hc; [done|].
  apply orb_false_iff in Hc as [_ Hc]. intros [Hnd Hall]%IH.
  assert (I !! legacy_scope_for_command c = None) as HI by (by destruct (I !! _)).
  split; constructor; [|done|done|].
  - rewrite list_elem_of_fmap. intros (c' & Heq & Hin). rewrite Forall_forall in Hall.
    specialize (Hall c' Hin). by rewrite <- Heq, lookup_insert_eq in Hall.
  - eapply Forall_impl; [exact Hall|]. intros c' Hc'. by apply lookup_insert_None in Hc' as [? _].
Qed.

(** The rollback refuses exactly the snapshots in which two commands share the
    joined text of device and key, which the JSON backend uses as its index. *)
Theorem rollback_refused_iff (s : ControlPlaneSnapshot.t) :
  snapshot_ok s ->
  Migrate.json_backend_state s = Err RollbackNotRepresentable
  <-> ~ NoDup (legacy_scope_for_command <$> replay_commands s).
Proof.
  intros Hs. unfold Migrate.json_backend_state.
  rewrite (snap_replay s Hs), fold_add_rollback. split.
  - intros He Hnd. rewrite add_replays_ok in He; [done|apply (snap_replay_scopes s Hs)|done|].
    apply Forall_true. intros. by rewrite !lookup_empty.
  - intros Hdup. destruct (fold_rows _ _ _) as [cs|] eqn:Hf; [|done].
    destruct Hdup. by apply fold_add_replay_legacies in Hf as [? _].
Qed.

Lemma named_restarted s : named s -> named (restarted s).
Proof. intros [Hd Hc]. by split. Qed.

Lemma serialize_json_backend_ok s :
  state_ok s -> Migrate.serialize_json_backend (snapshot_of s) = Ok (json_encode (restarted s)).
Proof.
  intros Hs. pose proof (stored_from_snapshot_ok s Hs) as Hst.
  unfold Migrate.serialize_json_backend, Migrate.json_backend_state. rewrite fold_add_rollback.
  unfold stored_from_snapshot in Hst. destruct (fold_rows _ _ _) as [cs|]; [|done].
  cbn [result_bind map_err result_map] in *. destruct (validate_legacy_claims cs); [|done].
  cbn [result_bind] in Hst. by injection Hst as ->.
Qed.

Lemma parse_rollback s :
  state_ok s -> unaliased (commands s) -> named s ->
  parse_legacy_json (json_encode s) = Ok (snapshot_of s, LegacyJsonMigrationStats.default).
Proof.
  intros Hs Hu Hn. unfold parse_legacy_json. rewrite backend_text. cbn [ok_or result_bind].
  rewrite backend_fingerprints. cbn [result_bind]. rewrite backend_state. cbn [ok_or result_bind].
  by rewrite legacy_well_formed_ok.
Qed.

(** A state of the control plane that SQLite stores, with no stored scope that is
    another command's index entry, is written by the rollback
    as the state a restart finds, and the import reads that file as the snapshot
    it came from, with nothing to repair. *)
Theorem rollback_roundtrip (s : StoredState) :
  state_ok s -> unaliased (commands s) -> named s ->
  exists body, Migrate.serialize_json_backend (snapshot_of s) = Ok body
    /\ parse_legacy_json body = Ok (snapshot_of s, LegacyJsonMigrationStats.default).
Proof.
  intros Hs Hu Hn. exists (json_encode (restarted s)). split; [by apply serialize_json_backend_ok|].
  rewrite parse_rollback; [done|by apply restarted_ok|done|by apply named_restarted].
Qed.
End Rollback.

(** ** Publishing a text *)

Section Publishing.
Context (h : Host.t).
Abbreviation at_path := (resolve (Host.cwd h)).

Lemma rename_Some {E} (from to : Components) (fs fs' : Files E) :
  rename from to fs = Some fs' <->
  exists e, fs !! from = Some (Regular e) /\ is_directory fs to = false
    /\ fs' = <[to := Regular e]> (delete from fs).
Proof.
  unfold rename, is_directory. destruct (fs !! from) as [[e|]|]; [|naive_solver..].
  destruct (fs !! to) as [[e'|]|]; naive_solver.
Qed.

(** What a publication may leave behind. *)
Definition publication (path body : string) (fs : Files Content) (r : result unit ToolError)
    (fs' : Files Content) : Prop :=
  (forall q, q <> at_path path -> q <> at_path (temporary_path path) -> fs' !! q = fs !! q)
  /\ ((fs' !! at_path path = Some (Regular (Body body)) /\ fs' !! at_path (temporary_path path) = None
       /\ (r = Ok tt \/ r = Err ParentSyncFailed))
      \/ (fs' !! at_path path = fs !! at_path path /\ r <> Ok tt /\ r <> Err ParentSyncFailed)).

Lemma publication_failed path body fs e :
  e <> ParentSyncFailed -> publication path body fs (Err e) fs.
Proof. intros He. split; [done|]. right. split_and!; congruence. Qed.

Lemma publication_left path body fs e entry :
  path <> "" -> e <> ParentSyncFailed ->
  publication path body fs (Err e) (<[at_path (temporary_path path) := entry]> fs).
Proof.
  intros Hne He. pose proof (temporary_path_fresh (Host.cwd h) path Hne).
  split; [intros q _ Hq; by rewrite lookup_insert_ne|]. right.
  split_and!; [by rewrite lookup_insert_ne|congruence..].
Qed.

Lemma publication_done path body fs r :
  path <> "" -> r = Ok tt \/ r = Err ParentSyncFailed ->
  publication path body fs r
    (<[at_path path := Regular (Body body)]> (delete (at_path (temporary_path path)) fs)).
Proof.
  intros Hne Hr. pose proof (temporary_path_fresh (Host.cwd h) path Hne).
  split; [intros q Hq Hq'; by rewrite lookup_insert_ne, lookup_delete_ne|]. left.
  split_and!; [apply lookup_insert_eq| |done].
  rewrite lookup_insert_ne by done. apply lookup_delete_eq.
Qed.

(** A text is published whole or not at all: the path has the new text, and then
    only making the directory durable can have failed, or it has what it had.
    No other file is touched but the temporary one, which is gone after a
    success. *)
Theorem write_atomic_publication path body fs r fs' :
  path <> "" -> write_atomic h path body fs = (r, fs') -> publication path body fs r fs'.
Proof.
  intros Hne. unfold write_atomic, and_then, guard, yield, bail, get_state, write_file, put_state,
    and_then, sync_parent, rename_file, and_then, get_state, put_state.
  destruct (negb (has_parent path) || Host.io_ok h CreateDirectory path);
    [|intros [= <- <-]; by apply publication_failed].
  destruct (Host.io_ok h CreateTemporary _ && _); [|intros [= <- <-]; by apply publication_failed].
  rewrite insert_insert_eq.
  destruct (Host.io_ok h WriteTemporary _); [|intros [= <- <-]; by apply publication_left].
  destruct (Host.io_ok h SyncTemporary _); [|intros [= <- <-]; by apply publication_left].
  destruct (rename _ (at_path path) _) as [renamed|] eqn:Hr; [|intros [= <- <-]; by apply publication_left].
  apply rename_Some in Hr as (e & He & _ & ->). rewrite lookup_insert_eq in He. injection He as <-.
  rewrite delete_insert_eq.
  destruct (Host.io_ok h Publish path); [|intros [= <- <-]; by apply publication_left].
  destruct (_ || _); intros [= <- <-]; apply publication_done; auto.
Qed.

Lemma write_atomic_succeeds path body fs :
  path <> "" -> (forall step p, Host.io_ok h step p = true) ->
  is_directory fs (at_path path) = false -> is_directory fs (at_path (temporary_path path)) = false ->
  exists fs', write_atomic h path body fs = (Ok tt, fs').
Proof.
  intros Hne Hio Hd Ht. pose proof (temporary_path_fresh (Host.cwd h) path Hne) as Hfresh.
  unfold write_atomic, and_then, guard, yield, bail, get_state, write_file, put_state,
    and_then, sync_parent, rename_file, and_then, get_state, put_state.
  rewrite !Hio, !orb_true_r, Ht. cbn [negb andb]. rewrite insert_insert_eq.
  destruct (rename _ (at_path path) _) as [fs'|] eqn:Hr; [by eauto|exfalso]. revert Hr.
  unfold rename. rewrite lookup_insert_eq, lookup_insert_ne by done.
  unfold is_directory in Hd. by destruct (fs !! at_path path) as [[]|].
Qed.
End Publishing.

(** ** Exports *)

Section Exports.
Context `{Blake3Laws, UuidTextLaws, !JsonText DeviceRecord.t, !JsonText DeviceCommand.t, !JsonValid}.
Context `{!JsonTextLaws DeviceRecord.t, !JsonTextLaws DeviceCommand.t}.
Context `{!LegacyJson, !JsonText SnapshotDocument.t, !JsonTextLaws SnapshotDocument.t}.
Context `{!JsonText StoredState}.
Context (h : Host.t).
Abbreviation at_path := (resolve (Host.cwd h)).

Lemma initialize_opened f f' : initialize f true = Ok f' -> opened f = f'.
Proof.
  unfold initialize, opened. destruct (configure_connection f true); [|done]. cbn [result_bind].
  destruct (apply_migrations f) as [g|]; [|done]. cbn [result_bind].
  destruct (validate_schema g); [|done]. cbn [result_bind].
  destruct (validate_integrity g); [|done]. by intros [= <-].
Qed.

Lemma lift_Ok {S A} (r : result A ToolError) (fs : S) a fs' :
  lift r fs = (Ok a, fs') <-> r = Ok a /\ fs' = fs.
Proof. unfold lift. split; [by intros [= -> ->]|by intros [-> ->]]. Qed.

Lemma store_open_Ok path fs f fs' :
  store_open h path fs = (Ok f, fs') ->
  exists f0, database_at h fs path = Some f0 /\ initialize f0 true = Ok f
    /\ fs' = <[at_path path := Regular (Db f)]> (delete (at_path (wal_path path)) fs).
Proof.
  unfold store_open. intros ([] & s1 & (_ & _ & ->)%guard_Ok & Hk)%and_then_Ok.
  apply and_then_Ok in Hk as (s & s2 & [= <- <-] & Hk).
  apply and_then_Ok in Hk as (f0 & s3 & [Hf0%ok_or_Ok ->]%lift_Ok & Hk).
  apply and_then_Ok in Hk as (u & s4 & (_ & _ & ->)%guard_Ok & Hk).
  apply and_then_Ok in Hk as (v & s5 & [= _ <-] & [Hi%map_err_Ok ->]%lift_Ok).
  exists f0. by rewrite (initialize_opened f0 f Hi).
Qed.

Lemma load_export_snapshot_Ok sqlite fs s fs' :
  Migrate.load_export_snapshot h sqlite fs = (Ok s, fs') ->
  exists f0 f, database_at h fs sqlite = Some f0 /\ initialize f0 true = Ok f
    /\ load_snapshot (DbFile.tables f) = Ok s
    /\ fs' = <[at_path sqlite := Regular (Db f)]> (delete (at_path (wal_path sqlite)) fs).
Proof.
  unfold Migrate.load_export_snapshot. intros (s0 & s1 & [= <- <-] & Hk)%and_then_Ok.
  apply and_then_Ok in Hk as (u & s2 & (_ & _ & ->)%guard_Ok & Hk).
  apply and_then_Ok in Hk as (f & s3 & (f0 & Hf0 & Hi & ->)%store_open_Ok & [Hl%map_err_Ok ->]%lift_Ok).
  eauto 8.
Qed.

Lemma all_distinct_NoDup l : Migrate.all_distinct l = true <-> NoDup l.
Proof.
  induction l as [|p l IH]; cbn [Migrate.all_distinct]; [by split; [constructor|]|].
  rewrite andb_true_iff, negb_true_iff, IH, NoDup_cons. apply and_iff_compat_r.
  rewrite <- not_true_iff_false, existsb_exists. setoid_rewrite <- list_elem_of_In. split.
  - intros Hno Hin. apply Hno. exists p. by rewrite bool_decide_true.
  - intros Hno (q & Hin & ->%bool_decide_eq_true_1). done.
Qed.

Lemma ensure_distinct_iff paths :
  Migrate.ensure_distinct h paths = Ok tt
  <-> Forall (fun p => p <> "") paths /\ NoDup (at_path <$> paths).
Proof.
  assert (forall l, mapM (absolute (Host.cwd h)) paths = Some l <->
            Forall (fun p => p <> "") paths /\ l = at_path <$> paths) as Hm.
  { induction paths as [|p paths IH]; intros l; [split; [by intros [= <-]|by intros [_ ->]]|].
    rewrite mapM_Some. split.
    - inversion 1 as [|? c ? l' Hc Hl]; subst. apply mapM_Some, IH in Hl as [Hf ->].
      unfold absolute in Hc. case_bool_decide; [done|]. injection Hc as <-. by split; [constructor|].
    - intros [[Hp Hf]%Forall_cons ->]. constructor.
      + unfold absolute. by rewrite bool_decide_false.
      + apply mapM_Some, IH. done. }
  unfold Migrate.ensure_distinct. rewrite result_bind_Ok. setoid_rewrite ok_or_Ok. split.
  - intros (l & [Hf ->]%Hm & Hd). split; [done|]. apply all_distinct_NoDup. by destruct (Migrate.all_distinct _).
  - intros [Hf Hnd]. exists (at_path <$> paths). rewrite Hm. split; [done|].
    by rewrite (proj2 (all_distinct_NoDup _) Hnd).
Qed.

Lemma ensure_distinct_two a b :
  Migrate.ensure_distinct h [a; b] = Ok tt -> a <> "" /\ b <> "" /\ at_path a <> at_path b.
Proof.
  intros [[Ha [Hb _]%Forall_cons]%Forall_cons Hnd]%ensure_distinct_iff. csimpl in Hnd.
  apply NoDup_cons in Hnd as [Hin _]. split_and!; [exact Ha|exact Hb|]. set_solver.
Qed.

Lemma ensure_distinct_three a b c :
  Migrate.ensure_distinct h [a; b; c] = Ok tt ->
  c <> "" /\ at_path a <> at_path b /\ at_path b <> at_path c.
Proof.
  intros [[_ [_ [Hc _]%Forall_cons]%Forall_cons]%Forall_cons Hnd]%ensure_distinct_iff. csimpl in Hnd.
  apply NoDup_cons in Hnd as [Hin Hnd]. apply NoDup_cons in Hnd as [Hin' _].
  split_and!; [exact Hc|set_solver..].
Qed.

Lemma load_export_snapshot_succeeds sqlite fs f0 f s :
  (forall step p, Host.io_ok h step p = true) ->
  is_some (regular fs (at_path sqlite)) = true -> database_at h fs sqlite = Some f0 ->
  initialize f0 true = Ok f -> load_snapshot (DbFile.tables f) = Ok s ->
  Migrate.load_export_snapshot h sqlite fs
  = (Ok s, <[at_path sqlite := Regular (Db f)]> (delete (at_path (wal_path sqlite)) fs)).
Proof.
  intros Hio He Hd Hi Hl. unfold Migrate.load_export_snapshot, store_open, and_then, get_state,
    put_state, guard, lift, yield. rewrite !Hio, !orb_true_r. cbn beta. rewrite He, Hd.
  cbn [ok_or]. rewrite (initialize_opened _ _ Hi), Hi. cbn [map_err]. by rewrite Hl.
Qed.

Lemma is_directory_opened (fs : Files Content) p w c q :
  is_directory fs q = false -> is_directory (<[p := Regular c]> (delete w fs)) q = false.
Proof.
  unfold is_directory. rewrite lookup_insert. case_decide; [done|]. rewrite lookup_delete.
  by case_decide.
Qed.

(** What either export leaves: the store as it was opened, and the text. *)
Definition exported (sqlite path : string) (s : ControlPlaneSnapshot.t) (body : string)
    (fs fs' : Files Content) : Prop :=
  exists f0 f, database_at h fs sqlite = Some f0 /\ initialize f0 true = Ok f
    /\ load_snapshot (DbFile.tables f) = Ok s
    /\ fs' !! at_path path = Some (Regular (Body body))
    /\ fs' !! at_path (temporary_path path) = None
    /\ (at_path sqlite <> at_path (temporary_path path) ->
        fs' !! at_path sqlite = Some (Regular (Db f)))
    /\ (forall q, q <> at_path sqlite -> q <> at_path path -> q <> at_path (temporary_path path) ->
        fs' !! q = delete (at_path (wal_path sqlite)) fs !! q).

Lemma exported_by sqlite path s body fs fs1 fs2 :
  Migrate.ensure_distinct h [sqlite; path] = Ok tt ->
  Migrate.load_export_snapshot h sqlite fs = (Ok s, fs1) ->
  write_atomic h path body fs1 = (Ok tt, fs2) -> exported sqlite path s body fs fs2.
Proof.
  intros (_ & Hp & Hne)%ensure_distinct_two (f0 & f & Hf0 & Hi & Hl & ->)%load_export_snapshot_Ok Hw.
  apply write_atomic_publication in Hw as [Hother [(Hbody & Htmp & _)|(_ & ? & _)]]; [|done|done].
  exists f0, f. split_and!; try done.
  - intros Ht. by rewrite Hother, lookup_insert_eq.
  - intros q Hq Hq' Hq''. by rewrite Hother, lookup_insert_ne.
Qed.

Lemma export_Ok sqlite diagnostic fs j fs' :
  Migrate.export h sqlite diagnostic fs = (Ok j, fs') ->
  exists s, exported sqlite diagnostic s (to_canonical_json s) fs fs'.
Proof.
  unfold Migrate.export. intros ([] & s1 & [Hd ->]%lift_Ok & Hk)%and_then_Ok.
  apply and_then_Ok in Hk as (s & s2 & Hl & Hk).
  apply and_then_Ok in Hk as ([] & s3 & Hw & [= _ <-]).
  exists s. by eapply exported_by.
Qed.

Lemma rollback_export_Ok sqlite rollback fs j fs' :
  Migrate.rollback_export h sqlite rollback fs = (Ok j, fs') ->
  exists s body, Migrate.serialize_json_backend s = Ok body /\ exported sqlite rollback s body fs fs'.
Proof.
  unfold Migrate.rollback_export. intros ([] & s1 & [Hd ->]%lift_Ok & Hk)%and_then_Ok.
  apply and_then_Ok in Hk as (s & s2 & Hl & Hk).
  apply and_then_Ok in Hk as (body & s3 & [Hb ->]%lift_Ok & Hk).
  apply and_then_Ok in Hk as ([] & s4 & Hw & [= _ <-]).
  exists s, body. split; [done|]. by eapply exported_by.
Qed.

(** A host and files on which an export goes through. *)
Record exportable (sqlite path : string) (s : ControlPlaneSnapshot.t) (fs : Files Content) : Prop := {
  exportable_io : forall step p, Host.io_ok h step p = true;
  exportable_paths : Migrate.ensure_distinct h [sqlite; path] = Ok tt;
  exportable_file : is_some (regular fs (at_path sqlite)) = true;
  exportable_source : exists f, database_at h fs sqlite = Some f
    /\ initialize f true = Ok f /\ load_snapshot (DbFile.tables f) = Ok s;
  exportable_output : is_directory fs (at_path path) = false;
  exportable_temporary : is_directory fs (at_path (temporary_path path)) = false;
}.

Lemma export_steps_succeed sqlite path s body fs :
  exportable sqlite path s fs ->
  exists fs1 fs2, Migrate.load_export_snapshot h sqlite fs = (Ok s, fs1)
    /\ write_atomic h path body fs1 = (Ok tt, fs2).
Proof.
  intros [Hio Hd Hr (f & He & Hi & Hl) Hp Ht]. pose proof (ensure_distinct_two _ _ Hd) as (_ & Hne & _).
  destruct (write_atomic_succeeds h path body
    (<[at_path sqlite := Regular (Db f)]> (delete (at_path (wal_path sqlite)) fs))) as [fs2 Hw];
    [done|done|by apply is_directory_opened..|].
  eexists _, fs2. split; [|exact Hw]. by apply (load_export_snapshot_succeeds _ _ f).
Qed.

Lemma rollback_export_succeeds sqlite rollback fs s body :
  exportable sqlite rollback s fs -> Migrate.serialize_json_backend s = Ok body ->
  exists j fs', Migrate.rollback_export h sqlite rollback fs = (Ok j, fs').
Proof.
  intros Hx Hs. destruct (export_steps_succeed _ _ _ body _ Hx) as (fs1 & fs2 & Hl & Hw).
  eexists _, fs2. unfold Migrate.rollback_export, and_then, lift.
  by rewrite (exportable_paths _ _ _ _ Hx), Hl, Hs, Hw.
Qed.

Lemma export_succeeds sqlite diagnostic fs s :
  exportable sqlite diagnostic s fs ->
  exists j fs', Migrate.export h sqlite diagnostic fs = (Ok j, fs').
Proof.
  intros Hx. destruct (export_steps_succeed _ _ _ (to_canonical_json s) _ Hx) as (fs1 & fs2 & Hl & Hw).
  eexists _, fs2. unfold Migrate.export, and_then, lift. by rewrite (exportable_paths _ _ _ _ Hx), Hl, Hw.
Qed.

(** An export that succeeds has written the document of the state the database
    holds, from which that state can be read again; a database of the current
    version, its log included, is as it was, unless its path is the temporary
    path of the output or the output has the name of its log. *)
Theorem export_is_faithful sqlite diagnostic fs j fs' f0 :
  Migrate.export h sqlite diagnostic fs = (Ok j, fs') ->
  database_at h fs sqlite = Some f0 -> DbFile.user_version f0 = SCHEMA_VERSION ->
  at_path sqlite <> at_path (temporary_path diagnostic) ->
  exists s body, load_snapshot (DbFile.tables f0) = Ok s
    /\ fs' !! at_path diagnostic = Some (Regular (Body body)) /\ from_json body = Ok s
    /\ fs' !! at_path sqlite = Some (Regular (Db f0)).
Proof.
  intros (s & f1 & f & Hf1 & Hi & Hl & Hbody & _ & Hkept & _)%export_Ok Hf0 Hv Hne.
  rewrite Hf0 in Hf1. injection Hf1 as <-.
  destruct (open_then_reopen f0 f Hi) as (_ & _ & [->|[Hv0 _]]); [|by rewrite Hv in Hv0].
  exists s, (to_canonical_json s). split_and!; [done|done| |].
  - apply canonical_json_roundtrip. by eapply load_snapshot_ok.
  - by apply Hkept.
Qed.

(** The paths are compared without the temporary one: an export whose output is
    the database's path without its final [.tmp] removes the database. *)
Theorem export_removes_its_source diagnostic fs j fs' :
  Migrate.export h (temporary_path diagnostic) diagnostic fs = (Ok j, fs') ->
  is_some (regular fs (at_path (temporary_path diagnostic))) = true
  /\ fs' !! at_path (temporary_path diagnostic) = None.
Proof.
  intros Hx. split; [|by destruct (export_Ok _ _ _ _ _ Hx) as (s & f0 & f & _ & _ & _ & _ & ? & _)].
  revert Hx. unfold Migrate.export. intros ([] & s1 & [Hd ->]%lift_Ok & Hk)%and_then_Ok.
  apply and_then_Ok in Hk as (s & s2 & Hl & _). revert Hl. unfold Migrate.load_export_snapshot.
  intros (s0 & s3 & [= <- <-] & Hk)%and_then_Ok.
  by apply and_then_Ok in Hk as (u & s4 & (Hr & _ & _)%guard_Ok & _).
Qed.
End Exports.

(** ** A rollback and the import that follows it *)

Section Reimport.
Context `{Blake3Laws, UuidTextLaws, !JsonText DeviceRecord.t, !JsonText DeviceCommand.t, !JsonValid}.
Context `{!JsonTextLaws DeviceRecord.t, !JsonTextLaws DeviceCommand.t}.
Context `{!LegacyJson, !JsonText SnapshotDocument.t, !JsonTextLaws SnapshotDocument.t}.
Context `{!JsonText StoredState, !BackendJsonLaws}.
Context (h : Host.t).
Abbreviation at_path := (resolve (Host.cwd h)).

(** A host on which nothing fails and on which a new database can be made at
    [target] and a document at [diagnostic]. *)
Record importable (legacy target diagnostic : string) (fs : Files Content) : Prop := {
  importable_io : forall step p, Host.io_ok h step p = true;
  importable_paths : Migrate.ensure_distinct h [legacy; target; diagnostic] = Ok tt;
  importable_target : fs !! at_path target = None;
  importable_log : is_directory fs (at_path (wal_path target)) = false;
  importable_apart : at_path target <> at_path (temporary_path diagnostic);
  importable_output : is_directory fs (at_path diagnostic) = false;
  importable_temporary : is_directory fs (at_path (temporary_path diagnostic)) = false;
  importable_fresh : is_ok (initialize (Host.fresh h) true) = true;
  importable_new : DbFile.user_version (Host.fresh h) = 0;
}.

Lemma blank_snapshot_ok : snapshot_ok ControlPlaneSnapshot.empty.
Proof.
  split; try (by apply map_Forall_empty); try (by constructor); try done; vm_compute; lia.
Qed.

Lemma load_empty : load_snapshot Tables.empty = Ok ControlPlaneSnapshot.empty.
Proof. apply (load_materialize_ok _ blank_snapshot_ok). Qed.

Lemma import_empty body s stats :
  parse_legacy_json body = Ok (s, stats) ->
  exists report db, import_legacy_json Tables.empty body = (Ok report, db) /\ load_snapshot db = Ok s.
Proof.
  intros Hp. destruct (import_legacy_json_spec Tables.empty body s stats _ Hp load_empty)
    as [[<- ->]|[(_ & He & _)|(_ & _ & -> & Hl & _)]]; [| |by eauto].
  - exists (report_of AlreadyImported ControlPlaneSnapshot.empty stats), Tables.empty.
    split; [done|apply load_empty].
  - done.
Qed.

Lemma fresh_tables legacy target diagnostic fs :
  importable legacy target diagnostic fs ->
  exists f, initialize (Host.fresh h) true = Ok f /\ DbFile.tables f = Tables.empty.
Proof.
  intros Hr. pose proof (importable_fresh _ _ _ _ Hr) as Hf.
  destruct (initialize (Host.fresh h) true) as [f|] eqn:Hi; [|done]. exists f. split; [done|].
  destruct (open_then_reopen _ _ Hi) as (_ & Hex & [->|[_ ?]]); [|done]. unfold initialize_existing in Hex.
  by rewrite (importable_new _ _ _ _ Hr) in Hex.
Qed.

Lemma store_open_new path fs f :
  (forall step p, Host.io_ok h step p = true) -> fs !! at_path path = None ->
  is_directory fs (at_path (wal_path path)) = false -> initialize (Host.fresh h) true = Ok f ->
  store_open h path fs
  = (Ok f, <[at_path path := Regular (Db f)]> (delete (at_path (wal_path path)) fs)).
Proof.
  intros Hio Hnew Hw Hi. unfold store_open, and_then, guard, get_state, put_state, yield, lift.
  rewrite !Hio, orb_true_r. replace (database_at h fs path) with (Some (Host.fresh h)).
  2:{ unfold database_at, is_directory in *. rewrite Hnew. by destruct (fs !! at_path (wal_path path)) as [[]|]. }
  cbn [ok_or].
  by rewrite (initialize_opened _ _ Hi), Hi.
Qed.

Lemma import_succeeds legacy target diagnostic fs body s stats :
  importable legacy target diagnostic fs ->
  fs !! at_path legacy = Some (Regular (Body body)) -> parse_legacy_json body = Ok (s, stats) ->
  exists j fs' f, Migrate.import h legacy target diagnostic fs = (Ok j, fs')
    /\ fs' !! at_path target = Some (Regular (Db f)) /\ load_snapshot (DbFile.tables f) = Ok s.
Proof.
  intros Hr Hb Hp. destruct (import_empty body s stats Hp) as (report & db & Himp & Hdb).
  destruct (fresh_tables _ _ _ _ Hr) as (f & Hi & Hempty).
  destruct (ensure_distinct_three h _ _ _ (importable_paths _ _ _ _ Hr)) as (Hd & _ & Hpaths).
  set (fs1 := <[at_path target := Regular (Db (DbFile.set_tables db f))]>
                (<[at_path target := Regular (Db f)]> (delete (at_path (wal_path target)) fs))).
  destruct (write_atomic_succeeds h diagnostic (to_canonical_json s) fs1) as [fs2 Hw];
    [exact Hd|apply (importable_io _ _ _ _ Hr)|..].
  1,2: unfold fs1; rewrite insert_insert_eq; apply is_directory_opened.
  { apply (importable_output _ _ _ _ Hr). }
  { apply (importable_temporary _ _ _ _ Hr). }
  exists (Migrate.print_import_report report (to_canonical_json s)), fs2, (DbFile.set_tables db f).
  split_and!; [| |done].
  - unfold Migrate.import, and_then at 1, lift at 1. rewrite (importable_paths _ _ _ _ Hr).
    unfold read_to_string, regular, and_then, guard, get_state, yield, lift.
    rewrite (importable_io _ _ _ _ Hr), Hb, Hp. cbn [map_err].
    rewrite (store_open_new target fs f); [|apply (importable_io _ _ _ _ Hr)
      |apply (importable_target _ _ _ _ Hr)|apply (importable_log _ _ _ _ Hr)|done].
    unfold Migrate.import_into, and_then, get_state, put_state, lift, yield. rewrite Hempty, Himp.
    cbn [map_err fst snd DbFile.tables DbFile.set_tables]. fold fs1. rewrite Hdb. cbn [map_err].
    by rewrite Hw.
  - apply write_atomic_publication in Hw as [Hother _]; [|exact Hd].
    rewrite Hother; [apply lookup_insert_eq|done|apply (importable_apart _ _ _ _ Hr)].
Qed.

(** Going back to the JSON backend and forward again loses nothing: the file a
    rollback writes for the state of a control plane can be imported into a new
    database, and that database holds the snapshot the rollback started from. *)
Theorem rollback_then_import st sqlite f0 rollback target diagnostic fs j fs1 :
  state_ok st -> unaliased (commands st) -> named st ->
  database_at h fs sqlite = Some f0 -> DbFile.user_version f0 = SCHEMA_VERSION ->
  load_snapshot (DbFile.tables f0) = Ok (snapshot_of st) ->
  Migrate.rollback_export h sqlite rollback fs = (Ok j, fs1) ->
  importable rollback target diagnostic fs1 ->
  exists j' fs2 f, Migrate.import h rollback target diagnostic fs1 = (Ok j', fs2)
    /\ fs2 !! at_path target = Some (Regular (Db f))
    /\ load_snapshot (DbFile.tables f) = load_snapshot (DbFile.tables f0).
Proof.
  intros Hst Hu Hn Hf0 Hv Hl (s & body & Hser & f1 & f & Hf1 & Hi & Hls & Hbody & _)%rollback_export_Ok Hr.
  rewrite Hf0 in Hf1. injection Hf1 as <-.
  destruct (open_then_reopen f0 f Hi) as (_ & _ & [->|[Hv0 _]]); [|by rewrite Hv in Hv0].
  rewrite Hl in Hls. injection Hls as <-. rewrite serialize_json_backend_ok in Hser by done.
  injection Hser as <-. rewrite Hl. eapply import_succeeds; [done|done|].
  rewrite parse_rollback; [done|by apply restarted_ok|done|by apply named_restarted].
Qed.
End Reimport.

(** ** Backups *)

Section Backups.
Context `{Blake3Laws, UuidTextLaws, !JsonText DeviceRecord.t, !JsonText DeviceCommand.t, !JsonValid}.
Context `{!JsonTextLaws DeviceRecord.t, !JsonTextLaws DeviceCommand.t}.
Context `{!JsonText SnapshotDocument.t, !JsonTextLaws SnapshotDocument.t}.
Context (h : Host.t).
Abbreviation at_path := (resolve (Host.cwd h)).

(** The database at a path, read with its log, opens in the current version and
    holds the snapshot [s]. *)
Definition holds (fs : Files Content) (path : string) (s : ControlPlaneSnapshot.t) : Prop :=
  exists content f, fs !! at_path path = Some (Regular content) /\ database_at h fs path = Some f
    /\ initialize_existing f true = Ok f /\ load_snapshot (DbFile.tables f) = Ok s.

(** The file at a path holds [s] by itself, whatever lies beside it. *)
Definition file_holds (fs : Files Content) (path : string) (s : ControlPlaneSnapshot.t) : Prop :=
  exists content f, fs !! at_path path = Some (Regular content)
    /\ database_of h (Some (Regular content)) None = Some f
    /\ initialize_existing f true = Ok f /\ load_snapshot (DbFile.tables f) = Ok s.

Lemma file_holds_iff fs path s :
  fs !! at_path (wal_path path) = None -> file_holds fs path s <-> holds fs path s.
Proof.
  intros Hw. unfold file_holds, holds, database_at. rewrite Hw.
  split; intros (c & f & He & Hf & ?); exists c, f; rewrite He in *; done.
Qed.

Lemma initialize_existing_same f f' :
  initialize_existing f true = Ok f' -> f' = f /\ DbFile.user_version f = SCHEMA_VERSION.
Proof.
  unfold initialize_existing. destruct (Z.eqb_spec (DbFile.user_version f) SCHEMA_VERSION); [|done].
  cbn [negb]. destruct (validate_schema f); [|done]. destruct (validate_integrity f); [|done].
  cbn [result_bind]. destruct (configure_connection f true); [|done]. by intros [= <-].
Qed.

Lemma store_open_existing_Ok path fs f fs' :
  store_open_existing h path fs = (Ok f, fs') ->
  fs' = close h path fs /\ database_at h fs path = Some f /\ initialize_existing f true = Ok f.
Proof.
  unfold store_open_existing. intros (s0 & s1 & [= <- <-] & Hk)%and_then_Ok.
  destruct (fs !! at_path path) as [entry|]; [|done].
  apply and_then_Ok in Hk as (f0 & s2 & [Hf0%ok_or_Ok ->]%lift_Ok & Hk).
  apply and_then_Ok in Hk as (u & s3 & (_ & _ & ->)%guard_Ok & Hk).
  apply and_then_Ok in Hk as (v & s4 & [= _ <-] & [Hi%map_err_Ok ->]%lift_Ok).
  cbn [open_existing] in Hi. destruct (initialize_existing_same _ _ Hi) as [-> _]. done.
Qed.

(** Opening and closing a database leaves the files, or writes its log back. *)
Lemma store_open_existing_files path fs :
  (store_open_existing h path fs).2 = fs \/ (store_open_existing h path fs).2 = close h path fs.
Proof.
  unfold store_open_existing, and_then, get_state, put_state, lift, guard, yield, bail.
  destruct (fs !! at_path path) as [entry|]; [|by left]. destruct (ok_or _ _); [|by left].
  destruct (Host.io_ok h OpenDatabase path); [by right|by left].
Qed.

Lemma validate_files path fs :
  (Backup.validate h path fs).2 = fs \/ (Backup.validate h path fs).2 = close h path fs.
Proof.
  pose proof (store_open_existing_files path fs) as Hf. revert Hf.
  unfold Backup.validate, and_then, get_state, guard, lift, yield, bail.
  destruct (is_some _); [|by left]. destruct (store_open_existing h path fs) as [[f|e] fs1]; [|done].
  intros Hf. simpl in Hf. destruct (_ =? _); [|done]. by destruct (map_err _ _).
Qed.

Lemma validate_Ok path fs v fs' :
  Backup.validate h path fs = (Ok v, fs') ->
  fs' = close h path fs /\ exists s, holds fs path s /\ v = Backup.validated s.
Proof.
  unfold Backup.validate. intros (s0 & s1 & [= <- <-] & Hk)%and_then_Ok.
  apply and_then_Ok in Hk as (u & s2 & (Hr & _ & ->)%guard_Ok & Hk).
  apply and_then_Ok in Hk as (f & s3 & (-> & Hf & Hi)%store_open_existing_Ok & Hk).
  apply and_then_Ok in Hk as (u' & s4 & (_ & _ & ->)%guard_Ok & Hk).
  apply and_then_Ok in Hk as (s & s5 & [Hl%map_err_Ok ->]%lift_Ok & [= <- <-]).
  split; [done|]. exists s. split; [|done]. unfold regular in Hr.
  destruct (fs !! at_path path) as [[content|]|] eqn:He; [|done..]. by exists content, f.
Qed.

Lemma validate_holds path fs s :
  Host.io_ok h OpenDatabase path = true -> holds fs path s ->
  Backup.validate h path fs = (Ok (Backup.validated s), close h path fs).
Proof.
  intros Hio (content & f & He & Hf & Hi & Hl).
  unfold Backup.validate, store_open_existing, regular, and_then, get_state, put_state, guard, lift, yield.
  cbn beta. rewrite He. cbn beta iota delta [is_some]. rewrite He, Hf, Hio. cbn [ok_or open_existing].
  rewrite Hi. cbn [map_err].
  by rewrite (proj2 (initialize_existing_same _ _ Hi)), Z.eqb_refl, Hl.
Qed.

(** *** Closing a database *)

Lemma wal_path_fresh path : path <> "" -> at_path (wal_path path) <> at_path path.
Proof. intros Hne. apply resolve_suffix; [done|repeat constructor; done|vm_compute; lia]. Qed.

Lemma close_no_log path fs : fs !! at_path (wal_path path) = None -> close h path fs = fs.
Proof. intros Hw. unfold close. rewrite Hw. by destruct (fs !! at_path path) as [[[]|]|]. Qed.

Lemma close_other path fs q :
  q <> at_path path -> q <> at_path (wal_path path) -> close h path fs !! q = fs !! q.
Proof.
  intros Hp Hw. unfold close. destruct (fs !! at_path path) as [[[f| |]|]|]; try done.
  destruct (fs !! at_path (wal_path path)) as [[c|]|]; try done.
  destruct (Host.checkpoints h); [|done]. by rewrite lookup_insert_ne, lookup_delete_ne.
Qed.

(** Nothing appears that was not there. *)
Lemma close_None path fs q : fs !! q = None -> close h path fs !! q = None.
Proof.
  intros Hq. unfold close. destruct (fs !! at_path path) as [[[f| |]|]|] eqn:He; try done.
  destruct (fs !! at_path (wal_path path)) as [[c|]|]; try done.
  destruct (Host.checkpoints h); [|done]. rewrite lookup_insert_ne by congruence.
  by apply lookup_delete_None; right.
Qed.

Lemma close_twice path fs : path <> "" -> close h path (close h path fs) = close h path fs.
Proof.
  intros Hne%wal_path_fresh. unfold close at 2 3.
  destruct (fs !! at_path path) as [[[f| |]|]|] eqn:He; try (unfold close; by rewrite He).
  destruct (fs !! at_path (wal_path path)) as [[c|]|] eqn:Hw; try (unfold close; by rewrite He, Hw).
  destruct (Host.checkpoints h) eqn:Hc; [|unfold close; by rewrite He, Hw, Hc].
  apply close_no_log. by rewrite lookup_insert_ne, lookup_delete_eq.
Qed.

(** A database holds the same state before and after its log is written back. *)
Lemma close_holds path fs s : path <> "" -> holds fs path s -> holds (close h path fs) path s.
Proof.
  intros Hne%wal_path_fresh (c & f & He & Hf & Hi & Hl). unfold close. rewrite He.
  destruct c as [f0| |]; [|by exists (Body text), f|by exists (Sidecar log), f].
  destruct (fs !! at_path (wal_path path)) as [[wal|]|] eqn:Hw; [|by exists (Db f0), f..].
  destruct (Host.checkpoints h); [|by exists (Db f0), f].
  assert (with_log h f0 (Some (Regular wal)) = f) as ->.
  { unfold database_at, database_of in Hf. rewrite He, Hw in Hf. by injection Hf. }
  exists (Db f), f. unfold database_at. rewrite lookup_insert_eq, lookup_insert_ne, lookup_delete_eq by done.
  done.
Qed.

Lemma holds_unique fs path s s' : holds fs path s -> holds fs path s' -> s = s'.
Proof.
  intros (c & f & _ & Hf & _ & Hl) (c' & f' & _ & Hf' & _ & Hl').
  rewrite Hf in Hf'. injection Hf' as <-. congruence.
Qed.

Lemma file_holds_same fs fs' path s :
  fs' !! at_path path = fs !! at_path path -> file_holds fs path s -> file_holds fs' path s.
Proof. intros Heq. unfold file_holds. by rewrite Heq. Qed.

Lemma holds_ok fs path s : holds fs path s -> snapshot_ok s.
Proof. intros (_ & f & _ & _ & _ & Hl). by eapply load_snapshot_ok. Qed.

(** *** The temporary files *)

Lemma remove_file_delete (fs : Files Content) p :
  is_directory fs p = false -> remove_file p fs = delete p fs.
Proof.
  unfold is_directory, remove_file. destruct (fs !! p) as [[c|]|] eqn:He; [done|done|].
  intros _. symmetry. by apply delete_id.
Qed.

(** The paths a run uses beside its target. *)
Definition scratch (target : string) : list Components :=
  [at_path (temporary_path target); at_path (wal_path (temporary_path target));
   at_path (shm_path (temporary_path target))].

(** Files that differ from [fs] at most in regular scratch files. *)
Record scratched (target : string) (fs fs' : Files Content) : Prop := {
  scratched_other : forall q, q ∉ scratch target -> fs' !! q = fs !! q;
  scratched_regular : forall q, q ∈ scratch target -> is_directory fs' q = false;
}.

Definition unused (target : string) (fs : Files Content) : Prop :=
  forall q, q ∈ scratch target -> fs !! q = None.

Lemma unused_scratched target fs : unused target fs -> scratched target fs fs.
Proof. intros Hu. split; [done|]. intros q Hq. unfold is_directory. by rewrite Hu. Qed.

Lemma scratched_alter target fs fs' q e :
  scratched target fs fs' -> q ∈ scratch target -> e <> Some Directory ->
  scratched target fs (partial_alter (fun _ => e) q fs').
Proof.
  intros [Ho Hr] Hq He. split.
  - intros q' Hq'. rewrite lookup_partial_alter_ne by (by intros ->). by apply Ho.
  - intros q' Hq'. unfold is_directory. destruct (decide (q = q')) as [->|Hne].
    + rewrite lookup_partial_alter_eq. by destruct e as [[]|].
    + rewrite lookup_partial_alter_ne by done. by apply Hr.
Qed.

Lemma scratched_leave target fs fs' :
  scratched target fs fs' -> scratched target fs (Backup.leave_sidecars h (temporary_path target) fs').
Proof.
  intros Hs. unfold Backup.leave_sidecars.
  destruct (Host.leaves_wal h), (Host.leaves_shm h);
    repeat first [exact Hs | apply scratched_alter; [|set_solver|done]].
Qed.

Lemma scratched_delete target fs fs' q :
  scratched target fs fs' -> q ∈ scratch target -> scratched target fs (delete q fs').
Proof. intros Hs Hq. by apply (scratched_alter target fs fs' q None). Qed.

Lemma remove_sidecars_delete target fs fs' :
  scratched target fs fs' ->
  Backup.remove_sidecars h (temporary_path target) fs'
  = delete (at_path (shm_path (temporary_path target)))
      (delete (at_path (wal_path (temporary_path target))) fs').
Proof.
  intros Hs. unfold Backup.remove_sidecars.
  rewrite (remove_file_delete fs') by (apply (scratched_regular _ _ _ Hs); set_solver).
  apply remove_file_delete. apply (scratched_regular target fs); [|set_solver].
  apply scratched_delete; [done|set_solver].
Qed.

(** Cleaning up gives back the files of the start. *)
Lemma cleanup_restores target fs fs' :
  unused target fs -> scratched target fs fs' ->
  Backup.cleanup h (temporary_path target) fs' = fs.
Proof.
  intros Hu Hs. unfold Backup.cleanup.
  rewrite remove_file_delete by (apply (scratched_regular _ _ _ Hs); set_solver).
  rewrite (remove_sidecars_delete target fs) by (apply scratched_delete; [done|set_solver]).
  apply map_eq. intros q. destruct (decide (q ∈ scratch target)) as [Hq|Hq].
  - rewrite (Hu q Hq). apply lookup_delete_None.
    destruct (decide (q = at_path (shm_path (temporary_path target)))); [by left|right].
    apply lookup_delete_None.
    destruct (decide (q = at_path (wal_path (temporary_path target)))); [by left|right].
    apply lookup_delete_None. left. set_solver.
  - rewrite !lookup_delete_ne by set_solver. by apply (scratched_other _ _ _ Hs).
Qed.

Lemma suffixes_fresh target :
  target <> "" -> (at_path target ∉ scratch target)
  /\ at_path (wal_path (temporary_path target)) <> at_path (temporary_path target)
  /\ at_path (shm_path (temporary_path target)) <> at_path (temporary_path target).
Proof.
  intros Hne. assert (temporary_path target <> "") as Hne' by (by destruct target).
  assert (forall suffix, Forall (fun b => b <> 47) (bytes suffix) ->
    at_path (temporary_path target ++ suffix) <> at_path target) as Happ.
  { intros suffix Hs. unfold temporary_path. rewrite <- string_app_assoc.
    apply resolve_suffix; [done| |].
    - rewrite bytes_app. apply Forall_app. split; [repeat constructor; done|done].
    - rewrite bytes_app, length_app. simpl. lia. }
  pose proof (Happ "-wal" ltac:(repeat constructor; done)).
  pose proof (Happ "-shm" ltac:(repeat constructor; done)).
  pose proof (temporary_path_fresh (Host.cwd h) target Hne).
  split_and!.
  - unfold scratch, wal_path, shm_path. rewrite !not_elem_of_cons.
    split_and!; [congruence..|apply not_elem_of_nil].
  - apply resolve_suffix; [done|repeat constructor; done|vm_compute; lia].
  - apply resolve_suffix; [done|repeat constructor; done|vm_compute; lia].
Qed.

(** *** Runs *)

(** The artifact was renamed to its target, and only its directory may not have
    been made durable. *)
Record published (target : string) (s : ControlPlaneSnapshot.t) (fs fs' : Files Content) : Prop := {
  published_file : file_holds fs' target s;
  published_clean : unused target fs';
  published_other : forall q, q <> at_path target -> fs' !! q = fs !! q;
}.

Lemma publish_cases target s fs fs1 r fs' :
  target <> "" -> unused target fs ->
  scratched target fs fs1 -> file_holds fs1 (temporary_path target) s ->
  Backup.publish h (temporary_path target) target fs1 = (r, fs') ->
  (r = Err PublishFailed /\ scratched target fs fs')
  \/ ((r = Ok tt \/ r = Err ParentSyncFailed) /\ published target s fs fs').
Proof.
  intros Hne Hu Hs (c & f & He & Hf & Hi & Hl). destruct (suffixes_fresh target Hne) as (Hin & Hw & Hm).
  unfold Backup.publish, rename_file, sync_parent, and_then, get_state, put_state, guard, yield, bail.
  rewrite (remove_sidecars_delete target fs) by done.
  set (fs2 := delete _ (delete _ fs1)).
  assert (scratched target fs fs2) as Hs2
    by (apply scratched_delete; [apply scratched_delete; [done|set_solver]|set_solver]).
  destruct (rename _ _ fs2) as [fs3|] eqn:Hr; [|intros [= <- <-]; by left].
  destruct (Host.io_ok h Publish target); [|intros [= <- <-]; by left].
  apply rename_Some in Hr as (c' & Hc' & _ & ->). intros Hk. right.
  assert (c' = c) as ->.
  { unfold fs2 in Hc'. rewrite !lookup_delete_ne in Hc' by done. congruence. }
  split; [destruct (_ || _); injection Hk as <- _; auto|].
  assert (fs' = <[at_path target:=Regular c]> (delete (at_path (temporary_path target)) fs2)) as ->
    by (destruct (_ || _); by injection Hk).
  assert (forall q, q <> at_path target ->
    <[at_path target:=Regular c]> (delete (at_path (temporary_path target)) fs2) !! q = fs !! q) as Hother.
  { intros q Hq. rewrite lookup_insert_ne by done.
    destruct (decide (q ∈ scratch target)) as [Hq'|Hq'].
    - rewrite (Hu q Hq'). apply lookup_delete_None.
      destruct (decide (q = at_path (temporary_path target))); [by left|right]. unfold fs2.
      apply lookup_delete_None. destruct (decide (q = at_path (shm_path (temporary_path target)))); [by left|right].
      apply lookup_delete_None. left. set_solver.
    - rewrite lookup_delete_ne by set_solver. by apply (scratched_other _ _ _ Hs2). }
  split; [| |done].
  - exists c, f. by rewrite lookup_insert_eq.
  - intros q Hq. rewrite Hother by (by intros ->). by apply Hu.
Qed.

Lemma ensure_distinct_Ok source target :
  Backup.ensure_distinct h source target = Ok tt -> source <> "" /\ target <> "" /\ at_path source <> at_path target.
Proof.
  unfold Backup.ensure_distinct, absolute. repeat case_bool_decide; cbn [ok_or result_bind]; try done.
  by case_bool_decide.
Qed.

Lemma ensure_new_target_Ok target fs u fs' :
  Backup.ensure_new_target h target fs = (Ok u, fs') ->
  fs' = fs /\ fs !! at_path target = None /\ unused target fs.
Proof.
  unfold Backup.ensure_new_target. intros (s0 & s1 & [= <- <-] & Hk)%and_then_Ok.
  apply and_then_Ok in Hk as (v & s2 & (Ht & _ & ->)%guard_Ok & (Hx & _ & ->)%guard_Ok).
  unfold exists_at in *. apply negb_true_iff in Ht, Hx.
  apply orb_false_iff in Hx as [[Ht1 Ht2]%orb_false_iff Ht3].
  assert (forall o : option (Entry Content), is_some o = false -> o = None) as Hnone by (by intros []).
  split_and!; [done|by apply Hnone|]. intros q Hq. unfold scratch in Hq.
  rewrite !elem_of_cons, elem_of_nil in Hq. destruct Hq as [->|[->|[->|[]]]]; by apply Hnone.
Qed.

Lemma ensure_new_target_files target fs : (Backup.ensure_new_target h target fs).2 = fs.
Proof.
  unfold Backup.ensure_new_target, and_then, get_state, guard, yield, bail.
  destruct (negb (exists_at fs (at_path target))); [|done]. by destruct (negb _).
Qed.

(** The source is opened and closed again before its copy is looked at. *)
Lemma materialize_scratched source target fs r fs' :
  close h source fs = fs -> scratched target fs fs ->
  Backup.materialize h source (temporary_path target) fs = (r, fs') -> scratched target fs fs'.
Proof.
  intros Hc Hs. pose proof (store_open_existing_files source fs) as Hf. rewrite Hc in Hf. revert Hf.
  unfold Backup.materialize, Backup.vacuum_into, and_then, get_state, put_state, guard, yield, bail.
  destruct (store_open_existing h source fs) as [[f|e] fs1]; intros Hf; simpl in Hf;
    assert (fs1 = fs) as -> by tauto; [|by intros [= <- <-]].
  intros Hk. assert (fs' = partial_alter (fun _ => Regular <$> Host.vacuumed h)
    (at_path (temporary_path target)) fs) as ->
    by (destruct (Host.vacuum_ok h); by injection Hk).
  apply scratched_alter; [done|set_solver|by destruct (Host.vacuumed h)].
Qed.

(** [VACUUM INTO] writes no log beside its target. *)
Lemma materialize_no_log source target fs r fs' :
  target <> "" -> close h source fs = fs -> unused target fs ->
  Backup.materialize h source (temporary_path target) fs = (r, fs') ->
  fs' !! at_path (wal_path (temporary_path target)) = None.
Proof.
  intros Hne Hc Hu. destruct (suffixes_fresh target Hne) as (_ & Hw & _).
  pose proof (Hu (at_path (wal_path (temporary_path target))) ltac:(set_solver)) as Hnone.
  pose proof (store_open_existing_files source fs) as Hf. rewrite Hc in Hf. revert Hf.
  unfold Backup.materialize, Backup.vacuum_into, and_then, get_state, put_state, guard, yield, bail.
  destruct (store_open_existing h source fs) as [[f|e] fs1]; intros Hf; simpl in Hf;
    assert (fs1 = fs) as -> by tauto; [|by intros [= <- <-]].
  intros Hk. assert (fs' = partial_alter (fun _ => Regular <$> Host.vacuumed h)
    (at_path (temporary_path target)) fs) as ->
    by (destruct (Host.vacuum_ok h); by injection Hk).
  by rewrite lookup_partial_alter_ne.
Qed.

Lemma metadata_files path fs : (Backup.metadata_len h path fs).2 = fs.
Proof.
  unfold Backup.metadata_len, and_then, get_state, yield, bail.
  destruct (fs !! at_path path) as [[c|]|]; [by destruct (Host.io_ok h Metadata path)|done|done].
Qed.

Lemma metadata_Err path fs e fs' : Backup.metadata_len h path fs = (Err e, fs') -> e = MetadataFailed.
Proof.
  unfold Backup.metadata_len, and_then, get_state, yield, bail.
  destruct (fs !! at_path path) as [[c|]|]; [destruct (Host.io_ok h Metadata path)|..]; congruence.
Qed.

Lemma leave_sidecars_holds target fs s :
  target <> "" -> file_holds fs (temporary_path target) s ->
  file_holds (Backup.leave_sidecars h (temporary_path target) fs) (temporary_path target) s.
Proof.
  intros Hne. destruct (suffixes_fresh target Hne) as (_ & Hw & Hm).
  apply file_holds_same. unfold Backup.leave_sidecars.
  destruct (Host.leaves_wal h), (Host.leaves_shm h); by rewrite ?lookup_insert_ne.
Qed.

(** The three guarded steps leave the files of the start after an error, and
    otherwise a candidate with the state of the source for what follows. *)
Lemma candidate_cases {A} (source target : string) (s : ControlPlaneSnapshot.t) (fs : Files Content)
    (rest : Tool A) r fs' :
  target <> "" -> unused target fs -> close h source fs = fs -> holds fs source s ->
  (let! _ := Backup.or_cleanup h (temporary_path target)
               (Backup.materialize h source (temporary_path target)) in
   let! candidate := Backup.or_cleanup h (temporary_path target)
                       (Backup.validate_candidate h (temporary_path target)) in
   let! _ := Backup.or_cleanup h (temporary_path target)
     (Backup.ensure_parity (Backup.validated s) candidate) in
   rest)%rust fs = (r, fs') ->
  (exists e, r = Err e /\ fs' = fs)
  \/ (exists fs1, scratched target fs fs1 /\ file_holds fs1 (temporary_path target) s /\ rest fs1 = (r, fs')).
Proof.
  intros Hne Hu Hclosed Hsrc. unfold and_then at 1, Backup.or_cleanup at 1.
  destruct (Backup.materialize h source _ fs) as [r1 fs1] eqn:Hm.
  pose proof (materialize_scratched _ _ _ _ _ Hclosed (unused_scratched _ _ Hu) Hm) as Hs1.
  pose proof (materialize_no_log _ _ _ _ _ Hne Hclosed Hu Hm) as Hlog.
  destruct r1 as [[]|e]; [|intros [= <- <-]; left; exists e; by rewrite (cleanup_restores _ fs)].
  unfold and_then at 1, Backup.or_cleanup at 1, Backup.validate_candidate.
  destruct (Backup.validate h (temporary_path target) fs1) as [r2 fs2] eqn:Hv.
  assert (fs2 = fs1) as ->.
  { pose proof (validate_files (temporary_path target) fs1) as Hf.
    rewrite Hv, (close_no_log _ _ Hlog) in Hf. simpl in Hf. tauto. }
  pose proof (scratched_leave _ _ _ Hs1) as Hs2.
  destruct r2 as [v|e]; [|intros [= <- <-]; left; exists e; by rewrite (cleanup_restores _ fs)].
  apply validate_Ok in Hv as (_ & s' & Hcand & ->). pose proof Hcand as Hfile.
  apply file_holds_iff in Hfile; [|done].
  unfold and_then at 1, Backup.or_cleanup at 1, Backup.ensure_parity, guard.
  cbn [Backup.canonical Backup.validated].
  case_bool_decide as Heq; unfold bail, yield;
    [|intros [= <- <-]; left; eexists; by rewrite (cleanup_restores _ fs)].
  apply to_canonical_json_inj in Heq as <-; [|by eapply holds_ok..].
  intros Hk. right. eexists. split_and!; [exact Hs2|by apply leave_sidecars_holds|exact Hk].
Qed.

(** A run leaves the files as they were or with the log of its source written
    back; or it stops before the artifact has its name, or publishes it. *)
Lemma materialize_validated_cases source target operation fs r fs' :
  Backup.materialize_validated h source target operation fs = (r, fs') ->
  (exists e, r = Err e /\ (fs' = fs \/ fs' = close h source fs))
  \/ (fs !! at_path target = None /\ target <> ""
      /\ (scratched target (close h source fs) fs' /\ (r = Err MetadataFailed \/ r = Err PublishFailed)
          \/ exists s, holds fs source s /\ published target s (close h source fs) fs'
              /\ ((exists j, r = Ok j) \/ r = Err ParentSyncFailed))).
Proof.
  unfold Backup.materialize_validated. unfold and_then at 1, lift.
  destruct (Backup.ensure_distinct h source target) as [[]|e] eqn:Hd; [|intros [= <- <-]; eauto].
  apply ensure_distinct_Ok in Hd as (Hsrc & Hne & Hpaths). unfold and_then at 1.
  pose proof (ensure_new_target_files target fs) as Hnf.
  destruct (Backup.ensure_new_target h target fs) as [[u|e] fs1] eqn:Hn; simpl in Hnf; subst fs1;
    [|intros [= <- <-]; eauto].
  apply ensure_new_target_Ok in Hn as (_ & Hnew & Hu). unfold and_then at 1.
  pose proof (validate_files source fs) as Hvf.
  destruct (Backup.validate h source fs) as [[v|e] fs0] eqn:Hv; simpl in Hvf; [|intros [= <- <-]; eauto].
  apply validate_Ok in Hv as (-> & s & Hs & ->). unfold and_then at 1, Backup.prepare_parent, guard.
  destruct (negb (has_parent target) || _); unfold yield at 1, bail; [|intros [= <- <-]; eauto].
  intros [(e & -> & ->)|(fs1 & Hs1 & Hcand & Hk)]%candidate_cases;
    [by eauto| |done|intros q Hq; by apply close_None, Hu|by apply close_twice|by apply close_holds].
  right. split_and!; [done..|]. revert Hk. unfold and_then at 1.
  pose proof (metadata_files (temporary_path target) fs1) as Hmf.
  destruct (Backup.metadata_len h _ fs1) as [[bytes|e] fs2] eqn:Hmd; simpl in Hmf; subst fs2.
  2:{ apply metadata_Err in Hmd as ->. intros [= <- <-]. left. auto. }
  unfold and_then at 1. destruct (Backup.publish h _ target fs1) as [rp fsp] eqn:Hp.
  apply (publish_cases target s (close h source fs)) in Hp as [[-> Hs2]|[Hr Hpub]];
    [| |done|intros q Hq; by apply close_None, Hu|done..].
  - intros [= <- <-]. left. auto.
  - intros Hk. right. exists s. destruct Hr as [-> | ->]; injection Hk as <- <-; split_and!; eauto.
Qed.

(** A backup or restore that reports success has published, under a name that
    was free, a file that by itself opens and holds exactly the state of its
    source, whatever [VACUUM INTO] did; every other file is as it was, but that
    the log of the source may have been written back, and nothing temporary is
    left. *)
Theorem backup_is_faithful source target operation fs j fs' :
  Backup.materialize_validated h source target operation fs = (Ok j, fs') ->
  exists s, holds fs source s /\ fs !! at_path target = None
    /\ published target s (close h source fs) fs'.
Proof.
  intros [(e & [=] & _)|(Hnew & _ & [(_ & [[=]|[=]])|(s & Hs & Hp & _)])]%materialize_validated_cases.
  eauto.
Qed.

(** One that fails leaves every file as it was, the log of the source apart; only
    a failure of the last steps leaves the temporary files, or the whole artifact
    under its name when its directory could not be made durable. *)
Theorem failed_backup_changes_nothing source target operation fs e fs' :
  Backup.materialize_validated h source target operation fs = (Err e, fs') ->
  fs' = fs \/ fs' = close h source fs
  \/ ((e = MetadataFailed \/ e = PublishFailed) /\ fs' !! at_path target = None
      /\ scratched target (close h source fs) fs')
  \/ (e = ParentSyncFailed /\ exists s, holds fs source s /\ published target s (close h source fs) fs').
Proof.
  intros [(e' & [= ->] & [-> | ->])|(Hnew & Hne & [(Hs & He)|(s & Hs & Hp & [[j [=]]|[= ->]])])]
    %materialize_validated_cases; [by auto|by auto| |right; right; right; by eauto].
  right. right. left. destruct (suffixes_fresh target Hne) as (Hin & _).
  split_and!; [destruct He as [[= ->]|[= ->]]; auto| |done].
  rewrite (scratched_other _ _ _ Hs) by done. by apply close_None.
Qed.

(** With no log beside it a published artifact is a database with that state. *)
Lemma published_holds target s fs fs' :
  target <> "" -> published target s fs fs' -> fs !! at_path (wal_path target) = None ->
  holds fs' target s.
Proof.
  intros Hne Hp Hw. apply file_holds_iff; [|apply Hp].
  by rewrite (published_other _ _ _ _ Hp) by (by apply wal_path_fresh).
Qed.

(** *** A run that succeeds *)

(** Nothing fails, the target is free, and [VACUUM INTO] made a database that
    opens and holds [s], as it is documented to copy. *)
Record backable (source target : string) (s : ControlPlaneSnapshot.t) (fs : Files Content) : Prop := {
  backable_io : forall step p, Host.io_ok h step p = true;
  backable_source : holds fs source s;
  backable_paths : Backup.ensure_distinct h source target = Ok tt;
  backable_target : fs !! at_path target = None;
  backable_scratch : unused target fs;
  backable_vacuum : Host.vacuum_ok h = true;
  backable_copy : exists g, Host.vacuumed h = Some (Db g)
    /\ initialize_existing g true = Ok g /\ load_snapshot (DbFile.tables g) = Ok s;
}.

Lemma ensure_new_target_succeeds target fs :
  fs !! at_path target = None -> unused target fs ->
  Backup.ensure_new_target h target fs = (Ok tt, fs).
Proof.
  intros Hnew Hu. unfold Backup.ensure_new_target, and_then, get_state, guard, exists_at.
  rewrite Hnew, !Hu by (unfold scratch; set_solver). done.
Qed.

Lemma materialize_succeeds source target s fs :
  backable source target s fs ->
  exists fs1, Backup.materialize h source (temporary_path target) (close h source fs) = (Ok tt, fs1)
    /\ file_holds fs1 (temporary_path target) s.
Proof.
  intros Hb. destruct (backable_copy _ _ _ _ Hb) as (g & Hg & Hi & Hl).
  destruct (ensure_distinct_Ok _ _ (backable_paths _ _ _ _ Hb)) as [Hsrc _].
  destruct (close_holds _ _ _ Hsrc (backable_source _ _ _ _ Hb)) as (c & f & He & Hf & Hfi & Hfl).
  eexists. split.
  - unfold Backup.materialize, Backup.vacuum_into, store_open_existing, and_then, get_state, put_state,
      guard, lift, yield. rewrite He, Hf. cbn [ok_or]. rewrite (backable_io _ _ _ _ Hb).
    cbn [open_existing]. rewrite Hfi. cbn [map_err]. by rewrite (backable_vacuum _ _ _ _ Hb).
  - exists (Db g), g. rewrite lookup_partial_alter_eq, Hg. done.
Qed.

Lemma publish_succeeds target s fs fs1 :
  target <> "" -> (forall step p, Host.io_ok h step p = true) ->
  scratched target fs fs1 -> fs !! at_path target = None -> file_holds fs1 (temporary_path target) s ->
  exists fs2, Backup.publish h (temporary_path target) target fs1 = (Ok tt, fs2).
Proof.
  intros Hne Hio Hs Hnew (c & f & He & _). destruct (suffixes_fresh target Hne) as (Hin & Hw & Hm).
  unfold Backup.publish, rename_file, sync_parent, and_then, get_state, put_state, guard, yield, bail.
  rewrite (remove_sidecars_delete target fs) by done.
  unfold rename. rewrite !lookup_delete_ne, He by done.
  rewrite !lookup_delete_ne by (intros Heq; apply Hin; rewrite <- Heq; unfold scratch; set_solver).
  rewrite (scratched_other _ _ _ Hs), Hnew, !Hio, orb_true_r by done. eauto.
Qed.

(** A backup of a healthy database to a free name goes through. *)
Theorem backup_succeeds source target operation s fs :
  backable source target s fs ->
  exists j fs', Backup.materialize_validated h source target operation fs = (Ok j, fs').
Proof.
  intros Hb. pose proof (backable_io _ _ _ _ Hb) as Hio.
  destruct (ensure_distinct_Ok _ _ (backable_paths _ _ _ _ Hb)) as (Hsrc & Hne & _).
  destruct (materialize_succeeds _ _ _ _ Hb) as (fs1 & Hm & Hc).
  pose proof (close_twice source fs Hsrc) as Hclosed.
  assert (unused target (close h source fs)) as Hu
    by (intros q Hq; by apply close_None, (backable_scratch _ _ _ _ Hb)).
  pose proof (materialize_scratched _ _ _ _ _ Hclosed (unused_scratched _ _ Hu) Hm) as Hs1.
  pose proof (materialize_no_log _ _ _ _ _ Hne Hclosed Hu Hm) as Hlog.
  pose proof (leave_sidecars_holds _ _ _ Hne Hc) as Hc2.
  destruct (publish_succeeds target s _ _ Hne Hio (scratched_leave _ _ _ Hs1)
    (close_None _ _ _ (backable_target _ _ _ _ Hb)) Hc2) as [fs3 Hp].
  destruct Hc2 as (c & f & Hentry & _). eexists _, fs3.
  unfold Backup.materialize_validated, and_then, lift. rewrite (backable_paths _ _ _ _ Hb).
  rewrite (ensure_new_target_succeeds _ _ (backable_target _ _ _ _ Hb) (backable_scratch _ _ _ _ Hb)).
  rewrite (validate_holds source fs s (Hio _ _) (backable_source _ _ _ _ Hb)).
  unfold Backup.prepare_parent, guard. rewrite Hio, orb_true_r. unfold yield at 1.
  unfold Backup.or_cleanup, Backup.validate_candidate. rewrite Hm.
  rewrite (validate_holds _ fs1 s (Hio _ _) (proj1 (file_holds_iff _ _ _ Hlog) Hc)), (close_no_log _ _ Hlog).
  unfold Backup.ensure_parity, guard. rewrite bool_decide_true by done. unfold yield at 1.
  unfold Backup.metadata_len, and_then, get_state. rewrite Hentry, Hio. unfold yield at 1.
  by rewrite Hp.
Qed.
End Backups.

(** *** Backup and restore *)

Section Restore.
Context `{Blake3Laws, UuidTextLaws, !JsonText DeviceRecord.t, !JsonText DeviceCommand.t, !JsonValid}.
Context `{!JsonTextLaws DeviceRecord.t, !JsonTextLaws DeviceCommand.t}.
Context `{!JsonText SnapshotDocument.t, !JsonTextLaws SnapshotDocument.t}.

Lemma file_holds_host h h' fs path s :
  Host.cwd h = Host.cwd h' -> Host.fresh h = Host.fresh h' -> file_holds h fs path s -> file_holds h' fs path s.
Proof.
  intros Hc Hf (content & f & He & Hd & Hi & Hl). exists content, f. rewrite <- Hc. split_and!; try done.
  unfold database_of, with_log in *. by rewrite <- Hf.
Qed.

(** What a restore puts at its target, read by itself, is the state of the
    archive at the time of the backup. *)
Lemma restored_file h h' live archive target fs fs1 fs2 fs3 j j' s :
  Host.cwd h = Host.cwd h' -> Host.fresh h = Host.fresh h' -> holds h fs live s ->
  Backup.backup_state h live archive fs = (Ok j, fs1) ->
  fs2 !! resolve (Host.cwd h) archive = fs1 !! resolve (Host.cwd h) archive ->
  fs2 !! resolve (Host.cwd h) (wal_path archive) = None ->
  Backup.restore_state h' archive target fs2 = (Ok j', fs3) ->
  published h' target s fs2 fs3 /\ target <> "".
Proof.
  intros Hc Hf Hlive Hb Hkept Hlog Hr. unfold Backup.backup_state, Backup.restore_state in *.
  apply backup_is_faithful in Hb as (s1 & Hs1 & _ & Hp1).
  apply materialize_validated_cases in Hr as [(e & [=] & _)|(_ & Hne & [(_ & [[=]|[=]])|(s2 & Hs2 & Hp2 & _)])].
  rewrite (holds_unique _ _ _ _ _ Hlive Hs1). pose proof (published_file _ _ _ _ _ Hp1) as Harch.
  apply (file_holds_same _ _ fs2) in Harch; [|done]. apply (file_holds_host h h') in Harch; [|done|done].
  rewrite Hc in Hlog. apply file_holds_iff in Harch; [|done].
  rewrite (close_no_log _ _ _ Hlog) in Hp2. by rewrite (holds_unique _ _ _ _ _ Harch Hs2).
Qed.

(** C16: Restoring a backup gives the state the database had, its log included,
    when the backup was made, whatever happened in between to the database or to
    any other file, if the backup file is as it was and no write-ahead log lies
    beside it or beside the name that is restored to when the restore starts. *)
Theorem backup_then_restore h h' live archive target fs fs1 fs2 fs3 j j' s :
  Host.cwd h = Host.cwd h' -> Host.fresh h = Host.fresh h' -> holds h fs live s ->
  Backup.backup_state h live archive fs = (Ok j, fs1) ->
  fs2 !! resolve (Host.cwd h) archive = fs1 !! resolve (Host.cwd h) archive ->
  fs2 !! resolve (Host.cwd h) (wal_path archive) = None ->
  fs2 !! resolve (Host.cwd h) (wal_path target) = None ->
  Backup.restore_state h' archive target fs2 = (Ok j', fs3) ->
  holds h' fs3 target s.
Proof.
  intros Hc Hf Hlive Hb Hkept Hlog Htarget Hr.
  destruct (restored_file h h' live archive target fs fs1 fs2 fs3 j j' s) as [Hp Hne]; try done.
  apply (published_holds _ _ _ fs2); [done|done|]. by rewrite <- Hc.
Qed.

(** Without the last condition it does not: a log that the lost database left
    under its name passes the check for a new target and is read into the
    database that was restored. *)
Theorem leftover_log_is_replayed h h' live archive target fs fs1 fs2 fs3 j j' s log :
  Host.cwd h = Host.cwd h' -> Host.fresh h = Host.fresh h' ->
  DbFile.user_version (Host.fresh h') = 0 -> holds h fs live s ->
  Backup.backup_state h live archive fs = (Ok j, fs1) ->
  fs2 !! resolve (Host.cwd h) archive = fs1 !! resolve (Host.cwd h) archive ->
  fs2 !! resolve (Host.cwd h) (wal_path archive) = None ->
  fs2 !! resolve (Host.cwd h) (wal_path target) = Some (Regular (Sidecar log)) ->
  Backup.restore_state h' archive target fs2 = (Ok j', fs3) ->
  exists f, fs3 !! resolve (Host.cwd h) target = Some (Regular (Db f))
    /\ load_snapshot (DbFile.tables f) = Ok s /\ database_at h' fs3 target = Some (Host.replay h' f log).
Proof.
  intros Hc Hf Hv Hlive Hb Hkept Hlog Htarget Hr.
  destruct (restored_file h h' live archive target fs fs1 fs2 fs3 j j' s) as [Hp Hne]; try done.
  destruct (published_file _ _ _ _ _ Hp) as (c & f & He & Hd & Hi & Hl). rewrite Hc in *.
  destruct c as [g|text|]; [| |done].
  - injection Hd as ->. exists f. split_and!; [done|done|]. unfold database_at, database_of. rewrite He.
    by rewrite (published_other _ _ _ _ _ Hp), Htarget by (by apply wal_path_fresh).
  - unfold database_of in Hd. case_bool_decide as Ht; [|done]. injection Hd as <-.
    apply initialize_existing_same in Hi as [_ Hi]. by rewrite Hv in Hi.
Qed.
End Restore.

(** * Concrete runs of the maintenance tools

    A database with the state after one command, backed up, restored, rolled
    back and imported again, with a concrete text form of the JSON state. *)

Module DemoTools.
Import Foundation.Concrete SqliteBackendTheorems.DemoDatabase LegacyImportTheorems.DemoImport.

(** ** A text form of the state *)

Definition map_field {A} (F : FieldText A) : FieldText (gmap string A) :=
  iso_field (H := list_field (H := pair_field (H := string_field) (H0 := F)))
    map_to_list list_to_map list_to_map_to_list.

#[global] Instance devices_field : FieldText (gmap string DeviceRecord.t) := map_field record_field.
#[global] Instance queues_field : FieldText (gmap string (list DeviceCommand.t)) :=
  map_field (list_field (H := command_field)).
#[global] Instance index_field : FieldText (gmap string CommandId) := map_field id_field.
#[global] Instance results_field : FieldText (gmap string DeviceCommand.t) := map_field command_field.

#[global] Instance commands_field : FieldText CommandState :=
  iso_field (fun c => (queues c, idempotency c, idempotency_results c, idempotency_order c))
    (fun '(q, i, r, o) => mk_commands q i r o) ltac:(by intros []).
#[global] Instance state_field : FieldText StoredState :=
  iso_field (fun s => (devices s, commands s)) (fun '(d, c) => mk_stored d c) ltac:(by intros []).

Definition state_text : StoredState -> string := @field_text StoredState state_field.
Definition text_state : string -> option StoredState := @text_field StoredState state_field.

Lemma text_state_text s : text_state (state_text s) = Some s.
Proof. apply (@text_field_text StoredState state_field). Qed.

#[global] Instance state_json : JsonText StoredState :=
  {| json_encode := state_text; json_decode := text_state |}.

Definition device_json (d : DeviceRecord.t) : Json :=
  JObject [("config_fingerprint", fingerprint_value (DeviceRecord.config_fingerprint d));
           ("binary_fingerprint", fingerprint_value (DeviceRecord.binary_fingerprint d))].

Definition state_value (s : StoredState) : Json :=
  JObject [("devices", JObject ((fun e => (e.1, device_json e.2)) <$> map_to_list (devices s)));
           ("state", JString (state_text s))].

#[global] Instance legacy_json : LegacyJson :=
  {| json_from_str body := option_map state_value (text_state body);
     state_from_value v := ((as_object v ≫= get "state") ≫= as_str) ≫= text_state |}.

#[global] Instance backend_json_laws : BackendJsonLaws.
Proof.
  refine {| backend_value := state_value |}; intros s.
  - unfold json_from_str, legacy_json, json_encode, state_json. by rewrite text_state_text.
  - exact (text_state_text s).
  - eexists. split; [reflexivity|]. apply Forall_forall. intros e He.
    apply list_elem_of_fmap in He as ([n d] & -> & Hin). apply elem_of_map_to_list in Hin.
    by exists d, [("config_fingerprint", fingerprint_value (DeviceRecord.config_fingerprint d));
           ("binary_fingerprint", fingerprint_value (DeviceRecord.binary_fingerprint d))].
Defined.

(** ** Files *)

Definition database (tables : Tables.t) : DbFile.t :=
  DbFile.mk 1 (list_to_set EXPECTED_TABLES) tables "wal" 1 ["ok"] 0.

Definition live : DbFile.t := database (materialize (snapshot_of (memory one))).

Definition host : Host.t :=
  Host.mk [] (fun _ _ => true) "" (DbFile.mk 0 ∅ Tables.empty "wal" 1 ["ok"] 0)
    true (Some (Db live)) (fun f _ => DbFile.set_tables Tables.empty f) true (Some "") true
    (fun _ => 4096).

Definition files : Files Content := {[resolve [] "/state/live.db" := Regular (Db live)]}.

Lemma database_opens t : initialize_existing (database t) true = Ok (database t).
Proof. vm_compute. reflexivity. Qed.

Lemma live_opens : initialize_existing live true = Ok live.
Proof. apply database_opens. Qed.

Lemma files_live : files !! resolve [] "/state/live.db" = Some (Regular (Db live)).
Proof. apply lookup_singleton_eq. Qed.

Lemma files_other q : q <> resolve [] "/state/live.db" -> files !! q = None.
Proof. intros Hq. by apply lookup_singleton_ne. Qed.

Lemma live_holds : load_snapshot (DbFile.tables live) = Ok (snapshot_of (memory one)).
Proof. apply load_materialize_ok, snapshot_of_ok; apply one_state. Qed.

Lemma database_alone (fs : Files Content) path f :
  fs !! resolve [] path = Some (Regular (Db f)) -> fs !! resolve [] (wal_path path) = None ->
  database_at host fs path = Some f.
Proof. intros He Hw. unfold database_at. cbn [Host.cwd host]. by rewrite He, Hw. Qed.

Lemma live_held path fs :
  fs !! resolve [] path = Some (Regular (Db live)) -> fs !! resolve [] (wal_path path) = None ->
  holds host fs path (snapshot_of (memory one)).
Proof.
  intros He Hw. exists (Db live), live.
  split_and!; [done|by apply database_alone|apply live_opens|apply live_holds].
Qed.

Lemma files_database : database_at host files "/state/live.db" = Some live.
Proof. apply database_alone; [apply files_live|by apply files_other]. Qed.

Lemma files_held : holds host files "/state/live.db" (snapshot_of (memory one)).
Proof. apply live_held; [apply files_live|by apply files_other]. Qed.

(** ** Backup and restore *)

Lemma demo_backable source target fs :
  holds host fs source (snapshot_of (memory one)) ->
  Backup.ensure_distinct host source target = Ok tt -> fs !! resolve [] target = None ->
  unused host target fs -> backable host source target (snapshot_of (memory one)) fs.
Proof.
  intros He Hd Hnew Hu. split; try done. exists live. split_and!; [done|apply live_opens|apply live_holds].
Qed.

Ltac free := intros q Hq; unfold scratch in Hq; rewrite !elem_of_cons, elem_of_nil in Hq;
  destruct Hq as [->|[->|[->|[]]]].

Lemma archive_free : unused host "/state/archive.db" files.
Proof. free; by apply files_other. Qed.

Lemma backup_succeeds_witness :
  exists j fs', Backup.materialize_validated host "/state/live.db" "/state/archive.db" "backup" files
                = (Ok j, fs').
Proof.
  apply (backup_succeeds host "/state/live.db" "/state/archive.db" "backup" (snapshot_of (memory one)) files).
  apply demo_backable; [apply files_held|reflexivity|by apply files_other|apply archive_free].
Defined.

Lemma archived : exists j fs1,
  Backup.backup_state host "/state/live.db" "/state/archive.db" files = (Ok j, fs1)
  /\ file_holds host fs1 "/state/archive.db" (snapshot_of (memory one))
  /\ forall q, q <> resolve [] "/state/archive.db" -> q <> resolve [] "/state/live.db" -> fs1 !! q = None.
Proof.
  destruct (backup_succeeds host "/state/live.db" "/state/archive.db" "backup" (snapshot_of (memory one)) files)
    as (j & fs1 & Hb).
  { apply demo_backable; [apply files_held|reflexivity|by apply files_other|apply archive_free]. }
  exists j, fs1. split; [exact Hb|].
  destruct (backup_is_faithful _ _ _ _ _ _ _ Hb) as (s & Hs & _ & Hp).
  rewrite (holds_unique _ _ _ _ _ files_held Hs). split; [apply Hp|].
  intros q Hq Hq'. rewrite (published_other _ _ _ _ _ Hp q Hq). by apply close_None, files_other.
Qed.

(** The live database is lost, but for what [left] says of its log. *)
Lemma restored left : exists j fs1 j' fs3,
  let fs2 := partial_alter (fun _ => left) (resolve [] (wal_path "/state/live.db"))
               (delete (resolve [] "/state/live.db") fs1) in
  Backup.backup_state host "/state/live.db" "/state/archive.db" files = (Ok j, fs1)
  /\ fs2 !! resolve [] "/state/archive.db" = fs1 !! resolve [] "/state/archive.db"
  /\ fs2 !! resolve [] (wal_path "/state/archive.db") = None
  /\ fs2 !! resolve [] (wal_path "/state/live.db") = left
  /\ Backup.restore_state host "/state/archive.db" "/state/live.db" fs2 = (Ok j', fs3).
Proof.
  destruct archived as (j & fs1 & Hb & Ha & Hother).
  set (fs2 := partial_alter (fun _ => left) (resolve [] (wal_path "/state/live.db"))
                (delete (resolve [] "/state/live.db") fs1)).
  assert (fs2 !! resolve [] "/state/archive.db" = fs1 !! resolve [] "/state/archive.db") as Hkept
    by (unfold fs2; by rewrite lookup_partial_alter_ne, lookup_delete_ne).
  assert (forall q, q <> resolve [] "/state/archive.db" -> q <> resolve [] "/state/live.db" ->
            q <> resolve [] (wal_path "/state/live.db") -> fs2 !! q = None) as Hfree.
  { intros q Hq Hq' Hw. unfold fs2. rewrite lookup_partial_alter_ne, lookup_delete_ne by done. by apply Hother. }
  destruct (backup_succeeds host "/state/archive.db" "/state/live.db" "restore" (snapshot_of (memory one)) fs2)
    as (j' & fs3 & Hr).
  { apply demo_backable; [|reflexivity|unfold fs2; rewrite lookup_partial_alter_ne by done;
      apply lookup_delete_eq|free; by apply Hfree].
    apply file_holds_iff; [by apply Hfree|by apply (file_holds_same _ fs1)]. }
  exists j, fs1, j', fs3. cbv zeta. fold fs2.
  split_and!; [exact Hb|exact Hkept|by apply Hfree|apply lookup_partial_alter_eq|exact Hr].
Qed.

(** With no log left the backup brings the state back. *)
Lemma backup_then_restore_witness :
  exists fs3, holds host fs3 "/state/live.db" (snapshot_of (memory one)).
Proof.
  destruct (restored None) as (j & fs1 & j' & fs3 & Hb & Hkept & Hlog & Htarget & Hr).
  exists fs3. eapply (backup_then_restore host host "/state/live.db" "/state/archive.db" "/state/live.db"
    files fs1 _ fs3 j j' (snapshot_of (memory one)));
    [reflexivity|reflexivity|apply files_held|exact Hb|exact Hkept|exact Hlog|exact Htarget|exact Hr].
Defined.

(** With the log of the lost database, here one that empties the tables, the
    restored database is not the one that was backed up. *)
Lemma leftover_log_demo : exists (fs3 : Files Content) f,
  database_at host fs3 "/state/live.db" = Some (DbFile.set_tables Tables.empty f).
Proof.
  destruct (restored (Some (Regular (Sidecar "old")))) as (j & fs1 & j' & fs3 & Hb & Hkept & Hlog & Htarget & Hr).
  edestruct (leftover_log_is_replayed host host "/state/live.db" "/state/archive.db" "/state/live.db")
    as (f & _ & _ & Hd);
    [reflexivity|reflexivity|reflexivity|apply files_held|exact Hb|exact Hkept|exact Hlog|exact Htarget
    |exact Hr|by exists fs3, f].
Qed.

(** ** Rollback and import *)

Lemma database_initializes t : initialize (database t) true = Ok (database t).
Proof. vm_compute. reflexivity. Qed.

Lemma live_exportable sqlite path fs :
  fs !! resolve [] sqlite = Some (Regular (Db live)) -> fs !! resolve [] (wal_path sqlite) = None ->
  Migrate.ensure_distinct host [sqlite; path] = Ok tt ->
  is_directory fs (resolve [] path) = false -> is_directory fs (resolve [] (temporary_path path)) = false ->
  exportable host sqlite path (snapshot_of (memory one)) fs.
Proof.
  intros He Hw Hd Hp Ht. split; [done|exact Hd| | |exact Hp|exact Ht].
  - unfold regular. cbn [Host.cwd host]. by rewrite He.
  - exists live. split_and!; [by apply database_alone|apply database_initializes|apply live_holds].
Qed.

Lemma rolled_back : exists j fs1,
  Migrate.rollback_export host "/state/live.db" "/state/rollback.json" files = (Ok j, fs1)
  /\ forall q, q <> resolve [] "/state/live.db" -> q <> resolve [] "/state/rollback.json" -> fs1 !! q = None.
Proof.
  destruct (rollback_export_succeeds host "/state/live.db" "/state/rollback.json" files
    (snapshot_of (memory one)) (json_encode (restarted (memory one)))) as (j & fs1 & Hx);
    [|apply serialize_json_backend_ok, one_state|].
  { apply live_exportable; [apply files_live|by apply files_other|reflexivity|..]; unfold is_directory; by rewrite files_other. }
  exists j, fs1. split; [exact Hx|]. intros q Hq Hq'.
  apply rollback_export_Ok in Hx as (s & body & _ & f0 & f & _ & _ & _ & _ & Htmp & _ & Hother).
  destruct (decide (q = resolve [] (temporary_path "/state/rollback.json"))) as [->|Hne]; [exact Htmp|].
  rewrite Hother by done. apply lookup_delete_None. right. by apply files_other.
Qed.

(** The rollback file of the live database is imported into a new one. *)
Lemma rollback_then_import_witness :
  exists (fs2 : Files Content) (f : DbFile.t), fs2 !! resolve [] "/state/new.db" = Some (Regular (Db f))
    /\ load_snapshot (DbFile.tables f) = load_snapshot (DbFile.tables live).
Proof.
  destruct rolled_back as (j & fs1 & Hx & Hfree).
  destruct (rollback_then_import host (memory one) "/state/live.db" live "/state/rollback.json" "/state/new.db"
    "/state/diagnostic.json" files j fs1 (proj1 one_state) one_unaliased (proj2 one_state)
    files_database eq_refl live_holds Hx)
    as (j' & fs2 & f & _ & Hf & Hl); [|exists fs2, f; split; [exact Hf|exact Hl]].
  split; [done|reflexivity|by apply Hfree|unfold is_directory; by rewrite Hfree|done|unfold is_directory; by rewrite Hfree..
    |vm_compute; reflexivity|reflexivity].
Defined.

(** ** The temporary path *)

(** The database is at the temporary path of the document. *)
Lemma export_removes_its_source_witness :
  let fs : Files Content := {[resolve [] "/state/live.tmp" := Regular (Db live)]} in
  exists j fs', Migrate.export host "/state/live.tmp" "/state/live" fs = (Ok j, fs')
    /\ fs' !! resolve [] "/state/live.tmp" = None.
Proof.
  intros fs. assert (fs !! resolve [] "/state/live.tmp" = Some (Regular (Db live))) as He
    by apply lookup_singleton_eq.
  destruct (export_succeeds host "/state/live.tmp" "/state/live" fs (snapshot_of (memory one)))
    as (j & fs2 & Hx).
  { apply live_exportable; [exact He|by apply lookup_singleton_ne|reflexivity|unfold is_directory, fs..].
    - by rewrite lookup_singleton_ne.
    - change (temporary_path "/state/live") with "/state/live.tmp". by rewrite lookup_singleton_eq. }
  exists j, fs2. split; [exact Hx|].
  apply (export_removes_its_source host "/state/live" fs j fs2 Hx).
Defined.
End DemoTools.
