(* ===== verification/ConfigJson.v ===== *)
(** * Fingerprints of the phone's configuration

    [services/host-daemon/src/fingerprints.rs]: a JSON document is read without
    duplicate keys, its secrets are replaced and its objects sorted, and the
    digest of the result identifies the configuration.  Parsing and printing JSON
    are classes; the visitor that builds the value and the canonical form are
    modelled. *)

From stdpp Require Import base gmap strings list fin_maps sorting.
From Stdlib Require Import ZArith Lia String.
From S2P Require Import Prelude Ordered Text NetText Foundation Devices.
Local Open Scope string_scope.
Local Open Scope Z_scope.

(** ** Documents and values *)

(** What the JSON reader calls the visitor with, in the order of the text; a
    float is its 64 bits. *)
Inductive Raw :=
| RNull | RBool (b : bool) | RI64 (n : Z) | RU64 (n : Z) | RF64 (bits : Z) | RString (s : string)
| RSeq (l : list Raw) | RMap (entries : list (string * Raw)).

Inductive Number := PosInt (n : Z) | NegInt (n : Z) | Float (bits : Z).

#[export] Instance Number_eq_dec : EqDecision Number.
Proof. solve_decision. Defined.

(** [serde_json::Value]; an object is its entries in the order of its map. *)
Inductive Value :=
| VNull | VBool (b : bool) | VNumber (n : Number) | VString (s : string)
| VArray (l : list Value) | VObject (entries : list (string * Value)).

(** [Number::from(i64)], [Number::from_f64] *)
Definition number_from_i64 (n : Z) : Number := if n <? 0 then NegInt n else PosInt n.

Definition is_finite (bits : Z) : bool := negb (Z.land (Z.shiftr bits 52) 2047 =? 2047).

Definition number_from_f64 (bits : Z) : option Number :=
  if is_finite bits then Some (Float bits) else None.

(** [UniqueValueVisitor] *)
Fixpoint unique (raw : Raw) : option Value :=
  match raw with
  | RNull => Some VNull
  | RBool b => Some (VBool b)
  | RI64 n => Some (VNumber (number_from_i64 n))
  | RU64 n => Some (VNumber (PosInt n))
  | RF64 bits => VNumber <$> number_from_f64 bits
  | RString s => Some (VString s)
  | RSeq l =>
      VArray <$> (fix visit_seq l :=
        match l with
        | [] => Some []
        | x :: rest => v ← unique x; vs ← visit_seq rest; Some (v :: vs)
        end) l
  | RMap es =>
      (fix visit_map (values : gmap string Value) es :=
        match es with
        | [] => Some (VObject (string_entries values))
        | (field, x) :: rest =>
            if bool_decide (is_Some (values !! field)) then None
            else v ← unique x; visit_map (<[field := v]> values) rest
        end) ∅ es
  end.

(** ** Secrets *)

Definition REDACTED_SECRET : string := "<redacted>".

Definition to_ascii_lowercase (s : string) : string :=
  of_bytes ((fun b => if in_range 65 90 b then b + 32 else b) <$> bytes s).

Definition SECRET_KEYS : list string :=
  ["admin_token"; "device_token"; "auth_token"; "username"; "password"; "private_key";
   "server_key_der_b64"].

Definition SECRET_SUFFIXES : list string := ["_token"; "_password"; "_secret"; "_private_key"].

Definition secret_key (key : string) : bool :=
  let normalized := to_ascii_lowercase key in
  bool_decide (normalized ∈ SECRET_KEYS)
  || existsb (fun suffix => ends_with suffix normalized) SECRET_SUFFIXES.

(** The entries of an object have one key each, so which of two equal keys wins
    does not matter. *)
Fixpoint canonicalize (v : Value) (key : option string) : Value :=
  if is_some_and key secret_key then VString REDACTED_SECRET
  else
    match v with
    | VArray l => VArray (map (fun v => canonicalize v None) l)
    | VObject es =>
        VObject (string_entries (list_to_map
          (map (fun e => (e.1, canonicalize e.2 (Some e.1))) es)))
    | scalar => scalar
    end.

(** ** Fingerprints *)

(** The JSON reader and writer: the first value of a text with whether only
    blanks follow, and the compact text of a value. *)
Class ConfigJsonText := {
  read_document : list Z -> option (Raw * bool);
  print_value : Value -> list Z;
}.

Section Fingerprints.
Context `{Blake3, ConfigJsonText}.
Local Open Scope rust_scope.

Definition config_source_fingerprint (source : list Z) : result Fingerprint string :=
  let? document := ok_or (read_document source)
                     "host-daemon config contains invalid or ambiguous JSON" in
  let? value := ok_or (unique document.1)
                  "host-daemon config contains invalid or ambiguous JSON" in
  if negb document.2 then Err "host-daemon config contains trailing JSON data"
  else Ok (fingerprint_derive CONFIG_FINGERPRINT_DOMAIN [print_value (canonicalize value None)]).

(** [body] is the content of the executable, if it can be read. *)
Definition binary_fingerprint (body : option (list Z)) : result Fingerprint string :=
  let? bytes := ok_or body "failed to read host-daemon binary" in
  Ok (fingerprint_derive BINARY_FINGERPRINT_DOMAIN [bytes]).
End Fingerprints.

(** ** Induction over documents and values *)

Section RawInd.
Context (P : Raw -> Prop).
Context (HNull : P RNull) (HBool : forall b, P (RBool b)) (HI : forall n, P (RI64 n)).
Context (HU : forall n, P (RU64 n)) (HF : forall b, P (RF64 b)) (HS : forall s, P (RString s)).
Context (HSeq : forall l, Forall P l -> P (RSeq l)).
Context (HMap : forall es, Forall (fun e => P e.2) es -> P (RMap es)).

Fixpoint Raw_nested_ind (raw : Raw) : P raw :=
  match raw with
  | RNull => HNull | RBool b => HBool b | RI64 n => HI n | RU64 n => HU n | RF64 b => HF b
  | RString s => HS s
  | RSeq l => HSeq l ((fix go l : Forall P l :=
      match l with
      | [] => @List.Forall_nil _ P
      | x :: l => @List.Forall_cons _ P x l (Raw_nested_ind x) (go l)
      end) l)
  | RMap es => HMap es ((fix go es : Forall (fun e => P e.2) es :=
      match es with
      | [] => @List.Forall_nil _ (fun e => P e.2)
      | e :: es => @List.Forall_cons _ (fun e => P e.2) e es (Raw_nested_ind e.2) (go es)
      end) es)
  end.
End RawInd.

Section ValueInd.
Context (P : Value -> Prop).
Context (HNull : P VNull) (HBool : forall b, P (VBool b)) (HN : forall n, P (VNumber n)).
Context (HS : forall s, P (VString s)).
Context (HArray : forall l, Forall P l -> P (VArray l)).
Context (HObject : forall es, Forall (fun e => P e.2) es -> P (VObject es)).

Fixpoint Value_nested_ind (v : Value) : P v :=
  match v with
  | VNull => HNull | VBool b => HBool b | VNumber n => HN n | VString s => HS s
  | VArray l => HArray l ((fix go l : Forall P l :=
      match l with
      | [] => @List.Forall_nil _ P
      | x :: l => @List.Forall_cons _ P x l (Value_nested_ind x) (go l)
      end) l)
  | VObject es => HObject es ((fix go es : Forall (fun e => P e.2) es :=
      match es with
      | [] => @List.Forall_nil _ (fun e => P e.2)
      | e :: es => @List.Forall_cons _ (fun e => P e.2) e es (Value_nested_ind e.2) (go es)
      end) es)
  end.
End ValueInd.

(** ** Reading a document *)

(** An entry of the text and the entry it becomes. *)
Definition reads_entry (e : string * Raw) (e' : string * Value) : Prop :=
  e.1 = e'.1 /\ unique e.2 = Some e'.2.

Lemma reads_keys es vs : Forall2 reads_entry es vs -> vs.*1 = es.*1.
Proof. induction 1 as [|e v es vs [Hk _] _ IH]; csimpl; [done|]. by rewrite IH, Hk. Qed.

Lemma unique_seq l v :
  unique (RSeq l) = Some v <->
  exists vs, Forall2 (fun x y => unique x = Some y) l vs /\ v = VArray vs.
Proof.
  cbn [unique]. set (go := fix visit_seq l := match l with [] => _ | _ => _ end).
  assert (forall vs, go l = Some vs <-> Forall2 (fun x y => unique x = Some y) l vs) as Hgo.
  { clear v. induction l as [|x l IH]; intros vs; simpl.
    - split; [by intros [= <-]|]. by intros ->%Forall2_nil_inv_l.
    - destruct (unique x) as [w|] eqn:Hx; cbn [mbind option_bind].
      + destruct (go l) as [ws|]; cbn [mbind option_bind].
        * split; [intros [= <-]; constructor; [done|]; by apply IH|].
          intros (w' & ws' & Hw & Hws & ->)%Forall2_cons_inv_l. rewrite Hx in Hw. simplify_eq.
          apply IH in Hws. by simplify_eq.
        * split; [done|]. intros (w' & ws' & Hw & Hws & ->)%Forall2_cons_inv_l.
          apply IH in Hws. done.
      + split; [done|]. intros (w' & ws' & Hw & _)%Forall2_cons_inv_l. congruence. }
  rewrite fmap_Some. setoid_rewrite Hgo. naive_solver.
Qed.

Lemma foldl_insert (vs : list (string * Value)) acc :
  NoDup vs.*1 ->
  foldl (fun m e => <[e.1 := e.2]> m) acc vs = list_to_map vs ∪ (acc : gmap string Value).
Proof.
  revert acc. induction vs as [|[k v] vs IH]; intros acc Hnd; csimpl.
  - by rewrite (left_id_L ∅ (∪)).
  - csimpl in Hnd. apply NoDup_cons in Hnd as [Hk Hnd]. rewrite IH by done. simpl.
    rewrite <- insert_union_l, insert_union_r; [done|]. by apply not_elem_of_list_to_map_1.
Qed.

(** An object is read exactly when its keys are different and its values are
    read; its entries are then sorted by key. *)
Lemma unique_map es v :
  unique (RMap es) = Some v <->
  NoDup es.*1 /\ exists vs, Forall2 reads_entry es vs /\ v = VObject (string_entries (list_to_map vs)).
Proof.
  cbn [unique]. set (go := fix visit_map values es := match es with [] => _ | _ => _ end).
  assert (forall acc, go acc es = Some v <->
    (NoDup es.*1 /\ Forall (fun e => acc !! e.1 = None) es) /\
    exists vs, Forall2 reads_entry es vs
      /\ v = VObject (string_entries (foldl (fun m e => <[e.1 := e.2]> m) acc vs))) as Hgo.
  { induction es as [|[k x] es IH]; intros acc; simpl.
    - split; [intros [= <-]; split; [split; constructor|by exists []]|].
      intros [_ (vs & ->%Forall2_nil_inv_l & ->)]. done.
    - case_bool_decide as Hk.
      { split; [done|]. intros [[_ Hacc] _]. apply Forall_cons in Hacc as [Hn _]. simpl in Hn.
        rewrite Hn in Hk. by destruct Hk. }
      apply eq_None_not_Some in Hk. destruct (unique x) as [w|] eqn:Hx; cbn [mbind option_bind].
      + rewrite IH, NoDup_cons, Forall_cons. simpl. split.
        * intros [[Hnd Hacc] (vs & Hvs & ->)].
          assert (Forall (fun e => acc !! e.1 = None) es /\ k ∉ es.*1) as [Ha Hks].
          { split; [|intros Hin; apply list_elem_of_fmap in Hin as (e & -> & Hin)].
            - eapply Forall_impl; [exact Hacc|]. intros e He.
              apply lookup_insert_None in He. tauto.
            - rewrite Forall_forall in Hacc. specialize (Hacc e Hin).
              apply lookup_insert_None in Hacc. naive_solver. }
          split_and!; try done. exists ((k, w) :: vs). by repeat constructor.
        * intros [[[Hks Hnd] [_ Hacc]] (vs & Hvs & ->)].
          apply Forall2_cons_inv_l in Hvs as ([k' w'] & vs' & [Hk' Hw] & Hvs & ->). simpl in *.
          rewrite Hx in Hw. simplify_eq. split; [|by exists vs'].
          split; [done|]. rewrite Forall_forall in *. intros e He. apply lookup_insert_None.
          split; [by apply Hacc|]. intros ->. apply Hks, list_elem_of_fmap. by exists e.
      + split; [done|]. intros [_ (vs & Hvs & _)].
        apply Forall2_cons_inv_l in Hvs as (e & vs' & [_ Hw] & _). simpl in Hw. congruence. }
  rewrite Hgo. clear Hgo go. split.
  - intros [[Hnd _] (vs & Hvs & ->)]. split; [done|]. exists vs. split; [done|].
    rewrite foldl_insert, (right_id_L ∅ (∪)); [done|]. by rewrite (reads_keys _ _ Hvs).
  - intros [Hnd (vs & Hvs & ->)]. split.
    + split; [done|]. apply Forall_forall. intros. apply lookup_empty.
    + exists vs. split; [done|].
      rewrite foldl_insert, (right_id_L ∅ (∪)); [done|]. by rewrite (reads_keys _ _ Hvs).
Qed.

(** ** Documents that differ in the order of their entries *)

Inductive raw_perm : Raw -> Raw -> Prop :=
| PermRefl raw : raw_perm raw raw
| PermSeq l l' : Forall2 raw_perm l l' -> raw_perm (RSeq l) (RSeq l')
| PermMap es es' es'' :
    Forall2 (fun e e' => e.1 = e'.1 /\ raw_perm e.2 e'.2) es es' -> es' ≡ₚ es'' ->
    raw_perm (RMap es) (RMap es'').

Lemma entries_perm (vs vs' : list (string * Value)) :
  NoDup vs.*1 -> vs ≡ₚ vs' ->
  string_entries (list_to_map vs) = string_entries (list_to_map vs' : gmap string Value).
Proof. intros Hnd Hp. f_equal. by apply list_to_map_proper. Qed.

Lemma unique_perm x y v : raw_perm x y -> unique x = Some v -> unique y = Some v.
Proof.
  revert y v. induction x as [| | | | | |l IH|es IH] using Raw_nested_ind; intros y v Hp;
    try (by inversion Hp; subst).
  - inversion Hp as [|? l' Hl|]; subst; [done|]. rewrite !unique_seq. intros (vs & Hvs & ->).
    exists vs. split; [|done]. clear Hp. revert vs Hvs.
    induction Hl as [|x x' l l' Hx Hl IHl]; intros vs Hvs.
    + apply Forall2_nil_inv_l in Hvs as ->. constructor.
    + apply Forall2_cons_inv_l in Hvs as (w & ws & Hw & Hws & ->).
      apply Forall_cons in IH as [IHx IH]. constructor; [by apply IHx|]. by apply IHl.
  - inversion Hp as [|?|? es' es'' Hes Hperm]; subst; [done|]. rewrite !unique_map.
    intros [Hnd (vs & Hvs & ->)].
    assert (es'.*1 = es.*1 /\ Forall2 reads_entry es' vs) as [Hkeys Hvs'].
    { clear Hp Hnd Hperm. revert vs Hvs.
      induction Hes as [|e e' es es' [Hk He] Hes IHes]; intros vs Hvs.
      + apply Forall2_nil_inv_l in Hvs as ->. by split; [|constructor].
      + apply Forall2_cons_inv_l in Hvs as (w & ws & [Hwk Hw] & Hws & ->).
        apply Forall_cons in IH as [IHe IH]. destruct (IHes IH _ Hws) as [Hk' Hr]. csimpl.
        rewrite Hk', Hk. split; [done|]. constructor; [|done]. split; [congruence|by apply IHe]. }
    destruct (Permutation_Forall2 Hperm Hvs') as (vs' & Hpv & Hvs''). split.
    + by rewrite <- Hperm, Hkeys.
    + exists vs'. split; [done|]. f_equal. apply entries_perm; [|done].
      by rewrite (reads_keys _ _ Hvs).
Qed.

(** ** Values with sorted objects *)

Definition sorted_entries (es : list (string * Value)) : Prop :=
  string_entries (list_to_map es) = es /\ NoDup es.*1.

Inductive value_wf : Value -> Prop :=
| WfNull : value_wf VNull
| WfBool b : value_wf (VBool b)
| WfNumber n : value_wf (VNumber n)
| WfString s : value_wf (VString s)
| WfArray l : Forall value_wf l -> value_wf (VArray l)
| WfObject es : sorted_entries es -> Forall (fun e => value_wf e.2) es -> value_wf (VObject es).

Lemma unique_wf x v : unique x = Some v -> value_wf v.
Proof.
  revert v. induction x as [| | | |bits| |l IH|es IH] using Raw_nested_ind; intros v.
  1-4, 6: (cbn [unique]; intros [= <-]; constructor).
  - cbn [unique]. unfold number_from_f64. destruct (is_finite bits); [|done]. intros [= <-]. constructor.
  - rewrite unique_seq. intros (vs & Hvs & ->). constructor.
    induction Hvs as [|x w l vs Hw Hvs IHvs]; [constructor|]. apply Forall_cons in IH as [IHx IH].
    constructor; [by apply IHx|by apply IHvs].
  - rewrite unique_map. intros [Hnd (vs & Hvs & ->)]. rewrite <- (reads_keys _ _ Hvs) in Hnd.
    constructor.
    + split; [by rewrite list_to_map_entries|apply entries_keys_NoDup].
    + apply Forall_forall. intros [k w] Hin. apply elem_of_entries in Hin.
      apply elem_of_list_to_map in Hin; [|done]. cbn.
      clear Hnd. induction Hvs as [|e e' es vs [Hk He] Hvs IHvs]; [by apply not_elem_of_nil in Hin|].
      apply Forall_cons in IH as [IHe IH].
      apply elem_of_cons in Hin as [Heq|Hin]; [subst e'; by apply IHe|by apply IHvs].
Qed.

(** ** Configurations that differ in secrets only *)

Definition is_scalar (v : Value) : Prop :=
  match v with VArray _ | VObject _ => False | _ => True end.

Inductive same_config : Value -> Value -> Prop :=
| SameScalar v : is_scalar v -> same_config v v
| SameArray l l' : Forall2 same_config l l' -> same_config (VArray l) (VArray l')
| SameObject es es' :
    Forall2 (fun e e' => e.1 = e'.1 /\ (secret_key e.1 = true \/ same_config e.2 e'.2)) es es' ->
    same_config (VObject es) (VObject es').

Definition canonical_entry (e : string * Value) : string * Value :=
  (e.1, canonicalize e.2 (Some e.1)).

Lemma canonical_entries_sorted es :
  sorted_entries es -> string_entries (list_to_map (map canonical_entry es)) = map canonical_entry es.
Proof.
  intros [Hs Hnd].
  assert ((map canonical_entry es).*1 = es.*1) as Hkeys.
  { clear. induction es; csimpl; by f_equal. }
  apply entries_unique; [apply _|apply _|..].
  - assert (StronglySorted (key_le String.le) es) as Hsort.
    { rewrite <- Hs. apply StronglySorted_merge_sort; apply _. }
    clear -Hsort. induction Hsort as [|e es Hsort IH He]; simpl; constructor; [done|].
    clear -He. induction He; simpl; by constructor.
  - by rewrite Hkeys.
  - done.
Qed.

Lemma canonicalize_secret v k : secret_key k = true -> canonicalize v (Some k) = VString REDACTED_SECRET.
Proof. intros Hk. destruct v; cbn [canonicalize is_some_and]; by rewrite Hk. Qed.

Lemma canonicalize_plain v k : secret_key k = false -> canonicalize v (Some k) = canonicalize v None.
Proof. intros Hk. destruct v; cbn [canonicalize is_some_and]; by rewrite Hk. Qed.

Lemma canonicalize_object es :
  value_wf (VObject es) -> canonicalize (VObject es) None = VObject (map canonical_entry es).
Proof.
  intros Hwf. inversion Hwf; subst. cbn [canonicalize is_some_and]. f_equal.
  by apply canonical_entries_sorted.
Qed.

Lemma wf_array l : value_wf (VArray l) -> Forall value_wf l.
Proof. by inversion 1. Qed.
Lemma wf_object es : value_wf (VObject es) -> Forall (fun e => value_wf e.2) es.
Proof. by inversion 1. Qed.

Lemma canonical_same v w :
  value_wf v -> value_wf w -> canonicalize v None = canonicalize w None <-> same_config v w.
Proof.
  revert w. induction v as [| | | |l IH|es IH] using Value_nested_ind; intros w Hv Hw.
  1-4: destruct w; try rewrite canonicalize_object by done; cbn;
    (split; [intros Heq; first [discriminate Heq | by apply SameScalar | injection Heq as <-; by apply SameScalar]
    |intros Hs; inversion Hs; subst; done]).
  - destruct w as [| | | |l'|es']; try rewrite canonicalize_object by done; cbn;
      try (split; [done|intros Hs; by inversion Hs]).
    apply wf_array in Hv as Hl. apply wf_array in Hw as Hl'.
    transitivity (map (fun v => canonicalize v None) l = map (fun v => canonicalize v None) l');
      [split; [by intros [=]|by intros ->]|].
    transitivity (Forall2 same_config l l');
      [|split; [by constructor|intros Hs; by inversion Hs; subst]].
    clear Hv Hw. revert l' Hl'. induction l as [|x l IHl]; intros [|x' l'] Hl'; simpl;
      [by split|by split; [|inversion 1]|by split; [|inversion 1]|]. apply Forall_cons in IH as [IHx IH]. apply Forall_cons in Hl as [Hx Hl].
    apply Forall_cons in Hl' as [Hx' Hl']. rewrite Forall2_cons, <- (IHx x'), <- IHl by done.
    split; [by intros [= -> ->]|by intros [-> ->]].
  - rewrite (canonicalize_object es) by done.
    destruct w as [| | | |l'|es']; try (cbn; split; [done|intros Hs; by inversion Hs]).
    rewrite (canonicalize_object es') by done.
    apply wf_object in Hv as Hes. apply wf_object in Hw as Hes'.
    transitivity (map canonical_entry es = map canonical_entry es');
      [split; [by intros [=]|by intros ->]|].
    transitivity (Forall2 (fun e e' => e.1 = e'.1 /\ (secret_key e.1 = true \/ same_config e.2 e'.2)) es es');
      [|split; [by constructor|intros Hs; by inversion Hs; subst]].
    clear Hv Hw. revert es' Hes'. induction es as [|[k x] es IHes]; intros [|[k' x'] es'] Hes'; simpl;
      [by split|by split; [|inversion 1]|by split; [|inversion 1]|]. apply Forall_cons in IH as [IHx IH]. apply Forall_cons in Hes as [Hx Hes].
    apply Forall_cons in Hes' as [Hx' Hes']. rewrite Forall2_cons, <- IHes by done. simpl in *.
    unfold canonical_entry at 1 3. cbn [fst snd]. destruct (secret_key k) eqn:Hk.
    + split.
      * intros [= <- _ ?]. split; [|done]. split; [done|by left].
      * intros [[<- _] ->]. by rewrite !canonicalize_secret.
    + split.
      * intros [= <- Heq Hrest]. split; [|done]. split; [done|]. right. apply IHx; [done|done|].
        by rewrite !canonicalize_plain in Heq.
      * intros [[<- [?|Hs]] ->]; [done|]. apply IHx in Hs; [|done|done].
        by rewrite !canonicalize_plain, Hs.
Qed.

(** The canonical form behind a configuration's fingerprint identifies the
    configuration up to secrets and order: two accepted documents have the same
    form exactly when they have the same keys and, under every key that does not
    name a secret, the same values; and a document whose entries are only
    reordered reads as the same value. *)
Theorem config_fingerprint_spec x y v w :
  unique x = Some v -> unique y = Some w ->
  (canonicalize v None = canonicalize w None <-> same_config v w)
  /\ (forall x', raw_perm x x' -> unique x' = Some v).
Proof.
  intros Hx Hy. split.
  - apply canonical_same; by eapply unique_wf.
  - intros x' Hp. by eapply unique_perm.
Qed.

(** Two documents in different order and with different passwords, and a third
    with another name. *)
Module DemoConfig.
Definition first : Raw :=
  RMap [("node_name", RString "phone"); ("proxy", RMap [("port", RU64 1080); ("password", RString "a")])].
Definition second : Raw :=
  RMap [("proxy", RMap [("password", RString "b"); ("port", RU64 1080)]); ("node_name", RString "phone")].
Definition duplicated : Raw := RMap [("a", RNull); ("a", RNull)].

Definition first_value : Value :=
  VObject [("node_name", VString "phone");
           ("proxy", VObject [("password", VString "a"); ("port", VNumber (PosInt 1080))])].
Definition second_value : Value :=
  VObject [("node_name", VString "phone");
           ("proxy", VObject [("password", VString "b"); ("port", VNumber (PosInt 1080))])].

Example duplicate_refused : unique duplicated = None.
Proof. reflexivity. Qed.

Lemma config_fingerprint_spec_witness : same_config first_value second_value.
Proof.
  apply (config_fingerprint_spec first second first_value second_value);
    vm_compute; reflexivity.
Defined.
End DemoConfig.
