(* ===== verification/HostDaemon.v ===== *)
(** * Phone host daemon

    The state of [services/host-daemon/src/state.rs] and what its tasks do to it:
    the rotation job ([rotation.rs]), the health probe ([health.rs]), commands of
    the control plane ([control_plane.rs]), the status of the reverse tunnel
    ([reverse_tunnel.rs], [tunnel_counters.rs]) and the readiness document
    ([service_health.rs]).  The state is behind one mutex; every definition here
    is one critical section, and what a task does between two of them is an
    argument of [execute_rotation].  Shell commands, sockets and HTTP responses
    are arguments. *)

From stdpp Require Import base gmap strings list fin_maps.
From Stdlib Require Import ZArith Lia String.
From S2P Require Import Prelude Text NetText Foundation RuntimeProjection TunnelModel Commands.
From S2P Require Import Devices.
Local Open Scope string_scope.
Local Open Scope Z_scope.

(** ** State *)

Module JobRecord.
Record t := mk {
  id : Uuid;
  kind : string;
  status : string;
  old_public_ip : option string;
  new_public_ip : option string;
  changed : option bool;
}.
End JobRecord.

Module HealthRecord.
Record t `{Blake3} := mk {
  node_id : string;
  node_name : string;
  config_fingerprint : option FingerprintInput;
  binary_fingerprint : FingerprintInput;
  readiness_state : string;
  serving : bool;
  proxy_status : string;
  last_public_ip : option string;
  active_operator_profile : option string;
  active_operator_plmn : option string;
  last_proxy_error : option string;
  serving_failure_reason : option string;
  degradation_reason_code : option string;
  cellular_route_ready : option bool;
  proxy_bind_ready : option bool;
  local_serving_ready : option bool;
  tun0_present : option bool;
  wg_handshake_recent : option bool;
  reverse_tunnel_connected : option bool;
  reverse_tunnel_last_error : option string;
  reverse_tunnel_active_transport : option string;
  reverse_tunnel_freshness : option string;
  reverse_tunnel_failover_reason : option string;
  tunnel_owner : option string;
}.
Arguments mk {_}.

Section Updates.
Context `{Blake3}.

Definition set_status (readiness_state' : string) (serving' : bool) (proxy_status' : string)
    (h : t) : t :=
  mk (node_id h) (node_name h) (config_fingerprint h) (binary_fingerprint h) readiness_state'
  serving' proxy_status' (last_public_ip h) (active_operator_profile h) (active_operator_plmn h)
  (last_proxy_error h) (serving_failure_reason h) (degradation_reason_code h)
  (cellular_route_ready h) (proxy_bind_ready h) (local_serving_ready h) (tun0_present h)
  (wg_handshake_recent h) (reverse_tunnel_connected h) (reverse_tunnel_last_error h)
  (reverse_tunnel_active_transport h) (reverse_tunnel_freshness h)
  (reverse_tunnel_failover_reason h) (tunnel_owner h).

Definition set_reasons (degradation_reason_code' : option string)
    (serving_failure_reason' : option string) (h : t) : t :=
  mk (node_id h) (node_name h) (config_fingerprint h) (binary_fingerprint h) (readiness_state h)
  (serving h) (proxy_status h) (last_public_ip h) (active_operator_profile h)
  (active_operator_plmn h) (last_proxy_error h) serving_failure_reason' degradation_reason_code'
  (cellular_route_ready h) (proxy_bind_ready h) (local_serving_ready h) (tun0_present h)
  (wg_handshake_recent h) (reverse_tunnel_connected h) (reverse_tunnel_last_error h)
  (reverse_tunnel_active_transport h) (reverse_tunnel_freshness h)
  (reverse_tunnel_failover_reason h) (tunnel_owner h).

Definition set_probes (cellular_route_ready' : option bool) (proxy_bind_ready' : option bool)
    (local_serving_ready' : option bool) (h : t) : t :=
  mk (node_id h) (node_name h) (config_fingerprint h) (binary_fingerprint h) (readiness_state h)
  (serving h) (proxy_status h) (last_public_ip h) (active_operator_profile h)
  (active_operator_plmn h) (last_proxy_error h) (serving_failure_reason h)
  (degradation_reason_code h) cellular_route_ready' proxy_bind_ready' local_serving_ready'
  (tun0_present h) (wg_handshake_recent h) (reverse_tunnel_connected h)
  (reverse_tunnel_last_error h) (reverse_tunnel_active_transport h) (reverse_tunnel_freshness h)
  (reverse_tunnel_failover_reason h) (tunnel_owner h).

Definition set_public_ip (last_public_ip' : option string) (h : t) : t :=
  mk (node_id h) (node_name h) (config_fingerprint h) (binary_fingerprint h) (readiness_state h)
  (serving h) (proxy_status h) last_public_ip' (active_operator_profile h)
  (active_operator_plmn h) (last_proxy_error h) (serving_failure_reason h)
  (degradation_reason_code h) (cellular_route_ready h) (proxy_bind_ready h)
  (local_serving_ready h) (tun0_present h) (wg_handshake_recent h) (reverse_tunnel_connected h)
  (reverse_tunnel_last_error h) (reverse_tunnel_active_transport h) (reverse_tunnel_freshness h)
  (reverse_tunnel_failover_reason h) (tunnel_owner h).

Definition set_proxy_error (last_proxy_error' : option string) (h : t) : t :=
  mk (node_id h) (node_name h) (config_fingerprint h) (binary_fingerprint h) (readiness_state h)
  (serving h) (proxy_status h) (last_public_ip h) (active_operator_profile h)
  (active_operator_plmn h) last_proxy_error' (serving_failure_reason h)
  (degradation_reason_code h) (cellular_route_ready h) (proxy_bind_ready h)
  (local_serving_ready h) (tun0_present h) (wg_handshake_recent h) (reverse_tunnel_connected h)
  (reverse_tunnel_last_error h) (reverse_tunnel_active_transport h) (reverse_tunnel_freshness h)
  (reverse_tunnel_failover_reason h) (tunnel_owner h).

Definition set_interface (tun0_present' : option bool) (wg_handshake_recent' : option bool)
    (h : t) : t :=
  mk (node_id h) (node_name h) (config_fingerprint h) (binary_fingerprint h) (readiness_state h)
  (serving h) (proxy_status h) (last_public_ip h) (active_operator_profile h)
  (active_operator_plmn h) (last_proxy_error h) (serving_failure_reason h)
  (degradation_reason_code h) (cellular_route_ready h) (proxy_bind_ready h)
  (local_serving_ready h) tun0_present' wg_handshake_recent' (reverse_tunnel_connected h)
  (reverse_tunnel_last_error h) (reverse_tunnel_active_transport h) (reverse_tunnel_freshness h)
  (reverse_tunnel_failover_reason h) (tunnel_owner h).

Definition set_tunnel (reverse_tunnel_connected' : option bool)
    (reverse_tunnel_last_error' : option string) (reverse_tunnel_active_transport' : option string)
    (reverse_tunnel_freshness' : option string) (reverse_tunnel_failover_reason' : option string)
    (h : t) : t :=
  mk (node_id h) (node_name h) (config_fingerprint h) (binary_fingerprint h) (readiness_state h)
  (serving h) (proxy_status h) (last_public_ip h) (active_operator_profile h)
  (active_operator_plmn h) (last_proxy_error h) (serving_failure_reason h)
  (degradation_reason_code h) (cellular_route_ready h) (proxy_bind_ready h)
  (local_serving_ready h) (tun0_present h) (wg_handshake_recent h) reverse_tunnel_connected'
  reverse_tunnel_last_error' reverse_tunnel_active_transport' reverse_tunnel_freshness'
  reverse_tunnel_failover_reason' (tunnel_owner h).

End Updates.
End HealthRecord.

Record RotationCommands := mk_rotation_commands {
  data_reconnect : option string;
  airplane_bounce : option string;
  network_mode_bounce : option string;
  ril_bounce : option string;
}.

(** The [watch::Sender<u64>] of the tunnel manager: the generation it carries and
    whether its receiver is still there. *)
Record RestartChannel := mk_restart { generation : Z; receiver_alive : bool }.

Module RuntimeState.
Record t `{Blake3} := mk {
  health : HealthRecord.t;
  jobs : gmap Uuid JobRecord.t;
  current_job : option Uuid;
  wireguard_enabled : bool;
  tunnel_owner : option string;
  proxy_listen_address : string;
  proxy_pid : option Z;
  reverse_tunnel : option ClientSnapshot.t;
  reverse_tunnel_counters : TunnelEventCounters.t;
  reverse_tunnel_counter_persistence_healthy : bool;
  reverse_tunnel_restart : option RestartChannel;
  rotation_commands : RotationCommands;
  observer_urls : list string;
}.
Arguments mk {_}.

Section Updates.
Context `{Blake3}.

Definition set_health (health' : HealthRecord.t) (r : t) : t :=
  mk health' (jobs r) (current_job r) (wireguard_enabled r) (tunnel_owner r)
  (proxy_listen_address r) (proxy_pid r) (reverse_tunnel r) (reverse_tunnel_counters r)
  (reverse_tunnel_counter_persistence_healthy r) (reverse_tunnel_restart r) (rotation_commands r)
  (observer_urls r).

Definition set_jobs (jobs' : gmap Uuid JobRecord.t) (current_job' : option Uuid) (r : t) : t :=
  mk (health r) jobs' current_job' (wireguard_enabled r) (tunnel_owner r)
  (proxy_listen_address r) (proxy_pid r) (reverse_tunnel r) (reverse_tunnel_counters r)
  (reverse_tunnel_counter_persistence_healthy r) (reverse_tunnel_restart r) (rotation_commands r)
  (observer_urls r).

Definition set_tunnel_state (reverse_tunnel' : option ClientSnapshot.t) (r : t) : t :=
  mk (health r) (jobs r) (current_job r) (wireguard_enabled r) (tunnel_owner r)
  (proxy_listen_address r) (proxy_pid r) reverse_tunnel' (reverse_tunnel_counters r)
  (reverse_tunnel_counter_persistence_healthy r) (reverse_tunnel_restart r) (rotation_commands r)
  (observer_urls r).

Definition set_counters (reverse_tunnel_counters' : TunnelEventCounters.t)
    (reverse_tunnel_counter_persistence_healthy' : bool) (r : t) : t :=
  mk (health r) (jobs r) (current_job r) (wireguard_enabled r) (tunnel_owner r)
  (proxy_listen_address r) (proxy_pid r) (reverse_tunnel r) reverse_tunnel_counters'
  reverse_tunnel_counter_persistence_healthy' (reverse_tunnel_restart r) (rotation_commands r)
  (observer_urls r).

Definition set_restart (reverse_tunnel_restart' : option RestartChannel) (r : t) : t :=
  mk (health r) (jobs r) (current_job r) (wireguard_enabled r) (tunnel_owner r)
  (proxy_listen_address r) (proxy_pid r) (reverse_tunnel r) (reverse_tunnel_counters r)
  (reverse_tunnel_counter_persistence_healthy r) reverse_tunnel_restart' (rotation_commands r)
  (observer_urls r).

(** [RuntimeState::new] *)
Definition new (health' : HealthRecord.t) (wireguard_enabled' : bool) (tunnel_owner' : option string)
    (proxy_listen_address' : string) (rotation_commands' : RotationCommands)
    (observer_urls' : list string) : t :=
  mk health' ∅ None wireguard_enabled' tunnel_owner' proxy_listen_address' None None
    TunnelEventCounters.default_counters true None rotation_commands' observer_urls'.
End Updates.
End RuntimeState.

(** ** Rotation jobs *)

Record RotateAccepted := mk_accepted { accepted_job : Uuid; accepted_flag : bool }.

(** [ApiError(status, message)] *)
Record ApiError := mk_api_error { error_status : Z; error_message : string }.

Definition AIRPLANE_ACTIVATION_TIMEOUT_SECS : Z := 10.

Definition normalize_rotate_request (request : RotateRequest.t) : RotateRequest.t :=
  if bool_decide (RotateRequest.strategy request = "") then default_rotate_request
  else if bool_decide (RotateRequest.strategy request = "airplane_bounce")
          && negb (is_some (RotateRequest.hold_secs request))
  then RotateRequest.mk (RotateRequest.strategy request)
         (RotateRequest.require_public_ip_change request) (RotateRequest.reason request)
         (Some DEFAULT_AIRPLANE_HOLD_SECS)
  else request.

(** A quotation mark, for texts that contain them. *)
Definition dquote : string := of_bytes [34].

Definition fallback_airplane_command (hold_secs : option Z) : string :=
  "cmd connectivity airplane-mode enable && activation_deadline=$(( $(date +%s) + "
  ++ u64_to_string AIRPLANE_ACTIVATION_TIMEOUT_SECS ++ " )) && while [ " ++ dquote
  ++ "$(cmd connectivity airplane-mode)" ++ dquote ++ " != " ++ dquote ++ "enabled" ++ dquote
  ++ " ]; do [ " ++ dquote ++ "$(date +%s)" ++ dquote ++ " -ge " ++ dquote
  ++ "$activation_deadline" ++ dquote ++ " ] && exit 1; sleep 0.1; done && sleep "
  ++ u64_to_string (default DEFAULT_AIRPLANE_HOLD_SECS hold_secs)
  ++ " && cmd connectivity airplane-mode disable".

Definition rotation_command (commands : RotationCommands) (request : RotateRequest.t)
    : option string :=
  let strategy := RotateRequest.strategy request in
  if bool_decide (strategy = "data_reconnect") then data_reconnect commands
  else if bool_decide (strategy = "network_mode_bounce") then network_mode_bounce commands
  else if bool_decide (strategy = "ril_bounce") then ril_bounce commands
  else if bool_decide (strategy = "airplane_bounce")
  then Some (fallback_airplane_command (RotateRequest.hold_secs request))
  else airplane_bounce commands.

Section Rotation.
Context `{Blake3}.

Definition job_running (job : JobRecord.t) : bool :=
  bool_decide (JobRecord.status job = "running").

Definition rotation_running (r : RuntimeState.t) : bool :=
  is_some_and (RuntimeState.current_job r ≫= fun id => RuntimeState.jobs r !! id) job_running.

(** The health of a phone whose rotation starts. *)
Definition draining_health (h : HealthRecord.t) : HealthRecord.t :=
  HealthRecord.set_proxy_error None
    (HealthRecord.set_probes (Some false) (Some false) (Some false)
       (HealthRecord.set_reasons (Some "rotation_in_progress") (Some "rotation job is in progress")
          (HealthRecord.set_status (RuntimeReadiness.to_string RuntimeReadiness.WaitingCellular)
             false "draining" h))).

(** The jobs that make room: up to fifty finished ones, in the order in which
    the hash map happens to be walked. *)
Definition evict_jobs (iteration : list Uuid) (job_id : Uuid) (jobs : gmap Uuid JobRecord.t)
    : gmap Uuid JobRecord.t :=
  if (100 <=? size jobs)%nat then
    let removable := fun id =>
      is_some_and (jobs !! id) (fun job => negb (job_running job)) && negb (bool_decide (id = job_id)) in
    foldr (fun id m => delete id m) jobs (take 50 (List.filter removable iteration))
  else jobs.

(** [job_id] is the fresh [Uuid::new_v4()], [iteration] the order of the hash map. *)
Definition start_rotation_for_runtime (job_id : Uuid) (iteration : list Uuid) (r : RuntimeState.t)
    (request : RotateRequest.t) : result RotateAccepted ApiError * RuntimeState.t :=
  if rotation_running r then (Err (mk_api_error 409 "another job is already running"), r)
  else
    let current_ip := HealthRecord.last_public_ip (RuntimeState.health r) in
    let r := RuntimeState.set_health (draining_health (RuntimeState.health r)) r in
    let jobs := evict_jobs iteration job_id (RuntimeState.jobs r) in
    let job := JobRecord.mk job_id "rotate_ip" "running" current_ip None None in
    (Ok (mk_accepted job_id true),
     RuntimeState.set_jobs (<[job_id := job]> jobs) (Some job_id) r).

Definition rotation_succeeded (old_ip new_ip : option string) (require_public_ip_change
    command_succeeded reverse_tunnel_ready : bool) : bool :=
  command_succeeded && reverse_tunnel_ready && is_some new_ip
  && (negb require_public_ip_change || negb (bool_decide (old_ip = new_ip))).

Definition old_ip_of (r : RuntimeState.t) (job_id : Uuid) : option string :=
  RuntimeState.jobs r !! job_id ≫= JobRecord.old_public_ip.

Definition rotated_health (succeeded reverse_tunnel_ready : bool) (command_error new_ip : option string)
    (h : HealthRecord.t) : HealthRecord.t :=
  let h := match new_ip with Some ip => HealthRecord.set_public_ip (Some ip) h | None => h end in
  let h := HealthRecord.set_status
    (RuntimeReadiness.to_string
       (if succeeded then RuntimeReadiness.Healthy else RuntimeReadiness.WaitingCellular))
    succeeded (if succeeded then "running" else "degraded") h in
  let h := HealthRecord.set_probes (Some succeeded) (Some succeeded) (Some succeeded) h in
  HealthRecord.set_reasons
    (if succeeded then None else Some "rotation_failed")
    (if succeeded then None
     else match command_error with
          | Some error => Some error
          | None =>
              if reverse_tunnel_ready
              then Some "rotation did not produce the required public IP change"
              else Some "reverse tunnel did not reconnect after rotation"
          end) h.

Definition finished_job (succeeded changed : bool) (new_ip : option string) (job : JobRecord.t)
    : JobRecord.t :=
  JobRecord.mk (JobRecord.id job) (JobRecord.kind job)
    (if succeeded then "succeeded" else "failed") (JobRecord.old_public_ip job) new_ip
    (Some changed).

Definition apply_rotation_result (r : RuntimeState.t) (job_id : Uuid)
    (require_public_ip_change command_succeeded reverse_tunnel_ready : bool)
    (command_error new_ip : option string) : RuntimeState.t :=
  let old_ip := old_ip_of r job_id in
  let changed := negb (bool_decide (old_ip = new_ip)) in
  let succeeded := rotation_succeeded old_ip new_ip require_public_ip_change command_succeeded
                     reverse_tunnel_ready in
  RuntimeState.set_jobs (alter (finished_job succeeded changed new_ip) job_id (RuntimeState.jobs r))
    None
    (RuntimeState.set_health
       (rotated_health succeeded reverse_tunnel_ready command_error new_ip (RuntimeState.health r)) r).

(** *** Public address *)

(** [serde_json::from_str::<IpifyResponse>]: the [ip] of the response. *)
Class IpifyJson := ipify_ip : string -> option (option string).

Definition body_ip `{!IpifyJson} (body : string) : option string :=
  match ipify_ip body with
  | Some (Some ip) => Some ip
  | _ =>
      let trimmed := trim body in
      if negb (bool_decide (trimmed = "")) && (len trimmed <=? 64) then Some trimmed else None
  end.

(** The first address an observer gives; [response] is the body of a successful
    response. *)
Fixpoint fetch_public_ip `{!IpifyJson} (response : string -> option string) (urls : list string)
    : option string :=
  match urls with
  | [] => None
  | url :: rest =>
      match response url ≫= body_ip with
      | Some ip => Some ip
      | None => fetch_public_ip response rest
      end
  end.

Fixpoint observe_rounds `{!IpifyJson} (rounds round : nat) (response : nat -> string -> option string)
    (urls : list string) : option string :=
  match rounds with
  | O => None
  | S rounds' =>
      match fetch_public_ip (response round) urls with
      | Some ip => Some ip
      | None => observe_rounds rounds' (S round) response urls
      end
  end.

(** [in_time]: the rounds ended before the timeout of a minute. *)
Definition observe_public_ip `{!IpifyJson} (in_time : bool)
    (response : nat -> string -> option string) (urls : list string) : option string :=
  if in_time then observe_rounds 6 0 response urls else None.

(** *** Tunnel after a rotation *)

Inductive RefreshStep :=
| RefreshDone (ready : bool) (r : RuntimeState.t)
| RefreshWait (r : RuntimeState.t).

Definition refresh_reverse_tunnel (r : RuntimeState.t) : RefreshStep :=
  if negb (bool_decide (RuntimeState.tunnel_owner r = Some "first_party_reverse_tunnel"))
  then RefreshDone true r
  else
    match RuntimeState.reverse_tunnel_restart r with
    | None => RefreshDone false r
    | Some channel =>
        if receiver_alive channel
        then RefreshWait (RuntimeState.set_restart
               (Some (mk_restart (saturating_add_u64 (generation channel) 1) true)) r)
        else RefreshDone false r
    end.

Definition tunnel_connected (r : RuntimeState.t) : bool :=
  is_some_and (RuntimeState.reverse_tunnel r) ClientSnapshot.connected.

(** What a running rotation meets: the outcome of its shell command, the
    observers' responses, and what the other tasks do before each of its critical
    sections. *)
Record RotationWorld := mk_world {
  shell : string -> result string string;
  response : nat -> string -> option string;
  in_time : bool;
  others : nat -> RuntimeState.t -> RuntimeState.t;
}.

(** Up to [seconds] looks at the tunnel, one a second. *)
Fixpoint wait_for_tunnel (w : RotationWorld) (seconds section : nat) (r : RuntimeState.t)
    : bool * RuntimeState.t :=
  match seconds with
  | O => (false, r)
  | S seconds' =>
      let r := others w section r in
      if tunnel_connected r then (true, r) else wait_for_tunnel w seconds' (S section) r
  end.

Definition refresh_reverse_tunnel_after_rotation (w : RotationWorld) (r : RuntimeState.t)
    : bool * RuntimeState.t :=
  match refresh_reverse_tunnel (others w 0 r) with
  | RefreshDone ready r => (ready, r)
  | RefreshWait r => wait_for_tunnel w 20 1 r
  end.

Definition execute_rotation `{!IpifyJson} (w : RotationWorld) (r : RuntimeState.t) (job_id : Uuid)
    (request : RotateRequest.t) : RuntimeState.t :=
  let command := default (fallback_airplane_command (RotateRequest.hold_secs request))
                   (rotation_command (RuntimeState.rotation_commands r) request) in
  let urls := RuntimeState.observer_urls r in
  let output := shell w command in
  let new_ip := observe_public_ip (in_time w) (response w) urls in
  let command_error := match output with Ok _ => None | Err error => Some error end in
  let '(ready, r) := refresh_reverse_tunnel_after_rotation w r in
  apply_rotation_result (others w 21 r) job_id (RotateRequest.require_public_ip_change request)
    (is_ok output) ready command_error new_ip.
End Rotation.

(** ** Health probe *)

Record ProbeConfig := mk_probe_config {
  probe_observer_urls : list string;
  probe_proxy_listen_address : string;
  probe_proxy_username : string;
  probe_proxy_password : string;
  probe_wireguard_enabled : bool;
  probe_tunnel_owner : option string;
}.

Record ProbeSnapshot := mk_probe {
  cellular_route_ready : bool;
  proxy_bind_ready : bool;
  local_serving_ready : bool;
  tun0_present : bool;
  wg_gateway_reachable : bool;
  wireguard_path_ready : bool;
  public_ip : option string;
}.

(** What the probe reads from the system: whether a connection to an address is
    accepted, the output of [ip] and [dumpsys] where they succeed, and the ping
    of the gateway.  Without an answer of the blocking task nothing is ready. *)
Record ProbeFacts := mk_facts {
  connects : SocketAddr -> bool;
  routes : option string;
  connectivity : option string;
  tun0_address : option string;
  gateway_pings : bool;
  task_completes : bool;
}.

Definition is_cellular_route (line : string) : bool :=
  existsb (fun prefix => contains (" dev " ++ prefix) line || contains (" dev" ++ prefix) line)
    ["rmnet"; "ccmni"; "pdp"; "wwan"].

Definition is_validated_cellular_network (line : string) : bool :=
  contains "NetworkAgentInfo" line && contains "type: MOBILE" line
  && contains "state: CONNECTED/CONNECTED" line && contains "VALIDATED" line
  && negb (contains "CAPTIVE_PORTAL" line).

Definition cellular_network_validated (connectivity : option string) : bool :=
  existsb is_validated_cellular_network (lines (default "" connectivity)).

Definition route_present (routes : option string) : bool :=
  existsb (fun line => starts_with "default " line && contains " dev " line && is_cellular_route line)
    (lines (default "" routes)).

Definition probe_cellular_route (facts : ProbeFacts) : bool :=
  route_present (routes facts) && cellular_network_validated (connectivity facts).

Definition tcp_ready (connects : SocketAddr -> bool) (raw : string) : bool :=
  is_some_and (parse_socket_addr raw) connects.

Definition probe_tun0 (facts : ProbeFacts) : bool :=
  is_some_and (tun0_address facts) (contains "inet ").

(** [client]: the proxied client, if it could be built, as the responses it gets. *)
Definition probe_once `{!IpifyJson} (facts : ProbeFacts) (client : option (string -> option string))
    (config : ProbeConfig) : ProbeSnapshot :=
  let bind := task_completes facts && tcp_ready (connects facts) (probe_proxy_listen_address config) in
  let tun0 := task_completes facts && probe_tun0 facts in
  let gateway := tun0 && gateway_pings facts in
  let path := task_completes facts && (negb (probe_wireguard_enabled config) || tun0 && gateway) in
  let cellular := task_completes facts && probe_cellular_route facts in
  mk_probe cellular bind (bind && path) tun0 gateway path
    (client ≫= fun responses => fetch_public_ip responses (probe_observer_urls config)).

(** The owners whose traffic needs the reverse tunnel. *)
Definition tunnel_required (owner : option string) : bool :=
  is_some_and owner (fun owner =>
    bool_decide (owner = "first_party_reverse_tunnel")
    || bool_decide (owner = "first_party_android_egress")).

Definition snapshot_fresh (s : ClientSnapshot.t) : bool :=
  ClientSnapshot.connected s && bool_decide (ClientSnapshot.freshness s = TunnelFreshness.Fresh).

Definition reason_text (code : string) : string :=
  if bool_decide (code = "cellular_network_unvalidated")
  then "cellular network is missing or not Android-validated"
  else if bool_decide (code = "proxy_bind_failed") then "proxy is not accepting local connections"
  else if bool_decide (code = "wireguard_path_not_ready") then "WireGuard path is not ready"
  else if bool_decide (code = "reverse_tunnel_not_ready") then "reverse tunnel is not connected"
  else if bool_decide (code = "public_probe_failed") then "public IP observer probe failed"
  else "local serving probe failed".

Section Probe.
Context `{Blake3}.

(** The tunnel fields of the health record, from the manager's last snapshot. *)
Definition tunnel_health (s : option ClientSnapshot.t) (h : HealthRecord.t) : HealthRecord.t :=
  HealthRecord.set_tunnel (ClientSnapshot.connected <$> s) (s ≫= ClientSnapshot.last_error)
    (TunnelActiveTransport.as_str <$> (s ≫= ClientSnapshot.active_transport))
    ((fun s => TunnelFreshness.as_str (ClientSnapshot.freshness s)) <$> s)
    (TunnelFailoverReason.as_str <$> (s ≫= ClientSnapshot.last_failover_reason)) h.

Definition probe_tunnel_ready (config : ProbeConfig) (r : RuntimeState.t) : bool :=
  negb (tunnel_required (probe_tunnel_owner config))
  || is_some_and (RuntimeState.reverse_tunnel r) snapshot_fresh.

Definition probe_healthy (config : ProbeConfig) (s : ProbeSnapshot) (r : RuntimeState.t) : bool :=
  cellular_route_ready s && proxy_bind_ready s && local_serving_ready s && wireguard_path_ready s
  && probe_tunnel_ready config r && is_some (public_ip s)
  && negb (is_some (RuntimeState.current_job r)).

Definition probe_readiness (config : ProbeConfig) (s : ProbeSnapshot) (healthy : bool)
    : RuntimeReadiness.t :=
  if healthy then RuntimeReadiness.Healthy
  else if probe_wireguard_enabled config && negb (wireguard_path_ready s)
  then RuntimeReadiness.WaitingWireguard
  else if negb (cellular_route_ready s) then RuntimeReadiness.WaitingCellular
  else RuntimeReadiness.StartingProxy.

Definition probe_reason (config : ProbeConfig) (s : ProbeSnapshot) (healthy tunnel_ready : bool)
    : option string :=
  if healthy then None
  else if probe_wireguard_enabled config && negb (wireguard_path_ready s)
  then Some "wireguard_path_not_ready"
  else if negb (cellular_route_ready s) then Some "cellular_network_unvalidated"
  else if tunnel_required (probe_tunnel_owner config) && negb tunnel_ready
  then Some "reverse_tunnel_not_ready"
  else if negb (proxy_bind_ready s) then Some "proxy_bind_failed"
  else if negb (is_some (public_ip s)) then Some "public_probe_failed"
  else Some "local_probe_failed".

(** One turn of [run_health_probe_loop]. *)
Definition apply_probe (config : ProbeConfig) (s : ProbeSnapshot) (r : RuntimeState.t)
    : RuntimeState.t :=
  let tunnel_ready := probe_tunnel_ready config r in
  let healthy := probe_healthy config s r in
  let reason := probe_reason config s healthy tunnel_ready in
  let h := RuntimeState.health r in
  let h := HealthRecord.set_probes (Some (cellular_route_ready s)) (Some (proxy_bind_ready s))
             (Some (local_serving_ready s)) h in
  let h := HealthRecord.set_interface (Some (tun0_present s)) (Some (wg_gateway_reachable s)) h in
  let h := match public_ip s with Some ip => HealthRecord.set_public_ip (Some ip) h | None => h end in
  let h := tunnel_health (RuntimeState.reverse_tunnel r) h in
  let h := HealthRecord.set_status (RuntimeReadiness.to_string (probe_readiness config s healthy))
             healthy (if healthy then "running" else "degraded") h in
  RuntimeState.set_health (HealthRecord.set_reasons reason (reason_text <$> reason) h) r.

(** ** Commands and reports *)

Definition register_body (r : RuntimeState.t) : RegisterDeviceRequest.t :=
  RegisterDeviceRequest.mk (HealthRecord.node_id (RuntimeState.health r))
    (HealthRecord.node_name (RuntimeState.health r))
    (HealthRecord.proxy_status (RuntimeState.health r)) (RuntimeState.tunnel_owner r).

Definition heartbeat_body (r : RuntimeState.t) : HeartbeatRequest.t :=
  let h := RuntimeState.health r in
  {| HeartbeatRequest.node_id := HealthRecord.node_id h;
     HeartbeatRequest.node_name := HealthRecord.node_name h;
     HeartbeatRequest.readiness_state := HealthRecord.readiness_state h;
     HeartbeatRequest.serving := HealthRecord.serving h;
     HeartbeatRequest.proxy_status := HealthRecord.proxy_status h;
     HeartbeatRequest.proxy_pid := RuntimeState.proxy_pid r;
     HeartbeatRequest.last_public_ip := HealthRecord.last_public_ip h;
     HeartbeatRequest.current_job := RuntimeState.current_job r;
     HeartbeatRequest.last_proxy_error := HealthRecord.last_proxy_error h;
     HeartbeatRequest.version := None;
     HeartbeatRequest.config_fingerprint := HealthRecord.config_fingerprint h;
     HeartbeatRequest.binary_fingerprint := Some (HealthRecord.binary_fingerprint h);
     HeartbeatRequest.active_operator_profile := HealthRecord.active_operator_profile h;
     HeartbeatRequest.active_operator_plmn := HealthRecord.active_operator_plmn h;
     HeartbeatRequest.cellular_route_ready := HealthRecord.cellular_route_ready h;
     HeartbeatRequest.proxy_bind_ready := HealthRecord.proxy_bind_ready h;
     HeartbeatRequest.local_serving_ready := HealthRecord.local_serving_ready h;
     HeartbeatRequest.tun0_present := HealthRecord.tun0_present h;
     HeartbeatRequest.wg_handshake_recent := HealthRecord.wg_handshake_recent h;
     HeartbeatRequest.reverse_tunnel_connected := HealthRecord.reverse_tunnel_connected h;
     HeartbeatRequest.reverse_tunnel_last_error := HealthRecord.reverse_tunnel_last_error h;
     HeartbeatRequest.reverse_tunnel_active_transport :=
       HealthRecord.reverse_tunnel_active_transport h;
     HeartbeatRequest.reverse_tunnel_freshness := HealthRecord.reverse_tunnel_freshness h;
     HeartbeatRequest.reverse_tunnel_failover_reason :=
       HealthRecord.reverse_tunnel_failover_reason h;
     HeartbeatRequest.tunnel_owner := RuntimeState.tunnel_owner r |}.

Definition command_rotate_request : RotateRequest.t :=
  RotateRequest.mk (RotateRequest.strategy default_rotate_request)
    (RotateRequest.require_public_ip_change default_rotate_request) "control-plane-command"
    (RotateRequest.hold_secs default_rotate_request).

(** The health a command without rotation writes. *)
Definition commanded_health (desired : DesiredState.t) (intent : RecoveryIntent.t) (h : HealthRecord.t)
    : HealthRecord.t :=
  let serving := match desired with DesiredState.HealthyServing => true
                 | DesiredState.DegradedSafe => false end in
  let readiness := RuntimeReadiness.to_string
    (if serving then RuntimeReadiness.Healthy else RuntimeReadiness.WaitingCellular) in
  let h := HealthRecord.set_status readiness serving (if serving then "running" else "draining") h in
  match intent with
  | RecoveryIntent.NoRecovery | RecoveryIntent.RotateRecovery => h
  | RecoveryIntent.RouteRepair =>
      HealthRecord.set_reasons None None
        (HealthRecord.set_probes (Some true) (Some true) (Some true) h)
  | RecoveryIntent.RestartRuntime =>
      HealthRecord.set_proxy_error None
        (HealthRecord.set_probes (HealthRecord.cellular_route_ready h) (Some true) (Some true)
           (HealthRecord.set_status readiness serving "running" h))
  end.

Definition apply_command (job_id : Uuid) (iteration : list Uuid) (r : RuntimeState.t)
    (command : DeviceCommand.t) : result unit string * RuntimeState.t :=
  match DeviceCommand.recovery_intent command with
  | RecoveryIntent.RotateRecovery =>
      let '(out, r') := start_rotation_for_runtime job_id iteration r command_rotate_request in
      (map_err error_message (result_map (fun _ => tt) out), r')
  | intent =>
      (Ok tt, RuntimeState.set_health
                (commanded_health (DeviceCommand.desired_state command) intent
                   (RuntimeState.health r)) r)
  end.

(** The acknowledgement of [poll_and_ack_command]. *)
Definition ack_of (result : result unit string) : CommandAckRequest :=
  mk_ack (is_ok result) (match result with Ok _ => None | Err message => Some message end).

(** ** Status of the reverse tunnel *)

Definition bounded_snapshot_error (s : ClientSnapshot.t) : option string :=
  if ClientSnapshot.connected s || negb (is_some (ClientSnapshot.last_error s)) then None
  else Some (match ClientSnapshot.last_failover_reason s with
             | Some reason => TunnelFailoverReason.as_str reason
             | None => "session_error"
             end).

Definition with_error (error : option string) (s : ClientSnapshot.t) : ClientSnapshot.t :=
  ClientSnapshot.mk (ClientSnapshot.session_id s) (ClientSnapshot.connected s)
    (ClientSnapshot.attempts s) (ClientSnapshot.sent_heartbeats s) error
    (ClientSnapshot.active_transport s) (ClientSnapshot.freshness s)
    (ClientSnapshot.last_failover_reason s) (ClientSnapshot.event_counters s).

(** The critical section of [project_snapshot]. *)
Definition project_snapshot (persistence_healthy : bool) (s : ClientSnapshot.t) (r : RuntimeState.t)
    : RuntimeState.t :=
  let error := bounded_snapshot_error s in
  RuntimeState.set_tunnel_state (Some (with_error error s))
    (RuntimeState.set_counters (ClientSnapshot.event_counters s) persistence_healthy
       (RuntimeState.set_health
          (HealthRecord.set_tunnel (Some (ClientSnapshot.connected s)) error
             (TunnelActiveTransport.as_str <$> ClientSnapshot.active_transport s)
             (Some (TunnelFreshness.as_str (ClientSnapshot.freshness s)))
             (TunnelFailoverReason.as_str <$> ClientSnapshot.last_failover_reason s)
             (RuntimeState.health r)) r)).

Definition lost_snapshot (reason : string) (s : ClientSnapshot.t) : ClientSnapshot.t :=
  ClientSnapshot.mk (ClientSnapshot.session_id s) false (ClientSnapshot.attempts s)
    (ClientSnapshot.sent_heartbeats s) (Some reason) None TunnelFreshness.Stale
    (ClientSnapshot.last_failover_reason s) (ClientSnapshot.event_counters s).

(** [mark_disconnected] of the tunnel manager. *)
Definition mark_tunnel_disconnected (reason : string) (r : RuntimeState.t) : RuntimeState.t :=
  let failover := TunnelFailoverReason.as_str
                    <$> (RuntimeState.reverse_tunnel r ≫= ClientSnapshot.last_failover_reason) in
  RuntimeState.set_tunnel_state (lost_snapshot reason <$> RuntimeState.reverse_tunnel r)
    (RuntimeState.set_health
       (HealthRecord.set_tunnel (Some false) (Some reason) None (Some "stale") failover
          (RuntimeState.health r)) r).

(** The state [spawn_reverse_tunnel] sets up before the manager runs. *)
Definition start_tunnel_manager (counters : TunnelEventCounters.t) (r : RuntimeState.t)
    : RuntimeState.t :=
  RuntimeState.set_restart (Some (mk_restart 0 true)) (RuntimeState.set_counters counters true r).

(** ** Readiness of the process *)

Record ReadinessDocument := mk_readiness {
  ready_status : Z;
  ready : bool;
  worker_required : bool;
  worker_healthy : bool;
  store_healthy : bool;
  doc_serving : bool;
  doc_cellular : option bool;
  doc_bind : option bool;
  doc_local : option bool;
  doc_connected : option bool;
  doc_transport : option string;
  doc_freshness : option string;
}.

Definition bounded_transport (value : option string) : option string :=
  option_filter (fun v => bool_decide (v ∈ ["quic"; "tls_tcp"; "tcp"])) value.

Definition bounded_freshness (value : option string) : option string :=
  option_filter (fun v => bool_decide (v ∈ ["unknown"; "fresh"; "stale"])) value.

Definition readiness_document (r : RuntimeState.t) : ReadinessDocument :=
  let h := RuntimeState.health r in
  let required := tunnel_required (RuntimeState.tunnel_owner r) in
  let worker := negb required || is_some (RuntimeState.reverse_tunnel_restart r) in
  let store := RuntimeState.reverse_tunnel_counter_persistence_healthy r in
  let ready := worker && store in
  mk_readiness (if ready then 200 else 503) ready required worker store (HealthRecord.serving h)
    (HealthRecord.cellular_route_ready h) (HealthRecord.proxy_bind_ready h)
    (HealthRecord.local_serving_ready h) (HealthRecord.reverse_tunnel_connected h)
    (bounded_transport (HealthRecord.reverse_tunnel_active_transport h))
    (bounded_freshness (HealthRecord.reverse_tunnel_freshness h)).
End Probe.

(** ** Persisted counters *)

Definition COUNTER_SCHEMA_VERSION : Z := 1.
Definition MAX_COUNTER_FILE_BYTES : Z := 16384.

(** The JSON of [PersistedTunnelCounters]. *)
Class CounterJson := {
  encode_counters : Z -> TunnelEventCounters.t -> string;
  decode_counters : string -> option (Z * TunnelEventCounters.t);
}.

(** The counters without what is [serde(skip)]. *)
Definition persisted_part (c : TunnelEventCounters.t) : TunnelEventCounters.t :=
  TunnelEventCounters.mk (TunnelEventCounters.connection_counts c)
    (TunnelEventCounters.transition_counts c) (TunnelEventCounters.failover_counts c)
    (TunnelEventCounters.disconnect_counts c) (TunnelEventCounters.reconnect_attempts c)
    (TunnelEventCounters.reconnect_successes c) (TunnelEventCounters.ever_connected c)
    (TunnelEventCounters.last_successful_transport c) false false false false.

Class CounterJsonLaws `{CounterJson} : Prop := {
  decode_encode_counters version c :
    decode_counters (encode_counters version c) = Some (version, persisted_part c);
}.

(** A file as [fs::metadata] and [fs::read] see it. *)
Inductive FileContent :=
| FileMissing | FileUnreadable | FileBody (body : string).

Inductive CounterError :=
| CounterInspect | CounterTooLarge | CounterDecode | CounterVersion | CounterWrite.

(** What the file system does to an atomic write: all of it, nothing visible, or
    the rename without the directory being synced. *)
Inductive WriteOutcome := WriteDone | WriteFails | WriteUnsynced.

Section Counters.
Context `{CounterJson}.

(** The counters of a [TunnelCounterStore] on its file. *)
Definition load_counters (file : FileContent) : result TunnelEventCounters.t CounterError :=
  match file with
  | FileMissing => Ok TunnelEventCounters.default_counters
  | FileUnreadable => Err CounterInspect
  | FileBody body =>
      if MAX_COUNTER_FILE_BYTES <? len body then Err CounterTooLarge
      else
        match decode_counters body with
        | None => Err CounterDecode
        | Some (version, counters) =>
            if negb (version =? COUNTER_SCHEMA_VERSION) then Err CounterVersion else Ok counters
        end
  end.

(** [write_atomic]: a temporary file, synced and renamed over the target. *)
Definition write_counters (fs : WriteOutcome) (counters : TunnelEventCounters.t) (file : FileContent)
    : result unit CounterError * FileContent :=
  let body := encode_counters COUNTER_SCHEMA_VERSION counters in
  if MAX_COUNTER_FILE_BYTES <? len body then (Err CounterTooLarge, file)
  else
    match fs with
    | WriteDone => (Ok tt, FileBody body)
    | WriteUnsynced => (Err CounterWrite, FileBody body)
    | WriteFails => (Err CounterWrite, file)
    end.

Definition persist_if_changed (fs : WriteOutcome) (current counters : TunnelEventCounters.t)
    (file : FileContent)
    : result bool CounterError * TunnelEventCounters.t * FileContent :=
  if TunnelEventCounters.same_persisted_state current counters then (Ok false, current, file)
  else
    match write_counters fs counters file with
    | (Ok _, file') => (Ok true, counters, file')
    | (Err e, file') => (Err e, current, file')
    end.
End Counters.
