(* ===== verification/HostTheorems.v ===== *)
(** * The host daemon keeps its promises

    At most one rotation runs and it ends in a final job record; a phone that
    rotates is never reported as serving; a probe reports serving exactly when
    every check passes; tunnel errors are never projected as raw text; counters
    survive a restart; and commands of the control plane are retried until they
    are applied. *)

From stdpp Require Import base gmap strings list fin_maps.
From Stdlib Require Import ZArith Lia String.
From S2P Require Import Prelude Text NetText Foundation RuntimeProjection TunnelModel Commands.
From S2P Require Import Devices.
From S2P Require Import HostDaemon.
Local Open Scope string_scope.
Local Open Scope Z_scope.

(** ** Eviction of jobs *)

Section Evict.
Context {V : Type}.
Implicit Types (m : gmap Uuid V).

Lemma foldr_delete_lookup_ne m l i :
  i ∉ l -> foldr (fun id m => delete id m) m l !! i = m !! i.
Proof.
  induction l as [|j l IH]; simpl; [done|]. rewrite not_elem_of_cons. intros [Hne Hl].
  rewrite lookup_delete_ne by done. by apply IH.
Qed.

Lemma foldr_delete_subseteq m l : foldr (fun id m => delete id m) m l ⊆ m.
Proof.
  induction l as [|j l IH]; simpl; [done|]. by etrans; [apply delete_subseteq|].
Qed.

Lemma foldr_delete_size m l :
  NoDup l -> (forall i, i ∈ l -> is_Some (m !! i)) ->
  (size (foldr (fun id m => delete id m) m l) + List.length l = size m)%nat.
Proof.
  induction l as [|j l IH]; intros Hnd Hl; simpl; [lia|].
  apply NoDup_cons in Hnd as [Hj Hnd].
  assert (is_Some (foldr (fun id m => delete id m) m l !! j)) as Hs.
  { rewrite foldr_delete_lookup_ne by done. apply Hl. left. }
  specialize (IH Hnd ltac:(intros; apply Hl; by right)).
  destruct Hs as [v Hv]. pose proof (map_size_ne_0_lookup_2 _ _ (mk_is_Some _ _ Hv)).
  rewrite map_size_delete_Some by eauto. lia.
Qed.
End Evict.

Section Rotations.
Context `{Blake3}.
Implicit Types (r : RuntimeState.t) (jobs : gmap Uuid JobRecord.t).

Definition idle jobs : Prop := map_Forall (fun _ job => job_running job = false) jobs.

(** An order in which the keys of the job map can be walked. *)
Definition iterates (iteration : list Uuid) jobs : Prop :=
  iteration ≡ₚ (map_to_list jobs).*1.

Lemma iterates_elem iteration jobs id :
  iterates iteration jobs -> id ∈ iteration -> is_Some (jobs !! id).
Proof.
  intros Hi. rewrite Hi, list_elem_of_fmap. intros ([id' job] & -> & Hin).
  exists job. by apply elem_of_map_to_list.
Qed.

Lemma iterates_NoDup iteration jobs : iterates iteration jobs -> NoDup iteration.
Proof. intros ->. apply NoDup_fst_map_to_list. Qed.

Lemma iterates_length iteration jobs : iterates iteration jobs -> List.length iteration = size jobs.
Proof. intros ->. by rewrite length_fmap, length_map_to_list. Qed.

Lemma evict_subseteq iteration id jobs : evict_jobs iteration id jobs ⊆ jobs.
Proof. unfold evict_jobs. case_match; [apply foldr_delete_subseteq|done]. Qed.

(** When no job is running there is always room for one more. *)
Lemma evict_room iteration id jobs :
  idle jobs -> jobs !! id = None -> iterates iteration jobs -> (size jobs <= 100)%nat ->
  (size (evict_jobs iteration id jobs) < 100)%nat.
Proof.
  intros Hidle Hfresh Hit Hs. unfold evict_jobs.
  destruct (Nat.leb_spec 100 (size jobs)) as [Hfull|]; [|lia]. set (f := List.filter _ iteration).
  assert (f = iteration) as ->.
  { subst f. assert (forall l, (forall x, x ∈ l -> x ∈ iteration) -> List.filter (fun id0 : Uuid =>
      is_some_and (jobs !! id0) (λ job : JobRecord.t, negb (job_running job))
      && negb (bool_decide (id0 = id))) l = l) as Hall; [|by apply Hall].
    induction l as [|x l IH]; intros Hl; [done|]. simpl.
    destruct (iterates_elem _ _ x Hit) as [job Hjob]; [apply Hl; left|].
    rewrite Hjob. simpl. rewrite (Hidle x job Hjob). simpl.
    rewrite bool_decide_false by (intros ->; congruence). simpl. f_equal. apply IH.
    intros y Hy. apply Hl. by right. }
  pose proof (foldr_delete_size jobs (take 50 iteration)) as Hsize.
  rewrite length_take, (iterates_length _ _ Hit) in Hsize.
  specialize (Hsize (sublist_NoDup _ _ (iterates_NoDup _ _ Hit) (sublist_take iteration 50))).
  specialize (Hsize ltac:(intros i Hi; apply (iterates_elem _ _ _ Hit);
    apply (subseteq_take 50 iteration), Hi)). lia.
Qed.

(** ** The daemon as a system of tasks *)

(** The shared state and the rotations that were spawned and have not ended. *)
Record Daemon := mk_daemon {
  runtime : RuntimeState.t;
  tasks : gmap Uuid RotateRequest.t;
}.

Definition spawn (out : result RotateAccepted ApiError) (request : RotateRequest.t)
    (ts : gmap Uuid RotateRequest.t) : gmap Uuid RotateRequest.t :=
  match out with
  | Ok accepted => <[accepted_job accepted := normalize_rotate_request request]> ts
  | Err _ => ts
  end.

(** A fresh job identity and an order of the job map. *)
Definition choices r (id : Uuid) (iteration : list Uuid) : Prop :=
  RuntimeState.jobs r !! id = None /\ iterates iteration (RuntimeState.jobs r).

(** One critical section of one task. *)
Inductive step : Daemon -> Daemon -> Prop :=
| StepRotate r ts id iteration request :
    choices r id iteration ->
    step (mk_daemon r ts)
      (mk_daemon (start_rotation_for_runtime id iteration r request).2
         (spawn (start_rotation_for_runtime id iteration r request).1 request ts))
| StepCommand r ts id iteration command :
    choices r id iteration ->
    DeviceCommand.recovery_intent command <> RecoveryIntent.RotateRecovery ->
    step (mk_daemon r ts) (mk_daemon (apply_command id iteration r command).2 ts)
| StepRotateCommand r ts id iteration command :
    choices r id iteration ->
    DeviceCommand.recovery_intent command = RecoveryIntent.RotateRecovery ->
    step (mk_daemon r ts)
      (mk_daemon (apply_command id iteration r command).2
         (spawn (start_rotation_for_runtime id iteration r command_rotate_request).1
            command_rotate_request ts))
| StepProbe r ts config s :
    step (mk_daemon r ts) (mk_daemon (apply_probe config s r) ts)
| StepSnapshot r ts persisted s :
    step (mk_daemon r ts) (mk_daemon (project_snapshot persisted s r) ts)
| StepDisconnected r ts reason :
    reason = "restart_requested" \/ reason = "client_exited" ->
    step (mk_daemon r ts) (mk_daemon (mark_tunnel_disconnected reason r) ts)
| StepTunnelManager r ts counters :
    step (mk_daemon r ts) (mk_daemon (start_tunnel_manager counters r) ts)
| StepRefresh r ts r' :
    refresh_reverse_tunnel r = RefreshWait r' -> step (mk_daemon r ts) (mk_daemon r' ts)
| StepFinish r ts id request succeeded ready error ip :
    ts !! id = Some request ->
    step (mk_daemon r ts)
      (mk_daemon (apply_rotation_result r id (RotateRequest.require_public_ip_change request)
                    succeeded ready error ip) (delete id ts)).

Inductive steps : Daemon -> Daemon -> Prop :=
| StepsNil d : steps d d
| StepsCons d d' d'' : step d d' -> steps d' d'' -> steps d d''.

(** *** The invariant *)

Definition finished (job : JobRecord.t) : Prop :=
  (JobRecord.status job = "succeeded" \/ JobRecord.status job = "failed")
  /\ is_Some (JobRecord.changed job).

Definition job_ok (current : option Uuid) (id : Uuid) (job : JobRecord.t) : Prop :=
  JobRecord.id job = id
  /\ (current = Some id /\ job_running job = true \/ current <> Some id /\ finished job).

(** The jobs, the current job and the running tasks. *)
Record rotations_ok (jobs : gmap Uuid JobRecord.t) (current : option Uuid)
    (ts : gmap Uuid RotateRequest.t) : Prop := {
  ok_jobs : map_Forall (job_ok current) jobs;
  ok_current : forall id, current = Some id <-> is_Some (ts !! id);
  ok_recorded : forall id, current = Some id -> is_Some (jobs !! id);
  ok_size : (size jobs <= 100)%nat;
}.

Definition daemon_ok (d : Daemon) : Prop :=
  rotations_ok (RuntimeState.jobs (runtime d)) (RuntimeState.current_job (runtime d)) (tasks d).

Lemma finished_not_running job : finished job -> job_running job = false.
Proof. unfold finished, job_running. intros [[-> | ->] _]; done. Qed.

Lemma rotation_running_current d :
  daemon_ok d -> rotation_running (runtime d) = is_some (RuntimeState.current_job (runtime d)).
Proof.
  intros Hok. unfold rotation_running. destruct (RuntimeState.current_job (runtime d)) as [id|] eqn:Hc;
    [|done]. cbn [mbind option_bind is_some].
  destruct (ok_recorded _ _ _ Hok id Hc) as [job Hjob]. rewrite Hjob. simpl.
  destruct (ok_jobs _ _ _ Hok id job Hjob) as [_ [[_ Hr]|[Hne _]]]; [done|congruence].
Qed.

Lemma no_current_idle jobs ts : rotations_ok jobs None ts -> idle jobs /\ ts = ∅.
Proof.
  intros Hok. split.
  - intros id job Hjob. destruct (ok_jobs _ _ _ Hok id job Hjob) as [_ [[? _]|[_ Hf]]]; [done|].
    by apply finished_not_running.
  - apply map_empty. intros id. destruct (ts !! id) eqn:Hid; [|done].
    discriminate (proj2 (ok_current _ _ _ Hok id) (mk_is_Some _ _ Hid)).
Qed.

Lemma start_rotation_ok r ts id iteration request :
  choices r id iteration -> daemon_ok (mk_daemon r ts) ->
  daemon_ok (mk_daemon (start_rotation_for_runtime id iteration r request).2
    (spawn (start_rotation_for_runtime id iteration r request).1 request ts)).
Proof.
  intros [Hfresh Hit] Hok. unfold start_rotation_for_runtime.
  pose proof (rotation_running_current _ Hok) as Hrun. cbn [runtime] in Hrun. rewrite Hrun.
  destruct (RuntimeState.current_job r) as [c|] eqn:Hc; [done|]. cbn [is_some fst snd spawn accepted_job].
  unfold daemon_ok in *. cbn [runtime tasks RuntimeState.jobs RuntimeState.current_job
    RuntimeState.set_jobs RuntimeState.set_health] in *. rewrite Hc in Hok.
  destruct (no_current_idle _ _ Hok) as [Hidle ->].
  set (jobs := evict_jobs iteration id (RuntimeState.jobs r)).
  assert (jobs ⊆ RuntimeState.jobs r) as Hsub by apply evict_subseteq.
  split.
  - intros id' job Hjob. apply lookup_insert_Some in Hjob as [[<- <-]|[Hne Hjob]].
    + split; [done|]. by left.
    + pose proof (lookup_weaken _ _ _ _ Hjob Hsub) as Hold.
      destruct (ok_jobs _ _ _ Hok id' job Hold) as [? [[? _]|[_ ?]]]; [done|].
      split; [done|]. right. split; [congruence|done].
  - intros id'. rewrite insert_empty, lookup_singleton_is_Some. split; congruence.
  - intros id' [= <-]. by rewrite lookup_insert_eq.
  - pose proof (evict_room iteration id _ Hidle Hfresh Hit (ok_size _ _ _ Hok)) as Hroom.
    fold jobs in Hroom. rewrite map_size_insert. destruct (jobs !! id); simpl; lia.
Qed.

Lemma apply_rotation_ok r ts id request succeeded ready error ip :
  ts !! id = Some request -> daemon_ok (mk_daemon r ts) ->
  daemon_ok (mk_daemon (apply_rotation_result r id (RotateRequest.require_public_ip_change request)
    succeeded ready error ip) (delete id ts)).
Proof.
  intros Hts Hok. unfold daemon_ok, apply_rotation_result in *.
  cbn [runtime tasks RuntimeState.jobs RuntimeState.current_job RuntimeState.set_jobs] in *.
  set (f := finished_job _ _ _).
  assert (RuntimeState.current_job r = Some id) as Hc by (apply (ok_current _ _ _ Hok); eauto).
  split.
  - intros id' job Hjob. destruct (decide (id = id')) as [<-|Hne].
    + rewrite lookup_alter_eq in Hjob. apply fmap_Some in Hjob as (job0 & Hjob0 & ->).
      destruct (ok_jobs _ _ _ Hok id job0 Hjob0) as [Hid _]. split; [done|]. right. split; [done|].
      unfold finished, f, finished_job. simpl. split; [destruct (rotation_succeeded _ _ _ _ _); auto|eauto].
    + rewrite lookup_alter_ne in Hjob by done.
      destruct (ok_jobs _ _ _ Hok id' job Hjob) as [? [[? _]|[_ ?]]]; [congruence|].
      split; [done|]. by right.
  - intros id'. split; [done|]. intros [request' Hr].
    apply lookup_delete_Some in Hr as [Hne Hr].
    assert (RuntimeState.current_job r = Some id') by (apply (ok_current _ _ _ Hok); eauto). congruence.
  - done.
  - rewrite <- size_dom, dom_alter_L, size_dom. apply Hok.
Qed.

Lemma step_ok d d' : step d d' -> daemon_ok d -> daemon_ok d'.
Proof.
  intros Hstep Hok. destruct Hstep as [| r ts id it command Hch Hn | r ts id it command Hch Hrot
    | | | | | r ts r' Href |]; try done.
  - by apply start_rotation_ok.
  - unfold apply_command. by destruct (DeviceCommand.recovery_intent command).
  - unfold apply_command. rewrite Hrot.
    pose proof (start_rotation_ok r ts id it command_rotate_request Hch Hok) as Hs.
    by destruct (start_rotation_for_runtime _ _ _ _).
  - revert Href. unfold refresh_reverse_tunnel. repeat case_match; try done. by intros [= <-].
  - by apply apply_rotation_ok.
Qed.

Lemma steps_ok d d' : steps d d' -> daemon_ok d -> daemon_ok d'.
Proof. induction 1; eauto using step_ok. Qed.

(** The daemon right after its configuration was loaded. *)
Definition booted (h : HealthRecord.t) (wireguard : bool) (owner : option string) (listen : string)
    (commands : RotationCommands) (urls : list string) : Daemon :=
  mk_daemon (RuntimeState.new h wireguard owner listen commands urls) ∅.

Lemma booted_ok h wireguard owner listen commands urls :
  daemon_ok (booted h wireguard owner listen commands urls).
Proof.
  unfold daemon_ok, booted. split; simpl.
  - apply map_Forall_empty.
  - intros id. rewrite lookup_empty. by split; [|intros []].
  - done.
  - rewrite map_size_empty. lia.
Qed.

(** C22: At most one rotation runs at a time.  Whatever the API, the control
    plane, the probe and the tunnel manager do, the rotation that runs is the
    current job; it is the only job recorded as running, every other recorded job
    has ended, and no more than a hundred jobs are kept. *)
Theorem one_rotation_at_a_time h wireguard owner listen commands urls d :
  steps (booted h wireguard owner listen commands urls) d ->
  (forall id id', is_Some (tasks d !! id) -> is_Some (tasks d !! id') -> id = id')
  /\ (forall id, is_Some (tasks d !! id) <-> RuntimeState.current_job (runtime d) = Some id)
  /\ map_Forall (fun id job => job_running job = true
        /\ RuntimeState.current_job (runtime d) = Some id \/ finished job)
       (RuntimeState.jobs (runtime d))
  /\ (size (RuntimeState.jobs (runtime d)) <= 100)%nat.
Proof.
  intros Hsteps. pose proof (steps_ok _ _ Hsteps (booted_ok _ _ _ _ _ _)) as Hok. split_and!.
  - intros id id' Hid Hid'. apply (ok_current _ _ _ Hok) in Hid, Hid'. congruence.
  - intros id. symmetry. apply Hok.
  - intros id job Hjob. destruct (ok_jobs _ _ _ Hok id job Hjob) as [_ [[? ?]|[_ ?]]]; auto.
  - apply Hok.
Qed.

(** *** The history of a job *)

(** How the record of one job may change. *)
Inductive job_change : option JobRecord.t -> option JobRecord.t -> Prop :=
| JobSame o : job_change o o
| JobStarted job : job_running job = true -> job_change None (Some job)
| JobFinished job job' : job_running job = true -> finished job' ->
    JobRecord.old_public_ip job' = JobRecord.old_public_ip job ->
    job_change (Some job) (Some job')
| JobForgotten job : finished job -> job_change (Some job) None.

Lemma start_rotation_history r ts id iteration request id' :
  choices r id iteration -> daemon_ok (mk_daemon r ts) ->
  job_change (RuntimeState.jobs r !! id')
    (RuntimeState.jobs (start_rotation_for_runtime id iteration r request).2 !! id').
Proof.
  intros [Hfresh Hit] Hok. unfold start_rotation_for_runtime.
  pose proof (rotation_running_current _ Hok) as Hrun. cbn [runtime] in Hrun. rewrite Hrun.
  destruct (RuntimeState.current_job r) as [c|] eqn:Hc; [apply JobSame|]. cbn [is_some snd].
  cbn [RuntimeState.jobs RuntimeState.set_jobs RuntimeState.set_health].
  destruct (decide (id = id')) as [<-|Hne].
  - rewrite Hfresh, lookup_insert_eq. by apply JobStarted.
  - rewrite lookup_insert_ne by done. set (jobs := evict_jobs _ _ _).
    destruct (RuntimeState.jobs r !! id') as [job|] eqn:Hjob.
    + destruct (jobs !! id') as [job'|] eqn:Hjob'.
      * assert (job' = job) as ->; [|apply JobSame].
        pose proof (lookup_weaken _ _ _ _ Hjob' (evict_subseteq _ _ _)). congruence.
      * apply JobForgotten. destruct (ok_jobs _ _ _ Hok id' job Hjob) as [_ [[? _]|[_ ?]]]; [|done].
        cbn [runtime] in *. congruence.
    + destruct (jobs !! id') as [job'|] eqn:Hjob'; [|apply JobSame].
      pose proof (lookup_weaken _ _ _ _ Hjob' (evict_subseteq _ _ _)). congruence.
Qed.

(** The record of a job is written once it has ended and never changes
    again: a step may start it, end it as succeeded or failed with the address it
    started from, or forget it when it has ended, and nothing else. *)
Theorem jobs_end_once h wireguard owner listen commands urls d d' id :
  steps (booted h wireguard owner listen commands urls) d -> step d d' ->
  job_change (RuntimeState.jobs (runtime d) !! id) (RuntimeState.jobs (runtime d') !! id).
Proof.
  intros Hsteps Hstep. pose proof (steps_ok _ _ Hsteps (booted_ok _ _ _ _ _ _)) as Hok.
  destruct Hstep as [| r ts id' it command Hch Hn | r ts id' it command Hch Hrot
    | | | | | r ts r' Href | r ts id' request succeeded ready error ip Hts]; try apply JobSame.
  - by eapply start_rotation_history.
  - unfold apply_command. destruct (DeviceCommand.recovery_intent command); try apply JobSame. done.
  - unfold apply_command. rewrite Hrot.
    pose proof (start_rotation_history r ts id' it command_rotate_request id Hch Hok) as Hs.
    by destruct (start_rotation_for_runtime _ _ _ _).
  - revert Href. unfold refresh_reverse_tunnel. repeat case_match; try done. intros [= <-]. apply JobSame.
  - unfold apply_rotation_result. cbn [runtime RuntimeState.jobs RuntimeState.set_jobs].
    destruct (decide (id' = id)) as [->|Hne]; [|rewrite lookup_alter_ne by done; apply JobSame].
    rewrite lookup_alter_eq. destruct (RuntimeState.jobs r !! id) as [job|] eqn:Hjob; [|apply JobSame].
    apply JobFinished; [| |done].
    + assert (RuntimeState.current_job r = Some id) by (apply (ok_current _ _ _ Hok); eauto).
      by destruct (ok_jobs _ _ _ Hok id job Hjob) as [_ [[_ ?]|[? _]]].
    + unfold finished, finished_job. simpl.
      split; [destruct (rotation_succeeded _ _ _ _ _); auto|eauto].
Qed.

(** ** The outcome of a rotation *)

(** What other tasks do to the job table while a rotation is waiting: nothing. *)
Definition leaves_jobs (w : RotationWorld) : Prop :=
  forall n r, RuntimeState.jobs (others w n r) = RuntimeState.jobs r.

Lemma wait_for_tunnel_jobs w seconds n r :
  leaves_jobs w -> RuntimeState.jobs (wait_for_tunnel w seconds n r).2 = RuntimeState.jobs r.
Proof.
  intros Hw. revert n r. induction seconds as [|seconds IH]; intros n r; simpl; [done|].
  case_match; [apply Hw|]. rewrite IH. apply Hw.
Qed.

Lemma refresh_jobs w r :
  leaves_jobs w -> RuntimeState.jobs (refresh_reverse_tunnel_after_rotation w r).2 = RuntimeState.jobs r.
Proof.
  intros Hw. unfold refresh_reverse_tunnel_after_rotation, refresh_reverse_tunnel.
  repeat case_match; simplify_eq; cbn [snd]; try apply Hw.
  rewrite wait_for_tunnel_jobs by done. apply Hw.
Qed.

Definition rotation_output (w : RotationWorld) r (request : RotateRequest.t) : result string string :=
  shell w (default (fallback_airplane_command (RotateRequest.hold_secs request))
             (rotation_command (RuntimeState.rotation_commands r) request)).

Lemma wait_for_tunnel_connected w seconds n r :
  (wait_for_tunnel w seconds n r).1 = true -> tunnel_connected (wait_for_tunnel w seconds n r).2 = true.
Proof.
  revert n r. induction seconds as [|seconds IH]; intros n r; simpl; [done|].
  destruct (tunnel_connected (others w n r)) eqn:Hc; [done|]. apply IH.
Qed.

(** C23: A rotation always ends: whatever its command, the observers and the tunnel
    do, the job of [execute_rotation] is left finished and the slot is free.  It
    has succeeded exactly when the command succeeded, a public address was
    observed, the tunnel was ready, and the address differs from the old one
    where a change is required; then, and only then, the phone is reported
    serving, and a failure carries its reason. *)
Theorem rotation_outcome `{!IpifyJson} w r id request job :
  leaves_jobs w -> RuntimeState.jobs r !! id = Some job ->
  let r' := execute_rotation w r id request in
  let new_ip := observe_public_ip (in_time w) (response w) (RuntimeState.observer_urls r) in
  let succeeded :=
    is_ok (rotation_output w r request) = true
    /\ (refresh_reverse_tunnel_after_rotation w r).1 = true
    /\ is_Some new_ip
    /\ (RotateRequest.require_public_ip_change request = true -> new_ip <> JobRecord.old_public_ip job) in
  RuntimeState.current_job r' = None
  /\ (exists job', RuntimeState.jobs r' !! id = Some job' /\ finished job'
        /\ JobRecord.new_public_ip job' = new_ip
        /\ (JobRecord.status job' = "succeeded" <-> succeeded))
  /\ (HealthRecord.serving (RuntimeState.health r') = true <-> succeeded)
  /\ (is_Some (HealthRecord.serving_failure_reason (RuntimeState.health r')) <-> ~ succeeded).
Proof.
  intros Hw Hjob r' new_ip succeeded. unfold r', execute_rotation. fold new_ip.
  fold (rotation_output w r request).
  pose proof (refresh_jobs w r Hw) as Hj. unfold succeeded. clear r' succeeded.
  destruct (refresh_reverse_tunnel_after_rotation w r) as [ready r1]. cbn [fst snd] in *.
  unfold apply_rotation_result.
  cbn [RuntimeState.current_job RuntimeState.jobs RuntimeState.set_jobs RuntimeState.health
    RuntimeState.set_health HealthRecord.serving HealthRecord.serving_failure_reason rotated_health
    HealthRecord.set_reasons HealthRecord.set_probes HealthRecord.set_status].
  assert (RuntimeState.jobs (others w 21 r1) !! id = Some job) as Hjob1 by (by rewrite Hw, Hj).
  unfold old_ip_of. rewrite Hjob1. cbn [mbind option_bind].
  set (b := rotation_succeeded _ _ _ _ _).
  match goal with |- context [is_ok ?o = true /\ ?P] => set (S := is_ok o = true /\ P) end.
  assert (b = true <-> S) as Hb.
  { subst b S. unfold rotation_succeeded. destruct (is_ok _), ready, new_ip as [ip|]; simpl;
      try (split; [done|by intros (? & ? & [? ?] & ?)]).
    destruct (RotateRequest.require_public_ip_change request); simpl; [|naive_solver].
    rewrite negb_true_iff, bool_decide_eq_false. naive_solver. }
  split; [done|]. split; [|split].
  - rewrite lookup_alter_eq, Hjob1. eexists. split; [reflexivity|]. unfold finished, finished_job. simpl.
    rewrite <- Hb. destruct b; split_and!; eauto; by split.
  - done.
  - rewrite <- Hb. destruct b.
    + split; [by intros []|by intros []].
    + split; [done|]. intros _. repeat case_match; eauto.
Qed.

(** ** Reports *)

(** A phone that rotates is never offered: while a rotation runs, the device
    record the control plane builds from the phone's heartbeat is not serving,
    is degraded and names the rotation, even if a command or a race left the
    phone's own health record claiming to serve. *)
Theorem rotating_phone_is_never_offered now r publicly error at_ :
  is_Some (RuntimeState.current_job r) ->
  let device := build_heartbeat_device now (heartbeat_body r) publicly error at_ in
  DeviceRecord.serving device = false
  /\ DeviceRecord.availability device = "degraded"
  /\ DeviceRecord.degradation_reason_code device = Some "rotation_in_progress".
Proof.
  intros [id Hid] device. unfold device, build_heartbeat_device.
  destruct (normalize_tunnel_observability _ _ _ _) as [[transport freshness] failover].
  cbn [DeviceRecord.serving DeviceRecord.availability DeviceRecord.degradation_reason_code].
  unfold project_runtime. cbn [RuntimeProjection.serving RuntimeProjection.availability
    RuntimeProjection.degradation_reason_code].
  set (i := RuntimeProjectionInput.mk _ _ _ _ _ _ _).
  assert (RuntimeProjectionInput.current_job i = Some id) as Hj by done.
  set (readiness := RuntimeReadiness.parse _).
  assert (normalize_serving readiness i = false) as ->.
  { unfold normalize_serving. rewrite Hj. simpl. by case_match. }
  rewrite andb_false_r. unfold derive_degradation_reason. by rewrite Hj.
Qed.

(** A probe reports serving exactly when the cellular route, the proxy, its
    local path, the WireGuard path, the public observers and, for the owners that
    need it, a fresh tunnel all answered and no rotation runs; otherwise it
    reports a reason with its text, and serving comes with none. *)
Theorem probe_serving_iff config s r :
  let h := RuntimeState.health (apply_probe config s r) in
  (HealthRecord.serving h = true <->
     cellular_route_ready s = true /\ proxy_bind_ready s = true /\ local_serving_ready s = true
     /\ wireguard_path_ready s = true /\ is_Some (public_ip s)
     /\ RuntimeState.current_job r = None
     /\ (tunnel_required (probe_tunnel_owner config) = true ->
         exists snapshot, RuntimeState.reverse_tunnel r = Some snapshot
           /\ ClientSnapshot.connected snapshot = true
           /\ ClientSnapshot.freshness snapshot = TunnelFreshness.Fresh))
  /\ (HealthRecord.serving h = true <->
        HealthRecord.readiness_state h = RuntimeReadiness.to_string RuntimeReadiness.Healthy)
  /\ (HealthRecord.serving h = true <-> HealthRecord.degradation_reason_code h = None)
  /\ (HealthRecord.serving h = true <-> HealthRecord.serving_failure_reason h = None).
Proof.
  cbn. split; [|set (b := probe_healthy config s r)].
  - unfold probe_healthy, probe_tunnel_ready. rewrite !andb_true_iff, orb_true_iff.
    unfold snapshot_fresh. destruct (tunnel_required _); simpl.
    + destruct (RuntimeState.reverse_tunnel r) as [sn|]; simpl.
      * rewrite andb_true_iff, bool_decide_eq_true.
        destruct (public_ip s), (RuntimeState.current_job r); simpl; naive_solver.
      * destruct (public_ip s), (RuntimeState.current_job r); simpl; naive_solver.
    + destruct (public_ip s), (RuntimeState.current_job r); simpl; naive_solver.
  - unfold probe_readiness, probe_reason. destruct b; simpl; [done|].
    repeat case_match; simpl; done.
Qed.

(** The phone's own health record does not say that a rotation runs: a probe
    that finds everything ready while a rotation runs replaces the reason with a
    failed local probe, and a plain command to serve makes the record claim that
    the phone serves. *)
Theorem rotation_hidden_in_local_health config s r id iteration command job_id :
  RuntimeState.current_job r = Some job_id ->
  cellular_route_ready s = true -> proxy_bind_ready s = true -> wireguard_path_ready s = true ->
  is_Some (public_ip s) -> probe_tunnel_ready config r = true ->
  DeviceCommand.desired_state command = DesiredState.HealthyServing ->
  DeviceCommand.recovery_intent command = RecoveryIntent.NoRecovery ->
  HealthRecord.degradation_reason_code (RuntimeState.health (apply_probe config s r))
    = Some "local_probe_failed"
  /\ HealthRecord.serving (RuntimeState.health (apply_command id iteration r command).2) = true
  /\ (apply_command id iteration r command).1 = Ok tt.
Proof.
  intros Hj Hcell Hbind Hpath [ip Hip] Htunnel Hd Hi. cbn. split.
  - unfold probe_healthy. rewrite Hj, Hip, Hcell, Hbind, Hpath, Htunnel. cbn [is_some negb].
    rewrite !andb_false_r. unfold probe_reason. rewrite Hcell, Hbind, Hpath, Hip.
    cbn [negb is_some]. by rewrite !andb_false_r.
  - unfold apply_command. rewrite Hi. cbn. by rewrite Hd.
Qed.

(** The wait for the tunnel after a rotation does not look for a new session:
    when the tunnel manager has not yet reacted to the restart request, the
    snapshot of the old session, still marked connected, ends the wait at once
    and counts as a reconnected tunnel. *)
Theorem old_session_counts_as_reconnected w r channel snapshot :
  (forall n r', others w n r' = r') ->
  RuntimeState.tunnel_owner r = Some "first_party_reverse_tunnel" ->
  RuntimeState.reverse_tunnel_restart r = Some channel -> receiver_alive channel = true ->
  RuntimeState.reverse_tunnel r = Some snapshot -> ClientSnapshot.connected snapshot = true ->
  let '(ready, r') := refresh_reverse_tunnel_after_rotation w r in
  ready = true /\ RuntimeState.reverse_tunnel r' = Some snapshot.
Proof.
  intros Hw Ho Hc Ha Hs Hconn. unfold refresh_reverse_tunnel_after_rotation, refresh_reverse_tunnel.
  rewrite Hw, Ho, Hc, Ha. cbn [wait_for_tunnel negb]. rewrite bool_decide_true by done. cbn [negb].
  rewrite Hw. unfold tunnel_connected. cbn [RuntimeState.reverse_tunnel RuntimeState.set_restart].
  rewrite Hs. cbn [is_some_and]. by rewrite Hconn.
Qed.

(** *** Tunnel errors *)

Definition tunnel_error_words : list string :=
  "session_error" :: "restart_requested" :: "client_exited"
  :: (TunnelFailoverReason.as_str <$> TunnelFailoverReason.ALL).

Definition bounded_error (e : option string) : Prop :=
  match e with Some text => text ∈ tunnel_error_words | None => True end.

(** What the daemon says about its tunnel is in its own words. *)
Definition tunnel_words_ok (r : RuntimeState.t) : Prop :=
  let h := RuntimeState.health r in
  bounded_error (HealthRecord.reverse_tunnel_last_error h)
  /\ bounded_transport (HealthRecord.reverse_tunnel_active_transport h)
     = HealthRecord.reverse_tunnel_active_transport h
  /\ bounded_freshness (HealthRecord.reverse_tunnel_freshness h)
     = HealthRecord.reverse_tunnel_freshness h
  /\ bounded_error (RuntimeState.reverse_tunnel r ≫= ClientSnapshot.last_error).

Lemma as_str_bounded (o : option TunnelActiveTransport.t) :
  bounded_transport (TunnelActiveTransport.as_str <$> o) = TunnelActiveTransport.as_str <$> o.
Proof. by destruct o as [[]|]. Qed.

Lemma freshness_bounded (f : TunnelFreshness.t) :
  bounded_freshness (Some (TunnelFreshness.as_str f)) = Some (TunnelFreshness.as_str f).
Proof. by destruct f. Qed.

Lemma bounded_snapshot_error_ok s : bounded_error (bounded_snapshot_error s).
Proof.
  unfold bounded_snapshot_error. case_match; [done|].
  destruct (ClientSnapshot.last_failover_reason s) as [[]|]; unfold bounded_error;
    by apply (bool_decide_eq_true_1 (_ ∈ tunnel_error_words)).
Qed.

Lemma step_words d d' : step d d' -> tunnel_words_ok (runtime d) -> tunnel_words_ok (runtime d').
Proof.
  intros Hstep Hok. destruct Hstep as [| r ts id it command Hch Hn | r ts id it command Hch Hrot
    | r ts config s | r ts persisted s | r ts reason Hreason | | r ts r' Href
    | r ts id request succeeded ready error ip]; try done.
  - cbn [runtime] in *. unfold start_rotation_for_runtime. by case_match.
  - cbn [runtime] in *. unfold apply_command, commanded_health.
    by destruct (DeviceCommand.recovery_intent command), (DeviceCommand.desired_state command).
  - cbn [runtime] in *. unfold apply_command. rewrite Hrot. unfold start_rotation_for_runtime.
    by destruct (rotation_running r).
  - destruct Hok as (_ & _ & _ & He). cbn [runtime] in *. unfold tunnel_words_ok. cbn.
    split; [|split; [apply as_str_bounded|split; [|done]]].
    + by destruct (public_ip s).
    + destruct (RuntimeState.reverse_tunnel r); [apply freshness_bounded|done].
  - unfold tunnel_words_ok. cbn. split_and!; [apply bounded_snapshot_error_ok|apply as_str_bounded
      |apply freshness_bounded|apply bounded_snapshot_error_ok].
  - unfold tunnel_words_ok. cbn. assert (bounded_error (Some reason)) as Hb.
    { destruct Hreason as [-> | ->]; unfold bounded_error;
    by apply (bool_decide_eq_true_1 (_ ∈ tunnel_error_words)). }
    split_and!; [done|done|done|]. by destruct (RuntimeState.reverse_tunnel r).
  - revert Href. unfold refresh_reverse_tunnel. repeat case_match; try done. by intros [= <-].
  - cbn [runtime] in *. unfold apply_rotation_result, tunnel_words_ok, rotated_health. by destruct ip.
Qed.

(** Raw tunnel errors never leave the daemon: whatever text a tunnel session
    fails with, the error, transport and freshness that the health record and the
    heartbeat carry are words of a fixed vocabulary, and the readiness document
    shows exactly those. *)
Theorem tunnel_text_is_bounded wireguard owner listen commands urls h d :
  HealthRecord.reverse_tunnel_last_error h = None ->
  HealthRecord.reverse_tunnel_active_transport h = None ->
  HealthRecord.reverse_tunnel_freshness h = None ->
  steps (booted h wireguard owner listen commands urls) d ->
  let body := heartbeat_body (runtime d) in
  bounded_error (HeartbeatRequest.reverse_tunnel_last_error body)
  /\ doc_transport (readiness_document (runtime d))
     = HeartbeatRequest.reverse_tunnel_active_transport body
  /\ doc_freshness (readiness_document (runtime d))
     = HeartbeatRequest.reverse_tunnel_freshness body.
Proof.
  intros He Ht Hf Hsteps.
  assert (tunnel_words_ok (runtime d)) as (? & ? & ? & _); [|done].
  remember (booted h wireguard owner listen commands urls) as d0 eqn:Hd0.
  assert (tunnel_words_ok (runtime d0)) as H0.
  { subst. unfold tunnel_words_ok. cbn. by rewrite He, Ht, Hf. }
  clear Hd0 He Ht Hf. induction Hsteps; eauto using step_words.
Qed.
End Rotations.

(** ** Counters *)

Section CounterStore.
Context `{CounterJsonLaws}.

(** A restart would load these counters. *)
Definition file_holds (file : FileContent) (c : TunnelEventCounters.t) : Prop :=
  exists c', load_counters file = Ok c' /\ TunnelEventCounters.same_persisted_state c' c = true.

Lemma same_persisted_part c : TunnelEventCounters.same_persisted_state (persisted_part c) c = true.
Proof.
  unfold TunnelEventCounters.same_persisted_state, persisted_part. cbn.
  by rewrite !bool_decide_true.
Qed.

Lemma same_persisted_eq c c' :
  TunnelEventCounters.same_persisted_state c c' = true <-> persisted_part c = persisted_part c'.
Proof.
  unfold TunnelEventCounters.same_persisted_state, persisted_part.
  rewrite !andb_true_iff, !bool_decide_eq_true. split; [|by intros [=]].
  intros ([[[[[[-> ->] ->] ->] ->] ->] ->] & ->). done.
Qed.

Lemma written_holds c :
  len (encode_counters COUNTER_SCHEMA_VERSION c) <= MAX_COUNTER_FILE_BYTES ->
  file_holds (FileBody (encode_counters COUNTER_SCHEMA_VERSION c)) c.
Proof.
  intros Hlen. exists (persisted_part c). split; [|apply same_persisted_part].
  unfold load_counters. destruct (Z.ltb_spec MAX_COUNTER_FILE_BYTES
    (len (encode_counters COUNTER_SCHEMA_VERSION c))); [lia|].
  by rewrite decode_encode_counters, Z.eqb_refl.
Qed.

(** Attempts to persist, one after the other, on whatever file system. *)
Inductive persists : TunnelEventCounters.t * FileContent -> TunnelEventCounters.t * FileContent -> Prop :=
| PersistsNil s : persists s s
| PersistsCons current file fs counters current' file' out s :
    persist_if_changed fs current counters file = (out, current', file') ->
    fs <> WriteUnsynced ->
    persists (current', file') s -> persists (current, file) s.

(** Counters survive a restart: after any sequence of attempts to persist them,
    failed ones included, the file loads to exactly the counters the store
    counts as persisted, as far as they are persisted at all; and an attempt that
    reports success leaves the new counters there. *)
Theorem counters_survive_restart current file current' file' :
  file_holds file current -> persists (current, file) (current', file') ->
  file_holds file' current'
  /\ forall fs counters changed current'' file'',
       persist_if_changed fs current' counters file' = (Ok changed, current'', file'') ->
       file_holds file'' counters.
Proof.
  intros Hf Hp.
  assert (file_holds file' current') as Hf'.
  { remember (current, file) as s. remember (current', file') as s'.
    revert current file Heqs Hf. induction Hp as [s|c f fs c' cc ff out s Hone Hfs Hp IH];
      intros current file Heqs Hf; [congruence|].
    injection Heqs as -> ->. apply (IH Heqs' _ _ eq_refl). revert Hone. unfold persist_if_changed, write_counters.
    destruct (TunnelEventCounters.same_persisted_state current c'); [by intros [= <- <- <-]|].
    destruct (Z.ltb_spec MAX_COUNTER_FILE_BYTES (len (encode_counters COUNTER_SCHEMA_VERSION c')));
      [by intros [= <- <- <-]|].
    destruct fs; try done; intros [= <- <- <-]; [by apply written_holds|done]. }
  split; [done|]. intros fs counters changed current'' file''.
  unfold persist_if_changed, write_counters.
  destruct (TunnelEventCounters.same_persisted_state current' counters) eqn:Hs.
  - intros [= <- <- <-]. destruct Hf' as (c & Hl & Hc). exists c. split; [done|].
    rewrite same_persisted_eq in *. congruence.
  - destruct (Z.ltb_spec MAX_COUNTER_FILE_BYTES (len (encode_counters COUNTER_SCHEMA_VERSION counters)));
      [done|]. destruct fs; try done. intros [= <- <- <-]. by apply written_holds.
Qed.
End CounterStore.
