(* ===== verification/TunnelManager.v ===== *)
(** * Generations of the phone's tunnel client

    [services/host-daemon/src/reverse_tunnel.rs] around the client loop of
    [crates/reverse-tunnel/src/tunnel.rs]: the statuses a client publishes, the
    task that forwards them to the shared state, and the manager that ends a
    generation and starts the next.  The tasks interleave: one step is one
    critical section or one operation on a channel of one of them. *)

From stdpp Require Import base gmap strings list fin_maps.
From Stdlib Require Import ZArith Lia String.
From S2P Require Import Prelude Text NetText Foundation RuntimeProjection TunnelModel TunnelState.
From S2P Require Import Commands Devices Tunnel HostDaemon HostTheorems.
Local Open Scope string_scope.
Local Open Scope Z_scope.

(** ** Counters never go back *)

(** The order of two [u64] values. *)
Definition counter_le (v v' : Z) : Prop := Z.min u64_max v <= Z.min u64_max v'.

Record counters_le (c c' : TunnelEventCounters.t) : Prop := {
  le_connections : Forall2 counter_le (TunnelEventCounters.connection_counts c)
                     (TunnelEventCounters.connection_counts c');
  le_transitions : Forall2 counter_le (TunnelEventCounters.transition_counts c)
                     (TunnelEventCounters.transition_counts c');
  le_failovers : Forall2 counter_le (TunnelEventCounters.failover_counts c)
                   (TunnelEventCounters.failover_counts c');
  le_disconnects : Forall2 counter_le (TunnelEventCounters.disconnect_counts c)
                     (TunnelEventCounters.disconnect_counts c');
  le_attempts : counter_le (TunnelEventCounters.reconnect_attempts c)
                  (TunnelEventCounters.reconnect_attempts c');
  le_successes : counter_le (TunnelEventCounters.reconnect_successes c)
                   (TunnelEventCounters.reconnect_successes c');
  le_ever : TunnelEventCounters.ever_connected c = true ->
            TunnelEventCounters.ever_connected c' = true;
}.

#[export] Instance counter_le_preorder : PreOrder counter_le.
Proof. split; unfold counter_le; red; intros; lia. Qed.

#[export] Instance counters_le_preorder : PreOrder counters_le.
Proof.
  split.
  - intros c. by split.
  - intros c c' c'' [] []. split; try (etrans; eauto); auto.
Qed.

Lemma increment_le v : counter_le v (TunnelEventCounters.increment v).
Proof. unfold counter_le, TunnelEventCounters.increment, saturating_add_u64. lia. Qed.

Lemma bump_le i l : Forall2 counter_le l (TunnelEventCounters.bump i l).
Proof.
  unfold TunnelEventCounters.bump. revert i.
  induction l as [|v l IH]; intros i; [done|].
  destruct i as [|i]; cbn; (apply Forall2_cons; split); [apply increment_le|done|done|apply IH].
Qed.

Create HintDb counters.
#[export] Hint Resolve increment_le bump_le : counters.
#[export] Hint Extern 1 (counters_le ?c ?c) => reflexivity : counters.
#[export] Hint Extern 1 (counter_le ?v ?v) => reflexivity : counters.
#[export] Hint Extern 1 (Forall2 counter_le ?v ?v) => reflexivity : counters.

Lemma apply_op_le c o : counters_le c (CounterLog.apply_op c o).
Proof.
  destruct o; cbn.
  - split; cbn; auto with counters. case_match; auto with counters.
  - unfold TunnelEventCounters.record_connection. case_match; [reflexivity|].
    split; cbn; auto with counters; case_match; auto with counters.
  - unfold TunnelEventCounters.record_failover. case_match; [reflexivity|].
    split; cbn; auto with counters.
  - unfold TunnelEventCounters.record_disconnect. case_match; [reflexivity|].
    split; cbn; auto with counters.
Qed.

Lemma same_persisted_le c c' :
  TunnelEventCounters.same_persisted_state c c' = true -> counters_le c c' /\ counters_le c' c.
Proof.
  unfold TunnelEventCounters.same_persisted_state. rewrite !andb_true_iff, !bool_decide_eq_true.
  intros ([[[[[[E1 E2] E3] E4] E5] E6] E7] & E8).
  split; split; rewrite ?E1, ?E2, ?E3, ?E4, ?E5, ?E6, ?E7; done.
Qed.

(** ** The statuses a client publishes *)

(** Once connected, and after every heartbeat. *)
Definition pump_statuses (transport : TunnelActiveTransport.t) (preserve : bool) (o : PumpOutcome)
    (s : ClientSnapshot.t) : list ClientSnapshot.t :=
  match o with
  | NeverConnected _ => []
  | Ran n _ => (fun k => send_heartbeats k (mark_snapshot_connected s transport preserve))
                 <$> seq 0 (S n)
  end.

Definition connect_and_pump_statuses (config : ReverseTunnelClientConfig)
    (quic tls tcp : PumpOutcome) (s : ClientSnapshot.t) : list ClientSnapshot.t :=
  match cfg_transport config with
  | TransportQuic _ _ _ => pump_statuses TunnelActiveTransport.Quic false quic s
  | TransportHybrid _ _ _ =>
      if cfg_quic_enabled config then
        (pump_statuses TunnelActiveTransport.Quic false quic s ++
         match pump TunnelActiveTransport.Quic false quic s with
         | (Ok _, _) => []
         | (Err error, s') =>
             record_quic_failover s' error ::
             pump_statuses TunnelActiveTransport.TlsTcp true tls (record_quic_failover s' error)
         end)%list
      else pump_statuses TunnelActiveTransport.TlsTcp true tls s
  | TransportTcp => pump_statuses TunnelActiveTransport.Tcp false tcp s
  end.

(** One pass of the client's loop: as the attempt begins, while it runs, as it
    ends. *)
Definition iteration_statuses (config : ReverseTunnelClientConfig) (quic tls tcp : PumpOutcome)
    (s : ClientSnapshot.t) (backoff : Z) : list ClientSnapshot.t :=
  (begin_attempt s :: connect_and_pump_statuses config quic tls tcp (begin_attempt s)
   ++ [(client_iteration config quic tls tcp s backoff).1.1])%list.

(** All of them.  A shutdown that interrupts the pause after an attempt ends the
    client at once; otherwise the loop sees it first, and publishes once more. *)
Fixpoint attempts_statuses (config : ReverseTunnelClientConfig)
    (attempts : list (PumpOutcome * PumpOutcome * PumpOutcome)) (asleep : bool)
    (s : ClientSnapshot.t) (backoff : Z) : list ClientSnapshot.t :=
  match attempts with
  | [] => if asleep then [] else [set_disconnected TunnelFreshness.Stale s]
  | (quic, tls, tcp) :: rest =>
      let '(s', backoff', _) := client_iteration config quic tls tcp s backoff in
      (iteration_statuses config quic tls tcp s backoff
       ++ attempts_statuses config rest asleep s' backoff')%list
  end.

Definition client_statuses (config : ReverseTunnelClientConfig) (session : Uuid)
    (counters : TunnelEventCounters.t)
    (attempts : list (PumpOutcome * PumpOutcome * PumpOutcome)) (asleep : bool)
    : list ClientSnapshot.t :=
  attempts_statuses config attempts asleep (ClientSnapshot.with_event_counters session counters)
    (cfg_reconnect_floor config).

(** Each status in turn carries counters at least those of the one before. *)
Fixpoint rising (c : TunnelEventCounters.t) (l : list ClientSnapshot.t) : Prop :=
  match l with
  | [] => True
  | s :: rest => counters_le c (ClientSnapshot.event_counters s)
                 /\ rising (ClientSnapshot.event_counters s) rest
  end.

(** The counters after the last status of a list. *)
Definition after (c : TunnelEventCounters.t) (l : list ClientSnapshot.t) : TunnelEventCounters.t :=
  foldl (fun _ s => ClientSnapshot.event_counters s) c l.

Lemma rising_app c l l' : rising c (l ++ l')%list <-> rising c l /\ rising (after c l) l'.
Proof.
  revert c. induction l as [|s l IH]; intros c; cbn; [tauto|]. rewrite IH. cbn. tauto.
Qed.

Lemma after_app c l l' : after c (l ++ l')%list = after (after c l) l'.
Proof. unfold after. by rewrite foldl_app. Qed.

Lemma rising_le c c' l : counters_le c c' -> rising c' l -> rising c l.
Proof. intros Hc. destruct l; cbn; [done|]. intros [H' Hl]. split; [by etrans|done]. Qed.

Lemma rising_prefix c l l' : l `prefix_of` l' -> rising c l' -> rising c l.
Proof. intros [k ->]. rewrite rising_app. tauto. Qed.

Lemma heartbeats_rising s l c :
  counters_le c (ClientSnapshot.event_counters s) ->
  rising c ((fun k => send_heartbeats k s) <$> l)
  /\ (l <> [] -> after c ((fun k => send_heartbeats k s) <$> l) = ClientSnapshot.event_counters s).
Proof.
  revert c. induction l as [|k l IH]; intros c Hc; [done|]. cbn.
  destruct (IH (ClientSnapshot.event_counters s)) as [Hr Ha]; [reflexivity|].
  split; [done|]. intros _. destruct l; [done|]. by apply Ha.
Qed.

Lemma pump_rising transport preserve o s :
  let c := ClientSnapshot.event_counters s in
  rising c (pump_statuses transport preserve o s)
  /\ after c (pump_statuses transport preserve o s)
     = ClientSnapshot.event_counters (pump transport preserve o s).2.
Proof.
  destruct o as [e|n ending]; [done|]. unfold pump_statuses, pump.
  edestruct (heartbeats_rising (mark_snapshot_connected s transport preserve) (seq 0 (S n)))
    as [Hr Ha].
  - apply (apply_op_le _ (CounterLog.RecordConnection transport)).
  - split; [exact Hr|]. by rewrite Ha.
Qed.

Lemma connect_and_pump_rising config quic tls tcp s :
  let c := ClientSnapshot.event_counters s in
  rising c (connect_and_pump_statuses config quic tls tcp s)
  /\ after c (connect_and_pump_statuses config quic tls tcp s)
     = ClientSnapshot.event_counters (connect_and_pump config quic tls tcp s).2.
Proof.
  unfold connect_and_pump_statuses, connect_and_pump.
  destruct (cfg_transport config); try apply pump_rising.
  destruct (cfg_quic_enabled config); [|apply pump_rising].
  destruct (pump_rising TunnelActiveTransport.Quic false quic s) as [Hr Ha].
  destruct (pump _ _ quic s) as [[u|e] s']; cbn [snd] in *.
  - by rewrite app_nil_r.
  - rewrite rising_app, after_app, Ha. cbn [rising after foldl].
    destruct (pump_rising TunnelActiveTransport.TlsTcp true tls (record_quic_failover s' e)) as [Hr' Ha'].
    split; [|exact Ha']. split; [done|]. split; [|exact Hr'].
    apply (apply_op_le _ (CounterLog.RecordFailover (quic_failover_reason e))).
Qed.

Lemma record_end_le reason s :
  counters_le (ClientSnapshot.event_counters s) (ClientSnapshot.event_counters (record_end reason s)).
Proof.
  unfold record_end. case_match; [|reflexivity].
  apply (apply_op_le _ (CounterLog.RecordDisconnect reason)).
Qed.

Lemma iteration_rising config quic tls tcp s b :
  rising (ClientSnapshot.event_counters s) (iteration_statuses config quic tls tcp s b).
Proof.
  unfold iteration_statuses. cbn [rising app].
  split; [apply (apply_op_le _ CounterLog.BeginAttempt)|].
  destruct (connect_and_pump_rising config quic tls tcp (begin_attempt s)) as [Hr Ha].
  apply rising_app. split; [done|]. rewrite Ha. cbn [rising]. split; [|done].
  unfold client_iteration.
  destruct (connect_and_pump config quic tls tcp (begin_attempt s)) as [[u|e] s1];
    apply record_end_le.
Qed.

Lemma iteration_after config quic tls tcp s b c :
  after c (iteration_statuses config quic tls tcp s b)
  = ClientSnapshot.event_counters (client_iteration config quic tls tcp s b).1.1.
Proof.
  unfold iteration_statuses. change (?x :: ?l ++ ?y)%list with ((x :: l) ++ y)%list.
  by rewrite after_app.
Qed.

Lemma attempts_rising config attempts asleep s b :
  rising (ClientSnapshot.event_counters s) (attempts_statuses config attempts asleep s b).
Proof.
  revert s b. induction attempts as [|[[quic tls] tcp] rest IH]; intros s b; cbn [attempts_statuses].
  - destruct asleep; [done|]. cbn. done.
  - destruct (client_iteration config quic tls tcp s b) as [[s' b'] slept] eqn:Hi.
    apply rising_app.
    split; [apply iteration_rising|]. rewrite iteration_after, Hi. apply IH.
Qed.

Lemma client_rising config session counters attempts asleep :
  rising counters (client_statuses config session counters attempts asleep).
Proof. apply (attempts_rising config attempts asleep (ClientSnapshot.with_event_counters _ _)). Qed.

(** An attempt ends disconnected and stale. *)
Lemma iteration_ends config quic tls tcp s b :
  set_disconnected TunnelFreshness.Stale (client_iteration config quic tls tcp s b).1.1
  = (client_iteration config quic tls tcp s b).1.1.
Proof. unfold client_iteration. by destruct (connect_and_pump _ _ _ _ _) as [[] ?]. Qed.

Lemma attempts_last config attempts asleep s b :
  asleep = false \/ attempts <> [] ->
  last (attempts_statuses config attempts asleep s b)
  = Some (set_disconnected TunnelFreshness.Stale (run_client_attempts config attempts s b).1.1).
Proof.
  revert s b. induction attempts as [|[[quic tls] tcp] rest IH]; intros s b Hor; cbn [attempts_statuses].
  - by destruct Hor as [-> |].
  - destruct (client_iteration config quic tls tcp s b) as [[s' b'] slept] eqn:Hi.
    pose proof (iteration_ends config quic tls tcp s b) as He. rewrite Hi in He. cbn in He.
    destruct (decide (asleep = false \/ rest <> [])) as [Hd|Hd].
    + rewrite last_app, (IH s' b' Hd). cbn [run_client_attempts]. rewrite Hi. by destruct (run_client_attempts config rest s' b') as [[s2 b2] sl].
    + assert (asleep = true /\ rest = []) as [-> ->].
      { destruct asleep, rest; try done; exfalso; apply Hd; auto. }
      cbn [attempts_statuses run_client_attempts]. rewrite app_nil_r. unfold iteration_statuses.
      rewrite last_cons, last_snoc, Hi. cbn. by rewrite He.
Qed.

(** The statuses end in the snapshot the client's loop computes: the published
    sequence refines [run_client_with_counters], whichever way the client sees
    the shutdown. *)
Theorem client_statuses_end config session counters attempts asleep :
  asleep = false \/ attempts <> [] ->
  last (client_statuses config session counters attempts asleep)
  = Some (run_client_with_counters config session counters attempts).1.
Proof.
  intros Hor. unfold client_statuses, run_client_with_counters.
  rewrite attempts_last by done.
  by destruct (run_client_attempts _ _ _ _) as [[s b] sleeps].
Qed.

(** ** Tasks and channels *)

(** A [watch] channel of statuses: its value and how often it was sent to. *)
Record StatusChannel := mk_channel { status : ClientSnapshot.t; version : nat }.

(** [forward_status] between two of its operations; [seen] is the version its
    receiver has marked as seen. *)
Inductive Forwarder :=
| FwdWaiting (seen : nat)
| FwdWoken (seen : nat)
| FwdHolds (seen : nat) (s : ClientSnapshot.t)
| FwdPersisted (seen : nat) (s : ClientSnapshot.t) (persistence_healthy : bool)
| FwdEnded.

(** A client with its forwarder: what the client will still publish, whether it
    then panics instead of returning, and whether the forwarder was aborted. *)
Record Generation := mk_generation {
  channel : StatusChannel;
  script : list ClientSnapshot.t;
  crashes : bool;
  forwarder : Forwarder;
  aborted : bool;
}.

(** The manager between two of its operations. *)
Inductive Manager :=
| MgrStarting
| MgrSelecting
| MgrStopping
| MgrProjecting (reason : string) (s : ClientSnapshot.t)
| MgrProjected (reason : string) (s : ClientSnapshot.t) (persistence_healthy : bool)
| MgrAborting (reason : string)
| MgrMarking (reason : string).

Section Manager.
Context `{Blake3} `{CounterJson}.

(** The shared state, the [TunnelCounterStore] on its file, the restart requests
    the manager has seen, and the generations, the running one first. *)
Record Tunnel := mk_tunnel {
  shared : RuntimeState.t;
  store : TunnelEventCounters.t;
  file : FileContent;
  restart_seen : Z;
  manager : Manager;
  generations : list Generation;
}.

Definition set_shared (r : RuntimeState.t) (t : Tunnel) : Tunnel :=
  mk_tunnel r (store t) (file t) (restart_seen t) (manager t) (generations t).
Definition set_store (c : TunnelEventCounters.t) (f : FileContent) (t : Tunnel) : Tunnel :=
  mk_tunnel (shared t) c f (restart_seen t) (manager t) (generations t).
Definition set_manager (m : Manager) (t : Tunnel) : Tunnel :=
  mk_tunnel (shared t) (store t) (file t) (restart_seen t) m (generations t).
Definition set_generations (gs : list Generation) (t : Tunnel) : Tunnel :=
  mk_tunnel (shared t) (store t) (file t) (restart_seen t) (manager t) gs.

Definition set_forwarder (f : Forwarder) (g : Generation) : Generation :=
  mk_generation (channel g) (script g) (crashes g) f (aborted g).

Definition restart_generation (r : RuntimeState.t) : Z :=
  match RuntimeState.reverse_tunnel_restart r with Some ch => generation ch | None => 0 end.

(** [spawn_reverse_tunnel] up to the spawn of the manager. *)
Definition spawn_reverse_tunnel (r : RuntimeState.t) (f : FileContent) : result Tunnel CounterError :=
  match load_counters f with
  | Err e => Err e
  | Ok counters => Ok (mk_tunnel (start_tunnel_manager counters r) counters f 0 MgrStarting [])
  end.

(** The value a generation's channel is created with. *)
Definition initial_status (counters : TunnelEventCounters.t) : ClientSnapshot.t :=
  ClientSnapshot.mk 0%N false 0 0 None None TunnelFreshness.Unknown None counters.

(** What a client of this configuration may publish before it ends. *)
Inductive may_publish (config : ReverseTunnelClientConfig) (counters : TunnelEventCounters.t)
    : list ClientSnapshot.t -> bool -> Prop :=
| MayReturn session attempts asleep :
    asleep = false \/ attempts <> [] ->
    may_publish config counters (client_statuses config session counters attempts asleep) false
| MayPanic session attempts asleep l :
    l `prefix_of` client_statuses config session counters attempts asleep ->
    may_publish config counters l true.

(** [tokio::spawn] of the client and of its forwarder. *)
Definition new_generation (counters : TunnelEventCounters.t) (l : list ClientSnapshot.t) (panics : bool)
    : Generation :=
  mk_generation (mk_channel (initial_status counters) 0) l panics (FwdWaiting 0) false.

(** The first half of [project_snapshot], under the lock of the store. *)
Definition persist (fs : WriteOutcome) (s : ClientSnapshot.t) (t : Tunnel) : bool * Tunnel :=
  let '(out, current, f) :=
    persist_if_changed fs (store t) (ClientSnapshot.event_counters s) (file t) in
  (is_ok out, set_store current f t).

(** *** Steps *)

Inductive Label :=
| Start (l : list ClientSnapshot.t) (panics : bool)
| Publish
| Wake (i : nat)
| Borrow (i : nat)
| ForwardPersist (i : nat) (fs : WriteOutcome)
| ForwardProject (i : nat)
| ForwardEnd (i : nat)
| Cancel (i : nat)
| SeeRestart
| SeeExit
| SeeStopped
| FinalPersist (fs : WriteOutcome)
| FinalProject
| AbortForwarder
| MarkDisconnected
| RequestRestart
| Elsewhere (r : RuntimeState.t).

(** The loop of [forward_status]: a status is cloned, persisted and projected. *)
Definition forward_step (l : Label) (g : Generation) (t : Tunnel) : option (Forwarder * Tunnel) :=
  match l, forwarder g with
  | Wake _, FwdWaiting seen =>
      if bool_decide (version (channel g) = seen) then None
      else Some (FwdWoken (version (channel g)), t)
  | Borrow _, FwdWoken seen => Some (FwdHolds seen (status (channel g)), t)
  | ForwardPersist _ fs, FwdHolds seen s =>
      let '(healthy, t') := persist fs s t in Some (FwdPersisted seen s healthy, t')
  | ForwardProject _, FwdPersisted seen s healthy =>
      Some (FwdWaiting seen, set_shared (project_snapshot healthy s (shared t)) t)
  | ForwardEnd _, FwdWaiting seen =>
      if bool_decide (version (channel g) = seen) && bool_decide (script g = [])
      then Some (FwdEnded, t) else None
  | Cancel _, _ => if aborted g then Some (FwdEnded, t) else None
  | _, _ => None
  end.

Definition forwarder_at (i : nat) (l : Label) (t : Tunnel) : option Tunnel :=
  match generations t !! i with
  | None => None
  | Some g =>
      match forward_step l g t with
      | Some (f, t') => Some (set_generations (<[i := set_forwarder f g]> (generations t)) t')
      | None => None
      end
  end.

(** What other tasks leave alone. *)
Definition tunnel_view (r : RuntimeState.t)
    : option ClientSnapshot.t * TunnelEventCounters.t * bool * option RestartChannel :=
  (RuntimeState.reverse_tunnel r, RuntimeState.reverse_tunnel_counters r,
   RuntimeState.reverse_tunnel_counter_persistence_healthy r, RuntimeState.reverse_tunnel_restart r).

#[export] Instance restart_eq_dec : EqDecision RestartChannel.
Proof. solve_decision. Defined.
#[export] Instance snapshot_eq_dec : EqDecision ClientSnapshot.t.
Proof. solve_decision. Defined.

(** The loop of the manager, and the steps of the tasks around it. *)
Definition tunnel_step (l : Label) (t : Tunnel) : option Tunnel :=
  match l, manager t, generations t with
  | Start statuses panics, MgrStarting, gs =>
      Some (set_manager MgrSelecting
              (set_generations (new_generation (store t) statuses panics :: gs) t))
  | Publish, _, g :: gs =>
      match script g with
      | [] => None
      | s :: rest =>
          Some (set_generations
                  (mk_generation (mk_channel s (S (version (channel g)))) rest (crashes g)
                     (forwarder g) (aborted g) :: gs) t)
      end
  | Wake i, _, _ | Borrow i, _, _ | ForwardPersist i _, _, _ | ForwardProject i, _, _
  | ForwardEnd i, _, _ | Cancel i, _, _ => forwarder_at i l t
  | SeeRestart, MgrSelecting, _ =>
      if bool_decide (restart_generation (shared t) = restart_seen t) then None
      else Some (mk_tunnel (shared t) (store t) (file t) (restart_generation (shared t))
                   MgrStopping (generations t))
  | SeeExit, MgrSelecting, g :: _ =>
      if bool_decide (script g = []) && crashes g
      then Some (set_manager (MgrProjecting "client_exited" (status (channel g))) t) else None
  | SeeStopped, MgrStopping, g :: _ =>
      if bool_decide (script g = [])
      then Some (set_manager (MgrProjecting "restart_requested" (status (channel g))) t) else None
  | FinalPersist fs, MgrProjecting reason s, _ =>
      let '(healthy, t') := persist fs s t in Some (set_manager (MgrProjected reason s healthy) t')
  | FinalProject, MgrProjected reason s healthy, _ =>
      Some (set_manager (MgrAborting reason)
              (set_shared (project_snapshot healthy s (shared t)) t))
  | AbortForwarder, MgrAborting reason, g :: gs =>
      Some (set_manager (MgrMarking reason)
              (set_generations (mk_generation (channel g) (script g) (crashes g) (forwarder g) true
                                  :: gs) t))
  | MarkDisconnected, MgrMarking reason, _ =>
      Some (set_manager MgrStarting (set_shared (mark_tunnel_disconnected reason (shared t)) t))
  | RequestRestart, _, _ =>
      match refresh_reverse_tunnel (shared t) with
      | RefreshWait r => Some (set_shared r t)
      | RefreshDone _ _ => None
      end
  | Elsewhere r, _, _ =>
      if bool_decide (tunnel_view r = tunnel_view (shared t)) then Some (set_shared r t) else None
  | _, _, _ => None
  end.

Fixpoint run (ls : list Label) (t : Tunnel) : option Tunnel :=
  match ls with
  | [] => Some t
  | l :: rest => match tunnel_step l t with Some t' => run rest t' | None => None end
  end.

(** The clients that are started publish what such a client can. *)
Definition legal (config : ReverseTunnelClientConfig) (l : Label) (t : Tunnel) : Prop :=
  match l with
  | Start statuses panics => may_publish config (store t) statuses panics
  | _ => True
  end.

Inductive reaches (config : ReverseTunnelClientConfig) (t : Tunnel) : Tunnel -> Prop :=
| ReachesHere : reaches config t t
| ReachesStep t' l t'' :
    reaches config t t' -> legal config l t' -> tunnel_step l t' = Some t'' -> reaches config t t''.

(** ** The manager inside the daemon *)

(** Steps of the manager and of its forwarders are steps of the daemon: what
    holds of every run of the daemon's tasks holds here. *)
Lemma tunnel_step_in_daemon l t t' ts :
  (forall r, l <> Elsewhere r) ->
  (forall reason, manager t = MgrMarking reason ->
     reason = "restart_requested" \/ reason = "client_exited") ->
  tunnel_step l t = Some t' ->
  steps (mk_daemon (shared t) ts) (mk_daemon (shared t') ts).
Proof.
  intros Hl Hreason.
  assert (forall r r', step (mk_daemon r ts) (mk_daemon r' ts) ->
            steps (mk_daemon r ts) (mk_daemon r' ts)) as Hone.
  { intros. eapply StepsCons; [done|apply StepsNil]. }
  assert (forall i, forwarder_at i l t = Some t' ->
            steps (mk_daemon (shared t) ts) (mk_daemon (shared t') ts)) as Hfwd.
  { intros i. unfold forwarder_at, forward_step, persist. destruct (generations t !! i) as [g|]; [|done].
    destruct l, (forwarder g); repeat case_match; try done; intros [= <-]; simplify_eq;
      try apply StepsNil. apply Hone, StepSnapshot. }
  unfold tunnel_step, persist.
  destruct l; try apply Hfwd; try (destruct (manager t) eqn:Hm); try (destruct (generations t));
    repeat case_match; try done; intros [= <-]; simplify_eq; try apply StepsNil; apply Hone.
  all: first [apply StepSnapshot | by apply StepDisconnected, Hreason | by apply StepRefresh | idtac].
  all: by exfalso; eapply Hl.
Qed.

(** The other tasks of the daemon leave the tunnel's part of the state alone, the
    manager's own steps and restart requests apart. *)
Lemma other_tasks_elsewhere d d' :
  step d d' ->
  tunnel_view (runtime d') = tunnel_view (runtime d)
  \/ (exists healthy s, runtime d' = project_snapshot healthy s (runtime d))
  \/ (exists reason, runtime d' = mark_tunnel_disconnected reason (runtime d))
  \/ (exists counters, runtime d' = start_tunnel_manager counters (runtime d))
  \/ refresh_reverse_tunnel (runtime d) = RefreshWait (runtime d').
Proof.
  destruct 1; cbn [runtime]; eauto 10; left.
  - unfold start_rotation_for_runtime. by case_match.
  - unfold apply_command. by destruct (DeviceCommand.recovery_intent command).
  - unfold apply_command, start_rotation_for_runtime.
    destruct (DeviceCommand.recovery_intent command); try done. by destruct (rotation_running r).
Qed.

(** ** What holds whatever the interleaving *)

Definition counters_of (t : Tunnel) : TunnelEventCounters.t :=
  RuntimeState.reverse_tunnel_counters (shared t).

(** The status a forwarder has taken and not yet projected. *)
Definition in_flight (f : Forwarder) : option ClientSnapshot.t :=
  match f with FwdHolds _ s | FwdPersisted _ s _ => Some s | _ => None end.

Definition from (base : TunnelEventCounters.t) (s : ClientSnapshot.t) : Prop :=
  counters_le base (ClientSnapshot.event_counters s).

Record generation_ok (base : TunnelEventCounters.t) (g : Generation) : Prop := {
  ok_status : from base (status (channel g));
  ok_script : rising (ClientSnapshot.event_counters (status (channel g))) (script g);
  ok_flight : forall s, in_flight (forwarder g) = Some s -> from base s;
}.

Definition reason_ok (reason : string) : Prop :=
  reason = "restart_requested" \/ reason = "client_exited".

(** The manager projects the last status of a client that ended. *)
Definition manager_ok (m : Manager) (gs : list Generation) : Prop :=
  match m, gs with
  | MgrStarting, _ => Forall (fun g => aborted g = true) gs
  | MgrSelecting, g :: rest | MgrStopping, g :: rest =>
      aborted g = false /\ Forall (fun g => aborted g = true) rest
  | MgrProjecting reason s, g :: rest | MgrProjected reason s _, g :: rest =>
      reason_ok reason /\ s = status (channel g) /\ script g = [] /\ aborted g = false
      /\ Forall (fun g => aborted g = true) rest
  | MgrAborting reason, g :: rest =>
      reason_ok reason /\ script g = [] /\ aborted g = false
      /\ Forall (fun g => aborted g = true) rest
  | MgrMarking reason, g :: rest =>
      reason_ok reason /\ script g = [] /\ Forall (fun g => aborted g = true) (g :: rest)
  | _, [] => False
  end.

(** A crash of the process at this moment would find these counters. *)
Definition file_keeps (base : TunnelEventCounters.t) (f : FileContent) : Prop :=
  exists c, load_counters f = Ok c /\ counters_le base c.

Record tunnel_ok (base : TunnelEventCounters.t) (t : Tunnel) : Prop := {
  ok_restart : exists n, RuntimeState.reverse_tunnel_restart (shared t) = Some (mk_restart n true)
                         /\ restart_seen t <= n <= u64_max;
  ok_counters : counters_le base (counters_of t);
  ok_store : counters_le base (store t);
  ok_file : file_keeps base (file t);
  ok_generations : Forall (generation_ok base) (generations t);
  ok_manager : manager_ok (manager t) (generations t);
}.

Lemma manager_ok_forwarder m gs i g f :
  gs !! i = Some g -> manager_ok m gs -> manager_ok m (<[i := set_forwarder f g]> gs).
Proof.
  intros Hi Hm.
  assert (forall l j, l !! j = Some g -> Forall (fun g => aborted g = true) l ->
            Forall (fun g => aborted g = true) (<[j := set_forwarder f g]> l)) as Hall.
  { intros l j Hj Hl. apply Forall_insert; [done|]. by apply (Forall_lookup_1 _ _ _ _ Hl Hj). }
  destruct gs as [|g0 rest]; [done|]. destruct i as [|i]; cbn in Hi; simplify_eq.
  - destruct m; cbn in *; rewrite ?Forall_cons in *; exact Hm.
  - change (<[S i := set_forwarder f g]> (g0 :: rest)) with (g0 :: <[i := set_forwarder f g]> rest).
    destruct m; cbn in *; rewrite ?Forall_cons in *; naive_solver.
Qed.

Section Laws.
Context `{!CounterJsonLaws}.

Lemma persist_if_changed_le base fs current c f out current' f' :
  counters_le base current -> counters_le base c -> file_keeps base f ->
  persist_if_changed fs current c f = (out, current', f') ->
  counters_le base current' /\ file_keeps base f'.
Proof.
  intros Hcur Hc Hf. unfold persist_if_changed, write_counters.
  destruct (TunnelEventCounters.same_persisted_state current c); [by intros [= <- <- <-]|].
  destruct (Z.ltb_spec MAX_COUNTER_FILE_BYTES (len (encode_counters COUNTER_SCHEMA_VERSION c)));
    [by intros [= <- <- <-]|].
  assert (file_keeps base (FileBody (encode_counters COUNTER_SCHEMA_VERSION c))) as Hw.
  { destruct (written_holds c) as (c' & Hl & Hs); [done|]. exists c'. split; [done|].
    etrans; [exact Hc|]. by apply (same_persisted_le c' c). }
  destruct fs; by intros [= <- <- <-].
Qed.

Lemma persist_ok base fs s t healthy t' :
  tunnel_ok base t -> from base s -> persist fs s t = (healthy, t') -> tunnel_ok base t'.
Proof.
  intros [] Hs. unfold persist.
  destruct (persist_if_changed _ _ _ _) as [[out current] f] eqn:Hp. intros [= <- <-].
  eapply persist_if_changed_le in Hp as [? ?]; [|done..]. by split.
Qed.

Lemma project_ok base healthy s t :
  tunnel_ok base t -> from base s ->
  tunnel_ok base (set_shared (project_snapshot healthy s (shared t)) t).
Proof. intros [] Hs. by split. Qed.

Lemma set_forwarder_ok base f g :
  generation_ok base g -> (forall s, in_flight f = Some s -> from base s) ->
  generation_ok base (set_forwarder f g).
Proof. intros [] Hf. by split. Qed.

(** A step of a forwarder keeps everything but its own state in order. *)
Lemma forward_step_ok base l g t f t' :
  tunnel_ok base t -> generation_ok base g -> forward_step l g t = Some (f, t') ->
  tunnel_ok base t' /\ (forall s, in_flight f = Some s -> from base s)
  /\ generations t' = generations t /\ manager t' = manager t.
Proof.
  intros Ht [Hs _ Hfl]. unfold forward_step.
  destruct l, (forwarder g) as [ | | seen s | seen s healthy | ]; try done;
    try (repeat case_match; intros [= <- <-]; split_and!; try done; cbn; congruence).
  - destruct (persist fs s t) as [healthy t1] eqn:Hp. intros [= <- <-].
    split; [by apply (persist_ok base fs s t healthy); [|apply Hfl|]|]. split; [done|]. revert Hp. unfold persist.
    destruct (persist_if_changed _ _ _ _) as [[? ?] ?]. by intros [= <- <-].
  - intros [= <- <-]. split; [by apply project_ok, Hfl|]. done.
Qed.

Lemma forwarder_at_ok base i l t t' :
  tunnel_ok base t -> forwarder_at i l t = Some t' -> tunnel_ok base t'.
Proof.
  intros Ht. unfold forwarder_at. destruct (generations t !! i) as [g|] eqn:Hi; [|done].
  pose proof (Forall_lookup_1 _ _ _ _ (ok_generations _ _ Ht) Hi) as Hg.
  destruct (forward_step l g t) as [[f t1]|] eqn:Hs; [|done]. intros [= <-].
  destruct (forward_step_ok _ _ _ _ _ _ Ht Hg Hs) as ([] & Hf & Hgs & Hm).
  split; try done; cbn; rewrite ?Hm.
  - apply Forall_insert; [apply Ht|]. by apply set_forwarder_ok.
  - by apply manager_ok_forwarder; [|apply Ht].
Qed.

Lemma new_generation_ok config base c l panics :
  counters_le base c -> may_publish config c l panics -> generation_ok base (new_generation c l panics).
Proof.
  intros Hc Hl. split; [exact Hc| |done]. cbn.
  destruct Hl as [|session attempts asleep l Hpre]; [apply client_rising|].
  eapply rising_prefix; [exact Hpre|apply client_rising].
Qed.

Lemma refresh_ok r r' n :
  RuntimeState.reverse_tunnel_restart r = Some (mk_restart n true) ->
  refresh_reverse_tunnel r = RefreshWait r' ->
  r' = RuntimeState.set_restart (Some (mk_restart (saturating_add_u64 n 1) true)) r.
Proof. unfold refresh_reverse_tunnel. intros ->. case_match; [done|]. by intros [= <-]. Qed.

Lemma tunnel_step_ok config base l t t' :
  tunnel_ok base t -> legal config l t -> tunnel_step l t = Some t' -> tunnel_ok base t'.
Proof.
  intros Ht Hl Hstep. pose proof Ht as [(n & Hn & Hseen) Hc Hst Hfile Hgs Hm].
  unfold tunnel_step in Hstep.
  destruct l as [l panics| | | | | | | | | | |fs| | | | |r]; try by eapply forwarder_at_ok.
  - destruct (manager t) eqn:Hmgr; try done. injection Hstep as <-. cbn in Hl.
    split; cbn; eauto. constructor; [|done]. by eapply new_generation_ok.
  - destruct (generations t) as [|g gs] eqn:Hg; [by destruct (manager t)|].
    destruct (script g) as [|s rest] eqn:Hs; [by destruct (manager t)|].
    apply Forall_cons in Hgs as [[Hok1 Hok2 Hok3] Hgs]. rewrite Hs in Hok2. destruct Hok2 as [Hle Hr].
    assert (t' = set_generations (mk_generation (mk_channel s (S (version (channel g)))) rest
              (crashes g) (forwarder g) (aborted g) :: gs) t) as ->
      by (destruct (manager t); by injection Hstep).
    split; cbn; eauto.
    + constructor; [|done]. split; [|done|done]. unfold from in *. by etrans.
    + destruct (manager t); cbn in Hm |- *; rewrite ?Hs in Hm; rewrite ?Forall_cons in *; try done;
        destruct_and?; discriminate.
  - destruct (manager t) eqn:Hmgr; try done. case_bool_decide; [done|]. injection Hstep as <-.
    split; cbn; eauto. exists n. unfold restart_generation. rewrite Hn. cbn. split; [done|lia].
  - destruct (manager t) eqn:Hmgr; try done. destruct (generations t) as [|g gs] eqn:Hg; try done.
    destruct (bool_decide (script g = [])) eqn:Hs; [|done]. apply bool_decide_eq_true in Hs.
    destruct (crashes g); [|done]. injection Hstep as <-. destruct Hm.
    split; cbn; rewrite ?Hg; eauto. unfold reason_ok. cbn. naive_solver.
  - destruct (manager t) eqn:Hmgr; try done. destruct (generations t) as [|g gs] eqn:Hg; try done.
    case_bool_decide as Hs; [|done]. injection Hstep as <-. destruct Hm.
    split; cbn; rewrite ?Hg; eauto. unfold reason_ok. cbn. naive_solver.
  - destruct (manager t) as [| | |reason s| | |] eqn:Hmgr; try done.
    destruct (persist fs s t) as [healthy t1] eqn:Hp. injection Hstep as <-.
    destruct (generations t) as [|g gs] eqn:Hg; [done|].
    assert (from base s) as Hs.
    { cbn in Hm. destruct Hm as (_ & -> & _). apply Forall_cons in Hgs as [[] _]. done. }
    destruct (persist_ok _ _ _ _ _ _ Ht Hs Hp) as []. revert Hp. unfold persist.
    destruct (persist_if_changed _ _ _ _) as [[? ?] ?]. intros [= <- <-].
    split; cbn in *; rewrite ?Hg; eauto.
  - destruct (manager t) as [| | | |reason s healthy| |] eqn:Hmgr; try done. injection Hstep as <-.
    destruct (generations t) as [|g gs] eqn:Hg; [done|]. cbn in Hm.
    destruct Hm as (Hr & -> & Hs & Ha & Hrest). apply Forall_cons in Hgs as [[] Hgs].
    split; cbn in *; rewrite ?Hg; eauto. constructor; [by split|done].
  - destruct (manager t) eqn:Hmgr; try done. destruct (generations t) as [|g gs] eqn:Hg; [done|].
    injection Hstep as <-. apply Forall_cons in Hgs as [[] Hgs].
    split; cbn in *; eauto. constructor; [by split|done]. naive_solver.
  - destruct (manager t) eqn:Hmgr; try done. injection Hstep as <-.
    destruct (generations t) as [|g gs] eqn:Hg; [done|].
    split; cbn in *; rewrite ?Hg; eauto. naive_solver.
  - destruct (refresh_reverse_tunnel (shared t)) as [|r] eqn:Hr; [done|]. injection Hstep as <-.
    apply (refresh_ok _ _ _ Hn) in Hr as ->. split; cbn; eauto.
    exists (saturating_add_u64 n 1). split; [done|]. unfold saturating_add_u64. lia.
  - case_bool_decide as Hv; [|done]. injection Hstep as <-. injection Hv as Hv1 Hv2 Hv3 Hv4.
    split; cbn; eauto; [by rewrite Hv4; eauto|]. unfold counters_of. cbn. by rewrite Hv2.
Qed.

Lemma spawned_ok r f t :
  spawn_reverse_tunnel r f = Ok t -> tunnel_ok (store t) t.
Proof.
  unfold spawn_reverse_tunnel. destruct (load_counters f) as [c|e] eqn:Hl; [|done].
  intros [= <-]. split; cbn; try reflexivity; try done; [|by exists c].
  exists 0. split; [done|]. unfold u64_max. lia.
Qed.

Lemma reached_ok config r f t t' :
  spawn_reverse_tunnel r f = Ok t -> reaches config t t' -> tunnel_ok (store t) t'.
Proof.
  intros Hs Hr. apply spawned_ok in Hs. induction Hr as [|t' l t'' Hr IH Hl Hstep]; [done|].
  by eapply tunnel_step_ok.
Qed.

(** C26: Whatever its clients do, however the disk fails and however the manager,
    the forwarders and the other tasks interleave, the tunnel manager of a
    phone never shows, hands to a new client, or would lose to a crash, less
    than the counters the process started from; the daemon can always ask it to
    restart; and only the running generation's forwarder is not aborted. *)
Theorem tunnel_manager_invariant config r f t t' :
  spawn_reverse_tunnel r f = Ok t -> reaches config t t' ->
  counters_le (store t) (counters_of t')
  /\ counters_le (store t) (store t')
  /\ file_keeps (store t) (file t')
  /\ (forall ready r', refresh_reverse_tunnel (shared t') = RefreshDone ready r' -> ready = true)
  /\ Forall (fun g => aborted g = true) (List.tl (generations t')).
Proof.
  intros Hs Hr. destruct (reached_ok _ _ _ _ _ Hs Hr) as [(n & Hn & _) Hc Hst Hf _ Hm].
  split_and!; try done.
  - intros ready r'. unfold refresh_reverse_tunnel. rewrite Hn. case_match; [|done].
    by intros [= <- <-].
  - destruct (manager t'), (generations t'); cbn in *; try done; rewrite ?Forall_cons in Hm;
      naive_solver.
Qed.
End Laws.

(** A schedule all of whose clients publish what they can. *)
Fixpoint legal_run (config : ReverseTunnelClientConfig) (ls : list Label) (t : Tunnel) : Prop :=
  match ls with
  | [] => True
  | l :: rest => legal config l t
                 /\ match tunnel_step l t with Some t' => legal_run config rest t' | None => True end
  end.

Lemma run_reaches config t0 ls t t' :
  reaches config t0 t -> legal_run config ls t -> run ls t = Some t' -> reaches config t0 t'.
Proof.
  revert t. induction ls as [|l ls IH]; intros t Hr; cbn; [by intros _ [= <-]|]. intros [Hl Hls].
  destruct (tunnel_step l t) as [t1|] eqn:Hs; [|done]. apply IH; [by eapply ReachesStep|done].
Qed.

Lemma legal_run_app config ls ls' t :
  legal_run config ls t -> (forall t', run ls t = Some t' -> legal_run config ls' t') ->
  legal_run config (ls ++ ls')%list t.
Proof.
  revert t. induction ls as [|l ls IH]; intros t; cbn; [eauto|]. intros [Hl Hls] Hrest.
  split; [done|]. destruct (tunnel_step l t); [|done]. by apply IH.
Qed.

(** ** Restart requests are honoured *)

(** The client publishes the rest of its script. *)
Lemma run_app ls ls' t :
  run (ls ++ ls')%list t = match run ls t with Some t' => run ls' t' | None => None end.
Proof. revert t. induction ls as [|l ls IH]; intros t; cbn; [done|]. by destruct (tunnel_step l t). Qed.

Lemma drain_client t g gs :
  generations t = g :: gs ->
  exists g', run (replicate (List.length (script g)) Publish) t
             = Some (set_generations (g' :: gs) t) /\ script g' = [].
Proof.
  remember (script g) as l eqn:Hl. revert t g Hl.
  induction l as [|s l IH]; intros t g Hl Hg.
  - exists g. cbn. rewrite <- Hg. split; [by destruct t|done].
  - cbn. rewrite Hg, <- Hl.
    set (g1 := mk_generation _ _ _ _ _). set (t1 := set_generations (g1 :: gs) t).
    destruct (IH t1 g1) as (g' & Hrun & Hs); [done..|]. exists g'. by rewrite Hrun.
Qed.

(** What a generation leaves behind. *)
Definition shows_disconnected (reason : string) (r : RuntimeState.t) : Prop :=
  HealthRecord.reverse_tunnel_connected (RuntimeState.health r) = Some false
  /\ HealthRecord.reverse_tunnel_last_error (RuntimeState.health r) = Some reason
  /\ HealthRecord.reverse_tunnel_active_transport (RuntimeState.health r) = None
  /\ HealthRecord.reverse_tunnel_freshness (RuntimeState.health r) = Some "stale"
  /\ tunnel_connected r = false.

Lemma mark_shows reason r : shows_disconnected reason (mark_tunnel_disconnected reason r).
Proof. unfold shows_disconnected, tunnel_connected. cbn. by destruct (RuntimeState.reverse_tunnel r). Qed.

(** The steps that end a generation, whatever the disk does. *)
Definition ending (fs : WriteOutcome) : list Label :=
  [FinalPersist fs; FinalProject; AbortForwarder; MarkDisconnected].

Lemma end_generation fs reason s t g gs :
  manager t = MgrProjecting reason s -> generations t = g :: gs ->
  exists t', run (ending fs) t = Some t' /\ manager t' = MgrStarting
             /\ restart_seen t' = restart_seen t /\ shows_disconnected reason (shared t').
Proof.
  intros Hm Hg. unfold ending. cbn [run]. unfold tunnel_step at 1. rewrite Hm. unfold persist.
  destruct (persist_if_changed _ _ _ _) as [[out current] f]. cbn. rewrite Hg. cbn.
  eexists. split; [reflexivity|]. split_and!; [done..|apply mark_shows].
Qed.

(** A restart that is asked for is never lost: when the manager waits for its
    client and a request is pending, its own steps, those of the client that
    shuts down and any outcome of the disk bring it to the start of the next
    generation, with the request answered and the tunnel shown as disconnected;
    no forwarder has to move for it. *)
Theorem restart_is_honoured fs t g gs :
  manager t = MgrSelecting -> generations t = g :: gs ->
  restart_seen t <> restart_generation (shared t) ->
  exists ls t',
    Forall (fun l => l = Publish \/ l = SeeRestart \/ l = SeeStopped \/ l ∈ ending fs) ls
    /\ run ls t = Some t' /\ manager t' = MgrStarting
    /\ restart_seen t' = restart_generation (shared t)
    /\ shows_disconnected "restart_requested" (shared t').
Proof.
  intros Hm Hg Hreq.
  set (t1 := mk_tunnel (shared t) (store t) (file t) (restart_generation (shared t)) MgrStopping
               (generations t)).
  assert (tunnel_step SeeRestart t = Some t1) as Hsee.
  { cbn. rewrite Hm. by rewrite bool_decide_eq_false_2 by done. }
  destruct (drain_client t1 g gs) as (g' & Hdrain & Hs); [done|].
  set (t2 := set_generations (g' :: gs) t1) in *.
  set (t3 := set_manager (MgrProjecting "restart_requested" (status (channel g'))) t2).
  assert (tunnel_step SeeStopped t2 = Some t3) as Hstop.
  { cbn. by rewrite Hs. }
  destruct (end_generation fs "restart_requested" (status (channel g')) t3 g' gs)
    as (t4 & Hrun & Hmgr & Hseen & Hshow); [done..|].
  exists (SeeRestart :: replicate (List.length (script g)) Publish ++ SeeStopped :: ending fs)%list, t4.
  split_and!; try done.
  - constructor; [auto|]. apply Forall_app. split.
    + apply Forall_replicate. auto.
    + constructor; [auto|]. apply Forall_forall. auto.
  - cbn [run]. rewrite Hsee, run_app, Hdrain. cbn [run]. by rewrite Hstop.
Qed.

(** ** Runs in order *)

(** No forwarder moves after it was aborted, none holds a status when the manager
    projects the last one, and the disk does what it is asked. *)
Definition stays_in_order (t : Tunnel) (l : Label) : bool :=
  match l with
  | Wake i | Borrow i | ForwardProject i =>
      is_some_and (generations t !! i) (fun g => negb (aborted g))
  | ForwardPersist i fs =>
      is_some_and (generations t !! i) (fun g => negb (aborted g)
        && is_some_and (in_flight (forwarder g)) (fun s => (persist fs s t).1))
  | FinalPersist fs =>
      match manager t, generations t with
      | MgrProjecting _ s, g :: _ =>
          negb (is_some (in_flight (forwarder g))) && (persist fs s t).1
      | _, _ => false
      end
  | _ => true
  end.

Definition settled (m : Manager) : bool :=
  match m with MgrProjected _ _ _ | MgrAborting _ | MgrMarking _ => true | _ => false end.
Definition shown (m : Manager) : bool :=
  match m with MgrAborting _ | MgrMarking _ => true | _ => false end.

(** Counters flow from the channel through the forwarder to the store and the
    shared state: [c] is shown, [st] is stored, [v] is on the channel and [o] in
    the forwarder's hands. *)
Record flows (m : Manager) (c st v : TunnelEventCounters.t) (o : option ClientSnapshot.t) : Prop := {
  flow_shown : counters_le c v;
  flow_stored : counters_le st v;
  flow_held : forall s, o = Some s ->
    counters_le c (ClientSnapshot.event_counters s)
    /\ counters_le st (ClientSnapshot.event_counters s)
    /\ counters_le (ClientSnapshot.event_counters s) v;
  flow_settled : settled m = true -> counters_le v st
    /\ forall s, o = Some s -> counters_le v (ClientSnapshot.event_counters s);
  flow_final : shown m = true -> counters_le v c;
}.

Definition in_order (t : Tunnel) : Prop :=
  match manager t, generations t with
  | MgrStarting, _ => counters_le (counters_of t) (store t)
  | _, [] => False
  | m, g :: _ => flows m (counters_of t) (store t)
                   (ClientSnapshot.event_counters (status (channel g))) (in_flight (forwarder g))
  end.

Lemma flows_drop m c st v o : flows m c st v o -> flows m c st v None.
Proof. intros []. split; naive_solver. Qed.

Lemma flows_publish m c st v v' o :
  settled m = false -> counters_le v v' -> flows m c st v o -> flows m c st v' o.
Proof.
  intros Hm Hv []. split; [by etrans|by etrans| |by rewrite Hm|].
  - intros s Hs. destruct (flow_held0 s Hs) as (? & ? & ?). split_and!; [done|done|by etrans].
  - by destruct m.
Qed.

Lemma flows_borrow m c st v s :
  ClientSnapshot.event_counters s = v -> flows m c st v None -> flows m c st v (Some s).
Proof.
  intros <- []. split; try done.
  - intros s' [= <-]. by split_and!.
  - intros Hm. destruct (flow_settled0 Hm). split; [done|]. by intros s' [= <-].
Qed.

Lemma flows_persist m c st st' v s :
  counters_le (ClientSnapshot.event_counters s) st' -> counters_le st' (ClientSnapshot.event_counters s) ->
  flows m c st v (Some s) -> flows m c st' v (Some s) /\ counters_le st st'.
Proof.
  intros Hs Hs' []. destruct (flow_held0 s eq_refl) as (Hc & Hst & Hv). split; [|by etrans].
  split; try done; [by etrans| |].
  - intros s' [= <-]. done.
  - intros Hm. destruct (flow_settled0 Hm) as [_ Hset]. split; [|done]. etrans; [by apply Hset|done].
Qed.

Lemma flows_project m c st v s :
  flows m c st v (Some s) ->
  flows m (ClientSnapshot.event_counters s) st v None
  /\ counters_le c (ClientSnapshot.event_counters s).
Proof.
  intros []. destruct (flow_held0 s eq_refl) as (Hc & Hst & Hv). split; [|done]. split; try done.
  - intros Hm. split; [by apply flow_settled0|done].
  - intros Hm. apply flow_settled0; [by destruct m|done].
Qed.

Lemma persist_healthy fs s t t' :
  persist fs s t = (true, t') ->
  exists st f, t' = set_store st f t
    /\ counters_le (ClientSnapshot.event_counters s) st
    /\ counters_le st (ClientSnapshot.event_counters s).
Proof.
  unfold persist, persist_if_changed.
  destruct (TunnelEventCounters.same_persisted_state _ _) eqn:Hs.
  - apply same_persisted_le in Hs as [? ?]. intros [= <-]. by eexists _, _.
  - destruct (write_counters _ _ _) as [[u|e] f]; [|done]. intros [= <-]. by eexists _, _.
Qed.

Definition advances (t t' : Tunnel) : Prop :=
  counters_le (counters_of t) (counters_of t') /\ counters_le (store t) (store t').

Lemma advances_same t t' :
  counters_of t' = counters_of t -> store t' = store t -> advances t t'.
Proof. unfold advances. intros -> ->. split; reflexivity. Qed.

Lemma in_order_flows t g gs :
  generations t = g :: gs -> aborted g = false -> manager_ok (manager t) (g :: gs) -> in_order t ->
  manager t <> MgrStarting
  /\ flows (manager t) (counters_of t) (store t)
       (ClientSnapshot.event_counters (status (channel g))) (in_flight (forwarder g)).
Proof.
  intros Hg Ha Hm. unfold in_order. rewrite Hg. destruct (manager t); try done.
  cbn in Hm. apply Forall_cons in Hm as [? _]. congruence.
Qed.

Lemma flows_in_order t t' g gs :
  manager t' = manager t -> manager t <> MgrStarting -> generations t' = g :: gs ->
  flows (manager t) (counters_of t') (store t') (ClientSnapshot.event_counters (status (channel g)))
    (in_flight (forwarder g)) -> in_order t'.
Proof. unfold in_order. intros -> Hm ->. by destruct (manager t). Qed.

(** A forwarder that was not aborted is the running one, and moves counters on. *)
Lemma forward_in_order base i l t t' :
  tunnel_ok base t -> in_order t -> stays_in_order t l = true ->
  (l = Wake i \/ l = Borrow i \/ (exists fs, l = ForwardPersist i fs) \/ l = ForwardProject i) ->
  forwarder_at i l t = Some t' -> in_order t' /\ advances t t'.
Proof.
  intros Ht Hord Hstay Hl. unfold forwarder_at.
  destruct (generations t !! i) as [g|] eqn:Hi; [|done].
  assert (aborted g = false) as Ha.
  { destruct Hl as [-> | [-> | [[fs ->] | ->]]]; cbn in Hstay; rewrite Hi in Hstay; cbn in Hstay;
      by destruct (aborted g). }
  destruct (generations t) as [|g0 gs] eqn:Hg; [done|]. pose proof (ok_manager _ _ Ht) as Hm.
  rewrite Hg in Hm. destruct i as [|i].
  2:{ exfalso. cbn in Hi. assert (Forall (fun g => aborted g = true) gs) as Hall
        by (destruct (manager t); cbn in Hm; rewrite ?Forall_cons in Hm; naive_solver).
      pose proof (Forall_lookup_1 _ _ _ _ Hall Hi) as Hx. cbn in Hx. congruence. }
  cbn in Hi. injection Hi as ->.
  destruct (in_order_flows t g gs Hg Ha Hm Hord) as [Hne Hfl].
  destruct Hl as [-> | [-> | [[fs ->] | ->]]]; cbn [forward_step];
    destruct (forwarder g) as [seen|seen|seen s|seen s healthy|] eqn:Hf; try done.
  - case_bool_decide; [done|]. intros [= <-]. split; [|by apply advances_same].
    by eapply flows_in_order; [| |reflexivity|].
  - intros [= <-]. split; [|by apply advances_same].
    eapply flows_in_order; [done|done|reflexivity|]. cbn. by apply flows_borrow.
  - cbn in Hstay. rewrite Hg in Hstay. cbn in Hstay. rewrite Hf, Ha in Hstay. cbn in Hstay.
    destruct (persist fs s t) as [healthy t1] eqn:Hp. cbn in Hstay. subst healthy. intros [= <-].
    apply persist_healthy in Hp as (st & f & -> & Hle & Hle').
    destruct (flows_persist _ _ _ _ _ _ Hle Hle' Hfl) as [Hfl' Hst].
    split; [|split; [reflexivity|done]]. by eapply (flows_in_order t); [| |reflexivity|].
  - intros [= <-]. destruct (flows_project _ _ _ _ _ Hfl) as [Hfl' Hc].
    split; [|split; [done|reflexivity]]. by eapply flows_in_order; [| |reflexivity|].
Qed.

Lemma forward_stops base i l t t' :
  tunnel_ok base t -> in_order t -> l = ForwardEnd i \/ l = Cancel i ->
  forwarder_at i l t = Some t' -> in_order t' /\ advances t t'.
Proof.
  intros Ht Hord Hl. unfold forwarder_at. destruct (generations t !! i) as [g|] eqn:Hi; [|done].
  assert (forall f t1, forward_step l g t = Some (f, t1) -> f = FwdEnded /\ t1 = t) as Hstop.
  { intros f t1. destruct Hl as [-> | ->]; cbn; repeat case_match; try done; by intros [= <- <-]. }
  destruct (forward_step l g t) as [[f t1]|] eqn:Hs; [|done].
  destruct (Hstop _ _ eq_refl) as [-> ->]. intros [= <-]. split; [|by apply advances_same].
  revert Hord. unfold in_order. cbn. destruct (generations t) as [|g0 gs]; [done|].
  destruct i as [|i]; cbn in Hi; simplify_eq; destruct (manager t); try done; cbn;
    apply flows_drop.
Qed.

Lemma step_in_order config base l t t' :
  tunnel_ok base t -> in_order t -> legal config l t -> stays_in_order t l = true ->
  tunnel_step l t = Some t' -> in_order t' /\ advances t t'.
Proof.
  intros Ht Hord Hl Hstay Hstep. pose proof Ht as [(n & Hn & _) _ _ _ Hgs Hm].
  destruct l as [l panics| |i|i|i fs|i|i|i| | | |fs| | | | |r]; cbn [tunnel_step] in Hstep;
    try (by eapply forward_in_order; eauto 6);
    try (by apply (forward_stops base i _ _ _ Ht Hord (or_introl eq_refl) Hstep));
    try (by apply (forward_stops base i _ _ _ Ht Hord (or_intror eq_refl) Hstep)).
  - destruct (manager t) eqn:Hmgr; try done. injection Hstep as <-. split; [|by apply advances_same].
    unfold in_order in *. rewrite Hmgr in Hord. cbn. split; try done; reflexivity.
  - destruct (generations t) as [|g gs] eqn:Hg; [done|]. destruct (script g) as [|s rest] eqn:Hs; [done|].
    injection Hstep as <-. split; [|by apply advances_same].
    apply Forall_cons in Hgs as [[_ Hr _] _]. rewrite Hs in Hr. destruct Hr as [Hle _].
    revert Hord Hm. unfold in_order. cbn. rewrite Hg.
    destruct (manager t); cbn; rewrite ?Hs; try done; intros Hfl Hm; try (destruct_and!; discriminate);
      by eapply flows_publish.
  - destruct (manager t) eqn:Hmgr; try done. case_bool_decide; [done|]. injection Hstep as <-.
    split; [|by apply advances_same]. revert Hord. unfold in_order. rewrite Hmgr. cbn.
    destruct (generations t); [done|]. intros []. by split.
  - destruct (manager t) eqn:Hmgr; try done. destruct (generations t) as [|g gs] eqn:Hg; try done.
    destruct (_ && _); [|done]. injection Hstep as <-. split; [|by apply advances_same].
    revert Hord. unfold in_order. rewrite Hmgr. cbn. rewrite Hg. intros []. by split.
  - destruct (manager t) eqn:Hmgr; try done. destruct (generations t) as [|g gs] eqn:Hg; try done.
    case_bool_decide; [|done]. injection Hstep as <-. split; [|by apply advances_same].
    revert Hord. unfold in_order. rewrite Hmgr. cbn. rewrite Hg. intros []. by split.
  - destruct (manager t) as [| | |reason s| | |] eqn:Hmgr; try done. cbn in Hstay. rewrite Hmgr in Hstay.
    destruct (generations t) as [|g gs] eqn:Hg; [done|]. cbn in Hm. destruct Hm as (_ & -> & _).
    destruct (in_flight (forwarder g)) eqn:Hf; [done|]. cbn in Hstay.
    destruct (persist fs _ t) as [healthy t1] eqn:Hp. cbn in Hstay. subst healthy.
    apply persist_healthy in Hp as (st & f & -> & Hle & Hle'). injection Hstep as <-.
    revert Hord. unfold in_order, advances. rewrite Hmgr. cbn. rewrite Hg, Hf. intros [].
    split; [split; try done|split; [reflexivity|by etrans]].
  - destruct (manager t) as [| | | |reason s healthy| |] eqn:Hmgr; try done. injection Hstep as <-.
    destruct (generations t) as [|g gs] eqn:Hg; [done|]. cbn in Hm. destruct Hm as (_ & -> & _).
    revert Hord. unfold in_order, advances. rewrite Hmgr. cbn. rewrite Hg. intros [].
    split; [|split; [done|reflexivity]]. destruct flow_settled0 as [Hst Hheld]; [done|].
    split; try done.
    intros s Hs. destruct (flow_held0 s Hs) as (_ & ? & ?). split_and!; [by apply Hheld|done|done].
  - destruct (manager t) eqn:Hmgr; try done. destruct (generations t) as [|g gs] eqn:Hg; [done|].
    injection Hstep as <-. split; [|by apply advances_same].
    revert Hord. unfold in_order. rewrite Hmgr. cbn. rewrite Hg. intros []. by split.
  - destruct (manager t) eqn:Hmgr; try done. injection Hstep as <-.
    split; [|by apply advances_same]. revert Hord. unfold in_order. rewrite Hmgr. cbn.
    destruct (generations t); [done|]. intros []. destruct flow_settled0 as [Hst _]; [done|].
    change (counters_le (counters_of t) (store t)). by etrans.
  - destruct (refresh_reverse_tunnel (shared t)) as [|r] eqn:Hr; [done|]. injection Hstep as <-.
    apply (refresh_ok _ _ _ Hn) in Hr as ->. split; [exact Hord|]. by apply advances_same.
  - case_bool_decide as Hv; [|done]. injection Hstep as <-. injection Hv as Hv1 Hv2 Hv3 Hv4.
    split; [|by apply advances_same]. revert Hord. unfold in_order, counters_of. cbn. by rewrite Hv2.
Qed.

Inductive reaches_in_order (config : ReverseTunnelClientConfig) (t : Tunnel) : Tunnel -> Prop :=
| OrderHere : reaches_in_order config t t
| OrderStep t' l t'' :
    reaches_in_order config t t' -> legal config l t' -> stays_in_order t' l = true ->
    tunnel_step l t' = Some t'' -> reaches_in_order config t t''.

(** Across all generations of the client, as long as the disk writes and each
    generation's forwarder has put down its status before the manager takes the
    last one, the counters that the phone shows and those it keeps never go
    back, from one step of any task to the next. *)
Theorem counters_never_decrease `{!CounterJsonLaws} config r f t t' l t'' :
  spawn_reverse_tunnel r f = Ok t -> reaches_in_order config t t' ->
  legal config l t' -> stays_in_order t' l = true -> tunnel_step l t' = Some t'' ->
  advances t' t''.
Proof.
  intros Hs Hr Hl Hstay Hstep.
  assert (tunnel_ok (store t) t' /\ in_order t') as [Hok Hord].
  { clear l t'' Hl Hstay Hstep. pose proof (spawned_ok _ _ _ Hs) as Hok.
    induction Hr as [|t' l t'' Hr [IH IH'] Hl Hstay Hstep].
    - split; [done|]. revert Hs. unfold spawn_reverse_tunnel. case_match; [|done].
      intros [= <-]. unfold in_order. cbn. reflexivity.
    - split; [by eapply tunnel_step_ok|]. by eapply step_in_order. }
  by eapply step_in_order.
Qed.
End Manager.
