(* ===== verification/HostControl.v ===== *)
(** * A phone and its control plane

    [poll_and_ack_command] of [services/host-daemon/src/control_plane.rs] against
    the transactions of the control plane: how a command gets from the queue to
    the phone's state; and the loop of rounds over the ticks of its timer. *)

From stdpp Require Import base gmap strings list fin_maps.
From Stdlib Require Import ZArith Lia String.
From S2P Require Import Prelude Text Foundation Commands Devices CommandState CommandInvariant.
From S2P Require Import ControlPlane ControlPlaneInvariant ControlPlaneTheorems TunnelModel.
From S2P Require Import HostDaemon HostTheorems.
Local Open Scope string_scope.
Local Open Scope Z_scope.

Section Poll.
Context `{Blake3} {DB : Type} `{!SnapshotStore DB}.

(** A poll that reaches the control plane both times; [acknowledged] is false
    when the acknowledgement is lost on its way. *)
Definition poll_round (acknowledged : bool) (now : string) (job_id : Uuid) (iteration : list Uuid)
    (a : AppState DB) (r : RuntimeState.t) : AppState DB * RuntimeState.t :=
  let device_id := HealthRecord.node_id (RuntimeState.health r) in
  match poll_command_query a device_id with
  | Ok (Pending command) =>
      let '(result, r') := apply_command job_id iteration r command in
      if acknowledged then
        ((acknowledge_command_transaction a now
            (mk_acknowledge device_id (DeviceCommand.command_id command) (ack_of result))).2, r')
      else (a, r')
  | _ => (a, r)
  end.

(** What a round may do to the device's queue and to the phone. *)
Inductive delivery (a a' : AppState DB) (r r' : RuntimeState.t) (job_id : Uuid)
    (iteration : list Uuid) : list DeviceCommand.t -> list DeviceCommand.t -> Prop :=
| NothingQueued : a' = a -> r' = r -> delivery a a' r r' job_id iteration [] []
| Applied command rest :
    apply_command job_id iteration r command = (Ok tt, r') ->
    delivery a a' r r' job_id iteration (command :: rest) rest
| AppliedAgainLater command rest :
    apply_command job_id iteration r command = (Ok tt, r') -> a' = a ->
    delivery a a' r r' job_id iteration (command :: rest) (command :: rest)
| Refused command rest message :
    apply_command job_id iteration r command = (Err message, r) -> a' = a -> r' = r ->
    rotation_running r = true ->
    delivery a a' r r' job_id iteration (command :: rest) (command :: rest).

Lemma apply_command_Err job_id iteration r command message r' :
  apply_command job_id iteration r command = (Err message, r') ->
  r' = r /\ rotation_running r = true.
Proof.
  unfold apply_command, start_rotation_for_runtime.
  destruct (DeviceCommand.recovery_intent command); try done.
  destruct (rotation_running r); [|done]. by intros [= _ <-].
Qed.

Lemma ack_front (a : AppState DB) now device command rest :
  state_ok (memory a) -> queue_of (commands (memory a)) device = command :: rest ->
  let a' := (acknowledge_command_transaction a now
    (mk_acknowledge device (DeviceCommand.command_id command) (mk_ack true None))).2 in
  a' = a \/ queue_of (commands (memory a')) device = rest.
Proof.
  intros Ha Hq. unfold acknowledge_command_transaction. cbn [ack_request ack_ok negb ack_device_id].
  pose proof Hq as Hlookup. unfold queue_of in Hlookup.
  destruct (queues (commands (memory a)) !! device) as [q|] eqn:Hd; [|done]. simpl in Hlookup. subst q.
  cbn [ack_command_id take_command]. rewrite bool_decide_true by done.
  destruct (core_queue _ (wf_core _ (ok_commands _ Ha)) device _ Hd) as (_ & _ & Hdev).
  apply Forall_cons in Hdev as [Hc _]. rewrite bool_decide_true by done. cbn [negb].
  unfold commit. destruct (compare_and_swap _ _ _); [|by left]. right. cbn.
  unfold queue_of. cbn. destruct rest; [by rewrite lookup_delete_eq|by rewrite lookup_insert_eq].
Qed.

Lemma poll_round_delivery acknowledged now job_id iteration (a : AppState DB) r :
  state_ok (memory a) ->
  let device := HealthRecord.node_id (RuntimeState.health r) in
  let '(a', r') := poll_round acknowledged now job_id iteration a r in
  delivery a a' r r' job_id iteration (queue_of (commands (memory a)) device)
    (queue_of (commands (memory a')) device).
Proof.
  intros Ha device. unfold poll_round. fold device.
  assert (poll_command_query a device
    = Ok (match queue_of (commands (memory a)) device with c :: _ => Pending c | [] => NoCommand end))
    as -> by (apply poll_front, Ha).
  destruct (queue_of (commands (memory a)) device) as [|command rest] eqn:Hq;
    [rewrite Hq; by apply NothingQueued|].
  destruct (apply_command job_id iteration r command) as [[[]|message] r'] eqn:Happly.
  - destruct acknowledged; [|rewrite Hq; by apply AppliedAgainLater].
    destruct (ack_front a now device command rest Ha Hq) as [Heq|Hrest]; unfold ack_of;
      cbn [is_ok] in *.
    + rewrite Heq, Hq. by apply AppliedAgainLater.
    + rewrite Hrest. by apply Applied.
  - destruct (apply_command_Err _ _ _ _ _ _ Happly) as [-> Hrun].
    destruct acknowledged; cbn; rewrite Hq; by eapply Refused.
Qed.

(** C24: Commands are delivered at least once and in order.  A poll takes the
    oldest command of the phone; the command leaves the queue only in a round in
    which the phone applied it, it stays for the next round when the phone refused
    it, which it does only while another rotation runs, and also when its
    acknowledgement was lost or could not be stored. *)
Theorem commands_delivered_at_least_once acknowledged now job_id iteration
    (a : AppState DB) r :
  state_ok (memory a) ->
  let device := HealthRecord.node_id (RuntimeState.health r) in
  let '(a', r') := poll_round acknowledged now job_id iteration a r in
  delivery a a' r r' job_id iteration (queue_of (commands (memory a)) device)
    (queue_of (commands (memory a')) device).
Proof.
  intros Ha. by apply poll_round_delivery.
Qed.

(** ** The loop *)

(** What the loop of [run_control_plane_sync] meets on a tick: whether the request
    reaches the control plane and, for a poll, whether the acknowledgement does,
    what a rotation would draw, and what the control plane and the daemon do
    before the next tick. *)
Inductive SyncTick :=
| HeartbeatTick (reached : bool) (now : string)
| PollTick (reached acknowledged : bool) (now : string) (job_id : Uuid) (iteration : list Uuid).

(** One tick: the state of the control plane, that of the phone, and the commands
    the phone has applied so far. *)
Definition sync_tick (st : AppState DB * RuntimeState.t * list DeviceCommand.t) (tick : SyncTick)
    : AppState DB * RuntimeState.t * list DeviceCommand.t :=
  let '(a, r, applied) := st in
  match tick with
  | HeartbeatTick reached now =>
      (if reached then (heartbeat_transaction a now (heartbeat_body r)).2 else a, r, applied)
  | PollTick reached acknowledged now job_id iteration =>
      if reached then
        let '(a', r') := poll_round acknowledged now job_id iteration a r in
        (a', r',
         match poll_command_query a (HealthRecord.node_id (RuntimeState.health r)) with
         | Ok (Pending command) =>
             if is_ok (apply_command job_id iteration r command).1 then (applied ++ [command])%list
             else applied
         | _ => applied
         end)
      else (a, r, applied)
  end.

(** [run_control_plane_sync]: without a client nothing happens; the registration is
    tried once, and the loop never ends by itself. *)
Definition run_control_plane_sync (client : bool) (registers : bool) (now : string)
    (ticks : list SyncTick) (a : AppState DB) (r : RuntimeState.t)
    : AppState DB * RuntimeState.t * list DeviceCommand.t :=
  if negb client then (a, r, [])
  else
    let a := if registers then (register_device_transaction a now (register_body r)).2 else a in
    foldl sync_tick (a, r, []) ticks.

Lemma commit_queue {O E} (a : AppState DB) candidate (e : E) (o : O) :
  commands candidate = commands (memory a) ->
  commands (memory (commit a candidate e o).2) = commands (memory a).
Proof. intros Hc. unfold commit. by destruct (compare_and_swap _ _ _). Qed.

Lemma heartbeat_queue (a : AppState DB) now request :
  commands (memory (heartbeat_transaction a now request).2) = commands (memory a).
Proof.
  unfold heartbeat_transaction. repeat case_match; try done; by apply commit_queue.
Qed.

Lemma register_queue (a : AppState DB) now request :
  commands (memory (register_device_transaction a now request).2) = commands (memory a).
Proof.
  unfold register_device_transaction. repeat case_match; try done; by apply commit_queue.
Qed.

Lemma apply_command_node job_id iteration r command :
  HealthRecord.node_id (RuntimeState.health (apply_command job_id iteration r command).2)
  = HealthRecord.node_id (RuntimeState.health r).
Proof.
  unfold apply_command, start_rotation_for_runtime.
  destruct (DeviceCommand.recovery_intent command), (DeviceCommand.desired_state command); try done;
    by destruct (rotation_running r).
Qed.

(** Nothing leaves the queue and nothing is logged. *)
Lemma nothing_moves (q applied : list DeviceCommand.t) :
  exists done_ more, q = (done_ ++ q)%list /\ applied = (applied ++ more)%list /\ done_ `sublist_of` more.
Proof. exists [], []. by rewrite app_nil_r. Qed.

(** A tick moves at most the oldest command from the queue to the log. *)
Lemma sync_tick_moves (a : AppState DB) r applied tick a' r' applied' :
  state_ok (memory a) -> sync_tick (a, r, applied) tick = (a', r', applied') ->
  let node r := HealthRecord.node_id (RuntimeState.health r) in
  state_ok (memory a') /\ node r' = node r
  /\ exists done_ more, queue_of (commands (memory a)) (node r)
                     = (done_ ++ queue_of (commands (memory a')) (node r))%list
       /\ applied' = (applied ++ more)%list /\ done_ `sublist_of` more.
Proof.
  intros Ha. cbn zeta. destruct tick as [reached now|reached acknowledged now job_id iteration]; cbn.
  - destruct reached; intros [= <- <- <-].
    + split; [by apply heartbeat_ok|]. split; [done|]. rewrite heartbeat_queue. apply nothing_moves.
    + split; [done|]. split; [done|]. apply nothing_moves.
  - destruct reached; [|intros [= <- <- <-]; split; [done|]; split; [done|]; apply nothing_moves].
    pose proof (poll_round_delivery acknowledged now job_id iteration a r Ha) as Hd. cbn zeta in Hd.
    assert (state_ok (memory (poll_round acknowledged now job_id iteration a r).1)
      /\ HealthRecord.node_id (RuntimeState.health (poll_round acknowledged now job_id iteration a r).2)
         = HealthRecord.node_id (RuntimeState.health r)) as [Hok Hnode].
    { unfold poll_round. destruct (poll_command_query _ _) as [[command|]|]; try done.
      pose proof (apply_command_node job_id iteration r command) as Hn.
      destruct (apply_command _ _ _ _) as [out r1]. destruct acknowledged; [|done].
      split; [by apply ack_ok_state|done]. }
    destruct (poll_round acknowledged now job_id iteration a r) as [a1 r1]. cbn [fst snd] in *.
    intros [= <- <- <-]. split; [done|]. split; [done|].
    assert (poll_command_query a (HealthRecord.node_id (RuntimeState.health r))
      = Ok (match queue_of (commands (memory a)) (HealthRecord.node_id (RuntimeState.health r)) with
            | c :: _ => Pending c | [] => NoCommand end)) as -> by (apply poll_front, Ha).
    destruct Hd as [-> ->|command rest Happ|command rest Happ ->|command rest message Happ -> -> _].
    + apply nothing_moves.
    + rewrite Happ. by exists [command], [command].
    + rewrite Happ. exists [], [command]. split; [done|]. split; [done|apply sublist_nil_l].
    + rewrite Happ. apply nothing_moves.
Qed.

(** Over any run of the loop, failed requests, lost acknowledgements and refused
    commands included, no command of the phone is skipped: those that left its
    queue are its oldest, and the phone applied each of them, in that order,
    while the loop ran. *)
Theorem sync_loop_skips_nothing client registers now ticks (a : AppState DB) r a' r' applied :
  state_ok (memory a) ->
  run_control_plane_sync client registers now ticks a r = (a', r', applied) ->
  let device := HealthRecord.node_id (RuntimeState.health r) in
  exists done_, queue_of (commands (memory a)) device
                = (done_ ++ queue_of (commands (memory a')) device)%list
    /\ done_ `sublist_of` applied.
Proof.
  intros Ha. unfold run_control_plane_sync. destruct client; cbn [negb];
    [|intros [= <- <- <-]; by exists []].
  set (a0 := if registers then _ else a).
  assert (state_ok (memory a0) /\ commands (memory a0) = commands (memory a)) as [H0 Hq].
  { subst a0. destruct registers; [|done]. split; [by apply register_ok|apply register_queue]. }
  rewrite <- Hq. clear Ha Hq. clearbody a0.
  assert (forall ticks a r log a' r' applied, state_ok (memory a) ->
    foldl sync_tick (a, r, log) ticks = (a', r', applied) ->
    exists done_ more, queue_of (commands (memory a)) (HealthRecord.node_id (RuntimeState.health r))
        = (done_ ++ queue_of (commands (memory a')) (HealthRecord.node_id (RuntimeState.health r)))%list
      /\ applied = (log ++ more)%list /\ done_ `sublist_of` more) as Hall.
  { clear. induction ticks as [|tick ticks IH]; intros a r log a' r' applied Ha; cbn [foldl].
    - intros [= <- <- <-]. apply nothing_moves.
    - destruct (sync_tick (a, r, log) tick) as [[a1 r1] log1] eqn:Ht.
      destruct (sync_tick_moves _ _ _ _ _ _ _ Ha Ht) as (Ha1 & Hn & d1 & m1 & Hq1 & -> & Hs1).
      intros Hf. destruct (IH _ _ _ _ _ _ Ha1 Hf) as (d2 & m2 & Hq2 & -> & Hs2). rewrite Hn in Hq2.
      exists (d1 ++ d2)%list, (m1 ++ m2)%list. rewrite Hq1, Hq2, !app_assoc.
      split_and!; [done..|]. by apply sublist_app. }
  intros Hf. destruct (Hall _ _ _ _ _ _ _ H0 Hf) as (d & m & Hq & -> & Hs). eauto.
Qed.
End Poll.
