(* ===== verification/HostConfig.v ===== *)
(** * Configuration of the phone host daemon

    [services/host-daemon/src/config.rs]: the configuration file, its checks and
    the state and settings the daemon starts from.  Reading the file, the
    environment, [getprop], JSON, URLs and base64 are arguments or classes; the
    errors are the texts of the source. *)

From stdpp Require Import base gmap strings list fin_maps.
From Stdlib Require Import ZArith Lia String.
From S2P Require Import Prelude Text Foundation RuntimeProjection TunnelModel NetText Commands Devices.
From S2P Require Import ConfigJson HostDaemon HostTheorems.
Local Open Scope string_scope.
Local Open Scope Z_scope.

Definition PRIMARY_OWNER : string := "first_party_reverse_tunnel".
Definition ROLLBACK_OWNER : string := "stock_wireguard_bridge".
Definition APP_OWNED_OWNER : string := "first_party_vpn_service".
Definition ANDROID_EGRESS_OWNER : string := "first_party_android_egress".
Definition MAX_SECRET_LENGTH : Z := 4096.
Definition MAX_URLS : nat := 8.
Definition DEVICE_ID : string := "b4a6b2f4-5f6f-4fd1-baa4-b7d241b49a06".
Definition NODE_NAME : string := "galaxy-a02-gcp-relay".

(** ** The file *)

Record FileOperatorProfiles := mk_profiles {
  default_profile : option string;
  by_plmn : gmap string string;
}.

(** Fields that nothing reads ([binary], [args], [working_dir], [env],
    [up_command], [down_command], [drain_delay_secs], [enabled]) are left out. *)
Record FileProxyConfig := mk_file_proxy {
  file_listen_address : option string;
  file_username : option string;
  file_password : option string;
}.

Record FileWireguardConfig := mk_file_wireguard {
  file_enabled : option bool;
  file_owner : option string;
}.

Record FileReverseTunnelConfig := mk_file_tunnel {
  ft_enabled : option bool;
  ft_transport : option string;
  ft_server_addr : option string;
  ft_tcp_fallback_addr : option string;
  ft_local_proxy_addr : option string;
  ft_local_socks5_addr : option string;
  ft_local_http_addr : option string;
  ft_quic_enabled : option bool;
  ft_transport_socks5_addr : option string;
  ft_server_name : option string;
  ft_server_cert_der_b64 : option string;
  ft_auth_token : option string;
  ft_connect_timeout_ms : option Z;
  ft_heartbeat_interval_ms : option Z;
  ft_reconnect_floor_ms : option Z;
  ft_reconnect_ceiling_ms : option Z;
  ft_counter_state_path : option string;
}.

Record FileControlPlaneConfig := mk_file_control {
  fc_base_url : option string;
  fc_device_token : option string;
  fc_ui_token : option string;
  fc_server_name : option string;
  fc_server_addr : option SocketAddr;
  fc_server_cert_der_b64 : option string;
  fc_heartbeat_interval_secs : option Z;
  fc_poll_interval_secs : option Z;
}.

(** The command of each strategy that has an entry. *)
Record FileRotationConfig := mk_file_rotation {
  fr_data_reconnect : option (option string);
  fr_airplane_bounce : option (option string);
  fr_network_mode_bounce : option (option string);
  fr_ril_bounce : option (option string);
}.

Record FileConfig := mk_file {
  f_node_id : option string;
  f_node_name : option string;
  f_listen : option string;
  f_admin_token : option string;
  f_ui_control_token : option string;
  f_observer_urls : option (list string);
  f_operator_profiles : option FileOperatorProfiles;
  f_proxy : option FileProxyConfig;
  f_wireguard : option FileWireguardConfig;
  f_reverse_tunnel : option FileReverseTunnelConfig;
  f_control_plane : option FileControlPlaneConfig;
  f_rotation : option FileRotationConfig;
}.

Record Cli := mk_cli {
  cli_listen : option string;
  cli_admin_token : option string;
  cli_config : option string;
}.

(** ** The loaded configuration *)

Record ControlPlaneSyncConfig := mk_sync {
  base_url : string;
  sync_device_token : string;
  sync_ui_token : string;
  sync_server_name : option string;
  sync_server_addr : option SocketAddr;
  sync_server_cert_der : option (list Z);
  heartbeat_interval_secs : Z;
  poll_interval_secs : Z;
}.

Record LoadedConfig `{Blake3} := mk_loaded {
  listen : string;
  loaded_admin_token : string;
  ui_control_token : option string;
  control_plane_sync : option ControlPlaneSyncConfig;
  reverse_tunnel : option ReverseTunnelClientConfig;
  reverse_tunnel_counter_state_path : option string;
  runtime_state : RuntimeState.t;
  probe : ProbeConfig;
}.
Arguments mk_loaded {_}.

(** What the sources use of the [url] and [base64] crates and of [serde_json]. *)
Record Url := mk_url {
  url_scheme : string;
  url_host : option string;
  url_username : string;
  url_password : option string;
}.
Class UrlParse := parse_url : string -> option Url.
Class DerBase64 := base64_decode : string -> option (list Z).
Class FileConfigJson := file_config_from_json : list Z -> option FileConfig.

Definition decode_der_base64 `{DerBase64} (raw : string) : option (list Z) :=
  base64_decode (trim raw).

(** ** Checks *)

Section Checks.
Local Open Scope rust_scope.

Definition validate_secret (field value : string) : result unit string :=
  if (len value <? 16) || (MAX_SECRET_LENGTH <? len value) || any_char is_control value
  then Err (field ++ " is invalid") else Ok tt.

Definition identifier_char (c : Z) : bool :=
  is_ascii_alphanumeric c || (c =? 45) || (c =? 95) || (c =? 46) || (c =? 58).

Definition validate_identifier (field value : string) (maximum : Z) : result unit string :=
  if bool_decide (value = "") || (maximum <? len value) || negb (all_chars identifier_char value)
  then Err (field ++ " is invalid") else Ok tt.

Definition validate_bounded_text (field value : string) (maximum : Z) : result unit string :=
  if bool_decide (value = "") || (maximum <? len value) || any_char is_control value
  then Err (field ++ " is invalid") else Ok tt.

Definition bounded_interval (field : string) (value minimum maximum : Z) : result Z string :=
  if negb ((minimum <=? value) && (value <=? maximum))
  then Err (field ++ " is outside the supported range") else Ok value.

(** A Unix path has no prefix component; an empty one has no component at all. *)
Definition validate_state_path (path : string) : result unit string :=
  if bool_decide (path = "") || existsb (fun c => bool_decide (c = "..")) (split 47 path)
  then Err "reverse-tunnel counter state path is invalid" else Ok tt.

Definition validate_owner_flags (owner : string) (wireguard_enabled : bool) : result unit string :=
  if bool_decide (owner = PRIMARY_OWNER) then
    if wireguard_enabled then Err "native reverse-tunnel owner must disable WireGuard" else Ok tt
  else if bool_decide (owner = ANDROID_EGRESS_OWNER) then
    if wireguard_enabled then Err "Android egress owner must disable WireGuard" else Ok tt
  else if bool_decide (owner = ROLLBACK_OWNER) then
    if wireguard_enabled then Ok tt else Err "stock rollback owner must enable WireGuard"
  else if bool_decide (owner = APP_OWNED_OWNER) then
    if wireguard_enabled
    then Err ("first_party_vpn_service is disabled after physical validation on July 26, 2026: "
           ++ "Android VpnService did not expose a routable 10.66.66.2 listener for the rooted "
           ++ "proxy runtime")
    else Err "first-party VPN owner must enable WireGuard"
  else Err "unsupported tunnel owner".

Definition observer_url `{UrlParse} (raw : string) : result unit string :=
  let? url := ok_or (parse_url raw) "observer URL is invalid" in
  if negb (bool_decide (url_scheme url = "https")) || negb (is_some (url_host url))
     || negb (bool_decide (url_username url = "")) || is_some (url_password url)
  then Err "observer URLs must be credential-free absolute HTTPS URLs" else Ok tt.

Fixpoint each_observer_url `{UrlParse} (urls : list string) : result unit string :=
  match urls with
  | [] => Ok tt
  | raw :: rest => let? _ := observer_url raw in each_observer_url rest
  end.

Definition validate_observer_urls `{UrlParse} (urls : list string) : result unit string :=
  if bool_decide (urls = []) || (MAX_URLS <? List.length urls)%nat
  then Err "observer URL inventory is invalid" else each_observer_url urls.

(** A rotation command of the file, checked. *)
Definition file_rotation_command (file : FileConfig)
    (selector : FileRotationConfig -> option (option string)) : result (option string) string :=
  let command := rotation ← f_rotation file; strategy ← selector rotation; strategy in
  match command with
  | Some value => let? _ := validate_bounded_text "rotation command" value 2048 in Ok command
  | None => Ok None
  end.

(** ** Parts of the configuration *)

(** [getprop] is the output of [getprop gsm.operator.numeric], if it ran. *)
Definition active_operator_profile (getprop : option string) (profiles : option FileOperatorProfiles)
    : string :=
  let fallback := default "default" (profiles ≫= default_profile) in
  match profiles, getprop with
  | Some profiles, Some values =>
      default fallback (head (omap (fun plmn => by_plmn profiles !! plmn) (trim <$> split 44 values)))
  | _, _ => fallback
  end.

Definition control_plane_config `{UrlParse, DerBase64} (env : string -> option string)
    (file : FileConfig) : result (option ControlPlaneSyncConfig) string :=
  match f_control_plane file with
  | None => Ok None
  | Some config =>
      let? base_url := ok_or (match fc_base_url config with
                              | Some url => Some url
                              | None => env "HOST_DAEMON_CONTROL_PLANE_URL"
                              end) "control_plane.base_url is required" in
      let? parsed := ok_or (parse_url base_url) "control_plane.base_url is invalid" in
      if negb (bool_decide (url_scheme parsed = "https")) || negb (is_some (url_host parsed))
      then Err "control_plane.base_url must be an absolute HTTPS URL"
      else
      let? device_token := ok_or (match fc_device_token config with
                                  | Some token => Some token
                                  | None => env "HOST_DAEMON_DEVICE_TOKEN"
                                  end) "control_plane.device_token is required" in
      let? _ := validate_secret "control_plane.device_token" device_token in
      let? ui_token := ok_or (fc_ui_token config) "control_plane.ui_token is required" in
      let? _ := validate_secret "control_plane.ui_token" ui_token in
      let? server_name := ok_or (fc_server_name config) "control_plane.server_name is required" in
      let? _ := validate_identifier "control_plane.server_name" server_name 253 in
      let? server_addr := ok_or (fc_server_addr config) "control_plane.server_addr is required" in
      let? cert := ok_or (fc_server_cert_der_b64 config)
                     "control_plane.server_cert_der_b64 is required" in
      let? server_cert_der := ok_or (decode_der_base64 cert) "failed to decode base64 DER" in
      let? heartbeat := bounded_interval "control_plane.heartbeat_interval_secs"
                          (default 2 (fc_heartbeat_interval_secs config)) 1 300 in
      let? poll := bounded_interval "control_plane.poll_interval_secs"
                     (default 5 (fc_poll_interval_secs config)) 1 300 in
      Ok (Some (mk_sync base_url device_token ui_token (Some server_name) (Some server_addr)
                  (Some server_cert_der) heartbeat poll))
  end.

Definition required_addr (name : string) (raw : option string) : result SocketAddr string :=
  let? raw := ok_or raw ("reverse_tunnel." ++ name ++ " is required") in
  ok_or (parse_socket_addr raw) ("reverse_tunnel." ++ name ++ " is invalid").

Definition parse_optional_loopback (name : string) (value : option string)
    : result (option SocketAddr) string :=
  match value with
  | None => Ok None
  | Some value =>
      let? address := ok_or (parse_socket_addr value) ("reverse_tunnel." ++ name ++ " is invalid") in
      if negb (is_loopback (addr_ip address))
      then Err ("reverse_tunnel." ++ name ++ " must be loopback") else Ok (Some address)
  end.

(** [Duration::from_millis], in nanoseconds. *)
Definition from_millis (ms : Z) : Z := ms * 1000000.

Definition reverse_tunnel_config `{DerBase64} (file : FileConfig)
    (node_id tunnel_owner proxy_username proxy_password : string)
    : result (option ReverseTunnelClientConfig) string :=
  let config := f_reverse_tunnel file in
  if bool_decide (tunnel_owner = ROLLBACK_OWNER) || bool_decide (tunnel_owner = APP_OWNED_OWNER) then
    if is_some_and config (fun value => default false (ft_enabled value))
    then Err "WireGuard tunnel owners must not enable the reverse tunnel" else Ok None
  else
    let? config := ok_or config "native owner requires reverse_tunnel configuration" in
    if negb (bool_decide (ft_enabled config = Some true))
    then Err "native owner requires reverse_tunnel.enabled=true"
    else if negb (bool_decide (default "hybrid" (ft_transport config) = "hybrid"))
    then Err "production reverse tunnel transport must be hybrid; plaintext tcp is forbidden"
    else
    let? server_addr := required_addr "server_addr" (ft_server_addr config) in
    let? tcp_fallback_addr := required_addr "tcp_fallback_addr" (ft_tcp_fallback_addr config) in
    let? local_proxy_addr := required_addr "local_proxy_addr" (ft_local_proxy_addr config) in
    if negb (is_loopback (addr_ip local_proxy_addr))
    then Err "reverse_tunnel.local_proxy_addr must be loopback"
    else
    let? local_socks5 := parse_optional_loopback "local_socks5_addr" (ft_local_socks5_addr config) in
    let? local_http := parse_optional_loopback "local_http_addr" (ft_local_http_addr config) in
    let? transport_socks5 := parse_optional_loopback "transport_socks5_addr"
                               (ft_transport_socks5_addr config) in
    let? auth_token := ok_or (ft_auth_token config) "reverse_tunnel.auth_token is required" in
    let? _ := validate_secret "reverse_tunnel.auth_token" auth_token in
    let? server_name := ok_or (ft_server_name config) "reverse_tunnel.server_name is required" in
    let? _ := validate_identifier "reverse_tunnel.server_name" server_name 253 in
    let? cert := ok_or (ft_server_cert_der_b64 config)
                   "reverse_tunnel.server_cert_der_b64 is required" in
    let? server_cert_der := ok_or (decode_der_base64 cert) "failed to decode base64 DER" in
    let? connect := bounded_interval "reverse_tunnel.connect_timeout_ms"
                      (default 2000 (ft_connect_timeout_ms config)) 100 60000 in
    let? heartbeat := bounded_interval "reverse_tunnel.heartbeat_interval_ms"
                        (default 2000 (ft_heartbeat_interval_ms config)) 100 60000 in
    let? floor := bounded_interval "reverse_tunnel.reconnect_floor_ms"
                    (default 1000 (ft_reconnect_floor_ms config)) 100 60000 in
    let? ceiling := bounded_interval "reverse_tunnel.reconnect_ceiling_ms"
                      (default 30000 (ft_reconnect_ceiling_ms config)) floor 300000 in
    Ok (Some {|
      cfg_node_id := node_id;
      cfg_server_addr := server_addr;
      cfg_tcp_fallback_addr := Some tcp_fallback_addr;
      cfg_local_proxy_addr := local_proxy_addr;
      cfg_local_socks5_addr := local_socks5;
      cfg_local_http_addr := local_http;
      cfg_quic_enabled := default true (ft_quic_enabled config);
      cfg_transport_socks5 :=
        (fun addr => mk_transport_socks5 addr proxy_username proxy_password) <$> transport_socks5;
      cfg_auth_token := auth_token;
      cfg_transport := TransportHybrid server_name server_cert_der None;
      cfg_connect_timeout := from_millis connect;
      cfg_heartbeat_interval := from_millis heartbeat;
      cfg_reconnect_floor := from_millis floor;
      cfg_reconnect_ceiling := from_millis ceiling |}).
End Checks.

(** ** Loading *)

Section Load.
Context `{Blake3, ConfigJsonText, UrlParse, DerBase64, FileConfigJson}.
Local Open Scope rust_scope.

(** [read] is the content of a path, if it can be read. *)
Definition load_file_config (read : string -> option (list Z)) (path : option string)
    : result (option FileConfig * option Fingerprint) string :=
  match path with
  | None => Ok (None, None)
  | Some path =>
      let? body := ok_or (read path) "failed to read configuration" in
      let size := Z.of_nat (List.length body) in
      if (size =? 0) || (1048576 <? size) then Err "host-daemon configuration size is invalid"
      else
        let? fingerprint := config_source_fingerprint body in
        let? config := ok_or (file_config_from_json body) "invalid configuration" in
        Ok (Some config, Some fingerprint)
  end.

(** The system the daemon starts on. *)
Record Host := mk_host {
  read_file : string -> option (list Z);
  env_var : string -> option string;
  getprop : option string;
  executable : option (list Z);
}.

Definition first_some {A} (x y : option A) : option A := match x with Some _ => x | None => y end.

Definition initial_health (node_id node_name profile tunnel_owner : string)
    (config_fingerprint : option Fingerprint) (binary : Fingerprint) : HealthRecord.t :=
  {| HealthRecord.node_id := node_id;
     HealthRecord.node_name := node_name;
     HealthRecord.config_fingerprint := Current <$> config_fingerprint;
     HealthRecord.binary_fingerprint := Current binary;
     HealthRecord.readiness_state := RuntimeReadiness.to_string RuntimeReadiness.Booting;
     HealthRecord.serving := false;
     HealthRecord.proxy_status := "starting";
     HealthRecord.last_public_ip := None;
     HealthRecord.active_operator_profile := Some profile;
     HealthRecord.active_operator_plmn := None;
     HealthRecord.last_proxy_error := None;
     HealthRecord.serving_failure_reason := None;
     HealthRecord.degradation_reason_code := None;
     HealthRecord.cellular_route_ready := None;
     HealthRecord.proxy_bind_ready := None;
     HealthRecord.local_serving_ready := None;
     HealthRecord.tun0_present := None;
     HealthRecord.wg_handshake_recent := None;
     HealthRecord.reverse_tunnel_connected := None;
     HealthRecord.reverse_tunnel_last_error := None;
     HealthRecord.reverse_tunnel_active_transport := None;
     HealthRecord.reverse_tunnel_freshness := None;
     HealthRecord.reverse_tunnel_failover_reason := None;
     HealthRecord.tunnel_owner := Some tunnel_owner |}.

(** The path of the counters of an enabled tunnel. *)
Definition counter_state_path (host : Host) (file : FileConfig) : string :=
  default "state/reverse-tunnel-counters-v1.json"
    (first_some (f_reverse_tunnel file ≫= ft_counter_state_path)
       (env_var host "HOST_DAEMON_REVERSE_TUNNEL_COUNTER_STATE_PATH")).

Definition load_runtime_config (host : Host) (cli : Cli) : result LoadedConfig string :=
  let? loaded := load_file_config (read_file host) (cli_config cli) in
  let? file := ok_or loaded.1 "host-daemon requires an explicit configuration file" in
  let listen := default "127.0.0.1:8088" (first_some (cli_listen cli) (f_listen file)) in
  let? listen_addr := ok_or (parse_socket_addr listen) "host-daemon listen address is invalid" in
  if negb (is_loopback (addr_ip listen_addr))
  then Err "host-daemon API must bind to a loopback address"
  else
  let? admin_token := ok_or (first_some (cli_admin_token cli) (f_admin_token file))
                        "admin_token is required" in
  let? _ := validate_secret "admin_token" admin_token in
  let? _ := match f_ui_control_token file with
            | Some token => validate_secret "ui_control_token" token
            | None => Ok tt
            end in
  let node_id := default DEVICE_ID
                   (first_some (f_node_id file) (env_var host "HOST_DAEMON_NODE_ID")) in
  let? _ := validate_identifier "node_id" node_id 64 in
  let node_name := default NODE_NAME
                     (first_some (f_node_name file) (env_var host "HOST_DAEMON_NODE_NAME")) in
  let? _ := validate_identifier "node_name" node_name 128 in
  let profile := active_operator_profile (getprop host) (f_operator_profiles file) in
  let? _ := validate_identifier "operator profile" profile 64 in
  let? wireguard := ok_or (f_wireguard file) "wireguard owner configuration is required" in
  let? wireguard_enabled := ok_or (file_enabled wireguard) "wireguard.enabled is required" in
  let? tunnel_owner := ok_or (file_owner wireguard) "wireguard.owner is required" in
  let? _ := validate_owner_flags tunnel_owner wireguard_enabled in
  let? proxy := ok_or (f_proxy file) "proxy configuration is required" in
  let? proxy_listen_address := ok_or (file_listen_address proxy)
                                 "proxy.listen_address is required" in
  let? proxy_addr := ok_or (parse_socket_addr proxy_listen_address)
                       "proxy.listen_address is invalid" in
  if bool_decide (tunnel_owner = PRIMARY_OWNER) && negb (is_loopback (addr_ip proxy_addr))
  then Err "native reverse-tunnel proxy must bind to loopback"
  else
  let? proxy_username := ok_or (file_username proxy) "proxy.username is required" in
  let? proxy_password := ok_or (file_password proxy) "proxy.password is required" in
  let? _ := validate_bounded_text "proxy.username" proxy_username 256 in
  let? _ := validate_secret "proxy.password" proxy_password in
  let urls := default ["https://api.ipify.org?format=json"] (f_observer_urls file) in
  let? _ := validate_observer_urls urls in
  let? data := file_rotation_command file fr_data_reconnect in
  let? airplane := file_rotation_command file fr_airplane_bounce in
  let? network := file_rotation_command file fr_network_mode_bounce in
  let? ril := file_rotation_command file fr_ril_bounce in
  let? sync := control_plane_config (env_var host) file in
  let? tunnel := reverse_tunnel_config file node_id tunnel_owner proxy_username proxy_password in
  let path := (fun _ => counter_state_path host file) <$> tunnel in
  let? _ := match path with Some path => validate_state_path path | None => Ok tt end in
  let? binary := binary_fingerprint (executable host) in
  Ok (mk_loaded listen admin_token (f_ui_control_token file) sync tunnel path
        (RuntimeState.new
           (initial_health node_id node_name profile tunnel_owner loaded.2 binary)
           wireguard_enabled (Some tunnel_owner) proxy_listen_address
           (mk_rotation_commands data airplane network ril) urls)
        (mk_probe_config urls proxy_listen_address proxy_username proxy_password wireguard_enabled
           (Some tunnel_owner))).
End Load.

(** * What an accepted configuration guarantees

    A configuration the daemon starts with exposes its API and its proxy on
    loopback only, talks to the control plane and the tunnel server over TLS with
    bounded intervals, names one of three tunnel owners with the matching
    WireGuard flag, and starts the daemon in a state the theorems about the
    daemon apply to. *)

(** Takes an accepted chain of checks apart: each check succeeded. *)
Ltac accepted H :=
  repeat match type of H with
  | result_bind _ _ = Ok _ => apply result_bind_Ok in H as (? & ? & H)
  | ok_or _ _ = Ok _ => apply ok_or_Ok in H
  | (if ?b then Err _ else _) = Ok _ => destruct b eqn:?; [discriminate H|]
  | (let _ := _ in _) = Ok _ => cbv zeta in H
  end.

(** ** Checks *)

Definition secret_ok (value : string) : Prop :=
  16 <= len value <= MAX_SECRET_LENGTH /\ any_char is_control value = false.

Lemma validate_secret_Ok field value u : validate_secret field value = Ok u -> secret_ok value.
Proof.
  unfold validate_secret, secret_ok. intros H. accepted H. bools. split; [lia|done].
Qed.

Lemma bounded_interval_Ok field value lo hi x :
  bounded_interval field value lo hi = Ok x -> x = value /\ lo <= x <= hi.
Proof. unfold bounded_interval. intros H. accepted H. injection H as <-. bools. lia. Qed.

(** The owners a phone may run with, and the WireGuard flag of each. *)
Definition owner_ok (owner : string) (wireguard : bool) : Prop :=
  (owner = PRIMARY_OWNER \/ owner = ANDROID_EGRESS_OWNER) /\ wireguard = false
  \/ owner = ROLLBACK_OWNER /\ wireguard = true.

Lemma validate_owner_flags_Ok owner wireguard :
  validate_owner_flags owner wireguard = Ok tt <-> owner_ok owner wireguard.
Proof.
  unfold validate_owner_flags, owner_ok.
  assert (PRIMARY_OWNER <> ROLLBACK_OWNER /\ ANDROID_EGRESS_OWNER <> ROLLBACK_OWNER) as [? ?] by done.
  repeat case_bool_decide; destruct wireguard; naive_solver congruence.
Qed.

Lemma optional_loopback_Ok name value x :
  parse_optional_loopback name value = Ok x ->
  match x with Some a => is_loopback (addr_ip a) = true | None => True end.
Proof.
  unfold parse_optional_loopback. destruct value; [|by intros [= <-]]. intros H. accepted H.
  injection H as <-. by bools.
Qed.

(** ** The tunnel client *)

Record tunnel_settings_ok (c : ReverseTunnelClientConfig) : Prop := {
  settings_encrypted : exists name cert, cfg_transport c = TransportHybrid name cert None;
  settings_fallback : is_Some (cfg_tcp_fallback_addr c);
  settings_secret : secret_ok (cfg_auth_token c);
  settings_local : forall p, is_loopback (addr_ip (local_proxy_addr_for c p)) = true;
  settings_connect : from_millis 100 <= cfg_connect_timeout c <= from_millis 60000;
  settings_heartbeat : from_millis 100 <= cfg_heartbeat_interval c <= from_millis 60000;
  settings_backoff : from_millis 100 <= cfg_reconnect_floor c <= cfg_reconnect_ceiling c;
  settings_ceiling : cfg_reconnect_ceiling c <= from_millis 300000;
}.

Lemma reverse_tunnel_config_Ok `{DerBase64} file node owner user password out :
  reverse_tunnel_config file node owner user password = Ok out ->
  match out with
  | Some c => owner <> ROLLBACK_OWNER /\ cfg_node_id c = node /\ tunnel_settings_ok c
  | None => owner = ROLLBACK_OWNER \/ owner = APP_OWNED_OWNER
  end.
Proof.
  unfold reverse_tunnel_config. cbv zeta.
  destruct (bool_decide (owner = ROLLBACK_OWNER) || bool_decide (owner = APP_OWNED_OWNER)) eqn:Ho.
  - intros Hc. accepted Hc. injection Hc as <-. apply orb_true_iff in Ho. rewrite !bool_decide_eq_true in Ho.
    done.
  - intros Hc. accepted Hc. injection Hc as <-. apply orb_false_iff in Ho as [Ho _].
    rewrite bool_decide_eq_false in Ho. split; [done|]. split; [done|].
    repeat match goal with H : bounded_interval _ _ _ _ = Ok _ |- _ =>
      apply bounded_interval_Ok in H as [-> H] end.
    repeat match goal with H : parse_optional_loopback _ _ = Ok _ |- _ =>
      apply optional_loopback_Ok in H end.
    split; cbn; unfold from_millis; eauto using validate_secret_Ok; try lia.
    intros []; cbn; bools; [done|..];
      match goal with |- context [default _ ?o] => by destruct o end.
Qed.

(** ** The control plane client *)

Definition sync_ok (c : ControlPlaneSyncConfig) : Prop :=
  secret_ok (sync_device_token c) /\ secret_ok (sync_ui_token c)
  /\ is_Some (sync_server_cert_der c) /\ is_Some (sync_server_addr c)
  /\ 1 <= heartbeat_interval_secs c <= 300 /\ 1 <= poll_interval_secs c <= 300.

Lemma control_plane_config_Ok `{UrlParse, DerBase64} env file out :
  control_plane_config env file = Ok out ->
  match out with
  | Some c => sync_ok c /\ exists url, parse_url (base_url c) = Some url /\ url_scheme url = "https"
  | None => f_control_plane file = None
  end.
Proof.
  unfold control_plane_config. destruct (f_control_plane file) as [config|]; [|by intros [= <-]].
  intros Hc. accepted Hc. injection Hc as <-.
  repeat match goal with H : bounded_interval _ _ _ _ = Ok _ |- _ =>
    apply bounded_interval_Ok in H as [-> H] end.
  repeat match goal with H : ok_or _ _ = Ok _ |- _ => apply ok_or_Ok in H end.
  bools. unfold sync_ok. cbn. split; [split_and!; eauto using validate_secret_Ok; lia|eauto].
Qed.

(** ** The whole configuration *)

Section Loaded.
Context `{Blake3, ConfigJsonText, UrlParse, DerBase64, FileConfigJson}.

Lemma observer_urls_Ok urls u :
  validate_observer_urls urls = Ok u ->
  Forall (fun raw => exists url, parse_url raw = Some url /\ url_scheme url = "https"
    /\ url_username url = "" /\ url_password url = None) urls.
Proof.
  unfold validate_observer_urls. intros Hu. accepted Hu. clear Heqb. revert u Hu.
  induction urls as [|raw urls IH]; intros u Hu; [constructor|]. cbn [each_observer_url] in Hu.
  accepted Hu. constructor; [|by eapply IH].
  match goal with Ho : observer_url raw = Ok _ |- _ => unfold observer_url in Ho; accepted Ho end.
  repeat match goal with Ho : ok_or _ _ = Ok _ |- _ => apply ok_or_Ok in Ho end.
  bools. eexists. split; [eassumption|]. split_and!; try done.
  match goal with Hp : is_some (url_password ?x) = false |- _ => by destruct (url_password x) end.
Qed.

Definition loopback_text (s : string) : Prop :=
  exists a, parse_socket_addr s = Some a /\ is_loopback (addr_ip a) = true.

(** C25: A configuration the daemon accepts keeps it closed: its API listens on
    loopback and is guarded by a secret; its owner is one of three, with the
    WireGuard flag that belongs to it; the proxy of the native owner is on
    loopback; there is a tunnel client exactly when the owner is not the
    WireGuard bridge, and it is encrypted, forwards to loopback only and waits
    between a floor and a ceiling of at most five minutes; the control plane is
    reached over HTTPS with a pinned certificate; and the observers' addresses
    carry no credentials. *)
Theorem accepted_configuration_is_closed host cli c :
  load_runtime_config host cli = Ok c ->
  loopback_text (listen c) /\ secret_ok (loaded_admin_token c)
  /\ (exists owner, RuntimeState.tunnel_owner (runtime_state c) = Some owner
        /\ probe_tunnel_owner (probe c) = Some owner
        /\ owner_ok owner (RuntimeState.wireguard_enabled (runtime_state c))
        /\ (owner = PRIMARY_OWNER ->
             loopback_text (RuntimeState.proxy_listen_address (runtime_state c)))
        /\ (reverse_tunnel c = None <-> owner = ROLLBACK_OWNER))
  /\ (forall t, reverse_tunnel c = Some t -> tunnel_settings_ok t
        /\ cfg_node_id t = HealthRecord.node_id (RuntimeState.health (runtime_state c))
        /\ is_Some (reverse_tunnel_counter_state_path c))
  /\ (forall s, control_plane_sync c = Some s -> sync_ok s
        /\ exists url, parse_url (base_url s) = Some url /\ url_scheme url = "https")
  /\ Forall (fun raw => exists url, parse_url raw = Some url /\ url_scheme url = "https"
        /\ url_username url = "" /\ url_password url = None)
       (RuntimeState.observer_urls (runtime_state c)).
Proof.
  unfold load_runtime_config. intros Hc. accepted Hc. injection Hc as <-.
  repeat match goal with Ho : ok_or _ _ = Ok _ |- _ => apply ok_or_Ok in Ho end.
  match goal with Ho : validate_owner_flags _ ?u = Ok _ |- _ => rename Ho into Howner end.
  match goal with Ho : reverse_tunnel_config _ _ _ _ _ = Ok _ |- _ =>
    apply reverse_tunnel_config_Ok in Ho as Htunnel end.
  match goal with Ho : control_plane_config _ _ = Ok _ |- _ =>
    apply control_plane_config_Ok in Ho as Hsync end.
  match goal with Ho : validate_observer_urls _ = Ok _ |- _ => apply observer_urls_Ok in Ho as Hurls end.
  match goal with Ho : validate_secret "admin_token" _ = Ok _ |- _ =>
    apply validate_secret_Ok in Ho as Hadmin end.
  match type of Howner with _ = Ok ?u => destruct u end. apply validate_owner_flags_Ok in Howner.
  cbn [listen loaded_admin_token control_plane_sync reverse_tunnel reverse_tunnel_counter_state_path
    runtime_state probe RuntimeState.new RuntimeState.tunnel_owner RuntimeState.wireguard_enabled
    RuntimeState.proxy_listen_address RuntimeState.health RuntimeState.observer_urls
    initial_health HealthRecord.node_id probe_tunnel_owner] in *.
  split; [eexists; split; [eassumption|by bools]|]. split; [done|]. split.
  { eexists. split; [reflexivity|]. split; [reflexivity|]. split; [exact Howner|]. split.
    - intros ->. eexists. split; [eassumption|].
      match goal with Hb : bool_decide (PRIMARY_OWNER = PRIMARY_OWNER) && _ = false |- _ =>
        rewrite bool_decide_true in Hb by done; by apply negb_false_iff in Hb end.
    - match type of Htunnel with match ?t with _ => _ end => destruct t as [t|] end.
      + split; [done|]. intros ->. by destruct Htunnel.
      + split; [|done]. intros _. destruct Htunnel as [|Happ]; [done|]. subst.
        by destruct Howner as [[[?|?] _]|[? _]]. }
  split; [|split; [|exact Hurls]].
  - intros t ->. destruct Htunnel as (_ & Hid & Hok). split_and!; [done|done|]. cbn. by eexists.
  - by intros c ->.
Qed.

(** The state an accepted configuration starts the daemon in is the one the
    theorems about the daemon start from. *)
Lemma loaded_state_booted host cli c :
  load_runtime_config host cli = Ok c ->
  exists h wireguard owner address commands urls,
    runtime_state c = RuntimeState.new h wireguard owner address commands urls
    /\ HealthRecord.reverse_tunnel_last_error h = None
    /\ HealthRecord.reverse_tunnel_active_transport h = None
    /\ HealthRecord.reverse_tunnel_freshness h = None.
Proof.
  unfold load_runtime_config. intros Hc. accepted Hc. injection Hc as <-.
  cbn [runtime_state]. do 6 eexists. split; [reflexivity|done].
Qed.
End Loaded.
