(* ===== verification/TunnelServer.v ===== *)
(** * The reverse tunnel server's process

    [services/reverse-tunnel-server/src]: the command line, its validation, the
    tasks the process starts and the sweep that keeps reserved streams alive;
    the accept loops of [crates/reverse-tunnel/src/tunnel.rs] that these tasks run.
    Binding a listener and decoding base64 are what the host answers. *)

From stdpp Require Import base gmap strings list fin_maps.
From Stdlib Require Import ZArith Lia String.
From S2P Require Import Prelude Text Foundation TunnelModel TunnelState TunnelRouting TunnelInvariant NetText HostConfig.
From S2P Require Import TunnelSelection TunnelWire Tunnel.
Local Open Scope string_scope.
Local Open Scope Z_scope.

Definition MAX_PUBLIC_PROXY_LISTENERS : nat := 8.
Definition RESERVED_STREAM_KEEPALIVE_INTERVAL : Z := 5 * 1000000000.

Module ServerCli.
Record t := mk {
  listen : string;
  transport : string;
  tcp_listen : string;
  public_proxy_listen : string;
  target_node_id : option string;
  auth_token : string;
  server_name : string;
  cert_der_b64 : string;
  key_der_b64 : string;
}.

(** The defaults of the command line. *)
Definition with_defaults (auth_token cert_der_b64 key_der_b64 : string) : t :=
  mk "0.0.0.0:18090" "hybrid" "127.0.0.1:18091" "127.0.0.1:14080,127.0.0.1:14081,127.0.0.1:14128"
    None auth_token "mobile-proxy-relay" cert_der_b64 key_der_b64.
End ServerCli.

Record ValidatedCli := mk_validated_cli {
  quic_listen : SocketAddr;
  tcp_listen : SocketAddr;
  public_proxy_listens : list SocketAddr;
  target_node_id : option string;
}.

#[export] Instance IpAddr_eq_dec : EqDecision IpAddr.
Proof. solve_decision. Defined.
#[export] Instance SocketAddr_eq_dec : EqDecision SocketAddr.
Proof. solve_decision. Defined.

(** [IpAddr::is_unspecified] and [IpAddr::is_multicast] *)
Definition is_unspecified (ip : IpAddr) : bool :=
  match ip with
  | V4 octets => bool_decide (octets = [0; 0; 0; 0])
  | V6 octets => bool_decide (octets = replicate 16 0)
  end.
Definition is_multicast (ip : IpAddr) : bool :=
  match ip with
  | V4 octets => is_some_and (head octets) (fun o => (224 <=? o) && (o <=? 239))
  | V6 octets => bool_decide (head octets = Some 255)
  end.

(** ** Validation *)

Section Validation.
Local Open Scope rust_scope.

Definition server_validate_secret (field value : string) : result unit string :=
  if (len value <? 16) || (4096 <? len value) || any_char is_control value
  then Err (field ++ " is invalid") else Ok tt.

Definition server_validate_identifier (field value : string) (maximum : Z) : result unit string :=
  if bool_decide (value = "") || (maximum <? len value)
     || negb (all_chars (fun c => is_ascii_alphanumeric c || (c =? 45) || (c =? 95) || (c =? 46)
                                  || (c =? 58)) value)
  then Err (field ++ " is invalid") else Ok tt.

(** The loop over the listed addresses; [parsed] is also the set [unique]. *)
Fixpoint parse_listens (values : list string) (parsed : list SocketAddr)
    : result (list SocketAddr) string :=
  match values with
  | [] => Ok parsed
  | value :: rest =>
      let? listen := ok_or (parse_socket_addr value) "public proxy listen address is invalid" in
      if negb (is_loopback (addr_ip listen))
      then Err "reverse-tunnel public proxy backends must bind to loopback"
      else if bool_decide (listen ∈ parsed)
      then Err "public proxy listener inventory contains duplicates"
      else parse_listens rest (parsed ++ [listen])%list
  end.

Definition listed_values (raw : string) : list string :=
  List.filter (fun value => negb (bool_decide (value = ""))) (trim <$> split 44 raw).

Definition parse_public_proxy_listens (raw : string) : result (list SocketAddr) string :=
  let values := listed_values raw in
  if bool_decide (values = []) || (MAX_PUBLIC_PROXY_LISTENERS <? List.length values)%nat
  then Err "public proxy listener inventory is invalid"
  else parse_listens values [].

Definition validate_cli (cli : ServerCli.t) : result ValidatedCli string :=
  if negb (bool_decide (ServerCli.transport cli = "hybrid"))
  then Err "production reverse-tunnel server transport must be hybrid"
  else
  let? _ := server_validate_secret "reverse tunnel auth token" (ServerCli.auth_token cli) in
  let? _ := server_validate_identifier "server name" (ServerCli.server_name cli) 253 in
  if (len (ServerCli.cert_der_b64 cli) <? 16) || (65536 <? len (ServerCli.cert_der_b64 cli))
  then Err "reverse tunnel certificate value is invalid"
  else if (len (ServerCli.key_der_b64 cli) <? 16) || (65536 <? len (ServerCli.key_der_b64 cli))
  then Err "reverse tunnel private key value is invalid"
  else
  let? quic := ok_or (parse_socket_addr (ServerCli.listen cli)) "QUIC listen address is invalid" in
  if negb (is_loopback (addr_ip quic) || is_unspecified (addr_ip quic)) && is_multicast (addr_ip quic)
  then Err "QUIC listen address is invalid"
  else
  let? tcp := ok_or (parse_socket_addr (ServerCli.tcp_listen cli))
                "TLS/TCP reserve backend address is invalid" in
  if negb (is_loopback (addr_ip tcp))
  then Err "TLS/TCP reserve backend must bind to loopback behind the TLS terminator"
  else
  let? proxies := parse_public_proxy_listens (ServerCli.public_proxy_listen cli) in
  let? target := match ServerCli.target_node_id cli with
                 | Some value =>
                     let? _ := server_validate_identifier "target node ID" value 64 in Ok (Some value)
                 | None => Ok None
                 end in
  Ok (mk_validated_cli quic tcp proxies target).
End Validation.

(** ** The process *)

Record ReverseTunnelServerConfig := mk_server_config {
  server_auth_token : string;
  server_transport : TunnelTransport;
}.

(** What [main] spawns, all on one shared state. *)
Inductive Task :=
| RunServer (listen : SocketAddr) (config : ReverseTunnelServerConfig)
| RunQuicServer (listen : SocketAddr) (config : ReverseTunnelServerConfig)
| RunKeepalives
| RunListener (listen : SocketAddr) (target_node_id : option string) (protocol : ProxyProtocol).

Definition protocol_of_port (port : Z) : ProxyProtocol :=
  if port =? 14081 then Socks5 else if port =? 14128 then Http else Mixed.

Section Process.
Context `{DerBase64}.
Local Open Scope rust_scope.

(** [bind] tells whether a listener could be bound. *)
Fixpoint bind_all (bind : SocketAddr -> bool) (listens : list SocketAddr)
    : result (list SocketAddr) string :=
  match listens with
  | [] => Ok []
  | listen :: rest =>
      if bind listen then let? bound := bind_all bind rest in Ok (listen :: bound)
      else Err "failed to bind"
  end.

Definition server_tasks (cli : ServerCli.t) (bind : SocketAddr -> bool) : result (list Task) string :=
  let? validated := validate_cli cli in
  let? cert := ok_or (decode_der_base64 (ServerCli.cert_der_b64 cli)) "failed to decode base64 DER" in
  let? key := ok_or (decode_der_base64 (ServerCli.key_der_b64 cli)) "failed to decode base64 DER" in
  let transport := TransportHybrid (ServerCli.server_name cli) cert (Some key) in
  let? listeners := bind_all bind (public_proxy_listens validated) in
  if negb (bind (tcp_listen validated)) then Err "failed to bind"
  else
  Ok ([RunServer (tcp_listen validated) (mk_server_config (ServerCli.auth_token cli) TransportTcp);
       RunQuicServer (quic_listen validated) (mk_server_config (ServerCli.auth_token cli) transport);
       RunKeepalives]
      ++ ((fun listen => RunListener listen (target_node_id validated)
                           (protocol_of_port (addr_port listen))) <$> listeners))%list.

(** [while let Some(result) = tasks.join_next().await { result??; }]: the results
    in the order the tasks end. *)
Fixpoint join_tasks (ended : list (result unit string)) : result unit string :=
  match ended with
  | [] => Ok tt
  | r :: rest => let? _ := r in join_tasks rest
  end.
End Process.

(** ** Accepting connections *)

(** What an accept loop observes, and what it does: it spawns a handler, clears
    the TCP part of the state, or closes the endpoint. *)
Inductive AcceptEvent (Conn : Type) :=
| Incoming (c : Conn)
| AcceptError
| EndpointClosed
| ShutdownSeen.
Arguments Incoming {_}. Arguments AcceptError {_}. Arguments EndpointClosed {_}.
Arguments ShutdownSeen {_}.

Inductive AcceptAction (Conn : Type) :=
| Spawn (c : Conn)
| ShutdownTcp
| CloseEndpoint.
Arguments Spawn {_}. Arguments ShutdownTcp {_}. Arguments CloseEndpoint {_}.

Section Accepting.
Context {Conn : Type}.

(** The loop with what each ending does; [None] as long as it runs. *)
Fixpoint accept_loop (failed : string) (closing : list (AcceptAction Conn))
    (events : list (AcceptEvent Conn)) : list (AcceptAction Conn) * option (result unit string) :=
  match events with
  | [] => ([], None)
  | Incoming c :: rest =>
      let '(actions, out) := accept_loop failed closing rest in (Spawn c :: actions, out)
  | AcceptError :: _ => ([], Some (Err failed))
  | EndpointClosed :: _ => ([], Some (Ok tt))
  | ShutdownSeen :: _ => (closing, Some (Ok tt))
  end.

(** A TCP listener never closes by itself. *)
Definition run_server (events : list (AcceptEvent Conn)) :=
  accept_loop "reverse tunnel accept failed" [ShutdownTcp] events.

Definition run_quic_tcp_forward_listener (events : list (AcceptEvent Conn)) :=
  accept_loop "reverse tunnel TCP forward accept failed" [] events.

Definition quic_server_key (transport : TunnelTransport) : result (list Z) string :=
  match transport with
  | TransportQuic _ _ key | TransportHybrid _ _ key =>
      ok_or key "QUIC server transport requires server_key_der"
  | TransportTcp => Err "QUIC server key requested for non-QUIC transport"
  end.

(** [bind_quic] is the rustls configuration and the endpoint that is bound with
    it; a failed handshake is the handler's, so [AcceptError] is no event here. *)
Definition run_quic_server (bind_quic : list Z -> list Z -> result unit string)
    (config : ReverseTunnelServerConfig) (events : list (AcceptEvent Conn))
    : list (AcceptAction Conn) * option (result unit string) :=
  match server_transport config with
  | TransportTcp => ([], Some (Err "run_quic_server requires TunnelTransport::Quic"))
  | TransportQuic _ cert _ | TransportHybrid _ cert _ =>
      match quic_server_key (server_transport config) with
      | Err e => ([], Some (Err e))
      | Ok key =>
          match bind_quic cert key with
          | Err e => ([], Some (Err e))
          | Ok _ => accept_loop "" [CloseEndpoint] events
          end
      end
  end.
End Accepting.

(** [handle_quic_incoming]: the handshake, the control stream, and its handler. *)
Definition handle_quic_incoming {A} (handshake control_stream : result unit string) (handle : A)
    : result A AnyError :=
  match handshake with
  | Err e => Err (mk_error "QUIC incoming connection failed" [e])
  | Ok _ =>
      match control_stream with
      | Err e => Err (mk_error e [])
      | Ok _ => Ok handle
      end
  end.

(** What the loops do to the shared state. *)
Definition perform {Conn} (w : World) (a : AcceptAction Conn) : World :=
  match a with ShutdownTcp => shutdown_tcp w | Spawn _ | CloseEndpoint => w end.

(** ** Keeping reserved streams alive *)

(** What the loop of [run_reserved_stream_keepalives] observes, after the first
    tick, which is immediate and does nothing. *)
Inductive KeepaliveEvent :=
| Tick (write_ok : TcpStream -> bool)
| Shutdown.

Fixpoint run_reserved_stream_keepalives (events : list KeepaliveEvent) (w : World) : World :=
  match events with
  | [] => w
  | Shutdown :: _ => w
  | Tick write_ok :: rest =>
      run_reserved_stream_keepalives rest (keepalive_reserved_tcp_streams write_ok w).2
  end.

(** ** What is accepted *)

Lemma parse_listens_Ok values parsed out :
  NoDup parsed ->
  parse_listens values parsed = Ok out <->
  exists new, out = (parsed ++ new)%list /\ NoDup out
    /\ Forall2 (fun value listen => parse_socket_addr value = Some listen
                                    /\ is_loopback (addr_ip listen) = true) values new.
Proof.
  revert parsed. induction values as [|value rest IH]; intros parsed Hnd; cbn [parse_listens].
  - split.
    + intros [= <-]. exists []. rewrite app_nil_r. by split_and!.
    + intros (new & -> & _ & Hf). inversion Hf. by rewrite app_nil_r.
  - destruct (parse_socket_addr value) as [listen|] eqn:Hp; cbn [ok_or result_bind].
    2:{ split; [done|]. intros (new & _ & _ & Hf). inversion Hf as [|? ? ? ? [Hv _]]. congruence. }
    destruct (is_loopback (addr_ip listen)) eqn:Hl; cbn [negb].
    2:{ split; [done|]. intros (new & _ & _ & Hf). inversion Hf as [|? ? ? ? [Hv Hv']]; subst. congruence. }
    case_bool_decide as Hin.
    + split; [done|]. intros (new & -> & Hnd' & Hf). inversion Hf as [|? x ? new' [Hv _]]; subst.
      assert (x = listen) as -> by congruence. apply NoDup_app in Hnd' as (_ & Hno & _).
      exfalso. apply (Hno listen Hin). apply elem_of_cons. by left.
    + rewrite IH. 2:{ apply NoDup_app. split_and!; [done|set_solver|].
          apply NoDup_cons. split; [set_solver|constructor]. }
      split.
      * intros (new & -> & Hnd' & Hf). exists (listen :: new). rewrite <- app_assoc in *. split_and!; try done.
        by constructor.
      * intros (new & -> & Hnd' & Hf). inversion Hf as [|? x ? new' [Hv _] Hf']; subst.
        assert (x = listen) as -> by congruence. exists new'. rewrite <- app_assoc. by split_and!.
Qed.

(** The listener inventory is accepted exactly when it names between one and
    eight distinct loopback addresses, and then it is those, in their order. *)
Theorem public_proxy_listens_iff raw listens :
  parse_public_proxy_listens raw = Ok listens <->
  (1 <= List.length (listed_values raw) <= MAX_PUBLIC_PROXY_LISTENERS)%nat /\ NoDup listens
  /\ Forall2 (fun value listen => parse_socket_addr value = Some listen
                                  /\ is_loopback (addr_ip listen) = true) (listed_values raw) listens.
Proof.
  unfold parse_public_proxy_listens. generalize MAX_PUBLIC_PROXY_LISTENERS. intros limit.
  destruct (listed_values raw) as [|value values].
  { cbn. split; [done|]. lia. }
  rewrite bool_decide_false by done. cbn [orb].
  destruct (Nat.ltb_spec limit (List.length (value :: values))).
  { split; [done|]. lia. }
  rewrite parse_listens_Ok by constructor. split.
  - intros (new & -> & Hnd & Hf). split_and!; [simpl; lia|done|done|done].
  - intros (_ & Hnd & Hf). by exists listens.
Qed.

Lemma multicast_is_public ip :
  is_multicast ip = true -> is_loopback ip = false /\ is_unspecified ip = false.
Proof.
  destruct ip as [[|o octets]|[|o octets]]; cbn; try done.
  - intros Ho. bools. split; apply bool_decide_eq_false_2; intros [=]; lia.
  - intros Ho%bool_decide_eq_true_1. injection Ho as ->. split; apply bool_decide_eq_false_2; discriminate.
Qed.

(** A command line that is accepted. *)
Lemma validate_cli_Ok cli v :
  validate_cli cli = Ok v ->
  ServerCli.transport cli = "hybrid"
  /\ server_validate_secret "reverse tunnel auth token" (ServerCli.auth_token cli) = Ok tt
  /\ is_loopback (addr_ip (tcp_listen v)) = true
  /\ is_multicast (addr_ip (quic_listen v)) = false
  /\ parse_public_proxy_listens (ServerCli.public_proxy_listen cli) = Ok (public_proxy_listens v).
Proof.
  unfold validate_cli. destruct (bool_decide (ServerCli.transport cli = "hybrid")) eqn:Ht; [|done].
  apply bool_decide_eq_true_1 in Ht. cbn [negb].
  intros ([] & Hsecret & H1)%result_bind_Ok. apply result_bind_Ok in H1 as (u & _ & H1).
  do 2 (case_if_in H1; [done|]).
  apply result_bind_Ok in H1 as (quic & _ & H1). case_if_in H1; [done|].
  apply result_bind_Ok in H1 as (tcp & _ & H1). case_if_in H1; [done|].
  apply result_bind_Ok in H1 as (proxies & Hproxies & H1).
  apply result_bind_Ok in H1 as (target & _ & [= <-]). cbn [tcp_listen quic_listen public_proxy_listens].
  split_and!; try done.
  - by destruct (is_loopback (addr_ip tcp)).
  - destruct (is_multicast (addr_ip quic)) eqn:Hm; [|done].
    destruct (multicast_is_public (addr_ip quic) Hm) as [Hl Hu].
    match goal with Hq : (negb (is_loopback (addr_ip quic) || _) && _)%bool = false |- _ =>
      by rewrite Hl, Hu, ?Hm in Hq end.
Qed.

(** *** What the process listens on *)

(** A task is on loopback unless it is the QUIC ingress; the reserve backend
    speaks the same token, and a listener the protocol of its port. *)
Definition task_private (token : string) (target : option string) (task : Task) : Prop :=
  match task with
  | RunServer listen config =>
      is_loopback (addr_ip listen) = true /\ config = mk_server_config token TransportTcp
  | RunQuicServer listen config =>
      is_multicast (addr_ip listen) = false /\ server_auth_token config = token
      /\ exists name cert key, server_transport config = TransportHybrid name cert (Some key)
  | RunKeepalives => True
  | RunListener listen target' protocol =>
      is_loopback (addr_ip listen) = true /\ target' = target
      /\ protocol = protocol_of_port (addr_port listen)
  end.

Lemma bind_all_Ok bind listens out : bind_all bind listens = Ok out -> out = listens.
Proof.
  revert out. induction listens as [|listen rest IH]; intros out; cbn [bind_all]; [congruence|].
  destruct (bind listen); [|done]. intros (bound & ->%IH & [= <-])%result_bind_Ok. done.
Qed.

Definition listener_of (task : Task) : option SocketAddr :=
  match task with RunListener listen _ _ => Some listen | _ => None end.

(** Only the QUIC ingress of a server that starts is reachable from outside: the
    plain reserve backend and all proxy listeners are on loopback, behind the
    TLS terminator; no two listeners share an address, there are between one
    and eight of them, and each accepts the protocol of its port. *)
Theorem server_listens_privately `{DerBase64} cli bind tasks :
  server_tasks cli bind = Ok tasks ->
  exists v, validate_cli cli = Ok v
    /\ Forall (task_private (ServerCli.auth_token cli) (target_node_id v)) tasks
    /\ omap listener_of tasks = public_proxy_listens v /\ NoDup (public_proxy_listens v)
    /\ (1 <= List.length (public_proxy_listens v) <= MAX_PUBLIC_PROXY_LISTENERS)%nat.
Proof.
  unfold server_tasks. intros (v & Hv & H1)%result_bind_Ok. exists v. split; [done|].
  apply validate_cli_Ok in Hv as (_ & _ & Htcp & Hquic & Hlist).
  apply result_bind_Ok in H1 as (cert & _ & H1). apply result_bind_Ok in H1 as (key & _ & H1).
  apply result_bind_Ok in H1 as (listeners & ->%bind_all_Ok & H1). case_if_in H1; [done|].
  injection H1 as <-. apply public_proxy_listens_iff in Hlist as (Hlen & Hnd & Hall).
  pose proof (Forall2_length _ _ _ Hall) as Hsame. rewrite Hsame in Hlen.
  split_and!; try done; try lia.
  - do 3 (apply Forall_cons; split; [cbn; eauto 6|]).
    apply Forall_fmap, Forall_forall. intros listen Hin. cbn. split_and!; [|done|done].
    apply list_elem_of_lookup in Hin as [i Hi]. by apply (Forall2_lookup_r _ _ _ _ _ Hall) in Hi as (? & _ & _ & ?).
  - cbn [app omap list_omap listener_of]. generalize (public_proxy_listens v). intros l. induction l as [|listen rest IH]; [done|].
    cbn in *. by rewrite IH.
Qed.

(** *** The two ends of the tunnel *)

(** Whatever tunnel configuration the phone accepts, the server accepts its
    token and its server name, as both are checked alike at the two ends. *)
Theorem tunnel_ends_agree `{DerBase64} file node owner user password c :
  reverse_tunnel_config file node owner user password = Ok (Some c) ->
  server_validate_secret "reverse tunnel auth token" (cfg_auth_token c) = Ok tt
  /\ exists name cert, cfg_transport c = TransportHybrid name cert None
       /\ server_validate_identifier "server name" name 253 = Ok tt.
Proof.
  intros Hc. split.
  - apply reverse_tunnel_config_Ok in Hc as (_ & _ & Hs). destruct (settings_secret _ Hs) as [Hlen Hctl].
    unfold server_validate_secret. rewrite Hctl, orb_false_r. unfold MAX_SECRET_LENGTH in *.
    rewrite (proj2 (Z.ltb_ge _ _)), (proj2 (Z.ltb_ge _ _)) by lia. done.
  - revert Hc. unfold reverse_tunnel_config. cbv zeta.
    destruct (_ || _); [case_if; done|]. intros Hc. accepted Hc. injection Hc as <-.
    eexists _, _. split; [reflexivity|].
    match goal with Hi : validate_identifier _ ?n 253 = Ok _ |- _ =>
      revert Hi; unfold validate_identifier, server_validate_identifier, identifier_char end.
    by destruct (_ || _ || _).
Qed.

(** *** Reserved streams *)

Definition reserve_of (w : World) (node : string) : list ReservedTcpStream.t :=
  default [] (reserved_tcp (server w) !! node).

(** The ticks before the shutdown. *)
Fixpoint sweeps (events : list KeepaliveEvent) : list (TcpStream -> bool) :=
  match events with
  | Tick write_ok :: rest => write_ok :: sweeps rest
  | _ => []
  end.

Lemma keepalive_reserve write_ok w node :
  reserve_of (keepalive_reserved_tcp_streams write_ok w).2 node
  = List.filter (fun r => write_ok (ReservedTcpStream.stream r)) (reserve_of w node).
Proof.
  unfold reserve_of, keepalive_reserved_tcp_streams. cbn -[filter].
  rewrite map_lookup_filter, lookup_fmap. destruct (reserved_tcp (server w) !! node) as [l|]; [|done].
  cbn. destruct (List.filter _ l); cbn; [|done]. done.
Qed.

Lemma filter_filter {A} (p q : A -> bool) l :
  List.filter p (List.filter q l) = List.filter (fun x => q x && p x) l.
Proof.
  induction l as [|x l IH]; [done|]. cbn. destruct (q x); cbn; [|done]. by destruct (p x); rewrite IH.
Qed.

(** The sweep keeps, in their order, exactly the reserved streams that took
    every keepalive frame until the shutdown, and it breaks no invariant of the
    server, wherever it interleaves. *)
Theorem keepalives_exact events issued w :
  inv issued w ->
  inv issued (run_reserved_stream_keepalives events w)
  /\ forall node, reserve_of (run_reserved_stream_keepalives events w) node
       = List.filter (fun r => forallb (fun write_ok => write_ok (ReservedTcpStream.stream r)) (sweeps events))
           (reserve_of w node).
Proof.
  revert w. induction events as [|[write_ok|] events IH]; intros w Hw;
    cbn [run_reserved_stream_keepalives sweeps forallb].
  1,3: split; [done|]; intros node; induction (reserve_of w node) as [|r l IHl]; [done|]; cbn; by rewrite <- IHl.
  destruct (IH (keepalive_reserved_tcp_streams write_ok w).2) as [Hinv Hr].
  { by apply (shrinks_inv issued w); [apply keepalive_shrinks|]. }
  split; [done|]. intros node. by rewrite Hr, keepalive_reserve, filter_filter.
Qed.

(** ** Accept loops *)

Definition conns {Conn} (actions : list (AcceptAction Conn)) : list Conn :=
  omap (fun a => match a with Spawn c => Some c | _ => None end) actions.

(** The connections that come before anything else. *)
Fixpoint incoming_first {Conn} (events : list (AcceptEvent Conn)) : list Conn * list (AcceptEvent Conn) :=
  match events with
  | Incoming c :: rest => let '(cs, others) := incoming_first rest in (c :: cs, others)
  | _ => ([], events)
  end.

Lemma accept_loop_spec {Conn} failed closing (events : list (AcceptEvent Conn)) :
  let '(cs, others) := incoming_first events in
  accept_loop failed closing events
  = ((Spawn <$> cs) ++ match others with ShutdownSeen :: _ => closing | _ => [] end,
     match others with
     | ShutdownSeen :: _ | EndpointClosed :: _ => Some (Ok tt)
     | AcceptError :: _ => Some (Err failed)
     | _ => None
     end)%list.
Proof.
  induction events as [|[c| | |] rest IH]; try done. cbn.
  destruct (incoming_first rest) as [cs others]. by rewrite IH.
Qed.

(** What a shutdown of the TCP side leaves: no control channel, no request that
    waits, no reserve, and no session shown as connected, or kept alive, by a
    control channel that was drained. *)
Definition tcp_drained (w w' : World) : Prop :=
  tcp_controls (server w') = ∅ /\ pending_tcp (server w') = ∅ /\ reserved_tcp (server w') = ∅
  /\ forall node control, tcp_controls (server w) !! node = Some control ->
       (forall x, sessions (server w') !! node = Some x ->
          ServerSessionSnapshot.session_id x = TcpControlChannel.session_id control ->
          ServerSessionSnapshot.connected x = false)
       /\ (forall l, session_liveness (server w') !! node = Some l ->
          SessionLiveness.session_id l <> TcpControlChannel.session_id control).

(** The part of [tcp_drained] that one session shows. *)
Definition session_down (w : World) (k : string * Uuid) : Prop :=
  (forall x, sessions (server w) !! k.1 = Some x -> ServerSessionSnapshot.session_id x = k.2 ->
     ServerSessionSnapshot.connected x = false)
  /\ (forall l, session_liveness (server w) !! k.1 = Some l -> SessionLiveness.session_id l <> k.2).

Lemma shutdown_session_down w k : session_down (shutdown_session w k) k.
Proof.
  destruct k as [node session]. unfold session_down, shutdown_session, remove_session_liveness.
  set (w1 := mark_session_down w node session).
  assert (forall x, sessions (server w1) !! node = Some x ->
            ServerSessionSnapshot.session_id x = session -> ServerSessionSnapshot.connected x = false) as Hx.
  { intros x. cbn. rewrite lookup_alter_eq. intros (y & Hy & ->)%fmap_Some. by case_bool_decide. }
  destruct (session_liveness (server w1) !! node) as [l|] eqn:Hl; cbn [is_some_and].
  - case_bool_decide as Hs; cbn; (split; [exact Hx|]).
    + intros l'. by rewrite lookup_delete_eq.
    + intros l' Hl'. cbn in Hl. congruence.
  - cbn. split; [exact Hx|]. intros l' Hl'. cbn in Hl. congruence.
Qed.

Lemma shutdown_session_keeps w k k' : session_down w k -> session_down (shutdown_session w k') k.
Proof.
  destruct k as [node session], k' as [node' session'].
  unfold session_down, shutdown_session, remove_session_liveness. cbn [fst snd]. intros [Hx Hl].
  assert (forall x, sessions (server (mark_session_down w node' session')) !! node = Some x ->
            ServerSessionSnapshot.session_id x = session -> ServerSessionSnapshot.connected x = false) as Hx'.
  { intros x. cbn. destruct (decide (node' = node)) as [->|Hne].
    - rewrite lookup_alter_eq. intros (y & Hy & ->)%fmap_Some. case_bool_decide; [done|]. by apply Hx.
    - rewrite lookup_alter_ne by done. apply Hx. }
  destruct (is_some_and _ _); cbn; (split; [exact Hx'|]); [|exact Hl].
  intros l Hl'. apply lookup_delete_Some in Hl' as [_ Hl']. by apply Hl.
Qed.

Lemma shutdown_sessions_down ks w k : k ∈ ks \/ session_down w k -> session_down (foldl shutdown_session w ks) k.
Proof.
  revert w. induction ks as [|k' ks IH]; intros w Hk; cbn.
  - destruct Hk as [Hk|]; [by apply not_elem_of_nil in Hk|done].
  - apply IH. rewrite elem_of_cons in Hk. destruct Hk as [[->|Hk]|Hk]; [|by left|].
    + right. apply shutdown_session_down.
    + right. by apply shutdown_session_keeps.
Qed.

Lemma shutdown_sessions_rest ks w :
  let w' := foldl shutdown_session w ks in
  tcp_controls (server w') = tcp_controls (server w) /\ pending_tcp (server w') = pending_tcp (server w)
  /\ reserved_tcp (server w') = reserved_tcp (server w).
Proof.
  cbn zeta. revert w. induction ks as [|[node session] ks IH]; intros w; cbn [foldl]; [done|].
  destruct (IH (shutdown_session w (node, session))) as (-> & -> & ->).
  unfold shutdown_session, remove_session_liveness. by destruct (is_some_and _ _).
Qed.

Lemma shutdown_tcp_drains w : tcp_drained w (shutdown_tcp w).
Proof.
  unfold tcp_drained, shutdown_tcp. set (w1 := with_server _ w). set (ks := _ <$> map_to_list _).
  destruct (shutdown_sessions_rest ks w1) as (-> & -> & ->). split_and!; [done..|].
  intros node control Hc. apply (shutdown_sessions_down ks w1 (node, TcpControlChannel.session_id control)).
  left. apply list_elem_of_fmap. exists (node, control). split; [done|]. by apply elem_of_map_to_list.
Qed.

(** The accept loops hand every connection that came in before the end, and no
    other, to a handler of its own, in order; a shutdown ends the TCP loop well
    and drains its side of the state; the key of the QUIC loop of a process that
    started is there; and a single failed accept on the backend or on a public
    listener ends that loop with an error, and with it the whole process. *)
Theorem accept_loops_spec `{DerBase64} {Conn : Type} cli bind tasks
    (events : list (AcceptEvent Conn)) (before : list (result unit string)) w :
  server_tasks cli bind = Ok tasks ->
  let '(cs, others) := incoming_first events in
  conns (run_server events).1 = cs
  /\ conns (run_quic_tcp_forward_listener events).1 = cs
  /\ (forall rest, others = ShutdownSeen :: rest ->
        (run_server events).2 = Some (Ok tt)
        /\ tcp_drained w (foldl perform w (run_server events).1))
  /\ (forall listen config, RunQuicServer listen config ∈ tasks ->
        is_Some (match quic_server_key (server_transport config) with Ok k => Some k | Err _ => None end))
  /\ (forall rest, others = AcceptError :: rest ->
        forall loop, loop = run_server events \/ loop = run_quic_tcp_forward_listener events ->
        exists e, loop.2 = Some (Err e)
          /\ (Forall (fun r => r = Ok tt) before -> join_tasks (before ++ [Err e])%list = Err e)).
Proof.
  intros Ht. unfold run_server, run_quic_tcp_forward_listener.
  pose proof (accept_loop_spec "reverse tunnel accept failed" [ShutdownTcp] events) as H1.
  pose proof (accept_loop_spec "reverse tunnel TCP forward accept failed" [] events) as H2.
  destruct (incoming_first events) as [cs others]. rewrite H1, H2.
  assert (forall l, conns ((Spawn <$> cs) ++ l)%list = (cs ++ conns l)%list) as Hc.
  { clear. intros l. unfold conns. induction cs as [|c cs IH]; [done|]. cbn. f_equal. exact IH. }
  split_and!.
  - cbn [fst]. rewrite Hc. by destruct others as [|[] ?]; cbn; rewrite app_nil_r.
  - cbn [fst]. rewrite Hc. by destruct others as [|[] ?]; cbn; rewrite app_nil_r.
  - intros rest ->. split; [done|]. cbn [fst]. rewrite foldl_app.
    assert (foldl perform w ((Spawn (Conn := Conn)) <$> cs) = w) as ->.
    { clear. induction cs as [|c cs IH]; [done|]. exact IH. }
    apply shutdown_tcp_drains.
  - intros listen config Hin. revert Ht. unfold server_tasks.
    intros (v & _ & (cert & _ & (key & _ & (ls & _ & Hb)%result_bind_Ok)%result_bind_Ok)%result_bind_Ok)%result_bind_Ok.
    destruct (negb _); [done|]. injection Hb as <-.
    rewrite !elem_of_cons in Hin.
    destruct Hin as [Hx|[[= _ ->]|[Hx|Hin]]]; [discriminate Hx|by eexists|discriminate Hx|].
    apply list_elem_of_fmap in Hin as (? & ? & _). discriminate.
  - intros rest -> loop Hloop. exists (match loop.2 with Some (Err e) => e | _ => "" end).
    assert (forall e, Forall (fun r => r = Ok tt) before -> join_tasks (before ++ [Err e])%list = Err e) as Hj.
    { clear. intros e. induction 1 as [|r l -> _ IH]; [done|]. exact IH. }
    destruct Hloop as [-> | ->]; by split; [|apply Hj].
Qed.
