(* ===== verification/HostApi.v ===== *)
(** * Local API of the phone

    [services/host-daemon/src/{api,auth}.rs]: authorization, the handlers and
    the metrics.  A handler is a function of the headers and the state; the
    requests the UI handlers make to the control plane are an argument.  The
    loop of the health probe (health.rs) and the start of the daemon with its
    tasks (main.rs) are at the end. *)

From stdpp Require Import base gmap strings list fin_maps.
From Stdlib Require Import ZArith Lia String.
From S2P Require Import Prelude Text NetText Foundation RuntimeProjection TunnelModel Commands.
From S2P Require Import Devices ConfigJson.
From S2P Require Import ControlPlane ControlPlaneHttp HostDaemon HostTheorems HostConfig TunnelManager.
Local Open Scope string_scope.
Local Open Scope Z_scope.

(** ** Authorization *)

Definition authorize_token (headers : HeaderMap) (token : string) : result unit ApiError :=
  let actual := value ← header headers "authorization"; text ← to_str value;
                strip_prefix "Bearer " text in
  if is_some_and actual (fun actual => ct_eq actual token) then Ok tt
  else Err (mk_api_error UNAUTHORIZED "invalid bearer token").

Definition authorize (headers : HeaderMap) (token : string) : result unit ApiError :=
  authorize_token headers token.

Definition authorize_ui (headers : HeaderMap) (token : option string) : result unit ApiError :=
  match token with
  | None => Err (mk_api_error SERVICE_UNAVAILABLE "local UI control is not configured")
  | Some token => authorize_token headers token
  end.

(** ** State and records of the API *)

Record ApiState `{Blake3} := mk_api_state {
  api_admin_token : string;
  api_ui_control_token : option string;
  api_sync : option ControlPlaneSyncConfig;
  api_runtime : RuntimeState.t;
}.
Arguments mk_api_state {_}.

Record UiStatus := mk_ui_status {
  ui_public_ip : option string;
  ui_readiness : string;
  ui_serving : bool;
  ui_tunnel_owner : option string;
  ui_rotation_in_progress : bool;
}.

Record UiJob := mk_ui_job {
  ui_job_id : Uuid;
  ui_job_status : string;
  ui_old_public_ip : option string;
  ui_new_public_ip : option string;
  ui_changed : option bool;
}.

Record RuntimeStatusRecord := mk_status_record {
  status_node_id : string;
  status_node_name : string;
  status_current_job : option Uuid;
  status_wireguard_enabled : bool;
  status_tunnel_owner : option string;
}.

Record ProxyRuntimeRecord := mk_proxy_record {
  proxy_record_status : string;
  proxy_record_listen_address : string;
  proxy_record_pid : option Z;
}.

(** ** Metrics *)

(** A sample of a series, and the type line of a metric. *)
Inductive MetricLine :=
| TypeLine (metric kind : string)
| Sample (series : string) (value : Z).

Definition label (name value : string) : string := name ++ "=" ++ dquote ++ value ++ dquote.

Definition series1 (metric name value : string) : string :=
  metric ++ "{" ++ label name value ++ "}".

Definition of_bool (b : bool) : Z := if b then 1 else 0.

Definition FRESHNESS : list string := ["unknown"; "fresh"; "stale"].

Definition metric_lines (connected : option bool)
    (active_transport freshness failover_reason : option string) (persistence_healthy : bool)
    (counters : TunnelEventCounters.t) : list MetricLine :=
  ([TypeLine "mobile_proxy_reverse_tunnel_connected" "gauge";
    Sample "mobile_proxy_reverse_tunnel_connected" (of_bool (bool_decide (connected = Some true)));
    TypeLine "mobile_proxy_reverse_tunnel_active_transport" "gauge"]
   ++ ((fun t => Sample (series1 "mobile_proxy_reverse_tunnel_active_transport" "transport"
                           (TunnelActiveTransport.as_str t))
                   (of_bool (bool_decide (active_transport = Some (TunnelActiveTransport.as_str t)))))
         <$> TunnelActiveTransport.ALL)
   ++ [TypeLine "mobile_proxy_reverse_tunnel_freshness" "gauge"]
   ++ ((fun state => Sample (series1 "mobile_proxy_reverse_tunnel_freshness" "state" state)
                       (of_bool (bool_decide (freshness = Some state)))) <$> FRESHNESS)
   ++ [TypeLine "mobile_proxy_reverse_tunnel_last_failover_reason" "gauge"]
   ++ ((fun r => Sample (series1 "mobile_proxy_reverse_tunnel_last_failover_reason" "reason"
                           (TunnelFailoverReason.as_str r))
                   (of_bool (bool_decide (failover_reason = Some (TunnelFailoverReason.as_str r)))))
         <$> TunnelFailoverReason.ALL)
   ++ [TypeLine "mobile_proxy_reverse_tunnel_connections_total" "counter"]
   ++ ((fun t => Sample (series1 "mobile_proxy_reverse_tunnel_connections_total" "transport"
                           (TunnelActiveTransport.as_str t))
                   (TunnelEventCounters.connection_count counters t)) <$> TunnelActiveTransport.ALL)
   ++ [TypeLine "mobile_proxy_reverse_tunnel_transport_transitions_total" "counter"]
   ++ ((fun t => Sample ("mobile_proxy_reverse_tunnel_transport_transitions_total{"
                           ++ label "from" (TunnelTransportTransition.from_str t) ++ ","
                           ++ label "to" (TunnelTransportTransition.to_str t) ++ "}")
                   (TunnelEventCounters.transition_count counters t))
         <$> TunnelTransportTransition.ALL)
   ++ [TypeLine "mobile_proxy_reverse_tunnel_failovers_total" "counter"]
   ++ ((fun r => Sample (series1 "mobile_proxy_reverse_tunnel_failovers_total" "reason"
                           (TunnelFailoverReason.as_str r))
                   (TunnelEventCounters.failover_count counters r)) <$> TunnelFailoverReason.ALL)
   ++ [TypeLine "mobile_proxy_reverse_tunnel_disconnects_total" "counter"]
   ++ ((fun r => Sample (series1 "mobile_proxy_reverse_tunnel_disconnects_total" "reason"
                           (TunnelDisconnectReason.as_str r))
                   (TunnelEventCounters.disconnect_count counters r)) <$> TunnelDisconnectReason.ALL)
   ++ [TypeLine "mobile_proxy_reverse_tunnel_reconnect_attempts_total" "counter";
       Sample "mobile_proxy_reverse_tunnel_reconnect_attempts_total"
         (TunnelEventCounters.reconnect_attempts counters);
       TypeLine "mobile_proxy_reverse_tunnel_reconnect_successes_total" "counter";
       Sample "mobile_proxy_reverse_tunnel_reconnect_successes_total"
         (TunnelEventCounters.reconnect_successes counters);
       TypeLine "mobile_proxy_reverse_tunnel_counter_persistence_healthy" "gauge";
       Sample "mobile_proxy_reverse_tunnel_counter_persistence_healthy"
         (of_bool persistence_healthy)])%list.

Definition render_line (l : MetricLine) : string :=
  match l with
  | TypeLine metric kind => "# TYPE " ++ metric ++ " " ++ kind
  | Sample series value => series ++ " " ++ u64_to_string value
  end ++ of_bytes [10].

Definition render_reverse_tunnel_metrics (connected : option bool)
    (active_transport freshness failover_reason : option string) (persistence_healthy : bool)
    (counters : TunnelEventCounters.t) : string :=
  foldr (fun l out => render_line l ++ out) ""
    (metric_lines connected active_transport freshness failover_reason persistence_healthy counters).

(** ** Handlers *)

(** The control plane as the UI handlers reach it: the device record, and the
    command that issuing one returns; an error is its text. *)
Record Vm `{Blake3} := mk_vm {
  vm_device : ControlPlaneSyncConfig -> string -> result DeviceRecord.t string;
  vm_issue : ControlPlaneSyncConfig -> string -> IssueCommandRequest.t
             -> result DeviceCommand.t string;
}.
Arguments mk_vm {_}.

Section Handlers.
Context `{Blake3, UuidText}.
Local Open Scope rust_scope.

Definition vm_error (error : string) : ApiError :=
  mk_api_error 502 ("VM control request failed: " ++ error).

Definition api_node_id (s : ApiState) : string :=
  HealthRecord.node_id (RuntimeState.health (api_runtime s)).

Definition vm_config (s : ApiState) : result ControlPlaneSyncConfig ApiError :=
  ok_or (api_sync s) (mk_api_error SERVICE_UNAVAILABLE "VM control is not configured").

Definition get_ui_status (vm : Vm) (s : ApiState) (headers : HeaderMap) : result UiStatus ApiError :=
  let? _ := authorize_ui headers (api_ui_control_token s) in
  let? config := vm_config s in
  let? device := map_err vm_error (vm_device vm config (api_node_id s)) in
  Ok (mk_ui_status (DeviceRecord.last_public_ip device) (DeviceRecord.readiness_state device)
        (DeviceRecord.serving device) (DeviceRecord.tunnel_owner device)
        (is_some (DeviceRecord.current_job device))).

(** [fresh] is the [Uuid::new_v4()] of the idempotency key. *)
Definition ui_rotation_request (fresh : Uuid) : IssueCommandRequest.t :=
  IssueCommandRequest.mk DesiredState.HealthyServing RecoveryIntent.RotateRecovery (mk_window 240)
    (mk_key ("android-ui-" ++ uuid_to_string fresh)).

Definition rotate_ip_from_ui (vm : Vm) (fresh : Uuid) (s : ApiState) (headers : HeaderMap)
    : result RotateAccepted ApiError :=
  let? _ := authorize_ui headers (api_ui_control_token s) in
  let? config := vm_config s in
  let? command := map_err vm_error
                    (vm_issue vm config (api_node_id s) (ui_rotation_request fresh)) in
  Ok (mk_accepted (as_uuid (DeviceCommand.command_id command)) true).

Definition find_job (s : ApiState) (id : Uuid) : result JobRecord.t ApiError :=
  ok_or (RuntimeState.jobs (api_runtime s) !! id) (mk_api_error NOT_FOUND "job not found").

Definition get_ui_job (s : ApiState) (headers : HeaderMap) (id : Uuid) : result UiJob ApiError :=
  let? _ := authorize_ui headers (api_ui_control_token s) in
  let? job := find_job s id in
  Ok (mk_ui_job (JobRecord.id job) (JobRecord.status job) (JobRecord.old_public_ip job)
        (JobRecord.new_public_ip job) (JobRecord.changed job)).

Definition get_health (s : ApiState) (headers : HeaderMap) : result HealthRecord.t ApiError :=
  let? _ := authorize headers (api_admin_token s) in Ok (RuntimeState.health (api_runtime s)).

Definition get_metrics (s : ApiState) (headers : HeaderMap) : result string ApiError :=
  let? _ := authorize headers (api_admin_token s) in
  let r := api_runtime s in
  let h := RuntimeState.health r in
  Ok (render_reverse_tunnel_metrics (HealthRecord.reverse_tunnel_connected h)
        (HealthRecord.reverse_tunnel_active_transport h) (HealthRecord.reverse_tunnel_freshness h)
        (HealthRecord.reverse_tunnel_failover_reason h)
        (RuntimeState.reverse_tunnel_counter_persistence_healthy r)
        (RuntimeState.reverse_tunnel_counters r)).

Definition get_status (s : ApiState) (headers : HeaderMap) : result RuntimeStatusRecord ApiError :=
  let? _ := authorize headers (api_admin_token s) in
  let r := api_runtime s in
  Ok (mk_status_record (HealthRecord.node_id (RuntimeState.health r))
        (HealthRecord.node_name (RuntimeState.health r)) (RuntimeState.current_job r)
        (RuntimeState.wireguard_enabled r) (RuntimeState.tunnel_owner r)).

Definition get_proxy (s : ApiState) (headers : HeaderMap) : result ProxyRuntimeRecord ApiError :=
  let? _ := authorize headers (api_admin_token s) in
  let r := api_runtime s in
  Ok (mk_proxy_record (HealthRecord.proxy_status (RuntimeState.health r))
        (RuntimeState.proxy_listen_address r) (RuntimeState.proxy_pid r)).

(** The one handler that changes the daemon's state. *)
Definition rotate_ip (job_id : Uuid) (iteration : list Uuid) (s : ApiState) (headers : HeaderMap)
    (request : RotateRequest.t) : result RotateAccepted ApiError * RuntimeState.t :=
  match authorize headers (api_admin_token s) with
  | Err e => (Err e, api_runtime s)
  | Ok _ => start_rotation_for_runtime job_id iteration (api_runtime s) request
  end.

Definition get_job (s : ApiState) (headers : HeaderMap) (id : Uuid) : result JobRecord.t ApiError :=
  let? _ := authorize headers (api_admin_token s) in find_job s id.

(** ** Properties *)

Lemma authorize_token_Ok headers token u :
  authorize_token headers token = Ok u ->
  exists value, header headers "authorization" = Some value /\ value = "Bearer " ++ token.
Proof.
  unfold authorize_token. destruct (header headers "authorization") as [value|]; [|done].
  cbn [mbind option_bind]. destruct (to_str value) as [text|] eqn:Ht; [|done]. cbn [mbind option_bind].
  assert (text = value) as -> by (revert Ht; unfold to_str; case_match; congruence).
  destruct (strip_prefix "Bearer " value) as [actual|] eqn:Hp; [|done]. cbn [is_some_and].
  unfold ct_eq. case_bool_decide as Hb; [|done]. intros _. exists value. split; [done|].
  apply bytes_inj in Hb. subst actual. by apply strip_prefix_Some.
Qed.

(** The header that presents a token. *)
Definition presents (headers : HeaderMap) (token : string) : Prop :=
  header headers "authorization" = Some ("Bearer " ++ token).

Lemma authorize_presents headers token u : authorize_token headers token = Ok u -> presents headers token.
Proof. intros (value & Hv & ->)%authorize_token_Ok. exact Hv. Qed.

Lemma authorize_ui_presents headers token u :
  authorize_ui headers token = Ok u -> exists t, token = Some t /\ presents headers t.
Proof. destruct token as [t|]; [|done]. cbn. intros Ha. eauto using authorize_presents. Qed.

Lemma guarded {A} (check : result unit ApiError) (k : unit -> result A ApiError) x :
  result_bind check k = Ok x -> exists u, check = Ok u.
Proof. intros (u & Hu & _)%result_bind_Ok. eauto. Qed.

(** The local API is closed without its token: no handler answers with
    data, and no rotation starts, unless the request presented exactly the admin
    token or, for the UI, exactly the UI token of a configuration that has one. *)
Theorem api_is_guarded vm fresh job_id iteration s headers id request :
  (forall x, get_health s headers = Ok x -> presents headers (api_admin_token s))
  /\ (forall x, get_metrics s headers = Ok x -> presents headers (api_admin_token s))
  /\ (forall x, get_status s headers = Ok x -> presents headers (api_admin_token s))
  /\ (forall x, get_proxy s headers = Ok x -> presents headers (api_admin_token s))
  /\ (forall x, get_job s headers id = Ok x -> presents headers (api_admin_token s))
  /\ (forall out r, rotate_ip job_id iteration s headers request = (out, r) ->
        r = api_runtime s \/ presents headers (api_admin_token s))
  /\ (forall x, get_ui_status vm s headers = Ok x ->
        exists t, api_ui_control_token s = Some t /\ presents headers t)
  /\ (forall x, rotate_ip_from_ui vm fresh s headers = Ok x ->
        exists t, api_ui_control_token s = Some t /\ presents headers t)
  /\ (forall x, get_ui_job s headers id = Ok x ->
        exists t, api_ui_control_token s = Some t /\ presents headers t).
Proof.
  split_and!; try (intros x [u Hu]%guarded;
    by eapply authorize_presents || by eapply authorize_ui_presents).
  intros out r. unfold rotate_ip. destruct (authorize _ _) as [u|e] eqn:Ha; [|by intros [= _ <-]; left].
  intros _. right. by eapply authorize_presents.
Qed.

(** *** Metrics *)

Definition line_name (l : MetricLine) : string :=
  match l with TypeLine metric kind => metric ++ " " ++ kind | Sample series _ => series end.

(** The series are fixed: nothing a phone or a tunnel reports names one, and no
    two lines name the same one. *)
Definition METRIC_NAMES : list string :=
  line_name <$> metric_lines None None None None true TunnelEventCounters.default_counters.

Lemma metric_names_fixed connected transport freshness failover healthy counters :
  line_name <$> metric_lines connected transport freshness failover healthy counters = METRIC_NAMES.
Proof. reflexivity. Qed.

Lemma metric_names_NoDup : NoDup METRIC_NAMES.
Proof. apply (bool_decide_eq_true_1 (NoDup METRIC_NAMES)). vm_compute. reflexivity. Qed.
End Handlers.

(** ** The probe's loop *)

Section ProbeLoop.
Context `{Blake3} `{!IpifyJson}.

(** [run_health_probe]: what the system shows at each tick, and what the observers
    answer through the proxy at that tick; without a proxied client the loop runs
    on without answers. *)
Fixpoint run_health_probe (client : option (nat -> string -> option string)) (config : ProbeConfig)
    (facts : list ProbeFacts) (r : RuntimeState.t) : RuntimeState.t :=
  match facts with
  | [] => r
  | f :: rest =>
      run_health_probe client config rest
        (apply_probe config
           (probe_once f ((fun c => c (List.length rest)) <$> client) config) r)
  end.

Lemma run_health_probe_last client config facts f r :
  exists n r', run_health_probe client config (facts ++ [f])%list r
    = apply_probe config (probe_once f ((fun c => c n) <$> client) config) r'.
Proof.
  revert r. induction facts as [|g facts IH]; intros r; cbn [app run_health_probe]; [by eexists _, _|].
  apply IH.
Qed.

(** The probe fails closed: a daemon that could not build its proxied client goes
    on publishing what it sees of the phone at every tick, and never reports it
    as serving or healthy. *)
Theorem probe_without_client_fails_closed config facts f r :
  let s := probe_once f None config in
  let h := RuntimeState.health (run_health_probe None config (facts ++ [f])%list r) in
  HealthRecord.serving h = false
  /\ HealthRecord.readiness_state h <> RuntimeReadiness.to_string RuntimeReadiness.Healthy
  /\ HealthRecord.cellular_route_ready h = Some (cellular_route_ready s)
  /\ HealthRecord.proxy_bind_ready h = Some (proxy_bind_ready s)
  /\ HealthRecord.local_serving_ready h = Some (local_serving_ready s)
  /\ is_Some (HealthRecord.serving_failure_reason h).
Proof.
  intros s h. subst h. destruct (run_health_probe_last None config facts f r) as (n & r' & ->).
  cbn [fmap option_fmap option_map]. fold s.
  assert (probe_healthy config s r' = false) as Hp.
  { unfold probe_healthy. change (public_ip s) with (@None string). cbn [is_some].
    by rewrite andb_false_r. }
  unfold apply_probe. rewrite Hp. change (public_ip s) with (@None string). cbn.
  split_and!; try done.
  - unfold probe_readiness. repeat case_match; done.
  - unfold probe_reason. repeat case_match; by eexists.
Qed.
End ProbeLoop.

(** ** Start-up *)

(** What [main] spawns. *)
Inductive HostTask :=
| SyncTask (config : ControlPlaneSyncConfig)
| TunnelTask (config : ReverseTunnelClientConfig)
| ProbeTask (config : ProbeConfig)
| ServeTask (listen : string).

Inductive StartError :=
| StartConfig (e : string)
| StartCounters (e : CounterError)
| StartBind
| StartPanic.

Record Started `{Blake3} `{CounterJson} := mk_started {
  started_state : ApiState;
  started_tunnel : option Tunnel;
  started_tasks : list HostTask;
}.
Arguments mk_started {_ _}.

Section Main.
Context `{Blake3, ConfigJsonText, UrlParse, DerBase64, FileConfigJson} `{!CounterJson}.

(** [main]: [counter_file] is the file at a path, [bind] whether the API's listener
    could be bound.  [expect] on the counter path is [StartPanic]. *)
Definition host_main (host : Host) (cli : Cli) (counter_file : string -> FileContent)
    (bind : string -> bool) : result Started StartError :=
  match load_runtime_config host cli with
  | Err e => Err (StartConfig e)
  | Ok loaded =>
      let state r := mk_api_state (loaded_admin_token loaded) (ui_control_token loaded)
                       (control_plane_sync loaded) r in
      let spawned_sync := option_list (SyncTask <$> control_plane_sync loaded) in
      let serve r tunnel tunnel_tasks :=
        if bind (listen loaded)
        then Ok (mk_started (state r) tunnel
               (spawned_sync ++ tunnel_tasks ++ [ProbeTask (probe loaded); ServeTask (listen loaded)])%list)
        else Err StartBind in
      match reverse_tunnel loaded with
      | None => serve (runtime_state loaded) None []
      | Some config =>
          match reverse_tunnel_counter_state_path loaded with
          | None => Err StartPanic
          | Some path =>
              match spawn_reverse_tunnel (runtime_state loaded) (counter_file path) with
              | Err e => Err (StartCounters e)
              | Ok t => serve (shared t) (Some t) [TunnelTask config]
              end
          end
      end
  end.

Lemma loaded_tunnel host cli c :
  load_runtime_config host cli = Ok c ->
  (forall t, reverse_tunnel c = Some t -> is_Some (reverse_tunnel_counter_state_path c))
  /\ (tunnel_required (RuntimeState.tunnel_owner (runtime_state c)) = true -> is_Some (reverse_tunnel c))
  /\ RuntimeState.reverse_tunnel_counter_persistence_healthy (runtime_state c) = true
  /\ RuntimeState.jobs (runtime_state c) = ∅ /\ RuntimeState.current_job (runtime_state c) = None.
Proof.
  unfold load_runtime_config. intros Hc. accepted Hc. injection Hc as <-.
  match goal with Ho : reverse_tunnel_config _ _ _ _ _ = Ok _ |- _ =>
    apply reverse_tunnel_config_Ok in Ho as Htunnel end.
  cbn [reverse_tunnel reverse_tunnel_counter_state_path runtime_state RuntimeState.new
    RuntimeState.tunnel_owner RuntimeState.jobs RuntimeState.current_job
    RuntimeState.reverse_tunnel_counter_persistence_healthy].
  split_and!; try done; [by intros t ->; eexists|].
  match type of Htunnel with match ?t with _ => _ end => destruct t as [t|] end; [by eexists|].
  by destruct Htunnel as [-> | ->].
Qed.

(** The daemon starts in order: it never panics on a missing counter path; a phone
    whose owner needs the reverse tunnel starts with its manager, so that the
    process is ready from the first moment; the probe and the API always run, and
    the control-plane client exactly when it is configured; and a counter file
    that cannot be trusted keeps the daemon from starting. *)
Theorem host_starts_in_order host cli counter_file bind :
  match host_main host cli counter_file bind with
  | Err StartPanic => False
  | Err (StartCounters e) =>
      exists c path, load_runtime_config host cli = Ok c
        /\ reverse_tunnel_counter_state_path c = Some path /\ load_counters (counter_file path) = Err e
  | Err _ => True
  | Ok s =>
      exists c, load_runtime_config host cli = Ok c /\ bind (listen c) = true
        /\ ready (readiness_document (api_runtime (started_state s))) = true
        /\ daemon_ok (mk_daemon (api_runtime (started_state s)) ∅)
        /\ ProbeTask (probe c) ∈ started_tasks s /\ ServeTask (listen c) ∈ started_tasks s
        /\ (forall sync, SyncTask sync ∈ started_tasks s <-> control_plane_sync c = Some sync)
        /\ (is_Some (started_tunnel s) <-> is_Some (reverse_tunnel c))
  end.
Proof.
  unfold host_main. destruct (load_runtime_config host cli) as [c|e] eqn:Hc; [|done].
  destruct (loaded_tunnel _ _ _ Hc) as (Hpath & Hreq & Hhealthy & Hjobs & Hcur).
  assert (forall r, RuntimeState.jobs r = ∅ -> RuntimeState.current_job r = None ->
            daemon_ok (mk_daemon r ∅)) as Hok.
  { intros r Hj Hr. unfold daemon_ok. cbn [runtime tasks]. rewrite Hj, Hr.
    split; [apply map_Forall_empty| |done|rewrite map_size_empty; lia].
    intros id. rewrite lookup_empty. by split; [|intros []]. }
  assert (forall sync l, (forall x, SyncTask x ∉ l) ->
    SyncTask sync ∈ (option_list (SyncTask <$> control_plane_sync c) ++ l)%list
    <-> control_plane_sync c = Some sync) as Hsync.
  { intros sync l Hl. rewrite elem_of_app. destruct (control_plane_sync c) as [x|]; cbn.
    - rewrite list_elem_of_singleton. split; [intros [[= ->]|Hx]; [done|by apply Hl in Hx]|].
      intros [= ->]. by left.
    - split; [|done]. intros [Hx|Hx]; [by apply not_elem_of_nil in Hx|by apply Hl in Hx]. }
  destruct (reverse_tunnel c) as [config|] eqn:Ht.
  - destruct (Hpath _ eq_refl) as [path Hp]. rewrite Hp. unfold spawn_reverse_tunnel.
    destruct (load_counters (counter_file path)) as [counters|e] eqn:Hl; [|by exists c, path].
    cbn [shared]. destruct (bind (listen c)) eqn:Hb; [|done]. exists c. cbn [started_state started_tasks started_tunnel api_runtime].
    split_and!; try done.
    + unfold readiness_document. cbn. by rewrite orb_true_r.
    + by apply Hok.
    + rewrite !elem_of_app, !elem_of_cons. tauto.
    + rewrite !elem_of_app, !elem_of_cons. tauto.
    + intros sync. apply Hsync. intros x Hx. cbn [app] in Hx.
      repeat (apply elem_of_cons in Hx as [Hx|Hx]; [discriminate Hx|]). by apply not_elem_of_nil in Hx.
  - destruct (bind (listen c)) eqn:Hb; [|done]. exists c. cbn [started_state started_tasks started_tunnel api_runtime].
    split_and!; try done.
    + unfold readiness_document. cbn. rewrite Hhealthy.
      destruct (tunnel_required _); [|done]. by destruct Hreq.
    + by apply Hok.
    + rewrite !elem_of_app, !elem_of_cons. tauto.
    + rewrite !elem_of_app, !elem_of_cons. tauto.
    + intros sync. apply Hsync. intros x Hx. cbn [app] in Hx.
      repeat (apply elem_of_cons in Hx as [Hx|Hx]; [discriminate Hx|]). by apply not_elem_of_nil in Hx.
    + by rewrite Ht.
Qed.
End Main.
