(* ===== verification/PhoneSystem.v ===== *)
(** * The supervisor's view of the phone

    [services/runtime-supervisor/src/{android,dns}.rs]: the commands the
    supervisor runs and what it reads from their output, and the changes it makes
    to the proxy's configuration.  A command appends to the trace of commands run
    so far; what a process answers, given that trace, is the oracle. *)

From stdpp Require Import base gmap strings list fin_maps.
From Stdlib Require Import ZArith Lia Ascii String.
From S2P Require Import Prelude Ordered Text NetText TunnelModel ConfigJson HostDaemon.
Local Open Scope string_scope.
Local Open Scope Z_scope.

(** ** Running commands *)

(** A command line: the binary and its arguments. *)
Definition Argv := list string.

Inductive Process :=
| SpawnFailed
| Exited (success : bool) (stdout stderr : string).

(** The answer to a command after the commands run before it. *)
Class Oracle := answer : list Argv -> Argv -> Process.

(** A computation that runs commands. *)
Definition Run (A : Type) : Type := list Argv -> A * list Argv.

Definition ret {A} (x : A) : Run A := fun t => (x, t).
Definition bind {A B} (m : Run A) (k : A -> Run B) : Run B :=
  fun t => let '(x, t') := m t in k x t'.

Declare Scope run_scope.
Notation "'do' x <- m ; k" := (bind m (fun x => k))
  (at level 10, x binder, m at level 100, k at level 200) : run_scope.
(** [?] on a command. *)
Notation "'do?' x <- m ; k" :=
  (bind m (fun r => match r with Ok x => k | Err e => ret (Err e) end))
  (at level 10, x binder, m at level 100, k at level 200) : run_scope.
Local Open Scope run_scope.

Section Commands.
Context `{Oracle}.

Definition run_command (binary : string) (args : list string) : Run (result string string) :=
  fun t =>
    (match answer t (binary :: args) with
     | SpawnFailed => Err ("failed to start " ++ binary)
     | Exited true stdout _ => Ok (trim stdout)
     | Exited false _ stderr => Err (binary ++ " command failed: " ++ trim stderr)
     end, (t ++ [binary :: args])%list).

Definition run_ip (args : list string) : Run (result string string) := run_command "ip" args.
Definition run_as_uid (uid : Z) (command : string) : Run (result string string) :=
  run_command "su" [u64_to_string uid; "sh"; "-c"; command].
Definition run_shell (command : string) : Run (result string string) :=
  run_command "sh" ["-c"; command].

(** ** Packages *)

Definition STOCK_WIREGUARD_PACKAGE : string := "com.wireguard.android".
Definition STOCK_WIREGUARD_TUNNEL : string := "WiGandroid".
Definition APP_OWNED_PACKAGE : string := "com.example.mobileproxy".

(** [Iterator::find_map] *)
Fixpoint find_map {A B} (f : A -> option B) (l : list A) : option B :=
  match l with
  | [] => None
  | x :: rest => match f x with Some y => Some y | None => find_map f rest end
  end.

Definition parse_package_uid (output package_name : string) : option Z :=
  find_map (fun line =>
    if negb (contains ("package:" ++ package_name) line) then None
    else find_map (fun part => digits ← strip_prefix "uid:" part; parse_unsigned u32_max digits)
           (split_whitespace line)) (lines output).

Definition package_uid (package_name : string) : Run (result (option Z) string) :=
  do? output <- run_command "cmd" ["package"; "list"; "packages"; "-U"; package_name];
  ret (Ok (parse_package_uid output package_name)).

(** ** Quoting *)

(** [value.replace('\'', r"'\''")] *)
Fixpoint escape_quotes (l : list Z) : list Z :=
  match l with
  | [] => []
  | b :: r => if b =? 39 then 39 :: 92 :: 39 :: 39 :: escape_quotes r else b :: escape_quotes r
  end.

Definition shell_single_quote (value : string) : string :=
  of_bytes ((39 :: escape_quotes (bytes value)) ++ [39])%list.

(** ** VPN services *)

Definition stop_stock_wireguard_tunnel : Run (result unit string) :=
  do? uid <- package_uid STOCK_WIREGUARD_PACKAGE;
  match uid with
  | None => ret (Ok tt)
  | Some uid =>
      do? _ <- run_as_uid uid ("am broadcast --user 0 -n com.wireguard.android/.model.TunnelManager\$IntentReceiver -a com.wireguard.android.action.SET_TUNNEL_DOWN -e tunnel " ++ STOCK_WIREGUARD_TUNNEL);
      ret (Ok tt)
  end.

Definition start_stock_wireguard_tunnel : Run (result unit string) :=
  do? uid <- package_uid STOCK_WIREGUARD_PACKAGE;
  match uid with
  | None => ret (Err "stock WireGuard package is not installed")
  | Some uid =>
      do? _ <- run_as_uid uid ("am broadcast --user 0 -n com.wireguard.android/.model.TunnelManager\$IntentReceiver -a com.wireguard.android.action.SET_TUNNEL_UP -e tunnel " ++ STOCK_WIREGUARD_TUNNEL);
      ret (Ok tt)
  end.

Definition stop_first_party_vpn_service : Run (result unit string) :=
  do? uid <- package_uid APP_OWNED_PACKAGE;
  match uid with
  | None => ret (Ok tt)
  | Some uid =>
      do? _ <- run_as_uid uid "am broadcast --user 0 -n com.example.mobileproxy/.TunnelCommandReceiver -a com.example.mobileproxy.action.STOP_TUNNEL";
      ret (Ok tt)
  end.

(** [config] is the content of the file, if it can be read. *)
Definition push_first_party_tunnel_config (config : option string) : Run (result unit string) :=
  match config with
  | None => ret (Err "failed to read tunnel config")
  | Some config =>
      if bool_decide (config = "") || (16384 <? len config)
      then ret (Err "first-party tunnel config size is invalid")
      else
        do? uid <- package_uid APP_OWNED_PACKAGE;
        match uid with
        | None => ret (Err "first-party VPN package is not installed")
        | Some uid =>
            do? _ <- run_as_uid uid ("am broadcast --user 0 -n com.example.mobileproxy/.TunnelCommandReceiver -a com.example.mobileproxy.action.SET_TUNNEL_CONFIG --es config " ++ shell_single_quote config);
            ret (Ok tt)
        end
  end.

Definition kick_stock_wireguard_bridge : Run unit :=
  do _ <- run_shell "settings put secure always_on_vpn_app com.wireguard.android";
  do _ <- run_shell "settings put secure always_on_vpn_lockdown 0";
  do _ <- stop_stock_wireguard_tunnel;
  do _ <- run_shell "monkey -p com.wireguard.android -c android.intent.category.LAUNCHER 1";
  do _ <- start_stock_wireguard_tunnel;
  ret tt.

Definition kick_first_party_vpn_service (config : option string) : Run (result unit string) :=
  do _ <- stop_stock_wireguard_tunnel;
  do _ <- stop_first_party_vpn_service;
  do? _ <- push_first_party_tunnel_config config;
  do? uid <- package_uid APP_OWNED_PACKAGE;
  match uid with
  | None => ret (Err "first-party VPN package is not installed")
  | Some uid =>
      do? _ <- run_as_uid uid "am broadcast --user 0 -n com.example.mobileproxy/.TunnelCommandReceiver -a com.example.mobileproxy.action.START_TUNNEL";
      ret (Ok tt)
  end.

Definition token_char (c : Z) : bool := is_ascii_alphanumeric c || (c =? 45).

Definition push_local_ui_control_token (token : option string) : Run (result unit string) :=
  match token with
  | None => ret (Ok tt)
  | Some token =>
      if bool_decide (token = "") || (256 <? len token) || negb (all_chars token_char token)
      then ret (Err "local UI control token is invalid")
      else
        do? uid <- package_uid APP_OWNED_PACKAGE;
        match uid with
        | None => ret (Err "Android app is not installed")
        | Some uid =>
            do? _ <- run_as_uid uid ("am broadcast --user 0 -n com.example.mobileproxy/.TunnelCommandReceiver -a com.example.mobileproxy.action.SET_LOCAL_CONTROL_TOKEN --es control_token " ++ shell_single_quote token);
            ret (Ok tt)
        end
  end.

(** Every failure is collected, and nothing stops the next step. *)
Definition note_failure {A} (prefix : string) (r : result A string) (failures : list string)
    : list string :=
  match r with Ok _ => failures | Err e => (failures ++ [(prefix ++ e)%string])%list end.

Fixpoint run_all (prefix : string) (commands : list string) (failures : list string)
    : Run (list string) :=
  match commands with
  | [] => ret failures
  | command :: rest => do r <- run_shell command; run_all prefix rest (note_failure prefix r failures)
  end.

Definition join_with (sep : string) (parts : list string) : string :=
  match parts with
  | [] => ""
  | first :: rest => foldl (fun acc part => acc ++ sep ++ part) first rest
  end.

Definition failures_result (prefix : string) (failures : list string) : result unit string :=
  match failures with [] => Ok tt | _ => Err (prefix ++ join_with "; " failures) end.

Definition stop_compatibility_vpns : Run (result unit string) :=
  let prefix := "compatibility VPN cleanup failed: " in
  do stock <- stop_stock_wireguard_tunnel;
  do own <- stop_first_party_vpn_service;
  do failures <- run_all prefix ["settings delete secure always_on_vpn_app";
                                 "settings put secure always_on_vpn_lockdown 0"]
                   (note_failure prefix own (note_failure prefix stock []));
  ret (failures_result "failed to stop compatibility VPNs: " failures).

(** ** Cellular data and routes *)

Definition bootstrap_cellular_data : Run (result unit string) :=
  do failures <- run_all "cellular bootstrap command failed: "
                   ["svc wifi disable"; "settings put global mobile_data 1"; "svc data enable"] [];
  ret (failures_result "cellular bootstrap failed: " failures).

Definition bounce_mobile_data : Run (result unit string) :=
  do? _ <- run_shell "svc data disable";
  do? _ <- run_shell "svc data enable";
  ret (Ok tt).

Definition tun0_ready : Run bool :=
  do output <- run_ip ["-4"; "addr"; "show"; "tun0"];
  ret (match output with Ok output => contains "inet " output | Err _ => false end).

Definition is_cellular_dev (dev : string) : bool :=
  existsb (fun prefix => starts_with prefix dev) ["rmnet"; "ccmni"; "pdp"; "wwan"].

(** The last word after each of the two keywords. *)
Fixpoint route_words (dev via : option string) (parts : list string) : option string * option string :=
  match parts with
  | word :: ((next :: _) as rest) =>
      route_words (if bool_decide (word = "dev") then Some next else dev)
                  (if bool_decide (word = "via") then Some next else via) rest
  | _ => (dev, via)
  end.

Definition parse_route_line (line : string) : option (string * option string) :=
  let '(dev, via) := route_words None None (split_whitespace line) in
  dev ← dev;
  if negb (is_cellular_dev dev) then None else Some (dev, via).

Definition cellular_route_hint : Run (result (option (string * option string)) string) :=
  do primary <- run_ip ["-4"; "route"; "get"; "1.1.1.1"];
  match parse_route_line (default "" (result_ok primary)) with
  | Some hint => ret (Ok (Some hint))
  | None =>
      do? all_routes <- run_ip ["-4"; "route"; "show"; "table"; "all"];
      ret (Ok (find_map (fun line => if negb (starts_with "default " line) then None
                                     else parse_route_line line) (lines all_routes)))
  end.

Definition shows_default_route (dev output : string) : bool :=
  existsb (fun line => starts_with "default " line && contains (" dev " ++ dev) line) (lines output).

Definition main_default_route_for (dev : string) : Run bool :=
  do output <- run_ip ["route"; "show"; "default"];
  ret (shows_default_route dev (default "" (result_ok output))).

Definition route_args (dev : string) (via : option string) : list string :=
  (["route"; "replace"; "default"] ++ match via with Some via => ["via"; via] | None => [] end
   ++ ["dev"; dev; "table"; "main"])%list.

Definition ensure_cellular_default_route : Run (result unit string) :=
  do? hint <- cellular_route_hint;
  match hint with
  | None => ret (Err "no cellular route hint found")
  | Some (dev, via) =>
      do present <- main_default_route_for dev;
      if present : bool then ret (Ok tt)
      else do? _ <- run_ip (route_args dev via); ret (Ok tt)
  end.

Definition cellular_interface : Run (result string string) :=
  do? hint <- cellular_route_hint;
  ret (ok_or (fst <$> hint) "no cellular route hint found").
End Commands.

(** ** Shell words

    How a POSIX shell reads one word made of quoted pieces and escaped
    characters: the specification of quoting. *)

Inductive WordState := Unquoted | Quoted | Escaped.

Fixpoint shell_word (s : WordState) (l : list Z) : option (list Z) :=
  match s, l with
  | Unquoted, [] => Some []
  | _, [] => None
  | Unquoted, b :: r =>
      if b =? 39 then shell_word Quoted r
      else if b =? 92 then shell_word Escaped r
      else None
  | Quoted, b :: r => if b =? 39 then shell_word Unquoted r else cons b <$> shell_word Quoted r
  | Escaped, b :: r => cons b <$> shell_word Unquoted r
  end.

Lemma shell_word_quoted l rest :
  shell_word Quoted (escape_quotes l ++ 39 :: rest)%list = (fun w => l ++ w)%list <$> shell_word Unquoted rest.
Proof.
  induction l as [|b l IH]; cbn [escape_quotes app].
  - cbn. destruct (shell_word Unquoted rest); done.
  - destruct (Z.eqb_spec b 39) as [->|Hb].
    + cbn [app shell_word]. simpl. rewrite IH. by destruct (shell_word Unquoted rest).
    + cbn [app shell_word]. apply Z.eqb_neq in Hb. rewrite Hb, IH.
      by destruct (shell_word Unquoted rest).
Qed.

(** Quoted text reaches the command unchanged: a shell reads
    [shell_single_quote value] as one word that is exactly [value], whatever
    quotes, blanks or metacharacters it holds, so a token or a configuration can
    not end the word and add to the command. *)
Theorem shell_single_quote_roundtrip value :
  shell_word Unquoted (bytes (shell_single_quote value)) = Some (bytes value).
Proof.
  unfold shell_single_quote. rewrite bytes_of_bytes.
  - cbn [app shell_word]. simpl. rewrite shell_word_quoted. cbn. by rewrite app_nil_r.
  - assert (Forall is_byte (escape_quotes (bytes value))) as Hb.
    { pose proof (bytes_range value) as Hr. induction Hr as [|b l Hb Hl IH]; cbn [escape_quotes];
        [constructor|]. destruct (b =? 39); repeat (constructor; [unfold is_byte in *; lia|]); done. }
    apply Forall_app. split; [constructor; [unfold is_byte; lia|done]|].
    constructor; [unfold is_byte; lia|constructor].
Qed.

(** ** The proxy's configuration *)

(** Fields of an object, kept in the order of its map. *)
Definition get_field (k : string) (v : Value) : option Value :=
  match v with
  | VObject es => (list_to_map es : gmap string Value) !! k
  | _ => None
  end.

(** [v[k] = x]: a null becomes an object, and indexing anything else panics. *)
Definition set_field (k : string) (x : Value) (v : Value) : option Value :=
  match v with
  | VNull => Some (VObject [(k, x)])
  | VObject es => Some (VObject (string_entries (<[k := x]> (list_to_map es : gmap string Value))))
  | _ => None
  end.

(** [v[outer][inner] = x] *)
Definition set_nested (outer inner : string) (x v : Value) : option Value :=
  part ← set_field inner x (default VNull (get_field outer v));
  set_field outer part v.

(** [v.pointer("/outer/inner")] *)
Definition pointer2 (outer inner : string) (v : Value) : option Value :=
  get_field outer v ≫= get_field inner.

Definition value_str (v : Value) : option string := match v with VString s => Some s | _ => None end.

Fixpoint value_eqb (v w : Value) : bool :=
  match v, w with
  | VNull, VNull => true
  | VBool b, VBool b' => Bool.eqb b b'
  | VNumber n, VNumber n' => bool_decide (n = n')
  | VString s, VString s' => bool_decide (s = s')
  | VArray l, VArray l' =>
      (fix go l l' := match l, l' with
        | [], [] => true
        | x :: l, x' :: l' => value_eqb x x' && go l l'
        | _, _ => false
        end) l l'
  | VObject es, VObject es' =>
      (fix go es es' := match es, es' with
        | [], [] => true
        | (k, x) :: es, (k', x') :: es' => bool_decide (k = k') && value_eqb x x' && go es es'
        | _, _ => false
        end) es es'
  | _, _ => false
  end.

(** *** Resolvers *)

(** The text before and after the first occurrence of a separator. *)
Fixpoint split_once (sep s : string) : option (string * string) :=
  match strip_prefix sep s with
  | Some rest => Some ("", rest)
  | None =>
      match s with
      | EmptyString => None
      | String a s' => '(before, after) ← split_once sep s'; Some (String a before, after)
      end
  end.

(** [line.split("DnsAddresses: [").nth(1)] up to the first closing bracket. *)
Definition dns_list (line : string) : string :=
  let separator := "DnsAddresses: [" in
  match split_once separator line with
  | None => ""
  | Some (_, after) =>
      let piece := default after (fst <$> split_once separator after) in
      default piece (fst <$> split_once "]" piece)
  end.

(** [str::parse::<IpAddr>()] *)
Definition parse_ip (s : string) : option IpAddr :=
  match read_ipv4 (bytes s) with
  | Some (octets, []) => Some (V4 octets)
  | _ => match read_ipv6 (bytes s) with Some (octets, []) => Some (V6 octets) | _ => None end
  end.

Definition trim_start_slashes (s : string) : string := of_bytes (drop_while (Z.eqb 47) (bytes s)).

#[export] Instance IpAddr_eq_dec : EqDecision IpAddr.
Proof. solve_decision. Defined.

(** Adds each address once, in the order of first appearance. *)
Definition push_unique (unique : list IpAddr) (address : IpAddr) : list IpAddr :=
  if bool_decide (address ∈ unique) then unique else (unique ++ [address])%list.

Definition line_dns (line : string) : list IpAddr :=
  omap (fun raw => parse_ip (trim_start_slashes (trim raw))) (split 44 (dns_list line)).

Definition parse_validated_cellular_dns (raw : string) : list IpAddr :=
  foldl push_unique [] (List.concat (line_dns <$> List.filter is_validated_cellular_network (lines raw))).

(** [IpAddr::to_string]: dotted octets, or groups with the first longest run of
    at least two zero groups left out. *)
Definition hex_text (n : Z) : string :=
  let digit d := if d <? 10 then d + 48 else d + 87 in
  let a := n / 4096 in let b := n / 256 mod 16 in let c := n / 16 mod 16 in let d := n mod 16 in
  of_bytes (if 0 <? a then [digit a; digit b; digit c; digit d]
            else if 0 <? b then [digit b; digit c; digit d]
            else if 0 <? c then [digit c; digit d] else [digit d]).

Fixpoint groups_of (octets : list Z) : list Z :=
  match octets with
  | hi :: lo :: rest => hi * 256 + lo :: groups_of rest
  | _ => []
  end.

Fixpoint zero_run (groups : list Z) : nat :=
  match groups with 0 :: rest => S (zero_run rest) | _ => O end.

(** The start and length of the first longest run of zeros. *)
Fixpoint longest_run (start : nat) (best : nat * nat) (groups : list Z) : nat * nat :=
  match groups with
  | [] => best
  | _ :: rest =>
      let run := zero_run groups in
      longest_run (S start) (if (snd best <? run)%nat then (start, run) else best) rest
  end.

Definition colon_join (groups : list Z) : string := join_with ":" (hex_text <$> groups).

Definition dotted (octets : list Z) : string := join_with "." (u64_to_string <$> octets).

Definition ip_to_string (ip : IpAddr) : string :=
  match ip with
  | V4 octets => dotted octets
  | V6 octets =>
      if bool_decide (take 12 octets = (replicate 10 0 ++ [255; 255])%list)
      then "::ffff:" ++ dotted (drop 12 octets)
      else
        let groups := groups_of octets in
        let '(start, run) := longest_run 0 (0%nat, 0%nat) groups in
        if (1 <? run)%nat
        then colon_join (take start groups) ++ "::" ++ colon_join (drop (start + run) groups)
        else colon_join groups
  end.

Definition dns_server (index : nat) (address : IpAddr) : Value :=
  VObject [("server", VString (ip_to_string address));
           ("server_port", VNumber (PosInt 53));
           ("tag", VString ("dns-cellular-" ++ u64_to_string (Z.of_nat index + 1)));
           ("type", VString "udp")].

Definition dns_servers (addresses : list IpAddr) : Value := VArray (imap dns_server addresses).

Definition PRIMARY_RESOLVER : string := "dns-cellular-1".

Definition dns_current (addresses : list IpAddr) (document : Value) : bool :=
  is_some_and (pointer2 "dns" "servers" document) (fun v => value_eqb v (dns_servers addresses))
  && bool_decide (pointer2 "dns" "final" document ≫= value_str = Some PRIMARY_RESOLVER)
  && bool_decide (pointer2 "route" "default_domain_resolver" document ≫= value_str
                  = Some PRIMARY_RESOLVER).

Definition set_dns (addresses : list IpAddr) (document : Value) : option Value :=
  document ← set_nested "dns" "servers" (dns_servers addresses) document;
  document ← set_nested "dns" "final" (VString PRIMARY_RESOLVER) document;
  set_nested "route" "default_domain_resolver" (VString PRIMARY_RESOLVER) document.

(** What a reconciliation of the configuration ends in. *)
Inductive Edit :=
| EditUnchanged
| EditWritten (document : Value)
| EditFailed (message : string)
| EditPanics.

(** [connectivity] is the output of [dumpsys connectivity]; [document] the parsed
    configuration; [writes] whether the new one reaches its place. *)
Definition reconcile_cellular_dns (connectivity : Process) (document : option Value) (writes : bool)
    : Edit :=
  match connectivity with
  | SpawnFailed => EditFailed "failed to run dumpsys connectivity"
  | Exited false _ _ => EditFailed "dumpsys connectivity failed"
  | Exited true stdout _ =>
      let addresses := parse_validated_cellular_dns stdout in
      if bool_decide (addresses = []) then EditUnchanged
      else
        match document with
        | None => EditFailed "failed to read proxy configuration"
        | Some document =>
            if dns_current addresses document then EditUnchanged
            else
              match set_dns addresses document with
              | None => EditPanics
              | Some document' =>
                  if writes then EditWritten document'
                  else EditFailed "failed to write proxy configuration"
              end
        end
  end.

(** *** The interface of direct outbounds *)

(** One outbound, and whether it was changed. *)
Definition bind_outbound (interface : string) (outbound : Value) : option (Value * bool) :=
  if bool_decide (get_field "type" outbound ≫= value_str = Some "direct")
     && negb (bool_decide (get_field "bind_interface" outbound ≫= value_str = Some interface))
  then outbound' ← set_field "bind_interface" (VString interface) outbound; Some (outbound', true)
  else Some (outbound, false).

Fixpoint bind_outbounds (interface : string) (outbounds : list Value) : option (list Value * bool) :=
  match outbounds with
  | [] => Some ([], false)
  | outbound :: rest =>
      '(outbound', changed) ← bind_outbound interface outbound;
      '(rest', changed') ← bind_outbounds interface rest;
      Some (outbound' :: rest', changed || changed')
  end.

Definition reconcile_cellular_proxy_interface (interface : result string string)
    (document : option Value) (writes : bool) : Edit :=
  match interface with
  | Err message => EditFailed message
  | Ok interface =>
      match document with
      | None => EditFailed "failed to read proxy configuration"
      | Some document =>
          match get_field "outbounds" document with
          | Some (VArray outbounds) =>
              match bind_outbounds interface outbounds with
              | None => EditPanics
              | Some (_, false) => EditUnchanged
              | Some (outbounds', true) =>
                  match set_field "outbounds" (VArray outbounds') document with
                  | None => EditPanics
                  | Some document' =>
                      if writes then EditWritten document'
                      else EditFailed "failed to write proxy configuration"
                  end
              end
          | _ => EditFailed "sing-box configuration has no outbound inventory"
          end
      end
  end.

(** *** Examples of the sources' tests *)

Example dns_of_line :
  parse_validated_cellular_dns "NetworkAgentInfo{ ni{[type: MOBILE[LTE], state: CONNECTED/CONNECTED]} lp{{DnsAddresses: [ /134.17.1.0,/134.17.1.1 ]}} nc{[ INTERNET&VALIDATED ]}}"
  = [V4 [134; 17; 1; 0]; V4 [134; 17; 1; 1]].
Proof. reflexivity. Qed.

Example ipv6_text :
  ip_to_string <$> parse_ip "2001:db8:0:0:1:0:0:1" = Some "2001:db8::1:0:0:1".
Proof. reflexivity. Qed.

Example route_hint :
  parse_route_line "default via 10.159.140.1 dev rmnet4 table 1006" = Some ("rmnet4", Some "10.159.140.1").
Proof. reflexivity. Qed.

(** ** Edits settle *)

Lemma value_eqb_refl v : value_eqb v v = true.
Proof.
  induction v as [| | | |l IH|es IH] using Value_nested_ind; cbn [value_eqb]; try done.
  - by destruct b.
  - by apply bool_decide_eq_true_2.
  - by apply bool_decide_eq_true_2.
  - induction IH as [|x l Hx _ IHl]; [done|]. by rewrite Hx, IHl.
  - induction IH as [|[k x] es Hx _ IHes]; [done|]. cbn in Hx. rewrite Hx, IHes.
    by rewrite bool_decide_eq_true_2.
Qed.

Lemma get_set_field k k' x v v' :
  set_field k x v = Some v' ->
  get_field k' v' = if decide (k = k') then Some x else get_field k' v.
Proof.
  destruct v; cbn; try done; intros [= <-]; cbn.
  - destruct (decide (k = k')) as [->|]; [by rewrite lookup_insert_eq|].
    by rewrite lookup_insert_ne.
  - rewrite list_to_map_entries. destruct (decide (k = k')) as [->|];
      [by rewrite lookup_insert_eq|by rewrite lookup_insert_ne].
Qed.

Lemma set_nested_pointer o i x v v' o' i' :
  set_nested o i x v = Some v' ->
  pointer2 o' i' v' = if decide (o = o' /\ i = i') then Some x else pointer2 o' i' v.
Proof.
  unfold set_nested, pointer2. intros (part & Hpart & Hset)%bind_Some.
  rewrite (get_set_field _ o' _ _ _ Hset).
  destruct (decide (o = o')) as [<-|Hne]; [|by rewrite decide_False by tauto].
  cbn [mbind option_bind]. rewrite (get_set_field _ i' _ _ _ Hpart).
  destruct (decide (i = i')) as [<-|Hne]; [by rewrite decide_True by done|].
  rewrite decide_False by tauto. by destruct (get_field o v).
Qed.

Lemma set_nested_other o i x v v' k :
  set_nested o i x v = Some v' -> k <> o -> get_field k v' = get_field k v.
Proof.
  intros (part & _ & Hset)%bind_Some Hk. rewrite (get_set_field _ k _ _ _ Hset).
  by rewrite decide_False.
Qed.

Lemma set_dns_current addresses document document' :
  set_dns addresses document = Some document' -> dns_current addresses document' = true.
Proof.
  unfold set_dns. intros (d1 & H1 & (d2 & H2 & H3)%bind_Some)%bind_Some. unfold dns_current.
  rewrite !(set_nested_pointer _ _ _ _ _ _ _ H3), !(set_nested_pointer _ _ _ _ _ _ _ H2),
    !(set_nested_pointer _ _ _ _ _ _ _ H1).
  repeat (case_decide; try tauto; try (exfalso; by destruct_and?)).
  cbn [is_some_and mbind option_bind value_str]. rewrite value_eqb_refl.
  by rewrite bool_decide_eq_true_2.
Qed.

Lemma bind_outbounds_spec interface outbounds outbounds' changed :
  bind_outbounds interface outbounds = Some (outbounds', changed) ->
  bind_outbounds interface outbounds' = Some (outbounds', false).
Proof.
  revert outbounds' changed. induction outbounds as [|o os IH]; intros outbounds' changed;
    cbn [bind_outbounds]; [by intros [= <- _]|].
  intros ([o' c] & Ho & ([os' c'] & Hos & [= <- _])%bind_Some)%bind_Some.
  cbn [bind_outbounds]. rewrite (IH _ _ Hos).
  assert (bind_outbound interface o' = Some (o', false)) as ->; [|done].
  revert Ho. unfold bind_outbound.
  destruct (bool_decide (get_field "type" o ≫= _ = _)) eqn:Ht, (bool_decide
    (get_field "bind_interface" o ≫= _ = _)) eqn:Hb; cbn [andb negb];
    try (intros [= <- _]; rewrite Ht, Hb; done).
  intros (x & Hx & [= <- _])%bind_Some.
  rewrite !(get_set_field _ _ _ _ _ Hx), decide_False, decide_True by done.
  rewrite Ht. cbn. by rewrite bool_decide_true.
Qed.

(** The supervisor's edits of the proxy configuration settle: once the new
    resolvers, or the cellular interface of the direct outbounds, are written, the
    next turn of the loop finds nothing to change, so the proxy is restarted once
    per change of the network and not again; and every other part of the
    configuration is as it was. *)
Theorem proxy_edits_settle connectivity interface document document' writes writes' :
  (reconcile_cellular_dns connectivity (Some document) writes = EditWritten document' ->
   reconcile_cellular_dns connectivity (Some document') writes' = EditUnchanged
   /\ forall k, k <> "dns" -> k <> "route" -> get_field k document' = get_field k document)
  /\ (reconcile_cellular_proxy_interface interface (Some document) writes = EditWritten document' ->
      reconcile_cellular_proxy_interface interface (Some document') writes' = EditUnchanged
      /\ forall k, k <> "outbounds" -> get_field k document' = get_field k document).
Proof.
  split.
  - unfold reconcile_cellular_dns. destruct connectivity as [|[] stdout stderr]; try done.
    case_bool_decide; [done|]. destruct (dns_current _ document); [done|].
    destruct (set_dns _ document) as [d|] eqn:Hd; [|done]. destruct writes; [|done].
    intros [= <-]. rewrite (set_dns_current _ _ _ Hd). split; [done|].
    revert Hd. unfold set_dns. intros (d1 & H1 & (d2 & H2 & H3)%bind_Some)%bind_Some k Hk Hk'.
    by rewrite (set_nested_other _ _ _ _ _ _ H3), (set_nested_other _ _ _ _ _ _ H2),
      (set_nested_other _ _ _ _ _ _ H1).
  - unfold reconcile_cellular_proxy_interface. destruct interface as [interface|]; [|done].
    destruct (get_field "outbounds" document) as [[| | | |outbounds|]|]; try done.
    destruct (bind_outbounds interface outbounds) as [[outbounds' []]|] eqn:Hb; try done.
    destruct (set_field "outbounds" _ document) as [d|] eqn:Hd; [|done]. destruct writes; [|done].
    intros [= <-]. rewrite (get_set_field _ _ _ _ _ Hd), decide_True by done.
    rewrite (bind_outbounds_spec _ _ _ _ Hb). split; [done|].
    intros k Hk. by rewrite (get_set_field _ _ _ _ _ Hd), decide_False by done.
Qed.

(** ** Names that extend other names *)

(** The package lookup matches a package by the beginning of its name: listed
    first, another application whose name extends the one that was asked for is
    taken for it, and its user would be given the phone's control token. *)
Theorem longer_package_name_is_taken :
  parse_package_uid ("package:com.example.mobileproxyextra uid:10500" ++ of_bytes [10]
                     ++ "package:com.example.mobileproxy uid:10209") APP_OWNED_PACKAGE
  = Some 10500.
Proof. reflexivity. Qed.

(** A default route through an interface whose name extends the cellular one
    passes for a route through it, so the missing route is not repaired. *)
Theorem longer_interface_name_is_taken :
  shows_default_route "rmnet1" "default via 10.0.0.1 dev rmnet10" = true.
Proof. reflexivity. Qed.
