(* ===== verification/SupervisorConfig.v ===== *)
(** * The supervisor's configuration

    [services/runtime-supervisor/src/{cli,config}.rs]: the command line, the part of
    the node's configuration the supervisor reads, the owner of the tunnel, and the
    copy of the proxy's configuration the supervisor may change while it runs.  The
    derived JSON reader is a parameter; files are a map from paths to bytes. *)

From stdpp Require Import base gmap strings list fin_maps.
From Stdlib Require Import ZArith Lia Ascii String.
From S2P Require Import Prelude Ordered Text NetText.
Local Open Scope string_scope.
Local Open Scope Z_scope.
Local Open Scope rust_scope.

(** ** The command line and the file *)

Record SupervisorCli := mk_supervisor_cli {
  cli_runtime_root : string;
  cli_poll_secs : Z;
  cli_repair_cooldown_secs : Z;
  cli_data_bounce_down_secs : Z;
  cli_data_bounce_settle_secs : Z;
  cli_once : bool;
}.

Definition default_cli : SupervisorCli :=
  mk_supervisor_cli "/data/adb/mobile-proxy-node/current" 1 15 2 8 false.

Record ProxySection := mk_proxy_section {
  section_binary : option string;
  section_args : list string;
  section_working_dir : option string;
  section_username : option string;
  section_password : option string;
}.

Record RuntimeConfig := mk_runtime_config {
  file_listen : option string;
  file_admin_token : string;
  file_ui_control_token : option string;
  file_proxy : ProxySection;
  file_app_egress : option Z;
  file_wireguard_enabled : bool;
  file_wireguard_owner : string;
}.

(** [serde_json::from_str::<RuntimeConfig>] *)
Class RuntimeConfigJson := runtime_config_from_json : list Z -> option RuntimeConfig.

(** ** The owner of the tunnel *)

Inductive TunnelOwner :=
| StockWireguardBridge
| FirstPartyVpnService
| FirstPartyReverseTunnel
| FirstPartyAndroidEgress.

#[export] Instance TunnelOwner_eq_dec : EqDecision TunnelOwner.
Proof. solve_decision. Defined.

Definition owner_as_str (o : TunnelOwner) : string :=
  match o with
  | StockWireguardBridge => "stock_wireguard_bridge"
  | FirstPartyVpnService => "first_party_vpn_service"
  | FirstPartyReverseTunnel => "first_party_reverse_tunnel"
  | FirstPartyAndroidEgress => "first_party_android_egress"
  end.

Definition owner_parse (raw : string) : result TunnelOwner string :=
  if bool_decide (raw = "stock_wireguard_bridge") then Ok StockWireguardBridge
  else if bool_decide (raw = "first_party_vpn_service") then Ok FirstPartyVpnService
  else if bool_decide (raw = "first_party_reverse_tunnel") then Ok FirstPartyReverseTunnel
  else if bool_decide (raw = "first_party_android_egress") then Ok FirstPartyAndroidEgress
  else Err ("unsupported tunnel owner " ++ raw ++ "; expected stock_wireguard_bridge, first_party_vpn_service, first_party_reverse_tunnel, or first_party_android_egress").

Definition validate_wireguard_flag (o : TunnelOwner) (enabled : bool) : result unit string :=
  match o, enabled with
  | FirstPartyReverseTunnel, false
  | FirstPartyAndroidEgress, false
  | StockWireguardBridge, true
  | FirstPartyVpnService, true => Ok tt
  | FirstPartyReverseTunnel, true => Err "first_party_reverse_tunnel must not enable WireGuard"
  | FirstPartyAndroidEgress, true => Err "first_party_android_egress must not enable WireGuard"
  | StockWireguardBridge, false =>
      Err "stock WireGuard rollback owner requires wireguard.enabled=true"
  | FirstPartyVpnService, false => Err "first_party_vpn_service requires wireguard.enabled=true"
  end.

(** ** Paths *)

(** [Path::join] with a relative path. *)
Definition path_join (root part : string) : string :=
  if bool_decide (root = "") || ends_with "/" root then root ++ part else root ++ "/" ++ part.

(** A reversed path without its trailing separators and [.] components. *)
Fixpoint trim_path (reversed : list Z) : list Z :=
  match reversed with
  | 47 :: ((_ :: _) as rest) => trim_path rest
  | 46 :: ((47 :: _) as rest) => trim_path rest
  | l => l
  end.

(** The last component of a reversed path, and what comes before it. *)
Fixpoint last_component (acc reversed : list Z) : list Z * list Z :=
  match reversed with
  | [] => (acc, [])
  | b :: rest => if b =? 47 then (acc, trim_path reversed) else last_component (b :: acc) rest
  end.

Definition path_split (path : string) : string * string :=
  let '(name, before) := last_component [] (trim_path (rev (bytes path))) in
  (of_bytes name, of_bytes (rev before)).

Definition mutable_proxy_config_path (runtime_root : string) : string :=
  let '(file_name, parent) := path_split runtime_root in
  if bool_decide (file_name = "current") then path_join parent "state/sing-box.json"
  else path_join runtime_root "state/sing-box.json".

(** ** The proxy's arguments *)

Definition default_proxy_args (runtime_root : string) (args : list string) : list string :=
  match args with
  | [] => ["run"; "-c"; path_join runtime_root "config/sing-box.json"]
  | _ => args
  end.

Definition is_config_flag (arg : string) : bool :=
  bool_decide (arg = "-c") || bool_decide (arg = "--config").

(** The argument after the first configuration flag that has one. *)
Fixpoint config_arg (args : list string) : option string :=
  match args with
  | flag :: ((value :: _) as rest) => if is_config_flag flag then Some value else config_arg rest
  | _ => None
  end.

Definition proxy_config_path (runtime_root : string) (args : list string) : string :=
  default (path_join runtime_root "config/sing-box.json") (config_arg args).

Fixpoint replace_proxy_config_arg (args : list string) (config : string) : list string :=
  match args with
  | flag :: ((value :: rest') as rest) =>
      if is_config_flag flag then flag :: config :: rest'
      else flag :: replace_proxy_config_arg rest config
  | _ => args
  end.

(** ** Loading *)

Record AppEgressConfig := mk_app_egress {
  egress_port : Z;
  egress_username : string;
  egress_password : string;
}.

Record SupervisorConfig := mk_supervisor_config {
  host_config : string;
  host_binary : string;
  host_listen : string;
  admin_token : string;
  ui_control_token : option string;
  proxy_binary : string;
  proxy_config : string;
  proxy_args : list string;
  proxy_working_dir : string;
  wireguard_enabled : bool;
  tunnel_owner : TunnelOwner;
  app_tunnel_config : option string;
  app_egress : option AppEgressConfig;
  poll_secs : Z;
  repair_cooldown_secs : Z;
  data_bounce_down_secs : Z;
  data_bounce_settle_secs : Z;
  once : bool;
}.

Definition Files := gmap string (list Z).

(** Copies a file; [writable] says whether the directory and the target can be
    written and the mode of the target set. *)
Definition prepare_mutable_proxy_config (writable : bool) (source target : string) (files : Files)
    : result Files string :=
  if negb writable then Err ("failed to initialize mutable proxy config " ++ target)
  else
    let? body := ok_or (files !! source)
      ("failed to initialize mutable proxy config " ++ target ++ " from " ++ source) in
    Ok (<[target := body]> files).

Definition app_egress_config (owner : TunnelOwner) (file : RuntimeConfig)
    : result (option AppEgressConfig) string :=
  if negb (bool_decide (owner = FirstPartyAndroidEgress)) then Ok None
  else
    let? port := ok_or (file_app_egress file) "first_party_android_egress requires app_egress" in
    if negb ((1024 <=? port) && (port <=? 65535)) then Err "app_egress.port must be unprivileged"
    else
      let? username := ok_or (section_username (file_proxy file)) "app_egress requires proxy.username" in
      let? password := ok_or (section_password (file_proxy file)) "app_egress requires proxy.password" in
      if bool_decide (username = "") || (256 <? len username) || (len password <? 16)
      then Err "app_egress proxy credentials are invalid"
      else Ok (Some (mk_app_egress port username password)).

Definition app_tunnel_path (owner : TunnelOwner) (runtime_root : string) (files : Files)
    : result (option string) string :=
  if negb (bool_decide (owner = FirstPartyVpnService)) then Ok None
  else
    let path := path_join runtime_root "config/app-wireguard.conf" in
    match files !! path with
    | Some _ => Ok (Some path)
    | None => Err ("missing first-party VPN tunnel config: " ++ path)
    end.

Section Loading.
Context `{RuntimeConfigJson}.

Definition read_runtime_config (cli : SupervisorCli) (files : Files) : result RuntimeConfig string :=
  let host_config := path_join (cli_runtime_root cli) "config/host-daemon.json" in
  let? body := ok_or (files !! host_config) ("failed to read " ++ host_config) in
  ok_or (runtime_config_from_json body) ("failed to parse " ++ host_config).

Definition accepted_owner (file : RuntimeConfig) : result TunnelOwner string :=
  let? owner := owner_parse (file_wireguard_owner file) in
  let? _ := validate_wireguard_flag owner (file_wireguard_enabled file) in
  if bool_decide (owner = FirstPartyVpnService)
  then Err "first_party_vpn_service is disabled after physical validation on July 26, 2026: Android VpnService did not expose a routable 10.66.66.2 listener for the rooted proxy runtime"
  else Ok owner.

Definition assemble (cli : SupervisorCli) (file : RuntimeConfig) (owner : TunnelOwner)
    (args : list string) (target : string) (files : Files) : result SupervisorConfig string :=
  let runtime_root := cli_runtime_root cli in
  let? egress := app_egress_config owner file in
  let? tunnel := app_tunnel_path owner runtime_root files in
  Ok (mk_supervisor_config (path_join runtime_root "config/host-daemon.json")
        (path_join runtime_root "bin/host-daemon")
        (default "127.0.0.1:8088" (file_listen file)) (file_admin_token file)
        (file_ui_control_token file)
        (default (path_join runtime_root "bin/sing-box") (section_binary (file_proxy file)))
        target (replace_proxy_config_arg args target)
        (default runtime_root (section_working_dir (file_proxy file)))
        (file_wireguard_enabled file) owner tunnel egress (cli_poll_secs cli)
        (cli_repair_cooldown_secs cli) (cli_data_bounce_down_secs cli)
        (cli_data_bounce_settle_secs cli) (cli_once cli)).

(** The result, and the files afterwards: the copy stays when a later check fails. *)
Definition load_config (writable : bool) (cli : SupervisorCli) (files : Files)
    : result SupervisorConfig string * Files :=
  let runtime_root := cli_runtime_root cli in
  match read_runtime_config cli files with
  | Err e => (Err e, files)
  | Ok file =>
      let args := default_proxy_args runtime_root (section_args (file_proxy file)) in
      let target := mutable_proxy_config_path runtime_root in
      match accepted_owner file with
      | Err e => (Err e, files)
      | Ok owner =>
          match prepare_mutable_proxy_config writable (proxy_config_path runtime_root args) target files with
          | Err e => (Err e, files)
          | Ok files' => (assemble cli file owner args target files', files')
          end
      end
  end.
End Loading.

(** *** Examples of the sources' tests *)

Example current_release :
  mutable_proxy_config_path "/data/adb/mobile-proxy-node/current"
  = "/data/adb/mobile-proxy-node/state/sing-box.json".
Proof. reflexivity. Qed.

Example other_release : mutable_proxy_config_path "/tmp/node/./" = "/tmp/node/./state/sing-box.json".
Proof. reflexivity. Qed.

Example relative_release :
  mutable_proxy_config_path "current/" = "state/sing-box.json"
  /\ mutable_proxy_config_path "/current" = "/state/sing-box.json".
Proof. by split. Qed.
