(* ===== verification/Supervisor.v ===== *)
(** * The supervisor

    [services/runtime-supervisor/src/{health,process,main}.rs] and the egress
    provisioning of [android.rs]: what the supervisor remembers, the processes it
    owns, the repairs it makes, and the turns of its loop.  Instants are
    nanoseconds; a turn's readings of the clock, the outcome of each file
    operation and of each spawn, and the answer of the host daemon are inputs of
    the turn. *)

From stdpp Require Import base gmap strings list fin_maps.
From Stdlib Require Import ZArith Lia Ascii String.
From S2P Require Import Prelude Ordered Text NetText Foundation RuntimeDomain RuntimeProjection.
From S2P Require Import TunnelModel Commands ConfigJson HostDaemon PhoneSystem SupervisorConfig.
Local Open Scope string_scope.
Local Open Scope Z_scope.
Local Open Scope rust_scope.
Local Open Scope run_scope.

(** ** Memory *)

Module SupervisorState.
Record t := mk {
  lifecycle_state : RuntimeState;
  last_route_repair : option Z;
  last_proxy_restart : option Z;
  last_tun0_ready : option bool;
}.

Definition new : t := mk Booting None None None.
Definition repaired (now : Z) (s : t) : t :=
  mk (lifecycle_state s) (Some now) (last_proxy_restart s) (last_tun0_ready s).
Definition restarted (now : Z) (s : t) : t :=
  mk (lifecycle_state s) (last_route_repair s) (Some now) (last_tun0_ready s).
Definition set_tun0 (ready : option bool) (s : t) : t :=
  mk (lifecycle_state s) (last_route_repair s) (last_proxy_restart s) ready.
Definition set_lifecycle (state : RuntimeState) (s : t) : t :=
  mk state (last_route_repair s) (last_proxy_restart s) (last_tun0_ready s).
End SupervisorState.
Import SupervisorState (lifecycle_state, last_route_repair, last_proxy_restart, last_tun0_ready).

Record ObservedRuntimeTransition := mk_transition {
  transition_from : RuntimeState;
  transition_to : RuntimeState;
}.

Definition NANOS : Z := 1000000000.

(** [Instant::elapsed], which never goes below zero. *)
Definition elapsed (now last : Z) : Z := Z.max 0 (now - last).

(** [Duration::from_secs(secs.max(1))] *)
Definition cooldown (secs : Z) : Z := Z.max secs 1 * NANOS.

(** The instant a guard was checked at, and the one recorded when it passed. *)
Record Readings := mk_readings { checked : Z; recorded : Z }.

Definition observe_readiness (raw : string) (s : SupervisorState.t)
    : option ObservedRuntimeTransition * SupervisorState.t :=
  let next := state_from_legacy_readiness raw in
  if bool_decide (next = lifecycle_state s) then (None, s)
  else (Some (mk_transition (lifecycle_state s) next), SupervisorState.set_lifecycle next s).

Definition claim_proxy_restart (now : Readings) (cooldown_secs : Z) (s : SupervisorState.t)
    : bool * SupervisorState.t :=
  if is_some_and (last_proxy_restart s) (fun last => elapsed (checked now) last <? cooldown cooldown_secs)
  then (false, s)
  else (true, SupervisorState.restarted (recorded now) s).

Definition observe_wireguard_tunnel_ready (enabled ready : bool) (s : SupervisorState.t)
    : bool * SupervisorState.t :=
  if negb enabled then (false, SupervisorState.set_tun0 None s)
  else (bool_decide (last_tun0_ready s = Some false) && ready, SupervisorState.set_tun0 (Some ready) s).

Definition route_repair_allowed (now : Z) (config : SupervisorConfig) (s : SupervisorState.t) : bool :=
  is_none_or (last_route_repair s)
    (fun last => cooldown (repair_cooldown_secs config) <=? elapsed now last).

(** ** Provisioning the Android egress *)

Definition APP_EGRESS_FILES_DIR : string := "/data/user_de/0/com.example.mobileproxy/files".

(** What [create_dir] answers. *)
Inductive DirOutcome := DirCreated | DirExists | DirFailed.

Record EgressFs := mk_egress_fs {
  dir_outcome : DirOutcome;
  dir_is_dir : bool;
  dir_secured : bool;
  temporary_written : bool;
  temporary_secured : bool;
  target_renamed : bool;
}.

Definition egress_body (port : Z) (username password : string) : Value :=
  VObject [("password", VString password); ("port", VNumber (PosInt port));
           ("username", VString username)].

Definition owner_pair (uid : Z) : string := u64_to_string uid ++ ":" ++ u64_to_string uid.

Section Supervising.
Context `{Oracle}.

Definition ensure_android_egress_files_dir (fs : EgressFs) (uid : Z) : Run (result unit string) :=
  match dir_outcome fs with
  | DirFailed => ret (Err ("failed to create " ++ APP_EGRESS_FILES_DIR))
  | DirCreated | DirExists =>
      if negb (dir_is_dir fs) then ret (Err "Android egress files path is not a directory")
      else if negb (dir_secured fs) then ret (Err "set_permissions failed")
      else do? _ <- run_command "chown" [owner_pair uid; APP_EGRESS_FILES_DIR]; ret (Ok tt)
  end.

(** The body that becomes the active configuration. *)
Definition write_android_egress_config (fs : EgressFs) (uid port : Z) (username password : string)
    : Run (result Value string) :=
  if negb ((1024 <=? port) && (port <=? 65535)) || bool_decide (username = "")
     || (256 <? len username) || (len password <? 16)
  then ret (Err "Android egress configuration is invalid")
  else
    do? _ <- ensure_android_egress_files_dir fs uid;
    let target := path_join APP_EGRESS_FILES_DIR "cellular-egress.json" in
    let temporary := path_join APP_EGRESS_FILES_DIR "cellular-egress.json.tmp" in
    if negb (temporary_written fs) then ret (Err ("failed to write " ++ temporary))
    else if negb (temporary_secured fs) then ret (Err "set_permissions failed")
    else
      do? _ <- run_command "chown" [owner_pair uid; temporary];
      if negb (target_renamed fs) then ret (Err ("failed to activate " ++ target))
      else ret (Ok (egress_body port username password)).

Definition provision_android_egress (fs : EgressFs) (port : Z) (username password : string)
    : Run (result unit string) :=
  do? uid <- package_uid APP_OWNED_PACKAGE;
  match uid with
  | None => ret (Err "Android egress package is not installed")
  | Some uid =>
      do? _ <- write_android_egress_config fs uid port username password;
      do? _ <- run_as_uid uid
        "am start-foreground-service --user 0 -n com.example.mobileproxy/.CellularEgressService";
      ret (Ok tt)
  end.

(** ** Repairs *)

(** [tunnel_file] is the content of the first-party tunnel's configuration. *)
Definition kick_first_party (config : SupervisorConfig) (tunnel_file : option string) : Run unit :=
  match app_tunnel_config config with
  | Some _ => do _ <- kick_first_party_vpn_service tunnel_file; ret tt
  | None => ret tt
  end.

Definition kick_owner (config : SupervisorConfig) (tunnel_file : option string) : Run unit :=
  match tunnel_owner config with
  | StockWireguardBridge => kick_stock_wireguard_bridge
  | FirstPartyVpnService => kick_first_party config tunnel_file
  | FirstPartyReverseTunnel | FirstPartyAndroidEgress => ret tt
  end.

Definition reconcile_wireguard (config : SupervisorConfig) (tunnel_file : option string) : Run unit :=
  if negb (wireguard_enabled config) then ret tt
  else
    do ready <- tun0_ready;
    if ready : bool then ret tt else kick_owner config tunnel_file.

Definition reconcile_startup_cellular_bootstrap (config : SupervisorConfig) (now : Readings)
    (s : SupervisorState.t) : Run SupervisorState.t :=
  if negb (bool_decide (tunnel_owner config = FirstPartyReverseTunnel)) then ret s
  else if negb (route_repair_allowed (checked now) config s) then ret s
  else
    do _ <- bootstrap_cellular_data;
    ret (SupervisorState.repaired (recorded now) s).

Context `{Blake3}.

Definition reconcile_reverse_tunnel_cellular_bootstrap (config : SupervisorConfig) (now : Readings)
    (health : HealthRecord.t) (s : SupervisorState.t) : Run SupervisorState.t :=
  if negb (bool_decide (tunnel_owner config = FirstPartyReverseTunnel)) || HealthRecord.serving health
  then ret s
  else
    match HealthRecord.degradation_reason_code health with
    | None => ret s
    | Some reason =>
        if negb (bool_decide (reason = "reverse_tunnel_not_ready")) then ret s
        else if negb (route_repair_allowed (checked now) config s) then ret s
        else
          do _ <- bootstrap_cellular_data;
          ret (SupervisorState.repaired (recorded now) s)
    end.

Definition reconcile_health (config : SupervisorConfig) (tunnel_file : option string) (now : Readings)
    (health : HealthRecord.t) (s : SupervisorState.t) : Run (result unit string * SupervisorState.t) :=
  let '(_, s) := observe_readiness (HealthRecord.readiness_state health) s in
  do _ <- (if bool_decide (HealthRecord.wg_handshake_recent health = Some false)
           then kick_owner config tunnel_file else ret tt);
  if negb (bool_decide (HealthRecord.cellular_route_ready health = Some false)) then
    do _ <- ensure_cellular_default_route;
    do s <- reconcile_reverse_tunnel_cellular_bootstrap config now health s;
    ret (Ok tt, s)
  else if negb (route_repair_allowed (checked now) config s) then ret (Ok tt, s)
  else
    let s := SupervisorState.repaired (recorded now) s in
    do repaired <- ensure_cellular_default_route;
    match repaired with
    | Ok _ => ret (Ok tt, s)
    | Err _ =>
        do bounced <- bounce_mobile_data;
        ret (map_err (fun _ => "mobile data bounce failed") bounced, s)
    end.

(** ** Processes *)

Definition STALE_RUNTIME_PATTERNS : list string :=
  ["/data/adb/mobile-proxy-node/.*/bin/runtime-supervisor";
   "/data/adb/mobile-proxy-node/.*/bin/host-daemon";
   "/data/adb/mobile-proxy-node/.*/bin/sing-box";
   "/data/adb/mobile-proxy-node/.*/service.sh --route-guard"].

Definition MAX_LOG_BYTES : Z := 5 * 1024 * 1024.

Definition matching_pids (pattern : string) : Run (result (list Z) string) :=
  fun t =>
    (match answer t ["pgrep"; "-f"; pattern] with
     | SpawnFailed => Err ("failed to run pgrep for " ++ pattern)
     | Exited false _ _ => Ok []
     | Exited true stdout _ => Ok (omap (fun line => parse_unsigned u32_max (trim line)) (lines stdout))
     end, (t ++ [["pgrep"; "-f"; pattern]])%list).

Definition terminate (pid : Z) : Run unit :=
  fun t => (tt, (t ++ [["kill"; "-TERM"; u64_to_string pid]])%list).

Fixpoint terminate_stale_pids (current_pid : Z) (pids : list Z) : Run unit :=
  match pids with
  | [] => ret tt
  | pid :: rest =>
      do _ <- (if pid =? current_pid then ret tt else terminate pid);
      terminate_stale_pids current_pid rest
  end.

Fixpoint cleanup_patterns (current_pid : Z) (patterns : list string) : Run unit :=
  match patterns with
  | [] => ret tt
  | pattern :: rest =>
      do pids <- matching_pids pattern;
      do _ <- match pids with
              | Ok pids => terminate_stale_pids current_pid pids
              | Err _ => ret tt
              end;
      cleanup_patterns current_pid rest
  end.

Definition cleanup_stale_runtime_processes (current_pid : Z) : Run unit :=
  cleanup_patterns current_pid STALE_RUNTIME_PATTERNS.
End Supervising.

(** *** Log files *)

(** The sizes of a log and of the one rotated away. *)
Record LogFile := mk_log { log_size : option Z; rotated_size : option Z }.

(** How the file operations of one spawn end, and the process it starts. *)
Record SpawnEnv := mk_spawn_env {
  binary_present : bool;
  log_dir_ready : bool;
  old_log_removed : bool;
  log_renamed : bool;
  log_opened : bool;
  log_secured : bool;
  log_cloned : bool;
  spawned : option Z;
}.

Definition rotate_log (e : SpawnEnv) (max_bytes : Z) (log : LogFile) : result unit string * LogFile :=
  match log_size log with
  | None => (Ok tt, log)
  | Some size =>
      if size <? max_bytes then (Ok tt, log)
      else if bool_decide (is_Some (rotated_size log)) && negb (old_log_removed e)
      then (Err "failed to remove old rotated log", log)
      else if negb (log_renamed e) then (Err "failed to rotate runtime log", mk_log (Some size) None)
      else (Ok tt, mk_log None (Some size))
  end.

Definition append_log (e : SpawnEnv) (log : LogFile) : result unit string * LogFile :=
  if negb (log_dir_ready e) then (Err "failed to create runtime log directory", log)
  else
    match rotate_log e MAX_LOG_BYTES log with
    | (Err message, log') => (Err message, log')
    | (Ok _, log') =>
        if negb (log_opened e) then (Err "failed to open runtime log", log')
        else
          let opened := mk_log (Some (default 0 (log_size log'))) (rotated_size log') in
          (if negb (log_secured e) then Err "failed to secure runtime log" else Ok tt, opened)
    end.

(** The system the supervisor runs in: its children, the live processes among
    those it started, the two logs. *)
Record Runtime := mk_runtime {
  host_daemon : option Z;
  proxy : option Z;
  live : gset Z;
  daemon_log : LogFile;
  proxy_log : LogFile;
}.

Definition set_host_daemon (child : option Z) (r : Runtime) : Runtime :=
  mk_runtime child (proxy r) (live r) (daemon_log r) (proxy_log r).
Definition set_proxy (child : option Z) (r : Runtime) : Runtime :=
  mk_runtime (host_daemon r) child (live r) (daemon_log r) (proxy_log r).
Definition set_live (ps : gset Z) (r : Runtime) : Runtime :=
  mk_runtime (host_daemon r) (proxy r) ps (daemon_log r) (proxy_log r).
Definition set_daemon_log (log : LogFile) (r : Runtime) : Runtime :=
  mk_runtime (host_daemon r) (proxy r) (live r) log (proxy_log r).
Definition set_proxy_log (log : LogFile) (r : Runtime) : Runtime :=
  mk_runtime (host_daemon r) (proxy r) (live r) (daemon_log r) log.

(** [RuntimeChildren::new] beside the logs of an earlier run. *)
Definition no_children (daemon_log proxy_log : LogFile) : Runtime :=
  mk_runtime None None ∅ daemon_log proxy_log.

(** [try_wait]; [fails] when the system call does. *)
Definition child_exited (fails : bool) (child : option Z) (r : Runtime) : result bool string :=
  match child with
  | None => Ok false
  | Some pid => if fails then Err "try_wait failed" else Ok (bool_decide (pid ∉ live r))
  end.

(** [kill] followed by [wait], which returns when the process has ended. *)
Definition stop_process (pid : Z) (r : Runtime) : Runtime := set_live (live r ∖ {[pid]}) r.

Definition restart_host_daemon_after_proxy_exit (r : Runtime) : Runtime :=
  match host_daemon r with
  | None => r
  | Some pid => stop_process pid (set_host_daemon None r)
  end.

Definition uses_reverse_tunnel (owner : TunnelOwner) : bool :=
  match owner with
  | FirstPartyReverseTunnel | FirstPartyAndroidEgress => true
  | StockWireguardBridge | FirstPartyVpnService => false
  end.

Definition restart_proxy (config : SupervisorConfig) (r : Runtime) : Runtime :=
  match proxy r with
  | None => r
  | Some pid =>
      let r := stop_process pid (set_proxy None r) in
      if uses_reverse_tunnel (tunnel_owner config) then restart_host_daemon_after_proxy_exit r else r
  end.

(** The start of one binary with its log: [Ok] with the process it became. *)
Definition spawn (binary : string) (e : SpawnEnv) (log : LogFile) : result Z string * LogFile :=
  if negb (binary_present e) then (Err ("missing runtime binary: " ++ binary), log)
  else
    match append_log e log with
    | (Err message, log') => (Err message, log')
    | (Ok _, log') =>
        (if negb (log_cloned e) then Err "failed to clone log"
         else ok_or (spawned e) ("failed to spawn " ++ binary), log')
    end.

Definition spawn_proxy (config : SupervisorConfig) (e : SpawnEnv) (r : Runtime)
    : result unit string * Runtime :=
  let '(child, log) := spawn (proxy_binary config) e (proxy_log r) in
  let r := set_proxy_log log r in
  match child with
  | Ok pid => (Ok tt, set_live (live r ∪ {[pid]}) (set_proxy (Some pid) r))
  | Err message => (Err message, r)
  end.

Definition spawn_host_daemon (config : SupervisorConfig) (e : SpawnEnv) (r : Runtime)
    : result unit string * Runtime :=
  let '(child, log) := spawn (host_binary config) e (daemon_log r) in
  let r := set_daemon_log log r in
  match child with
  | Ok pid => (Ok tt, set_live (live r ∪ {[pid]}) (set_host_daemon (Some pid) r))
  | Err message => (Err message, r)
  end.

Record ChildEnv := mk_child_env {
  proxy_wait_fails : bool;
  daemon_wait_fails : bool;
  proxy_spawn : SpawnEnv;
  daemon_spawn : SpawnEnv;
}.

(** The first half of [ensure]: children that ended are forgotten, and a proxy that
    ended under a reverse tunnel takes the host daemon with it. *)
Definition forget_proxy (config : SupervisorConfig) (e : ChildEnv) (r : Runtime)
    : result unit string * Runtime :=
  match child_exited (proxy_wait_fails e) (proxy r) r with
  | Err message => (Err message, r)
  | Ok false => (Ok tt, r)
  | Ok true =>
      let r := set_proxy None r in
      (Ok tt, if uses_reverse_tunnel (tunnel_owner config)
              then restart_host_daemon_after_proxy_exit r else r)
  end.

Definition forget_host_daemon (e : ChildEnv) (r : Runtime) : result unit string * Runtime :=
  match child_exited (daemon_wait_fails e) (host_daemon r) r with
  | Err message => (Err message, r)
  | Ok ended => (Ok tt, if ended : bool then set_host_daemon None r else r)
  end.

Definition ensure_proxy (config : SupervisorConfig) (e : ChildEnv) (allowed : bool) (r : Runtime)
    : result unit string * Runtime :=
  if bool_decide (proxy r = None) && allowed then spawn_proxy config (proxy_spawn e) r else (Ok tt, r).

Definition ensure_host_daemon (config : SupervisorConfig) (e : ChildEnv) (r : Runtime)
    : result unit string * Runtime :=
  if bool_decide (host_daemon r = None) then spawn_host_daemon config (daemon_spawn e) r
  else (Ok tt, r).

(** [?] over a step that changes the runtime. *)
Definition and_then {A} (step : result A string * Runtime)
    (k : A -> Runtime -> result unit string * Runtime) : result unit string * Runtime :=
  match step with
  | (Err message, r) => (Err message, r)
  | (Ok a, r) => k a r
  end.

Section Loop.
Context `{Oracle, Blake3}.

Definition proxy_start_allowed (config : SupervisorConfig) : Run bool :=
  if negb (wireguard_enabled config) then ret true else tun0_ready.

Definition ensure (config : SupervisorConfig) (e : ChildEnv) (r : Runtime)
    : Run (result unit string * Runtime) :=
  match and_then (forget_proxy config e r) (fun _ => forget_host_daemon e) with
  | (Err message, r) => ret (Err message, r)
  | (Ok _, r) =>
      do allowed <- (if bool_decide (proxy r = None) then proxy_start_allowed config else ret false);
      ret (and_then (ensure_proxy config e allowed r) (fun _ => ensure_host_daemon config e))
  end.

(** ** The loop *)

(** What one turn is given besides the answers to its commands. *)
Record TurnEnv := mk_turn_env {
  egress_fs : EgressFs;
  dns_writes : bool;
  interface_writes : bool;
  tunnel_file : option string;
  child_env : ChildEnv;
  tunnel_claim : Readings;
  health_answer : option HealthRecord.t;
  repair : Readings;
  probe_claim : Readings;
}.

(** The supervisor, and the document its proxy configuration holds, if it parses. *)
Record Supervisor := mk_supervisor {
  memory : SupervisorState.t;
  runtime : Runtime;
  document : option Value;
  ui_control_provisioned : bool;
  android_egress_provisioned : bool;
}.

(** Whether an edit changed the file, and the document after it; [None] when the
    edit panics and takes the supervisor with it. *)
Definition edit_outcome (edit : Edit) (document : option Value) : option (bool * option Value) :=
  match edit with
  | EditUnchanged | EditFailed _ => Some (false, document)
  | EditWritten document' => Some (true, Some document')
  | EditPanics => None
  end.

Definition dumpsys_connectivity : Run Process :=
  fun t => (answer t ["dumpsys"; "connectivity"], (t ++ [["dumpsys"; "connectivity"]])%list).

Definition provision (config : SupervisorConfig) (fs : EgressFs) (done : bool) : Run bool :=
  if done then ret true
  else
    match app_egress config with
    | None => ret false
    | Some egress =>
        do r <- provision_android_egress fs (egress_port egress) (egress_username egress)
                  (egress_password egress);
        ret (is_ok r)
    end.

(** The start of [main], up to the loop. *)
Definition start (config : SupervisorConfig) (pid : Z) (fs : EgressFs) (now : Readings)
    (logs : LogFile * LogFile) (document : option Value) : Run Supervisor :=
  do _ <- cleanup_stale_runtime_processes pid;
  do ui <- push_local_ui_control_token (ui_control_token config);
  do egress <- provision config fs (bool_decide (app_egress config = None));
  do _ <- (if bool_decide (tunnel_owner config = StockWireguardBridge) then ret (Ok tt)
           else stop_compatibility_vpns);
  do s <- reconcile_startup_cellular_bootstrap config now SupervisorState.new;
  ret (mk_supervisor s (no_children (fst logs) (snd logs)) document (is_ok ui) egress).

(** What ends the loop. *)
Inductive TurnEnd := Continues | Finished | Failed (message : string) | Panicked.

Definition edit_configuration (e : TurnEnv) (document : option Value)
    : Run (option (bool * option Value)) :=
  do connectivity <- dumpsys_connectivity;
  match edit_outcome (reconcile_cellular_dns connectivity document (dns_writes e)) document with
  | None => ret None
  | Some (dns_changed, document) =>
      do interface <- cellular_interface;
      ret (match edit_outcome (reconcile_cellular_proxy_interface interface document
                                 (interface_writes e)) document with
           | None => None
           | Some (interface_changed, document) => Some (dns_changed || interface_changed, document)
           end)
  end.

(** The proxy is restarted when [tun0] comes up, at most once per cooldown. *)
Definition restart_on_tunnel (config : SupervisorConfig) (now : Readings) (ready : bool)
    (s : SupervisorState.t) (r : Runtime) : SupervisorState.t * Runtime :=
  let '(edge, s) := observe_wireguard_tunnel_ready (wireguard_enabled config) ready s in
  if negb edge then (s, r)
  else
    let '(claimed, s) := claim_proxy_restart now (repair_cooldown_secs config) s in
    (s, if claimed : bool then restart_proxy config r else r).

Definition restart_on_probe (config : SupervisorConfig) (now : Readings) (health : HealthRecord.t)
    (s : SupervisorState.t) (r : Runtime) : SupervisorState.t * Runtime :=
  if bool_decide (HealthRecord.degradation_reason_code health = Some "public_probe_failed")
     && negb (bool_decide (tunnel_owner config = FirstPartyReverseTunnel))
  then
    let '(claimed, s) := claim_proxy_restart now (repair_cooldown_secs config) s in
    (s, if claimed : bool then restart_proxy config r else r)
  else (s, r).

Definition turn (config : SupervisorConfig) (e : TurnEnv) (sup : Supervisor)
    : Run (TurnEnd * Supervisor) :=
  do ui <- (if ui_control_provisioned sup then ret true
            else do r <- push_local_ui_control_token (ui_control_token config); ret (is_ok r));
  do egress <- provision config (egress_fs e) (android_egress_provisioned sup);
  do edited <- edit_configuration e (document sup);
  match edited with
  | None => ret (Panicked, mk_supervisor (memory sup) (runtime sup) (document sup) ui egress)
  | Some (changed, document) =>
      let r := if changed : bool then restart_proxy config (runtime sup) else runtime sup in
      do ready <- tun0_ready;
      let '(s, r) := restart_on_tunnel config (tunnel_claim e) ready (memory sup) r in
      do ensured <- ensure config (child_env e) r;
      match ensured with
      | (Err message, r) => ret (Failed message, mk_supervisor s r document ui egress)
      | (Ok _, r) =>
          do _ <- reconcile_wireguard config (tunnel_file e);
          do after <- match health_answer e with
                      | None => ret (s, r)
                      | Some health =>
                          do reconciled <- reconcile_health config (tunnel_file e) (repair e) health s;
                          ret (restart_on_probe config (probe_claim e) health (snd reconciled) r)
                      end;
          let '(s, r) := after in
          ret (if once config then Finished else Continues, mk_supervisor s r document ui egress)
      end
  end.
End Loop.
