(* ===== verification/SupervisorTheorems.v ===== *)
(** * What the supervisor guarantees

    The configuration it accepts, the processes it holds, and how often it touches
    the phone's mobile data. *)

From stdpp Require Import base gmap strings list fin_maps.
From Stdlib Require Import ZArith Lia Ascii String.
From S2P Require Import Prelude Ordered Text NetText Foundation RuntimeDomain RuntimeProjection.
From S2P Require Import TunnelModel Commands ConfigJson HostDaemon HostConfig.
From S2P Require Import PhoneSystem SupervisorConfig Supervisor.
Import SupervisorState (last_route_repair, last_proxy_restart).
Local Open Scope string_scope.
Local Open Scope Z_scope.
Local Open Scope rust_scope.

(** ** The owner of the tunnel *)

Lemma owner_parse_Ok raw o : owner_parse raw = Ok o <-> owner_as_str o = raw.
Proof.
  unfold owner_parse. split.
  - repeat case_bool_decide; intros [= <-]; by subst.
  - intros <-. by destruct o.
Qed.

Lemma is_ok_true {A E} (r : result A E) : is_ok r = true <-> exists a, r = Ok a.
Proof. destruct r; naive_solver. Qed.

Lemma accepted_owner_Ok file o :
  accepted_owner file = Ok o <->
  owner_as_str o = file_wireguard_owner file /\ o <> FirstPartyVpnService
  /\ file_wireguard_enabled file = bool_decide (o = StockWireguardBridge).
Proof.
  unfold accepted_owner. split.
  - intros (a & <-%owner_parse_Ok & (u & Hflag & Ha)%result_bind_Ok)%result_bind_Ok.
    case_bool_decide; [done|]. injection Ha as <-.
    split; [done|]. split; [done|].
    by destruct a, (file_wireguard_enabled file).
  - intros (Hs & Hne & He). apply owner_parse_Ok in Hs. rewrite Hs, He.
    by destruct o.
Qed.

(** The two programs that read the phone's configuration agree on the owner of
    the tunnel: the supervisor starts with an owner and WireGuard flag exactly when
    the host daemon accepts them, and it knows the owner under the same name. *)
Theorem owner_checks_agree file :
  is_ok (accepted_owner file)
  = is_ok (validate_owner_flags (file_wireguard_owner file) (file_wireguard_enabled file))
  /\ (forall o, accepted_owner file = Ok o -> owner_as_str o = file_wireguard_owner file)
  /\ (forall o, owner_parse (owner_as_str o) = Ok o).
Proof.
  split; [|split; [by intros o (? & _)%accepted_owner_Ok | intros o; by apply owner_parse_Ok]].
  apply eq_true_iff_eq. rewrite !is_ok_true. split.
  - intros [o (Hs & Hne & He)%accepted_owner_Ok]. exists tt. apply validate_owner_flags_Ok.
    rewrite <- Hs, He. destruct o; (done || unfold owner_ok; cbn; tauto).
  - intros [[] [[[Ho|Ho] He]|[Ho He]]%validate_owner_flags_Ok];
      [exists FirstPartyReverseTunnel|exists FirstPartyAndroidEgress|exists StockWireguardBridge];
      apply accepted_owner_Ok; by rewrite Ho, He.
Qed.

(** ** The accepted configuration *)

Lemma config_arg_replaced args config :
  config_arg (replace_proxy_config_arg args config) = (fun _ => config) <$> config_arg args.
Proof.
  induction args as [|flag args IH]; [done|]. destruct args as [|value rest]; [done|].
  cbn [replace_proxy_config_arg config_arg] in *. destruct (is_config_flag flag) eqn:Hf.
  - cbn [config_arg]. by rewrite Hf.
  - rewrite <- IH. destruct rest; cbn [replace_proxy_config_arg];
      [cbn [config_arg]; by rewrite Hf|].
    destruct (is_config_flag value); cbn [config_arg]; by rewrite Hf.
Qed.

Lemma app_egress_config_Ok owner file egress :
  app_egress_config owner file = Ok egress ->
  (is_Some egress <-> owner = FirstPartyAndroidEgress)
  /\ forall a, egress = Some a ->
       1024 <= egress_port a <= 65535 /\ 0 < len (egress_username a) <= 256
       /\ 16 <= len (egress_password a).
Proof.
  unfold app_egress_config. case_bool_decide as Ho; cbn [negb].
  - intros Ha. accepted Ha. injection Ha as <-. split; [by split; [|eexists]|].
    intros a [= <-]. cbn. bools. pose proof (len_nonneg x0). assert (len x0 <> 0) by
      (intros ?%len_zero; done). lia.
  - intros [= <-]. split; [split; [by intros [? ?]|done]|done].
Qed.

Section Accepted.
Context `{RuntimeConfigJson}.

(** What the supervisor starts with: a supported owner, WireGuard enabled for
    the rollback owner alone, egress credentials for the Android egress alone and
    within their bounds; the only file it wrote is the mutable copy of the proxy's
    configuration, with the content of the one the arguments name; and when the
    arguments name a configuration, the proxy is started on that copy. *)
Theorem supervisor_configuration writable cli files c files' :
  load_config writable cli files = (Ok c, files') ->
  exists file args,
    read_runtime_config cli files = Ok file
    /\ args = default_proxy_args (cli_runtime_root cli) (section_args (file_proxy file))
    /\ owner_as_str (SupervisorConfig.tunnel_owner c) = file_wireguard_owner file
    /\ SupervisorConfig.tunnel_owner c <> FirstPartyVpnService
    /\ SupervisorConfig.wireguard_enabled c
       = bool_decide (SupervisorConfig.tunnel_owner c = StockWireguardBridge)
    /\ app_egress_config (SupervisorConfig.tunnel_owner c) file = Ok (app_egress c)
    /\ (is_Some (app_egress c) <-> SupervisorConfig.tunnel_owner c = FirstPartyAndroidEgress)
    /\ (forall a, app_egress c = Some a ->
          1024 <= egress_port a <= 65535 /\ 0 < len (egress_username a) <= 256
          /\ 16 <= len (egress_password a))
    /\ (exists body, files !! proxy_config_path (cli_runtime_root cli) args = Some body
          /\ files' = <[proxy_config c := body]> files)
    /\ config_arg (proxy_args c) = (fun _ => proxy_config c) <$> config_arg args.
Proof.
  unfold load_config. destruct (read_runtime_config cli files) as [file|] eqn:Hfile; [|done].
  destruct (accepted_owner file) as [owner|] eqn:Ho; [|done].
  destruct (prepare_mutable_proxy_config _ _ _ _) as [files1|] eqn:Hp; [|done].
  intros [= Ha <-]. unfold assemble in Ha. accepted Ha. injection Ha as <-. cbn.
  apply accepted_owner_Ok in Ho as (Hs & Hne & He).
  unfold prepare_mutable_proxy_config in Hp. destruct writable; [|done]. cbn [negb] in Hp.
  accepted Hp. injection Hp as <-.
  eexists file, _. split; [done|]. split; [done|].
  match goal with Hegress : app_egress_config _ _ = Ok _ |- _ =>
    pose proof (app_egress_config_Ok _ _ _ Hegress) as [? ?] end.
  rewrite config_arg_replaced. repeat (split; [done|]).
  split; [|done]. eexists. split; [by eapply ok_or_Ok|done].
Qed.
End Accepted.

(** A configuration whose proxy arguments name no configuration file is not
    redirected: the copy is made and reconciled, and the proxy is started without
    it, so the edits never reach it. *)
Theorem unnamed_configuration_is_not_redirected target :
  replace_proxy_config_arg (default_proxy_args "/root" ["run"; "-C"; "/etc/sing-box"]) target
  = ["run"; "-C"; "/etc/sing-box"]
  /\ proxy_config_path "/root" ["run"; "-C"; "/etc/sing-box"] = "/root/config/sing-box.json".
Proof. by split. Qed.

(** ** Processes *)

(** The processes the supervisor holds a handle of. *)
Definition held (r : Runtime) : gset Z :=
  option_to_set (host_daemon r) ∪ option_to_set (proxy r).

(** No process it started runs without a handle. *)
Definition no_orphan (r : Runtime) : Prop := live r ⊆ held r.

Definition daemon_running (r : Runtime) : Prop := exists d, host_daemon r = Some d /\ d ∈ live r.
Definition proxy_running (r : Runtime) : Prop := exists p, proxy r = Some p /\ p ∈ live r.

Lemma no_orphan_new l l' : no_orphan (no_children l l').
Proof. unfold no_orphan, held. cbn. set_solver. Qed.

Lemma no_orphan_exit r ps : ps ⊆ live r -> no_orphan r -> no_orphan (set_live ps r).
Proof. unfold no_orphan, held. cbn. set_solver. Qed.

Lemma restart_host_daemon_no_orphan r :
  no_orphan r -> no_orphan (restart_host_daemon_after_proxy_exit r).
Proof.
  unfold no_orphan, held, restart_host_daemon_after_proxy_exit.
  destruct (host_daemon r) eqn:Hd; cbn; [|by rewrite Hd]. set_solver.
Qed.

(** A proxy that has ended can be forgotten. *)
Lemma forgotten_proxy_no_orphan r p :
  proxy r = Some p -> p ∉ live r -> no_orphan r -> no_orphan (set_proxy None r).
Proof. unfold no_orphan, held. cbn. intros -> ?. set_solver. Qed.

Lemma restart_proxy_no_orphan config r : no_orphan r -> no_orphan (restart_proxy config r).
Proof.
  intros Hr. unfold restart_proxy. destruct (proxy r) as [p|] eqn:Hp; [|done].
  assert (no_orphan (stop_process p (set_proxy None r))) as Hs.
  { unfold no_orphan, held in *. cbn. rewrite Hp in Hr. set_solver. }
  case_if; [by apply restart_host_daemon_no_orphan|done].
Qed.

Lemma spawn_proxy_spec config e r res r' :
  spawn_proxy config e r = (res, r') ->
  host_daemon r' = host_daemon r
  /\ (match res with
      | Ok _ => exists p, proxy r' = Some p /\ live r' = live r ∪ {[p]} /\ spawned e = Some p
      | Err _ => proxy r' = proxy r /\ live r' = live r
      end).
Proof.
  unfold spawn_proxy. destruct (spawn _ _ _) as [[p|m] log] eqn:Hs; intros [= <- <-]; [|done].
  cbn. split; [done|]. exists p. split; [done|]. split; [done|].
  revert Hs. unfold spawn. case_if; [done|]. destruct (append_log _ _) as [[] ?]; [|done].
  intros [= Ho _]. case_if; [done|]. by apply ok_or_Ok in Ho.
Qed.

Lemma spawn_host_daemon_spec config e r res r' :
  spawn_host_daemon config e r = (res, r') ->
  proxy r' = proxy r
  /\ (match res with
      | Ok _ => exists d, host_daemon r' = Some d /\ live r' = live r ∪ {[d]} /\ spawned e = Some d
      | Err _ => host_daemon r' = host_daemon r /\ live r' = live r
      end).
Proof.
  unfold spawn_host_daemon. destruct (spawn _ _ _) as [[p|m] log] eqn:Hs; intros [= <- <-]; [|done].
  cbn. split; [done|]. exists p. split; [done|]. split; [done|].
  revert Hs. unfold spawn. case_if; [done|]. destruct (append_log _ _) as [[] ?]; [|done].
  intros [= Ho _]. case_if; [done|]. by apply ok_or_Ok in Ho.
Qed.

(** Either the proxy is still [p], or the host daemon is no longer [d]. *)
Definition session_follows (p d : Z) (r : Runtime) : Prop :=
  proxy r = Some p \/ host_daemon r <> Some d.

Section Children.
Context (config : SupervisorConfig).

Lemma forget_proxy_spec e r res r' :
  forget_proxy config e r = (res, r') ->
  (no_orphan r -> no_orphan r')
  /\ (res = Ok tt -> proxy r' = None \/ proxy_running r')
  /\ (uses_reverse_tunnel (tunnel_owner config) = true ->
      forall p d, session_follows p d r -> session_follows p d r').
Proof.
  unfold forget_proxy, child_exited. destruct (proxy r) as [p|] eqn:Hp.
  2:{ intros [= <- <-]. tauto. }
  destruct (proxy_wait_fails e); [intros [= <- <-]; by split|].
  case_bool_decide as Hlive; intros [= <- <-].
  - split; [|split].
    + intros Ho. pose proof (forgotten_proxy_no_orphan _ _ Hp Hlive Ho).
      case_if; [by apply restart_host_daemon_no_orphan|done].
    + intros _. left. case_if; [|done]. unfold restart_host_daemon_after_proxy_exit. cbn.
      by destruct (host_daemon r).
    + intros -> p' d' _. right. unfold restart_host_daemon_after_proxy_exit. cbn.
      destruct (host_daemon r) eqn:Hd; cbn; [done|by rewrite Hd].
  - split; [done|]. split; [|done]. right. exists p. split; [done|].
    by destruct (decide (p ∈ live r)).
Qed.

Lemma forget_host_daemon_spec e r res r' :
  forget_host_daemon e r = (res, r') ->
  proxy r' = proxy r /\ live r' = live r
  /\ (no_orphan r -> no_orphan r')
  /\ (res = Ok tt -> host_daemon r' = None \/ daemon_running r')
  /\ (forall p d, session_follows p d r -> session_follows p d r').
Proof.
  unfold forget_host_daemon, child_exited. destruct (host_daemon r) as [d|] eqn:Hd.
  2:{ intros [= <- <-]. repeat split; try done. by left. }
  destruct (daemon_wait_fails e); [intros [= <- <-]; by repeat split|].
  case_bool_decide as Hlive; intros [= <- <-].
  - repeat split; try done.
    + unfold no_orphan, held. cbn. rewrite Hd. set_solver.
    + by left.
    + intros p' d' [?|?]; [by left|]. by right.
  - repeat split; try done. right. exists d. split; [done|]. by destruct (decide (d ∈ live r)).
Qed.

Lemma restart_proxy_session r p d :
  uses_reverse_tunnel (tunnel_owner config) = true ->
  session_follows p d r -> session_follows p d (restart_proxy config r).
Proof.
  unfold restart_proxy. intros Hu Hs. destruct (proxy r) as [p'|] eqn:Hp; [|done].
  rewrite Hu. right. unfold restart_host_daemon_after_proxy_exit. cbn.
  destruct (host_daemon r) eqn:Hd; cbn; [done|by rewrite Hd].
Qed.

Lemma ensure_proxy_spec e allowed r res r' :
  ensure_proxy config e allowed r = (res, r') ->
  (no_orphan r -> no_orphan r') /\ host_daemon r' = host_daemon r /\ live r ⊆ live r'
  /\ (forall p d, session_follows p d r -> session_follows p d r')
  /\ (res = Ok tt -> proxy_running r' \/ proxy r' = proxy r /\ (proxy r' = None -> allowed = false)).
Proof.
  unfold ensure_proxy. case_bool_decide as Hp; cbn [andb].
  - destruct allowed.
    + intros (Hd & Hs)%spawn_proxy_spec. destruct res as [[]|m].
      * destruct Hs as (p & Hp' & Hl & _). unfold no_orphan, held, session_follows, proxy_running.
        rewrite Hd, Hp', Hl, Hp. repeat split; try done; [set_solver..| |].
        -- naive_solver.
        -- intros _. left. exists p. split; [done|set_solver].
      * destruct Hs as [Hp' Hl]. unfold no_orphan, held, session_follows. rewrite Hd, Hp', Hl.
        by repeat split.
    + intros [= <- <-]. repeat split; try done. by right.
  - intros [= <- <-]. repeat split; try done. right. by split.
Qed.

Lemma ensure_host_daemon_spec e r res r' :
  ensure_host_daemon config e r = (res, r') ->
  (no_orphan r -> no_orphan r') /\ proxy r' = proxy r /\ live r ⊆ live r'
  /\ (forall p d, spawned (daemon_spawn e) <> Some d -> session_follows p d r -> session_follows p d r')
  /\ (res = Ok tt -> (host_daemon r = None \/ daemon_running r) -> daemon_running r').
Proof.
  unfold ensure_host_daemon. case_bool_decide as Hd.
  - intros (Hp & Hs)%spawn_host_daemon_spec. destruct res as [[]|m].
    + destruct Hs as (d & Hd' & Hl & He). unfold no_orphan, held, session_follows, daemon_running.
      rewrite Hd', Hp, Hl, He, Hd. repeat split; try done; [set_solver..| |].
      * intros p' d' Hne [?|?]; [by left|]. right. naive_solver.
      * intros _ _. exists d. split; [done|set_solver].
    + destruct Hs as [Hd' Hl]. unfold no_orphan, held, session_follows. rewrite Hd', Hp, Hl.
      by repeat split.
  - intros [= <- <-]. repeat split; try done. naive_solver.
Qed.
End Children.

(** ** Commands that touch the mobile data *)

Definition DATA_COMMANDS : list Argv :=
  (fun command => ["sh"; "-c"; command]) <$>
  ["svc wifi disable"; "settings put global mobile_data 1"; "svc data enable"; "svc data disable"].

Definition touches_data (commands : list Argv) : bool :=
  existsb (fun c => bool_decide (c ∈ DATA_COMMANDS)) commands.

Lemma touches_data_app l l' : touches_data (l ++ l') = touches_data l || touches_data l'.
Proof. apply existsb_app. Qed.

(** A computation that only adds to the trace. *)
Definition extends {A} (m : Run A) : Prop := forall t, exists l, snd (m t) = (t ++ l)%list.

(** ... and adds no command that touches the mobile data. *)
Definition quiet {A} (m : Run A) : Prop :=
  forall t, exists l, snd (m t) = (t ++ l)%list /\ touches_data l = false.

Create HintDb quiet.

Lemma quiet_ret {A} (x : A) : quiet (ret x).
Proof. intros t. exists []. by rewrite app_nil_r. Qed.

Lemma quiet_bind {A B} (m : Run A) (k : A -> Run B) :
  quiet m -> (forall x, quiet (k x)) -> quiet (bind m k).
Proof.
  intros Hm Hk t. destruct (Hm t) as (l & Hl & Hq). unfold bind. destruct (m t) as [x t1]. cbn in Hl.
  subst t1. destruct (Hk x (t ++ l)%list) as (l' & Hl' & Hq').
  exists (l ++ l')%list. rewrite Hl', app_assoc, touches_data_app, Hq, Hq'. done.
Qed.

Lemma quiet_command {A} (f : list Argv -> A) (argv : Argv) :
  bool_decide (argv ∈ DATA_COMMANDS) = false -> quiet (fun t => (f t, (t ++ [argv])%list)).
Proof. intros Hq t. exists [argv]. split; [done|]. unfold touches_data. cbn [existsb]. by rewrite Hq. Qed.

Lemma not_a_shell binary args :
  binary <> "sh" -> bool_decide ((binary :: args) ∈ DATA_COMMANDS) = false.
Proof.
  intros Hne. apply bool_decide_eq_false_2. unfold DATA_COMMANDS.
  intros (c & [= -> _] & _)%list_elem_of_fmap. done.
Qed.

Section Turns.
Context `{Oracle, Blake3}.
Context (config : SupervisorConfig).
Local Open Scope run_scope.

Lemma ensure_spec e r t res r' t' :
  ensure config e r t = ((res, r'), t') ->
  (no_orphan r -> no_orphan r')
  /\ (uses_reverse_tunnel (tunnel_owner config) = true ->
      forall p d, spawned (daemon_spawn e) <> Some d -> session_follows p d r -> session_follows p d r')
  /\ (res = Ok tt ->
      daemon_running r' /\ (proxy_running r' \/ proxy r' = None /\ wireguard_enabled config = true)).
Proof.
  unfold ensure, and_then.
  destruct (forget_proxy config e r) as [[[]|m] r1] eqn:Hp;
    pose proof (forget_proxy_spec _ _ _ _ _ Hp) as (P1 & P2 & P3).
  2:{ intros [= <- <- <-]. split; [done|]. split; [by intros; apply P3|done]. }
  destruct (forget_host_daemon e r1) as [[[]|m] r2] eqn:Hd;
    pose proof (forget_host_daemon_spec _ _ _ _ Hd) as (D0 & D1 & D2 & D3 & D4).
  2:{ intros [= <- <- <-]. split; [tauto|]. split; [by intros; apply D4, P3|done]. }
  unfold bind. destruct ((if bool_decide (proxy r2 = None) then proxy_start_allowed config else ret false) t) as [allowed t1] eqn:Ha.
  destruct (ensure_proxy config e allowed r2) as [[[]|m] r3] eqn:He;
    pose proof (ensure_proxy_spec _ _ _ _ _ _ He) as (E1 & E2 & E3 & E4 & E5).
  2:{ intros [= <- <- <-]. split; [tauto|]. split; [by intros; apply E4, D4, P3|done]. }
  intros [= Hf <-]. pose proof (ensure_host_daemon_spec _ _ _ _ _ Hf) as (F1 & F2 & F3 & F4 & F5).
  split; [tauto|]. split; [intros; apply F4, E4, D4, P3; auto|]. intros ->. split.
  - apply F5; [done|]. destruct (D3 eq_refl) as [Hn|(d & Hn & Hl)]; rewrite E2, Hn; [by left|right].
    exists d. rewrite E2, Hn. split; [done|set_solver].
  - unfold proxy_running. rewrite F2. destruct (E5 eq_refl) as [(p & Hpp & Hl)|[Heq Hn]].
    + left. exists p. split; [done|set_solver].
    + rewrite Heq in *. revert Ha. unfold proxy_running in P2. rewrite D0 in *.
      case_bool_decide as Hnone.
      * unfold proxy_start_allowed. intros Ha. right. split; [done|].
        destruct (wireguard_enabled config); [done|]. cbn in Ha. injection Ha as <- _. by discriminate Hn.
      * intros _. left. destruct (P2 eq_refl) as [?|(p & Hpp & Hl)]; [done|].
        exists p. split; [done|]. rewrite <- D1 in Hl. set_solver.
Qed.

Lemma restart_on_tunnel_runtime now ready s r s' r' :
  restart_on_tunnel config now ready s r = (s', r') ->
  (r' = r \/ r' = restart_proxy config r)
  /\ last_route_repair s' = last_route_repair s.
Proof.
  unfold restart_on_tunnel, observe_wireguard_tunnel_ready, claim_proxy_restart.
  repeat (case_if; cbn); intros [= <- <-]; cbn; auto.
Qed.

Lemma restart_on_probe_runtime now health s r s' r' :
  restart_on_probe config now health s r = (s', r') ->
  (r' = r \/ r' = restart_proxy config r)
  /\ last_route_repair s' = last_route_repair s.
Proof.
  unfold restart_on_probe, claim_proxy_restart.
  repeat (case_if; cbn); intros [= <- <-]; cbn; auto.
Qed.
End Turns.

Ltac quietly :=
  repeat match goal with
  | |- quiet (ret _) => apply quiet_ret
  | |- quiet (bind _ _) => apply quiet_bind; [|intros ?]
  | |- quiet (match ?x with _ => _ end) => destruct x
  | |- quiet (if ?x then _ else _) => destruct x
  | |- quiet _ => solve [auto with quiet]
  end.

Section Quiet.
Context `{Oracle}.

Lemma quiet_run binary args : binary <> "sh" -> quiet (run_command binary args).
Proof. intros Hne. apply quiet_command. by apply not_a_shell. Qed.
Lemma quiet_shell command :
  bool_decide (["sh"; "-c"; command] ∈ DATA_COMMANDS) = false -> quiet (run_shell command).
Proof. apply quiet_command. Qed.
#[local] Hint Resolve quiet_run quiet_shell : quiet.
#[local] Hint Extern 1 (_ <> "sh") => discriminate : quiet.
#[local] Hint Extern 1 (bool_decide _ = false) => reflexivity : quiet.
#[local] Hint Extern 2 (quiet (run_ip _)) => unfold run_ip : quiet.
#[local] Hint Extern 2 (quiet (run_as_uid _ _)) => unfold run_as_uid : quiet.

Lemma quiet_package_uid name : quiet (package_uid name).
Proof. unfold package_uid. quietly. Qed.
#[local] Hint Resolve quiet_package_uid : quiet.

Lemma quiet_stock : quiet stop_stock_wireguard_tunnel /\ quiet start_stock_wireguard_tunnel
  /\ quiet stop_first_party_vpn_service.
Proof.
  unfold stop_stock_wireguard_tunnel, start_stock_wireguard_tunnel, stop_first_party_vpn_service.
  repeat split; quietly.
Qed.

Lemma quiet_kick config tunnel_file : quiet (kick_owner config tunnel_file).
Proof.
  unfold kick_owner, kick_first_party, kick_stock_wireguard_bridge, kick_first_party_vpn_service,
    push_first_party_tunnel_config. pose proof quiet_stock as (? & ? & ?). quietly.
Qed.

Lemma quiet_tun0 : quiet tun0_ready.
Proof. unfold tun0_ready. quietly. Qed.

Lemma quiet_hint : quiet cellular_route_hint.
Proof. unfold cellular_route_hint. quietly. Qed.
#[local] Hint Resolve quiet_hint quiet_tun0 quiet_kick : quiet.

Lemma quiet_route : quiet ensure_cellular_default_route /\ quiet cellular_interface.
Proof.
  unfold ensure_cellular_default_route, main_default_route_for, cellular_interface. split; quietly.
Qed.

Lemma quiet_token token : quiet (push_local_ui_control_token token).
Proof. unfold push_local_ui_control_token. quietly. Qed.

Lemma quiet_provision config fs done : quiet (provision config fs done).
Proof.
  unfold provision, provision_android_egress, write_android_egress_config,
    ensure_android_egress_files_dir. quietly.
Qed.

Lemma quiet_reconcile_wireguard config tunnel_file : quiet (reconcile_wireguard config tunnel_file).
Proof. unfold reconcile_wireguard. quietly. Qed.

Lemma quiet_compatibility : quiet stop_compatibility_vpns.
Proof.
  unfold stop_compatibility_vpns, run_all. pose proof quiet_stock as (? & ? & ?). quietly.
Qed.

Lemma quiet_cleanup pid : quiet (cleanup_stale_runtime_processes pid).
Proof.
  unfold cleanup_stale_runtime_processes. induction STALE_RUNTIME_PATTERNS as [|p ps IH];
    cbn [cleanup_patterns]; quietly; [by apply quiet_command, not_a_shell|].
  match goal with |- quiet (terminate_stale_pids _ ?l) => induction l as [|x l IHl] end;
    cbn [terminate_stale_pids]; quietly. by apply quiet_command, not_a_shell.
Qed.

Context `{Blake3}.
Lemma quiet_edit e document : quiet (edit_configuration e document).
Proof.
  unfold edit_configuration. pose proof quiet_route as [_ ?]. quietly.
  by apply quiet_command, not_a_shell.
Qed.

Lemma quiet_ensure config e r : quiet (ensure config e r).
Proof. unfold ensure, proxy_start_allowed. quietly. Qed.
End Quiet.

(** ** Turns *)

(** A step left the mobile data and the memory of repairs alone, or the cooldown
    had passed and the repair was recorded. *)
Definition repair_step (config : SupervisorConfig) (now : Readings) (s s' : SupervisorState.t)
    (commands : list Argv) : Prop :=
  touches_data commands = false /\ last_route_repair s' = last_route_repair s
  \/ route_repair_allowed (checked now) config s = true /\ last_route_repair s' = Some (recorded now).

Section Repairs.
Context `{Oracle, Blake3}.
Context (config : SupervisorConfig).

Lemma extends_bind {A B} (m : Run A) (k : A -> Run B) :
  extends m -> (forall x, extends (k x)) -> extends (bind m k).
Proof.
  intros Hm Hk t. destruct (Hm t) as [l Hl]. unfold bind. destruct (m t) as [x t1]. cbn in Hl.
  subst t1. destruct (Hk x (t ++ l)%list) as [l' Hl']. exists (l ++ l')%list. by rewrite Hl', app_assoc.
Qed.

Lemma extends_ret {A} (x : A) : extends (ret x).
Proof. intros t. exists []. by rewrite app_nil_r. Qed.

Lemma extends_shell command : extends (run_shell command).
Proof. intros t. by eexists. Qed.

Lemma extends_data : extends bootstrap_cellular_data /\ extends bounce_mobile_data.
Proof.
  unfold bootstrap_cellular_data, run_all, bounce_mobile_data.
  split; repeat match goal with
    | |- extends (bind _ _) => apply extends_bind; [|intros ?]
    | |- extends (ret _) => apply extends_ret
    | |- extends (run_shell _) => apply extends_shell
    | |- extends (match ?x with _ => _ end) => destruct x
    end.
Qed.

(** A step that follows a quiet computation. *)
Lemma repair_step_quiet {A} (m : Run A) now s s' t x t1 t2 :
  quiet m -> m t = (x, t1) ->
  (exists l, t2 = (t1 ++ l)%list /\ repair_step config now s s' l) ->
  exists l, t2 = (t ++ l)%list /\ repair_step config now s s' l.
Proof.
  intros Hq Hm (l & -> & Hstep). destruct (Hq t) as (l0 & Hl0 & Hq0). rewrite Hm in Hl0. cbn in Hl0.
  subst t1. exists (l0 ++ l)%list. rewrite app_assoc. split; [done|].
  destruct Hstep as [[Ht Hs]|Hstep]; [left|by right]. by rewrite touches_data_app, Hq0, Ht.
Qed.

Lemma repair_step_still now s s' t :
  last_route_repair s' = last_route_repair s ->
  exists l, t = (t ++ l)%list /\ repair_step config now s s' l.
Proof. intros Hs. exists []. rewrite app_nil_r. split; [done|]. by left. Qed.

Lemma repair_step_repaired {A} (m : Run A) now s s' t :
  extends m -> route_repair_allowed (checked now) config s = true ->
  last_route_repair s' = Some (recorded now) ->
  exists l, snd (m t) = (t ++ l)%list /\ repair_step config now s s' l.
Proof. intros Hm Ha Hs. destruct (Hm t) as [l Hl]. exists l. split; [done|]. by right. Qed.

Lemma tunnel_bootstrap_repair now health s t s' t' :
  reconcile_reverse_tunnel_cellular_bootstrap config now health s t = (s', t') ->
  exists l, t' = (t ++ l)%list /\ repair_step config now s s' l.
Proof.
  unfold reconcile_reverse_tunnel_cellular_bootstrap.
  case_if; [intros [= <- <-]; by apply repair_step_still|].
  destruct (HealthRecord.degradation_reason_code health); [|intros [= <- <-]; by apply repair_step_still].
  case_if; [intros [= <- <-]; by apply repair_step_still|].
  destruct (route_repair_allowed (checked now) config s) eqn:Ha; cbn [negb].
  2:{ intros [= <- <-]. by apply repair_step_still. }
  unfold bind. destruct (bootstrap_cellular_data t) as [x t1] eqn:Hb. intros [= <- <-].
  replace t1 with (snd (bootstrap_cellular_data t)) by (by rewrite Hb).
  apply repair_step_repaired; [apply extends_data|done|done].
Qed.

Lemma reconcile_health_repair tunnel_file now health s t res s' t' :
  reconcile_health config tunnel_file now health s t = ((res, s'), t') ->
  exists l, t' = (t ++ l)%list /\ repair_step config now s s' l.
Proof.
  unfold reconcile_health. destruct (observe_readiness _ s) as [o s1] eqn:Hs1.
  assert (last_route_repair s1 = last_route_repair s
          /\ forall l, repair_step config now s1 s' l -> repair_step config now s s' l) as [Hrep Hstep].
  { unfold observe_readiness in Hs1. case_bool_decide; injection Hs1 as <- <-; done. }
  intros Hr. cut (exists l, t' = (t ++ l)%list /\ repair_step config now s1 s' l); [naive_solver|].
  clear Hstep Hrep Hs1. unfold bind in Hr.
  set (kick := if bool_decide _ then _ else _) in Hr.
  assert (quiet kick) as Hkick by (subst kick; case_if; [apply quiet_kick|apply quiet_ret]).
  destruct (kick t) as [? t1] eqn:Ht1. apply (repair_step_quiet kick _ _ _ _ _ _ _ Hkick Ht1).
  clear Hkick Ht1 kick. revert Hr. pose proof quiet_route as [Hroute _].
  case_if.
  - destruct (ensure_cellular_default_route t1) as [? t2] eqn:Ht2.
    destruct (reconcile_reverse_tunnel_cellular_bootstrap config now health s1 t2) as [s2 t3] eqn:Hb.
    intros [= <- <- <-]. apply (repair_step_quiet _ _ _ _ _ _ _ _ Hroute Ht2).
    by apply tunnel_bootstrap_repair in Hb.
  - destruct (route_repair_allowed (checked now) config s1) eqn:Ha; cbn [negb].
    2:{ intros [= <- <- <-]. by apply repair_step_still. }
    destruct (ensure_cellular_default_route t1) as [fixed t2] eqn:Ht2. intros Hr.
    apply (repair_step_quiet _ _ _ _ _ _ _ _ Hroute Ht2). destruct fixed.
    + injection Hr as <- <- <-. exists []. rewrite app_nil_r. split; [done|]. by right.
    + destruct (bounce_mobile_data t2) as [x t3] eqn:Hb. injection Hr as <- <- <-.
      replace t3 with (snd (bounce_mobile_data t2)) by (by rewrite Hb).
      apply repair_step_repaired; [apply extends_data|done|done].
Qed.
End Repairs.

Section TurnSpec.
Context `{Oracle, Blake3}.
Context (config : SupervisorConfig).

(** What every change of the children keeps, when no new host daemon is [d]. *)
Definition keeps (e : ChildEnv) (r r' : Runtime) : Prop :=
  (no_orphan r -> no_orphan r')
  /\ (uses_reverse_tunnel (tunnel_owner config) = true ->
      forall p d, spawned (daemon_spawn e) <> Some d -> session_follows p d r -> session_follows p d r').

Lemma keeps_refl e r : keeps e r r.
Proof. by split. Qed.

Lemma keeps_trans e r r' r'' : keeps e r r' -> keeps e r' r'' -> keeps e r r''.
Proof. intros [] []. split; auto. Qed.

Lemma keeps_restart e r r' : r' = r \/ r' = restart_proxy config r -> keeps e r r'.
Proof.
  intros [->| ->]; [apply keeps_refl|]. split; [apply restart_proxy_no_orphan|].
  intros. by apply restart_proxy_session.
Qed.

Lemma repair_step_memory now s0 s s' l :
  last_route_repair s = last_route_repair s0 -> repair_step config now s s' l ->
  repair_step config now s0 s' l.
Proof. unfold repair_step, route_repair_allowed. by intros <-. Qed.

Lemma turn_spec e sup t fin sup' t' :
  turn config e sup t = ((fin, sup'), t') ->
  (exists l, t' = (t ++ l)%list /\ repair_step config (repair e) (memory sup) (memory sup') l)
  /\ keeps (child_env e) (runtime sup) (runtime sup').
Proof.
  unfold turn, bind. set (ui := if ui_control_provisioned sup then _ else _).
  assert (quiet ui) as Hui.
  { subst ui. case_if; [apply quiet_ret|]. apply quiet_bind; [apply quiet_token|intros; apply quiet_ret]. }
  destruct (ui t) as [ui' t1] eqn:Ht1.
  destruct (provision config (egress_fs e) _ t1) as [egress t2] eqn:Ht2.
  destruct (edit_configuration e (document sup) t2) as [edited t3] eqn:Ht3. intros Hturn.
  cut ((exists l, t' = (t3 ++ l)%list /\ repair_step config (repair e) (memory sup) (memory sup') l)
       /\ keeps (child_env e) (runtime sup) (runtime sup')).
  { intros [Hl Hk]. split; [|done].
    apply (repair_step_quiet config _ _ _ _ _ _ _ _ Hui Ht1).
    apply (repair_step_quiet config _ _ _ _ _ _ _ _ (quiet_provision _ _ _) Ht2).
    by apply (repair_step_quiet config _ _ _ _ _ _ _ _ (quiet_edit _ _) Ht3). }
  destruct edited as [[changed document']|].
  2:{ injection Hturn as <- <- <-. split; [by apply repair_step_still|apply keeps_refl]. }
  set (r1 := if changed then _ else _) in Hturn.
  assert (keeps (child_env e) (runtime sup) r1) as K1.
  { apply keeps_restart. subst r1. destruct changed; auto. }
  destruct (tun0_ready t3) as [ready t4] eqn:Ht4.
  destruct (restart_on_tunnel _ _ _ _ r1) as [s2 r2] eqn:Hr2.
  apply restart_on_tunnel_runtime in Hr2 as [K2%(keeps_restart (child_env e)) Hs2].
  destruct (ensure config (child_env e) r2 t4) as [[res r3] t5] eqn:Hr3.
  assert (keeps (child_env e) r2 r3) as K3 by (apply ensure_spec in Hr3; split; tauto).
  pose proof (keeps_trans _ _ _ _ (keeps_trans _ _ _ _ K1 K2) K3) as K4.
  cut ((exists l, t' = (t5 ++ l)%list /\ repair_step config (repair e) s2 (memory sup') l)
       /\ keeps (child_env e) r3 (runtime sup')).
  { intros [(l & Hl & Hstep) Hk]. split; [|by eapply keeps_trans].
    apply (repair_step_quiet config _ _ _ _ _ _ _ _ quiet_tun0 Ht4).
    apply (repair_step_quiet config _ _ _ _ _ _ _ _ (quiet_ensure _ _ _) Hr3).
    exists l. split; [done|]. by eapply repair_step_memory. }
  clear K1 K2 K3 K4. destruct res.
  2:{ injection Hturn as <- <- <-. split; [by apply repair_step_still|apply keeps_refl]. }
  destruct (reconcile_wireguard config (tunnel_file e) t5) as [? t6] eqn:Ht6.
  cut ((exists l, t' = (t6 ++ l)%list /\ repair_step config (repair e) s2 (memory sup') l)
       /\ keeps (child_env e) r3 (runtime sup')).
  { intros [Hl Hk]. split; [|done].
    by apply (repair_step_quiet config _ _ _ _ _ _ _ _ (quiet_reconcile_wireguard _ _) Ht6). }
  destruct (health_answer e) as [health|].
  2:{ injection Hturn as <- <- <-. split; [by apply repair_step_still|apply keeps_refl]. }
  destruct (reconcile_health _ _ _ health s2 t6) as [[? s4] t7] eqn:Hh. cbn [snd ret] in Hturn.
  unfold ret in Hturn. destruct (restart_on_probe _ _ _ s4 r3) as [s5 r5] eqn:Hp.
  apply restart_on_probe_runtime in Hp as [K Hs5]. injection Hturn as <- <- <-. cbn.
  split; [|by apply keeps_restart]. apply reconcile_health_repair in Hh as (l & Hl & Hstep).
  exists l. split; [done|]. unfold repair_step in *. by rewrite Hs5.
Qed.
End TurnSpec.

(** ** Histories *)

Section Histories.
Context `{Oracle, Blake3}.
Context (config : SupervisorConfig).

Definition with_live (ps : gset Z) (sup : Supervisor) : Supervisor :=
  mk_supervisor (memory sup) (set_live ps (runtime sup)) (document sup) (ui_control_provisioned sup)
    (android_egress_provisioned sup).

(** The runs of the supervisor: the clock at their end, the commands run, and the
    readings of the steps that touched the mobile data.  Children end when they
    like. *)
Inductive Runs : Z -> Supervisor -> list Argv -> list Readings -> Prop :=
| RunsStart clock pid fs now logs document sup t :
    checked now <= recorded now <= clock ->
    start config pid fs now logs document [] = (sup, t) ->
    Runs clock sup t (if touches_data t then [now] else [])
| RunsExit clock sup t events ps :
    Runs clock sup t events -> ps ⊆ live (runtime sup) -> Runs clock (with_live ps sup) t events
| RunsTurn clock sup t events e sup' t' clock' :
    Runs clock sup t events ->
    clock <= checked (repair e) /\ checked (repair e) <= recorded (repair e) <= clock' ->
    turn config e sup t = ((Continues, sup'), t') ->
    Runs clock' sup' t' (if touches_data (drop (List.length t) t') then (events ++ [repair e])%list else events).

Lemma start_spec pid fs now logs document sup t :
  start config pid fs now logs document [] = (sup, t) ->
  repair_step config now SupervisorState.new (memory sup) t /\ no_orphan (runtime sup).
Proof.
  unfold start, bind.
  destruct (cleanup_stale_runtime_processes pid []) as [? t1] eqn:Ht1.
  destruct (push_local_ui_control_token _ t1) as [? t2] eqn:Ht2.
  destruct (provision _ _ _ t2) as [? t3] eqn:Ht3.
  set (stop := if bool_decide (tunnel_owner config = StockWireguardBridge) then _ else _).
  assert (quiet stop) as Hstop by (subst stop; case_if; [apply quiet_ret|apply quiet_compatibility]).
  destruct (stop t3) as [? t4] eqn:Ht4.
  destruct (reconcile_startup_cellular_bootstrap config now _ t4) as [s t5] eqn:Hs.
  intros [= <- <-]. cbn. split; [|apply no_orphan_new].
  cut (exists l, t5 = ([] ++ l)%list /\ repair_step config now SupervisorState.new s l);
    [by intros (l & -> & ?)|].
  apply (repair_step_quiet config _ _ _ _ _ _ _ _ (quiet_cleanup _) Ht1).
  apply (repair_step_quiet config _ _ _ _ _ _ _ _ (quiet_token _) Ht2).
  apply (repair_step_quiet config _ _ _ _ _ _ _ _ (quiet_provision _ _ _) Ht3).
  apply (repair_step_quiet config _ _ _ _ _ _ _ _ Hstop Ht4). revert Hs.
  unfold reconcile_startup_cellular_bootstrap, bind. cbn [route_repair_allowed].
  case_if; [intros [= <- <-]; by apply repair_step_still|].
  case_if; [intros [= <- <-]; by apply repair_step_still|].
  destruct (bootstrap_cellular_data t4) as [x t6] eqn:Hb. intros [= <- <-].
  replace t6 with (snd (bootstrap_cellular_data t4)) by (by rewrite Hb).
  by apply repair_step_repaired; [apply extends_data| |].
Qed.

(** Every recorded step came before the last repair the supervisor remembers. *)
Definition remembered (clock : Z) (s : SupervisorState.t) (events : list Readings) : Prop :=
  match last_route_repair s with
  | None => events = []
  | Some last => last <= clock /\ Forall (fun r => recorded r <= last) events
  end.

Definition spaced (events : list Readings) : Prop :=
  forall i j a b, (i < j)%nat -> events !! i = Some a -> events !! j = Some b ->
    recorded a + cooldown (repair_cooldown_secs config) <= checked b.

Lemma spaced_snoc events b :
  spaced events ->
  Forall (fun a => recorded a + cooldown (repair_cooldown_secs config) <= checked b) events ->
  spaced (events ++ [b]).
Proof.
  intros Hs Hb i j x y Hij Hx Hy. apply lookup_app_Some in Hy as [Hy|[Hj Hy]].
  - apply lookup_lt_Some in Hy as Hl. rewrite lookup_app_l in Hx by lia. exact (Hs i j x y Hij Hx Hy).
  - apply list_lookup_singleton_Some in Hy as [Hj0 <-]. rewrite lookup_app_l in Hx by lia.
    rewrite Forall_lookup in Hb. exact (Hb _ _ Hx).
Qed.

Lemma allowed_after now s events :
  remembered now s events -> route_repair_allowed now config s = true ->
  Forall (fun a => recorded a + cooldown (repair_cooldown_secs config) <= now) events.
Proof.
  unfold remembered, route_repair_allowed, elapsed, cooldown.
  destruct (last_route_repair s) as [last|]; [|by intros -> _].
  cbn [is_none_or]. intros [Hl Hev] Ha. apply Z.leb_le in Ha.
  assert (0 < NANOS) by done. eapply Forall_impl; [exact Hev|]. cbn. intros a Hra. nia.
Qed.

Lemma runs_inv clock sup t events :
  Runs clock sup t events ->
  no_orphan (runtime sup) /\ remembered clock (memory sup) events /\ spaced events.
Proof.
  induction 1 as [clock pid fs now logs doc sup t Hclock Hs|clock sup t events ps HR IH Hps
                 |clock sup t events e sup' t' clock' HR IH Hclock Ht].
  - apply start_spec in Hs as [Hstep Horphan]. split; [done|]. unfold remembered. split.
    + destruct Hstep as [[-> ->]|[_ ->]]; [done|]. split; [lia|].
      destruct (touches_data t); repeat constructor. lia.
    + unfold spaced. destruct (touches_data t); intros [|i] [|j] a b; cbn; (lia || done).
  - cbn. destruct IH as (Ho & ? & ?). split; [by apply no_orphan_exit|done].
  - destruct IH as (Ho & Hrem & Hsp). apply turn_spec in Ht as [(l & -> & Hstep) [Hk _]].
    split; [auto|]. rewrite drop_app_length.
    destruct Hstep as [[-> Hsame]|[Ha Hnow]].
    + split; [|done]. revert Hrem. unfold remembered. rewrite Hsame.
      destruct (last_route_repair (memory sup)); [|intros ->; done]. intros []. split; [lia|done].
    + assert (remembered (checked (repair e)) (memory sup) events) as Hrem'.
      { revert Hrem. unfold remembered. destruct (last_route_repair (memory sup)); [|by intros ->].
        intros []. split; [lia|done]. }
      pose proof (allowed_after _ _ _ Hrem' Ha) as Hall. unfold remembered. rewrite Hnow.
      assert (Forall (fun r => recorded r <= recorded (repair e)) events) as Hle.
      { eapply Forall_impl; [exact Hall|]. cbn. unfold cooldown, NANOS. lia. }
      destruct (touches_data l).
      * split; [|by apply spaced_snoc]. split; [lia|]. apply Forall_app. split; [done|].
        repeat constructor. lia.
      * split; [|done]. by split; [lia|].
Qed.

(** C27: Mobile data is not flapped: over any run of the supervisor, two steps that
    disable or enable the phone's data or Wi-Fi, at startup, on a lost route or on an
    unavailable reverse tunnel, are at least the repair cooldown apart, and at
    least a second whatever the cooldown is set to. *)
Theorem repairs_are_spaced clock sup t events i j a b :
  Runs clock sup t events ->
  (i < j)%nat -> events !! i = Some a -> events !! j = Some b ->
  recorded a + Z.max (repair_cooldown_secs config) 1 * NANOS <= checked b.
Proof. intros (_ & _ & Hs)%runs_inv. apply Hs. Qed.






(** A new proxy gets a new tunnel session: under the reverse-tunnel owners,
    whenever a turn replaces or loses the proxy that ran before it, the host daemon
    that ran before it is gone as well, so no tunnel session outlives its proxy. *)
Theorem proxy_takes_the_session_with_it e sup t fin sup' t' p d :
  uses_reverse_tunnel (tunnel_owner config) = true ->
  turn config e sup t = ((fin, sup'), t') ->
  spawned (daemon_spawn (child_env e)) <> Some d ->
  proxy (runtime sup) = Some p -> host_daemon (runtime sup) = Some d ->
  proxy (runtime sup') <> Some p -> host_daemon (runtime sup') <> Some d.
Proof.
  intros Hu [_ [_ Hk]]%turn_spec Hd Hp _ Hp'.
  destruct (Hk Hu p d Hd (or_introl Hp)) as [?|?]; done.
Qed.
End Histories.
