(* ===== verification/PhoneDemo.v ===== *)
(** * Concrete runs of the phone's programs

    A phone on which every command succeeds and says nothing, a supervisor that
    starts and repairs on it, and a host daemon that rotates. *)

From stdpp Require Import base gmap strings list fin_maps countable.
From Stdlib Require Import ZArith Lia Ascii String.
From S2P Require Import Prelude Ordered Text NetText Foundation RuntimeDomain RuntimeProjection.
From S2P Require Import TunnelModel Commands Devices ConfigJson HostDaemon PhoneSystem.
From S2P Require Import SupervisorConfig Supervisor SupervisorTheorems.
Local Open Scope string_scope.
Local Open Scope Z_scope.

Module DemoPhone.
Import Concrete.

#[global] Instance quiet_phone : Oracle := fun _ _ => Exited true "" "".

(** The health a phone reports while its tunnel is down. *)
Definition waiting_health : HealthRecord.t :=
  HealthRecord.mk "node" "phone" None (LegacyOpaque "none") "starting_proxy" false "degraded" None
    None None None None (Some "reverse_tunnel_not_ready") None None None None None None None None
    None None (Some "first_party_reverse_tunnel").

Definition config : SupervisorConfig :=
  mk_supervisor_config "/r/config/host-daemon.json" "/r/bin/host-daemon" "127.0.0.1:8088" "admin"
    None "/r/bin/sing-box" "/r/state/sing-box.json" ["run"; "-c"; "/r/state/sing-box.json"] "/r"
    false FirstPartyReverseTunnel None None 1 15 2 8 false.

Definition no_fs : EgressFs := mk_egress_fs DirExists true true true true true.
Definition no_log : LogFile := mk_log None None.
Definition spawn_of (pid : Z) : SpawnEnv := mk_spawn_env true true true true true true true (Some pid).

(** A turn at [now] in which the processes [p] and [d] may be started. *)
Definition turn_at (now p d : Z) : TurnEnv :=
  mk_turn_env no_fs true true None (mk_child_env false false (spawn_of p) (spawn_of d))
    (mk_readings now now) (Some waiting_health) (mk_readings now now) (mk_readings now now).

Definition first_run : Supervisor * list Argv :=
  start config 1 no_fs (mk_readings 0 0) (no_log, no_log) None [].
Definition second_run : TurnEnd * Supervisor * list Argv :=
  turn config (turn_at 20000000000 101 102) (fst first_run) (snd first_run).

Lemma two_repairs :
  Runs config 20000000000 (snd (fst second_run)) (snd second_run)
    [mk_readings 0 0; mk_readings 20000000000 20000000000].
Proof.
  assert (Runs config 0 (fst first_run) (snd first_run) [mk_readings 0 0]) as Hstart.
  { exact (RunsStart config 0 1 no_fs (mk_readings 0 0) (no_log, no_log) None _ _
             (conj (Z.le_refl 0) (Z.le_refl 0)) (surjective_pairing first_run)). }
  refine (RunsTurn config _ _ _ _ (turn_at 20000000000 101 102) _ _ 20000000000 Hstart _ _); [cbn; lia|].
  change (second_run = (Continues, snd (fst second_run), snd second_run)).
  rewrite (surjective_pairing second_run) at 1.
  by rewrite (surjective_pairing (fst second_run)) at 1.
Defined.

Lemma repairs_are_spaced_witness : 0 + 15 * NANOS <= 20000000000.
Proof.
  exact (repairs_are_spaced config _ _ _ _ 0 1 (mk_readings 0 0)
           (mk_readings 20000000000 20000000000) two_repairs ltac:(lia) eq_refl eq_refl).
Defined.


(** The proxy ends, and the next turn starts both again. *)
Definition lost_proxy : Supervisor := with_live {[102]} (snd (fst second_run)).
Definition third_run : TurnEnd * Supervisor * list Argv :=
  turn config (turn_at 40000000000 103 104) lost_proxy (snd second_run).

Lemma proxy_takes_the_session_with_it_witness :
  Supervisor.proxy (Supervisor.runtime (snd (fst third_run))) = Some 103
  /\ Supervisor.host_daemon (Supervisor.runtime (snd (fst third_run))) <> Some 102.
Proof.
  split; [vm_compute; reflexivity|].
  apply (proxy_takes_the_session_with_it config (turn_at 40000000000 103 104) lost_proxy
           (snd second_run) (fst (fst third_run)) _ (snd third_run) 101 102);
    [reflexivity| |discriminate|vm_compute; reflexivity|vm_compute; reflexivity|vm_compute; discriminate].
  change (third_run = (fst (fst third_run), snd (fst third_run), snd third_run)).
  by destruct third_run as [[? ?] ?].
Defined.

(** *** A configuration the supervisor accepts *)

#[global] Instance demo_runtime_json : RuntimeConfigJson := fun body =>
  match body with
  | [1] => Some (mk_runtime_config None "admin" None
                   (mk_proxy_section None [] None (Some "user") (Some "0123456789abcdef"))
                   (Some 1080) false "first_party_android_egress")
  | _ => None
  end.

Definition demo_files : Files :=
  <["/node/current/config/host-daemon.json" := [1]]>
    {["/node/current/config/sing-box.json" := [123; 125]]}.
Definition demo_cli : SupervisorCli := mk_supervisor_cli "/node/current" 1 15 2 8 false.
Definition demo_loaded : option SupervisorConfig := result_ok (fst (load_config true demo_cli demo_files)).

Lemma supervisor_configuration_witness :
  exists c, demo_loaded = Some c
    /\ config_arg (proxy_args c) = Some "/node/state/sing-box.json"
    /\ exists a, app_egress c = Some a /\ 1024 <= egress_port a <= 65535.
Proof.
  eexists. split; [reflexivity|].
  edestruct (supervisor_configuration true demo_cli demo_files) as
    (file & args & Hfile & -> & _ & _ & _ & _ & _ & Hbounds & _ & Harg); [reflexivity|].
  split; [rewrite Harg; vm_compute in Hfile; by injection Hfile as <-|].
  eexists. split; [reflexivity|]. exact (proj1 (Hbounds _ eq_refl)).
Defined.
End DemoPhone.
