(* ===== verification/HostDemo.v ===== *)
(** * Concrete runs of the host daemon

    A daemon that starts a rotation, one whose rotation ends, a configuration it
    accepts, a poll of the control plane, and runs of the tunnel manager. *)

From stdpp Require Import base gmap strings list fin_maps countable.
From Stdlib Require Import ZArith Lia Ascii String.
From S2P Require Import Prelude Ordered Text NetText Foundation RuntimeProjection TunnelModel.
From S2P Require Import Commands Devices CommandState CommandInvariant ControlPlane.
From S2P Require Import ControlPlaneInvariant ControlPlaneTheorems ConfigJson HostDaemon.
From S2P Require Import HostTheorems HostControl HostConfig TunnelWire Tunnel TunnelManager.
Local Open Scope string_scope.
Local Open Scope Z_scope.

Module DemoDaemon.
Import Concrete.

Definition health : HealthRecord.t :=
  HealthRecord.mk "phone" "phone" None (LegacyOpaque "none") "healthy" true "running"
    (Some "203.0.113.7") None None None None None None None None None None None None None
    None None (Some "stock_wireguard_bridge").

Definition no_commands : RotationCommands := mk_rotation_commands None None None None.
Definition boot : Daemon :=
  booted health true (Some "stock_wireguard_bridge") "10.66.66.2:1080" no_commands ["https://observer"].

Definition request : RotateRequest.t := default_rotate_request.

(** The daemon after it accepted a rotation. *)
Definition rotating : Daemon :=
  mk_daemon (start_rotation_for_runtime 7%N [] (runtime boot) request).2
    (spawn (start_rotation_for_runtime 7%N [] (runtime boot) request).1 request ∅).

Lemma rotation_started : step boot rotating.
Proof. apply (StepRotate (runtime boot) ∅ 7%N [] request). split; [done|constructor]. Qed.

Lemma one_rotation_at_a_time_witness :
  is_Some (tasks rotating !! 7%N) <-> RuntimeState.current_job (runtime rotating) = Some 7%N.
Proof.
  apply (one_rotation_at_a_time health true (Some "stock_wireguard_bridge") "10.66.66.2:1080"
           no_commands ["https://observer"] rotating).
  eapply StepsCons; [exact rotation_started|apply StepsNil].
Defined.

Lemma jobs_end_once_witness :
  job_change (RuntimeState.jobs (runtime boot) !! 7%N) (RuntimeState.jobs (runtime rotating) !! 7%N).
Proof.
  apply (jobs_end_once health true (Some "stock_wireguard_bridge") "10.66.66.2:1080"
           no_commands ["https://observer"] boot rotating 7%N);
    [apply StepsNil|exact rotation_started].
Defined.

(** *** A rotation that ends *)

#[global] Instance no_ipify : IpifyJson := fun _ => None.

(** The command succeeds and the observer sees a new address. *)
Definition world : RotationWorld :=
  mk_world (fun _ => Ok "") (fun _ _ => Some "203.0.113.8") true (fun _ r => r).

Lemma rotation_outcome_witness :
  HealthRecord.serving (RuntimeState.health (execute_rotation world (runtime rotating) 7%N request)) = true.
Proof.
  edestruct (rotation_outcome world (runtime rotating) 7%N request) as (_ & _ & Hserving & _);
    [done|reflexivity|].
  apply Hserving. split; [reflexivity|]. split; [reflexivity|]. split; [by eexists|].
  intros _. vm_compute. discriminate.
Defined.

(** *** Counters *)

Definition transport_code (t : option TunnelActiveTransport.t) : Z :=
  match t with Some t => 1 + Z.of_nat (TunnelActiveTransport.index t) | None => 0 end.

Definition transport_of (code : Z) : option TunnelActiveTransport.t :=
  if code =? 0 then None
  else if code =? 1 then Some TunnelActiveTransport.Tcp
  else if code =? 2 then Some TunnelActiveTransport.Quic
  else Some TunnelActiveTransport.TlsTcp.

Definition counter_fields (version : Z) (c : TunnelEventCounters.t) : list (list Z) :=
  [[version]; TunnelEventCounters.connection_counts c; TunnelEventCounters.transition_counts c;
   TunnelEventCounters.failover_counts c; TunnelEventCounters.disconnect_counts c;
   [TunnelEventCounters.reconnect_attempts c; TunnelEventCounters.reconnect_successes c;
    (if TunnelEventCounters.ever_connected c then 1 else 0);
    transport_code (TunnelEventCounters.last_successful_transport c)]].

Definition of_fields (f : list (list Z)) : option (Z * TunnelEventCounters.t) :=
  match f with
  | [[version]; a; b; c; d; [e; g; ever; last]] =>
      Some (version, TunnelEventCounters.mk a b c d e g (ever =? 1) (transport_of last)
                       false false false false)
  | _ => None
  end.

#[global] Instance counter_json : CounterJson := {
  encode_counters version c := positive_text (encode (counter_fields version c));
  decode_counters s := p ← positive_read s; f ← decode p; of_fields f;
}.

#[global] Instance counter_json_laws : CounterJsonLaws.
Proof.
  split. intros version c. cbn [encode_counters decode_counters counter_json].
  rewrite positive_read_text. cbn [mbind option_bind]. rewrite decode_encode. cbn [of_fields counter_fields].
  by destruct c as [? ? ? ? ? ? [] [[]|]].
Qed.

(** One connection is counted and written to a phone that had no file. *)
Definition counted : TunnelEventCounters.t :=
  TunnelEventCounters.record_connection TunnelActiveTransport.Quic
    (TunnelEventCounters.begin_attempt TunnelEventCounters.default_counters).

Definition written : result bool CounterError * TunnelEventCounters.t * FileContent :=
  persist_if_changed WriteDone TunnelEventCounters.default_counters counted FileMissing.

Lemma counters_survive_restart_witness : file_holds (snd written) (snd (fst written)).
Proof.
  refine (proj1 (counters_survive_restart TunnelEventCounters.default_counters FileMissing _ _ _ _)).
  - exists TunnelEventCounters.default_counters. split; reflexivity.
  - apply (PersistsCons _ _ WriteDone counted (snd (fst written)) (snd written) (fst (fst written))); [|discriminate|apply PersistsNil].
    change (written = (fst (fst written), snd (fst written), snd written)).
    by destruct written as [[? ?] ?].
Defined.

(** *** A poll *)

Lemma first_ok : state_ok (memory MemoryStore.first).
Proof.
  eapply (run_ok MemoryStore.start); [|apply empty_ok].
  apply (RunCons _ (OpIssue (MemoryStore.id_of 1) "1" MemoryStore.first_input));
    [apply MemoryStore.start_fresh|apply RunNil].
Qed.

Lemma commands_delivered_at_least_once_witness :
  queue_of (commands (memory MemoryStore.first)) "phone" <> []
  /\ match poll_round true "2" 9%N [] MemoryStore.first (runtime boot) with
     | (a', r') =>
         delivery MemoryStore.first a' (runtime boot) r' 9%N []
           (queue_of (commands (memory MemoryStore.first)) "phone")
           (queue_of (commands (memory a')) "phone")
     end.
Proof.
  split; [vm_compute; discriminate|].
  apply (commands_delivered_at_least_once true "2" 9%N [] MemoryStore.first (runtime boot)).
  apply first_ok.
Defined.

(** *** A configuration the daemon accepts *)

#[global] Instance demo_text : ConfigJsonText := {
  read_document body := match body with [1] => Some (RNull, true) | _ => None end;
  print_value _ := [];
}.
#[global] Instance demo_urls : UrlParse := fun _ => Some (mk_url "https" (Some "observer") "" None).
#[global] Instance demo_base64 : DerBase64 := fun _ => None.
#[global] Instance demo_file_json : FileConfigJson := fun _ =>
  Some (mk_file (Some "phone") None None (Some "0123456789abcdef") None None None
          (Some (mk_file_proxy (Some "10.66.66.2:1080") (Some "user") (Some "0123456789abcdef")))
          (Some (mk_file_wireguard (Some true) (Some "stock_wireguard_bridge"))) None None None).

Definition host : Host := mk_host (fun _ => Some [1]) (fun _ => None) None (Some [2]).
Definition cli : Cli := mk_cli None None (Some "/config.json").

Lemma accepted_configuration_is_closed_witness :
  exists c, load_runtime_config host cli = Ok c /\ loopback_text (listen c).
Proof.
  assert (is_ok (load_runtime_config host cli) = true) as Hok by (vm_compute; reflexivity).
  destruct (load_runtime_config host cli) as [c|e] eqn:Hc; [|discriminate Hok].
  exists c. split; [reflexivity|].
  exact (proj1 (accepted_configuration_is_closed host cli c Hc)).
Defined.
End DemoDaemon.

(** ** Generations of the tunnel client *)

Module DemoTunnel.
Import Concrete.

(** A phone whose traffic goes through the reverse tunnel, without a counter file. *)
Definition phone : RuntimeState.t :=
  RuntimeState.new DemoDaemon.health false (Some "first_party_reverse_tunnel") "10.66.66.2:1080"
    DemoDaemon.no_commands [].

Definition started : Tunnel :=
  mk_tunnel (start_tunnel_manager TunnelEventCounters.default_counters phone)
    TunnelEventCounters.default_counters FileMissing 0 MgrStarting [].

Lemma spawned : spawn_reverse_tunnel phone FileMissing = Ok started.
Proof. reflexivity. Qed.

(** A client that connects once, loses its server and is shut down. *)
Definition session : list (PumpOutcome * PumpOutcome * PumpOutcome) :=
  let broken := Ran 0 (Err (mk_error "server closed reverse tunnel" [])) in [(broken, broken, broken)].

Definition statuses (session_id : Uuid) : list ClientSnapshot.t :=
  client_statuses DemoSession.config session_id TunnelEventCounters.default_counters session false.

(** The generation starts, connects, and its forwarder shows it. *)
Definition connects (fs : WriteOutcome) : list Label :=
  [Start (statuses 1%N) false; Publish; Publish; Wake 0; Borrow 0; ForwardPersist 0 fs;
   ForwardProject 0].

(** It is asked to restart and ends. *)
Definition restarts (fs : WriteOutcome) : list Label :=
  ([RequestRestart; SeeRestart; Publish; Publish; SeeStopped] ++ ending fs)%list.

(** The state a schedule leads to. *)
Definition arrives (ls : list Label) : Tunnel := default started (run ls started).

Lemma run_arrives ls : is_some (run ls started) = true -> run ls started = Some (arrives ls).
Proof. unfold arrives. by destruct (run ls started). Qed.

Lemma arrives_reached ls :
  is_some (run ls started) = true -> legal_run DemoSession.config ls started ->
  reaches DemoSession.config started (arrives ls).
Proof. intros Hs Hl. eapply run_reaches; [apply ReachesHere|exact Hl|by apply run_arrives]. Qed.

Lemma first_start_legal ls :
  Forall (fun l => match l with Start _ _ => False | _ => True end) ls ->
  forall t, legal_run DemoSession.config ls t.
Proof.
  induction 1 as [|l ls Hl Hls IH]; intros t; cbn; [done|]. split; [by destruct l|].
  destruct (tunnel_step l t); [apply IH|done].
Qed.

Definition connected : Tunnel := arrives (connects WriteDone).

Lemma connected_legal rest :
  Forall (fun l => match l with Start _ _ => False | _ => True end) rest ->
  legal_run DemoSession.config (Start (statuses 1%N) false :: rest) started.
Proof. split; [apply MayReturn; by left|]. by apply first_start_legal. Qed.

Lemma connected_reached : reaches DemoSession.config started connected.
Proof.
  apply arrives_reached; [vm_compute; reflexivity|]. apply connected_legal. by repeat constructor.
Qed.

Lemma tunnel_manager_invariant_witness :
  tunnel_connected (shared connected) = true
  /\ file_keeps (store started) (file connected).
Proof.
  split; [vm_compute; reflexivity|].
  apply (tunnel_manager_invariant DemoSession.config phone FileMissing started connected
           spawned connected_reached).
Defined.

(** The restart is asked for while the session is up. *)
Definition asked : Tunnel := arrives (connects WriteDone ++ [RequestRestart])%list.

Lemma restart_is_honoured_witness :
  exists ls t', run ls asked = Some t' /\ manager t' = MgrStarting
    /\ restart_seen t' = 1 /\ shows_disconnected "restart_requested" (shared t').
Proof.
  destruct (generations asked) as [|g gs] eqn:Hg; [vm_compute in Hg; discriminate Hg|].
  destruct (restart_is_honoured WriteFails asked g gs) as (ls & t' & _ & Hrun & Hm & Hseen & Hshow);
    [vm_compute; reflexivity|exact Hg|vm_compute; discriminate|].
  exists ls, t'. split; [exact Hrun|]. split; [exact Hm|]. split; [|exact Hshow].
  rewrite Hseen. vm_compute. reflexivity.
Defined.

(** The first status of the session, forwarded. *)
Lemma counters_never_decrease_witness : advances started (arrives [Start (statuses 1%N) false]).
Proof.
  apply (counters_never_decrease DemoSession.config phone FileMissing started started
           (Start (statuses 1%N) false)); [exact spawned|apply OrderHere| |vm_compute; reflexivity|].
  - apply MayReturn. left. reflexivity.
  - change (tunnel_step (Start (statuses 1%N) false) started
            = Some (arrives [Start (statuses 1%N) false])). reflexivity.
Defined.

(** *** What the order of tasks can do *)

Lemma ended_by gs :
  forallb (fun g => aborted g && bool_decide (script g = [])) gs = true ->
  Forall (fun g => aborted g = true /\ script g = []) gs.
Proof.
  intros Hall. apply Forall_forall. intros g Hg.
  pose proof (proj1 (forallb_forall _ _) Hall g Hg) as Hb.
  by apply andb_true_iff in Hb as [? ?%bool_decide_eq_true].
Qed.

Lemma disconnections_lost c c' :
  TunnelEventCounters.disconnect_counts c !! 1%nat = Some 1 ->
  TunnelEventCounters.disconnect_counts c' !! 1%nat = Some 0 -> ~ counters_le c c'.
Proof.
  intros H1 H0 [_ _ _ Hd _ _ _]. pose proof (Forall2_lookup_lr _ _ _ _ _ _ Hd H1 H0) as Hle.
  unfold counter_le, u64_max in Hle. lia.
Qed.

Lemma connections_lost c c' :
  TunnelEventCounters.connection_counts c !! 0%nat = Some 1 ->
  TunnelEventCounters.connection_counts c' !! 0%nat = Some 0 -> ~ counters_le c c'.
Proof.
  intros H1 H0 [Hd _ _ _ _ _ _]. pose proof (Forall2_lookup_lr _ _ _ _ _ _ Hd H1 H0) as Hle.
  unfold counter_le, u64_max in Hle. lia.
Qed.

(** The forwarder has cloned a status; the manager projects a newer one, aborts
    it and marks the tunnel disconnected; then the forwarder goes on. *)
Definition overtaken : list Label :=
  ([Start (statuses 1%N) false; Publish; Publish; Wake 0; Borrow 0] ++ restarts WriteDone)%list.
Definition late : list Label := [ForwardPersist 0 WriteDone; ForwardProject 0].

(** A forwarder that was overtaken by the manager shows the tunnel as connected
    after its generation has ended and was marked disconnected, and puts the
    counters of the store and of the shared state back: a disconnection that was
    counted and saved is gone. *)
Theorem late_forwarder_takes_back :
  let before := arrives overtaken in
  let after := arrives (overtaken ++ late)%list in
  reaches DemoSession.config started before
  /\ reaches DemoSession.config started after
  /\ manager after = MgrStarting
  /\ Forall (fun g => aborted g = true /\ script g = []) (generations after)
  /\ tunnel_connected (shared before) = false /\ tunnel_connected (shared after) = true
  /\ ~ counters_le (store before) (store after)
  /\ ~ counters_le (counters_of before) (counters_of after).
Proof.
  assert (forall ls, Forall (fun l => match l with Start _ _ => False | _ => True end) ls ->
    is_some (run (Start (statuses 1%N) false :: ls) started) = true ->
    reaches DemoSession.config started (arrives (Start (statuses 1%N) false :: ls))) as Hreach.
  { intros ls Hls Hs. by apply arrives_reached; [|apply connected_legal]. }
  split; [apply Hreach; [by repeat constructor|vm_compute; reflexivity]|].
  split; [apply Hreach; [by repeat constructor|vm_compute; reflexivity]|].
  split; [vm_compute; reflexivity|].
  split; [apply ended_by; vm_compute; reflexivity|].
  split; [vm_compute; reflexivity|]. split; [vm_compute; reflexivity|].
  split; apply disconnections_lost; vm_compute; reflexivity.
Qed.

(** A session is counted while the disk is full, the restart starts the next
    client from the store, and its first status replaces what was shown. *)
Definition unsaved : list Label := connects WriteFails.
Definition shown_again : list Label :=
  [Publish; Wake 0; Borrow 0; ForwardPersist 0 WriteDone; ForwardProject 0].
Definition next_session : list Label :=
  (restarts WriteFails ++ Start (statuses 2%N) false :: shown_again)%list.

(** Counters that could not be saved are lost by a restart of the client, in a
    run that is otherwise in order: the shared state first shows the connection
    and that saving failed, then no connection and that all is well. *)
Theorem unsaved_counters_are_lost :
  let before := arrives unsaved in
  let after := arrives (unsaved ++ next_session)%list in
  reaches DemoSession.config started after
  /\ RuntimeState.reverse_tunnel_counter_persistence_healthy (shared before) = false
  /\ RuntimeState.reverse_tunnel_counter_persistence_healthy (shared after) = true
  /\ ~ counters_le (counters_of before) (counters_of after).
Proof.
  split.
  { eapply (run_reaches _ _ next_session (arrives unsaved)).
    - apply arrives_reached; [vm_compute; reflexivity|]. apply connected_legal. by repeat constructor.
    - change next_session with (restarts WriteFails ++ Start (statuses 2%N) false :: shown_again)%list.
      apply legal_run_app; [apply first_start_legal; by repeat constructor|].
      intros t Ht. split; [|destruct (tunnel_step _ t); [apply first_start_legal; by repeat constructor|done]].
      cbn [legal]. replace (store t) with TunnelEventCounters.default_counters; [apply MayReturn; by left|].
      assert (store (default started (run (restarts WriteFails) (arrives unsaved)))
              = TunnelEventCounters.default_counters) as Hd by (vm_compute; reflexivity).
      rewrite Ht in Hd. cbn [default] in Hd. by rewrite <- Hd.
    - rewrite <- run_arrives by (vm_compute; reflexivity). rewrite run_app.
      by rewrite (run_arrives unsaved) by (vm_compute; reflexivity). }
  split; [vm_compute; reflexivity|]. split; [vm_compute; reflexivity|].
  apply connections_lost; vm_compute; reflexivity.
Qed.
End DemoTunnel.
