(* ===== verification/BindingLedger.v ===== *)
(** * The ledger of VM bindings

    [apps/operator-cli/src/github_vm_binding_store.rs]: the record of which virtual
    machine the operator owns, kept as deployments of a repository.  Every change is
    a record that names its predecessor; the state is what a replay of the records
    gives.  Two operators may work on one ledger at a time: the ledger is the world
    of the operations, the service that keeps it a class, and what other operators
    do between the requests of an operation is an argument of it. *)

From stdpp Require Import base gmap strings list fin_maps.
From Stdlib Require Import ZArith Lia Ascii String.
From S2P Require Import Prelude Text NetText Foundation ProviderLifecycle.
Local Open Scope string_scope.
Local Open Scope Z_scope.
Local Open Scope rust_scope.

Definition DEPLOYMENT_TASK : string := "mobile-proxy:acceptance-vm-binding".
Definition DEPLOYMENT_ENVIRONMENT : string := "acceptance-vm-binding-state".
Definition LEDGER_FORMAT_VERSION : Z := 2.
Definition PAGE_SIZE : nat := 100.
Definition MAX_LEDGER_PAGES : nat := 100.

Inductive AcceptanceVmIntentNamespace := Item19 | Item20.

Definition namespace_intent_id (n : AcceptanceVmIntentNamespace) (candidate_sha : string) : string :=
  match n with
  | Item19 => "candidate:" ++ candidate_sha
  | Item20 => "item20:candidate:" ++ candidate_sha
  end.

(** ** Records *)

Inductive LedgerTransition :=
| PrepareCreate | DispatchCreate | Bind | Replace | PrepareDelete | DispatchDelete | Clear.

#[export] Instance LedgerTransition_eq_dec : EqDecision LedgerTransition.
Proof. solve_decision. Defined.

Module BindingPayload.
Record t := mk { provider_id : string; generation : Z }.

Definition from_binding (b : VmBinding.t) : t :=
  mk (ProviderResourceId.as_str (VmBinding.provider_id b)) (Generation.get (VmBinding.generation b)).
End BindingPayload.

Module Payload.
Record t := mk {
  format_version : Z;
  project : string;
  managed_by : string;
  candidate_sha : string;
  scope : LifecycleScope;
  intent_id : string;
  predecessor_deployment_id : option Z;
  transition : LedgerTransition;
  generation : Z;
  expected : option BindingPayload.t;
  replacement : option BindingPayload.t;
}.
End Payload.

Module DeploymentRecord.
Record t := mk {
  id : Z;
  sha : string;
  git_ref : string;
  task : string;
  environment : string;
  payload : Payload.t;
}.
End DeploymentRecord.

(** ** State *)

Inductive AcceptanceVmLifecycleState :=
| Empty
| CreatePrepared (generation : Generation.t)
| CreateDispatched (generation : Generation.t)
| Bound (binding : VmBinding.t)
| DeletePrepared (binding : VmBinding.t)
| DeleteDispatched (binding : VmBinding.t)
| Terminal (last_generation : Generation.t).

#[export] Instance AcceptanceVmLifecycleState_eq_dec : EqDecision AcceptanceVmLifecycleState.
Proof. solve_decision. Defined.

Record LedgerState := mk_ledger_state {
  head_id : option Z;
  phase : AcceptanceVmLifecycleState;
}.

Module BindingStoreError.
Inductive t :=
| InvalidCandidateSha
| InvalidOwnershipIntent
| InvalidProviderUuid
| InvalidLedgerRecord
| ForkedLedger
| LedgerTooLarge
| CompareAndSwapConflict
| TerminalIntentReuse
| OperationInProgress
| CreateAlreadyDispatched
| DeleteAlreadyDispatched
| InvalidTransition
| HttpTransport
| HttpStatus (status : Z)
| WriteVerificationFailed.

Definition fmt (e : t) : string :=
  match e with
  | InvalidCandidateSha => "invalid immutable candidate SHA"
  | InvalidOwnershipIntent => "binding store requires the exact configured acceptance intent"
  | InvalidProviderUuid => "binding store provider identity is not a canonical UUID"
  | InvalidLedgerRecord => "GitHub deployment binding ledger contains an invalid record"
  | ForkedLedger => "GitHub deployment binding ledger is forked or non-linear"
  | LedgerTooLarge => "GitHub deployment binding ledger exceeds bound"
  | CompareAndSwapConflict => "binding compare-and-swap conflict"
  | TerminalIntentReuse => "cleared ownership intent is terminal and cannot be reused"
  | OperationInProgress => "acceptance VM lifecycle operation is in progress"
  | CreateAlreadyDispatched =>
      "create dispatch was already durably fenced and must not be sent again"
  | DeleteAlreadyDispatched =>
      "delete dispatch was already durably fenced and must be recovered by exact target state"
  | InvalidTransition => "invalid binding state transition"
  | HttpTransport => "GitHub deployment-state transport failed"
  | HttpStatus status => "GitHub deployment-state HTTP status " ++ u64_to_string status
  | WriteVerificationFailed => "GitHub deployment-state write could not be verified"
  end.
End BindingStoreError.
Import (notations) BindingStoreError.

(** ** Checks *)

Definition sha_byte (b : Z) : bool := is_ascii_digit b || ((97 <=? b) && (b <=? 102)).

Definition validate_candidate_sha (candidate_sha : string) : result unit BindingStoreError.t :=
  if negb (len candidate_sha =? 40) || negb (all_bytes sha_byte candidate_sha)
  then Err BindingStoreError.InvalidCandidateSha else Ok tt.

Definition allowed_intent_id (candidate_sha intent_id : string) : bool :=
  bool_decide (intent_id = namespace_intent_id Item19 candidate_sha)
  || bool_decide (intent_id = namespace_intent_id Item20 candidate_sha).

(** [Option::map(f).transpose()] *)
Definition transpose_map {A B E} (f : A -> result B E) (o : option A) : result (option B) E :=
  match o with None => Ok None | Some a => let? b := f a in Ok (Some b) end.

Section Ledger.
Context `{UuidText}.

Definition validate_provider_uuid (provider_id : string) : result unit BindingStoreError.t :=
  let? parsed := ok_or (uuid_parse_str provider_id) BindingStoreError.InvalidProviderUuid in
  if bool_decide (uuid_to_string parsed = provider_id) then Ok tt
  else Err BindingStoreError.InvalidProviderUuid.

Definition ledger_generation (value : Z) : result Generation.t BindingStoreError.t :=
  map_err (fun _ => BindingStoreError.InvalidLedgerRecord) (Generation.new value).

Definition to_binding (intent : OwnershipIntent.t) (p : BindingPayload.t)
    : result VmBinding.t BindingStoreError.t :=
  let? _ := validate_provider_uuid (BindingPayload.provider_id p) in
  let? provider_id := map_err (fun _ => BindingStoreError.InvalidLedgerRecord)
                        (ProviderResourceId.new (BindingPayload.provider_id p)) in
  let? generation := ledger_generation (BindingPayload.generation p) in
  Ok (VmBinding.mk intent provider_id generation).

Definition validate_payload_binding (p : option BindingPayload.t) : result unit BindingStoreError.t :=
  match p with
  | None => Ok tt
  | Some b =>
      let? _ := validate_provider_uuid (BindingPayload.provider_id b) in
      let? _ := ledger_generation (BindingPayload.generation b) in Ok tt
  end.

Definition envelope_ok (r : DeploymentRecord.t) (candidate_sha : string) : bool :=
  let p := DeploymentRecord.payload r in
  bool_decide (DeploymentRecord.sha r = candidate_sha)
  && bool_decide (DeploymentRecord.git_ref r = candidate_sha)
  && bool_decide (DeploymentRecord.task r = DEPLOYMENT_TASK)
  && bool_decide (DeploymentRecord.environment r = DEPLOYMENT_ENVIRONMENT)
  && (Payload.format_version p =? LEDGER_FORMAT_VERSION)
  && bool_decide (Payload.project p = OWNERSHIP_PROJECT)
  && bool_decide (Payload.managed_by p = OWNERSHIP_MANAGER)
  && bool_decide (Payload.candidate_sha p = candidate_sha)
  && bool_decide (Payload.scope p = Acceptance)
  && allowed_intent_id candidate_sha (Payload.intent_id p).

Definition validate_record_envelope (r : DeploymentRecord.t) (candidate_sha : string)
    : result unit BindingStoreError.t :=
  let p := DeploymentRecord.payload r in
  if negb (envelope_ok r candidate_sha) then Err BindingStoreError.InvalidLedgerRecord
  else
    let? _ := ledger_generation (Payload.generation p) in
    let? _ := validate_payload_binding (Payload.expected p) in
    validate_payload_binding (Payload.replacement p).

(** ** Replay *)

(** A transition that needs the current binding, and nothing to replace it. *)
Definition keeps_current (generation : Generation.t) (expected replacement : option VmBinding.t)
    (current : VmBinding.t) (next : AcceptanceVmLifecycleState)
    : result AcceptanceVmLifecycleState BindingStoreError.t :=
  let? expected := ok_or expected BindingStoreError.InvalidTransition in
  if negb (bool_decide (expected = current))
     || negb (bool_decide (generation = VmBinding.generation current))
     || is_some replacement
  then Err BindingStoreError.InvalidTransition else Ok next.

Definition apply_record (state : AcceptanceVmLifecycleState) (p : Payload.t)
    (intent : OwnershipIntent.t) : result AcceptanceVmLifecycleState BindingStoreError.t :=
  let? generation := ledger_generation (Payload.generation p) in
  let? expected := transpose_map (to_binding intent) (Payload.expected p) in
  let? replacement := transpose_map (to_binding intent) (Payload.replacement p) in
  match Payload.transition p, state with
  | PrepareCreate, Empty =>
      if negb (bool_decide (generation = Generation.INITIAL)) || is_some expected
         || is_some replacement
      then Err BindingStoreError.InvalidTransition else Ok (CreatePrepared generation)
  | DispatchCreate, CreatePrepared prepared =>
      if bool_decide (prepared = generation) && negb (is_some expected) && negb (is_some replacement)
      then Ok (CreateDispatched generation) else Err BindingStoreError.InvalidTransition
  | Bind, CreateDispatched dispatched =>
      if bool_decide (dispatched = generation) && negb (is_some expected) then
        let? binding := ok_or replacement BindingStoreError.InvalidTransition in
        if bool_decide (VmBinding.generation binding = generation) then Ok (Bound binding)
        else Err BindingStoreError.InvalidTransition
      else Err BindingStoreError.InvalidTransition
  | Replace, Bound current =>
      let? expected := ok_or expected BindingStoreError.InvalidTransition in
      let? replacement := ok_or replacement BindingStoreError.InvalidTransition in
      let? next := map_err (fun _ => BindingStoreError.InvalidTransition)
                     (Generation.next (VmBinding.generation current)) in
      if negb (bool_decide (expected = current))
         || negb (bool_decide (VmBinding.intent replacement = VmBinding.intent current))
         || bool_decide (VmBinding.provider_id replacement = VmBinding.provider_id current)
         || negb (bool_decide (VmBinding.generation replacement = next))
         || negb (bool_decide (generation = next))
      then Err BindingStoreError.InvalidTransition else Ok (Bound replacement)
  | PrepareDelete, Bound current =>
      keeps_current generation expected replacement current (DeletePrepared current)
  | DispatchDelete, DeletePrepared current =>
      keeps_current generation expected replacement current (DeleteDispatched current)
  | Clear, DeleteDispatched current =>
      keeps_current generation expected replacement current
        (Terminal (VmBinding.generation current))
  | _, _ => Err BindingStoreError.InvalidTransition
  end.

(** The records of one intent, each checked, in the order of the ledger. *)
Fixpoint select_records (candidate_sha intent_id : string) (records : list DeploymentRecord.t)
    : result (list DeploymentRecord.t) BindingStoreError.t :=
  match records with
  | [] => Ok []
  | r :: rest =>
      let? _ := validate_record_envelope r candidate_sha in
      let? selected := select_records candidate_sha intent_id rest in
      Ok (if bool_decide (Payload.intent_id (DeploymentRecord.payload r) = intent_id)
          then r :: selected else selected)
  end.

(** [sort_by_key(|record| record.id)], which is stable. *)
Fixpoint insert_record (r : DeploymentRecord.t) (sorted : list DeploymentRecord.t)
    : list DeploymentRecord.t :=
  match sorted with
  | [] => [r]
  | s :: rest =>
      if DeploymentRecord.id r <=? DeploymentRecord.id s then r :: sorted
      else s :: insert_record r rest
  end.

Definition sort_records (records : list DeploymentRecord.t) : list DeploymentRecord.t :=
  foldr insert_record [] records.

Fixpoint replay (intent : OwnershipIntent.t) (seen : gset Z) (state : LedgerState)
    (records : list DeploymentRecord.t) : result LedgerState BindingStoreError.t :=
  match records with
  | [] => Ok state
  | r :: rest =>
      let p := DeploymentRecord.payload r in
      if bool_decide (DeploymentRecord.id r ∈ seen) then Err BindingStoreError.ForkedLedger
      else if negb (bool_decide (Payload.predecessor_deployment_id p = head_id state))
      then Err BindingStoreError.ForkedLedger
      else
        let? next := apply_record (phase state) p intent in
        replay intent ({[DeploymentRecord.id r]} ∪ seen)
          (mk_ledger_state (Some (DeploymentRecord.id r)) next) rest
  end.

Definition empty_ledger : LedgerState := mk_ledger_state None Empty.

Definition reconstruct_ledger (records : list DeploymentRecord.t) (candidate_sha : string)
    (intent : OwnershipIntent.t) : result LedgerState BindingStoreError.t :=
  let? _ := validate_candidate_sha candidate_sha in
  if negb (bool_decide (OwnershipIntent.scope intent = Acceptance))
     || negb (allowed_intent_id candidate_sha (OwnershipIntent.id intent))
  then Err BindingStoreError.InvalidOwnershipIntent
  else
    let? selected := select_records candidate_sha (OwnershipIntent.id intent) records in
    replay intent ∅ empty_ledger (sort_records selected).
End Ledger.

(** ** Updates *)

(** What an operation adds to the ledger, and the state it expects afterwards. *)
Record Update := mk_update {
  update_transition : LedgerTransition;
  update_generation : Generation.t;
  update_expected : option VmBinding.t;
  update_replacement : option VmBinding.t;
  update_after : AcceptanceVmLifecycleState;
}.

Record BindingStore := mk_store {
  store_sha : string;
  store_intent : OwnershipIntent.t;
}.

(** The payload [append_transition] builds on a state that was read. *)
Definition update_payload (store : BindingStore) (before : LedgerState) (u : Update) : Payload.t :=
  Payload.mk LEDGER_FORMAT_VERSION OWNERSHIP_PROJECT OWNERSHIP_MANAGER (store_sha store) Acceptance
    (OwnershipIntent.id (store_intent store)) (head_id before) (update_transition u)
    (Generation.get (update_generation u)) (BindingPayload.from_binding <$> update_expected u)
    (BindingPayload.from_binding <$> update_replacement u).

Definition update_prepare_create (p : AcceptanceVmLifecycleState) : result Update BindingStoreError.t :=
  match p with
  | Empty => Ok (mk_update PrepareCreate Generation.INITIAL None None (CreatePrepared Generation.INITIAL))
  | Terminal _ => Err BindingStoreError.TerminalIntentReuse
  | _ => Err BindingStoreError.OperationInProgress
  end.

Definition update_create_dispatched (generation : Generation.t) (p : AcceptanceVmLifecycleState)
    : result Update BindingStoreError.t :=
  match p with
  | CreatePrepared prepared =>
      if bool_decide (prepared = generation)
      then Ok (mk_update DispatchCreate generation None None (CreateDispatched generation))
      else Err BindingStoreError.InvalidTransition
  | CreateDispatched dispatched =>
      if bool_decide (dispatched = generation) then Err BindingStoreError.CreateAlreadyDispatched
      else Err BindingStoreError.InvalidTransition
  | Terminal _ => Err BindingStoreError.TerminalIntentReuse
  | _ => Err BindingStoreError.InvalidTransition
  end.

Definition update_prepare_delete (binding : VmBinding.t) (p : AcceptanceVmLifecycleState)
    : result Update BindingStoreError.t :=
  match p with
  | Bound current =>
      if bool_decide (current = binding)
      then Ok (mk_update PrepareDelete (VmBinding.generation binding) (Some binding) None
                 (DeletePrepared binding))
      else Err BindingStoreError.CompareAndSwapConflict
  | Terminal _ => Err BindingStoreError.TerminalIntentReuse
  | _ => Err BindingStoreError.OperationInProgress
  end.

Definition update_delete_dispatched (binding : VmBinding.t) (p : AcceptanceVmLifecycleState)
    : result Update BindingStoreError.t :=
  match p with
  | DeletePrepared current =>
      if bool_decide (current = binding)
      then Ok (mk_update DispatchDelete (VmBinding.generation binding) (Some binding) None
                 (DeleteDispatched binding))
      else Err BindingStoreError.InvalidTransition
  | DeleteDispatched current =>
      if bool_decide (current = binding) then Err BindingStoreError.DeleteAlreadyDispatched
      else Err BindingStoreError.InvalidTransition
  | Terminal _ => Err BindingStoreError.TerminalIntentReuse
  | _ => Err BindingStoreError.InvalidTransition
  end.

Definition update_bind (binding : VmBinding.t) (p : AcceptanceVmLifecycleState)
    : result Update BindingStoreError.t :=
  match p with
  | CreateDispatched generation =>
      if bool_decide (generation = VmBinding.generation binding)
      then Ok (mk_update Bind generation None (Some binding) (Bound binding))
      else Err BindingStoreError.OperationInProgress
  | CreatePrepared _ | Empty => Err BindingStoreError.InvalidTransition
  | _ => Err BindingStoreError.OperationInProgress
  end.

Definition update_replace (old new : VmBinding.t) (p : AcceptanceVmLifecycleState)
    : result Update BindingStoreError.t :=
  match p with
  | Bound current =>
      if bool_decide (current = old) then
        let? next := map_err (fun _ => BindingStoreError.InvalidTransition)
                       (Generation.next (VmBinding.generation old)) in
        if negb (bool_decide (VmBinding.intent new = VmBinding.intent old))
           || bool_decide (VmBinding.provider_id new = VmBinding.provider_id old)
           || negb (bool_decide (VmBinding.generation new = next))
        then Err BindingStoreError.InvalidTransition
        else Ok (mk_update Replace (VmBinding.generation new) (Some old) (Some new) (Bound new))
      else Err BindingStoreError.CompareAndSwapConflict
  | _ => Err BindingStoreError.OperationInProgress
  end.

Definition update_clear (old : VmBinding.t) (p : AcceptanceVmLifecycleState)
    : result Update BindingStoreError.t :=
  match p with
  | DeleteDispatched current =>
      if bool_decide (current = old)
      then Ok (mk_update Clear (VmBinding.generation old) (Some old) None
                 (Terminal (VmBinding.generation old)))
      else Err BindingStoreError.InvalidTransition
  | Bound current =>
      if bool_decide (current = old) then Err BindingStoreError.InvalidTransition
      else Err BindingStoreError.CompareAndSwapConflict
  | _ => Err BindingStoreError.InvalidTransition
  end.

Definition update_compare_and_swap (expected replacement : option VmBinding.t)
    (p : AcceptanceVmLifecycleState) : result Update BindingStoreError.t :=
  match p with
  | Terminal _ => Err BindingStoreError.TerminalIntentReuse
  | _ =>
      match expected, replacement with
      | None, Some new => update_bind new p
      | Some old, Some new => update_replace old new p
      | Some old, None => update_clear old p
      | None, None => Err BindingStoreError.InvalidTransition
      end
  end.

(** ** The store over a service *)

Record NewDeploymentRecord := mk_new_record {
  new_candidate_sha : string;
  new_payload : Payload.t;
}.

(** [DeploymentBackend]: reading does not change the world. *)
Class DeploymentBackend (W : Type) := {
  list_records : string -> W -> result (list DeploymentRecord.t) BindingStoreError.t;
  append_record : NewDeploymentRecord -> W -> result DeploymentRecord.t BindingStoreError.t * W;
}.

Section Store.
Context {W : Type} `{!DeploymentBackend W} `{UuidText}.

(** What others do between the read and the write of an operation, and between its
    write and its check. *)
Record Others := mk_others { before_append : W -> W; before_verify : W -> W }.

Definition validate_intent (store : BindingStore) (intent : OwnershipIntent.t)
    : result unit BindingStoreError.t :=
  if bool_decide (intent = store_intent store) then Ok tt
  else Err BindingStoreError.InvalidOwnershipIntent.

Definition validate_binding (store : BindingStore) (binding : VmBinding.t)
    : result unit BindingStoreError.t :=
  let? _ := validate_intent store (VmBinding.intent binding) in
  validate_provider_uuid (ProviderResourceId.as_str (VmBinding.provider_id binding)).

Definition current_state (store : BindingStore) (intent : OwnershipIntent.t) (w : W)
    : result LedgerState BindingStoreError.t :=
  let? _ := validate_intent store intent in
  let? records := list_records (store_sha store) w in
  reconstruct_ledger records (store_sha store) (store_intent store).

Definition lifecycle_state (store : BindingStore) (intent : OwnershipIntent.t) (w : W)
    : result AcceptanceVmLifecycleState BindingStoreError.t :=
  let? state := current_state store intent w in Ok (phase state).

Definition append_transition (others : Others) (store : BindingStore) (before : LedgerState)
    (u : Update) (w : W) : result unit BindingStoreError.t * W :=
  match append_record (mk_new_record (store_sha store) (update_payload store before u))
          (before_append others w) with
  | (Err e, w) => (Err e, w)
  | (Ok created, w) =>
      let w := before_verify others w in
      (let? after := current_state store (store_intent store) w in
       if negb (bool_decide (head_id after = Some (DeploymentRecord.id created)))
          || negb (bool_decide (phase after = update_after u))
       then Err BindingStoreError.WriteVerificationFailed else Ok tt, w)
  end.

(** An operation: checks of its arguments, one read, one write. *)
Definition operate (others : Others) (store : BindingStore) (intent : OwnershipIntent.t)
    (checks : result unit BindingStoreError.t)
    (update : AcceptanceVmLifecycleState -> result Update BindingStoreError.t) (w : W)
    : result Update BindingStoreError.t * W :=
  match (let? _ := checks in current_state store intent w) with
  | Err e => (Err e, w)
  | Ok before =>
      match update (phase before) with
      | Err e => (Err e, w)
      | Ok u =>
          let '(r, w) := append_transition others store before u w in
          (let? _ := r in Ok u, w)
      end
  end.

Definition discard {A E} (r : result A E) : result unit E := let? _ := r in Ok tt.

Definition prepare_create others store intent (w : W) : result Generation.t BindingStoreError.t * W :=
  let '(r, w) := operate others store intent (Ok tt) update_prepare_create w in
  (let? u := r in Ok (update_generation u), w).

Definition mark_create_dispatched others store intent generation (w : W)
    : result unit BindingStoreError.t * W :=
  let '(r, w) := operate others store intent (Ok tt) (update_create_dispatched generation) w in
  (discard r, w).

Definition prepare_delete others store intent binding (w : W) : result unit BindingStoreError.t * W :=
  let '(r, w) := operate others store intent (validate_binding store binding)
                   (update_prepare_delete binding) w in
  (discard r, w).

Definition mark_delete_dispatched others store intent binding (w : W)
    : result unit BindingStoreError.t * W :=
  let '(r, w) := operate others store intent (validate_binding store binding)
                   (update_delete_dispatched binding) w in
  (discard r, w).

Definition load store intent (w : W) : result (option VmBinding.t) BindingStoreError.t :=
  let? state := current_state store intent w in
  match phase state with
  | Empty => Ok None
  | Bound binding => Ok (Some binding)
  | Terminal _ => Err BindingStoreError.TerminalIntentReuse
  | CreatePrepared _ | CreateDispatched _ | DeletePrepared _ | DeleteDispatched _ =>
      Err BindingStoreError.OperationInProgress
  end.

Definition validate_optional (store : BindingStore) (binding : option VmBinding.t)
    : result unit BindingStoreError.t :=
  match binding with Some b => validate_binding store b | None => Ok tt end.

Definition swap_checks store intent (expected replacement : option VmBinding.t)
    : result unit BindingStoreError.t :=
  let? _ := validate_intent store intent in
  let? _ := validate_optional store expected in
  validate_optional store replacement.

Definition compare_and_swap others store intent expected replacement (w : W)
    : result unit BindingStoreError.t * W :=
  let '(r, w) := operate others store intent (swap_checks store intent expected replacement)
                   (update_compare_and_swap expected replacement) w in
  (discard r, w).
End Store.
Arguments Others : clear implicits.

(** [DurableGitHubVmBindingStore::new_with_namespace]; the token is only tested. *)
Definition new_with_namespace (github_token candidate_sha : string)
    (namespace : AcceptanceVmIntentNamespace) : result BindingStore BindingStoreError.t :=
  let? _ := validate_candidate_sha candidate_sha in
  let? intent := map_err (fun _ => BindingStoreError.InvalidOwnershipIntent)
                   (OwnershipIntent.new Acceptance (namespace_intent_id namespace candidate_sha)) in
  if bool_decide (github_token = "") then Err BindingStoreError.HttpTransport
  else Ok (mk_store candidate_sha intent).

(** ** The service *)

(** The answer to a request: no answer, or a status and a body if it decodes. *)
Inductive HttpReply (A : Type) :=
| NoReply
| Reply (status : Z) (body : option A).
Arguments NoReply {A}.
Arguments Reply {A}.

(** The deployments API of the repository. *)
Class GitHubApi (W : Type) := {
  get_page : string -> nat -> W -> HttpReply (list DeploymentRecord.t);
  post_deployment : NewDeploymentRecord -> W -> HttpReply DeploymentRecord.t * W;
}.

Section GitHub.
Context {W : Type} `{!GitHubApi W}.

Definition reply_body {A} (wanted : Z) (reply : HttpReply A) : result A BindingStoreError.t :=
  match reply with
  | NoReply => Err BindingStoreError.HttpTransport
  | Reply status body =>
      if negb (status =? wanted) then Err (BindingStoreError.HttpStatus status)
      else ok_or body BindingStoreError.HttpTransport
  end.

(** Pages [page] to [page + remaining - 1]. *)
Fixpoint list_pages (candidate_sha : string) (remaining page : nat)
    (records : list DeploymentRecord.t) (w : W)
    : result (list DeploymentRecord.t) BindingStoreError.t :=
  match remaining with
  | O => Err BindingStoreError.LedgerTooLarge
  | S remaining' =>
      let? page_records := reply_body 200 (get_page candidate_sha page w) in
      let records := (records ++ page_records)%list in
      if (List.length page_records <? PAGE_SIZE)%nat then Ok records
      else list_pages candidate_sha remaining' (S page) records w
  end.

(** The record is posted as a deployment of its candidate; only [201] is an
    answer. *)
Definition append_deployment (record : NewDeploymentRecord) (w : W)
    : result DeploymentRecord.t BindingStoreError.t * W :=
  let '(reply, w) := post_deployment record w in (reply_body 201 reply, w).

#[export] Instance github_backend : DeploymentBackend W := {
  list_records candidate_sha w := list_pages candidate_sha MAX_LEDGER_PAGES 1 [] w;
  append_record := append_deployment;
}.
End GitHub.
