(* ===== verification/BindingLedgerTheorems.v ===== *)
(** * The ledger fences operators

    A replay determines the state; an update that reports success took effect
    alone; and of any number of operators that race for a step of a machine's
    life, one at most is told that it made it. *)

From stdpp Require Import base gmap strings list fin_maps sorting.
From Stdlib Require Import ZArith Lia Ascii String.
From S2P Require Import Prelude Text Foundation ProviderLifecycle BindingLedger.
Local Open Scope string_scope.
Local Open Scope Z_scope.
Local Open Scope rust_scope.

Abbreviation Record_ := DeploymentRecord.t.
Abbreviation rid := DeploymentRecord.id.

(** Ids grow in the order of creation. *)
Definition by_id (r s : Record_) : Prop := rid r < rid s.
Definition increasing (l : list Record_) : Prop := StronglySorted by_id l.

Lemma increasing_snoc l r :
  increasing l -> Forall (fun x => rid x < rid r) l -> increasing (l ++ [r]).
Proof.
  unfold increasing. induction l as [|x l IH]; cbn; intros Hs Hr.
  - repeat constructor.
  - apply StronglySorted_inv in Hs as [Hs Hx]. apply Forall_cons in Hr as [Hxr Hr].
    constructor; [by apply IH|]. apply Forall_app. split; [done|]. by repeat constructor.
Qed.

Lemma increasing_app l l' :
  increasing (l ++ l') -> increasing l /\ increasing l'
  /\ forall x y, x ∈ l -> y ∈ l' -> rid x < rid y.
Proof.
  unfold increasing. induction l as [|x l IH]; cbn; intros Hs.
  - split; [constructor|]. split; [done|]. intros x y Hx. by apply not_elem_of_nil in Hx.
  - apply StronglySorted_inv in Hs as [Hs Hx]. apply IH in Hs as (? & ? & Hlt).
    apply Forall_app in Hx as [Hx Hx']. split; [by constructor|]. split; [done|].
    intros a b [->|Ha]%elem_of_cons Hb; [|by apply Hlt].
    rewrite Forall_forall in Hx'. by apply Hx'.
Qed.

Lemma increasing_filter (P : Record_ -> bool) l : increasing l -> increasing (List.filter P l).
Proof.
  unfold increasing. induction 1 as [|x l Hs IH Hx]; cbn; [constructor|].
  destruct (P x); [|done]. constructor; [done|].
  apply Forall_forall. intros y [Hy _]%list_elem_of_In%List.filter_In.
  rewrite Forall_forall in Hx. apply Hx. by apply list_elem_of_In.
Qed.

Lemma filter_perm {A} (P : A -> bool) l l' : l ≡ₚ l' -> List.filter P l ≡ₚ List.filter P l'.
Proof.
  induction 1 as [|x l l' _ IH|x y l|l l' l'' _ IH _ IH']; cbn; [done| | |by etrans].
  - destruct (P x); [by constructor|done].
  - destruct (P x), (P y); (apply perm_swap || done).
Qed.

(** ** Sorting *)

Lemma insert_record_perm r l : insert_record r l ≡ₚ r :: l.
Proof.
  induction l as [|s l IH]; cbn; [done|]. case_if; [done|]. rewrite IH. apply perm_swap.
Qed.

Lemma sort_records_perm l : sort_records l ≡ₚ l.
Proof. induction l as [|r l IH]; cbn; [done|]. by rewrite insert_record_perm, IH. Qed.

Definition le_id (r s : Record_) : Prop := rid r <= rid s.

Lemma insert_record_sorted r l : StronglySorted le_id l -> StronglySorted le_id (insert_record r l).
Proof.
  induction 1 as [|s l Hs IH Hall]; cbn; [by repeat constructor|].
  destruct (Z.leb_spec (rid r) (rid s)).
  - constructor; [by constructor|]. constructor; [done|].
    eapply Forall_impl; [exact Hall|]. unfold le_id. cbn. lia.
  - constructor; [done|]. rewrite insert_record_perm. constructor; [|done].
    unfold le_id. lia.
Qed.

Lemma sort_records_sorted l : StronglySorted le_id (sort_records l).
Proof. induction l; cbn; [constructor|]. by apply insert_record_sorted. Qed.

Lemma increasing_le l : increasing l -> StronglySorted le_id l.
Proof.
  induction 1 as [|x l Hs IH Hx]; constructor; [done|].
  eapply Forall_impl; [exact Hx|]. unfold le_id, by_id. cbn. lia.
Qed.

Lemma increasing_inj l x y : increasing l -> x ∈ l -> y ∈ l -> rid x = rid y -> x = y.
Proof.
  induction 1 as [|z l Hs IH Hz]; [by intros ?%not_elem_of_nil|].
  rewrite Forall_forall in Hz. intros [->|Hx]%elem_of_cons [->|Hy]%elem_of_cons Heq; auto.
  - apply Hz in Hy. unfold by_id in Hy. lia.
  - apply Hz in Hx. unfold by_id in Hx. lia.
Qed.

(** Whatever order the records are listed in, they are sorted into the ledger's. *)
Lemma sort_records_increasing l l' : increasing l -> l' ≡ₚ l -> sort_records l' = l.
Proof.
  intros Hl Hp. apply (StronglySorted_unique_strong le_id).
  - intros x y Hx Hy Hxy Hyx. apply (increasing_inj l); [done| |done|].
    + by rewrite <- Hp, <- (sort_records_perm l').
    + unfold le_id in *. lia.
  - apply sort_records_sorted.
  - by apply increasing_le.
  - by rewrite sort_records_perm.
Qed.

(** ** Replay *)

Section Replay.
Context `{UuidText}.
Implicit Types (st : LedgerState) (rs : list Record_) (intent : OwnershipIntent.t).

(** The records of one intent. *)
Definition own intent (r : Record_) : bool :=
  bool_decide (Payload.intent_id (DeploymentRecord.payload r) = OwnershipIntent.id intent).

Lemma select_records_Ok sha intent rs selected :
  select_records sha (OwnershipIntent.id intent) rs = Ok selected ->
  selected = List.filter (own intent) rs.
Proof.
  revert selected. induction rs as [|r rs IH]; cbn; intros selected; [by intros [= <-]|].
  intros (u & _ & (s & Hs & [= <-])%result_bind_Ok)%result_bind_Ok. rewrite (IH _ Hs).
  unfold own. by case_bool_decide.
Qed.

(** One record after another, each on its predecessor. *)
Fixpoint follows intent st rs st' : Prop :=
  match rs with
  | [] => st' = st
  | r :: rest =>
      Payload.predecessor_deployment_id (DeploymentRecord.payload r) = head_id st
      /\ exists next, apply_record (phase st) (DeploymentRecord.payload r) intent = Ok next
         /\ follows intent (mk_ledger_state (Some (rid r)) next) rest st'
  end.

Lemma replay_follows intent seen st rs st' :
  replay intent seen st rs = Ok st' -> follows intent st rs st'.
Proof.
  revert seen st. induction rs as [|r rs IH]; cbn; intros seen st; [by intros [= <-]|].
  case_bool_decide; [done|]. case_bool_decide; [|done]. cbn [negb].
  intros (next & Hnext & Hr)%result_bind_Ok. split; [done|]. exists next. eauto.
Qed.

Lemma follows_app intent st rs rs' st' :
  follows intent st (rs ++ rs') st' <->
  exists mid, follows intent st rs mid /\ follows intent mid rs' st'.
Proof.
  revert st. induction rs as [|r rs IH]; cbn; intros st; [naive_solver|].
  setoid_rewrite IH. naive_solver.
Qed.

Lemma follows_fun intent st rs s1 s2 :
  follows intent st rs s1 -> follows intent st rs s2 -> s1 = s2.
Proof.
  revert st. induction rs as [|r rs IH]; cbn; intros st; [by intros -> ->|].
  intros (_ & n1 & H1 & F1) (_ & n2 & H2 & F2). assert (n1 = n2) as -> by congruence. eauto.
Qed.

(** A replay that succeeds reads the ledger in the order of its ids. *)
Lemma reconstruct_Ok ledger rs sha intent st :
  reconstruct_ledger rs sha intent = Ok st -> rs ≡ₚ ledger -> increasing ledger ->
  follows intent empty_ledger (List.filter (own intent) ledger) st.
Proof.
  unfold reconstruct_ledger. intros (u & _ & Hr)%result_bind_Ok Hp Hinc.
  destruct (_ || _); [done|]. apply result_bind_Ok in Hr as (selected & Hs & Hr).
  apply select_records_Ok in Hs as ->. apply replay_follows in Hr.
  rewrite (sort_records_increasing (List.filter (own intent) ledger)) in Hr; [done| |].
  - by apply increasing_filter.
  - by apply filter_perm.
Qed.

(** *** The life of a machine goes forward *)

Definition rank (p : AcceptanceVmLifecycleState) : nat :=
  match p with
  | Empty => 0 | CreatePrepared _ => 1 | CreateDispatched _ => 2 | Bound _ => 3
  | DeletePrepared _ => 4 | DeleteDispatched _ => 5 | Terminal _ => 6
  end.

(** The rank a transition starts from. *)
Definition source (t : LedgerTransition) : nat :=
  match t with
  | PrepareCreate => 0 | DispatchCreate => 1 | Bind => 2 | Replace => 3
  | PrepareDelete => 3 | DispatchDelete => 4 | Clear => 5
  end.

Lemma apply_record_rank p payload intent p' :
  apply_record p payload intent = Ok p' ->
  rank p = source (Payload.transition payload)
  /\ rank p' = if bool_decide (Payload.transition payload = Replace) then 3%nat else S (rank p).
Proof.
  unfold apply_record.
  intros (g & _ & (e & _ & (r & _ & Ha)%result_bind_Ok)%result_bind_Ok)%result_bind_Ok.
  revert Ha. destruct (Payload.transition payload), p; try done; unfold keeps_current;
    rewrite ?bool_decide_false, ?bool_decide_true by done;
    repeat match goal with
    | |- result_bind ?x _ = _ -> _ => destruct x; [cbn [result_bind]|done]
    | |- (if ?b then _ else _) = _ -> _ => destruct b
    end; try done; by intros [= <-].
Qed.

Definition is_transition (t : LedgerTransition) (r : Record_) : bool :=
  bool_decide (Payload.transition (DeploymentRecord.payload r) = t).

(** Except for replacements, a transition happens once in a ledger, and not at
    all once the machine is past it. *)
Lemma transition_once intent st rs st' t :
  follows intent st rs st' -> t <> Replace ->
  (List.length (List.filter (is_transition t) rs)
   <= if decide (rank (phase st) <= source t)%nat then 1 else 0)%nat.
Proof.
  intros Hf Ht. revert st Hf. induction rs as [|r rs IH]; cbn; intros st.
  - intros _. lia.
  - intros (_ & next & Ha & Hf). apply IH in Hf. cbn [phase] in Hf.
    apply apply_record_rank in Ha as [Hr Hn]. unfold is_transition at 1.
    destruct (bool_decide_reflect (Payload.transition (DeploymentRecord.payload r) = t)) as [<-|Hne].
    + rewrite bool_decide_false in Hn by done. cbn. revert Hf. rewrite Hn, Hr.
      rewrite decide_False, decide_True by lia. lia.
    + etrans; [exact Hf|]. destruct (decide (rank next <= source t)%nat) as [Hle|]; [|lia].
      rewrite decide_True; [lia|]. rewrite Hr in *. revert Hn. case_bool_decide as Hrep; intros Hn.
      * rewrite Hrep. cbn. lia.
      * lia.
Qed.
End Replay.

(** ** Updates take effect alone *)

(** What the store relies on: the service keeps the deployments of a candidate,
    numbers them in the order of creation, lists all of them in some order, and a
    request to create one that is answered has added it. *)
Class DeploymentLaws (W : Type) `{!DeploymentBackend W} := {
  contents : string -> W -> list Record_;
  contents_increasing sha w : increasing (contents sha w);
  list_records_all sha w rs : list_records sha w = Ok rs -> rs ≡ₚ contents sha w;
  append_record_adds r w created w' :
    append_record r w = (Ok created, w') ->
    contents (new_candidate_sha r) w' = (contents (new_candidate_sha r) w ++ [created])%list
    /\ DeploymentRecord.payload created = new_payload r;
}.

Section Atomic.
Context {W : Type} `{DeploymentLaws W} `{UuidText}.

(** Others only add to the ledger. *)
Definition only_add (sha : string) (others : Others W) : Prop :=
  forall w, contents sha w `prefix_of` contents sha (before_append others w)
            /\ contents sha w `prefix_of` contents sha (before_verify others w).

Lemma current_state_follows store intent w st :
  current_state store intent w = Ok st ->
  intent = store_intent store
  /\ follows (store_intent store) empty_ledger
       (List.filter (own (store_intent store)) (contents (store_sha store) w)) st.
Proof.
  unfold current_state, validate_intent. case_bool_decide as Hi; [|done]. cbn [result_bind].
  intros (rs & Hrs & Hst)%result_bind_Ok. split; [done|].
  eapply reconstruct_Ok; [exact Hst| |apply contents_increasing].
  by apply list_records_all.
Qed.

(** A state whose head has been passed is not the state a later record builds on. *)
Lemma stale_head intent st rs r st' :
  increasing (rs ++ [r]) ->
  (forall i x, head_id st = Some i -> x ∈ rs -> i < rid x) ->
  follows intent st (rs ++ [r]) st' ->
  Payload.predecessor_deployment_id (DeploymentRecord.payload r) = head_id st -> rs = [].
Proof.
  intros Hinc Hlt (mid & Hmid & [Hpred _])%follows_app Heq. destruct rs as [|x rs] using rev_ind; [done|].
  exfalso. apply follows_app in Hmid as (m & _ & (_ & next & _ & Hm)). cbn in Hm. subst mid.
  rewrite Heq in Hpred. cbn in Hpred. specialize (Hlt (rid x) x Hpred ltac:(set_solver)). lia.
Qed.

Lemma follows_head intent st rs st' i :
  follows intent st rs st' -> head_id st' = Some i ->
  head_id st = Some i /\ rs = [] \/ exists r, last rs = Some r /\ rid r = i.
Proof.
  destruct rs as [|x rs] using rev_ind; cbn; [intros ->; auto|].
  intros (m & _ & (_ & next & _ & Hm))%follows_app Hi. cbn in Hm. subst st'. cbn in Hi.
  right. exists x. rewrite last_snoc. split; [done|congruence].
Qed.

(** The ledger's own part after an update that succeeded. *)
Lemma update_alone intent ledger l1 created l2 before after :
  increasing (ledger ++ l1 ++ created :: l2) ->
  own intent created = true ->
  Payload.predecessor_deployment_id (DeploymentRecord.payload created) = head_id before ->
  follows intent empty_ledger (List.filter (own intent) ledger) before ->
  follows intent empty_ledger (List.filter (own intent) (ledger ++ l1 ++ created :: l2)) after ->
  head_id after = Some (rid created) ->
  List.filter (own intent) (ledger ++ l1 ++ created :: l2)
  = (List.filter (own intent) ledger ++ [created])%list.
Proof.
  intros Hinc Hown Hpred Hbefore Hafter Hhead.
  pose proof (increasing_app _ _ Hinc) as (_ & Hinc1 & Hlt).
  pose proof (increasing_app _ _ Hinc1) as (_ & Hinc2 & _).
  apply (increasing_filter (own intent)) in Hinc1. revert Hafter Hinc1.
  rewrite !List.filter_app. cbn [List.filter]. rewrite Hown. intros Hafter Hinc1.
  assert (List.filter (own intent) l2 = []) as Hl2.
  { apply follows_head with (i := rid created) in Hafter as [[? _]|(r & Hr & Hid)]; [done| |done].
    rewrite !last_app, last_cons in Hr. destruct (last (List.filter (own intent) l2)) as [y|] eqn:Hy.
    - assert (r = y) as -> by (destruct (last (List.filter (own intent) l1)); congruence).
      apply last_Some_elem_of, list_elem_of_In, List.filter_In in Hy as [Hy _].
      apply StronglySorted_inv in Hinc2 as [_ Hall]. rewrite Forall_forall in Hall.
      specialize (Hall y ltac:(by apply list_elem_of_In)). unfold by_id in Hall. lia.
    - by apply last_None in Hy. }
  rewrite Hl2 in *. apply follows_app in Hafter as (mid & Hmid & Hafter).
  assert (mid = before) as -> by (by eapply follows_fun).
  rewrite (stale_head intent before _ _ after Hinc1); [done| |done|done].
  intros i x Hi [Hx _]%list_elem_of_In%List.filter_In.
  apply follows_head with (i := i) in Hbefore as [[? _]|(r & Hr & <-)]; [done| |done].
  apply last_Some_elem_of, list_elem_of_In, List.filter_In in Hr as [Hr _].
  apply Hlt; [by apply list_elem_of_In|]. apply elem_of_app. left. by apply list_elem_of_In.
Qed.

(** C18: An update of the ledger that reports success took effect alone: the state it
    was planned on was still the current one when its record was added, whatever
    other operators did meanwhile.  The intent's records are exactly those the
    operation had read and its own, and the ledger replays to the state the
    operation meant. *)
Theorem ledger_update_is_atomic others store intent checks update (w w' : W) u :
  only_add (store_sha store) others ->
  operate others store intent checks update w = (Ok u, w') ->
  exists before created after,
    current_state store intent w = Ok before
    /\ update (phase before) = Ok u
    /\ DeploymentRecord.payload created = update_payload store before u
    /\ List.filter (own intent) (contents (store_sha store) w')
       = (List.filter (own intent) (contents (store_sha store) w) ++ [created])%list
    /\ current_state store intent w' = Ok after
    /\ phase after = update_after u.
Proof.
  intros Hadd. unfold operate.
  destruct (let? _ := checks in current_state store intent w) as [before|] eqn:Hb; [|done].
  apply result_bind_Ok in Hb as (? & _ & Hb). destruct (update (phase before)) as [u'|] eqn:Hu; [|done].
  unfold append_transition. destruct (append_record _ _) as [[created|] w2] eqn:Ha; [|done].
  apply append_record_adds in Ha as [Hc Hp]. cbn [new_candidate_sha new_payload] in Hc, Hp.
  intros [= Hr <-]. apply result_bind_Ok in Hr as (t & Hr & [= ->]).
  apply result_bind_Ok in Hr as (after & Hafter & Hr). do 2 (case_bool_decide; [|done]).
  apply current_state_follows in Hb as Hb'. destruct Hb' as [-> Hfb].
  apply current_state_follows in Hafter as Hfa. destruct Hfa as [_ Hfa].
  destruct (proj1 (Hadd w)) as [l1 Hl1]. destruct (proj2 (Hadd w2)) as [l2 Hl2].
  assert (contents (store_sha store) (before_verify others w2)
          = (contents (store_sha store) w ++ l1 ++ created :: l2)%list) as Hall.
  { by rewrite Hl2, Hc, Hl1, <- !app_assoc. }
  exists before, created, after. do 3 (split; [done|]). split; [|done].
  pose proof (contents_increasing (store_sha store) (before_verify others w2)) as Hinc.
  rewrite Hall in *. eapply update_alone; try done.
  - unfold own. rewrite Hp. cbn. by rewrite bool_decide_true.
  - by rewrite Hp.
Qed.
End Atomic.

(** ** A race of operators *)

Inductive Request :=
| RequestCreate
| RequestCreateDispatch (generation : Generation.t)
| RequestDelete (binding : VmBinding.t)
| RequestDeleteDispatch (binding : VmBinding.t)
| RequestSwap (expected replacement : option VmBinding.t).

Definition request_update (q : Request) : AcceptanceVmLifecycleState -> result Update BindingStoreError.t :=
  match q with
  | RequestCreate => update_prepare_create
  | RequestCreateDispatch generation => update_create_dispatched generation
  | RequestDelete binding => update_prepare_delete binding
  | RequestDeleteDispatch binding => update_delete_dispatched binding
  | RequestSwap expected replacement => update_compare_and_swap expected replacement
  end.

(** An operator between the requests of its operation. *)
Inductive Pending :=
| WantsAppend (before : LedgerState) (u : Update)
| WantsVerify (created : Record_) (u : Update).

(** The ledger, the operators, and the updates that were reported as successful. *)
Record Race := mk_race {
  ledger : list Record_;
  operators : gmap nat Pending;
  told : list (Record_ * Update);
}.

Section Races.
Context `{UuidText} (store : BindingStore).

(** A reader gets the records in any order. *)
Definition sees (l : list Record_) (st : LedgerState) : Prop :=
  exists rs, rs ≡ₚ l /\ reconstruct_ledger rs (store_sha store) (store_intent store) = Ok st.

Definition newest (l : list Record_) (r : Record_) : Prop := Forall (fun x => rid x < rid r) l.

(** One request of one operator, in any interleaving: operators read, append and
    verify; answers get lost; operators stop; and anyone may add other records. *)
Inductive race_step : Race -> Race -> Prop :=
| RaceRead l ops ts k q before u :
    ops !! k = None -> sees l before -> request_update q (phase before) = Ok u ->
    race_step (mk_race l ops ts) (mk_race l (<[k := WantsAppend before u]> ops) ts)
| RaceAppend l ops ts k before u created :
    ops !! k = Some (WantsAppend before u) -> newest l created ->
    DeploymentRecord.payload created = update_payload store before u ->
    race_step (mk_race l ops ts) (mk_race (l ++ [created]) (<[k := WantsVerify created u]> ops) ts)
| RaceOther l ops ts r :
    newest l r -> race_step (mk_race l ops ts) (mk_race (l ++ [r]) ops ts)
| RaceTold l ops ts k created u after :
    ops !! k = Some (WantsVerify created u) -> sees l after ->
    head_id after = Some (rid created) -> phase after = update_after u ->
    race_step (mk_race l ops ts) (mk_race l (delete k ops) (ts ++ [(created, u)]))
| RaceStops l ops ts k : race_step (mk_race l ops ts) (mk_race l (delete k ops) ts).

Inductive race_run : Race -> Prop :=
| RaceStart l : increasing l -> race_run (mk_race l ∅ [])
| RaceThen s s' : race_run s -> race_step s s' -> race_run s'.

(** A record an operator added for an update. *)
Definition added (l : list Record_) (created : Record_) (u : Update) : Prop :=
  created ∈ l /\ own (store_intent store) created = true
  /\ Payload.transition (DeploymentRecord.payload created) = update_transition u.

Record race_ok (s : Race) : Prop := {
  race_increasing : increasing (ledger s);
  race_told : Forall (fun '(c, u) => added (ledger s) c u) (told s);
  race_pending k c u : operators s !! k = Some (WantsVerify c u) ->
    added (ledger s) c u /\ c ∉ (told s).*1;
  race_distinct k k' c u u' : operators s !! k = Some (WantsVerify c u) ->
    operators s !! k' = Some (WantsVerify c u') -> k = k';
  race_nodup : NoDup (told s).*1;
}.

Lemma added_snoc l r c u : added l c u -> added (l ++ [r]) c u.
Proof. unfold added. rewrite elem_of_app. tauto. Qed.

Lemma newest_fresh l r : newest l r -> r ∉ l.
Proof. intros Hn Hin. unfold newest in Hn. rewrite Forall_forall in Hn. apply Hn in Hin. lia. Qed.

Lemma told_in s c : race_ok s -> c ∈ (told s).*1 -> c ∈ ledger s.
Proof.
  intros Hok. rewrite list_elem_of_fmap. intros ([c' u] & -> & Hin).
  pose proof (race_told _ Hok) as Ht. rewrite Forall_forall in Ht. by destruct (Ht _ Hin).
Qed.

Lemma grow_ok l ops ts r : race_ok (mk_race l ops ts) -> newest l r -> race_ok (mk_race (l ++ [r]) ops ts).
Proof.
  intros [Hinc Htold Hpend Hdist Hnd] Hn. split; cbn in *; [by apply increasing_snoc| | |done|done].
  - eapply Forall_impl; [exact Htold|]. intros [c u]. apply added_snoc.
  - intros k c u Hk. destruct (Hpend k c u Hk). split; [by apply added_snoc|done].
Qed.

Lemma race_step_ok s s' : race_ok s -> race_step s s' -> race_ok s'.
Proof.
  intros Hok. destruct 1 as [l ops ts k q before u Hk Hs Hu|l ops ts k before u created Hk Hn Hp
    |l ops ts r Hn|l ops ts k created u after Hk Hs Hh Hp|l ops ts k].
  - destruct Hok as [Hinc Htold Hpend Hdist Hnd]. split; cbn in *; try done.
    + intros k' c u'. destruct (decide (k = k')) as [<-|]; [by rewrite lookup_insert_eq|].
      rewrite lookup_insert_ne by done. apply Hpend.
    + intros k1 k2 c u1 u2. destruct (decide (k = k1)) as [<-|]; [by rewrite lookup_insert_eq|].
      rewrite lookup_insert_ne by done. destruct (decide (k = k2)) as [<-|];
        [by rewrite lookup_insert_eq|]. rewrite lookup_insert_ne by done. apply Hdist.
  - pose proof (newest_fresh _ _ Hn) as Hfresh. pose proof (grow_ok _ _ _ _ Hok Hn) as Hok'.
    assert (forall k' u', ops !! k' = Some (WantsVerify created u') -> False) as Hnot.
    { intros k' u' Hk'. by destruct (race_pending _ Hok k' created u' Hk') as [[? _] _]. }
    destruct Hok' as [Hinc Htold Hpend Hdist Hnd]. split; cbn in *; try done.
    + intros k' c u'. destruct (decide (k = k')) as [<-|].
      * rewrite lookup_insert_eq. intros [= <- <-]. split; [|intros Hin; by apply (told_in _ _ Hok) in Hin].
        unfold added, own. rewrite Hp. cbn. rewrite bool_decide_true by done. set_solver.
      * rewrite lookup_insert_ne by done. apply Hpend.
    + intros k1 k2 c u1 u2. destruct (decide (k = k1)) as [<-|], (decide (k = k2)) as [<-|]; try done.
      * rewrite lookup_insert_eq, lookup_insert_ne by done. intros [= <- <-] H2. by apply Hnot in H2.
      * rewrite lookup_insert_eq, lookup_insert_ne by done. intros H1 [= <- <-]. by apply Hnot in H1.
      * rewrite !lookup_insert_ne by done. apply Hdist.
  - by apply grow_ok.
  - destruct Hok as [Hinc Htold Hpend Hdist Hnd]. destruct (Hpend k created u Hk) as [Hadd Hnew].
    split; cbn in *; [done| | | |].
    + apply Forall_app. split; [done|]. by apply Forall_singleton.
    + intros k' c u' Hk'. apply lookup_delete_Some in Hk' as [Hne Hk'].
      destruct (Hpend k' c u' Hk'). split; [done|]. rewrite fmap_app, elem_of_app. cbn.
      intros [?|Hc]; [done|]. apply list_elem_of_singleton in Hc as ->. by eapply Hne, Hdist.
    + intros k1 k2 c u1 u2 [_ H1]%lookup_delete_Some [_ H2]%lookup_delete_Some. by eapply Hdist.
    + rewrite fmap_app. apply NoDup_app. split; [done|]. cbn. split; [|apply NoDup_singleton].
      intros c Hc ->%list_elem_of_singleton. done.
  - destruct Hok as [Hinc Htold Hpend Hdist Hnd]. split; cbn in *; try done.
    + intros k' c u' [_ Hk']%lookup_delete_Some. by apply (Hpend k').
    + intros k1 k2 c u1 u2 [_ H1]%lookup_delete_Some [_ H2]%lookup_delete_Some. by eapply Hdist.
Qed.

Lemma race_run_ok s : race_run s -> race_ok s.
Proof.
  induction 1 as [l Hl|s s' _ IH Hstep]; [|by eapply race_step_ok].
  split; cbn; try done. by constructor.
Qed.

Definition told_of (t : LedgerTransition) (s : Race) : list Record_ :=
  (List.filter (fun e => bool_decide (update_transition e.2 = t)) (told s)).*1.

(** The records of told updates are records of the ledger. *)
Lemma told_bound s st t :
  race_ok s -> sees (ledger s) st -> t <> Replace -> (List.length (told_of t s) <= 1)%nat.
Proof.
  intros Hok (rs & Hp & Hst) Ht. eapply reconstruct_Ok in Hst as Hf; [|exact Hp|apply Hok].
  pose proof (transition_once _ _ _ _ t Hf Ht) as Honce. cbn [phase empty_ledger rank] in Honce.
  rewrite decide_True in Honce by lia. etrans; [|exact Honce]. apply submseteq_length.
  apply NoDup_submseteq.
  - unfold told_of. pose proof (race_nodup _ Hok) as Hnd. induction (told s) as [|[c u] l IH];
      [constructor|]. cbn in Hnd. apply NoDup_cons in Hnd as [Hc Hnd]. cbn [List.filter snd].
    case_bool_decide; [|by apply IH]. cbn. apply NoDup_cons. split; [|by apply IH].
    intros Hin. apply Hc. apply list_elem_of_fmap in Hin as ([c' u'] & -> & Hin).
    apply list_elem_of_fmap. exists (c', u'). split; [done|].
    by apply list_elem_of_In, List.filter_In in Hin as [Hin%list_elem_of_In _].
  - intros c Hin. unfold told_of in Hin. apply list_elem_of_fmap in Hin as ([c' u'] & -> & Hin).
    apply list_elem_of_In, List.filter_In in Hin as [Hin%list_elem_of_In Hu%bool_decide_eq_true].
    pose proof (race_told _ Hok) as Ht'. rewrite Forall_forall in Ht'.
    destruct (Ht' _ Hin) as (Hl & Ho & Htr). cbn in *. apply list_elem_of_In, List.filter_In.
    split; [apply List.filter_In; split; [by apply list_elem_of_In|done]|].
    unfold is_transition. rewrite Htr, Hu. by apply bool_decide_eq_true.
Qed.

(** C17: A step of a machine's life is granted once: however many operators work on
    the ledger and however their requests interleave, stop or get lost, at most
    one of them is ever told that it prepared or dispatched the creation, bound the
    machine, prepared or dispatched its deletion, or cleared it.  (What an operator
    that is not told asks of the provider is not part of it: a close that finds the
    deletion dispatched sends the delete again.) *)
Theorem one_operator_is_told s t :
  race_run s -> t <> Replace -> (List.length (told_of t s) <= 1)%nat.
Proof.
  intros Hrun Ht. induction Hrun as [l Hl|s s' Hrun IH Hstep]; [cbn; lia|].
  pose proof (race_run_ok _ Hrun) as Hok. pose proof (race_step_ok _ _ Hok Hstep) as Hok'.
  destruct Hstep as [| | |l ops ts k created u after Hk Hs Hh Hp|]; try done.
  by apply (told_bound _ after t Hok').
Qed.
End Races.

(** ** Listing *)

Section Listing.
Context {W : Type} `{!GitHubApi W}.

(** The service answers with the pages of a list. *)
Definition serves_pages (sha : string) (w : W) (all : list Record_) : Prop :=
  forall page, get_page sha (S page) w
    = Reply 200 (Some (take PAGE_SIZE (drop (PAGE_SIZE * page) all))).

Lemma list_pages_spec sha w all remaining page :
  serves_pages sha w all -> (PAGE_SIZE * page <= List.length all)%nat ->
  list_pages sha remaining (S page) (take (PAGE_SIZE * page) all) w
  = if (List.length all <? PAGE_SIZE * (page + remaining))%nat then Ok all
    else Err BindingStoreError.LedgerTooLarge.
Proof.
  intros Hs. revert page. induction remaining as [|remaining IH]; intros page Hpage.
  - cbn [list_pages]. destruct (Nat.ltb_spec (List.length all) (PAGE_SIZE * (page + 0))); [lia|done].
  - cbn [list_pages]. rewrite Hs. unfold reply_body. rewrite Z.eqb_refl. cbn [negb ok_or result_bind].
    rewrite length_take, length_drop, take_take_drop.
    replace (PAGE_SIZE * page + PAGE_SIZE)%nat with (PAGE_SIZE * S page)%nat by (unfold PAGE_SIZE; lia).
    destruct (Nat.ltb_spec (PAGE_SIZE `min` (List.length all - PAGE_SIZE * page)) PAGE_SIZE) as [Hlt|Hge].
    + rewrite take_ge by (unfold PAGE_SIZE in *; lia).
      destruct (Nat.ltb_spec (List.length all) (PAGE_SIZE * (page + S remaining))); [done|].
      unfold PAGE_SIZE in *. lia.
    + rewrite IH by (unfold PAGE_SIZE in *; lia).
      by replace (S page + remaining)%nat with (page + S remaining)%nat by lia.
Qed.

(** The ledger is read whole or not at all: when the service serves its pages,
    a ledger of fewer than ten thousand records is listed completely and in order,
    and a longer one is refused rather than cut off. *)
Theorem ledger_listing_is_complete sha (w : W) all :
  serves_pages sha w all ->
  list_records sha w = if (List.length all <? 10000)%nat then Ok all
                       else Err BindingStoreError.LedgerTooLarge.
Proof. intros Hs. apply (list_pages_spec sha w all MAX_LEDGER_PAGES 0 Hs). unfold PAGE_SIZE. lia. Qed.
End Listing.
