(* ===== verification/VultrAdapter.v ===== *)
(** * The Vultr adapter

    [apps/operator-cli/src/vultr_lifecycle.rs]: ownership as tags of an instance,
    instances as observations of the provider-neutral lifecycle, and the requests
    the lifecycle may send.  JSON bodies are values. *)

From stdpp Require Import base gmap strings list fin_maps pretty.
From Stdlib Require Import ZArith Lia Ascii String.
From S2P Require Import Prelude Text NetText Foundation ProviderLifecycle ConfigJson.
Local Open Scope string_scope.
Local Open Scope Z_scope.
Local Open Scope rust_scope.

Definition TAG_PROJECT : string := "mobile-proxy:project=".
Definition TAG_MANAGER : string := "mobile-proxy:managed-by=".
Definition TAG_SCOPE : string := "mobile-proxy:scope=".
Definition TAG_INTENT : string := "mobile-proxy:intent=".
Definition TAG_GENERATION : string := "mobile-proxy:generation=".

Inductive VultrMethod := Get | Post | Patch | Delete.

Record VultrRequest := mk_request {
  method : VultrMethod;
  path : string;
  body : option Value;
}.

Record VultrVmSpec := mk_spec {
  region : string;
  plan : string;
  os_id : Z;
  label : string;
}.

Definition fingerprint (s : VultrVmSpec) : string :=
  "vultr:" ++ region s ++ ":" ++ plan s ++ ":" ++ u64_to_string (os_id s) ++ ":" ++ label s.

Record VultrInstanceDto := mk_dto {
  dto_id : string;
  dto_label : string;
  dto_tags : list string;
  dto_region : string;
  dto_plan : string;
  dto_os_id : Z;
  dto_main_ip : string;
}.

Inductive VultrAdapterError :=
| InvalidProviderUuid
| InvalidOwnershipMetadata
| InvalidResponse
| Item18LiveMutationForbidden
| FinalProductionAuthorityForbidden.

Definition VultrAdapterError_fmt (e : VultrAdapterError) : string :=
  match e with
  | InvalidProviderUuid => "Vultr instance ID is not a valid immutable UUID"
  | InvalidOwnershipMetadata => "Vultr ownership tags are invalid"
  | InvalidResponse => "Vultr response does not match the typed adapter contract"
  | Item18LiveMutationForbidden => "item 18 forbids live Vultr lifecycle execution"
  | FinalProductionAuthorityForbidden => "item 18 forbids final production authority"
  end.

(** ** Tags *)

Definition encode_ownership (m : OwnershipMetadata.t) : list string :=
  [TAG_PROJECT ++ OwnershipMetadata.project m;
   TAG_MANAGER ++ OwnershipMetadata.managed_by m;
   TAG_SCOPE ++ LifecycleScope_as_str (OwnershipMetadata.scope m);
   TAG_INTENT ++ OwnershipMetadata.intent_id m;
   TAG_GENERATION ++ u64_to_string (Generation.get (OwnershipMetadata.generation m))].

Definition exact_tag_value (tags : list string) (prefix : string)
    : result (option string) VultrAdapterError :=
  match omap (strip_prefix prefix) tags with
  | [] => Ok None
  | [value] => Ok (Some value)
  | _ => Err InvalidOwnershipMetadata
  end.

Definition parse_scope (raw : string) : option LifecycleScope :=
  if bool_decide (raw = "acceptance") then Some Acceptance
  else if bool_decide (raw = "production") then Some Production
  else None.

Definition parse_generation (raw : string) : option Generation.t :=
  value ← parse_u64 raw; result_ok (Generation.new value).

Definition decode_ownership (tags : list string) : result OwnershipObservation VultrAdapterError :=
  let? project := exact_tag_value tags TAG_PROJECT in
  let? managed_by := exact_tag_value tags TAG_MANAGER in
  let? scope := exact_tag_value tags TAG_SCOPE in
  let? intent_id := exact_tag_value tags TAG_INTENT in
  let? generation := exact_tag_value tags TAG_GENERATION in
  match project, managed_by, scope, intent_id, generation with
  | None, None, None, None, None => Ok Missing
  | Some project, Some managed_by, Some scope, Some intent_id, Some generation =>
      match parse_scope scope with
      | None => Ok Conflicting
      | Some scope =>
          match parse_generation generation with
          | None => Ok Conflicting
          | Some generation =>
              Ok (Exact (OwnershipMetadata.mk project managed_by scope intent_id generation))
          end
      end
  | _, _, _, _, _ => Ok Conflicting
  end.

(** ** Instances *)

(** [serde_json::from_slice::<VultrInstancesDto>] *)
Class VultrJson := instances_from_json : list Z -> option (list VultrInstanceDto).

Section Instances.
Context `{UuidText}.

Definition decode_instance (i : VultrInstanceDto) : result ObservedVm.t VultrAdapterError :=
  let? provider_uuid := ok_or (uuid_parse_str (dto_id i)) InvalidProviderUuid in
  let? provider_id := map_err (fun _ => InvalidProviderUuid)
                        (ProviderResourceId.new (uuid_to_string provider_uuid)) in
  let? ownership := decode_ownership (dto_tags i) in
  Ok (ObservedVm.mk provider_id (dto_label i) ownership
        (fingerprint (mk_spec (dto_region i) (dto_plan i) (dto_os_id i) (dto_label i)))).

Definition decode_instances `{!VultrJson} (body : list Z) : result (list ObservedVm.t) VultrAdapterError :=
  let? instances := ok_or (instances_from_json body) InvalidResponse in
  try_collect (decode_instance <$> instances).
End Instances.

(** ** Requests *)

Definition instance_path (id : ProviderResourceId.t) : string :=
  "/v2/instances/" ++ ProviderResourceId.as_str id.

Definition list_instances_request : VultrRequest := mk_request Get "/v2/instances" None.

Definition get_instance_request (target : VerifiedMutationTarget.t) : VultrRequest :=
  mk_request Get (instance_path (VerifiedMutationTarget.provider_id target)) None.

(** [json!] of the fields of an instance, in the order of its map. *)
Definition create_fields (spec : VultrVmSpec) (tags : list string) : list (string * Value) :=
  [("label", VString (label spec)); ("os_id", VNumber (PosInt (os_id spec)));
   ("plan", VString (plan spec)); ("region", VString (region spec));
   ("tags", VArray (VString <$> tags))].

Definition create_request (p : PlannedCreate.t) (spec : VultrVmSpec) : VultrRequest :=
  mk_request Post "/v2/instances"
    (Some (VObject (create_fields spec (encode_ownership (PlannedCreate.ownership p))))).

Definition create_request_with_user_data (p : PlannedCreate.t) (spec : VultrVmSpec)
    (user_data_b64 : string) : VultrRequest :=
  mk_request Post "/v2/instances"
    (Some (VObject (create_fields spec (encode_ownership (PlannedCreate.ownership p))
                    ++ [("user_data", VString user_data_b64)]))).

Definition stop_request (target : VerifiedMutationTarget.t) : VultrRequest :=
  mk_request Post "/v2/instances/halt"
    (Some (VObject [("instance_ids",
       VArray [VString (ProviderResourceId.as_str (VerifiedMutationTarget.provider_id target))])])).

Definition reconfigure_request (target : VerifiedMutationTarget.t) (new_label : string) : VultrRequest :=
  mk_request Patch (instance_path (VerifiedMutationTarget.provider_id target))
    (Some (VObject [("label", VString new_label);
       ("tags", VArray (VString <$> encode_ownership (VerifiedMutationTarget.expected_ownership target)))])).

Definition snapshot_request (target : VerifiedMutationTarget.t) : VultrRequest :=
  mk_request Post "/v2/snapshots"
    (Some (VObject [("description", VString ("mobile-proxy-"
         ++ LifecycleScope_as_str (OwnershipIntent.scope (VerifiedMutationTarget.intent target)) ++ "-g"
         ++ u64_to_string (Generation.get (VerifiedMutationTarget.generation target))));
       ("instance_id",
         VString (ProviderResourceId.as_str (VerifiedMutationTarget.provider_id target)))])).

Definition delete_request (target : VerifiedMutationTarget.t) : VultrRequest :=
  mk_request Delete (instance_path (VerifiedMutationTarget.provider_id target)) None.

Definition replacement_create_request (target : VerifiedMutationTarget.t) (spec : VultrVmSpec)
    : result VultrRequest VultrAdapterError :=
  let? generation := map_err (fun _ => InvalidOwnershipMetadata)
                       (Generation.next (VerifiedMutationTarget.generation target)) in
  Ok (mk_request Post "/v2/instances"
        (Some (VObject (create_fields spec
           (encode_ownership (OwnershipMetadata.exact (VerifiedMutationTarget.intent target) generation)))))).

Definition enforce_item18_live_boundary (scope : LifecycleScope) (mutation_requested : bool)
    : result unit VultrAdapterError :=
  if bool_decide (scope = Production) then Err FinalProductionAuthorityForbidden
  else if mutation_requested then Err Item18LiveMutationForbidden
  else Ok tt.

(** *** Examples of the sources' tests *)

Example partial_tags : decode_ownership ["mobile-proxy:project=mobile-proxy"] = Ok Conflicting.
Proof. reflexivity. Qed.

Example duplicate_tags :
  decode_ownership (encode_ownership (OwnershipMetadata.exact
      (OwnershipIntent.mk Acceptance "candidate:0123456789abcdef") (Generation.mk 9))
    ++ ["mobile-proxy:intent=other"])%list = Err InvalidOwnershipMetadata.
Proof. reflexivity. Qed.

(** ** Ownership survives the provider *)

Definition TAGS : list string := [TAG_PROJECT; TAG_MANAGER; TAG_SCOPE; TAG_INTENT; TAG_GENERATION].

(** A tag that says nothing of ownership. *)
Definition foreign (tag : string) : Prop := Forall (fun prefix => strip_prefix prefix tag = None) TAGS.

Lemma foreign_omap rest prefix :
  Forall foreign rest -> prefix ∈ TAGS -> omap (strip_prefix prefix) rest = [].
Proof.
  intros Hr Hp. induction Hr as [|tag rest Ht Hr IH]; [done|]. cbn.
  unfold foreign in Ht. rewrite Forall_forall in Ht. by rewrite (Ht prefix Hp), IH.
Qed.

(** The tags of a machine, whatever else it is tagged with. *)
Lemma exact_tag_encoded m rest :
  Forall foreign rest ->
  let tags := (encode_ownership m ++ rest)%list in
  exact_tag_value tags TAG_PROJECT = Ok (Some (OwnershipMetadata.project m))
  /\ exact_tag_value tags TAG_MANAGER = Ok (Some (OwnershipMetadata.managed_by m))
  /\ exact_tag_value tags TAG_SCOPE = Ok (Some (LifecycleScope_as_str (OwnershipMetadata.scope m)))
  /\ exact_tag_value tags TAG_INTENT = Ok (Some (OwnershipMetadata.intent_id m))
  /\ exact_tag_value tags TAG_GENERATION
     = Ok (Some (u64_to_string (Generation.get (OwnershipMetadata.generation m)))).
Proof.
  intros Hr tags. subst tags. unfold exact_tag_value. rewrite !omap_app.
  rewrite !(foreign_omap rest) by (done || unfold TAGS; set_solver).
  unfold encode_ownership. by repeat split.
Qed.

Lemma decode_encoded m rest :
  1 <= Generation.get (OwnershipMetadata.generation m) <= u64_max -> Forall foreign rest ->
  decode_ownership (encode_ownership m ++ rest) = Ok (Exact m).
Proof.
  intros Hg Hr. destruct (exact_tag_encoded m rest Hr) as (H1 & H2 & H3 & H4 & H5).
  unfold decode_ownership. rewrite H1, H2, H3, H4, H5. cbn [result_bind].
  assert (forall s, parse_scope (LifecycleScope_as_str s) = Some s) as -> by (by intros []).
  unfold parse_generation, parse_u64. rewrite parse_u64_to_string by lia. cbn [mbind option_bind].
  unfold Generation.new. rewrite (proj2 (Z.eqb_neq _ 0)) by lia. cbn [result_ok].
  destruct m as [? ? ? ? [g]]. done.
Qed.

Lemma tags_in :
  TAG_PROJECT ∈ TAGS /\ TAG_MANAGER ∈ TAGS /\ TAG_SCOPE ∈ TAGS /\ TAG_INTENT ∈ TAGS
  /\ TAG_GENERATION ∈ TAGS.
Proof. repeat split; by apply (bool_decide_eq_true_1 (_ ∈ TAGS)). Qed.

Lemma tags_disjoint prefix prefix' value :
  prefix ∈ TAGS -> prefix' ∈ TAGS -> prefix <> prefix' -> strip_prefix prefix (prefix' ++ value) = None.
Proof.
  unfold TAGS. intros Hp Hp'. set_unfold in Hp. set_unfold in Hp'.
  repeat destruct Hp as [->|Hp]; repeat destruct Hp' as [->|Hp']; done.
Qed.

Lemma exact_tag_repeated tags prefix value x :
  exact_tag_value tags prefix = Ok (Some x) ->
  exact_tag_value ((prefix ++ value)%string :: tags) prefix = Err InvalidOwnershipMetadata.
Proof.
  unfold exact_tag_value. cbn. rewrite strip_prefix_app.
  by destruct (omap (strip_prefix prefix) tags) as [|? []].
Qed.

Lemma exact_tag_other tags prefix prefix' value :
  prefix ∈ TAGS -> prefix' ∈ TAGS -> prefix <> prefix' ->
  exact_tag_value ((prefix' ++ value)%string :: tags) prefix = exact_tag_value tags prefix.
Proof. intros ? ? ?. unfold exact_tag_value. cbn. by rewrite tags_disjoint. Qed.

Lemma exact_tag_present tags prefix value :
  exact_tag_value tags prefix = Ok (Some value) -> (prefix ++ value)%string ∈ tags.
Proof.
  unfold exact_tag_value. destruct (omap (strip_prefix prefix) tags) as [|v [|]] eqn:Ho; try done.
  intros [= <-]. assert (v ∈ omap (strip_prefix prefix) tags) as Hv by (rewrite Ho; set_solver).
  apply list_elem_of_omap in Hv as (tag & Htag & Hs). by apply strip_prefix_Some in Hs as <-.
Qed.

(** Ownership survives the provider: the tags that record who owns a machine are
    read back as exactly that owner and generation, whatever other tags the machine
    carries; a second tag of any of the five kinds is an error; and nothing is read
    as an ownership unless all five tags are there. *)
Theorem ownership_tags_roundtrip m rest :
  1 <= Generation.get (OwnershipMetadata.generation m) <= u64_max -> Forall foreign rest ->
  decode_ownership (encode_ownership m ++ rest) = Ok (Exact m)
  /\ (forall prefix value, prefix ∈ TAGS ->
        decode_ownership ((prefix ++ value)%string :: encode_ownership m ++ rest)
        = Err InvalidOwnershipMetadata)
  /\ (forall tags m', decode_ownership tags = Ok (Exact m') ->
        Forall (fun prefix => exists value, (prefix ++ value)%string ∈ tags) TAGS).
Proof.
  intros Hg Hr. split; [by apply decode_encoded|]. split.
  - intros prefix value Hp. destruct (exact_tag_encoded m rest Hr) as (H1 & H2 & H3 & H4 & H5).
    unfold decode_ownership. revert H1 H2 H3 H4 H5. generalize (encode_ownership m ++ rest)%list.
    intros tags H1 H2 H3 H4 H5. pose proof Hp as Hin. unfold TAGS in Hp. set_unfold in Hp.
    destruct tags_in as (I1 & I2 & I3 & I4 & I5).
    repeat destruct Hp as [->|Hp]; [..|done].
    + by rewrite (exact_tag_repeated _ _ _ _ H1).
    + rewrite exact_tag_other, H1 by done. cbn [result_bind].
      by rewrite (exact_tag_repeated _ _ _ _ H2).
    + rewrite !exact_tag_other, H1, H2 by done. cbn [result_bind].
      by rewrite (exact_tag_repeated _ _ _ _ H3).
    + rewrite !exact_tag_other, H1, H2, H3 by done. cbn [result_bind].
      by rewrite (exact_tag_repeated _ _ _ _ H4).
    + rewrite !exact_tag_other, H1, H2, H3, H4 by done. cbn [result_bind].
      by rewrite (exact_tag_repeated _ _ _ _ H5).
  - intros tags m'. unfold decode_ownership.
    intros (a & Ha & (b & Hb & (c & Hc & (d & Hd & (e & He & Hm)%result_bind_Ok)%result_bind_Ok)
      %result_bind_Ok)%result_bind_Ok)%result_bind_Ok.
    destruct a, b, c, d, e; try done. unfold TAGS.
    apply exact_tag_present in Ha, Hb, Hc, Hd, He.
    repeat (apply Forall_cons; split; [eexists; first [exact Ha|exact Hb|exact Hc|exact Hd|exact He]|]).
    by apply Forall_nil.
Qed.

Section Managed.
Context `{UuidText}.

(** A machine that was created from a plan is recognised as that plan's: the
    instance the provider shows for the create request decodes to an observation
    under which the bound machine needs nothing more, and the delete request that
    is then authorised names exactly this instance. *)
Theorem created_machine_is_managed p spec uuid id rest raw_id main_ip kind :
  1 <= Generation.get (PlannedCreate.generation p) <= u64_max -> Forall foreign rest ->
  uuid_parse_str raw_id = Some uuid -> ProviderResourceId.new (uuid_to_string uuid) = Ok id ->
  let tags := (encode_ownership (PlannedCreate.ownership p) ++ rest)%list in
  let instance := mk_dto raw_id (label spec) tags (region spec) (plan spec) (os_id spec) main_ip in
  let binding := PlannedCreate.binding_after_create p id in
  let target := VerifiedMutationTarget.mk id (PlannedCreate.intent p) (PlannedCreate.generation p) in
  exists vm, decode_instance instance = Ok vm
    /\ body (create_request p spec)
       = Some (VObject (create_fields spec (encode_ownership (PlannedCreate.ownership p))))
    /\ plan_present (Some binding) [vm]
         (DesiredVm.mk (PlannedCreate.intent p) (label spec) (fingerprint spec))
         (Some (PlannedCreate.generation p)) = Ok (PlanNoop target)
    /\ authorize_mutation binding [vm] (PlannedCreate.generation p) kind = Ok target
    /\ path (delete_request target) = "/v2/instances/" ++ uuid_to_string uuid.
Proof.
  intros Hg Hr Hu Hid tags instance binding target.
  assert (decode_instance instance
    = Ok (ObservedVm.mk id (label spec) (Exact (PlannedCreate.ownership p)) (fingerprint spec))) as Hd.
  { unfold decode_instance, instance. cbn [dto_id dto_tags dto_label dto_region dto_plan dto_os_id].
    rewrite Hu. cbn [ok_or result_bind]. rewrite Hid. cbn [map_err result_bind]. subst tags.
    rewrite decode_encoded by done. cbn [result_bind]. by destruct spec. }
  assert (ProviderResourceId.as_str id = uuid_to_string uuid) as Has.
  { revert Hid. unfold ProviderResourceId.new. case_if; [done|]. by intros [= <-]. }
  eexists. split; [exact Hd|]. split; [done|].
  assert (authorize_mutation binding
    [ObservedVm.mk id (label spec) (Exact (PlannedCreate.ownership p)) (fingerprint spec)]
    (PlannedCreate.generation p) kind = Ok target) as Ha.
  { unfold authorize_mutation, resolve_bound_resource, find_provider, ownership_claims.
    cbn [VmBinding.generation VmBinding.intent VmBinding.provider_id binding
      PlannedCreate.binding_after_create List.find ObservedVm.provider_id].
    rewrite !bool_decide_true by done. cbn [negb check_bound_observation ObservedVm.ownership].
    unfold PlannedCreate.ownership. rewrite bool_decide_true by done. cbn [negb result_bind List.filter].
    rewrite (claims_exact _ (PlannedCreate.generation p)) by done.
    cbn [List.length Nat.ltb Nat.leb head ok_or result_bind ObservedVm.provider_id ObservedVm.ownership].
    by rewrite !bool_decide_true. }
  split; [|split; [done|]].
  - unfold plan_present, plan_bound. cbn [DesiredVm.intent].
    replace (VmBinding.intent binding) with (PlannedCreate.intent p) by done.
    rewrite bool_decide_true by done. cbn [negb ok_or result_bind].
    unfold authorize_mutation in Ha. rewrite Ha. cbn [result_bind]. unfold find_provider.
    cbn [List.find ObservedVm.provider_id VerifiedMutationTarget.provider_id target].
    rewrite bool_decide_true by done. cbn [ok_or result_bind]. by rewrite bool_decide_true.
  - unfold delete_request, instance_path. cbn [path VerifiedMutationTarget.provider_id target].
    by rewrite Has.
Qed.
End Managed.
