(* ===== verification/RelayGate.v ===== *)
(** * The relay gate

    [services/relay-gate/src]: the loop that asks the control plane for the
    device, connects to the relay's public listener and reports whether the
    device serves the public.  A round is modelled against the HTTP surface of
    the control plane; the network is what reaches it and what connects. *)

From stdpp Require Import base gmap strings list fin_maps.
From Stdlib Require Import ZArith Lia String.
From S2P Require Import Prelude Text TunnelModel NetText Foundation RuntimeProjection Commands Devices.
From S2P Require Import SqliteStore CommandState CommandInvariant ControlPlane ControlPlaneInvariant ControlPlaneTheorems.
From S2P Require Import ControlPlaneHttp HttpTheorems HostConfig SqliteBackendTheorems LegacyImportTheorems.
Local Open Scope string_scope.
Local Open Scope Z_scope.

Definition DEFAULT_RELAY_GATE_UPSTREAM : string := "127.0.0.1:1080".

Module Cli.
Record t := mk {
  control_plane : string;
  admin_token : string;
  device_id : string;
  upstream : string;
  once : bool;
}.

(** The command line without options but the token. *)
Definition with_defaults (admin_token : string) : t :=
  mk "http://127.0.0.1:8080" admin_token DEVICE_ID DEFAULT_RELAY_GATE_UPSTREAM false.
End Cli.

Section Gate.
Context `{Blake3}.

Definition is_device_ready (device : DeviceRecord.t) : bool :=
  DeviceRecord.serving device
  && bool_decide (DeviceRecord.readiness_state device = "healthy")
  && negb (is_some (DeviceRecord.degradation_reason_code device)).

(** [response.json()] into a list of devices; the status is not looked at. *)
Definition decode_devices (body : Body) : option (list DeviceRecord.t) :=
  match body with DevicesBody devices => Some devices | _ => None end.

(** [response] is the answer of the control plane, if one came; [connect] tells
    which addresses accept a connection. *)
Definition evaluate_ready (cli : Cli.t) (response : option Body) (connect : SocketAddr -> bool)
    : bool :=
  match response with
  | None => false
  | Some body =>
      match decode_devices body with
      | None => false
      | Some devices =>
          if bool_decide (devices = []) then false
          else
            let device_ready :=
              is_some_and
                (List.find (fun d => bool_decide (DeviceRecord.node_id d = Cli.device_id cli)) devices)
                is_device_ready in
            if negb device_ready then false
            else match parse_socket_addr (Cli.upstream cli) with
                 | None => false
                 | Some upstream => connect upstream
                 end
      end
  end.

(** The report of [report_ready]; [now] is the printed clock. *)
Definition probe_report (ready : bool) (now : string) : PublicProbeReport.t :=
  PublicProbeReport.mk ready (if ready then None else Some "backend probe failed") now.

(** ** Requests

    The control plane is at the root of its address; an identifier with a slash
    gives more segments. *)

Context `{!JsonText PublicProbeReport.t}.

Definition authorization (cli : Cli.t) : string * string :=
  ("authorization", "Bearer " ++ Cli.admin_token cli).

Definition devices_request (cli : Cli.t) : HttpRequest :=
  mk_request GET ["api"; "v1"; "devices"] [authorization cli] "".

Definition report_request (cli : Cli.t) (report : PublicProbeReport.t) : HttpRequest :=
  mk_request POST (["api"; "v1"; "devices"] ++ split 47 (Cli.device_id cli) ++ ["public-probe"])%list
    [authorization cli; ("content-type", "application/json")] (json_encode report).

(** ** Rounds *)

(** What happens around a round: the two environments of the control plane,
    whether the fetch was answered, which addresses accept, what the control
    plane does for others before the report comes, whether the report arrives,
    and the clock. *)
Record Round := mk_round {
  fetch_env : Environment;
  fetched : bool;
  connects : SocketAddr -> bool;
  meanwhile : list op;
  delivered : bool;
  report_env : Environment;
  printed_now : string;
}.

Context `{UuidText} {DB : Type} `{!SnapshotStore DB}.
Context `{!JsonExtract RegisterDeviceRequest.t, !JsonExtract HeartbeatRequest.t}.
Context `{!JsonExtract PublicProbeReport.t, !JsonExtract IssueCommandRequest.t}.
Context `{!JsonExtract CommandAckRequest}.

Definition evaluate_round (auth : AuthConfig) (cli : Cli.t) (r : Round) (a : AppState DB) : bool :=
  let response := if fetched r
    then Some (response_body (handle (fetch_env r) auth a (devices_request cli)).1) else None in
  evaluate_ready cli response (connects r).

Definition gate_round (auth : AuthConfig) (cli : Cli.t) (r : Round) (a : AppState DB)
    : bool * AppState DB :=
  let ready := evaluate_round auth cli r a in
  let a1 := foldl run_op a (meanwhile r) in
  (ready, if delivered r
          then (handle (report_env r) auth a1
                  (report_request cli (probe_report ready (printed_now r)))).2
          else a1).

(** [main]: one round, or one after the other. *)
Fixpoint gate_loop (auth : AuthConfig) (cli : Cli.t) (rounds : list Round) (a : AppState DB)
    : AppState DB :=
  match rounds with
  | [] => a
  | r :: rest =>
      let a' := (gate_round auth cli r a).2 in
      if Cli.once cli then a' else gate_loop auth cli rest a'
  end.
End Gate.

(** ** What a round decides *)

(** Decides a comparison of two texts that are known. *)
Ltac known_texts :=
  repeat match goal with
  | |- context [bool_decide (?a = ?b)] =>
      first [change (bool_decide (a = b)) with true | change (bool_decide (a = b)) with false];
      cbn [match_route find_route route_pattern]
  end.

Section GateTheorems.
Context `{Blake3, UuidText, !JsonText PublicProbeReport.t} {DB : Type} `{!SnapshotStore DB}.
Context `{!JsonExtract RegisterDeviceRequest.t, !JsonExtract HeartbeatRequest.t}.
Context `{!JsonExtract PublicProbeReport.t, !JsonExtract IssueCommandRequest.t}.
Context `{!JsonExtract CommandAckRequest}.

(** The gate's test is the projection's: it does not look at the public probe
    the device already has, so a device can be opened by its first round. *)
Lemma is_device_ready_iff d ps :
  projected d -> is_device_ready d = true <-> facts_serving (device_projection_input d ps).
Proof.
  intros Hp. unfold projected in Hp. set (i := device_projection_input d _) in Hp.
  assert (facts_serving i <-> facts_serving (device_projection_input d ps)) as <- by done.
  rewrite <- normalize_serving_true. unfold project_runtime in Hp. cbn zeta in Hp.
  set (readiness := RuntimeReadiness.parse _) in *. injection Hp as Hr Hs _ Hc _.
  unfold is_device_ready. rewrite Hs, Hr, Hc. split.
  - intros Hb. bools. done.
  - intros Hn. rewrite Hn.
    assert (readiness = RuntimeReadiness.Healthy) as Hh by (by apply normalize_serving_true in Hn as [? _]).
    pose proof (derive_reason_None readiness i) as Hd. rewrite Hn in Hd. rewrite (proj2 Hd eq_refl), Hh.
    by rewrite bool_decide_true.
Qed.

Lemma stale_not_ready now d :
  is_device_ready (mark_stale now d) = true <-> mark_stale now d = d /\ is_device_ready d = true.
Proof.
  assert (mark_stale now d = d \/ mark_stale now d = stale_device d) as [Hm|Hm].
  { unfold mark_stale. destruct (_ ≫= _); [|by left]. destruct (parse_u64 now); [|by left].
    destruct (_ <=? _); auto. }
  - rewrite Hm. tauto.
  - rewrite Hm. split; [done|]. intros [Heq Hr]. by rewrite <- Heq in Hr.
Qed.

Lemma mark_stale_node now d : DeviceRecord.node_id (mark_stale now d) = DeviceRecord.node_id d.
Proof.
  unfold mark_stale. destruct (_ ≫= _); [|done]. destruct (parse_u64 now); [|done]. by destruct (_ <=? _).
Qed.

(** The device is found in the list at its own place. *)
Lemma find_listed (m : gmap string DeviceRecord.t) (clock : nat -> string) id :
  map_Forall (fun node d => DeviceRecord.node_id d = node) m ->
  match List.find (fun d => bool_decide (DeviceRecord.node_id d = id))
          (imap (fun i e => mark_stale (clock i) e.2) (map_to_list m)) with
  | Some d' => exists i d, map_to_list m !! i = Some (id, d) /\ d' = mark_stale (clock i) d
  | None => m !! id = None
  end.
Proof.
  intros Hk. destruct (List.find _ _) as [d'|] eqn:Hf.
  - apply find_some in Hf as [Hin Hid%bool_decide_eq_true_1].
    apply list_elem_of_In, elem_of_lookup_imap in Hin as (i & [k d] & -> & Hi).
    cbn [snd] in *. rewrite mark_stale_node in Hid.
    pose proof (list_elem_of_lookup_2 _ _ _ Hi) as Hkd%elem_of_map_to_list.
    rewrite (Hk k d Hkd) in Hid. subst k. eauto.
  - apply eq_None_not_Some. intros [d Hd].
    pose proof Hd as (i & Hi)%elem_of_map_to_list%list_elem_of_lookup_1.
    eapply find_none in Hf; [|apply list_elem_of_In, elem_of_lookup_imap; eauto].
    cbn [snd] in Hf. by rewrite mark_stale_node, (Hk id d Hd), bool_decide_true in Hf.
Qed.

(** The gate is set up: its token is the admin token, and its device has a name
    that is one segment of a path. *)
Record configured (auth : AuthConfig) (cli : Cli.t) : Prop := {
  configured_bearer : forall rest,
    bearer (authorization cli :: rest) = Some (admin_token auth);
  configured_segment : split 47 (Cli.device_id cli) = [Cli.device_id cli];
  configured_name : Cli.device_id cli <> "";
}.

(** A report is read as it was written. *)
Class ReportJson : Prop := {
  report_json cli (report : PublicProbeReport.t) :
    json_extract [authorization cli; ("content-type", "application/json")] (json_encode report) = Ok report;
}.

Lemma context_of_gate fresh now cli rest :
  rest = [] \/ rest = [("content-type", "application/json")] ->
  exists context, context_from_headers fresh now (authorization cli :: rest) = Ok context.
Proof. by intros [-> | ->]; eexists. Qed.

Lemma handle_devices env auth cli (a : AppState DB) :
  configured auth cli ->
  response_body (handle env auth a (devices_request cli)).1
  = DevicesBody (imap (fun i e => mark_stale (stamp env i) e.2) (map_to_list (devices (memory a)))).
Proof.
  intros Hc. unfold handle. cbn [path method headers devices_request].
  change (find_route routes ["api"; "v1"; "devices"])
    with (Some (mk_route AdminGroup (devices_route []) (fixed ListDevices) unserved, @nil string)).
  cbn [select_method on_get fixed route_group group_token].
  rewrite (configured_bearer _ _ Hc), (proj2 (matches_true _ _)) by done. cbn [negb].
  destruct (context_of_gate (fresh_request env) (clock env) cli []) as [context ->]; [by left|]. done.
Qed.

Lemma find_probe_route id :
  id <> "" ->
  find_route routes ["api"; "v1"; "devices"; id; "public-probe"]
  = Some (mk_route AdminGroup (devices_route [Param; Lit "public-probe"]) unserved (with_id PublicProbe), [id]).
Proof.
  intros Hid. unfold routes, devices_route, ui_route. cbn [find_route match_route route_pattern].
  known_texts. assert ((if bool_decide ("ready" = id) then None else None) = @None (list string)) as ->
    by (by destruct (bool_decide _)).
  cbn [find_route match_route route_pattern]. known_texts.
  by rewrite (bool_decide_false (id = "")).
Qed.

Lemma handle_report env auth cli (a : AppState DB) report :
  ReportJson -> configured auth cli ->
  (handle env auth a (report_request cli report)).2
  = (public_probe env a (Cli.device_id cli) report).2.
Proof.
  intros Hj Hc. unfold handle. cbn [path method headers report_request].
  rewrite (configured_segment _ _ Hc). cbn [app].
  rewrite find_probe_route by apply (configured_name _ _ Hc).
  cbn [select_method on_post with_id route_group group_token].
  rewrite (configured_bearer _ _ Hc), (proj2 (matches_true _ _)) by done. cbn [negb].
  destruct (context_of_gate (fresh_request env) (clock env) cli [("content-type", "application/json")])
    as [context ->]; [by right|].
  cbn [run_endpoint]. unfold with_body. cbn [headers body report_request]. rewrite report_json.
  by destruct (public_probe env a (Cli.device_id cli) report).
Qed.

(** The facts under which the gate opens a device. *)
Definition gate_facts (cli : Cli.t) (r : Round) (now : string) (d : DeviceRecord.t) : Prop :=
  mark_stale now d = d /\ is_device_ready d = true
  /\ exists upstream, parse_socket_addr (Cli.upstream cli) = Some upstream /\ connects r upstream = true.

Lemma evaluate_round_iff auth cli r (a : AppState DB) :
  configured auth cli -> state_ok (memory a) ->
  evaluate_round auth cli r a = true <->
  fetched r = true /\ exists i d, map_to_list (devices (memory a)) !! i = Some (Cli.device_id cli, d)
                                /\ gate_facts cli r (stamp (fetch_env r) i) d.
Proof.
  intros Hc Ha. unfold evaluate_round, evaluate_ready. destruct (fetched r); [|naive_solver].
  rewrite (handle_devices _ _ _ _ Hc). cbn [decode_devices].
  pose proof (find_listed (devices (memory a)) (stamp (fetch_env r)) (Cli.device_id cli) (ok_keyed _ Ha)) as Hf.
  destruct (List.find _ _) as [d'|] eqn:Hfind.
  - rewrite bool_decide_false by (intros He; by rewrite He in Hfind).
    destruct Hf as (i & d & Hi & ->). unfold gate_facts. cbn [is_some_and].
    assert (forall i' d', map_to_list (devices (memory a)) !! i' = Some (Cli.device_id cli, d') ->
      i' = i /\ d' = d) as Huniq.
    { intros i' d' Hi'. assert (i' = i) as ->; [|split; congruence].
      apply (NoDup_lookup (map_to_list (devices (memory a))).*1 i' i (Cli.device_id cli));
        [apply NoDup_fst_map_to_list|rewrite list_lookup_fmap, Hi'|rewrite list_lookup_fmap, Hi]; done. }
    pose proof (stale_not_ready (stamp (fetch_env r) i) d) as Hs.
    destruct (is_device_ready (mark_stale _ d)); cbn [negb].
    + destruct (parse_socket_addr (Cli.upstream cli)) as [upstream|]; split; try done.
      * intros Hcon. split; [done|]. exists i, d. destruct Hs as [Hs _].
        destruct (Hs eq_refl). split_and!; eauto.
      * intros (_ & i' & d' & _ & _ & _ & u & [= <-] & Hcon). done.
      * by intros (_ & i' & d' & _ & _ & _ & u & ? & _).
    + split; [done|]. intros (_ & i' & d' & Hi' & Hfresh & Hready & _).
      destruct (Huniq i' d' Hi') as [-> ->]. by apply Hs.
  - split; [case_bool_decide; by cbn [is_some_and negb]|].
    intros (_ & i & d & Hi & _). apply list_elem_of_lookup_2, elem_of_map_to_list in Hi. congruence.
Qed.

(** C38: The gate opens the device to the public exactly when the control plane
    answered the fetch with a record of it whose heartbeat was recent then and
    which said that the device serves, and the relay's listener accepts a
    connection; whatever the probe said before.  A report that arrives, after
    whatever the control plane did for others meanwhile, is stored with the
    device, which is then offered as ready exactly when the gate opened it and
    it still serves, unless the database did not take the swap or the device is
    not known; a report that is lost changes nothing. *)
Theorem gate_round_decides auth cli r (a : AppState DB) :
  ReportJson -> configured auth cli -> state_ok (memory a) -> ops_allowed (meanwhile r) a ->
  let '(ready, a') := gate_round auth cli r a in
  let a1 := foldl run_op a (meanwhile r) in
  let id := Cli.device_id cli in
  (ready = true <->
   fetched r = true /\ exists i d, map_to_list (devices (memory a)) !! i = Some (id, d)
                                 /\ gate_facts cli r (stamp (fetch_env r) i) d)
  /\ match devices (memory a1) !! id with
     | Some d =>
         if delivered r then
           let d' := apply_public_probe (stamp (report_env r) 0) (stamp (report_env r) 1) d
                       (probe_report ready (printed_now r)) in
           let candidate := mk_stored (<[id := d']> (devices (memory a1))) (commands (memory a1)) in
           DeviceRecord.publicly_serving d' = ready
           /\ (DeviceRecord.availability d' = "ready" <-> ready = true /\ is_device_ready d = true)
           /\ match compare_and_swap (database a1) (memory a1) candidate with
              | Some db' => a' = mk_app candidate db'
              | None => a' = a1
              end
         else a' = a1
     | None => a' = a1
     end.
Proof.
  intros Hj Hc Ha Hops. pose proof (ops_ok _ _ Hops Ha) as Ha1. unfold gate_round.
  pose proof (evaluate_round_iff auth cli r a Hc Ha) as Hiff.
  set (ready := evaluate_round auth cli r a) in *. set (a1 := foldl run_op a (meanwhile r)) in *.
  cbv zeta. split; [exact Hiff|]. rewrite (handle_report _ _ _ _ _ Hj Hc).
  unfold public_probe, public_probe_transaction.
  destruct (devices (memory a1) !! Cli.device_id cli) as [d|] eqn:Hd; [|by destruct (delivered r)].
  destruct (delivered r); [|done].
  assert (DeviceRecord.node_id d = Cli.device_id cli) as Hid by (by apply (ok_keyed _ Ha1)).
  rewrite !bool_decide_true by done. cbn [negb]. unfold commit.
  split; [done|]. split; [|by destruct (compare_and_swap _ _ _)].
  unfold apply_public_probe, with_projection. cbn [DeviceRecord.availability].
  rewrite project_runtime_ready_iff. cbn [RuntimeProjectionInput.publicly_serving device_projection_input
    PublicProbeReport.publicly_serving probe_report].
  rewrite (is_device_ready_iff d ready) by apply (ok_devices _ Ha1 _ _ Hd). tauto.
Qed.
End GateTheorems.

(** ** A gate that opens a phone *)

Module DemoGate.
Import Foundation.Concrete MemoryStore DemoRequests.
Import SqliteBackendTheorems.DemoDatabase(FieldText, field_text, text_field, text_field_text, string_field, bool_field, option_field).
Import LegacyImportTheorems.DemoImport(pair_field, iso_field).

Definition report_field : FieldText PublicProbeReport.t :=
  iso_field
    (fun r => (PublicProbeReport.publicly_serving r, PublicProbeReport.public_probe_error r,
               PublicProbeReport.public_probe_at r))
    (fun '(s, e, t) => PublicProbeReport.mk s e t) ltac:(by intros []).

#[global] Instance report_text : JsonText PublicProbeReport.t :=
  {| json_encode := @field_text _ report_field; json_decode := @text_field _ report_field |}.
#[global] Instance report_extract : JsonExtract PublicProbeReport.t :=
  fun _ body => ok_or (@text_field _ report_field body) 422.

#[global] Instance report_json_law : ReportJson.
Proof.
  split. intros cli report. unfold json_extract, report_extract, json_encode, report_text.
  by rewrite (@text_field_text _ report_field).
Qed.

Definition beat : HeartbeatRequest.t :=
  HeartbeatRequest.mk _ "phone" "Phone" "healthy" true "running" None (Some "203.0.113.7") None None None
    None None None None (Some true) (Some true) (Some true) None None (Some true) None
    (Some "tls_tcp") (Some "fresh") None None.

Definition phone : DeviceRecord.t := build_heartbeat_device "1" beat false None None.

Definition app : AppState StoredState :=
  let s := mk_stored (<["phone" := phone]> ∅) empty_commands in mk_app s s.

Definition cli : Cli.t := Cli.mk "http://127.0.0.1:8080" "admin-token" "phone" "127.0.0.1:14080" false.

(** Between the fetch and the report the phone sends a heartbeat. *)
Definition round : Round := mk_round env true (fun _ => true) [OpHeartbeat "2" beat] true env "now".

Lemma app_ok : state_ok (memory app).
Proof.
  apply (put_device_ok (mk_stored ∅ empty_commands)); [apply empty_ok|reflexivity|apply build_heartbeat_device_ok|].
  right. vm_compute. lia.
Qed.

Lemma gate_configured : configured auth cli.
Proof. split; [intros rest; reflexivity|reflexivity|discriminate]. Qed.

Lemma app_phone : devices (memory app) !! "phone" = Some phone.
Proof. apply lookup_insert_eq. Qed.

(** What the report finds. *)
Definition beaten : AppState StoredState := run_op app (OpHeartbeat "2" beat).

Lemma beaten_serves : is_some_and (devices (memory beaten) !! "phone") is_device_ready = true.
Proof. vm_compute. reflexivity. Qed.

Lemma beaten_swaps c : compare_and_swap (database beaten) (memory beaten) c = Some c.
Proof.
  unfold compare_and_swap, store. rewrite bool_decide_true; [done|].
  change (in_sync beaten). apply (run_op_sync app (OpHeartbeat "2" beat)). reflexivity.
Qed.

Lemma app_listed : map_to_list (devices (memory app)) = [("phone", phone)].
Proof.
  change (devices (memory app)) with (<["phone" := phone]> (∅ : gmap string DeviceRecord.t)).
  by rewrite insert_empty, map_to_list_singleton.
Qed.

Lemma gate_round_decides_witness :
  let '(ready, a') := gate_round auth cli round app in
  ready = true
  /\ exists d', devices (memory a') !! "phone" = Some d' /\ DeviceRecord.availability d' = "ready".
Proof.
  pose proof (gate_round_decides auth cli round app report_json_law gate_configured app_ok
    (conj I I)) as Hg.
  pose proof beaten_serves as Hserves. pose proof beaten_swaps as Hcas.
  change (foldl run_op app (meanwhile round)) with beaten in Hg.
  destruct (gate_round auth cli round app) as [ready a']. destruct Hg as [Hready Hstored].
  assert (ready = true) as Htrue.
  { apply Hready. split; [reflexivity|]. exists 0%nat, phone. split; [by rewrite app_listed|].
    split; [reflexivity|]. split; [reflexivity|]. eexists. split; reflexivity. }
  split; [exact Htrue|]. change (Cli.device_id cli) with "phone" in Hstored.
  destruct (devices (memory beaten) !! "phone") as [d|]; [|discriminate Hserves].
  destruct Hstored as (_ & Hav & Hstored). rewrite Hcas in Hstored. subst a'.
  eexists. split; [apply lookup_insert_eq|]. apply Hav. by split.
Defined.
End DemoGate.
