(* ===== verification/ServerRotate.v ===== *)
(** * Rotation through the control plane

    [apps/operator-cli/src/server_rotate.rs]: the operator's command that asks
    the control plane for a new address of the phone and waits until the phone
    serves on it.  A request is an exchange with the HTTP surface of the control
    plane; around each exchange other clients of the control plane act, and the
    network may lose the request or its answer. *)

From stdpp Require Import base gmap strings list fin_maps.
From Stdlib Require Import ZArith Lia String.
From S2P Require Import Prelude Text Foundation RuntimeProjection TunnelModel NetText Commands Devices.
From S2P Require Import SqliteStore CommandState CommandInvariant ControlPlane ControlPlaneInvariant ControlPlaneTheorems ControlPlaneHttp HttpTheorems.
From S2P Require Import RelayGate.
Local Open Scope string_scope.
Local Open Scope Z_scope.

(** The arguments the exchange depends on; the address, the name and the pinned
    certificate choose the connection. *)
Module RotateServerArgs.
Record t := mk {
  rotation_token : string;
  device_id : string;
  timeout_secs : Z;
  poll_secs : Z;
}.
End RotateServerArgs.

Inductive RotateError :=
| InvalidResponse
| TemporarilyReturned (status : Z)
| RemainedUnavailable (status : Z)
| Rejected (status : Z)
| SendFailed
| RequestFailed
| Panicked
| TimedOut
| MissingPublicIp.

(** Times are in milliseconds. *)
Definition REQUEST_TIMEOUT_MS : Z := 10000.
Definition MAX_ATTEMPTS : Z := 5.

Section Rotate.
Context `{Blake3, UuidText}.

Record RotationAccepted := mk_accepted {
  accepted_command : CommandId;
  accepted_old_ip : string;
}.

Record ServerRotationResult := mk_rotated {
  rotated_command : CommandId;
  rotated_device : string;
  rotated_old_ip : string;
  rotated_new_ip : string;
  elapsed_secs : Z;
  rotated_readiness : string;
  rotated_serving : bool;
  rotated_publicly_serving : bool;
}.

Definition rotation_complete (device : DeviceRecord.t) (old_ip : string) : bool :=
  negb (is_some (DeviceRecord.current_job device))
  && DeviceRecord.serving device
  && DeviceRecord.publicly_serving device
  && bool_decide (DeviceRecord.readiness_state device = "healthy")
  && bool_decide (DeviceRecord.reverse_tunnel_freshness device = Some "fresh")
  && is_some_and (DeviceRecord.last_public_ip device) (fun ip => negb (bool_decide (ip = old_ip))).

(** ** Exchanges *)

Definition rotation_path (args : RotateServerArgs.t) : list string :=
  (["api"; "v1"; "rotation"; "devices"] ++ split 47 (RotateServerArgs.device_id args))%list.

Definition rotation_bearer (args : RotateServerArgs.t) : string * string :=
  ("authorization", "Bearer " ++ RotateServerArgs.rotation_token args).

Definition get_rotation (args : RotateServerArgs.t) : HttpRequest :=
  mk_request GET (rotation_path args) [rotation_bearer args] "".

(** [format!("remote-ip-{}", Uuid::new_v4())] *)
Definition idempotency_text (fresh : Uuid) : string := "remote-ip-" ++ uuid_to_string fresh.

Definition post_rotation (args : RotateServerArgs.t) (key : string) : HttpRequest :=
  mk_request POST (rotation_path args) [rotation_bearer args; ("idempotency-key", key)] "".

(** A request that is lost, one whose answer is lost, one that is answered, and
    one that something in front of the control plane answers. *)
Inductive Delivery := Undelivered | Unanswered | Answered | Fronted (status : Z).

Record Exchange := mk_exchange {
  before : list op;
  exchange_env : Environment;
  delivery : Delivery;
  took : Z;
}.

Context {DB : Type} `{!SnapshotStore DB}.
Context `{!JsonExtract RegisterDeviceRequest.t, !JsonExtract HeartbeatRequest.t}.
Context `{!JsonExtract PublicProbeReport.t, !JsonExtract IssueCommandRequest.t}.
Context `{!JsonExtract CommandAckRequest}.

Definition exchange (auth : AuthConfig) (x : Exchange) (r : HttpRequest) (a : AppState DB)
    : option (Z * Body) * AppState DB :=
  let a0 := foldl run_op a (before x) in
  match delivery x with
  | Undelivered => (None, a0)
  | Fronted status => (Some (status, NoBody), a0)
  | Unanswered => (None, (handle (exchange_env x) auth a0 r).2)
  | Answered =>
      let '(response, a1) := handle (exchange_env x) auth a0 r in
      (Some (status response, response_body response), a1)
  end.

(** [StatusCode::is_success] and [is_server_error]; [error_for_status] fails for
    the client and server errors only. *)
Definition is_success (status : Z) : bool := (200 <=? status) && (status <? 300).
Definition is_server_error (status : Z) : bool := (500 <=? status) && (status <? 600).
Definition status_fails (status : Z) : bool := (400 <=? status) && (status <? 600).

Definition transient (status : Z) : bool :=
  is_server_error status || (status =? REQUEST_TIMEOUT) || (status =? 429).

Definition fetch_device (auth : AuthConfig) (args : RotateServerArgs.t) (x : Exchange)
    (a : AppState DB) : result DeviceRecord.t RotateError * AppState DB :=
  let '(answer, a') := exchange auth x (get_rotation args) a in
  (match answer with
   | None => Err SendFailed
   | Some (status, body) =>
       if status_fails status then Err (Rejected status)
       else match body with DeviceBody d => Ok d | _ => Err InvalidResponse end
   end, a').

(** ** Submitting the command *)

(** The time slept after an attempt: [1 << (attempt - 1)] seconds. *)
Definition backoff_ms (attempt : Z) : Z := 1000 * Z.shiftl 1 (attempt - 1).

Definition accepted_of (body : Body) : result RotationAccepted RotateError :=
  match body with
  | RotationBody command_id _ old_ip _ => Ok (mk_accepted command_id old_ip)
  | _ => Err InvalidResponse
  end.

(** What an attempt comes to: a final result, or the error that is kept while
    the next attempt is made. *)
Definition judge (attempt : Z) (answer : option (Z * Body))
    : result RotationAccepted RotateError + RotateError :=
  match answer with
  | Some (status, body) =>
      if is_success status then inl (accepted_of body)
      else if transient status && (attempt <? MAX_ATTEMPTS) then inr (TemporarilyReturned status)
      else if transient status then inl (Err (RemainedUnavailable status))
      else if status_fails status then inl (Err (Rejected status)) else inl (Err Panicked)
  | None => if attempt <? MAX_ATTEMPTS then inr SendFailed else inl (Err SendFailed)
  end.

(** The attempts from [attempt] on; [left] of them remain of the range
    [1..=MAX_ATTEMPTS].  The time is what the attempts and the pauses took. *)
Fixpoint submit (auth : AuthConfig) (r : HttpRequest) (attempts : Z -> Exchange) (left : nat)
    (attempt : Z) (last_error : option RotateError) (elapsed : Z) (a : AppState DB)
    : result RotationAccepted RotateError * AppState DB * Z :=
  match left with
  | O => (Err (default RequestFailed last_error), a, elapsed)
  | S left' =>
      let x := attempts attempt in
      let '(answer, a') := exchange auth x r a in
      let elapsed' := elapsed + took x in
      match judge attempt answer with
      | inl final => (final, a', elapsed')
      | inr e => submit auth r attempts left' (attempt + 1) (Some e)
                   (elapsed' + backoff_ms attempt) a'
      end
  end.

Definition issue_rotation (auth : AuthConfig) (args : RotateServerArgs.t) (fresh : Uuid)
    (attempts : Z -> Exchange) (a : AppState DB)
    : result RotationAccepted RotateError * AppState DB * Z :=
  submit auth (post_rotation args (idempotency_text fresh)) attempts (Z.to_nat MAX_ATTEMPTS) 1
    None 0 a.

(** ** Waiting *)

Definition timeout_ms (args : RotateServerArgs.t) : Z :=
  1000 * Z.max (RotateServerArgs.timeout_secs args) 1.
Definition poll_ms (args : RotateServerArgs.t) : Z :=
  1000 * Z.max (RotateServerArgs.poll_secs args) 1.

(** One turn of the loop per unit of fuel. *)
Fixpoint wait_for_rotation (auth : AuthConfig) (args : RotateServerArgs.t) (old_ip : string)
    (polls : nat -> Exchange) (fuel turn : nat) (elapsed : Z) (a : AppState DB)
    : option (result DeviceRecord.t RotateError * AppState DB * Z) :=
  match fuel with
  | O => None
  | S fuel' =>
      if timeout_ms args <=? elapsed then Some (Err TimedOut, a, elapsed)
      else
        let x := polls turn in
        let '(fetched, a') := fetch_device auth args x a in
        let elapsed' := elapsed + poll_ms args + took x in
        match fetched with
        | Ok device =>
            if rotation_complete device old_ip then Some (Ok device, a', elapsed')
            else wait_for_rotation auth args old_ip polls fuel' (S turn) elapsed' a'
        | Err _ => wait_for_rotation auth args old_ip polls fuel' (S turn) elapsed' a'
        end
  end.

Definition run_inner (auth : AuthConfig) (args : RotateServerArgs.t) (fresh : Uuid)
    (attempts : Z -> Exchange) (polls : nat -> Exchange) (fuel : nat) (a : AppState DB)
    : option (result ServerRotationResult RotateError * AppState DB * Z) :=
  let '(issued, a1, elapsed) := issue_rotation auth args fresh attempts a in
  match issued with
  | Err e => Some (Err e, a1, elapsed)
  | Ok command =>
      '(waited, a2, elapsed') ←
        wait_for_rotation auth args (accepted_old_ip command) polls fuel 0 elapsed a1;
      Some (match waited with
            | Err e => Err e
            | Ok device =>
                match DeviceRecord.last_public_ip device with
                | None => Err MissingPublicIp
                | Some new_ip =>
                    Ok (mk_rotated (accepted_command command) (RotateServerArgs.device_id args)
                          (accepted_old_ip command) new_ip (elapsed' / 1000)
                          (DeviceRecord.readiness_state device) (DeviceRecord.serving device)
                          (DeviceRecord.publicly_serving device))
                end
            end, a2, elapsed')
  end.
End Rotate.

(** * What a rotation through the control plane promises

    An invocation creates at most one command however often it is retried, it
    ends within a bounded time, and what it reports as success is a device that
    serves on another address.  A retry after a lost answer is told the address
    the phone has by then. *)

(** The hyphenated form of an identity is 36 graphic characters. *)
Class UuidGraphic `{UuidText} : Prop := {
  uuid_graphic u : forallb is_ascii_graphic (bytes (uuid_to_string u)) = true;
  uuid_len u : len (uuid_to_string u) = 36;
}.

(** The commands the control plane knows, by the scope of their key. *)
Abbreviation records a := (idempotency_results (commands (memory a))).

Section RotateTheorems.
Context `{Blake3, UuidText, !UuidGraphic} {DB : Type} `{!SnapshotStore DB}.
Context `{!JsonExtract RegisterDeviceRequest.t, !JsonExtract HeartbeatRequest.t}.
Context `{!JsonExtract PublicProbeReport.t, !JsonExtract IssueCommandRequest.t}.
Context `{!JsonExtract CommandAckRequest}.

Lemma idempotency_text_parses u :
  forall args, rotation_key (headers (post_rotation args (idempotency_text u)))
  = Some (mk_key (idempotency_text u)).
Proof.
  intros args.
  assert (forallb is_ascii_graphic (bytes (idempotency_text u)) = true) as Hg.
  { unfold idempotency_text. rewrite bytes_app, forallb_app, uuid_graphic. reflexivity. }
  unfold rotation_key, post_rotation. cbn [headers header].
  change (header _ _) with (Some (idempotency_text u)). cbn [mbind option_bind].
  assert (to_str (idempotency_text u) = Some (idempotency_text u)) as ->.
  { unfold to_str. replace (all_bytes _ _) with true; [done|]. symmetry. apply forallb_forall.
    intros b Hb. rewrite forallb_forall in Hg. specialize (Hg b Hb).
    unfold is_ascii_graphic, in_range in *. lia. }
  cbn [mbind option_bind]. unfold IdempotencyKey_parse.
  rewrite bool_decide_false.
  2:{ unfold idempotency_text. discriminate. }
  assert (len (idempotency_text u) = 46) as ->.
  { pose proof (uuid_len u) as Hl. unfold len, idempotency_text in *.
    change (Z.of_nat (10 + String.length (uuid_to_string u)) = 46). lia. }
  change (MAX_IDEMPOTENCY_KEY_LENGTH <? 46) with false.
  rewrite all_chars_ascii.
  - by rewrite Hg.
  - intros b. unfold is_ascii_graphic, in_range. lia.
Qed.

(** ** The two requests *)

(** The command is set up: it has the rotation token, and its device has a name
    that is one segment of a path. *)
Record rotation_configured (auth : AuthConfig) (args : RotateServerArgs.t) : Prop := {
  rotation_has_token : forall rest,
    bearer (rotation_bearer args :: rest) = Some (rotation_token auth);
  rotation_segment :
    split 47 (RotateServerArgs.device_id args) = [RotateServerArgs.device_id args];
  rotation_name : RotateServerArgs.device_id args <> "";
}.

Lemma find_rotation_route id :
  id <> "" ->
  find_route routes ["api"; "v1"; "rotation"; "devices"; id]
  = Some (mk_route RotationGroup [Lit "api"; Lit "v1"; Lit "rotation"; Lit "devices"; Param]
            (with_id GetUiDevice) (with_id RotateDevice), [id]).
Proof.
  intros Hid. unfold routes, devices_route, ui_route. cbn [find_route match_route route_pattern].
  known_texts. by rewrite (bool_decide_false (id = "")).
Qed.

Lemma handle_get_rotation env auth args (a : AppState DB) :
  rotation_configured auth args ->
  exists context, handle env auth a (get_rotation args)
    = (with_context context (get_ui_device env a (RotateServerArgs.device_id args)), a).
Proof.
  intros Hc. unfold handle. cbn [path method headers get_rotation]. unfold rotation_path.
  rewrite (rotation_segment _ _ Hc). cbn [app].
  rewrite find_rotation_route by apply (rotation_name _ _ Hc).
  cbn [select_method on_get with_id route_group group_token].
  rewrite (rotation_has_token _ _ Hc), (proj2 (matches_true _ _)) by done. cbn [negb].
  eexists. reflexivity.
Qed.

Lemma handle_post_rotation env auth args u (a : AppState DB) :
  rotation_configured auth args ->
  let r := post_rotation args (idempotency_text u) in
  exists context, handle env auth a r
    = let '(response, a') := rotate_device env a (RotateServerArgs.device_id args) (headers r) in
      (with_context context response, a').
Proof.
  intros Hc r. unfold handle. cbn [path method headers r post_rotation]. unfold rotation_path.
  rewrite (rotation_segment _ _ Hc). cbn [app].
  rewrite find_rotation_route by apply (rotation_name _ _ Hc).
  cbn [select_method on_post with_id route_group group_token].
  rewrite (rotation_has_token _ _ Hc), (proj2 (matches_true _ _)) by done. cbn [negb].
  eexists. reflexivity.
Qed.

(** ** What other clients do to the records *)

Definition is_issue (o : op) : bool := match o with OpIssue _ _ _ => true | _ => false end.

Lemma commit_records {O E} (a : AppState DB) candidate (e : E) (o : O) :
  idempotency_results (commands candidate) = records a ->
  records (commit a candidate e o).2 = records a.
Proof. intros Hr. unfold commit. by destruct (compare_and_swap _ _ _). Qed.

Lemma report_records (a : AppState DB) o : is_issue o = false -> records (run_op a o) = records a.
Proof.
  destruct o; simpl; intros Hr; try done;
    unfold register_device_transaction, heartbeat_transaction, public_probe_transaction,
      acknowledge_command_transaction;
    repeat case_match; cbn [snd]; try done; by apply commit_records.
Qed.

(** An issue leaves the state alone or adds its record, for which others may be
    evicted when there is no room. *)
Lemma issue_records (a : AppState DB) id now input :
  state_ok (memory a) -> fresh_for (commands (memory a)) id ->
  let '(out, a') := issue_command_transaction a id now input in
  (a' = a /\ forall o, out = Ok o -> exists c, o = ExactDuplicate c /\ records a !! scope_of input = Some c)
  \/ (let c := new_command id now input in
      out = Ok (Created c) /\ records a !! scope_of input = None
      /\ queues (commands (memory a'))
         = <[issue_device_id input
              := (queue_of (commands (memory a)) (issue_device_id input) ++ [c])%list]>
             (queues (commands (memory a)))
      /\ records a' !! scope_of input = Some c
      /\ records a' ⊆ <[scope_of input := c]> (records a)
      /\ ((size (records a) < MAX_IDEMPOTENCY_RESULTS)%nat ->
          records a' = <[scope_of input := c]> (records a))).
Proof.
  intros Ha Hf. destruct (issue_command_transaction a id now input) as [out a'] eqn:Hi.
  destruct out as [[c|c]|e].
  - right. destruct (issue_created a id now input c a' Ha Hf Hi) as (-> & Hq & Hrec & _).
    split; [done|]. revert Hi. unfold issue_command_transaction.
    rewrite (normalize_wf _ (ok_commands _ Ha)). case_decide; [|done].
    destruct (records a !! scope_of input) eqn:Hs; [by destruct (classify_existing _ _ _)|].
    destruct (_ || _) eqn:Hidx; [done|]. destruct (rotation_blocked _ _ _); [done|].
    destruct (capacity_exhausted _ _) eqn:Hcap; [done|].
    destruct (issue_candidate_wf _ id now input (ok_commands _ Ha) Hf Hs Hidx Hcap)
      as (cs' & n & Ht & Htr & _). rewrite Ht.
    intros Hc. apply commit_cases in Hc as [[? _]|(_ & Hm & _)]; [done|].
    split_and!; [done..| |]; rewrite Hm; [apply (trimmed_results _ _ Htr)|].
    rewrite (size_results _ (wf_core _ (ok_commands _ Ha))). intros Hroom.
    rewrite trim_noop in Ht; [by injection Ht as <-|]. simpl. rewrite length_app. simpl. lia.
  - left. revert Hi. unfold issue_command_transaction.
    rewrite (normalize_wf _ (ok_commands _ Ha)). case_decide; [|done].
    destruct (records a !! scope_of input) as [x|] eqn:Hs.
    + destruct (classify_existing _ _ _) as [y|] eqn:Hc; intros [= <- <-].
      apply classify_existing_Ok in Hc as (-> & _). split; [done|]. intros o [= <-]. by exists x.
    + repeat case_match; try congruence.
      intros Hc. apply commit_cases in Hc as [[? _]|(? & _)]; congruence.
  - left. pose proof (issue_atomic a id now input e) as Hat. rewrite Hi in Hat.
    split; [by apply (Hat eq_refl)|done].
Qed.

Section Others.
Variable key : string.

(** Requests of others: fresh identities, and other keys than this one. *)
Fixpoint others_allowed (ops : list op) (a : AppState DB) : Prop :=
  match ops with
  | [] => True
  | o :: rest =>
      op_allowed a o
      /\ match o with OpIssue _ _ input => scope_of input <> key | _ => True end
      /\ others_allowed rest (run_op a o)
  end.

Definition issues (ops : list op) : nat := List.length (List.filter is_issue ops).

Lemma others_records ops (a : AppState DB) :
  others_allowed ops a -> state_ok (memory a) ->
  let a' := foldl run_op a ops in
  state_ok (memory a')
  /\ (size (records a') <= size (records a) + issues ops)%nat
  /\ (forall c, records a' !! key = Some c -> records a !! key = Some c)
  /\ (issues ops = 0%nat \/ (size (records a) + issues ops <= MAX_IDEMPOTENCY_RESULTS)%nat ->
      records a' !! key = records a !! key).
Proof.
  revert a. induction ops as [|o ops IH]; intros a; simpl; [intros; split_and!; auto; lia|].
  intros (Hall & Hkey & Hrest) Ha. pose proof (run_op_ok a o Ha Hall) as Hok.
  destruct (IH _ Hrest Hok) as (Hok' & Hsize & Hback & Hkeep). unfold issues in *. simpl.
  destruct (is_issue o) eqn:Ho; [|rewrite (report_records a o Ho) in *; split_and!; done].
  destruct o as [| | |id now input|]; try done. simpl in *.
  pose proof (issue_records a id now input Ha Hall) as Hr.
  destruct (issue_command_transaction a id now input) as [out a1]. cbn [snd] in *.
  destruct Hr as [[-> _]|(_ & Hnone & _ & _ & Hsub & Hroom)].
  { split_and!; [done|lia|done|]. intros Hroomy. apply Hkeep. lia. }
  assert (size (<[scope_of input:=new_command id now input]> (records a)) = S (size (records a))) as Hins
    by (by apply map_size_insert_None).
  pose proof (map_subseteq_size _ _ Hsub) as Hle. split_and!; [done|lia| |].
  - intros c Hc. apply Hback in Hc. eapply lookup_weaken in Hc; [|exact Hsub].
    by rewrite lookup_insert_ne in Hc.
  - intros Hroomy. rewrite Hkeep by lia. rewrite Hroom by lia. by rewrite lookup_insert_ne.
Qed.
End Others.

(** ** One command *)

Lemma issue_again (a : AppState DB) id now input id' now' :
  state_ok (memory a) -> unaliased (commands (memory a)) ->
  records a !! scope_of input = Some (new_command id now input) ->
  issue_command_transaction a id' now' input = (Ok (ExactDuplicate (new_command id now input)), a).
Proof.
  intros Ha Hu Hs.
  by rewrite (issue_existing a id' now' input _ Ha Hs), decide_True, new_command_classified.
Qed.

Definition rotation_input (args : RotateServerArgs.t) (u : Uuid) : IssueCommandInput :=
  mk_issue (RotateServerArgs.device_id args) (rotation_request (mk_key (idempotency_text u))).

(** The command an attempt creates when it is the one that creates it. *)
Definition command_of (args : RotateServerArgs.t) (u : Uuid) (x : Exchange) : DeviceCommand.t :=
  new_command (from_uuid (fresh_command (exchange_env x))) (stamp (exchange_env x) 0)
    (rotation_input args u).

(** The commands a request put into the queue of a device. *)
Definition added (a a' : AppState DB) (device : string) : list DeviceCommand.t :=
  List.filter (fun c => negb (bool_decide (c ∈ queue_of (commands (memory a)) device)))
    (queue_of (commands (memory a')) device).

Lemma added_same (a : AppState DB) device : added a a device = [].
Proof.
  unfold added. apply filter_nil_iff. intros c Hc%list_elem_of_In.
  by rewrite bool_decide_eq_true_2.
Qed.

Section Invocation.
Variables (auth : AuthConfig) (args : RotateServerArgs.t) (u : Uuid) (attempts : Z -> Exchange).
Hypothesis Hauth : rotation_configured auth args.

Abbreviation key := (scope_of (rotation_input args u)).
Abbreviation device := (RotateServerArgs.device_id args).
Abbreviation post := (post_rotation args (idempotency_text u)).

(** The world of an invocation, attempt by attempt as [submit] makes them: other
    clients do what they like before each, under other keys, and the identities
    drawn for commands are fresh. *)
Fixpoint invoked (left : nat) (attempt : Z) (a : AppState DB) : Prop :=
  match left with
  | O => True
  | S left' =>
      let x := attempts attempt in
      others_allowed key (before x) a
      /\ fresh_for (commands (memory (foldl run_op a (before x))))
           (from_uuid (fresh_command (exchange_env x)))
      /\ let '(answer, a') := exchange auth x post a in
         match judge attempt answer with
         | inl _ => True
         | inr _ => invoked left' (attempt + 1) a'
         end
  end.

(** The commands its requests create, in that order. *)
Fixpoint creations (left : nat) (attempt : Z) (a : AppState DB) : list DeviceCommand.t :=
  match left with
  | O => []
  | S left' =>
      let x := attempts attempt in
      let '(answer, a') := exchange auth x post a in
      (added (foldl run_op a (before x)) a' device
       ++ match judge attempt answer with
          | inl _ => []
          | inr _ => creations left' (attempt + 1) a'
          end)%list
  end.

(** How many commands others issue before the attempts that are left. *)
Fixpoint traffic (left : nat) (attempt : Z) : nat :=
  match left with
  | O => O
  | S left' => issues (before (attempts attempt)) + traffic left' (attempt + 1)
  end.

(** What one request does to the state [a0] it finds: nothing, and an acceptance
    names the record there is; or it creates its command. *)
Definition served (n : Z) (a0 a' : AppState DB) (answer : option (Z * Body)) : Prop :=
  (a' = a0 /\ forall s id d ip url, answer = Some (s, RotationBody id d ip url) ->
     exists c, records a0 !! key = Some c /\ id = DeviceCommand.command_id c)
  \/ (let c := command_of args u (attempts n) in
      state_ok (memory a') /\ records a0 !! key = None /\ records a' !! key = Some c
      /\ (size (records a') <= S (size (records a0)))%nat /\ added a0 a' device = [c]
      /\ forall s id d ip url, answer = Some (s, RotationBody id d ip url) ->
         id = DeviceCommand.command_id c).

Lemma created_added id now (a a' : AppState DB) :
  state_ok (memory a) -> records a !! key = None ->
  let c := new_command id now (rotation_input args u) in
  queues (commands (memory a'))
  = <[device := (queue_of (commands (memory a)) device ++ [c])%list]> (queues (commands (memory a))) ->
  added a a' device = [c].
Proof.
  intros Ha Hnone c Hq. unfold added.
  assert (queue_of (commands (memory a')) device
          = (queue_of (commands (memory a)) device ++ [c])%list) as ->
    by (unfold queue_of at 1; by rewrite Hq, lookup_insert_eq).
  rewrite List.filter_app. rewrite (proj2 (filter_nil_iff _ _)).
  - simpl. rewrite bool_decide_eq_false_2; [done|]. intros Hin.
    apply (queue_of_replay _ _ _ (wf_core _ (ok_commands _ Ha))) in Hin.
    change (canonical_scope c) with key in Hin. congruence.
  - intros y Hy%list_elem_of_In. by rewrite bool_decide_eq_true_2.
Qed.

Lemma rotate_served n (a : AppState DB) :
  state_ok (memory a) ->
  fresh_for (commands (memory a)) (from_uuid (fresh_command (exchange_env (attempts n)))) ->
  let '(response, a') := handle (exchange_env (attempts n)) auth a post in
  served n a a' (Some (status response, response_body response)).
Proof.
  intros Ha Hf.
  destruct (handle_post_rotation (exchange_env (attempts n)) auth args u a Hauth) as [context ->].
  unfold rotate_device. rewrite idempotency_text_parses.
  destruct (devices (memory a) !! _) as [d|] eqn:Hd; [|by left].
  destruct (DeviceRecord.last_public_ip d) as [old_ip|] eqn:Hip; [|by left].
  fold (rotation_input args u). set (id := from_uuid _) in *. set (now := stamp _ 0).
  pose proof (issue_ok a id now (rotation_input args u) Ha Hf) as Hok.
  pose proof (issue_records a id now (rotation_input args u) Ha Hf) as Hr.
  destruct (issue_command_transaction _ _ _ _) as [out a'].
  destruct Hr as [[-> Hdup]|(-> & Hnone & Hq & Hs & Hsub & _)].
  - left. split; [by destruct out as [o|[]]|]. intros s i d' ip url.
    destruct out as [o|[]]; try done. intros [= _ <- _ _ _].
    destruct (Hdup o eq_refl) as (c & -> & Hc). by exists c.
  - right. split_and!; try done.
    + transitivity (size (<[key := new_command id now (rotation_input args u)]> (records a)));
        [by apply map_subseteq_size|]. by rewrite map_size_insert_None.
    + by apply (created_added id now).
    + by intros s i d' ip url [= _ <- _ _ _].
Qed.

Lemma exchange_served n (a : AppState DB) :
  let a0 := foldl run_op a (before (attempts n)) in
  state_ok (memory a0) ->
  fresh_for (commands (memory a0)) (from_uuid (fresh_command (exchange_env (attempts n)))) ->
  let '(answer, a') := exchange auth (attempts n) post a in served n a0 a' answer.
Proof.
  intros a0 Ha Hf. unfold exchange. fold a0. pose proof (rotate_served n a0 Ha Hf) as Hr.
  destruct (delivery (attempts n)); [by left| | |by left];
    destruct (handle _ _ _ _) as [response a']; [|done].
  destruct Hr as [[-> _]|(? & ? & ? & ? & ? & _)]; [by left|right]. by split_and!.
Qed.

Lemma served_ok n a0 a' answer : served n a0 a' answer -> state_ok (memory a0) -> state_ok (memory a').
Proof. by intros [[-> _]|[? _]]. Qed.

(** What is accepted was created by the invocation. *)
Lemma submit_accepts left attempt last_error elapsed a known :
  invoked left attempt a -> state_ok (memory a) ->
  attempt + Z.of_nat left = MAX_ATTEMPTS + 1 -> (left = O -> is_Some last_error) ->
  (forall c, records a !! key = Some c -> c ∈ known) ->
  let '(out, a', _) := submit auth post attempts left attempt last_error elapsed a in
  state_ok (memory a') /\ forall accepted, out = Ok accepted ->
    exists c, c ∈ (known ++ creations left attempt a)%list
              /\ accepted_command accepted = DeviceCommand.command_id c.
Proof.
  revert attempt last_error elapsed a known.
  induction left as [|left IH]; intros attempt last_error elapsed a known Hw Ha Hn He Hk;
    cbn [submit creations].
  { split; [done|]. intros accepted. destruct last_error; [done|]. by destruct (He eq_refl). }
  cbn [invoked] in Hw. destruct Hw as (Hoth & Hf & Hnext).
  destruct (others_records key (before (attempts attempt)) a Hoth Ha) as (Ha0 & _ & Hback & _).
  pose proof (exchange_served attempt a Ha0 Hf) as Hx.
  destruct (exchange auth (attempts attempt) post a) as [answer a'].
  set (a0 := foldl run_op a (before (attempts attempt))) in *.
  pose proof (served_ok _ _ _ _ Hx Ha0) as Ha'.
  assert (forall c, records a' !! key = Some c -> c ∈ (known ++ added a0 a' device)%list) as Hk'.
  { intros c Hc. apply elem_of_app. destruct Hx as [[-> _]|(_ & _ & Hs & _ & -> & _)];
      [left; by apply Hk, Hback|right]. rewrite Hs in Hc. injection Hc as <-. by left. }
  destruct (judge attempt answer) as [final|e] eqn:Hj.
  - split; [done|]. intros accepted ->. rewrite app_nil_r. revert Hj. unfold judge, accepted_of.
    repeat case_match; try discriminate. intros [= <-]. subst.
    destruct Hx as [[-> Hacc]|(_ & _ & Hs & _ & Had & Hacc)].
    + destruct (Hacc _ _ _ _ _ eq_refl) as (c & Hc & ->). exists c. split; [by apply Hk'|done].
    + rewrite (Hacc _ _ _ _ _ eq_refl). eexists. split; [by apply Hk'|done].
  - specialize (IH (attempt + 1) (Some e) (elapsed + took (attempts attempt) + backoff_ms attempt) a'
      (known ++ added a0 a' device)%list Hnext Ha' ltac:(lia) ltac:(by eexists) Hk').
    destruct (submit _ _ _ left _ _ _ _) as [[out a''] t]. by rewrite app_assoc.
Qed.

(** Room for the commands still to come, and for this one. *)
Definition unrecorded (a : AppState DB) : nat := if is_some (records a !! key) then 0 else 1.

Definition roomy (more : nat) (a : AppState DB) : Prop :=
  more = O \/ (size (records a) + more + unrecorded a <= MAX_IDEMPOTENCY_RESULTS)%nat.

(** With room for the records there is one creation, and none once there is a
    record. *)
Lemma creations_once left attempt a :
  invoked left attempt a -> state_ok (memory a) -> roomy (traffic left attempt) a ->
  (List.length (creations left attempt a) <= unrecorded a)%nat.
Proof.
  revert attempt a. induction left as [|left IH]; intros attempt a Hw Ha Hroom; cbn [creations].
  { simpl. lia. }
  cbn [invoked] in Hw. destruct Hw as (Hoth & Hf & Hnext). unfold roomy in *. cbn [traffic] in Hroom.
  destruct (others_records key (before (attempts attempt)) a Hoth Ha) as (Ha0 & Hsize & Hback & Hkeep).
  pose proof (exchange_served attempt a Ha0 Hf) as Hx.
  destruct (exchange auth (attempts attempt) post a) as [answer a'].
  set (a0 := foldl run_op a (before (attempts attempt))) in *.
  assert (unrecorded a0 = unrecorded a) as Hun
    by (unfold unrecorded; rewrite Hkeep; [done|lia]).
  pose proof (served_ok _ _ _ _ Hx Ha0) as Ha'. rewrite length_app.
  destruct Hx as [[-> _]|(_ & Hnone & Hs & Hsz & -> & _)].
  - rewrite added_same. destruct (judge attempt answer); simpl; [lia|].
    rewrite <- Hun. apply IH; [done|done|]. lia.
  - assert (unrecorded a0 = 1%nat /\ unrecorded a' = 0%nat) as [Hun0 Hun']
      by (unfold unrecorded; by rewrite Hnone, Hs).
    destruct (judge attempt answer); simpl in *; [lia|].
    specialize (IH (attempt + 1) a' Hnext Ha'). lia.
Qed.
End Invocation.

(** C30: However often a rotation is retried, whichever answers are lost and
    whatever other clients do between the attempts under keys of their own:
    never are two commands of one invocation pending at a time, and an
    invocation that is told of acceptance is told of a command that it created.
    It creates at most one command if others issue nothing meanwhile, or if what
    they issue leaves the control plane within the number of results it
    retains; beyond that the record of an acknowledged command may be evicted,
    and a retry creates another. *)
Theorem rotation_creates_one_command auth args u attempts (a : AppState DB) :
  let attempts_left := Z.to_nat MAX_ATTEMPTS in
  let key := scope_of (rotation_input args u) in
  let created := creations auth args u attempts attempts_left 1 a in
  let others := traffic attempts attempts_left 1 in
  rotation_configured auth args ->
  state_ok (memory a) -> records a !! key = None ->
  invoked auth args u attempts attempts_left 1 a ->
  let '(out, a', _) := issue_rotation auth args u attempts a in
  (forall d d' x y, x ∈ queue_of (commands (memory a')) d -> y ∈ queue_of (commands (memory a')) d' ->
     canonical_scope x = key -> canonical_scope y = key -> x = y)
  /\ (forall accepted, out = Ok accepted ->
      exists c, c ∈ created /\ accepted_command accepted = DeviceCommand.command_id c)
  /\ (others = 0%nat \/ (size (records a) + others + 1 <= MAX_IDEMPOTENCY_RESULTS)%nat ->
      (List.length created <= 1)%nat).
Proof.
  intros attempts_left key created others Hc Ha Hkey Hw. unfold key in *. clear key.
  unfold issue_rotation.
  pose proof (submit_accepts auth args u attempts Hc attempts_left 1 None 0 a [] Hw Ha eq_refl
                ltac:(done) ltac:(intros c; by rewrite Hkey)) as Hs.
  fold attempts_left. destruct (submit _ _ _ _ _ _ _ _) as [[out a'] elapsed].
  destruct Hs as [Hok Hacc]. split_and!.
  - intros d d' x y Hx Hy Hkx Hky.
    apply (queue_of_replay _ _ _ (wf_core _ (ok_commands _ Hok))) in Hx, Hy. congruence.
  - done.
  - intros Hroom. pose proof (creations_once auth args u attempts Hc attempts_left 1 a Hw Ha) as Hone.
    unfold roomy, unrecorded in Hone. rewrite Hkey in Hone. by apply Hone.
Qed.

(** ** Time *)

Definition prompt (x : Exchange) : Prop := 0 <= took x <= REQUEST_TIMEOUT_MS.

Lemma judge_last answer e : judge MAX_ATTEMPTS answer <> inr e.
Proof. unfold judge. rewrite Z.ltb_irrefl. repeat case_match; bools; done. Qed.

Lemma submit_time auth r attempts left attempt last_error elapsed (a : AppState DB) :
  (forall n, prompt (attempts n)) ->
  attempt + Z.of_nat left = MAX_ATTEMPTS + 1 -> 1 <= attempt <= MAX_ATTEMPTS ->
  let '(_, _, t) := submit auth r attempts left attempt last_error elapsed a in
  elapsed <= t
  <= elapsed + REQUEST_TIMEOUT_MS * Z.of_nat left + 1000 * (2 ^ (MAX_ATTEMPTS - 1) - 2 ^ (attempt - 1)).
Proof.
  intros Hp. revert attempt last_error elapsed a.
  induction left as [|left IH]; intros attempt last_error elapsed a Hn Ha; [lia|].
  pose proof (Hp attempt) as Ht. unfold prompt in Ht. cbn [submit].
  assert (2 ^ (attempt - 1) <= 2 ^ (MAX_ATTEMPTS - 1)) as Hpow by (apply Z.pow_le_mono_r; lia).
  destruct (exchange _ _ _ _) as [answer a'].
  destruct (judge attempt answer) as [final|e] eqn:Hj.
  { unfold REQUEST_TIMEOUT_MS in *. lia. }
  assert (attempt <> MAX_ATTEMPTS) by (intros ->; by apply judge_last in Hj).
  assert (backoff_ms attempt = 1000 * 2 ^ (attempt - 1)) as Hb
    by (unfold backoff_ms; rewrite Z.shiftl_1_l; done).
  assert (2 ^ (attempt + 1 - 1) = 2 * 2 ^ (attempt - 1)) as Hd
    by (rewrite <- Z.pow_succ_r by lia; f_equal; lia).
  assert (0 < 2 ^ (attempt - 1)) by (apply Z.pow_pos_nonneg; lia).
  specialize (IH (attempt + 1) (Some e) (elapsed + took (attempts attempt) + backoff_ms attempt) a').
  destruct (submit _ _ _ left _ _ _ _) as [[out a''] t].
  assert (2 ^ (attempt - 1) = 2 ^ (attempt + 1 - 1) - 2 ^ (attempt - 1)) by lia.
  destruct IH as [Hlo Hhi]; [lia|lia|]. unfold REQUEST_TIMEOUT_MS in *. lia.
Qed.

(** Fuel for the timeout in seconds, and the turn that sees it passed. *)
Lemma wait_time auth args old_ip polls fuel turn elapsed (a : AppState DB) :
  (forall n, prompt (polls n)) -> timeout_ms args <= elapsed + 1000 * Z.of_nat fuel ->
  exists out a' t, wait_for_rotation auth args old_ip polls (S fuel) turn elapsed a = Some (out, a', t)
    /\ t <= Z.max elapsed (timeout_ms args + poll_ms args + REQUEST_TIMEOUT_MS).
Proof.
  intros Hp. assert (1000 <= poll_ms args) by (unfold poll_ms; lia).
  revert turn elapsed a. induction fuel as [|fuel IH]; intros turn elapsed a Hf.
  - cbn [wait_for_rotation]. rewrite (proj2 (Z.leb_le _ _)) by lia. eexists _, _, _. split; [done|lia].
  - remember (S fuel) as f. cbn [wait_for_rotation].
    destruct (timeout_ms args <=? elapsed) eqn:Ht; [eexists _, _, _; split; [done|lia]|].
    apply Z.leb_gt in Ht. pose proof (Hp turn) as Htook. unfold prompt in Htook.
    destruct (fetch_device auth args (polls turn) a) as [fetched a'].
    set (elapsed' := elapsed + poll_ms args + took (polls turn)).
    destruct (IH (S turn) elapsed' a') as (out & a'' & t & Hw & Hle); [unfold elapsed'; lia|].
    assert (exists out a'' t, wait_for_rotation auth args old_ip polls f (S turn) elapsed' a' = Some (out, a'', t)
      /\ t <= Z.max elapsed (timeout_ms args + poll_ms args + REQUEST_TIMEOUT_MS)) as Hrest.
    { subst f. eexists _, _, _. split; [exact Hw|]. unfold elapsed' in *. lia. }
    destruct fetched as [device|e]; [|done]. destruct (rotation_complete device old_ip); [|done].
    eexists _, _, _. split; [done|]. unfold elapsed'. lia.
Qed.

(** A rotation always comes to an end: whatever the answers, when each request
    takes at most the client's ten seconds the command is over after at most 65
    seconds of attempts or, if later, one interval and one request after its
    timeout; one turn of the loop per second of the timeout is enough. *)
Theorem rotation_is_bounded auth args u attempts polls (a : AppState DB) :
  (forall n, prompt (attempts n)) -> (forall n, prompt (polls n)) ->
  exists out a' t,
    run_inner auth args u attempts polls
      (S (Z.to_nat (Z.max (RotateServerArgs.timeout_secs args) 1))) a = Some (out, a', t)
    /\ t <= Z.max 65000 (timeout_ms args + poll_ms args + REQUEST_TIMEOUT_MS).
Proof.
  intros Ha Hp. unfold run_inner, issue_rotation.
  pose proof (submit_time auth (post_rotation args (idempotency_text u)) attempts
                (Z.to_nat MAX_ATTEMPTS) 1 None 0 a Ha eq_refl) as Hs.
  destruct (submit _ _ _ _ _ _ _ _) as [[issued a1] elapsed]. destruct Hs as [Hlo Hhi]; [done|].
  change (elapsed <= 65000) in Hhi.
  destruct issued as [command|e]; [|eexists _, _, _; split; [done|lia]].
  destruct (wait_time auth args (accepted_old_ip command) polls
              (Z.to_nat (Z.max (RotateServerArgs.timeout_secs args) 1)) 0 elapsed a1 Hp)
    as (out & a2 & t & Hw & Hle); [unfold timeout_ms; lia|].
  rewrite Hw. cbn [mbind option_bind]. eexists _, _, _. split; [done|lia].
Qed.

(** ** Success *)

Lemma mark_stale_cases now (d : DeviceRecord.t) : mark_stale now d = d \/ mark_stale now d = stale_device d.
Proof.
  unfold mark_stale. destruct (_ ≫= _); [|by left]. destruct (parse_u64 now); [|by left].
  destruct (_ <=? _); auto.
Qed.

(** What a fetch reads is what the control plane stores at that time. *)
Lemma fetch_device_reads auth args x (a a' : AppState DB) d :
  rotation_configured auth args -> fetch_device auth args x a = (Ok d, a') ->
  a' = foldl run_op a (before x)
  /\ exists stored, devices (memory a') !! RotateServerArgs.device_id args = Some stored
       /\ d = mark_stale (stamp (exchange_env x) 0) stored.
Proof.
  intros Hc. unfold fetch_device, exchange.
  destruct (handle_get_rotation (exchange_env x) auth args (foldl run_op a (before x)) Hc) as [context Hh].
  destruct (delivery x); [done|done| |by repeat case_match].
  rewrite Hh. unfold get_ui_device. destruct (devices _ !! _) as [stored|] eqn:Hd; [|done].
  intros [= <- <-]. split; [done|]. by exists stored.
Qed.

Lemma fetch_device_state auth args x (a : AppState DB) :
  rotation_configured auth args -> (fetch_device auth args x a).2 = foldl run_op a (before x).
Proof.
  intros Hc. unfold fetch_device, exchange.
  destruct (handle_get_rotation (exchange_env x) auth args (foldl run_op a (before x)) Hc) as [context Hh].
  destruct (delivery x); try done; by rewrite Hh.
Qed.

(** The device serves the public on an address that is not the old one. *)
Record rotated_from (old_ip new_ip : string) (d : DeviceRecord.t) : Prop := {
  rotated_idle : DeviceRecord.current_job d = None;
  rotated_serves : DeviceRecord.serving d = true /\ DeviceRecord.publicly_serving d = true;
  rotated_healthy : DeviceRecord.readiness_state d = "healthy";
  rotated_fresh : DeviceRecord.reverse_tunnel_freshness d = Some "fresh";
  rotated_ip : DeviceRecord.last_public_ip d = Some new_ip /\ new_ip <> old_ip;
}.

Lemma rotation_complete_iff d old_ip :
  rotation_complete d old_ip = true <-> exists new_ip, rotated_from old_ip new_ip d.
Proof.
  unfold rotation_complete. split.
  - rewrite !andb_true_iff, !bool_decide_eq_true, negb_true_iff. intros (((((Hj & Hs) & Hp) & Hr) & Hf) & Hip).
    destruct (DeviceRecord.last_public_ip d) as [ip|] eqn:He; [|done].
    cbn [is_some_and] in Hip. exists ip. split; try done.
    + by destruct (DeviceRecord.current_job d).
    + split; [done|]. by destruct (bool_decide_reflect (ip = old_ip)).
  - intros (ip & [Hj [Hs Hp] Hr Hf [Hip Hne]]). rewrite Hj, Hs, Hp, Hip. cbn [is_some negb andb is_some_and].
    by rewrite !bool_decide_true, bool_decide_false by done.
Qed.

Lemma wait_success auth args old_ip polls fuel turn elapsed (a a' : AppState DB) device t :
  rotation_configured auth args ->
  wait_for_rotation auth args old_ip polls fuel turn elapsed a = Some (Ok device, a', t) ->
  rotation_complete device old_ip = true
  /\ exists now stored, devices (memory a') !! RotateServerArgs.device_id args = Some stored
       /\ device = mark_stale now stored.
Proof.
  intros Hc. revert turn elapsed a. induction fuel as [|fuel IH]; intros turn elapsed a;
    cbn [wait_for_rotation]; [done|]. destruct (_ <=? _); [done|].
  destruct (fetch_device auth args (polls turn) a) as [[d|e] a1] eqn:Hf; [|apply IH].
  destruct (rotation_complete d old_ip) eqn:Hd; [|apply IH].
  intros [= <- <- _]. split; [done|].
  apply (fetch_device_reads _ _ _ _ _ _ Hc) in Hf as [_ (stored & Hs & ->)]. eauto.
Qed.

(** What is reported as success is true of the control plane at that time: the
    device it stores, not marked stale, is idle, healthy and serves the public
    on the reported address, which differs from the old address the server named. *)
Theorem rotation_success_is_real auth args u attempts polls fuel (a a' : AppState DB) r t :
  rotation_configured auth args ->
  run_inner auth args u attempts polls fuel a = Some (Ok r, a', t) ->
  exists now stored, devices (memory a') !! RotateServerArgs.device_id args = Some stored
    /\ mark_stale now stored = stored
    /\ rotated_from (rotated_old_ip r) (rotated_new_ip r) stored
    /\ rotated_readiness r = "healthy" /\ rotated_serving r = true /\ rotated_publicly_serving r = true.
Proof.
  intros Hc. unfold run_inner. destruct (issue_rotation _ _ _ _ _) as [[[command|e] a1] elapsed]; [|done].
  destruct (wait_for_rotation _ _ _ _ _ _ _ _) as [[[[device|e] a2] t']|] eqn:Hw; try done.
  apply (wait_success _ _ _ _ _ _ _ _ _ _ _ Hc) in Hw as (Hd & now & stored & Hs & ->).
  cbn [mbind option_bind].
  assert (mark_stale now stored = stored) as Hfresh.
  { destruct (mark_stale_cases now stored) as [?|Hst]; [done|]. rewrite Hst in Hd.
    apply rotation_complete_iff in Hd as (? & [_ [? _] _ _ _]). done. }
  rewrite Hfresh in *. pose proof Hd as (ip & Hr)%rotation_complete_iff.
  rewrite (proj1 (rotated_ip _ _ _ Hr)). intros [= <- <- <-]. exists now, stored.
  pose proof (rotated_serves _ _ _ Hr) as [? ?]. pose proof (rotated_healthy _ _ _ Hr).
  cbn [rotated_old_ip rotated_new_ip rotated_readiness rotated_serving rotated_publicly_serving].
  split_and!; done.
Qed.

(** ** A retry after the phone has rotated *)

Definition address_of (args : RotateServerArgs.t) (a : AppState DB) : option string :=
  devices (memory a) !! RotateServerArgs.device_id args ≫= DeviceRecord.last_public_ip.

(** Operations that leave the device on an address. *)
Definition keeps (args : RotateServerArgs.t) (ip : string) (ops : list op) : Prop :=
  forall a : AppState DB, address_of args a = Some ip -> address_of args (foldl run_op a ops) = Some ip.

Lemma mark_stale_ip now (d : DeviceRecord.t) :
  DeviceRecord.last_public_ip (mark_stale now d) = DeviceRecord.last_public_ip d.
Proof. by destruct (mark_stale_cases now d) as [-> | ->]. Qed.

Lemma wait_in_vain auth args ip polls fuel turn elapsed (a a' : AppState DB) out t :
  rotation_configured auth args -> (forall n, keeps args ip (before (polls n))) ->
  address_of args a = Some ip ->
  wait_for_rotation auth args ip polls fuel turn elapsed a = Some (out, a', t) -> out = Err TimedOut.
Proof.
  intros Hc Hk. revert turn elapsed a. induction fuel as [|fuel IH]; intros turn elapsed a Ha;
    cbn [wait_for_rotation]; [done|]. destruct (_ <=? _); [by intros [= <- _ _]|].
  pose proof (fetch_device_state auth args (polls turn) a Hc) as Hs.
  destruct (fetch_device auth args (polls turn) a) as [fetched a1] eqn:Hf. cbn [snd] in Hs. subst a1.
  pose proof (Hk turn a Ha) as Ha'. destruct fetched as [d|e]; [|by apply IH].
  destruct (rotation_complete d ip) eqn:Hd; [|by apply IH]. exfalso.
  apply (fetch_device_reads _ _ _ _ _ _ Hc) in Hf as [_ (stored & Hs & ->)].
  apply rotation_complete_iff in Hd as (new & [_ _ _ _ [Hip Hne]]). rewrite mark_stale_ip in Hip.
  unfold address_of in Ha'. rewrite Hs in Ha'. cbn [mbind option_bind] in Ha'. congruence.
Qed.

(** The answer to a later attempt names the first command, and the address of
    the day. *)
Lemma answered_again auth args u (a : AppState DB) x first ip :
  let a0 := foldl run_op a (before x) in
  rotation_configured auth args -> state_ok (memory a0) -> unaliased (commands (memory a0)) ->
  records a0 !! scope_of (rotation_input args u) = Some (command_of args u first) ->
  address_of args a0 = Some ip -> delivery x = Answered ->
  exists d url, exchange auth x (post_rotation args (idempotency_text u)) a
    = (Some (ACCEPTED, RotationBody (DeviceCommand.command_id (command_of args u first)) d ip url), a0).
Proof.
  intros a0 Hc Ha Hu Hs Hip Hd. unfold exchange. fold a0. rewrite Hd.
  destruct (handle_post_rotation (exchange_env x) auth args u a0 Hc) as [context ->].
  unfold rotate_device. rewrite idempotency_text_parses. unfold address_of in Hip.
  apply bind_Some in Hip as (device & -> & ->). fold (rotation_input args u).
  unfold command_of in *. rewrite (issue_again _ _ _ _ _ _ Ha Hu Hs). eexists _, _. reflexivity.
Qed.

(** The state the first attempt leaves, and the one the second finds. *)
Definition after_first auth args u attempts (a : AppState DB) : AppState DB :=
  (exchange auth (attempts 1) (post_rotation args (idempotency_text u)) a).2.
Definition at_second auth args u attempts (a : AppState DB) : AppState DB :=
  foldl run_op (after_first auth args u attempts a) (before (attempts 2)).

(** When the answer to the attempt that created the command is lost and the
    phone has its new address by the time of the next one, the retry is told
    the new address as the old one: the rotation the phone completed is then
    reported as timed out for as long as the phone keeps that address. *)
Theorem late_retry_times_out auth args u attempts (a : AppState DB) ip :
  let second := at_second auth args u attempts a in
  rotation_configured auth args ->
  delivery (attempts 1) = Unanswered -> delivery (attempts 2) = Answered ->
  state_ok (memory second) -> unaliased (commands (memory second)) ->
  records second !! scope_of (rotation_input args u) = Some (command_of args u (attempts 1)) ->
  address_of args second = Some ip ->
  (exists command a' t, issue_rotation auth args u attempts a = (Ok (mk_accepted command ip), a', t))
  /\ forall polls fuel out a' t, (forall n, keeps args ip (before (polls n))) ->
       run_inner auth args u attempts polls fuel a = Some (out, a', t) -> out = Err TimedOut.
Proof.
  intros second Hc Hd1 Hd2 Hok Hu Hrec Hip.
  assert (exists command t, issue_rotation auth args u attempts a
    = (Ok (mk_accepted command ip), second, t)) as (command & t & Hi).
  { unfold issue_rotation. change (Z.to_nat MAX_ATTEMPTS) with 5%nat. remember 4%nat as four. cbn [submit].
    unfold second, at_second, after_first in *.
    assert ((exchange auth (attempts 1) (post_rotation args (idempotency_text u)) a).1 = None) as Hnone
      by (unfold exchange; by rewrite Hd1).
    destruct (exchange auth (attempts 1) _ a) as [answer a1]. cbn [fst snd] in *. subst answer four.
    change (judge 1 None) with (@inr (result RotationAccepted RotateError) _ SendFailed).
    destruct (answered_again auth args u a1 (attempts 2) (attempts 1) ip Hc Hok Hu Hrec Hip Hd2)
      as (d & url & Hx).
    remember 3%nat as three. cbn [submit]. change (1 + 1) with 2. rewrite Hx.
    cbn [judge]. eexists _, _. reflexivity. }
  split; [by eexists _, _, _|]. intros polls fuel out a' t' Hk. unfold run_inner. rewrite Hi.
  destruct (wait_for_rotation _ _ _ _ _ _ _ _) as [[[waited a2] t2]|] eqn:Hw; [|done].
  apply wait_in_vain in Hw as ->; [|done..]. by intros [= <- _ _].
Qed.
End RotateTheorems.

(** ** A rotation of a phone, and one whose first answer is lost *)

Module DemoRotate.
Import Foundation.Concrete(hex_digits, hex_digits_ok).
#[local] Existing Instance Foundation.Concrete.blake3.
Import MemoryStore(store, stored_eq_dec) DemoRequests.

(** Identities as 36 hexadecimal digits. *)
Definition wide_text (u : Uuid) : string := of_bytes (hex_digits 36 (Z.of_N u) []).
#[local] Instance wide_uuid : UuidText := {| uuid_to_string := wide_text; uuid_parse_str := fun _ => None |}.

Lemma hex_graphic c : lower_hex_digit c = true -> is_ascii_graphic c = true.
Proof. unfold lower_hex_digit, is_ascii_graphic, is_ascii_digit, in_range. lia. Qed.

#[local] Instance wide_graphic : UuidGraphic.
Proof.
  split; intros u; change (uuid_to_string u) with (wide_text u); unfold wide_text;
    destruct (hex_digits_ok 36 (Z.of_N u) []) as (Hl & Hh & Hb); [done|constructor| |done|constructor|].
  - rewrite bytes_of_bytes by done. apply forallb_forall. intros b Hin.
    rewrite forallb_forall in Hh. apply hex_graphic, Hh, Hin.
  - unfold len. rewrite <- length_bytes, bytes_of_bytes by done. by rewrite Hl.
Qed.

Definition moved : HeartbeatRequest.t :=
  HeartbeatRequest.mk _ "phone" "Phone" "healthy" true "running" None (Some "203.0.113.8") None None None
    None None None None (Some true) (Some true) (Some true) None None (Some true) None
    (Some "tls_tcp") (Some "fresh") None None.

Definition args : RotateServerArgs.t := RotateServerArgs.mk "rotation-token" "phone" 240 2.

(** Every attempt draws its own identity. *)
Definition env_of (n : Z) : Environment := mk_env 7%N (Z.to_N n) 100 (fun _ => "1").

Definition lost_first (n : Z) : Exchange :=
  if n =? 1 then mk_exchange [] (env_of n) Unanswered 10000
  else mk_exchange [OpHeartbeat "2" moved] (env_of n) Answered 100.

Lemma demo_configured : rotation_configured auth args.
Proof. split; [intros rest; reflexivity|reflexivity|discriminate]. Qed.

(** The first attempt created the command, which the second finds. *)
Lemma second_state :
  let second := at_second auth args 5%N lost_first DemoGate.app in
  state_ok (memory second) /\ unaliased (commands (memory second))
  /\ records second !! scope_of (rotation_input args 5%N) = Some (command_of args 5%N (lost_first 1)).
Proof.
  assert (bool_decide (unaliased (commands (memory (at_second auth args 5%N lost_first DemoGate.app)))) = true
    /\ records (at_second auth args 5%N lost_first DemoGate.app) !! scope_of (rotation_input args 5%N)
       = Some (command_of args 5%N (lost_first 1))) as [Hu Hr] by (split; vm_compute; reflexivity).
  split_and!; [|by apply (bool_decide_eq_true_1 _)|done].
  unfold at_second, lost_first at 2. cbn [Z.eqb before foldl].
  apply (run_op_ok _ (OpHeartbeat "2" moved)); [|done].
  assert (fresh_for (commands (memory DemoGate.app)) (from_uuid (fresh_command (env_of 1)))) as Hf.
  { intros k c. assert (records DemoGate.app = ∅) as -> by done. by rewrite lookup_empty. }
  pose proof (exchange_served auth args 5%N lost_first demo_configured 1 DemoGate.app DemoGate.app_ok Hf) as Hx.
  unfold after_first. destruct (exchange _ _ _ _) as [answer a1]. cbn [snd].
  apply (served_ok _ _ _ _ _ _ _ Hx), DemoGate.app_ok.
Qed.

Lemma second_address : address_of args (at_second auth args 5%N lost_first DemoGate.app) = Some "203.0.113.8".
Proof. vm_compute. reflexivity. Qed.

(** The phone has its new address, and the command reports a timeout. *)
Lemma late_retry_times_out_witness :
  address_of args (at_second auth args 5%N lost_first DemoGate.app) = Some "203.0.113.8"
  /\ forall out a' t,
       run_inner auth args 5%N lost_first (fun _ => mk_exchange [] env Answered 100) 241 DemoGate.app
         = Some (out, a', t) -> out = Err TimedOut.
Proof.
  split; [exact second_address|]. intros out a' t Hrun.
  destruct second_state as (Hok & Hu & Hr).
  destruct (late_retry_times_out auth args 5%N lost_first DemoGate.app "203.0.113.8" demo_configured
    eq_refl eq_refl Hok Hu Hr second_address) as [_ Hout].
  refine (Hout (fun _ => mk_exchange [] env Answered 100) 241%nat out a' t _ Hrun).
  intros n a Ha. exact Ha.
Defined.

(** Every answer is lost but the last, and the phone serves on a new address
    after the third poll. *)
Definition lossy (n : Z) : Exchange :=
  mk_exchange [] (env_of n) (if n =? 5 then Answered else Unanswered) 10000.

(** Another operator sends a command to a tablet before each attempt. *)
Definition busy (n : Z) : Exchange :=
  mk_exchange
    [OpIssue (from_uuid (Z.to_N (100 + n))) "1"
       (mk_issue "tablet" (MemoryStore.request DesiredState.HealthyServing (wide_text (Z.to_N n))))]
    (env_of n) (if n =? 5 then Answered else Unanswered) 10000.

#[local] Instance fresh_for_dec cs id : Decision (fresh_for cs id).
Proof.
  unfold fresh_for.
  change (Decision (map_Forall (fun _ c => DeviceCommand.command_id c <> id) (idempotency_results cs))).
  apply _.
Defined.

#[local] Instance others_allowed_dec key ops (a : AppState StoredState) :
  Decision (others_allowed key ops a).
Proof.
  revert a. induction ops as [|o ops IH]; intros a; [apply _|]. cbn [others_allowed].
  destruct o; cbn [op_allowed]; apply _.
Defined.

#[local] Instance invoked_dec attempts left attempt (a : AppState StoredState) :
  Decision (invoked auth args 5%N attempts left attempt a).
Proof.
  revert attempt a. induction left as [|left IH]; intros attempt a; [apply _|]. cbn [invoked].
  destruct (exchange _ _ _ _) as [answer a']. destruct (judge attempt answer); apply _.
Defined.

Lemma busy_invoked : invoked auth args 5%N busy 5 1 DemoGate.app.
Proof. apply (bool_decide_eq_true_1 _). vm_compute. reflexivity. Qed.

Lemma rotation_creates_one_command_witness :
  (List.length (creations auth args 5%N busy 5 1 DemoGate.app) <= 1)%nat.
Proof.
  assert (records DemoGate.app = ∅) as He by done.
  pose proof (rotation_creates_one_command auth args 5%N busy DemoGate.app demo_configured
    DemoGate.app_ok ltac:(by rewrite He) busy_invoked) as Hone.
  destruct (issue_rotation _ _ _ _ _) as [[out a'] t]. apply Hone. right. rewrite He. vm_compute. lia.
Defined.

Definition recovers (n : nat) : Exchange :=
  mk_exchange
    (if bool_decide (n = 2%nat)
     then [OpHeartbeat "2" moved; OpProbe "1" "1" "phone" (PublicProbeReport.mk true None "now");
           OpAcknowledge "3" (mk_acknowledge "phone" (from_uuid 1%N) (mk_ack true None))]
     else []) env Answered 100.

Lemma rotation_is_bounded_witness :
  exists out a' t, run_inner auth args 5%N lossy recovers 241 DemoGate.app = Some (out, a', t) /\ t <= 252000.
Proof.
  destruct (rotation_is_bounded auth args 5%N lossy recovers DemoGate.app) as (out & a' & t & Hrun & Ht).
  - intros n. unfold prompt, REQUEST_TIMEOUT_MS. simpl. lia.
  - intros n. unfold prompt, REQUEST_TIMEOUT_MS. simpl. lia.
  - exists out, a', t. split; [exact Hrun|]. exact Ht.
Defined.

Definition outcome_of {A B C} (o : option (result A B * C * Z)) : option (A * C) :=
  '(out, c, _) ← o; (fun r => (r, c)) <$> result_ok out.

Lemma demo_succeeds :
  (fun p => (rotated_old_ip p.1, rotated_new_ip p.1, elapsed_secs p.1))
    <$> outcome_of (run_inner auth args 5%N lossy recovers 241 DemoGate.app)
  = Some ("203.0.113.7", "203.0.113.8", 71).
Proof. vm_compute. reflexivity. Qed.

Lemma rotation_success_is_real_witness :
  exists r a' t now stored,
    run_inner auth args 5%N lossy recovers 241 DemoGate.app = Some (Ok r, a', t)
    /\ devices (memory a') !! "phone" = Some stored /\ mark_stale now stored = stored
    /\ rotated_from "203.0.113.7" "203.0.113.8" stored.
Proof.
  pose proof demo_succeeds as Hd.
  destruct (run_inner auth args 5%N lossy recovers 241 DemoGate.app) as [[[[r|e] a'] t]|] eqn:Hrun;
    [|discriminate Hd|discriminate Hd].
  destruct (rotation_success_is_real auth args 5%N lossy recovers 241 DemoGate.app a' r t demo_configured Hrun)
    as (now & stored & Hs & Hf & Hr & _).
  injection Hd as Ho Hn _. rewrite Ho, Hn in Hr. exists r, a', t, now, stored. split; [reflexivity|]. tauto.
Defined.
End DemoRotate.
