(* ===== verification/SessionLifecycle.v ===== *)
(** * Acceptance sessions

    [apps/operator-cli/src/{item20_acceptance,item20_session_lifecycle}.rs]: opening
    and closing a session, that is a machine created, found again or deleted
    under the ledger's fences.  The store and the provider are classes, as they are
    traits in the sources; every request to change something at the provider is
    logged in the world. *)

From stdpp Require Import base gmap strings list fin_maps.
From Stdlib Require Import ZArith Lia Ascii String.
From S2P Require Import Prelude Text Foundation ProviderLifecycle ProviderCreateDispatch.
From S2P Require Import BindingLedger VultrAdapter.
Local Open Scope string_scope.
Local Open Scope Z_scope.
Local Open Scope rust_scope.

(** ** The identity of a session *)

Definition ITEM20_INTENT_PREFIX : string := "item20:candidate:".

Record Item20SessionIdentity := mk_identity {
  candidate_sha : string;
  control_plane_sha : string;
}.

Definition validate_full_sha (value kind : string) : result unit string :=
  if negb (len value =? 40) || negb (all_bytes sha_byte value)
  then Err (kind ++ " SHA must be an exact lowercase 40-character hexadecimal commit identity")
  else Ok tt.

Definition identity_new (candidate control_plane : string) : result Item20SessionIdentity string :=
  let? _ := validate_full_sha candidate "candidate" in
  let? _ := validate_full_sha control_plane "control-plane" in
  if negb (bool_decide (candidate = control_plane))
  then Err "candidate/control-plane SHA mismatch violates 10/10 single-SHA Item 20 identity"
  else Ok (mk_identity candidate control_plane).

Definition acceptance_spec : VultrVmSpec := mk_spec "waw" "vc2-1c-2gb" 2284 "mobile-proxy-acceptance".

Definition ownership_intent (i : Item20SessionIdentity) : result OwnershipIntent.t LifecycleValueError :=
  OwnershipIntent.new Acceptance (ITEM20_INTENT_PREFIX ++ candidate_sha i).

Definition desired_vm (i : Item20SessionIdentity) : result DesiredVm.t LifecycleValueError :=
  let? intent := ownership_intent i in
  Ok (DesiredVm.mk intent (label acceptance_spec) (fingerprint acceptance_spec)).

(** ** Store and provider *)

Class LifecycleStore (S E : Type) := {
  st_lifecycle_state : OwnershipIntent.t -> S -> result AcceptanceVmLifecycleState E;
  st_prepare_create : OwnershipIntent.t -> S -> result Generation.t E * S;
  st_mark_create_dispatched : OwnershipIntent.t -> Generation.t -> S -> result unit E * S;
  st_prepare_delete : OwnershipIntent.t -> VmBinding.t -> S -> result unit E * S;
  st_mark_delete_dispatched : OwnershipIntent.t -> VmBinding.t -> S -> result unit E * S;
  st_compare_and_swap :
    OwnershipIntent.t -> option VmBinding.t -> option VmBinding.t -> S -> result unit E * S;
}.

(** Machines come and go between requests, so each request moves the provider on. *)
Class AcceptanceProvider (P E : Type) := {
  pr_list_instances : P -> result (list ObservedVm.t) E * P;
  pr_create_instance : PlannedCreate.t -> VultrVmSpec -> string -> P -> result ObservedVm.t E * P;
  pr_instance_ipv4 : VerifiedMutationTarget.t -> P -> result Z E * P;
  pr_delete_instance : VerifiedMutationTarget.t -> P -> result unit E * P;
}.

(** The requests that change something at the provider. *)
Inductive Call :=
| CallCreate (p : PlannedCreate.t)
| CallDelete (target : VerifiedMutationTarget.t).

Inductive SessionError (SE PE : Type) :=
| StoreFailed (e : SE)
| ProviderFailed (e : PE)
| LifecycleFailed (e : LifecycleError.t)
| DispatchFailed (e : CreateDispatchError.t)
| ValueFailed (e : LifecycleValueError)
| Bail (message : string).
Arguments StoreFailed {SE PE}.
Arguments ProviderFailed {SE PE}.
Arguments LifecycleFailed {SE PE}.
Arguments DispatchFailed {SE PE}.
Arguments ValueFailed {SE PE}.
Arguments Bail {SE PE}.

Inductive SessionOpenOrigin := OriginExisting | OriginCreated | OriginRecovered.

Record OpenItem20Session := mk_open { open_binding : VmBinding.t; open_origin : SessionOpenOrigin }.

Inductive SessionCloseOutcome := NoResourceCreated | DeletedAndTerminal | AlreadyTerminal.

Definition CREATE_RECOVERY_ATTEMPTS : nat := 20.
Definition DELETE_CONFIRM_ATTEMPTS : nat := 40.

Section Sessions.
Context {S P SE PE : Type} `{!LifecycleStore S SE} `{!AcceptanceProvider P PE}.

Record World := mk_world { w_store : S; w_provider : P; w_calls : list Call }.

(** A computation over the store and the provider that may fail. *)
Definition M (A : Type) : Type := World -> result A (SessionError SE PE) * World.

Definition pure {A} (a : A) : M A := fun w => (Ok a, w).
Definition fail {A} (e : SessionError SE PE) : M A := fun w => (Err e, w).
Definition bail {A} (message : string) : M A := fail (Bail message).
Definition then_ {A B} (m : M A) (k : A -> M B) : M B :=
  fun w => match m w with (Ok a, w) => k a w | (Err e, w) => (Err e, w) end.

Definition lift {A E} (wrap : E -> SessionError SE PE) (r : result A E) : M A :=
  fun w => (map_err wrap r, w).

(** Requests to the store and to the provider. *)
Definition read_store {A} (f : S -> result A SE) : M A :=
  fun w => (map_err StoreFailed (f (w_store w)), w).
Definition on_store {A} (f : S -> result A SE * S) : M A :=
  fun w => let '(r, s) := f (w_store w) in
           (map_err StoreFailed r, mk_world s (w_provider w) (w_calls w)).
Definition on_provider {A} (f : P -> result A PE * P) : M A :=
  fun w => let '(r, p) := f (w_provider w) in
           (map_err ProviderFailed r, mk_world (w_store w) p (w_calls w)).
Definition calling (c : Call) : M unit :=
  fun w => (Ok tt, mk_world (w_store w) (w_provider w) (w_calls w ++ [c])).

Notation "'let*' x := m 'in' k" := (then_ m (fun x => k))
  (at level 10, x binder, m at level 100, k at level 200).

Definition list_instances : M (list ObservedVm.t) := on_provider pr_list_instances.

Definition delete_instance (target : VerifiedMutationTarget.t) : M unit :=
  let* _ := calling (CallDelete target) in on_provider (pr_delete_instance target).

Definition terminal_matches (binding : VmBinding.t) : M bool :=
  let* state := read_store (st_lifecycle_state (VmBinding.intent binding)) in
  pure (match state with
        | Terminal last_generation => bool_decide (last_generation = VmBinding.generation binding)
        | _ => false
        end).

(** Up to [attempts] looks at the provider. *)
Fixpoint recover_attempts (attempts : nat) (desired : DesiredVm.t) (fence : CreateDispatchFence.t)
    : M VmBinding.t :=
  match attempts with
  | O => bail "dispatched Item 20 acceptance VM create did not converge within bounded recovery window"
  | Datatypes.S attempts' =>
      let* observed := list_instances in
      let* recovery := lift DispatchFailed (recover_dispatched_create fence observed) in
      match recovery with
      | AwaitProvider => recover_attempts attempts' desired fence
      | Recovered recovered =>
          let binding := RecoveredCreate.binding recovered in
          let* _ := on_store (st_compare_and_swap (DesiredVm.intent desired) None (Some binding)) in
          pure binding
      end
  end.

Definition recover_create_binding (desired : DesiredVm.t) (generation : Generation.t) : M VmBinding.t :=
  let* fence := lift DispatchFailed
    (create_dispatch_fence_for_recovery (DesiredVm.intent desired) generation desired) in
  recover_attempts CREATE_RECOVERY_ATTEMPTS desired fence.

Definition dispatch_create (desired : DesiredVm.t) (user_data_b64 : string)
    (prepared_generation : option Generation.t) : M VmBinding.t :=
  let* observed := list_instances in
  let* reconcile := lift LifecycleFailed (plan_present None observed desired None) in
  match reconcile with
  | Create p =>
      let* fence := lift DispatchFailed (create_dispatch_fence p desired) in
      let* generation := match prepared_generation with
                         | Some generation => pure generation
                         | None => on_store (st_prepare_create (DesiredVm.intent desired))
                         end in
      if negb (bool_decide (generation = CreateDispatchFence.generation fence))
      then bail "durable Item 20 create generation does not match provider-neutral create plan"
      else
        let* _ := on_store (st_mark_create_dispatched (DesiredVm.intent desired) generation) in
        let* _ := calling (CallCreate p) in
        fun w =>
          match on_provider (pr_create_instance p acceptance_spec user_data_b64) w with
          | (Err _, w) =>
              bail "Item 20 acceptance VM create dispatch outcome is ambiguous; retry the exact admitted session for durable recovery" w
          | (Ok _, w) => recover_create_binding desired generation w
          end
  | _ => bail "unbound Item 20 intent is not eligible for exactly one create"
  end.

Definition open_desired (desired : DesiredVm.t) (user_data_b64 : string) : M OpenItem20Session :=
  let* state := read_store (st_lifecycle_state (DesiredVm.intent desired)) in
  match state with
  | Empty =>
      let* binding := dispatch_create desired user_data_b64 None in
      pure (mk_open binding OriginCreated)
  | CreatePrepared generation =>
      let* binding := dispatch_create desired user_data_b64 (Some generation) in
      pure (mk_open binding OriginCreated)
  | CreateDispatched generation =>
      let* binding := recover_create_binding desired generation in
      pure (mk_open binding OriginRecovered)
  | Bound binding =>
      let* observed := list_instances in
      let* reconcile := lift LifecycleFailed
        (plan_present (Some binding) observed desired (Some (VmBinding.generation binding))) in
      match reconcile with
      | PlanNoop _ => pure (mk_open binding OriginExisting)
      | Reconfigure _ => bail "bound Item 20 acceptance VM specification drifted"
      | Create _ => bail "bound Item 20 acceptance state unexpectedly planned another create"
      end
  | DeletePrepared _ | DeleteDispatched _ =>
      bail "Item 20 acceptance-session cleanup is already in progress"
  | Terminal _ => bail "terminal Item 20 acceptance intent cannot be reused"
  end.

Definition open_item20_session (identity : Item20SessionIdentity) (user_data_b64 : string)
    : M OpenItem20Session :=
  let* desired := lift ValueFailed (desired_vm identity) in open_desired desired user_data_b64.

Definition verified_item20_target (identity : Item20SessionIdentity) (binding : VmBinding.t)
    : M VerifiedMutationTarget.t :=
  let* desired := lift ValueFailed (desired_vm identity) in
  if negb (bool_decide (VmBinding.intent binding = DesiredVm.intent desired))
  then bail "Item 20 binding does not match the admitted session identity"
  else
    let* observed := list_instances in
    let* reconcile := lift LifecycleFailed
      (plan_present (Some binding) observed desired (Some (VmBinding.generation binding))) in
    match reconcile with
    | PlanNoop target => pure target
    | Reconfigure _ => bail "Item 20 acceptance VM specification drifted before target resolution"
    | Create _ => bail "bound Item 20 acceptance VM unexpectedly resolved as create"
    end.

Definition verified_item20_endpoint (identity : Item20SessionIdentity) (binding : VmBinding.t) : M Z :=
  let* target := verified_item20_target identity binding in
  on_provider (pr_instance_ipv4 target).

(** Up to [attempts] looks for the machine to be gone. *)
Fixpoint confirm_attempts (attempts : nat) (binding : VmBinding.t) : M unit :=
  match attempts with
  | O => bail "exact Item 20 acceptance VM deletion was not confirmed within bounded window"
  | Datatypes.S attempts' =>
      let* observed := list_instances in
      match authorize_mutation binding observed (VmBinding.generation binding) MDelete with
      | Err LifecycleError.ProviderResourceNotFound => pure tt
      | Ok _ => confirm_attempts attempts' binding
      | Err error => fail (LifecycleFailed error)
      end
  end.

Definition confirm_provider_deleted (binding : VmBinding.t) : M unit :=
  confirm_attempts DELETE_CONFIRM_ATTEMPTS binding.

Definition resolve_delete_target (binding : VmBinding.t) : M VerifiedMutationTarget.t :=
  let* observed := list_instances in
  lift LifecycleFailed (authorize_mutation binding observed (VmBinding.generation binding) MDelete).

Definition require_terminal (binding : VmBinding.t) (message : string) : M unit :=
  let* matches := terminal_matches binding in
  if negb matches then bail message else pure tt.

Definition clear_binding (binding : VmBinding.t) : M unit :=
  on_store (st_compare_and_swap (VmBinding.intent binding) (Some binding) None).

Definition delete_bound (binding : VmBinding.t) (already_prepared already_dispatched : bool) : M unit :=
  let* target := resolve_delete_target binding in
  let* _ := if negb already_prepared
            then on_store (st_prepare_delete (VmBinding.intent binding) binding) else pure tt in
  let* _ := if negb already_dispatched
            then on_store (st_mark_delete_dispatched (VmBinding.intent binding) binding) else pure tt in
  let* _ := delete_instance target in
  let* _ := confirm_provider_deleted binding in
  let* _ := clear_binding binding in
  require_terminal binding
    "Item 20 durable lifecycle did not reach terminal after confirmed provider delete".

Definition recover_dispatched_delete (binding : VmBinding.t) : M unit :=
  let* observed := list_instances in
  let* _ :=
    match authorize_mutation binding observed (VmBinding.generation binding) MDelete with
    | Err LifecycleError.ProviderResourceNotFound => clear_binding binding
    | Ok target =>
        let* _ := delete_instance target in
        let* _ := confirm_provider_deleted binding in
        clear_binding binding
    | Err error => fail (LifecycleFailed error)
    end in
  require_terminal binding "Item 20 durable lifecycle did not reach terminal during delete recovery".

Definition close_desired (desired : DesiredVm.t) : M SessionCloseOutcome :=
  let* state := read_store (st_lifecycle_state (DesiredVm.intent desired)) in
  match state with
  | Empty => pure NoResourceCreated
  | CreatePrepared _ =>
      bail "Item 20 create was prepared but never dispatch-fenced; retry open before close"
  | CreateDispatched generation =>
      let* binding := recover_create_binding desired generation in
      let* _ := delete_bound binding false false in
      pure DeletedAndTerminal
  | Bound binding => let* _ := delete_bound binding false false in pure DeletedAndTerminal
  | DeletePrepared binding => let* _ := delete_bound binding true false in pure DeletedAndTerminal
  | DeleteDispatched binding => let* _ := recover_dispatched_delete binding in pure DeletedAndTerminal
  | Terminal _ => pure AlreadyTerminal
  end.

Definition close_item20_session (identity : Item20SessionIdentity) : M SessionCloseOutcome :=
  let* desired := lift ValueFailed (desired_vm identity) in close_desired desired.
End Sessions.
Arguments World : clear implicits.

(** ** The ledger as the store *)

(** [impl Item20LifecycleStore for DurableGitHubVmBindingStore] *)
#[export] Instance ledger_store {W} `{!DeploymentBackend W} `{UuidText} (others : Others W)
    (store : BindingStore) : LifecycleStore W BindingStoreError.t := {
  st_lifecycle_state := lifecycle_state store;
  st_prepare_create := prepare_create others store;
  st_mark_create_dispatched := mark_create_dispatched others store;
  st_prepare_delete := prepare_delete others store;
  st_mark_delete_dispatched := mark_delete_dispatched others store;
  st_compare_and_swap := compare_and_swap others store;
}.
