(* ===== verification/SessionTheorems.v ===== *)
(** * Sessions change the provider only behind the ledger's fences *)

From stdpp Require Import base gmap strings list fin_maps.
From Stdlib Require Import ZArith Lia Ascii String.
From S2P Require Import Prelude Text Foundation ProviderLifecycle ProviderCreateDispatch.
From S2P Require Import BindingLedger VultrAdapter SessionLifecycle.
Local Open Scope string_scope.
Local Open Scope Z_scope.

Section Sessions.
Context {S P SE PE : Type} `{!LifecycleStore S SE} `{!AcceptanceProvider P PE}.
Implicit Types (w : World S P).
Local Abbreviation Comp := (@M S P SE PE).

Lemma then_inv {A B} (m : Comp A) (k : A -> Comp B) w r w' :
  then_ m k w = (r, w') ->
  (exists e, m w = (Err e, w') /\ r = Err e) \/ exists a w1, m w = (Ok a, w1) /\ k a w1 = (r, w').
Proof.
  unfold then_. destruct (m w) as [[a|e] w1]; [right; eauto|]. intros [= <- <-]. left. eauto.
Qed.

(** A computation that asks for no change at the provider. *)
Definition silent {A} (m : Comp A) : Prop := forall w r w', m w = (r, w') -> w_calls w' = w_calls w.

Lemma silent_then {A B} (m : Comp A) (k : A -> Comp B) :
  silent m -> (forall a, silent (k a)) -> silent (then_ m k).
Proof.
  intros Hm Hk w r w' [(e & He & _)|(a & w1 & Ha & Hr)]%then_inv; [by eapply Hm|].
  by rewrite (Hk _ _ _ _ Hr), (Hm _ _ _ Ha).
Qed.

Lemma silent_pure {A} (a : A) : silent (pure a : Comp A).
Proof. by intros w r w' [= _ <-]. Qed.

Lemma silent_fail {A} e : silent (fail e : Comp A).
Proof. by intros w r w' [= _ <-]. Qed.

Lemma silent_bail {A} message : silent (bail message : Comp A).
Proof. apply silent_fail. Qed.

Lemma silent_lift {A E} (wrap : E -> SessionError SE PE) (r : result A E) : silent (lift wrap r : Comp A).
Proof. by intros w r' w' [= _ <-]. Qed.

Lemma silent_read {A} (f : S -> result A SE) : silent (read_store f : Comp A).
Proof. by intros w r' w' [= _ <-]. Qed.

Lemma silent_store {A} (f : S -> result A SE * S) : silent (on_store f : Comp A).
Proof. intros w r w'. unfold on_store. destruct (f (w_store w)). by intros [= _ <-]. Qed.

Lemma silent_provider {A} (f : P -> result A PE * P) : silent (on_provider f : Comp A).
Proof. intros w r w'. unfold on_provider. destruct (f (w_provider w)). by intros [= _ <-]. Qed.

Create HintDb silent.
#[local] Hint Resolve silent_pure silent_fail silent_bail silent_lift silent_read silent_store silent_provider : silent.

Ltac silently :=
  repeat match goal with
  | |- silent (then_ _ _) => apply silent_then; [|intros ?]
  | |- silent (match ?x with _ => _ end) => destruct x
  | |- silent (if ?x then _ else _) => destruct x
  | |- silent _ => solve [auto with silent]
  end.

Lemma silent_recover desired generation : silent (recover_create_binding desired generation).
Proof.
  unfold recover_create_binding. silently. generalize CREATE_RECOVERY_ATTEMPTS as n.
  induction n as [|n IH]; cbn [recover_attempts]; unfold list_instances; silently.
Qed.

Lemma silent_confirm binding : silent (confirm_provider_deleted binding).
Proof.
  unfold confirm_provider_deleted. generalize DELETE_CONFIRM_ATTEMPTS as n. induction n as [|n IH];
    cbn [confirm_attempts]; unfold list_instances; silently.
Qed.

Lemma silent_terminal binding message : silent (require_terminal binding message).
Proof. unfold require_terminal, terminal_matches. silently. Qed.

Lemma silent_clear binding : silent (clear_binding binding).
Proof. unfold clear_binding. silently. Qed.

(** ** Opening *)

(** The fence was passed for the generation of the plan. *)
Definition create_fenced (intent : OwnershipIntent.t) (p : PlannedCreate.t) : Prop :=
  PlannedCreate.intent p = intent
  /\ exists s s', st_mark_create_dispatched intent (PlannedCreate.generation p) s = (Ok tt, s').

Lemma dispatch_create_calls desired user_data prepared w r w' :
  dispatch_create desired user_data prepared w = (r, w') ->
  w_calls w' = w_calls w
  \/ exists p, w_calls w' = (w_calls w ++ [CallCreate p])%list /\ create_fenced (DesiredVm.intent desired) p.
Proof.
  unfold dispatch_create.
  intros [(e & He & _)|(observed & w1 & H1 & H)]%then_inv; [left; by eapply silent_provider|].
  apply silent_provider in H1. rewrite <- H1. clear H1.
  apply then_inv in H as [(e & He & _)|(plan & w2 & H2 & H)]; [left; by eapply silent_lift|].
  apply silent_lift in H2. rewrite <- H2. clear H2.
  destruct plan as [p| |]; [|left; by eapply silent_bail|left; by eapply silent_bail].
  apply then_inv in H as [(e & He & _)|(fence & w3 & H3 & H)]; [left; by eapply silent_lift|].
  pose proof (silent_lift _ _ _ _ _ H3) as Hs. rewrite <- Hs. clear Hs.
  injection H3 as Hfence _. apply map_err_Ok in Hfence.
  apply then_inv in H as [(e & He & _)|(generation & w4 & H4 & H)].
  { left. destruct prepared; [by eapply silent_pure|by eapply silent_store]. }
  assert (w_calls w4 = w_calls w3) as <- by
    (destruct prepared; [by eapply silent_pure|by eapply silent_store]). clear H4.
  case_bool_decide as Hg; cbn [negb] in H; [|left; by eapply silent_bail].
  apply then_inv in H as [(e & He & _)|([] & w5 & H5 & H)]; [left; by eapply silent_store|].
  pose proof (silent_store _ _ _ _ H5) as Hs. rewrite <- Hs. right. exists p.
  apply then_inv in H as [(e & He & _)|([] & w6 & H6 & H)]; [done|]. injection H6 as <-.
  assert (create_fenced (DesiredVm.intent desired) p) as Hcf.
  { unfold create_dispatch_fence, create_dispatch_fence_for_recovery in Hfence.
    do 2 (case_bool_decide; [|done]). cbn [negb] in Hfence. injection Hfence as <-. split; [done|].
    unfold on_store in H5. cbn [CreateDispatchFence.generation] in Hg. rewrite <- Hg.
    destruct (st_mark_create_dispatched _ _ _) as [[[]|] s'] eqn:Hm; [|done]. eauto. }
  split; [|done]. destruct (on_provider _ _) as [[vm|e] w7] eqn:H7.
  - pose proof (silent_provider _ _ _ _ H7) as Hs7. apply silent_recover in H. by rewrite H, Hs7.
  - pose proof (silent_provider _ _ _ _ H7) as Hs7. injection H as _ <-. by rewrite Hs7.
Qed.

Lemma open_desired_calls desired user_data w r w' :
  open_desired desired user_data w = (r, w') ->
  w_calls w' = w_calls w
  \/ exists p, w_calls w' = (w_calls w ++ [CallCreate p])%list /\ create_fenced (DesiredVm.intent desired) p.
Proof.
  unfold open_desired.
  intros [(e & He & _)|(state & w2 & H2 & H)]%then_inv; [left; by eapply silent_read|].
  apply silent_read in H2. rewrite <- H2. clear H2.
  assert (forall prepared, then_ (dispatch_create desired user_data prepared)
      (fun binding => pure (mk_open binding OriginCreated)) w2 = (r, w') ->
    w_calls w' = w_calls w2 \/ exists p, w_calls w' = (w_calls w2 ++ [CallCreate p])%list
      /\ create_fenced (DesiredVm.intent desired) p) as Hcreate.
  { intros prepared [(e & He & _)|(b & w3 & H3 & H4)]%then_inv.
    - by apply dispatch_create_calls in He.
    - injection H4 as _ <-. by apply dispatch_create_calls in H3. }
  destruct state as [|g|g|b|b|b|g]; [by eapply Hcreate|by eapply Hcreate|..]; left;
    match type of H with ?m w2 = _ => assert (silent m) as Hq end; try (by eapply Hq); silently.
  - apply silent_recover.
  - unfold list_instances. silently.
Qed.

(** A session creates a machine only behind the fence: opening one sends the
    provider at most one create request, and none before the ledger has told this
    operator that it dispatched the creation of exactly this plan, whatever the
    store and the provider answer. *)
Theorem open_creates_behind_the_fence identity user_data w r w' :
  open_item20_session identity user_data w = (r, w') ->
  w_calls w' = w_calls w
  \/ exists desired p, desired_vm identity = Ok desired
     /\ w_calls w' = (w_calls w ++ [CallCreate p])%list /\ create_fenced (DesiredVm.intent desired) p.
Proof.
  unfold open_item20_session.
  intros [(e & He & _)|(desired & w1 & H1 & H)]%then_inv; [left; by eapply silent_lift|].
  injection H1 as Hd <-. apply map_err_Ok in Hd.
  apply open_desired_calls in H as [?|(p & ? & ?)]; [by left|]. right. by exists desired, p.
Qed.

(** ** Closing *)

(** The state of the ledger for a session, as a run that starts in [w] reads it. *)
Definition ledger_says (desired : DesiredVm.t) w (state : AcceptanceVmLifecycleState) : Prop :=
  st_lifecycle_state (DesiredVm.intent desired) (w_store w) = Ok state.

(** One list of the machines after another was asked for. *)
Inductive looked : World S P -> World S P -> Prop :=
| looked_here w : looked w w
| looked_on w observed w1 w2 :
    (list_instances : Comp _) w = (Ok observed, w1) -> looked w1 w2 -> looked w w2.

(** The machine a run deletes, known in [w1]: the one the ledger binds, or the one
    it has accepted as the outcome of a dispatched creation that was looked for. *)
Definition bound_machine (desired : DesiredVm.t) w (binding : VmBinding.t) w1 : Prop :=
  (w1 = w /\ (ledger_says desired w (Bound binding) \/ ledger_says desired w (DeletePrepared binding)
              \/ ledger_says desired w (DeleteDispatched binding)))
  \/ exists generation w0, ledger_says desired w (CreateDispatched generation) /\ looked w w0
     /\ (on_store (st_compare_and_swap (DesiredVm.intent desired) None (Some binding)) : Comp unit) w0
        = (Ok tt, w1).

(** From [w2] to [w3] the ledger has accepted this run's preparation and dispatch
    of the deletion, less what an earlier run has recorded. *)
Definition delete_fenced (desired : DesiredVm.t) w (binding : VmBinding.t) w2 w3 : Prop :=
  (ledger_says desired w (DeleteDispatched binding) /\ w3 = w2)
  \/ exists wp,
     ((ledger_says desired w (DeletePrepared binding) /\ wp = w2)
      \/ (on_store (st_prepare_delete (VmBinding.intent binding) binding) : Comp unit) w2 = (Ok tt, wp))
     /\ (on_store (st_mark_delete_dispatched (VmBinding.intent binding) binding) : Comp unit) wp
        = (Ok tt, w3).

(** The run asks for the deletion of [target] and is answered [answer] in [w4]: the
    target is what the bound machine is in the list the provider gave, under exactly
    the bound ownership, and the request is sent behind the fence. *)
Definition deletion (desired : DesiredVm.t) w (binding : VmBinding.t) (target : VerifiedMutationTarget.t)
    (answer : result unit (SessionError SE PE)) w4 : Prop :=
  exists w1 observed w2 w3, bound_machine desired w binding w1
    /\ (list_instances : Comp _) w1 = (Ok observed, w2)
    /\ authorize_mutation binding observed (VmBinding.generation binding) MDelete = Ok target
    /\ delete_fenced desired w binding w2 w3
    /\ (delete_instance target : Comp unit) w3 = (answer, w4).

(** From [w5] on the provider lists the machines without the bound one, the ledger
    lets go of it, and is terminal in [w']. *)
Definition vanished (binding : VmBinding.t) w5 w' : Prop :=
  exists observed w6, (list_instances : Comp _) w5 = (Ok observed, w6)
    /\ authorize_mutation binding observed (VmBinding.generation binding) MDelete
       = Err LifecycleError.ProviderResourceNotFound
    /\ (clear_binding binding : Comp unit) w6 = (Ok tt, w')
    /\ st_lifecycle_state (VmBinding.intent binding) (w_store w')
       = Ok (Terminal (VmBinding.generation binding)).

Lemma require_terminal_Ok binding message w w' :
  (require_terminal binding message : Comp unit) w = (Ok tt, w') ->
  w' = w /\ st_lifecycle_state (VmBinding.intent binding) (w_store w')
  = Ok (Terminal (VmBinding.generation binding)).
Proof.
  unfold require_terminal, terminal_matches, then_, read_store, pure, bail, fail.
  destruct (st_lifecycle_state _ (w_store w)) as [[]|] eqn:Hst; try done. cbn.
  case_bool_decide; [|done]. intros [= <-]. by subst.
Qed.

Lemma recover_Ok desired generation w binding w1 :
  (recover_create_binding desired generation : Comp _) w = (Ok binding, w1) ->
  exists w0, looked w w0
    /\ (on_store (st_compare_and_swap (DesiredVm.intent desired) None (Some binding)) : Comp unit) w0
       = (Ok tt, w1).
Proof.
  unfold recover_create_binding. intros [(e & _ & [=])|(fence & w2 & [= _ <-] & H)]%then_inv.
  revert w H. generalize CREATE_RECOVERY_ATTEMPTS as n. intros n.
  induction n as [|n IH]; intros w; cbn [recover_attempts]; [done|].
  intros [(e & _ & [=])|(observed & w2 & H2 & H)]%then_inv.
  apply then_inv in H as [(e & _ & [=])|(recovery & w3 & [= _ <-] & H)].
  destruct recovery as [|recovered].
  - apply IH in H as (w0 & Hl & Hs). exists w0. split; [by eapply looked_on|done].
  - apply then_inv in H as [(e & _ & [=])|([] & w4 & H4 & [= <- <-])].
    exists w2. split; [by eapply looked_on; [|constructor]|done].
Qed.

Lemma confirm_Ok binding w w' :
  (confirm_provider_deleted binding : Comp unit) w = (Ok tt, w') ->
  exists w5 observed, looked w w5 /\ (list_instances : Comp _) w5 = (Ok observed, w')
    /\ authorize_mutation binding observed (VmBinding.generation binding) MDelete
       = Err LifecycleError.ProviderResourceNotFound.
Proof.
  unfold confirm_provider_deleted. generalize DELETE_CONFIRM_ATTEMPTS as n. intros n. revert w.
  induction n as [|n IH]; intros w; cbn [confirm_attempts]; [done|].
  intros [(e & _ & [=])|(observed & w1 & H1 & H)]%then_inv.
  destruct (authorize_mutation _ _ _ _) as [|[]] eqn:Ha; try done.
  - apply IH in H as (w5 & o & Hl & ?). exists w5, o. split; [by eapply looked_on|done].
  - injection H as <-. exists w, observed. split; [constructor|done].
Qed.

(** Letting go of a machine that a list does not have. *)
Lemma vanished_by binding message w observed w6 w' :
  (list_instances : Comp _) w = (Ok observed, w6) ->
  authorize_mutation binding observed (VmBinding.generation binding) MDelete
    = Err LifecycleError.ProviderResourceNotFound ->
  (then_ (clear_binding binding) (fun _ => require_terminal binding message) : Comp unit) w6 = (Ok tt, w') ->
  vanished binding w w'.
Proof.
  intros Hl Ha [(e & _ & [=])|([] & w7 & H7 & [-> Ht]%require_terminal_Ok)]%then_inv.
  by exists observed, w6.
Qed.

(** The deletion proper: one request, then confirmation and the end of the ledger. *)
Lemma delete_tail binding target message w r w' :
  then_ (delete_instance target) (fun _ => then_ (confirm_provider_deleted binding) (fun _ =>
    then_ (clear_binding binding) (fun _ => require_terminal binding message))) w = (r, w') ->
  exists answer w4, (delete_instance target : Comp unit) w = (answer, w4)
    /\ w_calls w' = (w_calls w ++ [CallDelete target])%list
    /\ (r = Ok tt -> answer = Ok tt /\ exists w5, looked w4 w5 /\ vanished binding w5 w').
Proof.
  intros H. assert (silent (then_ (confirm_provider_deleted binding) (fun _ =>
    then_ (clear_binding binding) (fun _ => require_terminal binding message)))) as Htail.
  { apply silent_then; [apply silent_confirm|intros _].
    apply silent_then; [apply silent_clear|intros _; apply silent_terminal]. }
  assert (forall r1 w1, (delete_instance target : Comp unit) w = (r1, w1) ->
    w_calls w1 = (w_calls w ++ [CallDelete target])%list) as Hcall.
  { intros r1 w1 [(e & [=] & _)|(u & w0 & [= <- <-] & Hd)]%then_inv. by apply silent_provider in Hd. }
  apply then_inv in H as [(e & He & ->)|([] & w1 & H1 & H)];
    [eexists _, w'; split; [exact He|]; split; [by eapply Hcall|done]|].
  eexists _, w1. split; [exact H1|]. split; [by rewrite (Htail _ _ _ H), (Hcall _ _ H1)|].
  intros ->. split; [done|]. apply then_inv in H as [(e & _ & [=])|([] & w2 & H2 & H)].
  apply confirm_Ok in H2 as (w5 & observed & Hl & Ho & Ha). exists w5. split; [done|].
  by eapply vanished_by.
Qed.

(** How the part of closing that deletes may go, in a run that starts in [w]. *)
Definition deletes (desired : DesiredVm.t) w (r : result unit (SessionError SE PE)) w' : Prop :=
  (w_calls w' = w_calls w /\ (r = Ok tt -> exists binding,
     ledger_says desired w (DeleteDispatched binding) /\ vanished binding w w'))
  \/ exists binding target answer w4, deletion desired w binding target answer w4
     /\ w_calls w' = (w_calls w ++ [CallDelete target])%list
     /\ (r = Ok tt -> answer = Ok tt /\ exists w5, looked w4 w5 /\ vanished binding w5 w').

Lemma deletes_failed desired w e w' : w_calls w' = w_calls w -> deletes desired w (Err e) w'.
Proof. by left. Qed.

Lemma delete_bound_spec desired binding prepared w w1 r w' :
  bound_machine desired w binding w1 -> w_calls w1 = w_calls w ->
  (prepared = true -> ledger_says desired w (DeletePrepared binding)) ->
  delete_bound binding prepared false w1 = (r, w') -> deletes desired w r w'.
Proof.
  intros Hb Hw1 Hprep. unfold delete_bound. cbn [negb].
  intros [(e & He & ->)|(target & w2 & H2 & H)]%then_inv.
  { apply deletes_failed. rewrite <- Hw1. revert He.
    apply (silent_then list_instances); [apply silent_provider|]. intros; apply silent_lift. }
  apply then_inv in H2 as [(e & _ & [=])|(observed & w2' & Ho & Ha)].
  injection Ha as Ha ->. apply map_err_Ok in Ha. pose proof (silent_provider _ _ _ _ Ho) as Hw2.
  apply then_inv in H as [(e & He & ->)|([] & wp & Hp & H)].
  { apply deletes_failed. rewrite <- Hw1, <- Hw2. revert He.
    destruct prepared; [apply silent_pure|apply silent_store]. }
  assert (w_calls wp = w_calls w2) as Hwp by
    (revert Hp; destruct prepared; [apply silent_pure|apply silent_store]).
  apply then_inv in H as [(e & He & ->)|([] & w3 & H3 & H)].
  { apply deletes_failed. rewrite <- Hw1, <- Hw2, <- Hwp. by eapply silent_store. }
  pose proof (silent_store _ _ _ _ H3) as Hw3. apply delete_tail in H as (answer & w4 & H4 & Hcalls & Hok).
  right. exists binding, target, answer, w4. rewrite <- Hw1, <- Hw2, <- Hwp, <- Hw3. split; [|done].
  exists w1, observed, w2, w3. split_and!; try done. right. exists wp. split; [|done].
  destruct prepared; [left|by right]. injection Hp as <-. auto.
Qed.

Lemma recover_delete_spec desired binding w r w' :
  ledger_says desired w (DeleteDispatched binding) ->
  recover_dispatched_delete binding w = (r, w') -> deletes desired w r w'.
Proof.
  intros Hst. unfold recover_dispatched_delete.
  intros [(e & He & ->)|(observed & w1 & H1 & H)]%then_inv; [apply deletes_failed; by eapply silent_provider|].
  pose proof (silent_provider _ _ _ _ H1) as Hw1.
  destruct (authorize_mutation _ _ _ _) as [target|error] eqn:Ha.
  - assert (then_ (delete_instance target) (fun _ => then_ (confirm_provider_deleted binding) (fun _ =>
      then_ (clear_binding binding) (fun _ => require_terminal binding
        "Item 20 durable lifecycle did not reach terminal during delete recovery"))) w1 = (r, w')) as Ht.
    { rewrite <- H. unfold then_. destruct (delete_instance target w1) as [[]]; [|done].
      destruct (confirm_provider_deleted binding w0) as [[]]; [|done]. done. }
    apply delete_tail in Ht as (answer & w4 & H4 & Hcalls & Hok). right.
    exists binding, target, answer, w4. rewrite <- Hw1. split; [|done].
    exists w, observed, w1, w1. split_and!; try done; [left; auto|by left].
  - assert (error = LifecycleError.ProviderResourceNotFound \/ exists e, (r, w') = (Err e, w1)) as [->|[e [= -> ->]]].
    { destruct error; auto; right; cbn in H; unfold then_, fail in H; eauto. }
    2:{ by apply deletes_failed. }
    assert (silent (then_ (clear_binding binding) (fun _ => require_terminal binding
      "Item 20 durable lifecycle did not reach terminal during delete recovery"))) as Hs.
    { apply silent_then; [apply silent_clear|intros; apply silent_terminal]. }
    left. split; [by rewrite (Hs _ _ _ H)|]. intros ->. exists binding. split; [done|]. by eapply vanished_by.
Qed.

(** How closing may go: the calls it makes, and what it has seen when it reports the
    machine deleted. *)
Definition closes (desired : DesiredVm.t) w (r : result SessionCloseOutcome (SessionError SE PE)) w' : Prop :=
  (w_calls w' = w_calls w /\ (r = Ok DeletedAndTerminal -> exists binding,
     ledger_says desired w (DeleteDispatched binding) /\ vanished binding w w'))
  \/ exists binding target answer w4, deletion desired w binding target answer w4
     /\ w_calls w' = (w_calls w ++ [CallDelete target])%list
     /\ (r = Ok DeletedAndTerminal -> answer = Ok tt /\ exists w5, looked w4 w5 /\ vanished binding w5 w').

Lemma closes_by desired w (m : Comp unit) w1 r w' :
  (forall r1 w2, m w1 = (r1, w2) -> deletes desired w r1 w2) ->
  then_ m (fun _ => pure DeletedAndTerminal) w1 = (r, w') -> closes desired w r w'.
Proof.
  intros Hm [(e & He & ->)|([] & w2 & H2 & [= <- <-])]%then_inv.
  - destruct (Hm _ _ He) as [[Hc _]|(b & t & answer & w4 & Hd & Hc & _)]; [by left|].
    right. by exists b, t, answer, w4.
  - destruct (Hm _ _ H2) as [[Hc Hok]|(b & t & answer & w4 & Hd & Hc & Hok)]; [left; auto|].
    right. exists b, t, answer, w4. auto.
Qed.

Lemma close_desired_calls desired w r w' : close_desired desired w = (r, w') -> closes desired w r w'.
Proof.
  unfold close_desired. intros [(e & He & ->)|(state & w2 & H2 & H)]%then_inv; [by left; split; [by eapply silent_read|]|].
  injection H2 as Hst <-. apply map_err_Ok in Hst.
  destruct state as [|g|g|b|b|b|g]; try (by injection H as <- <-; left).
  - apply then_inv in H as [(e & He & ->)|(b & w3 & H3 & H)]; [by left; split; [by eapply silent_recover|]|].
    eapply closes_by; [|exact H]. intros r1 w4. eapply delete_bound_spec; [|by eapply silent_recover|done].
    right. apply recover_Ok in H3 as (w0 & ? & ?). by exists g, w0.
  - eapply closes_by; [|exact H]. intros r1 w4. eapply delete_bound_spec; [left; auto|done|done].
  - eapply closes_by; [|exact H]. intros r1 w4. eapply delete_bound_spec; [left; auto|done|done].
  - eapply closes_by; [|exact H]. intros r1 w4. by eapply recover_delete_spec.
Qed.

(** C19: A session deletes only its own machine, and only behind the fence.  Closing
    either asks the provider for no change, or for one, a deletion: of the machine
    that the ledger bound in the state the run read (or that the ledger accepted in
    the run for a dispatched creation), found under exactly its ownership in a list
    the provider gave in the run, after the ledger accepted the dispatch of the
    deletion in the run, if it had not recorded it before.  A close that reports the
    machine deleted was later given a list without it, or had found the deletion
    dispatched and was given such a list at once; then the ledger accepted the end
    and was read as terminal in the state the run leaves. *)
Theorem close_deletes_behind_the_fence identity w r w' :
  close_item20_session identity w = (r, w') ->
  (w' = w /\ is_ok r = false) \/ exists desired, desired_vm identity = Ok desired /\ closes desired w r w'.
Proof.
  unfold close_item20_session. intros [(e & [= _ <-] & ->)|(desired & w1 & H1 & H)]%then_inv; [by left|].
  injection H1 as Hd <-. apply map_err_Ok in Hd. right. exists desired. split; [done|].
  by apply close_desired_calls.
Qed.
End Sessions.
