(* ===== verification/VultrClient.v ===== *)
(** * The Vultr client

    [apps/operator-cli/src/vultr_client.rs]: bounded requests to the provider, the
    listing page by page, and the public address of a verified machine.  The HTTP
    exchange, the JSON readers and base64 are parameters. *)

From stdpp Require Import base gmap strings list fin_maps.
From Stdlib Require Import ZArith Lia Ascii String.
From S2P Require Import Prelude Text NetText Foundation ProviderLifecycle ConfigJson VultrAdapter.
From S2P Require Import BindingLedger SessionLifecycle.
Local Open Scope string_scope.
Local Open Scope Z_scope.
Local Open Scope rust_scope.

Definition MAX_RESPONSE_BYTES : Z := 8 * 1024 * 1024.
Definition INSTANCE_PAGE_SIZE : nat := 500.
Definition MAX_INSTANCE_PAGES : nat := 20.
Definition MAX_CURSOR_BYTES : Z := 1024.
Definition MAX_USER_DATA_BYTES : Z := 32 * 1024.

Inductive VultrClientError :=
| AcceptanceScopeRequired
| InvalidUserData
| TargetVerificationFailed
| InvalidTransportEndpoint
| Transport
| ClientHttpStatus (status : Z)
| ResponseTooLarge
| InvalidClientResponse
| InvalidPagination
| PaginationLimitExceeded
| Adapter (e : VultrAdapterError).

Definition VultrClientError_fmt (e : VultrClientError) : string :=
  match e with
  | AcceptanceScopeRequired => "live Vultr client is restricted to acceptance scope"
  | InvalidUserData => "Vultr acceptance create user-data is invalid or unbounded"
  | TargetVerificationFailed =>
      "Vultr transport endpoint could not be tied to the exact verified provider target"
  | InvalidTransportEndpoint => "verified Vultr target has no acceptable public IPv4 endpoint"
  | Transport => "Vultr HTTP transport failed"
  | ClientHttpStatus status => "Vultr HTTP status " ++ u64_to_string status
  | ResponseTooLarge => "Vultr response exceeded bounded size"
  | InvalidClientResponse => "Vultr response shape is invalid"
  | InvalidPagination => "Vultr pagination metadata is invalid"
  | PaginationLimitExceeded => "Vultr instance listing exceeded bounded page count"
  | Adapter error => VultrAdapterError_fmt error
  end.

(** A page of the listing: its instances, and [meta.links.next] as far as it is there. *)
Record InstancesPage := mk_page {
  page_instances : list VultrInstanceDto;
  page_meta : option (option string);
}.

(** What the client uses of its libraries: the readers of responses and base64. *)
Class VultrCodec := {
  page_from_json : list Z -> option InstancesPage;
  created_from_json : list Z -> option VultrInstanceDto;
  standard_base64_decode : string -> option (list Z);
}.

(** An exchange: no response, or its status, announced length and body. *)
Inductive Exchange :=
| NoExchange
| Exchanged (status : Z) (content_length : option Z) (body : option (list Z)).

Class VultrHttp (P : Type) := exchange : VultrRequest -> list (string * string) -> P -> Exchange * P.

(** ** Transport *)

Definition read_bounded (content_length : option Z) (body : option (list Z))
    : result (list Z) VultrClientError :=
  if is_some_and content_length (fun n => MAX_RESPONSE_BYTES <? n) then Err ResponseTooLarge
  else
    let? bytes := ok_or body Transport in
    if MAX_RESPONSE_BYTES <? Z.of_nat (List.length bytes) then Err ResponseTooLarge else Ok bytes.

Definition query_ok (query : string * string) : bool :=
  let '(key, value) := query in
  (bool_decide (key = "per_page") || bool_decide (key = "cursor"))
  && negb (bool_decide (value = "")) && (len value <=? MAX_CURSOR_BYTES).

Definition is_get (m : VultrMethod) : bool := match m with Get => true | _ => false end.

Definition request_ok (request : VultrRequest) (query : list (string * string)) : bool :=
  starts_with "/v2/" (path request) && negb (contains ".." (path request))
  && negb (contains "?" (path request)) && negb (contains "#" (path request))
  && (is_get (method request) || bool_decide (query = []))
  && forallb query_ok query.

Section Client.
Context {P : Type} `{!VultrHttp P} `{!VultrCodec} `{UuidText}.

Definition execute_with_query (request : VultrRequest) (query : list (string * string)) (p : P)
    : result (list Z) VultrClientError * P :=
  if negb (request_ok request query) then (Err Transport, p)
  else
    match exchange request query p with
    | (NoExchange, p) => (Err Transport, p)
    | (Exchanged status content_length body, p) =>
        (if negb ((200 <=? status) && (status <? 300)) then Err (ClientHttpStatus status)
         else read_bounded content_length body, p)
    end.

Definition execute (request : VultrRequest) (p : P) : result (list Z) VultrClientError * P :=
  execute_with_query request [] p.

(** ** Operations *)

Definition require_acceptance (scope : LifecycleScope) : result unit VultrClientError :=
  if negb (bool_decide (scope = Acceptance)) then Err AcceptanceScopeRequired else Ok tt.

Definition decode_created_instance (body : list Z) : result ObservedVm.t VultrClientError :=
  let? instance := ok_or (created_from_json body) InvalidClientResponse in
  map_err Adapter (decode_instance instance).

Definition validate_user_data (user_data_b64 : string) : result unit VultrClientError :=
  if bool_decide (user_data_b64 = "") || (MAX_USER_DATA_BYTES * 2 <? len user_data_b64)
  then Err InvalidUserData
  else
    let? decoded := ok_or (standard_base64_decode user_data_b64) InvalidUserData in
    if bool_decide (decoded = []) || (MAX_USER_DATA_BYTES <? Z.of_nat (List.length decoded))
    then Err InvalidUserData
    else if negb (valid_utf8 decoded) then Err InvalidUserData
    else if negb (starts_with ("#cloud-config" ++ of_bytes [10]) (of_bytes decoded))
    then Err InvalidUserData
    else Ok tt.

Definition page_query (cursor : option string) : list (string * string) :=
  ("per_page", "500") :: match cursor with Some value => [("cursor", value)] | None => [] end.

Fixpoint list_from (pages : nat) (observed : list ObservedVm.t) (cursor : option string)
    (seen : gset string) (p : P) : result (list ObservedVm.t) VultrClientError * P :=
  match pages with
  | O => (Err PaginationLimitExceeded, p)
  | S pages' =>
      match execute_with_query list_instances_request (page_query cursor) p with
      | (Err e, p) => (Err e, p)
      | (Ok body, p) =>
          match page_from_json body with
          | None => (Err InvalidClientResponse, p)
          | Some page =>
              match map_err Adapter (try_collect (decode_instance <$> page_instances page)) with
              | Err e => (Err e, p)
              | Ok instances =>
                  let observed := (observed ++ instances)%list in
                  let next := default "" (default None (page_meta page)) in
                  if bool_decide (next = "") then
                    if (INSTANCE_PAGE_SIZE <=? List.length (page_instances page))%nat
                       && negb (is_some (page_meta page))
                    then (Err InvalidPagination, p) else (Ok observed, p)
                  else if (MAX_CURSOR_BYTES <? len next) || bool_decide (next ∈ seen)
                  then (Err InvalidPagination, p)
                  else list_from pages' observed (Some next) ({[next]} ∪ seen) p
              end
          end
      end
  end.

Definition client_list_instances (p : P) : result (list ObservedVm.t) VultrClientError * P :=
  list_from MAX_INSTANCE_PAGES [] None ∅ p.

Definition client_create_instance (plan : PlannedCreate.t) (spec : VultrVmSpec) (p : P)
    : result ObservedVm.t VultrClientError * P :=
  match require_acceptance (OwnershipIntent.scope (PlannedCreate.intent plan)) with
  | Err e => (Err e, p)
  | Ok _ =>
      let '(r, p) := execute (create_request plan spec) p in
      (let? body := r in decode_created_instance body, p)
  end.

Definition client_create_instance_with_user_data (plan : PlannedCreate.t) (spec : VultrVmSpec)
    (user_data_b64 : string) (p : P) : result ObservedVm.t VultrClientError * P :=
  match (let? _ := require_acceptance (OwnershipIntent.scope (PlannedCreate.intent plan)) in
         validate_user_data user_data_b64) with
  | Err e => (Err e, p)
  | Ok _ =>
      let '(r, p) := execute (create_request_with_user_data plan spec user_data_b64) p in
      (let? body := r in decode_created_instance body, p)
  end.

(** An address is four octets. *)
Definition is_acceptable_public_ipv4 (octets : list Z) : bool :=
  match octets with
  | [a; b; c; d] =>
      let shared := (a =? 100) && ((64 <=? b) && (b <=? 127)) in
      let benchmarking := (a =? 198) && ((18 <=? b) && (b <=? 19)) in
      let unspecified := (a =? 0) && (b =? 0) && (c =? 0) && (d =? 0) in
      let loopback := a =? 127 in
      let private := (a =? 10) || ((a =? 172) && ((16 <=? b) && (b <=? 31)))
                     || ((a =? 192) && (b =? 168)) in
      let link_local := (a =? 169) && (b =? 254) in
      let multicast := (224 <=? a) && (a <=? 239) in
      let broadcast := (a =? 255) && (b =? 255) && (c =? 255) && (d =? 255) in
      let documentation := ((a =? 192) && (b =? 0) && (c =? 2))
                           || ((a =? 198) && (b =? 51) && (c =? 100))
                           || ((a =? 203) && (b =? 0) && (c =? 113)) in
      negb unspecified && negb loopback && negb private && negb link_local && negb multicast
      && negb broadcast && negb documentation && negb shared && negb benchmarking && (a <? 240)
  | _ => false
  end.

(** [str::parse::<Ipv4Addr>()] *)
Definition parse_ipv4 (s : string) : option (list Z) :=
  match read_ipv4 (bytes s) with Some (octets, []) => Some octets | _ => None end.

Definition endpoint_of (target : VerifiedMutationTarget.t) (body : list Z)
    : result (list Z) VultrClientError :=
  let? instance := ok_or (created_from_json body) InvalidClientResponse in
  let? observed := map_err Adapter (decode_instance instance) in
  let binding := VmBinding.mk (VerifiedMutationTarget.intent target)
                   (VerifiedMutationTarget.provider_id target)
                   (VerifiedMutationTarget.generation target) in
  let? _ := map_err (fun _ => TargetVerificationFailed)
              (authorize_mutation binding [observed] (VerifiedMutationTarget.generation target)
                 MReconfigure) in
  let? endpoint := ok_or (parse_ipv4 (dto_main_ip instance)) InvalidTransportEndpoint in
  if negb (is_acceptable_public_ipv4 endpoint) then Err InvalidTransportEndpoint else Ok endpoint.

Definition client_instance_ipv4 (target : VerifiedMutationTarget.t) (p : P)
    : result (list Z) VultrClientError * P :=
  match require_acceptance (OwnershipIntent.scope (VerifiedMutationTarget.intent target)) with
  | Err e => (Err e, p)
  | Ok _ =>
      let '(r, p) := execute (get_instance_request target) p in
      (let? body := r in endpoint_of target body, p)
  end.

Definition client_delete_instance (target : VerifiedMutationTarget.t) (p : P)
    : result unit VultrClientError * P :=
  match require_acceptance (OwnershipIntent.scope (VerifiedMutationTarget.intent target)) with
  | Err e => (Err e, p)
  | Ok _ =>
      let '(r, p) := execute (delete_request target) p in (let? _ := r in Ok tt, p)
  end.

(** The client is the provider of an acceptance session; an address is one number there. *)
Definition address_of (octets : list Z) : Z := fold_left (fun acc octet => acc * 256 + octet) octets 0.

Definition session_instance_ipv4 (target : VerifiedMutationTarget.t) (p : P)
    : result Z VultrClientError * P :=
  let '(r, p) := client_instance_ipv4 target p in (let? octets := r in Ok (address_of octets), p).

#[export] Instance client_provider : AcceptanceProvider P VultrClientError := {
  pr_list_instances := client_list_instances;
  pr_create_instance := client_create_instance_with_user_data;
  pr_instance_ipv4 := session_instance_ipv4;
  pr_delete_instance := client_delete_instance;
}.

(** ** The listing *)

Definition page_next (page : InstancesPage) : string := default "" (default None (page_meta page)).

(** One page: the request under [cursor], its answer, and the machines on it. *)
Definition page_at (cursor : option string) (p : P) (page : InstancesPage)
    (vms : list ObservedVm.t) (p' : P) : Prop :=
  exists body, execute_with_query list_instances_request (page_query cursor) p = (Ok body, p')
    /\ page_from_json body = Some page
    /\ try_collect (decode_instance <$> page_instances page) = Ok vms.

(** A whole listing: pages that follow each other's cursors up to one that names no other. *)
Inductive Listed : option string -> P -> list ObservedVm.t -> list string -> P -> Prop :=
| Listed_last cursor p page vms p' :
    page_at cursor p page vms p' ->
    page_next page = "" ->
    (page_meta page = None -> (List.length (page_instances page) < INSTANCE_PAGE_SIZE)%nat) ->
    Listed cursor p vms [] p'
| Listed_more cursor p page vms p' rest cursors p'' :
    page_at cursor p page vms p' ->
    page_next page <> "" -> len (page_next page) <= MAX_CURSOR_BYTES ->
    Listed (Some (page_next page)) p' rest cursors p'' ->
    Listed cursor p (vms ++ rest)%list (page_next page :: cursors) p''.

Lemma list_from_Listed pages observed cursor seen p vms p' :
  list_from pages observed cursor seen p = (Ok vms, p') ->
  exists rest cursors, vms = (observed ++ rest)%list /\ Listed cursor p rest cursors p'
    /\ NoDup cursors /\ Forall (fun c => c ∉ seen) cursors /\ (List.length cursors < pages)%nat.
Proof.
  revert observed cursor seen p.
  induction pages as [|pages IH]; intros observed cursor seen p; cbn [list_from]; [discriminate|].
  destruct (execute_with_query _ _ _) as [[body|] p1] eqn:He; [|discriminate].
  destruct (page_from_json body) as [page|] eqn:Hpage; [|discriminate].
  destruct (try_collect _) as [instances|] eqn:Hi; cbn [map_err]; [|discriminate].
  assert (page_at cursor p page instances p1) as Hat by (exists body; auto).
  change (default "" (default None (page_meta page))) with (page_next page).
  destruct (bool_decide_reflect (page_next page = "")) as [Hlast|Hmore].
  - destruct (_ && _) eqn:Hfull; [discriminate|]. intros [= <- <-].
    exists instances, []. split_and!; [done| |constructor|constructor|cbn; lia].
    econstructor; [exact Hat|done|]. intros Hmeta. rewrite Hmeta in Hfull. cbn [is_some negb] in Hfull.
    rewrite andb_true_r in Hfull. apply Nat.leb_gt in Hfull. done.
  - destruct (_ || _) eqn:Hbad; [discriminate|]. apply orb_false_iff in Hbad as [Hlen Hseen].
    apply Z.ltb_ge in Hlen. apply bool_decide_eq_false in Hseen.
    intros (rest & cursors & -> & Hrest & Hnd & Hall & Hn)%IH.
    exists (instances ++ rest)%list, (page_next page :: cursors).
    rewrite (assoc_L (++)%list). split_and!; [done|by econstructor| | |cbn; lia].
    + apply NoDup_cons. split; [|done]. intros Hin.
      rewrite Forall_forall in Hall. apply (Hall _ Hin). set_solver.
    + apply Forall_cons. split; [done|]. eapply Forall_impl; [exact Hall|]. set_solver.
Qed.

Lemma Listed_list_from cursor p rest cursors p' :
  Listed cursor p rest cursors p' ->
  forall pages observed seen, NoDup cursors -> Forall (fun c => c ∉ seen) cursors ->
    (List.length cursors < pages)%nat ->
    list_from pages observed cursor seen p = (Ok (observed ++ rest)%list, p').
Proof.
  induction 1 as [cursor p page vms p' Hat Hlast Hfull
                 |cursor p page vms p' rest cursors p'' Hat Hmore Hlen _ IH];
    intros [|pages] observed seen Hnd Hseen Hn; cbn [List.length] in Hn; try lia;
    destruct Hat as (body & He & Hpage & Hi); cbn [list_from]; rewrite He, Hpage, Hi;
    cbn [map_err]; change (default "" (default None (page_meta page))) with (page_next page).
  - rewrite bool_decide_eq_true_2 by done.
    destruct (page_meta page) as [meta|] eqn:Hmeta; cbn [is_some negb]; [by rewrite andb_false_r|].
    rewrite andb_true_r. specialize (Hfull eq_refl). by apply Nat.leb_gt in Hfull as ->.
  - apply NoDup_cons in Hnd as [Hnew Hnd]. apply Forall_cons in Hseen as [Hs Hseen].
    rewrite bool_decide_eq_false_2 by done.
    replace (MAX_CURSOR_BYTES <? len (page_next page)) with false by (symmetry; by apply Z.ltb_ge).
    rewrite bool_decide_eq_false_2 by done. cbn [orb].
    rewrite IH; [by rewrite (assoc_L (++)%list)|done| |lia].
    rewrite Forall_forall in Hseen |- *. intros c Hc. specialize (Hseen c Hc). set_solver.
Qed.

(** The client's listing succeeds exactly when the provider's pages, followed from the first by
    the cursor each names, end within twenty pages without repeating a cursor, with every machine
    on them readable and a full last page only if it says that there is no other; and then it is
    all the machines of all the pages, in their order. *)
Theorem vultr_listing_is_complete p vms p' :
  client_list_instances p = (Ok vms, p')
  <-> exists cursors, Listed None p vms cursors p' /\ NoDup cursors
        /\ (List.length cursors < MAX_INSTANCE_PAGES)%nat.
Proof.
  unfold client_list_instances. split.
  - intros (rest & cursors & -> & Hl & Hnd & _ & Hn)%list_from_Listed. by exists cursors.
  - intros (cursors & Hl & Hnd & Hn). eapply (Listed_list_from _ _ _ _ _ Hl _ []); [done| |done].
    rewrite Forall_forall. set_solver.
Qed.

End Client.

(** ** The public address *)

(** An address block: its base and the bits of its prefix. *)
Definition in_block (address : Z) (block : list Z * Z) : bool :=
  let '(base, prefix) := block in
  Z.shiftr address (32 - prefix) =? Z.shiftr (address_of base) (32 - prefix).

Definition RESERVED_BLOCKS : list (list Z * Z) :=
  [([0; 0; 0; 0], 32); ([127; 0; 0; 0], 8); ([10; 0; 0; 0], 8); ([172; 16; 0; 0], 12);
   ([192; 168; 0; 0], 16); ([169; 254; 0; 0], 16); ([224; 0; 0; 0], 4); ([255; 255; 255; 255], 32);
   ([192; 0; 2; 0], 24); ([198; 51; 100; 0], 24); ([203; 0; 113; 0], 24); ([100; 64; 0; 0], 10);
   ([198; 18; 0; 0], 15); ([240; 0; 0; 0], 4)].

Section Octets.
Variables a b c d : Z.
Hypothesis Hoctets : Forall (fun octet => 0 <= octet < 256) [a; b; c; d].

Lemma in_block_spec base prefix size quotient (test : bool) :
  0 <= prefix <= 32 -> 2 ^ (32 - prefix) = size -> address_of base / size = quotient ->
  (((a * 256 + b) * 256 + c) * 256 + d) / size = quotient <-> test = true ->
  in_block (address_of [a; b; c; d]) (base, prefix) = test.
Proof.
  intros Hp <- <- Ht. unfold in_block. rewrite !Z.shiftr_div_pow2 by lia.
  apply eq_bool_prop_intro. rewrite !Is_true_true, Z.eqb_eq. exact Ht.
Qed.

Ltac block base prefix test :=
  let size := eval cbv in (2 ^ (32 - prefix)) in
  let quotient := eval cbv in (address_of base / size) in
  rewrite (in_block_spec base prefix size quotient test)
    by first [lia | reflexivity | (Z.to_euclidean_division_equations; lia)].

(** The tests on the octets are membership in the reserved address blocks. *)
Theorem acceptable_addresses :
  is_acceptable_public_ipv4 [a; b; c; d]
  = negb (existsb (in_block (address_of [a; b; c; d])) RESERVED_BLOCKS).
Proof.
  revert Hoctets. rewrite !Forall_cons. intros (Ha & Hb & Hc & Hd & _).
  unfold RESERVED_BLOCKS. cbn [existsb].
  block [0; 0; 0; 0] 32 ((a =? 0) && (b =? 0) && (c =? 0) && (d =? 0)).
  block [127; 0; 0; 0] 8 (a =? 127).
  block [10; 0; 0; 0] 8 (a =? 10).
  block [172; 16; 0; 0] 12 ((a =? 172) && ((16 <=? b) && (b <=? 31))).
  block [192; 168; 0; 0] 16 ((a =? 192) && (b =? 168)).
  block [169; 254; 0; 0] 16 ((a =? 169) && (b =? 254)).
  block [224; 0; 0; 0] 4 ((224 <=? a) && (a <=? 239)).
  block [255; 255; 255; 255] 32 ((a =? 255) && (b =? 255) && (c =? 255) && (d =? 255)).
  block [192; 0; 2; 0] 24 ((a =? 192) && (b =? 0) && (c =? 2)).
  block [198; 51; 100; 0] 24 ((a =? 198) && (b =? 51) && (c =? 100)).
  block [203; 0; 113; 0] 24 ((a =? 203) && (b =? 0) && (c =? 113)).
  block [100; 64; 0; 0] 10 ((a =? 100) && ((64 <=? b) && (b <=? 127))).
  block [198; 18; 0; 0] 15 ((a =? 198) && ((18 <=? b) && (b <=? 19))).
  block [240; 0; 0; 0] 4 (negb (a <? 240)).
  cbn [is_acceptable_public_ipv4]. rewrite orb_false_r, !negb_orb, negb_involutive, !andb_assoc. done.
Qed.
End Octets.

(** ** What the operator reads *)

(** The operator can tell the failures apart: two errors of the ledger with one
    text are one error, the same holds of the provider's client, and no text
    depends on anything but the class of the error and an HTTP status: no token
    and no body of a response is printed. *)
Theorem errors_are_told_apart :
  (forall e e', BindingStoreError.fmt e = BindingStoreError.fmt e' ->
     (forall n, e = BindingStoreError.HttpStatus n -> 0 <= n) ->
     (forall n, e' = BindingStoreError.HttpStatus n -> 0 <= n) -> e = e')
  /\ (forall e e', VultrClientError_fmt e = VultrClientError_fmt e' ->
     (forall n, e = ClientHttpStatus n -> 0 <= n) ->
     (forall n, e' = ClientHttpStatus n -> 0 <= n) -> e = e').
Proof.
  split.
  - intros [] []; cbn; intros Heq Hs Hs'; try done; try discriminate Heq.
    injection Heq as Heq. f_equal. by apply u64_to_string_inj; [apply Hs|apply Hs'|].
  - intros [| | | | | | | | | |[]] [| | | | | | | | | |[]]; cbn; intros Heq Hs Hs'; try done;
      try discriminate Heq.
    injection Heq as Heq. f_equal. by apply u64_to_string_inj; [apply Hs|apply Hs'|].
Qed.
