(* ===== verification/Artifact.v ===== *)
(** * The server artifact and its admission

    [apps/operator-cli/src/bin/item19-acceptance-lifecycle.rs], first part: the
    manifest that ties an artifact's files to a commit, and the evidence that admits
    a run.  A directory is a tree; nothing else writes to it while it is examined.
    The JSON forms are a class. *)

From stdpp Require Import base gmap strings list fin_maps.
From Stdlib Require Import ZArith Lia Ascii String.
From S2P Require Import Prelude Text Foundation ProviderLifecycle NetText BindingLedger.
Local Open Scope string_scope.
Local Open Scope Z_scope.
Local Open Scope rust_scope.

Definition CANONICAL_REPOSITORY : string := "iamaman11/mobile-proxy".
Definition ADMISSION_AUTHORITY : string := "item19_pre_release_acceptance_lifecycle".
Definition ACCEPTANCE_ENVIRONMENT : string := "acceptance-vultr".
Definition ITEM19_ISSUE : Z := 124.
Definition PHONE_SIGNING_GATE_ISSUE : Z := 115.
Definition MANIFEST_NAME : string := "manifest.json".
Definition MANIFEST_FORMAT_VERSION : Z := 1.
Definition MAX_JSON_BYTES : Z := 1024 * 1024.
Definition MAX_ARTIFACT_FILE_BYTES : Z := 128 * 1024 * 1024.
Definition ARTIFACT_DIGEST_DOMAIN : string := "mobile-proxy/item19-server-artifact-file/v1".
Definition REQUIRED_ARTIFACT_FILES : list string :=
  ["bin/control-plane"; "bin/relay-gate"; "bin/reverse-tunnel-server";
   "bin/item19-acceptance-lifecycle"].

Record ArtifactEntry `{Blake3} := mk_entry {
  entry_path : string;
  entry_size_bytes : Z;
  entry_digest : ContentDigest;
}.
Arguments mk_entry {_}.

Record ArtifactManifest `{Blake3} := mk_manifest {
  manifest_format_version : Z;
  manifest_candidate_sha : string;
  manifest_digest_domain : string;
  manifest_files : list ArtifactEntry;
}.
Arguments mk_manifest {_}.

#[export] Instance entry_eq_dec `{Blake3} : EqDecision ArtifactEntry.
Proof. solve_decision. Defined.

Record AdmissionEvidence := mk_evidence {
  ev_format_version : Z;
  ev_authority : string;
  ev_candidate_sha : string;
  ev_repository : string;
  ev_workflow_run_id : string;
  ev_workflow_run_attempt : string;
  ev_command_issue : Z;
  ev_command_comment_id : string;
  ev_quality_run_id : string;
  ev_quality_run_attempt : string;
  ev_acceptance_run_id : string;
  ev_acceptance_run_attempt : string;
  ev_preflight_run_id : string;
  ev_preflight_run_attempt : string;
  ev_provider_proof_window_ready : bool;
  ev_provider_proof_ephemeral : bool;
  ev_phone_signing_gate_issue : Z;
  ev_phone_signing_gate_required_for_item20 : bool;
  ev_phone_signing_gate_consumed_by_item19 : bool;
  ev_scope : string;
  ev_environment : string;
  ev_final_production_authority : bool;
  ev_production_environment_authorized : bool;
  ev_phone_mutation_authorized : bool;
  ev_provider_mutation_performed_at_admission : bool;
}.

(** [serde_json] on the two documents. *)
Class ArtifactJson `{Blake3} := {
  manifest_to_json : ArtifactManifest -> list Z;
  manifest_from_json : list Z -> option ArtifactManifest;
  evidence_from_json : list Z -> option AdmissionEvidence;
}.

(** What is written is read back. *)
Class ArtifactJsonLaws `{ArtifactJson} : Prop :=
  manifest_from_to_json : forall m, manifest_from_json (manifest_to_json m) = Some m.

(** ** Directories *)

(** An entry of a directory.  [Unreadable] and [ClosedDir] can be seen but not read. *)
Inductive Node :=
| File (content : list Z)
| Unreadable (size : Z)
| Dir (entries : list (string * Node))
| ClosedDir
| Link
| Special.

Definition lookup_name (name : string) (entries : list (string * Node)) : option Node :=
  snd <$> List.find (fun e => bool_decide (fst e = name)) entries.

Fixpoint lookup_path (node : Node) (path : list string) : option Node :=
  match path with
  | [] => Some node
  | name :: rest =>
      match node with
      | Dir entries =>
          match lookup_name name entries with Some child => lookup_path child rest | None => None end
      | _ => None
      end
  end.

(** [root.join(relative)], looked up. *)
Definition lookup_relative (root : Node) (relative : string) : option Node :=
  lookup_path root (split 47 relative).

(** [path.replace('\\', "/")] *)
Definition forward_slashes (s : string) : string :=
  of_bytes ((fun b => if b =? 92 then 47 else b) <$> bytes s).

Definition join_relative (directory name : string) : string :=
  if bool_decide (directory = "") then name else directory ++ "/" ++ name.

(** The files below a directory, relative to the root. *)
Fixpoint collect_artifact_files (relative : string) (directory : Node) : result (list string) string :=
  match directory with
  | Dir entries =>
      (fix go (entries : list (string * Node)) : result (list string) string :=
         match entries with
         | [] => Ok []
         | (name, node) :: rest =>
             let path := join_relative relative name in
             let? here := match node with
                          | Link => Err "item 19 artifact must not contain symlinks"
                          | Dir _ | ClosedDir => collect_artifact_files path node
                          | Special => Err "item 19 artifact contains an unsupported filesystem entry"
                          | File _ | Unreadable _ =>
                              if negb (valid_utf8 (bytes path)) then Err "artifact path is not UTF-8"
                              else Ok [forward_slashes path]
                          end in
             let? more := go rest in
             Ok (here ++ more)%list
         end) entries
  | _ => Err "cannot enumerate item 19 artifact"
  end.

Section Artifacts.
Context `{ArtifactJson}.

Definition artifact_entry (root : Node) (relative : string) : result ArtifactEntry string :=
  let? size := match lookup_relative root relative with
               | None => Err ("required artifact file is missing: " ++ relative)
               | Some (File content) => Ok (Z.of_nat (List.length content))
               | Some (Unreadable size) => Ok size
               | Some _ => Err "item 19 artifact entries must be regular files"
               end in
  if (size =? 0) || (MAX_ARTIFACT_FILE_BYTES <? size)
  then Err "item 19 artifact entry size is invalid"
  else
    match lookup_relative root relative with
    | Some (File content) =>
        Ok (mk_entry relative size (ContentDigest_derive ARTIFACT_DIGEST_DOMAIN [content]))
    | _ => Err "cannot read bounded item 19 artifact file"
    end.

(** The names that are found, apart from the manifest, have to be the required
    ones; they are compared as sets. *)
Definition artifact_entries (root : Node) : result (list ArtifactEntry) string :=
  let? files := collect_artifact_files "" root in
  let actual : gset string :=
    list_to_set (List.filter (fun path => negb (bool_decide (path = MANIFEST_NAME))) files) in
  if negb (bool_decide (actual = list_to_set REQUIRED_ARTIFACT_FILES))
  then Err "item 19 server artifact contains missing or unexpected files"
  else try_collect (artifact_entry root <$> REQUIRED_ARTIFACT_FILES).

(** ** The manifest *)

Definition validate_artifact_sha (candidate_sha : string) : result unit string :=
  if negb (len candidate_sha =? 40) || negb (all_bytes sha_byte candidate_sha)
  then Err "candidate SHA must be an exact lowercase 40-character hexadecimal commit identity"
  else Ok tt.

(** A path is its components. *)
Definition validate_manifest_location (root manifest : list string) : result unit string :=
  if negb (bool_decide (manifest = root ++ [MANIFEST_NAME])%list)
  then Err "item 19 artifact manifest must be the fixed manifest.json inside artifact root"
  else Ok tt.

Definition verify_artifact (candidate_sha : string) (root_path manifest_path : list string)
    (root : Node) : result unit string :=
  let? _ := validate_artifact_sha candidate_sha in
  let? _ := validate_manifest_location root_path manifest_path in
  let? size := match lookup_path root [MANIFEST_NAME] with
               | None => Err "item 19 artifact manifest is missing"
               | Some (File content) => Ok (Z.of_nat (List.length content))
               | Some (Unreadable size) => Ok size
               | Some _ => Err "item 19 artifact manifest must be a regular file"
               end in
  if (size =? 0) || (MAX_JSON_BYTES <? size) then Err "item 19 artifact manifest size is invalid"
  else
    let? content := match lookup_path root [MANIFEST_NAME] with
                    | Some (File content) => Ok content
                    | _ => Err "Permission denied"
                    end in
    let? artifact := ok_or (manifest_from_json content) "invalid item 19 artifact manifest" in
    if negb (manifest_format_version artifact =? MANIFEST_FORMAT_VERSION)
       || negb (bool_decide (manifest_candidate_sha artifact = candidate_sha))
       || negb (bool_decide (manifest_digest_domain artifact = ARTIFACT_DIGEST_DOMAIN))
    then Err "item 19 artifact manifest identity does not match exact candidate"
    else
      let? expected := artifact_entries root in
      if negb (bool_decide (manifest_files artifact = expected))
      then Err "item 19 artifact bytes do not match immutable manifest"
      else Ok tt.

(** [fs::write(root.join(name), content)] on a tree without links. *)
Definition write_file (name : string) (content : list Z) (entries : list (string * Node))
    : list (string * Node) :=
  (name, File content) :: List.filter (fun e => negb (bool_decide (fst e = name))) entries.

(** [root_is_link]: whether the path of the root is a symbolic link to it. *)
Definition prepare_artifact (candidate_sha : string) (root_path manifest_path : list string)
    (root_is_link writable : bool) (root : option Node) : result unit string * option Node :=
  match (let? _ := validate_artifact_sha candidate_sha in
         let? _ := validate_manifest_location root_path manifest_path in
         let? root := ok_or root "item 19 artifact root is missing" in
         match root_is_link, root with
         | false, (Dir _ | ClosedDir) =>
             let? files := artifact_entries root in
             Ok (mk_manifest MANIFEST_FORMAT_VERSION candidate_sha ARTIFACT_DIGEST_DOMAIN files)
         | _, _ => Err "item 19 artifact root must be a real directory"
         end) with
  | Err e => (Err e, root)
  | Ok artifact =>
      match root with
      | Some (Dir entries) =>
          if negb writable || is_some_and (lookup_name MANIFEST_NAME entries)
                                (fun node => match node with File _ => false | _ => true end)
          then (Err "cannot write item 19 artifact manifest", root)
          else
            let root := Dir (write_file MANIFEST_NAME (manifest_to_json artifact) entries) in
            (verify_artifact candidate_sha root_path manifest_path root, Some root)
      | _ => (Err "cannot write item 19 artifact manifest", root)
      end
  end.

(** ** Admission *)

Definition read_bounded_json {A} (parse : list Z -> option A) (file : option (list Z)) : result A string :=
  let? content := ok_or file "required JSON evidence is missing" in
  let size := Z.of_nat (List.length content) in
  if (size =? 0) || (MAX_JSON_BYTES <? size) then Err "JSON evidence size is invalid"
  else ok_or (parse content) "JSON evidence is invalid".

Definition positive_numeric (value : string) : bool :=
  negb (bool_decide (value = "")) && all_bytes is_ascii_digit value && negb (bool_decide (value = "0")).

Definition numeric_identities (e : AdmissionEvidence) : list string :=
  [ev_workflow_run_id e; ev_workflow_run_attempt e; ev_command_comment_id e; ev_quality_run_id e;
   ev_quality_run_attempt e; ev_acceptance_run_id e; ev_acceptance_run_attempt e;
   ev_preflight_run_id e; ev_preflight_run_attempt e].

Definition evidence_refused (candidate_sha : string) (e : AdmissionEvidence) : bool :=
  negb (ev_format_version e =? 1)
  || negb (bool_decide (ev_authority e = ADMISSION_AUTHORITY))
  || negb (bool_decide (ev_candidate_sha e = candidate_sha))
  || negb (bool_decide (ev_repository e = CANONICAL_REPOSITORY))
  || negb (ev_command_issue e =? ITEM19_ISSUE)
  || negb (ev_phone_signing_gate_issue e =? PHONE_SIGNING_GATE_ISSUE)
  || negb (ev_provider_proof_window_ready e)
  || negb (ev_provider_proof_ephemeral e)
  || negb (ev_phone_signing_gate_required_for_item20 e)
  || ev_phone_signing_gate_consumed_by_item19 e
  || negb (bool_decide (ev_scope e = LifecycleScope_as_str Acceptance))
  || negb (bool_decide (ev_environment e = ACCEPTANCE_ENVIRONMENT))
  || ev_final_production_authority e
  || ev_production_environment_authorized e
  || ev_phone_mutation_authorized e
  || ev_provider_mutation_performed_at_admission e
  || existsb (fun value => negb (positive_numeric value)) (numeric_identities e).

Definition verify_admission_evidence (candidate_sha : string) (file : option (list Z))
    : result unit string :=
  let? evidence := read_bounded_json evidence_from_json file in
  if evidence_refused candidate_sha evidence
  then Err "item 19 admission evidence does not authorize bounded acceptance lifecycle"
  else Ok tt.
End Artifacts.

(** * A verified artifact is the one that was prepared

    Writing the manifest changes no entry it describes, so a prepared artifact
    verifies; what verifies against one manifest has the same files. *)

(** ** Collecting *)

(** What one entry of a directory contributes. *)
Definition collect_entry (relative : string) (e : string * Node) : result (list string) string :=
  let path := join_relative relative (fst e) in
  match snd e with
  | Link => Err "item 19 artifact must not contain symlinks"
  | Dir _ | ClosedDir => collect_artifact_files path (snd e)
  | Special => Err "item 19 artifact contains an unsupported filesystem entry"
  | File _ | Unreadable _ =>
      if negb (valid_utf8 (bytes path)) then Err "artifact path is not UTF-8"
      else Ok [forward_slashes path]
  end.

Lemma collect_Dir relative entries :
  collect_artifact_files relative (Dir entries)
  = let? ls := try_collect (collect_entry relative <$> entries) in Ok (List.concat ls).
Proof.
  induction entries as [|[name node] rest IH]; [done|].
  cbn [collect_artifact_files fmap list_fmap try_collect] in IH |- *.
  change (match node with
          | File _ | Unreadable _ =>
              if negb (valid_utf8 (bytes (join_relative relative name)))
              then Err "artifact path is not UTF-8"
              else Ok [forward_slashes (join_relative relative name)]
          | Dir _ | ClosedDir => collect_artifact_files (join_relative relative name) node
          | Link => Err "item 19 artifact must not contain symlinks"
          | Special => Err "item 19 artifact contains an unsupported filesystem entry"
          end) with (collect_entry relative (name, node)).
  destruct (collect_entry relative (name, node)) as [here|]; [|done]. cbn [result_bind].
  rewrite IH. by destruct (try_collect _).
Qed.

Lemma collect_Dir_Ok relative entries files :
  collect_artifact_files relative (Dir entries) = Ok files <->
  exists ls, Forall2 (fun e l => collect_entry relative e = Ok l) entries ls /\ files = List.concat ls.
Proof.
  rewrite collect_Dir, result_bind_Ok. setoid_rewrite try_collect_Ok. setoid_rewrite Forall2_fmap_l.
  split; intros (ls & Hls & He); exists ls; (split; [done|congruence]).
Qed.

Definition plain_names (files : list string) : list string :=
  List.filter (fun path => negb (bool_decide (path = MANIFEST_NAME))) files.

Definition other_entries (entries : list (string * Node)) : list (string * Node) :=
  List.filter (fun e => negb (bool_decide (fst e = MANIFEST_NAME))) entries.

(** A manifest in the root may be replaced or be missing. *)
Definition manifest_slot (entries : list (string * Node)) : Prop :=
  List.NoDup (fst <$> entries)
  /\ forall node, lookup_name MANIFEST_NAME entries = Some node -> exists content, node = File content.

Lemma manifest_entry content : collect_entry "" (MANIFEST_NAME, File content) = Ok [MANIFEST_NAME].
Proof. reflexivity. Qed.

Lemma manifest_slot_entry entries node :
  manifest_slot entries -> (MANIFEST_NAME, node) ∈ entries -> exists content, node = File content.
Proof.
  intros [Hnd Hslot] Hin. apply Hslot. unfold lookup_name. clear Hslot.
  induction entries as [|[name node'] rest IH]; [by apply elem_of_nil in Hin|]. cbn [List.find fst].
  inversion Hnd as [|? ? Hnin Hnd']; subst. apply elem_of_cons in Hin as [[= <- <-]|Hin].
  - by rewrite bool_decide_eq_true_2.
  - rewrite bool_decide_eq_false_2; [by apply IH|]. intros ->. apply Hnin.
    apply list_elem_of_In, list_elem_of_fmap. by exists (MANIFEST_NAME, node).
Qed.

Lemma collect_others entries files :
  manifest_slot entries -> collect_artifact_files "" (Dir entries) = Ok files ->
  exists rest, collect_artifact_files "" (Dir (other_entries entries)) = Ok rest
    /\ plain_names rest = plain_names files.
Proof.
  intros Hslot (ls & Hls & ->)%collect_Dir_Ok.
  assert (forall e l, e ∈ entries -> fst e = MANIFEST_NAME -> collect_entry "" e = Ok l -> l = [MANIFEST_NAME])
    as Hm.
  { intros [name node] l Hin Hn Hl. cbn in Hn. subst name.
    destruct (manifest_slot_entry _ _ Hslot Hin) as [content ->]. rewrite manifest_entry in Hl. congruence. }
  clear Hslot. induction Hls as [|e l entries ls He Hls IH].
  { exists []. split; [done|done]. }
  destruct IH as (rest & Hrest & Heq); [intros; eapply Hm; [by right|..]; done|].
  unfold other_entries. cbn [List.filter]. case_bool_decide as Hn; cbn [negb].
  - exists rest. split; [done|]. rewrite (Hm e l) by (done || by left). exact Heq.
  - apply collect_Dir_Ok in Hrest as (ls' & Hls' & ->). exists (l ++ List.concat ls')%list.
    split; [apply collect_Dir_Ok; exists (l :: ls'); split; [by constructor|done]|].
    unfold plain_names in *. cbn [List.concat]. rewrite !List.filter_app. by rewrite Heq.
Qed.

Lemma collect_written entries content files :
  manifest_slot entries -> collect_artifact_files "" (Dir entries) = Ok files ->
  exists files', collect_artifact_files "" (Dir (write_file MANIFEST_NAME content entries)) = Ok files'
    /\ plain_names files' = plain_names files.
Proof.
  intros Hslot Hfiles. destruct (collect_others _ _ Hslot Hfiles) as (rest & Hrest & Heq).
  apply collect_Dir_Ok in Hrest as (ls & Hls & ->). exists (MANIFEST_NAME :: List.concat ls).
  split; [|exact Heq]. apply collect_Dir_Ok. exists ([MANIFEST_NAME] :: ls). split; [|done].
  constructor; [apply manifest_entry|exact Hls].
Qed.

Lemma lookup_written name content entries :
  name <> MANIFEST_NAME ->
  lookup_name name (write_file MANIFEST_NAME content entries) = lookup_name name entries.
Proof.
  intros Hne. unfold lookup_name, write_file. cbn [List.find fst].
  rewrite bool_decide_eq_false_2 by congruence. f_equal.
  induction entries as [|[n node] rest IH]; [done|]. cbn [List.filter List.find fst].
  destruct (bool_decide_reflect (n = MANIFEST_NAME)) as [->|Hn]; cbn [negb].
  - by rewrite bool_decide_eq_false_2 by congruence.
  - cbn [List.find fst]. case_bool_decide; [done|exact IH].
Qed.

Section Artifacts.
Context `{ArtifactJson}.

Lemma required_below_bin relative :
  relative ∈ REQUIRED_ARTIFACT_FILES -> exists name, split 47 relative = ["bin"; name].
Proof.
  intros Hin. unfold REQUIRED_ARTIFACT_FILES in Hin. rewrite !elem_of_cons, elem_of_nil in Hin.
  destruct Hin as [->|[->|[->|[->|[]]]]]; eexists; reflexivity.
Qed.

Lemma lookup_required relative content entries :
  relative ∈ REQUIRED_ARTIFACT_FILES ->
  lookup_relative (Dir (write_file MANIFEST_NAME content entries)) relative
  = lookup_relative (Dir entries) relative.
Proof.
  intros Hin. unfold lookup_relative.
  destruct (required_below_bin relative Hin) as [name ->].
  cbn [lookup_path]. by rewrite lookup_written.
Qed.

(** Writing the manifest leaves the entries it describes alone. *)
Lemma entries_written entries content es :
  manifest_slot entries -> artifact_entries (Dir entries) = Ok es ->
  artifact_entries (Dir (write_file MANIFEST_NAME content entries)) = Ok es.
Proof.
  intros Hslot. unfold artifact_entries. rewrite !result_bind_Ok. intros (files & Hfiles & Hes).
  destruct (collect_written entries content files Hslot Hfiles) as (files' & Hfiles' & Heq).
  exists files'. split; [done|]. revert Hes. fold (plain_names files) (plain_names files'). rewrite Heq.
  assert (artifact_entry (Dir (write_file MANIFEST_NAME content entries)) <$> REQUIRED_ARTIFACT_FILES
    = artifact_entry (Dir entries) <$> REQUIRED_ARTIFACT_FILES) as ->; [|done].
  apply list_fmap_ext. intros i relative Hi%list_elem_of_lookup_2. unfold artifact_entry.
  by rewrite lookup_required.
Qed.

(** What the entries of an artifact say: every required file is a readable file of
    admissible size, and its entry carries its size and the digest of its bytes. *)
Definition describes (root : Node) (e : ArtifactEntry) : Prop :=
  exists content, lookup_relative root (entry_path e) = Some (File content)
    /\ entry_size_bytes e = Z.of_nat (List.length content)
    /\ 0 < entry_size_bytes e <= MAX_ARTIFACT_FILE_BYTES
    /\ entry_digest e = ContentDigest_derive ARTIFACT_DIGEST_DOMAIN [content].

Lemma artifact_entry_Ok root relative e :
  artifact_entry root relative = Ok e -> entry_path e = relative /\ describes root e.
Proof.
  unfold artifact_entry, describes. destruct (lookup_relative root relative) as [[content|size| | | |]|] eqn:Hl;
    cbn [result_bind]; try done; case_if; try done.
  intros [= <-]. bools. cbn. split; [done|]. exists content. split_and!; [done|done|lia|lia|done].
Qed.

Lemma artifact_entries_Ok root es :
  artifact_entries root = Ok es ->
  entry_path <$> es = REQUIRED_ARTIFACT_FILES /\ Forall (describes root) es.
Proof.
  unfold artifact_entries. rewrite result_bind_Ok. intros (files & _ & Hes). revert Hes. case_if; [done|].
  rewrite try_collect_Ok, Forall2_fmap_l. generalize REQUIRED_ARTIFACT_FILES. intros required.
  induction 1 as [|relative e required es He _ [IH1 IH2]]; [by split|].
  apply artifact_entry_Ok in He as [Hp Hd]. split; [cbn; by rewrite Hp, IH1|by constructor].
Qed.

(** The manifest in a root. *)
Definition has_manifest (root : Node) (content : list Z) (m : ArtifactManifest) : Prop :=
  lookup_path root [MANIFEST_NAME] = Some (File content)
  /\ 0 < Z.of_nat (List.length content) <= MAX_JSON_BYTES /\ manifest_from_json content = Some m.

Lemma verify_artifact_Ok candidate_sha root_path manifest_path root :
  verify_artifact candidate_sha root_path manifest_path root = Ok tt <->
  validate_artifact_sha candidate_sha = Ok tt /\ manifest_path = (root_path ++ [MANIFEST_NAME])%list
  /\ exists content es, artifact_entries root = Ok es
     /\ has_manifest root content
          (mk_manifest MANIFEST_FORMAT_VERSION candidate_sha ARTIFACT_DIGEST_DOMAIN es).
Proof.
  unfold verify_artifact, has_manifest, validate_manifest_location.
  destruct (validate_artifact_sha candidate_sha) as [[]|e]; cbn [result_bind]; [|split; [done|by intros (? & _)]].
  case_bool_decide as Hpath; cbn [negb result_bind]; [|split; [done|by intros (_ & ? & _)]].
  split.
  - intros Hv. split_and!; [done|done|].
    destruct (lookup_path root [MANIFEST_NAME]) as [[content|size| | | |]|]; cbn [result_bind] in Hv; try done;
      case_if; try done; bools. cbn [result_bind] in Hv.
    apply result_bind_Ok in Hv as (m & Hm%ok_or_Ok & Hv). case_if; [done|]. bools.
    apply result_bind_Ok in Hv as (es & Hes & Hv). case_if; [done|]. bools.
    exists content, es. split; [done|]. split; [done|]. split; [lia|]. rewrite Hm. f_equal.
    destruct m; cbn in *. by subst.
  - intros (_ & _ & content & es & Hes & Hl & Hsize & Hm). rewrite Hl. cbn [result_bind].
    replace (Z.of_nat (List.length content) =? 0) with false by (symmetry; apply Z.eqb_neq; lia).
    replace (MAX_JSON_BYTES <? Z.of_nat (List.length content)) with false by (symmetry; apply Z.ltb_ge; lia).
    cbn [orb result_bind]. rewrite Hm. cbn [ok_or result_bind]. cbn [manifest_format_version manifest_candidate_sha manifest_digest_domain].
    rewrite Z.eqb_refl, !bool_decide_eq_true_2 by done. cbn [negb orb]. rewrite Hes. cbn [result_bind manifest_files].
    by rewrite bool_decide_eq_true_2.
Qed.

(** An artifact that is prepared verifies, and nothing but its manifest was
    written: for a commit, a directory whose entries are complete, and room for the
    manifest, preparation succeeds and leaves the directory with the manifest of
    exactly these entries, under which it verifies, here and wherever it is copied;
    preparing it again changes nothing but that file. *)
Theorem prepared_artifact_verifies candidate_sha root_path manifest_path entries es `{!ArtifactJsonLaws} :
  validate_artifact_sha candidate_sha = Ok tt ->
  manifest_path = (root_path ++ [MANIFEST_NAME])%list ->
  manifest_slot entries ->
  artifact_entries (Dir entries) = Ok es ->
  let m := mk_manifest MANIFEST_FORMAT_VERSION candidate_sha ARTIFACT_DIGEST_DOMAIN es in
  0 < Z.of_nat (List.length (manifest_to_json m)) <= MAX_JSON_BYTES ->
  let root' := Dir (write_file MANIFEST_NAME (manifest_to_json m) entries) in
  prepare_artifact candidate_sha root_path manifest_path false true (Some (Dir entries)) = (Ok tt, Some root')
  /\ verify_artifact candidate_sha root_path manifest_path root' = Ok tt
  /\ forall relative, relative ∈ REQUIRED_ARTIFACT_FILES ->
       lookup_relative root' relative = lookup_relative (Dir entries) relative.
Proof.
  intros Hsha Hpath Hslot Hes m Hsize root'.
  assert (verify_artifact candidate_sha root_path manifest_path root' = Ok tt) as Hv.
  { apply verify_artifact_Ok. split_and!; [done|done|]. exists (manifest_to_json m), es.
    split; [by apply entries_written|]. split; [reflexivity|]. split; [done|apply manifest_from_to_json]. }
  split_and!; [|done|intros; by apply lookup_required].
  unfold prepare_artifact, validate_manifest_location. rewrite Hsha, bool_decide_eq_true_2 by done.
  cbn [negb result_bind ok_or orb]. rewrite Hes. cbn [result_bind].
  replace (is_some_and _ _) with false; [fold m; fold root'; by rewrite Hv|].
  symmetry. destruct (lookup_name MANIFEST_NAME entries) as [node|] eqn:Hl; [|done].
  destruct (proj2 Hslot node Hl) as [content ->]. done.
Qed.

(** One manifest, one artifact: two directories that verify for the same commit
    with the same manifest have the same required files, each of the same size and
    with the same digest, so a copy that verifies on the target differs from the
    prepared one at most where the digest collides. *)
Theorem same_manifest_same_files candidate_sha root_path manifest_path root root_path' manifest_path' root' :
  verify_artifact candidate_sha root_path manifest_path root = Ok tt ->
  verify_artifact candidate_sha root_path' manifest_path' root' = Ok tt ->
  lookup_path root [MANIFEST_NAME] = lookup_path root' [MANIFEST_NAME] ->
  forall relative, relative ∈ REQUIRED_ARTIFACT_FILES ->
  exists content content',
    lookup_relative root relative = Some (File content) /\ lookup_relative root' relative = Some (File content')
    /\ List.length content = List.length content'
    /\ ContentDigest_derive ARTIFACT_DIGEST_DOMAIN [content]
       = ContentDigest_derive ARTIFACT_DIGEST_DOMAIN [content'].
Proof.
  intros (_ & _ & c & es & Hes & Hc & _ & Hm)%verify_artifact_Ok
    (_ & _ & c' & es' & Hes' & Hc' & _ & Hm')%verify_artifact_Ok Heq relative Hin.
  rewrite Hc, Hc' in Heq. injection Heq as <-. rewrite Hm in Hm'. injection Hm' as <-.
  apply artifact_entries_Ok in Hes as [Hpaths Hd]. apply artifact_entries_Ok in Hes' as [_ Hd'].
  rewrite <- Hpaths in Hin. apply list_elem_of_fmap in Hin as (e & -> & He).
  rewrite Forall_forall in Hd, Hd'. destruct (Hd e He) as (x & Hx & Hs & _ & Hg).
  destruct (Hd' e He) as (x' & Hx' & Hs' & _ & Hg'). exists x, x'. split_and!; [done|done|lia|congruence].
Qed.

(** A name of the root that passes for a required path once its backslash is turned. *)
Definition BACKSLASH_NAME : string := "bin" ++ of_bytes [92] ++ "control-plane".

(** An unexpected file can hide behind a required one: a file of the root whose name
    is a required path with a backslash is counted as that path, so an artifact with
    it has the same entries and verifies like the one without it. *)
Theorem backslash_file_is_accepted entries es extra :
  artifact_entries (Dir entries) = Ok es ->
  artifact_entries (Dir ((BACKSLASH_NAME, File extra) :: entries)) = Ok es.
Proof.
  unfold artifact_entries. rewrite !result_bind_Ok. intros (files & Hfiles & Hes).
  exists ("bin/control-plane" :: files). split.
  { apply collect_Dir_Ok in Hfiles as (ls & Hls & ->). apply collect_Dir_Ok.
    exists (["bin/control-plane"] :: ls). split; [|done]. constructor; [reflexivity|done]. }
  revert Hes. fold (plain_names files) (plain_names ("bin/control-plane" :: files)).
  change (plain_names ("bin/control-plane" :: files)) with ("bin/control-plane" :: plain_names files).
  destruct (bool_decide_reflect (list_to_set (plain_names files) =@{gset string} list_to_set REQUIRED_ARTIFACT_FILES))
    as [Heq|]; cbn [negb]; [|done].
  rewrite bool_decide_eq_true_2; cbn [negb]; [|cbn [list_to_set]; rewrite Heq; apply subseteq_union_1_L].
  2:{ apply singleton_subseteq_l, elem_of_list_to_set. by left. }
  intros Hes. rewrite <- Hes. refine (f_equal try_collect _). apply list_fmap_ext. intros i relative Hi%list_elem_of_lookup_2.
  unfold artifact_entry. replace (lookup_relative (Dir ((BACKSLASH_NAME, File extra) :: entries)) relative)
    with (lookup_relative (Dir entries) relative); [done|].
  unfold lookup_relative. destruct (required_below_bin relative Hi) as [name ->]. reflexivity.
Qed.
End Artifacts.
