(* ===== verification/ReleaseIntegrity.v ===== *)
(** * Release manifests and digests

    [apps/operator-cli/src/release_integrity.rs]: the manifest that a release
    directory carries, written and verified; and the digest commands of
    [apps/operator-cli/src/bin/].  A directory is a tree without loops; names are
    text.  The JSON form of the manifest is a class. *)

From stdpp Require Import base gmap strings list fin_maps sorting.
From Stdlib Require Import ZArith Lia Ascii String.
From S2P Require Import Prelude Ordered Text NetText FileTree Foundation Artifact.
Local Open Scope string_scope.
Local Open Scope Z_scope.

Definition RELEASE_INTEGRITY_MANIFEST : string := "integrity-manifest.json".
Definition RELEASE_INTEGRITY_DOMAIN : string := "mobile-proxy/release-file/v1".

Record ReleaseIntegrityEntry `{Blake3} := mk_release_entry {
  release_path : string;
  release_digest : ContentDigest;
  release_size_bytes : Z;
}.
Arguments mk_release_entry {_}.

Record ReleaseIntegrityManifest `{Blake3} := mk_release_manifest {
  release_format_version : Z;
  release_algorithm : string;
  release_domain : string;
  release_entries : list ReleaseIntegrityEntry;
}.
Arguments mk_release_manifest {_}.

#[export] Instance release_entry_eq_dec `{Blake3} : EqDecision ReleaseIntegrityEntry.
Proof. solve_decision. Defined.

(** ** Trees with links *)

Module Tree.
(** What a name leads to.  [Locked] and [ClosedDir] cannot be read; a link has
    what it leads to, if anything. *)
Inductive t :=
| File (content : list Z)
| Locked
| Dir (entries : list (string * t))
| ClosedDir
| Special
| Link (target : option t).
End Tree.

Inductive IntegrityError :=
| ListFailed | ReadFileFailed | WriteManifestFailed | ManifestMissing | ManifestInvalid
| UnsupportedMetadata | FilesDiffer.

Section Integrity.
Context `{Blake3}.
Local Open Scope rust_scope.

(** [collect_integrity_files]: [path.is_dir()] and [path.is_file()] follow links.
    A file that cannot be read has no content. *)
Fixpoint collect_integrity_files (relative : string) (node : Tree.t)
    : result (list (string * option (list Z))) IntegrityError :=
  match node with
  | Tree.Dir entries =>
      (fix go (entries : list (string * Tree.t)) :=
         match entries with
         | [] => Ok []
         | (name, child) :: rest =>
             let? here := collect_integrity_files (join_relative relative name) child in
             let? more := go rest in
             Ok (here ++ more)%list
         end) entries
  | Tree.ClosedDir => Err ListFailed
  | Tree.File content =>
      let relative := forward_slashes relative in
      Ok (if bool_decide (relative = RELEASE_INTEGRITY_MANIFEST) then [] else [(relative, Some content)])
  | Tree.Locked =>
      let relative := forward_slashes relative in
      Ok (if bool_decide (relative = RELEASE_INTEGRITY_MANIFEST) then [] else [(relative, None)])
  | Tree.Special | Tree.Link None => Ok []
  | Tree.Link (Some target) => collect_integrity_files relative target
  end.

(** The root has to be a directory that can be listed. *)
Fixpoint list_root (root : Tree.t) : result (list (string * option (list Z))) IntegrityError :=
  match root with
  | Tree.Dir _ => collect_integrity_files "" root
  | Tree.Link (Some target) => list_root target
  | _ => Err ListFailed
  end.

(** [files.sort_by(|left, right| left.0.cmp(&right.0))], a stable sort. *)
Fixpoint insert_by_path {A} (file : string * A) (files : list (string * A)) : list (string * A) :=
  match files with
  | [] => [file]
  | other :: rest =>
      if bool_decide (String.le file.1 other.1) then file :: files
      else other :: insert_by_path file rest
  end.

Definition sort_by_path {A} (files : list (string * A)) : list (string * A) :=
  foldr insert_by_path [] files.

Definition release_entry (file : string * option (list Z)) : result ReleaseIntegrityEntry IntegrityError :=
  match file.2 with
  | None => Err ReadFileFailed
  | Some bytes =>
      Ok (mk_release_entry file.1 (ContentDigest_derive RELEASE_INTEGRITY_DOMAIN [bytes])
            (Z.of_nat (List.length bytes)))
  end.

Definition integrity_entries (root : Tree.t) : result (list ReleaseIntegrityEntry) IntegrityError :=
  let? files := list_root root in
  try_collect (release_entry <$> sort_by_path files).

(** [serde_json] on the manifest. *)
Class ReleaseJson := {
  release_to_json : ReleaseIntegrityManifest -> list Z;
  release_from_json : list Z -> option ReleaseIntegrityManifest;
}.
Class ReleaseJsonLaws `{ReleaseJson} : Prop :=
  release_from_to_json : forall m, release_from_json (release_to_json m) = Some m.

Context `{ReleaseJson}.

Definition release_manifest (entries : list ReleaseIntegrityEntry) : ReleaseIntegrityManifest :=
  mk_release_manifest 1 "blake3-256" RELEASE_INTEGRITY_DOMAIN entries.

(** [fs::write] of a name: a new file, or the file the name leads to. *)
Fixpoint write_node (body : list Z) (node : Tree.t) : option Tree.t :=
  match node with
  | Tree.File _ => Some (Tree.File body)
  | Tree.Link (Some target) => target' ← write_node body target; Some (Tree.Link (Some target'))
  | Tree.Link None => Some (Tree.Link (Some (Tree.File body)))
  | _ => None
  end.

Fixpoint write_name (name : string) (body : list Z) (entries : list (string * Tree.t))
    : option (list (string * Tree.t)) :=
  match entries with
  | [] => Some [(name, Tree.File body)]
  | (name', node) :: rest =>
      if bool_decide (name' = name) then node' ← write_node body node; Some ((name', node') :: rest)
      else rest' ← write_name name body rest; Some ((name', node) :: rest')
  end.

Fixpoint write_below (name : string) (body : list Z) (root : Tree.t) : option Tree.t :=
  match root with
  | Tree.Dir entries => Tree.Dir <$> write_name name body entries
  | Tree.Link (Some target) => target' ← write_below name body target; Some (Tree.Link (Some target'))
  | _ => None
  end.

(** The bytes behind a name of the root. *)
Fixpoint read_node (node : Tree.t) : option (list Z) :=
  match node with
  | Tree.File content => Some content
  | Tree.Link (Some target) => read_node target
  | _ => None
  end.

Fixpoint read_below (name : string) (root : Tree.t) : option (list Z) :=
  match root with
  | Tree.Dir entries =>
      List.find (fun e => bool_decide (e.1 = name)) entries ≫= fun e => read_node e.2
  | Tree.Link (Some target) => read_below name target
  | _ => None
  end.

Definition write_integrity_manifest (root : Tree.t) : result Tree.t IntegrityError :=
  let? entries := integrity_entries root in
  ok_or (write_below RELEASE_INTEGRITY_MANIFEST (release_to_json (release_manifest entries)) root)
    WriteManifestFailed.

Definition verify_integrity_manifest (root : Tree.t) : result unit IntegrityError :=
  let? bytes := ok_or (read_below RELEASE_INTEGRITY_MANIFEST root) ManifestMissing in
  let? manifest := ok_or (release_from_json bytes) ManifestInvalid in
  if negb (release_format_version manifest =? 1)
     || negb (bool_decide (release_algorithm manifest = "blake3-256"))
     || negb (bool_decide (release_domain manifest = RELEASE_INTEGRITY_DOMAIN))
  then Err UnsupportedMetadata
  else
    let? actual := integrity_entries root in
    if negb (bool_decide (actual = release_entries manifest)) then Err FilesDiffer else Ok tt.
End Integrity.

(** ** Digest commands *)

Definition PRODUCT_RELEASE_ASSET_DOMAIN : string := "mobile-proxy/product-release-asset/v2".
Definition ANDROID_ARTIFACT_DOMAIN : string := "mobile-proxy/android-apk/v1".
Definition SING_BOX_ARCHIVE_DOMAIN : string := "mobile-proxy/upstream-sing-box-archive/v1".

Definition INVALID_ASSET_NAME : string := "Product Release asset name is invalid".

Definition validate_asset_name (name : string) : result unit string :=
  if bool_decide (name = "") || (200 <? len name) || starts_with "/" name || ends_with "/" name
     || contains "\" name || any_char is_control name
  then Err INVALID_ASSET_NAME
  else if existsb (fun component => bool_decide (component = "") || bool_decide (component = ".")
                                    || bool_decide (component = "..")) (split 47 name)
  then Err INVALID_ASSET_NAME
  else Ok tt.

Section Digests.
Context `{Blake3}.
Local Open Scope rust_scope.

(** The arguments after the program's name, and what can be read. *)
Definition asset_digest (arguments : list string) (read : string -> option (list Z))
    : result string string :=
  match arguments with
  | [] => Err "Product Release asset name is required"
  | [_] => Err "Product Release asset path is required"
  | [name; path] =>
      if negb (valid_utf8 (bytes name)) then Err "Product Release asset name must be valid UTF-8"
      else
        let? _ := validate_asset_name name in
        let? content := ok_or (read path) "failed to read Product Release asset" in
        Ok (ContentDigest_to_string
              (ContentDigest_derive PRODUCT_RELEASE_ASSET_DOMAIN [bytes name; content]))
  | _ => Err "exactly one Product Release asset name and path are required"
  end.

Definition android_artifact_digest (arguments : list string) (read : string -> option (list Z))
    : result string string :=
  match arguments with
  | [] => Err "Android artifact path is required"
  | [path] =>
      let? content := ok_or (read path) "failed to read Android artifact" in
      Ok (ContentDigest_to_string (ContentDigest_derive ANDROID_ARTIFACT_DOMAIN [content]))
  | _ => Err "exactly one Android artifact path is required"
  end.

Definition sing_box_archive_digest (arguments : list string) (is_file : string -> bool)
    (read : string -> option (list Z)) : result string string :=
  match arguments with
  | [] => Err "sing-box archive path is required"
  | [path] =>
      if negb (is_file path) then Err "sing-box archive path is not a file"
      else
        let? content := ok_or (read path) "failed to read sing-box archive" in
        Ok (ContentDigest_to_string (ContentDigest_derive SING_BOX_ARCHIVE_DOMAIN [content]))
  | _ => Err "exactly one sing-box archive path is required"
  end.
End Digests.

(** ** Sorting *)

Section Sorting.
Context {A : Type}.

Lemma insert_by_path_Permutation (file : string * A) files :
  insert_by_path file files ≡ₚ file :: files.
Proof.
  induction files as [|other rest IH]; cbn [insert_by_path]; [done|]. case_bool_decide; [done|].
  rewrite IH. apply Permutation_swap.
Qed.

Lemma sort_by_path_Permutation (files : list (string * A)) : sort_by_path files ≡ₚ files.
Proof.
  induction files as [|file files IH]; [done|]. cbn [sort_by_path foldr].
  rewrite insert_by_path_Permutation. by constructor.
Qed.

Lemma insert_by_path_sorted (file : string * A) files :
  StronglySorted (key_le String.le) files ->
  StronglySorted (key_le String.le) (insert_by_path file files).
Proof.
  induction 1 as [|other rest Hrest IH Hall]; cbn [insert_by_path]; [by repeat constructor|].
  case_bool_decide as Hle.
  - constructor; [by constructor|]. constructor; [done|].
    eapply Forall_impl; [exact Hall|]. intros x Hx. unfold key_le in *. by etrans.
  - assert (String.le other.1 file.1) as Hge by (destruct (total String.le other.1 file.1); done).
    constructor; [done|]. rewrite insert_by_path_Permutation. by constructor.
Qed.

Lemma sort_by_path_sorted (files : list (string * A)) :
  StronglySorted (key_le String.le) (sort_by_path files).
Proof.
  induction files as [|file files IH]; [constructor|]. by apply insert_by_path_sorted.
Qed.

(** The listing order of a directory does not show. *)
Lemma sort_by_path_unique (files files' : list (string * A)) :
  files ≡ₚ files' -> NoDup files.*1 -> sort_by_path files = sort_by_path files'.
Proof.
  intros Hp Hnd.
  assert (forall l l' : list (string * A), StronglySorted (key_le String.le) l ->
    StronglySorted (key_le String.le) l' -> l ≡ₚ l' -> NoDup l.*1 -> l = l') as Huniq.
  { clear. induction l as [|x l IH]; intros l' Hs Hs' Hp Hnd.
    { by apply Permutation_nil_l in Hp. }
    destruct l' as [|y l']; [by apply Permutation_nil_r in Hp|].
    apply StronglySorted_inv in Hs as [Hs Hx]. apply StronglySorted_inv in Hs' as [Hs' Hy].
    apply NoDup_cons in Hnd as [Hnot Hnd]. rewrite Forall_forall in Hx, Hy.
    assert (x = y) as <-.
    { assert (y ∈ x :: l) as Hyl by (rewrite Hp; apply elem_of_cons; by left).
      assert (x ∈ y :: l') as Hxl by (rewrite <- Hp; apply elem_of_cons; by left).
      apply elem_of_cons in Hyl as [->|Hyl]; [done|]. apply elem_of_cons in Hxl as [->|Hxl]; [done|].
      exfalso. apply Hnot. apply list_elem_of_fmap. exists y. split; [|done].
      apply (anti_symm String.le); [by apply Hx|by apply Hy]. }
    f_equal. apply IH; [done|done|by eapply Permutation_cons_inv|done]. }
  apply Huniq; try apply sort_by_path_sorted; [by rewrite !sort_by_path_Permutation|].
  by rewrite sort_by_path_Permutation.
Qed.
End Sorting.

(** ** What a verified manifest means *)

Section IntegrityTheorems.
Context `{Blake3, !ReleaseJson, !ReleaseJsonLaws}.

(** Writing under the manifest's name does not show in the listing. *)
Lemma collect_release_written relative body :
  forward_slashes relative = RELEASE_INTEGRITY_MANIFEST -> forall node node',
  write_node body node = Some node' ->
  collect_integrity_files relative node = Ok [] /\ collect_integrity_files relative node' = Ok []
  /\ read_node node' = Some body.
Proof.
  intros Hrel. fix IH 1. intros [content| |entries| | |[target|]] node'; try done; cbn [write_node].
  - intros [= <-]. cbn [collect_integrity_files read_node]. rewrite Hrel. by rewrite bool_decide_true.
  - destruct (write_node body target) as [target'|] eqn:Ht; [|done]. intros [= <-]. exact (IH target target' Ht).
  - intros [= <-]. cbn [collect_integrity_files read_node]. rewrite Hrel. by rewrite bool_decide_true.
Qed.

Lemma manifest_relative : forward_slashes (join_relative "" RELEASE_INTEGRITY_MANIFEST) = RELEASE_INTEGRITY_MANIFEST.
Proof. reflexivity. Qed.

Lemma collect_write_name body entries entries' :
  write_name RELEASE_INTEGRITY_MANIFEST body entries = Some entries' ->
  collect_integrity_files "" (Tree.Dir entries') = collect_integrity_files "" (Tree.Dir entries)
  /\ List.find (fun e => bool_decide (e.1 = RELEASE_INTEGRITY_MANIFEST)) entries' ≫= (fun e => read_node e.2)
     = Some body.
Proof.
  revert entries'. induction entries as [|[name node] rest IH]; intros entries'; cbn [write_name].
  - intros [= <-]. split; reflexivity.
  - case_bool_decide as Hn.
    + subst name. destruct (write_node body node) as [node'|] eqn:Hw; [|done]. intros [= <-].
      destruct (collect_release_written _ body manifest_relative _ _ Hw) as (Hc1 & Hc2 & Hc3).
      cbn [collect_integrity_files List.find fst]. rewrite Hc1, Hc2, bool_decide_true by done.
      split; [done|exact Hc3].
    + destruct (write_name _ body rest) as [rest'|]; [|done]. intros [= <-].
      destruct (IH rest' eq_refl) as [Hc Hf]. cbn [collect_integrity_files List.find fst] in *.
      rewrite bool_decide_false by done. rewrite Hc. by split.
Qed.

Lemma list_written body : forall root root',
  write_below RELEASE_INTEGRITY_MANIFEST body root = Some root' ->
  list_root root' = list_root root /\ read_below RELEASE_INTEGRITY_MANIFEST root' = Some body.
Proof.
  fix IH 1. intros [content| |entries| | |[target|]] root'; try done; cbn [write_below].
  - destruct (write_name _ body entries) as [entries'|] eqn:Hw; [|done]. intros [= <-].
    apply collect_write_name in Hw as [Hc Hf]. cbn [list_root read_below]. by rewrite Hc, Hf.
  - destruct (write_below _ body target) as [target'|] eqn:Ht; [|done]. intros [= <-].
    exact (IH target target' Ht).
Qed.

(** The manifest that was written for a release verifies. *)
Theorem written_manifest_verifies root root' :
  write_integrity_manifest root = Ok root' -> verify_integrity_manifest root' = Ok tt.
Proof.
  unfold write_integrity_manifest. intros (entries & He & Hw%ok_or_Ok)%result_bind_Ok.
  apply list_written in Hw as [Hl Hr]. unfold verify_integrity_manifest. rewrite Hr.
  cbn [ok_or result_bind]. rewrite release_from_to_json. cbn [ok_or result_bind].
  assert (integrity_entries root' = Ok entries) as -> by (rewrite <- He; unfold integrity_entries; by rewrite Hl).
  cbn [release_manifest release_format_version release_algorithm release_domain release_entries result_bind].
  by rewrite !bool_decide_true.
Qed.

Definition same_file (f f' : string * option (list Z)) : Prop :=
  exists content content', f.2 = Some content /\ f'.2 = Some content' /\ f.1 = f'.1
    /\ List.length content = List.length content'
    /\ ContentDigest_derive RELEASE_INTEGRITY_DOMAIN [content]
       = ContentDigest_derive RELEASE_INTEGRITY_DOMAIN [content'].

Lemma release_entries_same files files' entries :
  try_collect (release_entry <$> files) = Ok entries -> try_collect (release_entry <$> files') = Ok entries ->
  Forall2 same_file files files'.
Proof.
  rewrite !try_collect_Ok. revert files files'. induction entries as [|e entries IH]; intros files files' Hf Hf'.
  - destruct files; [|inversion Hf]. destruct files'; [constructor|inversion Hf'].
  - destruct files as [|[p c] files]; [inversion Hf|]. destruct files' as [|[p' c'] files']; [inversion Hf'|].
    cbn [fmap list_fmap] in Hf, Hf'. apply Forall2_cons in Hf as [He Hf]. apply Forall2_cons in Hf' as [He' Hf'].
    constructor; [|by apply IH]. unfold release_entry in *. cbn [fst snd] in *.
    destruct c as [content|], c' as [content'|]; try done. rewrite <- He' in He.
    apply (f_equal result_ok) in He. cbn [result_ok] in He. apply (inj Some) in He.
    exists content, content'. split_and!; [done|done|exact (f_equal release_path He)|
      apply Nat2Z.inj; exact (f_equal release_size_bytes He)|exact (f_equal release_digest He)].
Qed.

Lemma verify_Ok root :
  verify_integrity_manifest root = Ok tt ->
  exists bytes files entries, read_below RELEASE_INTEGRITY_MANIFEST root = Some bytes
    /\ release_from_json bytes = Some (release_manifest entries)
    /\ list_root root = Ok files /\ try_collect (release_entry <$> sort_by_path files) = Ok entries.
Proof.
  unfold verify_integrity_manifest. intros (bytes & Hb%ok_or_Ok & Hk)%result_bind_Ok.
  apply result_bind_Ok in Hk as (m & Hm%ok_or_Ok & Hk).
  destruct (negb (release_format_version m =? 1) || _ || _) eqn:Hmeta; [done|]. bools.
  apply result_bind_Ok in Hk as (entries & He & Hk). unfold integrity_entries in He.
  apply result_bind_Ok in He as (files & Hf & He). case_bool_decide as Heq; [|done].
  exists bytes, files, entries. split_and!; try done. rewrite Hm. destruct m. cbn in *. by subst.
Qed.

(** Two releases that verify against one manifest have the same files: the same
    paths, in one order, with files of the same size and digest.  A file that
    was added, removed, renamed or resized is always noticed. *)
Theorem verified_releases_agree root root' :
  verify_integrity_manifest root = Ok tt -> verify_integrity_manifest root' = Ok tt ->
  read_below RELEASE_INTEGRITY_MANIFEST root = read_below RELEASE_INTEGRITY_MANIFEST root' ->
  exists files files', list_root root = Ok files /\ list_root root' = Ok files'
    /\ Forall2 same_file (sort_by_path files) (sort_by_path files').
Proof.
  intros (b & files & entries & Hb & Hm & Hl & He)%verify_Ok (b' & files' & entries' & Hb' & Hm' & Hl' & He')%verify_Ok Hsame.
  rewrite Hb, Hb' in Hsame. injection Hsame as <-. rewrite Hm in Hm'. injection Hm' as <-.
  exists files, files'. split_and!; [done|done|]. by eapply release_entries_same.
Qed.

(** The manifest does not depend on the order in which directories list their
    entries, as long as no two files have one path. *)
Theorem manifest_is_canonical root root' files files' :
  list_root root = Ok files -> list_root root' = Ok files' -> files ≡ₚ files' -> NoDup files.*1 ->
  integrity_entries root = integrity_entries root'.
Proof.
  intros Hl Hl' Hp Hnd. unfold integrity_entries. rewrite Hl, Hl'. cbn [result_bind].
  by rewrite (sort_by_path_unique files files').
Qed.
End IntegrityTheorems.

(** ** Asset names *)

Lemma starts_with_slash s : starts_with "/" s = true -> exists rest, split 47 s = "" :: rest.
Proof.
  unfold starts_with, split. destruct s as [|c s]; [done|]. cbn [strip_prefix].
  destruct (Ascii.eqb_spec "/"%char c) as [<-|]; [|done]. intros _. cbn. eauto.
Qed.

Lemma split_bytes_final sep l : split_bytes sep (l ++ [sep])%list = (split_bytes sep l ++ [[]])%list.
Proof.
  induction l as [|b l IH]; cbn [split_bytes app]; [by rewrite Z.eqb_refl|]. rewrite IH.
  destruct (b =? sep); [done|]. by destruct (split_bytes_cons sep l) as (piece & pieces & ->).
Qed.

Lemma ends_with_slash s : ends_with "/" s = true -> "" ∈ split 47 s.
Proof.
  unfold ends_with, split. rewrite bool_decide_eq_true.
  change (bytes "/") with [47]. intros Hd.
  rewrite <- (take_drop (String.length s - String.length "/") (bytes s)), Hd, split_bytes_final, fmap_app.
  apply elem_of_app. right. apply elem_of_cons. by left.
Qed.

(** A name is accepted exactly when it is a text of one to 200 bytes without
    backslashes and control characters whose components are proper names: joined
    to a directory it stays below that directory. *)
Theorem asset_name_stays_below name :
  validate_asset_name name = Ok tt <->
  (0 < len name <= 200) /\ contains "\" name = false /\ any_char is_control name = false
  /\ Forall (fun c => c <> "" /\ c <> "." /\ c <> "..") (split 47 name).
Proof.
  unfold validate_asset_name.
  assert (Forall (fun c => c <> "" /\ c <> "." /\ c <> "..") (split 47 name) <->
    existsb (fun component => bool_decide (component = "") || bool_decide (component = ".")
                              || bool_decide (component = "..")) (split 47 name) = false) as Hcomp.
  { induction (split 47 name) as [|c l IH]; cbn; [done|]. rewrite Forall_cons, IH, orb_false_iff.
    repeat case_bool_decide; cbn; naive_solver. }
  assert (bool_decide (name = "") = false <-> 0 < len name) as Hempty.
  { rewrite bool_decide_eq_false. unfold len.
    destruct name; cbn [String.length]; (split; [intros Hn|intros Hn Heq]); [by destruct Hn|lia|lia|done]. }
  split.
  - destruct (_ || _ || _ || _ || _ || _) eqn:Ho; [done|]. destruct (existsb _ _) eqn:He; [done|]. intros _.
    bools. rewrite Hcomp. split_and!; [by apply Hempty, bool_decide_eq_false_2|lia|done|done|done].
  - intros ([Hpos Hlen] & Hback & Hctl & Hall).
    assert (starts_with "/" name = false) as Hs.
    { destruct (starts_with "/" name) eqn:Hs; [|done]. apply starts_with_slash in Hs as [rest Hr].
      rewrite Hr in Hall. by apply Forall_cons in Hall as [[? _] _]. }
    assert (ends_with "/" name = false) as Hends.
    { destruct (ends_with "/" name) eqn:He; [|done]. apply ends_with_slash in He.
      rewrite Forall_forall in Hall. by destruct (Hall _ He). }
    rewrite (proj2 Hempty Hpos), Hs, Hends, Hback, Hctl, (proj2 (Z.ltb_ge 200 (len name)) Hlen). cbn [orb].
    by rewrite (proj1 Hcomp Hall).
Qed.

(** The digest binds the name as well as the content: two assets with one digest
    have one name and one content, or the hash has a collision on two different
    texts. *)
Theorem asset_digest_binds_name `{Blake3Laws} name path content name' path' content' read text :
  asset_digest [name; path] read = Ok text -> asset_digest [name'; path'] read = Ok text ->
  read path = Some content -> read path' = Some content' ->
  Z.of_nat (List.length content) <= u64_max -> Z.of_nat (List.length content') <= u64_max ->
  (name = name' /\ content = content')
  \/ (digest_frames [bytes name; content] <> digest_frames [bytes name'; content']
      /\ blake3_derive_key PRODUCT_RELEASE_ASSET_DOMAIN (digest_frames [bytes name; content])
         = blake3_derive_key PRODUCT_RELEASE_ASSET_DOMAIN (digest_frames [bytes name'; content'])).
Proof.
  assert (forall n p c t, asset_digest [n; p] read = Ok t -> read p = Some c ->
    len n <= 200 /\ t = ContentDigest_to_string (ContentDigest_derive PRODUCT_RELEASE_ASSET_DOMAIN [bytes n; c]))
    as Hdigest.
  { intros n p c t. unfold asset_digest. destruct (negb _); [done|].
    intros ([] & Hn%asset_name_stays_below & Hk)%result_bind_Ok Hread.
    rewrite Hread in Hk. injection Hk as <-. split; [apply Hn|done]. }
  intros Ht Ht' Hr Hr' Hc Hc'. apply (Hdigest _ _ _ _ Ht) in Hr as [Hn Heq].
  apply (Hdigest _ _ _ _ Ht') in Hr' as [Hn' Heq']. rewrite Heq in Heq'.
  apply content_digest_to_string_inj in Heq'. injection Heq' as Hhash.
  destruct (decide (digest_frames [bytes name; content] = digest_frames [bytes name'; content']))
    as [Hf|Hf]; [left|by right].
  apply digest_frames_inj in Hf.
  - injection Hf as Hb Hcc. split; [by apply bytes_inj|done].
  - repeat constructor; [|done]. unfold len in Hn. rewrite length_bytes. unfold u64_max. lia.
  - repeat constructor; [|done]. unfold len in Hn'. rewrite length_bytes. unfold u64_max. lia.
Qed.
