(* ===== verification/RuntimeArtifacts.v ===== *)
(** * Runtime binaries

    [apps/operator-cli/src/artifacts.rs]: the command that builds the phone's
    programs, fetches the pinned archives of the proxy and installs its two
    binaries into the repository.  The files are those of [FileTree] with the
    bytes they hold; [curl], [tar], [cargo] and the fetched binary itself are
    programs, and what they do to the files is a class. *)

From stdpp Require Import base gmap strings list fin_maps.
From Stdlib Require Import ZArith Lia Ascii String.
From S2P Require Import Prelude Text Foundation NetText FileTree Shell ReleaseIntegrity.
Local Open Scope string_scope.
Local Open Scope Z_scope.

Abbreviation Disk := (Files (list Z)).

(** Running a program: nothing when it cannot be started. *)
Class Programs := execute : Invocation -> Disk -> option Output * Disk.

(** The names in a directory, in the order [fs::read_dir] gives them; nothing
    when it cannot be read to the end. *)
Class ReadDir := read_dir : Components -> Disk -> option (list (list Z)).

Inductive ArtifactIo := ReadFile | MakeDirectory | CopyFile | RenameFile | RemoveFile | SetMode | CreateFile.

Module Desk.
(** The repository's root, which operations on which path succeed, and what a
    copy that failed has written. *)
Record t := mk {
  repo : Components;
  io_ok : ArtifactIo -> Components -> bool;
  cut_short : list Z;
}.
End Desk.

Inductive ArtifactError :=
| MissingFile | IoFailed | WrongElfHeader | InvalidLock | UnsupportedSchema | VersionNotPinned
| MissingTarget | SizeMismatch | DigestMismatch | NotStarted | CommandFailed | BinaryNotFound
| VersionNotUtf8 | VersionDiffers.

Abbreviation Install := (Fallible Disk ArtifactError).

(** A path below another. *)
Definition below (root : Components) (relative : string) : Components :=
  (root ++ components relative)%list.

(** ** ELF headers *)

(** The first twenty bytes; [header[0..4]], [header[5]] and [header[18..20]]. *)
Definition elf_machine (expected_machine : Z) (content : list Z) : bool :=
  (20 <=? Z.of_nat (List.length content))
  && bool_decide (take 4 content = [127; 69; 76; 70])
  && bool_decide (content !! 5%nat = Some 1)
  && bool_decide (nth 18 content 0 + 256 * nth 19 content 0 = expected_machine).

(** ** The lock *)

Record SingBoxArtifact `{Blake3} := mk_sing_box_artifact {
  artifact_size : Z;
  artifact_digest : ContentDigest;
}.
Arguments mk_sing_box_artifact {_}.

Record SingBoxArtifactLock `{Blake3} := mk_lock {
  lock_schema_version : Z;
  lock_version : string;
  lock_artifacts : gmap string SingBoxArtifact;
}.
Arguments mk_lock {_}.

(** [serde_json::from_slice] of the lock. *)
Class LockJson `{Blake3} := lock_from_json : list Z -> option SingBoxArtifactLock.

Definition ANDROID_TARGET : string := "armv7-linux-androideabi".

Module PrepareArgs.
Record t := mk {
  sing_box_version : string;
  sing_box_lock_file : string;
  android_ndk : string;
  skip_android_rust_build : bool;
  skip_sing_box_download : bool;
}.
End PrepareArgs.

Section Artifacts.
Context `{Blake3, !LockJson, !Programs, !ReadDir} (d : Desk.t).
Local Open Scope rust_scope.

Abbreviation repo := (Desk.repo d).

(** ** Files *)

Definition is_file (p : Components) : Install bool :=
  let! fs := get_state in yield (is_some (regular fs p)).

Definition ensure_file (p : Components) : Install unit :=
  let! found := is_file p in guard found MissingFile.

(** [fs::read] *)
Definition read_bytes (p : Components) : Install (list Z) :=
  let! _ := guard (Desk.io_ok d ReadFile p) IoFailed in
  let! fs := get_state in
  lift (ok_or (regular fs p) IoFailed).

(** [fs::create_dir_all]: only whether it succeeds matters here. *)
Definition create_dir_all (p : Components) : Install unit := guard (Desk.io_ok d MakeDirectory p) IoFailed.

Definition write_bytes (p : Components) (content : list Z) : Install unit :=
  let! fs := get_state in put_state (<[p := Regular content]> fs).

(** [fs::copy]: truncates its target first. *)
Definition copy (from to : Components) : Install unit :=
  let! content := read_bytes from in
  let! fs := get_state in
  let! _ := guard (negb (is_directory fs to)) IoFailed in
  let! _ := write_bytes to (if Desk.io_ok d CopyFile to then content else Desk.cut_short d) in
  guard (Desk.io_ok d CopyFile to) IoFailed.

Definition rename_path (from to : Components) : Install unit :=
  let! _ := guard (Desk.io_ok d RenameFile to) IoFailed in
  let! fs := get_state in
  let! fs' := lift (ok_or (rename from to fs) IoFailed) in
  put_state fs'.

Definition set_executable (p : Components) : Install unit :=
  let! fs := get_state in
  guard (exists_at fs p && Desk.io_ok d SetMode p) IoFailed.

(** ** Programs *)

Definition output (i : Invocation) : Install Output :=
  fun fs => match execute i fs with
            | (Some o, fs') => (Ok o, fs')
            | (None, fs') => (Err NotStarted, fs')
            end.

Definition run (i : Invocation) : Install unit :=
  let! o := output i in guard (succeeded o) CommandFailed.

Definition ensure_elf_machine (p : Components) (expected_machine : Z) : Install unit :=
  let! _ := ensure_file p in
  let! content := read_bytes p in
  let! _ := guard (20 <=? Z.of_nat (List.length content)) IoFailed in
  guard (elf_machine expected_machine content) WrongElfHeader.

Definition verify_runtime_binaries : Install unit :=
  let! _ := ensure_elf_machine (below repo "deploy/device-runtime/bin/runtime-supervisor") 40 in
  let! _ := ensure_elf_machine (below repo "deploy/device-runtime/bin/host-daemon") 40 in
  let! _ := ensure_elf_machine (below repo "deploy/device-runtime/bin/sing-box") 40 in
  ensure_elf_machine (below repo "deploy/vm-runtime/bin/sing-box") 62.

(** ** Archives *)

Definition load_sing_box_lock (p : Components) (requested_version : string) : Install SingBoxArtifactLock :=
  let! content := read_bytes p in
  let! lock := lift (ok_or (lock_from_json content) InvalidLock) in
  let! _ := guard (lock_schema_version lock =? 1) UnsupportedSchema in
  let! _ := guard (bool_decide (lock_version lock = requested_version)) VersionNotPinned in
  yield lock.

Definition required_artifact (lock : SingBoxArtifactLock) (target : string) : Install SingBoxArtifact :=
  lift (ok_or (lock_artifacts lock !! target) MissingTarget).

Definition archive_digest (content : list Z) : ContentDigest :=
  ContentDigest_derive SING_BOX_ARCHIVE_DOMAIN [content].

Definition content_digest_file (p : Components) : Install ContentDigest :=
  let! content := read_bytes p in yield (archive_digest content).

(** [fs::metadata(path)?.len()] *)
Definition file_len (p : Components) : Install Z :=
  let! fs := get_state in
  match fs !! p with
  | Some (Regular content) => yield (Z.of_nat (List.length content))
  | Some Directory => yield 0
  | None => bail IoFailed
  end.

Definition archive_matches (p : Components) (expected : SingBoxArtifact) : Install bool :=
  let! found := is_file p in
  if negb found then yield false
  else
    let! size := file_len p in
    if negb (size =? artifact_size expected) then yield false
    else
      let! digest := content_digest_file p in
      yield (bool_decide (digest = artifact_digest expected)).

Definition verify_archive (p : Components) (expected : SingBoxArtifact) : Install unit :=
  let! actual_size := file_len p in
  let! _ := guard (actual_size =? artifact_size expected) SizeMismatch in
  let! actual_digest := content_digest_file p in
  guard (bool_decide (actual_digest = artifact_digest expected)) DigestMismatch.

(** Everything below a directory, and whether there is anything. *)
Definition inside (root p : Components) : bool := bool_decide (take (List.length root) p = root).
Definition exists_dir (fs : Disk) (root : Components) : bool :=
  existsb (fun e => inside root e.1) (map_to_list fs).
Definition remove_below (root : Components) (fs : Disk) : Disk :=
  filter (fun e => inside root e.1 = false) fs.

(** [path.is_dir()] *)
Definition is_dir (fs : Disk) (p : Components) : bool :=
  negb (is_some (regular fs p)) && exists_dir fs p.

(** [find_file_named]; the fuel bounds the depth of the tree. *)
Fixpoint find_file_named (fuel : nat) (fs : Disk) (root : Components) (name : list Z) : option Components :=
  match fuel with
  | O => None
  | S fuel' =>
      names ← read_dir root fs;
      (fix go (names : list (list Z)) : option Components :=
         match names with
         | [] => None
         | n :: rest =>
             let p := (root ++ [n])%list in
             if is_dir fs p then
               match find_file_named fuel' fs p name with
               | Some found => Some found
               | None => go rest
               end
             else if bool_decide (n = name) then Some p else go rest
         end) names
  end.

(** Deeper than any path. *)
Definition depth (fs : Disk) : nat := S (foldr (fun e n => Nat.max (List.length e.1) n) O (map_to_list fs)).

Definition archive_name (version target : string) : string :=
  "sing-box-" ++ version ++ "-" ++ target ++ ".tar.gz".
Definition archive_url (version target : string) : string :=
  "https://github.com/SagerNet/sing-box/releases/download/v" ++ version ++ "/"
  ++ archive_name version target.

Definition remove_path (p : Components) : Install unit :=
  let! fs := get_state in
  let! _ := guard (is_some (regular fs p) && Desk.io_ok d RemoveFile p) IoFailed in
  put_state (delete p fs).

Definition download_and_extract_sing_box (cache : Components) (version target : string)
    (expected : SingBoxArtifact) : Install Components :=
  let archive := below cache (archive_name version target) in
  let extract_dir := below cache ("sing-box-" ++ version ++ "-" ++ target) in
  let! matches := archive_matches archive expected in
  let! _ :=
    if matches then yield tt
    else
      let download := below cache (archive_name version target ++ ".download") in
      let! fs := get_state in
      let! _ := if exists_at fs download then remove_path download else yield tt in
      let! _ := run (command (Word "curl") (words ["-fL"; "--retry"; "3"; "-o"] ++ [AtPath download; Word (archive_url version target)])%list) in
      let! _ := verify_archive download expected in
      rename_path download archive in
  let! _ := verify_archive archive expected in
  let! fs := get_state in
  let! _ :=
    if exists_dir fs extract_dir then
      let! _ := guard (negb (is_some (regular fs extract_dir)) && Desk.io_ok d RemoveFile extract_dir) IoFailed in
      put_state (remove_below extract_dir fs)
    else yield tt in
  let! _ := create_dir_all extract_dir in
  let! _ := run (command (Word "tar") [Word "-xzf"; AtPath archive; Word "-C"; AtPath extract_dir]) in
  let! fs := get_state in
  let! binary := lift (ok_or (find_file_named (depth fs) fs extract_dir (bytes "sing-box")) BinaryNotFound) in
  let! _ := set_executable binary in
  yield binary.

(** ** Trying the candidate *)

Definition verify_sing_box_version (binary : Components) (expected_version : string) : Install unit :=
  let! o := output (command (AtPath binary) [Word "version"]) in
  let! _ := guard (succeeded o) CommandFailed in
  let! _ := guard (valid_utf8 (stdout o)) VersionNotUtf8 in
  guard (existsb (fun line => bool_decide (trim line = "sing-box version " ++ expected_version))
           (lines (of_bytes (stdout o)))) VersionDiffers.

Definition direct_outbound : string :=
  "{" ++ double_quote ++ "type" ++ double_quote ++ ":" ++ double_quote ++ "direct" ++ double_quote ++ ","
  ++ double_quote ++ "tag" ++ double_quote ++ ":" ++ double_quote ++ "direct" ++ double_quote ++ "}".

Definition render_preflight (template : string) : string :=
  replace "{{SING_BOX_FINAL_OUTBOUND}}" "direct"
    (replace "{{PROXY_OUTBOUND}}" direct_outbound
       (replace "{{RELAY_PASSWORD}}" "preflight-password"
          (replace "{{RELAY_USER}}" "preflight-user"
             (replace "{{SING_BOX_LISTEN_HOST}}" "127.0.0.1" template)))).

Definition verify_sing_box_config (binary cache : Components) : Install unit :=
  let! template := read_bytes (below repo "deploy/device-runtime/templates/sing-box.base.json") in
  let! _ := guard (valid_utf8 template) IoFailed in
  let config := below cache "sing-box-preflight.json" in
  let! fs := get_state in
  let! _ := guard (negb (is_directory fs config) && Desk.io_ok d CreateFile config) IoFailed in
  let! _ := write_bytes config (bytes (render_preflight (of_bytes template))) in
  run (command (AtPath binary) [Word "check"; Word "-c"; AtPath config]).

(** ** Installing *)

(** [atomic_install] into [directory]: [destination] is its [sing-box]. *)
Definition atomic_install (candidate directory : Components) : Install unit :=
  let destination := below directory "sing-box" in
  let! _ := create_dir_all directory in
  let staged := below directory "sing-box.candidate" in
  let rollback := below directory "sing-box.rollback" in
  let! _ := copy candidate staged in
  let! _ := set_executable staged in
  let! installed := is_file destination in
  let! _ :=
    if installed then
      let! _ := copy destination rollback in set_executable rollback
    else yield tt in
  rename_path staged destination.

Definition device_bin : Components := below repo "deploy/device-runtime/bin".
Definition vm_bin : Components := below repo "deploy/vm-runtime/bin".

Definition install_sing_box (version : string) (lock_path : Components) : Install unit :=
  let! lock := load_sing_box_lock lock_path version in
  let cache := below repo "target/artifacts/sing-box" in
  let! _ := create_dir_all cache in
  let! _ := create_dir_all device_bin in
  let! _ := create_dir_all vm_bin in
  let! android := required_artifact lock "android-arm" in
  let! android_candidate := download_and_extract_sing_box cache version "android-arm" android in
  let! vm := required_artifact lock "linux-amd64-glibc" in
  let! vm_candidate := download_and_extract_sing_box cache version "linux-amd64-glibc" vm in
  let! _ := ensure_elf_machine android_candidate 40 in
  let! _ := ensure_elf_machine vm_candidate 62 in
  let! _ := verify_sing_box_version vm_candidate version in
  let! _ := verify_sing_box_config vm_candidate cache in
  let! _ := atomic_install android_candidate device_bin in
  atomic_install vm_candidate vm_bin.

(** ** The phone's own programs *)

Definition ndk_tool (args : PrepareArgs.t) (name : string) : string :=
  PrepareArgs.android_ndk args ++ "/toolchains/llvm/prebuilt/linux-x86_64/bin/" ++ name.

Definition build_android_rust (args : PrepareArgs.t) : Install unit :=
  let clang := ndk_tool args "armv7a-linux-androideabi23-clang" in
  let ar := ndk_tool args "llvm-ar" in
  let! _ := ensure_file (resolve repo clang) in
  let! _ := ensure_file (resolve repo ar) in
  let! _ := run (command (Word "rustup") (words ["target"; "add"; ANDROID_TARGET])) in
  run (mk_invocation (Word "cargo")
         (words ["build"; "-p"; "runtime-supervisor"; "-p"; "host-daemon"; "--target"; ANDROID_TARGET])
         [("CC_armv7_linux_androideabi", clang); ("AR_armv7_linux_androideabi", ar);
          ("CARGO_TARGET_ARMV7_LINUX_ANDROIDEABI_LINKER", clang)] "").

Definition install_android_rust_binaries (args : PrepareArgs.t) : Install unit :=
  let target_dir := below repo ("target/" ++ ANDROID_TARGET ++ "/debug") in
  let! _ := create_dir_all device_bin in
  let! _ := copy (below target_dir "runtime-supervisor") (below device_bin "runtime-supervisor") in
  let! _ := copy (below target_dir "host-daemon") (below device_bin "host-daemon") in
  let strip := ndk_tool args "llvm-strip" in
  let! found := is_file (resolve repo strip) in
  if found then
    run (command (Word strip) [AtPath (below device_bin "runtime-supervisor");
                        AtPath (below device_bin "host-daemon")])
  else yield tt.

Definition prepare_runtime_binaries (args : PrepareArgs.t) : Install unit :=
  let! _ :=
    if negb (PrepareArgs.skip_android_rust_build args) then
      let! _ := build_android_rust args in install_android_rust_binaries args
    else yield tt in
  let! _ :=
    if negb (PrepareArgs.skip_sing_box_download args) then
      install_sing_box (PrepareArgs.sing_box_version args)
        (resolve repo (PrepareArgs.sing_box_lock_file args))
    else yield tt in
  verify_runtime_binaries.
End Artifacts.

(** * Installed binaries are the pinned ones

    Whatever fails, the installed proxy binaries are the old ones or complete
    new ones; an installation that succeeds has put in place, for the phone and
    for the relay, a file extracted into an empty directory from an archive with
    the pinned length and digest. *)

(** ** Paths *)

Lemma inside_app root p : inside root (root ++ p)%list = true.
Proof. unfold inside. rewrite take_app_length. by apply bool_decide_true. Qed.

Lemma inside_true root p : inside root p = true <-> exists q, p = (root ++ q)%list.
Proof.
  unfold inside. rewrite bool_decide_eq_true. split.
  - intros Ht. exists (drop (List.length root) p). rewrite <- Ht at 1. symmetry. apply take_drop.
  - intros [q ->]. apply take_app_length.
Qed.

(** The pieces of a text to which suffixes without a separator are put. *)
Lemma components_suffixed a :
  exists pre last, forall s, Forall (fun b => b <> 47) (bytes s) -> (1 < List.length (bytes s))%nat ->
    components (a ++ s) = (pre ++ [(last ++ bytes s)%list])%list.
Proof.
  destruct (split_bytes_app 47 (bytes a) [] (List.Forall_nil _)) as (pieces & piece & Hs & _).
  exists (List.filter (fun piece => negb (bool_decide (piece = [])) && negb (bool_decide (piece = [46]))) pieces), piece.
  intros s Hs47 Hlen. unfold components. rewrite bytes_app.
  destruct (split_bytes_app 47 (bytes a) (bytes s) Hs47) as (pieces' & piece' & Hs' & ->).
  rewrite Hs in Hs'. apply app_inj_tail in Hs' as [<- <-]. rewrite List.filter_app. f_equal. cbn [List.filter].
  destruct (bytes s) as [|b [|b' rest]]; [simpl in Hlen; lia..|].
  rewrite !bool_decide_false; [done| |]; intros Hx; apply (f_equal List.length) in Hx;
    rewrite length_app in Hx; simpl in Hx; lia.
Qed.

(** ** Computations that leave a file alone *)

Section Leaves.
Context {A : Type}.

(** Whatever the outcome, the entry at the path is the one before. *)
Definition leaves {A} (p : Components) (m : Install A) : Prop := forall fs, (m fs).2 !! p = fs !! p.
End Leaves.

Section LeavesLemmas.
Context (p : Components).

Lemma leaves_yield {A} (a : A) : leaves p (yield a).
Proof. done. Qed.
Lemma leaves_bail {A} e : leaves p (bail (A := A) e).
Proof. done. Qed.
Lemma leaves_lift {A} (r : result A ArtifactError) : leaves p (lift r).
Proof. done. Qed.
Lemma leaves_get : leaves p get_state.
Proof. done. Qed.
Lemma leaves_guard b e : leaves p (guard b e).
Proof. by destruct b. Qed.

Lemma leaves_then {A B} (m : Install A) (k : A -> Install B) :
  leaves p m -> (forall a, leaves p (k a)) -> leaves p (and_then m k).
Proof.
  intros Hm Hk fs. unfold and_then. specialize (Hm fs). destruct (m fs) as [[a|e] fs']; cbn [snd] in *; [|done].
  by rewrite Hk.
Qed.

(** A continuation of the state that is written back. *)
Lemma leaves_get_then {B} (k : Disk -> Install B) :
  (forall fs, (k fs fs).2 !! p = fs !! p) -> leaves p (and_then get_state k).
Proof. done. Qed.

Lemma leaves_write q content : p <> q -> leaves p (write_bytes q content).
Proof. intros Hne fs. cbn. by rewrite lookup_insert_ne. Qed.
End LeavesLemmas.

Create HintDb leaves.
#[export] Hint Resolve leaves_yield leaves_bail leaves_lift leaves_get leaves_guard leaves_write : leaves.

Ltac leaves :=
  repeat first
    [ progress intros
    | solve [auto with leaves]
    | simple apply leaves_then
    | match goal with |- leaves _ (if ?b then _ else _) => destruct b end ].

Section ArtifactFiles.
Context `{Blake3, !LockJson, !Programs, !ReadDir} (d : Desk.t).

Lemma leaves_is_file p q : leaves p (is_file q).
Proof. unfold is_file. leaves. Qed.
#[local] Hint Resolve leaves_is_file : leaves.
Lemma leaves_ensure_file p q : leaves p (ensure_file q).
Proof. unfold ensure_file. leaves. Qed.
Lemma leaves_read p q : leaves p (read_bytes d q).
Proof. unfold read_bytes. leaves. Qed.
Lemma leaves_create_dir p q : leaves p (create_dir_all d q).
Proof. unfold create_dir_all. leaves. Qed.
Lemma leaves_set_executable p q : leaves p (set_executable d q).
Proof. unfold set_executable. leaves. Qed.
Lemma leaves_file_len p q : leaves p (file_len q).
Proof. unfold file_len. leaves. destruct (_ !! q) as [[content|]|]; leaves. Qed.
#[local] Hint Resolve leaves_ensure_file leaves_read leaves_create_dir leaves_set_executable leaves_file_len : leaves.

Lemma leaves_copy p from to : p <> to -> leaves p (copy d from to).
Proof. intros Hne. unfold copy. leaves. Qed.

Lemma leaves_rename p from to : p <> from -> p <> to -> leaves p (rename_path d from to).
Proof.
  intros Hf Ht fs. unfold rename_path, and_then, guard. destruct (Desk.io_ok _ _ _); [|done].
  cbn. unfold rename. destruct (fs !! from) as [[content|]|]; cbn; [|done|done].
  destruct (fs !! to) as [[|]|]; cbn; try done; by rewrite lookup_insert_ne, lookup_delete_ne.
Qed.

Lemma leaves_remove_path p q : p <> q -> leaves p (remove_path d q).
Proof.
  intros Hne fs. unfold remove_path, and_then, guard, get_state. destruct (_ && _); [|done].
  cbn. by rewrite lookup_delete_ne.
Qed.
#[local] Hint Resolve leaves_copy leaves_rename leaves_remove_path : leaves.

(** ** What the programs write *)

(** [curl -o] writes its output file, [tar -C] below its directory, and sing-box
    nothing when it prints its version or checks a configuration. *)
Class ProgramsWrite : Prop := {
  curl_writes url download fs p : p <> download ->
    (execute (command (Word "curl") (words ["-fL"; "--retry"; "3"; "-o"] ++ [AtPath download; Word url])%list) fs).2 !! p = fs !! p;
  tar_writes archive directory fs p : inside directory p = false ->
    (execute (command (Word "tar") [Word "-xzf"; AtPath archive; Word "-C"; AtPath directory]) fs).2 !! p = fs !! p;
  version_writes binary fs p : (execute (command (AtPath binary) [Word "version"]) fs).2 !! p = fs !! p;
  check_writes binary config fs p :
    (execute (command (AtPath binary) [Word "check"; Word "-c"; AtPath config]) fs).2 !! p = fs !! p;
}.
Context `{!ProgramsWrite}.

Lemma leaves_output p i : (forall fs, (execute i fs).2 !! p = fs !! p) -> leaves p (output i).
Proof. intros Hi fs. unfold output. specialize (Hi fs). by destruct (execute i fs) as [[o|] fs']. Qed.

Lemma leaves_run p i : (forall fs, (execute i fs).2 !! p = fs !! p) -> leaves p (run i).
Proof. intros Hi. unfold run. leaves. by apply leaves_output. Qed.

Lemma leaves_candidate p binary config :
  leaves p (run (command (AtPath binary) [Word "check"; Word "-c"; AtPath config])).
Proof. apply leaves_run. intros fs. apply check_writes. Qed.

(** ** Installing *)

Abbreviation destination_of directory := (below directory "sing-box").

Lemma install_paths directory :
  destination_of directory <> below directory "sing-box.candidate"
  /\ destination_of directory <> below directory "sing-box.rollback"
  /\ below directory "sing-box.candidate" <> below directory "sing-box.rollback".
Proof. unfold below. split_and!; intros Heq; apply app_inv_head in Heq; discriminate. Qed.

(** A path outside the directory is not written. *)
Lemma leaves_install p candidate directory :
  inside directory p = false -> leaves p (atomic_install d candidate directory).
Proof.
  intros Hp. assert (forall name, p <> below directory name) as Hne.
  { intros name ->. unfold below in Hp. by rewrite inside_app in Hp. }
  unfold atomic_install. leaves.
Qed.

Lemma copy_Ok from to fs fs' :
  copy d from to fs = (Ok tt, fs') ->
  exists content, regular fs from = Some content /\ fs' = <[to := Regular content]> fs.
Proof.
  unfold copy, read_bytes. rewrite !and_then_Ok. intros (content & fs1 & Hr & Hrest).
  apply and_then_Ok in Hr as ([] & fs2 & Hg & Hr). apply guard_Ok in Hg as (_ & _ & ->).
  cbn in Hr. destruct (regular fs from) as [c|]; [|done]. injection Hr as <- <-. exists c. split; [done|].
  cbn in Hrest. revert Hrest. unfold and_then, guard, write_bytes. cbn.
  destruct (is_directory fs to); [done|]. cbn. destruct (Desk.io_ok d CopyFile to); cbn; [by intros [= <-]|done].
Qed.

(** The destination is the old file or, complete, the candidate. *)
Lemma atomic_install_cases candidate directory fs out fs' :
  inside directory candidate = false ->
  atomic_install d candidate directory fs = (out, fs') ->
  (is_ok out = false /\ fs' !! destination_of directory = fs !! destination_of directory)
  \/ (out = Ok tt /\ exists content, regular fs candidate = Some content
       /\ fs' !! destination_of directory = Some (Regular content)).
Proof.
  intros Hc. destruct (install_paths directory) as (Hds & Hdr & Hsr).
  set (dest := destination_of directory) in *. set (staged := below directory "sing-box.candidate") in *.
  set (rollback := below directory "sing-box.rollback") in *.
  intros Hrun. unfold atomic_install in Hrun. fold dest staged rollback in Hrun.
  (* every step before the last leaves the destination *)
  set (prepare := and_then (create_dir_all d directory) (fun _ => and_then (copy d candidate staged) (fun _ =>
    and_then (set_executable d staged) (fun _ => and_then (is_file dest) (fun installed =>
      if installed then and_then (copy d dest rollback) (fun _ => set_executable d rollback) else yield tt))))).
  assert (and_then prepare (fun _ => rename_path d staged dest) fs = (out, fs')) as Hrun'.
  { rewrite <- Hrun. unfold prepare, and_then. by repeat case_match; simplify_eq. }
  assert (leaves dest prepare) as Hl by (unfold prepare; leaves).
  unfold and_then in Hrun' at 1. specialize (Hl fs).
  destruct (prepare fs) as [[[]|e] fs1] eqn:Hp; cbn [snd] in Hl; [|injection Hrun' as <- <-; by left].
  assert (exists content, regular fs candidate = Some content /\ regular fs1 staged = Some content)
    as (content & Hcand & Hstaged).
  { unfold prepare in Hp. apply and_then_Ok in Hp as ([] & f1 & Hcd & Hp).
    apply guard_Ok in Hcd as (_ & _ & ->). apply and_then_Ok in Hp as ([] & f2 & Hcp & Hp).
    apply copy_Ok in Hcp as (content & Hcand & ->). exists content. split; [done|].
    match type of Hp with ?m ?f = _ => assert (leaves staged m) as Hl2 by leaves; specialize (Hl2 f) end.
    rewrite Hp in Hl2. cbn [snd] in Hl2. unfold regular. by rewrite Hl2, lookup_insert_eq. }
  revert Hrun'. unfold rename_path, and_then, guard. destruct (Desk.io_ok d RenameFile dest); cbn;
    [|intros [= <- <-]; by left].
  unfold rename. unfold regular in Hstaged. destruct (fs1 !! staged) as [[c|]|]; [|done|done].
  injection Hstaged as ->. destruct (fs1 !! dest) as [[c|]|] eqn:Hd1; cbn; intros [= <- <-]; try (left; by rewrite Hd1);
    right; (split; [done|]); exists content; by rewrite lookup_insert_eq.
Qed.

(** ** Downloads *)

Abbreviation archive_of cache version target := (below cache (archive_name version target)).
Abbreviation download_of cache version target := (below cache (archive_name version target ++ ".download")).
Abbreviation extract_of cache version target := (below cache ("sing-box-" ++ version ++ "-" ++ target)).

Lemma leaves_archive_matches p q expected : leaves p (archive_matches d q expected).
Proof. unfold archive_matches, content_digest_file. leaves. Qed.
Lemma leaves_verify_archive p q expected : leaves p (verify_archive d q expected).
Proof. unfold verify_archive, content_digest_file. leaves. Qed.
#[local] Hint Resolve leaves_archive_matches leaves_verify_archive leaves_candidate : leaves.

Lemma remove_below_lookup root fs p : inside root p = false -> remove_below root fs !! p = fs !! p.
Proof.
  intros Hp. unfold remove_below. destruct (fs !! p) as [e|] eqn:He.
  - apply map_lookup_filter_Some. by split.
  - apply map_lookup_filter_None. by left.
Qed.

Definition clean (root : Components) : Install unit :=
  and_then get_state (fun fs => if exists_dir fs root
    then and_then (guard (negb (is_some (regular fs root)) && Desk.io_ok d RemoveFile root) IoFailed) (fun _ => put_state (remove_below root fs))
    else yield tt).

Lemma leaves_clean root p : inside root p = false -> leaves p (clean root).
Proof.
  intros Hp fs. unfold clean, and_then, get_state, guard. destruct (exists_dir fs root); [|done].
  destruct (negb _ && _); [|done]. cbn. by apply remove_below_lookup.
Qed.

(** The three parts of a download. *)
Definition fetch_part (cache : Components) (version target : string) (expected : SingBoxArtifact) : Install unit :=
  and_then (archive_matches d (archive_of cache version target) expected) (fun matches =>
    if matches then yield tt
    else and_then get_state (fun fs =>
      and_then (if exists_at fs (download_of cache version target)
                then remove_path d (download_of cache version target) else yield tt) (fun _ =>
      and_then (run (command (Word "curl") (words ["-fL"; "--retry"; "3"; "-o"] ++ [AtPath (download_of cache version target); Word (archive_url version target)])%list)) (fun _ =>
      and_then (verify_archive d (download_of cache version target) expected) (fun _ =>
        rename_path d (download_of cache version target) (archive_of cache version target)))))).

Definition clean_part (cache : Components) (version target : string) (expected : SingBoxArtifact) : Install unit :=
  and_then (verify_archive d (archive_of cache version target) expected) (fun _ =>
  and_then (clean (extract_of cache version target)) (fun _ =>
  create_dir_all d (extract_of cache version target))).

Definition extract_part (cache : Components) (version target : string) : Install Components :=
  and_then (run (command (Word "tar") [Word "-xzf"; AtPath (archive_of cache version target); Word "-C"; AtPath (extract_of cache version target)])) (fun _ =>
  and_then get_state (fun fs =>
  and_then (lift (ok_or (find_file_named (depth fs) fs (extract_of cache version target) (bytes "sing-box"))
                    BinaryNotFound)) (fun binary =>
  and_then (set_executable d binary) (fun _ => yield binary)))).

Lemma download_parts cache version target expected fs :
  download_and_extract_sing_box d cache version target expected fs
  = and_then (fetch_part cache version target expected) (fun _ =>
      and_then (clean_part cache version target expected) (fun _ => extract_part cache version target)) fs.
Proof.
  unfold download_and_extract_sing_box, fetch_part, clean_part, clean, extract_part, and_then.
  by repeat case_match; simplify_eq.
Qed.

Lemma leaves_parts p cache version target expected :
  p <> archive_of cache version target -> p <> download_of cache version target ->
  inside (extract_of cache version target) p = false ->
  leaves p (download_and_extract_sing_box d cache version target expected).
Proof.
  intros Ha Hd Hx fs. rewrite download_parts. revert fs.
  change (leaves p (and_then (fetch_part cache version target expected) (fun _ =>
      and_then (clean_part cache version target expected) (fun _ => extract_part cache version target)))).
  unfold fetch_part, clean_part, extract_part. leaves.
  - apply leaves_run. intros fs. by apply curl_writes.
  - by apply leaves_clean.
  - apply leaves_run. intros fs. by apply tar_writes.
Qed.

(** ** What a download gives *)

Definition pinned_archive (expected : SingBoxArtifact) (content : list Z) : Prop :=
  Z.of_nat (List.length content) = artifact_size expected /\ archive_digest content = artifact_digest expected.

(** [binary] is a file of what [tar] made of a pinned archive in an empty
    directory. *)
Record extraction (cache : Components) (version target : string) (expected : SingBoxArtifact)
    (binary : Components) (fs2 : Disk) : Prop := {
  extraction_run : exists fs1 archive o,
    regular fs1 (archive_of cache version target) = Some archive /\ pinned_archive expected archive
    /\ (forall p, inside (extract_of cache version target) p = true -> fs1 !! p = None)
    /\ execute (command (Word "tar") [Word "-xzf"; AtPath (archive_of cache version target); Word "-C"; AtPath (extract_of cache version target)]) fs1 = (Some o, fs2)
    /\ succeeded o = true;
  extraction_binary : exists name, name <> [] /\ binary = (extract_of cache version target ++ name)%list;
}.

Lemma file_len_Ok p fs size fs' content :
  regular fs p = Some content -> file_len p fs = (Ok size, fs') ->
  size = Z.of_nat (List.length content) /\ fs' = fs.
Proof.
  unfold file_len, regular, and_then, get_state. destruct (fs !! p) as [[c|]|]; [|done|done].
  intros [= ->] [= <- <-]. done.
Qed.

Lemma read_bytes_Ok p fs content fs' :
  read_bytes d p fs = (Ok content, fs') -> regular fs p = Some content /\ fs' = fs.
Proof.
  unfold read_bytes, and_then, guard, get_state, lift. destruct (Desk.io_ok _ _ _); [|done]. cbn.
  destruct (regular fs p); cbn; [|done]. by intros [= -> ->].
Qed.

Lemma verify_archive_Ok p expected fs fs' :
  verify_archive d p expected fs = (Ok tt, fs') ->
  fs' = fs /\ exists content, regular fs p = Some content /\ pinned_archive expected content.
Proof.
  unfold verify_archive, content_digest_file. intros (size & fs1 & Hlen & Hrest)%and_then_Ok.
  assert (fs1 = fs) as ->.
  { revert Hlen. unfold file_len, and_then, get_state. destruct (fs !! p) as [[]|]; cbv [yield bail]; naive_solver. }
  apply and_then_Ok in Hrest as ([] & fs2 & (Hs & _ & ->)%guard_Ok & Hrest).
  apply and_then_Ok in Hrest as (digest & fs3 & Hdig & (Hd & _ & ->)%guard_Ok).
  apply and_then_Ok in Hdig as (content & fs4 & (Hc & ->)%read_bytes_Ok & [= <- <-]).
  split; [done|]. exists content. split; [done|].
  destruct (file_len_Ok _ _ _ _ _ Hc Hlen) as [-> _]. split; [by apply Z.eqb_eq|by apply bool_decide_eq_true_1 in Hd].
Qed.

Lemma clean_Ok root fs fs' :
  clean root fs = (Ok tt, fs') ->
  (forall p, inside root p = true -> fs' !! p = None) /\ forall p, inside root p = false -> fs' !! p = fs !! p.
Proof.
  unfold clean, and_then, get_state, guard. destruct (exists_dir fs root) eqn:He.
  - destruct (negb _ && _); [|done]. cbn. intros [= <-]. split; [|apply remove_below_lookup].
    intros p Hp. apply map_lookup_filter_None. right. intros e _ Hx. cbn in Hx. congruence.
  - intros [= <-]. split; [|done]. intros p Hp. destruct (fs !! p) as [e|] eqn:Hl; [|done].
    exfalso. assert (exists_dir fs root = true); [|congruence].
    apply existsb_exists. exists (p, e). split; [|done]. by apply list_elem_of_In, elem_of_map_to_list.
Qed.

Lemma find_file_named_below fuel fs root name p :
  find_file_named fuel fs root name = Some p -> exists rest, rest <> [] /\ p = (root ++ rest)%list.
Proof.
  revert root p. induction fuel as [|fuel IH]; intros root p; cbn [find_file_named]; [done|].
  destruct (read_dir root fs) as [names|]; [|done]. cbn [mbind option_bind].
  induction names as [|n names IHn]; [done|].
  destruct (is_dir fs (root ++ [n])%list).
  - destruct (find_file_named fuel fs (root ++ [n])%list name) as [q|] eqn:Hq; [|done].
    intros [= <-]. apply IH in Hq as (rest & _ & ->). exists ([n] ++ rest)%list.
    split; [done|]. by rewrite app_assoc.
  - case_bool_decide; [|done]. intros [= <-]. by exists [n].
Qed.

Lemma download_Ok cache version target expected fs binary fs' :
  inside (extract_of cache version target) (archive_of cache version target) = false ->
  download_and_extract_sing_box d cache version target expected fs = (Ok binary, fs') ->
  extraction cache version target expected binary fs'.
Proof.
  intros Hout. rewrite download_parts. intros ([] & fs1 & _ & Hrest)%and_then_Ok.
  apply and_then_Ok in Hrest as ([] & fs2 & Hclean & Hx).
  unfold clean_part in Hclean. apply and_then_Ok in Hclean as ([] & f1 & Hv & Hclean).
  apply verify_archive_Ok in Hv as (-> & archive & Harch & Hpin).
  apply and_then_Ok in Hclean as ([] & f2 & (Hempty & Hkeep)%clean_Ok & (_ & _ & ->)%guard_Ok).
  unfold extract_part in Hx. apply and_then_Ok in Hx as ([] & f3 & Hrun & Hx).
  unfold run in Hrun. apply and_then_Ok in Hrun as (o & f4 & Ho & (Hsucc & _ & ->)%guard_Ok).
  unfold output in Ho. destruct (execute _ f2) as [[o'|] f5] eqn:He; [|done]. injection Ho as <- <-.
  apply and_then_Ok in Hx as (f6 & f7 & [= <- <-] & Hx).
  apply and_then_Ok in Hx as (b & f8 & Hb & Hx). unfold lift, ok_or in Hb.
  destruct (find_file_named _ _ _ _) as [b'|] eqn:Hf; [|done]. injection Hb as <- <-.
  apply and_then_Ok in Hx as ([] & f9 & (_ & _ & ->)%guard_Ok & [= <- <-]).
  split.
  - exists f2, archive, o'. split; [|done]. unfold regular in *. by rewrite Hkeep.
  - by eapply find_file_named_below.
Qed.

(** ** Where things are *)

Lemma inside_sibling base x y rest : inside (base ++ [x])%list (base ++ y :: rest)%list = true -> x = y.
Proof.
  rewrite inside_true. intros [q Hq]. rewrite <- app_assoc in Hq. apply app_inv_head in Hq.
  by injection Hq as ->.
Qed.

(** The three paths of a target share all but the last piece. *)
Lemma cache_paths cache version :
  exists base last, forall target, target = "android-arm" \/ target = "linux-amd64-glibc" ->
    extract_of cache version target = (cache ++ base ++ [(last ++ bytes target)%list])%list
    /\ archive_of cache version target = (cache ++ base ++ [(last ++ bytes (target ++ ".tar.gz"))%list])%list
    /\ download_of cache version target
       = (cache ++ base ++ [(last ++ bytes (target ++ ".tar.gz.download"))%list])%list.
Proof.
  destruct (components_suffixed ("sing-box-" ++ version ++ "-")) as (base & last & Hc). exists base, last.
  intros target Ht. unfold below, archive_name.
  assert (forall s, "sing-box-" ++ version ++ "-" ++ s = ("sing-box-" ++ version ++ "-") ++ s) as Hassoc.
  { intros s. by rewrite !string_app_assoc. }
  rewrite !Hassoc, <- !string_app_assoc, !Hassoc.
  destruct Ht as [-> | ->]; rewrite !Hc; try (vm_compute; repeat constructor; discriminate); done.
Qed.

Lemma bin_outside_cache path : 
  inside (device_bin d) (below (Desk.repo d) "target/artifacts/sing-box" ++ path)%list = false
  /\ inside (vm_bin d) (below (Desk.repo d) "target/artifacts/sing-box" ++ path)%list = false.
Proof.
  unfold device_bin, vm_bin, below.
  split; apply not_true_iff_false; rewrite inside_true; intros [q Hq]; rewrite <- !app_assoc in Hq;
    apply app_inv_head in Hq; discriminate.
Qed.

Section Installation.
Variables (version : string) (lock_path : Components).
Abbreviation cache := (below (Desk.repo d) "target/artifacts/sing-box").

(** The checked candidates, before anything is installed. *)
Definition candidates : Install (SingBoxArtifact * SingBoxArtifact * Components * Components) :=
  and_then (load_sing_box_lock d lock_path version) (fun lock =>
  and_then (create_dir_all d cache) (fun _ =>
  and_then (create_dir_all d (device_bin d)) (fun _ =>
  and_then (create_dir_all d (vm_bin d)) (fun _ =>
  and_then (required_artifact lock "android-arm") (fun android =>
  and_then (download_and_extract_sing_box d cache version "android-arm" android) (fun a =>
  and_then (required_artifact lock "linux-amd64-glibc") (fun vm =>
  and_then (download_and_extract_sing_box d cache version "linux-amd64-glibc" vm) (fun v =>
  and_then (ensure_elf_machine d a 40) (fun _ =>
  and_then (ensure_elf_machine d v 62) (fun _ =>
  and_then (verify_sing_box_version v version) (fun _ =>
  and_then (verify_sing_box_config d v cache) (fun _ => yield (android, vm, a, v))))))))))))).

Lemma install_split fs :
  install_sing_box d version lock_path fs
  = and_then candidates (fun '(_, _, a, v) =>
      and_then (atomic_install d a (device_bin d)) (fun _ => atomic_install d v (vm_bin d))) fs.
Proof.
  unfold install_sing_box, candidates.
  repeat (rewrite and_then_assoc; apply and_then_ext; intros ??). done.
Qed.

Lemma leaves_elf p q machine : leaves p (ensure_elf_machine d q machine).
Proof. unfold ensure_elf_machine. leaves. Qed.

Lemma leaves_lock p : leaves p (load_sing_box_lock d lock_path version).
Proof. unfold load_sing_box_lock. leaves. Qed.

Lemma leaves_version p b : leaves p (verify_sing_box_version b version).
Proof. unfold verify_sing_box_version. leaves. apply leaves_output. intros fs. apply version_writes. Qed.

Lemma leaves_config p b : p <> below cache "sing-box-preflight.json" -> leaves p (verify_sing_box_config d b cache).
Proof. intros Hp. unfold verify_sing_box_config. leaves. Qed.

Lemma leaves_required p lock target : leaves p (required_artifact lock target).
Proof. unfold required_artifact. leaves. Qed.
#[local] Hint Resolve leaves_elf leaves_lock leaves_version leaves_config leaves_required : leaves.

(** A path outside the cache is left by a download. *)
Lemma leaves_download p target expected :
  target = "android-arm" \/ target = "linux-amd64-glibc" -> inside cache p = false ->
  leaves p (download_and_extract_sing_box d cache version target expected).
Proof.
  intros Ht Hp. destruct (cache_paths cache version) as (base & last & Hpaths).
  destruct (Hpaths target Ht) as (Hx & Ha & Hd).
  apply leaves_parts; rewrite ?Hx, ?Ha, ?Hd.
  - intros ->. by rewrite inside_app in Hp.
  - intros ->. by rewrite inside_app in Hp.
  - apply not_true_iff_false. rewrite inside_true. intros [q ->]. by rewrite <- app_assoc, inside_app in Hp.
Qed.
#[local] Hint Resolve leaves_download : leaves.

Lemma leaves_candidates p : inside cache p = false -> leaves p candidates.
Proof.
  intros Hp. assert (p <> below cache "sing-box-preflight.json").
  { intros ->. unfold below in Hp at 2. by rewrite inside_app in Hp. }
  unfold candidates. leaves.
Qed.

Lemma destination_outside directory :
  directory = device_bin d \/ directory = vm_bin d -> inside cache (destination_of directory) = false.
Proof.
  intros Hd. apply not_true_iff_false. rewrite inside_true. intros [q Hq]. revert Hq.
  destruct Hd as [-> | ->]; unfold device_bin, vm_bin, below; rewrite <- !app_assoc; intros Hq%app_inv_head; discriminate.
Qed.

(** What is known of a candidate: it is extracted from the archive the lock
    pins, and has the header of its machine. *)
Definition pinned_binary (fs : Disk) (target : string) (machine : Z) (content : list Z) : Prop :=
  exists lock expected binary fs2,
    regular fs lock_path ≫= lock_from_json = Some lock
    /\ lock_schema_version lock = 1 /\ lock_version lock = version
    /\ lock_artifacts lock !! target = Some expected
    /\ extraction cache version target expected binary fs2
    /\ regular fs2 binary = Some content /\ elf_machine machine content = true.

Lemma ensure_elf_Ok p machine fs fs' :
  ensure_elf_machine d p machine fs = (Ok tt, fs') ->
  fs' = fs /\ exists content, regular fs p = Some content /\ elf_machine machine content = true.
Proof.
  unfold ensure_elf_machine. intros ([] & f1 & Hf & Hrest)%and_then_Ok.
  assert (f1 = fs) as ->.
  { revert Hf. unfold ensure_file, is_file, and_then, get_state, guard, yield, bail. destruct (is_some _); naive_solver. }
  apply and_then_Ok in Hrest as (content & f2 & (Hc & ->)%read_bytes_Ok & Hrest).
  apply and_then_Ok in Hrest as ([] & f3 & (_ & _ & ->)%guard_Ok & (He & _ & ->)%guard_Ok). eauto.
Qed.

Lemma load_lock_Ok fs lock fs' :
  load_sing_box_lock d lock_path version fs = (Ok lock, fs') ->
  fs' = fs /\ regular fs lock_path ≫= lock_from_json = Some lock
  /\ lock_schema_version lock = 1 /\ lock_version lock = version.
Proof.
  unfold load_sing_box_lock. intros (content & f1 & (Hc & ->)%read_bytes_Ok & Hrest)%and_then_Ok.
  apply and_then_Ok in Hrest as (l & f2 & Hl & Hrest). unfold lift, ok_or in Hl.
  destruct (lock_from_json content) as [l'|] eqn:Hj; [|done]. injection Hl as <- <-.
  apply and_then_Ok in Hrest as ([] & f3 & (Hs & _ & ->)%guard_Ok & Hrest).
  apply and_then_Ok in Hrest as ([] & f4 & (Hv & _ & ->)%guard_Ok & [= <- <-]).
  split; [done|]. rewrite Hc. split; [done|]. split; [by apply Z.eqb_eq|by apply bool_decide_eq_true_1 in Hv].
Qed.

Lemma required_Ok lock target fs expected fs' :
  required_artifact lock target fs = (Ok expected, fs') ->
  fs' = fs /\ lock_artifacts lock !! target = Some expected.
Proof.
  unfold required_artifact, lift, ok_or. destruct (_ !! _); [|done]. by intros [= <- <-].
Qed.

(** Where a candidate is: below its own directory, and nowhere the other
    download or the preflight writes. *)
Lemma candidate_apart target other expected binary fs2 :
  target = "android-arm" /\ other = "linux-amd64-glibc" \/ target = "linux-amd64-glibc" /\ other = "android-arm" ->
  extraction cache version target expected binary fs2 ->
  inside (device_bin d) binary = false /\ inside (vm_bin d) binary = false
  /\ binary <> below cache "sing-box-preflight.json"
  /\ forall e, leaves binary (download_and_extract_sing_box d cache version other e).
Proof.
  intros Ht [_ (name & Hname & Hb)]. destruct (cache_paths cache version) as (base & last & Hpaths).
  assert (target = "android-arm" \/ target = "linux-amd64-glibc") as Ht' by naive_solver.
  assert (other = "android-arm" \/ other = "linux-amd64-glibc") as Ho by naive_solver.
  destruct (Hpaths target Ht') as (Hx & _ & _). destruct (Hpaths other Ho) as (Hx' & Ha' & Hd').
  rewrite Hx, <- !app_assoc in Hb.
  assert (forall x, binary <> (cache ++ base ++ [x])%list) as Hlen.
  { intros x ->. apply (f_equal List.length) in Hb. rewrite !length_app in Hb. simpl in Hb.
    destruct name; [done|]. simpl in Hb. lia. }
  split_and!.
  - rewrite Hb. apply bin_outside_cache.
  - rewrite Hb. apply bin_outside_cache.
  - intros ->. unfold below in Hb at 1. apply app_inv_head in Hb. apply (f_equal List.length) in Hb.
    rewrite !length_app in Hb. destruct name; [done|]. simpl in Hb. lia.
  - intros e. apply leaves_parts; rewrite ?Ha', ?Hd', ?Hx'; [apply Hlen|apply Hlen|].
    apply not_true_iff_false. rewrite Hb, !app_assoc. cbn [app]. rewrite <- (app_assoc _ [_] name). intros Hin.
    apply inside_sibling in Hin. apply app_inv_head in Hin. destruct Ht as [[-> ->]|[-> ->]]; discriminate.
Qed.

Lemma own_archive_apart target :
  target = "android-arm" \/ target = "linux-amd64-glibc" ->
  inside (extract_of cache version target) (archive_of cache version target) = false.
Proof.
  intros Ht. destruct (cache_paths cache version) as (base & last & Hpaths).
  destruct (Hpaths target Ht) as (-> & -> & _). apply not_true_iff_false. rewrite !app_assoc. intros Hin.
  apply inside_sibling in Hin. apply app_inv_head in Hin. destruct Ht as [-> | ->]; discriminate.
Qed.

Lemma candidates_Ok fs android vm a v fs1 :
  candidates fs = (Ok (android, vm, a, v), fs1) ->
  (exists content, regular fs1 a = Some content /\ pinned_binary fs "android-arm" 40 content)
  /\ (exists content, regular fs1 v = Some content /\ pinned_binary fs "linux-amd64-glibc" 62 content)
  /\ inside (device_bin d) a = false /\ inside (device_bin d) v = false /\ inside (vm_bin d) v = false.
Proof.
  unfold candidates. intros (lock & f & (-> & Hlock & Hschema & Hver)%load_lock_Ok & Hr)%and_then_Ok.
  do 3 (apply and_then_Ok in Hr as ([] & ? & (_ & _ & ->)%guard_Ok & Hr)).
  apply and_then_Ok in Hr as (ea & ? & (-> & Hea)%required_Ok & Hr).
  apply and_then_Ok in Hr as (a' & f1 & Hda & Hr).
  apply and_then_Ok in Hr as (ev & ? & (-> & Hev)%required_Ok & Hr).
  apply and_then_Ok in Hr as (v' & f2 & Hdv & Hr).
  apply and_then_Ok in Hr as ([] & ? & (-> & ca & Hca & Helfa)%ensure_elf_Ok & Hr).
  apply and_then_Ok in Hr as ([] & ? & (-> & cv & Hcv & Helfv)%ensure_elf_Ok & Hr).
  apply and_then_Ok in Hr as ([] & f3 & Hversion & Hr).
  apply and_then_Ok in Hr as ([] & f4 & Hconfig & [= -> -> -> -> ->]).
  pose proof (download_Ok _ _ _ _ _ _ _ (own_archive_apart "android-arm" (or_introl eq_refl)) Hda) as Hxa.
  pose proof (download_Ok _ _ _ _ _ _ _ (own_archive_apart "linux-amd64-glibc" (or_intror eq_refl)) Hdv) as Hxv.
  destruct (candidate_apart _ "linux-amd64-glibc" _ _ _ (or_introl (conj eq_refl eq_refl)) Hxa) as (Hia & _ & Hpa & Hla).
  destruct (candidate_apart _ "android-arm" _ _ _ (or_intror (conj eq_refl eq_refl)) Hxv) as (Hiv & Hiv' & Hpv & _).
  assert (forall p, p <> below cache "sing-box-preflight.json" -> fs1 !! p = f2 !! p) as Hkeep.
  { intros p Hp. pose proof (leaves_version p v f2) as Hl1. rewrite Hversion in Hl1. cbn [snd] in Hl1.
    pose proof (leaves_config p v Hp f3) as Hl2. rewrite Hconfig in Hl2. cbn [snd] in Hl2. congruence. }
  specialize (Hla vm f1). rewrite Hdv in Hla. cbn [snd] in Hla.
  split_and!; try done.
  - exists ca. split; [unfold regular; by rewrite Hkeep|]. exists lock, android, a, f1.
    split_and!; try done. unfold regular in *. by rewrite <- Hla.
  - exists cv. split; [unfold regular; by rewrite Hkeep|]. by exists lock, vm, v, f2.
Qed.

(** The installed file after a run: the old one, or one that is pinned. *)
Definition installed (fs fs' : Disk) (directory : Components) (target : string) (machine : Z) : Prop :=
  exists content, fs' !! destination_of directory = Some (Regular content)
    /\ pinned_binary fs target machine content.

Lemma bins_apart : inside (vm_bin d) (destination_of (device_bin d)) = false
  /\ inside (device_bin d) (destination_of (vm_bin d)) = false.
Proof.
  unfold device_bin, vm_bin, below.
  split; apply not_true_iff_false; rewrite inside_true; intros [q Hq]; rewrite <- !app_assoc in Hq;
    apply app_inv_head in Hq; discriminate.
Qed.
End Installation.

(** C32: Whatever fails on the way, each of the two installed proxy binaries is the
    file that was there before or, complete, one whose archive had the length
    and the digest the lock pins for the requested version, that was extracted
    into an empty directory, and that has the ELF header of its machine; and
    when the installation succeeds both are the new ones. *)
Theorem installed_binaries_are_pinned version lock_path fs out fs' :
  install_sing_box d version lock_path fs = (out, fs') ->
  let phone := installed version lock_path fs fs' (device_bin d) "android-arm" 40 in
  let relay := installed version lock_path fs fs' (vm_bin d) "linux-amd64-glibc" 62 in
  (out = Ok tt -> phone /\ relay)
  /\ (phone \/ fs' !! destination_of (device_bin d) = fs !! destination_of (device_bin d))
  /\ (relay \/ fs' !! destination_of (vm_bin d) = fs !! destination_of (vm_bin d)).
Proof.
  rewrite install_split. unfold and_then at 1.
  pose proof (leaves_candidates version lock_path _ (destination_outside _ (or_introl eq_refl)) fs) as Hld.
  pose proof (leaves_candidates version lock_path _ (destination_outside _ (or_intror eq_refl)) fs) as Hlv.
  destruct (candidates version lock_path fs) as [[[[[android vm] a] v]|e] fs1] eqn:Hc; cbn [snd] in *.
  2:{ intros [= <- <-]. cbv zeta. split; [done|]. split; by right. }
  apply candidates_Ok in Hc as ((ca & Hca & Hpa) & (cv & Hcv & Hpv) & Hia & Hiv & Hiv').
  destruct bins_apart as [Hdv Hvd].
  pose proof (leaves_install _ a (device_bin d) Hvd fs1) as Hkv.
  pose proof (leaves_install v a (device_bin d) Hiv fs1) as Hkc.
  unfold and_then. destruct (atomic_install d a (device_bin d) fs1) as [out1 fs2] eqn:Ha. cbn [snd] in *.
  apply (atomic_install_cases _ _ _ _ _ Hia) in Ha as [[Hf Hd1]|(-> & c & Hc1 & Hd1)].
  { destruct out1 as [[]|e1]; [done|]. intros [= <- <-]. cbv zeta. split; [done|].
    split; right; congruence. }
  assert (c = ca) as -> by congruence. intros Hb.
  pose proof (leaves_install _ v (vm_bin d) Hdv fs2) as Hkd. rewrite Hb in Hkd. cbn [snd] in Hkd.
  assert (installed version lock_path fs fs' (device_bin d) "android-arm" 40) as Hphone
    by (exists ca; split; [congruence|done]).
  apply (atomic_install_cases _ _ _ _ _ Hiv') in Hb as [[Hf Hd2]|(-> & c & Hc2 & Hd2)]; cbv zeta.
  - split; [by intros ->|]. split; [by left|right; congruence].
  - assert (c = cv) as ->. { unfold regular in *. rewrite Hkc in Hc2. congruence. }
    assert (installed version lock_path fs fs' (vm_bin d) "linux-amd64-glibc" 62) as Hrelay
      by (exists cv; split; [congruence|done]).
    split; [done|]. split; by left.
Qed.
End ArtifactFiles.

(** ** An installation into an empty repository *)

Module DemoInstall.
#[local] Existing Instance Foundation.Concrete.blake3.

Definition elf (machine : Z) : list Z :=
  [127; 69; 76; 70; 1; 1; 1; 0; 0; 0; 0; 0; 0; 0; 0; 0; 2; 0; machine; 0; 7].

Definition fine (out : string) : option Output := Some (mk_output true (bytes out) []).

(** An archive is its only file. *)
#[local] Instance programs : Programs := fun i fs =>
  match program i, arguments i with
  | Word "curl", [_; _; _; _; AtPath download; Word url] =>
      (fine "", <[download := Regular (elf (if contains "android" url then 40 else 62))]> fs)
  | Word "tar", [_; AtPath archive; _; AtPath directory] =>
      (fine "", match fs !! archive with
                | Some (Regular content) => <[(directory ++ [bytes "sing-box"])%list := Regular content]> fs
                | _ => fs
                end)
  | AtPath _, _ => (fine "sing-box version 1.13.12", fs)
  | _, _ => (None, fs)
  end.

#[local] Instance listing : ReadDir := fun root fs =>
  Some (omap (fun e => if inside root e.1 then e.1 !! List.length root else None) (map_to_list fs)).

Definition pins : SingBoxArtifactLock :=
  mk_lock 1 "1.13.12"
    (<["android-arm" := mk_sing_box_artifact 21 (archive_digest (elf 40))]>
       (<["linux-amd64-glibc" := mk_sing_box_artifact 21 (archive_digest (elf 62))]> ∅)).

#[local] Instance lock_json : LockJson := fun content => if bool_decide (content = [123; 125]) then Some pins else None.

#[local] Instance programs_write : ProgramsWrite.
Proof.
  split.
  - intros url download fs p Hp. cbn. by rewrite lookup_insert_ne.
  - intros archive directory fs p Hp. cbn. destruct (fs !! archive) as [[content|]|]; cbn; try done.
    rewrite lookup_insert_ne; [done|]. intros <-. by rewrite inside_app in Hp.
  - done.
  - done.
Qed.

Definition desk : Desk.t := Desk.mk [bytes "repo"] (fun _ _ => true) [].
Definition lock_at : Components := below (Desk.repo desk) "deploy/sing-box-artifacts.lock.json".
Definition template_at : Components := below (Desk.repo desk) "deploy/device-runtime/templates/sing-box.base.json".

Definition disk : Disk := <[lock_at := Regular [123; 125]]> (<[template_at := Regular [123; 125]]> ∅).

Lemma demo_install_ok : (install_sing_box desk "1.13.12" lock_at disk).1 = Ok tt.
Proof. vm_compute. reflexivity. Qed.

Lemma installed_binaries_are_pinned_witness :
  let fs' := (install_sing_box desk "1.13.12" lock_at disk).2 in
  installed desk "1.13.12" lock_at disk fs' (device_bin desk) "android-arm" 40
  /\ installed desk "1.13.12" lock_at disk fs' (vm_bin desk) "linux-amd64-glibc" 62.
Proof.
  destruct (install_sing_box desk "1.13.12" lock_at disk) as [out fs'] eqn:Hrun.
  pose proof (installed_binaries_are_pinned desk "1.13.12" lock_at disk out fs' Hrun) as [Hok _].
  apply Hok. pose proof demo_install_ok as Hd. rewrite Hrun in Hd. exact Hd.
Defined.
End DemoInstall.
