(* ===== verification/Workstation.v ===== *)
(** * The operator's workstation

    What the commands of [apps/operator-cli/src] use of the machine they run on:
    programs, files, directories they make, and the environment.  The commands of
    [vm.rs], [provision.rs], [device_support.rs], [device.rs] and
    [android_app.rs] are written over this interface; its world also holds what
    the programs reach, the cloud and the phone. *)

From stdpp Require Import base gmap strings list.
From Stdlib Require Import ZArith Lia Ascii String.
From S2P Require Import Prelude Text NetText FileTree Shell Foundation ReleaseIntegrity RuntimeArtifacts.
Local Open Scope string_scope.
Local Open Scope Z_scope.

Class Station (W : Type) := {
  repo_root : Components;
  (** [std::env::var] *)
  env_var : string -> option string;
  (** the process's identity, and [env::temp_dir()] *)
  process_id : string;
  temp_dir : Components;
  (** a program runs to its end; nothing when it cannot be started *)
  spawn : Invocation -> W -> option Output * W;
  (** the bytes of a readable regular file *)
  file : Components -> W -> option (list Z);
  (** [path.exists()] *)
  present : Components -> W -> bool;
  (** [fs::write]; nothing when it fails *)
  put_file : Components -> list Z -> W -> option W;
  (** [fs::remove_file] *)
  remove : Components -> W -> option W;
  (** a directory is made to hold exactly this, whatever it held before *)
  put_tree : Components -> Tree.t -> W -> option W;
  (** the directory at a path *)
  tree_at : Components -> W -> option Tree.t;
  (** [thread::sleep] *)
  pause : Z -> W -> W;
}.

Inductive OpsError :=
| Io | NotFile | Elf | Integrity (e : IntegrityError) | NotStartedOps | Failed (stderr : list Z)
| MissingEnv (name : string) | Invalid (what : string) | NotJson | Bail (message : string).

Abbreviation Ops W := (Fallible W OpsError).

Section Station.
Context {W : Type} `{!Station W}.
Local Open Scope rust_scope.

Definition from_option {A} (e : OpsError) (o : option A) : Ops W A := lift (ok_or o e).

(** A state change that may fail. *)
Definition change (f : W -> option W) : Ops W unit :=
  let! w := get_state in
  let! w' := from_option Io (f w) in
  put_state w'.

(** [Command::output] *)
Definition output_of (i : Invocation) : Ops W Output :=
  fun w => match spawn i w with
           | (Some o, w') => (Ok o, w')
           | (None, w') => (Err NotStartedOps, w')
           end.

(** The [run] of the modules: the status has to be a success. *)
Definition run_command (i : Invocation) : Ops W unit :=
  let! o := output_of i in guard (succeeded o) (Failed (stderr o)).

Definition file_bytes (p : Components) : Ops W (list Z) :=
  let! w := get_state in from_option Io (file p w).

(** [fs::read_to_string] *)
Definition file_text (p : Components) : Ops W string :=
  let! content := file_bytes p in
  let! _ := guard (valid_utf8 content) Io in
  yield (of_bytes content).

(** [ensure_elf_machine] *)
Definition station_elf_machine (p : Components) (expected_machine : Z) : Ops W (list Z) :=
  let! w := get_state in
  let! content := from_option NotFile (file p w) in
  let! _ := guard (20 <=? Z.of_nat (List.length content)) Io in
  let! _ := guard (elf_machine expected_machine content) Elf in
  yield content.

(** [root.join(raw)], which is [resolve_path] of the modules. *)
Definition repo_path (raw : string) : Components := resolve repo_root raw.

Definition sleep (seconds : Z) : Ops W unit := let! w := get_state in put_state (pause seconds w).
End Station.
