(* ===== verification/VmPlan.v ===== *)
(** * Provisioning the relay

    [apps/operator-cli/src/vm.rs]: the commands that build the relay's release,
    create and reach its virtual machine, install the release there and delete
    it again.  Scripts, units and configurations are the texts the command
    writes; [gcloud], [cargo] and the proxy are programs of the workstation. *)

From stdpp Require Import base gmap strings list.
From Stdlib Require Import ZArith Lia Ascii String.
From S2P Require Import Prelude Text NetText FileTree Shell Foundation ReleaseIntegrity RuntimeArtifacts.
From S2P Require Import ConfigJson Workstation.
Local Open Scope string_scope.
Local Open Scope Z_scope.

Module VmManifest.
Record t := mk {
  project : string;
  zone : string;
  instance_name : string;
  machine_type : option string;
  image_family : option string;
  image_project : option string;
  network : option string;
  static_external_ip : option string;
  tags : option (list string);
  control_token_env : string;
  ui_token_env : string;
  rotation_token_env : option string;
  device_token_env : string;
  reverse_tunnel_cert_der_b64_env : string;
  reverse_tunnel_key_der_b64_env : string;
  relay_user_env : string;
  relay_password_env : string;
  server_private_key_env : string;
  phone_public_key_env : string;
  phone_allowed_ip : option string;
  listen_port : option Z;
}.
End VmManifest.

Module VmSecrets.
Record t := mk {
  control_token : string;
  ui_token : string;
  rotation_token : string;
  device_token : string;
  reverse_tunnel_cert_der_b64 : string;
  reverse_tunnel_key_der_b64 : string;
  relay_user : string;
  relay_password : string;
  server_private_key : string;
  phone_public_key : string;
}.
End VmSecrets.

Module ProvisionVmArgs.
Record t := mk {
  manifest_path : string;
  output_dir : string;
  release_id : string;
  ssh_user : string;
  ssh_key : string;
  create_only : bool;
}.
End ProvisionVmArgs.

Module DeleteVmArgs.
Record t := mk { manifest_path : string; delete_firewall_rules : bool }.
End DeleteVmArgs.

(** [serde_json]: the manifest's reader and the indented text of a value. *)
Class VmJson := {
  vm_manifest_from_json : string -> option VmManifest.t;
  print_pretty : Value -> string;
}.

Definition RELAY_GATE_UPSTREAM : string := "127.0.0.1:1080".

Definition newline : string := of_bytes [10].
Definition quoted (s : string) : string := double_quote ++ s ++ double_quote.

(** Lines of a file, each ended. *)
Definition text_of (ls : list string) : string := foldr (fun l rest => l ++ newline ++ rest) "" ls.

(** ** Configurations *)

(** The lines of the three environment files. *)
Definition control_plane_env (s : VmSecrets.t) : string :=
  text_of
    ["CONTROL_PLANE_LISTEN=" ++ quoted "127.0.0.1:8080";
     "CONTROL_PLANE_ADMIN_TOKEN=" ++ systemd_env_quote (VmSecrets.control_token s);
     "CONTROL_PLANE_DEVICE_TOKEN=" ++ systemd_env_quote (VmSecrets.device_token s);
     "CONTROL_PLANE_UI_TOKEN=" ++ systemd_env_quote (VmSecrets.ui_token s);
     "CONTROL_PLANE_ROTATION_TOKEN=" ++ systemd_env_quote (VmSecrets.rotation_token s)].

Definition relay_gate_env (s : VmSecrets.t) : string :=
  text_of
    ["CONTROL_PLANE_ADMIN_TOKEN=" ++ systemd_env_quote (VmSecrets.control_token s);
     "CONTROL_PLANE_URL=" ++ quoted "http://127.0.0.1:8080";
     "RELAY_GATE_DEVICE_ID=" ++ quoted "b4a6b2f4-5f6f-4fd1-baa4-b7d241b49a06";
     "RELAY_GATE_UPSTREAM=" ++ quoted RELAY_GATE_UPSTREAM].

Definition reverse_tunnel_server_env (s : VmSecrets.t) : string :=
  text_of
    ["REVERSE_TUNNEL_LISTEN=" ++ shell_quote_validated "0.0.0.0:443";
     "REVERSE_TUNNEL_TCP_LISTEN=" ++ shell_quote_validated "127.0.0.1:18091";
     "REVERSE_TUNNEL_TRANSPORT=" ++ shell_quote_validated "hybrid";
     "REVERSE_TUNNEL_PUBLIC_PROXY_LISTEN="
       ++ shell_quote_validated "127.0.0.1:14080,127.0.0.1:14081,127.0.0.1:14128";
     "REVERSE_TUNNEL_AUTH_TOKEN=" ++ shell_quote (VmSecrets.device_token s);
     "REVERSE_TUNNEL_SERVER_NAME=" ++ shell_quote_validated "mobile-proxy-relay";
     "REVERSE_TUNNEL_CERT_DER_B64=" ++ shell_quote (VmSecrets.reverse_tunnel_cert_der_b64 s);
     "REVERSE_TUNNEL_KEY_DER_B64=" ++ shell_quote (VmSecrets.reverse_tunnel_key_der_b64 s)].

Definition proxy_user (s : VmSecrets.t) : Value :=
  VObject [("username", VString (VmSecrets.relay_user s)); ("password", VString (VmSecrets.relay_password s))].

Definition inbound (s : VmSecrets.t) (kind tag : string) (port : Z) : Value :=
  VObject [("type", VString kind); ("tag", VString tag); ("listen", VString "127.0.0.1");
           ("listen_port", VNumber (PosInt port)); ("users", VArray [proxy_user s])].

Definition socks_outbound (s : VmSecrets.t) (tag server : string) (port : Z) : Value :=
  VObject [("type", VString "socks"); ("tag", VString tag); ("server", VString server);
           ("server_port", VNumber (PosInt port)); ("version", VString "5");
           ("username", VString (VmSecrets.relay_user s)); ("password", VString (VmSecrets.relay_password s))].

(** The value; [serde_json] prints the keys of an object in its own order. *)
Definition public_proxy_config (s : VmSecrets.t) : Value :=
  VObject
    [("log", VObject [("level", VString "info"); ("timestamp", VBool true)]);
     ("inbounds", VArray
        [inbound s "mixed" "mixed-public" 11080; inbound s "socks" "socks-public" 11081;
         inbound s "http" "http-public" 13128; inbound s "mixed" "reverse-mixed-public" 12080;
         inbound s "socks" "reverse-socks-public" 12081; inbound s "http" "reverse-http-public" 12128]);
     ("outbounds", VArray
        [socks_outbound s "wireguard-phone" "10.66.66.2" 1080;
         socks_outbound s "reverse-tunnel-phone" "127.0.0.1" 14081]);
     ("route", VObject
        [("rules", VArray
            [VObject
               [("inbound", VArray [VString "reverse-mixed-public"; VString "reverse-socks-public";
                                    VString "reverse-http-public"]);
                ("action", VString "route"); ("outbound", VString "reverse-tunnel-phone")]]);
         ("final", VString "wireguard-phone")])].

Definition wg_config (m : VmManifest.t) (s : VmSecrets.t) : string :=
  text_of
    ["[Interface]"; "Address = 10.66.66.1/24";
     "ListenPort = " ++ u64_to_string (default 51820 (VmManifest.listen_port m));
     "PrivateKey = " ++ VmSecrets.server_private_key s; "SaveConfig = false"; ""; "[Peer]";
     "PublicKey = " ++ VmSecrets.phone_public_key s;
     "AllowedIPs = " ++ default "10.66.66.2/32" (VmManifest.phone_allowed_ip m);
     "PersistentKeepalive = 25"].

(** ** Scripts and units *)

(** A text in which a tilde stands for a double quote. *)
Definition quotes : string -> string :=
  map_chars (fun c => if bool_decide (byte_of c = 126) then double_quote else String c "").

Definition install_script (release_id : string) : string :=
  text_of
    ["set -euxo pipefail";
     "REL='" ++ release_id ++ "'";
     quotes "SRC=~/tmp/mobile-proxy-vm-release-" ++ release_id ++ quotes "~";
     quotes "install -d /opt/mobile-relaycontrolpoint/releases/~$REL~ /opt/mobile-public-proxy /etc/mobile-relaycontrolpoint /var/lib/mobile-relaycontrolpoint /etc/wireguard /etc/nginx/stream-available /etc/nginx/stream-enabled";
     quotes "install -m 0755 ~$SRC/bin/control-plane~ /opt/mobile-relaycontrolpoint/releases/~$REL~/control-plane";
     quotes "install -m 0755 ~$SRC/bin/relay-gate~ /opt/mobile-relaycontrolpoint/releases/~$REL~/relay-gate";
     quotes "install -m 0755 ~$SRC/bin/reverse-tunnel-server~ /opt/mobile-relaycontrolpoint/releases/~$REL~/reverse-tunnel-server";
     quotes "install -m 0755 ~$SRC/bin/sing-box~ /opt/mobile-public-proxy/sing-box";
     quotes "install -m 0600 ~$SRC/config/control-plane.env~ /etc/mobile-relaycontrolpoint/control-plane.env";
     quotes "install -m 0600 ~$SRC/config/relay-gate.env~ /etc/mobile-relaycontrolpoint/relay-gate.env";
     quotes "install -m 0600 ~$SRC/config/reverse-tunnel-server.env~ /etc/mobile-relaycontrolpoint/reverse-tunnel-server.env";
     "set +x";
     "set -a";
     ". /etc/mobile-relaycontrolpoint/reverse-tunnel-server.env";
     "set +a";
     quotes "printf '%s' ~$REVERSE_TUNNEL_CERT_DER_B64~ | base64 -d | openssl x509 -inform DER -out /etc/mobile-relaycontrolpoint/control-plane.crt";
     quotes "printf '%s' ~$REVERSE_TUNNEL_KEY_DER_B64~ | base64 -d | openssl pkey -inform DER -out /etc/mobile-relaycontrolpoint/control-plane.key";
     "chmod 0600 /etc/mobile-relaycontrolpoint/control-plane.crt /etc/mobile-relaycontrolpoint/control-plane.key";
     "set -x";
     quotes "install -m 0600 ~$SRC/config/wg0.conf~ /etc/wireguard/wg0.conf";
     quotes "install -m 0600 ~$SRC/config/public-proxy.json~ /opt/mobile-public-proxy/config.json";
     quotes "install -m 0644 ~$SRC/systemd/mobile-relaycontrolpoint.service~ /etc/systemd/system/mobile-relaycontrolpoint.service";
     quotes "install -m 0644 ~$SRC/systemd/mobile-relay-gate.service~ /etc/systemd/system/mobile-relay-gate.service";
     quotes "install -m 0644 ~$SRC/systemd/mobile-public-proxy.service~ /etc/systemd/system/mobile-public-proxy.service";
     quotes "install -m 0644 ~$SRC/systemd/mobile-reverse-tunnel-server.service~ /etc/systemd/system/mobile-reverse-tunnel-server.service";
     quotes "install -m 0644 ~$SRC/nginx/mobile-control-plane-tls~ /etc/nginx/sites-available/mobile-control-plane-tls";
     quotes "install -m 0644 ~$SRC/nginx/mobile-public-proxy.conf~ /etc/nginx/stream-available/mobile-public-proxy.conf";
     quotes "ln -sfn /opt/mobile-relaycontrolpoint/releases/~$REL~ /opt/mobile-relaycontrolpoint/current";
     "rm -f /etc/nginx/sites-enabled/default /etc/nginx/sites-enabled/mobile-relaycontrolpoint";
     "ln -sfn /etc/nginx/sites-available/mobile-control-plane-tls /etc/nginx/sites-enabled/mobile-control-plane-tls";
     "ln -sfn /etc/nginx/stream-available/mobile-public-proxy.conf /etc/nginx/stream-enabled/mobile-public-proxy.conf";
     "grep -q 'stream-enabled' /etc/nginx/nginx.conf || printf '\nstream { include /etc/nginx/stream-enabled/*.conf; }\n' >> /etc/nginx/nginx.conf";
     "systemctl daemon-reload";
     "systemctl enable --now wg-quick@wg0 mobile-relaycontrolpoint.service mobile-public-proxy.service nginx.service mobile-relay-gate.service mobile-reverse-tunnel-server.service";
     "systemctl restart wg-quick@wg0 mobile-relaycontrolpoint.service mobile-public-proxy.service nginx.service mobile-relay-gate.service mobile-reverse-tunnel-server.service";
     "nginx -t"].

Definition bootstrap_script (ssh_user ssh_pub : string) : string :=
  text_of
    ["#!/bin/bash";
     "set -euxo pipefail";
     "USER_NAME='" ++ ssh_user ++ "'";
     "PUB_KEY='" ++ ssh_pub ++ "'";
     "export DEBIAN_FRONTEND=noninteractive";
     "apt-get update";
     "apt-get install -y ca-certificates curl nginx libnginx-mod-stream wireguard-tools openssh-server";
     quotes "if ! id -u ~$USER_NAME~ >/dev/null 2>&1; then";
     quotes "  useradd -m -s /bin/bash ~$USER_NAME~";
     "fi";
     quotes "install -d -m 700 -o ~$USER_NAME~ -g ~$USER_NAME~ ~/home/$USER_NAME/.ssh~";
     quotes "printf '%s\n' ~$PUB_KEY~ > ~/home/$USER_NAME/.ssh/authorized_keys~";
     quotes "chown ~$USER_NAME:$USER_NAME~ ~/home/$USER_NAME/.ssh/authorized_keys~";
     quotes "chmod 600 ~/home/$USER_NAME/.ssh/authorized_keys~";
     quotes "usermod -aG sudo ~$USER_NAME~";
     quotes "printf '%s\n' ~$USER_NAME ALL=(ALL) NOPASSWD:ALL~ > /etc/sudoers.d/90-mobile-proxy";
     "chmod 0440 /etc/sudoers.d/90-mobile-proxy";
     "cat > /etc/ssh/sshd_config.d/99-mobile-proxy.conf <<'SSHD'";
     "PubkeyAuthentication yes";
     "AuthorizedKeysFile .ssh/authorized_keys";
     "PasswordAuthentication no";
     "KbdInteractiveAuthentication no";
     "PermitRootLogin prohibit-password";
     "SSHD";
     "systemctl restart ssh || systemctl restart sshd || true"].

Definition CONTROL_PLANE_UNIT : string :=
  text_of
    ["[Unit]";
     "Description=Mobile Relay Control Plane";
     "After=network-online.target";
     "Wants=network-online.target";
     "";
     "[Service]";
     "Type=simple";
     "EnvironmentFile=/etc/mobile-relaycontrolpoint/control-plane.env";
     "ExecStart=/opt/mobile-relaycontrolpoint/current/control-plane";
     "Restart=always";
     "RestartSec=2";
     "User=root";
     "";
     "[Install]";
     "WantedBy=multi-user.target"].

Definition RELAY_GATE_UNIT : string :=
  text_of
    ["[Unit]";
     "Description=Mobile Relay Gate";
     "After=network-online.target mobile-relaycontrolpoint.service mobile-public-proxy.service nginx.service";
     "Wants=network-online.target mobile-public-proxy.service nginx.service";
     "";
     "[Service]";
     "Type=simple";
     "EnvironmentFile=/etc/mobile-relaycontrolpoint/relay-gate.env";
     "ExecStart=/opt/mobile-relaycontrolpoint/current/relay-gate";
     "Restart=always";
     "RestartSec=2";
     "User=root";
     "";
     "[Install]";
     "WantedBy=multi-user.target"].

Definition PUBLIC_PROXY_UNIT : string :=
  text_of
    ["[Unit]";
     "Description=Mobile Public Proxy Relay";
     "After=network-online.target wg-quick@wg0.service";
     "Wants=network-online.target wg-quick@wg0.service";
     "";
     "[Service]";
     "Type=simple";
     "ExecStart=/opt/mobile-public-proxy/sing-box run -c /opt/mobile-public-proxy/config.json";
     "Restart=always";
     "RestartSec=2";
     "User=root";
     "";
     "[Install]";
     "WantedBy=multi-user.target"].

Definition REVERSE_TUNNEL_SERVER_UNIT : string :=
  text_of
    ["[Unit]";
     "Description=Mobile Reverse Tunnel Server";
     "After=network-online.target";
     "Wants=network-online.target";
     "";
     "[Service]";
     "Type=simple";
     "EnvironmentFile=/etc/mobile-relaycontrolpoint/reverse-tunnel-server.env";
     "Environment=RUST_LOG=info";
     "ExecStart=/opt/mobile-relaycontrolpoint/current/reverse-tunnel-server";
     "Restart=always";
     "RestartSec=2";
     "User=root";
     "";
     "[Install]";
     "WantedBy=multi-user.target"].

Definition NGINX_CONTROL_PLANE_TLS_CONFIG : string :=
  text_of
    ["server {";
     "    listen 8443 ssl;";
     "    listen [::]:8443 ssl;";
     "    server_name mobile-proxy-relay;";
     "    ssl_certificate /etc/mobile-relaycontrolpoint/control-plane.crt;";
     "    ssl_certificate_key /etc/mobile-relaycontrolpoint/control-plane.key;";
     "    ssl_protocols TLSv1.2 TLSv1.3;";
     "    ssl_session_tickets off;";
     "    client_max_body_size 64k;";
     "";
     "    location / {";
     "        proxy_pass http://127.0.0.1:8080;";
     "        proxy_http_version 1.1;";
     "        proxy_set_header Host $host;";
     "        proxy_set_header X-Real-IP $remote_addr;";
     "    }";
     "}"].

Definition NGINX_STREAM_CONFIG : string :=
  text_of
    ["server { listen 0.0.0.0:1080; proxy_pass 127.0.0.1:14080; }";
     "server { listen 0.0.0.0:1081; proxy_pass 127.0.0.1:14080; }";
     "server { listen 0.0.0.0:3128; proxy_pass 127.0.0.1:14080; }";
     "server {";
     "    listen 0.0.0.0:443 ssl;";
     "    ssl_certificate /etc/mobile-relaycontrolpoint/control-plane.crt;";
     "    ssl_certificate_key /etc/mobile-relaycontrolpoint/control-plane.key;";
     "    ssl_protocols TLSv1.2 TLSv1.3;";
     "    ssl_session_tickets off;";
     "    proxy_pass 127.0.0.1:18091;";
     "}"].

(** ** Commands *)

Section Vm.
Context `{Blake3, !ReleaseJson, !VmJson} {W : Type} `{!Station W}.
Local Open Scope rust_scope.

Definition gcloud (arguments : list string) : Invocation := command (Word "gcloud") (words arguments).

(** [gcloud_status]: whether the program ended well. *)
Definition gcloud_status (arguments : list string) : Ops W bool :=
  let! o := output_of (gcloud arguments) in yield (succeeded o).

Definition required_env (name : string) : Ops W string := from_option (MissingEnv name) (env_var name).

Definition expand_home (raw : string) : Ops W Components :=
  match strip_prefix "~/" raw with
  | Some suffix => let! home := from_option (MissingEnv "HOME") (env_var "HOME") in
                   yield (resolve (resolve [] home) suffix)
  | None => yield (resolve [] raw)
  end.

Definition vm_load_manifest (raw : string) : Ops W VmManifest.t :=
  let! text := file_text (repo_path raw) in
  from_option NotJson (vm_manifest_from_json text).

Definition load_secrets (m : VmManifest.t) : Ops W VmSecrets.t :=
  let! ui := required_env (VmManifest.ui_token_env m) in
  let! rotation := match VmManifest.rotation_token_env m with
                   | Some name => required_env name
                   | None => yield ui
                   end in
  let! control := required_env (VmManifest.control_token_env m) in
  let! device := required_env (VmManifest.device_token_env m) in
  let! cert := required_env (VmManifest.reverse_tunnel_cert_der_b64_env m) in
  let! key := required_env (VmManifest.reverse_tunnel_key_der_b64_env m) in
  let! user := required_env (VmManifest.relay_user_env m) in
  let! password := required_env (VmManifest.relay_password_env m) in
  let! private_key := required_env (VmManifest.server_private_key_env m) in
  let! public_key := required_env (VmManifest.phone_public_key_env m) in
  yield (VmSecrets.mk control ui rotation device cert key user password private_key public_key).

Definition primary_tag (m : VmManifest.t) : string :=
  default "mobile-relay" (VmManifest.tags m ≫= head).

(** ** The release *)

Definition build_linux_binaries : Ops W unit :=
  run_command (command (Word "cargo")
    (words ["build"; "--release"; "-p"; "control-plane"; "-p"; "relay-gate"; "-p"; "reverse-tunnel-server"])).

Definition text_file (s : string) : Tree.t := Tree.File (bytes s).

(** What is written before the proxy checks its configuration. *)
Definition vm_release_start (control_plane relay_gate reverse_tunnel_server sing_box : list Z)
    (s : VmSecrets.t) : list (string * Tree.t) :=
  [("bin", Tree.Dir [("control-plane", Tree.File control_plane); ("relay-gate", Tree.File relay_gate);
                     ("reverse-tunnel-server", Tree.File reverse_tunnel_server);
                     ("sing-box", Tree.File sing_box)]);
   ("config", Tree.Dir [("public-proxy.json", text_file (print_pretty (public_proxy_config s)))]);
   ("systemd", Tree.Dir []); ("nginx", Tree.Dir [])].

Definition vm_release_tree (control_plane relay_gate reverse_tunnel_server sing_box : list Z)
    (m : VmManifest.t) (s : VmSecrets.t) : Tree.t :=
  Tree.Dir
    [("bin", Tree.Dir [("control-plane", Tree.File control_plane); ("relay-gate", Tree.File relay_gate);
                       ("reverse-tunnel-server", Tree.File reverse_tunnel_server);
                       ("sing-box", Tree.File sing_box)]);
     ("config", Tree.Dir
        [("public-proxy.json", text_file (print_pretty (public_proxy_config s)));
         ("wg0.conf", text_file (wg_config m s));
         ("control-plane.env", text_file (control_plane_env s));
         ("relay-gate.env", text_file (relay_gate_env s));
         ("reverse-tunnel-server.env", text_file (reverse_tunnel_server_env s))]);
     ("systemd", Tree.Dir
        [("mobile-relaycontrolpoint.service", text_file CONTROL_PLANE_UNIT);
         ("mobile-relay-gate.service", text_file RELAY_GATE_UNIT);
         ("mobile-public-proxy.service", text_file PUBLIC_PROXY_UNIT);
         ("mobile-reverse-tunnel-server.service", text_file REVERSE_TUNNEL_SERVER_UNIT)]);
     ("nginx", Tree.Dir
        [("mobile-control-plane-tls", text_file NGINX_CONTROL_PLANE_TLS_CONFIG);
         ("mobile-public-proxy.conf", text_file NGINX_STREAM_CONFIG)])].

(** [repo.join(output_dir).join(release_id)]; neither is checked. *)
Definition vm_release_root (args : ProvisionVmArgs.t) : Components :=
  resolve (repo_path (ProvisionVmArgs.output_dir args)) (ProvisionVmArgs.release_id args).

Definition build_vm_release (args : ProvisionVmArgs.t) (m : VmManifest.t) (s : VmSecrets.t)
    : Ops W (Components * Tree.t) :=
  let root := vm_release_root args in
  let sing_box_path := below repo_root "deploy/vm-runtime/bin/sing-box" in
  let! _ := change (put_tree root (Tree.Dir [("bin", Tree.Dir []); ("config", Tree.Dir []);
                                             ("systemd", Tree.Dir []); ("nginx", Tree.Dir [])])) in
  let! control_plane := station_elf_machine (below repo_root "target/release/control-plane") 62 in
  let! relay_gate := station_elf_machine (below repo_root "target/release/relay-gate") 62 in
  let! tunnel := station_elf_machine (below repo_root "target/release/reverse-tunnel-server") 62 in
  let! sing_box := station_elf_machine sing_box_path 62 in
  let! _ := change (put_tree root (Tree.Dir (vm_release_start control_plane relay_gate tunnel sing_box s))) in
  let! _ := run_command (command (AtPath sing_box_path)
    [Word "check"; Word "-c"; AtPath (below root "config/public-proxy.json")]) in
  let tree := vm_release_tree control_plane relay_gate tunnel sing_box m s in
  let! written := lift (map_err Integrity (write_integrity_manifest tree)) in
  let! _ := change (put_tree root written) in
  let! _ := lift (map_err Integrity (verify_integrity_manifest written)) in
  yield (root, written).

(** ** The cloud *)

Definition rule_describe (m : VmManifest.t) (name : string) : list string :=
  ["compute"; "firewall-rules"; "describe"; name; "--project"; VmManifest.project m].
Definition rule_update (m : VmManifest.t) (name ports : string) : list string :=
  ["compute"; "firewall-rules"; "update"; name; "--project"; VmManifest.project m; "--allow"; ports].
Definition rule_create (m : VmManifest.t) (name ports : string) : list string :=
  ["compute"; "firewall-rules"; "create"; name; "--project"; VmManifest.project m;
   "--network"; default "default" (VmManifest.network m); "--allow"; ports;
   "--source-ranges"; "0.0.0.0/0"; "--target-tags"; primary_tag m].
Definition rule_delete (m : VmManifest.t) (name : string) : list string :=
  ["compute"; "firewall-rules"; "delete"; name; "--project"; VmManifest.project m; "--quiet"].

Definition rule_name (m : VmManifest.t) (suffix : string) : string :=
  VmManifest.instance_name m ++ "-" ++ suffix.

Definition INGRESS_PORTS : string := "tcp:22,tcp:443,tcp:8443,udp:443,udp:18090,udp:51820".
Definition PROXY_PORTS : string := "tcp:1080,tcp:1081,tcp:3128".

Definition firewall_rules (m : VmManifest.t) : list (string * string) :=
  [(rule_name m "ingress", INGRESS_PORTS); (rule_name m "proxy", PROXY_PORTS)].

(** One turn of the loop over the rules. *)
Definition ensure_rule (m : VmManifest.t) (rule : string * string) : Ops W unit :=
  let! known := gcloud_status (rule_describe m rule.1) in
  run_command (gcloud (if known then rule_update m rule.1 rule.2 else rule_create m rule.1 rule.2)).

Fixpoint for_each {A} (f : A -> Ops W unit) (l : list A) : Ops W unit :=
  match l with
  | [] => yield tt
  | x :: rest => let! _ := f x in for_each f rest
  end.

(** Delete what is described. *)
Definition delete_rule (m : VmManifest.t) (name : string) : Ops W unit :=
  let! known := gcloud_status (rule_describe m name) in
  if known then run_command (gcloud (rule_delete m name)) else yield tt.

Definition ensure_firewall_rules (m : VmManifest.t) : Ops W unit :=
  let! _ := for_each (ensure_rule m) (firewall_rules m) in
  delete_rule m (rule_name m "control").

Definition instance_describe (m : VmManifest.t) : list string :=
  ["compute"; "instances"; "describe"; VmManifest.instance_name m; "--project"; VmManifest.project m;
   "--zone"; VmManifest.zone m].

Definition startup_path : Components := below temp_dir "mobile-proxy-vm-bootstrap.sh".

Definition path_text (p : Components) : string :=
  of_bytes (List.concat ((fun piece => 47 :: piece) <$> p)).

Definition instance_create (m : VmManifest.t) (startup : Components) : list string :=
  (["compute"; "instances"; "create"; VmManifest.instance_name m; "--project"; VmManifest.project m;
    "--zone"; VmManifest.zone m; "--machine-type"; default "e2-micro" (VmManifest.machine_type m);
    "--image-family"; default "debian-12" (VmManifest.image_family m);
    "--image-project"; default "debian-cloud" (VmManifest.image_project m);
    "--network"; default "default" (VmManifest.network m);
    "--tags"; String.concat "," (default [primary_tag m] (VmManifest.tags m));
    "--metadata"; "enable-oslogin=FALSE"; "--metadata-from-file"; ("startup-script=" ++ path_text startup)%string]
   ++ match VmManifest.static_external_ip m with Some ip => ["--address"; ip] | None => [] end)%list.

Definition ensure_instance (args : ProvisionVmArgs.t) (m : VmManifest.t) (ssh_pub : string) : Ops W unit :=
  let! known := gcloud_status (instance_describe m) in
  if known then yield tt
  else
    let! _ := change (put_file startup_path (bytes (bootstrap_script (ProvisionVmArgs.ssh_user args) ssh_pub))) in
    run_command (gcloud (instance_create m startup_path)).

(** ** Reaching the machine *)

Definition ssh (args : ProvisionVmArgs.t) (m : VmManifest.t) (ssh_key : Components) (remote : string)
    : Ops W unit :=
  run_command (command (Word "gcloud")
    (words ["compute"; "ssh"; (ProvisionVmArgs.ssh_user args ++ "@" ++ VmManifest.instance_name m)%string;
            "--project"; VmManifest.project m; "--zone"; VmManifest.zone m; "--ssh-key-file"]
     ++ [AtPath ssh_key]
     ++ words ["--tunnel-through-iap"; "--command"; remote])%list).

(** [for _ in 0..60]; an attempt that fails is followed by a pause. *)
Fixpoint ssh_attempts (left : nat) (args : ProvisionVmArgs.t) (m : VmManifest.t) (ssh_key : Components)
    : Ops W unit :=
  match left with
  | O => bail (Bail "VM SSH did not become ready")
  | S left' => fun w =>
      match ssh args m ssh_key "id >/dev/null" w with
      | (Ok _, w') => (Ok tt, w')
      | (Err _, w') => (let! _ := sleep 5 in ssh_attempts left' args m ssh_key) w'
      end
  end.

Definition wait_for_ssh (args : ProvisionVmArgs.t) (m : VmManifest.t) (ssh_key : Components) : Ops W unit :=
  ssh_attempts 60 args m ssh_key.

Definition remote_release (args : ProvisionVmArgs.t) : string :=
  "/tmp/mobile-proxy-vm-release-" ++ ProvisionVmArgs.release_id args.

Definition deploy_release (args : ProvisionVmArgs.t) (m : VmManifest.t) (ssh_key root : Components) : Ops W unit :=
  let! _ := run_command (command (Word "gcloud")
    (words ["compute"; "scp"; "--recurse"; "--project"; VmManifest.project m; "--zone"; VmManifest.zone m;
            "--ssh-key-file"]
     ++ [AtPath ssh_key; Word "--tunnel-through-iap"; AtPath root;
         Word (ProvisionVmArgs.ssh_user args ++ "@" ++ VmManifest.instance_name m ++ ":" ++ remote_release args)%string])%list) in
  ssh args m ssh_key ("sudo bash -c " ++ shell_quote (install_script (ProvisionVmArgs.release_id args))).

Definition VERIFY_SCRIPT : string :=
  "sudo systemctl is-active mobile-relaycontrolpoint.service mobile-relay-gate.service mobile-public-proxy.service mobile-reverse-tunnel-server.service nginx.service wg-quick@wg0.service && sudo ss -lntup | grep -E ':(443|1080|1081|3128|8080|12080|12081|12128|14080|14081|14128) '".

Definition verify_vm (args : ProvisionVmArgs.t) (m : VmManifest.t) (ssh_key : Components) : Ops W unit :=
  ssh args m ssh_key VERIFY_SCRIPT.

(** ** The two commands *)

(** The path of the public key: the key's with a suffix. *)
Definition public_key (ssh_key : Components) : Components :=
  match rev ssh_key with
  | name :: parents => rev ((name ++ bytes ".pub")%list :: parents)
  | [] => [bytes ".pub"]
  end.

Definition provision_vm (args : ProvisionVmArgs.t) : Ops W unit :=
  let! m := vm_load_manifest (ProvisionVmArgs.manifest_path args) in
  let! s := load_secrets m in
  let! ssh_key := expand_home (ProvisionVmArgs.ssh_key args) in
  let! ssh_pub := file_text (public_key ssh_key) in
  let! _ := build_linux_binaries in
  let! release := build_vm_release args m s in
  let! _ := ensure_firewall_rules m in
  let! _ := ensure_instance args m ssh_pub in
  let! _ := wait_for_ssh args m ssh_key in
  if negb (ProvisionVmArgs.create_only args) then
    let! _ := deploy_release args m ssh_key release.1 in
    verify_vm args m ssh_key
  else yield tt.

Definition instance_delete (m : VmManifest.t) : list string :=
  ["compute"; "instances"; "delete"; VmManifest.instance_name m; "--project"; VmManifest.project m;
   "--zone"; VmManifest.zone m; "--quiet"].

Definition delete_vm (args : DeleteVmArgs.t) : Ops W unit :=
  let! m := vm_load_manifest (DeleteVmArgs.manifest_path args) in
  let! known := gcloud_status (instance_describe m) in
  let! _ := if known then run_command (gcloud (instance_delete m)) else yield tt in
  if DeleteVmArgs.delete_firewall_rules args
  then for_each (fun suffix => delete_rule m (rule_name m suffix)) ["ingress"; "control"; "proxy"]
  else yield tt.
End Vm.
