(* ===== verification/VmTheorems.v ===== *)
(** * What a provisioned relay runs

    The environment files of a release give the services exactly the secrets of
    the operator, the services accept them under the conditions they state
    themselves, the opened ports lead to the tunnel's listeners, and the firewall
    rules converge.  Without a rotation token of its own the control plane of a
    release does not start. *)

From stdpp Require Import base gmap strings list.
From Stdlib Require Import ZArith Lia Ascii String.
From S2P Require Import Prelude Text NetText FileTree Shell Foundation TunnelModel ReleaseIntegrity RuntimeArtifacts.
From S2P Require Import ControlPlaneHttp HttpTheorems HostConfig TunnelServer ConfigJson Workstation VmPlan.
Local Open Scope string_scope.
Local Open Scope Z_scope.

(** ** Reading an environment file *)

Fixpoint split_assignment (s : string) : option (string * string) :=
  match s with
  | EmptyString => None
  | String c rest =>
      if byte_of c =? 61 then Some ("", rest)
      else '(name, value) ← split_assignment rest; Some (String c name, value)
  end.

Definition read_assignment (line : string) : option (string * string) :=
  '(name, word) ← split_assignment line; value ← read_word word; Some (name, value).

Definition read_env (text : string) : option (list (string * string)) := mapM read_assignment (lines text).

Definition value_of (env : list (string * string)) (name : string) : option string :=
  snd <$> List.find (fun e => bool_decide (e.1 = name)) env.

(** A text on one line. *)
Definition one_line (s : string) : Prop := Forall (fun b => b <> 10) (bytes s).
(** It does not end in a carriage return. *)
Definition no_cr (s : string) : Prop := strip_cr (bytes s) = bytes s.

Lemma split_bytes_line l r :
  Forall (fun b => b <> 10) l -> split_bytes 10 (l ++ 10 :: r)%list = l :: split_bytes 10 r.
Proof.
  induction 1 as [|b l Hb _ IH]; cbn [app split_bytes]; [done|].
  rewrite (proj2 (Z.eqb_neq b 10)) by done. by rewrite IH.
Qed.

Lemma lines_text_of ls :
  Forall (fun l => one_line l /\ no_cr l) ls -> lines (text_of ls) = ls.
Proof.
  intros Hls. unfold lines.
  assert (line_pieces (split_bytes 10 (bytes (text_of ls))) = bytes <$> ls) as ->.
  { induction Hls as [|l ls [Hl Hcr] Hls IH]; [done|]. cbn [text_of foldr]. rewrite !bytes_app.
    change (bytes newline) with [10]. cbn [app]. fold (text_of ls). rewrite (split_bytes_line _ _ Hl).
    cbn [fmap list_fmap]. destruct (split_bytes_cons 10 (bytes (text_of ls))) as (piece & pieces & Hp).
    rewrite Hp in *. cbn [line_pieces]. f_equal; [exact Hcr|exact IH]. }
  rewrite <- list_fmap_compose. rewrite <- (list_fmap_id ls) at 2. apply list_fmap_ext.
  intros i l _. apply of_bytes_bytes.
Qed.

(** A quoted value keeps its line, and ends in a quote. *)
Lemma map_chars_line f v :
  (forall c, byte_of c <> 10 -> one_line (f c)) -> one_line v -> one_line (map_chars f v).
Proof.
  intros Hf. unfold one_line in *. induction v as [|c v IH]; [done|]. cbn [map_chars bytes].
  intros [Hc Hv]%Forall_cons. rewrite bytes_app. apply Forall_app. split; [by apply Hf|by apply IH].
Qed.

Lemma no_cr_quote s q : (q = 34 \/ q = 39) -> no_cr (s ++ String (ascii_of_byte q) "").
Proof.
  intros Hq. unfold no_cr, strip_cr. rewrite bytes_app.
  assert (bytes (String (ascii_of_byte q) "") = [q]) as -> by (by destruct Hq as [-> | ->]).
  rewrite rev_app_distr. cbn [rev app]. by destruct Hq as [-> | ->].
Qed.

Lemma systemd_line name v :
  one_line name -> one_line v -> one_line (name ++ systemd_env_quote v) /\ no_cr (name ++ systemd_env_quote v).
Proof.
  intros Hn Hv. rewrite systemd_env_quote_chars. split.
  - unfold one_line in *. rewrite !bytes_app. apply Forall_app. split; [done|].
    apply Forall_app. split; [repeat constructor; done|]. apply Forall_app. split; [|repeat constructor; done].
    apply map_chars_line; [|done]. intros c Hc. unfold one_line, systemd_char. destruct (double_special c);
      repeat constructor; done.
  - rewrite !string_app_assoc. apply (no_cr_quote _ 34). by left.
Qed.

Lemma shell_line name v :
  one_line name -> one_line v -> one_line (name ++ shell_quote v) /\ no_cr (name ++ shell_quote v).
Proof.
  intros Hn Hv. unfold shell_quote, shell_escape. split.
  - unfold one_line in *. rewrite !bytes_app. apply Forall_app. split; [done|].
    apply Forall_app. split; [repeat constructor; done|]. apply Forall_app. split; [|repeat constructor; done].
    unfold single_quote at 1. rewrite replace_char. apply map_chars_line; [|done]. intros c Hc.
    unfold one_line. destruct (Ascii.eqb _ c); repeat constructor; done.
  - rewrite !string_app_assoc. apply (no_cr_quote _ 39). by right.
Qed.

(** ** The control plane of a release *)

(** The tokens the control plane reads, and whether it starts with them. *)
Definition auth_of_env (text : string) : option (result AuthConfig AuthError) :=
  env ← read_env text;
  admin ← value_of env "CONTROL_PLANE_ADMIN_TOKEN";
  device ← value_of env "CONTROL_PLANE_DEVICE_TOKEN";
  ui ← value_of env "CONTROL_PLANE_UI_TOKEN";
  Some (auth_from_cli admin device ui (value_of env "CONTROL_PLANE_ROTATION_TOKEN")).

Record on_lines (s : VmSecrets.t) : Prop := {
  line_control : one_line (VmSecrets.control_token s);
  line_ui : one_line (VmSecrets.ui_token s);
  line_rotation : one_line (VmSecrets.rotation_token s);
  line_device : one_line (VmSecrets.device_token s);
  line_cert : one_line (VmSecrets.reverse_tunnel_cert_der_b64 s);
  line_key : one_line (VmSecrets.reverse_tunnel_key_der_b64 s);
}.

Ltac one_line_text := repeat constructor; done.

Lemma assignment_reads name word value :
  Forall (fun b => b <> 61) (bytes name) -> read_word word = Some value ->
  read_assignment ((name ++ "=") ++ word) = Some (name, value).
Proof.
  intros Hn Hw. unfold read_assignment.
  assert (split_assignment ((name ++ "=") ++ word) = Some (name, word)) as ->.
  { induction name as [|c name IH]; [done|]. cbn [bytes] in Hn. apply Forall_cons in Hn as [Hc Hn].
    change ((String c name ++ "=") ++ word) with (String c ((name ++ "=") ++ word)). cbn [split_assignment].
    rewrite (proj2 (Z.eqb_neq _ _) Hc), (IH Hn). done. }
  cbn [mbind option_bind]. by rewrite Hw.
Qed.

(** Reads the assignments of a file whose lines are known. *)
Ltac read_lines :=
  unfold read_env; rewrite lines_text_of;
  [ apply mapM_Some; repeat (apply Forall2_cons; split); [..|by constructor];
    match goal with |- read_assignment _ = Some (?n, ?v) =>
      refine (assignment_reads n _ v _ _);
      [ one_line_text
      | first [ apply systemd_env_quote_reads | apply shell_quote_reads | reflexivity ] ]
    end
  | repeat (apply Forall_cons; split);
    [ first [ apply systemd_line; [one_line_text|assumption]
            | apply shell_line; [one_line_text|assumption]
            | split; [one_line_text|reflexivity] ].. | constructor ] ].

Lemma control_plane_env_reads s :
  on_lines s ->
  read_env (control_plane_env s)
  = Some [("CONTROL_PLANE_LISTEN", "127.0.0.1:8080");
          ("CONTROL_PLANE_ADMIN_TOKEN", VmSecrets.control_token s);
          ("CONTROL_PLANE_DEVICE_TOKEN", VmSecrets.device_token s);
          ("CONTROL_PLANE_UI_TOKEN", VmSecrets.ui_token s);
          ("CONTROL_PLANE_ROTATION_TOKEN", VmSecrets.rotation_token s)].
Proof. intros [Hc Hu Hr Hd _ _]. unfold control_plane_env. read_lines. Qed.

Lemma relay_gate_env_reads s :
  on_lines s ->
  read_env (relay_gate_env s)
  = Some [("CONTROL_PLANE_ADMIN_TOKEN", VmSecrets.control_token s);
          ("CONTROL_PLANE_URL", "http://127.0.0.1:8080");
          ("RELAY_GATE_DEVICE_ID", "b4a6b2f4-5f6f-4fd1-baa4-b7d241b49a06");
          ("RELAY_GATE_UPSTREAM", RELAY_GATE_UPSTREAM)].
Proof. intros [Hc Hu Hr Hd _ _]. unfold relay_gate_env. read_lines. Qed.

Lemma reverse_tunnel_env_reads s :
  on_lines s ->
  read_env (reverse_tunnel_server_env s)
  = Some [("REVERSE_TUNNEL_LISTEN", "0.0.0.0:443");
          ("REVERSE_TUNNEL_TCP_LISTEN", "127.0.0.1:18091");
          ("REVERSE_TUNNEL_TRANSPORT", "hybrid");
          ("REVERSE_TUNNEL_PUBLIC_PROXY_LISTEN", "127.0.0.1:14080,127.0.0.1:14081,127.0.0.1:14128");
          ("REVERSE_TUNNEL_AUTH_TOKEN", VmSecrets.device_token s);
          ("REVERSE_TUNNEL_SERVER_NAME", "mobile-proxy-relay");
          ("REVERSE_TUNNEL_CERT_DER_B64", VmSecrets.reverse_tunnel_cert_der_b64 s);
          ("REVERSE_TUNNEL_KEY_DER_B64", VmSecrets.reverse_tunnel_key_der_b64 s)].
Proof. intros [Hc Hu Hr Hd Hce Hk]. unfold reverse_tunnel_server_env. read_lines. Qed.

Lemma auth_of_release s :
  on_lines s ->
  auth_of_env (control_plane_env s)
  = Some (auth_from_cli (VmSecrets.control_token s) (VmSecrets.device_token s) (VmSecrets.ui_token s)
            (Some (VmSecrets.rotation_token s))).
Proof. intros Hs. unfold auth_of_env. rewrite (control_plane_env_reads s Hs). reflexivity. Qed.

(** The control plane of a release starts exactly with four valid tokens that
    are pairwise different, and then has the operator's. *)
Theorem release_control_plane_starts_iff s auth :
  on_lines s ->
  auth_of_env (control_plane_env s) = Some (Ok auth) <->
  Forall token_ok [VmSecrets.control_token s; VmSecrets.device_token s; VmSecrets.ui_token s;
                   VmSecrets.rotation_token s]
  /\ NoDup [VmSecrets.control_token s; VmSecrets.device_token s; VmSecrets.ui_token s;
            VmSecrets.rotation_token s]
  /\ auth = mk_auth (VmSecrets.control_token s) (VmSecrets.device_token s) (VmSecrets.ui_token s)
              (VmSecrets.rotation_token s).
Proof.
  intros Hs. rewrite (auth_of_release s Hs). unfold auth_from_cli, new_with_rotation.
  set (a := VmSecrets.control_token s). set (d := VmSecrets.device_token s).
  set (u := VmSecrets.ui_token s). set (r := VmSecrets.rotation_token s). clearbody a d u r.
  assert (forall field value, (exists e, validate_token field value = Err e) \/ validate_token field value = Ok tt
    /\ token_ok value) as Hv.
  { intros field value. destruct (validate_token field value) as [[]|e] eqn:Hx; [right|left; eauto].
    split; [done|]. by apply validate_token_Ok in Hx. }
  assert (forall field value e, validate_token field value = Err e -> ~ token_ok value) as Hn.
  { intros field value e Hx Hok. apply (validate_token_Ok field) in Hok. congruence. }
  rewrite !Forall_cons. split.
  - destruct (Hv "control-plane admin token" a) as [[e ->]|[-> Ha]]; [done|].
    destruct (Hv "control-plane device token" d) as [[e ->]|[-> Hd]]; [done|].
    destruct (Hv "control-plane UI token" u) as [[e ->]|[-> Hu]]; [done|].
    destruct (Hv "control-plane rotation token" r) as [[e ->]|[-> Hr]]; [done|]. cbn [result_bind].
    destruct (_ || _ || _) eqn:Hdis; [done|]. cbn [andb].
    destruct (_ || _ || _) eqn:Hdis2 in |- *; [done|]. intros [= <-].
    split; [by split_and!|]. split; [|done].
    rewrite !orb_false_iff in Hdis, Hdis2.
    assert (forall x y, ct_eq x y = false -> x <> y) as Hct.
    { intros x y Hx ->. by rewrite (proj2 (token_eq_true y y) eq_refl) in Hx. }
    destruct Hdis as [[H1' H2'] H3']. destruct Hdis2 as [[H4' H5'] H6'].
    rewrite !NoDup_cons, !not_elem_of_cons. split_and!; try (by apply Hct); try apply not_elem_of_nil; constructor.
  - intros ((Ha & Hd & Hu & Hr & _) & Hnd & ->).
    apply (validate_token_Ok "control-plane admin token") in Ha. apply (validate_token_Ok "control-plane device token") in Hd.
    apply (validate_token_Ok "control-plane UI token") in Hu. apply (validate_token_Ok "control-plane rotation token") in Hr.
    rewrite Ha, Hd, Hu, Hr. cbn [result_bind].
    assert (forall x y, x <> y -> ct_eq x y = false) as Hct.
    { intros x y Hx. apply not_true_iff_false. by rewrite token_eq_true. }
    rewrite !NoDup_cons, !not_elem_of_cons in Hnd.
    rewrite !Hct by tauto. done.
Qed.

Section Commands.
Context {W : Type} `{!Station W}.

Lemma required_env_Ok name (w : W) v w' : required_env name w = (Ok v, w') -> env_var name = Some v /\ w' = w.
Proof. unfold required_env, from_option, lift, ok_or. destruct (env_var name); [|done]. by intros [= <- <-]. Qed.

(** With a manifest that names no rotation token, the release is built with the
    UI token in its place, and its control plane refuses to start. *)
Theorem defaulted_rotation_token_is_refused m (w w' : W) s :
  VmManifest.rotation_token_env m = None -> load_secrets m w = (Ok s, w') -> on_lines s ->
  VmSecrets.rotation_token s = VmSecrets.ui_token s
  /\ forall auth, auth_of_env (control_plane_env s) <> Some (Ok auth).
Proof.
  intros Hm Hl Hs. assert (VmSecrets.rotation_token s = VmSecrets.ui_token s) as Heq.
  { revert Hl. unfold load_secrets. rewrite Hm. intros (ui & w1 & (_ & ->)%required_env_Ok & Hl)%and_then_Ok.
    apply and_then_Ok in Hl as (rotation & w2 & [= <- <-] & Hl).
    do 8 (apply and_then_Ok in Hl as (? & ? & (_ & ->)%required_env_Ok & Hl)). by injection Hl as <- _. }
  split; [done|]. intros auth Ha. apply (release_control_plane_starts_iff s auth Hs) in Ha as (_ & Hnd & _).
  rewrite Heq, !NoDup_cons, !not_elem_of_cons in Hnd. tauto.
Qed.
End Commands.

(** ** The tunnel server of a release *)

(** The options of [services/reverse-tunnel-server/src/cli.rs] from the
    environment. *)
Definition server_cli_of_env (env : list (string * string)) : option ServerCli.t :=
  auth_token ← value_of env "REVERSE_TUNNEL_AUTH_TOKEN";
  cert ← value_of env "REVERSE_TUNNEL_CERT_DER_B64";
  key ← value_of env "REVERSE_TUNNEL_KEY_DER_B64";
  Some (ServerCli.mk
          (default "0.0.0.0:18090" (value_of env "REVERSE_TUNNEL_LISTEN"))
          (default "hybrid" (value_of env "REVERSE_TUNNEL_TRANSPORT"))
          (default "127.0.0.1:18091" (value_of env "REVERSE_TUNNEL_TCP_LISTEN"))
          (default "127.0.0.1:14080,127.0.0.1:14081,127.0.0.1:14128"
             (value_of env "REVERSE_TUNNEL_PUBLIC_PROXY_LISTEN"))
          (value_of env "REVERSE_TUNNEL_TARGET_NODE_ID") auth_token
          (default "mobile-proxy-relay" (value_of env "REVERSE_TUNNEL_SERVER_NAME")) cert key).

Definition loopback (port : Z) : SocketAddr := mk_addr (V4 [127; 0; 0; 1]) port.

Definition RELEASE_LISTENERS : list SocketAddr := [loopback 14080; loopback 14081; loopback 14128].

(** With a device token and key material of acceptable length the server of a
    release listens for the phone on the public port and for everything else
    on loopback only. *)
Theorem release_tunnel_server_starts s :
  on_lines s ->
  server_validate_secret "reverse tunnel auth token" (VmSecrets.device_token s) = Ok tt ->
  16 <= len (VmSecrets.reverse_tunnel_cert_der_b64 s) <= 65536 ->
  16 <= len (VmSecrets.reverse_tunnel_key_der_b64 s) <= 65536 ->
  exists cli,
    read_env (reverse_tunnel_server_env s) ≫= server_cli_of_env = Some cli
    /\ ServerCli.auth_token cli = VmSecrets.device_token s
    /\ validate_cli cli
       = Ok (mk_validated_cli (mk_addr (V4 [0; 0; 0; 0]) 443) (loopback 18091) RELEASE_LISTENERS None).
Proof.
  intros Hs Ht Hc Hk. rewrite (reverse_tunnel_env_reads s Hs). cbn [mbind option_bind].
  exists (ServerCli.mk "0.0.0.0:443" "hybrid" "127.0.0.1:18091"
    "127.0.0.1:14080,127.0.0.1:14081,127.0.0.1:14128" None (VmSecrets.device_token s) "mobile-proxy-relay"
    (VmSecrets.reverse_tunnel_cert_der_b64 s) (VmSecrets.reverse_tunnel_key_der_b64 s)).
  split; [reflexivity|]. split; [reflexivity|].
  unfold validate_cli. cbn [ServerCli.transport ServerCli.auth_token ServerCli.cert_der_b64 ServerCli.key_der_b64
    ServerCli.server_name ServerCli.listen ServerCli.tcp_listen ServerCli.public_proxy_listen ServerCli.target_node_id].
  rewrite bool_decide_true by done. cbn [negb]. rewrite Ht. cbn [result_bind].
  rewrite !(proj2 (Z.ltb_ge _ _)) by lia. reflexivity.
Qed.

(** ** Ports *)

Definition without_semicolon (word : string) : string := replace ";" "" word.

(** The address each server of a stream configuration listens on, with where it
    passes connections. *)
Fixpoint stream_servers (current : string) (ws : list string) : list (string * string) :=
  match ws with
  | "listen" :: ((address :: _) as rest) => stream_servers (without_semicolon address) rest
  | "proxy_pass" :: ((upstream :: _) as rest) =>
      (current, without_semicolon upstream) :: stream_servers current rest
  | _ :: rest => stream_servers current rest
  | [] => []
  end.

Definition release_streams : list (string * string) := stream_servers "" (split_whitespace NGINX_STREAM_CONFIG).

Definition tcp_ports (rule : string) : list string := omap (strip_prefix "tcp:") (split 44 rule).

(** Every port the proxy rule opens is served by the stream configuration and
    leads to a listener of the tunnel server; the relay's gate probes one of
    them; and the tunnel's own TLS port, which the ingress rule opens, leads to
    the server's reserve listener. *)
Theorem public_ports_reach_the_tunnel :
  Forall (fun port => exists upstream addr, ("0.0.0.0:" ++ port, upstream) ∈ release_streams
            /\ parse_socket_addr upstream = Some addr /\ addr ∈ RELEASE_LISTENERS) (tcp_ports PROXY_PORTS)
  /\ (exists port, port ∈ tcp_ports PROXY_PORTS /\ RELAY_GATE_UPSTREAM = "127.0.0.1:" ++ port)
  /\ "443" ∈ tcp_ports INGRESS_PORTS
  /\ (exists upstream, ("0.0.0.0:443", upstream) ∈ release_streams
        /\ parse_socket_addr upstream = Some (loopback 18091)).
Proof.
  assert (release_streams
    = [("0.0.0.0:1080", "127.0.0.1:14080"); ("0.0.0.0:1081", "127.0.0.1:14080");
       ("0.0.0.0:3128", "127.0.0.1:14080"); ("0.0.0.0:443", "127.0.0.1:18091")]) as Hst by (vm_compute; reflexivity).
  assert (tcp_ports PROXY_PORTS = ["1080"; "1081"; "3128"]) as Hp by (vm_compute; reflexivity).
  assert (tcp_ports INGRESS_PORTS = ["22"; "443"; "8443"]) as Hi by (vm_compute; reflexivity).
  rewrite Hst, Hp, Hi. split_and!.
  - repeat (apply Forall_cons; split); [..|constructor]; exists "127.0.0.1:14080", (loopback 14080);
      (split; [repeat (first [left|right]) || set_solver|split; [reflexivity|left]]).
  - exists "1080". split; [left|reflexivity].
  - right. left.
  - exists "127.0.0.1:18091". split; [set_solver|reflexivity].
Qed.

(** ** Firewall rules *)

Section Firewall.
Context {W : Type} `{!Station W} (rules : W -> gmap string string) (m : VmManifest.t).

(** The rules of the manifest's project while the cloud can be reached. *)
Class RuleLaws : Prop := {
  describe_rule name w : exists o w',
    spawn (gcloud (rule_describe m name)) w = (Some o, w') /\ rules w' = rules w
    /\ (succeeded o = true <-> is_Some (rules w !! name));
  update_rule name ports w o w' :
    spawn (gcloud (rule_update m name ports)) w = (Some o, w') -> succeeded o = true ->
    rules w' = <[name := ports]> (rules w);
  create_rule name ports w o w' :
    spawn (gcloud (rule_create m name ports)) w = (Some o, w') -> succeeded o = true ->
    rules w' = <[name := ports]> (rules w);
  delete_rule_law name w o w' :
    spawn (gcloud (rule_delete m name)) w = (Some o, w') -> succeeded o = true ->
    rules w' = delete name (rules w);
}.
Context `{!RuleLaws}.

Lemma gcloud_status_rule name w known w' :
  gcloud_status (rule_describe m name) w = (Ok known, w') ->
  rules w' = rules w /\ (known = true <-> is_Some (rules w !! name)).
Proof.
  unfold gcloud_status, output_of, and_then, yield. destruct (describe_rule name w) as (o & w1 & -> & Hr & Hk).
  by intros [= <- <-].
Qed.

Lemma run_command_Ok (i : Invocation) (w w' : W) :
  run_command i w = (Ok tt, w') -> exists o, spawn i w = (Some o, w') /\ succeeded o = true.
Proof.
  unfold run_command, output_of, and_then. destruct (spawn i w) as [[o|] w1]; [|done].
  intros (Hs & _ & ->)%guard_Ok. eauto.
Qed.

Lemma ensure_rule_Ok rule w w' :
  ensure_rule m rule w = (Ok tt, w') -> rules w' = <[rule.1 := rule.2]> (rules w).
Proof.
  unfold ensure_rule. intros (known & w1 & (Hr & _)%gcloud_status_rule & Hrun)%and_then_Ok.
  apply run_command_Ok in Hrun as (o & Hs & Ho). rewrite <- Hr. destruct known.
  - by eapply update_rule.
  - by eapply create_rule.
Qed.

Lemma delete_rule_Ok name w w' :
  delete_rule m name w = (Ok tt, w') -> rules w' = delete name (rules w).
Proof.
  unfold delete_rule. intros (known & w1 & (Hr & Hk)%gcloud_status_rule & Hrun)%and_then_Ok.
  rewrite <- Hr. destruct known.
  - apply run_command_Ok in Hrun as (o & Hs & Ho). by eapply delete_rule_law.
  - injection Hrun as <-. rewrite delete_id; [done|]. rewrite Hr.
    destruct (rules w !! name) as [ports|]; [|done]. discriminate (proj2 Hk (ex_intro _ ports eq_refl)).
Qed.

(** When the cloud can be reached, the two rules of the relay allow exactly
    their ports afterwards, whether they existed before or not, the rule of an
    earlier version is gone, and no other rule changed. *)
Theorem firewall_rules_converge w w' :
  ensure_firewall_rules m w = (Ok tt, w') ->
  rules w' = delete (rule_name m "control")
    (<[rule_name m "proxy" := PROXY_PORTS]> (<[rule_name m "ingress" := INGRESS_PORTS]> (rules w))).
Proof.
  unfold ensure_firewall_rules, firewall_rules. cbn [for_each].
  intros ([] & w1 & Hloop & Hdel)%and_then_Ok. apply delete_rule_Ok in Hdel as ->.
  apply and_then_Ok in Hloop as ([] & w2 & Hi%ensure_rule_Ok & Hloop).
  apply and_then_Ok in Hloop as ([] & w3 & Hp%ensure_rule_Ok & [= <-]).
  by rewrite Hp, Hi.
Qed.
End Firewall.

(** ** Deletion and release directories *)

Section Deletion.
Context `{!VmJson} {W : Type} `{!Station W}.

(** A machine whose description fails, for whatever reason, is taken for
    deleted: nothing is deleted, and the command reports success. *)
Theorem delete_vm_trusts_describe args m (w w1 w2 : W) o :
  vm_load_manifest (DeleteVmArgs.manifest_path args) w = (Ok m, w1) ->
  spawn (gcloud (instance_describe m)) w1 = (Some o, w2) -> succeeded o = false ->
  DeleteVmArgs.delete_firewall_rules args = false ->
  delete_vm args w = (Ok tt, w2).
Proof.
  intros Hm Hs Ho Hf. unfold delete_vm, and_then. rewrite Hm. unfold gcloud_status, output_of, and_then, yield.
  by rewrite Hs, Ho, Hf.
Qed.

(** The directory that is emptied for a release is wherever the release's name
    leads: an absolute name leaves the output directory. *)
Theorem vm_release_can_leave_output args :
  is_absolute (ProvisionVmArgs.release_id args) = true ->
  vm_release_root args = components (ProvisionVmArgs.release_id args).
Proof. intros Ha. unfold vm_release_root, resolve. by rewrite Ha. Qed.
End Deletion.
