(* ===== verification/DeviceSupport.v ===== *)
(** * Reaching the phone

    [apps/operator-cli/src/device_support.rs]: what the operator's commands for
    the phone share: validation of names and paths, [adb], verification of the
    installed files, and the health, VPN and proxy checks after an installation. *)

From stdpp Require Import base gmap strings list.
From Stdlib Require Import ZArith Lia Ascii String.
From S2P Require Import Prelude Text NetText FileTree Shell Foundation ReleaseIntegrity RuntimeArtifacts.
From S2P Require Import Commands Devices HostDaemon ConfigJson Workstation VmPlan.
Local Open Scope string_scope.
Local Open Scope Z_scope.

Definition PRIMARY_TUNNEL_OWNER : string := "first_party_reverse_tunnel".
Definition STOCK_WIREGUARD_OWNER : string := "stock_wireguard_bridge".
Definition APP_OWNED_TUNNEL_OWNER : string := "first_party_vpn_service".
Definition ANDROID_EGRESS_TUNNEL_OWNER : string := "first_party_android_egress".
Definition STOCK_WIREGUARD_PACKAGE : string := "com.wireguard.android".
Definition APP_OWNED_TUNNEL_PACKAGE : string := "com.example.mobileproxy".
Definition APP_OWNED_TUNNEL_DISABLED_REASON : string :=
  "first_party_vpn_service is disabled after physical validation on July 26, 2026: Android VpnService did not expose a routable 10.66.66.2 listener for the rooted proxy runtime".

(** The part of the manifest that the phone's commands read. *)
Module PhoneManifest.
Record t := mk {
  device_id : string;
  admin_token_env : string;
  relay_user_env : string;
  relay_password_env : string;
  relay_host : string;
  relay_http_port : option Z;
}.
End PhoneManifest.

(** ** Validation *)

Definition validate_tunnel_owner (value : string) : result unit OpsError :=
  if bool_decide (value = PRIMARY_TUNNEL_OWNER) || bool_decide (value = STOCK_WIREGUARD_OWNER)
     || bool_decide (value = ANDROID_EGRESS_TUNNEL_OWNER) then Ok tt
  else if bool_decide (value = APP_OWNED_TUNNEL_OWNER) then Err (Bail APP_OWNED_TUNNEL_DISABLED_REASON)
  else Err (Bail ("unsupported tunnel owner " ++ value ++ "; expected " ++ PRIMARY_TUNNEL_OWNER ++ ", "
                  ++ ANDROID_EGRESS_TUNNEL_OWNER ++ ", or " ++ STOCK_WIREGUARD_OWNER)).

Definition release_char (c : Z) : bool :=
  is_ascii_alphanumeric c || (c =? 45) || (c =? 95) || (c =? 46).

Definition validate_release_id (value : string) : result unit OpsError :=
  if bool_decide (value = "") || (64 <? len value)
     || negb (is_some_and (head (chars value)) is_ascii_alphanumeric)
     || negb (is_some_and (last (chars value)) is_ascii_alphanumeric)
     || negb (all_chars release_char value)
  then Err (Invalid "release_id") else Ok tt.

(** [Component::Normal]: neither the root, nor [.] at the start, nor [..]. *)
Definition parent_piece (piece : list Z) : bool := bool_decide (piece = [46; 46]).

Definition validate_device_path (value field : string) : result unit OpsError :=
  if (256 <? len value) || negb (is_absolute value) || bool_decide (components value = [])
     || existsb parent_piece (components value)
     || negb (all_chars (fun c => is_ascii_alphanumeric c || (c =? 47) || (c =? 45) || (c =? 95) || (c =? 46)) value)
  then Err (Invalid field) else Ok tt.

(** A relative path that starts with [.] has it as a component. *)
Definition leading_dot (value : string) : bool :=
  bool_decide (head (split_bytes 47 (bytes value)) = Some [46]).

Definition validate_relative_release_path (value : string) : result unit OpsError :=
  if bool_decide (value = "") || is_absolute value || leading_dot value
     || existsb parent_piece (components value)
  then Err (Invalid "invalid release-relative path") else Ok tt.

Definition parse_ipv4_octet (value : string) : option Z :=
  if bool_decide (value = "") || ((1 <? len value) && starts_with "0" value) then None
  else parse_unsigned 255 value.

Definition is_ipv4 (value : string) : bool :=
  let parts := split 46 value in
  forallb (fun part => is_some (parse_ipv4_octet part)) parts
  && (Z.of_nat (List.length parts) =? 4).

(** ** Parsing what the phone prints *)

Definition find_map {A B} (f : A -> option B) : list A -> option B :=
  fix go l := match l with
              | [] => None
              | x :: rest => match f x with Some y => Some y | None => go rest end
              end.

Definition parse_package_uid (output package_name : string) : option Z :=
  find_map (fun line =>
    if negb (contains ("package:" ++ package_name) line) then None
    else find_map (fun part => strip_prefix "uid:" part ≫= parse_unsigned 4294967295) (split_whitespace line))
    (lines output).

(** [s.split(pattern).nth(1)] for a text pattern. *)
Fixpoint after_first_of (p s : string) : option string :=
  match strip_prefix p s with
  | Some rest => Some rest
  | None => match s with EmptyString => None | String _ s' => after_first_of p s' end
  end.
Fixpoint before_next (p s : string) : string :=
  if starts_with p s then ""
  else match s with EmptyString => "" | String c s' => String c (before_next p s') end.

(** The first run of digits. *)
Fixpoint take_digits (l : list Z) : list Z :=
  match l with
  | b :: rest => if is_ascii_digit b then b :: take_digits rest else []
  | [] => []
  end.
Definition first_digits (l : list Z) : option (list Z) :=
  match take_digits (drop_while (fun b => negb (is_ascii_digit b)) l) with
  | [] => None
  | digits => Some digits
  end.

Definition parse_active_vpn_owner_uid (connectivity_dump : string) : option Z :=
  find_map (fun line =>
    if negb (contains "Transports:" line) || negb (contains "VPN" line) || negb (contains "OwnerUid:" line)
    then None
    else rest ← after_first_of "OwnerUid:" line;
         digits ← first_digits (bytes (before_next "OwnerUid:" rest));
         parse_unsigned 4294967295 (of_bytes digits)) (lines connectivity_dump).

(** ** The phone over [adb] *)

(** What the commands ask over the network: the forwarded health endpoint and a
    page through the relay's proxy; and the JSON of manifests and health. *)
Class PhoneLink (W : Type) `{Blake3} := {
  manifest_from_json : string -> option PhoneManifest.t;
  query_health : Z -> string -> W -> option HealthRecord.t * W;
  health_from_json : list Z -> option HealthRecord.t;
  smoke_request : string -> string -> string -> W -> option (list Z) * W;
  (** whether the metadata is supported, and the path of each entry, if there is
      an array of entries *)
  manifest_view : list Z -> option (bool * option (list (option string)));
}.

(** [String::from_utf8_lossy], for text that is text. *)
Definition lossy_text (b : list Z) : string := of_bytes b.

Section Phone.
Context `{Blake3, !ReleaseJson} {W : Type} `{!Station W, !PhoneLink W}.
Local Open Scope rust_scope.

Definition bounded_env (name : string) : Ops W string :=
  let! value := from_option (MissingEnv name) (env_var name) in
  let! _ := guard (negb (bool_decide (value = "") || (4096 <? len value) || any_char is_control value))
              (Invalid name) in
  yield value.

Definition load_manifest (path : string) : Ops W PhoneManifest.t :=
  let! text := file_text (repo_path path) in
  from_option NotJson (manifest_from_json text).

Definition admin_token (m : PhoneManifest.t) : Ops W string := bounded_env (PhoneManifest.admin_token_env m).

Definition release_root (output_dir release_id : string) : Components :=
  resolve (resolve repo_root output_dir) release_id.

Definition detect_tool (candidates : list string) (tool_name : string) : Ops W string :=
  let! w := get_state in
  from_option (Bail ("failed to locate " ++ tool_name))
    (List.find (fun c => negb (is_absolute c) || present (components c) w) candidates).

Definition adb_candidates (user : string) (server_socket : bool) : list string :=
  let tools := "/mnt/c/Users/" ++ user ++ "/tools/platform-tools/adb.exe" in
  let sdk := "/mnt/c/Users/" ++ user ++ "/AppData/Local/Android/Sdk/platform-tools/adb.exe" in
  if server_socket then ["/usr/bin/adb"; "adb"; tools; sdk] else [tools; sdk; "/usr/bin/adb"; "adb"].

Definition user_name : string :=
  default "Bose" (match env_var "USER" with Some u => Some u | None => env_var "USERNAME" end).

Definition detect_adb : Ops W string :=
  match env_var "MOBILE_PROXY_ADB" with
  | Some configured =>
      let! w := get_state in
      let! _ := guard (negb (is_absolute configured) || is_some (file (components configured) w))
                  (Bail "MOBILE_PROXY_ADB points to a missing executable") in
      yield configured
  | None => detect_tool (adb_candidates user_name (is_some (env_var "ADB_SERVER_SOCKET"))) "adb"
  end.

(** [path.extension()] is [exe], in any case. *)
Definition is_exe (path : string) : bool := ends_with ".exe" (to_ascii_lowercase path).

Definition windows_path_for_adb (path : string) : Ops W string :=
  let! o := output_of (command (Word "wslpath") (words ["-w"; path])) in
  let! _ := guard (succeeded o) (Failed (stderr o)) in
  let translated := trim (lossy_text (stdout o)) in
  let! _ := guard (negb (bool_decide (translated = ""))) (Bail "wslpath returned an empty path for Windows adb") in
  yield translated.

Definition serial_arguments (device_serial : option string) : list string :=
  match device_serial with Some serial => ["-s"; serial] | None => [] end.

Definition adb_output (device_serial : option string) (arguments : list string) : Ops W Output :=
  let! adb_path := detect_adb in
  let! arguments :=
    match arguments with
    | "push" :: local :: ((_ :: _) as rest) =>
        if is_exe adb_path then
          let! translated := windows_path_for_adb local in yield ("push" :: translated :: rest)
        else yield arguments
    | _ => yield arguments
    end in
  let! o := output_of (command (Word adb_path) (words (serial_arguments device_serial ++ arguments)%list)) in
  let! _ := guard (succeeded o) (Failed (stderr o)) in
  yield o.

Definition adb (device_serial : option string) (arguments : list string) : Ops W string :=
  let! o := adb_output device_serial arguments in yield (trim (lossy_text (stdout o))).

Definition ensure_root_access (device_serial : option string) : Ops W unit :=
  let! root_check := adb device_serial ["shell"; "su"; "0"; "sh"; "-c"; "id"] in
  guard (contains "uid=0" root_check) (Bail "root access is required on device").

Definition temp_script (stem : string) : Components :=
  below temp_dir (stem ++ "-" ++ process_id ++ ".sh").

Definition write_temp_script (stem body : string) : Ops W Components :=
  let! _ := change (put_file (temp_script stem) (bytes body)) in
  yield (temp_script stem).

(** ** The installed files *)

Definition staged_path (relative : string) : string :=
  "/data/local/tmp/mobile-proxy-verify-" ++ process_id ++ "-" ++ replace "/" "_" relative.
Definition remote_path (device_root relative : string) : string :=
  of_bytes (rev (drop_while (Z.eqb 47) (rev (bytes device_root)))) ++ "/current/" ++ relative.

Definition compare_script (staged remote : string) : string :=
  "su -c '" ++ "chmod 0600 " ++ staged ++ " && cmp -s -- " ++ staged ++ " " ++ remote ++ "'".
Definition cleanup_script (staged : string) : string := "su -c 'rm -f " ++ staged ++ "'".

(** One entry: pushed beside the installed file, compared and removed again,
    also when the comparison failed. *)
Definition verify_entry (root : Components) (device_serial : option string) (device_root : string)
    (entry : option string) : Ops W unit :=
  let! relative := from_option (Bail "release integrity path is invalid") entry in
  let! _ := lift (validate_relative_release_path relative) in
  let staged := staged_path relative in
  let! _ := adb device_serial ["push"; path_text (root ++ components relative)%list; staged] in
  fun w =>
    let '(compared, w1) := adb device_serial ["shell"; compare_script staged (remote_path device_root relative)] w in
    match adb device_serial ["shell"; cleanup_script staged] w1 with
    | (Err e, w2) => (Err e, w2)
    | (Ok _, w2) => match compared with Err e => (Err e, w2) | Ok _ => (Ok tt, w2) end
    end.

Definition verify_installed_release_files (root : Components) (device_serial : option string)
    (device_root : string) : Ops W unit :=
  let! content := file_bytes (below root "integrity-manifest.json") in
  let! view := from_option NotJson (manifest_view content) in
  let! _ := guard view.1 (Bail "release integrity manifest metadata is unsupported") in
  let! entries := from_option (Bail "release integrity manifest entries are missing") view.2 in
  let! _ := guard (negb (bool_decide (entries = [])) && (Z.of_nat (List.length entries) <=? 128))
              (Bail "release integrity manifest inventory is invalid") in
  for_each (verify_entry root device_serial device_root) entries.

(** ** Health *)

Definition POWERSHELL : string := "/mnt/c/Windows/System32/WindowsPowerShell/v1.0/powershell.exe".

Definition health_script (health_port : Z) : string :=
  quotes "$token=[Console]::In.ReadToEnd(); $headers=@{Authorization=(~Bearer ~ + $token)}; try { $response=Invoke-WebRequest -UseBasicParsing -Headers $headers -TimeoutSec 15 -Uri ~http://127.0.0.1:"
  ++ u64_to_string health_port
  ++ quotes "/v1/health~; [Console]::Out.Write($response.Content) } catch { [Console]::Error.Write($_.Exception.Message); exit 1 }".

Definition fetch_windows_forwarded_health (health_port : Z) (token : string) : Ops W HealthRecord.t :=
  let! w := get_state in
  let powershell := if is_some (file (components POWERSHELL) w) then POWERSHELL else "powershell.exe" in
  let! o := output_of (mk_invocation (Word powershell)
              (words ["-NoProfile"; "-NonInteractive"; "-Command"; health_script health_port]) [] token) in
  let! _ := guard (succeeded o) (Failed (stderr o)) in
  from_option NotJson (health_from_json (stdout o)).

Definition fetch_device_health (device_serial : option string) (health_port : Z) (token : string)
    : Ops W HealthRecord.t :=
  let! _ := adb device_serial ["forward"; "tcp:" ++ u64_to_string health_port; "tcp:8088"] in
  let! adb_path := detect_adb in
  if ends_with ".exe" adb_path then fetch_windows_forwarded_health health_port token
  else fun w => match query_health health_port token w with
                | (Some health, w') => (Ok health, w')
                | (None, w') => (Err (Bail "failed to query forwarded device health"), w')
                end.

Definition is_healthy (h : HealthRecord.t) : bool :=
  bool_decide (HealthRecord.readiness_state h = "healthy") && HealthRecord.serving h
  && bool_decide (HealthRecord.proxy_status h = "running").

Fixpoint wait_for_health (attempts : nat) (device_serial : option string) (health_port : Z)
    (token : string) (poll_secs : Z) : Ops W HealthRecord.t :=
  match attempts with
  | O => bail (Bail "device health did not become healthy")
  | S remaining => fun w =>
      let again := let! _ := sleep (Z.max poll_secs 1) in wait_for_health remaining device_serial health_port token poll_secs in
      match fetch_device_health device_serial health_port token w with
      | (Ok health, w') => if is_healthy health then (Ok health, w') else again w'
      | (Err _, w') => again w'
      end
  end.

Definition assert_healthy (h : HealthRecord.t) : Ops W unit := guard (is_healthy h) (Bail "health check failed").

Definition assert_tunnel_owner (h : HealthRecord.t) (required : string) : Ops W unit :=
  guard (bool_decide (HealthRecord.tunnel_owner h = Some required)) (Bail "device tunnel owner mismatch").

Definition package_uid (device_serial : option string) (package_name : string) : Ops W Z :=
  let! output := adb device_serial ["shell"; "cmd"; "package"; "list"; "packages"; "-U"; package_name] in
  from_option (Bail "package uid was not found") (parse_package_uid output package_name).

(** The active VPN belongs to the package. *)
Definition assert_vpn_package (device_serial : option string) (package : string) (active : option Z) : Ops W unit :=
  let! expected_uid := package_uid device_serial package in
  let! actual_uid := from_option (Bail "active Android VPN owner uid was not found") active in
  guard (actual_uid =? expected_uid) (Bail "active Android VPN owner mismatch").

Definition assert_active_vpn_owner (device_serial : option string) (required : string) : Ops W unit :=
  let! dump := adb device_serial ["shell"; "dumpsys"; "connectivity"] in
  let active := parse_active_vpn_owner_uid dump in
  if bool_decide (required = PRIMARY_TUNNEL_OWNER) || bool_decide (required = ANDROID_EGRESS_TUNNEL_OWNER)
  then guard (negb (is_some active)) (Bail "native reverse tunnel requires no active Android VPN")
  else if bool_decide (required = STOCK_WIREGUARD_OWNER)
  then assert_vpn_package device_serial STOCK_WIREGUARD_PACKAGE active
  else if bool_decide (required = APP_OWNED_TUNNEL_OWNER)
  then assert_vpn_package device_serial APP_OWNED_TUNNEL_PACKAGE active
  else bail (Bail "unsupported required tunnel owner").

(** ** Through the proxy *)

(** [for _ in 0..5]: a successful status whose body is an address ends it. *)
Fixpoint smoke_attempts (left : nat) (proxy user password : string) : Ops W unit :=
  match left with
  | O => bail (Bail "proxy smoke failed after retries")
  | S left' => fun w =>
      let '(body, w') := smoke_request proxy user password w in
      if is_some_and body (fun b => valid_utf8 b && is_ipv4 (trim (of_bytes b))) then (Ok tt, w')
      else (let! _ := sleep 2 in smoke_attempts left' proxy user password) w'
  end.

Definition proxy_smoke (m : PhoneManifest.t) : Ops W unit :=
  let! relay_user := bounded_env (PhoneManifest.relay_user_env m) in
  let! relay_password := bounded_env (PhoneManifest.relay_password_env m) in
  smoke_attempts 5
    ("http://" ++ PhoneManifest.relay_host m ++ ":" ++ u64_to_string (default 3128 (PhoneManifest.relay_http_port m)))
    relay_user relay_password.
End Phone.
