(* ===== verification/DevicePackage.v ===== *)
(** * Packaging a release for the phone

    [apps/operator-cli/src/provision.rs]: the release directory of the phone's
    runtime, its rendered configurations and the checks that a release cannot be
    built without. *)

From stdpp Require Import base gmap strings list.
From Stdlib Require Import ZArith Lia Ascii String.
From S2P Require Import Prelude Text NetText FileTree Shell Foundation ReleaseIntegrity RuntimeArtifacts.
From S2P Require Import ConfigJson Workstation VmPlan DeviceSupport.
Local Open Scope string_scope.
Local Open Scope Z_scope.

Module DeviceManifest.
Record t := mk {
  device_id : string;
  node_name : string;
  operator_profile : option string;
  control_plane_url : string;
  admin_token_env : string;
  device_token_env : string;
  ui_token_env : string;
  relay_user_env : string;
  relay_password_env : string;
  reverse_tunnel_cert_der_b64_env : option string;
  relay_host : option string;              (* [relay], which has a host *)
}.
End DeviceManifest.

Module DeviceProfile.
Record t := mk { operator_profile : string; airplane_hold_secs : Z }.
End DeviceProfile.

Module PackageArgs.
Record t := mk {
  manifest_path : string;
  release_id : string;
  output_dir : string;
  host_daemon_config_path : option string;
  sing_box_config_path : option string;
  tunnel_owner : string;
}.
End PackageArgs.

(** [serde_json]: the readers of the two files and of a value, and its compact
    and indented writers. *)
Class PackageJson := {
  device_manifest_from_json : string -> option DeviceManifest.t;
  profile_from_json : string -> option DeviceProfile.t;
  value_from_json : string -> option Value;
  value_to_json : Value -> string;
  value_to_pretty : Value -> string;
}.

Definition CURL_SHIM : string :=
  text_of
    ["#!/system/bin/sh";
     "set -eu";
     "umask 077";
     "";
     quotes "LOG_FILE=~/data/adb/mobile-proxy-node/logs/curl-shim.log~";
     "max_time=5";
     quotes "url=~~";
     quotes "proxy_url=~~";
     quotes "proxy_user=~~";
     "";
     quotes "while [ ~$#~ -gt 0 ]; do";
     quotes "  case ~$1~ in";
     "    --proxy)";
     quotes "      proxy_url=~${2:-}~";
     "      shift 2";
     "      ;;";
     "    --proxy-user)";
     quotes "      proxy_user=~${2:-}~";
     "      shift 2";
     "      ;;";
     "    --max-time|--connect-timeout)";
     quotes "      max_time=~${2:-5}~";
     "      shift 2";
     "      ;;";
     "    --silent|--show-error|-s|-S|-k|-L|-f)";
     "      shift";
     "      ;;";
     "    http://*|https://*)";
     quotes "      url=~$1~";
     "      shift";
     "      ;;";
     "    *)";
     "      shift";
     "      ;;";
     "  esac";
     "done";
     "";
     quotes "if [ -z ~$url~ ]; then";
     quotes "  echo ~$(date '+%Y-%m-%dT%H:%M:%S%z') result:no_url~ >> ~$LOG_FILE~ 2>/dev/null || true";
     "  exit 2";
     "fi";
     "";
     quotes "effective_proxy=~~";
     quotes "if [ -n ~$proxy_url~ ]; then";
     quotes "  proxy_hostport=~${proxy_url#*://}~";
     quotes "  if [ -z ~$proxy_user~ ] && [ ~$proxy_hostport~ = ~10.66.66.2:1080~ ] && [ -f ~/data/adb/mobile-proxy-node/current/config/sing-box.json~ ]; then";
     quotes "    local_user=~$(sed -n 's/.*~username~[[:space:]]*:[[:space:]]*~\([^~]*\)~.*/\1/p' /data/adb/mobile-proxy-node/current/config/sing-box.json | head -n1)~";
     quotes "    local_pass=~$(sed -n 's/.*~password~[[:space:]]*:[[:space:]]*~\([^~]*\)~.*/\1/p' /data/adb/mobile-proxy-node/current/config/sing-box.json | head -n1)~";
     quotes "    if [ -n ~$local_user~ ] && [ -n ~$local_pass~ ]; then";
     quotes "      proxy_user=~${local_user}:${local_pass}~";
     "    fi";
     "  fi";
     quotes "  if [ -n ~$proxy_user~ ] && ! echo ~$proxy_hostport~ | grep -q '@'; then";
     quotes "    proxy_hostport=~${proxy_user}@${proxy_hostport}~";
     "  fi";
     quotes "  effective_proxy=~http://${proxy_hostport}~";
     "fi";
     "";
     quotes "if [ -x ~/data/adb/magisk/busybox~ ]; then";
     quotes "  WGET_BIN=~/data/adb/magisk/busybox~";
     quotes "elif [ -x ~/debug_ramdisk/.magisk/busybox/busybox~ ]; then";
     quotes "  WGET_BIN=~/debug_ramdisk/.magisk/busybox/busybox~";
     "else";
     quotes "  WGET_BIN=~~";
     "fi";
     "";
     "run_wget() {";
     quotes "  if [ -n ~$effective_proxy~ ]; then";
     quotes "    if [ -n ~$WGET_BIN~ ]; then";
     quotes "      http_proxy=~$effective_proxy~ https_proxy=~$effective_proxy~ ~$WGET_BIN~ wget -Y on -qO- --timeout ~$max_time~ ~$url~ 2>/dev/null";
     "    else";
     quotes "      http_proxy=~$effective_proxy~ https_proxy=~$effective_proxy~ wget -Y on -qO- --timeout ~$max_time~ ~$url~ 2>/dev/null";
     "    fi";
     quotes "  elif [ -n ~$WGET_BIN~ ]; then";
     quotes "    ~$WGET_BIN~ wget -qO- --timeout ~$max_time~ ~$url~ 2>/dev/null";
     "  else";
     quotes "    wget -qO- --timeout ~$max_time~ ~$url~ 2>/dev/null";
     "  fi";
     "}";
     "";
     "if run_wget; then";
     quotes "  echo ~$(date '+%Y-%m-%dT%H:%M:%S%z') result:ok~ >> ~$LOG_FILE~ 2>/dev/null || true";
     "  exit 0";
     "fi";
     "";
     quotes "echo ~$(date '+%Y-%m-%dT%H:%M:%S%z') result:fail~ >> ~$LOG_FILE~ 2>/dev/null || true";
     "exit 1"].

Definition UI_CONTROL_TOKEN_DOMAIN : string := "mobile-proxy/local-ui-control-token/v1".
Definition DEFAULT_RELAY_HOST : string := "34.118.88.54".

(** ** The owner of the tunnel *)

Definition uses_reverse_tunnel (tunnel_owner : string) : bool :=
  bool_decide (tunnel_owner = PRIMARY_TUNNEL_OWNER) || bool_decide (tunnel_owner = ANDROID_EGRESS_TUNNEL_OWNER).

Definition bool_literal (value : bool) : string := if value then "true" else "false".

Definition proxy_listen_address (tunnel_owner : string) : string :=
  if uses_reverse_tunnel tunnel_owner then "127.0.0.1:1080" else "10.66.66.2:1080".

Definition sing_box_listen_host (tunnel_owner : string) : string :=
  if uses_reverse_tunnel tunnel_owner then "127.0.0.1" else "10.66.66.2".

Definition sing_box_final_outbound (tunnel_owner : string) : string :=
  if bool_decide (tunnel_owner = ANDROID_EGRESS_TUNNEL_OWNER) then "cellular-egress" else "direct".

Definition sing_box_outbound (tunnel_owner username password : string) : Value :=
  if bool_decide (tunnel_owner = ANDROID_EGRESS_TUNNEL_OWNER) then
    VObject [("type", VString "socks"); ("tag", VString "cellular-egress"); ("server", VString "127.0.0.1");
             ("server_port", VNumber (PosInt 18080)); ("version", VString "5");
             ("username", VString username); ("password", VString password)]
  else VObject [("type", VString "direct"); ("tag", VString "direct")].

(** ** Validation *)

Definition validate_profile_name (value : string) : result unit OpsError :=
  if bool_decide (value = "") || (64 <? len value)
     || negb (all_chars (fun c => is_ascii_alphanumeric c || (c =? 45) || (c =? 95)) value)
  then Err (Invalid "operator profile name") else Ok tt.

Definition validate_bounded_text (field value : string) (maximum : Z) : result unit OpsError :=
  if bool_decide (value = "") || (maximum <? len value) || any_char is_control value
  then Err (Invalid field) else Ok tt.

Section Validation.
Local Open Scope rust_scope.

Definition validate_manifest (m : DeviceManifest.t) : result unit OpsError :=
  let? _ := validate_bounded_text "deviceId" (DeviceManifest.device_id m) 512 in
  let? _ := validate_bounded_text "nodeName" (DeviceManifest.node_name m) 512 in
  let? _ := validate_bounded_text "controlPlaneUrl" (DeviceManifest.control_plane_url m) 512 in
  match DeviceManifest.relay_host m with
  | Some host => validate_bounded_text "relay.host" host 253
  | None => Ok tt
  end.

(** [Value::get], [as_str], [as_bool] and [as_object] *)
Definition get (key : string) (v : Value) : option Value :=
  match v with
  | VObject es => snd <$> List.find (fun e => bool_decide (e.1 = key)) es
  | _ => None
  end.
Definition as_str (v : Value) : option string := match v with VString s => Some s | _ => None end.
Definition as_bool (v : Value) : option bool := match v with VBool b => Some b | _ => None end.
Definition as_object (v : Value) : option (list (string * Value)) := match v with VObject es => Some es | _ => None end.

(** [Value::pointer] with two keys *)
Definition pointer (first second : string) (v : Value) : option Value :=
  inner ← get first v; get second inner.

Definition PROXY_FIELDS : list string :=
  ["listen_address"; "username"; "password"; "binary"; "args"; "working_dir"; "env"].

Definition validate_proxy_shape (config : Value) : result unit OpsError :=
  let? proxy := ok_or (get "proxy" config ≫= as_object) (Bail "host-daemon proxy configuration is missing") in
  if negb (forallb (fun field => bool_decide (field ∈ proxy.*1)) ["listen_address"; "username"; "password"])
  then Err (Bail "host-daemon proxy field is missing")
  else if negb (forallb (fun field => bool_decide (field ∈ PROXY_FIELDS)) proxy.*1)
  then Err (Bail "host-daemon proxy contains unsupported field")
  else Ok tt.

Context `{!PackageJson}.

Definition validate_json (body : string) : result Value OpsError := ok_or (value_from_json body) NotJson.

Definition validate_host_config (body expected_owner : string) : result unit OpsError :=
  let? config := validate_json body in
  let? _ := validate_proxy_shape config in
  let? owner := ok_or (pointer "wireguard" "owner" config ≫= as_str)
                  (Bail "host-daemon tunnel owner is missing") in
  if negb (bool_decide (owner = expected_owner))
  then Err (Bail "host-daemon tunnel owner differs from requested package owner")
  else
  let? wireguard_enabled := ok_or (pointer "wireguard" "enabled" config ≫= as_bool)
                              (Bail "host-daemon wireguard.enabled is missing") in
  let? reverse_enabled := ok_or (pointer "reverse_tunnel" "enabled" config ≫= as_bool)
                            (Bail "host-daemon reverse_tunnel.enabled is missing") in
  if (uses_reverse_tunnel expected_owner && negb wireguard_enabled && reverse_enabled)
     || ((bool_decide (expected_owner = STOCK_WIREGUARD_OWNER)
          || bool_decide (expected_owner = APP_OWNED_TUNNEL_OWNER)) && wireguard_enabled && negb reverse_enabled)
  then Ok tt
  else Err (Bail "host-daemon tunnel enable flags contradict requested owner").

(** ** Templates *)

Definition raw_placeholder (key : string) : string := "{{" ++ key ++ "}}".
Definition string_placeholder (key : string) : string := double_quote ++ raw_placeholder key ++ double_quote.

(** One loop of [render_json_template] or [render_text_template]: each
    placeholder has to be there when its turn comes. *)
Fixpoint fill (placeholder write : string -> string) (values : list (string * string)) (rendered : string)
    : result string OpsError :=
  match values with
  | [] => Ok rendered
  | (key, value) :: rest =>
      if negb (contains (placeholder key) rendered) then Err (Bail ("template is missing placeholder " ++ key))
      else fill placeholder write rest (replace (placeholder key) (write value) rendered)
  end.

Definition unresolved (rendered : string) : bool := contains "{{" rendered || contains "}}" rendered.

Definition render_json_template (template : string) (strings raw_values : list (string * string))
    : result string OpsError :=
  let? rendered := fill string_placeholder (fun value => value_to_json (VString value)) strings template in
  let? rendered := fill raw_placeholder (fun value => value) raw_values rendered in
  if unresolved rendered then Err (Bail "JSON template contains unresolved placeholders")
  else let? _ := validate_json rendered in Ok rendered.

Definition render_text_template (template : string) (values : list (string * string)) : result string OpsError :=
  let? rendered := fill raw_placeholder (fun value => value) values template in
  if unresolved rendered then Err (Bail "text template contains unresolved placeholders") else Ok rendered.
End Validation.

(** ** Binaries *)

Definition is_android_arm_elf_header (content : list Z) : bool :=
  bool_decide (take 4 content = [127; 69; 76; 70]) && bool_decide (content !! 4%nat = Some 1)
  && bool_decide (content !! 5%nat = Some 1)
  && bool_decide (nth 18 content 0 + 256 * nth 19 content 0 = 40).

(** [binary.windows(n).any(|window| window == marker)] *)
Fixpoint has_window (marker binary : list Z) : bool :=
  bool_decide (take (List.length marker) binary = marker)
  || match binary with [] => false | _ :: rest => has_window marker rest end.

Definition binary_contains_marker (binary marker : list Z) : bool :=
  negb (bool_decide (marker = [])) && has_window marker binary.

(** ** The release *)

Section Package.
Context `{Blake3, !ReleaseJson, !PackageJson} {W : Type} `{!Station W}.
Local Open Scope rust_scope.

(** The digest's bytes as two hexadecimal digits each. *)
Definition stable_ui_control_token (device_id admin_token : string) : string :=
  hash_to_hex (digest_hash (ContentDigest_derive UI_CONTROL_TOKEN_DOMAIN [bytes device_id; bytes admin_token])).

Definition package_env (name : string) : Ops W string :=
  let! _ := lift (validate_bounded_text "environment variable name" name 128) in
  let! value := from_option (MissingEnv name) (env_var name) in
  let! _ := lift (validate_bounded_text name value 4096) in
  yield value.

Definition reverse_tunnel_addr (m : DeviceManifest.t) (tunnel_owner : string) : result string OpsError :=
  if negb (uses_reverse_tunnel tunnel_owner) then Ok "127.0.0.1:18090"
  else let? host := ok_or (DeviceManifest.relay_host m)
                      (Bail "first_party_reverse_tunnel requires relay host in device manifest") in
       Ok (host ++ ":443").

Definition reverse_tunnel_tcp_addr (m : DeviceManifest.t) (tunnel_owner : string) : result string OpsError :=
  if negb (uses_reverse_tunnel tunnel_owner) then Ok "127.0.0.1:443"
  else let? host := ok_or (DeviceManifest.relay_host m)
                      (Bail "first_party_reverse_tunnel requires relay config") in
       Ok (host ++ ":443").

Definition reverse_tunnel_cert_der_b64 (m : DeviceManifest.t) (tunnel_owner : string) : Ops W string :=
  if negb (uses_reverse_tunnel tunnel_owner) then yield ""
  else package_env (default "MOBILE_PROXY_REVERSE_TUNNEL_CERT_DER_B64"
                      (DeviceManifest.reverse_tunnel_cert_der_b64_env m)).

Definition git (arguments : list string) : Invocation := command (Word "git") (words arguments).

Definition ensure_clean_worktree : Ops W unit :=
  let! o := output_of (git ["status"; "--porcelain"; "--untracked-files=normal"]) in
  let! _ := guard (succeeded o) (Bail "git status failed while packaging release") in
  guard (bool_decide (stdout o = [])) (Bail "device release packaging requires a clean Git worktree").

Definition is_hexdigit (b : Z) : bool := is_ascii_digit b || in_range 97 102 b || in_range 65 70 b.

Definition release_metadata (release_id : string) : Ops W (list Z) :=
  let! o := output_of (git ["rev-parse"; "HEAD"]) in
  let! _ := guard (succeeded o) (Bail "git rev-parse HEAD failed while packaging release") in
  let git_sha := trim (lossy_text (stdout o)) in
  let! _ := guard ((len git_sha =? 40) && all_bytes is_hexdigit git_sha)
              (Bail "Git revision is not a full commit SHA") in
  yield (bytes (value_to_pretty (VObject
    [("release_id", VString release_id); ("git_sha", VString git_sha);
     ("git_worktree_clean", VBool true); ("format_version", VNumber (PosInt 1))]))).

Definition ensure_android_arm_binary (p : Components) : Ops W (list Z) :=
  let! w := get_state in
  let! content := from_option NotFile (file p w) in
  let! _ := guard (20 <=? Z.of_nat (List.length content)) Io in
  let! _ := guard (is_android_arm_elf_header content) Elf in
  yield content.

Definition ensure_runtime_owner_support (binary : list Z) (tunnel_owner : string) : Ops W unit :=
  let! _ := guard (binary_contains_marker binary (bytes tunnel_owner))
              (Bail "runtime-supervisor does not support tunnel owner") in
  guard (negb (bool_decide (tunnel_owner = ANDROID_EGRESS_TUNNEL_OWNER))
         || binary_contains_marker binary (bytes "android-egress-mixed-proxy-v1"))
    (Bail "runtime-supervisor does not contain the Android egress mixed-proxy feature").

(** What the templates are filled with. *)
Record Values := mk_values {
  val_admin_token : string;
  val_device_token : string;
  val_ui_token : string;
  val_relay_user : string;
  val_relay_password : string;
  val_ui_control_token : string;
}.

Definition host_strings (m : DeviceManifest.t) (profile : DeviceProfile.t) (v : Values)
    (owner addr tcp_addr cert : string) : list (string * string) :=
  [("NODE_ID", DeviceManifest.device_id m); ("NODE_NAME", DeviceManifest.node_name m);
   ("ADMIN_TOKEN", val_admin_token v); ("UI_CONTROL_TOKEN", val_ui_control_token v);
   ("RELAY_USER", val_relay_user v); ("RELAY_PASSWORD", val_relay_password v);
   ("CONTROL_PLANE_URL", DeviceManifest.control_plane_url m);
   ("CONTROL_PLANE_RESOLVE_ADDR", default DEFAULT_RELAY_HOST (DeviceManifest.relay_host m) ++ ":8443");
   ("DEVICE_TOKEN", val_device_token v); ("CONTROL_PLANE_UI_TOKEN", val_ui_token v);
   ("OPERATOR_PROFILE", DeviceProfile.operator_profile profile); ("TUNNEL_OWNER", owner);
   ("PROXY_LISTEN_ADDRESS", proxy_listen_address owner); ("LOCAL_PROXY_ADDRESS", proxy_listen_address owner);
   ("LOCAL_SOCKS5_ADDRESS",
      if bool_decide (owner = ANDROID_EGRESS_TUNNEL_OWNER) then "127.0.0.1:18080" else "127.0.0.1:1081");
   ("REVERSE_TUNNEL_ADDR", addr); ("REVERSE_TUNNEL_TCP_ADDR", tcp_addr);
   ("REVERSE_TUNNEL_SERVER_NAME", "mobile-proxy-relay"); ("REVERSE_TUNNEL_CERT_DER_B64", cert)].

Definition host_raw (profile : DeviceProfile.t) (owner : string) : list (string * string) :=
  [("WIREGUARD_ENABLED",
      bool_literal (bool_decide (owner = STOCK_WIREGUARD_OWNER) || bool_decide (owner = APP_OWNED_TUNNEL_OWNER)));
   ("REVERSE_TUNNEL_ENABLED", bool_literal (uses_reverse_tunnel owner));
   ("AIRPLANE_HOLD_SECS", u64_to_string (DeviceProfile.airplane_hold_secs profile));
   ("APP_EGRESS_PORT", "18080");
   ("REVERSE_TUNNEL_QUIC_ENABLED", bool_literal (negb (bool_decide (owner = ANDROID_EGRESS_TUNNEL_OWNER))));
   ("REVERSE_TUNNEL_SOCKS5_ADDR",
      if bool_decide (owner = ANDROID_EGRESS_TUNNEL_OWNER) then quoted "127.0.0.1:18080" else "null")].

Definition template_path (name : string) : Components :=
  below repo_root ("deploy/device-runtime/templates/" ++ name).

Definition render_host (args : PackageArgs.t) (m : DeviceManifest.t) (profile : DeviceProfile.t) (v : Values)
    : Ops W string :=
  let owner := PackageArgs.tunnel_owner args in
  match PackageArgs.host_daemon_config_path args with
  | Some path =>
      let! body := file_text (repo_path path) in
      let! _ := lift (validate_host_config body owner) in
      yield body
  | None =>
      let! template := file_text (template_path "host-daemon.base.json") in
      let! cert := reverse_tunnel_cert_der_b64 m owner in
      let! addr := lift (reverse_tunnel_addr m owner) in
      let! tcp_addr := lift (reverse_tunnel_tcp_addr m owner) in
      let! body := lift (render_json_template template (host_strings m profile v owner addr tcp_addr cert)
                           (host_raw profile owner)) in
      let! _ := lift (validate_host_config body owner) in
      yield body
  end.

Definition render_sing_box (args : PackageArgs.t) (v : Values) : Ops W string :=
  let owner := PackageArgs.tunnel_owner args in
  match PackageArgs.sing_box_config_path args with
  | Some path =>
      let! body := file_text (repo_path path) in
      let! _ := lift (validate_json body) in
      yield body
  | None =>
      let! template := file_text (template_path "sing-box.base.json") in
      lift (render_json_template template
              [("RELAY_USER", val_relay_user v); ("RELAY_PASSWORD", val_relay_password v);
               ("SING_BOX_LISTEN_HOST", sing_box_listen_host owner);
               ("SING_BOX_FINAL_OUTBOUND", sing_box_final_outbound owner)]
              [("PROXY_OUTBOUND", value_to_json (sing_box_outbound owner (val_relay_user v) (val_relay_password v)))])
  end.

(** The configuration of the application's own tunnel, for its owner only. *)
Definition render_app_wireguard (args : PackageArgs.t) (m : DeviceManifest.t)
    : Ops W (list (string * Tree.t)) :=
  if bool_decide (PackageArgs.tunnel_owner args = APP_OWNED_TUNNEL_OWNER) then
    let! template := file_text (template_path "app-wireguard.conf") in
    let! private_key := package_env "MOBILE_PROXY_WG_PHONE_PRIVATE_KEY" in
    let! public_key := package_env "MOBILE_PROXY_WG_SERVER_PUBLIC_KEY" in
    let! rendered := lift (render_text_template template
      [("WG_PHONE_PRIVATE_KEY", private_key); ("WG_SERVER_PUBLIC_KEY", public_key);
       ("WG_ENDPOINT_HOST", default DEFAULT_RELAY_HOST (DeviceManifest.relay_host m));
       ("WG_ENDPOINT_PORT", "51820")]) in
    yield [("app-wireguard.conf", text_file rendered)]
  else yield [].

Definition device_release_start (service module supervisor host sing_box : list Z) : list (string * Tree.t) :=
  [("bin", Tree.Dir [("runtime-supervisor", Tree.File supervisor); ("host-daemon", Tree.File host);
                     ("sing-box", Tree.File sing_box); ("curl", text_file CURL_SHIM)]);
   ("service.sh", Tree.File service); ("module.prop", Tree.File module)].

Definition package_device_release (args : PackageArgs.t) : Ops W Tree.t :=
  let owner := PackageArgs.tunnel_owner args in
  let! _ := lift (validate_release_id (PackageArgs.release_id args)) in
  let! _ := lift (validate_tunnel_owner owner) in
  let! _ := ensure_clean_worktree in
  let! text := file_text (repo_path (PackageArgs.manifest_path args)) in
  let! m := from_option NotJson (device_manifest_from_json text) in
  let! _ := lift (validate_manifest m) in
  let profile_name := default "default" (DeviceManifest.operator_profile m) in
  let! _ := lift (validate_profile_name profile_name) in
  let! text := file_text (below repo_root ("deploy/device-runtime/profiles/" ++ profile_name ++ ".json")) in
  let! profile := from_option NotJson (profile_from_json text) in
  let! _ := lift (validate_profile_name (DeviceProfile.operator_profile profile)) in
  let! admin := package_env (DeviceManifest.admin_token_env m) in
  let! device := package_env (DeviceManifest.device_token_env m) in
  let! ui := package_env (DeviceManifest.ui_token_env m) in
  let! user := package_env (DeviceManifest.relay_user_env m) in
  let! password := package_env (DeviceManifest.relay_password_env m) in
  let v := mk_values admin device ui user password
             (stable_ui_control_token (DeviceManifest.device_id m) admin) in
  let! supervisor := ensure_android_arm_binary (below repo_root "deploy/device-runtime/bin/runtime-supervisor") in
  let! _ := ensure_runtime_owner_support supervisor owner in
  let! host := ensure_android_arm_binary (below repo_root "deploy/device-runtime/bin/host-daemon") in
  let! sing_box := ensure_android_arm_binary (below repo_root "deploy/device-runtime/bin/sing-box") in
  let root := release_root (PackageArgs.output_dir args) (PackageArgs.release_id args) in
  let! _ := change (put_tree root (Tree.Dir [("bin", Tree.Dir []); ("config", Tree.Dir [])])) in
  let! service := file_bytes (below repo_root "deploy/device-runtime/module/service.sh") in
  let! module := file_bytes (below repo_root "deploy/device-runtime/module/module.prop") in
  let start := device_release_start service module supervisor host sing_box in
  let! _ := change (put_tree root (Tree.Dir (start ++ [("config", Tree.Dir [])])%list)) in
  let! host_rendered := render_host args m profile v in
  let! sing_box_rendered := render_sing_box args v in
  let! app := render_app_wireguard args m in
  let! metadata := release_metadata (PackageArgs.release_id args) in
  let tree := Tree.Dir (start ++
    [("config", Tree.Dir ([("host-daemon.json", text_file host_rendered);
                           ("sing-box.json", text_file sing_box_rendered)] ++ app)%list);
     ("release-metadata.json", Tree.File metadata)])%list in
  let! written := lift (map_err Integrity (write_integrity_manifest tree)) in
  let! _ := change (put_tree root written) in
  let! _ := lift (map_err Integrity (verify_integrity_manifest written)) in
  yield written.
End Package.
