(* ===== verification/DeviceRelease.v ===== *)
(** * Installing, verifying and rolling back the phone's release

    [apps/operator-cli/src/device.rs] and [device_stack.rs]: the commands that
    put a packaged release on the phone, check the phone, and return to an
    earlier release.  The scripts the phone runs are the texts the commands
    send. *)

From stdpp Require Import base gmap strings list.
From Stdlib Require Import ZArith Lia Ascii String.
From S2P Require Import Prelude Text NetText FileTree Shell Foundation ReleaseIntegrity RuntimeArtifacts.
From S2P Require Import Commands Devices HostDaemon SupervisorConfig ConfigJson Workstation VmPlan DeviceSupport DevicePackage.
Local Open Scope string_scope.
Local Open Scope Z_scope.

Module InstallArgs.
Record t := mk {
  manifest_path : string;
  release_id : string;
  output_dir : string;
  use_existing_release : bool;
  host_daemon_config_path : option string;
  sing_box_config_path : option string;
  device_root : string;
  temp_root : string;
  device_serial : option string;
  health_port : Z;
  skip_proxy_smoke : bool;
  tunnel_owner : string;
}.
End InstallArgs.

Module StackArgs.
Record t := mk {
  manifest_path : string;
  release_id : string;
  output_dir : string;
  host_daemon_config_path : option string;
  sing_box_config_path : option string;
  device_root : string;
  temp_root : string;
  device_serial : option string;
  health_port : Z;
  skip_proxy_smoke : bool;
  tunnel_owner : string;
}.
End StackArgs.

Module VerifyArgs.
Record t := mk {
  manifest_path : string;
  device_serial : option string;
  health_port : Z;
  skip_proxy_smoke : bool;
  required_tunnel_owner : string;
}.
End VerifyArgs.

Module RollbackArgs.
Record t := mk {
  manifest_path : string;
  release_id : option string;
  device_serial : option string;
  device_root : string;
  health_port : Z;
}.
End RollbackArgs.

(** ** Scripts *)

Definition apply_script (root release staging : string) : string :=
  text_of
    ["set -eu";
     "umask 077";
     "ROOT=" ++ root;
     "REL=" ++ release;
     "TMP=" ++ staging;
     "BOOT='/data/adb/service.d/99-mobile-proxy-runtime.sh'";
     quotes "TARGET=~$ROOT/releases/$REL~";
     quotes "mkdir -p ~$ROOT/releases~ ~$ROOT/logs~ ~$ROOT/state~ /data/adb/service.d";
     quotes "chmod 0700 ~$ROOT~ ~$ROOT/releases~ ~$ROOT/logs~ ~$ROOT/state~";
     "if command -v pkill >/dev/null 2>&1; then";
     "  pkill -f /data/local/tmp/mobile-proxy-logs/runtime-watchdog.sh || true";
     quotes "  pkill -f ~$ROOT/.*/bin/runtime-supervisor~ || true";
     quotes "  pkill -f ~$ROOT/.*/bin/host-daemon~ || true";
     quotes "  pkill -f ~$ROOT/.*/bin/sing-box~ || true";
     "fi";
     "for pid in $(pidof runtime-supervisor host-daemon sing-box 2>/dev/null || true); do";
     quotes "  kill ~$pid~ || true";
     "done";
     "rm -f /data/local/tmp/mobile-proxy-logs/runtime-watchdog.pid";
     "sleep 1";
     quotes "rm -rf ~$TARGET~";
     quotes "mkdir -p ~$TARGET~";
     quotes "cp -R ~$TMP/.~ ~$TARGET/~";
     quotes "rm -rf ~$TMP~";
     quotes "find ~$TARGET~ -type d -exec chmod 0700 {} +";
     quotes "find ~$TARGET~ -type f -exec chmod 0600 {} +";
     quotes "chmod 0700 ~$TARGET/service.sh~ ~$TARGET/bin/runtime-supervisor~ ~$TARGET/bin/host-daemon~ ~$TARGET/bin/sing-box~ ~$TARGET/bin/curl~";
     quotes "ln -sfn ~$TARGET~ ~$ROOT/current~";
     "rm -f /data/adb/service.d/99-mobile-proxy-routefix.sh";
     quotes "cat > ~$BOOT~ <<'MOBILE_PROXY_BOOT'";
     "#!/system/bin/sh";
     "set -eu";
     "umask 077";
     "ROOT='/data/adb/mobile-proxy-node'";
     "LOG_DIR='/data/local/tmp/mobile-proxy-logs'";
     quotes "BOOT_LOG=~$LOG_DIR/boot-service.log~";
     quotes "mkdir -p ~$LOG_DIR~";
     quotes "chmod 0700 ~$LOG_DIR~";
     "timestamp() { date '+%Y-%m-%dT%H:%M:%S%z'; }";
     quotes "log_boot() { echo ~$(timestamp) $*~ >> ~$BOOT_LOG~; }";
     quotes "log_boot ~boot_hook_started~";
     "i=0";
     quotes "while [ ~$i~ -lt 30 ]; do";
     quotes "  if [ -x ~$ROOT/current/service.sh~ ]; then";
     quotes "    log_boot ~boot_hook_starting_release attempt=$i~";
     quotes "    sh ~$ROOT/current/service.sh~ >> ~$BOOT_LOG~ 2>&1";
     quotes "    code=~$?~";
     quotes "    log_boot ~boot_hook_service_returned code=$code~";
     quotes "    exit ~$code~";
     "  fi";
     "  i=$((i + 1))";
     "  sleep 1";
     "done";
     quotes "log_boot ~active release service is missing~";
     "exit 1";
     "MOBILE_PROXY_BOOT";
     quotes "chmod 0700 ~$BOOT~";
     quotes "sh ~$ROOT/current/service.sh~"].

Definition rollback_script (root release : string) : string :=
  text_of
    ["set -eu";
     "ROOT=" ++ root;
     "REL=" ++ release;
     quotes "TARGET=~$ROOT/releases/$REL~";
     quotes "test -x ~$TARGET/service.sh~";
     "if command -v pkill >/dev/null 2>&1; then";
     "  pkill -f /data/local/tmp/mobile-proxy-logs/runtime-watchdog.sh || true";
     quotes "  pkill -f ~$ROOT/.*/bin/runtime-supervisor~ || true";
     quotes "  pkill -f ~$ROOT/.*/bin/host-daemon~ || true";
     quotes "  pkill -f ~$ROOT/.*/bin/sing-box~ || true";
     "fi";
     "for pid in $(pidof runtime-supervisor host-daemon sing-box 2>/dev/null || true); do";
     quotes "  kill ~$pid~ || true";
     "done";
     "rm -f /data/local/tmp/mobile-proxy-logs/runtime-watchdog.pid";
     "sleep 1";
     quotes "ln -sfn ~$TARGET~ ~$ROOT/current~";
     quotes "sh ~$ROOT/current/service.sh~";
     quotes "test ~$(readlink ~$ROOT/current~)~ = ~$TARGET~"].

(** ** Commands *)

Section DeviceCommands.
Context `{Blake3, !ReleaseJson, !PackageJson} {W : Type} `{!Station W, !PhoneLink W}.
Local Open Scope rust_scope.

Definition package_args (args : InstallArgs.t) : PackageArgs.t :=
  PackageArgs.mk (InstallArgs.manifest_path args) (InstallArgs.release_id args) (InstallArgs.output_dir args)
    (InstallArgs.host_daemon_config_path args) (InstallArgs.sing_box_config_path args) (InstallArgs.tunnel_owner args).

(** The release is verified where it is, or packaged. *)
Definition provide_release (args : InstallArgs.t) : Ops W unit :=
  let root := release_root (InstallArgs.output_dir args) (InstallArgs.release_id args) in
  if InstallArgs.use_existing_release args then
    let! w := get_state in
    let! tree := from_option Io (tree_at root w) in
    lift (map_err Integrity (verify_integrity_manifest tree))
  else let! _ := package_device_release (package_args args) in yield tt.

Definition remote_apply (args : InstallArgs.t) : string :=
  InstallArgs.temp_root args ++ "/apply-" ++ process_id ++ ".sh".

Definition apply_command (remote : string) : string :=
  let q := shell_quote_validated remote in "sh " ++ q ++ "; code=$?; rm -f " ++ q ++ "; exit $code".

(** The script is pushed and run; the local copy is removed whatever happens,
    and whether that works does not matter. *)
Definition apply_release (args : InstallArgs.t) (script : string) : Ops W unit :=
  let serial := InstallArgs.device_serial args in
  let! apply_path := write_temp_script "mobile-proxy-apply" script in
  fun w =>
    let '(applied, w1) :=
      (let! _ := adb serial ["push"; path_text apply_path; remote_apply args] in
       let! _ := adb serial ["shell"; "su"; "0"; "sh"; "-c"; apply_command (remote_apply args)] in
       yield tt) w in
    (applied, default w1 (remove apply_path w1)).

(** The checks that follow an installation, and make up [verify_device]. *)
Definition check_phone (health : HealthRecord.t) (owner : string) (serial : option string)
    (skip_proxy_smoke : bool) (m : PhoneManifest.t) : Ops W unit :=
  let! _ := assert_healthy health in
  let! _ := assert_tunnel_owner health owner in
  let! _ := assert_active_vpn_owner serial owner in
  if negb skip_proxy_smoke then proxy_smoke m else yield tt.

Definition install_device_release (args : InstallArgs.t) : Ops W HealthRecord.t :=
  let serial := InstallArgs.device_serial args in
  let! _ := lift (validate_release_id (InstallArgs.release_id args)) in
  let! _ := lift (validate_device_path (InstallArgs.device_root args) "device_root") in
  let! _ := lift (validate_device_path (InstallArgs.temp_root args) "temp_root") in
  let! _ := lift (validate_tunnel_owner (InstallArgs.tunnel_owner args)) in
  let! _ := provide_release args in
  let! m := load_manifest (InstallArgs.manifest_path args) in
  let! token := admin_token m in
  let root := release_root (InstallArgs.output_dir args) (InstallArgs.release_id args) in
  let! _ := ensure_root_access serial in
  let remote_staging := InstallArgs.temp_root args ++ "/" ++ InstallArgs.release_id args in
  let! _ := adb serial ["shell"; "rm"; "-rf"; remote_staging] in
  let! _ := adb serial ["shell"; "mkdir"; "-p"; InstallArgs.temp_root args] in
  let! _ := adb serial ["push"; path_text root; InstallArgs.temp_root args] in
  let! _ := apply_release args
    (apply_script (shell_quote_validated (InstallArgs.device_root args))
       (shell_quote_validated (InstallArgs.release_id args)) (shell_quote_validated remote_staging)) in
  let! _ := verify_installed_release_files root serial (InstallArgs.device_root args) in
  let! health := wait_for_health 75 serial (InstallArgs.health_port args) token 2 in
  let! _ := check_phone health (InstallArgs.tunnel_owner args) serial (InstallArgs.skip_proxy_smoke args) m in
  yield health.

(** [device_stack.rs] *)
Definition install_device_stack (args : StackArgs.t) : Ops W HealthRecord.t :=
  let! _ := lift (validate_tunnel_owner (StackArgs.tunnel_owner args)) in
  install_device_release
    (InstallArgs.mk (StackArgs.manifest_path args) (StackArgs.release_id args) (StackArgs.output_dir args) false
       (StackArgs.host_daemon_config_path args) (StackArgs.sing_box_config_path args) (StackArgs.device_root args)
       (StackArgs.temp_root args) (StackArgs.device_serial args) (StackArgs.health_port args)
       (StackArgs.skip_proxy_smoke args) (StackArgs.tunnel_owner args)).

Definition verify_device (args : VerifyArgs.t) : Ops W HealthRecord.t :=
  let owner := VerifyArgs.required_tunnel_owner args in
  let! _ := lift (validate_tunnel_owner owner) in
  let! m := load_manifest (VerifyArgs.manifest_path args) in
  let! token := admin_token m in
  let! health := wait_for_health 1 (VerifyArgs.device_serial args) (VerifyArgs.health_port args) token 1 in
  let! _ := check_phone health owner (VerifyArgs.device_serial args) (VerifyArgs.skip_proxy_smoke args) m in
  yield health.

(** ** Rollback *)

(** [Path::new(current.trim()).file_name()], empty where there is none. *)
Definition release_of_link (link : string) : string :=
  let name := (path_split (trim link)).1 in
  if bool_decide (name = "..") then "" else name.

(** The first listed release that is not the current one. *)
Definition select_release (releases current : string) : option string :=
  List.find (fun release => negb (bool_decide (release = "")) && negb (bool_decide (release = current)))
    (trim <$> lines releases).

Definition rollback_device (args : RollbackArgs.t) : Ops W (string * HealthRecord.t) :=
  let serial := RollbackArgs.device_serial args in
  let! _ := lift (validate_device_path (RollbackArgs.device_root args) "device_root") in
  let! m := load_manifest (RollbackArgs.manifest_path args) in
  let! token := admin_token m in
  let! _ := ensure_root_access serial in
  let root := shell_quote_validated (RollbackArgs.device_root args) in
  let! current := adb serial ["shell"; "su"; "0"; "sh"; "-c"; "readlink " ++ root ++ "/current"] in
  let! releases := adb serial ["shell"; "su"; "0"; "sh"; "-c"; "ls -1t " ++ root ++ "/releases"] in
  let! target := from_option (Bail "could not select rollback target release")
    (match RollbackArgs.release_id args with
     | Some id => Some id
     | None => select_release releases (release_of_link current)
     end) in
  let! _ := lift (validate_release_id target) in
  let! _ := adb serial ["shell"; "su"; "0"; "sh"; "-c"; rollback_script root (shell_quote_validated target)] in
  let! health := wait_for_health 40 serial (RollbackArgs.health_port args) token 2 in
  let! _ := assert_healthy health in
  yield (target, health).
End DeviceCommands.
