(* ===== verification/DeviceTheorems.v ===== *)
(** * What a release on the phone is

    A release directory is a direct child of the output directory; a packaged
    release has a configuration whose owner and flags the phone's supervisor
    accepts; files that passed the verification after an installation are the
    packaged ones; and an installation that succeeds ends with a phone that is
    healthy and run by the requested owner. *)

From stdpp Require Import base gmap strings list.
From Stdlib Require Import ZArith Lia Ascii String.
From S2P Require Import Prelude Text NetText FileTree Shell Foundation ReleaseIntegrity RuntimeArtifacts.
From S2P Require Import Commands Devices HostDaemon SupervisorConfig ConfigJson Workstation VmPlan DeviceSupport DevicePackage DeviceRelease.
Local Open Scope string_scope.
Local Open Scope Z_scope.

(** ** Names *)

Lemma release_char_plain c : release_char c = true -> in_range 0 127 c = true /\ c <> 47.
Proof. unfold release_char, is_ascii_alphanumeric, is_ascii_digit, in_range. lia. Qed.

Lemma split_bytes_none sep l : Forall (fun b => b <> sep) l -> split_bytes sep l = [l].
Proof.
  induction 1 as [|b l Hb _ IH]; [done|]. cbn [split_bytes].
  by rewrite (proj2 (Z.eqb_neq b sep)), IH by done.
Qed.

Lemma chars_ascii s : forallb (in_range 0 127) (bytes s) = true -> chars s = bytes s.
Proof.
  unfold chars. induction (bytes s) as [|b l IH]; [done|]. cbn [forallb].
  intros [Hb Hl]%andb_true_iff. cbn [utf8_decode]. rewrite Hb. specialize (IH Hl).
  by destruct (utf8_decode l) as [cs|] eqn:Hu; cbn in *; subst.
Qed.

(** A release is a directory of its own right below the output directory,
    whatever the name that was accepted: no name leaves that directory or is
    the directory itself. *)
Theorem release_stays_below {W} `{!Station W} output_dir release_id :
  validate_release_id release_id = Ok tt ->
  release_root (W := W) output_dir release_id = (resolve repo_root output_dir ++ [bytes release_id])%list
  /\ bytes release_id <> [46; 46].
Proof.
  unfold validate_release_id. destruct (_ || _) eqn:Hv; [done|]. intros _.
  rewrite !orb_false_iff, !negb_false_iff in Hv. destruct Hv as ((((Hne & _) & Hf) & _) & Hall).
  apply bool_decide_eq_false_1 in Hne.
  rewrite all_chars_ascii in Hall by (intros c Hc; by apply release_char_plain).
  assert (Forall (fun b => b <> 47) (bytes release_id)) as H47.
  { apply Forall_forall. intros b Hb. rewrite forallb_forall in Hall.
    apply list_elem_of_In in Hb. by apply release_char_plain, Hall. }
  assert (chars release_id = bytes release_id) as Hch.
  { apply chars_ascii, forallb_forall. intros b Hb. rewrite forallb_forall in Hall. by apply release_char_plain, Hall. }
  rewrite Hch in Hf. destruct (bytes release_id) as [|b l] eqn:Hb; [done|]. cbn [head is_some_and] in Hf.
  assert (b <> 46) as Hdot. { intros ->. by vm_compute in Hf. }
  split; [|by intros [= ->]].
  unfold release_root, resolve at 1. replace (is_absolute release_id) with false.
  - f_equal. unfold components. rewrite Hb, (split_bytes_none _ _ H47). cbn [List.filter].
    rewrite !bool_decide_false; [done|by intros [= ->]|done].
  - symmetry. unfold is_absolute, starts_with. destruct release_id as [|c rest]; [done|].
    cbn [strip_prefix]. destruct (Ascii.eqb "/" c) eqn:Hc; [|done]. apply Ascii.eqb_eq in Hc as <-.
    injection Hb as <- _. apply Forall_cons in H47 as [H47 _]. by destruct H47.
Qed.

(** ** Owners *)

(** The owners a release can be packaged for are owners of the supervisor. *)
Lemma owner_supported owner :
  validate_tunnel_owner owner = Ok tt ->
  exists o, owner_parse owner = Ok o /\ owner_as_str o = owner /\ o <> FirstPartyVpnService.
Proof.
  unfold validate_tunnel_owner. destruct (_ || _) eqn:Hv; [|by destruct (bool_decide (owner = APP_OWNED_TUNNEL_OWNER))]. intros _.
  rewrite !orb_true_iff, !bool_decide_eq_true in Hv.
  destruct Hv as [[-> | ->]| ->];
    [exists FirstPartyReverseTunnel|exists StockWireguardBridge|exists FirstPartyAndroidEgress]; done.
Qed.

Section Packaged.
Context `{!PackageJson}.

(** What the phone is told about its tunnel. *)
Record tunnel_config (body owner : string) (o : TunnelOwner) : Prop := {
  config_owner : owner_parse owner = Ok o /\ o <> FirstPartyVpnService;
  config_flags : exists config wireguard reverse,
    value_from_json body = Some config
    /\ pointer "wireguard" "owner" config = Some (VString owner)
    /\ pointer "wireguard" "enabled" config = Some (VBool wireguard)
    /\ pointer "reverse_tunnel" "enabled" config = Some (VBool reverse)
    /\ validate_wireguard_flag o wireguard = Ok tt /\ reverse = negb wireguard;
}.

Lemma host_config_accepted body owner :
  validate_tunnel_owner owner = Ok tt -> validate_host_config body owner = Ok tt ->
  exists o, tunnel_config body owner o.
Proof.
  intros Ho Hb. destruct (owner_supported owner Ho) as (o & Hp & Hs & Hv). exists o. split; [done|].
  revert Hb. unfold validate_host_config, validate_json.
  destruct (value_from_json body) as [config|]; [|done]. cbn [ok_or result_bind].
  destruct (validate_proxy_shape config); [|done]. cbn [result_bind].
  destruct (pointer "wireguard" "owner" config) as [[| | |text| |]|] eqn:He1; try done. cbn [as_str ok_or result_bind mbind option_bind].
  case_bool_decide as Heq; [|done]. subst text. cbn [negb].
  destruct (pointer "wireguard" "enabled" config) as [[|wireguard| | | |]|] eqn:He2; try done. cbn [as_bool ok_or result_bind mbind option_bind].
  destruct (pointer "reverse_tunnel" "enabled" config) as [[|reverse| | | |]|] eqn:He3; try done.
  cbn [as_bool ok_or result_bind mbind option_bind]. intros Hflags.
  exists config, wireguard, reverse. split_and!; try done; subst owner;
    destruct o, wireguard, reverse; try done; first [congruence | vm_compute in Hflags; done].
Qed.
End Packaged.

(** ** Packages *)

(** A file of a tree without links. *)
Fixpoint tree_file (path : list string) (t : Tree.t) : option (list Z) :=
  match path, t with
  | [], Tree.File content => Some content
  | name :: rest, Tree.Dir entries =>
      (fix go (entries : list (string * Tree.t)) :=
         match entries with
         | [] => None
         | (name', child) :: more => if bool_decide (name' = name) then tree_file rest child else go more
         end) entries
  | _, _ => None
  end.

Lemma tree_file_write name body entries entries' first rest :
  name <> first -> write_name name body entries = Some entries' ->
  tree_file (first :: rest) (Tree.Dir entries') = tree_file (first :: rest) (Tree.Dir entries).
Proof.
  intros Hne. revert entries'. induction entries as [|[n child] entries IH]; intros entries'; cbn [write_name].
  - intros [= <-]. cbn [tree_file]. by rewrite bool_decide_false.
  - case_bool_decide as Hn.
    + subst n. destruct (write_node body child) as [child'|]; [|done]. intros [= <-]. cbn [tree_file].
      by rewrite !(bool_decide_false (name = first)).
    + destruct (write_name name body entries) as [rest'|] eqn:Hw; [|done]. intros [= <-]. cbn [tree_file].
      case_bool_decide; [done|]. exact (IH rest' eq_refl).
Qed.

Section Packages.
Context `{Blake3, !ReleaseJson, !PackageJson} {W : Type} `{!Station W}.

Lemma manifest_keeps_files entries written first rest :
  first <> RELEASE_INTEGRITY_MANIFEST -> write_integrity_manifest (Tree.Dir entries) = Ok written ->
  tree_file (first :: rest) written = tree_file (first :: rest) (Tree.Dir entries).
Proof.
  intros Hne. unfold write_integrity_manifest. destruct (integrity_entries _) as [es|]; [|done]. cbn [result_bind].
  cbn [write_below]. destruct (write_name _ _ entries) as [entries'|] eqn:Hw; [|done]. cbn [fmap option_fmap option_map ok_or].
  intros [= <-]. by eapply tree_file_write.
Qed.

Lemma lift_value_Ok {A} (r : result A OpsError) (w : W) a w' : lift r w = (Ok a, w') -> r = Ok a /\ w' = w.
Proof. by intros [= -> ->]. Qed.

Lemma from_option_Ok {A} e (o : option A) (w : W) a w' : from_option e o w = (Ok a, w') -> o = Some a /\ w' = w.
Proof. unfold from_option, lift, ok_or. destruct o; [|done]. by intros [= <- <-]. Qed.

Lemma render_host_Ok args m profile v (w w' : W) body :
  render_host args m profile v w = (Ok body, w') -> validate_host_config body (PackageArgs.tunnel_owner args) = Ok tt.
Proof.
  unfold render_host. destruct (PackageArgs.host_daemon_config_path args) as [path|].
  - intros (b & w1 & _ & Hr)%and_then_Ok. apply and_then_Ok in Hr as ([] & w2 & (Hv & ->)%lift_value_Ok & [= <- <-]). done.
  - intros (t & w1 & _ & Hr)%and_then_Ok. do 4 (apply and_then_Ok in Hr as (? & ? & _ & Hr)).
    apply and_then_Ok in Hr as ([] & w2 & (Hv & ->)%lift_value_Ok & [= <- <-]). done.
Qed.

Lemma arm_binary_Ok p (w w' : W) content :
  ensure_android_arm_binary p w = (Ok content, w') -> is_android_arm_elf_header content = true.
Proof.
  unfold ensure_android_arm_binary. intros (w1 & w2 & _ & Hr)%and_then_Ok.
  apply and_then_Ok in Hr as (c & w3 & _ & Hr). apply and_then_Ok in Hr as ([] & w4 & _ & Hr).
  apply and_then_Ok in Hr as ([] & w5 & (Hh & _)%guard_Ok & [= <- _]). done.
Qed.

(** A release that was packaged carries three Android ARM programs, a
    supervisor that knows the requested owner of the tunnel, a configuration
    that names this owner with flags the supervisor accepts, and a manifest
    that verifies. *)
Theorem packaged_release_fits_the_phone args (w w' : W) tree :
  package_device_release args w = (Ok tree, w') ->
  let owner := PackageArgs.tunnel_owner args in
  (exists o body, tree_file ["config"; "host-daemon.json"] tree = Some (bytes body) /\ tunnel_config body owner o)
  /\ (exists supervisor, tree_file ["bin"; "runtime-supervisor"] tree = Some supervisor
        /\ binary_contains_marker supervisor (bytes owner) = true)
  /\ Forall (fun name => exists content, tree_file ["bin"; name] tree = Some content
               /\ is_android_arm_elf_header content = true) ["runtime-supervisor"; "host-daemon"; "sing-box"]
  /\ verify_integrity_manifest tree = Ok tt.
Proof.
  intros Hr owner. unfold package_device_release in Hr.
  apply and_then_Ok in Hr as ([] & ? & _ & Hr). apply and_then_Ok in Hr as ([] & ? & (Howner & _)%lift_value_Ok & Hr).
  do 13 (apply and_then_Ok in Hr as (? & ? & _ & Hr)).
  apply and_then_Ok in Hr as (supervisor & ? & Hsup%arm_binary_Ok & Hr).
  apply and_then_Ok in Hr as ([] & ? & Hmark & Hr).
  apply and_then_Ok in Hr as (host & ? & Hhost%arm_binary_Ok & Hr).
  apply and_then_Ok in Hr as (sing_box & ? & Hsing%arm_binary_Ok & Hr).
  do 4 (apply and_then_Ok in Hr as (? & ? & _ & Hr)).
  apply and_then_Ok in Hr as (body & ? & Hbody%render_host_Ok & Hr).
  do 3 (apply and_then_Ok in Hr as (? & ? & _ & Hr)).
  apply and_then_Ok in Hr as (written & ? & (Hw & _)%lift_value_Ok & Hr).
  apply and_then_Ok in Hr as ([] & ? & _ & Hr). apply and_then_Ok in Hr as ([] & ? & (Hv & _)%lift_value_Ok & [= <- _]).
  destruct (write_integrity_manifest _) as [written'|] eqn:Hwr in Hw; [|done]. injection Hw as ->.
  unfold device_release_start in Hwr. cbn [app] in Hwr.
  assert (forall first rest, first <> RELEASE_INTEGRITY_MANIFEST -> tree_file (first :: rest) written = _) as Hfile
    by (intros first rest Hne; exact (manifest_keeps_files _ _ first rest Hne Hwr)).
  unfold ensure_runtime_owner_support in Hmark. apply and_then_Ok in Hmark as ([] & ? & (Hm & _)%guard_Ok & _).
  destruct (host_config_accepted body owner Howner Hbody) as [o Ho]. split_and!.
  - exists o, body. split; [|done]. by rewrite Hfile.
  - exists supervisor. split; [|done]. by rewrite Hfile.
  - repeat (apply Forall_cons; split); [exists supervisor|exists host|exists sing_box|constructor];
      (split; [by rewrite Hfile|done]).
  - by destruct (verify_integrity_manifest written) as [[]|].
Qed.
End Packages.

(** ** Installed files *)

Section Installed.
Context `{Blake3, !ReleaseJson, !PackageJson} {W : Type} `{!Station W, !PhoneLink W}.
Context (phone_file : W -> string -> option (list Z)) (serial : option string) (root : Components)
        (device_root : string).

(** Nothing of the workstation and no file of the phone but one changes. *)
Definition only_at (path : string) (w w' : W) : Prop :=
  (forall p, file p w' = file p w) /\ (forall q, q <> path -> phone_file w' q = phone_file w q).

(** A word the shell takes as it is. *)
Definition plain_word (s : string) : Prop := read_word s = Some s.

(** The phone behind [adb]: a push copies, and in a script of plain words [cmp]
    compares and [rm] removes. *)
Class PhoneFiles : Prop := {
  phone_push local remote w out w' :
    adb serial ["push"; path_text local; remote] w = (out, w') ->
    only_at remote w w'
    /\ (is_ok out = true -> phone_file w' remote = file local w /\ is_Some (file local w));
  phone_compare staged remote w out w' :
    plain_word staged -> plain_word remote ->
    adb serial ["shell"; compare_script staged remote] w = (out, w') ->
    (forall p, file p w' = file p w) /\ (forall q, phone_file w' q = phone_file w q)
    /\ (is_ok out = true -> is_Some (phone_file w remote) /\ phone_file w remote = phone_file w staged);
  phone_cleanup staged w out w' :
    plain_word staged ->
    adb serial ["shell"; cleanup_script staged] w = (out, w') -> only_at staged w w';
}.
Context `{!PhoneFiles}.

(** The names are plain, and no installed file is where files are staged for
    comparison. *)
Definition plain_entry (relative : string) : Prop :=
  plain_word (remote_path device_root relative) /\ plain_word (staged_path (W := W) relative).
Definition apart (entries : list (option string)) : Prop :=
  forall relative relative', Some relative ∈ entries -> Some relative' ∈ entries ->
    plain_entry relative /\ remote_path device_root relative <> staged_path (W := W) relative'.

Definition same_file (w : W) (relative : string) : Prop :=
  is_Some (phone_file w (remote_path device_root relative))
  /\ phone_file w (remote_path device_root relative) = file (root ++ components relative)%list w.

Lemma verify_entry_Ok entry w w' :
  (forall relative, entry = Some relative -> plain_entry relative) ->
  verify_entry root serial device_root entry w = (Ok tt, w') ->
  exists relative, entry = Some relative
    /\ only_at (staged_path (W := W) relative) w w'
    /\ (remote_path device_root relative <> staged_path (W := W) relative -> same_file w' relative).
Proof.
  intros Hplain. unfold verify_entry. intros (relative & w1 & (-> & ->)%from_option_Ok & Hr)%and_then_Ok.
  exists relative. split; [done|]. destruct (Hplain relative eq_refl) as [Hpr Hps].
  apply and_then_Ok in Hr as ([] & w2 & (_ & ->)%lift_value_Ok & Hr).
  apply and_then_Ok in Hr as (o1 & w3 & Hpush & Hr).
  apply phone_push in Hpush as ([Hf1 Hq1] & Hok1). destruct (Hok1 eq_refl) as [Hst Hlocal].
  destruct (adb serial ["shell"; compare_script _ _] w3) as [compared w4] eqn:Hcmp.
  apply (phone_compare _ _ _ _ _ Hps Hpr) in Hcmp as (Hf2 & Hq2 & Hok2).
  destruct (adb serial ["shell"; cleanup_script _] w4) as [[o2|e2] w5] eqn:Hcl; [|done].
  apply (phone_cleanup _ _ _ _ Hps) in Hcl as [Hf3 Hq3]. destruct compared as [o3|e3]; [|done]. injection Hr as <-.
  destruct (Hok2 eq_refl) as [Hsome Heq]. split.
  - split; [intros p; by rewrite Hf3, Hf2, Hf1|]. intros q Hq. by rewrite Hq3, Hq2, Hq1.
  - intros Hne. unfold same_file. rewrite (Hq3 _ Hne), Hq2, Hf3, Hf2, Hf1, Heq, Hst. by rewrite <- Hst, <- Heq.
Qed.

Lemma verify_entries_Ok entries w w' :
  apart entries -> for_each (verify_entry root serial device_root) entries w = (Ok tt, w') ->
  (forall p, file p w' = file p w)
  /\ (forall relative, (forall r, Some r ∈ entries -> remote_path device_root relative <> staged_path (W := W) r) ->
        phone_file w' (remote_path device_root relative) = phone_file w (remote_path device_root relative))
  /\ (forall entry, entry ∈ entries -> exists relative, entry = Some relative /\ same_file w' relative).
Proof.
  revert w. induction entries as [|entry entries IH]; intros w Hap; cbn [for_each].
  { intros [= <-]. split_and!; [done|done|]. by intros entry ?%not_elem_of_nil. }
  intros ([] & w1 & He & Hrest)%and_then_Ok.
  apply verify_entry_Ok in He as (relative & -> & [Hf Hq] & Hsame);
    [|intros r ->; apply (Hap r r); by left].
  apply IH in Hrest as (Hf' & Hkeep & Hall).
  2:{ intros r r' Hr Hr'. apply Hap; by right. }
  split_and!.
  - intros p. by rewrite Hf', Hf.
  - intros r Hr. rewrite Hkeep by (intros r' Hr'; apply Hr; by right). apply Hq. apply Hr. by left.
  - intros entry [->|Hin]%elem_of_cons; [|by apply Hall]. exists relative. split; [done|].
    assert (remote_path device_root relative <> staged_path (W := W) relative) as Hne by (apply (Hap relative relative); by left).
    destruct (Hsame Hne) as [Hs Heq]. unfold same_file.
    rewrite Hkeep by (intros r' Hr'; apply (Hap relative r'); [by left|by right]). by rewrite Hf'.
Qed.

(** When the verification after an installation passes, every file the release's
    manifest names is on the phone, in the active release, with exactly the
    bytes of the packaged one. *)
Theorem installed_release_is_the_packaged_one w w' entries :
  file (below root "integrity-manifest.json") w ≫= manifest_view = Some (true, Some entries) ->
  apart entries ->
  verify_installed_release_files root serial device_root w = (Ok tt, w') ->
  entries <> [] /\ forall entry, entry ∈ entries -> exists relative, entry = Some relative /\ same_file w' relative.
Proof.
  intros Hview Hap. unfold verify_installed_release_files, file_bytes.
  intros (content & w1 & Hc & Hr)%and_then_Ok. apply and_then_Ok in Hc as (w0 & w2 & [= <- <-] & Hc).
  apply from_option_Ok in Hc as [Hc ->]. rewrite Hc in Hview. cbn [mbind option_bind] in Hview.
  apply and_then_Ok in Hr as (view & w3 & (Hv & ->)%from_option_Ok & Hr).
  rewrite Hview in Hv. injection Hv as <-. cbn [fst snd] in Hr.
  apply and_then_Ok in Hr as ([] & w4 & (_ & _ & ->)%guard_Ok & Hr).
  apply and_then_Ok in Hr as (es & w5 & ([= <-] & ->)%from_option_Ok & Hr).
  apply and_then_Ok in Hr as ([] & w6 & (Hne & _ & ->)%guard_Ok & Hr).
  apply andb_true_iff in Hne as [Hne _]. apply negb_true_iff, bool_decide_eq_false_1 in Hne. split; [done|].
  by apply (verify_entries_Ok entries) in Hr as (_ & _ & Hall).
Qed.
End Installed.
