(* ===== verification/OperatorCommands.v ===== *)
(** * The operator's commands for a phone

    [apps/operator-cli/src/commands.rs], [http.rs], [secrets.rs] and the token of
    [main.rs]: status, rotation of the address through the phone's own interface,
    the study that finds the shortest time in airplane mode, and the identity of
    the reverse tunnel. *)

From stdpp Require Import base gmap strings list sorting.
From Stdlib Require Import ZArith Lia Ascii String.
From S2P Require Import Prelude Text Foundation NetText FileTree Shell Commands Devices.
From S2P Require Import ConfigJson HostDaemon ReleaseIntegrity RuntimeArtifacts Workstation VmPlan VmTheorems.
Local Open Scope string_scope.
Local Open Scope Z_scope.

Module RotateArgs.
Record t := mk {
  strategy : string;
  require_public_ip_change : bool;
  reason : string;
  hold_secs : option Z;
  poll_secs : Z;
}.
End RotateArgs.

Module StudyArgs.
Record t := mk {
  hold_secs : list Z;
  runs : Z;
  require_public_ip_change : bool;
  reason_prefix : string;
  poll_secs : Z;
}.
End StudyArgs.

Definition build_rotate_request (args : RotateArgs.t) : RotateRequest.t :=
  RotateRequest.mk (RotateArgs.strategy args) (RotateArgs.require_public_ip_change args)
    (RotateArgs.reason args) (RotateArgs.hold_secs args).

(** ** Status *)

Section Status.
Context `{Blake3}.

Definition bool_text (b : bool) : string := if b then "true" else "false".

Definition render_status_summary (h : HealthRecord.t) : string :=
  "node=" ++ HealthRecord.node_id h ++ " readiness=" ++ HealthRecord.readiness_state h
  ++ " serving=" ++ bool_text (HealthRecord.serving h) ++ " proxy=" ++ HealthRecord.proxy_status h
  ++ " public_ip=" ++ default "unknown" (HealthRecord.last_public_ip h) ++ newline
  ++ "tunnel_owner=" ++ default "unknown" (HealthRecord.tunnel_owner h)
  ++ " connected=" ++ bool_text (default false (HealthRecord.reverse_tunnel_connected h))
  ++ " transport=" ++ default "none" (HealthRecord.reverse_tunnel_active_transport h)
  ++ " freshness=" ++ default "unknown" (HealthRecord.reverse_tunnel_freshness h)
  ++ " failover_reason=" ++ default "none" (HealthRecord.reverse_tunnel_failover_reason h).

Definition is_successful_rotation (job : JobRecord.t) (health : HealthRecord.t)
    (require_public_ip_change : bool) : bool :=
  bool_decide (JobRecord.status job = "succeeded")
  && bool_decide (HealthRecord.readiness_state health = "healthy")
  && HealthRecord.serving health
  && (negb require_public_ip_change || bool_decide (JobRecord.changed job = Some true)).
End Status.

(** ** The phone's interface

    What each request answers when its status was a success and its body could
    be read; [clock] is the monotonic clock in seconds. *)

Class PhoneApi (W : Type) `{Blake3} := {
  post_rotate : RotateRequest.t -> W -> option Uuid * W;
  get_job : Uuid -> W -> option JobRecord.t * W;
  api_health : W -> option HealthRecord.t * W;
  api_sleep : Z -> W -> W;
  api_clock : W -> Z;
}.

Inductive CommandError := RequestError | RotationTimeout | NoHoldMet.

Section PhoneCommands.
Context `{Blake3} {W : Type} `{!PhoneApi W}.
Local Open Scope rust_scope.

Abbreviation Cmd := (Fallible W CommandError).

Definition request {A} (r : W -> option A * W) : Cmd A :=
  fun w => match r w with (Some a, w') => (Ok a, w') | (None, w') => (Err RequestError, w') end.

Definition MAX_WAIT : Z := 300.

(** [wait_for_rotation]; [None] when the fuel, one unit per turn, is used up. *)
Fixpoint wait_for_job (fuel : nat) (started : Z) (job_id : Uuid) (poll_secs : Z) (w : W)
    : option (result (JobRecord.t * HealthRecord.t) CommandError * W) :=
  match fuel with
  | O => None
  | S fuel' =>
      if MAX_WAIT <? api_clock w - started then Some (Err RotationTimeout, w)
      else match get_job job_id w with
           | (None, w') => Some (Err RequestError, w')
           | (Some job, w') =>
               if negb (bool_decide (JobRecord.status job = "running")) then
                 Some ((let! health := request api_health in yield (job, health)) w')
               else wait_for_job fuel' started job_id poll_secs (api_sleep (Z.max poll_secs 1) w')
           end
  end.

(** Enough turns for the 300 seconds. *)
Definition WAIT_FUEL : nat := 302.

Definition wait_for_rotation (job_id : Uuid) (poll_secs : Z) : Cmd (JobRecord.t * HealthRecord.t) :=
  fun w => default (Err RotationTimeout, w) (wait_for_job WAIT_FUEL (api_clock w) job_id poll_secs w).

Definition run_rotate (args : RotateArgs.t) : Cmd (JobRecord.t * HealthRecord.t) :=
  let! job_id := request (post_rotate (build_rotate_request args)) in
  wait_for_rotation job_id (RotateArgs.poll_secs args).

(** ** The study *)

Record StudyTrial := mk_trial {
  trial_hold_secs : Z;
  trial_run : Z;
  trial_job : Uuid;
  trial_job_status : string;
  trial_changed : option bool;
  final_readiness_state : string;
  final_serving : bool;
  final_public_ip : option string;
  trial_success : bool;
}.

(** The rate of a summary is the quotient of its successes and runs. *)
Record StudySummary := mk_summary {
  summary_hold_secs : Z;
  summary_runs : Z;
  summary_successes : Z;
}.

(** The minimum rate is in hundredths. *)
Record StudyReport := mk_report {
  study_mode : string;
  minimum_success_rate : Z;
  recommended_hold_secs : option Z;
  summaries : list StudySummary;
  trials : list StudyTrial;
}.

Definition study_request (args : StudyArgs.t) (hold_secs run : Z) : RotateRequest.t :=
  RotateRequest.mk "airplane_bounce" (StudyArgs.require_public_ip_change args)
    (StudyArgs.reason_prefix args ++ "-" ++ u64_to_string hold_secs ++ "s-run-" ++ u64_to_string run)
    (Some hold_secs).

Definition study_trial (args : StudyArgs.t) (hold_secs run : Z) : Cmd StudyTrial :=
  let! job_id := request (post_rotate (study_request args hold_secs run)) in
  let! outcome := wait_for_rotation job_id (StudyArgs.poll_secs args) in
  yield (mk_trial hold_secs run job_id (JobRecord.status outcome.1) (JobRecord.changed outcome.1)
           (HealthRecord.readiness_state outcome.2) (HealthRecord.serving outcome.2)
           (HealthRecord.last_public_ip outcome.2)
           (is_successful_rotation outcome.1 outcome.2 (StudyArgs.require_public_ip_change args))).

(** [for run in 1..=args.runs] *)
Fixpoint study_runs (args : StudyArgs.t) (hold_secs : Z) (left : nat) (run : Z) : Cmd (list StudyTrial) :=
  match left with
  | O => yield []
  | S left' =>
      let! trial := study_trial args hold_secs run in
      let! rest := study_runs args hold_secs left' (run + 1) in
      yield (trial :: rest)
  end.

Definition count_successes (ts : list StudyTrial) : Z := Z.of_nat (List.length (List.filter trial_success ts)).

Fixpoint study_holds (args : StudyArgs.t) (holds : list Z) : Cmd (list StudySummary * list StudyTrial) :=
  match holds with
  | [] => yield ([], [])
  | hold_secs :: rest =>
      let! ts := study_runs args hold_secs (Z.to_nat (StudyArgs.runs args)) 1 in
      let! more := study_holds args rest in
      yield (mk_summary hold_secs (StudyArgs.runs args) (count_successes ts) :: more.1, (ts ++ more.2)%list)
  end.

(** In hundredths. *)
Definition MINIMUM_SUCCESS_RATE : Z := 99.

(** [success_rate >= 0.99] of the quotient of two [u32] as [f64].  The quotient
    is rounded by less than 2^-53 while two different fractions are at least
    1/(100 * 2^32) apart, so the rounded comparison is the exact one; without a
    run the quotient is not a number and compares false. *)
Definition meets_rate (s : StudySummary) : bool :=
  (0 <? summary_runs s) && (MINIMUM_SUCCESS_RATE * summary_runs s <=? 100 * summary_successes s).

(** [sort_unstable] and [dedup] *)
Fixpoint insert_hold (x : Z) (l : list Z) : list Z :=
  match l with
  | [] => [x]
  | y :: rest => if x <=? y then x :: l else y :: insert_hold x rest
  end.
Definition sort_holds (l : list Z) : list Z := foldr insert_hold [] l.
Fixpoint dedup (l : list Z) : list Z :=
  match l with
  | x :: ((y :: _) as rest) => if x =? y then dedup rest else x :: dedup rest
  | l => l
  end.

Definition airplane_study_report (args : StudyArgs.t) : Cmd StudyReport :=
  let! out := study_holds args (dedup (sort_holds (StudyArgs.hold_secs args))) in
  yield (mk_report "programmatic_only" MINIMUM_SUCCESS_RATE (summary_hold_secs <$> List.find meets_rate out.1) out.1 out.2).

Definition run_airplane_study (args : StudyArgs.t) : Cmd Z :=
  let! report := airplane_study_report args in
  lift (ok_or (recommended_hold_secs report) NoHoldMet).
End PhoneCommands.

(** ** Tokens and identities *)

(** [resolve_token] *)
Definition resolve_token (cli_token env_token : option string) : option string :=
  match cli_token with Some token => Some token | None => env_token end.

Module IdentityArgs.
Record t := mk { server_name : string; output_env_file : string; overwrite : bool }.
End IdentityArgs.

(** The certificate generator, its key and their base64 text. *)
Class Identity := generate_self_signed : string -> option (string * string).

Definition identity_body (cert_b64 key_b64 : string) : string :=
  text_of
    ["MOBILE_PROXY_REVERSE_TUNNEL_CERT_DER_B64=" ++ single_quote ++ env_escape cert_b64 ++ single_quote;
     "MOBILE_PROXY_REVERSE_TUNNEL_KEY_DER_B64=" ++ single_quote ++ env_escape key_b64 ++ single_quote].

Section Identities.
Context `{!Identity} {W : Type} `{!Station W}.
Local Open Scope rust_scope.

(** A relative path starts at the current directory. *)
Definition generate_reverse_tunnel_identity (cwd : Components) (args : IdentityArgs.t) : Ops W unit :=
  let output := resolve cwd (IdentityArgs.output_env_file args) in
  let! w := get_state in
  let! _ := guard (negb (present output w) || IdentityArgs.overwrite args)
              (Bail "already exists; pass --overwrite to replace it") in
  let! certified := from_option (Bail "failed to generate reverse tunnel certificate")
                      (generate_self_signed (IdentityArgs.server_name args)) in
  change (put_file output (bytes (identity_body certified.1 certified.2))).
End Identities.

(** * What the operator's commands promise

    Waiting for a rotation ends; a study recommends the shortest tested time that
    is reliable; a generated identity is read back by a shell as it was made. *)

(** ** Sorted holds *)

Lemma insert_hold_elem x y l : y ∈ insert_hold x l <-> y = x \/ y ∈ l.
Proof.
  induction l as [|z l IH]; cbn [insert_hold]; [by rewrite elem_of_cons|].
  destruct (x <=? z); rewrite !elem_of_cons, ?IH; tauto.
Qed.

Lemma sort_holds_elem y l : y ∈ sort_holds l <-> y ∈ l.
Proof.
  induction l as [|x l IH]; [done|]. cbn [sort_holds foldr]. fold (sort_holds l).
  by rewrite insert_hold_elem, elem_of_cons, IH.
Qed.

Lemma insert_hold_sorted x l : StronglySorted Z.le l -> StronglySorted Z.le (insert_hold x l).
Proof.
  induction 1 as [|z l Hl IH Hz]; cbn [insert_hold]; [by repeat constructor|].
  destruct (x <=? z) eqn:Hx.
  - constructor; [by constructor|]. constructor; [lia|]. eapply Forall_impl; [exact Hz|]. simpl. lia.
  - constructor; [done|]. apply Forall_forall. intros y [->|Hy]%insert_hold_elem; [lia|].
    rewrite Forall_forall in Hz. by apply Hz.
Qed.

Lemma sort_holds_sorted l : StronglySorted Z.le (sort_holds l).
Proof. induction l; [constructor|]. by apply insert_hold_sorted. Qed.

Lemma dedup_elem y l : y ∈ dedup l <-> y ∈ l.
Proof.
  induction l as [|x [|z l] IH]; [done|done|]. cbn [dedup]. destruct (x =? z) eqn:Hx.
  - apply Z.eqb_eq in Hx as ->. change (y ∈ dedup (z :: l) <-> y ∈ z :: z :: l). rewrite IH, !elem_of_cons. tauto.
  - change (y ∈ x :: dedup (z :: l) <-> y ∈ x :: z :: l). by rewrite !elem_of_cons, IH, elem_of_cons.
Qed.

Lemma dedup_sorted l : StronglySorted Z.le l -> StronglySorted Z.lt (dedup l).
Proof.
  induction l as [|x [|z l] IH]; intros Hs; [constructor|by repeat constructor|].
  apply StronglySorted_inv in Hs as [Hs Hx]. cbn [dedup]. destruct (x =? z) eqn:He; [by apply IH|].
  apply Z.eqb_neq in He. constructor; [by apply IH|]. apply Forall_forall. intros y Hy.
  change (y ∈ dedup (z :: l)) in Hy. rewrite dedup_elem in Hy. rewrite Forall_forall in Hx.
  assert (x <= z) by (apply Hx; by left). apply StronglySorted_inv in Hs as [_ Hz]. rewrite Forall_forall in Hz.
  apply elem_of_cons in Hy as [->|Hy]; [lia|]. specialize (Hz y Hy). lia.
Qed.

(** ** Studies *)

Section Study.
Context `{Blake3} {W : Type} `{!PhoneApi W}.

Definition trials_of (ts : list StudyTrial) (hold : Z) : list StudyTrial :=
  List.filter (fun t => trial_hold_secs t =? hold) ts.

Lemma study_runs_Ok args hold n run (w w' : W) ts :
  study_runs args hold n run w = (Ok ts, w') ->
  List.length ts = n /\ Forall (fun t => trial_hold_secs t = hold) ts.
Proof.
  revert run w w' ts. induction n as [|n IH]; intros run w w' ts; cbn [study_runs]; [by intros [= <- _]|].
  intros (t & w1 & Ht & Hr)%and_then_Ok. apply and_then_Ok in Hr as (rest & w2 & Hrest & [= <- <-]).
  apply IH in Hrest as [Hlen Hall]. split; [simpl; lia|]. constructor; [|done].
  unfold study_trial in Ht. apply and_then_Ok in Ht as (? & ? & _ & Ht).
  by apply and_then_Ok in Ht as (? & ? & _ & [= <- _]).
Qed.

Lemma trials_of_same ts hold : Forall (fun t => trial_hold_secs t = hold) ts -> trials_of ts hold = ts.
Proof. induction 1 as [|t ts Ht _ IH]; [done|]. cbn. rewrite Ht, Z.eqb_refl. f_equal. exact IH. Qed.

Lemma trials_of_other ts hold hold' :
  hold <> hold' -> Forall (fun t => trial_hold_secs t = hold) ts -> trials_of ts hold' = [].
Proof.
  intros Hne. induction 1 as [|t ts Ht _ IH]; [done|]. cbn. rewrite Ht, (proj2 (Z.eqb_neq _ _)) by done. exact IH.
Qed.

(** The summary of a hold is that of its trials. *)
Definition summary_of (args : StudyArgs.t) (ts : list StudyTrial) (hold : Z) : StudySummary :=
  mk_summary hold (StudyArgs.runs args) (count_successes (trials_of ts hold)).

Lemma study_holds_Ok args holds (w w' : W) out :
  NoDup holds -> study_holds args holds w = (Ok out, w') ->
  out.1 = summary_of args out.2 <$> holds
  /\ (forall h, h ∈ holds -> List.length (trials_of out.2 h) = Z.to_nat (StudyArgs.runs args))
  /\ Forall (fun t => trial_hold_secs t ∈ holds) out.2.
Proof.
  revert w w' out. induction holds as [|h holds IH]; intros w w' out Hnd; cbn [study_holds].
  { intros [= <- _]. split_and!; [done| |constructor]. by intros h ?%not_elem_of_nil. }
  apply NoDup_cons in Hnd as [Hh Hnd]. intros (ts & w1 & Hts & Hr)%and_then_Ok.
  apply and_then_Ok in Hr as (more & w2 & Hmore & [= <- _]). cbn [fst snd].
  apply study_runs_Ok in Hts as [Hlen Hts]. destruct (IH _ _ _ Hnd Hmore) as (Hsum & Hlens & Hall).
  assert (forall x, trials_of (ts ++ more.2)%list x = (trials_of ts x ++ trials_of more.2 x)%list) as Happ
    by (intros x; apply List.filter_app).
  assert (trials_of more.2 h = []) as Hno.
  { clear -Hall Hh. induction Hall as [|t l Ht _ IHl]; [done|]. cbn.
    destruct (trial_hold_secs t =? h) eqn:He; [|exact IHl]. apply Z.eqb_eq in He. by subst. }
  split_and!.
  - cbn [fmap list_fmap]. f_equal.
    + unfold summary_of. by rewrite Happ, Hno, app_nil_r, trials_of_same.
    + rewrite Hsum. apply list_fmap_ext. intros i x Hx%list_elem_of_lookup_2. unfold summary_of.
      rewrite Happ, (trials_of_other ts h x); [done| |done]. by intros ->.
  - intros x [->|Hx]%elem_of_cons; rewrite Happ.
    + by rewrite Hno, app_nil_r, trials_of_same.
    + rewrite (trials_of_other ts h x); [by apply Hlens| |done]. by intros ->.
  - apply Forall_app. split; (eapply Forall_impl; [eassumption|]); cbn.
    + intros t ->. by left.
    + intros t Ht. by right.
Qed.

(** The first of a strictly increasing list that passes is the least that
    does. *)
Lemma find_least (f : Z -> bool) l h :
  StronglySorted Z.lt l -> List.find f l = Some h ->
  h ∈ l /\ f h = true /\ forall h', h' ∈ l -> h' < h -> f h' = false.
Proof.
  induction 1 as [|x l Hl IH Hx]; cbn [List.find]; [done|]. destruct (f x) eqn:Hf.
  - intros [= <-]. split_and!; [by left|done|]. intros h' [->|Hin]%elem_of_cons Hlt; [lia|].
    rewrite Forall_forall in Hx. specialize (Hx h' Hin). lia.
  - intros Hfind. destruct (IH Hfind) as (Hin & Hh & Hless). split_and!; [by right|done|].
    intros h' [->|Hin']%elem_of_cons Hlt; [done|by apply Hless].
Qed.

Lemma find_fmap_hold (f : Z -> StudySummary) (p : StudySummary -> bool) l :
  (forall h, summary_hold_secs (f h) = h) ->
  summary_hold_secs <$> List.find p (f <$> l) = List.find (fun h => p (f h)) l.
Proof.
  intros Hf. induction l as [|h l IH]; [done|]. cbn [fmap list_fmap List.find].
  destruct (p (f h)); [|done]. cbn [fmap option_fmap option_map]. by rewrite Hf.
Qed.

Lemma filter_all (ts : list StudyTrial) :
  Z.of_nat (List.length ts) <= count_successes ts <-> Forall (fun t => trial_success t = true) ts.
Proof.
  unfold count_successes. split.
  - induction ts as [|t ts IH]; [constructor|]. cbn [List.filter List.length].
    pose proof (List.filter_length_le trial_success ts). destruct (trial_success t) eqn:Ht; cbn [List.length].
    + intros Hle. constructor; [done|]. apply IH. lia.
    + lia.
  - induction 1 as [|t ts Ht _ IH]; [done|]. cbn [List.filter]. rewrite Ht. cbn [List.length]. lia.
Qed.

(** With fewer than a hundred runs the required rate allows no failure: the
    study recommends the least tested time for which every trial succeeded,
    after as many trials as were asked for, and every shorter tested time had a
    trial that failed; without a recommendation every tested time had one. *)
Theorem study_recommends_shortest args (w w' : W) report :
  0 < StudyArgs.runs args < 100 ->
  airplane_study_report args w = (Ok report, w') ->
  let reliable hold := Forall (fun t => trial_success t = true) (trials_of (trials report) hold) in
  (forall hold, hold ∈ StudyArgs.hold_secs args ->
     List.length (trials_of (trials report) hold) = Z.to_nat (StudyArgs.runs args))
  /\ match recommended_hold_secs report with
     | Some hold => hold ∈ StudyArgs.hold_secs args /\ reliable hold
         /\ forall hold', hold' ∈ StudyArgs.hold_secs args -> hold' < hold -> ~ reliable hold'
     | None => forall hold, hold ∈ StudyArgs.hold_secs args -> ~ reliable hold
     end.
Proof.
  intros Hruns Hrep reliable. unfold airplane_study_report in Hrep.
  set (holds := dedup (sort_holds (StudyArgs.hold_secs args))) in *.
  assert (StronglySorted Z.lt holds) as Hsorted by apply dedup_sorted, sort_holds_sorted.
  assert (forall h, h ∈ holds <-> h ∈ StudyArgs.hold_secs args) as Hin
    by (intros h; unfold holds; by rewrite dedup_elem, sort_holds_elem).
  assert (NoDup holds) as Hnd.
  { clear -Hsorted. induction Hsorted as [|x l _ IH Hx]; constructor; [|done]. intros Hx'.
    rewrite Forall_forall in Hx. specialize (Hx x Hx'). lia. }
  apply and_then_Ok in Hrep as (out & w1 & Hout & [= <- _]).
  apply (study_holds_Ok _ _ _ _ _ Hnd) in Hout as (Hsum & Hlens & _). cbn [trials recommended_hold_secs] in *.
  assert (forall h, h ∈ holds -> meets_rate (summary_of args out.2 h) = true <-> reliable h) as Hrate.
  { intros h Hh. unfold meets_rate, MINIMUM_SUCCESS_RATE, reliable, summary_of. cbn [summary_runs summary_successes].
    rewrite <- filter_all, (Hlens h Hh), Z2Nat.id by lia.
    pose proof (List.filter_length_le trial_success (trials_of out.2 h)) as Hle. rewrite (Hlens h Hh) in Hle.
    unfold count_successes. rewrite andb_true_iff. lia. }
  split; [intros h Hh; apply Hlens; by apply Hin|].
  rewrite Hsum, find_fmap_hold by done.
  destruct (List.find _ holds) as [h|] eqn:Hf.
  - apply (find_least _ _ _ Hsorted) in Hf as (Hh & Hm & Hless). split_and!; [by apply Hin|by apply Hrate|].
    intros h' Hh'%Hin Hlt Hrel. apply Hrate in Hrel; [|done]. by rewrite (Hless h' Hh' Hlt) in Hrel.
  - intros h Hh%Hin Hrel. apply Hrate in Hrel; [|done]. eapply find_none in Hf; [|by apply list_elem_of_In].
    cbn in Hf. congruence.
Qed.

(** ** Waiting *)

(** Time passes while the command sleeps, and does not go back. *)
Class PhoneClock : Prop := {
  sleep_takes n w : 0 <= n -> api_clock w + n <= api_clock (api_sleep n w);
  job_takes id w : api_clock w <= api_clock (get_job id w).2;
}.

(** Waiting for a rotation always ends: with the turns that are allowed for, it
    is never cut short. *)
Theorem waiting_for_a_rotation_ends `{!PhoneClock} job_id poll_secs (w : W) :
  is_Some (wait_for_job WAIT_FUEL (api_clock w) job_id poll_secs w).
Proof.
  assert (forall fuel w' started, MAX_WAIT + 1 <= api_clock w' - started + Z.of_nat fuel ->
    is_Some (wait_for_job (S fuel) started job_id poll_secs w')) as Hgen.
  { unfold MAX_WAIT. induction fuel as [|fuel IH]; intros w' started Hf; cbn [wait_for_job]; unfold MAX_WAIT.
    { destruct (300 <? api_clock w' - started) eqn:Ht; [eauto|lia]. }
    destruct (300 <? api_clock w' - started) eqn:Ht; [eauto|].
    apply Z.ltb_ge in Ht. pose proof (job_takes job_id w') as Hj.
    destruct (get_job job_id w') as [[job|] w1]; cbn [snd] in Hj; [|eauto].
    destruct (negb _); [eauto|]. apply IH. pose proof (sleep_takes (Z.max poll_secs 1) w1 ltac:(lia)). lia. }
  unfold WAIT_FUEL. apply (Hgen 301%nat). unfold MAX_WAIT. lia.
Qed.
End Study.
