(* ===== verification/OperatorPhone.v ===== *)
(** * The operator's commands on the phone's interface

    [apps/operator-cli/src/{http,commands,main}.rs] against
    [services/host-daemon/src/api.rs]: the requests of the operator are handled by
    the host daemon while its own tasks go on, and the commands' theorems hold of
    the daemon's jobs. *)

From stdpp Require Import base gmap strings list fin_maps.
From Stdlib Require Import ZArith Lia String.
From S2P Require Import Prelude Text NetText Foundation Commands Devices ControlPlane ControlPlaneHttp.
From S2P Require Import HostDaemon HostTheorems HostConfig HostApi FileTree OperatorCommands HostDemo.
Local Open Scope string_scope.
Local Open Scope Z_scope.

(** ** Endpoints *)

Definition RELAY_IP : string := "34.118.88.54".
Definition MIXED_PORT : Z := 1080.
Definition SOCKS5_PORT : Z := 1081.
Definition HTTP_PORT : Z := 3128.
Definition LOCAL_API : string := "http://127.0.0.1:18088".

Record ProxyEndpoint := mk_endpoint {
  scheme : string;
  endpoint_host : string;
  endpoint_port : Z;
  endpoint_username : option string;
  endpoint_password : option string;
}.

Definition proxy_endpoints : list ProxyEndpoint :=
  [mk_endpoint "mixed" RELAY_IP MIXED_PORT None None;
   mk_endpoint "socks5" RELAY_IP SOCKS5_PORT None None;
   mk_endpoint "http" RELAY_IP HTTP_PORT None None].

(** ** Requests *)

(** [HeaderValue::from_str] accepts a text. *)
Class HeaderText := header_text : string -> bool.

Definition auth_headers `{HeaderText} (token : string) : result HeaderMap unit :=
  let value := "Bearer " ++ token in
  if header_text value
  then Ok (insert_header (insert_header [] "authorization" value) "content-type" "application/json")
  else Err tt.

(** The phone as the operator meets it: the daemon, the operator's clock and the
    number of requests made. *)
Record PhoneWorld `{Blake3} := mk_phone_world {
  daemon : Daemon;
  now : Z;
  requests : nat;
}.
Arguments mk_phone_world {_}.

(** What surrounds a request: the steps of the daemon's tasks before it is
    handled, the identity and the order the handler may draw, whether the request
    arrives, whether its answer does, and how long it takes. *)
Class Surroundings `{Blake3} := {
  meanwhile : nat -> Daemon -> Daemon;
  draws : nat -> Daemon -> Uuid * list Uuid;
  arrives : nat -> bool;
  answered : nat -> bool;
  takes : nat -> Z;
}.

(** The tasks do what they can, drawn identities are fresh, and time does not go
    back. *)
Class SurroundingsLaws `{Surroundings} : Prop := {
  meanwhile_steps n d : steps d (meanwhile n d);
  draws_fresh n d : choices (runtime d) (draws n d).1 (draws n d).2;
  takes_time n : 0 <= takes n;
}.

Section Phone.
Context `{Blake3} `{!HeaderText} `{!Surroundings}.
Context (admin_token : string) (ui_token : option string) (sync : option ControlPlaneSyncConfig).
Context (token : string).

(** What the handlers see of the daemon. *)
Definition api_state (d : Daemon) : HostApi.ApiState :=
  HostApi.mk_api_state admin_token ui_token sync (runtime d).

(** A request with the operator's headers, [error_for_status] and the body. *)
Definition call {A} (handler : nat -> HeaderMap -> Daemon -> result A ApiError * Daemon)
    (w : PhoneWorld) : option A * PhoneWorld :=
  match auth_headers token with
  | Err _ => (None, w)
  | Ok headers =>
      let n := requests w in
      let d := meanwhile n (daemon w) in
      let later d := mk_phone_world d (now w + takes n) (S n) in
      if arrives n then
        let '(out, d') := handler n headers d in
        (match out with Ok a => if answered n then Some a else None | Err _ => None end, later d')
      else (None, later d)
  end.

(** [POST /v1/ip/rotate] *)
Definition issue_rotation (request : RotateRequest.t) : PhoneWorld -> option Uuid * PhoneWorld :=
  fun w =>
    let '(out, w') := call (fun n headers d =>
      let '(id, iteration) := draws n d in
      let '(out, r) := HostApi.rotate_ip id iteration (api_state d) headers request in
      (out, mk_daemon r (spawn out request (tasks d)))) w in
    (accepted_job <$> out, w').

(** [GET /v1/jobs/{id}] *)
Definition fetch_job (id : Uuid) : PhoneWorld -> option JobRecord.t * PhoneWorld :=
  call (fun _ headers d => (HostApi.get_job (api_state d) headers id, d)).

(** [GET /v1/health] *)
Definition fetch_health : PhoneWorld -> option HealthRecord.t * PhoneWorld :=
  call (fun _ headers d => (HostApi.get_health (api_state d) headers, d)).

(** [GET /v1/metrics] *)
Definition fetch_metrics : PhoneWorld -> option string * PhoneWorld :=
  call (fun _ headers d => (HostApi.get_metrics (api_state d) headers, d)).

#[local] Instance phone_api : PhoneApi PhoneWorld := {
  post_rotate := issue_rotation;
  get_job := fetch_job;
  api_health := fetch_health;
  api_sleep n w := mk_phone_world (daemon w) (now w + n) (requests w);
  api_clock := now;
}.

(** ** Commands *)

Inductive StatusFormat := FormatJson | FormatSummary.

(** [serde_json::to_string_pretty] of a health record. *)
Class HealthText := health_json : HealthRecord.t -> string.

Definition render_status `{!HealthText} (h : HealthRecord.t) (format : StatusFormat) : string :=
  match format with
  | FormatJson => health_json h
  | FormatSummary => render_status_summary h
  end.

Local Open Scope rust_scope.

Definition run_status `{!HealthText} (format : StatusFormat) : Fallible PhoneWorld CommandError string :=
  let! health := request fetch_health in yield (render_status health format).

Definition run_metrics : Fallible PhoneWorld CommandError string := request fetch_metrics.
End Phone.

(** ** The program *)

(** What the operator asks for.  The arguments of the commands that do not speak
    to a phone's daemon belong to their handlers. *)
Inductive Command :=
| Status (format : StatusFormat)
| Metrics
| Proxy
| Rotate (args : RotateArgs.t)
| Ip
| RotateServer
| AirplaneStudy (args : StudyArgs.t)
| PrepareRuntimeBinaries
| ProvisionVm
| DeleteVm
| InstallAndroidApp
| InstallDeviceStack
| PackageDeviceRelease
| InstallDeviceRelease
| VerifyReleaseIntegrity
| VerifyDevice
| RollbackDevice
| GenerateReverseTunnelIdentity.

Inductive MainError := MissingToken | CommandFailed (e : CommandError).

(** What a command prints. *)
Inductive Printed :=
| PrintedText (text : string)
| PrintedEndpoints (endpoints : list ProxyEndpoint)
| PrintedRotation `{Blake3} (job : JobRecord.t) (health : HealthRecord.t)
| PrintedHold (hold_secs : Z).

(** The handlers of the other commands, each on its command line. *)
Record Handlers (W : Type) := mk_handlers {
  server_rotate : W;
  prepare_runtime_binaries : W;
  provision_vm : W;
  delete_vm : W;
  install_android_app : W;
  install_device_stack : W;
  package_device_release : W;
  install_device_release : W;
  verify_integrity_manifest : W;
  verify_device : W;
  rollback_device : W;
  generate_reverse_tunnel_identity : W;
}.

Section Main.
Context `{Blake3} `{!HeaderText} `{!Surroundings} `{!HealthText}.
Context (admin_token : string) (ui_token : option string) (sync : option ControlPlaneSyncConfig).
Context (handlers : Handlers (Fallible PhoneWorld MainError Printed)).

Definition printing {A} (show : A -> Printed) (c : Fallible PhoneWorld CommandError A)
    : Fallible PhoneWorld MainError Printed :=
  fun w => match c w with
           | (Ok a, w') => (Ok (show a), w')
           | (Err e, w') => (Err (CommandFailed e), w')
           end.

(** [main]: the commands that talk to the phone need a token. *)
Definition operator_main (cli_token env_token : option string) (c : Command)
    : Fallible PhoneWorld MainError Printed :=
  let with_token (k : string -> Fallible PhoneWorld MainError Printed) :=
    match resolve_token cli_token env_token with
    | Some token => k token
    | None => fun w => (Err MissingToken, w)
    end in
  match c with
  | Status format => with_token (fun token =>
      printing PrintedText (run_status admin_token ui_token sync token format))
  | Metrics => with_token (fun token =>
      printing PrintedText (run_metrics admin_token ui_token sync token))
  | Proxy => fun w => (Ok (PrintedEndpoints proxy_endpoints), w)
  | Rotate args => with_token (fun token =>
      printing (fun out => PrintedRotation out.1 out.2)
        (run_rotate (PhoneApi0 := phone_api admin_token ui_token sync token) args))
  | AirplaneStudy args => with_token (fun token =>
      printing PrintedHold (run_airplane_study (PhoneApi0 := phone_api admin_token ui_token sync token) args))
  | Ip | RotateServer => server_rotate _ handlers
  | PrepareRuntimeBinaries => prepare_runtime_binaries _ handlers
  | ProvisionVm => provision_vm _ handlers
  | DeleteVm => delete_vm _ handlers
  | InstallAndroidApp => install_android_app _ handlers
  | InstallDeviceStack => install_device_stack _ handlers
  | PackageDeviceRelease => package_device_release _ handlers
  | InstallDeviceRelease => install_device_release _ handlers
  | VerifyReleaseIntegrity => verify_integrity_manifest _ handlers
  | VerifyDevice => verify_device _ handlers
  | RollbackDevice => rollback_device _ handlers
  | GenerateReverseTunnelIdentity => generate_reverse_tunnel_identity _ handlers
  end.

Definition speaks_to_phone (c : Command) : bool :=
  match c with Status _ | Metrics | Rotate _ | AirplaneStudy _ => true | _ => false end.
End Main.

(** ** Properties *)

Section Properties.
Context `{Blake3} `{!HeaderText} `{!Surroundings}.
Context (admin_token : string) (ui_token : option string) (sync : option ControlPlaneSyncConfig).
Context (token : string).

#[local] Existing Instance phone_api.
Abbreviation phone := (phone_api admin_token ui_token sync token).
Abbreviation state := (api_state admin_token ui_token sync).

(** A handler that lets the operator's headers pass has the operator's token. *)
Lemma auth_headers_pass headers u :
  auth_headers token = Ok headers -> authorize headers admin_token = Ok u -> token = admin_token.
Proof.
  unfold auth_headers. case_match; [|done]. intros [= <-] Ha.
  apply authorize_presents in Ha. unfold presents in Ha.
  change (Some ("Bearer " ++ token) = Some ("Bearer " ++ admin_token)) in Ha.
  injection Ha as Ha. exact Ha.
Qed.

Lemma call_Some {A} handler (w w' : PhoneWorld) (a : A) :
  call token handler w = (Some a, w') ->
  exists headers, auth_headers token = Ok headers
    /\ handler (requests w) headers (meanwhile (requests w) (daemon w)) = (Ok a, daemon w').
Proof.
  unfold call. destruct (auth_headers token) as [headers|]; [|done]. destruct (arrives _); [|done].
  destruct (handler _ _ _) as [[b|] d'] eqn:Hh; [|done]. destruct (answered _); [|done].
  intros [= <- <-]. exists headers. by split.
Qed.

Lemma issue_rotation_Some request (w w' : PhoneWorld) id :
  issue_rotation admin_token ui_token sync token request w = (Some id, w') ->
  let d := meanwhile (requests w) (daemon w) in
  token = admin_token /\ (draws (requests w) d).1 = id
  /\ daemon w' = mk_daemon (start_rotation_for_runtime id (draws (requests w) d).2 (runtime d) request).2
                   (spawn (start_rotation_for_runtime id (draws (requests w) d).2 (runtime d) request).1
                      request (tasks d))
  /\ rotation_running (runtime d) = false.
Proof.
  intros Hi d. unfold issue_rotation in Hi. destruct (call _ _ _) as [[accepted|] w1] eqn:Hc; [|done].
  injection Hi as <- ->. apply call_Some in Hc as (headers & Ha & Hh).
  fold d in Hh. destruct (draws (requests w) d) as [id iteration]. cbn [fst snd].
  destruct (rotate_ip _ _ _ _ _) as [out r] eqn:Hr. injection Hh as -> Hd.
  unfold rotate_ip in Hr. destruct (authorize _ _) as [u|] eqn:Hau; [|done].
  pose proof (auth_headers_pass _ _ Ha Hau) as Htok. cbn [api_runtime api_state] in Hr.
  assert (accepted_job accepted = id /\ rotation_running (runtime d) = false) as [Hid Hrun].
  { revert Hr. unfold start_rotation_for_runtime. case_match; [done|]. by intros [= <- _]. }
  rewrite Hid, Hr. cbn [fst snd]. done.
Qed.

Lemma fetch_job_Some id (w w' : PhoneWorld) job :
  fetch_job admin_token ui_token sync token id w = (Some job, w') ->
  daemon w' = meanwhile (requests w) (daemon w)
  /\ RuntimeState.jobs (runtime (daemon w')) !! id = Some job.
Proof.
  intros (headers & _ & [= Hg <-])%call_Some. split; [done|].
  apply result_bind_Ok in Hg as (u & _ & Hf). revert Hf. unfold find_job, ok_or. cbn [api_runtime api_state].
  by destruct (_ !! id); intros [= <-].
Qed.

Lemma fetch_health_Some (w w' : PhoneWorld) h :
  fetch_health admin_token ui_token sync token w = (Some h, w') ->
  daemon w' = meanwhile (requests w) (daemon w)
  /\ RuntimeState.health (runtime (daemon w')) = h.
Proof.
  intros (headers & _ & [= Hg <-])%call_Some. split; [done|].
  by apply result_bind_Ok in Hg as (u & _ & [= <-]).
Qed.

(** A handler behind the admin token refuses another token. *)
Lemma call_refused {A} (k : nat -> HeaderMap -> Daemon -> result A ApiError) (w w' : PhoneWorld) out :
  token <> admin_token ->
  (forall n headers d, is_ok (k n headers d) = true -> exists u, authorize headers admin_token = Ok u) ->
  call token (fun n headers d => (k n headers d, d)) w = (out, w') ->
  out = None /\ (daemon w' = daemon w \/ daemon w' = meanwhile (requests w) (daemon w)).
Proof.
  intros Hne Hk. unfold call. destruct (auth_headers token) as [headers|] eqn:Ha; [|intros [= <- <-]; auto].
  destruct (arrives _); [|intros [= <- <-]; auto].
  destruct (k _ _ _) as [a|e] eqn:Hh; [|intros [= <- <-]; auto]. exfalso. apply Hne.
  edestruct Hk as [u Hu]; [by erewrite Hh|]. by eapply auth_headers_pass.
Qed.

Lemma issue_refused request (w w' : PhoneWorld) out :
  token <> admin_token -> issue_rotation admin_token ui_token sync token request w = (out, w') ->
  out = None /\ (daemon w' = daemon w \/ daemon w' = meanwhile (requests w) (daemon w)).
Proof.
  intros Hne. unfold issue_rotation, call.
  destruct (auth_headers token) as [headers|] eqn:Ha; [|intros [= <- <-]; auto].
  destruct (arrives _); [|intros [= <- <-]; auto]. set (d := meanwhile _ _).
  destruct (draws (requests w) d) as [id iteration]. unfold rotate_ip. cbn [api_admin_token api_state].
  destruct (authorize headers admin_token) as [u|e] eqn:Hau.
  - exfalso. apply Hne. by eapply auth_headers_pass.
  - intros [= <- <-]. split; [done|]. right. by destruct d.
Qed.

(** Without the phone's token the operator's commands get nothing and do
    nothing: status, metrics and rotation fail, and the daemon is where its own
    tasks brought it. *)
Theorem wrong_token_changes_nothing `{!HealthText} format args (w : PhoneWorld) :
  token <> admin_token ->
  let own w' := daemon w' = daemon w \/ daemon w' = meanwhile (requests w) (daemon w) in
  (exists w', run_status admin_token ui_token sync token format w = (Err RequestError, w') /\ own w')
  /\ (exists w', run_metrics admin_token ui_token sync token w = (Err RequestError, w') /\ own w')
  /\ (exists w', run_rotate (PhoneApi0 := phone) args w = (Err RequestError, w') /\ own w').
Proof.
  intros Hne. cbn zeta. split_and!.
  - unfold run_status, and_then, request. destruct (fetch_health _ _ _ _ w) as [out w'] eqn:Hf.
    apply (call_refused (fun _ headers d => get_health (state d) headers)) in Hf as [-> Hw];
      [by exists w'|done|].
    intros n headers d. unfold get_health. cbn. destruct (authorize headers admin_token); [eauto|done].
  - unfold run_metrics, request. destruct (fetch_metrics _ _ _ _ w) as [out w'] eqn:Hf.
    apply (call_refused (fun _ headers d => get_metrics (state d) headers)) in Hf as [-> Hw];
      [by exists w'|done|].
    intros n headers d. unfold get_metrics. cbn. destruct (authorize headers admin_token); [eauto|done].
  - unfold run_rotate, and_then, request. cbn.
    destruct (issue_rotation _ _ _ _ _ w) as [out w'] eqn:Hi.
    apply issue_refused in Hi as [-> Hw]; [by exists w'|done].
Qed.

Section Laws.
Context `{!SurroundingsLaws}.

Lemma steps_trans d d' d'' : steps d d' -> steps d' d'' -> steps d d''.
Proof. induction 1; eauto using StepsCons. Qed.

(** The clock of the commands is that of the phone's world. *)
#[local] Instance phone_clock : PhoneClock (PhoneApi0 := phone).
Proof.
  split; cbn; [lia|]. intros id w. unfold fetch_job, call. destruct (auth_headers token); [|done].
  pose proof (takes_time (requests w)). destruct (arrives _); cbn; lia.
Qed.

Lemma wait_for_job_Ok fuel started id poll (w w' : PhoneWorld) job health :
  wait_for_job (PhoneApi0 := phone) fuel started id poll w = Some (Ok (job, health), w') ->
  exists d, steps (daemon w) d /\ steps d (daemon w')
    /\ RuntimeState.jobs (runtime d) !! id = Some job /\ JobRecord.status job <> "running"
    /\ RuntimeState.health (runtime (daemon w')) = health.
Proof.
  revert w. induction fuel as [|fuel IH]; intros w; cbn [wait_for_job]; [done|]. case_match; [done|].
  change (OperatorCommands.get_job id w) with (fetch_job admin_token ui_token sync token id w).
  destruct (fetch_job admin_token ui_token sync token id w) as [[j|] w1] eqn:Hg; [|done]. apply fetch_job_Some in Hg as [Hd Hj].
  assert (steps (daemon w) (daemon w1)) as Hs by (rewrite Hd; apply meanwhile_steps).
  destruct (negb _) eqn:Hr.
  - intros [= Hok]. apply and_then_Ok in Hok as (h & w2 & Hh & [= -> -> ->]).
    unfold request in Hh. cbn in Hh.
    destruct (fetch_health admin_token ui_token sync token w1) as [[h'|] w3] eqn:Ha; [|done].
    injection Hh as -> ->. apply fetch_health_Some in Ha as [Hd' Hh'].
    exists (daemon w1). split_and!; try done; [rewrite Hd'; apply meanwhile_steps|].
    intros Heq. by rewrite bool_decide_eq_true_2 in Hr.
  - intros Hw. apply IH in Hw as (d & Hs1 & Hs2 & Hrest). exists d.
    split; [|by split]. by eapply steps_trans.
Qed.

(** C39: An operator whose rotation command returns a job has rotated this phone:
    its token is the phone's, the phone was not rotating, the command started a
    job that the phone did not have, and what it is shown is that job once it
    had ended, as succeeded or failed with a known change of address, and the
    health of the phone after that; and the command, which waits for the job,
    always ends. *)
Theorem operator_rotation_is_the_phones boot_health wireguard owner listen commands urls args
    (w w' : PhoneWorld) job health :
  steps (booted boot_health wireguard owner listen commands urls) (daemon w) ->
  run_rotate (PhoneApi0 := phone) args w = (Ok (job, health), w') ->
  let id := JobRecord.id job in
  token = admin_token
  /\ (exists d d' d'' iteration,
        steps (daemon w) d /\ choices (runtime d) id iteration
        /\ rotation_running (runtime d) = false
        /\ d' = mk_daemon (start_rotation_for_runtime id iteration (runtime d)
                             (build_rotate_request args)).2
                  (spawn (start_rotation_for_runtime id iteration (runtime d)
                            (build_rotate_request args)).1 (build_rotate_request args) (tasks d))
        /\ steps d' d'' /\ steps d'' (daemon w')
        /\ RuntimeState.jobs (runtime d'') !! id = Some job)
  /\ finished job
  /\ RuntimeState.health (runtime (daemon w')) = health
  /\ forall v poll, is_Some (wait_for_job (PhoneApi0 := phone) WAIT_FUEL (now v) id poll v).
Proof.
  intros Hboot Hrun. apply and_then_Ok in Hrun as (id & w1 & Hreq & Hwait).
  unfold request in Hreq. cbn in Hreq.
  destruct (issue_rotation _ _ _ _ _ w) as [[id'|] w2] eqn:Hp; [|done].
  injection Hreq as -> ->. apply issue_rotation_Some in Hp. cbn zeta in Hp.
  set (d := meanwhile (requests w) (daemon w)) in *. destruct Hp as (Htok & Hid & Hd & Hfree).
  pose proof (draws_fresh (requests w) d) as Hch. rewrite Hid in Hch.
  unfold wait_for_rotation in Hwait.
  destruct (wait_for_job _ _ _ _ _) as [out|] eqn:Hw; [|done]. cbn in Hwait. subst out.
  apply wait_for_job_Ok in Hw as (d2 & Hs1 & Hs2 & Hj & Hne & Hh).
  assert (step d (daemon w1)) as Hstep.
  { rewrite Hd. destruct d as [r ts]. by apply StepRotate. }
  assert (steps (booted boot_health wireguard owner listen commands urls) d2) as Hall.
  { eapply steps_trans; [exact Hboot|]. eapply steps_trans; [apply meanwhile_steps|].
    eapply StepsCons; [exact Hstep|exact Hs1]. }
  pose proof (steps_ok _ _ Hall (booted_ok _ _ _ _ _ _)) as Hok.
  destruct (ok_jobs _ _ _ Hok id job Hj) as [Hjid Hjob]. cbn zeta. rewrite Hjid.
  split; [done|]. split.
  { exists d, (daemon w1), d2, (draws (requests w) d).2. rewrite <- Hd.
    split_and!; try done. apply meanwhile_steps. }
  split_and!; [|done|intros v poll; apply (waiting_for_a_rotation_ends (PhoneApi0 := phone))].
  destruct Hjob as [[_ Hrun]|[_ Hf]]; [|done]. exfalso. apply Hne.
  revert Hrun. unfold job_running. by intros ?%bool_decide_eq_true.
Qed.
End Laws.
End Properties.

(** The phone's commands send nothing without a token. *)
Theorem missing_token_sends_nothing `{Blake3} `{!HeaderText} `{!Surroundings} `{!HealthText}
    admin_token ui_token sync handlers c (w : PhoneWorld) :
  speaks_to_phone c = true ->
  operator_main admin_token ui_token sync handlers None None c w = (Err MissingToken, w).
Proof. by destruct c. Qed.

(** ** A rotation from the operator's desk *)

Module DemoOperator.
Import Concrete.

#[global] Instance any_header : HeaderText := fun _ => true.

Definition keys (d : Daemon) : list Uuid := (map_to_list (RuntimeState.jobs (runtime d))).*1.
Definition above (l : list Uuid) : Uuid := (1 + foldr N.max 0 l)%N.

Lemma above_fresh l : above l ∉ l.
Proof.
  assert (forall x, x ∈ l -> (x <= foldr N.max 0 l)%N) as Hle.
  { induction l as [|y l IH]; intros x Hx; [by apply not_elem_of_nil in Hx|]. cbn.
    apply elem_of_cons in Hx as [->|Hx]; [lia|]. specialize (IH x Hx). lia. }
  intros Hin%Hle. unfold above in Hin. lia.
Qed.

(** The rotation that runs ends before the second request. *)
Definition finish (d : Daemon) : Daemon :=
  match RuntimeState.current_job (runtime d) with
  | None => d
  | Some id =>
      match tasks d !! id with
      | None => d
      | Some request =>
          mk_daemon (apply_rotation_result (runtime d) id
                       (RotateRequest.require_public_ip_change request) true true None
                       (Some "203.0.113.8")) (delete id (tasks d))
      end
  end.

#[global] Instance desk : Surroundings := {
  meanwhile n d := if (n =? 1)%nat then finish d else d;
  draws n d := (above (keys d), keys d);
  arrives _ := true;
  answered _ := true;
  takes _ := 1;
}.

#[global] Instance desk_laws : SurroundingsLaws.
Proof.
  split; [|intros n d; split|done].
  - intros n d. cbn. destruct (n =? 1)%nat; [|apply StepsNil]. unfold finish.
    destruct (RuntimeState.current_job _) as [id|]; [|apply StepsNil].
    destruct (tasks d !! id) as [request|] eqn:Ht; [|apply StepsNil].
    eapply StepsCons; [|apply StepsNil]. destruct d. by apply StepFinish.
  - cbn. destruct (RuntimeState.jobs (runtime d) !! above (keys d)) as [job|] eqn:Hj; [|done].
    exfalso. apply (above_fresh (keys d)). unfold keys at 2. apply list_elem_of_fmap.
    exists (above (keys d), job). split; [done|]. by apply elem_of_map_to_list.
  - unfold iterates. reflexivity.
Qed.

Definition args : RotateArgs.t := RotateArgs.mk "airplane_bounce" true "desk" (Some 4) 2.
Definition start : PhoneWorld := mk_phone_world DemoDaemon.boot 0 0.
Abbreviation api := (phone_api "0123456789abcdef" None None "0123456789abcdef").

Lemma operator_rotation_is_the_phones_witness :
  exists job health w', run_rotate (PhoneApi0 := api) args start = (Ok (job, health), w') /\ finished job.
Proof.
  assert (is_ok (run_rotate (PhoneApi0 := api) args start).1 = true) as Hok by (vm_compute; reflexivity).
  destruct (run_rotate (PhoneApi0 := api) args start) as [[[job health]|e] w'] eqn:Hr;
    [|discriminate Hok].
  exists job, health, w'. split; [reflexivity|].
  apply (operator_rotation_is_the_phones "0123456789abcdef" None None "0123456789abcdef"
           DemoDaemon.health true (Some "stock_wireguard_bridge") "10.66.66.2:1080"
           DemoDaemon.no_commands ["https://observer"] args start w' job health (StepsNil _) Hr).
Defined.

#[global] Instance no_health_text : HealthText := fun _ => "".

Lemma wrong_token_changes_nothing_witness :
  exists w', run_metrics "0123456789abcdef" None None "guess" start = (Err RequestError, w').
Proof.
  destruct (wrong_token_changes_nothing "0123456789abcdef" None None "guess" FormatJson args start)
    as (_ & (w' & Hw & _) & _); [discriminate|].
  exists w'. exact Hw.
Defined.
End DemoOperator.
