(* ===== verification/AndroidApp.v ===== *)
(** * Building and installing the Android application

    [apps/operator-cli/src/android_app.rs]: the project is copied to a directory
    of the Windows side without its build outputs, a PowerShell launcher runs
    Gradle there, and the APK is awaited and installed with [adb].  The build is
    on the non-Windows side; environment values are Unicode texts. *)

From stdpp Require Import base gmap strings list.
From Stdlib Require Import ZArith Lia Ascii String.
From S2P Require Import Prelude Text Foundation NetText FileTree Shell ReleaseIntegrity RuntimeArtifacts.
From S2P Require Import Workstation VmPlan DeviceSupport DeviceTheorems.
Local Open Scope string_scope.
Local Open Scope Z_scope.

Definition IGNORED_DIRS : list string := ["build"; ".gradle"; ".kotlin"].
Definition ANDROID_GRADLE_QUALITY_TASKS : string :=
  "--no-daemon clean testDebugUnitTest lintDebug assembleDebug".
Definition WINDOWS_GRADLE_LOG_NAME : string := "run-mobile-proxy-gradle.log".
Definition WINDOWS_GRADLE_LAUNCHER_NAME : string := "run-mobile-proxy-gradle.ps1".
(** In milliseconds. *)
Definition WINDOWS_GRADLE_COMPLETION_WAIT : Z := 180000.
Definition APK_PATH : list string := ["app"; "build"; "outputs"; "apk"; "debug"; "app-debug.apk"].

Module AndroidArgs.
(** [InstallAndroidAppArgs] of [cli.rs] *)
Record t := mk {
  project_dir : string;
  windows_build_dir : string;
  windows_build_dir_cmd : string;
  apk_windows_path : string;
  device_serial : option string;
  skip_install : bool;
}.
End AndroidArgs.

(** ** Paths of the Windows side *)

(** [Path::new(path).join(name)] as text. *)
Definition join_text (path name : string) : string :=
  if bool_decide (path = "") || ends_with "/" path then path ++ name else path ++ "/" ++ name.

(** [windows[6..]] *)
Fixpoint drop_text (n : nat) (s : string) : string :=
  match n, s with
  | S n', String _ s' => drop_text n' s'
  | _, _ => s
  end.

Definition windows_path_from_wsl_mount (path : string) : option string :=
  if negb (valid_utf8 (bytes path)) then None
  else
    let windows := replace "/" backslash path in
    if (7 <=? len windows) && starts_with (backslash ++ "mnt" ++ backslash ++ "c" ++ backslash) windows
    then Some ("C:" ++ drop_text 6 windows)
    else None.

Definition sdk_dir_for_local_properties (raw : string) : string :=
  replace ":" (backslash ++ ":") (replace backslash "/" (default raw (windows_path_from_wsl_mount raw))).

(** ** Copying the project *)

Definition is_ignored_dir (name : string) : bool := bool_decide (name ∈ IGNORED_DIRS).

(** [path.is_dir()] *)
Fixpoint node_is_dir (node : Tree.t) : bool :=
  match node with
  | Tree.Dir _ | Tree.ClosedDir => true
  | Tree.Link (Some target) => node_is_dir target
  | _ => false
  end.

(** [copy_dir_contents]: what the target holds afterwards, and whether everything
    was copied; the first failure ends it. *)
Fixpoint copy_dir_contents (src : Tree.t) : list (string * Tree.t) * bool :=
  match src with
  | Tree.Dir entries =>
      (fix go (entries : list (string * Tree.t)) : list (string * Tree.t) * bool :=
         match entries with
         | [] => ([], true)
         | (name, child) :: rest =>
             if node_is_dir child then
               if is_ignored_dir name then go rest
               else
                 let '(below, complete) := copy_dir_contents child in
                 if complete then let '(more, complete) := go rest in ((name, Tree.Dir below) :: more, complete)
                 else ([(name, Tree.Dir below)], false)
             else match read_node child with
                  | Some content => let '(more, complete) := go rest in ((name, Tree.File content) :: more, complete)
                  | None => ([], false)
                  end
         end) entries
  | Tree.Link (Some target) => copy_dir_contents target
  | _ => ([], false)
  end.

(** The current directory, a clock for the wait, and a shorter sleep. *)
Class BuildHost (W : Type) := {
  current_dir : Components;
  now_ms : W -> Z;
  pause_ms : Z -> W -> W;
}.

Section App.
Context {W : Type} `{!Station W, !BuildHost W}.
Local Open Scope rust_scope.

(** [PathBuf::from(raw)], used as a path. *)
Definition local_path (raw : string) : Components := resolve current_dir raw.

(** [copy_project]: the destination is emptied, and then holds the copy. *)
Definition copy_project (src dst : Components) : Ops W unit :=
  let! _ := change (put_tree dst (Tree.Dir [])) in
  let! w := get_state in
  let! project := from_option Io (tree_at src w) in
  let '(copied, complete) := copy_dir_contents project in
  let! _ := change (put_tree dst (Tree.Dir copied)) in
  guard complete Io.

Definition write_local_properties (build_dir : string) : Ops W unit :=
  let sdk_dir :=
    default ("C:/Users/" ++ user_name ++ "/AppData/Local/Android/Sdk")
      (match env_var "ANDROID_SDK_ROOT" with Some dir => Some dir | None => env_var "ANDROID_HOME" end) in
  change (put_file (local_path (join_text build_dir "local.properties"))
    (bytes ("sdk.dir=" ++ sdk_dir_for_local_properties sdk_dir ++ newline))).

(** ** The launcher *)

(** What [base/name/bin/java.exe] is, by following links. *)
Fixpoint named (name : string) (node : Tree.t) : option Tree.t :=
  match node with
  | Tree.Dir entries => snd <$> List.find (fun e => bool_decide (e.1 = name)) entries
  | Tree.Link (Some target) => named name target
  | _ => None
  end.

(** [path.is_file()] *)
Fixpoint node_is_file (node : Tree.t) : bool :=
  match node with
  | Tree.File _ | Tree.Locked => true
  | Tree.Link (Some target) => node_is_file target
  | _ => false
  end.

(** The entries of a directory, through links; nothing when it cannot be listed. *)
Fixpoint listing (node : Tree.t) : option (list (string * Tree.t)) :=
  match node with
  | Tree.Dir entries => Some entries
  | Tree.Link (Some target) => listing target
  | _ => None
  end.

Definition has_java (node : Tree.t) : bool :=
  node_is_dir node
  && is_some_and (bin ← named "bin" node; named "java.exe" bin) node_is_file.

Definition find_windows_java_home (base : string) : Ops W (option string) :=
  let! w := get_state in
  match tree_at (local_path base) w with
  | None => yield None
  | Some node =>
      if negb (node_is_dir node) then yield None
      else
        let! entries := from_option Io (listing node) in
        yield (find_map (fun '(name, child) =>
                 if has_java child then windows_path_from_wsl_mount (join_text base name) else None) entries)
  end.

Definition detect_windows_java_home : Ops W (option string) :=
  let! first := find_windows_java_home ("/mnt/c/Users/" ++ user_name ++ "/mobile-proxy-windows-jdk21") in
  match first with
  | Some found => yield (Some found)
  | None => find_windows_java_home "/mnt/c/Users/Bose/mobile-proxy-windows-jdk21"
  end.

Definition windows_gradle_env_lines : list string :=
  ["$env:http_proxy = ''"; "$env:https_proxy = ''"; "$env:HTTP_PROXY = ''"; "$env:HTTPS_PROXY = ''";
   "$env:all_proxy = ''"; "$env:ALL_PROXY = ''"; "$env:no_proxy = ''"; "$env:NO_PROXY = ''";
   "$env:JAVA_TOOL_OPTIONS = '-Djdk.tls.client.protocols=TLSv1.2,TLSv1.3 -Dhttps.protocols=TLSv1.2,TLSv1.3'"].

Definition java_lines (java_home : option string) : list string :=
  match java_home with
  | Some home =>
      ["$env:JAVA_HOME = " ++ windows_powershell_single_quoted home;
       "$env:PATH = " ++ double_quote ++ "$env:JAVA_HOME\bin;$env:PATH" ++ double_quote]
  | None => []
  end.

Definition gradle_cmd (log_windows_path : string) : string :=
  "call gradlew.bat " ++ ANDROID_GRADLE_QUALITY_TASKS ++ " >> " ++ windows_cmd_quoted log_windows_path ++ " 2>&1".

Definition launcher_lines (java_home : option string) (windows_build_dir_cmd log_windows_path : string)
    : list string :=
  (["$ErrorActionPreference = 'Stop'"; "$ProgressPreference = 'SilentlyContinue'"]
   ++ windows_gradle_env_lines ++ java_lines java_home
   ++ ["Set-Location -LiteralPath " ++ windows_powershell_single_quoted windows_build_dir_cmd;
       "Set-Content -LiteralPath " ++ windows_powershell_single_quoted log_windows_path
         ++ " -Value 'launcher_started'";
       "& 'C:\Windows\System32\cmd.exe' /d /c " ++ windows_powershell_single_quoted (gradle_cmd log_windows_path);
       "$exitCode = $LASTEXITCODE";
       "Add-Content -LiteralPath " ++ windows_powershell_single_quoted log_windows_path
         ++ " -Value " ++ double_quote ++ "gradle_exit_code=$exitCode" ++ double_quote;
       "exit $exitCode"]%string)%list.

Definition CRLF : string := of_bytes [13; 10].

(** [lines.join("\r\n") + "\r\n"] *)
Definition windows_gradle_launcher_content (windows_build_dir_cmd log_windows_path : string)
    : Ops W string :=
  let! java_home := detect_windows_java_home in
  yield (foldr (fun l rest => l ++ CRLF ++ rest) "" (launcher_lines java_home windows_build_dir_cmd log_windows_path)).

Definition write_windows_gradle_launcher (build_dir windows_build_dir_cmd : string) : Ops W string :=
  let launcher_path := join_text build_dir WINDOWS_GRADLE_LAUNCHER_NAME in
  let! log := from_option (Bail "failed to convert Windows Gradle log path")
                (windows_path_from_wsl_mount (join_text build_dir WINDOWS_GRADLE_LOG_NAME)) in
  let! content := windows_gradle_launcher_content windows_build_dir_cmd log in
  let! _ := change (put_file (local_path launcher_path) (bytes content)) in
  yield launcher_path.

Definition read_windows_gradle_log (build_dir : string) : Ops W string :=
  let! log := file_text (local_path (join_text build_dir WINDOWS_GRADLE_LOG_NAME)) in
  yield (replace newline " | " (replace (of_bytes [13]) " " log)).

(** ** Running Gradle *)

(** [fs::remove_file]: whether it removed the file. *)
Definition try_remove (p : Components) : Ops W bool :=
  fun w => match remove p w with Some w' => (Ok true, w') | None => (Ok false, w) end.

Definition run_windows_gradle (build_dir windows_build_dir_cmd : string) : Ops W unit :=
  let! launcher_path := write_windows_gradle_launcher build_dir windows_build_dir_cmd in
  let! launcher_windows_path := from_option (Bail "failed to convert Windows Gradle launcher path")
                                  (windows_path_from_wsl_mount launcher_path) in
  let! o := output_of (command (Word POWERSHELL)
              (words ["-NoProfile"; "-ExecutionPolicy"; "Bypass"; "-File"; launcher_windows_path])) in
  let! cleaned := try_remove (local_path launcher_path) in
  let! _ := guard (succeeded o) (Failed (stderr o)) in
  guard cleaned Io.

Definition apk_of (build_dir : string) : Components :=
  (local_path build_dir ++ (bytes <$> APK_PATH))%list.

(** One turn of the wait: the APK is there, or the log has the failure, or the
    time is up, or a quarter of a second passes. *)
Fixpoint await_apk (turns : nat) (build_dir : string) (deadline : Z) (w : W)
    : option (result unit OpsError * W) :=
  match turns with
  | O => None
  | S turns' =>
      if is_some (file (apk_of build_dir) w) then Some (Ok tt, w)
      else match read_windows_gradle_log build_dir w with
           | (Ok log, w) =>
               if contains "BUILD FAILED" log
               then Some (Err (Bail "Android Gradle build failed before producing the APK"), w)
               else if deadline <=? now_ms w then Some (Err (Bail "Android APK was not produced"), w)
               else await_apk turns' build_dir deadline (pause_ms 250 w)
           | (Err _, w) =>
               if deadline <=? now_ms w then Some (Err (Bail "Android APK was not produced"), w)
               else await_apk turns' build_dir deadline (pause_ms 250 w)
           end
  end.

(** Enough for the three minutes. *)
Definition APK_TURNS : nat := 722.

Definition verify_apk_exists (build_dir : string) : Ops W unit :=
  fun w => default (Err (Bail "Android APK was not produced"), w)
             (await_apk APK_TURNS build_dir (now_ms w + WINDOWS_GRADLE_COMPLETION_WAIT) w).

(** ** Installing *)

(** The module's own [detect_adb]. *)
Definition detect_app_adb : Ops W string :=
  match env_var "MOBILE_PROXY_ADB" with
  | Some configured =>
      let! w := get_state in
      let! _ := guard (negb (is_absolute configured) || is_some (file (components configured) w))
                  (Bail "MOBILE_PROXY_ADB points to a missing executable") in
      yield configured
  | None =>
      let! w := get_state in
      let installed path := is_some (file (components path) w) in
      let tools user := "/mnt/c/Users/" ++ user ++ "/tools/platform-tools/adb.exe" in
      let sdk user := "/mnt/c/Users/" ++ user ++ "/AppData/Local/Android/Sdk/platform-tools/adb.exe" in
      if is_some (env_var "ADB_SERVER_SOCKET") && installed "/usr/bin/adb" then yield "/usr/bin/adb"
      else match List.find installed [tools user_name; sdk user_name; tools "Bose"; sdk "Bose"] with
           | Some path => yield path
           | None =>
               fun w => match spawn (command (Word "adb") (words ["--version"])) w with
                        | (Some _, w') => (Ok "adb", w')
                        | (None, w') => (Err (Bail "adb.exe not found"), w')
                        end
           end
  end.

Definition adb_install (device_serial : option string) (apk_windows_path : string) : Ops W unit :=
  let! adb_path := detect_app_adb in
  let! o := output_of (command (Word adb_path)
              (words (serial_arguments device_serial ++ ["install"; "-r"; apk_windows_path])%list)) in
  guard (succeeded o) (Failed (stderr o)).

Definition install_android_app (args : AndroidArgs.t) : Ops W unit :=
  let for_user := replace "Bose" user_name in
  let windows_build_dir := for_user (AndroidArgs.windows_build_dir args) in
  let windows_build_dir_cmd := for_user (AndroidArgs.windows_build_dir_cmd args) in
  let apk_windows_path := for_user (AndroidArgs.apk_windows_path args) in
  let! _ := copy_project (repo_path (AndroidArgs.project_dir args)) (local_path windows_build_dir) in
  let! _ := write_local_properties windows_build_dir in
  let! _ := run_windows_gradle windows_build_dir windows_build_dir_cmd in
  let! _ := verify_apk_exists windows_build_dir in
  if AndroidArgs.skip_install args then yield tt
  else adb_install (AndroidArgs.device_serial args) apk_windows_path.
End App.

(** * The Android application: what is built and installed

    The copy of the project is the project without its build outputs, so an APK
    that is accepted was made by the build that was just run; the wait for it
    ends; and the launcher's texts are read by PowerShell as they are meant. *)

(** ** The copy *)

(** The file at a path below a node, links followed. *)
Fixpoint seen (path : list string) (node : Tree.t) : option (list Z) :=
  match path with
  | [] => read_node node
  | name :: rest => named name node ≫= seen rest
  end.

(** The copying of a directory's entries. *)
Fixpoint copy_entries (entries : list (string * Tree.t)) : list (string * Tree.t) * bool :=
  match entries with
  | [] => ([], true)
  | (name, child) :: rest =>
      if node_is_dir child then
        if is_ignored_dir name then copy_entries rest
        else
          let '(below, complete) := copy_dir_contents child in
          if complete then
            let '(more, complete) := copy_entries rest in ((name, Tree.Dir below) :: more, complete)
          else ([(name, Tree.Dir below)], false)
      else match read_node child with
           | Some content =>
               let '(more, complete) := copy_entries rest in ((name, Tree.File content) :: more, complete)
           | None => ([], false)
           end
  end.

Lemma copy_dir_entries entries : copy_dir_contents (Tree.Dir entries) = copy_entries entries.
Proof. induction entries as [|[name child] rest IH]; [done|]. cbn in *. by rewrite IH. Qed.

(** What is copied is a directory that can be listed. *)
Lemma copy_listed : forall node,
  (exists entries, listing node = Some entries /\ copy_dir_contents node = copy_entries entries
     /\ forall name, named name node = snd <$> List.find (fun e => bool_decide (e.1 = name)) entries)
  \/ copy_dir_contents node = ([], false).
Proof.
  fix IH 1. intros [content| |entries| | |[target|]]; try (by right).
  - left. exists entries. split_and!; [done|apply copy_dir_entries|done].
  - destruct (IH target) as [(entries & Hl & Hc & Hn)|Hc]; [left; by exists entries|by right].
Qed.

Lemma read_node_dir : forall node, node_is_dir node = true -> read_node node = None.
Proof. fix IH 1. intros [content| |entries| | |[target|]]; try done. apply (IH target). Qed.

Lemma named_not_dir : forall node name, node_is_dir node = false -> named name node = None.
Proof. fix IH 1. intros [content| |entries| | |[target|]] name; try done. apply (IH target). Qed.

(** A file has nothing below it. *)
Lemma tree_file_below content name rest : tree_file (name :: rest) (Tree.File content) = None.
Proof. done. Qed.

(** The files of a complete copy are the project's, apart from the outputs. *)
Lemma copy_sees path : forall node copied,
  copy_dir_contents node = (copied, true) -> path <> [] ->
  Forall (fun name => is_ignored_dir name = false) path ->
  tree_file path (Tree.Dir copied) = seen path node.
Proof.
  induction path as [|name rest IH]; intros node copied Hcopy Hne Hpath; [done|].
  apply Forall_cons in Hpath as [Hname Hrest].
  destruct (copy_listed node) as [(entries & _ & Hc & Hn)|Hc]; [|congruence].
  rewrite Hcopy in Hc. cbn [seen]. rewrite Hn. clear Hn Hcopy Hne node. symmetry in Hc. revert copied Hc.
  induction entries as [|[name' child] entries IHe]; intros copied; cbn [copy_entries List.find fst];
    [by intros [= <-]|].
  destruct (node_is_dir child) eqn:Hdir.
  - destruct (is_ignored_dir name') eqn:Hign.
    { case_bool_decide; [congruence|]. apply IHe. }
    destruct (copy_dir_contents child) as [below [|]] eqn:Hchild; [|done].
    destruct (copy_entries entries) as [more complete]. intros [= <- ->]. cbn [tree_file].
    case_bool_decide as Heq; [|by apply IHe]. cbn [fmap option_fmap option_map snd mbind option_bind].
    destruct rest as [|next rest]; [cbn [seen tree_file]; by rewrite read_node_dir|].
    by apply IH.
  - destruct (read_node child) as [content|] eqn:Hread; [|done].
    destruct (copy_entries entries) as [more complete]. intros [= <- ->]. cbn [tree_file].
    case_bool_decide as Heq; [|by apply IHe]. cbn [fmap option_fmap option_map snd mbind option_bind].
    destruct rest as [|next rest]; [by cbn [seen tree_file]|]. cbn [seen]. by rewrite (named_not_dir child).
Qed.

(** No output is copied, whether or not the copy is complete. *)
Lemma copy_ignores above : forall ignored name below node,
  is_ignored_dir ignored = true ->
  tree_file (above ++ ignored :: name :: below)%list (Tree.Dir (copy_dir_contents node).1) = None.
Proof.
  induction above as [|first above IH]; intros ignored name below node Hign;
    (destruct (copy_listed node) as [(entries & _ & -> & _)| ->]; [|done]);
    (induction entries as [|[name' child] entries IHe]; [done|]); cbn [copy_entries app].
  - destruct (node_is_dir child) eqn:Hdir.
    + destruct (is_ignored_dir name') eqn:Hign'; [exact IHe|].
      assert (name' <> ignored) as Hne by congruence.
      destruct (copy_dir_contents child) as [sub [|]].
      * destruct (copy_entries entries) as [more complete]. cbn [fst tree_file].
        rewrite bool_decide_false by done. exact IHe.
      * cbn [fst tree_file]. by rewrite bool_decide_false.
    + destruct (read_node child); [|done]. destruct (copy_entries entries) as [more complete].
      cbn [fst tree_file]. case_bool_decide; [done|exact IHe].
  - destruct (node_is_dir child) eqn:Hdir.
    + destruct (is_ignored_dir name') eqn:Hign'; [exact IHe|].
      specialize (IH ignored name below child Hign). destruct (copy_dir_contents child) as [sub [|]].
      * destruct (copy_entries entries) as [more complete]. cbn [fst tree_file].
        case_bool_decide; [exact IH|exact IHe].
      * cbn [fst tree_file]. case_bool_decide; [exact IH|done].
    + destruct (read_node child); [|done]. destruct (copy_entries entries) as [more complete].
      cbn [fst tree_file]. case_bool_decide; [by destruct above|exact IHe].
Qed.

(** The copy is the project without its build outputs: below no directory [build],
    [.gradle] or [.kotlin] is anything copied, and every other file of the project
    is, with its content and links followed. *)
Theorem copy_is_the_project_without_outputs node copied :
  copy_dir_contents node = (copied, true) ->
  (forall path, path <> [] -> Forall (fun name => name ∉ IGNORED_DIRS) path ->
     tree_file path (Tree.Dir copied) = seen path node)
  /\ forall above ignored name below, ignored ∈ IGNORED_DIRS ->
     tree_file (above ++ ignored :: name :: below)%list (Tree.Dir copied) = None.
Proof.
  intros Hcopy. split.
  - intros path Hne Hpath. apply copy_sees; [done|done|]. eapply Forall_impl; [exact Hpath|].
    intros name Hname. by apply bool_decide_eq_false_2.
  - intros above ignored name below Hign.
    pose proof (copy_ignores above ignored name below node (bool_decide_eq_true_2 _ Hign)) as H.
    by rewrite Hcopy in H.
Qed.

(** ** The build *)

(** What a written directory holds, and that a pause lasts at least as long as it
    is asked to. *)
Class BuildLaws (W : Type) `{!Station W, !BuildHost W} : Prop := {
  put_tree_files p t path w w' :
    put_tree p t w = Some w' -> file (p ++ (bytes <$> path))%list w' = tree_file path t;
  pause_lasts n w : 0 <= n -> now_ms w + n <= now_ms (pause_ms n w);
}.

Section Build.
Context {W : Type} `{!Station W, !BuildHost W, !BuildLaws W}.

Lemma change_Ok (f : W -> option W) w w' : change f w = (Ok tt, w') -> f w = Some w'.
Proof.
  unfold change. intros (w0 & w1 & [= <- <-] & H)%and_then_Ok.
  apply and_then_Ok in H as (w2 & w3 & H2 & [= <-]). unfold from_option, lift in H2.
  destruct (f w) as [w4|]; [|done]. cbn in H2. congruence.
Qed.

Lemma copy_project_Ok src dst w w' :
  copy_project src dst w = (Ok tt, w') ->
  exists node copied w1, tree_at src w1 = Some node /\ copy_dir_contents node = (copied, true)
    /\ put_tree dst (Tree.Dir copied) w1 = Some w'.
Proof.
  unfold copy_project. intros ([] & w1 & _ & H)%and_then_Ok.
  apply and_then_Ok in H as (w0 & w2 & [= <- <-] & H).
  apply and_then_Ok in H as (node & w2 & Hnode & H). unfold from_option, lift in Hnode.
  destruct (tree_at src w1) as [node'|] eqn:Hn; [|done]. cbn in Hnode. injection Hnode as -> ->.
  destruct (copy_dir_contents node) as [copied complete] eqn:Hc.
  apply and_then_Ok in H as ([] & w3 & Hput%change_Ok & H). apply guard_Ok in H as (-> & _ & ->).
  eauto 8.
Qed.

Lemma await_apk_Ok turns build_dir deadline w w' :
  await_apk turns build_dir deadline w = Some (Ok tt, w') -> is_some (file (apk_of build_dir) w') = true.
Proof.
  revert w. induction turns as [|turns IH]; intros w; cbn [await_apk]; [done|].
  destruct (is_some (file (apk_of build_dir) w)) eqn:Hf; [by intros [= <-]|].
  destruct (read_windows_gradle_log build_dir w) as [[log|e] w1]; [destruct (contains _ log); [done|]|];
    (destruct (deadline <=? now_ms w1); [done|]); apply IH.
Qed.

Lemma verify_apk_Ok build_dir w w' :
  verify_apk_exists build_dir w = (Ok tt, w') -> is_some (file (apk_of build_dir) w') = true.
Proof.
  unfold verify_apk_exists. destruct (await_apk _ _ _ w) as [[r w1]|] eqn:Ha; [|done].
  cbn [default]. intros [= -> ->]. by eapply await_apk_Ok.
Qed.

(** An accepted APK was made by the build that was just run: a successful
    preparation has put a complete copy of the project in the build directory,
    in which there is no APK, whatever the project or the directory held before;
    and at its end the APK is there. *)
Theorem accepted_apk_is_from_this_build args w w' :
  AndroidArgs.skip_install args = true ->
  install_android_app args w = (Ok tt, w') ->
  let build_dir := replace "Bose" user_name (AndroidArgs.windows_build_dir args) in
  exists project copied before copy,
    tree_at (repo_path (AndroidArgs.project_dir args)) before = Some project
    /\ copy_dir_contents project = (copied, true)
    /\ put_tree (local_path build_dir) (Tree.Dir copied) before = Some copy
    /\ file (apk_of build_dir) copy = None
    /\ is_some (file (apk_of build_dir) w') = true.
Proof.
  intros Hskip Hrun build_dir. unfold install_android_app in Hrun. fold build_dir in Hrun.
  apply and_then_Ok in Hrun as ([] & copy & Hcopy & Hrun).
  apply and_then_Ok in Hrun as ([] & w1 & _ & Hrun).
  apply and_then_Ok in Hrun as ([] & w2 & _ & Hrun).
  apply and_then_Ok in Hrun as ([] & w3 & Happ%verify_apk_Ok & Hrun).
  rewrite Hskip in Hrun. injection Hrun as <-.
  apply copy_project_Ok in Hcopy as (project & copied & before & Htree & Hc & Hput).
  exists project, copied, before, copy. split_and!; try done.
  unfold apk_of. fold (local_path build_dir). rewrite (put_tree_files _ _ _ _ _ Hput).
  pose proof (copy_ignores ["app"] "build" "outputs" ["apk"; "debug"; "app-debug.apk"] project eq_refl) as H.
  by rewrite Hc in H.
Qed.

Lemma file_text_state p (w : W) r w' : file_text p w = (r, w') -> w' = w.
Proof.
  unfold file_text, file_bytes, and_then, get_state, from_option, lift. cbn.
  destruct (file p w) as [content|]; cbn; [|by intros [= _ <-]]. unfold guard, yield, bail.
  by destruct (valid_utf8 content); intros [= _ <-].
Qed.

Lemma read_log_state build_dir (w : W) r w' : read_windows_gradle_log build_dir w = (r, w') -> w' = w.
Proof.
  unfold read_windows_gradle_log, and_then. destruct (file_text _ w) as [[log|e] w1] eqn:Hf;
    apply file_text_state in Hf as ->; by intros [= _ <-].
Qed.

(** The wait for the APK ends within three minutes of pauses: it is never cut
    short by the number of turns the model allows. *)
Theorem waiting_for_the_apk_ends build_dir (w : W) :
  is_Some (await_apk APK_TURNS build_dir (now_ms w + WINDOWS_GRADLE_COMPLETION_WAIT) w).
Proof.
  assert (forall turns w deadline, deadline <= now_ms w + 250 * Z.of_nat turns ->
    is_Some (await_apk (S turns) build_dir deadline w)) as Hgen.
  { induction turns as [|turns IH]; intros w0 deadline Hd; cbn [await_apk];
      (destruct (is_some _); [eauto|]);
      (destruct (read_windows_gradle_log build_dir w0) as [[log|e] w1] eqn:Hlog; apply read_log_state in Hlog as ->);
      try (destruct (contains _ log); [eauto|]);
      (destruct (deadline <=? now_ms w0) eqn:Ht; [eauto|]); apply Z.leb_gt in Ht; try lia;
      apply IH; pose proof (pause_lasts 250 w0 ltac:(lia)); lia. }
  change APK_TURNS with (S 721). apply Hgen. unfold WINDOWS_GRADLE_COMPLETION_WAIT. lia.
Qed.
End Build.

(** ** Texts of the launcher *)

(** How PowerShell reads a literal in single quotes: a doubled quote is one. *)
Fixpoint read_literal (s : string) : option (string * string) :=
  match s with
  | EmptyString => None
  | String c rest =>
      if byte_of c =? 39 then
        match rest with
        | String c' rest' =>
            if byte_of c' =? 39 then '(text, after) ← read_literal rest'; Some (String c text, after)
            else Some (EmptyString, rest)
        | EmptyString => Some (EmptyString, EmptyString)
        end
      else '(text, after) ← read_literal rest; Some (String c text, after)
  end.

Lemma read_doubled s :
  read_literal (String "'" (String "'" s)) = '(text, after) ← read_literal s; Some (String "'" text, after).
Proof. done. Qed.

Lemma read_plain c s :
  byte_of c <> 39 -> read_literal (String c s) = '(text, after) ← read_literal s; Some (String c text, after).
Proof. intros Hc. cbn [read_literal]. by rewrite (proj2 (Z.eqb_neq _ _) Hc). Qed.

(** A literal of the launcher is read as the text it was written for, and what
    follows it is left: no path can end its literal early. *)
Theorem powershell_reads_the_text raw after :
  head (bytes after) <> Some 39 ->
  exists opened, windows_powershell_single_quoted raw ++ after = single_quote ++ opened
    /\ read_literal opened = Some (raw, after).
Proof.
  intros Hafter. exists (map_chars (fun c => if Ascii.eqb "'" c then single_quote ++ single_quote else String c "")
                           raw ++ single_quote ++ after).
  split.
  { unfold windows_powershell_single_quoted, single_quote. rewrite replace_char.
    change (String "'" "" ++ ?x) with (String "'" x).
    change (String "'" ?x ++ after) with (String "'" (x ++ after)). f_equal.
    by rewrite <- string_app_assoc. }
  induction raw as [|c raw IH].
  - change (read_literal (String "'" after) = Some ("", after)). cbn [read_literal].
    change (byte_of "'" =? 39) with true. cbn match. destruct after as [|c after]; [done|].
    cbn [bytes head] in Hafter. destruct (byte_of c =? 39) eqn:Hc; [|done]. apply Z.eqb_eq in Hc. congruence.
  - cbn [map_chars]. rewrite eqb_quote. destruct (byte_of c =? 39) eqn:Hc.
    + rewrite <- string_app_assoc. change ((single_quote ++ single_quote) ++ ?x) with (String "'" (String "'" x)).
      rewrite read_doubled, IH. cbn. replace c with "'"%char; [done|]. apply Z.eqb_eq in Hc. revert Hc.
      by destruct c as [[] [] [] [] [] [] [] []].
    + rewrite <- string_app_assoc. change (String c "" ++ ?x) with (String c x).
      rewrite read_plain, IH by (by apply Z.eqb_neq). done.
Qed.
