(* ===== verification/AcceptanceRun.v ===== *)
(** * The acceptance run

    [apps/operator-cli/src/bin/item19-acceptance-lifecycle.rs], second part: binding
    exactly one machine to a commit, deploying the verified artifact to it, and
    cleaning up.  The ledger and the provider are those of [SessionLifecycle]; [ssh]
    and [scp] are a class that answers each command line. *)

From stdpp Require Import base gmap strings list fin_maps.
From Stdlib Require Import ZArith Lia Ascii String.
From S2P Require Import Prelude Text NetText Foundation ProviderLifecycle ProviderCreateDispatch.
From S2P Require Import BindingLedger ConfigJson VultrAdapter SessionLifecycle VultrClient Artifact.
Local Open Scope string_scope.
Local Open Scope Z_scope.
Local Open Scope rust_scope.

Definition MAX_PUBLIC_KEY_BYTES : Z := 16 * 1024.
Definition PROVIDER_RECOVERY_ATTEMPTS : nat := 20.
Definition SSH_READY_ATTEMPTS : nat := 40.
Definition REMOTE_ROOT_PREFIX : string := "/opt/mobile-proxy-item19".

Inductive BindOrigin := BindExisting | BindCreated | BindRecovered.

Definition BindOrigin_as_str (o : BindOrigin) : string :=
  match o with
  | BindExisting => "existing"
  | BindCreated => "created"
  | BindRecovered => "recovered"
  end.

Definition newline : string := of_bytes [10].

(** ** The machine *)

Definition run_spec : VultrVmSpec := mk_spec "waw" "vc2-1c-2gb" 2284 "mobile-proxy-acceptance".

Definition acceptance_desired (candidate_sha : string) : result DesiredVm.t LifecycleValueError :=
  let? intent := OwnershipIntent.new Acceptance ("candidate:" ++ candidate_sha) in
  Ok (DesiredVm.mk intent (label run_spec) (fingerprint run_spec)).

(** [ssh-keygen -y]: [None] when it can not be run, else its success and output. *)
Definition derive_public_key (key_is_file : bool) (key_len : Z) (output : option (bool * list Z))
    : result string string :=
  if negb key_is_file || (key_len =? 0) then Err "SSH private key is unavailable"
  else
    let? out := ok_or output "cannot derive SSH public key" in
    let '(success, stdout) := out in
    if negb success then Err "cannot derive SSH public key"
    else if negb (valid_utf8 stdout) then Err "derived SSH public key is invalid"
    else
      let key := trim (of_bytes stdout) in
      if bool_decide (key = "") || (MAX_PUBLIC_KEY_BYTES <? len key) || contains newline key
         || negb (is_some_and (head (split_whitespace key))
              (fun kind => bool_decide (kind ∈ ["ssh-ed25519"; "ssh-rsa"; "ecdsa-sha2-nistp256";
                                                "ecdsa-sha2-nistp384"; "ecdsa-sha2-nistp521"])))
      then Err "derived SSH public key is invalid"
      else Ok key.

Definition build_cloud_init (public_key : string) : string :=
  "#cloud-config" ++ newline ++ "disable_root: false" ++ newline ++ "ssh_pwauth: false" ++ newline
  ++ "users:" ++ newline ++ "  - default" ++ newline ++ "  - name: root" ++ newline
  ++ "    lock_passwd: true" ++ newline ++ "    ssh_authorized_keys:" ++ newline
  ++ "      - " ++ public_key ++ newline.

(** [STANDARD.encode] *)
Class Base64Encode := standard_base64_encode : list Z -> string.

(** ** Binding one machine *)

Module Item19.
Section Driver.
Context {S P SE PE : Type} `{!LifecycleStore S SE} `{!AcceptanceProvider P PE}.
Local Abbreviation Comp := (@M S P SE PE).
Notation "'let*' x := m 'in' k" := (then_ m (fun x => k))
  (at level 10, x binder, m at level 100, k at level 200).

Fixpoint recover_attempts (attempts : nat) (desired : DesiredVm.t) (fence : CreateDispatchFence.t)
    : Comp VmBinding.t :=
  match attempts with
  | O => bail "dispatched acceptance VM create did not converge within bounded recovery window"
  | Datatypes.S attempts' =>
      let* observed := list_instances in
      let* recovery := lift DispatchFailed (recover_dispatched_create fence observed) in
      match recovery with
      | AwaitProvider => recover_attempts attempts' desired fence
      | Recovered recovered =>
          let binding := RecoveredCreate.binding recovered in
          let* _ := on_store (st_compare_and_swap (DesiredVm.intent desired) None (Some binding)) in
          pure binding
      end
  end.

Definition recover_create_binding (desired : DesiredVm.t) (generation : Generation.t)
    : Comp VmBinding.t :=
  let* fence := lift DispatchFailed
    (create_dispatch_fence_for_recovery (DesiredVm.intent desired) generation desired) in
  recover_attempts PROVIDER_RECOVERY_ATTEMPTS desired fence.

Definition dispatch_create (desired : DesiredVm.t) (user_data_b64 : string)
    (prepared_generation : option Generation.t) : Comp VmBinding.t :=
  let* observed := list_instances in
  let* reconcile := lift LifecycleFailed (plan_present None observed desired None) in
  match reconcile with
  | Create p =>
      let* fence := lift DispatchFailed (create_dispatch_fence p desired) in
      let* generation := match prepared_generation with
                         | Some generation => pure generation
                         | None => on_store (st_prepare_create (DesiredVm.intent desired))
                         end in
      if negb (bool_decide (generation = CreateDispatchFence.generation fence))
      then bail "durable create generation does not match provider-neutral create plan"
      else
        let* _ := on_store (st_mark_create_dispatched (DesiredVm.intent desired) generation) in
        let* _ := calling (CallCreate p) in
        fun w =>
          match (on_provider (pr_create_instance p run_spec user_data_b64) : Comp ObservedVm.t) w with
          | (Err _, w) =>
              bail "acceptance VM create dispatch outcome is ambiguous; retry exact candidate for durable recovery" w
          | (Ok _, w) => recover_create_binding desired generation w
          end
  | _ => bail "unbound acceptance intent is not eligible for exactly one create"
  end.

Definition ensure_bound (desired : DesiredVm.t) (user_data_b64 : string)
    : Comp (VmBinding.t * BindOrigin) :=
  let* state := read_store (st_lifecycle_state (DesiredVm.intent desired)) in
  match state with
  | Empty =>
      let* binding := dispatch_create desired user_data_b64 None in pure (binding, BindCreated)
  | CreatePrepared generation =>
      let* binding := dispatch_create desired user_data_b64 (Some generation) in
      pure (binding, BindCreated)
  | CreateDispatched generation =>
      let* binding := recover_create_binding desired generation in pure (binding, BindRecovered)
  | Bound binding =>
      let* observed := list_instances in
      let* reconcile := lift LifecycleFailed
        (plan_present (Some binding) observed desired (Some (VmBinding.generation binding))) in
      match reconcile with
      | PlanNoop _ => pure (binding, BindExisting)
      | Reconfigure _ =>
          bail "bound acceptance VM specification drifted; item 19 will not reconfigure it"
      | Create _ => bail "bound acceptance state unexpectedly planned another create"
      end
  | DeletePrepared _ | DeleteDispatched _ => bail "acceptance VM cleanup is already in progress"
  | Terminal _ => bail "terminal acceptance intent cannot be reused"
  end.

Definition verified_bound_target (desired : DesiredVm.t) (binding : VmBinding.t)
    : Comp VerifiedMutationTarget.t :=
  let* observed := list_instances in
  let* reconcile := lift LifecycleFailed
    (plan_present (Some binding) observed desired (Some (VmBinding.generation binding))) in
  match reconcile with
  | PlanNoop target => pure target
  | Reconfigure _ => bail "acceptance VM specification drifted before transport resolution"
  | Create _ => bail "bound acceptance VM unexpectedly resolved as create"
  end.

(** ** Cleaning up *)

Fixpoint confirm_attempts (attempts : nat) (binding : VmBinding.t) : Comp unit :=
  match attempts with
  | O => bail "exact acceptance VM deletion was not confirmed within bounded window"
  | Datatypes.S attempts' =>
      let* observed := list_instances in
      match authorize_mutation binding observed (VmBinding.generation binding) MDelete with
      | Err LifecycleError.ProviderResourceNotFound => pure tt
      | Ok _ => confirm_attempts attempts' binding
      | Err error => fail (LifecycleFailed error)
      end
  end.

Definition RUN_DELETE_CONFIRM_ATTEMPTS : nat := 40.

Definition confirm_provider_deleted (binding : VmBinding.t) : Comp unit :=
  confirm_attempts RUN_DELETE_CONFIRM_ATTEMPTS binding.

Definition resolve_delete_target (binding : VmBinding.t) : Comp VerifiedMutationTarget.t :=
  let* observed := list_instances in
  lift LifecycleFailed (authorize_mutation binding observed (VmBinding.generation binding) MDelete).

Definition terminal_matches (binding : VmBinding.t) : Comp bool :=
  let* state := read_store (st_lifecycle_state (VmBinding.intent binding)) in
  pure (match state with
        | Terminal last_generation => bool_decide (last_generation = VmBinding.generation binding)
        | _ => false
        end).

Definition delete_bound (binding : VmBinding.t) (already_prepared already_dispatched : bool)
    : Comp unit :=
  let* target := resolve_delete_target binding in
  let* _ := if negb already_prepared
            then on_store (st_prepare_delete (VmBinding.intent binding) binding) else pure tt in
  let* _ := if negb already_dispatched
            then on_store (st_mark_delete_dispatched (VmBinding.intent binding) binding) else pure tt in
  let* _ := delete_instance target in
  let* _ := confirm_provider_deleted binding in
  let* _ := on_store (st_compare_and_swap (VmBinding.intent binding) (Some binding) None) in
  let* matches := terminal_matches binding in
  if negb matches
  then bail "durable acceptance lifecycle did not reach terminal after confirmed delete" else pure tt.

Definition recover_dispatched_delete (binding : VmBinding.t) : Comp unit :=
  let* observed := list_instances in
  let* _ :=
    match authorize_mutation binding observed (VmBinding.generation binding) MDelete with
    | Err LifecycleError.ProviderResourceNotFound =>
        on_store (st_compare_and_swap (VmBinding.intent binding) (Some binding) None)
    | Ok target =>
        let* _ := delete_instance target in
        let* _ := confirm_provider_deleted binding in
        on_store (st_compare_and_swap (VmBinding.intent binding) (Some binding) None)
    | Err error => fail (LifecycleFailed error)
    end in
  let* matches := terminal_matches binding in
  if negb matches
  then bail "durable acceptance lifecycle did not reach terminal during delete recovery" else pure tt.

(** The three flags of [cleanup], which are set together. *)
Definition cleanup_lifecycle (desired : DesiredVm.t) : Comp bool :=
  let* state := read_store (st_lifecycle_state (DesiredVm.intent desired)) in
  match state with
  | Empty => pure false
  | CreatePrepared _ =>
      bail "create was prepared but never dispatch-fenced; retry exact candidate before cleanup"
  | CreateDispatched generation =>
      let* binding := recover_create_binding desired generation in
      let* _ := delete_bound binding false false in pure true
  | Bound binding => let* _ := delete_bound binding false false in pure true
  | DeletePrepared binding => let* _ := delete_bound binding true false in pure true
  | DeleteDispatched binding => let* _ := recover_dispatched_delete binding in pure true
  | Terminal _ => pure true
  end.
End Driver.
End Item19.

(** ** Transport *)

(** [address.to_string()] *)
Definition ipv4_text (address : Z) : string :=
  u64_to_string (address / 16777216) ++ "." ++ u64_to_string (address / 65536 mod 256) ++ "."
  ++ u64_to_string (address / 256 mod 256) ++ "." ++ u64_to_string (address mod 256).

Definition ssh_base_args (private_key known_hosts : string) : list string :=
  ["-i"; private_key; "-o"; "BatchMode=yes"; "-o"; "IdentitiesOnly=yes"; "-o"; "ConnectTimeout=5";
   "-o"; "ConnectionAttempts=1"; "-o"; "StrictHostKeyChecking=accept-new";
   "-o"; "UserKnownHostsFile=" ++ known_hosts; "-o"; "LogLevel=ERROR"].

(** What is run on, or copied to, a machine. *)
Inductive Remote :=
| Ssh (address : Z) (command : string)
| Scp (address : Z) (local remote : string).

Definition remote_address (r : Remote) : Z :=
  match r with Ssh address _ | Scp address _ _ => address end.

Definition remote_line (private_key known_hosts : string) (r : Remote) : string * list string :=
  match r with
  | Ssh address command =>
      ("ssh", ssh_base_args private_key known_hosts ++ [("root@" ++ ipv4_text address)%string; command])%list
  | Scp address local remote =>
      ("scp", ssh_base_args private_key known_hosts
              ++ [local; ("root@" ++ ipv4_text address ++ ":" ++ remote)%string])%list
  end.

(** A command line: [None] when it can not be run, else whether it succeeded. *)
Class CommandLine (Sh : Type) := run_line : string * list string -> Sh -> option bool * Sh.

(** [status] is one after which the address is asked for again. *)
Definition status_retried (status : Z) : bool :=
  bool_decide (status ∈ [404; 408; 409; 425; 429; 500; 502; 503; 504]).

Record DeployEvidence := mk_deploy_evidence {
  de_format_version : Z;
  de_candidate_sha : string;
  de_scope : string;
  de_lifecycle_result : string;
  de_binding_origin : string;
  de_generation : Z;
  de_artifact_verified_before_transport : bool;
  de_deployed_artifact_verified_on_target : bool;
  de_transport_endpoint_recorded : bool;
  de_provider_identifier_recorded : bool;
  de_secret_values_recorded : bool;
  de_final_production_authority : bool;
  de_production_environment_authorized : bool;
  de_phone_mutation_performed : bool;
}.

Record CleanupEvidence := mk_cleanup_evidence {
  ce_format_version : Z;
  ce_candidate_sha : string;
  ce_scope : string;
  ce_cleanup_result : string;
  ce_provider_delete_dispatched : bool;
  ce_provider_deletion_confirmed : bool;
  ce_durable_terminal_confirmed : bool;
  ce_provider_identifier_recorded : bool;
  ce_transport_endpoint_recorded : bool;
  ce_secret_values_recorded : bool;
  ce_final_production_authority : bool;
  ce_production_environment_authorized : bool;
  ce_phone_mutation_performed : bool;
}.

Record Deployment (S P Sh : Type) := mk_deployment {
  dep_world : World S P;
  dep_shell : Sh;
  dep_remote : list Remote;
}.
Arguments mk_deployment {S P Sh}.
Arguments dep_world {S P Sh}.
Arguments dep_shell {S P Sh}.
Arguments dep_remote {S P Sh}.

Section Deploy.
Context {S P SE Sh : Type} `{!LifecycleStore S SE} `{!AcceptanceProvider P VultrClientError}
  `{!CommandLine Sh}.
Local Abbreviation Error := (SessionError SE VultrClientError).

Definition D (A : Type) : Type := Deployment S P Sh -> result A Error * Deployment S P Sh.

Definition d_pure {A} (a : A) : D A := fun d => (Ok a, d).
Definition d_bail {A} (message : string) : D A := fun d => (Err (Bail message), d).
Definition d_then {A B} (m : D A) (k : A -> D B) : D B :=
  fun d => match m d with (Ok a, d) => k a d | (Err e, d) => (Err e, d) end.
Notation "'let*' x := m 'in' k" := (d_then m (fun x => k))
  (at level 10, x binder, m at level 100, k at level 200).

(** A step of the ledger or the provider. *)
Definition d_world {A} (m : @M S P SE VultrClientError A) : D A :=
  fun d => let '(r, w) := m (dep_world d) in (r, mk_deployment w (dep_shell d) (dep_remote d)).

Variables private_key known_hosts : string.

Definition run_on (r : Remote) : D (option bool) :=
  fun d => let '(o, sh) := run_line (remote_line private_key known_hosts r) (dep_shell d) in
           (Ok o, mk_deployment (dep_world d) sh (dep_remote d ++ [r])%list).

Definition ssh_command_ok (address : Z) (command : string) : D bool :=
  let* o := run_on (Ssh address command) in
  match o with Some success => d_pure success | None => d_bail "cannot execute automated SSH transport" end.

Definition scp_file (address : Z) (local remote : string) : D unit :=
  let* o := run_on (Scp address local remote) in
  match o with
  | None => d_bail "cannot execute automated SCP transport"
  | Some false => d_bail "automated artifact transfer failed"
  | Some true => d_pure tt
  end.

Definition asked_again (e : VultrClientError) : bool :=
  match e with
  | InvalidTransportEndpoint | Transport => true
  | ClientHttpStatus status => status_retried status
  | _ => false
  end.

(** The address of the target, as a value. *)
Definition ask_address (target : VerifiedMutationTarget.t) : D (result Z VultrClientError) :=
  d_world (fun w => let '(r, p) := pr_instance_ipv4 target (w_provider w) in
                    (Ok r, mk_world (w_store w) p (w_calls w))).

Fixpoint wait_attempts (attempts : nat) (target : VerifiedMutationTarget.t) : D Z :=
  match attempts with
  | O => d_bail "verified acceptance VM did not become SSH-ready within bounded window"
  | Datatypes.S attempts' =>
      let* answer := ask_address target in
      match answer with
      | Ok address =>
          let* ready := ssh_command_ok address "true" in
          if ready : bool then d_pure address else wait_attempts attempts' target
      | Err error =>
          if asked_again error then wait_attempts attempts' target
          else d_world (fail (ProviderFailed error))
      end
  end.

Definition wait_for_ssh (target : VerifiedMutationTarget.t) : D Z :=
  wait_attempts SSH_READY_ATTEMPTS target.

Fixpoint scp_files (address : Z) (artifact_root remote_root : string) (files : list string) : D unit :=
  match files with
  | [] => d_pure tt
  | relative :: rest =>
      let* _ := scp_file address (artifact_root ++ "/" ++ relative) (remote_root ++ "/" ++ relative) in
      scp_files address artifact_root remote_root rest
  end.

Definition remote_root_of (candidate_sha : string) : string := REMOTE_ROOT_PREFIX ++ "/" ++ candidate_sha.

Definition verify_command (candidate_sha : string) : string :=
  let remote_root := remote_root_of candidate_sha in
  let remote_bin := remote_root ++ "/bin" in
  "chmod 0755 " ++ remote_bin ++ "/control-plane " ++ remote_bin ++ "/relay-gate " ++ remote_bin
  ++ "/reverse-tunnel-server " ++ remote_bin ++ "/item19-acceptance-lifecycle && " ++ remote_bin
  ++ "/item19-acceptance-lifecycle verify-artifact --candidate-sha " ++ candidate_sha ++ " --root "
  ++ remote_root ++ " --manifest " ++ remote_root ++ "/" ++ MANIFEST_NAME.

Definition deploy_and_verify_artifact (candidate_sha artifact_root : string) (address : Z) : D unit :=
  let remote_root := remote_root_of candidate_sha in
  let* prepared := ssh_command_ok address
    ("install -d -m 0755 " ++ remote_root ++ " " ++ remote_root ++ "/bin") in
  if negb prepared then d_bail "cannot prepare exact acceptance artifact directory"
  else
    let* _ := scp_file address (artifact_root ++ "/" ++ MANIFEST_NAME)
                (remote_root ++ "/" ++ MANIFEST_NAME) in
    let* _ := scp_files address artifact_root remote_root REQUIRED_ARTIFACT_FILES in
    let* verified := ssh_command_ok address (verify_command candidate_sha) in
    if negb verified then d_bail "deployed exact-candidate artifact verification failed" else d_pure tt.

(** From the ledger on. *)
Definition deploy_bound (candidate_sha artifact_root : string) (desired : DesiredVm.t)
    (user_data_b64 : string) (evidence_writable : bool) : D DeployEvidence :=
  let* bound := d_world (Item19.ensure_bound desired user_data_b64) in
  let '(binding, origin) := bound in
  let* target := d_world (Item19.verified_bound_target desired binding) in
  let* address := wait_for_ssh target in
  let* _ := deploy_and_verify_artifact candidate_sha artifact_root address in
  if negb evidence_writable then d_bail "cannot write bounded item 19 evidence"
  else d_pure (mk_deploy_evidence 1 candidate_sha (LifecycleScope_as_str Acceptance)
                 "bound_and_exact_candidate_deployed" (BindOrigin_as_str origin)
                 (Generation.get (VmBinding.generation binding))
                 true true false false false false false false).
End Deploy.

Definition cleanup_evidence (candidate_sha : string) (terminal : bool) : CleanupEvidence :=
  mk_cleanup_evidence 1 candidate_sha (LifecycleScope_as_str Acceptance)
    (if terminal then "terminal" else "no_provider_resource_created") terminal terminal terminal
    false false false false false false.

(** ** The commands *)

Definition required_env (value : option string) : result string string :=
  let? value := ok_or value "required workflow credential is absent" in
  if bool_decide (value = "") then Err "required workflow credential is absent" else Ok value.

(** Texts of paths, files and environment of a run. *)
Record RunInputs := mk_inputs {
  in_admission_evidence : option (list Z);
  in_artifact_root : string;
  in_root_path : list string;
  in_manifest_path : list string;
  in_root : Node;
  in_private_key : string;
  in_known_hosts : string;
  in_key_is_file : bool;
  in_key_len : Z;
  in_keygen : option (bool * list Z);
  in_github_token : option string;
  in_vultr_api_key : option string;
  in_evidence_writable : bool;
}.

Section Commands.
Context `{!UuidText} `{Blake3} `{!ArtifactJson} `{!Base64Encode} {W P Sh : Type} `{!DeploymentBackend W}
  `{!VultrHttp P} `{!VultrCodec} `{!CommandLine Sh}.
Local Abbreviation Error := (SessionError BindingStoreError.t VultrClientError).

(** Everything before the ledger is opened. *)
Definition admitted (candidate_sha : string) (i : RunInputs) : result string string :=
  let? _ := validate_artifact_sha candidate_sha in
  let? _ := verify_admission_evidence candidate_sha (in_admission_evidence i) in
  let? _ := verify_artifact candidate_sha (in_root_path i) (in_manifest_path i) (in_root i) in
  derive_public_key (in_key_is_file i) (in_key_len i) (in_keygen i).

(** The ledger and the client, and with them the tokens. *)
Definition open_parties (candidate_sha : string) (github vultr : option string)
    : result BindingStore Error :=
  let? token := map_err Bail (required_env github) in
  let? store := map_err StoreFailed (new_with_namespace token candidate_sha BindingLedger.Item19) in
  let? key := map_err Bail (required_env vultr) in
  if bool_decide (key = "") then Err (ProviderFailed Transport) else Ok store.

Definition reconcile_deploy (others : Others W) (candidate_sha : string) (i : RunInputs)
    (d : Deployment W P Sh) : result DeployEvidence Error * Deployment W P Sh :=
  match (let? public_key := map_err Bail (admitted candidate_sha i) in
         let? desired := map_err ValueFailed (acceptance_desired candidate_sha) in
         let? store := open_parties candidate_sha (in_github_token i) (in_vultr_api_key i) in
         Ok (public_key, desired, store)) with
  | Err e => (Err e, d)
  | Ok (public_key, desired, store) =>
      let user_data_b64 := standard_base64_encode (bytes (build_cloud_init public_key)) in
      deploy_bound (LifecycleStore0 := ledger_store others store) (in_private_key i) (in_known_hosts i)
        candidate_sha (in_artifact_root i) desired user_data_b64 (in_evidence_writable i) d
  end.

Definition cleanup (others : Others W) (candidate_sha : string) (i : RunInputs) (w : World W P)
    : result CleanupEvidence Error * World W P :=
  match (let? _ := map_err Bail (validate_artifact_sha candidate_sha) in
         let? desired := map_err ValueFailed (acceptance_desired candidate_sha) in
         let? store := open_parties candidate_sha (in_github_token i) (in_vultr_api_key i) in
         Ok (desired, store)) with
  | Err e => (Err e, w)
  | Ok (desired, store) =>
      match Item19.cleanup_lifecycle (LifecycleStore0 := ledger_store others store) desired w with
      | (Err e, w) => (Err e, w)
      | (Ok terminal, w) =>
          (if negb (in_evidence_writable i) then Err (Bail "cannot write bounded item 19 evidence")
           else Ok (cleanup_evidence candidate_sha terminal), w)
      end
  end.
End Commands.
