(* ===== verification/AcceptanceRunTheorems.v ===== *)
(** * What an acceptance run does

    The run binds and clears its machine exactly as a session does, its messages
    apart; and it reaches only the machine the ledger binds, with an artifact that
    was verified before and after the transfer. *)

From stdpp Require Import base gmap strings list fin_maps.
From Stdlib Require Import ZArith Lia Ascii String.
From S2P Require Import Prelude Text NetText Foundation ProviderLifecycle ProviderCreateDispatch.
From S2P Require Import BindingLedger ConfigJson VultrAdapter SessionLifecycle SessionTheorems.
From S2P Require Import VultrClient Artifact AcceptanceRun.
Local Open Scope string_scope.
Local Open Scope Z_scope.

(** ** The two drivers *)

Section Drivers.
Context {S P SE PE : Type} `{!LifecycleStore S SE} `{!AcceptanceProvider P PE}.
Local Abbreviation Comp := (@M S P SE PE).

(** Errors up to their text. *)
Definition same_error (e e' : SessionError SE PE) : Prop :=
  match e, e' with Bail _, Bail _ => True | _, _ => e = e' end.

Definition same_result {A B} (R : A -> B -> Prop) (r : result A (SessionError SE PE))
    (r' : result B (SessionError SE PE)) : Prop :=
  match r, r' with
  | Ok a, Ok b => R a b
  | Err e, Err e' => same_error e e'
  | _, _ => False
  end.

(** Two computations that do the same to the store and the provider and answer alike. *)
Definition alike {A B} (R : A -> B -> Prop) (m : Comp A) (m' : Comp B) : Prop :=
  forall w, same_result R (fst (m w)) (fst (m' w)) /\ snd (m w) = snd (m' w).

Lemma same_error_refl e : same_error e e.
Proof. by destruct e. Qed.

Lemma alike_refl {A} (m : Comp A) : alike eq m m.
Proof. intros w. split; [|done]. destruct (m w) as [[a|e] w']; cbn; [done|apply same_error_refl]. Qed.

Lemma alike_then {A B A' B'} (R : A -> A' -> Prop) (R' : B -> B' -> Prop) m m' k k' :
  alike R m m' -> (forall a a', R a a' -> alike R' (k a) (k' a')) -> alike R' (then_ m k) (then_ m' k').
Proof.
  intros Hm Hk w. unfold then_. specialize (Hm w).
  destruct (m w) as [[a|e] w1], (m' w) as [[a'|e'] w2]; cbn in Hm |- *; destruct Hm as [Hr ->]; try done.
  by apply Hk.
Qed.

Lemma alike_pure {A B} (R : A -> B -> Prop) a b : R a b -> alike R (pure a) (pure b).
Proof. by intros HR w. Qed.

Lemma alike_bail {A B} (R : A -> B -> Prop) s t : alike R (bail s) (bail t).
Proof. by intros w. Qed.

Lemma alike_fail {A B} (R : A -> B -> Prop) e : alike R (fail e) (fail e).
Proof. intros w. split; [apply same_error_refl|done]. Qed.

Ltac alike :=
  repeat match goal with
  | |- alike _ (bail _) (bail _) => apply alike_bail
  | |- alike _ (fail _) (fail _) => apply alike_fail
  | |- alike _ (pure _) (pure _) => apply alike_pure; done
  | |- alike eq ?m ?m => apply alike_refl
  | |- alike _ (then_ _ _) (then_ _ _) => apply (alike_then eq); [|intros ? ? <-]
  | |- alike _ (match ?x with _ => _ end) (match ?x with _ => _ end) => destruct x
  | |- alike _ (if ?x then _ else _) (if ?x then _ else _) => destruct x
  | H : alike _ ?m ?m' |- alike _ ?m ?m' => exact H
  | |- alike eq (Item19.resolve_delete_target _) _ => apply alike_refl
  | |- alike eq (Item19.terminal_matches _) _ => apply alike_refl
  end.

Lemma recover_alike desired generation :
  alike eq (Item19.recover_create_binding desired generation : Comp _)
    (recover_create_binding desired generation).
Proof.
  unfold Item19.recover_create_binding, recover_create_binding, PROVIDER_RECOVERY_ATTEMPTS,
    CREATE_RECOVERY_ATTEMPTS.
  eapply alike_then; [apply alike_refl|intros fence ? <-]. generalize 20%nat as n.
  induction n as [|n IH]; cbn [Item19.recover_attempts recover_attempts]; alike.
Qed.

Lemma dispatch_alike desired user_data prepared :
  alike eq (Item19.dispatch_create desired user_data prepared : Comp _)
    (dispatch_create desired user_data prepared).
Proof.
  unfold Item19.dispatch_create, dispatch_create. alike.
  change run_spec with acceptance_spec. intros w.
  destruct (on_provider _ w) as [[vm|e] w']; [apply recover_alike|by split].
Qed.

Lemma confirm_alike binding :
  alike eq (Item19.confirm_provider_deleted binding : Comp _) (confirm_provider_deleted binding).
Proof.
  unfold Item19.confirm_provider_deleted, confirm_provider_deleted, Item19.RUN_DELETE_CONFIRM_ATTEMPTS,
    DELETE_CONFIRM_ATTEMPTS. generalize 40%nat as n.
  induction n as [|n IH]; cbn [Item19.confirm_attempts confirm_attempts]; alike.
Qed.

Lemma delete_alike binding prepared dispatched :
  alike eq (Item19.delete_bound binding prepared dispatched : Comp _)
    (delete_bound binding prepared dispatched).
Proof.
  pose proof (confirm_alike binding).
  unfold Item19.delete_bound, delete_bound, require_terminal, clear_binding. alike.
Qed.

Lemma recover_delete_alike binding :
  alike eq (Item19.recover_dispatched_delete binding : Comp _) (recover_dispatched_delete binding).
Proof.
  pose proof (confirm_alike binding).
  unfold Item19.recover_dispatched_delete, recover_dispatched_delete, require_terminal, clear_binding.
  alike.
Qed.

(** What the two drivers answer. *)
Definition same_binding (bound : VmBinding.t * BindOrigin) (session : OpenItem20Session) : Prop :=
  fst bound = open_binding session
  /\ match snd bound, open_origin session with
     | BindExisting, OriginExisting | BindCreated, OriginCreated | BindRecovered, OriginRecovered => True
     | _, _ => False
     end.

Definition same_close (terminal : bool) (outcome : SessionCloseOutcome) : Prop :=
  terminal = match outcome with NoResourceCreated => false | _ => true end.

Lemma ensure_alike desired user_data :
  alike same_binding (Item19.ensure_bound desired user_data : Comp _) (open_desired desired user_data).
Proof.
  pose proof (dispatch_alike desired user_data) as Hd. pose proof (recover_alike desired) as Hr.
  unfold Item19.ensure_bound, open_desired. alike; apply Hd || apply Hr.
Qed.

Lemma cleanup_alike desired :
  alike same_close (Item19.cleanup_lifecycle desired : Comp _) (close_desired desired).
Proof.
  pose proof (recover_alike desired) as Hr.
  unfold Item19.cleanup_lifecycle, close_desired.
  alike; apply delete_alike || apply recover_delete_alike || apply Hr.
Qed.

(** C29: The acceptance run and the acceptance session, which are written apart, drive
    the ledger and the provider in the same way: on every state, for every answer of
    the store and the provider, binding a machine and clearing it send the same
    requests, leave the same state and give the same answer, up to the text of an
    error message. *)
Theorem drivers_agree desired user_data :
  alike same_binding (Item19.ensure_bound desired user_data : Comp _) (open_desired desired user_data)
  /\ alike same_close (Item19.cleanup_lifecycle desired : Comp _) (close_desired desired).
Proof. split; [apply ensure_alike|apply cleanup_alike]. Qed.

(** So the fences of a session hold for a run. *)
Lemma ensure_bound_calls desired user_data w r w' :
  (Item19.ensure_bound desired user_data : Comp _) w = (r, w') ->
  w_calls w' = w_calls w
  \/ exists p, w_calls w' = (w_calls w ++ [CallCreate p])%list
       /\ create_fenced (DesiredVm.intent desired) p.
Proof.
  intros H. destruct (ensure_alike desired user_data w) as [_ Hw]. rewrite H in Hw.
  destruct (open_desired desired user_data w) as [r0 w0] eqn:Ho. cbn [snd] in Hw. subst w0.
  by eapply open_desired_calls.
Qed.
End Drivers.

(** ** Deployment *)

Section Deploy.
Context {S P SE Sh : Type} `{!LifecycleStore S SE} `{!AcceptanceProvider P VultrClientError}
  `{!CommandLine Sh}.
Implicit Types (d : Deployment S P Sh).
Local Abbreviation Dep := (@D S P SE Sh).
Variables private_key known_hosts : string.

Lemma d_then_inv {A B} (m : Dep A) (k : A -> Dep B) d r d' :
  d_then m k d = (r, d') ->
  (exists e, m d = (Err e, d') /\ r = Err e) \/ exists a d1, m d = (Ok a, d1) /\ k a d1 = (r, d').
Proof.
  unfold d_then. destruct (m d) as [[a|e] d1]; [right; eauto|]. intros [= <- <-]. left. eauto.
Qed.

(** A computation that changes nothing at the provider, and whose remote commands satisfy [Q]. *)
Definition within {A} (Q : Remote -> Prop) (m : Dep A) : Prop :=
  forall d r d', m d = (r, d') ->
    w_calls (dep_world d') = w_calls (dep_world d)
    /\ exists rs, dep_remote d' = (dep_remote d ++ rs)%list /\ Forall Q rs.

Lemma within_then {A B} Q (m : Dep A) (k : A -> Dep B) :
  within Q m -> (forall a, within Q (k a)) -> within Q (d_then m k).
Proof.
  intros Hm Hk d r d' [(e & He & _)|(a & d1 & Ha & Hr)]%d_then_inv; [by eapply Hm|].
  apply Hm in Ha as [Hc1 (rs1 & Hr1 & HQ1)]. apply Hk in Hr as [Hc2 (rs2 & Hr2 & HQ2)].
  split; [congruence|]. exists (rs1 ++ rs2)%list. rewrite Hr2, Hr1, app_assoc. split; [done|].
  by apply Forall_app.
Qed.

Lemma within_still {A} Q (m : Dep A) : (forall d r d', m d = (r, d') -> d' = d) -> within Q m.
Proof.
  intros Hm d r d' ->%Hm. split; [done|]. exists []. rewrite app_nil_r. split; [done|constructor].
Qed.

Lemma within_pure {A} Q (a : A) : within Q (d_pure a).
Proof. apply within_still. by intros d r d' [= _ <-]. Qed.

Lemma within_bail {A} Q s : within Q (d_bail s : Dep A).
Proof. apply within_still. by intros d r d' [= _ <-]. Qed.

Lemma within_world {A} Q (m : @M S P SE VultrClientError A) : silent m -> within Q (d_world m : Dep A).
Proof.
  intros Hm d r d'. unfold d_world. destruct (m (dep_world d)) as [r0 w0] eqn:H0. intros [= <- <-].
  apply Hm in H0. split; [done|]. exists []. cbn. rewrite app_nil_r. split; [done|constructor].
Qed.

Lemma within_run (Q : Remote -> Prop) x : Q x -> within Q (run_on private_key known_hosts x : Dep _).
Proof.
  intros HQ d r d'. unfold run_on. destruct (run_line _ _) as [o sh]. intros [= <- <-]. cbn.
  split; [done|]. exists [x]. split; [done|by apply Forall_singleton].
Qed.

Lemma within_ssh (Q : Remote -> Prop) address command :
  Q (Ssh address command) -> within Q (ssh_command_ok private_key known_hosts address command : Dep _).
Proof.
  intros HQ. apply within_then; [by apply within_run|]. intros [success|]; [apply within_pure|apply within_bail].
Qed.

Lemma within_scp (Q : Remote -> Prop) address local remote :
  Q (Scp address local remote) -> within Q (scp_file private_key known_hosts address local remote : Dep _).
Proof.
  intros HQ. apply within_then; [by apply within_run|].
  intros [[]|]; [apply within_pure|apply within_bail..].
Qed.

(** The provider named this address for the target. *)
Definition address_of_target (target : VerifiedMutationTarget.t) (address : Z) : Prop :=
  exists (p : P) p', pr_instance_ipv4 target p = (Ok address, p').

Definition at_target (target : VerifiedMutationTarget.t) (r : Remote) : Prop :=
  address_of_target target (remote_address r).

Lemma ask_address_spec target d a d' :
  (ask_address target : Dep _) d = (a, d') ->
  exists answer, a = Ok answer /\ (exists p', pr_instance_ipv4 target (w_provider (dep_world d)) = (answer, p'))
    /\ w_calls (dep_world d') = w_calls (dep_world d) /\ dep_remote d' = dep_remote d.
Proof.
  unfold ask_address, d_world. destruct (pr_instance_ipv4 _ _) as [answer p'] eqn:Hp.
  intros [= <- <-]. exists answer. cbn. eauto.
Qed.

Lemma wait_attempts_spec n target d r d' :
  (wait_attempts private_key known_hosts n target : Dep _) d = (r, d') ->
  (w_calls (dep_world d') = w_calls (dep_world d)
   /\ exists rs, dep_remote d' = (dep_remote d ++ rs)%list /\ Forall (at_target target) rs)
  /\ forall address, r = Ok address -> address_of_target target address.
Proof.
  revert d. induction n as [|n IH]; intros d; cbn [wait_attempts].
  { intros H. split; [by eapply within_bail|]. by injection H as <- <-. }
  intros [(e & He & ->)|(answer & d1 & Ha & Hr)]%d_then_inv.
  { apply ask_address_spec in He as (? & [=] & _). }
  apply ask_address_spec in Ha as (? & [= <-] & (p' & Hp) & Hc1 & Hr1). rewrite <- Hc1, <- Hr1. clear Hc1 Hr1.
  destruct answer as [address|error].
  - assert (address_of_target target address) as Hat by (by eexists _, _).
    apply d_then_inv in Hr as [(e & He & ->)|(ready & d2 & H2 & Hr)].
    { split; [|done]. by eapply within_ssh. }
    apply (within_ssh (at_target target)) in H2 as [Hc2 (rs2 & Hr2 & HQ2)]; [|done].
    destruct ready.
    { injection Hr as <- <-. split; [by split; [done|exists rs2]|]. by intros ? [= <-]. }
    apply IH in Hr as [[Hc3 (rs3 & Hr3 & HQ3)] Hok]. split; [|done]. split; [congruence|].
    exists (rs2 ++ rs3)%list. rewrite Hr3, Hr2, app_assoc. split; [done|]. by apply Forall_app.
  - destruct (asked_again error); [by apply IH in Hr|].
    injection Hr as <- <-. cbn. split; [|done]. split; [done|]. exists []. rewrite app_nil_r. split; [done|constructor].
Qed.

(** The steps of a deployment. *)
Definition deployment_steps (candidate_sha artifact_root : string) (address : Z) : list Remote :=
  let remote_root := remote_root_of candidate_sha in
  (Ssh address ("install -d -m 0755 " ++ remote_root ++ " " ++ remote_root ++ "/bin"))
  :: ((fun relative => Scp address (artifact_root ++ "/" ++ relative) (remote_root ++ "/" ++ relative))
      <$> (MANIFEST_NAME :: REQUIRED_ARTIFACT_FILES))
  ++ [Ssh address (verify_command candidate_sha)].

(** The command was run and succeeded. *)
Definition succeeded (r : Remote) : Prop :=
  exists (sh : Sh) sh', run_line (remote_line private_key known_hosts r) sh = (Some true, sh').

Lemma ssh_ok address command d d' :
  (ssh_command_ok private_key known_hosts address command : Dep _) d = (Ok true, d') ->
  dep_remote d' = (dep_remote d ++ [Ssh address command])%list /\ succeeded (Ssh address command).
Proof.
  unfold ssh_command_ok, d_then, run_on, succeeded. destruct (run_line _ _) as [[[]|] sh] eqn:Hrun; try done.
  intros [= <-]. cbn. eauto.
Qed.

Lemma scp_ok address local remote d d' :
  (scp_file private_key known_hosts address local remote : Dep _) d = (Ok tt, d') ->
  dep_remote d' = (dep_remote d ++ [Scp address local remote])%list /\ succeeded (Scp address local remote).
Proof.
  unfold scp_file, d_then, run_on, succeeded. destruct (run_line _ _) as [[[]|] sh] eqn:Hrun; try done.
  intros [= <-]. cbn. eauto.
Qed.

Lemma scp_files_ok address artifact_root remote_root files d d' :
  (scp_files private_key known_hosts address artifact_root remote_root files : Dep _) d = (Ok tt, d') ->
  let steps := (fun relative => Scp address (artifact_root ++ "/" ++ relative)
                                  (remote_root ++ "/" ++ relative)) <$> files in
  dep_remote d' = (dep_remote d ++ steps)%list /\ Forall succeeded steps.
Proof.
  revert d. induction files as [|f files IH]; intros d; cbn [scp_files].
  { intros [= <-]. cbn. rewrite app_nil_r. split; [done|constructor]. }
  intros [(e & _ & [=])|([] & d1 & H1 & H2)]%d_then_inv.
  apply scp_ok in H1 as [H1 Hs]. apply IH in H2 as [H2 Hss]. cbn.
  rewrite H2, H1, <- app_assoc. split; [done|by constructor].
Qed.

Lemma within_scp_files (Q : Remote -> Prop) address artifact_root remote_root files :
  (forall r, remote_address r = address -> Q r) ->
  within Q (scp_files private_key known_hosts address artifact_root remote_root files : Dep _).
Proof.
  intros HQ. induction files as [|f files IH]; cbn [scp_files]; [apply within_pure|].
  apply within_then; [by apply within_scp, HQ|done].
Qed.

Lemma deploy_and_verify_within (Q : Remote -> Prop) sha root address :
  (forall r, remote_address r = address -> Q r) ->
  within Q (deploy_and_verify_artifact private_key known_hosts sha root address : Dep _).
Proof.
  intros HQ. apply within_then; [by apply within_ssh, HQ|]. intros []; [|apply within_bail].
  apply within_then; [by apply within_scp, HQ|intros _].
  apply within_then; [by apply within_scp_files|intros _].
  apply within_then; [by apply within_ssh, HQ|]. intros []; [apply within_pure|apply within_bail].
Qed.

Lemma deploy_and_verify_ok sha root address d d' :
  (deploy_and_verify_artifact private_key known_hosts sha root address : Dep _) d = (Ok tt, d') ->
  dep_remote d' = (dep_remote d ++ deployment_steps sha root address)%list
  /\ Forall succeeded (deployment_steps sha root address).
Proof.
  unfold deploy_and_verify_artifact, deployment_steps.
  intros [(e & _ & [=])|([] & d1 & H1 & H)]%d_then_inv; [|done]. cbn [negb] in H. apply ssh_ok in H1 as [H1 S1].
  apply d_then_inv in H as [(e & _ & [=])|([] & d2 & H2 & H)]. apply scp_ok in H2 as [H2 S2].
  apply d_then_inv in H as [(e & _ & [=])|([] & d3 & H3 & H)]. apply scp_files_ok in H3 as [H3 S3].
  apply d_then_inv in H as [(e & _ & [=])|([] & d4 & H4 & H)]; [|done]. apply ssh_ok in H4 as [H4 S4].
  injection H as <-. rewrite H4, H3, H2, H1, fmap_cons. split; [by rewrite <- !app_assoc|].
  apply Forall_cons. split; [done|]. apply Forall_app. split; [by apply Forall_cons|by apply Forall_singleton].
Qed.

(** The bound machine was seen at the provider as it should be. *)
Definition verified_target (desired : DesiredVm.t) (binding : VmBinding.t)
    (target : VerifiedMutationTarget.t) : Prop :=
  exists observed,
    plan_present (Some binding) observed desired (Some (VmBinding.generation binding)) = Ok (PlanNoop target).

Lemma verified_bound_target_Ok desired binding w target w' :
  (Item19.verified_bound_target desired binding : @M S P SE VultrClientError _) w = (Ok target, w') ->
  verified_target desired binding target.
Proof.
  unfold Item19.verified_bound_target.
  intros [(e & _ & [=])|(observed & w1 & H1 & H)]%then_inv.
  apply then_inv in H as [(e & _ & [=])|(plan & w2 & H2 & H)].
  injection H2 as Hp _. apply map_err_Ok in Hp. destruct plan as [|t|]; try done.
  all: try (injection H as <- <-; by exists observed).
Qed.

Lemma silent_verified_target desired binding :
  silent (Item19.verified_bound_target desired binding : @M S P SE VultrClientError _).
Proof.
  unfold Item19.verified_bound_target, list_instances.
  apply silent_then; [apply silent_provider|intros observed].
  apply silent_then; [apply silent_lift|intros []]; try apply silent_bail; apply silent_pure.
Qed.

(** What a deployment that got to the ledger did. *)
Definition deployment (sha root : string) (desired : DesiredVm.t) d (r : result DeployEvidence (SessionError SE VultrClientError)) d' : Prop :=
  (w_calls (dep_world d') = w_calls (dep_world d)
   \/ exists p, w_calls (dep_world d') = (w_calls (dep_world d) ++ [CallCreate p])%list
        /\ create_fenced (DesiredVm.intent desired) p)
  /\ (exists rs, dep_remote d' = (dep_remote d ++ rs)%list
      /\ (rs = [] \/ exists binding target, verified_target desired binding target /\ Forall (at_target target) rs))
  /\ (forall ev, r = Ok ev -> exists rs address binding target,
      verified_target desired binding target /\ address_of_target target address
      /\ dep_remote d' = (dep_remote d ++ rs ++ deployment_steps sha root address)%list
      /\ Forall succeeded (deployment_steps sha root address)
      /\ de_candidate_sha ev = sha /\ de_generation ev = Generation.get (VmBinding.generation binding)).

Lemma deployment_failed sha root desired d e d' :
  (w_calls (dep_world d') = w_calls (dep_world d)
   \/ exists p, w_calls (dep_world d') = (w_calls (dep_world d) ++ [CallCreate p])%list
        /\ create_fenced (DesiredVm.intent desired) p) ->
  dep_remote d' = dep_remote d -> deployment sha root desired d (Err e) d'.
Proof.
  intros Hc Hr. split; [done|]. split; [|done]. exists []. rewrite app_nil_r. auto.
Qed.

Lemma wait_for_ssh_spec target d r d' :
  (wait_for_ssh private_key known_hosts target : Dep _) d = (r, d') ->
  (w_calls (dep_world d') = w_calls (dep_world d)
   /\ exists rs, dep_remote d' = (dep_remote d ++ rs)%list /\ Forall (at_target target) rs)
  /\ forall address, r = Ok address -> address_of_target target address.
Proof. unfold wait_for_ssh. apply wait_attempts_spec. Qed.

(** From the verified target on. *)
Lemma deploy_to_target_spec sha root target evidence writable d r d' :
  d_then (wait_for_ssh private_key known_hosts target) (fun address =>
    d_then (deploy_and_verify_artifact private_key known_hosts sha root address) (fun _ =>
      if negb writable then d_bail "cannot write bounded item 19 evidence" else d_pure evidence)) d
  = (r : result DeployEvidence (SessionError SE VultrClientError), d') ->
  w_calls (dep_world d') = w_calls (dep_world d)
  /\ (exists rs, dep_remote d' = (dep_remote d ++ rs)%list /\ Forall (at_target target) rs)
  /\ forall ev, r = Ok ev -> ev = evidence /\ exists rs address, address_of_target target address
       /\ dep_remote d' = (dep_remote d ++ rs ++ deployment_steps sha root address)%list
       /\ Forall succeeded (deployment_steps sha root address).
Proof.
  intros [(e & He & ->)|(address & d3 & H3 & H)]%d_then_inv.
  { by apply wait_for_ssh_spec in He as [[Hc Hrs] _]. }
  apply wait_for_ssh_spec in H3 as [[Hc3 (rs3 & Hr3 & HF3)] Hok]. rewrite <- Hc3.
  specialize (Hok address eq_refl).
  assert (forall x, remote_address x = address -> at_target target x) as Hat by (intros x <-; exact Hok).
  apply d_then_inv in H as [(e & He & ->)|([] & d4 & H4 & H)].
  { apply (deploy_and_verify_within (at_target target)) in He as [Hc (rs & Hrs & HF)]; [|exact Hat].
    split; [exact Hc|]. split; [|by intros ev [=]]. exists (rs3 ++ rs)%list.
    rewrite Hrs, Hr3, app_assoc. split; [reflexivity|]. by apply Forall_app. }
  destruct (deploy_and_verify_ok _ _ _ _ _ H4) as [Hsteps Hs].
  apply (deploy_and_verify_within (at_target target)) in H4 as [Hc (rs & Hrs & HF)]; [|exact Hat].
  assert (d' = d4) as -> by (destruct writable; by injection H as _ <-).
  split; [exact Hc|]. split.
  - exists (rs3 ++ rs)%list. rewrite Hrs, Hr3, app_assoc. split; [reflexivity|]. by apply Forall_app.
  - intros ev ->. destruct writable; [|by injection H]. injection H as ->. split; [reflexivity|].
    exists rs3, address. rewrite Hsteps, Hr3, <- app_assoc. split_and!; [exact Hok|reflexivity|exact Hs].
Qed.

Lemma deploy_bound_spec sha root desired user_data writable d r d' :
  deploy_bound private_key known_hosts sha root desired user_data writable d = (r, d') ->
  deployment sha root desired d r d'.
Proof.
  unfold deploy_bound.
  intros [(e & He & ->)|([binding origin] & d1 & H1 & H)]%d_then_inv.
  { unfold d_world in He. destruct (Item19.ensure_bound desired user_data (dep_world d)) as [r1 w1] eqn:Hb.
    injection He as _ <-. apply ensure_bound_calls in Hb. by apply deployment_failed. }
  unfold d_world in H1. destruct (Item19.ensure_bound desired user_data (dep_world d)) as [r1 w1] eqn:Hb.
  injection H1 as _ <-. apply ensure_bound_calls in Hb.
  apply d_then_inv in H as [(e & He & ->)|(target & d2 & H2 & H)].
  { apply (within_world (fun _ => False)) in He as [Hc (rs & Hrs & HF)]; [|apply silent_verified_target].
    apply deployment_failed; [by rewrite Hc|]. destruct HF; [by rewrite Hrs, app_nil_r|done]. }
  pose proof H2 as Ht. unfold d_world in Ht.
  destruct (Item19.verified_bound_target desired binding _) as [r2 w2] eqn:Hv in Ht. injection Ht as -> _.
  apply verified_bound_target_Ok in Hv.
  apply (within_world (fun _ => False)) in H2 as [Hc2 (rs2 & Hr2 & HF)]; [|apply silent_verified_target].
  assert (dep_remote d2 = dep_remote d) as Hr2' by (destruct HF; [by rewrite Hr2, app_nil_r|done]).
  cbn [dep_world] in Hc2. clear Hr2 HF rs2. rewrite <- Hc2 in Hb.
  apply deploy_to_target_spec in H as (Hc & (rs & Hrs & HF) & Hok). rewrite <- Hc in Hb. rewrite Hr2' in Hrs, Hok.
  split; [exact Hb|]. split; [exists rs; split; [exact Hrs|right; by exists binding, target]|].
  intros ev Hev. destruct (Hok ev Hev) as (-> & rs' & address & Ha & Hd & Hs).
  exists rs', address, binding, target. split_and!; [exact Hv|exact Ha|exact Hd|exact Hs|reflexivity|reflexivity].
Qed.
End Deploy.

(** ** The commands *)

Section Commands.
Context `{!UuidText} `{Blake3} `{!ArtifactJson} `{!Base64Encode} {W P Sh : Type} `{!DeploymentBackend W}
  `{!VultrHttp P} `{!VultrCodec} `{!CommandLine Sh}.

(** A run touches nothing before it is admitted, and reaches only the machine the
    ledger binds: unless the evidence admits exactly this commit and the artifact
    verifies for it, a deployment changes nothing; after that it sends the provider
    at most one create request, behind the ledger's fence; every command it runs and
    every file it copies goes to an address the provider gave for the bound machine,
    seen under its exact ownership and specification; and evidence of success is
    only given after the directory was made, every file was copied and the artifact
    was verified on that machine, in this order and with nothing after it. *)
Theorem deployment_is_admitted (others : Others W) sha i (d : Deployment W P Sh) r d' :
  reconcile_deploy others sha i d = (r, d') ->
  (d' = d /\ is_ok r = false)
  \/ verify_admission_evidence sha (in_admission_evidence i) = Ok tt
     /\ verify_artifact sha (in_root_path i) (in_manifest_path i) (in_root i) = Ok tt
     /\ exists desired store, acceptance_desired sha = Ok desired /\ store_sha store = sha
        /\ deployment (LifecycleStore0 := ledger_store others store)
             (in_private_key i) (in_known_hosts i) sha (in_artifact_root i) desired d r d'.
Proof.
  unfold reconcile_deploy.
  destruct (result_bind _ _) as [[[key desired] store]|e] eqn:Hpre; [|intros [= <- <-]; by left].
  intros Hd. right.
  apply result_bind_Ok in Hpre as (key' & Hadm%map_err_Ok & Hpre).
  apply result_bind_Ok in Hpre as (desired' & Hdes%map_err_Ok & Hpre).
  apply result_bind_Ok in Hpre as (store' & Hopen & [= -> -> ->]).
  unfold admitted in Hadm. apply result_bind_Ok in Hadm as ([] & _ & Hadm).
  apply result_bind_Ok in Hadm as ([] & Hev & Hadm). apply result_bind_Ok in Hadm as ([] & Hart & _).
  split; [done|]. split; [done|]. exists desired, store. split; [done|].
  split; [|by eapply deploy_bound_spec].
  unfold open_parties in Hopen. apply result_bind_Ok in Hopen as (token & _ & Hopen).
  apply result_bind_Ok in Hopen as (store' & Hnew%map_err_Ok & Hopen).
  apply result_bind_Ok in Hopen as (k & _ & Hopen). case_bool_decide; [done|]. injection Hopen as ->.
  unfold new_with_namespace in Hnew. apply result_bind_Ok in Hnew as ([] & _ & Hnew).
  apply result_bind_Ok in Hnew as (intent & _ & Hnew). case_bool_decide; [done|]. by injection Hnew as <-.
Qed.
End Commands.
