(* ===== verification/SessionTool.v ===== *)
(** * The session tool

    [apps/operator-cli/src/bin/item20-session-lifecycle.rs]: the entry point of a
    workflow that opens, verifies and closes an acceptance session.  It runs
    [SessionLifecycle] over the GitHub ledger and the Vultr client, after it has
    seen that it is the protected main branch that runs. *)

From stdpp Require Import base gmap strings list fin_maps.
From Stdlib Require Import ZArith Lia Ascii String.
From S2P Require Import Prelude Text Foundation ProviderLifecycle ProviderCreateDispatch NetText FileTree ConfigJson.
From S2P Require Import BindingLedger VultrAdapter SessionLifecycle SessionTheorems VultrClient Artifact VmPlan VmTheorems.
From S2P Require Import AcceptanceRun.
Local Open Scope string_scope.
Local Open Scope Z_scope.
Local Open Scope rust_scope.

Definition CANONICAL_REPOSITORY : string := "iamaman11/mobile-proxy".
Definition CANONICAL_REF : string := "refs/heads/main".
Definition TOOL_MAX_PUBLIC_KEY_BYTES : Z := 16 * 1024.

(** ** The public key *)

(** [fs::symlink_metadata] of the key's path, and what reading it gives. *)
Record KeyFile := mk_key_file {
  key_file_is_file : bool;
  key_file_len : Z;
  key_file_content : option (list Z);
}.

Definition is_ascii_whitespace (b : Z) : bool :=
  (b =? 9) || (b =? 10) || (b =? 12) || (b =? 13) || (b =? 32).

(** [s.split_ascii_whitespace()] *)
Fixpoint ascii_words (current l : list Z) : list (list Z) :=
  match l with
  | [] => match current with [] => [] | _ => [rev current] end
  | b :: rest =>
      if is_ascii_whitespace b
      then match current with [] => ascii_words [] rest | _ => rev current :: ascii_words [] rest end
      else ascii_words (b :: current) rest
  end.

Definition split_ascii_whitespace (s : string) : list string := of_bytes <$> ascii_words [] (bytes s).

Definition KEY_KINDS : list string :=
  ["ssh-ed25519"; "ssh-rsa"; "ecdsa-sha2-nistp256"; "ecdsa-sha2-nistp384"; "ecdsa-sha2-nistp521"].

Definition key_body_byte (b : Z) : bool :=
  is_ascii_alphanumeric b || (b =? 43) || (b =? 47) || (b =? 61).

Definition parse_public_key_line (raw : string) : result string string :=
  let key := trim raw in
  if bool_decide (key = "") || contains (of_bytes [10]) key || contains (of_bytes [13]) key
  then Err "SSH public key is invalid"
  else match split_ascii_whitespace key with
       | kind :: body :: rest =>
           if negb (bool_decide (rest = [])) || negb (bool_decide (kind ∈ KEY_KINDS))
              || bool_decide (body = "") || negb (all_bytes key_body_byte body)
           then Err "SSH public key is invalid"
           else Ok (kind ++ " " ++ body)
       | _ => Err "SSH public key is invalid"
       end.

Definition read_public_key (f : option KeyFile) : result string string :=
  let? metadata := ok_or f "SSH public key is unavailable" in
  if negb (key_file_is_file metadata) || (key_file_len metadata =? 0)
     || (TOOL_MAX_PUBLIC_KEY_BYTES <? key_file_len metadata)
  then Err "SSH public key is unavailable"
  else
    let? content := ok_or (key_file_content metadata) "SSH public key is invalid" in
    if negb (valid_utf8 content) then Err "SSH public key is invalid"
    else parse_public_key_line (of_bytes content).

Definition session_cloud_init (public_key : string) : string :=
  let nl := of_bytes [10] in
  "#cloud-config" ++ nl ++ "disable_root: false" ++ nl ++ "ssh_pwauth: false" ++ nl
  ++ "users:" ++ nl ++ "  - default" ++ nl ++ "  - name: root" ++ nl
  ++ "    lock_passwd: true" ++ nl ++ "    ssh_authorized_keys:" ++ nl
  ++ "      - " ++ public_key ++ nl.

(** ** The runtime *)

(** [env::var] and whether the evidence can be written. *)
Record ToolRun := mk_tool_run {
  tool_env : string -> option string;
  evidence_writable : bool;
}.

Definition env_or_empty (t : ToolRun) (name : string) : string := default "" (tool_env t name).

Definition verify_canonical_runtime (t : ToolRun) (control_plane : string) : result unit string :=
  if negb (bool_decide (env_or_empty t "GITHUB_REPOSITORY" = CANONICAL_REPOSITORY))
     || negb (bool_decide (env_or_empty t "GITHUB_REF" = CANONICAL_REF))
     || negb (bool_decide (env_or_empty t "GITHUB_REF_PROTECTED" = "true"))
     || negb (bool_decide (env_or_empty t "GITHUB_SHA" = control_plane))
  then Err "Item 20 lifecycle entrypoint requires the exact protected canonical main runtime"
  else Ok tt.

Definition verified_identity (t : ToolRun) (candidate control_plane : string)
    : result Item20SessionIdentity string :=
  let? _ := verify_canonical_runtime t control_plane in identity_new candidate control_plane.

Definition workflow_env (t : ToolRun) (name : string) : result string string :=
  let? value := ok_or (tool_env t name) "required workflow credential is absent" in
  if bool_decide (value = "") then Err "required workflow credential is absent" else Ok value.

Record LifecycleEvidence := mk_lifecycle_evidence {
  evidence_version : Z;
  evidence_candidate : string;
  evidence_control_plane : string;
  evidence_action : string;
  evidence_result : string;
  evidence_generation : option Z;
  exact_target_verified : bool;
  provider_identifier_recorded : bool;
  transport_endpoint_recorded : bool;
  secret_values_recorded : bool;
  endpoint_handoff_authorized : bool;
  phone_mutation_performed : bool;
  final_production_authority : bool;
}.

Definition origin_text (o : SessionOpenOrigin) : string :=
  match o with
  | OriginExisting => "existing"
  | OriginCreated => "created"
  | OriginRecovered => "recovered"
  end.

Definition outcome_text (o : SessionCloseOutcome) : string :=
  match o with
  | NoResourceCreated => "no_resource_created"
  | DeletedAndTerminal => "deleted_and_terminal"
  | AlreadyTerminal => "already_terminal"
  end.

Inductive LifecycleCommand :=
| ToolOpen (candidate control_plane : string) (ssh_public_key : option KeyFile)
| ToolVerifyTarget (candidate control_plane : string)
| ToolClose (candidate control_plane : string).

Section Tool.
Context `{!UuidText} `{!Base64Encode} {W P : Type} `{!DeploymentBackend W} `{!VultrHttp P} `{!VultrCodec}.
Context (others : Others W) (t : ToolRun).
Local Abbreviation Error := (SessionError BindingStoreError.t VultrClientError).
Local Abbreviation Session A := (World W P -> result A Error * World W P).
Notation "'let*' x := m 'in' k" := (then_ m (fun x => k))
  (at level 200, x pattern, m at level 100, k at level 200) : rust_scope.

Definition store_and_provider (candidate : string) : result BindingStore Error :=
  let? token := map_err Bail (workflow_env t "GITHUB_TOKEN") in
  let? store := map_err StoreFailed (new_with_namespace token candidate BindingLedger.Item20) in
  let? key := map_err Bail (workflow_env t "VULTR_API_KEY") in
  if bool_decide (key = "") then Err (ProviderFailed Transport) else Ok store.

(** Everything that comes before the ledger and the provider are asked. *)
Definition before {A B} (r : result A Error) (k : A -> Session B) : Session B :=
  fun w => match r with Ok a => k a w | Err e => (Err e, w) end.

Definition write_evidence (e : LifecycleEvidence) : Session LifecycleEvidence :=
  fun w => (if evidence_writable t then Ok e
            else Err (Bail "cannot write bounded Item 20 lifecycle evidence"), w).

Definition evidence (candidate control_plane action result : string) (generation : option Z)
    (verified : bool) : LifecycleEvidence :=
  mk_lifecycle_evidence 1 candidate control_plane action result generation verified
    false false false false false false.

Definition tool_open (candidate control_plane : string) (ssh_public_key : option KeyFile)
    : Session LifecycleEvidence :=
  before (let? identity := map_err Bail (verified_identity t candidate control_plane) in
          let? public_key := map_err Bail (read_public_key ssh_public_key) in
          let? store := store_and_provider candidate in
          Ok (identity, public_key, store))
    (fun '(identity, public_key, store) =>
       let user_data_b64 := standard_base64_encode (bytes (session_cloud_init public_key)) in
       let* opened := open_item20_session (LifecycleStore0 := ledger_store others store)
                        identity user_data_b64 in
       let* _ := verified_item20_target identity (open_binding opened) in
       write_evidence (evidence candidate control_plane "open" (origin_text (open_origin opened))
         (Some (Generation.get (VmBinding.generation (open_binding opened)))) true)).

Definition tool_verify_target (candidate control_plane : string) : Session LifecycleEvidence :=
  before (let? identity := map_err Bail (verified_identity t candidate control_plane) in
          let? store := store_and_provider candidate in
          let? intent := map_err ValueFailed (ownership_intent identity) in
          Ok (identity, store, intent))
    (fun '(identity, store, intent) =>
       let* state := read_store (st_lifecycle_state (LifecycleStore := ledger_store others store) intent) in
       match state with
       | Bound binding =>
           let* _ := verified_item20_target identity binding in
           write_evidence (evidence candidate control_plane "verify-target" "exact_bound_target_verified"
             (Some (Generation.get (VmBinding.generation binding))) true)
       | _ => bail "Item 20 lifecycle is not in the exact bound state required for target verification"
       end).

Definition tool_close (candidate control_plane : string) : Session LifecycleEvidence :=
  before (let? identity := map_err Bail (verified_identity t candidate control_plane) in
          let? store := store_and_provider candidate in
          Ok (identity, store))
    (fun '(identity, store) =>
       let* outcome := close_item20_session (LifecycleStore0 := ledger_store others store) identity in
       write_evidence (evidence candidate control_plane "close" (outcome_text outcome) None false)).

Definition tool_main (c : LifecycleCommand) : Session LifecycleEvidence :=
  match c with
  | ToolOpen candidate control_plane key => tool_open candidate control_plane key
  | ToolVerifyTarget candidate control_plane => tool_verify_target candidate control_plane
  | ToolClose candidate control_plane => tool_close candidate control_plane
  end.
End Tool.

(** * The session tool: what its runs are bound to

    A run of [SessionTool] that reaches the ledger or the provider comes from the
    protected main branch at the commit it admits, and the machine it opens
    accepts one key. *)

(** ** The key *)

(** A byte of an admitted key line: none that ends a line or a word of YAML. *)
Definition key_line_byte (b : Z) : bool := key_body_byte b || (b =? 32) || (b =? 45).

Lemma key_kinds_bytes kind : kind ∈ KEY_KINDS -> all_bytes key_line_byte kind = true.
Proof.
  intros Hkind. assert (Forall (fun k => all_bytes key_line_byte k = true) KEY_KINDS) as Hall
    by (repeat constructor). by rewrite Forall_forall in Hall; apply Hall.
Qed.

Lemma parse_public_key_line_bytes raw key :
  parse_public_key_line raw = Ok key -> Forall (fun b => key_line_byte b = true) (bytes key).
Proof.
  unfold parse_public_key_line. destruct (_ || _); [done|].
  destruct (split_ascii_whitespace _) as [|kind [|body rest]]; [done..|].
  destruct (negb _ || _ || _ || _) eqn:Hb; [done|]. intros [= <-].
  repeat apply orb_false_iff in Hb as [Hb ?].
  assert (kind ∈ KEY_KINDS) as Hkind%key_kinds_bytes.
  { match goal with H : negb (bool_decide (kind ∈ _)) = false |- _ => apply negb_false_iff in H end.
    by eapply bool_decide_eq_true_1. }
  match goal with H : negb (all_bytes _ body) = false |- _ => apply negb_false_iff in H; rename H into Hbody end.
  unfold all_bytes in *. rewrite forallb_forall in Hkind, Hbody.
  rewrite !bytes_app, !Forall_app. split_and!; apply List.Forall_forall.
  - exact Hkind.
  - by intros b [<-|[]].
  - intros b Hin. unfold key_line_byte. by rewrite (Hbody b Hin).
Qed.

(** A machine accepts exactly the key that was given: whatever the key file
    holds, when its line is admitted the configuration the machine is created with
    has the nine lines of the template, the last of them the key, which can
    neither add a line nor end the list. *)
Theorem cloud_init_accepts_one_key raw key :
  parse_public_key_line raw = Ok key ->
  lines (session_cloud_init key)
  = ["#cloud-config"; "disable_root: false"; "ssh_pwauth: false"; "users:"; "  - default";
     "  - name: root"; "    lock_passwd: true"; "    ssh_authorized_keys:"; "      - " ++ key].
Proof.
  intros Hkey%parse_public_key_line_bytes. etrans; [|apply lines_text_of]; [reflexivity|].
  repeat (apply Forall_cons; split; [split; [repeat constructor; done|reflexivity]|]).
  apply Forall_cons; split; [|constructor].
  assert (Forall (fun b => b <> 10 /\ b <> 13) (bytes ("      - " ++ key))) as Hbytes.
  { rewrite bytes_app, Forall_app. split; [repeat constructor; done|].
    eapply Forall_impl; [exact Hkey|]. intros b. cbn.
    unfold key_line_byte, key_body_byte, is_ascii_alphanumeric, is_ascii_digit, in_range. lia. }
  split; [eapply Forall_impl; [exact Hbytes|]; by intros b []|].
  unfold no_cr, strip_cr. destruct (rev (bytes ("      - " ++ key))) as [|b r] eqn:Hr; [done|].
  assert (b <> 13) as Hb.
  { rewrite Forall_forall in Hbytes. apply Hbytes, list_elem_of_In, in_rev. rewrite Hr. by left. }
  destruct b as [|p|p]; try done. do 4 (destruct p as [p|p|]; try done).
Qed.

(** ** The runtime *)

Definition admitted_run (t : ToolRun) (candidate control_plane : string) : Prop :=
  tool_env t "GITHUB_REPOSITORY" = Some CANONICAL_REPOSITORY
  /\ tool_env t "GITHUB_REF" = Some CANONICAL_REF
  /\ tool_env t "GITHUB_REF_PROTECTED" = Some "true"
  /\ tool_env t "GITHUB_SHA" = Some candidate
  /\ control_plane = candidate /\ len candidate = 40 /\ all_bytes sha_byte candidate = true.

Lemma env_or_empty_is t name value : value <> "" -> env_or_empty t name = value -> tool_env t name = Some value.
Proof. intros Hne. unfold env_or_empty. destruct (tool_env t name); cbn; congruence. Qed.

Lemma validate_full_sha_Ok sha kind :
  validate_full_sha sha kind = Ok tt -> len sha = 40 /\ all_bytes sha_byte sha = true.
Proof.
  unfold validate_full_sha. destruct (_ || _) eqn:Hb; [done|]. intros _.
  apply orb_false_iff in Hb as [Hl%negb_false_iff Hc%negb_false_iff]. split; [by apply Z.eqb_eq|done].
Qed.

Lemma verified_identity_Ok t candidate control_plane identity :
  verified_identity t candidate control_plane = Ok identity ->
  admitted_run t candidate control_plane /\ identity = mk_identity candidate candidate.
Proof.
  unfold verified_identity. intros ([] & Hrun & Hid)%result_bind_Ok.
  unfold identity_new in Hid. apply result_bind_Ok in Hid as ([] & Hsha%validate_full_sha_Ok & Hid).
  apply result_bind_Ok in Hid as ([] & _ & Hid). case_bool_decide as Heq; [|done]. cbn [negb] in Hid.
  injection Hid as <-. subst control_plane. split; [|done].
  unfold verify_canonical_runtime in Hrun. destruct (_ || _) eqn:Hb; [done|]. clear Hrun.
  repeat (apply orb_false_iff in Hb as [Hb Hlast]; apply negb_false_iff, bool_decide_eq_true_1 in Hlast;
          let H := fresh "Henv" in rename Hlast into H).
  apply negb_false_iff, bool_decide_eq_true_1 in Hb.
  assert (candidate <> "") as Hne by (intros ->; destruct Hsha as [[=] _]).
  unfold admitted_run. split_and!; try (by destruct Hsha); try done; by apply env_or_empty_is.
Qed.

Section Tool.
Context `{!UuidText} `{!Base64Encode} {W P : Type} `{!DeploymentBackend W} `{!VultrHttp P} `{!VultrCodec}.
Context (others : Others W) (t : ToolRun).

Definition command_candidate (c : LifecycleCommand) : string :=
  match c with
  | ToolOpen candidate _ _ | ToolVerifyTarget candidate _ | ToolClose candidate _ => candidate
  end.
Definition command_control_plane (c : LifecycleCommand) : string :=
  match c with
  | ToolOpen _ control_plane _ | ToolVerifyTarget _ control_plane | ToolClose _ control_plane => control_plane
  end.

(** What a command may have asked the provider to change. *)
Definition changes_of (c : LifecycleCommand) (calls : list Call) : Prop :=
  match c with
  | ToolOpen _ _ _ => calls = [] \/ exists p, calls = [CallCreate p]
  | ToolVerifyTarget _ _ => calls = []
  | ToolClose _ _ => calls = [] \/ exists target, calls = [CallDelete target]
  end.

Lemma silent_item20_target identity binding :
  silent (S := W) (SE := BindingStoreError.t) (PE := VultrClientError) (P := P)
    (verified_item20_target identity binding).
Proof.
  unfold verified_item20_target, list_instances.
  apply silent_then; [apply silent_lift|intros desired]. destruct (negb _); [apply silent_bail|].
  apply silent_then; [apply silent_provider|intros observed].
  apply silent_then; [apply silent_lift|intros []]; first [apply silent_bail|apply silent_pure].
Qed.

Lemma silent_evidence e : silent (S := W) (P := P) (write_evidence t e).
Proof. by intros w r w' [= _ <-]. Qed.

(** What ends a command asks for no change. *)
Lemma calls_end {A B} (m : World W P -> result A _ * World W P) (k : A -> World W P -> result B _ * World W P) w r w' :
  (forall a, silent (S := W) (P := P) (SE := BindingStoreError.t) (PE := VultrClientError) (k a)) ->
  then_ m k w = (r, w') -> exists r1 w1, m w = (r1, w1) /\ w_calls w' = w_calls w1.
Proof.
  intros Hk [(e & He & _)|(a & w1 & Ha & Hr)]%then_inv; [by eexists _, w'|].
  eexists _, w1. split; [done|]. by eapply Hk.
Qed.

(** A command acts only for the protected main branch.  A run that does not come
    from the canonical repository's protected main branch, at the commit that is
    both candidate and control plane, fails before the ledger or the provider is
    asked anything and leaves them as they are; an admitted run asks the provider
    for at most one change, which is a creation when it opens and a deletion when
    it closes, and for none when it only verifies. *)
Theorem session_tool_runs_on_protected_main c w r w' :
  tool_main others t c w = (r, w') ->
  (is_ok r = false /\ w' = w)
  \/ admitted_run t (command_candidate c) (command_control_plane c)
     /\ exists calls, w_calls w' = (w_calls w ++ calls)%list /\ changes_of c calls.
Proof.
  assert (forall A (pre : result A _) (k : A -> World W P -> _ * World W P),
    before pre k w = (r, w') -> (is_ok r = false /\ w' = w) \/ exists a, pre = Ok a /\ k a w = (r, w')) as Hpre.
  { intros A pre k. unfold before. destruct pre as [a|e]; [right; eauto|]. intros [= <- <-]. by left. }
  destruct c as [candidate control_plane key|candidate control_plane|candidate control_plane]; cbn [tool_main];
    (intros [?|([] & Hbefore & Hrun)]%Hpre; [by left|right]);
    apply result_bind_Ok in Hbefore as (identity & Hid%map_err_Ok%verified_identity_Ok & Hbefore);
    (split; [apply Hid|]); cbn [changes_of].
  - apply result_bind_Ok in Hbefore as (public_key & _ & Hbefore).
    apply result_bind_Ok in Hbefore as (store & _ & [= <- <-]).
    apply calls_end in Hrun as (r1 & w1 & Hopen & ->).
    2: { intros opened. apply silent_then; [apply silent_item20_target|intros _; apply silent_evidence]. }
    unfold open_item20_session in Hopen. apply then_inv in Hopen as [(e & He & _)|(desired & w2 & H2 & Hopen)].
    + apply silent_lift in He as ->. exists []. rewrite app_nil_r. eauto.
    + apply silent_lift in H2 as <-. apply open_desired_calls in Hopen as [->|(p & -> & _)].
      * exists []. rewrite app_nil_r. eauto.
      * eauto.
  - exists []. rewrite app_nil_r. split; [|done]. destruct p as [identity' store].
    revert Hrun. apply silent_then; [apply silent_read|intros state].
    destruct state; try apply silent_bail.
    apply silent_then; [apply silent_item20_target|intros _; apply silent_evidence].
  - apply calls_end in Hrun as (r1 & w1 & Hclose & ->); [|intros outcome; apply silent_evidence].
    unfold close_item20_session in Hclose. apply then_inv in Hclose as [(e & He & _)|(desired & w2 & H2 & Hclose)].
    + apply silent_lift in He as ->. exists []. rewrite app_nil_r. eauto.
    + apply silent_lift in H2 as <-. apply close_desired_calls in Hclose as [[-> _]|(binding & target & answer & w4 & _ & -> & _)].
      * exists []. rewrite app_nil_r. eauto.
      * eauto.
Qed.
End Tool.
