(* ===== verification/OperatorDemo.v ===== *)
(** * Concrete runs of the operator's ledger and adapter *)

From stdpp Require Import base gmap strings list fin_maps.
From Stdlib Require Import ZArith Lia Ascii String.
From S2P Require Import Prelude Text NetText Foundation ProviderLifecycle ProviderCreateDispatch.
From S2P Require Import BindingLedger BindingLedgerTheorems VultrAdapter SessionLifecycle.
From S2P Require Import SessionTheorems VultrClient.
Local Open Scope string_scope.
Local Open Scope Z_scope.

Module DemoLedger.
Import Concrete.

(** A service that keeps payloads and numbers them from one. *)
Definition record_at (sha : string) (i : nat) (p : Payload.t) : Record_ :=
  DeploymentRecord.mk (Z.of_nat i + 1) sha sha DEPLOYMENT_TASK DEPLOYMENT_ENVIRONMENT p.

Definition records (sha : string) (w : list Payload.t) : list Record_ := imap (record_at sha) w.

#[global] Instance memory_backend : DeploymentBackend (list Payload.t) := {
  list_records sha w := Ok (rev (records sha w));
  append_record r w :=
    (Ok (record_at (new_candidate_sha r) (List.length w) (new_payload r)), (w ++ [new_payload r])%list);
}.

Lemma records_snoc sha w p :
  records sha (w ++ [p]) = (records sha w ++ [record_at sha (List.length w) p])%list.
Proof. unfold records. rewrite imap_app. cbn. by rewrite Nat.add_0_r. Qed.

Lemma records_increasing sha w :
  increasing (records sha w) /\ Forall (fun r => rid r < Z.of_nat (List.length w) + 1) (records sha w).
Proof.
  induction w as [|p w [Hi Hf]] using rev_ind; [split; constructor|].
  rewrite records_snoc, length_app. cbn [List.length]. split.
  - by apply increasing_snoc.
  - apply Forall_app. split; [|apply Forall_singleton; cbn; lia].
    eapply Forall_impl; [exact Hf|]. cbn. lia.
Qed.

#[global] Instance memory_laws : DeploymentLaws (list Payload.t).
Proof.
  refine {| contents := records |}.
  - intros sha w. apply records_increasing.
  - intros sha w rs [= <-]. symmetry. apply Permutation_rev.
  - intros r w created w' [= <- <-]. split; [apply records_snoc|done].
Defined.

Definition sha : string := "0123456789abcdef0123456789abcdef01234567".
Definition intent : OwnershipIntent.t :=
  OwnershipIntent.mk Acceptance (namespace_intent_id Item19 sha).
Definition store : BindingStore := mk_store sha intent.
Definition nobody : Others (list Payload.t) := mk_others (fun w => w) (fun w => w).

Example store_opens : new_with_namespace "token" sha Item19 = Ok store.
Proof. reflexivity. Qed.

(** A first operator prepares a creation. *)
Definition prepared : result Update BindingStoreError.t * list Payload.t :=
  operate nobody store intent (Ok tt) update_prepare_create [].

Lemma ledger_update_is_atomic_witness :
  exists created after,
    List.filter (own intent) (records sha (snd prepared)) = [created]
    /\ current_state store intent (snd prepared) = Ok after
    /\ phase after = CreatePrepared Generation.INITIAL.
Proof.
  destruct (ledger_update_is_atomic nobody store intent (Ok tt) update_prepare_create []
    (snd prepared) (mk_update PrepareCreate Generation.INITIAL None None
       (CreatePrepared Generation.INITIAL))) as (b & created & after & _ & _ & _ & Hrecords & Hafter & Hphase).
  - intros w. by split.
  - reflexivity.
  - exists created, after. by split.
Defined.

(** The same creation as a race that one operator takes part in. *)
Definition create_update : Update :=
  mk_update PrepareCreate Generation.INITIAL None None (CreatePrepared Generation.INITIAL).
Definition created : Record_ := record_at sha 0 (update_payload store empty_ledger create_update).

Lemma one_operator_is_told_witness :
  told_of PrepareCreate (mk_race [created] ∅ [(created, create_update)]) = [created]
  /\ (List.length (told_of PrepareCreate (mk_race [created] ∅ [(created, create_update)])) <= 1)%nat.
Proof.
  split; [reflexivity|]. apply (one_operator_is_told store); [|discriminate].
  eapply RaceThen; [eapply RaceThen; [eapply RaceThen; [apply (RaceStart store []); constructor|]|]|].
  - apply (RaceRead store [] ∅ [] 0%nat RequestCreate empty_ledger create_update); [reflexivity| |reflexivity].
    exists []. by split.
  - apply (RaceAppend store [] _ [] 0%nat empty_ledger create_update created);
      [reflexivity|constructor|reflexivity].
  - rewrite insert_insert_eq. change (@empty (gmap nat Pending) _) with (delete 0%nat
      (<[0%nat := WantsVerify created create_update]> ∅ : gmap nat Pending)).
    apply (RaceTold store [created] _ [] 0%nat created create_update
             (mk_ledger_state (Some 1) (CreatePrepared Generation.INITIAL))); try reflexivity.
    exists [created]. by split.
Defined.

#[global] Instance paged : GitHubApi (list Record_) := {
  get_page _ page w := Reply 200 (Some (take PAGE_SIZE (drop (PAGE_SIZE * (page - 1)) w)));
  post_deployment _ w := (NoReply, w);
}.

Lemma ledger_listing_is_complete_witness : list_records (W := list Record_) sha [created] = Ok [created].
Proof.
  apply (ledger_listing_is_complete sha [created] [created]).
  intros page. cbn [get_page paged]. by replace (S page - 1)%nat with page by lia.
Defined.
End DemoLedger.

Module DemoVultr.
Import Concrete.

Definition plan_of_record : PlannedCreate.t :=
  PlannedCreate.mk (OwnershipIntent.mk Acceptance "candidate:0123456789abcdef") Generation.INITIAL.
Definition spec : VultrVmSpec := mk_spec "waw" "vc2-1c-2gb" 2284 "mobile-proxy-acceptance".

Lemma ownership_tags_roundtrip_witness :
  decode_ownership (encode_ownership (PlannedCreate.ownership plan_of_record) ++ ["team=proxy"])
  = Ok (Exact (PlannedCreate.ownership plan_of_record)).
Proof.
  refine (proj1 (ownership_tags_roundtrip (PlannedCreate.ownership plan_of_record) ["team=proxy"] _ _)).
  - cbn. split; [lia|discriminate].
  - repeat constructor.
Defined.

Lemma created_machine_is_managed_witness :
  path (delete_request (VerifiedMutationTarget.mk (ProviderResourceId.mk "11")
    (PlannedCreate.intent plan_of_record) Generation.INITIAL)) = "/v2/instances/11".
Proof.
  destruct (created_machine_is_managed plan_of_record spec 3%N (ProviderResourceId.mk "11") [] "11" ""
    MDelete) as (vm & _ & _ & _ & _ & Hpath); [cbn; split; [lia|discriminate]|constructor|reflexivity..|].
  exact Hpath.
Defined.

Lemma acceptable_addresses_witness :
  is_acceptable_public_ipv4 [203; 0; 114; 7] = true /\ is_acceptable_public_ipv4 [203; 0; 113; 7] = false.
Proof.
  split; (rewrite acceptable_addresses; [reflexivity|repeat (constructor; [lia|]); constructor]).
Defined.
End DemoVultr.

Module DemoSession.
Import Concrete DemoLedger.

(** A provider that shows what it was asked to create. *)
#[global] Instance demo_provider : AcceptanceProvider (list ObservedVm.t) unit := {
  pr_list_instances p := (Ok p, p);
  pr_create_instance plan spec _ p :=
    let vm := ObservedVm.mk (ProviderResourceId.mk "1") (label spec)
                (Exact (PlannedCreate.ownership plan)) (fingerprint spec) in
    (Ok vm, (p ++ [vm])%list);
  pr_instance_ipv4 _ p := (Ok 0, p);
  pr_delete_instance target p :=
    (Ok tt, List.filter (fun vm => negb (bool_decide
       (ObservedVm.provider_id vm = VerifiedMutationTarget.provider_id target))) p);
}.

Definition identity : Item20SessionIdentity := mk_identity sha sha.
Definition item20 : BindingStore :=
  mk_store sha (OwnershipIntent.mk Acceptance (namespace_intent_id Item20 sha)).

#[global] Instance demo_store : LifecycleStore (list Payload.t) BindingStoreError.t :=
  ledger_store nobody item20.

Definition start : World (list Payload.t) (list ObservedVm.t) := mk_world [] [] [].
Definition opened := open_item20_session identity "" start.
Definition closed := close_item20_session identity (snd opened).

Lemma open_creates_behind_the_fence_witness :
  is_ok (fst opened) = true /\ List.length (w_calls (snd opened)) = 1%nat
  /\ (w_calls (snd opened) = []
      \/ exists desired p, desired_vm identity = Ok desired /\ w_calls (snd opened) = [CallCreate p]
         /\ create_fenced (DesiredVm.intent desired) p).
Proof.
  split; [vm_compute; reflexivity|]. split; [vm_compute; reflexivity|].
  exact (open_creates_behind_the_fence identity "" start (fst opened) (snd opened)
           (surjective_pairing opened)).
Defined.

Lemma close_deletes_behind_the_fence_witness :
  List.length (w_calls (snd closed)) = 2%nat
  /\ (match fst closed with Ok DeletedAndTerminal => true | _ => false end) = true
  /\ exists desired, desired_vm identity = Ok desired /\ closes desired (snd opened) (fst closed) (snd closed).
Proof.
  split; [vm_compute; reflexivity|]. split; [vm_compute; reflexivity|].
  destruct (close_deletes_behind_the_fence identity (snd opened) (fst closed) (snd closed)
              (surjective_pairing closed)) as [[_ Hfailed]|Hcloses]; [|exact Hcloses].
  vm_compute in Hfailed. discriminate Hfailed.
Defined.
End DemoSession.
